(* ===== verification/_CoqProject ===== *)
-Q . S2P
Prelude.v
Gf2.v
HammTables.v
Hamm.v
HammGen.v
Bcd.v
Misc.v
Pil.v
Vps.v
CTime.v
Packet830.v
Pdc.v
PdcTz.v
Wss.v
Sliced.v
Idl.v
Pfc.v
Xds.v
PageTable.v
Dlist.v
Cache.v
CacheInv.v
CacheClient.v
SlicedFilter.v
Event.v
Handlers.v
Double.v
BitSlicer.v
SlicerBounds.v
SlicerBits.v
Services.v
SamplingPar.v
RawDecoder.v
Permit.v
RawLines.v
RawPattern.v
RawDecoderInv.v
Format.v
Lang.v
Cc608Format.v
Cc608.v
Cc608Rows.v
Cc608Ops.v
Cc608Inv.v
Cc608Rel.v
Cc608Captions.v
DvbMux.v
DvbDemux.v
DvbPes.v
DvbTs.v
DvbGen.v
DvbLink.v
