(* ===== verification/Prelude.v ===== *)
(** * A verification library for libzvbi

    libzvbi captures, decodes and re-encodes the data in the vertical blanking
    interval of analogue television: Teletext, programme labels (VPS, PDC), wide
    screen signalling, Closed Caption and the data services carried in Teletext and
    caption packets, also as transported in DVB streams. Captured video lines become
    sliced lines ([vbi_sliced]); demultiplexers and decoders take these, keep state
    from line to line and call a client when a packet, block or event is complete;
    encoders do the reverse. The library below models how video lines are sliced, the
    decoders and encoders between the sliced lines and the clients and the error
    protection they share.

    ** Files and sources

    Source files are below [src/src/]. A definition has the name of the C function,
    type, macro or table it models; parts of long functions that are definitions of
    their own (loops, cases of a switch) are named for what they do.

    - [Prelude] (this file): machine integers, tables, checked array accesses,
      stores, lists of bytes, bit-level tactics and hints.
    - [Gf2]: linearity over bits, used to check codes on bit vectors instead of on
      all words.
    - [HammTables], [Hamm]: [hamm-tables.h], [hamm.h], [hamm.c]: parity, bit
      reversal, Hamming 8/4 and 24/18 codes. [HammGen]: [hammgen.c], the generator of
      the tables.
    - [Bcd]: [bcd.h], packed decimal numbers. [Misc]: [misc.c], bit count, bounded
      string copy, keyword lookup, vector capacities.
    - [Pil]: [pdc.h] and the parser of [pdc.c], programme identification labels.
      [Vps]: [vps.c], labels in VPS lines and DVB descriptors. [Packet830]:
      [packet-830.c], labels and local time in Teletext packet 8/30.
    - [CTime], [Pdc], [PdcTz]: the rest of [pdc.c]: calendar conversions, the time a
      label stands for, validity windows, with a time zone offset and with a named
      zone that is switched through the process environment.
    - [Wss]: [wss.c], wide screen signalling with its repetition counter and events.
    - [Sliced]: [sliced.h]. [Idl]: [idl_demux.c], Independent Data Lines. [Pfc]:
      [pfc_demux.c], Page Function Clear blocks. [Xds]: [xds_demux.c], interleaved
      Extended Data Service packets.
    - [Dlist]: [dlist.h], circular doubly linked lists on a heap of nodes.
      [Cache]: [cache.c] and [cache-priv.h], the Teletext page cache: networks, pages,
      references, the memory limit. [CacheInv]: the invariant of the cache and that
      every operation keeps it. [CacheClient]: the cache as its clients use it.
    - [PageTable]: [page_table.c], sets of Teletext pages. [SlicedFilter]:
      [sliced_filter.c], which passes the sliced lines of selected pages and lines.
    - [Event]: [event.c], lists of event handlers that callbacks may change.
      [Handlers]: the handler list of the service decoder in [vbi.c], with its mutex.
    - [Double]: floating point numbers, with bounds for sums, products and quotients.
      [BitSlicer]: [bit_slicer.c], [bit_slicer.h]: the bits of a video line.
      [SlicerBounds]: what it reads and writes. [SlicerBits]: which bits it delivers.
      [Services]: the table of data services in [raw_decoder.c]. [SamplingPar]:
      [sampling_par.c], which services given sampling parameters permit and which
      parameters services need. [RawDecoder]: [raw_decoder.c], the lines of an image, with
      the pattern of services tried on each. [Permit]: permitted services have slicers.
      [RawLines], [RawPattern], [RawDecoderInv]: decoding an image, the lines of a
      service, all operations.
    - [Format]: the parts of [format.h] the files below use. [Lang]: [lang.c], [lang.h],
      the character sets of Teletext and Closed Caption.
    - [Cc608Format], [Cc608]: [cc608_decoder.c], the Closed Caption decoder with display
      and transcript events: the channels and how a page is formatted; the control codes
      and feeding. [Cc608Rows], [Cc608Ops], [Cc608Inv]: the invariant, for buffers,
      operations on a channel and the decoder. [Cc608Rel]: two runs side by side.
      [Cc608Captions]: a caption from the first code to the screen.
    - [DvbMux]: the data unit encoder and stuffing of [dvb_mux.c]. [DvbDemux]: the
      data unit decoder of [dvb_demux.c]. [DvbPes], [DvbTs]: the PES and TS layers of
      [dvb_demux.c] with their wrap-around buffer. [DvbGen]: the PES and TS generator
      and the raw data units of [dvb_mux.c]. [DvbLink]: both sides together.

    [Hamm] serves [Packet830], [Idl], [Pfc], [Xds], [SlicedFilter] and the DVB files;
    [Pil] serves [Vps], [Packet830] and [Pdc]; [PageTable] serves [SlicedFilter];
    [Format], [Lang], [Hamm] and [Event] serve [Cc608]; [BitSlicer] and [SamplingPar]
    serve [RawDecoder], whose output [Sliced] lines all decoders take;
    [Dlist] is why a list in [Cache] or [Event] may be a list of addresses; [Cache]
    uses [Bcd] for page numbers and is proved in [CacheInv] and [CacheClient];
    [DvbDemux] is proved against what [DvbMux] writes and [DvbTs] against what
    [DvbGen] generates.

    ** How the code is modelled

    An [int] or [unsigned int] is a [Z]; [u8], [u16], [u32], [s8], [s32] are the
    conversions where C converts and a value can leave its range. Bit operators are
    those of [Z]. A C structure is a [Record]; a function that changes one returns the
    new record. An array is a list; [tbl] (written [b.[i]]) reads tables and arrays at
    indices that are constants or masked, [rd], [wr] and [store] read and write at
    computed indices and are [None] outside of the array. A function with such an
    access returns an [option]: [None] is C's undefined behaviour, and the safety
    theorems show when it cannot occur, and name the inputs where it does. Pointers into a buffer are offsets; a pointer
    that walks to the end of a packet is the list of the bytes left.

    A client callback is a function on a state of the client of any type, returning
    the new state and its result; the theorems quantify over it, or instantiate it
    with a recorder. Callbacks that call back into the component ([Event], [Handlers])
    are sequences of calls, and the C stack is a stack of pending work in the state of
    a machine, so that the loop over the handlers sees what its callbacks did.
    Functions of the C library whose result the sources do not
    determine are parameters: the current time, [localtime_r], [mktime] and memory
    running out in [PdcTz], the sizes of structures and the addresses [malloc] returns
    in [Cache] (a fresh address, or none). [gmtime_r] and [timegm] are defined on the
    Gregorian calendar, [double] is the IEEE 754 arithmetic of SpecFloat.

    Loops are structural or carry fuel, and the fuel is the number of bytes or columns
    left, which every iteration reduces ([Pfc.decode_loop] 40 columns,
    [DvbDemux.extract_loop] the packet length, [DvbMux.stuffing_loop] the bytes left,
    the loops of [DvbPes] and [DvbTs] one more than the bytes of the buffer they are
    fed, [DvbGen.raw_loop] the samples left, the loops of the multiplexer's coroutine the
    bytes of the client's buffer, the list walks of [Dlist] the nodes of the heap, the
    searches of [BitSlicer] for the clock run-in the bytes of the line, the loop of
    [RawDecoder] over the ways of a line their number): the
    theorems that a function returns show that it is enough. The walk over all pages of
    a network in [Cache] has no bound: [CacheClient] has an input where it never ends.

    ** What the theorems show

    - Codes: single bit errors are corrected and double errors reported; the checked-in
      tables are those the generator computes; carries decide the decimal tests.
    - Labels: encode/decode round trips for VPS, DVB descriptors, packet 8/30 and the
      text form, with errors exactly for values out of range; the decoders of packet
      8/30 correct transmission errors; times and windows of a label in closed form;
      zone switching restores the environment on every path.
    - Demultiplexers: no input makes them leave their arrays ([Idl], [Pfc], [DvbDemux]),
      or exactly which input does ([Xds]); a packet that is transmitted correctly is
      delivered once, with its data ([Idl]: if it needs no dummy bytes); [Pfc] refines a byte machine and [Xds] a machine of
      interleaved packets, both without buffers.
    - DVB: what the multiplexer stores, where it stops and why; the demultiplexer
      returns the lines that were multiplexed, stuffing and raw samples included. How a
      PES or TS stream is cut into buffers changes nothing, and the wrap-around buffer
      refines a machine on streams; from the sliced lines a client gives the generator
      to the lines the demultiplexer delivers, through transport packets, nothing is
      lost or changed.
    - Page sets: adding and removing are union and difference. The filter delivers the
      lines of selected pages, in place or copied, and its coroutine is its function.
    - Handler lists: callbacks that add and remove handlers, themselves included, while
      an event is delivered, never leave a dangling pointer, and every handler that
      stays registered gets each event once.
    - Raw video: a line is sliced inside its memory, two or 17 samples behind it included;
      the bits delivered are those the signal has where the clock run-in says; a service
      that the floating point test permits passes the integer tests of the slicer; whatever
      a client does with a decoder, with sampling parameters in the range of the slicer, no
      access leaves the image, the pattern or the jobs;
      an image gives the lines on which a job finds data, in order, and the lines keep
      their jobs.
    - Closed Caption: whatever bytes are received, no row or column is left, pages can be
      fetched at any time and show the displayed buffer, a client that looks when it is
      told to is up to date, the fields are independent, repeated codes have no effect,
      and a pop-on caption appears as it was transmitted.
    - Lists and cache: operations on nodes are operations on lists. Whatever sequence
      of calls a client makes, replacements that go wrong apart, pages and networks it holds a reference to stay in
      memory, the counters agree with the lists, and a page stored is the page found.
    - Lemmas named in the findings of the manifest evaluate the models on inputs where
      the code does not do what it means to, for example [Xds.xds_writes_behind_buffer]
      or [Pfc.pfc_reads_behind_packet].

    ** Not modelled

    Remaining: the dispatch of the service decoder, its own caption decoder
    [caption.c], the Teletext packet decoder, formatter and search. Left
    out: allocation and deallocation of contexts, logging and dumps, the older interface
    to the raw decoder and older bit slicer in [decoder.c], capture devices, their
    simulation and the proxy (input/output),
    conversion through iconv, export modules, third-party and generated files. *)
From Stdlib Require Export ZArith Lia Bool List.
From stdpp Require Export base numbers list option.
#[global] Open Scope Z_scope.

(** ** C integers *)

Declare Scope zvbi_scope.
Delimit Scope zvbi_scope with zvbi.
#[global] Open Scope zvbi_scope.

(** The C operators on integers; they bind tighter than [+] and looser than
    [*], so the models parenthesise where C does. *)
Notation "a .& b" := (Z.land a b) (at level 46, left associativity) : zvbi_scope.
Notation "a .^ b" := (Z.lxor a b) (at level 47, left associativity) : zvbi_scope.
Notation "a .| b" := (Z.lor a b) (at level 48, left associativity) : zvbi_scope.

(** Conversions to a machine type: unsigned ones reduce modulo [2^w], signed
    ones wrap to two's complement as gcc defines them. *)
Definition u8 (x : Z) : Z := x mod 2 ^ 8.
Definition u16 (x : Z) : Z := x mod 2 ^ 16.
Definition u32 (x : Z) : Z := x mod 2 ^ 32.
Definition s8 (x : Z) : Z := (x + 2 ^ 7) mod 2 ^ 8 - 2 ^ 7.
Definition s32 (x : Z) : Z := (x + 2 ^ 31) mod 2 ^ 32 - 2 ^ 31.

Definition is_byte (x : Z) : Prop := 0 ≤ x < 256.
#[export] Instance is_byte_dec x : Decision (is_byte x).
Proof. unfold is_byte. apply _. Defined.
Abbreviation bytes := (Forall is_byte).

(** A read of a constant table, or of a fixed size array parameter at an index
    the C code keeps inside the array. *)
Definition tbl (l : list Z) (i : Z) : Z := nth (Z.to_nat i) l 0.
Notation "b .[ i ]" := (tbl b i) (at level 1, left associativity, format "b .[ i ]") : zvbi_scope.

Ltac tbl_simpl :=
  repeat match goal with |- context [tbl (?x :: ?l) ?i] =>
    let v := eval cbv [tbl nth Z.to_nat Pos.to_nat Pos.iter_op Nat.add] in (tbl (x :: l) i) in
    change (tbl (x :: l) i) with v
  end.

(** A read or write of an array whose index is computed: [None] is the C
    undefined behaviour of an access out of bounds. *)
Definition rd {A} (l : list A) (i : Z) : option A :=
  if decide (0 ≤ i) then l !! Z.to_nat i else None.
Definition wr {A} (l : list A) (i : Z) (x : A) : option (list A) :=
  if decide (0 ≤ i < Z.of_nat (length l)) then Some (<[Z.to_nat i := x]> l) else None.

(** Stores consecutive elements from index [i] on. *)
Definition store {A} (l : list A) (i : Z) (xs : list A) : option (list A) :=
  if decide (0 ≤ i ∧ i + Z.of_nat (length xs) ≤ Z.of_nat (length l))
  then Some (take (Z.to_nat i) l ++ xs ++ drop (Z.to_nat i + length xs) l) else None.

(** Evaluates products, powers, sums and differences of numerals. *)
Ltac const_step op a b :=
  lazymatch a with Z0 => idtac | Zpos _ => idtac | Zneg _ => idtac end;
  lazymatch b with Z0 => idtac | Zpos _ => idtac | Zneg _ => idtac end;
  let r := eval vm_compute in (op a b) in change (op a b) with r.
Ltac simpl_const :=
  repeat match goal with
  | |- context [Z.mul ?a ?b] => const_step Z.mul a b
  | |- context [Z.pow ?a ?b] => const_step Z.pow a b
  | |- context [Z.add ?a ?b] => const_step Z.add a b
  | |- context [Z.sub ?a ?b] => const_step Z.sub a b
  end.

(** ** Finite checks *)

Lemma forallb_seqZ (n : Z) (P : Z → bool) :
  forallb P (seqZ 0 n) = true → ∀ i, 0 ≤ i < n → P i = true.
Proof.
  intros H i Hi. rewrite forallb_forall in H. apply H.
  apply list_elem_of_In, elem_of_seqZ. lia.
Qed.

(** Proves [∀ i, 0 ≤ i < n → f i = g i] for a numeral [n] by evaluation. *)
Lemma eq_by_eval (n : Z) (f g : Z → Z) :
  forallb (λ i, f i =? g i) (seqZ 0 n) = true → ∀ i, 0 ≤ i < n → f i = g i.
Proof. intros H i Hi. apply Z.eqb_eq, (forallb_seqZ n _ H i Hi). Qed.

(** ** Masks and shifts as arithmetic *)

Lemma land_mask (x n k : Z) :
  0 ≤ n → 0 ≤ k → x .& (Z.ones n ≪ k) = (x / 2 ^ k) mod 2 ^ n * 2 ^ k.
Proof.
  intros. rewrite <-Z.land_ones, <-Z.shiftr_div_pow2, <-Z.shiftl_mul_pow2 by lia.
  apply Z.bits_inj'. intros i Hi. rewrite Z.land_spec, !Z.shiftl_spec by lia.
  destruct (decide (i < k)).
  - rewrite !(Z.testbit_neg_r _ (i - k)), andb_false_r by lia. done.
  - rewrite Z.land_spec, Z.shiftr_spec by lia. f_equal. f_equal. lia.
Qed.

Lemma lor_add (a b k : Z) : 0 ≤ k → 0 ≤ a < 2 ^ k → a .| (b * 2 ^ k) = a + b * 2 ^ k.
Proof.
  intros Hk Ha. symmetry. rewrite <-Z.lxor_lor; [apply Z.add_nocarry_lxor|];
  (apply Z.bits_inj'; intros i Hi; rewrite Z.land_spec, Z.bits_0;
   destruct (decide (i < k)); [rewrite Z.mul_pow2_bits_low by lia; apply andb_false_r|];
   rewrite <-(Z.mod_small a (2 ^ k)), Z.mod_pow2_bits_high by lia; done).
Qed.

Lemma testbit_small (x n i : Z) : 0 ≤ x < 2 ^ n → n ≤ i → Z.testbit x i = false.
Proof.
  intros Hx Hi. destruct (decide (0 ≤ n)).
  - rewrite <-(Z.mod_small x (2 ^ n)) by lia. apply Z.mod_pow2_bits_high. lia.
  - rewrite Z.pow_neg_r in Hx by lia. lia.
Qed.

Lemma lxor_bound (n a b : Z) : 0 ≤ n → 0 ≤ a < 2 ^ n → 0 ≤ b < 2 ^ n → 0 ≤ a .^ b < 2 ^ n.
Proof.
  intros Hn Ha Hb. assert ((a .^ b) mod 2 ^ n = a .^ b) as H.
  { apply Z.bits_inj'. intros i Hi. destruct (decide (i < n)).
    - by rewrite Z.mod_pow2_bits_low by lia.
    - by rewrite Z.mod_pow2_bits_high, Z.lxor_spec, !(testbit_small _ n) by lia. }
  rewrite <-H. apply Z.mod_pos_bound. lia.
Qed.

(** ** Signed 32 bit values *)

Lemma s32_range x : -2 ^ 31 ≤ s32 x < 2 ^ 31.
Proof. unfold s32. pose proof (Z.mod_pos_bound (x + 2 ^ 31) (2 ^ 32)). lia. Qed.

Lemma s32_small x : -2 ^ 31 ≤ x < 2 ^ 31 → s32 x = x.
Proof. intros. unfold s32. rewrite Z.mod_small by lia. lia. Qed.

Lemma s32_mod x : s32 x mod 2 ^ 32 = x mod 2 ^ 32.
Proof. unfold s32. by rewrite Zminus_mod_idemp_l, Z.add_simpl_r. Qed.

Lemma s32_testbit x i : 0 ≤ i < 32 → Z.testbit (s32 x) i = Z.testbit x i.
Proof.
  intros. rewrite <-(Z.mod_pow2_bits_low (s32 x) 32 i), s32_mod by lia.
  apply Z.mod_pow2_bits_low. lia.
Qed.

(** The sign of an [int] is its most significant bit. *)
Lemma sign_testbit x : -2 ^ 31 ≤ x < 2 ^ 31 → x < 0 ↔ Z.testbit x 31 = true.
Proof.
  intros Hx. rewrite Z.testbit_true by lia. split; intros H.
  - by rewrite <-(Z.div_unique_pos x (2 ^ 31) (-1) (x + 2 ^ 31)) by lia.
  - destruct (decide (x < 0)); [done|]. by rewrite Z.div_small in H by lia.
Qed.

(** A test of a single bit. *)
Lemma land_pow2_eqb x k : 0 ≤ k → (x .& 2 ^ k =? 0) = negb (Z.testbit x k).
Proof.
  intros Hk. replace (2 ^ k) with (Z.ones 1 ≪ k) by (rewrite Z.shiftl_mul_pow2 by done; apply Z.mul_1_l).
  rewrite land_mask by lia.
  pose proof (Z.testbit_spec' x k Hk) as H. change (2 ^ 1) with 2. rewrite <-H.
  destruct (Z.testbit x k); cbn [Z.b2z negb].
  - apply Z.eqb_neq. lia.
  - done.
Qed.

(** An [or] of values is negative when one of them is. *)
Lemma lor_neg a b : a .| b < 0 ↔ a < 0 ∨ b < 0.
Proof. pose proof (Z.lor_nonneg a b). lia. Qed.

(** ** Carries *)

(** The carry into bit [k] of a sum is what differs from the exclusive or. *)
Definition carry (x y k : Z) : bool := 2 ^ k <=? x mod 2 ^ k + y mod 2 ^ k.

Lemma carry_testbit x y k :
  0 ≤ k → Z.testbit ((x + y) .^ x .^ y) k = carry x y k.
Proof.
  intros Hk. rewrite !Z.lxor_spec, !Z.testbit_odd, !Z.shiftr_div_pow2 by done.
  assert (0 < 2 ^ k) by lia.
  assert ((x + y) / 2 ^ k = x / 2 ^ k + y / 2 ^ k + Z.b2z (carry x y k)) as ->.
  { unfold carry. pose proof (Z.mod_pos_bound x (2 ^ k)). pose proof (Z.mod_pos_bound y (2 ^ k)).
    rewrite (Z.div_mod x (2 ^ k)) at 1 by lia. rewrite (Z.div_mod y (2 ^ k)) at 1 by lia.
    symmetry. destruct (Z.leb_spec (2 ^ k) (x mod 2 ^ k + y mod 2 ^ k)); cbn [Z.b2z].
    - apply (Z.div_unique_pos _ _ _ (x mod 2 ^ k + y mod 2 ^ k - 2 ^ k)); lia.
    - apply (Z.div_unique_pos _ _ _ (x mod 2 ^ k + y mod 2 ^ k)); lia. }
  rewrite !Z.odd_add. destruct (carry x y k), (Z.odd (x / 2 ^ k)), (Z.odd (y / 2 ^ k)); done.
Qed.

Lemma u32_testbit x i : 0 ≤ i < 32 → Z.testbit (u32 x) i = Z.testbit x i.
Proof. intros. apply Z.mod_pow2_bits_low. lia. Qed.
Lemma u32_small x : 0 ≤ x < 2 ^ 32 → u32 x = x.
Proof. intros. by apply Z.mod_small. Qed.
Lemma u32_range x : 0 ≤ u32 x < 2 ^ 32.
Proof. by apply Z.mod_pos_bound. Qed.

(** A mask, nibble by nibble. *)
Lemma land_nibble z m l :
  0 ≤ l < 16 → z .& (16 * m + l) = 16 * (z / 16 .& m) + (z mod 16 .& l).
Proof.
  intros Hl. change 16 with (2 ^ 4) in *.
  rewrite <-Z.shiftr_div_pow2, <-Z.land_ones by lia.
  rewrite (Z.add_comm _ l), (Z.add_comm _ (_ .& l)), !(Z.mul_comm (2 ^ 4)).
  assert (0 ≤ (z .& Z.ones 4) .& l < 2 ^ 4) as Hr.
  { rewrite <-Z.land_assoc. rewrite (Z.land_comm (Z.ones 4) l), Z.land_ones, Z.mod_small by lia.
    rewrite <-(Z.mod_small l (2 ^ 4)), <-Z.land_ones, Z.land_assoc, Z.land_ones by lia.
    apply Z.mod_pos_bound. lia. }
  rewrite <-!lor_add by lia. apply Z.bits_inj'. intros i Hi.
  rewrite Z.land_spec, !Z.lor_spec, !Z.land_spec. destruct (decide (i < 4)).
  - rewrite !Z.mul_pow2_bits_low, Z.ones_spec_low by lia.
    by rewrite !orb_false_r, andb_true_r.
  - rewrite !Z.mul_pow2_bits, Z.land_spec, Z.shiftr_spec, (testbit_small l 4) by lia.
    rewrite andb_false_r, Z.sub_add. done.
Qed.

Lemma land_1_testbit z k : 0 ≤ k → z / 2 ^ k mod 16 .& 1 = Z.b2z (Z.testbit z k).
Proof.
  intros Hk. change 1 with (Z.ones 1). rewrite Z.land_ones, Z.testbit_spec' by done.
  change 16 with (2 * 8). rewrite Z.rem_mul_r by done.
  rewrite Z.mul_comm, Z_mod_plus_full. by rewrite Z.mod_mod.
Qed.

Lemma land_byte z m l :
  0 ≤ l < 256 → z .& (256 * m + l) = 256 * (z / 256 .& m) + (z mod 256 .& l).
Proof.
  intros Hl. pose proof (Z.div_mod l 16 ltac:(lia)) as El.
  pose proof (Z.mod_pos_bound l 16 ltac:(lia)).
  replace (256 * m + l) with (16 * (16 * m + l / 16) + l mod 16) by lia.
  assert (0 ≤ l / 16 < 16) by (split; [apply Z.div_pos; lia|apply Z.div_lt_upper_bound; lia]).
  rewrite !land_nibble by lia. rewrite El at 3. rewrite land_nibble by lia.
  rewrite Z.div_div by lia. simpl_const.
  replace (z mod 256 / 16) with (z / 16 mod 16).
  2:{ change 256 with (16 * 16). rewrite Z.rem_mul_r by lia.
      rewrite Z.add_comm, Z.mul_comm, Z.div_add_l by lia.
      rewrite (Z.div_small (z mod 16)) by (apply Z.mod_pos_bound; lia). lia. }
  replace (z mod 256 mod 16) with (z mod 16); [lia|].
  change 256 with (16 * 16). rewrite Z.rem_mul_r by lia.
  rewrite (Z.mul_comm 16 (_ mod _)), Z_mod_plus_full. by rewrite Z.mod_mod.
Qed.

(** The number of bits set among the [n] lowest. *)
Fixpoint ones (n : nat) (x : Z) : Z :=
  match n with O => 0 | S n => x mod 2 + ones n (x / 2) end.

Lemma ones_app n m x : ones (n + m) x = ones n x + ones m (x / 2 ^ Z.of_nat n).
Proof.
  revert x. induction n as [|n IH]; intros x; cbn [Nat.add ones].
  - by rewrite Z.div_1_r.
  - rewrite IH, Z.div_div, Nat2Z.inj_succ, Z.pow_succ_r by lia. lia.
Qed.

Lemma ones_mod n x : ones n (x mod 2 ^ Z.of_nat n) = ones n x.
Proof.
  revert x. induction n as [|n IH]; intros x; cbn [ones]; [done|].
  rewrite Nat2Z.inj_succ, Z.pow_succ_r by lia.
  rewrite Z.rem_mul_r by lia. rewrite (Z.add_comm (x mod 2)), Z.mul_comm.
  rewrite Z.div_add_l, (Z.div_small (x mod 2)), Z.add_0_r by (try apply Z.mod_pos_bound; lia).
  rewrite IH. rewrite (Z.add_comm (_ * 2)), Z_mod_plus_full, Z.mod_mod by lia. lia.
Qed.

Lemma ones_range n x : 0 ≤ ones n x ≤ Z.of_nat n.
Proof.
  revert x. induction n as [|n IH]; intros x; cbn [ones]; [lia|].
  specialize (IH (x / 2)). pose proof (Z.mod_pos_bound x 2). lia.
Qed.

(** Disjoint sets of bits. *)
Lemma ones_lor n a b : a .& b = 0 → ones n (a .| b) = ones n a + ones n b.
Proof.
  revert a b. induction n as [|n IH]; intros a b H; cbn [ones]; [done|].
  assert (∀ k, 0 ≤ k → Z.testbit a k && Z.testbit b k = false) as Hk
    by (intros k Hk; rewrite <-Z.land_spec, H; apply Z.bits_0).
  assert (Z.testbit (a .| b) 0 = xorb (Z.testbit a 0) (Z.testbit b 0)) as E0.
  { rewrite Z.lor_spec. specialize (Hk 0 ltac:(lia)).
    destruct (Z.testbit a 0), (Z.testbit b 0); done. }
  rewrite <-!Z.bit0_mod, E0.
  replace ((a .| b) / 2) with ((a / 2) .| (b / 2)).
  - rewrite IH; [specialize (Hk 0 ltac:(lia));
      destruct (Z.testbit a 0), (Z.testbit b 0); cbn in *; try discriminate; lia|].
    rewrite <-!Z.div2_div. apply Z.bits_inj'. intros i Hi.
    rewrite Z.land_spec, !Z.div2_spec, !Z.shiftr_spec, Z.bits_0 by lia. apply Hk. lia.
  - change 2 with (2 ^ 1). rewrite <-!Z.shiftr_div_pow2 by lia. by rewrite Z.shiftr_lor.
Qed.

(** ** Arrays *)

(** Lengths of lists: [list_lia] computes them and leaves the rest to [lia]. *)
Create Rewrite HintDb zvbi_length.
#[export] Hint Rewrite @length_app @length_drop @length_take @length_insert @length_map
  @repeat_length : zvbi_length.
Ltac list_lia := autorewrite with zvbi_length in *; cbn [length] in *; lia.

Lemma wr_app {A} (l r : list A) (y x : A) i :
  i = Z.of_nat (length l) → wr (l ++ y :: r) i x = Some (l ++ x :: r).
Proof.
  intros ->. unfold wr. rewrite decide_True by (rewrite length_app; cbn [length]; lia).
  rewrite Nat2Z.id. f_equal. rewrite insert_app_r_alt, Nat.sub_diag by lia. done.
Qed.

Lemma rd_app {A} (l r : list A) (y : A) i :
  i = Z.of_nat (length l) → rd (l ++ y :: r) i = Some y.
Proof.
  intros ->. unfold rd. rewrite decide_True, Nat2Z.id by lia.
  by rewrite lookup_app_r, Nat.sub_diag by lia.
Qed.

Lemma store_app {A} (l m r xs : list A) i :
  i = Z.of_nat (length l) → length m = length xs → store (l ++ m ++ r) i xs = Some (l ++ xs ++ r).
Proof.
  intros -> Hm. unfold store. rewrite decide_True by (rewrite !length_app; lia).
  rewrite Nat2Z.id, take_app_length. do 3 f_equal.
  by rewrite <-Hm, app_assoc, <-length_app, drop_app_length.
Qed.

Lemma split_hole {A} (buf : list A) (p n : Z) :
  0 ≤ p → 0 ≤ n → p + n ≤ Z.of_nat (length buf) →
  ∃ pre hole post, buf = pre ++ hole ++ post ∧ p = Z.of_nat (length pre) ∧ n = Z.of_nat (length hole) ∧
    take (Z.to_nat p) buf = pre ∧ drop (Z.to_nat (p + n)) buf = post.
Proof.
  intros Hp Hn Hbuf.
  exists (take (Z.to_nat p) buf), (take (Z.to_nat n) (drop (Z.to_nat p) buf)), (drop (Z.to_nat (p + n)) buf).
  split_and!; try done; [|list_lia..]. rewrite Z2Nat.inj_add, <-drop_drop by lia. by rewrite !take_drop.
Qed.

Lemma rd_Some {A} (l : list A) i x : rd l i = Some x → 0 ≤ i < Z.of_nat (length l).
Proof.
  unfold rd. case_decide; [|done]. intros Hx. apply lookup_lt_Some in Hx. lia.
Qed.

Lemma wr_Some {A} (l l' : list A) i x :
  wr l i x = Some l' → length l' = length l ∧ l' = <[Z.to_nat i := x]> l.
Proof. unfold wr. case_decide; [|done]. intros [= <-]. by rewrite length_insert. Qed.

Lemma wr_out {A} (l : list A) i x : Z.of_nat (length l) ≤ i → wr l i x = None.
Proof. intros. unfold wr. by rewrite decide_False by lia. Qed.

Lemma rd_is_Some {A} (l : list A) i :
  0 ≤ i < Z.of_nat (length l) → ∃ x, rd l i = Some x ∧ l !! Z.to_nat i = Some x.
Proof.
  intros Hi. unfold rd. rewrite decide_True by lia.
  destruct (lookup_lt_is_Some_2 l (Z.to_nat i)) as [x Hx]; [lia|]. eauto.
Qed.

Lemma bytes_tbl (b : list Z) i : bytes b → is_byte b.[i].
Proof.
  intros Hb. unfold tbl. destruct (decide (Z.to_nat i < length b)%nat).
  - eapply List.Forall_forall; [exact Hb|]. by apply nth_In.
  - by rewrite nth_overflow by lia.
Qed.

Lemma rd_byte b i : bytes b → 0 ≤ i < Z.of_nat (length b) → ∃ c, rd b i = Some c ∧ is_byte c.
Proof.
  intros Hb Hi. destruct (rd_is_Some b i Hi) as (c & Hc & Hl). exists c. split; [done|].
  by eapply Forall_lookup_1 in Hb.
Qed.

Lemma rd_take {A} (l : list A) n i : i < Z.of_nat n → rd (take n l) i = rd l i.
Proof. intros Hi. unfold rd. case_decide; [|done]. apply lookup_take_lt. lia. Qed.

Lemma rd_drop {A} (l : list A) n i : 0 ≤ i → rd (drop n l) i = rd l (Z.of_nat n + i).
Proof. intros Hi. unfold rd. rewrite !decide_True by lia. rewrite lookup_drop. f_equal. lia. Qed.

Lemma rd_nonneg data i x : bytes data → rd data i = Some x → 0 ≤ x.
Proof.
  intros Hb. unfold rd. case_decide; [|done]. intros Hi. pose proof (Forall_lookup_1 _ _ _ _ Hb Hi) as [? _]. done.
Qed.

(** ** Equations between masked and shifted values, bit by bit *)

Lemma bits_eq n a b :
  0 ≤ a < 2 ^ n → 0 ≤ b < 2 ^ n → Forall (λ i, Z.testbit a i = Z.testbit b i) (seqZ 0 n) → a = b.
Proof.
  intros Ha Hb H. apply Z.bits_inj'. intros i Hi. destruct (decide (i < n)).
  - rewrite List.Forall_forall in H. apply H, list_elem_of_In, elem_of_seqZ. lia.
  - by rewrite !(testbit_small _ n) by lia.
Qed.

Lemma land_range n a m : 0 ≤ n → 0 ≤ m < 2 ^ n → 0 ≤ a .& m < 2 ^ n.
Proof.
  intros Hn Hm. rewrite <-(Z.mod_small m (2 ^ n)), <-Z.land_ones, Z.land_assoc, Z.land_ones by done.
  by apply Z.mod_pos_bound, Z.pow_pos_nonneg.
Qed.

Lemma lor_range n a b : 0 ≤ n → 0 ≤ a < 2 ^ n → 0 ≤ b < 2 ^ n → 0 ≤ a .| b < 2 ^ n.
Proof.
  intros Hn Ha Hb. assert ((a .| b) mod 2 ^ n = a .| b) as <-; [|by apply Z.mod_pos_bound, Z.pow_pos_nonneg].
  by rewrite <-Z.land_ones, Z.land_lor_distr_l, !Z.land_ones, !Z.mod_small by done.
Qed.

Lemma u8_testbit x i : 0 ≤ i < 8 → Z.testbit (u8 x) i = Z.testbit x i.
Proof. intros. apply Z.mod_pow2_bits_low. lia. Qed.

Lemma u8_range x : 0 ≤ u8 x < 2 ^ 8.
Proof. by apply Z.mod_pos_bound. Qed.

Lemma land_ones_mod x n m : 0 ≤ n → m = Z.ones n → x .& m = x mod 2 ^ n.
Proof. intros ? ->. by apply Z.land_ones. Qed.

Ltac bit_const :=
  repeat match goal with
  | |- context [Z.testbit (Zpos ?p) ?i] =>
      let v := eval vm_compute in (Z.testbit (Zpos p) i) in change (Z.testbit (Zpos p) i) with v
  | |- context [Z.testbit Z0 ?i] => change (Z.testbit Z0 i) with false
  end.
Ltac bit_norm :=
  repeat (rewrite ?Z.land_spec, ?Z.lor_spec, ?u8_testbit, ?Z.mod_pow2_bits_low,
    ?Z.shiftl_spec, ?Z.shiftr_spec by lia;
    simpl_const; rewrite ?(Z.testbit_neg_r _ (Z.neg _)) by lia; bit_const;
    rewrite ?andb_false_r, ?andb_true_r, ?orb_false_r, ?orb_false_l);
  repeat match goal with
  | H : 0 ≤ ?x < 2 ^ ?n |- context [Z.testbit ?x ?i] =>
      rewrite (testbit_small x n i H) by (vm_compute; discriminate)
  end; rewrite ?andb_false_r, ?andb_true_r, ?orb_false_r, ?orb_false_l.

(** Compares the [n] lowest bits of both sides of an equation. *)
Ltac bitwise n :=
  apply (bits_eq n);
  [ | | let l := eval vm_compute in (seqZ 0 n) in change (seqZ 0 n) with l;
        repeat (apply List.Forall_cons; [cbv beta; bit_norm; try reflexivity|]); apply List.Forall_nil].

Lemma shiftr_range n k x : 0 ≤ n → 0 ≤ k → 0 ≤ x < 2 ^ (n + k) → 0 ≤ x ≫ k < 2 ^ n.
Proof.
  intros Hn Hk Hx. rewrite Z.shiftr_div_pow2 by done. rewrite Z.pow_add_r in Hx by done.
  pose proof (Z.pow_pos_nonneg 2 k). split; [apply Z.div_pos; lia|apply Z.div_lt_upper_bound; lia].
Qed.

Lemma land_range_r n a m : 0 ≤ n → 0 ≤ a < 2 ^ n → 0 ≤ a .& m < 2 ^ n.
Proof. intros. rewrite Z.land_comm. by apply land_range. Qed.

Lemma range_weaken n m x : 0 ≤ x < 2 ^ n → n ≤ m → 0 ≤ x < 2 ^ m.
Proof. intros Hx Hm. pose proof (Z.pow_le_mono_r 2 n m). lia. Qed.

(** Bounds of masked values. *)
Ltac bit_bound :=
  repeat first
    [ assumption
    | match goal with |- 0 ≤ Zpos _ < _ => split; [done|reflexivity] end
    | apply u8_range
    | apply lor_range; [done| |]
    | apply land_range; [done|solve [bit_bound]]
    | apply land_range_r; [done|solve [bit_bound]]
    | apply shiftr_range; [done|done|simpl_const] ].
Ltac bits n := bitwise n; [bit_bound|bit_bound|..].

(** Side conditions on bytes and ranges. *)
Create HintDb zvbi.
#[export] Hint Resolve u8_range u32_range s32_range bytes_tbl Forall_drop Forall_take : zvbi.
#[export] Hint Extern 1 (_ ≤ _) => lia : zvbi.
#[export] Hint Extern 1 (_ < _) => lia : zvbi.
