(* ===== verification/Gf2.v ===== *)
(** Maps between bit strings that are affine over GF(2): [f (a xor b)] is
    [f a xor f b xor f 0].  The Hamming tables and the checksum tables are of
    this kind, so that a property of them needs to be checked on a basis only. *)
From S2P Require Import Prelude.

Class Affine (n : Z) (f : Z → Z) : Prop :=
  affine a b : 0 ≤ a < 2 ^ n → 0 ≤ b < 2 ^ n → f (a .^ b) = f a .^ f b .^ f 0.

(** The values of [f] on [n] bit arguments have [m] bits. *)
Class Maps (n m : Z) (f : Z → Z) : Prop :=
  maps a : 0 ≤ a < 2 ^ n → 0 ≤ f a < 2 ^ m.

(** Solves equations between xors of atoms. *)
Ltac xor_eq :=
  apply Z.bits_inj'; intros ? ?;
  repeat first [rewrite Z.lxor_spec | rewrite Z.land_spec | rewrite Z.bits_0];
  repeat match goal with |- context [Z.testbit ?a ?i] => destruct (Z.testbit a i) end;
  reflexivity.

Section instances.
Context (n : Z).
Implicit Types f g : Z → Z.

#[export] Instance affine_id : Affine n (λ c, c).
Proof. intros a b _ _. xor_eq. Qed.
#[export] Instance affine_const k : Affine n (λ _, k).
Proof. intros a b _ _. xor_eq. Qed.
#[export] Instance affine_lxor f g : Affine n f → Affine n g → Affine n (λ c, f c .^ g c).
Proof. intros Hf Hg a b Ha Hb. rewrite Hf, Hg by done. xor_eq. Qed.
#[export] Instance affine_land f k : Affine n f → Affine n (λ c, f c .& k).
Proof. intros Hf a b Ha Hb. rewrite Hf by done. xor_eq. Qed.
#[export] Instance affine_land_l f k : Affine n f → Affine n (λ c, k .& f c).
Proof. intros Hf a b Ha Hb. rewrite Hf by done. xor_eq. Qed.
#[export] Instance affine_lnot f : Affine n f → Affine n (λ c, Z.lnot (f c)).
Proof. intros Hf a b Ha Hb. rewrite Hf by done. rewrite <-!Z.lxor_m1_r. xor_eq. Qed.
#[export] Instance affine_shiftr f k : Affine n f → Affine n (λ c, f c ≫ k).
Proof. intros Hf a b Ha Hb. rewrite Hf by done. by rewrite !Z.shiftr_lxor. Qed.
#[export] Instance affine_shiftl f k : Affine n f → Affine n (λ c, f c ≪ k).
Proof. intros Hf a b Ha Hb. rewrite Hf by done. by rewrite !Z.shiftl_lxor. Qed.
#[export] Instance affine_u8 f : Affine n f → Affine n (λ c, u8 (f c)).
Proof. intros Hf a b Ha Hb. unfold u8. rewrite <-!Z.land_ones, Hf by done. xor_eq. Qed.
End instances.

Lemma affine_comp n m f g :
  0 ≤ n → 0 ≤ m → Maps n m f → Affine n f → Affine m g → Affine n (λ c, g (f c)).
Proof.
  intros Hn Hm Hr Hf Hg a b Ha Hb. rewrite Hf by done.
  assert (0 ≤ f 0 < 2 ^ m) by (apply Hr; lia).
  rewrite Hg by auto using lxor_bound. rewrite Hg by auto. xor_eq.
Qed.

Lemma add_pow2_lxor b m : 0 ≤ m → 0 ≤ b < 2 ^ m → b + 2 ^ m = b .^ 2 ^ m.
Proof.
  intros Hm Hb. apply Z.add_nocarry_lxor, Z.bits_inj'. intros i Hi.
  rewrite Z.land_spec, Z.bits_0. destruct (decide (i = m)) as [->|].
  - by rewrite (testbit_small _ m) by lia.
  - by rewrite Z.pow2_bits_false, andb_false_r by lia.
Qed.

(** An affine map is determined by a basis. *)
Lemma affine_basis n f :
  (∀ a i, 0 ≤ a < 2 ^ n → 0 ≤ i < n → f (a .^ 2 ^ i) = f a .^ f (2 ^ i) .^ f 0) → Affine n f.
Proof.
  intros H a b Ha Hb.
  assert (0 ≤ n) by (destruct (decide (0 ≤ n)); [done|rewrite Z.pow_neg_r in Ha; lia]).
  enough (∀ m, 0 ≤ m → m ≤ n → ∀ b, 0 ≤ b < 2 ^ m → f (a .^ b) = f a .^ f b .^ f 0) as Hm
    by (by apply (Hm n)).
  clear b Hb. intros m Hm. pattern m. revert m Hm. apply natlike_ind.
  { intros _ b Hb. assert (b = 0) as -> by (cbn in Hb; lia). rewrite Z.lxor_0_r. xor_eq. }
  intros m Hm IH Hmn b Hb. rewrite Z.pow_succ_r in Hb by done.
  assert (2 ^ m ≤ 2 ^ (n - 1)) by (apply Z.pow_le_mono_r; lia).
  assert (2 ^ n = 2 * 2 ^ (n - 1)) by (rewrite <-Z.pow_succ_r by lia; f_equal; lia).
  destruct (decide (b < 2 ^ m)); [apply IH; lia|].
  replace b with ((b - 2 ^ m) + 2 ^ m) by lia. set (b' := b - 2 ^ m) in *.
  rewrite add_pow2_lxor by lia. rewrite <-Z.lxor_assoc.
  rewrite H by (try apply lxor_bound; lia). rewrite (H b') by lia.
  rewrite IH by lia. xor_eq.
Qed.

Definition affine_check (n : Z) (f : Z → Z) : bool :=
  forallb (λ a, forallb (λ i, f (a .^ 2 ^ i) =? f a .^ f (2 ^ i) .^ f 0) (seqZ 0 n))
    (seqZ 0 (2 ^ n)).

Lemma affine_by_eval n f : affine_check n f = true → Affine n f.
Proof.
  intros H. apply affine_basis. intros a i Ha Hi.
  pose proof (forallb_seqZ _ _ H a Ha) as H2. cbv beta in H2.
  by apply Z.eqb_eq, (forallb_seqZ _ _ H2 i Hi).
Qed.

Lemma maps_by_eval n m f :
  forallb (λ a, (0 <=? f a) && (f a <? 2 ^ m)) (seqZ 0 (2 ^ n)) = true → Maps n m f.
Proof.
  intros H a Ha. pose proof (forallb_seqZ _ _ H a Ha) as H2. cbv beta in H2.
  apply andb_true_iff in H2. lia.
Qed.

Lemma maps_land n m f k : 0 ≤ m → k = Z.ones m → Maps n m (λ c, f c .& k).
Proof. intros Hm -> a Ha. rewrite Z.land_ones by done. apply Z.mod_pos_bound. lia. Qed.
Lemma maps_lxor n m f g : 0 ≤ m → Maps n m f → Maps n m g → Maps n m (λ c, f c .^ g c).
Proof. intros ? Hf Hg a Ha. apply lxor_bound; auto. Qed.
Lemma maps_u8 n f : Maps n 8 (λ c, u8 (f c)).
Proof. intros a _. unfold u8. apply Z.mod_pos_bound. lia. Qed.

Lemma maps_weaken n m m' f : 0 ≤ m ≤ m' → Maps n m f → Maps n m' f.
Proof. intros Hm Hf a Ha. specialize (Hf a Ha). pose proof (Z.pow_le_mono_r 2 m m'). lia. Qed.
Lemma maps_comp n m k f g : Maps n m f → Maps m k g → Maps n k (λ c, g (f c)).
Proof. intros Hf Hg a Ha. by apply Hg, Hf. Qed.
Lemma affine_ext n f g : (∀ c, f c = g c) → Affine n g → Affine n f.
Proof. intros E Hg a b Ha Hb. rewrite !E. by apply Hg. Qed.

(** Two affine maps agree when they agree at 0 and on a basis. *)
Lemma affine_eq n f g :
  0 ≤ n → Affine n f → Affine n g → f 0 = g 0 → (∀ i, 0 ≤ i < n → f (2 ^ i) = g (2 ^ i)) →
  ∀ a, 0 ≤ a < 2 ^ n → f a = g a.
Proof.
  intros Hn Hf Hg H0 Hi.
  enough (∀ m, 0 ≤ m → m ≤ n → ∀ a, 0 ≤ a < 2 ^ m → f a = g a) as H by (by apply (H n)).
  intros m Hm. pattern m. revert m Hm. apply natlike_ind.
  { intros _ a Ha. assert (a = 0) as -> by (cbn in Ha; lia). done. }
  intros m Hm IH Hmn a Ha. rewrite Z.pow_succ_r in Ha by done.
  assert (2 ^ m ≤ 2 ^ (n - 1)) by (apply Z.pow_le_mono_r; lia).
  assert (2 ^ n = 2 * 2 ^ (n - 1)) by (rewrite <-Z.pow_succ_r by lia; f_equal; lia).
  destruct (decide (a < 2 ^ m)); [apply IH; lia|].
  replace a with ((a - 2 ^ m) + 2 ^ m) by lia. rewrite add_pow2_lxor by lia.
  rewrite Hf, Hg by lia. rewrite (IH ltac:(lia) (a - 2 ^ m)), Hi, H0 by lia. done.
Qed.

Lemma affine_eq_eval n f g :
  0 ≤ n → Affine n f → Affine n g →
  (f 0 =? g 0) && forallb (λ i, f (2 ^ i) =? g (2 ^ i)) (seqZ 0 n) = true →
  ∀ a, 0 ≤ a < 2 ^ n → f a = g a.
Proof.
  intros Hn Hf Hg H. apply andb_true_iff in H as [H0 H].
  apply affine_eq; [done..|lia|]. intros i Hi. apply Z.eqb_eq, (forallb_seqZ n _ H i Hi).
Qed.

(** Lookups in an affine table. *)
Lemma affine_tbl t n m f :
  0 ≤ n → 0 ≤ m → Maps n m f → Affine n f → Affine m (tbl t) → Affine n (λ c, tbl t (f c)).
Proof. apply affine_comp. Qed.

Lemma lor_lxor a b : a .& b = 0 → a .| b = a .^ b.
Proof. symmetry. by apply Z.lxor_lor. Qed.

Lemma land_masks_disjoint x y m k : m .& k = 0 → (x .& m) .& (k .& y) = 0.
Proof.
  intros H. rewrite <-Z.land_assoc, (Z.land_assoc m), H. by rewrite Z.land_0_l, Z.land_0_r.
Qed.

Lemma land_small_shiftl a b k : 0 ≤ k → 0 ≤ a < 2 ^ k → a .& (b ≪ k) = 0.
Proof.
  intros Hk Ha. apply Z.bits_inj'. intros i Hi.
  rewrite Z.land_spec, Z.shiftl_spec, Z.bits_0 by lia. destruct (decide (i < k)).
  - by rewrite (Z.testbit_neg_r b) by lia; rewrite andb_false_r.
  - by rewrite (testbit_small a k) by lia.
Qed.

Lemma lxor_shiftl_bound a b k m :
  0 ≤ k → 0 ≤ m → 0 ≤ a < 2 ^ k → 0 ≤ b < 2 ^ m → 0 ≤ a .^ (b ≪ k) < 2 ^ (k + m).
Proof.
  intros Hk Hm Ha Hb. rewrite <-Z.add_nocarry_lxor by by apply land_small_shiftl.
  rewrite Z.shiftl_mul_pow2, Z.pow_add_r by lia. nia.
Qed.
