(* ===== verification/HammTables.v ===== *)
(** The constant tables of [src/src/hamm-tables.h], value for value.  [uint8_t]
    entries are written as they stand; [int8_t] and [int32_t] initialisers are
    converted to their type, as the C compiler converts them. *)
From S2P Require Import Prelude.

Definition _vbi_bit_reverse : list Z := 
  [0x00; 0x80; 0x40; 0xc0; 0x20; 0xa0; 0x60; 0xe0;
   0x10; 0x90; 0x50; 0xd0; 0x30; 0xb0; 0x70; 0xf0;
   0x08; 0x88; 0x48; 0xc8; 0x28; 0xa8; 0x68; 0xe8;
   0x18; 0x98; 0x58; 0xd8; 0x38; 0xb8; 0x78; 0xf8;
   0x04; 0x84; 0x44; 0xc4; 0x24; 0xa4; 0x64; 0xe4;
   0x14; 0x94; 0x54; 0xd4; 0x34; 0xb4; 0x74; 0xf4;
   0x0c; 0x8c; 0x4c; 0xcc; 0x2c; 0xac; 0x6c; 0xec;
   0x1c; 0x9c; 0x5c; 0xdc; 0x3c; 0xbc; 0x7c; 0xfc;
   0x02; 0x82; 0x42; 0xc2; 0x22; 0xa2; 0x62; 0xe2;
   0x12; 0x92; 0x52; 0xd2; 0x32; 0xb2; 0x72; 0xf2;
   0x0a; 0x8a; 0x4a; 0xca; 0x2a; 0xaa; 0x6a; 0xea;
   0x1a; 0x9a; 0x5a; 0xda; 0x3a; 0xba; 0x7a; 0xfa;
   0x06; 0x86; 0x46; 0xc6; 0x26; 0xa6; 0x66; 0xe6;
   0x16; 0x96; 0x56; 0xd6; 0x36; 0xb6; 0x76; 0xf6;
   0x0e; 0x8e; 0x4e; 0xce; 0x2e; 0xae; 0x6e; 0xee;
   0x1e; 0x9e; 0x5e; 0xde; 0x3e; 0xbe; 0x7e; 0xfe;
   0x01; 0x81; 0x41; 0xc1; 0x21; 0xa1; 0x61; 0xe1;
   0x11; 0x91; 0x51; 0xd1; 0x31; 0xb1; 0x71; 0xf1;
   0x09; 0x89; 0x49; 0xc9; 0x29; 0xa9; 0x69; 0xe9;
   0x19; 0x99; 0x59; 0xd9; 0x39; 0xb9; 0x79; 0xf9;
   0x05; 0x85; 0x45; 0xc5; 0x25; 0xa5; 0x65; 0xe5;
   0x15; 0x95; 0x55; 0xd5; 0x35; 0xb5; 0x75; 0xf5;
   0x0d; 0x8d; 0x4d; 0xcd; 0x2d; 0xad; 0x6d; 0xed;
   0x1d; 0x9d; 0x5d; 0xdd; 0x3d; 0xbd; 0x7d; 0xfd;
   0x03; 0x83; 0x43; 0xc3; 0x23; 0xa3; 0x63; 0xe3;
   0x13; 0x93; 0x53; 0xd3; 0x33; 0xb3; 0x73; 0xf3;
   0x0b; 0x8b; 0x4b; 0xcb; 0x2b; 0xab; 0x6b; 0xeb;
   0x1b; 0x9b; 0x5b; 0xdb; 0x3b; 0xbb; 0x7b; 0xfb;
   0x07; 0x87; 0x47; 0xc7; 0x27; 0xa7; 0x67; 0xe7;
   0x17; 0x97; 0x57; 0xd7; 0x37; 0xb7; 0x77; 0xf7;
   0x0f; 0x8f; 0x4f; 0xcf; 0x2f; 0xaf; 0x6f; 0xef;
   0x1f; 0x9f; 0x5f; 0xdf; 0x3f; 0xbf; 0x7f; 0xff].

Definition _vbi_hamm8_fwd : list Z := 
  [0x15; 0x02; 0x49; 0x5e; 0x64; 0x73; 0x38; 0x2f;
   0xd0; 0xc7; 0x8c; 0x9b; 0xa1; 0xb6; 0xfd; 0xea].

Definition _vbi_hamm8_inv : list Z := Eval cbv in map s8
  [0x01; 0xff; 0x01; 0x01; 0xff; 0x00; 0x01; 0xff;
   0xff; 0x02; 0x01; 0xff; 0x0a; 0xff; 0xff; 0x07;
   0xff; 0x00; 0x01; 0xff; 0x00; 0x00; 0xff; 0x00;
   0x06; 0xff; 0xff; 0x0b; 0xff; 0x00; 0x03; 0xff;
   0xff; 0x0c; 0x01; 0xff; 0x04; 0xff; 0xff; 0x07;
   0x06; 0xff; 0xff; 0x07; 0xff; 0x07; 0x07; 0x07;
   0x06; 0xff; 0xff; 0x05; 0xff; 0x00; 0x0d; 0xff;
   0x06; 0x06; 0x06; 0xff; 0x06; 0xff; 0xff; 0x07;
   0xff; 0x02; 0x01; 0xff; 0x04; 0xff; 0xff; 0x09;
   0x02; 0x02; 0xff; 0x02; 0xff; 0x02; 0x03; 0xff;
   0x08; 0xff; 0xff; 0x05; 0xff; 0x00; 0x03; 0xff;
   0xff; 0x02; 0x03; 0xff; 0x03; 0xff; 0x03; 0x03;
   0x04; 0xff; 0xff; 0x05; 0x04; 0x04; 0x04; 0xff;
   0xff; 0x02; 0x0f; 0xff; 0x04; 0xff; 0xff; 0x07;
   0xff; 0x05; 0x05; 0x05; 0x04; 0xff; 0xff; 0x05;
   0x06; 0xff; 0xff; 0x05; 0xff; 0x0e; 0x03; 0xff;
   0xff; 0x0c; 0x01; 0xff; 0x0a; 0xff; 0xff; 0x09;
   0x0a; 0xff; 0xff; 0x0b; 0x0a; 0x0a; 0x0a; 0xff;
   0x08; 0xff; 0xff; 0x0b; 0xff; 0x00; 0x0d; 0xff;
   0xff; 0x0b; 0x0b; 0x0b; 0x0a; 0xff; 0xff; 0x0b;
   0x0c; 0x0c; 0xff; 0x0c; 0xff; 0x0c; 0x0d; 0xff;
   0xff; 0x0c; 0x0f; 0xff; 0x0a; 0xff; 0xff; 0x07;
   0xff; 0x0c; 0x0d; 0xff; 0x0d; 0xff; 0x0d; 0x0d;
   0x06; 0xff; 0xff; 0x0b; 0xff; 0x0e; 0x0d; 0xff;
   0x08; 0xff; 0xff; 0x09; 0xff; 0x09; 0x09; 0x09;
   0xff; 0x02; 0x0f; 0xff; 0x0a; 0xff; 0xff; 0x09;
   0x08; 0x08; 0x08; 0xff; 0x08; 0xff; 0xff; 0x09;
   0x08; 0xff; 0xff; 0x0b; 0xff; 0x0e; 0x03; 0xff;
   0xff; 0x0c; 0x0f; 0xff; 0x04; 0xff; 0xff; 0x09;
   0x0f; 0xff; 0x0f; 0x0f; 0xff; 0x0e; 0x0f; 0xff;
   0x08; 0xff; 0xff; 0x05; 0xff; 0x0e; 0x0d; 0xff;
   0xff; 0x0e; 0x0f; 0xff; 0x0e; 0x0e; 0xff; 0x0e].

Definition _vbi_hamm24_fwd_0 : list Z := 
  [0x8b; 0x8c; 0x92; 0x95; 0xa1; 0xa6; 0xb8; 0xbf;
   0xc0; 0xc7; 0xd9; 0xde; 0xea; 0xed; 0xf3; 0xf4;
   0x0a; 0x0d; 0x13; 0x14; 0x20; 0x27; 0x39; 0x3e;
   0x41; 0x46; 0x58; 0x5f; 0x6b; 0x6c; 0x72; 0x75;
   0x09; 0x0e; 0x10; 0x17; 0x23; 0x24; 0x3a; 0x3d;
   0x42; 0x45; 0x5b; 0x5c; 0x68; 0x6f; 0x71; 0x76;
   0x88; 0x8f; 0x91; 0x96; 0xa2; 0xa5; 0xbb; 0xbc;
   0xc3; 0xc4; 0xda; 0xdd; 0xe9; 0xee; 0xf0; 0xf7;
   0x08; 0x0f; 0x11; 0x16; 0x22; 0x25; 0x3b; 0x3c;
   0x43; 0x44; 0x5a; 0x5d; 0x69; 0x6e; 0x70; 0x77;
   0x89; 0x8e; 0x90; 0x97; 0xa3; 0xa4; 0xba; 0xbd;
   0xc2; 0xc5; 0xdb; 0xdc; 0xe8; 0xef; 0xf1; 0xf6;
   0x8a; 0x8d; 0x93; 0x94; 0xa0; 0xa7; 0xb9; 0xbe;
   0xc1; 0xc6; 0xd8; 0xdf; 0xeb; 0xec; 0xf2; 0xf5;
   0x0b; 0x0c; 0x12; 0x15; 0x21; 0x26; 0x38; 0x3f;
   0x40; 0x47; 0x59; 0x5e; 0x6a; 0x6d; 0x73; 0x74;
   0x03; 0x04; 0x1a; 0x1d; 0x29; 0x2e; 0x30; 0x37;
   0x48; 0x4f; 0x51; 0x56; 0x62; 0x65; 0x7b; 0x7c;
   0x82; 0x85; 0x9b; 0x9c; 0xa8; 0xaf; 0xb1; 0xb6;
   0xc9; 0xce; 0xd0; 0xd7; 0xe3; 0xe4; 0xfa; 0xfd;
   0x81; 0x86; 0x98; 0x9f; 0xab; 0xac; 0xb2; 0xb5;
   0xca; 0xcd; 0xd3; 0xd4; 0xe0; 0xe7; 0xf9; 0xfe;
   0x00; 0x07; 0x19; 0x1e; 0x2a; 0x2d; 0x33; 0x34;
   0x4b; 0x4c; 0x52; 0x55; 0x61; 0x66; 0x78; 0x7f;
   0x80; 0x87; 0x99; 0x9e; 0xaa; 0xad; 0xb3; 0xb4;
   0xcb; 0xcc; 0xd2; 0xd5; 0xe1; 0xe6; 0xf8; 0xff;
   0x01; 0x06; 0x18; 0x1f; 0x2b; 0x2c; 0x32; 0x35;
   0x4a; 0x4d; 0x53; 0x54; 0x60; 0x67; 0x79; 0x7e;
   0x02; 0x05; 0x1b; 0x1c; 0x28; 0x2f; 0x31; 0x36;
   0x49; 0x4e; 0x50; 0x57; 0x63; 0x64; 0x7a; 0x7d;
   0x83; 0x84; 0x9a; 0x9d; 0xa9; 0xae; 0xb0; 0xb7;
   0xc8; 0xcf; 0xd1; 0xd6; 0xe2; 0xe5; 0xfb; 0xfc].

Definition _vbi_hamm24_fwd_1 : list Z := 
  [0x00; 0x89; 0x8a; 0x03; 0x8b; 0x02; 0x01; 0x88;
   0x01; 0x88; 0x8b; 0x02; 0x8a; 0x03; 0x00; 0x89;
   0x02; 0x8b; 0x88; 0x01; 0x89; 0x00; 0x03; 0x8a;
   0x03; 0x8a; 0x89; 0x00; 0x88; 0x01; 0x02; 0x8b;
   0x03; 0x8a; 0x89; 0x00; 0x88; 0x01; 0x02; 0x8b;
   0x02; 0x8b; 0x88; 0x01; 0x89; 0x00; 0x03; 0x8a;
   0x01; 0x88; 0x8b; 0x02; 0x8a; 0x03; 0x00; 0x89;
   0x00; 0x89; 0x8a; 0x03; 0x8b; 0x02; 0x01; 0x88;
   0x08; 0x81; 0x82; 0x0b; 0x83; 0x0a; 0x09; 0x80;
   0x09; 0x80; 0x83; 0x0a; 0x82; 0x0b; 0x08; 0x81;
   0x0a; 0x83; 0x80; 0x09; 0x81; 0x08; 0x0b; 0x82;
   0x0b; 0x82; 0x81; 0x08; 0x80; 0x09; 0x0a; 0x83;
   0x0b; 0x82; 0x81; 0x08; 0x80; 0x09; 0x0a; 0x83;
   0x0a; 0x83; 0x80; 0x09; 0x81; 0x08; 0x0b; 0x82;
   0x09; 0x80; 0x83; 0x0a; 0x82; 0x0b; 0x08; 0x81;
   0x08; 0x81; 0x82; 0x0b; 0x83; 0x0a; 0x09; 0x80;
   0x09; 0x80; 0x83; 0x0a; 0x82; 0x0b; 0x08; 0x81;
   0x08; 0x81; 0x82; 0x0b; 0x83; 0x0a; 0x09; 0x80;
   0x0b; 0x82; 0x81; 0x08; 0x80; 0x09; 0x0a; 0x83;
   0x0a; 0x83; 0x80; 0x09; 0x81; 0x08; 0x0b; 0x82;
   0x0a; 0x83; 0x80; 0x09; 0x81; 0x08; 0x0b; 0x82;
   0x0b; 0x82; 0x81; 0x08; 0x80; 0x09; 0x0a; 0x83;
   0x08; 0x81; 0x82; 0x0b; 0x83; 0x0a; 0x09; 0x80;
   0x09; 0x80; 0x83; 0x0a; 0x82; 0x0b; 0x08; 0x81;
   0x01; 0x88; 0x8b; 0x02; 0x8a; 0x03; 0x00; 0x89;
   0x00; 0x89; 0x8a; 0x03; 0x8b; 0x02; 0x01; 0x88;
   0x03; 0x8a; 0x89; 0x00; 0x88; 0x01; 0x02; 0x8b;
   0x02; 0x8b; 0x88; 0x01; 0x89; 0x00; 0x03; 0x8a;
   0x02; 0x8b; 0x88; 0x01; 0x89; 0x00; 0x03; 0x8a;
   0x03; 0x8a; 0x89; 0x00; 0x88; 0x01; 0x02; 0x8b;
   0x00; 0x89; 0x8a; 0x03; 0x8b; 0x02; 0x01; 0x88;
   0x01; 0x88; 0x8b; 0x02; 0x8a; 0x03; 0x00; 0x89].

Definition _vbi_hamm24_fwd_2 : list Z := 
  [0x00; 0x0a; 0x0b; 0x01].

(** [_vbi_hamm24_inv_par] is a [3][256] array; the model has its three rows. *)
Definition _vbi_hamm24_inv_par_0 : list Z := Eval cbv in map s8
  [0x00; 0x21; 0x22; 0x03; 0x23; 0x02; 0x01; 0x20;
   0x24; 0x05; 0x06; 0x27; 0x07; 0x26; 0x25; 0x04;
   0x25; 0x04; 0x07; 0x26; 0x06; 0x27; 0x24; 0x05;
   0x01; 0x20; 0x23; 0x02; 0x22; 0x03; 0x00; 0x21;
   0x26; 0x07; 0x04; 0x25; 0x05; 0x24; 0x27; 0x06;
   0x02; 0x23; 0x20; 0x01; 0x21; 0x00; 0x03; 0x22;
   0x03; 0x22; 0x21; 0x00; 0x20; 0x01; 0x02; 0x23;
   0x27; 0x06; 0x05; 0x24; 0x04; 0x25; 0x26; 0x07;
   0x27; 0x06; 0x05; 0x24; 0x04; 0x25; 0x26; 0x07;
   0x03; 0x22; 0x21; 0x00; 0x20; 0x01; 0x02; 0x23;
   0x02; 0x23; 0x20; 0x01; 0x21; 0x00; 0x03; 0x22;
   0x26; 0x07; 0x04; 0x25; 0x05; 0x24; 0x27; 0x06;
   0x01; 0x20; 0x23; 0x02; 0x22; 0x03; 0x00; 0x21;
   0x25; 0x04; 0x07; 0x26; 0x06; 0x27; 0x24; 0x05;
   0x24; 0x05; 0x06; 0x27; 0x07; 0x26; 0x25; 0x04;
   0x00; 0x21; 0x22; 0x03; 0x23; 0x02; 0x01; 0x20;
   0x28; 0x09; 0x0a; 0x2b; 0x0b; 0x2a; 0x29; 0x08;
   0x0c; 0x2d; 0x2e; 0x0f; 0x2f; 0x0e; 0x0d; 0x2c;
   0x0d; 0x2c; 0x2f; 0x0e; 0x2e; 0x0f; 0x0c; 0x2d;
   0x29; 0x08; 0x0b; 0x2a; 0x0a; 0x2b; 0x28; 0x09;
   0x0e; 0x2f; 0x2c; 0x0d; 0x2d; 0x0c; 0x0f; 0x2e;
   0x2a; 0x0b; 0x08; 0x29; 0x09; 0x28; 0x2b; 0x0a;
   0x2b; 0x0a; 0x09; 0x28; 0x08; 0x29; 0x2a; 0x0b;
   0x0f; 0x2e; 0x2d; 0x0c; 0x2c; 0x0d; 0x0e; 0x2f;
   0x0f; 0x2e; 0x2d; 0x0c; 0x2c; 0x0d; 0x0e; 0x2f;
   0x2b; 0x0a; 0x09; 0x28; 0x08; 0x29; 0x2a; 0x0b;
   0x2a; 0x0b; 0x08; 0x29; 0x09; 0x28; 0x2b; 0x0a;
   0x0e; 0x2f; 0x2c; 0x0d; 0x2d; 0x0c; 0x0f; 0x2e;
   0x29; 0x08; 0x0b; 0x2a; 0x0a; 0x2b; 0x28; 0x09;
   0x0d; 0x2c; 0x2f; 0x0e; 0x2e; 0x0f; 0x0c; 0x2d;
   0x0c; 0x2d; 0x2e; 0x0f; 0x2f; 0x0e; 0x0d; 0x2c;
   0x28; 0x09; 0x0a; 0x2b; 0x0b; 0x2a; 0x29; 0x08].

Definition _vbi_hamm24_inv_par_1 : list Z := Eval cbv in map s8
  [0x00; 0x29; 0x2a; 0x03; 0x2b; 0x02; 0x01; 0x28;
   0x2c; 0x05; 0x06; 0x2f; 0x07; 0x2e; 0x2d; 0x04;
   0x2d; 0x04; 0x07; 0x2e; 0x06; 0x2f; 0x2c; 0x05;
   0x01; 0x28; 0x2b; 0x02; 0x2a; 0x03; 0x00; 0x29;
   0x2e; 0x07; 0x04; 0x2d; 0x05; 0x2c; 0x2f; 0x06;
   0x02; 0x2b; 0x28; 0x01; 0x29; 0x00; 0x03; 0x2a;
   0x03; 0x2a; 0x29; 0x00; 0x28; 0x01; 0x02; 0x2b;
   0x2f; 0x06; 0x05; 0x2c; 0x04; 0x2d; 0x2e; 0x07;
   0x2f; 0x06; 0x05; 0x2c; 0x04; 0x2d; 0x2e; 0x07;
   0x03; 0x2a; 0x29; 0x00; 0x28; 0x01; 0x02; 0x2b;
   0x02; 0x2b; 0x28; 0x01; 0x29; 0x00; 0x03; 0x2a;
   0x2e; 0x07; 0x04; 0x2d; 0x05; 0x2c; 0x2f; 0x06;
   0x01; 0x28; 0x2b; 0x02; 0x2a; 0x03; 0x00; 0x29;
   0x2d; 0x04; 0x07; 0x2e; 0x06; 0x2f; 0x2c; 0x05;
   0x2c; 0x05; 0x06; 0x2f; 0x07; 0x2e; 0x2d; 0x04;
   0x00; 0x29; 0x2a; 0x03; 0x2b; 0x02; 0x01; 0x28;
   0x30; 0x19; 0x1a; 0x33; 0x1b; 0x32; 0x31; 0x18;
   0x1c; 0x35; 0x36; 0x1f; 0x37; 0x1e; 0x1d; 0x34;
   0x1d; 0x34; 0x37; 0x1e; 0x36; 0x1f; 0x1c; 0x35;
   0x31; 0x18; 0x1b; 0x32; 0x1a; 0x33; 0x30; 0x19;
   0x1e; 0x37; 0x34; 0x1d; 0x35; 0x1c; 0x1f; 0x36;
   0x32; 0x1b; 0x18; 0x31; 0x19; 0x30; 0x33; 0x1a;
   0x33; 0x1a; 0x19; 0x30; 0x18; 0x31; 0x32; 0x1b;
   0x1f; 0x36; 0x35; 0x1c; 0x34; 0x1d; 0x1e; 0x37;
   0x1f; 0x36; 0x35; 0x1c; 0x34; 0x1d; 0x1e; 0x37;
   0x33; 0x1a; 0x19; 0x30; 0x18; 0x31; 0x32; 0x1b;
   0x32; 0x1b; 0x18; 0x31; 0x19; 0x30; 0x33; 0x1a;
   0x1e; 0x37; 0x34; 0x1d; 0x35; 0x1c; 0x1f; 0x36;
   0x31; 0x18; 0x1b; 0x32; 0x1a; 0x33; 0x30; 0x19;
   0x1d; 0x34; 0x37; 0x1e; 0x36; 0x1f; 0x1c; 0x35;
   0x1c; 0x35; 0x36; 0x1f; 0x37; 0x1e; 0x1d; 0x34;
   0x30; 0x19; 0x1a; 0x33; 0x1b; 0x32; 0x31; 0x18].

Definition _vbi_hamm24_inv_par_2 : list Z := Eval cbv in map s8
  [0x3f; 0x0e; 0x0d; 0x3c; 0x0c; 0x3d; 0x3e; 0x0f;
   0x0b; 0x3a; 0x39; 0x08; 0x38; 0x09; 0x0a; 0x3b;
   0x0a; 0x3b; 0x38; 0x09; 0x39; 0x08; 0x0b; 0x3a;
   0x3e; 0x0f; 0x0c; 0x3d; 0x0d; 0x3c; 0x3f; 0x0e;
   0x09; 0x38; 0x3b; 0x0a; 0x3a; 0x0b; 0x08; 0x39;
   0x3d; 0x0c; 0x0f; 0x3e; 0x0e; 0x3f; 0x3c; 0x0d;
   0x3c; 0x0d; 0x0e; 0x3f; 0x0f; 0x3e; 0x3d; 0x0c;
   0x08; 0x39; 0x3a; 0x0b; 0x3b; 0x0a; 0x09; 0x38;
   0x08; 0x39; 0x3a; 0x0b; 0x3b; 0x0a; 0x09; 0x38;
   0x3c; 0x0d; 0x0e; 0x3f; 0x0f; 0x3e; 0x3d; 0x0c;
   0x3d; 0x0c; 0x0f; 0x3e; 0x0e; 0x3f; 0x3c; 0x0d;
   0x09; 0x38; 0x3b; 0x0a; 0x3a; 0x0b; 0x08; 0x39;
   0x3e; 0x0f; 0x0c; 0x3d; 0x0d; 0x3c; 0x3f; 0x0e;
   0x0a; 0x3b; 0x38; 0x09; 0x39; 0x08; 0x0b; 0x3a;
   0x0b; 0x3a; 0x39; 0x08; 0x38; 0x09; 0x0a; 0x3b;
   0x3f; 0x0e; 0x0d; 0x3c; 0x0c; 0x3d; 0x3e; 0x0f;
   0x1f; 0x2e; 0x2d; 0x1c; 0x2c; 0x1d; 0x1e; 0x2f;
   0x2b; 0x1a; 0x19; 0x28; 0x18; 0x29; 0x2a; 0x1b;
   0x2a; 0x1b; 0x18; 0x29; 0x19; 0x28; 0x2b; 0x1a;
   0x1e; 0x2f; 0x2c; 0x1d; 0x2d; 0x1c; 0x1f; 0x2e;
   0x29; 0x18; 0x1b; 0x2a; 0x1a; 0x2b; 0x28; 0x19;
   0x1d; 0x2c; 0x2f; 0x1e; 0x2e; 0x1f; 0x1c; 0x2d;
   0x1c; 0x2d; 0x2e; 0x1f; 0x2f; 0x1e; 0x1d; 0x2c;
   0x28; 0x19; 0x1a; 0x2b; 0x1b; 0x2a; 0x29; 0x18;
   0x28; 0x19; 0x1a; 0x2b; 0x1b; 0x2a; 0x29; 0x18;
   0x1c; 0x2d; 0x2e; 0x1f; 0x2f; 0x1e; 0x1d; 0x2c;
   0x1d; 0x2c; 0x2f; 0x1e; 0x2e; 0x1f; 0x1c; 0x2d;
   0x29; 0x18; 0x1b; 0x2a; 0x1a; 0x2b; 0x28; 0x19;
   0x1e; 0x2f; 0x2c; 0x1d; 0x2d; 0x1c; 0x1f; 0x2e;
   0x2a; 0x1b; 0x18; 0x29; 0x19; 0x28; 0x2b; 0x1a;
   0x2b; 0x1a; 0x19; 0x28; 0x18; 0x29; 0x2a; 0x1b;
   0x1f; 0x2e; 0x2d; 0x1c; 0x2c; 0x1d; 0x1e; 0x2f].

Definition _vbi_hamm24_inv_d1_d4 : list Z := 
  [0x00; 0x01; 0x00; 0x01; 0x02; 0x03; 0x02; 0x03;
   0x04; 0x05; 0x04; 0x05; 0x06; 0x07; 0x06; 0x07;
   0x08; 0x09; 0x08; 0x09; 0x0a; 0x0b; 0x0a; 0x0b;
   0x0c; 0x0d; 0x0c; 0x0d; 0x0e; 0x0f; 0x0e; 0x0f;
   0x00; 0x01; 0x00; 0x01; 0x02; 0x03; 0x02; 0x03;
   0x04; 0x05; 0x04; 0x05; 0x06; 0x07; 0x06; 0x07;
   0x08; 0x09; 0x08; 0x09; 0x0a; 0x0b; 0x0a; 0x0b;
   0x0c; 0x0d; 0x0c; 0x0d; 0x0e; 0x0f; 0x0e; 0x0f].

Definition _vbi_hamm24_inv_err : list Z := Eval cbv in map s32
  [0x00000000; 0x80000000; 0x80000000; 0x80000000;
   0x80000000; 0x80000000; 0x80000000; 0x80000000;
   0x80000000; 0x80000000; 0x80000000; 0x80000000;
   0x80000000; 0x80000000; 0x80000000; 0x80000000;
   0x80000000; 0x80000000; 0x80000000; 0x80000000;
   0x80000000; 0x80000000; 0x80000000; 0x80000000;
   0x80000000; 0x80000000; 0x80000000; 0x80000000;
   0x80000000; 0x80000000; 0x80000000; 0x80000000;
   0x00000000; 0x00000000; 0x00000000; 0x00000001;
   0x00000000; 0x00000002; 0x00000004; 0x00000008;
   0x00000000; 0x00000010; 0x00000020; 0x00000040;
   0x00000080; 0x00000100; 0x00000200; 0x00000400;
   0x00000000; 0x00000800; 0x00001000; 0x00002000;
   0x00004000; 0x00008000; 0x00010000; 0x00020000;
   0x80000000; 0x80000000; 0x80000000; 0x80000000;
   0x80000000; 0x80000000; 0x80000000; 0x80000000].

