(* ===== verification/Hamm.v ===== *)
(** Error protection of Teletext bytes: [src/src/hamm.c] and the inline
    functions of [src/src/hamm.h], with the correctness of the odd parity,
    Hamming 8/4 and Hamming 24/18 codes. *)
From S2P Require Import Prelude Gf2 HammTables.

(** [_vbi_hamm24_inv_par[k]], by row. *)
Definition _vbi_hamm24_inv_par (k : Z) : list Z :=
  if k =? 0 then _vbi_hamm24_inv_par_0
  else if k =? 1 then _vbi_hamm24_inv_par_1
  else _vbi_hamm24_inv_par_2.

(** ** hamm.h *)

Definition vbi_rev8 (c : Z) : Z := tbl _vbi_bit_reverse (u8 c).

Definition vbi_rev16 (c : Z) : Z :=
  tbl _vbi_bit_reverse (u8 c) * 256 + tbl _vbi_bit_reverse (u8 (c ≫ 8)).

Definition vbi_rev16p (p : list Z) : Z :=
  tbl _vbi_bit_reverse (tbl p 0) * 256 + tbl _vbi_bit_reverse (tbl p 1).

Definition vbi_par8 (c : Z) : Z :=
  let c := c .& 255 in
  (* if 0 == (inv_par[] & 32) change bit 7 of c. *)
  c .^ (128 .& Z.lnot (tbl (_vbi_hamm24_inv_par 0) c ≪ 2)).

Definition vbi_unpar8 (c : Z) : Z :=
  if tbl (_vbi_hamm24_inv_par 0) (u8 c) .& 32 =? 0 then -1 else c .& 127.

Definition vbi_ham8 (c : Z) : Z := tbl _vbi_hamm8_fwd (c .& 15).

Definition vbi_unham8 (c : Z) : Z := tbl _vbi_hamm8_inv (u8 c).

Definition vbi_unham16p (p : list Z) : Z :=
  tbl _vbi_hamm8_inv (tbl p 0) .| (tbl _vbi_hamm8_inv (tbl p 1) ≪ 4).

(** ** hamm.c *)

(** The loops run over the first [n] bytes of [p]; [None] when [p] has fewer. *)
Fixpoint vbi_par (p : list Z) (n : nat) : option (list Z) :=
  match n, p with
  | O, _ => Some p
  | S n, c :: p =>
      q ← vbi_par p n;
      Some (u8 (c .^ (128 .& Z.lnot (tbl (_vbi_hamm24_inv_par 0) c ≪ 2))) :: q)
  | S _, [] => None
  end.

(** [8 * sizeof (int) - 1 - 5] moves bit 5 to the sign bit of [r]. *)
Fixpoint vbi_unpar_loop (r : Z) (p : list Z) (n : nat) : option (Z * list Z) :=
  match n, p with
  | O, _ => Some (r, p)
  | S n, c :: p =>
      let r := s32 (r .| (Z.lnot (tbl (_vbi_hamm24_inv_par 0) c) ≪ (32 - 1 - 5))) in
      '(r, q) ← vbi_unpar_loop r p n;
      Some (r, (c .& 127) :: q)
  | S _, [] => None
  end.
Definition vbi_unpar (p : list Z) (n : nat) : option (Z * list Z) := vbi_unpar_loop 0 p n.

Definition vbi_ham24p (c : Z) : list Z :=
  let Byte_0 := tbl _vbi_hamm24_fwd_0 ((c ≫ 0) .& 0xFF)
                .^ tbl _vbi_hamm24_fwd_1 ((c ≫ 8) .& 0xFF)
                .^ tbl _vbi_hamm24_fwd_2 ((c ≫ 16) .& 0x03) in
  let D5_D11 := (c ≫ 4) .& 0x7F in
  let D12_D18 := (c ≫ 11) .& 0x7F in
  let P5 := 0x80 .& Z.lnot (tbl (_vbi_hamm24_inv_par 0) D12_D18 ≪ 2) in
  let P6 := 0x80 .& ((tbl (_vbi_hamm24_inv_par 0) Byte_0
                      .^ tbl (_vbi_hamm24_inv_par 0) D5_D11) ≪ 2) in
  [u8 Byte_0; u8 (D5_D11 .| P5); u8 (D12_D18 .| P6)].

Definition vbi_unham24p (p : list Z) : Z :=
  let D1_D4 := tbl _vbi_hamm24_inv_d1_d4 (tbl p 0 ≫ 2) in
  let D5_D11 := tbl p 1 .& 0x7F in
  let D12_D18 := tbl p 2 .& 0x7F in
  let d := s32 (D1_D4 .| (D5_D11 ≪ 4) .| (D12_D18 ≪ 11)) in
  let ABCDEF := tbl (_vbi_hamm24_inv_par 0) (tbl p 0)
                .^ tbl (_vbi_hamm24_inv_par 1) (tbl p 1)
                .^ tbl (_vbi_hamm24_inv_par 2) (tbl p 2) in
  (* Correct single bit error, set MSB on double bit error. *)
  d .^ tbl _vbi_hamm24_inv_err ABCDEF.

(** ** Bit reversal and parity *)

(** Parity of the eight bits of a byte, from its definition. *)
Definition odd_ones (c : Z) : bool :=
  foldr (λ i b, xorb (Z.testbit c i) b) false (seqZ 0 8).

Lemma u8_small c : is_byte c → u8 c = c.
Proof. intros. apply Z.mod_small. done. Qed.
Lemma u8_byte c : is_byte (u8 c).
Proof. apply Z.mod_pos_bound. done. Qed.
#[export] Hint Resolve u8_byte : core.

Lemma vbi_rev8_u8 c : vbi_rev8 (u8 c) = vbi_rev8 c.
Proof. unfold vbi_rev8. by rewrite (u8_small (u8 c)) by auto. Qed.

Lemma byte_testbit_eval (f : Z → Z) (g : Z → Z → bool) :
  forallb (λ c, forallb (λ i, eqb (Z.testbit (f c) i) (g c i)) (seqZ 0 8)) (seqZ 0 256) = true →
  ∀ c i, is_byte c → 0 ≤ i < 8 → Z.testbit (f c) i = g c i.
Proof.
  intros H c i Hc Hi. pose proof (forallb_seqZ 256 _ H c Hc) as H2. cbv beta in H2.
  apply eqb_prop, (forallb_seqZ 8 _ H2 i Hi).
Qed.

Lemma rev8_testbit_byte c i :
  is_byte c → 0 ≤ i < 8 → Z.testbit (vbi_rev8 c) i = Z.testbit c (7 - i).
Proof. revert c i. apply byte_testbit_eval. vm_compute. reflexivity. Qed.

Lemma rev8_byte c : is_byte (vbi_rev8 c).
Proof.
  rewrite <-vbi_rev8_u8. generalize (u8 c), (u8_byte c). apply (maps_by_eval 8 8).
  vm_compute. reflexivity.
Qed.
#[export] Hint Resolve rev8_byte : core.

Lemma rev8_involutive c : is_byte c → vbi_rev8 (vbi_rev8 c) = c.
Proof.
  revert c. apply (eq_by_eval 256 (λ c, vbi_rev8 (vbi_rev8 c)) (λ c, c)). vm_compute. reflexivity.
Qed.

Lemma inv_par0_parity c :
  is_byte c → (tbl (_vbi_hamm24_inv_par 0) c .& 32 =? 0) = negb (odd_ones c).
Proof.
  intros Hc. apply eqb_prop.
  refine (forallb_seqZ 256 (λ c, eqb (tbl (_vbi_hamm24_inv_par 0) c .& 32 =? 0)
    (negb (odd_ones c))) _ c Hc). vm_compute. reflexivity.
Qed.

Lemma vbi_unpar8_spec c :
  is_byte c → vbi_unpar8 c = if odd_ones c then c .& 127 else -1.
Proof.
  intros Hc. unfold vbi_unpar8. rewrite u8_small, inv_par0_parity by done.
  by destruct (odd_ones c).
Qed.

Lemma vbi_par8_low c : is_byte c → vbi_par8 c .& 127 = c .& 127.
Proof.
  revert c. apply (eq_by_eval 256 (λ c, vbi_par8 c .& 127) (λ c, c .& 127)).
  vm_compute. reflexivity.
Qed.

Lemma vbi_par8_byte c : is_byte c → is_byte (vbi_par8 c).
Proof. revert c. apply (maps_by_eval 8 8). vm_compute. reflexivity. Qed.

Lemma vbi_par8_odd c : is_byte c → odd_ones (vbi_par8 c) = true.
Proof.
  revert c. apply (forallb_seqZ 256 (λ c, odd_ones (vbi_par8 c))). vm_compute. reflexivity.
Qed.

Lemma land127_range c : 0 ≤ c .& 127 < 128.
Proof. change 127 with (Z.ones 7). rewrite Z.land_ones by done. by apply Z.mod_pos_bound. Qed.

Lemma vbi_unpar8_neg c : is_byte c → vbi_unpar8 c < 0 ↔ odd_ones c = false.
Proof.
  intros Hc. rewrite vbi_unpar8_spec by done. pose proof (land127_range c).
  destruct (odd_ones c); split; intros; try lia; done.
Qed.

(** *** The array functions *)

Lemma vbi_par_step c :
  is_byte c → u8 (c .^ (128 .& Z.lnot (tbl (_vbi_hamm24_inv_par 0) c ≪ 2))) = vbi_par8 c.
Proof.
  revert c. apply (eq_by_eval 256 _ vbi_par8). vm_compute. reflexivity.
Qed.

Lemma vbi_par_map p : bytes p → vbi_par p (length p) = Some (map vbi_par8 p).
Proof.
  induction 1 as [|c p Hc Hp IH]; cbn; [done|]. by rewrite IH; cbn; rewrite vbi_par_step.
Qed.

(** One step of the error accumulation: only the sign of [r] can change. *)
Lemma unpar_step_sign c r :
  is_byte c → -2 ^ 31 ≤ r < 2 ^ 31 →
  let r' := s32 (r .| (Z.lnot (tbl (_vbi_hamm24_inv_par 0) c) ≪ (32 - 1 - 5))) in
  -2 ^ 31 ≤ r' < 2 ^ 31 ∧ (r' < 0 ↔ r < 0 ∨ odd_ones c = false).
Proof.
  intros Hc Hr r'. split; [apply s32_range|].
  rewrite !sign_testbit by (done || apply s32_range). unfold r'.
  rewrite s32_testbit, Z.lor_spec, Z.shiftl_spec, orb_true_iff by lia. f_equiv.
  change (31 - (32 - 1 - 5)) with 5. rewrite Z.lnot_spec, negb_true_iff by lia.
  pose proof (inv_par0_parity c Hc) as H. change 32 with (2 ^ 5) in H.
  rewrite land_pow2_eqb in H by lia. by destruct (odd_ones c), (Z.testbit _ 5).
Qed.

Lemma vbi_unpar_loop_spec p r :
  bytes p → -2 ^ 31 ≤ r < 2 ^ 31 →
  ∃ r', vbi_unpar_loop r p (length p) = Some (r', map (λ c, c .& 127) p) ∧
        (r' < 0 ↔ r < 0 ∨ Exists (λ c, odd_ones c = false) p).
Proof.
  intros Hp. revert r. induction Hp as [|c p Hc Hp IH]; intros r Hr.
  { exists r. split; [done|]. rewrite Exists_nil. tauto. }
  cbn [vbi_unpar_loop length]. destruct (unpar_step_sign c r Hc Hr) as [Hr' Hs].
  destruct (IH _ Hr') as (r' & -> & Hn). exists r'. split; [done|].
  rewrite Hn, Exists_cons, Hs. tauto.
Qed.

(** ** Hamming 8/4 *)

Definition all_lt (n : Z) (P : Z → bool) : bool := forallb P (seqZ 0 n).

Lemma unham8_ham8 n : 0 ≤ n < 16 → vbi_unham8 (vbi_ham8 n) = n.
Proof.
  revert n. apply (eq_by_eval 16 (λ n, vbi_unham8 (vbi_ham8 n)) (λ n, n)). vm_compute. reflexivity.
Qed.

Lemma unham8_single n k :
  0 ≤ n < 16 → 0 ≤ k < 8 → vbi_unham8 (vbi_ham8 n .^ 2 ^ k) = n.
Proof.
  intros Hn Hk.
  pose proof (forallb_seqZ 16
    (λ n, all_lt 8 (λ k, vbi_unham8 (vbi_ham8 n .^ 2 ^ k) =? n)) ltac:(vm_compute; reflexivity)
    n Hn) as H.
  by apply Z.eqb_eq, (forallb_seqZ 8 _ H k Hk).
Qed.

Lemma unham8_double n k l :
  0 ≤ n < 16 → 0 ≤ k < 8 → 0 ≤ l < 8 → k ≠ l →
  vbi_unham8 (vbi_ham8 n .^ 2 ^ k .^ 2 ^ l) = -1.
Proof.
  intros Hn Hk Hl Hkl.
  pose proof (forallb_seqZ 16 (λ n, all_lt 8 (λ k, all_lt 8 (λ l,
    (k =? l) || (vbi_unham8 (vbi_ham8 n .^ 2 ^ k .^ 2 ^ l) =? -1))))
    ltac:(vm_compute; reflexivity) n Hn) as H.
  pose proof (forallb_seqZ 8 _ H k Hk) as H2. pose proof (forallb_seqZ 8 _ H2 l Hl) as H3.
  cbv beta in H3. apply orb_true_iff in H3. lia.
Qed.

Lemma ham8_byte n : is_byte (vbi_ham8 n).
Proof.
  unfold vbi_ham8. change 15 with (Z.ones 4). rewrite Z.land_ones by done.
  generalize (n mod 2 ^ 4), (Z.mod_pos_bound n (2 ^ 4) eq_refl). apply (maps_by_eval 4 8).
  vm_compute. reflexivity.
Qed.
#[export] Hint Resolve ham8_byte : core.

Lemma unham8_range c : -1 ≤ vbi_unham8 c < 16.
Proof.
  unfold vbi_unham8. generalize (u8 c), (u8_byte c). clear c. intros c Hc.
  pose proof (forallb_seqZ 256 (λ c, (-1 <=? tbl _vbi_hamm8_inv c) && (tbl _vbi_hamm8_inv c <? 16))
    ltac:(vm_compute; reflexivity) c Hc) as H. cbv beta in H. apply andb_true_iff in H. lia.
Qed.

(** A byte pair decodes to its two nibbles, or to a negative value when either
    byte is uncorrectable. *)
Lemma unham16p_neg p :
  is_byte (tbl p 0) → is_byte (tbl p 1) →
  vbi_unham16p p < 0 ↔ vbi_unham8 (tbl p 0) < 0 ∨ vbi_unham8 (tbl p 1) < 0.
Proof.
  intros H0 H1. unfold vbi_unham16p, vbi_unham8.
  rewrite !u8_small, lor_neg, Z.shiftl_mul_pow2 by done. lia.
Qed.

Lemma unham16p_pos p :
  is_byte (tbl p 0) → is_byte (tbl p 1) →
  0 ≤ vbi_unham8 (tbl p 0) → 0 ≤ vbi_unham8 (tbl p 1) →
  vbi_unham16p p = vbi_unham8 (tbl p 0) + vbi_unham8 (tbl p 1) * 16.
Proof.
  intros H0 H1 Hp0 Hp1. unfold vbi_unham16p.
  pose proof (unham8_range (tbl p 0)). unfold vbi_unham8 in *. rewrite !u8_small in * by done.
  rewrite Z.shiftl_mul_pow2 by done. change 16 with (2 ^ 4). apply lor_add; lia.
Qed.

Lemma unham16p_range p : is_byte (tbl p 0) → is_byte (tbl p 1) → -16 ≤ vbi_unham16p p < 256.
Proof.
  intros H0 H1. pose proof (unham8_range (tbl p 0)). pose proof (unham8_range (tbl p 1)).
  destruct (decide (0 ≤ vbi_unham8 (tbl p 0))), (decide (0 ≤ vbi_unham8 (tbl p 1)));
    [rewrite unham16p_pos by done; lia|..];
    unfold vbi_unham16p, vbi_unham8 in *; rewrite !u8_small in * by done.
  all: rewrite Z.shiftl_mul_pow2 by done.
  - replace (tbl _vbi_hamm8_inv (tbl p 1)) with (-1) by lia. rewrite lor_add; lia.
  - replace (tbl _vbi_hamm8_inv (tbl p 0)) with (-1) by lia. rewrite Z.lor_m1_l. lia.
  - replace (tbl _vbi_hamm8_inv (tbl p 0)) with (-1) by lia. rewrite Z.lor_m1_l. lia.
Qed.

(** [c] is the code of the nibble [n] with at most one bit inverted. *)
Definition ham8_near (n c : Z) : Prop :=
  c = vbi_ham8 n ∨ ∃ k, 0 ≤ k < 8 ∧ c = vbi_ham8 n .^ 2 ^ k.
(** The same for the two nibbles of a byte, the low one first. *)
Definition ham16_near (v : Z) (p : list Z) : Prop :=
  ham8_near (v mod 16) (tbl p 0) ∧ ham8_near (v / 16) (tbl p 1).

Lemma unham8_near n c : 0 ≤ n < 16 → ham8_near n c → vbi_unham8 c = n.
Proof. intros Hn [->|(k & Hk & ->)]; [by apply unham8_ham8|by apply unham8_single]. Qed.

Lemma ham8_near_byte n c : ham8_near n c → is_byte c.
Proof.
  intros [->|(k & Hk & ->)]; [apply ham8_byte|].
  apply (lxor_bound 8); [lia|apply ham8_byte|]. split; [lia|]. apply Z.pow_lt_mono_r; lia.
Qed.

Lemma unham16p_near v p : 0 ≤ v < 256 → ham16_near v p → vbi_unham16p p = v.
Proof.
  intros Hv [H0 H1].
  pose proof (unham8_near (v mod 16) _ ltac:(apply Z.mod_pos_bound; lia) H0) as E0.
  pose proof (unham8_near (v / 16) _ ltac:(Z.to_euclidean_division_equations; lia) H1) as E1.
  rewrite unham16p_pos, E0, E1; eauto using ham8_near_byte;
    Z.to_euclidean_division_equations; lia.
Qed.

(** ** Hamming 24/18 *)

#[export] Instance affine_inv_par_0 : Affine 8 (tbl (_vbi_hamm24_inv_par 0)).
Proof. apply affine_by_eval. vm_compute. reflexivity. Qed.
#[export] Instance affine_inv_par_1 : Affine 8 (tbl (_vbi_hamm24_inv_par 1)).
Proof. apply affine_by_eval. vm_compute. reflexivity. Qed.
#[export] Instance affine_inv_par_2 : Affine 8 (tbl (_vbi_hamm24_inv_par 2)).
Proof. apply affine_by_eval. vm_compute. reflexivity. Qed.
#[export] Instance affine_inv_d1_d4 : Affine 6 (tbl _vbi_hamm24_inv_d1_d4).
Proof. apply affine_by_eval. vm_compute. reflexivity. Qed.
#[export] Instance affine_fwd_0 : Affine 8 (tbl _vbi_hamm24_fwd_0).
Proof. apply affine_by_eval. vm_compute. reflexivity. Qed.
#[export] Instance affine_fwd_1 : Affine 8 (tbl _vbi_hamm24_fwd_1).
Proof. apply affine_by_eval. vm_compute. reflexivity. Qed.
#[export] Instance affine_fwd_2 : Affine 2 (tbl _vbi_hamm24_fwd_2).
Proof. apply affine_by_eval. vm_compute. reflexivity. Qed.

(** The three bytes of a codeword as maps of the data word. *)
Definition ham24_b0 (c : Z) : Z := tbl (vbi_ham24p c) 0.
Definition ham24_b1 (c : Z) : Z := tbl (vbi_ham24p c) 1.
Definition ham24_b2 (c : Z) : Z := tbl (vbi_ham24p c) 2.
(** The data bits and the syndrome [vbi_unham24p] computes from three bytes. *)
Definition unham24_data (b0 b1 b2 : Z) : Z :=
  tbl _vbi_hamm24_inv_d1_d4 (b0 ≫ 2) .^ ((b1 .& 0x7F) ≪ 4) .^ ((b2 .& 0x7F) ≪ 11).
Definition syndrome (b0 b1 b2 : Z) : Z :=
  tbl (_vbi_hamm24_inv_par 0) b0 .^ tbl (_vbi_hamm24_inv_par 1) b1
  .^ tbl (_vbi_hamm24_inv_par 2) b2.

Lemma maps_mask7 n k : Maps n 8 (λ c, (c ≫ k) .& 0x7F).
Proof. apply (maps_weaken n 7); [lia|]. by apply maps_land. Qed.
Lemma affine_inv_par_mask k :
  Affine 18 (λ c, tbl (_vbi_hamm24_inv_par 0) ((c ≫ k) .& 0x7F)).
Proof. apply (affine_comp 18 8); try apply _; [lia..|apply maps_mask7]. Qed.

Lemma maps_fwd_0 : Maps 8 8 (tbl _vbi_hamm24_fwd_0).
Proof. apply maps_by_eval. vm_compute. reflexivity. Qed.
Lemma maps_fwd_1 : Maps 8 8 (tbl _vbi_hamm24_fwd_1).
Proof. apply maps_by_eval. vm_compute. reflexivity. Qed.
Lemma maps_fwd_2 : Maps 2 8 (tbl _vbi_hamm24_fwd_2).
Proof. apply maps_by_eval. vm_compute. reflexivity. Qed.

Definition Byte_0 (c : Z) : Z :=
  tbl _vbi_hamm24_fwd_0 ((c ≫ 0) .& 0xFF) .^ tbl _vbi_hamm24_fwd_1 ((c ≫ 8) .& 0xFF)
  .^ tbl _vbi_hamm24_fwd_2 ((c ≫ 16) .& 0x03).

#[local] Instance affine_Byte_0 : Affine 18 Byte_0.
Proof.
  unfold Byte_0. apply affine_lxor; [apply affine_lxor|].
  - apply (affine_comp 18 8); try apply _; [lia..|by apply maps_land].
  - apply (affine_comp 18 8); try apply _; [lia..|by apply maps_land].
  - apply (affine_comp 18 2); try apply _; [lia..|by apply maps_land].
Qed.
Lemma maps_Byte_0 : Maps 18 8 Byte_0.
Proof.
  unfold Byte_0. apply maps_lxor; [lia|apply maps_lxor; [lia|..]|].
  - apply (maps_comp 18 8 8 _ _ (maps_land 18 8 (λ c, c ≫ 0) _ ltac:(lia) eq_refl) maps_fwd_0).
  - apply (maps_comp 18 8 8 _ _ (maps_land 18 8 (λ c, c ≫ 8) _ ltac:(lia) eq_refl) maps_fwd_1).
  - apply (maps_comp 18 2 8 _ _ (maps_land 18 2 (λ c, c ≫ 16) _ ltac:(lia) eq_refl) maps_fwd_2).
Qed.

#[local] Instance affine_ham24_b0 : Affine 18 ham24_b0.
Proof. apply (affine_ext _ _ (λ c, u8 (Byte_0 c))); [done|apply _]. Qed.
#[local] Instance affine_ham24_b1 : Affine 18 ham24_b1.
Proof.
  apply (affine_ext _ _ (λ c, u8 (((c ≫ 4) .& 0x7F) .^
    (0x80 .& Z.lnot (tbl (_vbi_hamm24_inv_par 0) ((c ≫ 11) .& 0x7F) ≪ 2))))).
  { intros c. rewrite <-lor_lxor by (by apply land_masks_disjoint). done. }
  apply affine_u8, affine_lxor; [apply _|].
  apply affine_land_l, affine_lnot, affine_shiftl, affine_inv_par_mask.
Qed.
#[local] Instance affine_ham24_b2 : Affine 18 ham24_b2.
Proof.
  apply (affine_ext _ _ (λ c, u8 (((c ≫ 11) .& 0x7F) .^
    (0x80 .& ((tbl (_vbi_hamm24_inv_par 0) (Byte_0 c)
               .^ tbl (_vbi_hamm24_inv_par 0) ((c ≫ 4) .& 0x7F)) ≪ 2))))).
  { intros c. rewrite <-lor_lxor by (by apply land_masks_disjoint). done. }
  apply affine_u8, affine_lxor; [apply _|].
  apply affine_land_l, affine_shiftl, affine_lxor; [|apply affine_inv_par_mask].
  apply (affine_comp 18 8); try apply _; [lia..|apply maps_Byte_0].
Qed.

Lemma ham24_bytes c : vbi_ham24p c = [ham24_b0 c; ham24_b1 c; ham24_b2 c].
Proof. done. Qed.
Lemma ham24_byte c :
  is_byte (ham24_b0 c) ∧ is_byte (ham24_b1 c) ∧ is_byte (ham24_b2 c).
Proof. repeat split; apply Z.mod_pos_bound; done. Qed.

(** Codewords have no syndrome and carry their data. *)
Lemma syndrome_codeword c :
  0 ≤ c < 2 ^ 18 → syndrome (ham24_b0 c) (ham24_b1 c) (ham24_b2 c) = 0.
Proof.
  revert c. apply (affine_eq_eval 18 _ (λ _, 0)); [lia| |apply _|vm_compute; reflexivity].
  unfold syndrome. apply affine_lxor; [apply affine_lxor|];
    (apply (affine_comp 18 8); try apply _; [lia..|]; intros c _; apply ham24_byte).
Qed.
Lemma data_codeword c :
  0 ≤ c < 2 ^ 18 → unham24_data (ham24_b0 c) (ham24_b1 c) (ham24_b2 c) = c.
Proof.
  revert c. apply (affine_eq_eval 18 _ (λ c, c)); [lia| |apply _|vm_compute; reflexivity].
  unfold unham24_data. apply affine_lxor; [apply affine_lxor|]; try apply _.
  apply (affine_comp 18 6); try apply _; [lia..|].
  intros c _. rewrite Z.shiftr_div_pow2 by lia. pose proof (ham24_byte c) as (H & _).
  unfold is_byte in H. split; [apply Z.div_pos; lia|apply Z.div_lt_upper_bound; lia].
Qed.

Lemma unham24p_eq b0 b1 b2 :
  is_byte b0 → vbi_unham24p [b0; b1; b2]
  = unham24_data b0 b1 b2 .^ tbl _vbi_hamm24_inv_err (syndrome b0 b1 b2).
Proof.
  intros H0. unfold vbi_unham24p. change (tbl [b0; b1; b2] 0) with b0.
  change (tbl [b0; b1; b2] 1) with b1. change (tbl [b0; b1; b2] 2) with b2.
  cbv zeta. f_equal. unfold unham24_data.
  assert (0 ≤ tbl _vbi_hamm24_inv_d1_d4 (b0 ≫ 2) < 2 ^ 4) as Hd.
  { revert b0 H0. apply (maps_by_eval 8 4). vm_compute. reflexivity. }
  assert (∀ x, 0 ≤ x .& 0x7F < 2 ^ 7) as H7 by (intros; apply land127_range).
  rewrite (lor_lxor (tbl _ _)) by (by apply land_small_shiftl).
  pose proof (lxor_shiftl_bound _ _ 4 7 ltac:(lia) ltac:(lia) Hd (H7 b1)).
  rewrite lor_lxor by (by apply land_small_shiftl).
  pose proof (lxor_shiftl_bound (tbl _vbi_hamm24_inv_d1_d4 (b0 ≫ 2) .^ ((b1 .& 0x7F) ≪ 4))
    (b2 .& 0x7F) 11 7 ltac:(lia) ltac:(lia)).
  apply s32_small. specialize (H7 b2). lia.
Qed.

(** Transmission errors: the 24 bit pattern [e] flips bits of a triplet. *)
Definition add_error (e : Z) (p : list Z) : list Z :=
  [tbl p 0 .^ u8 e; tbl p 1 .^ u8 (e ≫ 8); tbl p 2 .^ u8 (e ≫ 16)].

Definition error_data (e : Z) : Z :=
  unham24_data (u8 e) (u8 (e ≫ 8)) (u8 (e ≫ 16)) .^ unham24_data 0 0 0.
Definition error_syndrome (e : Z) : Z :=
  syndrome (u8 e) (u8 (e ≫ 8)) (u8 (e ≫ 16)) .^ syndrome 0 0 0.

Lemma syndrome_lxor a0 a1 a2 b0 b1 b2 :
  is_byte a0 → is_byte a1 → is_byte a2 → is_byte b0 → is_byte b1 → is_byte b2 →
  syndrome (a0 .^ b0) (a1 .^ b1) (a2 .^ b2)
  = syndrome a0 a1 a2 .^ (syndrome b0 b1 b2 .^ syndrome 0 0 0).
Proof.
  intros. unfold syndrome.
  rewrite (affine_inv_par_0 a0 b0), (affine_inv_par_1 a1 b1), (affine_inv_par_2 a2 b2) by done.
  xor_eq.
Qed.

Lemma data_lxor a0 a1 a2 b0 b1 b2 :
  is_byte a0 → is_byte b0 →
  unham24_data (a0 .^ b0) (a1 .^ b1) (a2 .^ b2)
  = unham24_data a0 a1 a2 .^ (unham24_data b0 b1 b2 .^ unham24_data 0 0 0).
Proof.
  intros H0 H1. unfold unham24_data. rewrite Z.shiftr_lxor.
  assert (∀ x, is_byte x → 0 ≤ x ≫ 2 < 2 ^ 6) as Hs.
  { intros x Hx. rewrite Z.shiftr_div_pow2 by lia. unfold is_byte in Hx.
    split; [apply Z.div_pos; lia|apply Z.div_lt_upper_bound; lia]. }
  rewrite (affine_inv_d1_d4 (a0 ≫ 2)) by auto.
  assert (∀ x y, (x .^ y) .& 0x7F = (x .& 0x7F) .^ (y .& 0x7F)) as Hl by (intros; xor_eq).
  rewrite !Hl, !Z.shiftl_lxor. change (0 ≫ 2) with 0.
  change ((0 .& 0x7F) ≪ 4) with 0. change ((0 .& 0x7F) ≪ 11) with 0. xor_eq.
Qed.

(** What the decoder makes of a damaged codeword depends on the data only
    through an [xor] with the effect of the error pattern. *)
Lemma unham24p_error c e :
  0 ≤ c < 2 ^ 18 →
  vbi_unham24p (add_error e (vbi_ham24p c))
  = c .^ (error_data e .^ tbl _vbi_hamm24_inv_err (error_syndrome e)).
Proof.
  intros Hc. destruct (ham24_byte c) as (H0 & H1 & H2). unfold add_error.
  change (tbl (vbi_ham24p c) 0) with (ham24_b0 c). change (tbl (vbi_ham24p c) 1) with (ham24_b1 c).
  change (tbl (vbi_ham24p c) 2) with (ham24_b2 c).
  rewrite unham24p_eq by (apply (lxor_bound 8); auto; lia || apply u8_byte).
  rewrite data_lxor, syndrome_lxor by auto. rewrite data_codeword, syndrome_codeword by done.
  rewrite Z.lxor_0_l, Z.lxor_assoc. done.
Qed.

Lemma error_effect_single k :
  0 ≤ k < 24 → error_data (2 ^ k) .^ tbl _vbi_hamm24_inv_err (error_syndrome (2 ^ k)) = 0.
Proof.
  revert k. apply (eq_by_eval 24 (λ k, error_data (2 ^ k) .^
    tbl _vbi_hamm24_inv_err (error_syndrome (2 ^ k))) (λ _, 0)). vm_compute. reflexivity.
Qed.

Lemma error_effect_double k l :
  0 ≤ k < 24 → 0 ≤ l < 24 → k ≠ l →
  error_data (2 ^ k .^ 2 ^ l) .^ tbl _vbi_hamm24_inv_err (error_syndrome (2 ^ k .^ 2 ^ l)) < 0.
Proof.
  intros Hk Hl Hkl.
  pose proof (forallb_seqZ 24 (λ k, all_lt 24 (λ l, (k =? l) ||
    (error_data (2 ^ k .^ 2 ^ l) .^ tbl _vbi_hamm24_inv_err (error_syndrome (2 ^ k .^ 2 ^ l)) <? 0)))
    ltac:(vm_compute; reflexivity) k Hk) as H.
  pose proof (forallb_seqZ 24 _ H l Hl) as H2. cbv beta in H2. apply orb_true_iff in H2. lia.
Qed.

(** ** Properties *)

(** C1: Hamming 24/18 as [vbi_ham24p] and [vbi_unham24p] implement it: every 18 bit
    word decodes to itself, also when any one of the 24 transmitted bits is
    flipped, and flipping any two bits gives a negative result. *)
Theorem hamming24_correct c :
  0 ≤ c < 2 ^ 18 →
  vbi_unham24p (vbi_ham24p c) = c ∧
  (∀ k, 0 ≤ k < 24 → vbi_unham24p (add_error (2 ^ k) (vbi_ham24p c)) = c) ∧
  (∀ k l, 0 ≤ k < 24 → 0 ≤ l < 24 → k ≠ l →
     vbi_unham24p (add_error (2 ^ k .^ 2 ^ l) (vbi_ham24p c)) < 0).
Proof.
  intros Hc. split; [|split].
  - rewrite ham24_bytes, unham24p_eq by apply ham24_byte.
    rewrite data_codeword, syndrome_codeword by done. apply Z.lxor_0_r.
  - intros k Hk. rewrite unham24p_error, error_effect_single by done. apply Z.lxor_0_r.
  - intros k l Hk Hl Hkl. rewrite unham24p_error by done.
    pose proof (error_effect_double k l Hk Hl Hkl).
    pose proof (Z.lxor_nonneg c (error_data (2 ^ k .^ 2 ^ l)
      .^ tbl _vbi_hamm24_inv_err (error_syndrome (2 ^ k .^ 2 ^ l)))). lia.
Qed.
Lemma hamming24_correct_witness :
  vbi_unham24p (add_error (2 ^ 9) (vbi_ham24p 0x2A5C3)) = 0x2A5C3.
Proof. apply (hamming24_correct 0x2A5C3 ltac:(lia)). lia. Defined.

(** Hamming 8/4: a nibble survives [vbi_ham8] and [vbi_unham8], also with any
    one bit flipped, and two flipped bits are reported as -1. *)
Theorem hamming8_correct n :
  0 ≤ n < 16 →
  vbi_unham8 (vbi_ham8 n) = n ∧
  (∀ k, 0 ≤ k < 8 → vbi_unham8 (vbi_ham8 n .^ 2 ^ k) = n) ∧
  (∀ k l, 0 ≤ k < 8 → 0 ≤ l < 8 → k ≠ l → vbi_unham8 (vbi_ham8 n .^ 2 ^ k .^ 2 ^ l) = -1).
Proof. auto using unham8_ham8, unham8_single, unham8_double. Qed.
Lemma hamming8_correct_witness : vbi_unham8 (vbi_ham8 11 .^ 2 ^ 3) = 11.
Proof. apply (hamming8_correct 11 ltac:(lia)). lia. Defined.

(** Odd parity over an array: [vbi_par] changes only the top bit of each byte
    and leaves every byte with odd parity, and [vbi_unpar] strips the top bits
    and returns a negative value exactly when some byte had even parity. *)
Theorem parity_correct p :
  bytes p →
  (∃ q, vbi_par p (length p) = Some q ∧ Forall (λ c, odd_ones c = true) q ∧
        map (λ c, c .& 127) q = map (λ c, c .& 127) p) ∧
  (∃ r, vbi_unpar p (length p) = Some (r, map (λ c, c .& 127) p) ∧
        (r < 0 ↔ Exists (λ c, odd_ones c = false) p)).
Proof.
  intros Hp. split.
  - exists (map vbi_par8 p). split; [by apply vbi_par_map|]. split.
    + induction Hp; constructor; auto using vbi_par8_odd.
    + induction Hp; cbn; [done|]. rewrite vbi_par8_low by done. by f_equal.
  - destruct (vbi_unpar_loop_spec p 0 Hp ltac:(lia)) as (r & E & Hr).
    exists r. split; [done|]. rewrite Hr. lia || intuition lia.
Qed.
Lemma parity_correct_witness :
  ∃ r, vbi_unpar [0x41; 0xC1] 2 = Some (r, [0x41; 0x41]) ∧ r < 0.
Proof.
  destruct (parity_correct [0x41; 0xC1]) as [_ (r & E & Hr)].
  - repeat constructor; lia.
  - exists r. split; [done|]. apply Hr. apply Exists_cons_hd. vm_compute. reflexivity.
Defined.
