(* ===== verification/HammGen.v ===== *)
(** The table generator [src/src/hammgen.c]: its three functions as programs
    that fill the arrays, and the proof that the tables checked in as
    [hamm-tables.h] are the ones it computes. *)
From S2P Require Import Prelude HammTables.

(** The static arrays of the generator. *)
Record tables := Tables {
  bit_reverse : list Z;
  hamm8_fwd : list Z;
  hamm8_inv : list Z;
  hamm24_fwd_0 : list Z;
  hamm24_fwd_1 : list Z;
  hamm24_fwd_2 : list Z;
  hamm24_inv_par_0 : list Z;
  hamm24_inv_par_1 : list Z;
  hamm24_inv_par_2 : list Z;
  hamm24_inv_d1_d4 : list Z;
  hamm24_inv_err : list Z;
}.

Definition zeros (n : nat) : list Z := replicate n 0.
Definition static_tables : tables :=
  Tables (zeros 256) (zeros 16) (zeros 256) (zeros 256) (zeros 256) (zeros 4)
    (zeros 256) (zeros 256) (zeros 256) (zeros 64) (zeros 64).

(** [array[i] = x], for an index the loops keep inside the array. *)
Definition set (l : list Z) (i x : Z) : list Z := <[Z.to_nat i := x]> l.

(** [for (i = 0; i < n; ++i) st = f (i, st)] *)
Definition for_ {A} (n : Z) (f : Z → A → A) (st : A) : A :=
  fold_left (λ st i, f i st) (seqZ 0 n) st.

Definition bit (i k : Z) : Z := (i ≫ k) .& 1.

Definition generate_hamm24_inv_tables (st : tables) : tables :=
  let '(d1_d4, par0, par1, par2) :=
    for_ 256 (λ i '(d1_d4, par0, par1, par2),
      let P1 := bit i 0 in let P2 := bit i 1 in let D1 := bit i 2 in let P3 := bit i 3 in
      let D2 := bit i 4 in let D3 := bit i 5 in let D4 := bit i 6 in let P4 := bit i 7 in
      let D5 := bit i 0 in let D6 := bit i 1 in let D7 := bit i 2 in let D8 := bit i 3 in
      let D9 := bit i 4 in let D10 := bit i 5 in let D11 := bit i 6 in let P5 := bit i 7 in
      let D12 := bit i 0 in let D13 := bit i 1 in let D14 := bit i 2 in let D15 := bit i 3 in
      let D16 := bit i 4 in let D17 := bit i 5 in let D18 := bit i 6 in let P6 := bit i 7 in
      let d1_d4 := set d1_d4 (i ≫ 2) (u8 ((D1 ≪ 0) + (D2 ≪ 1) + (D3 ≪ 2) + (D4 ≪ 3))) in
      let A := P1 .^ D1 .^ D2 .^ D4 in
      let B := P2 .^ D1 .^ D3 .^ D4 in
      let C := P3 .^ D2 .^ D3 .^ D4 in
      let D := P4 in
      let E := 0 in
      let F := P1 .^ P2 .^ D1 .^ P3 .^ D2 .^ D3 .^ D4 .^ P4 in
      let par0 := set par0 i
        (s8 ((A ≪ 0) + (B ≪ 1) + (C ≪ 2) + (D ≪ 3) + (E ≪ 4) + (F ≪ 5))) in
      let A := D5 .^ D7 .^ D9 .^ D11 in
      let B := D6 .^ D7 .^ D10 .^ D11 in
      let C := D8 .^ D9 .^ D10 .^ D11 in
      let D := D5 .^ D6 .^ D7 .^ D8 .^ D9 .^ D10 .^ D11 in
      let E := P5 in
      let F := D5 .^ D6 .^ D7 .^ D8 .^ D9 .^ D10 .^ D11 .^ P5 in
      let par1 := set par1 i
        (s8 ((A ≪ 0) + (B ≪ 1) + (C ≪ 2) + (D ≪ 3) + (E ≪ 4) + (F ≪ 5))) in
      let A := D12 .^ D14 .^ D16 .^ D18 in
      let B := D13 .^ D14 .^ D17 .^ D18 in
      let C := D15 .^ D16 .^ D17 .^ D18 in
      let D := 0 in
      let E := D12 .^ D13 .^ D14 .^ D15 .^ D16 .^ D17 .^ D18 in
      let F := D12 .^ D13 .^ D14 .^ D15 .^ D16 .^ D17 .^ D18 .^ P6 in
      let par2 := set par2 i
        (s8 ((A ≪ 0) + (B ≪ 1) + (C ≪ 2) + (D ≪ 3) + (E ≪ 4) + (F ≪ 5))) in
      (* For compatibility with earlier versions of libzvbi. *)
      let par2 := set par2 i (s8 (tbl par2 i .^ 0x3F)) in
      (d1_d4, par0, par1, par2))
    (hamm24_inv_d1_d4 st, hamm24_inv_par_0 st, hamm24_inv_par_1 st, hamm24_inv_par_2 st) in
  let err := for_ 64 (λ i err,
      (* Undo the ^ 0x3F in _vbi_hamm24_inv_par[2][]. *)
      let ii := i .^ 0x3F in
      if 0 =? ii then set err ii 0
      else if (0 =? ii .& 0x1F) && (0x20 =? ii .& 0x20) then set err ii 0
      else if 0x20 =? i .& 0x20 then set err ii (s32 (1 ≪ 31))
      else
        let Byte_0_3 := 1 ≪ ((ii .& 0x1F) - 1) in
        if 1 ≪ 23 <=? Byte_0_3 then set err ii (s32 (1 ≪ 31))
        else set err ii
          (s32 (((Byte_0_3 .& 0x000004) ≫ (3 - 1))
                + ((Byte_0_3 .& 0x000070) ≫ (5 - 2))
                + ((Byte_0_3 .& 0x007F00) ≫ (9 - 5))
                + ((Byte_0_3 .& 0x7F0000) ≫ (17 - 12)))))
    (hamm24_inv_err st) in
  Tables (bit_reverse st) (hamm8_fwd st) (hamm8_inv st)
    (hamm24_fwd_0 st) (hamm24_fwd_1 st) (hamm24_fwd_2 st) par0 par1 par2 d1_d4 err.

Definition generate_hamm24_fwd_tables (st : tables) : tables :=
  let fwd_0 := for_ 256 (λ i fwd_0,
      let D1 := bit i 0 in let D2 := bit i 1 in let D3 := bit i 2 in let D4 := bit i 3 in
      let D5 := bit i 4 in let D6 := bit i 5 in let D7 := bit i 6 in let D8 := bit i 7 in
      let P1 := 1 .^ D1 .^ D2 .^ D4 .^ D5 .^ D7 in
      let P2 := 1 .^ D1 .^ D3 .^ D4 .^ D6 .^ D7 in
      let P3 := 1 .^ D2 .^ D3 .^ D4 .^ D8 in
      let P4 := 1 .^ D5 .^ D6 .^ D7 .^ D8 in
      set fwd_0 i (u8 ((P1 ≪ 0) + (P2 ≪ 1) + (D1 ≪ 2) + (P3 ≪ 3) + (D2 ≪ 4)
                       + (D3 ≪ 5) + (D4 ≪ 6) + (P4 ≪ 7))))
    (hamm24_fwd_0 st) in
  let fwd_1 := for_ 256 (λ i fwd_1,
      let D9 := bit i 0 in let D10 := bit i 1 in let D11 := bit i 2 in let D12 := bit i 3 in
      let D13 := bit i 4 in let D14 := bit i 5 in let D15 := bit i 6 in let D16 := bit i 7 in
      let P1 := D9 .^ D11 .^ D12 .^ D14 .^ D16 in
      let P2 := D10 .^ D11 .^ D13 .^ D14 in
      let P3 := D9 .^ D10 .^ D11 .^ D15 .^ D16 in
      let P4 := D9 .^ D10 .^ D11 in
      set fwd_1 i (u8 ((P1 ≪ 0) + (P2 ≪ 1) + (P3 ≪ 3) + (P4 ≪ 7))))
    (hamm24_fwd_1 st) in
  let fwd_2 := for_ 4 (λ i fwd_2,
      let D17 := bit i 0 in let D18 := bit i 1 in
      let P1 := D18 in
      let P2 := D17 .^ D18 in
      let P3 := D17 .^ D18 in
      let P4 := 0 in
      set fwd_2 i (u8 ((P1 ≪ 0) + (P2 ≪ 1) + (P3 ≪ 3) + (P4 ≪ 7))))
    (hamm24_fwd_2 st) in
  Tables (bit_reverse st) (hamm8_fwd st) (hamm8_inv st) fwd_0 fwd_1 fwd_2
    (hamm24_inv_par_0 st) (hamm24_inv_par_1 st) (hamm24_inv_par_2 st)
    (hamm24_inv_d1_d4 st) (hamm24_inv_err st).

Definition generate_hamm8_tables (st : tables) : tables :=
  (* Uncorrectable double bit errors: memset (_vbi_hamm8_inv, -1, ...). *)
  let inv := replicate 256 (-1) in
  let '(fwd, inv) := for_ 16 (λ i '(fwd, inv),
      let D1 := bit i 0 in let D2 := bit i 1 in let D3 := bit i 2 in let D4 := bit i 3 in
      let P1 := 1 .^ D1 .^ D3 .^ D4 in
      let P2 := 1 .^ D1 .^ D2 .^ D4 in
      let P3 := 1 .^ D1 .^ D2 .^ D3 in
      let P4 := 1 .^ P1 .^ D1 .^ P2 .^ D2 .^ P3 .^ D3 .^ D4 in
      let c := (P1 ≪ 0) + (D1 ≪ 1) + (P2 ≪ 2) + (D2 ≪ 3) + (P3 ≪ 4) + (D3 ≪ 5)
               + (P4 ≪ 6) + (D4 ≪ 7) in
      let fwd := set fwd i (u8 c) in
      let inv := set inv c (s8 i) in
      (* Single bit errors. *)
      let inv := for_ 8 (λ j inv, set inv (c .^ (1 ≪ j)) (s8 i)) inv in
      (fwd, inv)) (hamm8_fwd st, inv) in
  Tables (bit_reverse st) fwd inv (hamm24_fwd_0 st) (hamm24_fwd_1 st) (hamm24_fwd_2 st)
    (hamm24_inv_par_0 st) (hamm24_inv_par_1 st) (hamm24_inv_par_2 st)
    (hamm24_inv_d1_d4 st) (hamm24_inv_err st).

Definition generate_tables (st : tables) : tables :=
  let rev := for_ 256 (λ i rev,
      set rev i (u8 (((i .& 0x80) ≫ 7) + ((i .& 0x40) ≫ 5) + ((i .& 0x20) ≫ 3)
                     + ((i .& 0x10) ≫ 1) + ((i .& 0x08) ≪ 1) + ((i .& 0x04) ≪ 3)
                     + ((i .& 0x02) ≪ 5) + ((i .& 0x01) ≪ 7))))
    (bit_reverse st) in
  let st := Tables rev (hamm8_fwd st) (hamm8_inv st)
    (hamm24_fwd_0 st) (hamm24_fwd_1 st) (hamm24_fwd_2 st)
    (hamm24_inv_par_0 st) (hamm24_inv_par_1 st) (hamm24_inv_par_2 st)
    (hamm24_inv_d1_d4 st) (hamm24_inv_err st) in
  let st := generate_hamm8_tables st in
  let st := generate_hamm24_fwd_tables st in
  generate_hamm24_inv_tables st.

(** Running the generator from its zeroed static arrays yields exactly the
    tables the library is compiled with. *)
Theorem generated_tables_checked_in :
  generate_tables static_tables =
  Tables _vbi_bit_reverse _vbi_hamm8_fwd _vbi_hamm8_inv _vbi_hamm24_fwd_0 _vbi_hamm24_fwd_1
    _vbi_hamm24_fwd_2 _vbi_hamm24_inv_par_0 _vbi_hamm24_inv_par_1 _vbi_hamm24_inv_par_2
    _vbi_hamm24_inv_d1_d4 _vbi_hamm24_inv_err.
Proof. vm_compute. reflexivity. Qed.
