(* ===== verification/Bcd.v ===== *)
(** Packed binary coded decimal numbers: the inline functions of
    [src/src/bcd.h], with the correctness of the carry tricks they use. *)
From S2P Require Import Prelude.

Definition vbi_dec2bcd (dec : Z) : Z :=
  (dec mod 10) + ((dec / 10) mod 10) * 16 + ((dec / 100) mod 10) * 256.

Definition vbi_bcd2dec (bcd : Z) : Z :=
  (bcd .& 15) + ((bcd ≫ 4) .& 15) * 10 + ((bcd ≫ 8) .& 15) * 100.

(** The arguments are [unsigned int]; [int] arguments are converted. *)
Definition vbi_add_bcd (a b : Z) : Z :=
  let a := u32 (u32 a + 0x06666666) in
  let b := u32 b in
  let t := u32 (a + b) in
  let b := b .^ (a .^ t) in
  let b := (u32 (Z.lnot b) .& 0x11111110) ≫ 3 in
  let b := b .| u32 (b * 2) in
  u32 (t - b).

Definition vbi_is_bcd (bcd : Z) : bool :=
  let bcd := u32 bcd in
  let x := 0x06666666 in
  (u32 (bcd + x) .^ (bcd .^ x)) .& 0x11111110 =? 0.

Definition vbi_bcd_digits_greater (bcd maximum : Z) : bool :=
  let bcd := u32 bcd in
  let maximum := u32 maximum .^ u32 (Z.lnot 0) in
  negb ((u32 (bcd + maximum) .^ bcd .^ maximum) .& 0x11111110 =? 0).

(** ** Digits *)

(** Hex digit [i] of a number. *)
Definition digit (n i : Z) : Z := (n / 16 ^ i) mod 16.

Lemma digit_range n i : 0 ≤ digit n i < 16.
Proof. by apply Z.mod_pos_bound. Qed.

(** The value of seven decimal digits, and of a number in ten's complement
    notation, whose top digit is 0 or 15. *)
Definition dec7 (n : Z) : Z :=
  digit n 0 + digit n 1 * 10 + digit n 2 * 10 ^ 2 + digit n 3 * 10 ^ 3 + digit n 4 * 10 ^ 4
  + digit n 5 * 10 ^ 5 + digit n 6 * 10 ^ 6.
Definition sdec (n : Z) : Z := dec7 n - (if digit n 7 =? 15 then 10 ^ 7 else 0).

(** Digits 0 to 6 are decimal digits. *)
Definition decimal (n : Z) : Prop := ∀ i, 0 ≤ i < 7 → digit n i ≤ 9.
Definition signed_decimal (n : Z) : Prop := decimal n ∧ (digit n 7 = 0 ∨ digit n 7 = 15).

Lemma digits_sum n :
  0 ≤ n < 2 ^ 32 →
  n = digit n 0 + digit n 1 * 16 + digit n 2 * 16 ^ 2 + digit n 3 * 16 ^ 3 + digit n 4 * 16 ^ 4
      + digit n 5 * 16 ^ 5 + digit n 6 * 16 ^ 6 + digit n 7 * 16 ^ 7.
Proof.
  intros Hn. unfold digit.
  change (16 ^ 0) with 1. change (16 ^ 1) with 16. rewrite Z.div_1_r.
  replace (n / 16 ^ 2) with (n / 16 / 16) by (rewrite Z.div_div by lia; done).
  replace (n / 16 ^ 3) with (n / 16 / 16 / 16) by (rewrite !Z.div_div by lia; done).
  replace (n / 16 ^ 4) with (n / 16 / 16 / 16 / 16) by (rewrite !Z.div_div by lia; done).
  replace (n / 16 ^ 5) with (n / 16 / 16 / 16 / 16 / 16) by (rewrite !Z.div_div by lia; done).
  replace (n / 16 ^ 6) with (n / 16 / 16 / 16 / 16 / 16 / 16) by (rewrite !Z.div_div by lia; done).
  replace (n / 16 ^ 7) with (n / 16 / 16 / 16 / 16 / 16 / 16 / 16)
    by (rewrite !Z.div_div by lia; done).
  Z.to_euclidean_division_equations. lia.
Qed.

(** A sum of eight nibbles has these digits. *)
Lemma digit_of_sum a0 a1 a2 a3 a4 a5 a6 a7 n :
  0 ≤ a0 < 16 → 0 ≤ a1 < 16 → 0 ≤ a2 < 16 → 0 ≤ a3 < 16 → 0 ≤ a4 < 16 → 0 ≤ a5 < 16 →
  0 ≤ a6 < 16 → 0 ≤ a7 < 16 →
  n = a0 + a1 * 16 + a2 * 16 ^ 2 + a3 * 16 ^ 3 + a4 * 16 ^ 4 + a5 * 16 ^ 5 + a6 * 16 ^ 6
      + a7 * 16 ^ 7 →
  digit n 0 = a0 ∧ digit n 1 = a1 ∧ digit n 2 = a2 ∧ digit n 3 = a3 ∧ digit n 4 = a4 ∧
  digit n 5 = a5 ∧ digit n 6 = a6 ∧ digit n 7 = a7.
Proof.
  intros H0 H1 H2 H3 H4 H5 H6 H7 ->.
  unfold digit. repeat split; symmetry;
    match goal with |- ?a = (?s / ?d) mod 16 =>
      apply (Z.mod_unique_pos _ _ (s / (d * 16))); [lia|] end;
    cbn [Z.pow Z.pow_pos Pos.iter Z.mul Pos.mul]; Z.to_euclidean_division_equations; lia.
Qed.

(** The carries into hex digits 1 to 7 as bits of a mask. *)
Lemma land_carry_mask z :
  z .& 0x11111110 =
  Z.b2z (Z.testbit z 4) * 16 + Z.b2z (Z.testbit z 8) * 16 ^ 2 + Z.b2z (Z.testbit z 12) * 16 ^ 3
  + Z.b2z (Z.testbit z 16) * 16 ^ 4 + Z.b2z (Z.testbit z 20) * 16 ^ 5
  + Z.b2z (Z.testbit z 24) * 16 ^ 6 + Z.b2z (Z.testbit z 28) * 16 ^ 7.
Proof.
  change 0x11111110 with (16 * 0x1111111 + 0). rewrite land_nibble by lia.
  change 0x1111111 with (16 * 0x111111 + 1). rewrite land_nibble by lia.
  change 0x111111 with (16 * 0x11111 + 1). rewrite land_nibble by lia.
  change 0x11111 with (16 * 0x1111 + 1). rewrite land_nibble by lia.
  change 0x1111 with (16 * 0x111 + 1). rewrite land_nibble by lia.
  change 0x111 with (16 * 0x11 + 1). rewrite land_nibble by lia.
  change 0x11 with (16 * 0x1 + 1). rewrite land_nibble by lia.
  change 0x1 with (16 * 0 + 1). rewrite land_nibble by lia.
  rewrite !Z.land_0_r, !Z.div_div by lia.
  rewrite <-!land_1_testbit by lia. simpl_const. lia.
Qed.

(** The carry into hex digit [j] when [x] and [y] are added. *)
Definition nibble_carry (x y j : Z) : bool := carry x y (4 * j).

Lemma add_carry_mask x y :
  0 ≤ x < 2 ^ 32 → 0 ≤ y < 2 ^ 32 →
  ∀ k, 0 ≤ k < 32 → Z.testbit (y .^ (x .^ u32 (x + y))) k = carry x y k.
Proof.
  intros Hx Hy k Hk. rewrite <-carry_testbit by lia.
  rewrite !Z.lxor_spec, u32_testbit by lia.
  destruct (Z.testbit x k), (Z.testbit y k), (Z.testbit (x + y) k); done.
Qed.

(** A carry leaves digit [j] exactly when digit, digit and incoming carry
    reach the base. *)
Lemma carry_step x y j :
  0 ≤ j → carry x y (4 * (j + 1)) = (16 <=? digit x j + digit y j + Z.b2z (carry x y (4 * j))).
Proof.
  intros Hj. unfold carry, digit. rewrite Z.mul_add_distr_l, Z.pow_add_r by lia.
  replace (2 ^ (4 * j)) with (16 ^ j) by (rewrite Z.pow_mul_r by lia; done).
  change (2 ^ (4 * 1)) with 16. set (B := 16 ^ j). assert (0 < B) by (subst B; lia).
  rewrite !Z.rem_mul_r by lia. set (xd := (x / B) mod 16). set (yd := (y / B) mod 16).
  pose proof (Z.mod_pos_bound x B). pose proof (Z.mod_pos_bound y B).
  set (xl := x mod B) in *. set (yl := y mod B) in *.
  destruct (Z.leb_spec B (xl + yl)); cbn [Z.b2z];
    match goal with |- (?a <=? ?b) = (?c <=? ?d) =>
      destruct (Z.leb_spec a b), (Z.leb_spec c d); try reflexivity; exfalso end; nia.
Qed.

Lemma carry_0 x y : carry x y 0 = false.
Proof. unfold carry. rewrite !Z.mod_1_r. done. Qed.

(** ** Validity and comparison *)

(** The mask is empty when no digit up to digit 6 produces a carry. *)
Lemma carry_mask_zero x y :
  0 ≤ x < 2 ^ 32 → 0 ≤ y < 2 ^ 32 →
  ((u32 (x + y) .^ x .^ y) .& 0x11111110 =? 0) = true ↔
  ∀ j, 0 < j ≤ 7 → carry x y (4 * j) = false.
Proof.
  intros Hx Hy. rewrite land_carry_mask.
  assert (∀ k, 0 ≤ k < 32 → Z.testbit (u32 (x + y) .^ x .^ y) k = carry x y k) as H.
  { intros k Hk. rewrite <-carry_testbit by lia. by rewrite !Z.lxor_spec, u32_testbit by lia. }
  rewrite !H by lia. split.
  - intros E j Hj.
    assert (j = 1 ∨ j = 2 ∨ j = 3 ∨ j = 4 ∨ j = 5 ∨ j = 6 ∨ j = 7) as Hc by lia.
    destruct (carry x y 4) eqn:E1, (carry x y 8) eqn:E2, (carry x y 12) eqn:E3,
      (carry x y 16) eqn:E4, (carry x y 20) eqn:E5, (carry x y 24) eqn:E6,
      (carry x y 28) eqn:E7; try discriminate E.
    destruct Hc as [->|[->|[->|[->|[->|[->| ->]]]]]]; done.
  - intros E.
    assert (carry x y 4 = false) as E1 by (apply (E 1); lia).
    assert (carry x y 8 = false) as E2 by (apply (E 2); lia).
    assert (carry x y 12 = false) as E3 by (apply (E 3); lia).
    assert (carry x y 16 = false) as E4 by (apply (E 4); lia).
    assert (carry x y 20 = false) as E5 by (apply (E 5); lia).
    assert (carry x y 24 = false) as E6 by (apply (E 6); lia).
    assert (carry x y 28 = false) as E7 by (apply (E 7); lia).
    by rewrite E1, E2, E3, E4, E5, E6, E7.
Qed.

Lemma no_carry_iff x y :
  (∀ j, 0 < j ≤ 7 → carry x y (4 * j) = false) ↔
  (∀ j, 0 ≤ j < 7 → digit x j + digit y j < 16).
Proof.
  split; intros H.
  - intros j Hj. pose proof (H (j + 1) ltac:(lia)) as Hc. rewrite carry_step in Hc by lia.
    destruct (carry x y (4 * j)); cbn [Z.b2z] in Hc; lia.
  - intros j Hj. replace j with (Z.of_nat (Z.to_nat j)) in * by lia.
    revert Hj. induction (Z.to_nat j) as [|k IH]; [lia|]. intros Hk.
    replace (Z.of_nat (S k)) with (Z.of_nat k + 1) in * by lia. rewrite carry_step by lia.
    assert (carry x y (4 * Z.of_nat k) = false) as ->.
    { destruct (decide (k = 0%nat)) as [->|]; [apply carry_0|apply IH; lia]. }
    specialize (H (Z.of_nat k) ltac:(lia)). cbn [Z.b2z]. lia.
Qed.

Lemma digit_u32 n j : 0 ≤ j < 8 → digit (u32 n) j = digit n j.
Proof.
  intros Hj. unfold digit, u32. change (2 ^ 32) with (16 ^ 8).
  replace (16 ^ 8) with (16 ^ j * (16 ^ (7 - j) * 16)).
  - rewrite Z.rem_mul_r by lia. rewrite (Z.add_comm (n mod _)), Z.mul_comm, Z.div_add_l by lia.
    rewrite (Z.div_small (n mod _)), Z.add_0_r by (apply Z.mod_pos_bound; lia).
    rewrite (Z.mul_comm _ 16), Z.rem_mul_r by lia.
    rewrite Z.add_comm, Z.mul_comm, Z.add_comm, Z_mod_plus_full. by rewrite Z.mod_mod.
  - rewrite (Z.mul_comm _ 16), <-Z.pow_succ_r, <-Z.pow_add_r by lia. f_equal. lia.
Qed.

Lemma digit_lnot m j : 0 ≤ j < 8 → digit (u32 m .^ u32 (Z.lnot 0)) j = 15 - digit m j.
Proof.
  intros Hj. rewrite <-(digit_u32 m) by done. pose proof (u32_range m) as Hm.
  set (x := u32 m) in *. clearbody x. change (u32 (Z.lnot 0)) with (Z.ones 32).
  assert (x .^ Z.ones 32 = 2 ^ 32 - 1 - x) as ->.
  { apply Z.bits_inj'. intros i Hi. rewrite Z.lxor_spec.
    replace (2 ^ 32 - 1 - x) with (Z.lnot x + 1 * 2 ^ 32) by (unfold Z.lnot; lia).
    destruct (decide (i < 32)).
    - rewrite Z.ones_spec_low, <-(Z.mod_pow2_bits_low (_ + _) 32 i), Z_mod_plus_full by lia.
      rewrite Z.mod_pow2_bits_low, Z.lnot_spec by lia. by destruct (Z.testbit x i).
    - rewrite Z.ones_spec_high, (testbit_small x 32) by lia.
      rewrite (testbit_small (_ + _) 32); [done| |lia]. unfold Z.lnot. lia. }
  unfold digit. pose proof (Z.div_mod x (16 ^ j) ltac:(lia)) as Ex.
  pose proof (Z.mod_pos_bound x (16 ^ j) ltac:(lia)).
  assert (2 ^ 32 = 16 ^ j * 16 ^ (8 - j)) as Ep
    by (rewrite <-Z.pow_add_r by lia; replace (j + (8 - j)) with 8 by lia; done).
  assert ((2 ^ 32 - 1 - x) / 16 ^ j = 16 ^ (8 - j) - 1 - x / 16 ^ j) as ->.
  { symmetry. apply (Z.div_unique_pos _ _ _ (16 ^ j - 1 - x mod 16 ^ j)); [lia|]. nia. }
  replace (16 ^ (8 - j)) with (16 ^ (7 - j) * 16)
    by (rewrite Z.mul_comm, <-Z.pow_succ_r by lia; f_equal; lia).
  set (q := x / 16 ^ j). pose proof (Z.div_mod q 16 ltac:(lia)).
  pose proof (Z.mod_pos_bound q 16 ltac:(lia)). symmetry.
  apply (Z.mod_unique_pos _ _ (16 ^ (7 - j) - 1 - q / 16)); lia.
Qed.

Lemma is_bcd_iff n : vbi_is_bcd n = true ↔ decimal n.
Proof.
  unfold vbi_is_bcd. rewrite <-Z.lxor_assoc, carry_mask_zero by (lia || apply u32_range). rewrite no_carry_iff.
  unfold decimal. apply forall_proper; intros j. split; intros H Hj; specialize (H Hj).
  all: rewrite ?digit_u32 in * by lia.
  all: assert (digit 0x06666666 j = 6) as E by
    (assert (j = 0 ∨ j = 1 ∨ j = 2 ∨ j = 3 ∨ j = 4 ∨ j = 5 ∨ j = 6) as Hc by lia;
     destruct Hc as [->|[->|[->|[->|[->|[->| ->]]]]]]; reflexivity).
  all: lia.
Qed.

Lemma bcd_digits_greater_iff n m :
  vbi_bcd_digits_greater n m = true ↔ ∃ j, 0 ≤ j < 7 ∧ digit m j < digit n j.
Proof.
  unfold vbi_bcd_digits_greater. rewrite negb_true_iff, <-not_true_iff_false.
  assert (0 ≤ u32 m .^ u32 (Z.lnot 0) < 2 ^ 32) by (apply lxor_bound; [lia|apply u32_range..]).
  rewrite carry_mask_zero by (done || apply u32_range). rewrite no_carry_iff. split.
  - intros Hne. destruct (decide (Forall (λ j, digit n j ≤ digit m j) (seqZ 0 7))) as [Ha|Hn].
    + exfalso. apply Hne. intros j Hj. rewrite digit_u32, digit_lnot by lia.
      rewrite list.Forall_forall in Ha. specialize (Ha j ltac:(apply elem_of_seqZ; lia)). lia.
    + apply not_Forall_Exists, list.Exists_exists in Hn as (j & Hj & Hlt); [|apply _].
      apply elem_of_seqZ in Hj. exists j. cbn in Hlt. lia.
  - intros (j & Hj & Hlt) H'. specialize (H' j Hj). rewrite digit_u32, digit_lnot in H' by lia. lia.
Qed.

(** ** Addition *)

(** [vbi_add_bcd] subtracts the six it added again from the digits that did
    not overflow. *)
Lemma add_bcd_correction b0 b1 b2 b3 b4 b5 b6 :
  let m := (Z.b2z b0 * 16 + Z.b2z b1 * 16 ^ 2 + Z.b2z b2 * 16 ^ 3 + Z.b2z b3 * 16 ^ 4
            + Z.b2z b4 * 16 ^ 5 + Z.b2z b5 * 16 ^ 6 + Z.b2z b6 * 16 ^ 7) ≫ 3 in
  m .| u32 (m * 2) =
  6 * (Z.b2z b0 + Z.b2z b1 * 16 + Z.b2z b2 * 16 ^ 2 + Z.b2z b3 * 16 ^ 3
       + Z.b2z b4 * 16 ^ 4 + Z.b2z b5 * 16 ^ 5 + Z.b2z b6 * 16 ^ 6).
Proof. destruct b0, b1, b2, b3, b4, b5, b6; reflexivity. Qed.

Section add_bcd.
Context (a b : Z) (Ha : 0 ≤ a < 2 ^ 32) (Hb : 0 ≤ b < 2 ^ 32).
Context (Da : signed_decimal a) (Db : signed_decimal b).
Let x := u32 (a + 0x06666666).

(** Carry into digit [j], as an integer. *)
Definition add_carry (j : Z) : Z := Z.b2z (carry x b (4 * j)).

Lemma add_bcd_x :
  a + 0x06666666 < 2 ^ 32 ∧ digit x 7 = digit a 7 ∧
  ∀ j, 0 ≤ j < 7 → digit x j = digit a j + 6.
Proof using Ha Da.
  destruct Da as [Dd Dt]. pose proof (digits_sum a Ha) as Es.
  pose proof (Dd 0 ltac:(lia)). pose proof (Dd 1 ltac:(lia)). pose proof (Dd 2 ltac:(lia)).
  pose proof (Dd 3 ltac:(lia)). pose proof (Dd 4 ltac:(lia)). pose proof (Dd 5 ltac:(lia)).
  pose proof (Dd 6 ltac:(lia)).
  assert (∀ j, 0 ≤ digit a j) as Hnn by (intros; apply digit_range).
  pose proof (Hnn 0). pose proof (Hnn 1). pose proof (Hnn 2). pose proof (Hnn 3).
  pose proof (Hnn 4). pose proof (Hnn 5). pose proof (Hnn 6). pose proof (Hnn 7).
  pose proof (digit_range a 7).
  assert (a + 0x06666666 < 2 ^ 32) as Hlt by (rewrite Es; lia).
  destruct (digit_of_sum (digit a 0 + 6) (digit a 1 + 6) (digit a 2 + 6) (digit a 3 + 6)
    (digit a 4 + 6) (digit a 5 + 6) (digit a 6 + 6) (digit a 7) x)
    as (E0 & E1 & E2 & E3 & E4 & E5 & E6 & E7); [lia..| |].
  { unfold x. rewrite u32_small by lia. rewrite Es at 1. lia. }
  split; [done|]. split; [done|]. intros j Hj.
  assert (j = 0 ∨ j = 1 ∨ j = 2 ∨ j = 3 ∨ j = 4 ∨ j = 5 ∨ j = 6) as Hc by lia.
  destruct Hc as [->|[->|[->|[->|[->|[->| ->]]]]]]; done.
Qed.

Lemma add_carry_step j :
  0 ≤ j < 7 →
  add_carry (j + 1) = if 10 <=? digit a j + digit b j + add_carry j then 1 else 0.
Proof using Ha Da.
  intros Hj. unfold add_carry. rewrite carry_step by lia.
  destruct add_bcd_x as (_ & _ & Hx). rewrite Hx by done.
  repeat match goal with |- context [?p <=? ?q] => destruct (Z.leb_spec p q) end; cbn [Z.b2z]; lia.
Qed.

Lemma add_carry_range j : 0 ≤ add_carry j ≤ 1.
Proof using Type. unfold add_carry. destruct (carry x b (4 * j)); cbn; lia. Qed.

(** The carry out of each digit keeps the digit decimal. *)
Lemma add_digit_decimal j :
  0 ≤ j < 7 → 0 ≤ digit a j + digit b j + add_carry j - 10 * add_carry (j + 1) ≤ 9.
Proof using Ha Da Db.
  intros Hj. rewrite (add_carry_step j Hj). pose proof (add_carry_range j).
  destruct Da as [Dda _], Db as [Ddb _]. specialize (Dda j Hj). specialize (Ddb j Hj).
  pose proof (digit_range a j). pose proof (digit_range b j).
  destruct (Z.leb_spec 10 (digit a j + digit b j + add_carry j)); lia.
Qed.

Lemma add_bcd_eq :
  vbi_add_bcd a b = u32 (x + b - 6 * ((1 - add_carry 1) + (1 - add_carry 2) * 16
    + (1 - add_carry 3) * 16 ^ 2 + (1 - add_carry 4) * 16 ^ 3 + (1 - add_carry 5) * 16 ^ 4
    + (1 - add_carry 6) * 16 ^ 5 + (1 - add_carry 7) * 16 ^ 6)).
Proof using Ha Hb.
  unfold vbi_add_bcd. rewrite (u32_small a), (u32_small b) by done. fold x.
  set (w := b .^ (x .^ u32 (x + b))).
  assert (∀ k, 0 ≤ k < 32 → Z.testbit (u32 (Z.lnot w)) k = negb (carry x b k)) as Hw.
  { intros k Hk. rewrite u32_testbit, Z.lnot_spec by lia. unfold w.
    rewrite add_carry_mask; [done|apply u32_range|done..]. }
  rewrite land_carry_mask, !Hw, add_bcd_correction by lia. unfold add_carry. simpl_const.
  assert (∀ c, Z.b2z (negb c) = 1 - Z.b2z c) as Hn by (by intros []).
  rewrite !Hn. unfold u32 at 1. rewrite Zminus_mod. unfold u32 at 1.
  rewrite Z.mod_mod, <-Zminus_mod by done. done.
Qed.
End add_bcd.

Lemma bcd_of_digits r r0 r1 r2 r3 r4 r5 r6 r7 :
  0 ≤ r0 ≤ 9 → 0 ≤ r1 ≤ 9 → 0 ≤ r2 ≤ 9 → 0 ≤ r3 ≤ 9 → 0 ≤ r4 ≤ 9 → 0 ≤ r5 ≤ 9 → 0 ≤ r6 ≤ 9 →
  r7 = 0 ∨ r7 = 15 →
  r = r0 + r1 * 16 + r2 * 16 ^ 2 + r3 * 16 ^ 3 + r4 * 16 ^ 4 + r5 * 16 ^ 5 + r6 * 16 ^ 6
      + r7 * 16 ^ 7 →
  signed_decimal r ∧
  sdec r = r0 + r1 * 10 + r2 * 10 ^ 2 + r3 * 10 ^ 3 + r4 * 10 ^ 4 + r5 * 10 ^ 5 + r6 * 10 ^ 6
           - (if r7 =? 15 then 10 ^ 7 else 0).
Proof.
  intros H0 H1 H2 H3 H4 H5 H6 H7 Er.
  destruct (digit_of_sum r0 r1 r2 r3 r4 r5 r6 r7 r)
    as (E0 & E1 & E2 & E3 & E4 & E5 & E6 & E7); [lia..|].
  unfold signed_decimal, decimal, sdec, dec7. rewrite E0, E1, E2, E3, E4, E5, E6, E7.
  split; [split; [|done]|done]. intros j Hj.
  assert (j = 0 ∨ j = 1 ∨ j = 2 ∨ j = 3 ∨ j = 4 ∨ j = 5 ∨ j = 6) as Hc by lia.
  destruct Hc as [->|[->|[->|[->|[->|[->| ->]]]]]]; lia.
Qed.

Lemma top_digit a7 b7 c7 r :
  (a7 = 0 ∨ a7 = 15) → (b7 = 0 ∨ b7 = 15) → 0 ≤ c7 ≤ 1 → 0 ≤ r < 10 ^ 7 →
  - 10 ^ 7 ≤ r + c7 * 10 ^ 7 - (if a7 =? 15 then 10 ^ 7 else 0) - (if b7 =? 15 then 10 ^ 7 else 0)
  < 10 ^ 7 →
  ∃ r7 k, (r7 = 0 ∨ r7 = 15) ∧ a7 + b7 + c7 = r7 + 16 * k ∧
    r + c7 * 10 ^ 7 - (if a7 =? 15 then 10 ^ 7 else 0) - (if b7 =? 15 then 10 ^ 7 else 0)
    = r - (if r7 =? 15 then 10 ^ 7 else 0).
Proof.
  intros [-> | ->] [-> | ->] Hc Hr Hs; cbn [Z.eqb Pos.eqb] in *.
  - exists 0, 0. cbn [Z.eqb]. lia.
  - destruct (decide (c7 = 0)).
    + exists 15, 0. cbn [Z.eqb Pos.eqb]. lia.
    + exists 0, 1. cbn [Z.eqb Pos.eqb]. lia.
  - destruct (decide (c7 = 0)).
    + exists 15, 0. cbn [Z.eqb Pos.eqb]. lia.
    + exists 0, 1. cbn [Z.eqb Pos.eqb]. lia.
  - exists 15, 1. cbn [Z.eqb Pos.eqb]. lia.
Qed.

(** ** Properties *)

(** [vbi_add_bcd] adds packed decimal numbers in ten's complement notation:
    when the sum of two numbers is within -10^7 ... 10^7 - 1 the result is
    again such a number and has that value. *)
Theorem add_bcd_correct a b :
  0 ≤ a < 2 ^ 32 → 0 ≤ b < 2 ^ 32 → signed_decimal a → signed_decimal b →
  - 10 ^ 7 ≤ sdec a + sdec b < 10 ^ 7 →
  signed_decimal (vbi_add_bcd a b) ∧ sdec (vbi_add_bcd a b) = sdec a + sdec b.
Proof.
  intros Ha Hb Da Db Hs. rewrite add_bcd_eq by done.
  pose proof (add_digit_decimal a b Ha Da Db) as Hd. pose proof (add_carry_range a b 7).
  assert (add_carry a b 0 = 0) as C0 by (unfold add_carry; by rewrite carry_0).
  destruct (add_bcd_x a Ha Da) as (Hx & _ & _).
  rewrite (u32_small (a + _)) by lia.
  pose proof (digits_sum a Ha) as Ea. pose proof (digits_sum b Hb) as Eb.
  destruct Da as [_ Dta], Db as [_ Dtb].
  set (R := λ j, digit a j + digit b j + add_carry a b j - 10 * add_carry a b (j + 1)).
  change (∀ j, 0 ≤ j < 7 → 0 ≤ R j ≤ 9) in Hd.
  pose proof (Hd 0 ltac:(lia)). pose proof (Hd 1 ltac:(lia)). pose proof (Hd 2 ltac:(lia)).
  pose proof (Hd 3 ltac:(lia)). pose proof (Hd 4 ltac:(lia)). pose proof (Hd 5 ltac:(lia)).
  pose proof (Hd 6 ltac:(lia)).
  set (r := R 0 + R 1 * 10 + R 2 * 10 ^ 2 + R 3 * 10 ^ 3 + R 4 * 10 ^ 4 + R 5 * 10 ^ 5
            + R 6 * 10 ^ 6).
  assert (sdec a + sdec b = r + add_carry a b 7 * 10 ^ 7
    - (if digit a 7 =? 15 then 10 ^ 7 else 0) - (if digit b 7 =? 15 then 10 ^ 7 else 0)) as Es
    by (unfold sdec, dec7, r, R; simpl_const; lia).
  rewrite Es in Hs.
  destruct (top_digit (digit a 7) (digit b 7) (add_carry a b 7) r) as (r7 & k & H7 & Et & Ev);
    [done..|unfold r; lia|done|]. rewrite Es, Ev.
  apply bcd_of_digits; [done..|]. unfold u32. symmetry. apply (Z.mod_unique_pos _ _ k).
  - destruct H7 as [-> | ->]; lia.
  - rewrite Ea at 1. rewrite Eb at 1. unfold R. simpl_const. lia.
Qed.
Lemma add_bcd_correct_witness : sdec (vbi_add_bcd 0x0000199 0xF9999999) = 198.
Proof.
  apply (add_bcd_correct 0x199 0xF9999999); [lia|lia| | |vm_compute; split; congruence].
  - split; [apply is_bcd_iff; reflexivity|left; reflexivity].
  - split; [apply is_bcd_iff; reflexivity|right; reflexivity].
Defined.

(** The carry tests of [bcd.h] decide what they say: [vbi_is_bcd] that digits 0
    to 6 are decimal, [vbi_bcd_digits_greater] that one of these digits exceeds
    the corresponding digit of the maximum; and converting a number below 1000
    to packed decimal gives a valid number that converts back. *)
Theorem bcd_tests_correct :
  (∀ n, vbi_is_bcd n = true ↔ decimal n) ∧
  (∀ n m, vbi_bcd_digits_greater n m = true ↔ ∃ j, 0 ≤ j < 7 ∧ digit m j < digit n j) ∧
  (∀ d, 0 ≤ d < 1000 → vbi_bcd2dec (vbi_dec2bcd d) = d ∧ vbi_is_bcd (vbi_dec2bcd d) = true).
Proof.
  split; [apply is_bcd_iff|]. split; [apply bcd_digits_greater_iff|]. intros d Hd. split.
  - revert d Hd. apply (eq_by_eval 1000 (λ d, vbi_bcd2dec (vbi_dec2bcd d)) (λ d, d)).
    vm_compute. reflexivity.
  - revert d Hd. apply (forallb_seqZ 1000 (λ d, vbi_is_bcd (vbi_dec2bcd d))).
    vm_compute. reflexivity.
Qed.
