(* ===== verification/Misc.v ===== *)
(** Helpers of [src/src/misc.c]: bit counting, bounded string copy, keyword
    lookup and vector capacities. *)
From S2P Require Import Prelude.

(** ** Counting bits *)

Definition _vbi_popcnt (x : Z) : Z :=
  let x := u32 x in
  let x := u32 (x - ((x ≫ 1) .& 0x55555555)) in
  let x := u32 ((x .& 0x33333333) + ((x ≫ 2) .& 0x33333333)) in
  let x := u32 (x + (x ≫ 4)) .& 0x0F0F0F0F in
  u32 (x * 0x01010101) ≫ 24.

(** ** Strings

    A [char *] is the list of the characters before the terminating NUL; the
    character after the last one reads as 0, and the code reads no further.  An
    advanced pointer is the remaining list. *)

Definition chr (s : list Z) (i : nat) : Z := nth i s 0.

Definition isspace (c : Z) : bool := (c =? 32) || ((9 <=? c) && (c <=? 13)).
Definition isdigit (c : Z) : bool := (48 <=? c) && (c <=? 57).
Definition isupper (c : Z) : bool := (65 <=? c) && (c <=? 90).
Definition islower (c : Z) : bool := (97 <=? c) && (c <=? 122).
Definition isalnum (c : Z) : bool := isdigit c || isupper c || islower c.
Definition tolower (c : Z) : Z := if isupper c then c + 32 else c.

(** [0 == strncasecmp (s, key, n)] *)
Fixpoint strncasecmp_eq (s key : list Z) (n : nat) : bool :=
  match n with
  | O => true
  | S n =>
      let c := tolower (chr s 0) in
      let k := tolower (chr key 0) in
      if negb (c =? k) then false
      else if c =? 0 then true
      else strncasecmp_eq (tail s) (tail key) n
  end.

(** [while (isspace ( *s)) ++s;] *)
Fixpoint skip_space (s : list Z) : list Z :=
  match s with c :: t => if isspace c then skip_space t else s | [] => [] end.

(** [strtol (s, &end, 10)] for a string that starts with a digit, on a platform
    with a 64 bit [long]: the value saturates at [LONG_MAX]. *)
Fixpoint strtol_loop (acc : Z) (s : list Z) : Z * list Z :=
  match s with
  | c :: t => if isdigit c then strtol_loop (Z.min (acc * 10 + (c - 48)) (2 ^ 63 - 1)) t else (acc, s)
  | [] => (acc, [])
  end.
Definition strtol (s : list Z) : Z * list Z := strtol_loop 0 s.

(** A [_vbi_key_value_pair]; [None] is the NULL key that ends a table. *)
Record _vbi_key_value_pair := KeyValue { key : option (list Z); value : Z }.

(** [for (i = 0; NULL != table[i].key; ++i)]: the number branch runs to the NULL
    entry; without one it leaves the table, which is undefined ([None]). *)
Fixpoint lookup_number (val : Z) (table : list _vbi_key_value_pair) : option bool :=
  match table with
  | [] => None
  | KeyValue None _ :: _ => Some false
  | KeyValue (Some _) v :: table => if val =? v then Some true else lookup_number val table
  end.

Fixpoint lookup_keyword (s : list Z) (table : list _vbi_key_value_pair) (n_pairs : nat)
    : option (option (Z * list Z)) :=
  match n_pairs with
  | O => Some None
  | S n_pairs =>
      match table with
      | KeyValue (Some k) v :: table =>
          let len := length k in
          if strncasecmp_eq s k len && negb (isalnum (chr s len))
          then Some (Some (v, drop len s))
          else lookup_keyword s table n_pairs
      | _ => None (* strlen (NULL), or out of bounds *)
      end
  end.

(** The result is [None] for undefined behaviour, [Some None] for FALSE and
    [Some (Some (value, rest))] for TRUE. *)
Definition _vbi_keyword_lookup (inout_s : list Z) (table : list _vbi_key_value_pair)
    (n_pairs : nat) : option (option (Z * list Z)) :=
  let s := skip_space inout_s in
  if isdigit (chr s 0) then
    let '(val, rest) := strtol s in
    found ← lookup_number val table;
    Some (if found : bool then Some (s32 val, rest) else None)
  else lookup_keyword s table n_pairs.

(** [_vbi_strlcpy]: [dst] is the destination memory, [src] the source string.
    The copy loop runs until the NUL has been copied or [size - 1] characters. *)
Fixpoint strlcpy_loop (dst src : list Z) (pos room : nat) : option (list Z * bool) :=
  match room with
  | O => dst ← wr dst (Z.of_nat pos) 0; Some (dst, false)
  | S room =>
      dst ← wr dst (Z.of_nat pos) (chr src pos);
      if chr src pos =? 0 then Some (dst, true) else strlcpy_loop dst src (S pos) room
  end.

Definition _vbi_strlcpy (dst src : list Z) (size : nat) : option (list Z * nat) :=
  match size with
  | O => Some (dst, length src)
  | S O => dst ← wr dst 0 0; Some (dst, length src)
  | S room => '(dst, _) ← strlcpy_loop dst src 0 room; Some (dst, length src)
  end.

(** ** Vector capacities

    [vbi_realloc] can fail: [alloc n] says whether a request of [n] bytes
    succeeds.  The results are the new capacity, or [None] for failure. *)
Section capacity.
Context (alloc : Z → bool).
Definition SIZE_MAX : Z := 2 ^ 64 - 1.

Definition _vbi_shrink_vector_capacity (capacity min_capacity element_size : Z) : Z :=
  if capacity <=? min_capacity then capacity
  else if alloc (min_capacity * element_size) then min_capacity else capacity.

Definition _vbi_grow_vector_capacity (capacity min_capacity element_size : Z) : option Z :=
  let max_capacity := SIZE_MAX / element_size in
  if max_capacity <? min_capacity then None
  else
    let old_capacity := capacity in
    let new_capacity :=
      if (max_capacity - 2 ^ 16) mod 2 ^ 64 <? old_capacity then max_capacity
      else if 2 ^ 16 <=? old_capacity then Z.max min_capacity (old_capacity + 2 ^ 16)
      else Z.max min_capacity (old_capacity * 2) in
    if alloc (new_capacity * element_size) then Some new_capacity
    else if new_capacity <=? min_capacity then None
    else if alloc (min_capacity * element_size) then Some min_capacity
    else None.
End capacity.

(** ** Bit counting is right *)

Section popcnt.
(** One stage on a number with low byte [b] is the stage on the byte and on
    the rest, because the masks cut off what the shift carries over. *)
Lemma popcnt_stage1 h b m :
  0 ≤ h → is_byte b →
  (256 * h + b) - (((256 * h + b) ≫ 1) .& (256 * m + 0x55))
  = 256 * (h - ((h ≫ 1) .& m)) + (b - ((b ≫ 1) .& 0x55)).
Proof.
  intros Hh Hb. rewrite land_byte, !Z.shiftr_div_pow2 by lia. change (2 ^ 1) with 2.
  assert ((256 * h + b) / 2 / 256 = h / 2) as ->
    by (unfold is_byte in Hb; Z.to_euclidean_division_equations; lia).
  assert (((256 * h + b) / 2) mod 256 .& 0x55 = b / 2 .& 0x55) as ->; [|lia].
  replace (((256 * h + b) / 2) mod 256) with ((h mod 2 * 256 + b) / 2)
    by (unfold is_byte in Hb; Z.to_euclidean_division_equations; lia).
  assert (∀ c, 0 ≤ c < 512 → c / 2 .& 0x55 = (c mod 256) / 2 .& 0x55) as Hc
    by (apply (eq_by_eval 512 (λ c, c / 2 .& 0x55) (λ c, (c mod 256) / 2 .& 0x55));
        vm_compute; reflexivity).
  unfold is_byte in Hb. rewrite Hc by (pose proof (Z.mod_pos_bound h 2); lia).
  rewrite Z.add_comm, Z_mod_plus_full, Z.mod_small by lia. done.
Qed.

Lemma popcnt_stage2 h b m :
  0 ≤ h → is_byte b →
  ((256 * h + b) .& (256 * m + 0x33)) + (((256 * h + b) ≫ 2) .& (256 * m + 0x33))
  = 256 * ((h .& m) + ((h ≫ 2) .& m)) + ((b .& 0x33) + ((b ≫ 2) .& 0x33)).
Proof.
  intros Hh Hb. rewrite !land_byte, !Z.shiftr_div_pow2 by lia. change (2 ^ 2) with 4.
  replace ((256 * h + b) / 256) with h
    by (unfold is_byte in Hb; Z.to_euclidean_division_equations; lia).
  replace ((256 * h + b) mod 256) with b
    by (unfold is_byte in Hb; Z.to_euclidean_division_equations; lia).
  replace ((256 * h + b) / 4 / 256) with (h / 4)
    by (unfold is_byte in Hb; Z.to_euclidean_division_equations; lia).
  assert (((256 * h + b) / 4) mod 256 .& 0x33 = b / 4 .& 0x33) as ->; [|lia].
  replace (((256 * h + b) / 4) mod 256) with ((h mod 4 * 256 + b) / 4)
    by (unfold is_byte in Hb; Z.to_euclidean_division_equations; lia).
  assert (∀ c, 0 ≤ c < 1024 → c / 4 .& 0x33 = (c mod 256) / 4 .& 0x33) as Hc
    by (apply (eq_by_eval 1024 (λ c, c / 4 .& 0x33) (λ c, (c mod 256) / 4 .& 0x33));
        vm_compute; reflexivity).
  unfold is_byte in Hb. rewrite Hc by (pose proof (Z.mod_pos_bound h 4); lia).
  rewrite Z.add_comm, Z_mod_plus_full, Z.mod_small by lia. done.
Qed.

(** Both nibbles of a byte are at most 4 after the second stage. *)
Lemma popcnt_stage3 h b m :
  0 ≤ h → is_byte b → b mod 16 ≤ 4 → b / 16 ≤ 4 → h mod 16 ≤ 4 →
  ((256 * h + b) + ((256 * h + b) ≫ 4)) .& (256 * m + 0x0F)
  = 256 * ((h + (h ≫ 4)) .& m) + ((b + (b ≫ 4)) .& 0x0F).
Proof.
  intros Hh Hb Hlo Hhi Hh16. unfold is_byte in Hb. rewrite land_byte, !Z.shiftr_div_pow2 by lia.
  change (2 ^ 4) with 16.
  assert ((256 * h + b) / 16 = 16 * h + b / 16) as ->
    by (Z.to_euclidean_division_equations; lia).
  replace ((256 * h + b + (16 * h + b / 16)) / 256) with (h + h / 16)
    by (Z.to_euclidean_division_equations; lia).
  f_equal. change 0x0F with (Z.ones 4). rewrite !Z.land_ones by lia. change (2 ^ 4) with 16.
  Z.to_euclidean_division_equations; lia.
Qed.

Definition p1 (b : Z) : Z := b - ((b ≫ 1) .& 0x55).
Definition p2 (b : Z) : Z := (b .& 0x33) + ((b ≫ 2) .& 0x33).
Definition p3 (b : Z) : Z := (b + (b ≫ 4)) .& 0x0F.

Lemma popcnt_byte b :
  is_byte b →
  is_byte (p1 b) ∧ is_byte (p2 (p1 b)) ∧ p2 (p1 b) mod 16 ≤ 4 ∧ p2 (p1 b) / 16 ≤ 4 ∧
  p3 (p2 (p1 b)) = ones 8 b.
Proof.
  intros Hb.
  pose proof (forallb_seqZ 256 (λ b, (0 <=? p1 b) && (p1 b <? 256) && (0 <=? p2 (p1 b))
    && (p2 (p1 b) <? 256) && (p2 (p1 b) mod 16 <=? 4) && (p2 (p1 b) / 16 <=? 4)
    && (p3 (p2 (p1 b)) =? ones 8 b)) ltac:(vm_compute; reflexivity) b Hb) as H.
  cbv beta in H. rewrite !andb_true_iff in H. unfold is_byte. lia.
Qed.
End popcnt.

Lemma popcnt_bytes b0 b1 b2 b3 :
  is_byte b0 → is_byte b1 → is_byte b2 → is_byte b3 →
  _vbi_popcnt (256 * (256 * (256 * b3 + b2) + b1) + b0)
  = ones 8 b0 + ones 8 b1 + ones 8 b2 + ones 8 b3.
Proof.
  intros H0 H1 H2 H3.
  destruct (popcnt_byte b0 H0) as (A0 & B0 & L0 & U0 & <-).
  destruct (popcnt_byte b1 H1) as (A1 & B1 & L1 & U1 & <-).
  destruct (popcnt_byte b2 H2) as (A2 & B2 & L2 & U2 & <-).
  destruct (popcnt_byte b3 H3) as (A3 & B3 & L3 & U3 & <-).
  unfold _vbi_popcnt, is_byte in *. rewrite (u32_small (256 * _ + b0)) by lia.
  change 0x55555555 with (256 * (256 * (256 * 0x55 + 0x55) + 0x55) + 0x55).
  change 0x33333333 with (256 * (256 * (256 * 0x33 + 0x33) + 0x33) + 0x33).
  change 0x0F0F0F0F with (256 * (256 * (256 * 0x0F + 0x0F) + 0x0F) + 0x0F).
  rewrite !popcnt_stage1 by (unfold is_byte; lia). fold (p1 b0) (p1 b1) (p1 b2) (p1 b3).
  rewrite (u32_small (256 * _ + p1 b0)) by lia.
  rewrite !popcnt_stage2 by (unfold is_byte; lia).
  fold (p2 (p1 b0)) (p2 (p1 b1)) (p2 (p1 b2)) (p2 (p1 b3)).
  generalize dependent (p2 (p1 b3)). generalize dependent (p2 (p1 b2)).
  generalize dependent (p2 (p1 b1)). generalize dependent (p2 (p1 b0)).
  clear. intros c0 C0 L0 U0 c1 C1 L1 U1 c2 C2 L2 U2 c3 C3 L3 U3.
  rewrite (u32_small (256 * _ + c0)) by lia.
  rewrite (u32_small (_ + _)) by (rewrite Z.shiftr_div_pow2 by lia; Z.to_euclidean_division_equations; lia).
  rewrite !popcnt_stage3 by (unfold is_byte; try (Z.to_euclidean_division_equations; lia); lia).
  fold (p3 c0) (p3 c1) (p3 c2) (p3 c3).
  assert (∀ c, 0 ≤ c → 0 ≤ p3 c < 16) as Hp.
  { intros c _. unfold p3. change 0x0F with (Z.ones 4). rewrite Z.land_ones by lia.
    by apply Z.mod_pos_bound. }
  pose proof (Hp c0 ltac:(lia)). pose proof (Hp c1 ltac:(lia)).
  pose proof (Hp c2 ltac:(lia)). pose proof (Hp c3 ltac:(lia)).
  generalize dependent (p3 c0). generalize dependent (p3 c1). generalize dependent (p3 c2).
  generalize dependent (p3 c3). clear. intros q3 H3 q2 H2 q1 H1 q0 H0.
  assert (u32 ((256 * (256 * (256 * q3 + q2) + q1) + q0) * 0x1010101)
    = 2 ^ 24 * (q0 + q1 + q2 + q3) + (q0 + 256 * (q0 + q1) + 65536 * (q0 + q1 + q2))) as ->.
  { symmetry. apply (Z.mod_unique_pos _ _ ((q1 + q2 + q3) + 256 * (q2 + q3) + 65536 * q3)); lia. }
  rewrite Z.shiftr_div_pow2 by lia. symmetry.
  apply (Z.div_unique_pos _ _ _ (q0 + 256 * (q0 + q1) + 65536 * (q0 + q1 + q2))); lia.
Qed.

Lemma popcnt_ones x : 0 ≤ x < 2 ^ 32 → _vbi_popcnt x = ones 32 x.
Proof.
  intros Hx. change 32%nat with (8 + (8 + (8 + 8)))%nat. rewrite !ones_app.
  change (2 ^ Z.of_nat 8) with 256.
  rewrite <-(ones_mod 8 x), <-(ones_mod 8 (x / 256)), <-(ones_mod 8 (x / 256 / 256)).
  change (2 ^ Z.of_nat 8) with 256.
  assert (is_byte (x / 256 / 256 / 256)) by (unfold is_byte; Z.to_euclidean_division_equations; lia).
  pose proof (Z.mod_pos_bound x 256). pose proof (Z.mod_pos_bound (x / 256) 256).
  pose proof (Z.mod_pos_bound (x / 256 / 256) 256).
  replace x with (256 * (256 * (256 * (x / 256 / 256 / 256) + (x / 256 / 256) mod 256)
    + (x / 256) mod 256) + x mod 256) at 1 by (Z.to_euclidean_division_equations; lia).
  rewrite popcnt_bytes by (unfold is_byte in *; lia). lia.
Qed.

(** [_vbi_popcnt], which adds the bits of a 32 bit word in parallel with
    masks and a multiplication, counts the bits set in it. *)
Theorem popcnt_correct (x : Z) : 0 ≤ x < 2 ^ 32 → _vbi_popcnt x = ones 32 x.
Proof. apply popcnt_ones. Qed.

Lemma popcnt_correct_witness : 0 ≤ 0x80F0FF01 < 2 ^ 32 ∧ _vbi_popcnt 0x80F0FF01 = 14.
Proof. split; [lia|]. rewrite popcnt_correct; [reflexivity|lia]. Defined.

(** ** Copying strings *)

Lemma strlcpy_loop_spec (src pre rest : list Z) (room : nat) :
  Forall (λ c, c ≠ 0) src → (length pre ≤ length src)%nat → (room < length rest)%nat →
  ∃ b, strlcpy_loop (pre ++ rest) src (length pre) room
  = Some (pre ++ take room (drop (length pre) src)
          ++ 0 :: drop (S (Nat.min room (length src - length pre))) rest, b).
Proof.
  intros Hnz. revert pre rest. induction room as [|room IH]; intros pre rest Hpre Hroom.
  - destruct rest as [|y rest]; [cbn in Hroom; lia|]. cbn [strlcpy_loop].
    rewrite wr_app by done. by eexists.
  - destruct rest as [|y rest]; [cbn in Hroom; lia|]. cbn [strlcpy_loop]. unfold chr.
    rewrite wr_app by done. cbn [mbind option_bind].
    destruct (decide (length pre = length src)) as [E|E].
    + rewrite nth_overflow by lia. rewrite Z.eqb_refl, E, Nat.sub_diag, Nat.min_0_r.
      rewrite drop_ge by lia. by eexists.
    + destruct (lookup_lt_is_Some_2 src (length pre)) as [c Hc]; [lia|].
      rewrite (nth_lookup_Some _ _ _ _ Hc).
      assert (c =? 0 = false) as -> by (apply Z.eqb_neq; by eapply Forall_lookup_1 in Hnz).
      destruct (IH (pre ++ [c]) rest) as [b Hb];
        [rewrite length_app; cbn; lia|cbn in Hroom; lia|].
      rewrite length_app, Nat.add_1_r, <-app_assoc in Hb. cbn [app] in Hb.
      exists b. rewrite Hb, (drop_S _ _ _ Hc). cbn [firstn]. rewrite <-!app_assoc. cbn [app].
      replace (length src - length pre)%nat with (S (length src - S (length pre))) by lia.
      done.
Qed.

(** [_vbi_strlcpy] never writes outside the [size] characters of the
    destination, copies at most [size - 1] characters, always terminates them
    with a NUL, keeps what follows, and returns the length of the source. *)
Theorem strlcpy_correct (dst src : list Z) (size : nat) :
  Forall (λ c, c ≠ 0) src → (0 < size ≤ length dst)%nat →
  _vbi_strlcpy dst src size
  = Some (take (size - 1) src ++ 0 :: drop (S (Nat.min (size - 1) (length src))) dst,
          length src).
Proof.
  intros Hnz Hsize. destruct size as [|[|room]]; [lia| |].
  - destruct dst as [|y dst]; [cbn in Hsize; lia|]. done.
  - destruct (strlcpy_loop_spec src [] dst (S room)) as [b Hb]; [done|cbn; lia|lia|].
    cbn [app length] in Hb. unfold _vbi_strlcpy. rewrite Hb. cbn [mbind option_bind].
    by rewrite Nat.sub_0_r.
Qed.

Lemma strlcpy_correct_witness :
  _vbi_strlcpy [9; 9; 9; 9] [65; 66; 67; 68; 69] 3 = Some ([65; 66; 0; 9], 5%nat).
Proof.
  rewrite (strlcpy_correct [9; 9; 9; 9] [65; 66; 67; 68; 69] 3);
    [reflexivity|repeat constructor; discriminate|cbn; lia].
Defined.
