(* ===== verification/Pil.v ===== *)
(** Program Identification Labels: the macros, service codes and the program ID
    structure of [src/src/pdc.h] and the parser, printer and date check of
    [src/src/pdc.c]. *)
From stdpp Require Import strings.
From S2P Require Import Prelude Misc.

(** ** Fields of a PIL *)

Definition VBI_PIL (month day hour minute : Z) : Z :=
  (day ≪ 15) .| (month ≪ 11) .| (hour ≪ 6) .| minute.
Definition VBI_PIL_MONTH (pil : Z) : Z := (pil ≫ 11) .& 15.
Definition VBI_PIL_DAY (pil : Z) : Z := (pil ≫ 15) .& 31.
Definition VBI_PIL_HOUR (pil : Z) : Z := (pil ≫ 6) .& 31.
Definition VBI_PIL_MINUTE (pil : Z) : Z := pil .& 63.

Definition VBI_PIL_TIMER_CONTROL : Z := VBI_PIL 15 0 31 63.
Definition VBI_PIL_INHIBIT_TERMINATE : Z := VBI_PIL 15 0 30 63.
Definition VBI_PIL_INTERRUPTION : Z := VBI_PIL 15 0 29 63.
Definition VBI_PIL_CONTINUE : Z := VBI_PIL 15 0 28 63.
Definition VBI_PIL_NSPV : Z := VBI_PIL 15 15 31 63.
Definition VBI_PIL_END : Z := VBI_PIL 15 15 31 63.

(** ** Program ID *)

(** [vbi_pid_channel] *)
Definition VBI_PID_CHANNEL_LCI_0 : Z := 0.
Definition VBI_PID_CHANNEL_VPS : Z := 4.
Definition VBI_PID_CHANNEL_PDC_DESCRIPTOR : Z := 5.

(** [vbi_cni_type] *)
Inductive vbi_cni_type :=
  VBI_CNI_TYPE_NONE | VBI_CNI_TYPE_VPS | VBI_CNI_TYPE_8301 | VBI_CNI_TYPE_8302
| VBI_CNI_TYPE_PDC_A | VBI_CNI_TYPE_PDC_B.

Record vbi_program_id := ProgramId {
  channel : Z;
  cni_type : vbi_cni_type;
  cni : Z;
  pil : Z;
  luf : Z;
  mi : Z;
  prf : Z;
  pcs_audio : Z;
  pty : Z;
  tape_delayed : Z
}.

(** [CLEAR ( *pid)] *)
Definition cleared_pid : vbi_program_id := ProgramId 0 VBI_CNI_TYPE_NONE 0 0 0 0 0 0 0 0.

(** ** Text representation *)

Definition ascii (s : string) : list Z :=
  map (λ c, Z.of_nat (Ascii.nat_of_ascii c)) (String.list_ascii_of_string s).

Definition symbols : list _vbi_key_value_pair :=
  map (λ '(k, v), KeyValue (Some (ascii k)) v)
    [("cont", VBI_PIL_CONTINUE); ("continue", VBI_PIL_CONTINUE); ("end", VBI_PIL_END);
     ("inhibit", VBI_PIL_INHIBIT_TERMINATE); ("int", VBI_PIL_INTERRUPTION);
     ("interruption", VBI_PIL_INTERRUPTION); ("nspv", VBI_PIL_NSPV);
     ("rit", VBI_PIL_INHIBIT_TERMINATE); ("terminate", VBI_PIL_INHIBIT_TERMINATE);
     ("tc", VBI_PIL_TIMER_CONTROL); ("timer", VBI_PIL_TIMER_CONTROL)]%string.

(** The loop over the fields.  Iteration [i] of the loop, with [n] iterations
    left at most; [value] holds the values read so far.  The result is
    [None] on a syntax error. *)
Fixpoint pil_fields_loop (n : nat) (i n_fields sep_mask : Z) (value : list Z) (s : list Z)
    : option (Z * list Z * list Z) :=
  match n with
  | O => Some (n_fields, value, s)
  | S n =>
      if negb (i <? n_fields) then Some (n_fields, value, s)
      else if negb (isdigit (chr s 0)) then
        if (i =? 2) && (sep_mask =? 0) then Some (2, value, s) else None
      else if negb (isdigit (chr s 1)) then None
      else
        let value := value ++ [(chr s 0 - 48) * 10 + chr s 1 - 48] in
        let s := drop 2 s in
        let c := chr s 0 in
        if i <? n_fields - 1 then
          if (i =? 0) && (c =? 58) then
            pil_fields_loop n (i + 1) 2 (sep_mask .| (1 ≪ 2)) value (drop 1 s)
          else if tbl (ascii "-T:") i =? c then
            pil_fields_loop n (i + 1) n_fields (sep_mask .| (1 ≪ i)) value (drop 1 s)
          else pil_fields_loop n (i + 1) n_fields sep_mask value s
        else pil_fields_loop n (i + 1) n_fields sep_mask value s
  end.

(** [Some (Some (pil, rest))] for TRUE, [Some None] for FALSE, where [*pil] and
    [*inout_s] remain unmodified; [None] is undefined behaviour. *)
Definition _vbi_pil_from_string (inout_s : list Z) : option (option (Z * list Z)) :=
  let s := skip_space inout_s in
  if negb (isdigit (chr s 0)) then
    r ← _vbi_keyword_lookup inout_s symbols (length symbols);
    Some (match r with Some (n, s) => Some (u32 n, s) | None => None end)
  else
    match pil_fields_loop 4 0 4 0 [] s with
    | None => Some None
    | Some (n_fields, value, s) =>
        let value := if n_fields <? 4 then [0; 0; tbl value 0; tbl value 1] else value in
        if (15 <? tbl value 0) || (31 <? tbl value 1 .| tbl value 2) || (63 <? tbl value 3)
        then Some None
        else Some (Some (VBI_PIL (tbl value 0) (tbl value 1) (tbl value 2) (tbl value 3), s))
    end.

(** ** Dates *)

Definition month_days : list Z := [31; 29; 31; 30; 31; 30; 31; 31; 30; 31; 30; 31].

Definition vbi_pil_is_valid_date (pil : Z) : bool :=
  let month := VBI_PIL_MONTH pil in
  let day := VBI_PIL_DAY pil in
  (* Note this also checks for zero month and day. *)
  (u32 (month - 1) <? 12)
  && (u32 (day - 1) <? tbl month_days (month - 1))
  && (VBI_PIL_HOUR pil <? 24)
  && (VBI_PIL_MINUTE pil <? 60).

(** ** The fields are independent *)

Lemma pil_sum month day hour minute :
  0 ≤ month ≤ 15 → 0 ≤ day ≤ 31 → 0 ≤ hour ≤ 31 → 0 ≤ minute ≤ 63 →
  VBI_PIL month day hour minute = minute + 64 * hour + 2048 * month + 32768 * day.
Proof.
  intros. unfold VBI_PIL. rewrite !Z.shiftl_mul_pow2 by lia.
  rewrite !(Z.lor_comm _ (hour * _)), !(Z.lor_comm _ minute).
  replace (day * 2 ^ 15 .| month * 2 ^ 11) with ((day * 2 ^ 4 + month) * 2 ^ 11).
  2:{ rewrite Z.lor_comm. rewrite (lor_add (month * 2 ^ 11) day 15) by lia. lia. }
  rewrite (lor_add (hour * 2 ^ 6) _ 11) by lia.
  replace (hour * 2 ^ 6 + (day * 2 ^ 4 + month) * 2 ^ 11)
    with ((hour + (day * 2 ^ 4 + month) * 2 ^ 5) * 2 ^ 6) by lia.
  rewrite lor_add by lia. lia.
Qed.

(** The fields as quotients and remainders. *)
Lemma pil_fields_eq pil :
  VBI_PIL_MONTH pil = pil / 2 ^ 11 mod 2 ^ 4 ∧ VBI_PIL_DAY pil = pil / 2 ^ 15 mod 2 ^ 5 ∧
  VBI_PIL_HOUR pil = pil / 2 ^ 6 mod 2 ^ 5 ∧ VBI_PIL_MINUTE pil = pil mod 2 ^ 6.
Proof.
  unfold VBI_PIL_MONTH, VBI_PIL_DAY, VBI_PIL_HOUR, VBI_PIL_MINUTE.
  rewrite (land_ones_mod _ 4), !(land_ones_mod _ 5), (land_ones_mod _ 6) by done.
  by rewrite !Z.shiftr_div_pow2 by done.
Qed.

Lemma pil_fields month day hour minute :
  0 ≤ month ≤ 15 → 0 ≤ day ≤ 31 → 0 ≤ hour ≤ 31 → 0 ≤ minute ≤ 63 →
  let pil := VBI_PIL month day hour minute in
  VBI_PIL_MONTH pil = month ∧ VBI_PIL_DAY pil = day ∧ VBI_PIL_HOUR pil = hour ∧
  VBI_PIL_MINUTE pil = minute.
Proof.
  intros Hm Hd Hh Hmi pil. unfold pil.
  destruct (pil_fields_eq (VBI_PIL month day hour minute)) as (-> & -> & -> & ->).
  rewrite pil_sum by done. simpl_const. Z.to_euclidean_division_equations. lia.
Qed.

Lemma pil_field_ranges pil :
  0 ≤ VBI_PIL_MONTH pil ≤ 15 ∧ 0 ≤ VBI_PIL_DAY pil ≤ 31 ∧ 0 ≤ VBI_PIL_HOUR pil ≤ 31 ∧
  0 ≤ VBI_PIL_MINUTE pil ≤ 63.
Proof.
  destruct (pil_fields_eq pil) as (-> & -> & -> & ->). simpl_const.
  Z.to_euclidean_division_equations. lia.
Qed.

Lemma pil_eta pil :
  0 ≤ pil < 2 ^ 20 →
  VBI_PIL (VBI_PIL_MONTH pil) (VBI_PIL_DAY pil) (VBI_PIL_HOUR pil) (VBI_PIL_MINUTE pil) = pil.
Proof.
  intros Hp. destruct (pil_field_ranges pil) as (?&?&?&?). rewrite pil_sum by done.
  destruct (pil_fields_eq pil) as (-> & -> & -> & ->). simpl_const.
  Z.to_euclidean_division_equations. lia.
Qed.

Lemma month_days_range m : 0 ≤ m < 12 → 29 ≤ tbl month_days m ≤ 31.
Proof.
  intros Hm. pose proof (forallb_seqZ 12 (λ m, (29 <=? tbl month_days m) &&
    (tbl month_days m <=? 31)) eq_refl m Hm) as H. cbv beta in H. lia.
Qed.

Lemma valid_date_iff pil :
  vbi_pil_is_valid_date pil = true ↔
  1 ≤ VBI_PIL_MONTH pil ≤ 12 ∧ 1 ≤ VBI_PIL_DAY pil ≤ tbl month_days (VBI_PIL_MONTH pil - 1) ∧
  VBI_PIL_HOUR pil < 24 ∧ VBI_PIL_MINUTE pil < 60.
Proof.
  unfold vbi_pil_is_valid_date. destruct (pil_field_ranges pil) as (Hm & Hd & _ & _).
  rewrite !andb_true_iff, !Z.ltb_lt.
  destruct (decide (VBI_PIL_MONTH pil = 0)) as [->|Hm0]; [change (u32 (0 - 1)) with (2 ^ 32 - 1); lia|].
  rewrite (u32_small (VBI_PIL_MONTH pil - 1)) by lia.
  destruct (decide (VBI_PIL_MONTH pil ≤ 12)); [|lia].
  pose proof (month_days_range (VBI_PIL_MONTH pil - 1)).
  destruct (decide (VBI_PIL_DAY pil = 0)) as [->|Hd0]; [change (u32 (0 - 1)) with (2 ^ 32 - 1); lia|].
  rewrite u32_small by lia. lia.
Qed.

(** ** Parsing *)

(** A number below 100 as two digits, and a run of white space. *)
Definition digits2 (n : Z) : list Z := [48 + n / 10; 48 + n mod 10].
Definition sep (c : Z) (present : bool) : list Z := if present then [c] else [].

Lemma isdigit_range c : isdigit c = true ↔ 48 ≤ c ≤ 57.
Proof. unfold isdigit. rewrite andb_true_iff, !Z.leb_le. done. Qed.

Lemma isdigit_digit n : 0 ≤ n < 10 → isdigit (48 + n) = true.
Proof. intros. apply isdigit_range. lia. Qed.

Lemma isspace_not_digit c : isspace c = true → isdigit c = false.
Proof. unfold isspace, isdigit. destruct (Z.leb_spec 48 c); [|done]. lia. Qed.

Lemma skip_space_app lead s :
  Forall (λ c, isspace c = true) lead → isspace (chr s 0) = false → skip_space (lead ++ s) = s.
Proof.
  induction 1 as [|c l Hc Hl IH]; intros Hs; cbn [app skip_space].
  - destruct s as [|c s]; [done|]. cbn in *. by rewrite Hs.
  - rewrite Hc. auto.
Qed.

Lemma pil_fields_step n i n_fields mask value v s :
  0 ≤ v < 100 → i < n_fields →
  pil_fields_loop (S n) i n_fields mask value (digits2 v ++ s)
  = let c := chr s 0 in
    if i <? n_fields - 1 then
      if (i =? 0) && (c =? 58) then
        pil_fields_loop n (i + 1) 2 (mask .| (1 ≪ 2)) (value ++ [v]) (drop 1 s)
      else if tbl (ascii "-T:") i =? c then
        pil_fields_loop n (i + 1) n_fields (mask .| (1 ≪ i)) (value ++ [v]) (drop 1 s)
      else pil_fields_loop n (i + 1) n_fields mask (value ++ [v]) s
    else pil_fields_loop n (i + 1) n_fields mask (value ++ [v]) s.
Proof.
  intros Hv Hi. unfold digits2. cbn [pil_fields_loop app chr nth].
  rewrite (proj2 (Z.ltb_lt _ _) Hi). cbn [negb].
  rewrite !isdigit_digit by (Z.to_euclidean_division_equations; lia). cbn [negb].
  replace ((48 + v / 10 - 48) * 10 + (48 + v mod 10) - 48) with v
    by (Z.to_euclidean_division_equations; lia).
  by rewrite !skipn_cons, !drop_0.
Qed.

Lemma digits2_head v s : 0 ≤ v < 100 → 48 ≤ chr (digits2 v ++ s) 0 ≤ 57.
Proof. intros. cbn. Z.to_euclidean_division_equations. lia. Qed.

Lemma digits2_space v s : 0 ≤ v < 100 → isspace (chr (digits2 v ++ s) 0) = false.
Proof.
  intros Hv. pose proof (digits2_head v s Hv). unfold isspace.
  destruct (Z.eqb_spec (chr (digits2 v ++ s) 0) 32); [lia|].
  destruct (Z.leb_spec (chr (digits2 v ++ s) 0) 13); [lia|]. by rewrite andb_false_r.
Qed.

(** A digit is no separator. *)
Lemma sep_neq_digits i v s :
  0 ≤ i < 3 → 0 ≤ v < 100 → tbl (ascii "-T:") i =? chr (digits2 v ++ s) 0 = false.
Proof.
  intros Hi Hv. pose proof (digits2_head v s Hv). apply Z.eqb_neq.
  assert (i = 0 ∨ i = 1 ∨ i = 2) as [->|[->| ->]] by lia; vm_compute tbl; lia.
Qed.

(** Field [i] of a full date, with or without the separator behind it. *)
Lemma pil_field_sep n i mask value v (b : bool) w s :
  0 ≤ i < 3 → 0 ≤ v < 100 → 0 ≤ w < 100 →
  pil_fields_loop (S n) i 4 mask value (digits2 v ++ sep (tbl (ascii "-T:") i) b ++ digits2 w ++ s)
  = pil_fields_loop n (i + 1) 4 (if b then mask .| (1 ≪ i) else mask) (value ++ [v])
      (digits2 w ++ s).
Proof.
  intros Hi Hv Hw. rewrite pil_fields_step by lia. cbv zeta.
  rewrite (proj2 (Z.ltb_lt i (4 - 1))) by lia. destruct b; cbn [sep app].
  - change (chr (tbl (ascii "-T:") i :: digits2 w ++ s) 0) with (tbl (ascii "-T:") i).
    replace ((i =? 0) && (tbl (ascii "-T:") i =? 58)) with false.
    + by rewrite Z.eqb_refl, skipn_cons, drop_0.
    + assert (i = 0 ∨ i = 1 ∨ i = 2) as [->|[->| ->]] by lia; reflexivity.
  - rewrite sep_neq_digits by lia. pose proof (digits2_head w s Hw).
    rewrite (proj2 (Z.eqb_neq _ 58)), andb_false_r by lia. done.
Qed.

Lemma pil_date_fields month day hour minute s1 s2 s3 rest :
  0 ≤ month < 100 → 0 ≤ day < 100 → 0 ≤ hour < 100 → 0 ≤ minute < 100 →
  pil_fields_loop 4 0 4 0 []
    (digits2 month ++ sep 45 s1 ++ digits2 day ++ sep 84 s2 ++ digits2 hour ++ sep 58 s3
     ++ digits2 minute ++ rest)
  = Some (4, [month; day; hour; minute], rest).
Proof.
  intros Hmo Hd Hh Hmi.
  change 45 with (tbl (ascii "-T:") 0). rewrite pil_field_sep by lia.
  change 84 with (tbl (ascii "-T:") (0 + 1)). rewrite pil_field_sep by lia.
  change 58 with (tbl (ascii "-T:") (0 + 1 + 1)). rewrite pil_field_sep by lia.
  rewrite pil_fields_step by lia. reflexivity.
Qed.

(** A time without a date: the first separator is a colon, or there is none and
    neither a digit nor a T follows. *)
Lemma pil_time_fields hour minute (s : bool) rest :
  0 ≤ hour < 100 → 0 ≤ minute < 100 →
  s = true ∨ (isdigit (chr rest 0) = false ∧ chr rest 0 ≠ 84) →
  pil_fields_loop 4 0 4 0 [] (digits2 hour ++ sep 58 s ++ digits2 minute ++ rest)
  = Some (2, [hour; minute], rest).
Proof.
  intros Hh Hmi Hs. destruct s.
  - rewrite pil_fields_step by lia. cbn [sep app]. cbv zeta.
    change (chr (58 :: _) 0) with 58. change ((0 <? 4 - 1)) with true.
    change ((0 =? 0) && (58 =? 58)) with true. cbn match. rewrite skipn_cons, drop_0.
    rewrite pil_fields_step by lia. reflexivity.
  - destruct Hs as [?|[Hd HT]]; [done|].
    change (sep 58 false) with (sep (tbl (ascii "-T:") 0) false).
    rewrite pil_field_sep by lia. rewrite pil_fields_step by lia. cbv zeta.
    change (0 + 1 <? 4 - 1) with true. change (0 + 1 =? 0) with false.
    change (tbl (ascii "-T:") (0 + 1)) with 84. cbn [andb].
    rewrite (proj2 (Z.eqb_neq 84 _)) by congruence.
    cbn [pil_fields_loop app]. rewrite Hd. reflexivity.
Qed.

(** A 20 bit PIL is shown as [MM-DDThh:mm]; the separators are optional. *)
Definition pil_text (s1 s2 s3 : bool) (pil : Z) : list Z :=
  digits2 (VBI_PIL_MONTH pil) ++ sep 45 s1 ++ digits2 (VBI_PIL_DAY pil) ++ sep 84 s2
  ++ digits2 (VBI_PIL_HOUR pil) ++ sep 58 s3 ++ digits2 (VBI_PIL_MINUTE pil).

Lemma from_string_digits lead v s :
  Forall (λ c, isspace c = true) lead → 0 ≤ v < 100 →
  skip_space (lead ++ digits2 v ++ s) = digits2 v ++ s
  ∧ negb (isdigit (chr (digits2 v ++ s) 0)) = false.
Proof.
  intros Hl Hv. rewrite skip_space_app by (auto using digits2_space). split; [done|].
  apply negb_false_iff, isdigit_range, digits2_head. done.
Qed.

Lemma lor_31 a b : 0 ≤ a ≤ 31 → 0 ≤ b ≤ 31 → (31 <? a .| b) = false.
Proof.
  intros Ha Hb. apply Z.ltb_ge. enough (0 ≤ a .| b < 2 ^ 5) by lia.
  assert ((a .| b) mod 2 ^ 5 = a .| b) as <-; [|by apply Z.mod_pos_bound].
  rewrite <-Z.land_ones, Z.land_lor_distr_l, !Z.land_ones, !Z.mod_small by lia. done.
Qed.

Lemma pil_values_ok m d h mi (rest : list Z) :
  0 ≤ m ≤ 15 → 0 ≤ d ≤ 31 → 0 ≤ h ≤ 31 → 0 ≤ mi ≤ 63 →
  (let value := [m; d; h; mi] in
   if (15 <? tbl value 0) || (31 <? tbl value 1 .| tbl value 2) || (63 <? tbl value 3)
   then Some None
   else Some (Some (VBI_PIL (tbl value 0) (tbl value 1) (tbl value 2) (tbl value 3), rest)))
  = Some (Some (VBI_PIL m d h mi, rest)).
Proof.
  intros Hm Hd Hh Hmi. cbv zeta. set (value := [m; d; h; mi]).
  change (tbl value 0) with m. change (tbl value 1) with d. change (tbl value 2) with h.
  change (tbl value 3) with mi. rewrite lor_31 by done.
  rewrite (proj2 (Z.ltb_ge 15 m)), (proj2 (Z.ltb_ge 63 mi)) by lia. done.
Qed.

(** Parsing inverts printing: [_vbi_pil_from_string] reads the text
    [MM-DDThh:mm] of any 20 bit PIL, unreal dates included, back to that PIL
    behind any white space and with any of the separators left out, and returns
    the position behind it; and it reads [hh:mm] as a PIL with month and day
    zero. *)
Theorem pil_from_string_roundtrip (lead rest : list Z) (pil : Z) (s1 s2 s3 : bool) :
  Forall (λ c, isspace c = true) lead → 0 ≤ pil < 2 ^ 20 →
  _vbi_pil_from_string (lead ++ pil_text s1 s2 s3 pil ++ rest) = Some (Some (pil, rest)) ∧
  (s3 = true ∨ (isdigit (chr rest 0) = false ∧ chr rest 0 ≠ 84) →
   _vbi_pil_from_string
     (lead ++ digits2 (VBI_PIL_HOUR pil) ++ sep 58 s3 ++ digits2 (VBI_PIL_MINUTE pil) ++ rest)
   = Some (Some (VBI_PIL 0 0 (VBI_PIL_HOUR pil) (VBI_PIL_MINUTE pil), rest))).
Proof.
  intros Hl Hp. destruct (pil_field_ranges pil) as (Hm & Hd & Hh & Hmi).
  unfold _vbi_pil_from_string, pil_text. rewrite <-!app_assoc. split.
  - destruct (from_string_digits lead (VBI_PIL_MONTH pil) (sep 45 s1 ++ digits2 (VBI_PIL_DAY pil)
      ++ sep 84 s2 ++ digits2 (VBI_PIL_HOUR pil) ++ sep 58 s3 ++ digits2 (VBI_PIL_MINUTE pil)
      ++ rest)) as [-> ->]; [done|lia|].
    rewrite pil_date_fields by lia. etrans; [by apply pil_values_ok|]. by rewrite pil_eta.
  - intros Hs. destruct (from_string_digits lead (VBI_PIL_HOUR pil) (sep 58 s3
      ++ digits2 (VBI_PIL_MINUTE pil) ++ rest)) as [-> ->]; [done|lia|].
    rewrite pil_time_fields by (done || lia). by apply pil_values_ok.
Qed.

Lemma pil_from_string_roundtrip_witness :
  _vbi_pil_from_string (ascii "  12-24T18:05 ") = Some (Some (VBI_PIL 12 24 18 5, [32])) ∧
  _vbi_pil_from_string (ascii "1805 ") = Some (Some (VBI_PIL 0 0 18 5, [32])).
Proof.
  split.
  - apply (pil_from_string_roundtrip [32; 32] [32] (VBI_PIL 12 24 18 5) true true true);
      [repeat constructor|vm_compute; split; congruence].
  - apply (pil_from_string_roundtrip [] [32] (VBI_PIL 12 24 18 5) true true false);
      [constructor|vm_compute; split; congruence|right; split; [reflexivity|discriminate]].
Defined.

(** The symbols of the service codes. *)
Lemma pil_from_string_symbols :
  Forall (λ '(k, v), _vbi_pil_from_string (ascii k) = Some (Some (v, [])))
    [("CONT", VBI_PIL_CONTINUE); ("continue", VBI_PIL_CONTINUE); ("end", VBI_PIL_END);
     ("inhibit", VBI_PIL_INHIBIT_TERMINATE); ("Int", VBI_PIL_INTERRUPTION);
     ("interruption", VBI_PIL_INTERRUPTION); ("NSPV", VBI_PIL_NSPV);
     ("rit", VBI_PIL_INHIBIT_TERMINATE); ("terminate", VBI_PIL_INHIBIT_TERMINATE);
     ("tc", VBI_PIL_TIMER_CONTROL); ("timer", VBI_PIL_TIMER_CONTROL)]%string.
Proof. repeat constructor. Qed.

(** [vbi_pil_is_valid_date] accepts exactly the PILs with a month from 1 to
    12, a day of that month in a leap year, an hour below 24 and a minute below
    60; in particular no service code is a valid date. *)
Theorem pil_is_valid_date_correct (month day hour minute : Z) :
  0 ≤ month ≤ 15 → 0 ≤ day ≤ 31 → 0 ≤ hour ≤ 31 → 0 ≤ minute ≤ 63 →
  vbi_pil_is_valid_date (VBI_PIL month day hour minute) = true ↔
  1 ≤ month ≤ 12 ∧ hour < 24 ∧ minute < 60 ∧ 1 ≤ day ≤ 31 ∧
  (month = 4 ∨ month = 6 ∨ month = 9 ∨ month = 11 → day ≤ 30) ∧ (month = 2 → day ≤ 29).
Proof.
  intros Hm Hd Hh Hmi. rewrite valid_date_iff.
  destruct (pil_fields month day hour minute) as (-> & -> & -> & ->); [done..|].
  destruct (decide (1 ≤ month ≤ 12)) as [Hr|]; [|naive_solver].
  enough (1 ≤ day ≤ tbl month_days (month - 1) ↔
          1 ≤ day ≤ 31 ∧ (month = 4 ∨ month = 6 ∨ month = 9 ∨ month = 11 → day ≤ 30) ∧ (month = 2 → day ≤ 29)) by naive_solver.
  assert (month = 1 ∨ month = 2 ∨ month = 3 ∨ month = 4 ∨ month = 5 ∨ month = 6 ∨ month = 7 ∨
    month = 8 ∨ month = 9 ∨ month = 10 ∨ month = 11 ∨ month = 12)
    as [->|[->|[->|[->|[->|[->|[->|[->|[->|[->|[->| ->]]]]]]]]]]] by lia;
  match goal with |- context [tbl ?l ?i] => let v := eval vm_compute in (tbl l i) in
    change (tbl l i) with v end;
  lia.
Qed.

Lemma pil_is_valid_date_correct_witness : vbi_pil_is_valid_date (VBI_PIL 2 29 23 59) = true.
Proof. apply (pil_is_valid_date_correct 2 29 23 59); [lia..|lia]. Defined.
