(* ===== verification/Vps.v ===== *)
(** Video Program System packets and DVB PDC descriptors: the decoders and
    encoders of [src/src/vps.c]. *)
From S2P Require Import Prelude Pil.

(** A [uint8_t buffer[13]] is a list of bytes; the indices are constants within
    the array. *)

Definition vbi_decode_vps_cni (buffer : list Z) : Z :=
  let cni_value := ((buffer.[10] .& 0x03) ≪ 10) + ((buffer.[11] .& 0xC0) ≪ 2)
                   + (buffer.[8] .& 0xC0) + (buffer.[11] .& 0x3F) in
  if cni_value =? 0x0DC3 then
    if buffer.[2] .& 0x10 =? 0 then 0x0DC2 (* ZDF *) else 0x0DC1 (* ARD *)
  else cni_value.

(** Always TRUE. *)
Definition vbi_decode_vps_pdc (buffer : list Z) : vbi_program_id :=
  let pil := ((buffer.[8] .& 0x3F) ≪ 14) + (buffer.[9] ≪ 6) + (buffer.[10] ≫ 2) in
  {| channel := VBI_PID_CHANNEL_VPS; cni_type := VBI_CNI_TYPE_VPS;
     cni := vbi_decode_vps_cni buffer; pil := pil; luf := 0; mi := 1; prf := 0;
     pcs_audio := buffer.[2] ≫ 6; pty := buffer.[12]; tape_delayed := 0 |}.

(** [None] is FALSE: [*pid] remains unmodified. *)
Definition vbi_decode_dvb_pdc_descriptor (buffer : list Z) : option vbi_program_id :=
  if negb (buffer.[0] =? 0x69) || negb (buffer.[1] =? 3) then None
  else
    let pil := ((buffer.[2] .& 0x0F) ≪ 16) + (buffer.[3] ≪ 8) + buffer.[4] in
    Some {| channel := VBI_PID_CHANNEL_PDC_DESCRIPTOR; cni_type := VBI_CNI_TYPE_NONE;
            cni := 0; pil := pil; luf := 0; mi := 1; prf := 0;
            pcs_audio := 0; pty := 0; tape_delayed := 0 |}.

(** The encoders return the buffer and the result. *)
Definition vbi_encode_vps_cni (buffer : list Z) (cni : Z) : list Z * bool :=
  if 0x0FFF <? u32 cni then (buffer, false)
  else
    let cni := u32 cni in
    let buffer := <[8%nat := u8 ((buffer.[8] .& 0x3F) .| (cni .& 0xC0))]> buffer in
    let buffer := <[10%nat := u8 ((buffer.[10] .& 0xFC) .| (cni ≫ 10))]> buffer in
    let buffer := <[11%nat := u8 ((cni .& 0x3F) .| ((cni ≫ 2) .& 0xC0))]> buffer in
    (buffer, true).

Definition vbi_encode_vps_pdc (buffer : list Z) (pid : vbi_program_id) : list Z * bool :=
  if 0xFF <? u32 (pty pid) then (buffer, false)
  else if 3 <? u32 (pcs_audio pid) then (buffer, false)
  else
    let pil := u32 (pil pid) in
    if 0xFFFFF <? pil then (buffer, false)
    else
      let '(buffer, ok) := vbi_encode_vps_cni buffer (cni pid) in
      if negb ok then (buffer, false)
      else
        let buffer := <[2%nat := u8 ((buffer.[2] .& 0x3F) .| (pcs_audio pid ≪ 6))]> buffer in
        let buffer := <[8%nat := u8 ((buffer.[8] .& 0xC0) .| ((pil ≫ 14) .& 0x3F))]> buffer in
        let buffer := <[9%nat := u8 (pil ≫ 6)]> buffer in
        let buffer := <[10%nat := u8 ((buffer.[10] .& 0x03) .| (pil ≪ 2))]> buffer in
        let buffer := <[12%nat := u8 (pty pid)]> buffer in
        (buffer, true).

Definition vbi_encode_dvb_pdc_descriptor (buffer : list Z) (pid : vbi_program_id)
    : list Z * bool :=
  let pil := u32 (pil pid) in
  if 0xFFFFF <? pil then (buffer, false)
  else
    let buffer := <[0%nat := 0x69]> buffer in
    let buffer := <[1%nat := 3]> buffer in
    let buffer := <[2%nat := u8 (0xF0 .| (pil ≫ 16))]> buffer in
    let buffer := <[3%nat := u8 (pil ≫ 8)]> buffer in
    let buffer := <[4%nat := u8 pil]> buffer in
    (buffer, true).

(** ** Arrays of known size *)

(** The bytes of a VPS packet by name. *)
Lemma vps_buffer (buffer : list Z) :
  length buffer = 13%nat →
  ∃ b0 b1 b2 b3 b4 b5 b6 b7 b8 b9 b10 b11 b12,
    buffer = [b0; b1; b2; b3; b4; b5; b6; b7; b8; b9; b10; b11; b12].
Proof.
  intros H. do 13 (destruct buffer as [|? buffer]; [done|]). destruct buffer; [|done].
  by repeat eexists.
Qed.

(** ** Reassembling the fields *)

Lemma cni_parts cni :
  0 ≤ cni < 2 ^ 12 →
  ((cni ≫ 10) ≪ 10) + (((cni ≫ 2) .& 0xC0) ≪ 2) + (cni .& 0xC0) + (cni .& 0x3F) = cni.
Proof.
  intros H. change 0xC0 with (Z.ones 2 ≪ 6). rewrite !land_mask, (land_ones_mod _ 6) by done.
  rewrite !Z.shiftl_mul_pow2, !Z.shiftr_div_pow2 by done. simpl_const.
  Z.to_euclidean_division_equations. lia.
Qed.

Lemma pil_parts pil :
  0 ≤ pil < 2 ^ 20 →
  (((pil ≫ 14) .& 0x3F) ≪ 14) + (u8 (pil ≫ 6) ≪ 6) + (pil .& 0x3F) = pil.
Proof.
  intros H. rewrite !(land_ones_mod _ 6) by done. unfold u8.
  rewrite !Z.shiftl_mul_pow2, !Z.shiftr_div_pow2 by done. simpl_const.
  Z.to_euclidean_division_equations. lia.
Qed.

Section encoded.
Context (b8 b10 b2 cni pil pcs : Z).
Context (Hcni : 0 ≤ cni < 2 ^ 12) (Hpil : 0 ≤ pil < 2 ^ 20) (Hpcs : 0 ≤ pcs < 4).

(** The bytes that hold two fields. *)
Definition byte8 : Z := u8 ((u8 ((b8 .& 0x3F) .| (cni .& 0xC0)) .& 0xC0) .| ((pil ≫ 14) .& 0x3F)).
Definition byte10 : Z := u8 ((u8 ((b10 .& 0xFC) .| (cni ≫ 10)) .& 0x03) .| (pil ≪ 2)).
Definition byte11 : Z := u8 ((cni .& 0x3F) .| ((cni ≫ 2) .& 0xC0)).
Definition byte2 : Z := u8 ((b2 .& 0x3F) .| (pcs ≪ 6)).

Lemma byte8_low : byte8 .& 0x3F = (pil ≫ 14) .& 0x3F.
Proof. unfold byte8. bits 8. Qed.
Lemma byte8_high : byte8 .& 0xC0 = cni .& 0xC0.
Proof. unfold byte8. bits 8. Qed.
Lemma byte10_low : byte10 .& 0x03 = cni ≫ 10.
Proof. unfold byte10. bits 2. Qed.
Lemma byte10_high : byte10 ≫ 2 = pil .& 0x3F.
Proof. unfold byte10. bits 6. Qed.
Lemma byte11_low : byte11 .& 0x3F = cni .& 0x3F.
Proof. unfold byte11. bits 8. Qed.
Lemma byte11_high : byte11 .& 0xC0 = (cni ≫ 2) .& 0xC0.
Proof. unfold byte11. bits 8. Qed.
Lemma byte2_high : byte2 ≫ 6 = pcs.
Proof. unfold byte2. bits 2. Qed.
Lemma byte2_ard : byte2 .& 0x10 = b2 .& 0x10.
Proof. unfold byte2. bits 8. Qed.
End encoded.

(** ** Decoding inverts encoding *)

(** The CNI 0xDC3 stands for one of two networks. *)
Definition vps_cni_meaning (buffer : list Z) (cni : Z) : Z :=
  if cni =? 0xDC3 then if Z.testbit buffer.[2] 4 then 0xDC1 else 0xDC2 else cni.

Lemma decode_cni_meaning b cni :
  0 ≤ cni < 2 ^ 12 → b.[10] .& 0x03 = cni ≫ 10 → b.[11] .& 0xC0 = (cni ≫ 2) .& 0xC0 →
  b.[8] .& 0xC0 = cni .& 0xC0 → b.[11] .& 0x3F = cni .& 0x3F →
  vbi_decode_vps_cni b = vps_cni_meaning b cni.
Proof.
  intros Hc E10 E11 E8 E11'. unfold vbi_decode_vps_cni, vps_cni_meaning.
  rewrite E10, E11, E8, E11', cni_parts by done. cbv zeta. rewrite (Z.eqb_sym cni).
  rewrite Z.eqb_sym. destruct (cni =? 0xDC3); [|done].
  change 0x10 with (2 ^ 4). rewrite land_pow2_eqb by done. by destruct (Z.testbit b.[2] 4).
Qed.

Lemma testbit_4_land x y : x .& 0x10 = y .& 0x10 → Z.testbit x 4 = Z.testbit y 4.
Proof.
  intros H. assert (Z.testbit (x .& 0x10) 4 = Z.testbit (y .& 0x10) 4) as Ht by by rewrite H.
  rewrite !Z.land_spec in Ht. change (Z.testbit 0x10 4) with true in Ht.
  by rewrite !andb_true_r in Ht.
Qed.

(** What [vbi_encode_vps_pdc] can store. *)
Definition vps_encodable (pid : vbi_program_id) : Prop :=
  0 ≤ cni pid < 2 ^ 12 ∧ 0 ≤ pil pid < 2 ^ 20 ∧ 0 ≤ pcs_audio pid < 4 ∧ 0 ≤ pty pid < 256.

(** C33: for a valid program ID [vbi_encode_vps_pdc] succeeds, and
    [vbi_decode_vps_pdc] returns exactly its CNI, PIL, PCS and PTY from the
    packet, except that the CNI 0xDC3 becomes 0xDC1 or 0xDC2 as bit 4 of byte 2
    of the packet says; the packet's other bytes and bits are unchanged. *)
Theorem vps_pdc_roundtrip (buffer : list Z) (pid : vbi_program_id) :
  length buffer = 13%nat → vps_encodable pid →
  let '(buffer', ok) := vbi_encode_vps_pdc buffer pid in
  ok = true ∧ length buffer' = 13%nat ∧
  (∀ i, i ∉ [2; 8; 9; 10; 11; 12]%nat → buffer' !! i = buffer !! i) ∧
  buffer'.[2] .& 0x3F = buffer.[2] .& 0x3F ∧
  vbi_decode_vps_pdc buffer'
  = ProgramId VBI_PID_CHANNEL_VPS VBI_CNI_TYPE_VPS (vps_cni_meaning buffer (cni pid)) (pil pid)
      0 1 0 (pcs_audio pid) (pty pid) 0.
Proof.
  intros Hlen (Hcni & Hpil & Hpcs & Hpty).
  destruct (vps_buffer buffer Hlen) as (b0&b1&b2&b3&b4&b5&b6&b7&b8&b9&b10&b11&b12&->).
  unfold vbi_encode_vps_pdc, vbi_encode_vps_cni.
  rewrite !(u32_small (pty pid)), !(u32_small (pcs_audio pid)), !(u32_small (pil pid)),
    !(u32_small (cni pid)) by lia.
  rewrite (proj2 (Z.ltb_ge 0xFF _)), (proj2 (Z.ltb_ge 3 _)), (proj2 (Z.ltb_ge 0xFFFFF _)),
    (proj2 (Z.ltb_ge 0xFFF _)) by lia.
  cbn [negb]. cbv zeta match.
  set (b' := <[12%nat := _]> _).
  assert (b' = [b0; b1; byte2 b2 (pcs_audio pid); b3; b4; b5; b6; b7; byte8 b8 (cni pid) (pil pid);
    u8 (pil pid ≫ 6); byte10 b10 (cni pid) (pil pid); byte11 (cni pid); u8 (pty pid)]) as ->
    by reflexivity.
  split_and!; [done|done| | |].
  - intros i Hi. do 13 (destruct i as [|i]; [by first [reflexivity|exfalso; apply Hi; repeat constructor]|]).
    done.
  - tbl_simpl. unfold byte2. bits 8.
  - unfold vbi_decode_vps_pdc. erewrite decode_cni_meaning.
    2:exact Hcni. 2:by apply byte10_low. 2:by apply byte11_high. 2:by apply byte8_high.
    2:by apply byte11_low.
    tbl_simpl. f_equal.
    + unfold vps_cni_meaning. tbl_simpl.
      by rewrite (testbit_4_land _ b2) by (apply byte2_ard; lia).
    + rewrite byte8_low, byte10_high, pil_parts by done. done.
    + by apply byte2_high.
    + by apply Z.mod_small.
Qed.

Definition vps_witness_pid : vbi_program_id :=
  ProgramId 0 VBI_CNI_TYPE_VPS 0xDC3 (VBI_PIL 12 24 18 5) 0 1 0 2 0x81 0.

Lemma vps_pdc_roundtrip_witness :
  vbi_decode_vps_pdc (vbi_encode_vps_pdc [0; 1; 0x30; 3; 4; 5; 6; 7; 8; 9; 10; 11; 12] vps_witness_pid).1
  = ProgramId VBI_PID_CHANNEL_VPS VBI_CNI_TYPE_VPS 0xDC1 (VBI_PIL 12 24 18 5) 0 1 0 2 0x81 0.
Proof.
  refine (proj2 (proj2 (proj2 (proj2 (vps_pdc_roundtrip
    [0; 1; 0x30; 3; 4; 5; 6; 7; 8; 9; 10; 11; 12] vps_witness_pid eq_refl _))))).
  repeat split; vm_compute; congruence.
Defined.

(** The VPS encoder fails exactly for program IDs it cannot store, and then
    leaves the packet unmodified. *)
Theorem vps_pdc_encode_error (buffer : list Z) (pid : vbi_program_id) :
  0 ≤ cni pid < 2 ^ 32 → 0 ≤ pil pid < 2 ^ 32 → 0 ≤ pcs_audio pid < 2 ^ 32 →
  0 ≤ pty pid < 2 ^ 32 →
  let '(buffer', ok) := vbi_encode_vps_pdc buffer pid in
  (ok = true ↔ vps_encodable pid) ∧ (ok = false → buffer' = buffer).
Proof.
  intros Hcni Hpil Hpcs Hpty. unfold vbi_encode_vps_pdc, vbi_encode_vps_cni, vps_encodable.
  rewrite !(u32_small (pty pid)), !(u32_small (pcs_audio pid)), !(u32_small (pil pid)),
    !(u32_small (cni pid)) by lia.
  destruct (Z.ltb_spec 0xFF (pty pid)); [split; [split; [done|lia]|done]|].
  destruct (Z.ltb_spec 3 (pcs_audio pid)); [split; [split; [done|lia]|done]|].
  cbv zeta. destruct (Z.ltb_spec 0xFFFFF (pil pid)); [split; [split; [done|lia]|done]|].
  destruct (Z.ltb_spec 0xFFF (cni pid)); cbn [negb]; split; try done; split; try done; lia.
Qed.

Lemma vps_pdc_encode_error_witness :
  (vbi_encode_vps_pdc [1; 2; 3] (ProgramId 0 VBI_CNI_TYPE_VPS 0x1000 0 0 0 0 0 0 0)).1 = [1; 2; 3].
Proof.
  refine (proj2 (vps_pdc_encode_error [1; 2; 3] (ProgramId 0 VBI_CNI_TYPE_VPS 0x1000 0 0 0 0 0 0 0)
    _ _ _ _) eq_refl); vm_compute; split; congruence.
Defined.

(** [vbi_decode_dvb_pdc_descriptor] recovers the PIL of a descriptor written
    by [vbi_encode_dvb_pdc_descriptor], which fails only for a PIL of more than
    20 bits, and rejects every descriptor with another tag or length. *)
Theorem dvb_pdc_descriptor_roundtrip (buffer : list Z) (pid : vbi_program_id) :
  length buffer = 5%nat → 0 ≤ pil pid < 2 ^ 32 →
  let '(buffer', ok) := vbi_encode_dvb_pdc_descriptor buffer pid in
  (ok = true ↔ pil pid < 2 ^ 20) ∧ (ok = false → buffer' = buffer) ∧
  (ok = true → length buffer' = 5%nat ∧ bytes buffer' ∧
    vbi_decode_dvb_pdc_descriptor buffer'
    = Some (ProgramId VBI_PID_CHANNEL_PDC_DESCRIPTOR VBI_CNI_TYPE_NONE 0 (pil pid) 0 1 0 0 0 0)) ∧
  (∀ buffer'', vbi_decode_dvb_pdc_descriptor buffer'' ≠ None ↔
    buffer''.[0] = 0x69 ∧ buffer''.[1] = 3).
Proof.
  intros Hlen Hpil. do 5 (destruct buffer as [|? buffer]; [done|]). destruct buffer; [|done].
  assert (∀ buffer'', vbi_decode_dvb_pdc_descriptor buffer'' ≠ None ↔
    buffer''.[0] = 0x69 ∧ buffer''.[1] = 3) as Hdec.
  { intros b. unfold vbi_decode_dvb_pdc_descriptor.
    destruct (Z.eqb_spec b.[0] 0x69), (Z.eqb_spec b.[1] 3); cbn; naive_solver. }
  unfold vbi_encode_dvb_pdc_descriptor. rewrite u32_small by done.
  destruct (Z.ltb_spec 0xFFFFF (pil pid)); [split; [split; [done|lia]|done]|].
  split; [split; [lia|done]|split; [done|split; [|done]]]. intros _. split; [done|split].
  - repeat constructor; try (vm_compute; congruence); apply u8_range.
  - set (b' := <[4%nat := _]> _).
    assert (b' = [0x69; 3; u8 (0xF0 .| (pil pid ≫ 16)); u8 (pil pid ≫ 8); u8 (pil pid)]) as ->
      by reflexivity.
    unfold vbi_decode_dvb_pdc_descriptor. tbl_simpl.
    change (negb (0x69 =? 0x69) || negb (3 =? 3)) with false. cbv zeta match. do 2 f_equal.
    assert (u8 (0xF0 .| (pil pid ≫ 16)) .& 0x0F = pil pid ≫ 16) as ->
      by (assert (0 ≤ pil pid < 2 ^ 20) by lia; bits 4).
    unfold u8. rewrite !Z.shiftl_mul_pow2, !Z.shiftr_div_pow2 by done. simpl_const.
    Z.to_euclidean_division_equations. lia.
Qed.

Lemma dvb_pdc_descriptor_roundtrip_witness :
  vbi_decode_dvb_pdc_descriptor (vbi_encode_dvb_pdc_descriptor [0; 0; 0; 0; 0]
    (ProgramId 0 VBI_CNI_TYPE_NONE 0 0xABCDE 0 0 0 0 0 0)).1
  = Some (ProgramId VBI_PID_CHANNEL_PDC_DESCRIPTOR VBI_CNI_TYPE_NONE 0 0xABCDE 0 1 0 0 0 0).
Proof.
  refine (proj2 (proj2 (proj1 (proj2 (proj2 (dvb_pdc_descriptor_roundtrip [0; 0; 0; 0; 0]
    (ProgramId 0 VBI_CNI_TYPE_NONE 0 0xABCDE 0 0 0 0 0 0) eq_refl
    ltac:(vm_compute; split; congruence)))) eq_refl))).
Defined.
