(* ===== verification/CTime.v ===== *)
(** The broken-down time of the C library: [struct tm], [gmtime_r] and [timegm]
    on the proleptic Gregorian calendar, for a signed 64 bit [time_t], and the
    wrapper [_vbi_timegm] of [src/src/pdc.c]. *)
From S2P Require Import Prelude.

(** [time_t] and [int64_t] are signed 64 bit integers. *)
Definition TIME_MIN : Z := - 2 ^ 63.
Definition TIME_MAX : Z := 2 ^ 63 - 1.
Definition INT_MIN : Z := - 2 ^ 31.
Definition INT_MAX : Z := 2 ^ 31 - 1.
Definition EOVERFLOW : Z := 75.

Record tm := Tm {
  tm_sec : Z; tm_min : Z; tm_hour : Z; tm_mday : Z; tm_mon : Z; tm_year : Z; tm_isdst : Z
}.
(** [CLEAR (tm)] *)
Definition tm_clear : tm := Tm 0 0 0 0 0 0 0.

(** ** The calendar *)

Definition leap (y : Z) : bool :=
  (y mod 4 =? 0) && (negb (y mod 100 =? 0) || (y mod 400 =? 0)).

(** Days from 1970-01-01 to January 1st of year [y]. *)
Definition year_days (y : Z) : Z :=
  365 * (y - 1970) + (y - 1969) / 4 - (y - 1901) / 100 + (y - 1601) / 400.

(** Days of a year before month [m] from 0 to 11. *)
Definition month_start (l : bool) (m : Z) : Z :=
  tbl (if l then [0; 31; 60; 91; 121; 152; 182; 213; 244; 274; 305; 335; 366]
       else [0; 31; 59; 90; 120; 151; 181; 212; 243; 273; 304; 334; 365]) m.
Definition month_length (l : bool) (m : Z) : Z := month_start l (m + 1) - month_start l m.

(** The year of a day: an estimate from the mean length of a year, off by at
    most one. *)
Definition day_year (days : Z) : Z :=
  let y := 1970 + days * 400 / 146097 in
  if days <? year_days y then y - 1 else if days <? year_days (y + 1) then y else y + 1.

(** The month of a day of the year. *)
Fixpoint find_month (n : nat) (l : bool) (yday m : Z) : Z :=
  match n with
  | O => m
  | S n => if yday <? month_start l (m + 1) then m else find_month n l yday (m + 1)
  end.
Definition day_month (l : bool) (yday : Z) : Z := find_month 11 l yday 0.

(** [gmtime_r]; NULL when the year does not fit [tm_year]. *)
Definition gmtime_r (t : Z) : option tm :=
  let days := t / 86400 in
  let secs := t mod 86400 in
  let y := day_year days in
  let yday := days - year_days y in
  let m := day_month (leap y) yday in
  if (INT_MIN <=? y - 1900) && (y - 1900 <=? INT_MAX) then
    Some {| tm_sec := secs mod 60; tm_min := secs / 60 mod 60; tm_hour := secs / 3600;
            tm_mday := yday - month_start (leap y) m + 1; tm_mon := m; tm_year := y - 1900;
            tm_isdst := 0 |}
  else None.

(** The seconds a [struct tm] denotes as UTC; its fields need not be in range. *)
Definition tm_seconds (t : tm) : Z :=
  let y := tm_year t + 1900 + tm_mon t / 12 in
  let days := year_days y + month_start (leap y) (tm_mon t mod 12) + (tm_mday t - 1) in
  days * 86400 + tm_hour t * 3600 + tm_min t * 60 + tm_sec t.

Definition timegm (t : tm) : Z :=
  let s := tm_seconds t in
  if (s <? TIME_MIN) || (TIME_MAX <? s) then -1 else s.

(** [_vbi_timegm]: the result and [errno], which is set to 0 first. *)
Definition _vbi_timegm (t : tm) : Z * Z :=
  let result := timegm t in
  if result =? -1 then (-1, EOVERFLOW)
  else if (result <=? TIME_MIN) || (TIME_MAX <=? result) then (-1, EOVERFLOW)
  else (result, 0).

(** ** Years and months *)

Lemma year_days_succ y : year_days (y + 1) = year_days y + 365 + Z.b2z (leap y).
Proof.
  unfold year_days, leap. 
  destruct (Z.eqb_spec (y mod 4) 0), (Z.eqb_spec (y mod 100) 0), (Z.eqb_spec (y mod 400) 0);
    cbn [negb andb orb Z.b2z]; Z.to_euclidean_division_equations; lia.
Qed.

Lemma day_year_spec days :
  year_days (day_year days) ≤ days < year_days (day_year days + 1).
Proof.
  unfold day_year.
  set (y := 1970 + days * 400 / 146097).
  assert (y = 1970 + days * 400 / 146097) as Hy by done. clearbody y.
  destruct (Z.ltb_spec days (year_days y)) as [H|H].
  - rewrite Z.sub_add. split; [|done]. unfold year_days in *.
    Z.to_euclidean_division_equations. lia.
  - destruct (Z.ltb_spec days (year_days (y + 1))) as [H1|H1]; [done|]. split; [done|].
    unfold year_days in *. Z.to_euclidean_division_equations. lia.
Qed.

Lemma year_days_mono y y' : y < y' → year_days (y + 1) ≤ year_days y'.
Proof. intros H. unfold year_days. Z.to_euclidean_division_equations. lia. Qed.

Lemma day_year_unique days y :
  year_days y ≤ days < year_days (y + 1) → day_year days = y.
Proof.
  intros Hy. pose proof (day_year_spec days) as H.
  destruct (Z.lt_trichotomy (day_year days) y) as [Hl|[->|Hl]]; [|done|];
    apply year_days_mono in Hl; lia.
Qed.

Definition year_length (l : bool) : Z := 365 + Z.b2z l.

Lemma month_table (l : bool) yday m :
  0 ≤ yday < year_length l → 0 ≤ m < 12 →
  (month_start l m ≤ yday < month_start l (m + 1) ↔ day_month l yday = m).
Proof.
  intros Hd Hm. assert (forallb (λ yday, forallb (λ m,
    eqb ((month_start l m <=? yday) && (yday <? month_start l (m + 1))) (day_month l yday =? m))
    (seqZ 0 12)) (seqZ 0 (year_length l)) = true) as H by (destruct l; vm_compute; reflexivity).
  pose proof (forallb_seqZ _ _ H yday Hd) as H2. cbv beta in H2.
  pose proof (forallb_seqZ _ _ H2 m Hm) as H3. cbv beta in H3.
  apply eqb_prop in H3. rewrite <-Z.leb_le, <-Z.ltb_lt, <-andb_true_iff, <-Z.eqb_eq.
  by rewrite H3.
Qed.

Lemma day_month_range (l : bool) yday : 0 ≤ yday < year_length l → 0 ≤ day_month l yday < 12.
Proof.
  intros Hd. assert (forallb (λ d, (0 <=? day_month l d) && (day_month l d <? 12))
    (seqZ 0 (year_length l)) = true) as H by (destruct l; vm_compute; reflexivity).
  pose proof (forallb_seqZ _ _ H yday Hd) as H2. cbv beta in H2. lia.
Qed.

Lemma day_month_spec (l : bool) yday :
  0 ≤ yday < year_length l →
  month_start l (day_month l yday) ≤ yday < month_start l (day_month l yday + 1).
Proof. intros Hd. apply month_table; [done|by apply day_month_range|done]. Qed.

(** A month lies within its year. *)
Lemma month_bounds (l : bool) m :
  0 ≤ m < 12 →
  0 ≤ month_start l m ∧ month_start l (m + 1) ≤ year_length l ∧ 28 ≤ month_length l m ≤ 31.
Proof.
  intros Hm. unfold month_length.
  assert (forallb (λ m, (0 <=? month_start l m) && (month_start l (m + 1) <=? year_length l) &&
    (28 <=? month_start l (m + 1) - month_start l m) && (month_start l (m + 1) - month_start l m <=? 31))
    (seqZ 0 12) = true) as H by (destruct l; vm_compute; reflexivity).
  pose proof (forallb_seqZ _ _ H m Hm) as H2. cbv beta in H2. lia.
Qed.

(** ** [gmtime_r] and [timegm] are inverse *)

(** The fields are in range and the date exists. *)
Definition tm_ok (t : tm) : Prop :=
  0 ≤ tm_sec t < 60 ∧ 0 ≤ tm_min t < 60 ∧ 0 ≤ tm_hour t < 24 ∧ 0 ≤ tm_mon t < 12 ∧
  1 ≤ tm_mday t ≤ month_length (leap (tm_year t + 1900)) (tm_mon t) ∧ tm_isdst t = 0.

Lemma tm_seconds_ok t :
  0 ≤ tm_mon t < 12 →
  tm_seconds t = (year_days (tm_year t + 1900) + month_start (leap (tm_year t + 1900)) (tm_mon t)
                  + (tm_mday t - 1)) * 86400 + tm_hour t * 3600 + tm_min t * 60 + tm_sec t.
Proof. intros Hm. unfold tm_seconds. by rewrite Z.div_small, Z.mod_small, Z.add_0_r by done. Qed.

Lemma gmtime_sound s t :
  gmtime_r s = Some t → tm_ok t ∧ tm_seconds t = s ∧ INT_MIN ≤ tm_year t ≤ INT_MAX.
Proof.
  unfold gmtime_r. pose proof (day_year_spec (s / 86400)) as Hy.
  set (y := day_year (s / 86400)) in *. rewrite year_days_succ in Hy.
  set (yday := s / 86400 - year_days y).
  assert (0 ≤ yday < year_length (leap y)) as Hd by (unfold yday, year_length; lia).
  pose proof (day_month_range _ _ Hd) as Hm. pose proof (day_month_spec _ _ Hd) as Hs.
  set (m := day_month (leap y) yday) in *.
  destruct (Z.leb_spec INT_MIN (y - 1900)), (Z.leb_spec (y - 1900) INT_MAX); try done.
  cbn [andb]. intros [= <-]. split; [|split; [|done]].
  - unfold tm_ok, month_length. cbn [tm_sec tm_min tm_hour tm_mday tm_mon tm_year tm_isdst]. rewrite Z.sub_add. clearbody m yday y. clear Hy.
    split_and!; try done; Z.to_euclidean_division_equations; lia.
  - rewrite tm_seconds_ok by done. cbn [tm_sec tm_min tm_hour tm_mday tm_mon tm_year tm_isdst]. rewrite Z.sub_add. unfold yday.
    Z.to_euclidean_division_equations. lia.
Qed.

Lemma gmtime_complete t :
  tm_ok t → INT_MIN ≤ tm_year t ≤ INT_MAX → gmtime_r (tm_seconds t) = Some t.
Proof.
  intros (Hsec & Hmin & Hhour & Hmon & Hday & Hdst) Hy. rewrite tm_seconds_ok by done.
  destruct (month_bounds (leap (tm_year t + 1900)) (tm_mon t) Hmon) as (B0 & B1 & _).
  pose proof (year_days_succ (tm_year t + 1900)) as Hsucc. unfold month_length in Hday.
  set (days := year_days _ + _ + _). unfold gmtime_r.
  assert ((days * 86400 + tm_hour t * 3600 + tm_min t * 60 + tm_sec t) / 86400 = days) as ->
    by (Z.to_euclidean_division_equations; lia).
  assert ((days * 86400 + tm_hour t * 3600 + tm_min t * 60 + tm_sec t) mod 86400
    = tm_hour t * 3600 + tm_min t * 60 + tm_sec t) as -> by (Z.to_euclidean_division_equations; lia).
  assert (day_year days = tm_year t + 1900) as ->.
  { apply day_year_unique. unfold year_length in B1. lia. }
  assert (days - year_days (tm_year t + 1900)
    = month_start (leap (tm_year t + 1900)) (tm_mon t) + (tm_mday t - 1)) as -> by lia.
  assert (day_month (leap (tm_year t + 1900))
    (month_start (leap (tm_year t + 1900)) (tm_mon t) + (tm_mday t - 1)) = tm_mon t) as ->.
  { apply month_table; lia. }
  rewrite Z.add_simpl_r. destruct (Z.leb_spec INT_MIN (tm_year t)); [|lia].
  destruct (Z.leb_spec (tm_year t) INT_MAX); [|lia]. cbn [andb]. destruct t; cbn in *.
  f_equal. f_equal; try (Z.to_euclidean_division_equations; lia).
Qed.

(** The range of years of moderate times. *)
Lemma gmtime_total s : - 2 ^ 54 ≤ s ≤ 2 ^ 54 → ∃ t, gmtime_r s = Some t.
Proof.
  intros Hs. unfold gmtime_r.
  assert (-2 ^ 30 ≤ day_year (s / 86400) - 1900 ≤ 2 ^ 30) as Hy.
  { pose proof (day_year_spec (s / 86400)) as H. unfold year_days in H.
    generalize dependent (day_year (s / 86400)). intros y H.
    Z.to_euclidean_division_equations. lia. }
  unfold INT_MIN, INT_MAX.
  destruct (Z.leb_spec (-2 ^ 31) (day_year (s / 86400) - 1900)); [|lia].
  destruct (Z.leb_spec (day_year (s / 86400) - 1900) (2 ^ 31 - 1)); [|lia]. by eexists.
Qed.

(** Conversion should compare times before it unfolds them. *)
#[global] Strategy 1000 [tm_seconds year_days].
