(* ===== verification/Packet830.v ===== *)
(** Teletext packet 8/30: the network, time and programme label decoders of
    [src/src/packet-830.c]. *)
From S2P Require Import Prelude Gf2 Hamm Bcd Pil CTime.

(** [buffer + i] *)
Notation "b +' i" := (drop (Z.to_nat i) b) (at level 50, left associativity) : zvbi_scope.

(** Always TRUE. *)
Definition vbi_decode_teletext_8301_cni (buffer : list Z) : Z := vbi_rev16p (buffer +' 9).

(** The loop for f = 1, 10, ..., 10000. *)
Fixpoint bcd2bin_loop (n : nat) (f bin bcd : Z) : Z :=
  match n with
  | O => bin
  | S n => bcd2bin_loop n (f * 10) (bin + (bcd .& 15) * f) (bcd ≫ 4)
  end.
Definition bcd2bin (bcd : Z) : Z := bcd2bin_loop 5 1 0 bcd.

(** [Some (time, seconds_east)], or [None] for FALSE, when both remain unchanged. *)
Definition vbi_decode_teletext_8301_local_time (buffer : list Z) : option (Z * Z) :=
  (* Modified Julian Date. *)
  let bcd := ((buffer.[12] .& 15) ≪ 16) + (buffer.[13] ≪ 8) + buffer.[14] - 0x11111 in
  if negb (vbi_is_bcd bcd) then None
  else
    let mjd := bcd2bin bcd in
    (* UTC time. *)
    let bcd := (buffer.[15] ≪ 16) + (buffer.[16] ≪ 8) + buffer.[17] - 0x111111 in
    if negb (vbi_is_bcd bcd) then None
    else
      let utc := (bcd .& 15) + ((bcd ≫ 4) .& 15) * 10 in
      if 60 <? utc then None
      else
        let field := ((bcd ≫ 8) .& 15) + ((bcd ≫ 12) .& 15) * 10 in
        if 60 <=? field then None
        else
          let utc := utc + field * 60 in
          let field := ((bcd ≫ 16) .& 15) + (bcd ≫ 20) * 10 in
          if 24 <=? field then None
          else
            let utc := utc + field * 3600 in
            (* Local time offset in seconds east of UTC. *)
            let offset := (buffer.[11] .& 0x3E) * (15 * 60) in
            let offset := if negb (buffer.[11] .& 0x40 =? 0) then - offset else offset in
            let t := (mjd - 40587) * 86400 + utc in
            if (t <? TIME_MIN) || (TIME_MAX <? t) then None else Some (t, offset).

(** The CNI from the bytes of a packet 8/30 format 2. *)
Definition cni_8302 (b7 b8 b10 b11 : Z) : Z :=
  ((b7 .& 0x0F) ≪ 12) + ((b10 .& 0x03) ≪ 10) + ((b11 .& 0xC0) ≪ 2) + (b8 .& 0xC0)
  + (b11 .& 0x3F).

Definition vbi_decode_teletext_8302_cni (buffer : list Z) : option Z :=
  let b7 := vbi_unham16p (buffer +' 10) in
  let b8 := vbi_unham16p (buffer +' 12) in
  let b10 := vbi_unham16p (buffer +' 16) in
  let b11 := vbi_unham16p (buffer +' 18) in
  if b7 .| b8 .| b10 .| b11 <? 0 then None
  else Some (cni_8302 (vbi_rev8 b7) (vbi_rev8 b8) (vbi_rev8 b10) (vbi_rev8 b11)).

(** The loop for i = 7 to 12; [b] collects b[7] and following. *)
Fixpoint unham_8302_loop (n : nat) (i error : Z) (b : list Z) (buffer : list Z) : Z * list Z :=
  match n with
  | O => (error, b)
  | S n =>
      let t := vbi_unham16p (buffer +' (i * 2 - 4)) in
      unham_8302_loop n (i + 1) (error .| t) (b ++ [vbi_rev8 t]) buffer
  end.

Definition vbi_decode_teletext_8302_pdc (buffer : list Z) : option vbi_program_id :=
  let error := vbi_unham8 buffer.[9] in
  let b6 := vbi_rev8 error ≫ 4 in
  let '(error, b) := unham_8302_loop 6 7 error [0; 0; 0; 0; 0; 0; b6] buffer in
  if error <? 0 then None
  else
    Some {| channel := VBI_PID_CHANNEL_LCI_0 + ((b.[6] ≫ 2) .& 3);
            cni_type := VBI_CNI_TYPE_8302;
            cni := cni_8302 b.[7] b.[8] b.[10] b.[11];
            pil := ((b.[8] .& 0x3F) ≪ 14) + (b.[9] ≪ 6) + (b.[10] ≫ 2);
            luf := (b.[6] ≫ 1) .& 1;
            mi := (b.[7] ≫ 5) .& 1;
            prf := (b.[6] ≫ 0) .& 1;
            pcs_audio := (b.[7] ≫ 6) .& 3;
            pty := b.[12];
            tape_delayed := 0 |}.

(** ** Local time *)

(** A digit is transmitted plus one. *)
Definition tx_digits (n : nat) (raw : Z) : Prop :=
  ∀ i, 0 ≤ i < Z.of_nat n → 1 ≤ digit raw i ≤ 10.

Lemma digits_lt_10 n : decimal n ↔ digit n 0 ≤ 9 ∧ digit n 1 ≤ 9 ∧ digit n 2 ≤ 9 ∧ digit n 3 ≤ 9
  ∧ digit n 4 ≤ 9 ∧ digit n 5 ≤ 9 ∧ digit n 6 ≤ 9.
Proof.
  unfold decimal. split; [intros H; repeat split; apply H; lia|].
  intros H i Hi.
  assert (i = 0 ∨ i = 1 ∨ i = 2 ∨ i = 3 ∨ i = 4 ∨ i = 5 ∨ i = 6)
    as [->|[->|[->|[->|[->|[->| ->]]]]]] by lia; tauto.
Qed.

Lemma tx_digits_6 raw : tx_digits 6 raw ↔ 1 ≤ digit raw 0 ≤ 10 ∧ 1 ≤ digit raw 1 ≤ 10 ∧
  1 ≤ digit raw 2 ≤ 10 ∧ 1 ≤ digit raw 3 ≤ 10 ∧ 1 ≤ digit raw 4 ≤ 10 ∧ 1 ≤ digit raw 5 ≤ 10.
Proof.
  unfold tx_digits. split; [intros H; split_and!; apply H; lia|]. intros H i Hi.
  assert (i = 0 ∨ i = 1 ∨ i = 2 ∨ i = 3 ∨ i = 4 ∨ i = 5)
    as [->|[->|[->|[->|[->| ->]]]]] by lia; tauto.
Qed.

(** Subtracting one from all six digits gives a packed decimal number exactly
    when no digit was 0 (it would borrow) or above 10. *)
Lemma bcd_minus_ones raw :
  0 ≤ raw < 2 ^ 24 →
  vbi_is_bcd (raw - 0x111111) = true ↔ tx_digits 6 raw.
Proof.
  intros Hraw. assert (vbi_is_bcd (raw - 0x111111) = vbi_is_bcd (u32 (raw - 0x111111))) as ->.
  { unfold vbi_is_bcd. by rewrite (u32_small (u32 _)) by apply u32_range. }
  rewrite is_bcd_iff, digits_lt_10, tx_digits_6.
  pose proof (u32_range (raw - 0x111111)) as Hv. pose proof (digits_sum _ Hv) as Ev.
  pose proof (digits_sum raw ltac:(lia)) as Er.
  pose proof (λ i, digit_range (u32 (raw - 0x111111)) i) as Dv.
  pose proof (λ i, digit_range raw i) as Dr.
  assert (u32 (raw - 0x111111) = raw - 0x111111 ∨ u32 (raw - 0x111111) = raw - 0x111111 + 2 ^ 32) as Hc.
  { destruct (decide (0x111111 ≤ raw)); [left; apply u32_small; lia|right].
    unfold u32. symmetry. apply (Z.mod_unique_pos _ _ (-1)); lia. }
  split.
  - intros Hd. destruct Hc as [Hc|Hc]; revert Hd Ev; rewrite Hc; intros.
    + destruct (digit_of_sum (digit (raw - 0x111111) 0 + 1) (digit (raw - 0x111111) 1 + 1)
        (digit (raw - 0x111111) 2 + 1) (digit (raw - 0x111111) 3 + 1)
        (digit (raw - 0x111111) 4 + 1) (digit (raw - 0x111111) 5 + 1)
        (digit (raw - 0x111111) 6) (digit (raw - 0x111111) 7) raw) as (-> & -> & -> & -> & -> & -> & _);
        rewrite Hc in Dv; try lia;
        repeat match goal with |- context [digit (raw - 0x111111) ?i] =>
          pose proof (Dv i); generalize dependent (digit (raw - 0x111111) i); intros end; lia.
    + exfalso. rewrite Hc in Dv. pose proof (Dv 0). pose proof (Dv 1). pose proof (Dv 2).
      pose proof (Dv 3). pose proof (Dv 4). pose proof (Dv 5). pose proof (Dv 6). pose proof (Dv 7).
      lia.
  - intros Hd. pose proof (Dr 6). pose proof (Dr 7).
    destruct Hc as [Hc|Hc]; [|pose proof (Dv 0); lia]. rewrite Hc.
    destruct (digit_of_sum (digit raw 0 - 1) (digit raw 1 - 1) (digit raw 2 - 1) (digit raw 3 - 1)
      (digit raw 4 - 1) (digit raw 5 - 1) 0 0 (raw - 0x111111))
      as (-> & -> & -> & -> & -> & -> & -> & _); try lia.
Qed.

Lemma minus_ones_digits raw :
  0 ≤ raw < 2 ^ 24 → tx_digits 6 raw →
  0 ≤ raw - 0x111111 < 2 ^ 24 ∧ (∀ i, 0 ≤ i < 6 → digit (raw - 0x111111) i = digit raw i - 1).
Proof.
  intros Hraw Hd. rewrite tx_digits_6 in Hd. pose proof (digits_sum raw ltac:(lia)) as Er.
  pose proof (digit_range raw 6). pose proof (digit_range raw 7). split; [lia|].
  destruct (digit_of_sum (digit raw 0 - 1) (digit raw 1 - 1) (digit raw 2 - 1) (digit raw 3 - 1)
    (digit raw 4 - 1) (digit raw 5 - 1) 0 0 (raw - 0x111111))
    as (E0 & E1 & E2 & E3 & E4 & E5 & E6 & _); try lia.
  intros i Hi. assert (i = 0 ∨ i = 1 ∨ i = 2 ∨ i = 3 ∨ i = 4 ∨ i = 5)
    as [->|[->|[->|[->|[->| ->]]]]] by lia; done.
Qed.

Lemma shiftr_digit v k i : 0 ≤ i → k = 4 * i → (v ≫ k) .& 15 = digit v i.
Proof.
  intros Hi ->. rewrite (land_ones_mod _ 4), Z.shiftr_div_pow2 by (done || lia).
  unfold digit. by rewrite Z.pow_mul_r by lia.
Qed.

Lemma bcd2bin_digits bcd :
  bcd2bin bcd = digit bcd 0 + 10 * digit bcd 1 + 100 * digit bcd 2 + 1000 * digit bcd 3
                + 10000 * digit bcd 4.
Proof.
  unfold bcd2bin. cbn [bcd2bin_loop]. rewrite !Z.shiftr_shiftr by done.
  rewrite <-(Z.shiftr_0_r bcd) at 1. simpl_const.
  rewrite (shiftr_digit bcd 0 0), (shiftr_digit bcd 4 1), (shiftr_digit bcd 8 2),
    (shiftr_digit bcd 12 3), (shiftr_digit bcd 16 4) by done. lia.
Qed.

(** The digits of the date, which has five, behind a sixth one. *)
Lemma tx_digits_5 raw :
  0 ≤ raw < 2 ^ 20 →
  (tx_digits 6 (raw + 0x100000) ↔ tx_digits 5 raw) ∧
  (∀ i, 0 ≤ i < 5 → digit (raw + 0x100000) i = digit raw i).
Proof.
  intros Hr. pose proof (digits_sum raw ltac:(lia)) as E.
  pose proof (λ i, digit_range raw i) as D.
  assert (digit raw 5 = 0 ∧ digit raw 6 = 0 ∧ digit raw 7 = 0) as (E5 & E6 & E7).
  { pose proof (D 0). pose proof (D 1). pose proof (D 2). pose proof (D 3). pose proof (D 4).
    pose proof (D 5). pose proof (D 6). pose proof (D 7). lia. }
  destruct (digit_of_sum (digit raw 0) (digit raw 1) (digit raw 2) (digit raw 3) (digit raw 4) 1 0 0
    (raw + 0x100000)) as (F0 & F1 & F2 & F3 & F4 & F5 & _); try apply D; try lia.
  assert (∀ i, 0 ≤ i < 5 → digit (raw + 0x100000) i = digit raw i) as Hi.
  { intros i Hi. assert (i = 0 ∨ i = 1 ∨ i = 2 ∨ i = 3 ∨ i = 4) as [->|[->|[->|[->| ->]]]] by lia; done. }
  split; [|done]. rewrite tx_digits_6, F5. unfold tx_digits. split.
  - intros H i Hi5. rewrite <-Hi by lia. destruct H as (?&?&?&?&?&_).
    assert (i = 0 ∨ i = 1 ∨ i = 2 ∨ i = 3 ∨ i = 4) as [->|[->|[->|[->| ->]]]] by lia; done.
  - intros H. split_and!; try lia; rewrite Hi by lia; apply H; lia.
Qed.

(** The fields of a packet 8/30 format 1, most significant byte first. *)
Definition mjd_raw (b : list Z) : Z := (b.[12] mod 16) * 65536 + b.[13] * 256 + b.[14].
Definition utc_raw (b : list Z) : Z := b.[15] * 65536 + b.[16] * 256 + b.[17].
Definition tx (raw i : Z) : Z := digit raw i - 1.
Definition tx_pair (raw i : Z) : Z := tx raw i + 10 * tx raw (i + 1).


Lemma raw_ranges b : bytes b → 0 ≤ mjd_raw b < 2 ^ 20 ∧ 0 ≤ utc_raw b < 2 ^ 24.
Proof.
  intros Hb. unfold mjd_raw, utc_raw. pose proof (Z.mod_pos_bound b.[12] 16).
  pose proof (bytes_tbl b 13 Hb). pose proof (bytes_tbl b 14 Hb). pose proof (bytes_tbl b 15 Hb).
  pose proof (bytes_tbl b 16 Hb). pose proof (bytes_tbl b 17 Hb). unfold is_byte in *. lia.
Qed.

Lemma raw_shifts b :
  ((b.[12] .& 15) ≪ 16) + (b.[13] ≪ 8) + b.[14] - 0x11111 = mjd_raw b + 0x100000 - 0x111111 ∧
  (b.[15] ≪ 16) + (b.[16] ≪ 8) + b.[17] - 0x111111 = utc_raw b - 0x111111.
Proof.
  unfold mjd_raw, utc_raw. rewrite (land_ones_mod _ 4), !Z.shiftl_mul_pow2 by done.
  simpl_const. lia.
Qed.

Lemma mjd_value raw :
  0 ≤ raw < 2 ^ 20 → tx_digits 5 raw →
  bcd2bin (raw + 0x100000 - 0x111111) = tx_pair raw 0 + 100 * tx_pair raw 2 + 10000 * tx raw 4.
Proof.
  intros Hr Hd. destruct (tx_digits_5 raw Hr) as [H5 Hi].
  destruct (minus_ones_digits (raw + 0x100000)) as [_ D]; [lia|by apply H5|].
  rewrite bcd2bin_digits, !D, !Hi by lia. unfold tx_pair, tx. simpl_const. lia.
Qed.

Lemma utc_values raw (v := raw - 0x111111) :
  0 ≤ raw < 2 ^ 24 → tx_digits 6 raw →
  (v .& 15) + ((v ≫ 4) .& 15) * 10 = tx_pair raw 0 ∧
  ((v ≫ 8) .& 15) + ((v ≫ 12) .& 15) * 10 = tx_pair raw 2 ∧
  ((v ≫ 16) .& 15) + (v ≫ 20) * 10 = tx_pair raw 4.
Proof.
  intros Hr Hd. destruct (minus_ones_digits raw Hr Hd) as [Rv D]. fold v in Rv, D.
  assert (v ≫ 20 = (v ≫ 20) .& 15) as ->.
  { rewrite (land_ones_mod _ 4), Z.mod_small by (done || by apply (shiftr_range 4)). done. }
  rewrite <-(Z.shiftr_0_r v) at 1.
  rewrite (shiftr_digit v 0 0), (shiftr_digit v 4 1), (shiftr_digit v 8 2), (shiftr_digit v 12 3),
    (shiftr_digit v 16 4), (shiftr_digit v 20 5), !D by done.
  unfold tx_pair, tx. simpl_const. lia.
Qed.

Lemma offset_value b :
  (if negb (b .& 0x40 =? 0) then - ((b .& 0x3E) * (15 * 60)) else (b .& 0x3E) * (15 * 60))
  = (if Z.testbit b 6 then -1 else 1) * ((b / 2) mod 32 * 1800).
Proof.
  change 0x40 with (2 ^ 6). rewrite land_pow2_eqb, negb_involutive by done.
  change 0x3E with (Z.ones 5 ≪ 1). rewrite land_mask by done. simpl_const.
  destruct (Z.testbit b 6); lia.
Qed.

Lemma tx_pair_range n raw i :
  tx_digits n raw → 0 ≤ i → i + 1 < Z.of_nat n → 0 ≤ tx_pair raw i ≤ 99.
Proof.
  intros Hd Hi Hn. pose proof (Hd i ltac:(lia)). pose proof (Hd (i + 1) ltac:(lia)).
  unfold tx_pair, tx. lia.
Qed.

(** [vbi_decode_teletext_8301_local_time] accepts a packet exactly when the
    Modified Julian Date and the time consist of decimal digits (sent plus one)
    and the time is no later than 23:59:60, and then returns the Unix time of
    that date and time, and the offset in half hours with its sign in
    seconds. *)
Theorem local_time_8301_correct (buffer : list Z) (t east : Z) :
  bytes buffer → length buffer = 42%nat →
  let mjd := tx_pair (mjd_raw buffer) 0 + 100 * tx_pair (mjd_raw buffer) 2
             + 10000 * tx (mjd_raw buffer) 4 in
  let second := tx_pair (utc_raw buffer) 0 in
  let minute := tx_pair (utc_raw buffer) 2 in
  let hour := tx_pair (utc_raw buffer) 4 in
  vbi_decode_teletext_8301_local_time buffer = Some (t, east) ↔
  tx_digits 5 (mjd_raw buffer) ∧ tx_digits 6 (utc_raw buffer) ∧
  second ≤ 60 ∧ minute < 60 ∧ hour < 24 ∧
  t = (mjd - 40587) * 86400 + hour * 3600 + minute * 60 + second ∧
  east = (if Z.testbit buffer.[11] 6 then -1 else 1) * ((buffer.[11] / 2) mod 32 * 1800).
Proof.
  intros Hb Hlen. cbv zeta. unfold vbi_decode_teletext_8301_local_time.
  destruct (raw_shifts buffer) as [-> ->]. destruct (raw_ranges buffer Hb) as [Hmr Hur].
  generalize dependent (mjd_raw buffer). generalize dependent (utc_raw buffer).
  intros utc Hur mjd Hmr. clear Hb Hlen.
  destruct (tx_digits_5 mjd Hmr) as [Hm5 _].
  pose proof (bcd_minus_ones (mjd + 0x100000) ltac:(lia)) as Im. rewrite Hm5 in Im.
  pose proof (bcd_minus_ones utc Hur) as Iu.
  destruct (vbi_is_bcd (mjd + 0x100000 - 0x111111)); cbn [negb];
    [|split; [done|intros [Hc _]; apply Im in Hc; done]].
  destruct (vbi_is_bcd (utc - 0x111111)); cbn [negb];
    [|split; [done|intros (_ & Hc & _); apply Iu in Hc; done]].
  assert (tx_digits 5 mjd) as Tm by by apply Im.
  assert (tx_digits 6 utc) as Tu by by apply Iu.
  rewrite mjd_value by done. cbv zeta. rewrite offset_value.
  destruct (utc_values utc Hur Tu) as (-> & -> & ->).
  pose proof (tx_pair_range 6 utc 0 Tu). pose proof (tx_pair_range 6 utc 2 Tu).
  pose proof (tx_pair_range 6 utc 4 Tu). pose proof (tx_pair_range 5 mjd 0 Tm).
  pose proof (tx_pair_range 5 mjd 2 Tm). pose proof (Tm 4 ltac:(lia)) as T4.
  destruct (Z.ltb_spec 60 (tx_pair utc 0)); [split; [done|lia]|].
  destruct (Z.leb_spec 60 (tx_pair utc 2)); [split; [done|lia]|].
  destruct (Z.leb_spec 24 (tx_pair utc 4)); [split; [done|lia]|].
  match goal with |- context [(?t <? TIME_MIN) || (TIME_MAX <? ?t)] =>
    replace ((t <? TIME_MIN) || (TIME_MAX <? t)) with false end.
  2:{ symmetry. unfold TIME_MIN, TIME_MAX, tx in *. apply orb_false_iff.
      rewrite !Z.ltb_ge. simpl_const. lia. }
  split; [intros [= <- <-]; split_and!; done || lia|].
  intros (_ & _ & _ & _ & _ & -> & ->). do 2 f_equal. lia.
Qed.

(** The packet of 2000-01-01 (MJD 51544) 23:59:60, two hours west. *)
Definition time_packet : list Z :=
  repeat 0 11 ++ [0x48; 0x06; 0x26; 0x55; 0x34; 0x6A; 0x71] ++ repeat 0 24.

Lemma local_time_8301_correct_witness :
  vbi_decode_teletext_8301_local_time time_packet
  = Some ((51544 - 40587) * 86400 + 23 * 3600 + 59 * 60 + 60, -7200).
Proof.
  apply (local_time_8301_correct time_packet).
  - repeat constructor; vm_compute; congruence.
  - reflexivity.
  - split_and!; try (vm_compute; congruence); intros i Hi.
    + assert (i = 0 ∨ i = 1 ∨ i = 2 ∨ i = 3 ∨ i = 4) as [->|[->|[->|[->| ->]]]] by lia;
        vm_compute; split; congruence.
    + assert (i = 0 ∨ i = 1 ∨ i = 2 ∨ i = 3 ∨ i = 4 ∨ i = 5)
        as [->|[->|[->|[->|[->| ->]]]]] by lia; vm_compute; split; congruence.
Defined.

(** ** Programme labels *)

(** The bytes 6 to 12 of a packet 8/30 format 2 as ETS 300 231 lays them out. *)
Record label_8302 := Label { lci : Z; label : vbi_program_id }.
Definition byte_8302 (l : label_8302) (i : Z) : Z :=
  let p := label l in
  if i =? 6 then (lci l ≪ 2) .| (luf p ≪ 1) .| prf p
  else if i =? 7 then (pcs_audio p ≪ 6) .| (mi p ≪ 5) .| (cni p ≫ 12)
  else if i =? 8 then (cni p .& 0xC0) .| (pil p ≫ 14)
  else if i =? 9 then (pil p ≫ 6) .& 0xFF
  else if i =? 10 then ((pil p .& 0x3F) ≪ 2) .| ((cni p ≫ 10) .& 3)
  else if i =? 11 then ((cni p ≫ 2) .& 0xC0) .| (cni p .& 0x3F)
  else pty p.

Definition label_ok (l : label_8302) : Prop :=
  let p := label l in
  0 ≤ lci l < 2 ^ 2 ∧ 0 ≤ luf p < 2 ^ 1 ∧ 0 ≤ prf p < 2 ^ 1 ∧ 0 ≤ mi p < 2 ^ 1 ∧
  0 ≤ pcs_audio p < 2 ^ 2 ∧ 0 ≤ cni p < 2 ^ 16 ∧ 0 ≤ pil p < 2 ^ 20 ∧ 0 ≤ pty p < 2 ^ 8 ∧
  channel p = VBI_PID_CHANNEL_LCI_0 + lci l ∧ cni_type p = VBI_CNI_TYPE_8302 ∧ tape_delayed p = 0.

(** A packet that carries the label, each byte sent as one or two Hamming 8/4
    coded nibbles, least significant bit first, with at most one bit error in
    each code. *)
Definition carries_8302 (l : label_8302) (buffer : list Z) : Prop :=
  ham8_near (vbi_rev8 (byte_8302 l 6 ≪ 4)) buffer.[9] ∧
  ∀ i, 7 ≤ i ≤ 12 → ham16_near (vbi_rev8 (byte_8302 l i)) (buffer +' (i * 2 - 4)).

Lemma shiftl_range n k x : 0 ≤ k ≤ n → 0 ≤ x < 2 ^ (n - k) → 0 ≤ x ≪ k < 2 ^ n.
Proof.
  intros Hk Hx. rewrite Z.shiftl_mul_pow2 by lia.
  replace n with (n - k + k) by lia. rewrite Z.pow_add_r by lia.
  pose proof (Z.pow_pos_nonneg 2 k). nia.
Qed.

(** Ranges of values put together from fields. *)
Ltac byte_range :=
  repeat first
    [ apply lor_range; [done| |]
    | apply land_range; [done|split; [done|reflexivity]]
    | apply shiftl_range; [done|]
    | apply shiftr_range; [done|done|] ];
  simpl_const; bit_bound; lia.

Lemma byte_8302_byte l i : label_ok l → 6 ≤ i ≤ 12 → is_byte (byte_8302 l i).
Proof.
  intros (?&?&?&?&?&?&?&?&_) Hi. unfold byte_8302, is_byte. change 256 with (2 ^ 8).
  repeat case_match; byte_range.
Qed.

Lemma byte_8302_nibble l : label_ok l → 0 ≤ byte_8302 l 6 < 16.
Proof.
  intros (?&?&?&_). unfold byte_8302. cbn [Z.eqb Pos.eqb]. change 16 with (2 ^ 4). byte_range.
Qed.

Lemma rev8_nibble n : 0 ≤ n < 16 → vbi_rev8 (vbi_rev8 (n ≪ 4)) ≫ 4 = n ∧ 0 ≤ vbi_rev8 (n ≪ 4) < 16.
Proof.
  intros Hn. pose proof (forallb_seqZ 16 (λ n, (vbi_rev8 (vbi_rev8 (n ≪ 4)) ≫ 4 =? n) &&
    (0 <=? vbi_rev8 (n ≪ 4)) && (vbi_rev8 (n ≪ 4) <? 16)) ltac:(vm_compute; reflexivity) n Hn) as H.
  cbv beta in H. lia.
Qed.

Lemma unham_8302 l buffer :
  label_ok l → carries_8302 l buffer →
  vbi_rev8 (vbi_unham8 buffer.[9]) ≫ 4 = byte_8302 l 6 ∧ 0 ≤ vbi_unham8 buffer.[9] ∧
  ∀ i, 7 ≤ i ≤ 12 → vbi_rev8 (vbi_unham16p (buffer +' (i * 2 - 4))) = byte_8302 l i ∧
                    0 ≤ vbi_unham16p (buffer +' (i * 2 - 4)).
Proof.
  intros Hl [H6 H]. destruct (rev8_nibble (byte_8302 l 6)) as [E R]; [by apply byte_8302_nibble|].
  rewrite (unham8_near _ _ R H6). split; [done|]. split; [lia|]. intros i Hi.
  pose proof (rev8_byte (byte_8302 l i)) as Rb.
  rewrite (unham16p_near _ _ Rb (H i Hi)).
  rewrite rev8_involutive by (apply byte_8302_byte; [done|lia]). unfold is_byte in Rb. split; [done|lia].
Qed.

Lemma cni_8302_parts l :
  label_ok l →
  cni_8302 (byte_8302 l 7) (byte_8302 l 8) (byte_8302 l 10) (byte_8302 l 11) = cni (label l).
Proof.
  destruct l as [n [ch ct c pl lu m pr pcs pt td]].
  intros (Hlci&Hlu&Hpr&Hm&Hpcs&Hc&Hpl&_). unfold cni_8302, byte_8302.
  cbn [Z.eqb Pos.eqb lci label cni pil luf mi prf pcs_audio pty] in *.
  assert (((pcs ≪ 6) .| (m ≪ 5) .| (c ≫ 12)) .& 0x0F = c ≫ 12) as -> by bits 4.
  assert ((((pl .& 0x3F) ≪ 2) .| ((c ≫ 10) .& 3)) .& 0x03 = (c ≫ 10) .& 3) as -> by bits 2.
  assert ((((c ≫ 2) .& 0xC0) .| (c .& 0x3F)) .& 0xC0 = (c ≫ 2) .& 0xC0) as -> by bits 8.
  assert (((c .& 0xC0) .| (pl ≫ 14)) .& 0xC0 = c .& 0xC0) as -> by bits 8.
  assert ((((c ≫ 2) .& 0xC0) .| (c .& 0x3F)) .& 0x3F = c .& 0x3F) as -> by bits 6.
  change 0xC0 with (Z.ones 2 ≪ 6). rewrite (land_ones_mod (c ≫ 10) 2 3), (land_ones_mod c 6 0x3F), !land_mask by done.
  rewrite !Z.shiftl_mul_pow2, !Z.shiftr_div_pow2 by done. simpl_const.
  Z.to_euclidean_division_equations. lia.
Qed.

Lemma pil_8302_parts l :
  label_ok l →
  ((byte_8302 l 8 .& 0x3F) ≪ 14) + (byte_8302 l 9 ≪ 6) + (byte_8302 l 10 ≫ 2) = pil (label l).
Proof.
  destruct l as [n [ch ct c pl lu m pr pcs pt td]].
  intros (Hlci&Hlu&Hpr&Hm&Hpcs&Hc&Hpl&_). unfold byte_8302.
  cbn [Z.eqb Pos.eqb lci label cni pil luf mi prf pcs_audio pty] in *.
  assert (((c .& 0xC0) .| (pl ≫ 14)) .& 0x3F = pl ≫ 14) as -> by bits 6.
  assert ((((pl .& 0x3F) ≪ 2) .| ((c ≫ 10) .& 3)) ≫ 2 = pl .& 0x3F) as ->.
  { apply Z.bits_inj'. intros i Hi. rewrite Z.shiftr_spec, Z.lor_spec, Z.shiftl_spec by lia.
    rewrite Z.add_simpl_r, !Z.land_spec, (testbit_small 3 2 (i + 2)) by lia.
    by rewrite andb_false_r, orb_false_r. }
  rewrite (land_ones_mod pl 6), (land_ones_mod (pl ≫ 6) 8) by done.
  rewrite !Z.shiftl_mul_pow2, !Z.shiftr_div_pow2 by done. simpl_const.
  Z.to_euclidean_division_equations. lia.
Qed.

Lemma small_parts l :
  label_ok l →
  (byte_8302 l 6 ≫ 2) .& 3 = lci l ∧ (byte_8302 l 6 ≫ 1) .& 1 = luf (label l) ∧
  (byte_8302 l 6 ≫ 0) .& 1 = prf (label l) ∧ (byte_8302 l 7 ≫ 5) .& 1 = mi (label l) ∧
  (byte_8302 l 7 ≫ 6) .& 3 = pcs_audio (label l).
Proof.
  destruct l as [n [ch ct c pl lu m pr pcs pt td]].
  intros (Hlci&Hlu&Hpr&Hm&Hpcs&Hc&Hpl&_). unfold byte_8302.
  cbn [Z.eqb Pos.eqb lci label cni pil luf mi prf pcs_audio pty] in *.
  rewrite Z.shiftr_0_r.
  split_and!; [bits 2|bits 1|bits 1|bits 1|bits 2].
Qed.

(** C34: [vbi_decode_teletext_8302_pdc] returns every field of the label that a
    packet carries, and [vbi_decode_teletext_8302_cni] its CNI, also when one bit
    of each Hamming code was received wrong. *)
Theorem label_8302_correct (l : label_8302) (buffer : list Z) :
  label_ok l → carries_8302 l buffer →
  vbi_decode_teletext_8302_pdc buffer = Some (label l) ∧
  vbi_decode_teletext_8302_cni buffer = Some (cni (label l)).
Proof.
  intros Hl Hc. destruct (unham_8302 l buffer Hl Hc) as (E6 & P6 & H).
  destruct (H 7) as [E7 P7]; [lia|]. destruct (H 8) as [E8 P8]; [lia|].
  destruct (H 9) as [E9 P9]; [lia|]. destruct (H 10) as [E10 P10]; [lia|].
  destruct (H 11) as [E11 P11]; [lia|]. destruct (H 12) as [E12 P12]; [lia|]. clear H Hc.
  assert (∀ a b, 0 ≤ a → 0 ≤ b → 0 ≤ a .| b) as Hor by (intros; by apply Z.lor_nonneg).
  split.
  - unfold vbi_decode_teletext_8302_pdc. cbn [unham_8302_loop app].
    change (7 + 1) with 8. change (8 + 1) with 9. change (9 + 1) with 10.
    change (10 + 1) with 11. change (11 + 1) with 12.
    rewrite (proj2 (Z.ltb_ge _ 0)) by auto 10.
    rewrite E6, E7, E8, E9, E10, E11, E12. tbl_simpl.
    rewrite cni_8302_parts, pil_8302_parts by done.
    destruct (small_parts l Hl) as (-> & -> & -> & -> & ->).
    destruct l as [n [ch ct c pl lu m pr pcs pt td]].
    destruct Hl as (_&_&_&_&_&_&_&_& E1 & E2 & E3). cbn in E1, E2, E3 |- *. by subst.
  - unfold vbi_decode_teletext_8302_cni.
    change (buffer +' 10) with (buffer +' (7 * 2 - 4)). change (buffer +' 12) with (buffer +' (8 * 2 - 4)).
    change (buffer +' 16) with (buffer +' (10 * 2 - 4)). change (buffer +' 18) with (buffer +' (11 * 2 - 4)).
    rewrite (proj2 (Z.ltb_ge _ 0)) by auto 10.
    by rewrite E7, E8, E10, E11, cni_8302_parts.
Qed.

Definition witness_label : label_8302 :=
  Label 2 (ProgramId 2 VBI_CNI_TYPE_8302 0x2C7F (VBI_PIL 12 24 18 5) 1 0 1 2 0x81 0).
Definition ham_pair (v : Z) : list Z := [vbi_ham8 (v mod 16); vbi_ham8 (v / 16)].
(** The packet of this label with a bit error in byte 10. *)
Definition witness_packet : list Z :=
  repeat 0 9 ++ [vbi_ham8 (vbi_rev8 (byte_8302 witness_label 6 ≪ 4))]
  ++ <[0%nat := vbi_ham8 (vbi_rev8 (byte_8302 witness_label 7) mod 16) .^ 2 ^ 5]>
       (concat (map (λ i, ham_pair (vbi_rev8 (byte_8302 witness_label i))) [7; 8; 9; 10; 11; 12]))
  ++ repeat 0 20.

Lemma label_8302_correct_witness :
  vbi_decode_teletext_8302_pdc witness_packet = Some (label witness_label) ∧
  vbi_decode_teletext_8302_cni witness_packet = Some 0x2C7F.
Proof.
  apply (label_8302_correct witness_label witness_packet).
  - repeat split; vm_compute; congruence.
  - split; [left; vm_compute; reflexivity|]. intros i Hi.
    assert (i = 7 ∨ i = 8 ∨ i = 9 ∨ i = 10 ∨ i = 11 ∨ i = 12)
      as [->|[->|[->|[->|[->| ->]]]]] by lia; split;
      first [left; vm_compute; reflexivity
            |right; exists 5; split; [lia|vm_compute; reflexivity]].
Defined.

Lemma tbl_drop (b : list Z) n j : 0 ≤ j → (drop n b).[j] = b.[Z.of_nat n + j].
Proof.
  intros Hj. unfold tbl. rewrite Z2Nat.inj_add, Nat2Z.id by lia.
  revert b. induction n as [|n IH]; intros [|x b]; cbn; try done.
  by destruct (Z.to_nat j).
Qed.

(** C38: [vbi_decode_teletext_8302_pdc] fails, leaving the label unchanged,
    exactly when one of the bytes 9 to 21 of the packet has an uncorrectable
    error, and what [vbi_decode_teletext_8302_cni] returns agrees with it. *)
Theorem label_8302_error (buffer : list Z) :
  bytes buffer →
  (vbi_decode_teletext_8302_pdc buffer = None ↔
   ∃ j, 9 ≤ j ≤ 21 ∧ vbi_unham8 buffer.[j] < 0) ∧
  (∀ pid, vbi_decode_teletext_8302_pdc buffer = Some pid →
          vbi_decode_teletext_8302_cni buffer = Some (cni pid)).
Proof.
  intros Hb.
  assert (∀ n, vbi_unham16p (drop n buffer) < 0 ↔
    vbi_unham8 buffer.[Z.of_nat n] < 0 ∨ vbi_unham8 buffer.[Z.of_nat n + 1] < 0) as Hn.
  { intros n. rewrite unham16p_neg; rewrite ?tbl_drop by done; rewrite ?Z.add_0_r;
      auto using bytes_tbl. }
  unfold vbi_decode_teletext_8302_pdc, vbi_decode_teletext_8302_cni.
  cbn [unham_8302_loop app]. change (7 + 1) with 8. change (8 + 1) with 9. change (9 + 1) with 10.
  change (10 + 1) with 11. change (11 + 1) with 12. tbl_simpl.
  pose proof (Hn 10%nat) as N7. pose proof (Hn 12%nat) as N8. pose proof (Hn 14%nat) as N9.
  pose proof (Hn 16%nat) as N10. pose proof (Hn 18%nat) as N11. pose proof (Hn 20%nat) as N12.
  clear Hn. cbn [Z.of_nat Pos.of_succ_nat Pos.succ] in *. simpl_const.
  change (Z.to_nat (7 * 2 - 4)) with 10%nat. change (Z.to_nat (8 * 2 - 4)) with 12%nat.
  change (Z.to_nat (9 * 2 - 4)) with 14%nat. change (Z.to_nat (10 * 2 - 4)) with 16%nat.
  change (Z.to_nat (11 * 2 - 4)) with 18%nat. change (Z.to_nat (12 * 2 - 4)) with 20%nat.
  change (Z.to_nat 10) with 10%nat. change (Z.to_nat 12) with 12%nat.
  change (Z.to_nat 16) with 16%nat. change (Z.to_nat 18) with 18%nat.
  split.
  - match goal with |- (if ?c then _ else _) = _ ↔ _ => destruct c eqn:E end.
    + apply Z.ltb_lt in E. rewrite !lor_neg in E. split; [intros _|done].
      rewrite N7, N8, N9, N10, N11, N12 in E.
      repeat match type of E with _ ∨ _ => destruct E as [E|E] end.
      all: match type of E with vbi_unham8 (tbl _ ?j) < 0 => exists j; split; [lia|done] end.
    + apply Z.ltb_ge in E. split; [done|]. intros (j & Hj & Hneg). exfalso.
      apply Z.le_ngt in E. apply E.
      rewrite !lor_neg, N7, N8, N9, N10, N11, N12.
      assert (j = 9 ∨ j = 10 ∨ j = 11 ∨ j = 12 ∨ j = 13 ∨ j = 14 ∨ j = 15 ∨ j = 16 ∨ j = 17 ∨
        j = 18 ∨ j = 19 ∨ j = 20 ∨ j = 21) as Hjs by lia.
      clear -Hneg Hjs. repeat destruct Hjs as [->|Hjs]; [..|subst j]; auto 20.
  - intros pid. match goal with |- (if ?c then _ else _) = _ → _ => destruct c eqn:E end; [done|].
    intros [= <-]. cbn [cni]. apply Z.ltb_ge in E. rewrite !Z.lor_nonneg in E.
    rewrite (proj2 (Z.ltb_ge _ 0)) by (rewrite !Z.lor_nonneg; tauto). done.
Qed.

Lemma label_8302_error_witness :
  vbi_decode_teletext_8302_pdc (<[14%nat := vbi_ham8 0 .^ 3]> witness_packet) = None.
Proof.
  apply (label_8302_error (<[14%nat := vbi_ham8 0 .^ 3]> witness_packet)).
  - vm_compute. repeat constructor; try congruence.
  - exists 14. split; [lia|reflexivity].
Defined.
