(* ===== verification/Pdc.v ===== *)
(** Times and validity windows of Program Identification Labels: [src/src/pdc.c]
    from [tm_mon_mday_from_pil] to [vbi_pil_validity_window]. *)
From S2P Require Import Prelude Misc Pil CTime.

(** A [time_t] result of -1 is a failure; [errno] is returned beside it where a
    caller looks at it. *)
Definition VBI_ERR_NO_TIME : Z := 0x7081900.
Definition VBI_ERR_INVALID_PIL : Z := 0x7081901.

(** ** The date in a year near a given time *)

(** [None] is FALSE. *)
Definition tm_mon_mday_from_pil (t : tm) (pil : Z) : option tm :=
  let month0 := u32 (VBI_PIL_MONTH pil - 1) in
  let set_year (y : Z) : tm :=
    Tm (tm_sec t) (tm_min t) (tm_hour t) (VBI_PIL_DAY pil) month0 y (tm_isdst t) in
  if u32 (u32 (tm_mon t) + 6) <=? month0 then
    if tm_year t <=? INT_MIN then None else Some (set_year (tm_year t - 1))
  else if u32 (month0 + 6) <? u32 (tm_mon t) then
    if INT_MAX <=? tm_year t then None else Some (set_year (tm_year t + 1))
  else Some (set_year (tm_year t)).

Definition is_leap_year (year : Z) : bool :=
  if negb (year mod 4 =? 0) then false
  else if year mod 400 =? 0 then true
  else negb (year mod 100 =? 0).

(** The sum is converted to [unsigned int]. *)
Definition tm_leap_day_check (t : tm) : bool :=
  negb (tm_mon t =? 1) || (tm_mday t <=? 28) || is_leap_year (u32 (tm_year t + 1900)).

(** [tm.tm_hour = ...; tm.tm_min = ...; tm.tm_sec = 0;] *)
Definition set_time (t : tm) (hour min : Z) : tm :=
  Tm 0 min hour (tm_mday t) (tm_mon t) (tm_year t) (tm_isdst t).

(** ** Times in a zone given by its offset from UTC *)

Section lto.
(** [time ()]: its result and the [errno] it leaves when it fails. *)
Context (time : Z * Z).

(** The result and [errno]. *)
Definition valid_pil_lto_to_time (pil start seconds_east : Z) : Z * Z :=
  let '(start, errno) :=
    if start =? -1 then
      if time.1 =? -1 then (-1, if time.2 =? 0 then VBI_ERR_NO_TIME else time.2)
      else (time.1, 0)
    else (start, 0) in
  if start =? -1 then (-1, errno)
  else if (seconds_east <? 0) && (start <? - seconds_east) then (-1, EOVERFLOW)
  else if negb (seconds_east <? 0) && (TIME_MAX - seconds_east <? start) then (-1, EOVERFLOW)
  else
    let start := start + seconds_east in
    match gmtime_r start with
    | None => (-1, EOVERFLOW)
    | Some t =>
        match tm_mon_mday_from_pil t pil with
        | None => (-1, EOVERFLOW)
        | Some t =>
            if negb (tm_leap_day_check t) then (-1, VBI_ERR_INVALID_PIL)
            else
              let t := set_time t (VBI_PIL_HOUR pil) (VBI_PIL_MINUTE pil) in
              let '(start, errno) := _vbi_timegm t in
              if start =? -1 then (-1, errno)
              else if (0 <? seconds_east) && (start <? seconds_east) then (-1, EOVERFLOW)
              else if negb (0 <? seconds_east) && (TIME_MAX + seconds_east <? start)
              then (-1, EOVERFLOW)
              else (start - seconds_east, 0)
        end
    end.

Definition vbi_pil_lto_to_time (pil start seconds_east : Z) : Z :=
  if negb (vbi_pil_is_valid_date pil) then -1
  else (valid_pil_lto_to_time pil start seconds_east).1.

(** [Some (begin, end)], or [None] for FALSE, when both remain unchanged. *)
Definition pty_utc_validity_window (time : Z) : option (Z * Z) :=
  match gmtime_r time with
  | None => None
  | Some t =>
      let seconds_since_midnight := tm_hour t * 3600 + tm_min t * 60 + tm_sec t in
      let duration := u32 (4 * 7 * 24 * 60 * 60 + (24 + 4) * 60 * 60 - seconds_since_midnight) in
      if TIME_MAX - duration <? time then None else Some (time, time + duration)
  end.

Definition valid_pil_lto_validity_window (pil start seconds_east : Z) : option (Z * Z) :=
  let '(t, errno) := valid_pil_lto_to_time (pil .& VBI_PIL 15 31 0 0) start seconds_east in
  if t =? -1 then
    (* Annex F: "Invalid days - indefinite time window". *)
    if errno =? VBI_ERR_INVALID_PIL then Some (TIME_MIN, TIME_MAX) else None
  else if TIME_MAX - 28 * 60 * 60 <? t then None
  else if VBI_PIL_HOUR pil <? 4 then
    if t <? 4 * 60 * 60 then None else Some (t - 4 * 60 * 60, t + 28 * 60 * 60)
  else Some (t, t + 28 * 60 * 60).

Definition vbi_pil_lto_validity_window (pil start seconds_east : Z) : option (Z * Z) :=
  let month := VBI_PIL_MONTH pil in
  if month =? 0 then None (* Annex F: "Unallocated". *)
  else if month <=? 12 then
    if tbl month_days (month - 1) <=? u32 (VBI_PIL_DAY pil - 1) then Some (TIME_MIN, TIME_MAX)
    else valid_pil_lto_validity_window pil start seconds_east
  else if month <=? 14 then Some (TIME_MIN, TIME_MAX)
  else if (pil =? VBI_PIL_TIMER_CONTROL) || (pil =? VBI_PIL_INHIBIT_TERMINATE)
          || (pil =? VBI_PIL_INTERRUPTION) || (pil =? VBI_PIL_CONTINUE)
  then Some (TIME_MIN, TIME_MAX)
  else if pil =? VBI_PIL_NSPV then pty_utc_validity_window start
  else None.
End lto.

(** ** The year of a PIL *)

(** Months from one broken-down time to another. *)
Definition months_between (t0 t1 : tm) : Z :=
  12 * (tm_year t1 - tm_year t0) + (tm_mon t1 - tm_mon t0).

(** [t1] is the date and time of the label in the year that puts it at most six
    months before and five months after the month of [t0]. *)
Definition pil_date_near (pil : Z) (t0 t1 : tm) : Prop :=
  tm_ok t1 ∧ tm_mon t1 + 1 = VBI_PIL_MONTH pil ∧ tm_mday t1 = VBI_PIL_DAY pil ∧
  tm_hour t1 = VBI_PIL_HOUR pil ∧ tm_min t1 = VBI_PIL_MINUTE pil ∧ tm_sec t1 = 0 ∧
  -6 ≤ months_between t0 t1 ≤ 5.

Lemma is_leap_year_leap y : is_leap_year y = leap y.
Proof.
  unfold is_leap_year, leap.
  destruct (Z.eqb_spec (y mod 4) 0), (Z.eqb_spec (y mod 400) 0), (Z.eqb_spec (y mod 100) 0); done.
Qed.

Lemma mon_mday_from_pil t pil :
  tm_ok t → INT_MIN < tm_year t < INT_MAX → 1 ≤ VBI_PIL_MONTH pil ≤ 12 →
  ∃ y, tm_mon_mday_from_pil t pil
       = Some (Tm (tm_sec t) (tm_min t) (tm_hour t) (VBI_PIL_DAY pil) (VBI_PIL_MONTH pil - 1) y 0) ∧
  -6 ≤ 12 * (y - tm_year t) + (VBI_PIL_MONTH pil - 1 - tm_mon t) ≤ 5 ∧
  tm_year t - 1 ≤ y ≤ tm_year t + 1.
Proof.
  intros (_ & _ & _ & Hmon & _ & Hdst) Hy Hm. unfold tm_mon_mday_from_pil. rewrite Hdst.
  rewrite (u32_small (VBI_PIL_MONTH pil - 1)), (u32_small (tm_mon t)) by lia.
  rewrite (u32_small (tm_mon t + 6)), (u32_small (VBI_PIL_MONTH pil - 1 + 6)) by lia. cbv zeta.
  destruct (Z.leb_spec (tm_mon t + 6) (VBI_PIL_MONTH pil - 1)).
  - destruct (Z.leb_spec (tm_year t) INT_MIN); [lia|]. eexists. split; [reflexivity|lia].
  - destruct (Z.ltb_spec (VBI_PIL_MONTH pil - 1 + 6) (tm_mon t)).
    + destruct (Z.leb_spec INT_MAX (tm_year t)); [lia|]. eexists. split; [reflexivity|lia].
    + eexists. split; [reflexivity|lia].
Qed.

(** The leap day check makes a day of [month_days] exist in its year. *)
Lemma leap_day_check_spec t :
  0 ≤ tm_mon t < 12 → 1 ≤ tm_mday t ≤ tbl month_days (tm_mon t) →
  0 ≤ tm_year t + 1900 < 2 ^ 32 →
  tm_leap_day_check t = true ↔ tm_mday t ≤ month_length (leap (tm_year t + 1900)) (tm_mon t).
Proof.
  intros Hm Hd Hy. unfold tm_leap_day_check. rewrite u32_small, is_leap_year_leap by done.
  assert (tm_mon t = 1 ∨ month_length (leap (tm_year t + 1900)) (tm_mon t) = tbl month_days (tm_mon t))
    as [E|E].
  { pose proof (forallb_seqZ 12 (λ m, (m =? 1) || ((month_length true m =? tbl month_days m)
      && (month_length false m =? tbl month_days m))) eq_refl (tm_mon t) Hm) as H. cbv beta in H.
    destruct (leap (tm_year t + 1900)); lia. }
  - rewrite E in *. change (tbl month_days 1) with 29 in Hd. change (1 =? 1) with true. cbn [negb orb]. destruct (leap (tm_year t + 1900)).
    + change (month_length true 1) with 29. rewrite orb_true_r. split; [lia|done].
    + change (month_length false 1) with 28. rewrite orb_false_r, Z.leb_le. done.
  - rewrite E. destruct (Z.eqb_spec (tm_mon t) 1) as [E1|E1]; cbn [negb orb]; [|split; [lia|done]].
    rewrite E1 in E. destruct (leap (tm_year t + 1900)); [|discriminate].
    rewrite orb_true_r. split; [lia|done].
Qed.

(** ** The conversion to UTC *)

(** The times and offsets for which no overflow check of the code triggers:
    from 1971 to the year 285,000,000, and at most a day from UTC. *)
Definition moderate (start east : Z) : Prop :=
  2 ^ 25 ≤ start ≤ 2 ^ 53 ∧ -86400 ≤ east ≤ 86400.

Lemma tm_seconds_bounds t :
  tm_ok t → 31536000 * (tm_year t - 70) ≤ tm_seconds t ≤ 31622400 * (tm_year t - 69) ∨ tm_year t < 70.
Proof.
  intros (Hsec & Hmin & Hhour & Hmon & Hday & _). rewrite tm_seconds_ok by done.
  destruct (month_bounds (leap (tm_year t + 1900)) (tm_mon t) Hmon) as (B0 & B1 & _).
  pose proof (year_days_succ (tm_year t + 1900)) as Hsucc. unfold month_length, year_length in *.
  destruct (decide (tm_year t < 70)); [by right|left].
  assert (365 * (tm_year t - 70) ≤ year_days (tm_year t + 1900)
    ∧ year_days (tm_year t + 1900 + 1) ≤ 366 * (tm_year t - 69)) as HY.
  { unfold year_days. clear -n. Z.to_euclidean_division_equations. lia. }
  lia.
Qed.

Lemma moderate_years start east t0 :
  moderate start east → gmtime_r (start + east) = Some t0 →
  71 ≤ tm_year t0 ≤ 2 ^ 29 ∧ tm_ok t0.
Proof.
  intros [Hs He] Hg. destruct (gmtime_sound _ _ Hg) as (Hok & Hsec & Hy).
  split; [|done].
  assert (∀ y, y ≤ 0 → year_days (1970 + y) ≤ 365 * y) as Hneg
    by (intros y Hy0; unfold year_days; Z.to_euclidean_division_equations; lia).
  destruct (tm_seconds_bounds t0 Hok) as [Hb|Hb]; [lia|]. exfalso.
  pose proof Hok as (?&?&?&Hmon&Hday&_). rewrite tm_seconds_ok in Hsec by done.
  destruct (month_bounds (leap (tm_year t0 + 1900)) (tm_mon t0) Hmon) as (B0 & B1 & _).
  pose proof (year_days_succ (tm_year t0 + 1900)) as Hsucc. unfold month_length, year_length in *.
  pose proof (Hneg (tm_year t0 - 69) ltac:(lia)) as Hn.
  replace (1970 + (tm_year t0 - 69)) with (tm_year t0 + 1900 + 1) in Hn by lia. lia.
Qed.

(** Half a year before 1971 is after the epoch. *)
Lemma tm_seconds_late t :
  tm_ok t → 12 * 70 + 6 ≤ 12 * tm_year t + tm_mon t → 181 * 86400 ≤ tm_seconds t.
Proof.
  intros Hok Hlate. destruct (tm_seconds_bounds t Hok) as [Hb|Hb]; pose proof Hok as (?&?&?&Hmon&?&_); [|lia].
  destruct (decide (tm_year t = 70)) as [E|]; [|lia].
  rewrite tm_seconds_ok, E by done. change (year_days (70 + 1900)) with 0.
  change (leap (70 + 1900)) with false.
  pose proof (forallb_seqZ 12 (λ m, (m <? 6) || (181 <=? month_start false m)) eq_refl
    (tm_mon t) Hmon) as Ht. cbv beta in Ht. lia.
Qed.

Ltac tm_simpl :=
  repeat match goal with x := _ : tm |- _ => unfold x in *; clear x end;
  unfold set_time in *; cbn [tm_sec tm_min tm_hour tm_mday tm_mon tm_year tm_isdst] in *.

(** The date of a label with a valid month and day near a moderate time. *)
Lemma pil_target pil start east t0 :
  moderate start east → gmtime_r (start + east) = Some t0 →
  1 ≤ VBI_PIL_MONTH pil ≤ 12 → 1 ≤ VBI_PIL_DAY pil ≤ tbl month_days (VBI_PIL_MONTH pil - 1) →
  VBI_PIL_HOUR pil < 24 → VBI_PIL_MINUTE pil < 60 →
  ∃ t, tm_mon_mday_from_pil t0 pil = Some t ∧
  let t1 := set_time t (VBI_PIL_HOUR pil) (VBI_PIL_MINUTE pil) in
  (tm_leap_day_check t = true ∧ pil_date_near pil t0 t1 ∧ 181 * 86400 ≤ tm_seconds t1 ≤ 2 ^ 57) ∨
  (tm_leap_day_check t = false ∧ ∀ t1, ¬ pil_date_near pil t0 t1).
Proof.
  intros Hmod Hg Hmonth Hday Hhour Hmin.
  destruct (moderate_years _ _ _ Hmod Hg) as [Hy Hok]. pose proof (pil_field_ranges pil) as Hr.
  destruct (mon_mday_from_pil t0 pil Hok) as (y & Em & Hwin & Hyy);
    [unfold INT_MIN, INT_MAX; lia|done|].
  pose proof Hok as (_&_&_&Hmon0&_). eexists. split; [exact Em|].
  set (t := Tm _ _ _ _ _ y 0). set (t1 := set_time t _ _). cbv zeta.
  pose proof (leap_day_check_spec t ltac:(tm_simpl; lia) ltac:(tm_simpl; lia) ltac:(tm_simpl; lia)) as Hl.
  destruct (tm_leap_day_check t).
  - left. split; [done|]. pose proof (proj1 Hl eq_refl) as Hlen.
    assert (tm_ok t1) as Hok1 by (unfold tm_ok; tm_simpl; split_and!; lia).
    assert (pil_date_near pil t0 t1) as Hn
      by (unfold pil_date_near, months_between; split_and!; try done; tm_simpl; lia).
    split; [done|]. split; [apply tm_seconds_late; [done|tm_simpl; lia]|].
    destruct (tm_seconds_bounds t1 Hok1) as [Hb|Hb]; tm_simpl; lia.
  - right. split; [done|]. intros t2 (Hok2 & Em2 & Ed2 & _ & _ & _ & Hw2).
    destruct Hok2 as (_ & _ & _ & _ & Hd2 & _).
    assert (tm_year t2 = y ∧ tm_mon t2 = VBI_PIL_MONTH pil - 1) as [E1 E2]
      by (unfold months_between in Hw2; lia).
    rewrite E1, E2, Ed2 in Hd2. tm_simpl. discriminate (proj2 Hl (proj2 Hd2)).
Qed.

(** [valid_pil_lto_to_time] for a valid month and day. *)
Lemma lto_to_time_cases time pil start east t0 :
  moderate start east → gmtime_r (start + east) = Some t0 →
  1 ≤ VBI_PIL_MONTH pil ≤ 12 → 1 ≤ VBI_PIL_DAY pil ≤ tbl month_days (VBI_PIL_MONTH pil - 1) →
  VBI_PIL_HOUR pil < 24 → VBI_PIL_MINUTE pil < 60 →
  (∃ t1, pil_date_near pil t0 t1 ∧
     valid_pil_lto_to_time time pil start east = (tm_seconds t1 - east, 0) ∧
     0 ≤ tm_seconds t1 - east) ∨
  ((∀ t1, ¬ pil_date_near pil t0 t1) ∧
   valid_pil_lto_to_time time pil start east = (-1, VBI_ERR_INVALID_PIL)).
Proof.
  intros Hmod Hg Hmonth Hday Hhour Hmin.
  destruct (pil_target _ _ _ _ Hmod Hg Hmonth Hday Hhour Hmin) as (t & Em & Hc).
  destruct Hmod as [Hs He]. unfold valid_pil_lto_to_time.
  rewrite (proj2 (Z.eqb_neq start (-1))) by lia. rewrite (proj2 (Z.eqb_neq start (-1))) by lia.
  replace ((east <? 0) && (start <? - east)) with false by lia.
  replace (negb (east <? 0) && (TIME_MAX - east <? start)) with false by (unfold TIME_MAX; lia).
  cbv zeta. rewrite Hg, Em. destruct Hc as [(-> & Hn & Hb)|[-> Hno]]; cbn [negb]; [left|by right].
  eexists. split; [exact Hn|]. revert Hb. generalize (set_time t (VBI_PIL_HOUR pil) (VBI_PIL_MINUTE pil)).
  intros t1 Hb. split; [|lia]. unfold _vbi_timegm, timegm, TIME_MIN, TIME_MAX.
  replace ((tm_seconds t1 <? - 2 ^ 63) || (2 ^ 63 - 1 <? tm_seconds t1)) with false by lia.
  rewrite (proj2 (Z.eqb_neq (tm_seconds t1) (-1))) by lia.
  replace ((tm_seconds t1 <=? - 2 ^ 63) || (2 ^ 63 - 1 <=? tm_seconds t1)) with false by lia.
  rewrite (proj2 (Z.eqb_neq (tm_seconds t1) (-1))) by lia.
  replace ((0 <? east) && (tm_seconds t1 <? east)) with false by lia.
  by replace (negb (0 <? east) && (2 ^ 63 - 1 + east <? tm_seconds t1)) with false by lia.
Qed.

(** C28: [vbi_pil_lto_to_time] returns the time of the label's date and time in
    the zone [seconds_east] of UTC, in the one year that puts it between six
    months before and five months after the announced start, and -1 exactly when
    there is no such date (February 29th). *)
Theorem pil_lto_to_time_correct (time : Z * Z) (pil start east t : Z) :
  moderate start east → vbi_pil_is_valid_date pil = true →
  (vbi_pil_lto_to_time time pil start east = t ∧ t ≠ -1 ↔
   ∃ t0 t1, gmtime_r (start + east) = Some t0 ∧ gmtime_r (t + east) = Some t1 ∧
            pil_date_near pil t0 t1).
Proof.
  intros Hmod Hv. pose proof Hv as Hv2. apply valid_date_iff in Hv2.
  destruct Hv2 as (Hm & Hd & Hh & Hmi).
  destruct (gmtime_total (start + east)) as [t0 Hg]; [unfold moderate in Hmod; lia|].
  destruct (moderate_years _ _ _ Hmod Hg) as [Hy0 _].
  unfold vbi_pil_lto_to_time. rewrite Hv. cbn [negb].
  assert (∀ t1, pil_date_near pil t0 t1 → INT_MIN ≤ tm_year t1 ≤ INT_MAX) as Hyear.
  { intros t1 (Hok1 & Em1 & _ & _ & _ & _ & Hw). destruct (gmtime_sound _ _ Hg) as ((_&_&_&?&_)&_).
    unfold months_between, INT_MIN, INT_MAX in *. lia. }
  destruct (lto_to_time_cases time pil start east t0 Hmod Hg Hm Hd Hh Hmi)
    as [(t1 & Hn & -> & Hpos)|[Hno ->]]; cbn [fst].
  - split.
    + intros [<- _]. exists t0, t1. rewrite Z.sub_add. split; [done|]. split; [|done].
      apply gmtime_complete; [apply Hn|by apply Hyear].
    + intros (t0' & t1' & Hg' & Ht & Hn'). simplify_eq.
      destruct (gmtime_sound _ _ Ht) as (_ & Hs & _). enough (t1 = t1') by (subst; lia).
      destruct Hn as (Hok & ?&?&?&?&?&Hw), Hn' as (Hok' & ?&?&?&?&?&Hw').
      unfold months_between, tm_ok in *. destruct t1, t1'; tm_simpl. f_equal; lia.
  - split; [intros [<- ?]; done|]. intros (t0' & t1' & Hg' & Ht & Hn'). simplify_eq.
    by destruct (Hno t1').
Qed.

(** Christmas 2008, announced in November, an hour east of UTC. *)
Lemma pil_lto_to_time_correct_witness :
  vbi_pil_lto_to_time (0, 0) (VBI_PIL 12 24 18 5) 1226000000 3600 = 1230138300.
Proof.
  refine (proj1 (proj2 (pil_lto_to_time_correct (0, 0) (VBI_PIL 12 24 18 5) 1226000000 3600
    1230138300 _ eq_refl) _)).
  - unfold moderate. lia.
  - eexists _, _. split; [reflexivity|]. split; [reflexivity|].
    unfold pil_date_near, tm_ok. split_and!; vm_compute; congruence.
Defined.

(** The overflow checks also reject a result before 1970. *)
Lemma pil_lto_to_time_negative :
  vbi_pil_lto_to_time (0, 0) (VBI_PIL 1 1 0 30) 0 3600 = -1 ∧
  gmtime_r (-1800 + 3600) = Some (Tm 0 30 0 1 0 70 0).
Proof. by vm_compute. Qed.

(** ** Validity windows *)

(** The date of a label without its time of day. *)
Lemma pil_date_mask pil (d := pil .& VBI_PIL 15 31 0 0) :
  VBI_PIL_MONTH d = VBI_PIL_MONTH pil ∧ VBI_PIL_DAY d = VBI_PIL_DAY pil ∧
  VBI_PIL_HOUR d = 0 ∧ VBI_PIL_MINUTE d = 0.
Proof.
  unfold d. change (VBI_PIL 15 31 0 0) with (Z.ones 9 ≪ 11). rewrite land_mask by done.
  destruct (pil_fields_eq pil) as (-> & -> & _).
  destruct (pil_fields_eq ((pil / 2 ^ 11) mod 2 ^ 9 * 2 ^ 11)) as (-> & -> & -> & ->).
  simpl_const. Z.to_euclidean_division_equations. lia.
Qed.

(** The start of the day of a label. *)
Lemma pil_date_near_midnight pil t0 t1 :
  pil_date_near pil t0 t1 →
  pil_date_near (pil .& VBI_PIL 15 31 0 0) t0 (set_time t1 0 0).
Proof.
  intros (Hok & Hm & Hd & _ & _ & _ & Hw). destruct (pil_date_mask pil) as (E1 & E2 & E3 & E4).
  unfold pil_date_near. rewrite E1, E2, E3, E4. unfold tm_ok, months_between in *.
  destruct t1; tm_simpl. split_and!; done || lia.
Qed.

Lemma pil_date_near_unique pil t0 t1 t1' :
  pil_date_near pil t0 t1 → pil_date_near pil t0 t1' → tm_ok t0 → t1 = t1'.
Proof.
  intros (Hok & ?&?&?&?&?&Hw) (Hok' & ?&?&?&?&?&Hw') (_&_&_&?&_).
  unfold months_between, tm_ok in *. destruct t1, t1'; tm_simpl. f_equal; lia.
Qed.

Lemma tm_seconds_day t :
  tm_ok t → (tm_seconds (set_time t 0 0)) mod 86400 = 0 ∧
  tm_seconds t = tm_seconds (set_time t 0 0) + tm_hour t * 3600 + tm_min t * 60 + tm_sec t.
Proof.
  intros (_&_&_&Hm&_). rewrite !tm_seconds_ok by done. destruct t; tm_simpl. split; [|lia].
  rewrite !Z.add_0_r. apply Z_mod_mult.
Qed.

(** C36: the validity window of a label with a valid date contains the label's
    time; it ends at 04:00 of the next day and starts at 00:00, or at 20:00 of the
    day before when the label's hour is before four, local time. *)
Theorem pil_lto_validity_window_correct (time : Z * Z) (pil start east t : Z) :
  moderate start east → vbi_pil_is_valid_date pil = true →
  vbi_pil_lto_to_time time pil start east = t → t ≠ -1 →
  ∃ b e, vbi_pil_lto_validity_window time pil start east = Some (b, e) ∧
    b ≤ t < e ∧ (e + east) mod 86400 = 4 * 3600 ∧ (e + east) / 86400 = (t + east) / 86400 + 1 ∧
    b = e - (if VBI_PIL_HOUR pil <? 4 then 32 else 28) * 3600.
Proof.
  intros Hmod Hv. pose proof Hv as Hv2. apply valid_date_iff in Hv2.
  destruct Hv2 as (Hm & Hd & Hh & Hmi). unfold vbi_pil_lto_to_time. rewrite Hv. cbn [negb].
  intros <- Ht. destruct (gmtime_total (start + east)) as [t0 Hg]; [unfold moderate in Hmod; lia|].
  destruct (moderate_years _ _ _ Hmod Hg) as [Hy0 Hok0].
  destruct (lto_to_time_cases time pil start east t0 Hmod Hg Hm Hd Hh Hmi)
    as [(t1 & Hn & Et & Hpos)|[_ Et]]; rewrite Et in *; cbn [fst] in *; [|done].
  unfold vbi_pil_lto_validity_window, valid_pil_lto_validity_window.
  rewrite (proj2 (Z.eqb_neq (VBI_PIL_MONTH pil) 0)), (proj2 (Z.leb_le (VBI_PIL_MONTH pil) 12)) by lia.
  pose proof (pil_field_ranges pil) as Hr. rewrite (u32_small (VBI_PIL_DAY pil - 1)) by lia.
  rewrite (proj2 (Z.leb_gt _ (VBI_PIL_DAY pil - 1))) by lia.
  pose proof (pil_date_near_midnight _ _ _ Hn) as Hn0.
  destruct (pil_date_mask pil) as (E1 & E2 & E3 & E4).
  destruct (lto_to_time_cases time (pil .& VBI_PIL 15 31 0 0) start east t0 Hmod Hg)
    as [(t2 & Hn2 & Et2 & Hpos2)|[Hno _]]; rewrite ?E1, ?E2, ?E3, ?E4; try lia; try done.
  2:{ by destruct (Hno (set_time t1 0 0)). }
  pose proof (pil_date_near_unique _ _ _ _ Hn2 Hn0 Hok0) as ->. rewrite Et2.
  destruct (tm_seconds_day t1 (proj1 Hn)) as [Hmid Hsum].
  destruct Hn as (Hok1 & Em1 & Ed1 & Eh & Emi & Es & Hw).
  rewrite (proj2 (Z.eqb_neq _ (-1))) by lia.
  assert (181 * 86400 ≤ tm_seconds t1) as Hlow.
  { apply tm_seconds_late; [done|]. unfold months_between in Hw. destruct Hok0 as (_&_&_&?&_). lia. }
  assert (tm_seconds t1 ≤ 2 ^ 57) as Hhigh.
  { destruct Hok0 as (_&_&_&?&_). unfold months_between in Hw.
    destruct (tm_seconds_bounds t1 Hok1) as [Hb|Hb]; lia. }
  destruct Hmod as [_ He]. rewrite Eh, Emi, Es in Hsum.
  rewrite (proj2 (Z.ltb_ge (TIME_MAX - 28 * 60 * 60) _)) by (unfold TIME_MAX; lia).
  destruct (Z.ltb_spec (VBI_PIL_HOUR pil) 4).
  - rewrite (proj2 (Z.ltb_ge _ (4 * 60 * 60))) by lia. eexists _, _. split; [reflexivity|].
    Z.to_euclidean_division_equations. lia.
  - eexists _, _. split; [reflexivity|]. Z.to_euclidean_division_equations. lia.
Qed.

Lemma pil_lto_validity_window_correct_witness :
  ∃ b e, vbi_pil_lto_validity_window (0, 0) (VBI_PIL 12 24 3 5) 1226000000 3600 = Some (b, e) ∧
    b ≤ 1230084300 < e.
Proof.
  destruct (pil_lto_validity_window_correct (0, 0) (VBI_PIL 12 24 3 5) 1226000000 3600 1230084300)
    as (b & e & H & Hb & _); [unfold moderate; lia|reflexivity|reflexivity|discriminate|].
  exists b, e. split; [exact H|exact Hb].
Defined.

(** The window of a programme type code starts with its last transmission and
    ends at 04:00 UTC on the 29th day after it. *)
Theorem pty_utc_validity_window_correct (t : Z) :
  - 2 ^ 54 ≤ t ≤ 2 ^ 54 →
  pty_utc_validity_window t = Some (t, (t / 86400 + 29) * 86400 + 4 * 3600).
Proof.
  intros Ht. destruct (gmtime_total t Ht) as [tm0 Hg].
  unfold pty_utc_validity_window. rewrite Hg. destruct (gmtime_sound _ _ Hg) as (Hok & Hs & _).
  destruct (tm_seconds_day tm0 Hok) as [Hmid Hsum]. destruct Hok as (?&?&?&_). cbv zeta.
  rewrite u32_small by lia. rewrite (proj2 (Z.ltb_ge _ t)) by (unfold TIME_MAX; lia).
  do 2 f_equal. Z.to_euclidean_division_equations. lia.
Qed.

Lemma pty_utc_validity_window_correct_witness :
  pty_utc_validity_window 1226000000 = Some (1226000000, 1228449600).
Proof. apply (pty_utc_validity_window_correct 1226000000). lia. Defined.
