(* ===== verification/PdcTz.v ===== *)
(** Times and validity windows in a named time zone: the functions of
    [src/src/pdc.c] that set the TZ environment variable around calls of the C
    library. *)
From stdpp Require Import strings.
From S2P Require Import Prelude Misc Pil CTime Pdc.

(** The part of the process state these functions touch: the TZ variable, and
    for every memory allocation still to come whether it succeeds (all of them
    once the list is used up). *)
Record world := World { TZ : option (list Z); allocs : list bool }.

Definition alloc (w : world) : bool * world :=
  match allocs w with
  | [] => (true, w)
  | ok :: l => (ok, World (TZ w) l)
  end.

(** [setenv ("TZ", value, TRUE)] fails only without memory, and then does not
    change the variable. *)
Definition setenv (value : list Z) (w : world) : bool * world :=
  let '(ok, w) := alloc w in
  if ok then (true, World (Some value) (allocs w)) else (false, w).
Definition unsetenv (w : world) : world := World None (allocs w).

(** ** Changing and restoring the zone *)

(** The result, [*old_tz], and the state. *)
Definition restore_tz (old_tz : option (list Z)) (tz : option (list Z)) (w : world)
    : bool * world :=
  match tz with
  | None => (true, w)
  | Some _ =>
      match old_tz with
      | None => (true, unsetenv w)
      | Some s => setenv s w
      end
  end.

Definition change_tz (tz : list Z) (w : world) : bool * option (list Z) * world :=
  let '(ok, old_tz, w) :=
    match TZ w with
    | None => (true, None, w)
    | Some s => let '(ok, w) := alloc w in (ok, if ok : bool then Some s else None, w)
    end in
  if negb ok then (false, None, w)
  else
    let '(ok, w) := setenv tz w in
    if negb ok then (false, None, w) else (true, old_tz, w).

Section tz.
(** [time ()], and the C library's [localtime_r] and [mktime] for the zone TZ
    names, which depends on the time zone database: [None] is a NULL result;
    [mktime] takes a time that need not be normalised, its result -1 is a
    failure. *)
Context (time : Z * Z).
Context (localtime_r : option (list Z) → Z → option tm).
Context (c_mktime : option (list Z) → tm → Z).

Definition _vbi_mktime (w : world) (t : tm) : Z :=
  let result := c_mktime (TZ w) t in
  if (result <=? TIME_MIN) || (TIME_MAX <=? result) then -1 else result.

(** [Some tm] is TRUE; the second component is [*old_tz]. *)
Definition localtime_tz (t : Z) (tz : option (list Z)) (w : world)
    : option tm * option (list Z) * world :=
  let '(ok, old_tz, w) :=
    match tz with
    | None => (true, None, w)
    | Some tz => change_tz tz w
    end in
  if negb ok then (None, None, w)
  else
    let t := if t =? -1 then time.1 else t in
    if t =? -1 then
      let '(ok, w) := restore_tz old_tz tz w in (None, None, w)
    else
      match localtime_r (TZ w) t with
      | None => let '(ok, w) := restore_tz old_tz tz w in (None, None, w)
      | Some t => (Some t, old_tz, w)
      end.

Definition is_UTC (tz : option (list Z)) : bool := bool_decide (tz = Some (ascii "UTC"%string)).

(** [tm.tm_isdst = -1]. *)
Definition unknown_dst (t : tm) : tm :=
  Tm (tm_sec t) (tm_min t) (tm_hour t) (tm_mday t) (tm_mon t) (tm_year t) (-1).

Definition vbi_pil_to_time (pil start : Z) (tz : option (list Z)) (w : world) : Z * world :=
  if negb (vbi_pil_is_valid_date pil) then (-1, w)
  else if is_UTC tz then ((valid_pil_lto_to_time time pil start 0).1, w)
  else
    let '(t, old_tz, w) := localtime_tz start tz w in
    match t with
    | None => (-1, w)
    | Some t =>
        let failed := let '(ok, w) := restore_tz old_tz tz w in (-1, w) in
        match tm_mon_mday_from_pil t pil with
        | None => failed
        | Some t =>
            if negb (tm_leap_day_check t) then failed
            else
              let t := unknown_dst (set_time t (VBI_PIL_HOUR pil) (VBI_PIL_MINUTE pil)) in
              let result := _vbi_mktime w t in
              if result =? -1 then failed
              else
                let '(ok, w) := restore_tz old_tz tz w in
                if negb ok then (-1, w) else (result, w)
        end
    end.

(** [Some (begin, end)], or [None] for FALSE. *)
Definition vbi_pty_validity_window (last_transm : Z) (tz : option (list Z)) (w : world)
    : option (Z * Z) * world :=
  if is_UTC tz then (pty_utc_validity_window last_transm, w)
  else
    let '(t, old_tz, w) := localtime_tz last_transm tz w in
    match t with
    | None => (None, w)
    | Some t =>
        let t := Tm 0 0 4 (tm_mday t + (4 * 7 + 1)) (tm_mon t) (tm_year t) (-1) in
        let stop := _vbi_mktime w t in
        if stop =? -1 then let '(ok, w) := restore_tz old_tz tz w in (None, w)
        else
          let '(ok, w) := restore_tz old_tz tz w in
          if negb ok then (None, w) else (Some (last_transm, stop), w)
    end.

Definition valid_pil_validity_window (pil start : Z) (tz : option (list Z)) (w : world)
    : option (Z * Z) * world :=
  if is_UTC tz then (valid_pil_lto_validity_window time pil start 0, w)
  else
    let '(t, old_tz, w) := localtime_tz start tz w in
    match t with
    | None => (None, w)
    | Some t =>
        let failed := let '(ok, w) := restore_tz old_tz tz w in (None, w) in
        match tm_mon_mday_from_pil t pil with
        | None => failed
        | Some t =>
            if negb (tm_leap_day_check t) then
              (* Annex F: "Invalid days - indefinite time window". *)
              let '(ok, w) := restore_tz old_tz tz w in
              if negb ok then (None, w) else (Some (TIME_MIN, TIME_MAX), w)
            else
              let t := unknown_dst (set_time t 0 0) in
              let tm2 := t in
              let t := if VBI_PIL_HOUR pil <? 4
                       then Tm 0 0 20 (tm_mday t - 1) (tm_mon t) (tm_year t) (-1) else t in
              let start := _vbi_mktime w t in
              if start =? -1 then failed
              else
                let tm2 := Tm 0 0 4 (tm_mday tm2 + 1) (tm_mon tm2) (tm_year tm2) (-1) in
                let stop := _vbi_mktime w tm2 in
                if stop =? -1 then failed
                else
                  let '(ok, w) := restore_tz old_tz tz w in
                  if negb ok then (None, w) else (Some (start, stop), w)
        end
    end.

Definition vbi_pil_validity_window (pil start : Z) (tz : option (list Z)) (w : world)
    : option (Z * Z) * world :=
  let month := VBI_PIL_MONTH pil in
  if month =? 0 then (None, w) (* Annex F: "Unallocated". *)
  else if month <=? 12 then
    if tbl month_days (month - 1) <=? u32 (VBI_PIL_DAY pil - 1) then (Some (TIME_MIN, TIME_MAX), w)
    else valid_pil_validity_window pil start tz w
  else if month <=? 14 then (Some (TIME_MIN, TIME_MAX), w)
  else if (pil =? VBI_PIL_TIMER_CONTROL) || (pil =? VBI_PIL_INHIBIT_TERMINATE)
          || (pil =? VBI_PIL_INTERRUPTION) || (pil =? VBI_PIL_CONTINUE)
  then (Some (TIME_MIN, TIME_MAX), w)
  else if pil =? VBI_PIL_NSPV then vbi_pty_validity_window start tz w
  else (None, w).
End tz.

(** ** The TZ variable is restored *)

(** A function that returned with state [w'] left TZ alone, unless it failed
    because it had no memory to restore it. *)
Definition restored (w w' : world) (failed : Prop) : Prop :=
  TZ w' = TZ w ∨ (failed ∧ allocs w ≠ []).

(** The state while another zone is set: [w] is the state before. *)
Definition zone_set (tz old_tz : option (list Z)) (w w' : world) : Prop :=
  (allocs w = [] → allocs w' = []) ∧
  match tz with
  | None => TZ w' = TZ w
  | Some s => old_tz = TZ w ∧ TZ w' = Some s
  end.

Lemma alloc_ok w : allocs w = [] → alloc w = (true, w).
Proof. unfold alloc. by intros ->. Qed.

Lemma alloc_TZ w ok w' :
  alloc w = (ok, w') → TZ w' = TZ w ∧ (allocs w = [] → allocs w' = [] ∧ ok = true).
Proof.
  unfold alloc. destruct (allocs w) as [|b l] eqn:E; intros [= <- <-]; [|done].
  rewrite E. done.
Qed.

Lemma setenv_spec s w ok w' :
  setenv s w = (ok, w') →
  TZ w' = (if ok then Some s else TZ w) ∧ (allocs w = [] → allocs w' = [] ∧ ok = true).
Proof.
  unfold setenv. destruct (alloc w) as [b w1] eqn:E. destruct (alloc_TZ _ _ _ E) as [HT Ha].
  destruct b; intros [= <- <-]; cbn; [naive_solver|]. split; [done|]. naive_solver.
Qed.

Lemma change_tz_spec tz w ok old w' :
  change_tz tz w = (ok, old, w') →
  (if ok then zone_set (Some tz) old w w' else TZ w' = TZ w ∧ allocs w ≠ []).
Proof.
  unfold change_tz, zone_set. destruct (TZ w) as [s|] eqn:ET.
  - destruct (alloc w) as [b w1] eqn:E. destruct (alloc_TZ _ _ _ E) as [HT Ha].
    destruct b; cbn [negb].
    + destruct (setenv tz w1) as [b2 w2] eqn:E2. destruct (setenv_spec _ _ _ _ E2) as [HT2 Ha2].
      destruct b2; intros [= <- <- <-]; [naive_solver|].
      split; [by rewrite HT2, HT|]. naive_solver.
    + intros [= <- <- <-]. split; [by rewrite HT|naive_solver].
  - cbn [negb]. destruct (setenv tz w) as [b2 w2] eqn:E2.
    destruct (setenv_spec _ _ _ _ E2) as [HT2 Ha2].
    destruct b2; intros [= <- <- <-]; [naive_solver|]. split; [by rewrite HT2|naive_solver].
Qed.

Lemma restore_tz_spec tz old w w1 ok w' :
  zone_set tz old w w1 → restore_tz old tz w1 = (ok, w') →
  (allocs w = [] → allocs w' = [] ∧ ok = true) ∧
  (if ok then TZ w' = TZ w else allocs w ≠ []).
Proof.
  unfold zone_set, restore_tz. intros [Ha Hz] Hr. destruct tz as [s|]; [|naive_solver].
  destruct Hz as [-> HT]. destruct (TZ w) as [s0|].
  - destruct (setenv_spec _ _ _ _ Hr) as [HT2 Ha2]. destruct ok; naive_solver.
  - injection Hr as <- <-. cbn. naive_solver.
Qed.

Section restored.
Context (time : Z * Z).
Context (localtime_r : option (list Z) → Z → option tm).
Context (c_mktime : option (list Z) → tm → Z).

Lemma localtime_tz_spec t tz w r old w' :
  localtime_tz time localtime_r t tz w = (r, old, w') →
  match r with
  | Some _ => zone_set tz old w w'
  | None => TZ w' = TZ w ∨ allocs w ≠ []
  end.
Proof.
  unfold localtime_tz. destruct tz as [z|].
  - destruct (change_tz z w) as [[ok old1] w1] eqn:E. apply change_tz_spec in E.
    destruct ok; cbn [negb]; [|intros [= <- <- <-]; naive_solver].
    destruct (restore_tz old1 (Some z) w1) as [ok2 w2] eqn:E2.
    destruct (restore_tz_spec _ _ _ _ _ _ E E2) as [_ HR].
    destruct (_ =? -1); [intros [= <- <- <-]; destruct ok2; auto|].
    destruct (localtime_r _ _); intros [= <- <- <-]; [done|]. destruct ok2; auto.
  - cbn [negb restore_tz]. destruct (_ =? -1); [intros [= <- <- <-]; auto|].
    destruct (localtime_r _ _); intros [= <- <- <-]; [|auto]. by split.
Qed.

Lemma pil_to_time_restored pil start tz w :
  let '(r, w') := vbi_pil_to_time time localtime_r c_mktime pil start tz w in
  restored w w' (r = -1).
Proof.
  unfold vbi_pil_to_time, restored. destruct (negb _); [by left|]. destruct (is_UTC tz); [by left|].
  destruct (localtime_tz time localtime_r start tz w) as [[r old] w1] eqn:E.
  apply localtime_tz_spec in E. destruct r as [t|]; [|naive_solver].
  destruct (restore_tz old tz w1) as [ok w2] eqn:E2.
  destruct (restore_tz_spec _ _ _ _ _ _ E E2) as [_ HR].
  destruct (tm_mon_mday_from_pil t pil); [|destruct ok; naive_solver].
  destruct (negb _); [destruct ok; naive_solver|]. cbv zeta.
  destruct (_ =? -1); [destruct ok; naive_solver|]. destruct ok; cbn [negb]; naive_solver.
Qed.

Lemma pty_validity_window_restored start tz w :
  let '(r, w') := vbi_pty_validity_window time localtime_r c_mktime start tz w in
  restored w w' (r = None).
Proof.
  unfold vbi_pty_validity_window, restored. destruct (is_UTC tz); [by left|].
  destruct (localtime_tz time localtime_r start tz w) as [[r old] w1] eqn:E.
  apply localtime_tz_spec in E. destruct r as [t|]; [|naive_solver].
  destruct (restore_tz old tz w1) as [ok w2] eqn:E2.
  destruct (restore_tz_spec _ _ _ _ _ _ E E2) as [_ HR]. cbv zeta.
  destruct (_ =? -1); [destruct ok; naive_solver|]. destruct ok; cbn [negb]; naive_solver.
Qed.

Lemma pil_validity_window_restored pil start tz w :
  let '(r, w') := vbi_pil_validity_window time localtime_r c_mktime pil start tz w in
  restored w w' (r = None).
Proof.
  unfold vbi_pil_validity_window. cbv zeta.
  destruct (_ =? 0); [by left|]. destruct (_ <=? 12).
  - destruct (_ <=? _); [by left|]. unfold valid_pil_validity_window, restored.
    destruct (is_UTC tz); [by left|].
    destruct (localtime_tz time localtime_r start tz w) as [[r old] w1] eqn:E.
    apply localtime_tz_spec in E. destruct r as [t|]; [|naive_solver].
    destruct (restore_tz old tz w1) as [ok w2] eqn:E2.
    destruct (restore_tz_spec _ _ _ _ _ _ E E2) as [_ HR].
    destruct (tm_mon_mday_from_pil t pil); [|destruct ok; naive_solver].
    destruct (negb _); [destruct ok; cbn [negb]; naive_solver|]. cbv zeta.
    destruct (_ =? -1); [destruct ok; naive_solver|].
    destruct (_ =? -1); [destruct ok; naive_solver|]. destruct ok; cbn [negb]; naive_solver.
  - destruct (_ <=? 14); [by left|]. destruct (_ || _); [by left|].
    destruct (pil =? VBI_PIL_NSPV); [apply pty_validity_window_restored|by left].
Qed.
End restored.

(** Whatever the C library answers, [vbi_pil_to_time],
    [vbi_pty_validity_window] and [vbi_pil_validity_window] return with the TZ
    variable as it was; only when memory ran out can it differ, and then they
    report failure. *)
Theorem tz_restored (time : Z * Z) (localtime_r : option (list Z) → Z → option tm)
    (c_mktime : option (list Z) → tm → Z) (pil start : Z) (tz : option (list Z)) (w : world) :
  (let '(r, w') := vbi_pil_to_time time localtime_r c_mktime pil start tz w in
   restored w w' (r = -1)) ∧
  (let '(r, w') := vbi_pty_validity_window time localtime_r c_mktime start tz w in
   restored w w' (r = None)) ∧
  (let '(r, w') := vbi_pil_validity_window time localtime_r c_mktime pil start tz w in
   restored w w' (r = None)).
Proof.
  split_and!; [apply pil_to_time_restored|apply pty_validity_window_restored
              |apply pil_validity_window_restored].
Qed.

(** ** Zones with a fixed offset *)

Lemma tm_seconds_unknown_dst t : tm_seconds (unknown_dst t) = tm_seconds t.
Proof. done. Qed.

(** In a zone that is always [east] seconds east of UTC, [vbi_pil_to_time]
    computes the same time as [vbi_pil_lto_to_time] and leaves the process state
    unchanged. *)
Theorem pil_to_time_fixed_offset (time : Z * Z) (localtime_r : option (list Z) → Z → option tm)
    (c_mktime : option (list Z) → tm → Z) (z : list Z) (pil start east : Z) (w : world) :
  (∀ t, localtime_r (Some z) t = gmtime_r (t + east)) →
  (∀ t, c_mktime (Some z) t = tm_seconds t - east) →
  z ≠ ascii "UTC" → moderate start east → allocs w = [] →
  vbi_pil_to_time time localtime_r c_mktime pil start (Some z) w
  = (vbi_pil_lto_to_time time pil start east, w).
Proof.
  intros Hl Hmk Hz Hmod Ha. unfold vbi_pil_to_time, vbi_pil_lto_to_time.
  destruct (vbi_pil_is_valid_date pil) eqn:Hv; cbn [negb]; [|done].
  apply valid_date_iff in Hv. destruct Hv as (Hm & Hd & Hh & Hmi).
  unfold is_UTC. rewrite bool_decide_eq_false_2 by congruence.
  destruct (gmtime_total (start + east)) as [t0 Hg]; [unfold moderate in Hmod; lia|].
  destruct (moderate_years _ _ _ Hmod Hg) as [Hy0 Hok0].
  destruct w as [old al]; cbn in Ha; subst al.
  assert (localtime_tz time localtime_r start (Some z) (World old []) = (Some t0, old, World (Some z) []))
    as ->.
  { unfold localtime_tz. assert (change_tz z (World old []) = (true, old, World (Some z) [])) as ->
      by (destruct old; reflexivity). cbn [negb]. unfold moderate in Hmod.
    rewrite (proj2 (Z.eqb_neq start (-1))) by lia.
    rewrite (proj2 (Z.eqb_neq start (-1))) by lia. cbn [TZ]. by rewrite Hl, Hg. }
  destruct (pil_target _ _ _ _ Hmod Hg Hm Hd Hh Hmi) as (t & Em & Hc). rewrite Em.
  assert (restore_tz old (Some z) (World (Some z) []) = (true, World old [])) as ->
    by (by destruct old).
  destruct (lto_to_time_cases time pil start east t0 Hmod Hg Hm Hd Hh Hmi)
    as [(t1 & Hn1 & -> & Hpos)|[Hno ->]]; destruct Hc as [(-> & Hn & Hb)|[-> Hno2]]; cbn [negb fst].
  - pose proof (pil_date_near_unique _ _ _ _ Hn1 Hn Hok0) as ->. cbv zeta.
    unfold _vbi_mktime. cbn [TZ]. rewrite Hmk. destruct Hmod as [_ He].
    unfold TIME_MIN, TIME_MAX. set (t1 := set_time t _ _) in *.
    rewrite tm_seconds_unknown_dst.
    generalize dependent (tm_seconds t1).
    intros s Hpos Hb. replace ((s - east <=? - 2 ^ 63) || (2 ^ 63 - 1 <=? s - east)) with false by lia.
    rewrite (proj2 (Z.eqb_neq (s - east) (-1))) by lia. done.
  - by destruct (Hno2 t1).
  - by edestruct Hno.
  - done.
Qed.

Lemma pil_to_time_fixed_offset_witness :
  vbi_pil_to_time (0, 0) (λ _ t, gmtime_r (t + 3600)) (λ _ t, tm_seconds t - 3600)
    (VBI_PIL 12 24 18 5) 1226000000 (Some (ascii "CET"%string)) (World (Some (ascii "PST8PDT"%string)) [])
  = (1230138300, World (Some (ascii "PST8PDT"%string)) []).
Proof.
  rewrite (pil_to_time_fixed_offset _ _ _ _ _ _ 3600);
    [reflexivity|reflexivity|reflexivity|discriminate|unfold moderate; lia|reflexivity].
Defined.
