(* ===== verification/Wss.v ===== *)
(** Wide screen signalling: the decoders of [src/src/wss.c] and the part of the
    decoder's state they use. *)
From S2P Require Import Prelude.

Inductive vbi_subt := VBI_SUBT_NONE | VBI_SUBT_ACTIVE | VBI_SUBT_MATTE | VBI_SUBT_UNKNOWN.

(** [vbi_aspect_ratio]; the floating point [ratio] only takes the values 1.0 and
    3.0 / 4.0 here, and 0.0 in a cleared structure: it is given in quarters. *)
Record vbi_aspect_ratio := Aspect {
  first_line : Z; last_line : Z; ratio : Z; film_mode : bool; open_subtitles : vbi_subt
}.
#[export] Instance vbi_subt_eq_dec : EqDecision vbi_subt.
Proof. solve_decision. Defined.
#[export] Instance vbi_aspect_ratio_eq_dec : EqDecision vbi_aspect_ratio.
Proof. solve_decision. Defined.

(** The events sent: with the aspect ratio, or with the program information. *)
Inductive vbi_event :=
| VBI_EVENT_ASPECT (aspect : vbi_aspect_ratio)
| VBI_EVENT_PROG_INFO (aspect : vbi_aspect_ratio).

(** The fields of [vbi_decoder]: [prog_info[0].aspect], [aspect_source] and the
    state of the 625 line decoder.  Times are numbers in some unit. *)
Record wss_state := WssState {
  prog_aspect : vbi_aspect_ratio;
  aspect_source : Z;
  wss_last : Z * Z;
  wss_rep_ct : Z;
  wss_time : Z
}.

(** The part shared by both decoders: report a change. *)
Definition report_aspect (source : Z) (r : vbi_aspect_ratio) (vbi : wss_state)
    : wss_state * list vbi_event :=
  if decide (r = prog_aspect vbi) then (vbi, [])
  else
    (WssState r source (wss_last vbi) (wss_rep_ct vbi) (wss_time vbi),
     [VBI_EVENT_ASPECT r; VBI_EVENT_PROG_INFO r]).

(** The lines and the ratio of [buf[0] & 7]. *)
Definition wss_format (code : Z) : Z * Z * Z :=
  if (code =? 0) || (code =? 6) then (23, 310, 4)
  else if code =? 1 then (41, 292, 4)
  else if code =? 2 then (23, 274, 4)
  else if (code =? 3) || (code =? 5) then (59, 273, 4)
  else if code =? 4 then (23, 237, 4)
  else (23, 310, 3).

Definition wss_subtitles (code : Z) : vbi_subt :=
  if code =? 0 then VBI_SUBT_NONE else if code =? 1 then VBI_SUBT_ACTIVE
  else if code =? 2 then VBI_SUBT_MATTE else VBI_SUBT_UNKNOWN.

Definition vbi_decode_wss_625 (buf : Z * Z) (time : Z) (vbi : wss_state)
    : wss_state * list vbi_event :=
  if time <? wss_time vbi then (vbi, [])
  else
    let vbi := WssState (prog_aspect vbi) (aspect_source vbi) (wss_last vbi) (wss_rep_ct vbi) time in
    if negb (buf.1 =? (wss_last vbi).1) || negb (buf.2 =? (wss_last vbi).2) then
      (WssState (prog_aspect vbi) (aspect_source vbi) buf 0 time, [])
    else
      let vbi := WssState (prog_aspect vbi) (aspect_source vbi) (wss_last vbi)
                   (wss_rep_ct vbi + 1) time in
      if wss_rep_ct vbi <? 3 then (vbi, [])
      else
        let parity := buf.1 .& 15 in
        let parity := parity .^ (parity ≫ 2) in
        let parity := parity .^ (parity ≫ 1) in
        if parity .& 1 =? 0 then (vbi, [])
        else
          let '(first, last, ratio) := wss_format (buf.1 .& 7) in
          report_aspect 1 (Aspect first last ratio (negb (buf.1 .& 0x10 =? 0))
            (wss_subtitles ((buf.2 ≫ 1) .& 3))) vbi.

Definition vbi_decode_wss_cpr1204 (buf : Z * Z * Z) (vbi : wss_state)
    : wss_state * list vbi_event :=
  let b0 := buf.1.1 .& 0x80 in
  let b1 := buf.1.1 .& 0x40 in
  let '(first, last) := if negb (b1 =? 0) then (72, 212) else (22, 262) in
  report_aspect 2 (Aspect first last (if negb (b0 =? 0) then 3 else 4) false VBI_SUBT_UNKNOWN) vbi.

(** ** Four equal transmissions *)

(** Decoding of a sequence of words with their times. *)
Fixpoint wss_run (l : list (Z * Z * Z)) (vbi : wss_state) : wss_state * list vbi_event :=
  match l with
  | [] => (vbi, [])
  | (buf, time) :: l =>
      let '(vbi, e1) := vbi_decode_wss_625 buf time vbi in
      let '(vbi, e2) := wss_run l vbi in
      (vbi, e1 ++ e2)
  end.

(** The aspect ratio a word stands for, [None] when the parity bit of its first
    group is wrong. *)
Definition wss_aspect (buf : Z * Z) : option vbi_aspect_ratio :=
  if Z.odd (ones 4 buf.1) then
    let '(first, last, ratio) := wss_format (buf.1 mod 8) in
    Some (Aspect first last ratio (Z.testbit buf.1 4) (wss_subtitles (buf.2 / 2 mod 4)))
  else None.

Lemma wss_parity b :
  ((b .& 15) .^ ((b .& 15) ≫ 2) .^ (((b .& 15) .^ ((b .& 15) ≫ 2)) ≫ 1)) .& 1 =? 0
  = negb (Z.odd (ones 4 b)).
Proof.
  rewrite (land_ones_mod b 4 15) by done. rewrite <-(ones_mod 4 b).
  change (2 ^ Z.of_nat 4) with 16. change (2 ^ 4) with 16.
  generalize (b mod 16), (Z.mod_pos_bound b 16 eq_refl). intros c Hc.
  apply eqb_prop. revert c Hc. apply (forallb_seqZ 16 (λ c, eqb (((c .^ (c ≫ 2)) .^
    ((c .^ (c ≫ 2)) ≫ 1)) .& 1 =? 0) (negb (Z.odd (ones 4 c))))). vm_compute. reflexivity.
Qed.

(** The fields of the state a word cannot reset. *)
Definition wss_seen (buf : Z * Z) (ct time : Z) (vbi : wss_state) : wss_state :=
  WssState (prog_aspect vbi) (aspect_source vbi) buf ct time.

Lemma wss_repeat buf time vbi :
  wss_time vbi ≤ time → wss_last vbi = buf → 
  vbi_decode_wss_625 buf time vbi
  = match (if wss_rep_ct vbi + 1 <? 3 then None else wss_aspect buf) with
    | None => (wss_seen buf (wss_rep_ct vbi + 1) time vbi, [])
    | Some r => report_aspect 1 r (wss_seen buf (wss_rep_ct vbi + 1) time vbi)
    end.
Proof.
  intros Ht Hl. unfold vbi_decode_wss_625. rewrite (proj2 (Z.ltb_ge _ _)) by done.
  cbn [wss_last wss_rep_ct prog_aspect aspect_source wss_time]. rewrite Hl, !Z.eqb_refl.
  cbn [negb orb]. destruct (_ <? 3); [done|]. cbv zeta. rewrite wss_parity. unfold wss_aspect.
  destruct (Z.odd (ones 4 buf.1)); cbn [negb]; [|done].
  rewrite (land_ones_mod buf.1 3 7), (land_ones_mod _ 2 3), Z.shiftr_div_pow2 by done.
  change 0x10 with (2 ^ 4). rewrite land_pow2_eqb, negb_involutive by done.
  change (2 ^ 3) with 8. change (2 ^ 1) with 2. change (2 ^ 2) with 4.
  by destruct (wss_format _) as [[f l] r].
Qed.

Lemma wss_new buf time vbi :
  wss_time vbi ≤ time → wss_last vbi ≠ buf →
  vbi_decode_wss_625 buf time vbi = (wss_seen buf 0 time vbi, []).
Proof.
  intros Ht Hl. unfold vbi_decode_wss_625. rewrite (proj2 (Z.ltb_ge _ _)) by done.
  cbn [wss_last]. destruct buf as [b0 b1], (wss_last vbi) as [l0 l1]. cbn [fst snd].
  destruct (Z.eqb_spec b0 l0), (Z.eqb_spec b1 l1); cbn [negb orb]; try done. congruence.
Qed.

(** C35: a new word of wide screen signalling takes effect with its fourth
    reception in a row, not earlier: then, if the parity of its first group is
    right, the programme's aspect ratio becomes the one the word encodes, and an
    aspect event and a programme information event are sent if and only if that
    is a change; words that are out of date are ignored. *)
Theorem wss_625_correct (buf : Z * Z) (t0 t1 t2 t3 t4 : Z) (vbi : wss_state) :
  wss_last vbi ≠ buf → wss_time vbi ≤ t1 ≤ t2 → t2 ≤ t3 ≤ t4 → t0 < t3 →
  let '(vbi3, e3) := wss_run [(buf, t1); (buf, t2); (buf, t3)] vbi in
  let '(vbi4, e4) := vbi_decode_wss_625 buf t4 vbi3 in
  e3 = [] ∧ prog_aspect vbi3 = prog_aspect vbi ∧
  (∀ other, vbi_decode_wss_625 other t0 vbi3 = (vbi3, [])) ∧
  match wss_aspect buf with
  | None => prog_aspect vbi4 = prog_aspect vbi ∧ e4 = []
  | Some r => prog_aspect vbi4 = r ∧
              (r = prog_aspect vbi → e4 = []) ∧
              (r ≠ prog_aspect vbi → aspect_source vbi4 = 1 ∧
                                     e4 = [VBI_EVENT_ASPECT r; VBI_EVENT_PROG_INFO r])
  end.
Proof.
  intros Hnew [H1 H2] [H3 H4] H0. cbn [wss_run]. rewrite wss_new by done.
  rewrite wss_repeat by done. cbn [wss_rep_ct wss_seen].
  change (0 + 1 <? 3) with true. cbn match. rewrite wss_repeat by done.
  cbn [wss_rep_ct wss_seen]. change (0 + 1 + 1 <? 3) with true. cbn match.
  rewrite wss_repeat by done. cbn [wss_rep_ct wss_seen]. change (0 + 1 + 1 + 1 <? 3) with false.
  cbn match. destruct (wss_aspect buf) as [r|] eqn:E.
  - unfold report_aspect. cbn [prog_aspect wss_seen]. case_decide as Hr.
    + cbn [prog_aspect wss_seen]. split_and!; try done.
      intros other. unfold vbi_decode_wss_625. by rewrite (proj2 (Z.ltb_lt _ _)) by done.
    + cbn [prog_aspect aspect_source wss_seen]. split_and!; try done.
      intros other. unfold vbi_decode_wss_625. by rewrite (proj2 (Z.ltb_lt _ _)) by done.
  - split_and!; try done.
    intros other. unfold vbi_decode_wss_625. by rewrite (proj2 (Z.ltb_lt _ _)) by done.
Qed.

Definition wss_initial : wss_state := WssState (Aspect 0 0 0 false VBI_SUBT_NONE) 0 (0, 0) 0 0.

(** 16:9 anamorphic film with subtitles in the active picture. *)
Lemma wss_625_correct_witness :
  let '(vbi3, e3) := wss_run [((0x17, 2), 1); ((0x17, 2), 2); ((0x17, 2), 3)] wss_initial in
  (vbi_decode_wss_625 (0x17, 2) 4 vbi3).2
  = [VBI_EVENT_ASPECT (Aspect 23 310 3 true VBI_SUBT_ACTIVE);
     VBI_EVENT_PROG_INFO (Aspect 23 310 3 true VBI_SUBT_ACTIVE)].
Proof.
  refine (proj2 (proj2 (proj2 (proj2 (proj2 (proj2
    (wss_625_correct (0x17, 2) 0 1 2 3 4 wss_initial _ _ _ _))))) _));
    [discriminate|cbn; lia|lia|lia|discriminate].
Defined.
