(* ===== verification/Sliced.v ===== *)
(** Sliced VBI data: [vbi_sliced] of [src/src/sliced.h], the elements of the
    arrays the demultiplexers and filters work on. *)
From S2P Require Import Prelude.

Record vbi_sliced := Sliced { id : Z; line : Z; data : list Z }.

Definition VBI_SLICED_TELETEXT_B_L10_625 : Z := 0x00000001.
Definition VBI_SLICED_TELETEXT_B_L25_625 : Z := 0x00000002.
Definition VBI_SLICED_TELETEXT_B_625 : Z :=
  VBI_SLICED_TELETEXT_B_L10_625 .| VBI_SLICED_TELETEXT_B_L25_625.
Definition VBI_SLICED_VPS : Z := 0x00000004.
Definition VBI_SLICED_VPS_F2 : Z := 0x00001000.
Definition VBI_SLICED_CAPTION_625_F1 : Z := 0x00000008.
Definition VBI_SLICED_CAPTION_625_F2 : Z := 0x00000010.
Definition VBI_SLICED_CAPTION_625 : Z := VBI_SLICED_CAPTION_625_F1 .| VBI_SLICED_CAPTION_625_F2.
Definition VBI_SLICED_WSS_625 : Z := 0x00000400.
Definition VBI_SLICED_WSS_CPR1204 : Z := 0x00000800.
Definition VBI_SLICED_CAPTION_525_F1 : Z := 0x00000020.
Definition VBI_SLICED_CAPTION_525_F2 : Z := 0x00000040.
Definition VBI_SLICED_CAPTION_525 : Z := VBI_SLICED_CAPTION_525_F1 .| VBI_SLICED_CAPTION_525_F2.

(** The payload array has 56 bytes. *)
Definition sliced_ok (s : vbi_sliced) : Prop := length (data s) = 56%nat ∧ bytes (data s).
