(* ===== verification/Idl.v ===== *)
(** Teletext Independent Data Line packets, format A: the demultiplexer of
    [src/src/idl_demux.c]. *)
From S2P Require Import Prelude Gf2 Hamm Sliced.

(** ** CRC table *)

(** The loop for j = 0 to 7. *)
Fixpoint crc16_loop (n : nat) (poly crc val : Z) : Z :=
  match n with
  | O => crc
  | S n => crc16_loop n poly ((crc ≫ 1) .^ (poly .& ((1 .& Z.lnot (val .^ crc)) - 1))) (val ≫ 1)
  end.
Definition init_crc16_table (poly : Z) : list Z :=
  map (λ i, u16 (crc16_loop 8 poly 0 i)) (seqZ 0 256).

(** ** Demultiplexer *)

Definition FT_HAVE_RI : Z := 1 ≪ 1.
Definition FT_HAVE_CI : Z := 1 ≪ 2.
Definition FT_HAVE_DL : Z := 1 ≪ 3.
Definition RI_PACKET_REPEATS : Z := 1 ≪ 7.
Definition VBI_IDL_DATA_LOST : Z := 1 ≪ 0.
Definition VBI_IDL_DEPENDENT : Z := 1 ≪ 3.

Inductive idl_format := FORMAT_A | FORMAT_B | FORMAT_DATAVIDEO | FORMAT_AUDETEL | FORMAT_LBRA.

Record vbi_idl_demux := IdlDemux {
  format : idl_format; channel : Z; address : Z; ci : Z; ri : Z; flags : Z
}.
Definition set_ci (c : Z) (dx : vbi_idl_demux) : vbi_idl_demux :=
  IdlDemux (format dx) (channel dx) (address dx) c (ri dx) (flags dx).
Definition set_ri (r : Z) (dx : vbi_idl_demux) : vbi_idl_demux :=
  IdlDemux (format dx) (channel dx) (address dx) (ci dx) r (flags dx).
Definition set_flags (f : Z) (dx : vbi_idl_demux) : vbi_idl_demux :=
  IdlDemux (format dx) (channel dx) (address dx) (ci dx) (ri dx) f.

(** [dx->ci = -1; dx->ri = -1; dx->flags |= VBI_IDL_DATA_LOST;] *)
Definition data_lost (dx : vbi_idl_demux) : vbi_idl_demux :=
  set_flags (flags dx .| VBI_IDL_DATA_LOST) (set_ri (-1) (set_ci (-1) dx)).

(** The repeat indicator of a correct packet: the new state and whether to
    discard the packet as a repetition. *)
Definition check_repeat (r : Z) (dx : vbi_idl_demux) : vbi_idl_demux * bool :=
  if 0 <=? ri dx then
    if negb ((r .^ ri dx) .& 0xF =? 0) then (* Repeat packet(s) lost. *)
      (data_lost dx, negb (r .& 0xF =? 0))
    else (dx, false)
  else (dx, negb (r .& 0xF =? 0)).

(** The continuity indicator. *)
Definition check_continuity (c : Z) (dx : vbi_idl_demux) : vbi_idl_demux :=
  let dx := if (0 <=? ci dx) && negb ((c .^ ci dx) .& 0xFF =? 0)
            then (* Packet(s) lost. *) set_flags (flags dx .| VBI_IDL_DATA_LOST) dx else dx in
  set_ci (c + 1) dx.

(** The loop over the address nibbles. *)
Fixpoint spa_loop (n : nat) (i spa : Z) (buffer : list Z) : option Z :=
  match n with
  | O => Some spa
  | S n =>
      c ← rd buffer (4 + i);
      spa_loop n (i + 1) (spa .| (vbi_unham8 c ≪ (4 * i))) buffer
  end.

(** The loop for j up to 41. *)
Fixpoint crc_loop (table : list Z) (n : nat) (j crc : Z) (buffer : list Z) : option Z :=
  match n with
  | O => Some crc
  | S n =>
      c ← rd buffer j;
      t ← rd table ((crc .& 0xFF) .^ c);
      crc_loop table n (j + 1) ((crc ≫ 8) .^ t) buffer
  end.

(** The loop over the data bytes.  Only the counts [hist[0x00]] and [hist[0xFF]]
    matter: the others start undefined and are never read.  [buf] are the
    bytes stored so far, in an array of 40. *)
Fixpoint data_loop (n : nat) (i h00 hFF : Z) (buf : list Z) (buffer : list Z)
    : option (list Z) :=
  match n with
  | O => Some buf
  | S n =>
      t ← rd buffer (4 + i);
      let h00 := if t =? 0x00 then u8 (h00 + 1) else h00 in
      let hFF := if t =? 0xFF then u8 (hFF + 1) else hFF in
      if negb ((h00 .| hFF) .& 8 =? 0) then data_loop n (i + 1) 0 0 buf buffer
      else if decide (Z.of_nat (length buf) < 40)
      then data_loop n (i + 1) h00 hFF (buf ++ [t]) buffer
      else None
  end.

Section demux.
(** The callback of the client works on its own state: it gets the data and the
    flags and returns its result. *)
Context {U : Type} (callback : list Z → Z → U → U * bool).
(** [idl_a_crc_table] *)
Context (table : list Z).

(** The result is [None] for an access out of bounds, else the state of the
    demultiplexer, of the client, and the returned value. *)
Definition result : Type := option (vbi_idl_demux * U * bool).

Definition idl_a_demux_feed (dx : vbi_idl_demux) (buffer : list Z) (ft : Z) (u : U) : result :=
  ial ← vbi_unham8 <$> rd buffer 3;
  if ial <? 0 then Some (dx, u, false)
  else
    let spa_length := ial .& 7 in
    if spa_length =? 7 then Some (dx, u, true) (* reserved *)
    else
      spa ← spa_loop (Z.to_nat spa_length) 0 0 buffer;
      let i := spa_length in
      if spa <? 0 then Some (dx, u, false)
      else if negb (spa =? address dx) then Some (dx, u, true)
      else
        '(r, i) ← (if negb (ft .& FT_HAVE_RI =? 0)
                   then (λ r, (r, i + 1)) <$> rd buffer (4 + i) else Some (0, i));
        crc ← crc_loop table (Z.to_nat (42 - (4 + i))) (4 + i) 0 buffer;
        '(c, crc, i) ← (if negb (ft .& FT_HAVE_CI =? 0)
                        then (λ c, (c, crc, i + 1)) <$> rd buffer (4 + i)
                        else let c := crc .& 0xFF in Some (c, crc .^ (c .| (c ≪ 8)), i));
        if negb (crc =? 0) then
          if r .& RI_PACKET_REPEATS =? 0 then
            (* Packet is corrupt and won't repeat. *)
            Some (data_lost dx, u, false)
          else (* Try again. *) Some (set_ri (r + 1) dx, u, false)
        else
          let '(dx, discard) := check_repeat r dx in
          if discard : bool then Some (dx, u, true)
          else
            let h00 := if c =? 0x00 then 1 else 0 in
            let hFF := if c =? 0xFF then 1 else 0 in
            let dx := check_continuity c dx in
            '(dl, i) ← (if negb (ft .& FT_HAVE_DL =? 0)
                        then (λ d, (Z.min (d .& 0x3F) (36 - (i + 1)), i + 1)) <$> rd buffer (4 + i)
                        else Some (36 - i, i));
            buf ← data_loop (Z.to_nat dl) i h00 hFF [] buffer;
            let dx := set_flags (Z.land (flags dx) (Z.lnot VBI_IDL_DATA_LOST)) dx in
            let '(u, ok) := callback buf (flags dx) u in
            Some (dx, u, ok).

(** The demultiplexers of the other formats are not implemented. *)
Definition idl_b_demux_feed (dx : vbi_idl_demux) (u : U) : result := Some (dx, u, false).
Definition datavideo_demux_feed (dx : vbi_idl_demux) (u : U) : result := Some (dx, u, false).
Definition audetel_demux_feed (dx : vbi_idl_demux) (u : U) : result := Some (dx, u, false).
Definition lbra_demux_feed (dx : vbi_idl_demux) (u : U) : result := Some (dx, u, false).

Definition vbi_idl_demux_feed (dx : vbi_idl_demux) (buffer : list Z) (u : U) : result :=
  chan ← vbi_unham8 <$> rd buffer 0;
  designation ← vbi_unham8 <$> rd buffer 1;
  if chan .| designation <? 0 then Some (dx, u, false)
  else if negb (designation =? 15) || negb (chan =? channel dx) then Some (dx, u, true)
  else
    match format dx with
    | FORMAT_A =>
        ft ← vbi_unham8 <$> rd buffer 2;
        if ft <? 0 then Some (dx, u, false)
        else if ft .& 1 =? 0 then idl_a_demux_feed dx buffer ft u
        else Some (dx, u, true)
    | FORMAT_B =>
        ft ← vbi_unham8 <$> rd buffer 2;
        if ft <? 0 then Some (dx, u, false)
        else if ft .& 3 =? 1 then idl_b_demux_feed dx u
        else Some (dx, u, true)
    | FORMAT_DATAVIDEO => datavideo_demux_feed dx u
    | FORMAT_AUDETEL => audetel_demux_feed dx u
    | FORMAT_LBRA => lbra_demux_feed dx u
    end.

Fixpoint vbi_idl_demux_feed_frame (dx : vbi_idl_demux) (sliced : list vbi_sliced) (u : U)
    : result :=
  match sliced with
  | [] => Some (dx, u, true)
  | s :: sliced =>
      if negb (id s .& VBI_SLICED_TELETEXT_B_625 =? 0) then
        '(dx, u, ok) ← vbi_idl_demux_feed dx (data s) u;
        if negb ok then Some (dx, u, false) else vbi_idl_demux_feed_frame dx sliced u
      else vbi_idl_demux_feed_frame dx sliced u
  end.
End demux.

Definition vbi_idl_demux_reset (dx : vbi_idl_demux) : vbi_idl_demux := set_ri (-1) (set_ci (-1) dx).

(** The new contents of [idl_a_crc_table] and [*dx]; [None] is FALSE.  The flags
    are not initialised. *)
Definition _vbi_idl_demux_init (table : list Z) (dx : vbi_idl_demux) (f : idl_format)
    (chan addr : Z) : option (list Z * vbi_idl_demux) :=
  if 1 ≪ 4 <=? chan then None
  else
    match f with
    | FORMAT_A =>
        if 1 ≪ 24 <=? addr then None
        else
          let table := if tbl table 1 =? 0 then init_crc16_table 0x8940 else table in
          Some (table, vbi_idl_demux_reset (IdlDemux f chan addr (ci dx) (ri dx) (flags dx)))
    | _ => Some (table, vbi_idl_demux_reset (IdlDemux f chan addr (ci dx) (ri dx) (flags dx)))
    end.

(** ** Packets of any content *)

Lemma spa_loop_total n i spa b :
  0 ≤ i → 4 + i + Z.of_nat n ≤ Z.of_nat (length b) → ∃ r, spa_loop n i spa b = Some r.
Proof.
  revert i spa. induction n as [|n IH]; intros i spa Hi Hn; cbn [spa_loop]; [by eexists|].
  destruct (rd_is_Some b (4 + i)) as (c & -> & _); [lia|]. cbn. apply IH; lia.
Qed.

Lemma crc_loop_total t n j crc b :
  length t = 256%nat → bytes b → 0 ≤ j → j + Z.of_nat n ≤ Z.of_nat (length b) →
  ∃ r, crc_loop t n j crc b = Some r.
Proof.
  intros Ht Hb. revert j crc. induction n as [|n IH]; intros j crc Hj Hn; cbn [crc_loop];
    [by eexists|].
  destruct (rd_byte b j Hb) as (c & -> & Hc); [lia|]. cbn.
  assert (0 ≤ (crc .& 0xFF) .^ c < 2 ^ 8) by (apply lxor_bound; [done|by apply land_range|done]).
  destruct (rd_is_Some t ((crc .& 0xFF) .^ c)) as (v & -> & _); [lia|]. cbn. apply IH; lia.
Qed.

Lemma data_loop_total n i h00 hFF buf b :
  bytes b → bytes buf → 0 ≤ i → 4 + i + Z.of_nat n ≤ Z.of_nat (length b) →
  (length buf + n ≤ 40)%nat →
  ∃ r, data_loop n i h00 hFF buf b = Some r ∧ (length r ≤ length buf + n)%nat ∧ bytes r.
Proof.
  intros Hb. revert i h00 hFF buf. induction n as [|n IH]; intros i h00 hFF buf Hbuf Hi Hn H40;
    cbn [data_loop]; [eexists; split; [done|]; split; [lia|done]|].
  destruct (rd_byte b (4 + i) Hb) as (c & -> & Hc); [lia|]. cbn. cbv zeta.
  destruct (negb _).
  - destruct (IH (i + 1) 0 0 buf) as (r & -> & Hl & Hr); [done|lia..|].
    exists r. split; [done|]. split; [lia|done].
  - rewrite decide_True by lia.
    edestruct (IH (i + 1) (if c =? 0 then u8 (h00 + 1) else h00)
      (if c =? 255 then u8 (hFF + 1) else hFF) (buf ++ [c])) as (r & -> & Hl & Hr);
      rewrite ?length_app; cbn [length]; [|lia..|].
    { apply Forall_app; split; [done|by apply Forall_singleton]. }
    exists r. split; [done|]. rewrite length_app in Hl. cbn in Hl. split; [lia|done].
Qed.

(** What stays constant in a context, and the ranges of the indicators. *)
Definition idl_ok (dx : vbi_idl_demux) : Prop := -1 ≤ ci dx ≤ 256 ∧ -1 ≤ ri dx ≤ 256.
Definition idl_next (dx dx' : vbi_idl_demux) : Prop :=
  format dx' = format dx ∧ channel dx' = channel dx ∧ address dx' = address dx ∧
  (idl_ok dx → idl_ok dx').

Section bounds.
Context {U : Type} (callback : list Z → Z → U → U * bool) (table : list Z).
Context (P : U → Prop).
Context (Hcb : ∀ buf f u, (length buf ≤ 36)%nat → bytes buf → P u → P (callback buf f u).1).
Context (Htable : length table = 256%nat).

Definition good (dx : vbi_idl_demux) (r : result (U := U)) : Prop :=
  ∃ dx' u' ok, r = Some (dx', u', ok) ∧ P u' ∧ idl_next dx dx'.

Lemma good_same dx u ok : P u → good dx (Some (dx, u, ok)).
Proof. intros Hu. exists dx, u, ok. by split_and!. Qed.
Hint Resolve good_same : core.

Lemma idl_next_lost dx : idl_next dx (data_lost dx).
Proof. repeat split; cbn; lia. Qed.
Lemma idl_next_flags dx f : idl_next dx (set_flags f dx).
Proof. split_and!; done. Qed.
Lemma idl_next_ri dx r : -1 ≤ r ≤ 256 → idl_next dx (set_ri r dx).
Proof. intros Hr. split_and!; [done..|]. intros [Hc _]. by split. Qed.
Lemma idl_next_ci dx c : -1 ≤ c ≤ 256 → idl_next dx (set_ci c dx).
Proof. intros Hr. split_and!; [done..|]. intros [_ Hc]. by split. Qed.
Lemma idl_next_trans dx dx1 dx2 : idl_next dx dx1 → idl_next dx1 dx2 → idl_next dx dx2.
Proof. unfold idl_next. intros (?&?&?&?) (?&?&?&?). split_and!; try congruence. auto. Qed.

Lemma idl_next_refl dx : idl_next dx dx.
Proof. by split_and!. Qed.
Lemma check_repeat_next r dx : idl_next dx (check_repeat r dx).1.
Proof.
  unfold check_repeat. destruct (0 <=? ri dx); [destruct (negb _)|];
    (apply idl_next_lost || apply idl_next_refl).
Qed.
Lemma check_continuity_next c dx : -1 ≤ c < 256 → idl_next dx (check_continuity c dx).
Proof.
  intros Hc. unfold check_continuity. destruct (_ && _); [|apply idl_next_ci; lia].
  eapply idl_next_trans; [apply idl_next_flags|apply idl_next_ci; lia].
Qed.

Lemma idl_a_feed_good dx b ft u :
  bytes b → 42 ≤ Z.of_nat (length b) → P u → good dx (idl_a_demux_feed callback table dx b ft u).
Proof.
  intros Hb Hl Hu. unfold idl_a_demux_feed.
  destruct (rd_byte b 3 Hb) as (c3 & -> & _); [lia|]. cbn [fmap option_fmap option_map mbind option_bind].
  pose proof (unham8_range c3). destruct (Z.ltb_spec (vbi_unham8 c3) 0); [auto|].
  cbv zeta. assert (0 ≤ vbi_unham8 c3 .& 7 < 8) as Hs
    by (rewrite (land_ones_mod _ 3) by done; by apply Z.mod_pos_bound).
  generalize dependent (vbi_unham8 c3 .& 7). intros n Hn.
  destruct (Z.eqb_spec n 7); [auto|].
  destruct (spa_loop_total (Z.to_nat n) 0 0 b) as (spa & ->); [lia..|]. cbn [mbind option_bind].
  destruct (spa <? 0); [auto|]. destruct (negb (spa =? address dx)); [auto|].
  assert (∃ r i, (if negb (ft .& FT_HAVE_RI =? 0) then (λ r, (r, n + 1)) <$> rd b (4 + n)
    else Some (0, n)) = Some (r, i) ∧ is_byte r ∧ n ≤ i ≤ n + 1) as (r & i & -> & Hr & Hi).
  { destruct (negb _); [|exists 0, n; split_and!; done || lia].
    destruct (rd_byte b (4 + n) Hb) as (r & -> & Hr); [lia|]. exists r, (n + 1).
    split_and!; done || lia. }
  cbn [mbind option_bind].
  destruct (crc_loop_total table (Z.to_nat (42 - (4 + i))) (4 + i) 0 b) as (crc & ->); [done..|lia|lia|].
  cbn [mbind option_bind].
  assert (∃ c crc' i', (if negb (ft .& FT_HAVE_CI =? 0) then (λ c, (c, crc, i + 1)) <$> rd b (4 + i)
    else Some (crc .& 255, crc .^ (crc .& 255 .| (crc .& 255) ≪ 8), i)) = Some (c, crc', i')
    ∧ is_byte c ∧ i ≤ i' ≤ i + 1) as (c & crc' & i' & -> & Hc & Hi').
  { destruct (negb _).
    - destruct (rd_byte b (4 + i) Hb) as (c & -> & Hc); [lia|]. exists c, crc, (i + 1).
      split_and!; done || lia.
    - eexists _, _, i. split_and!; [done| |lia|lia].
      change 255 with (Z.ones 8). rewrite Z.land_ones by done. by apply Z.mod_pos_bound. }
  cbn [mbind option_bind]. unfold is_byte in Hr, Hc.
  destruct (negb (crc' =? 0)).
  { destruct (_ =? 0); (eexists _, _, _; split; [done|]; split; [done|]);
      first [apply idl_next_lost|apply idl_next_ri; lia]. }
  pose proof (check_repeat_next r dx) as H1. destruct (check_repeat r dx) as [dx1 discard].
  cbn [fst] in H1. destruct discard; [eexists _, _, _; by split_and!|].
  pose proof (check_continuity_next c dx1 ltac:(lia)) as H2.  cbv zeta.
  assert (∃ d i2, (if negb (ft .& FT_HAVE_DL =? 0)
     then (λ d, (Z.min (d .& 63) (36 - (i' + 1)), i' + 1)) <$> rd b (4 + i')
     else Some (36 - i', i')) = Some (d, i2) ∧ d ≤ 36 - i2 ∧ 0 ≤ i2 ≤ 36) as (d & i2 & -> & Hd & Hi2).
  { destruct (negb _); [|exists (36 - i'), i'; split_and!; done || lia].
    destruct (rd_byte b (4 + i') Hb) as (d & -> & _); [lia|]. eexists _, (i' + 1).
    split_and!; [done|lia..]. }
  cbn [mbind option_bind].
  destruct (data_loop_total (Z.to_nat d) i2 (if c =? 0 then 1 else 0) (if c =? 255 then 1 else 0) [] b)
    as (buf & -> & Hlen & Hbuf); [done|done|lia|lia|cbn; lia|].
  cbn [mbind option_bind length] in *. set (dx3 := set_flags _ _).
  pose proof (Hcb buf (flags dx3) u ltac:(lia) Hbuf Hu) as HP.
  destruct (callback buf (flags dx3) u) as [u' ok]. eexists _, _, _.
  split; [reflexivity|]. split; [done|].
  eapply idl_next_trans; [exact H1|]. eapply idl_next_trans; [exact H2|apply idl_next_flags].
Qed.

Lemma idl_feed_good dx b u :
  bytes b → 42 ≤ Z.of_nat (length b) → P u → good dx (vbi_idl_demux_feed callback table dx b u).
Proof.
  intros Hb Hl Hu. unfold vbi_idl_demux_feed.
  destruct (rd_byte b 0 Hb) as (c0 & -> & _); [lia|].
  destruct (rd_byte b 1 Hb) as (c1 & -> & _); [lia|].
  destruct (rd_byte b 2 Hb) as (c2 & -> & _); [lia|].
  cbn [fmap option_fmap option_map mbind option_bind].
  destruct (_ <? 0); [auto|]. destruct (_ || _); [auto|].
  destruct (format dx); try (by apply good_same).
  - destruct (_ <? 0); [auto|]. destruct (_ =? 0); [by apply idl_a_feed_good|auto].
  - destruct (_ <? 0); [auto|]. destruct (_ =? 1); [by apply good_same|auto].
Qed.
End bounds.

(** On a frame of sliced lines of any content the demultiplexer never reads
    or writes outside of its arrays, passes at most 36 bytes at a time to the
    client, and keeps its format, channel and address and the ranges of its
    indicators. *)
Theorem idl_feed_frame_safe {U : Type} (callback : list Z → Z → U → U * bool) (table : list Z)
    (P : U → Prop) (dx : vbi_idl_demux) (sliced : list vbi_sliced) (u : U) :
  (∀ buf f u, (length buf ≤ 36)%nat → bytes buf → P u → P (callback buf f u).1) →
  length table = 256%nat → Forall sliced_ok sliced → P u → idl_ok dx →
  ∃ dx' u' ok, vbi_idl_demux_feed_frame callback table dx sliced u = Some (dx', u', ok) ∧
    P u' ∧ idl_ok dx' ∧
    format dx' = format dx ∧ channel dx' = channel dx ∧ address dx' = address dx.
Proof.
  intros Hcb Ht Hs Hu Hok.
  enough (good P dx (vbi_idl_demux_feed_frame callback table dx sliced u))
    as (dx' & u' & ok & E & HP & ?&?&?&?) by (exists dx', u', ok; split_and!; auto).
  clear Hok. revert dx u Hu. induction Hs as [|s sliced [Hlen Hb] Hs IH]; intros dx u Hu;
    cbn [vbi_idl_demux_feed_frame]; [by apply good_same|].
  destruct (negb _); [|by apply IH].
  destruct (idl_feed_good callback table P Hcb Ht dx (data s) u) as (dx1 & u1 & ok & -> & Hu1 & H1);
    [done|lia|done|]. cbn [mbind option_bind].
  destruct ok; cbn [negb]; [|eexists _, _, _; by split_and!].
  destruct (IH dx1 u1 Hu1) as (dx2 & u2 & ok2 & -> & Hu2 & H2). eexists _, _, _.
  split; [done|]. split; [done|]. by eapply idl_next_trans.
Qed.

Lemma idl_feed_frame_safe_witness :
  ∃ dx' u' ok, vbi_idl_demux_feed_frame (λ buf _ u, (u + Z.of_nat (length buf), true))
    (init_crc16_table 0x8940) (IdlDemux FORMAT_A 8 0 (-1) (-1) 0)
    [Sliced 1 7 (repeat 0x15 56); Sliced 3 8 (repeat 0 56)] 0 = Some (dx', u', ok) ∧ 0 ≤ u'.
Proof.
  destruct (idl_feed_frame_safe (λ buf _ u, (u + Z.of_nat (length buf), true))
    (init_crc16_table 0x8940) (λ u, 0 ≤ u) (IdlDemux FORMAT_A 8 0 (-1) (-1) 0)
    [Sliced 1 7 (repeat 0x15 56); Sliced 3 8 (repeat 0 56)] 0) as (dx' & u' & ok & E & Hu & _).
  - cbn. intros. lia.
  - reflexivity.
  - repeat constructor; vm_compute; congruence.
  - lia.
  - unfold idl_ok. cbn. lia.
  - exists dx', u', ok. split; [exact E|exact Hu].
Defined.

(** ** The check word *)

Definition poly : Z := 0x8940.

(** The generator x16 + x9 + x7 + x4 + 1 as a shift register: one bit enters at the
    top for each bit that leaves at the bottom. *)
Definition crc16_bit (s : Z) : Z := (s ≫ 1) .^ (if Z.odd s then poly else 0).
Definition crc16_byte (s c : Z) : Z := Nat.iter 8 crc16_bit (s .^ c).
Definition crc16 (s : Z) (b : list Z) : Z := fold_left crc16_byte b s.

Lemma shiftr_1_range n s : 0 < n → 0 ≤ s < 2 ^ n → 0 ≤ s ≫ 1 < 2 ^ n.
Proof.
  intros Hn Hs. eapply (range_weaken (n - 1)); [|lia].
  apply shiftr_range; [lia|lia|]. by rewrite Z.sub_add.
Qed.

Lemma odd_lxor a b : Z.odd (a .^ b) = xorb (Z.odd a) (Z.odd b).
Proof. by rewrite <-!Z.bit0_odd, Z.lxor_spec. Qed.

Lemma crc16_bit_lxor a b : crc16_bit (a .^ b) = crc16_bit a .^ crc16_bit b.
Proof.
  unfold crc16_bit. rewrite odd_lxor, Z.shiftr_lxor.
  destruct (Z.odd a), (Z.odd b); cbn [xorb]; xor_eq.
Qed.

Lemma iter_crc16_lxor n a b :
  Nat.iter n crc16_bit (a .^ b) = Nat.iter n crc16_bit a .^ Nat.iter n crc16_bit b.
Proof. induction n as [|n IH]; [done|]. by rewrite !Nat.iter_succ, IH, crc16_bit_lxor. Qed.

Lemma iter_crc16_shift n h : Nat.iter n crc16_bit (h ≪ Z.of_nat n) = h.
Proof.
  revert h. induction n as [|n IH]; intros h; [apply Z.shiftl_0_r|].
  rewrite Nat.iter_succ_r. assert (crc16_bit (h ≪ Z.of_nat (S n)) = h ≪ Z.of_nat n) as ->; [|done].
  unfold crc16_bit. rewrite <-Z.bit0_odd, Z.shiftl_spec, Z.testbit_neg_r by lia.
  rewrite Z.lxor_0_r, Z.shiftr_shiftl_r by lia. rewrite Nat2Z.inj_succ.
  replace (1 - Z.succ (Z.of_nat n)) with (- Z.of_nat n) by lia. by rewrite Z.shiftr_opp_r.
Qed.

Lemma split_byte s : s = ((s ≫ 8) ≪ 8) .^ (s .& 0xFF).
Proof.
  rewrite (land_ones_mod s 8 0xFF), Z.lxor_comm by done.
  rewrite <-Z.add_nocarry_lxor by (apply land_small_shiftl; [done|by apply Z.mod_pos_bound]).
  rewrite Z.shiftl_mul_pow2, Z.shiftr_div_pow2 by done.
  pose proof (Z.div_mod s (2 ^ 8)). lia.
Qed.

(** A byte at a time with the values of single bytes. *)
Lemma crc16_byte_split s c :
  crc16_byte s c = (s ≫ 8) .^ Nat.iter 8 crc16_bit ((s .& 0xFF) .^ c).
Proof.
  unfold crc16_byte. rewrite (split_byte s) at 1. rewrite Z.lxor_assoc, iter_crc16_lxor.
  f_equal. apply (iter_crc16_shift 8).
Qed.

Definition crc_table_ok (table : list Z) : Prop :=
  ∀ k, 0 ≤ k < 256 → rd table k = Some (Nat.iter 8 crc16_bit k).

Lemma crc_table_entry : crc_table_ok (init_crc16_table poly).
Proof.
  intros k Hk. assert (forallb (λ k, bool_decide (rd (init_crc16_table poly) k
    = Some (Nat.iter 8 crc16_bit k))) (seqZ 0 256) = true) as H by (vm_compute; reflexivity).
  pose proof (forallb_seqZ _ _ H k Hk) as H2. by apply bool_decide_eq_true in H2.
Qed.

Lemma crc_index s c : is_byte c → 0 ≤ (s .& 0xFF) .^ c < 256.
Proof. intros Hc. apply (lxor_bound 8); [done|by apply land_range|done]. Qed.

Lemma rd_head {A} (b : list A) n x l :
  0 ≤ n → drop (Z.to_nat n) b = x :: l → rd b n = Some x ∧ drop (Z.to_nat (n + 1)) b = l.
Proof.
  intros Hn Hd. unfold rd. rewrite decide_True by done. split.
  - rewrite <-(Nat.add_0_r (Z.to_nat n)), <-lookup_drop, Hd. done.
  - rewrite Z2Nat.inj_add, <-drop_drop, Hd by lia. done.
Qed.

(** The loop of the demultiplexer computes the check word. *)
Lemma crc_loop_crc16 table b l post j crc :
  crc_table_ok table → 0 ≤ j → bytes l → drop (Z.to_nat j) b = l ++ post →
  crc_loop table (length l) j crc b = Some (crc16 crc l).
Proof.
  intros Ht Hj Hl. revert j crc Hj. induction Hl as [|c l Hc Hl IH]; intros j crc Hj Hd;
    cbn [crc_loop length]; [done|].
  destruct (rd_head _ _ _ _ Hj Hd) as [-> Hd2]. cbn [mbind option_bind].
  rewrite Ht by (by apply crc_index). cbn [mbind option_bind].
  change (crc16 crc (c :: l)) with (crc16 (crc16_byte crc c) l).
  rewrite crc16_byte_split. apply IH; [lia|done].
Qed.

Lemma crc16_app s a b : crc16 s (a ++ b) = crc16 (crc16 s a) b.
Proof. apply fold_left_app. Qed.

Lemma crc16_bit_range s : 0 ≤ s < 2 ^ 16 → 0 ≤ crc16_bit s < 2 ^ 16.
Proof.
  intros Hs. apply lxor_bound; [done|by apply shiftr_1_range|]. by destruct (Z.odd s).
Qed.

Lemma crc16_range s b : 0 ≤ s < 2 ^ 16 → bytes b → 0 ≤ crc16 s b < 2 ^ 16.
Proof.
  intros Hs Hb. revert s Hs. induction Hb as [|c b Hc Hb IH]; intros s Hs; [done|].
  cbn [crc16 fold_left]. apply IH. unfold crc16_byte.
  assert (0 ≤ s .^ c < 2 ^ 16) as Hx by (apply lxor_bound; unfold is_byte in Hc; lia).
  revert Hx. generalize (s .^ c). generalize 8%nat. intros n x Hx.
  induction n as [|n IHn]; [done|]. rewrite Nat.iter_succ. apply crc16_bit_range, IHn.
Qed.

(** The check word in the last two bytes, low byte first. *)
Definition crc_word (b : list Z) : list Z := [crc16 0 b .& 0xFF; crc16 0 b ≫ 8].

Lemma crc16_residue b : bytes b → crc16 0 (b ++ crc_word b) = 0.
Proof.
  intros Hb. rewrite crc16_app. pose proof (crc16_range 0 b ltac:(lia) Hb) as Hr.
  unfold crc_word. generalize dependent (crc16 0 b). intros c Hc. cbn [crc16 fold_left].
  rewrite (crc16_byte_split c), Z.lxor_nilpotent. change (Nat.iter 8 crc16_bit 0) with 0.
  rewrite Z.lxor_0_r. unfold crc16_byte. by rewrite Z.lxor_nilpotent.
Qed.

Lemma crc_word_bytes b : bytes b → bytes (crc_word b).
Proof.
  intros Hb. pose proof (crc16_range 0 b ltac:(lia) Hb) as Hr. unfold crc_word.
  repeat constructor; try apply (land_range 8); try done; by apply (shiftr_range 8).
Qed.

(** ** Delivery *)

(** A packet of format A with an explicit continuity indicator: the Hamming coded
    channel, designation, format type, length of the address and address; the
    repeat indicator if the format has it; and the continuity indicator, length
    if the format has it, data and padding that the check word protects. *)
Record idl_packet := IdlPacket {
  tx_channel : Z; tx_ft : Z; tx_ial : Z; tx_spa : list Z; tx_ri : Z; tx_ci : Z; tx_dl : Z;
  tx_data : list Z; tx_pad : list Z
}.

Definition tx_nibbles (p : idl_packet) : list Z :=
  [tx_channel p; 15; tx_ft p; tx_ial p] ++ tx_spa p.
Definition tx_repeat (p : idl_packet) : list Z :=
  if Z.testbit (tx_ft p) 1 then [tx_ri p] else [].
Definition tx_length (p : idl_packet) : list Z :=
  if Z.testbit (tx_ft p) 3 then [tx_dl p] else [].
Definition tx_body (p : idl_packet) : list Z := tx_ci p :: tx_length p ++ tx_data p ++ tx_pad p.

(** The received packet: at most one bit of each Hamming code is wrong. *)
Definition received (p : idl_packet) (b : list Z) : Prop :=
  ∃ codes, Forall2 ham8_near (tx_nibbles p) codes ∧
           b = codes ++ tx_repeat p ++ tx_body p ++ crc_word (tx_body p).

(** The value of the address nibbles, the low one first. *)
Definition spa_value (spa : list Z) : Z := foldr (λ n a, n + 16 * a) 0 spa.

Definition count (c : Z) (l : list Z) : nat := length (filter (λ x, x = c) l).

Lemma count_cons c x l :
  Z.of_nat (count c (x :: l)) = (if x =? c then 1 else 0) + Z.of_nat (count c l).
Proof.
  unfold count. rewrite filter_cons.
  destruct (Z.eqb_spec x c); [rewrite decide_True by done|rewrite decide_False by done]; cbn; lia.
Qed.

Definition packet_ok (p : idl_packet) : Prop :=
  0 ≤ tx_channel p < 16 ∧ 0 ≤ tx_ft p < 16 ∧ 0 ≤ tx_ial p < 16 ∧
  Forall (λ n, 0 ≤ n < 16) (tx_spa p) ∧
  Z.testbit (tx_ft p) 0 = false ∧ Z.testbit (tx_ft p) 2 = true ∧
  tx_ial p mod 8 = Z.of_nat (length (tx_spa p)) ∧ tx_ial p mod 8 < 7 ∧
  is_byte (tx_ri p) ∧ bytes (tx_body p) ∧
  (if Z.testbit (tx_ft p) 3 then tx_dl p mod 64 = Z.of_nat (length (tx_data p))
   else tx_pad p = []) ∧
  (length (tx_nibbles p) + length (tx_repeat p) + length (tx_body p) = 40)%nat ∧
  (* no run of zero or all one bytes long enough for dummy bytes *)
  (count 0x00 (tx_ci p :: tx_data p) < 8)%nat ∧ (count 0xFF (tx_ci p :: tx_data p) < 8)%nat.

Lemma spa_loop_value l codes post b i acc :
  Forall2 ham8_near l codes → Forall (λ n, 0 ≤ n < 16) l → 0 ≤ i → 0 ≤ acc < 2 ^ (4 * i) →
  drop (Z.to_nat (4 + i)) b = codes ++ post →
  spa_loop (length l) i acc b = Some (acc + spa_value l * 2 ^ (4 * i)).
Proof.
  intros Hn. revert i acc. induction Hn as [|n c l codes Hc Hl IH]; intros i acc Hr Hi Ha Hd;
    cbn [spa_loop length spa_value foldr]; [f_equal; lia|].
  apply Forall_cons_1 in Hr as [Hn Hr].
  destruct (rd_head b (4 + i) _ _ ltac:(lia) Hd) as [-> Hd2]. cbn [mbind option_bind].
  rewrite (unham8_near n c) by done. rewrite Z.shiftl_mul_pow2, lor_add by lia.
  assert (2 ^ (4 * (i + 1)) = 16 * 2 ^ (4 * i)) as E
    by (rewrite Z.mul_add_distr_l, Z.pow_add_r by lia; lia).
  rewrite IH; [f_equal; rewrite E; fold (spa_value l); lia|done|lia|rewrite E; nia|].
  replace (4 + (i + 1)) with (4 + i + 1) by lia. done.
Qed.

Lemma spa_value_nonneg l : Forall (λ n, 0 ≤ n < 16) l → 0 ≤ spa_value l.
Proof. unfold spa_value. induction 1; cbn [foldr]; lia. Qed.

(** Without eight zero or all one bytes no byte is skipped. *)
Lemma data_loop_plain l post b i h00 hFF buf :
  drop (Z.to_nat (4 + i)) b = l ++ post → 0 ≤ i → 0 ≤ h00 → 0 ≤ hFF →
  h00 + Z.of_nat (count 0x00 l) < 8 → hFF + Z.of_nat (count 0xFF l) < 8 →
  (length buf + length l ≤ 40)%nat →
  data_loop (length l) i h00 hFF buf b = Some (buf ++ l).
Proof.
  revert i h00 hFF buf. induction l as [|c l IH]; intros i h00 hFF buf Hd Hi H0 HF C0 CF Hlen;
    cbn [data_loop length]; [by rewrite app_nil_r|].
  destruct (rd_head b (4 + i) _ _ ltac:(lia) Hd) as [-> Hd2]. cbn [mbind option_bind]. cbv zeta.
  set (h00' := if c =? 0 then _ else _). set (hFF' := if c =? 255 then _ else _).
  rewrite count_cons in C0, CF.
  assert (0 ≤ h00' ∧ h00' + Z.of_nat (count 0 l) < 8) as [B0 B0']
    by (unfold h00', u8; destruct (c =? 0); [rewrite Z.mod_small by lia|]; lia).
  assert (0 ≤ hFF' ∧ hFF' + Z.of_nat (count 255 l) < 8) as [BF BF']
    by (unfold hFF', u8; destruct (c =? 255); [rewrite Z.mod_small by lia|]; lia).
  clearbody h00' hFF'.
  assert (negb ((h00' .| hFF') .& 8 =? 0) = false) as ->.
  { change 8 with (2 ^ 3). rewrite land_pow2_eqb, negb_involutive, Z.lor_spec by done.
    by rewrite (testbit_small h00' 3), (testbit_small hFF' 3) by lia. }
  cbn [length] in Hlen. rewrite decide_True by lia.
  rewrite IH; [by rewrite <-app_assoc| |lia..|rewrite length_app; cbn; lia].
  replace (4 + (i + 1)) with (4 + i + 1) by lia. done.
Qed.

Lemma drop_app_at {A} (a b l : list A) n : l = a ++ b → n = length a → drop n l = b.
Proof. intros -> ->. apply drop_app_length. Qed.

(** The first transmission of a packet is not a repetition. *)
Lemma check_repeat_first r dx : r mod 16 = 0 → (check_repeat r dx).2 = false.
Proof.
  intros Hr. unfold check_repeat. rewrite (land_ones_mod r 4 0xF) by done. change (2 ^ 4) with 16.
  rewrite Hr. destruct (0 <=? ri dx); [destruct (negb _)|]; done.
Qed.

Section delivery.
Context {U : Type} (callback : list Z → Z → U → U * bool) (table : list Z).
Context (Ht : crc_table_ok table) (p : idl_packet) (b : list Z).
Context (Hp : packet_ok p) (Hb : received p b).

(** The state that follows the packet. *)
Definition idl_after (dx : vbi_idl_demux) : vbi_idl_demux :=
  let dx := check_continuity (tx_ci p) (check_repeat (if Z.testbit (tx_ft p) 1 then tx_ri p else 0) dx).1 in
  set_flags (flags dx .& Z.lnot VBI_IDL_DATA_LOST) dx.

Lemma ft_flag f k : 0 ≤ k → f = 2 ^ k → negb (tx_ft p .& f =? 0) = Z.testbit (tx_ft p) k.
Proof. intros Hk ->. by rewrite land_pow2_eqb, negb_involutive. Qed.

Lemma idl_a_delivers dx u :
  tx_ri p mod 16 = 0 → address dx = spa_value (tx_spa p) →
  idl_a_demux_feed callback table dx b (tx_ft p) u
  = let '(u, ok) := callback (tx_data p) (flags (idl_after dx)) u in Some (idl_after dx, u, ok).
Proof.
  intros Hri Haddr.
  destruct Hp as (Hch & Hft & Hial & Hspa & F0 & F2 & Hlen & H7 & Hrib & Hbody & Hdl & H40 & C0 & CF).
  destruct Hb as (codes & Hcodes & Eb). unfold tx_nibbles in Hcodes, H40.
  inversion Hcodes as [|? c0 ? ? N0 Hc1]; subst. inversion Hc1 as [|? c1 ? ? N1 Hc2]; subst.
  inversion Hc2 as [|? c2 ? ? N2 Hc3]; subst. inversion Hc3 as [|? c3 ? cs N3 Hcs]; subst.
  clear Hcodes Hc1 Hc2 Hc3. cbn [app] in *.
  set (rest := tx_repeat p ++ tx_body p ++ crc_word (tx_body p)) in *.
  set (b := c0 :: c1 :: c2 :: c3 :: cs ++ rest) in *.
  pose proof (Forall2_length Hcs) as Lcs. cbn [length] in H40.
  remember (Z.of_nat (length (tx_spa p))) as n eqn:En.
  unfold idl_a_demux_feed. change (rd b 3) with (Some c3). cbn [fmap option_fmap option_map mbind option_bind].
  rewrite (unham8_near (tx_ial p) c3) by done. rewrite (proj2 (Z.ltb_ge _ 0)) by lia.
  rewrite (land_ones_mod (tx_ial p) 3 7) by done. change (2 ^ 3) with 8. rewrite Hlen. cbv zeta.
  rewrite (proj2 (Z.eqb_neq n 7)) by lia.
  assert (spa_loop (Z.to_nat n) 0 0 b = Some (spa_value (tx_spa p))) as ->.
  { rewrite En, Nat2Z.id. erewrite spa_loop_value; [|exact Hcs|done|lia|cbn; lia|reflexivity].
    f_equal. cbn. lia. }
  cbn [mbind option_bind]. pose proof (spa_value_nonneg _ Hspa).
  rewrite (proj2 (Z.ltb_ge (spa_value _) 0)), (proj2 (Z.eqb_eq _ (address dx))) by (done || lia).
  cbn [negb].
  (* the repeat indicator *)
  rewrite (ft_flag FT_HAVE_RI 1) by done. unfold tx_repeat in *.
  assert (∃ i, (if Z.testbit (tx_ft p) 1 then (λ r, (r, n + 1)) <$> rd b (4 + n) else Some (0, n))
    = Some (if Z.testbit (tx_ft p) 1 then tx_ri p else 0, i) ∧ 0 ≤ i ∧
    40 - i - 4 = Z.of_nat (length (tx_body p)) ∧
    drop (Z.to_nat (4 + i)) b = tx_body p ++ crc_word (tx_body p)) as (i & -> & Hi & Li & Db).
  { destruct (Z.testbit (tx_ft p) 1).
    - exists (n + 1). assert (drop (Z.to_nat (4 + n)) b = rest) as Dn
        by (apply (drop_app_at (c0 :: c1 :: c2 :: c3 :: cs)); [done|cbn; lia]).
      destruct (rd_head b (4 + n) _ _ ltac:(lia) Dn) as [-> Dn1]. cbn [length] in H40.
      split; [done|]. split; [lia|]. split; [lia|]. by rewrite Z.add_assoc.
    - exists n. cbn [length] in H40. split; [done|]. split; [lia|]. split; [lia|].
      apply (drop_app_at (c0 :: c1 :: c2 :: c3 :: cs)); [done|cbn; lia]. }
  cbn [mbind option_bind].
  (* the check word *)
  assert (Z.to_nat (42 - (4 + i)) = length (tx_body p ++ crc_word (tx_body p))) as ->
    by (rewrite length_app; change (length (crc_word (tx_body p))) with 2%nat; lia).
  rewrite (crc_loop_crc16 table b (tx_body p ++ crc_word (tx_body p)) [] (4 + i) 0 Ht) by
    (rewrite ?app_nil_r; first [done|lia|apply Forall_app; auto using crc_word_bytes]).
  cbn [mbind option_bind]. rewrite crc16_residue by done. rewrite (ft_flag FT_HAVE_CI 2), F2 by done.
  unfold tx_body in Db at 1. cbn [app] in Db.
  destruct (rd_head b (4 + i) _ _ ltac:(lia) Db) as [-> Dc].
  cbn [fmap option_fmap option_map mbind option_bind]. change (negb (0 =? 0)) with false. cbn match.
  (* repetition and continuity *)
  pose proof (check_repeat_first (if Z.testbit (tx_ft p) 1 then tx_ri p else 0) dx
    ltac:(by destruct (Z.testbit (tx_ft p) 1))) as Hrep.
  unfold idl_after. destruct (check_repeat _ dx) as [dx1 discard]. cbn [fst snd] in *. subst discard.
  rewrite (ft_flag FT_HAVE_DL 3) by done. unfold tx_body, tx_length in Li, Dc. cbn [length] in Li.
  rewrite !length_app in Li. rewrite <-!app_assoc in Dc. cbv zeta.
  assert (∃ i2, (if Z.testbit (tx_ft p) 3
      then (λ d, (Z.min (d .& 63) (36 - (i + 1 + 1)), i + 1 + 1)) <$> rd b (4 + (i + 1))
      else Some (36 - (i + 1), i + 1)) = Some (Z.of_nat (length (tx_data p)), i2) ∧ 0 ≤ i2 ∧
      ∃ post, drop (Z.to_nat (4 + i2)) b = tx_data p ++ post) as (i2 & -> & Hi2 & post & Dd).
  { destruct (Z.testbit (tx_ft p) 3); cbn [length app] in Li, Dc.
    - exists (i + 1 + 1). replace (4 + i + 1) with (4 + (i + 1)) in Dc by lia.
      destruct (rd_head b (4 + (i + 1)) _ _ ltac:(lia) Dc) as [-> Dl].
      cbn [fmap option_fmap option_map].
      rewrite (land_ones_mod _ 6 63) by done. change (2 ^ 6) with 64. rewrite Hdl, Z.min_l by lia. split; [done|]. split; [lia|].
      eexists. replace (4 + (i + 1 + 1)) with (4 + (i + 1) + 1) by lia. exact Dl.
    - exists (i + 1). rewrite Hdl in Li. cbn [length] in Li. split; [do 2 f_equal; lia|]. split; [lia|].
      eexists. rewrite Hdl in Dc. replace (4 + (i + 1)) with (4 + i + 1) by lia. exact Dc. }
  cbn [mbind option_bind]. rewrite Nat2Z.id.
  pose proof (count_cons 0 (tx_ci p) (tx_data p)). pose proof (count_cons 255 (tx_ci p) (tx_data p)).
  rewrite (data_loop_plain _ _ _ _ _ _ _ Dd) by
    (cbn [length]; destruct (tx_ci p =? 0), (tx_ci p =? 255); lia).
  cbn [mbind option_bind app]. done.
Qed.

(** C32: the demultiplexer delivers the data of every first transmission of a
    correct format A packet without dummy bytes to the client, exactly and once: a
    packet with an explicit continuity indicator that has, with it, fewer than eight
    bytes 0x00 and fewer than eight bytes 0xFF, with single bit errors in its
    Hamming codes, with or without repeat indicator and length field, in any state
    of the context; and it expects the next continuity indicator.  (Of packets with
    eight such bytes that are not consecutive a byte is lost, see
    [idl_dummy_not_consecutive].) *)
Theorem idl_packet_delivered dx u :
  tx_ri p mod 16 = 0 → format dx = FORMAT_A → channel dx = tx_channel p →
  address dx = spa_value (tx_spa p) →
  ∃ dx' fl, ci dx' = tx_ci p + 1 ∧ format dx' = FORMAT_A ∧ channel dx' = channel dx ∧
    address dx' = address dx ∧
    vbi_idl_demux_feed callback table dx b u
    = Some (dx', (callback (tx_data p) fl u).1, (callback (tx_data p) fl u).2).
Proof.
  intros Hri Hf Hc Ha. exists (idl_after dx), (flags (idl_after dx)).
  assert (∀ dx1, format (check_continuity (tx_ci p) dx1) = format dx1 ∧
    channel (check_continuity (tx_ci p) dx1) = channel dx1 ∧
    address (check_continuity (tx_ci p) dx1) = address dx1 ∧
    ci (check_continuity (tx_ci p) dx1) = tx_ci p + 1) as Hcont
    by (intros dx1; unfold check_continuity; by destruct (_ && _)).
  assert (∀ r, format (check_repeat r dx).1 = format dx ∧ channel (check_repeat r dx).1 = channel dx ∧
    address (check_repeat r dx).1 = address dx) as Hrep
    by (intros r; unfold check_repeat; by destruct (0 <=? ri dx); [destruct (negb _)|]).
  unfold idl_after at 1 2 3 4. cbn [ci format channel address set_flags].
  destruct (Hcont (check_repeat (if Z.testbit (tx_ft p) 1 then tx_ri p else 0) dx).1) as (-> & -> & -> & ->).
  destruct (Hrep (if Z.testbit (tx_ft p) 1 then tx_ri p else 0)) as (-> & -> & ->).
  split; [done|]. split; [done|]. split; [done|]. split; [done|].
  pose proof (idl_a_delivers dx u Hri Ha) as Hd.
  destruct Hp as (Hch & Hft & Hial & Hspa & F0 & _).
  destruct Hb as (codes & Hcodes & Eb). unfold tx_nibbles in Hcodes.
  inversion Hcodes as [|? c0 ? ? N0 Hc1]; subst. inversion Hc1 as [|? c1 ? ? N1 Hc2]; subst.
  inversion Hc2 as [|? c2 ? ? N2 _]; subst. cbn [app] in *.
  unfold vbi_idl_demux_feed.
  match goal with |- context [rd ?l 0] =>
    change (rd l 0) with (Some c0); change (rd l 1) with (Some c1); change (rd l 2) with (Some c2) end.
  cbn [fmap option_fmap option_map mbind option_bind].
  rewrite (unham8_near _ c0 Hch N0), (unham8_near 15 c1 ltac:(lia) N1), (unham8_near _ c2 Hft N2).
  rewrite (proj2 (Z.ltb_ge (_ .| 15) 0)) by (apply Z.lor_nonneg; lia).
  rewrite (proj2 (Z.eqb_eq _ _) (eq_sym Hc)). change (negb (15 =? 15) || negb true) with false.
  rewrite Hf, (proj2 (Z.ltb_ge _ 0)) by lia. cbn match.
  change 1 with (2 ^ 0) at 1. rewrite land_pow2_eqb, F0 by done. cbn [negb]. rewrite Hd.
  by destruct (callback _ _ _).
Qed.
End delivery.

Definition witness_idl : idl_packet :=
  IdlPacket 8 0xC 2 [3; 1] 0 0x41 5 [0x48; 0; 0x6C; 0xFF; 0x21] (repeat 0x55 27).
(** The packet with a bit error in its designation code. *)
Definition witness_idl_received : list Z :=
  [vbi_ham8 8; vbi_ham8 15 .^ 2 ^ 3; vbi_ham8 0xC; vbi_ham8 2; vbi_ham8 3; vbi_ham8 1]
  ++ tx_body witness_idl ++ crc_word (tx_body witness_idl).

Lemma idl_packet_delivered_witness :
  ∃ dx' fl, vbi_idl_demux_feed (λ buf fl u, (u ++ buf, true)) (init_crc16_table poly)
    (IdlDemux FORMAT_A 8 0x13 (-1) (-1) 0) witness_idl_received [1; 2]
  = Some (dx', ([1; 2] ++ [0x48; 0; 0x6C; 0xFF; 0x21]), fl).
Proof.
  destruct (idl_packet_delivered (λ buf fl u, (u ++ buf, true)) (init_crc16_table poly)
    crc_table_entry witness_idl witness_idl_received) with
    (dx := IdlDemux FORMAT_A 8 0x13 (-1) (-1) 0) (u := [1; 2])
    as (dx' & fl & _ & _ & _ & _ & E); [| |reflexivity..|].
  - unfold packet_ok. split_and!; try (vm_compute; congruence || reflexivity);
      try (vm_compute; lia); repeat constructor; vm_compute; congruence.
  - exists [vbi_ham8 8; vbi_ham8 15 .^ 2 ^ 3; vbi_ham8 0xC; vbi_ham8 2; vbi_ham8 3; vbi_ham8 1].
    split; [|reflexivity]. repeat first [apply Forall2_nil; done | apply Forall2_cons];
      first [done|left; reflexivity|right; exists 3; split; [lia|reflexivity]].
  - exists dx', true. exact E.
Defined.

(** The count of zero bytes is not reset by other bytes: of eight zeros that are
    not in a row the last is dropped although no dummy byte was inserted. *)
Lemma idl_dummy_not_consecutive :
  data_loop 16 0 0 0 [] (repeat 0 4 ++ concat (repeat [0; 1] 8))
  = Some (concat (repeat [0; 1] 7) ++ [1]).
Proof. reflexivity. Qed.

(** The client never learns about lost data: after a gap in the continuity
    indicators the flag is set and cleared before the call. *)
Lemma idl_data_lost_not_reported dx c :
  flags (set_flags (flags (check_continuity c dx) .& Z.lnot VBI_IDL_DATA_LOST)
          (check_continuity c dx)) .& VBI_IDL_DATA_LOST = 0.
Proof.
  cbn [flags set_flags]. apply Z.bits_inj'. intros i Hi. rewrite !Z.land_spec, Z.bits_0.
  rewrite Z.lnot_spec by done. by destruct (Z.testbit VBI_IDL_DATA_LOST i), (Z.testbit (flags _) i).
Qed.

(** The table of 256 entries that [init_crc16_table] computes makes the
    byte-wise check of the demultiplexer equal to the shift register of the
    generator x16 + x9 + x7 + x4 + 1, and the check over any bytes followed by
    their check word is zero. *)
Theorem idl_crc_correct (b pre l post : list Z) (crc : Z) :
  b = pre ++ l ++ post → bytes l →
  crc_loop (init_crc16_table 0x8940) (length l) (Z.of_nat (length pre)) crc b = Some (crc16 crc l) ∧
  crc16 0 (l ++ crc_word l) = 0.
Proof.
  intros -> Hl. split; [|by apply crc16_residue].
  apply (crc_loop_crc16 _ _ _ post _ _ crc_table_entry); [lia|done|].
  by rewrite Nat2Z.id, drop_app_length.
Qed.

Lemma idl_crc_correct_witness :
  crc_loop (init_crc16_table 0x8940) 2 1 0 [7; 0x12; 0x34; 9] = Some (crc16 0 [0x12; 0x34]).
Proof.
  refine (proj1 (idl_crc_correct [7; 0x12; 0x34; 9] [7] [0x12; 0x34] [9] 0 eq_refl _)).
  repeat constructor; vm_compute; congruence.
Defined.
