(* ===== verification/Pfc.v ===== *)
(** Teletext Page Function Clear packets: the demultiplexer of
    [src/src/pfc_demux.c]. *)
From S2P Require Import Prelude Gf2 Hamm Sliced.

Definition BLOCK_SEPARATOR : Z := 0x0C.
Definition FILLER_BYTE : Z := 0x03.

(** [vbi_pfc_block] *)
Record vbi_pfc_block := PfcBlock {
  pgno : Z; stream : Z; application_id : Z; block_size : Z; block : list Z
}.

(** [struct _vbi_pfc_demux] *)
Record vbi_pfc_demux := PfcDemux {
  ci : Z; packet : Z; n_packets : Z; bi : Z; left : Z; dblock : vbi_pfc_block
}.

(** [(unsigned int) -1]: a structure header is expected next. *)
Definition NO_APPLICATION : Z := 0xFFFFFFFF.

Definition set_application (app size : Z) (b : vbi_pfc_block) : vbi_pfc_block :=
  PfcBlock (pgno b) (stream b) app size (block b).
Definition set_block (l : list Z) (b : vbi_pfc_block) : vbi_pfc_block :=
  PfcBlock (pgno b) (stream b) (application_id b) (block_size b) l.

Definition vbi_pfc_demux_reset (dx : vbi_pfc_demux) : vbi_pfc_demux :=
  PfcDemux 256 256 0 0 0 (set_application NO_APPLICATION (block_size (dblock dx)) (dblock dx)).

(** The next [left] bytes go to the start of the block. *)
Definition expect (left : Z) (b : vbi_pfc_block) (dx : vbi_pfc_demux) : vbi_pfc_demux :=
  PfcDemux (ci dx) (packet dx) (n_packets dx) 0 left b.

(** [memcpy (dst + at, src + from, n)]; [None] when it leaves an array. *)
Definition memcpy (dst : list Z) (at_ : Z) (src : list Z) (from n : Z) : option (list Z) :=
  if decide (0 ≤ at_ ∧ 0 ≤ from ∧ 0 ≤ n ∧ at_ + n ≤ Z.of_nat (length dst)
             ∧ from + n ≤ Z.of_nat (length src))
  then Some (take (Z.to_nat at_) dst ++ take (Z.to_nat n) (drop (Z.to_nat from) src)
             ++ drop (Z.to_nat (at_ + n)) dst)
  else None.

Section demux.
Context {U : Type} (callback : vbi_pfc_block → U → U * bool).

(** [None] is an access out of bounds (or fuel that ran out, which it does not);
    else the demultiplexer, the client and the returned value. *)
Definition result : Type := option (vbi_pfc_demux * U * bool).

Definition desynced (dx : vbi_pfc_demux) (u : U) : result :=
  Some (vbi_pfc_demux_reset dx, u, false).

(** The structure header in the first four bytes of the block. *)
Definition structure_header (b : list Z) : Z := vbi_unham16p b + vbi_unham16p (drop 2 b) * 256.

(** The loop over filler bytes: [inl] is the byte after them with the column
    behind it, [inr] the end of the packet. *)
Fixpoint skip_filler (n : nat) (col : Z) (buffer : list Z) : option (Z * Z + unit) :=
  match n with
  | O => None
  | S n =>
      bs ← vbi_unham8 <$> rd buffer col;
      let col := col + 1 in
      if bs =? FILLER_BYTE then
        if 42 <=? col then Some (inr tt) else skip_filler n col buffer
      else Some (inl (bs, col))
  end.

(** The result of an iteration of the loop over the columns: [inl] goes on at a
    column, [inr] returns. *)
Definition iteration : Type := Z * vbi_pfc_demux * U + vbi_pfc_demux * U * bool.

(** After the byte [bs] in front of column [col]. *)
Definition found_separator (bs col : Z) (dx : vbi_pfc_demux) (u : U) : option iteration :=
  if negb (bs =? BLOCK_SEPARATOR) then inr <$> desynced dx u
  else
    Some (inl (col, expect 4 (set_application NO_APPLICATION (block_size (dblock dx)) (dblock dx)) dx, u)).

(** The search for the next block. *)
Definition next_block (buffer : list Z) (bp col : Z) (dx : vbi_pfc_demux) (u : U)
    : option iteration :=
  if col <=? 3 then
    if 39 <=? bp then Some (inr (dx, u, true)) (* No new block starts in this packet. *)
    else
      let col := bp + 4 in
      bs ← vbi_unham8 <$> rd buffer (col - 1);
      found_separator bs col dx u
  else
    r ← skip_filler 42 col buffer;
    match r with
    | inr _ => Some (inr (dx, u, true)) (* No more data in this packet. *)
    | inl (bs, col) => found_separator bs col dx u
    end.

Definition decode_step (buffer : list Z) (bp : Z) (col : Z) (dx : vbi_pfc_demux) (u : U)
    : option iteration :=
  if 0 <? left dx then
    let size := Z.min (left dx) (42 - col) in
    b ← memcpy (block (dblock dx)) (bi dx) buffer col size;
    let dx := PfcDemux (ci dx) (packet dx) (n_packets dx) (bi dx + size) (left dx - size)
                (set_block b (dblock dx)) in
    if 0 <? left dx then Some (inr (dx, u, true))
    else
      let col := col + size in
      if s32 (application_id (dblock dx)) <? 0 then
        let sh := structure_header (block (dblock dx)) in
        if sh <? 0 then inr <$> desynced dx u
        else
          Some (inl (col, expect (sh ≫ 5) (set_application (sh .& 0x1F) (sh ≫ 5) (dblock dx)) dx, u))
      else
        let '(u, ok) := callback (dblock dx) u in
        if negb ok then inr <$> desynced dx u else next_block buffer bp col dx u
  else next_block buffer bp col dx u.

Fixpoint decode_loop (fuel : nat) (buffer : list Z) (bp col : Z) (dx : vbi_pfc_demux) (u : U)
    : result :=
  if col <? 42 then
    match fuel with
    | O => None
    | S fuel =>
        r ← decode_step buffer bp col dx u;
        match r with
        | inl (col, dx, u) => decode_loop fuel buffer bp col dx u
        | inr r => Some r
        end
    end
  else Some (dx, u, true).

Definition _vbi_pfc_demux_decode (dx : vbi_pfc_demux) (buffer : list Z) (u : U) : result :=
  c ← rd buffer 2;
  let bp := vbi_unham8 c * 3 in
  if (bp <? 0) || (39 <? bp) then desynced dx u
  else decode_loop 40 buffer bp 3 dx u.

Definition vbi_pfc_demux_feed (dx : vbi_pfc_demux) (buffer : list Z) (u : U) : result :=
  let pmag := vbi_unham16p buffer in
  if pmag <? 0 then desynced dx u
  else
    let pg := pmag .& 7 in
    let pg := if pg =? 0 then 0x800 else pg ≪ 8 in
    let pkt := pmag ≫ 3 in
    let none dx := PfcDemux (ci dx) (packet dx) 0 (bi dx) (left dx) (dblock dx) in
    if pkt =? 0 then
      let pg := pg .| vbi_unham16p (drop 2 buffer) in
      if pg <? 0 then desynced dx u
      else if negb (pg =? pgno (dblock dx)) then Some (none dx, u, true)
      else
        let subno := vbi_unham16p (drop 4 buffer) + vbi_unham16p (drop 6 buffer) * 256 in
        if subno <? 0 then desynced dx u
        else if negb ((subno ≫ 8) .& 15 =? stream (dblock dx)) then Some (none dx, u, true)
        else
          let c := subno .& 15 in
          let dx := if negb (c =? ci dx) then vbi_pfc_demux_reset dx else dx in
          Some (PfcDemux ((c + 1) .& 15) 1 (((subno ≫ 4) .& 7) + ((subno ≫ 9) .& 0x18))
                  (bi dx) (left dx) (dblock dx), u, true)
    else if negb ((pg .^ pgno (dblock dx)) .& 0xF00 =? 0) then Some (dx, u, true)
    else if n_packets dx =? 0 then Some (dx, u, true)
    else if 25 <? pkt then Some (dx, u, true)
    else if negb (pkt =? packet dx) || (n_packets dx <? pkt) then
      Some (vbi_pfc_demux_reset dx, u, true)
    else
      _vbi_pfc_demux_decode
        (PfcDemux (ci dx) (pkt + 1) (n_packets dx) (bi dx) (left dx) (dblock dx)) buffer u.

Fixpoint vbi_pfc_demux_feed_frame (dx : vbi_pfc_demux) (sliced : list vbi_sliced) (u : U)
    : result :=
  match sliced with
  | [] => Some (dx, u, true)
  | s :: sliced =>
      if negb (id s .& VBI_SLICED_TELETEXT_B_625 =? 0) then
        '(dx, u, ok) ← vbi_pfc_demux_feed dx (data s) u;
        if negb ok then Some (dx, u, false) else vbi_pfc_demux_feed_frame dx sliced u
      else vbi_pfc_demux_feed_frame dx sliced u
  end.
End demux.

(** Always TRUE. *)
Definition _vbi_pfc_demux_init (dx : vbi_pfc_demux) (pg st : Z) : vbi_pfc_demux :=
  let dx := vbi_pfc_demux_reset dx in
  PfcDemux (ci dx) (packet dx) (n_packets dx) (bi dx) (left dx)
    (PfcBlock pg st (application_id (dblock dx)) (block_size (dblock dx)) (block (dblock dx))).

(** ** The stream of bytes behind the packets

    A machine that takes one byte at a time: it skips filler bytes between
    blocks, expects a block separator, and collects four bytes of structure header
    and then the data of the block, which it passes to the client. *)
Section machine.
Context {U : Type} (callback : vbi_pfc_block → U → U * bool).

(** The flag tells whether the last byte completed a block. *)
Inductive outcome := Next (dx : vbi_pfc_demux) (u : U) (delivered : bool) | Fail (dx : vbi_pfc_demux) (u : U).

(** A byte enters the block. *)
Definition put (c : Z) (dx : vbi_pfc_demux) : vbi_pfc_demux :=
  PfcDemux (ci dx) (packet dx) (n_packets dx) (bi dx + 1) (left dx - 1)
    (set_block (<[Z.to_nat (bi dx) := c]> (block (dblock dx))) (dblock dx)).

(** The expected bytes are complete. *)
Definition complete (dx : vbi_pfc_demux) (u : U) : outcome :=
  if s32 (application_id (dblock dx)) <? 0 then
    let sh := structure_header (block (dblock dx)) in
    if sh <? 0 then Fail dx u
    else Next (expect (sh ≫ 5) (set_application (sh .& 0x1F) (sh ≫ 5) (dblock dx)) dx) u false
  else
    let '(u, ok) := callback (dblock dx) u in
    if ok then Next dx u true else Fail dx u.

Definition new_block (dx : vbi_pfc_demux) : vbi_pfc_demux :=
  expect 4 (set_application NO_APPLICATION (block_size (dblock dx)) (dblock dx)) dx.

Definition between (c : Z) (dx : vbi_pfc_demux) (u : U) : outcome :=
  if vbi_unham8 c =? FILLER_BYTE then Next dx u false
  else if vbi_unham8 c =? BLOCK_SEPARATOR then Next (new_block dx) u false
  else Fail dx u.

Definition byte_step (c : Z) (dx : vbi_pfc_demux) (u : U) : outcome :=
  if 0 <? left dx then
    let dx := put c dx in if 0 <? left dx then Next dx u false else complete dx u
  else between c dx u.

Fixpoint run_bytes (l : list Z) (o : outcome) : outcome :=
  match l, o with
  | c :: l, Next dx u _ => run_bytes l (byte_step c dx u)
  | _, _ => o
  end.

(** What the decoder makes of it; after a block that ends with the packet it
    looks at one more byte. *)
Definition finish1 (o : outcome) : option (vbi_pfc_demux * U * bool) :=
  match o with
  | Next dx u _ => Some (dx, u, true)
  | Fail dx u => desynced dx u
  end.
Definition finish (buffer : list Z) (o : outcome) : option (vbi_pfc_demux * U * bool) :=
  match o with
  | Next dx u true => c ← rd buffer 42; finish1 (between c dx u)
  | _ => finish1 o
  end.

(** Between packets the block array has room for what is expected. *)
Definition dx_ok (dx : vbi_pfc_demux) : Prop :=
  length (block (dblock dx)) = 2048%nat ∧ 0 ≤ bi dx ∧ 0 ≤ left dx ∧ bi dx + left dx ≤ 2047 ∧
  bytes (block (dblock dx)) ∧
  (0 ≤ s32 (application_id (dblock dx)) → bi dx + left dx = block_size (dblock dx)).

Lemma run_bytes_app l1 l2 o : run_bytes (l1 ++ l2) o = run_bytes l2 (run_bytes l1 o).
Proof.
  revert o. induction l1 as [|c l1 IH]; intros [dx u f|dx u]; cbn; try done; by destruct l2.
Qed.

Lemma run_bytes_fail l dx u : run_bytes l (Fail dx u) = Fail dx u.
Proof. by destruct l. Qed.

(** A run of bytes that all go to the block. *)
Definition put_all (l : list Z) (dx : vbi_pfc_demux) : vbi_pfc_demux := foldl (λ dx c, put c dx) dx l.

Lemma put_all_fields l dx :
  0 ≤ bi dx → 
  put_all l dx = PfcDemux (ci dx) (packet dx) (n_packets dx) (bi dx + Z.of_nat (length l))
    (left dx - Z.of_nat (length l))
    (set_block (block (dblock (put_all l dx))) (dblock dx)).
Proof.
  revert dx. induction l as [|c l IH]; intros dx Hb.
  - destruct dx as [??? b lf [????]]. cbn. f_equal; lia.
  - cbn [put_all foldl]. fold (put_all l (put c dx)). rewrite IH at 1 by (cbn; lia).
    cbn [ci packet n_packets bi left dblock put length set_block pgno stream application_id block_size].
    f_equal; lia.
Qed.

Lemma put_all_block l dx :
  0 ≤ bi dx → bi dx + Z.of_nat (length l) ≤ Z.of_nat (length (block (dblock dx))) →
  block (dblock (put_all l dx))
  = take (Z.to_nat (bi dx)) (block (dblock dx)) ++ l
    ++ drop (Z.to_nat (bi dx + Z.of_nat (length l))) (block (dblock dx)).
Proof.
  revert dx. induction l as [|c l IH]; intros dx Hb Hl; cbn [length] in Hl.
  - cbn. by rewrite Z.add_0_r, take_drop.
  - cbn [put_all foldl]. fold (put_all l (put c dx)).
    rewrite IH by (cbn [bi put dblock set_block block]; rewrite ?length_insert; lia).
    cbn [bi put dblock set_block block].
    assert (Z.to_nat (bi dx) < length (block (dblock dx)))%nat as Hlt by lia.
    replace (Z.to_nat (bi dx + 1)) with (S (Z.to_nat (bi dx))) by lia.
    rewrite (take_S_r _ _ c) by (by apply list_lookup_insert_eq).
    rewrite take_insert_ge by lia. rewrite <-app_assoc. cbn [app].
    rewrite drop_insert_lt by lia. do 4 f_equal. cbn [length]. lia.
Qed.

(** Fewer bytes than expected only fill the block. *)
Lemma run_bytes_partial l dx u f :
  Z.of_nat (length l) < left dx → l ≠ [] →
  run_bytes l (Next dx u f) = Next (put_all l dx) u false.
Proof.
  revert dx f. induction l as [|c l IH]; intros dx f Hl Hne; [done|].
  cbn [run_bytes length] in *. unfold byte_step. rewrite (proj2 (Z.ltb_lt 0 (left dx))) by lia.
  cbv zeta. rewrite (proj2 (Z.ltb_lt 0 (left (put c dx)))) by (cbn; lia).
  destruct l as [|c2 l]; [done|]. by rewrite IH by (cbn in *; done || lia).
Qed.

Lemma run_bytes_full l dx u f :
  Z.of_nat (length l) = left dx → l ≠ [] →
  run_bytes l (Next dx u f) = complete (put_all l dx) u.
Proof.
  intros Hl Hne. destruct (exists_last Hne) as (l' & c & ->).
  rewrite length_app in Hl. cbn [length] in Hl. rewrite run_bytes_app.
  assert (∃ f', run_bytes l' (Next dx u f) = Next (put_all l' dx) u f') as [f' ->].
  { destruct (decide (l' = [])) as [->|Hn]; [by exists f|]. exists false.
    apply run_bytes_partial; [lia|done]. }
  cbn [run_bytes]. unfold byte_step. unfold put_all. rewrite foldl_app. cbn [foldl].
  fold (put_all l' dx). assert (left (put_all l' dx) = 1) as E.
  { clear -Hl. revert dx Hl. induction l' as [|x l' IH]; intros dx Hl; cbn in *; [lia|].
    apply IH. cbn. lia. }
  rewrite (proj2 (Z.ltb_lt 0 (left (put_all l' dx)))) by lia. cbv zeta.
  rewrite (proj2 (Z.ltb_ge 0 (left (put c (put_all l' dx))))) by (cbn [left put]; lia). done.
Qed.
End machine.

(** The header in a block of bytes. *)
Lemma structure_header_range l : bytes l → structure_header l < 65536.
Proof.
  intros Hl. unfold structure_header.
  pose proof (unham16p_range l (bytes_tbl l 0 Hl) (bytes_tbl l 1 Hl)).
  assert (bytes (drop 2 l)) as Hd by by apply Forall_drop.
  pose proof (unham16p_range (drop 2 l) (bytes_tbl _ 0 Hd) (bytes_tbl _ 1 Hd)). lia.
Qed.

Lemma dx_ok_header dx sh app :
  dx_ok dx → 0 ≤ sh < 65536 → dx_ok (expect (sh ≫ 5) (set_application app (sh ≫ 5) (dblock dx)) dx).
Proof.
  intros (H1 & H2 & H3 & H4 & H5 & _) Hsh. unfold dx_ok.
  cbn [expect bi left dblock set_application block block_size].
  rewrite Z.shiftr_div_pow2 by lia. simpl_const. split_and!; try done; try lia;
    Z.to_euclidean_division_equations; lia.
Qed.

Lemma dx_ok_new_block dx : dx_ok dx → dx_ok (new_block dx).
Proof. intros (H1 & H2 & H3 & H4 & H5 & _). split_and!; cbn; done || lia. Qed.

Section refinement.
Context {U : Type} (callback : vbi_pfc_block → U → U * bool).
Context (b : list Z) (Hb : bytes b) (Hlen : (42 ≤ length b)%nat).

(** The bytes of the packet from a column on. *)
Definition payload (col : Z) : list Z := drop (Z.to_nat col) (take 42 b).

Lemma payload_end col : 42 ≤ col → payload col = [].
Proof. intros. apply drop_ge. rewrite length_take. lia. Qed.

Lemma payload_step col :
  0 ≤ col < 42 → ∃ c, rd b col = Some c ∧ is_byte c ∧ payload col = c :: payload (col + 1).
Proof.
  intros Hc. destruct (rd_byte b col Hb) as (c & Hr & Hby); [lia|]. exists c. split; [done|].
  split; [done|]. unfold payload. rewrite Z2Nat.inj_add, Nat.add_1_r by lia.
  apply drop_S. rewrite lookup_take_lt by lia.
  unfold rd in Hr. by rewrite decide_True in Hr by lia.
Qed.

Lemma payload_split col n :
  0 ≤ col → 0 ≤ n → col + n ≤ 42 →
  payload col = take (Z.to_nat n) (payload col) ++ payload (col + n) ∧
  take (Z.to_nat n) (payload col) = take (Z.to_nat n) (drop (Z.to_nat col) b) ∧
  length (take (Z.to_nat n) (payload col)) = Z.to_nat n.
Proof.
  intros Hc Hn H42. split_and!.
  - unfold payload at 3. rewrite Z2Nat.inj_add, <-drop_drop by lia. by rewrite take_drop.
  - unfold payload. rewrite skipn_firstn_comm, take_take. f_equal. lia.
  - unfold payload. rewrite length_take, length_drop, length_take. lia.
Qed.

(** Copying a chunk of the packet is entering its bytes one by one. *)
Lemma memcpy_put_all dx col n :
  dx_ok dx → 0 ≤ col → 0 ≤ n ≤ left dx → col + n ≤ 42 →
  let chunk := take (Z.to_nat n) (payload col) in
  memcpy (block (dblock dx)) (bi dx) b col n = Some (block (dblock (put_all chunk dx))) ∧
  put_all chunk dx = PfcDemux (ci dx) (packet dx) (n_packets dx) (bi dx + n) (left dx - n)
    (set_block (block (dblock (put_all chunk dx))) (dblock dx)) ∧
  dx_ok (put_all chunk dx).
Proof.
  intros (H1 & H2 & H3 & H4 & H5 & H6) Hc Hn H42 chunk.
  destruct (payload_split col n) as (_ & Echunk & Lchunk); [lia..|]. fold chunk in Echunk, Lchunk.
  assert (Z.of_nat (length chunk) = n) as Ln by lia.
  assert (block (dblock (put_all chunk dx)) = take (Z.to_nat (bi dx)) (block (dblock dx)) ++ chunk
    ++ drop (Z.to_nat (bi dx + n)) (block (dblock dx))) as Eb
    by (rewrite put_all_block by lia; by rewrite Ln).
  assert (put_all chunk dx = PfcDemux (ci dx) (packet dx) (n_packets dx) (bi dx + n) (left dx - n)
    (set_block (block (dblock (put_all chunk dx))) (dblock dx))) as Ef
    by (rewrite put_all_fields at 1 by lia; by rewrite Ln).
  split_and!; [|exact Ef|].
  - unfold memcpy. rewrite decide_True by lia. rewrite Eb, Echunk. done.
  - unfold dx_ok. rewrite Eb. rewrite Ef. cbn [bi left dblock set_block application_id block_size].
    split_and!; try lia.
    + rewrite !length_app, length_take, length_drop. lia.
    + repeat apply Forall_app_2; [by apply Forall_take| |by apply Forall_drop].
      rewrite Echunk. by apply Forall_take, Forall_drop.
Qed.

Definition continue (f : nat) (bp : Z) (r : iteration (U := U)) : option (vbi_pfc_demux * U * bool) :=
  match r with
  | inl (col, dx, u) => decode_loop callback f b bp col dx u
  | inr r => Some r
  end.

Lemma decode_loop_S f bp col dx u :
  col < 42 →
  decode_loop callback (S f) b bp col dx u
  = r ← decode_step callback b bp col dx u; continue f bp r.
Proof. intros Hc. cbn [decode_loop]. by rewrite (proj2 (Z.ltb_lt col 42)). Qed.

Lemma found_run f bp bs col c dx u fl :
  left dx = 0 → bs = vbi_unham8 c → bs ≠ FILLER_BYTE →
  decode_loop callback f b bp col (new_block dx) u
    = finish b (run_bytes callback (payload col) (Next (new_block dx) u false)) →
  (r ← found_separator bs col dx u; continue f bp r)
  = finish b (run_bytes callback (c :: payload col) (Next dx u fl)).
Proof.
  intros Hl Hbs Hf Hk. unfold found_separator. cbn [run_bytes]. unfold byte_step, between.
  rewrite Hl. change (0 <? 0) with false. cbn match. rewrite <-Hbs, (proj2 (Z.eqb_neq _ _) Hf).
  destruct (Z.eqb_spec bs BLOCK_SEPARATOR); cbn [negb].
  - exact Hk.
  - rewrite run_bytes_fail. done.
Qed.

(** The search for a separator skips filler bytes. *)
Lemma skip_run n f bp col dx u fl :
  left dx = 0 → 0 ≤ col < 42 → 42 - col ≤ Z.of_nat n →
  (∀ c2, col < c2 ≤ 42 → decode_loop callback f b bp c2 (new_block dx) u
    = finish b (run_bytes callback (payload c2) (Next (new_block dx) u false))) →
  (r ← skip_filler n col b;
   r ← match r with
       | inr _ => Some (inr (dx, u, true))
       | inl (bs, col) => found_separator bs col dx u
       end;
   continue f bp r)
  = finish b (run_bytes callback (payload col) (Next dx u fl)).
Proof.
  intros Hl. revert col fl. induction n as [|n IH]; intros col fl Hc Hn Hk; [lia|].
  cbn [skip_filler]. destruct (payload_step col Hc) as (c & -> & Hby & Hp).
  cbn [fmap option_fmap option_map mbind option_bind]. rewrite Hp.
  destruct (Z.eqb_spec (vbi_unham8 c) FILLER_BYTE) as [Ef|Ef].
  - cbn [run_bytes]. unfold byte_step, between. rewrite Hl. change (0 <? 0) with false. cbn match.
    rewrite (proj2 (Z.eqb_eq _ _) Ef). destruct (Z.leb_spec 42 (col + 1)).
    + rewrite payload_end by lia. done.
    + apply IH; [lia|lia|]. intros c2 Hc2. apply Hk. lia.
  - cbn [mbind option_bind]. apply found_run; [done|done|done|]. apply Hk. lia.
Qed.

(** A search that starts behind the packet reads one byte more. *)
Lemma skip_end f bp dx u :
  left dx = 0 →
  (r ← skip_filler 42 42 b;
   r ← match r with
       | inr _ => Some (inr (dx, u, true))
       | inl (bs, col) => found_separator bs col dx u
       end;
   continue f bp r)
  = finish b (Next dx u true).
Proof.
  intros Hl. cbn [skip_filler finish]. destruct (rd b 42) as [c|]; [|done].
  cbn [fmap option_fmap option_map mbind option_bind]. unfold between.
  destruct (vbi_unham8 c =? FILLER_BYTE); [done|]. cbn [mbind option_bind].
  unfold found_separator. destruct (vbi_unham8 c =? BLOCK_SEPARATOR); cbn [negb]; [|done].
  cbn [mbind option_bind continue]. by destruct f.
Qed.

(** The loop of the decoder is the machine on the rest of the packet. *)
Lemma decode_loop_run f bp col dx u :
  dx_ok dx → 3 ≤ col ≤ 42 → 0 < left dx ∨ 3 < col → 42 - col ≤ Z.of_nat f →
  decode_loop callback f b bp col dx u = finish b (run_bytes callback (payload col) (Next dx u false)).
Proof.
  revert col dx u. induction f as [|f IH]; intros col dx u Hok Hcol Hstart Hf.
  { assert (col = 42) as -> by lia. rewrite payload_end by lia. done. }
  cbn [decode_loop]. destruct (Z.ltb_spec col 42); [|rewrite payload_end by lia; done].
  unfold decode_step. fold (continue f bp). pose proof Hok as (H1 & H2 & H3 & H4 & H5 & _).
  assert (∀ col dx u, dx_ok dx → left dx = 0 → 3 < col < 42 → 42 - col ≤ Z.of_nat (S f) →
    ∀ fl, (r ← next_block b bp col dx u; continue f bp r)
    = finish b (run_bytes callback (payload col) (Next dx u fl))) as Hnext.
  { intros col' dx' u' Hok' Hl' Hc' Hf' fl. unfold next_block.
    rewrite (proj2 (Z.leb_gt col' 3)) by lia. rewrite <-(skip_run 42 f bp col' dx' u' fl);
      [|done|lia|lia|intros c2 Hc2; apply IH; [by apply dx_ok_new_block|lia|cbn; lia|lia]].
    by destruct (skip_filler 42 col' b) as [[[]|]|]. }
  destruct (Z.ltb_spec 0 (left dx)) as [Hl|Hl]; [|apply Hnext; done || lia].
  set (n := Z.min (left dx) (42 - col)).
  destruct (memcpy_put_all dx col n Hok) as (-> & Ef & Hok1); [lia..|].
  destruct (payload_split col n) as (Esplit & _ & Lchunk); [lia..|].
  set (chunk := take (Z.to_nat n) (payload col)) in *. cbn [mbind option_bind]. rewrite <-Ef.
  set (dx1 := put_all chunk dx) in *. rewrite Esplit, run_bytes_app.
  assert (chunk ≠ []) as Hne by (intros E; rewrite E in Lchunk; cbn in Lchunk; lia).
  assert (left dx1 = left dx - n) as Hl1 by by rewrite Ef.
  destruct (Z.ltb_spec 0 (left dx1)).
  { rewrite payload_end by lia. rewrite run_bytes_partial by (done || lia). done. }
  rewrite run_bytes_full by (done || lia). fold dx1. unfold complete.
  destruct (s32 (application_id (dblock dx1)) <? 0).
  - destruct (Z.ltb_spec (structure_header (block (dblock dx1))) 0).
    + rewrite run_bytes_fail. done.
    + cbn [mbind option_bind continue]. apply IH; [|lia|lia|lia].
      apply dx_ok_header; [done|]. split; [lia|]. apply structure_header_range, Hok1.
  - destruct (callback (dblock dx1) u) as [u' ok]. destruct ok; cbn [negb].
    + destruct (decide (col + n = 42)) as [E|E].
      * rewrite E, payload_end by lia. unfold next_block. rewrite (proj2 (Z.leb_gt 42 3)) by lia.
        cbn [run_bytes]. rewrite <-(skip_end f bp) by lia.
        by destruct (skip_filler 42 42 b) as [[[]|]|].
      * apply Hnext; [done|lia|lia|lia].
    + rewrite run_bytes_fail. done.
Qed.
End refinement.

Lemma decode_refines {U : Type} (callback : vbi_pfc_block → U → U * bool)
    (dx : vbi_pfc_demux) (b : list Z) (u : U) :
  dx_ok dx → bytes b → (42 ≤ length b)%nat →
  let bp := vbi_unham8 b.[2] * 3 in
  let run l := finish b (run_bytes callback l (Next dx u false)) in
  _vbi_pfc_demux_decode callback dx b u
  = if (bp <? 0) || (39 <? bp) then Some (vbi_pfc_demux_reset dx, u, false)
    else if 0 <? left dx then run (payload b 3)
    else if bp =? 39 then Some (dx, u, true)
    else if vbi_unham8 b.[3 + bp] =? FILLER_BYTE then Some (vbi_pfc_demux_reset dx, u, false)
    else run (payload b (3 + bp)).
Proof.
  intros Hok Hb Hlen bp run. unfold _vbi_pfc_demux_decode.
  assert (∀ i, 0 ≤ i < 42 → rd b i = Some b.[i]) as Hrd.
  { intros i Hi. destruct (rd_is_Some b i) as (c & Hr & Hl); [lia|]. rewrite Hr. f_equal.
    unfold tbl. by rewrite (nth_lookup_Some _ _ _ _ Hl). }
  rewrite Hrd by lia. cbn [mbind option_bind]. fold bp. cbv zeta.
  destruct (Z.ltb_spec bp 0); [done|]. destruct (Z.ltb_spec 39 bp); [done|]. cbn [orb].
  destruct (Z.ltb_spec 0 (left dx)) as [Hl|Hl].
  { apply decode_loop_run; done || lia. }
  assert (left dx = 0) as Hl0 by (destruct Hok; lia). change 40%nat with (S 39).
  rewrite decode_loop_S by lia. generalize 39%nat (eq_refl : Z.of_nat 39 = 39). intros f Hf.
  unfold decode_step. rewrite (proj2 (Z.ltb_ge 0 (left dx))) by lia.
  unfold next_block. change (3 <=? 3) with true. cbn match.
  destruct (Z.leb_spec 39 bp).
  { rewrite (proj2 (Z.eqb_eq bp 39)) by lia. done. }
  rewrite (proj2 (Z.eqb_neq bp 39)) by lia. rewrite Z.add_comm.
  replace (4 + bp - 1) with (3 + bp) by lia. rewrite Hrd by lia.
  cbn [fmap option_fmap option_map mbind option_bind].
  destruct (Z.eqb_spec (vbi_unham8 b.[3 + bp]) FILLER_BYTE) as [Ef|Ef].
  { rewrite Ef. done. }
  unfold run. destruct (payload_step b Hb Hlen (3 + bp)) as (c & Hc & _ & ->); [lia|].
  rewrite Hrd in Hc by lia. injection Hc as <-.
  replace (3 + bp + 1) with (4 + bp) by lia.
  apply found_run; [done|done|done|].
  apply decode_loop_run; [done|done|by apply dx_ok_new_block|lia|cbn; lia|lia].
Qed.

(** C8: the decoder, which copies chunks of a packet into the block and looks for
    separators, does to a packet what the byte machine does to its bytes: all 39
    of them when a block is in progress, else those from the block pointer on,
    which must point to a separator; an invalid pointer resets it.  Only when a
    block ends with the packet it goes on to read the byte behind the packet. *)
Theorem pfc_decode_refines {U : Type} (callback : vbi_pfc_block → U → U * bool)
    (dx : vbi_pfc_demux) (b : list Z) (u : U) :
  dx_ok dx → bytes b → (42 ≤ length b)%nat →
  let bp := vbi_unham8 b.[2] * 3 in
  let run l := finish b (run_bytes callback l (Next dx u false)) in
  _vbi_pfc_demux_decode callback dx b u
  = if (bp <? 0) || (39 <? bp) then Some (vbi_pfc_demux_reset dx, u, false)
    else if 0 <? left dx then run (payload b 3)
    else if bp =? 39 then Some (dx, u, true)
    else if vbi_unham8 b.[3 + bp] =? FILLER_BYTE then Some (vbi_pfc_demux_reset dx, u, false)
    else run (payload b (3 + bp)).
Proof. apply decode_refines. Qed.

(** ** Blocks *)

(** A block as it is transmitted: a separator, the structure header and the data,
    with at most one bit error in each Hamming code. *)
Record pfc_tx := PfcTx { tx_separator : Z; tx_header : list Z; tx_application : Z; tx_data : list Z }.

Definition pfc_tx_ok (t : pfc_tx) : Prop :=
  let sh := tx_application t + 32 * Z.of_nat (length (tx_data t)) in
  ham8_near BLOCK_SEPARATOR (tx_separator t) ∧ length (tx_header t) = 4%nat ∧
  0 ≤ tx_application t < 32 ∧ (1 ≤ length (tx_data t) ≤ 2047)%nat ∧
  ham16_near (sh mod 256) (tx_header t) ∧ ham16_near (sh / 256) (drop 2 (tx_header t)).
Definition tx_bytes (t : pfc_tx) : list Z := tx_separator t :: tx_header t ++ tx_data t.

Lemma run_fill {U} (callback : vbi_pfc_block → U → U * bool) fill l dx u f :
  left dx = 0 → Forall (λ c, vbi_unham8 c = FILLER_BYTE) fill →
  ∃ f', run_bytes callback (fill ++ l) (Next dx u f) = run_bytes callback l (Next dx u f').
Proof.
  intros Hl Hf. revert f. induction Hf as [|c fill Hc Hf IH]; intros f; cbn [app run_bytes]; [by exists f|].
  unfold byte_step, between. rewrite Hl, Hc. apply IH.
Qed.

(** The header received into a new block. *)
Lemma run_header {U} (callback : vbi_pfc_block → U → U * bool) t dx u f :
  dx_ok dx → pfc_tx_ok t →
  ∃ blk, length (block blk) = 2048%nat ∧ pgno blk = pgno (dblock dx) ∧
    stream blk = stream (dblock dx) ∧ application_id blk = tx_application t ∧
    block_size blk = Z.of_nat (length (tx_data t)) ∧
    run_bytes callback (tx_header t) (Next (new_block dx) u f)
    = Next (expect (Z.of_nat (length (tx_data t))) blk dx) u false.
Proof.
  intros (H1 & _) (_ & Hh & Happ & Hd & N0 & N1). set (sh := tx_application t + _) in *.
  destruct (tx_header t) as [|h0 [|h1 [|h2 [|h3 [|]]]]]; try done.
  set (dx1 := put_all [h0; h1; h2; h3] (new_block dx)).
  assert (block (dblock dx1) = [h0; h1; h2; h3] ++ drop 4 (block (dblock dx))) as Eb.
  { unfold dx1. rewrite put_all_block; [done|done|cbn [bi new_block expect dblock set_application block]; cbn; lia]. }
  assert (structure_header (block (dblock dx1)) = sh) as Es.
  { rewrite Eb. unfold structure_header. cbn [app skipn].
    rewrite (unham16p_near (sh mod 256)), (unham16p_near (sh / 256)); try done;
      unfold sh; Z.to_euclidean_division_equations; lia. }
  exists (set_application (tx_application t) (Z.of_nat (length (tx_data t))) (dblock dx1)).
  cbn [set_application pgno stream application_id block_size block].
  split; [rewrite Eb, length_app, length_drop, H1; done|]. split_and!; try done.
  rewrite run_bytes_full by done. fold dx1. unfold complete.
  change (s32 (application_id (dblock dx1))) with (-1). change (-1 <? 0) with true. cbv zeta match.
  rewrite Es, (proj2 (Z.ltb_ge sh 0)) by (unfold sh; lia).
  assert (sh ≫ 5 = Z.of_nat (length (tx_data t))) as ->
    by (rewrite Z.shiftr_div_pow2 by done; unfold sh; simpl_const; Z.to_euclidean_division_equations; lia).
  assert (sh .& 0x1F = tx_application t) as ->
    by (rewrite (land_ones_mod _ 5) by done; unfold sh; simpl_const; Z.to_euclidean_division_equations; lia).
  done.
Qed.

(** From the bytes of a transmitted block the machine passes exactly one block
    to the client, with the application, the size and the data that were sent,
    whatever it collected before; filler bytes in front of it do no harm. *)
Theorem pfc_block_delivered {U : Type} (callback : vbi_pfc_block → U → U * bool)
    (dx : vbi_pfc_demux) (u : U) (f : bool) (fill : list Z) (t : pfc_tx) :
  dx_ok dx → left dx = 0 → pfc_tx_ok t → Forall (λ c, vbi_unham8 c = FILLER_BYTE) fill →
  ∃ dx', let blk := dblock dx' in
    pgno blk = pgno (dblock dx) ∧ stream blk = stream (dblock dx) ∧
    application_id blk = tx_application t ∧ block_size blk = Z.of_nat (length (tx_data t)) ∧
    take (length (tx_data t)) (block blk) = tx_data t ∧ left dx' = 0 ∧
    run_bytes callback (fill ++ tx_bytes t) (Next dx u f)
    = if (callback blk u).2 then Next dx' (callback blk u).1 true else Fail dx' (callback blk u).1.
Proof.
  intros Hok Hl Ht Hfill. pose proof Ht as (Hsep & _ & Happ & Hd & _).
  destruct (run_fill callback fill (tx_bytes t) dx u f Hl Hfill) as [f' ->].
  unfold tx_bytes. cbn [run_bytes]. unfold byte_step at 1, between. rewrite Hl.
  change (0 <? 0) with false. cbn match. rewrite (unham8_near BLOCK_SEPARATOR) by done.
  change (BLOCK_SEPARATOR =? FILLER_BYTE) with false. rewrite Z.eqb_refl. cbn match.
  rewrite run_bytes_app.
  destruct (run_header callback t dx u false Hok Ht) as (blk & Lb & Ep & Est & Ea & Esz & ->).
  set (dx2 := expect _ blk dx). exists (put_all (tx_data t) dx2).
  assert (tx_data t ≠ []) as Hne by (intros E; rewrite E in Hd; cbn in Hd; lia).
  rewrite (run_bytes_full callback (tx_data t) dx2 u false) by done.
  pose proof (put_all_fields (tx_data t) dx2 ltac:(done)) as Ef.
  pose proof (put_all_block (tx_data t) dx2 ltac:(done) ltac:(cbn [bi dx2 expect dblock]; lia)) as Eb.
  change (Z.to_nat (bi dx2)) with 0%nat in Eb. cbn [firstn app] in Eb.
  unfold complete. cbv zeta. set (b' := block (dblock (put_all _ _))) in *. clearbody b'.
  rewrite Ef. cbn [dblock set_block pgno stream application_id block_size block left dx2 expect].
  rewrite Ea. rewrite s32_small by lia. rewrite (proj2 (Z.ltb_ge (tx_application t) 0)) by lia.
  split_and!; try done; [by rewrite Eb, take_0, app_nil_l, take_app_length|lia|].
  by destruct (callback _ u) as [u' []].
Qed.

(** ** Packets of any content *)

Section safety.
Context {U : Type} (callback : vbi_pfc_block → U → U * bool) (P : U → Prop).
Context (Hcb : ∀ blk u, length (block blk) = 2048%nat → bytes (block blk) →
  1 ≤ block_size blk ≤ 2047 → P u → P (callback blk u).1).
Context (pg st : Z).

Definition state_ok (dx : vbi_pfc_demux) : Prop :=
  dx_ok dx ∧ pgno (dblock dx) = pg ∧ stream (dblock dx) = st.
Definition good (o : outcome (U := U)) : Prop :=
  match o with Next dx u _ | Fail dx u => state_ok dx ∧ P u end.

Lemma state_ok_reset dx : state_ok dx → state_ok (vbi_pfc_demux_reset dx).
Proof. intros ((H1 & H2 & H3 & H4 & H5 & _) & ? & ?). split_and!; cbn; done || lia. Qed.

Lemma put_ok c dx : is_byte c → 0 < left dx → state_ok dx → state_ok (put c dx).
Proof.
  intros Hc Hl ((H1 & H2 & H3 & H4 & H5 & H6) & ? & ?). split; [|done].
  unfold dx_ok. cbn [put bi left dblock set_block block application_id block_size].
  split_and!; try lia; [by rewrite length_insert|by apply Forall_insert].
Qed.

Lemma complete_ok dx u :
  state_ok dx → left dx = 0 → 0 < bi dx → P u → good (complete callback dx u).
Proof.
  intros Hok Hl Hbi Hu. pose proof Hok as ((H1 & H2 & H3 & H4 & H5 & H6) & Hp & Hs). unfold complete.
  destruct (Z.ltb_spec (s32 (application_id (dblock dx))) 0).
  - destruct (Z.ltb_spec (structure_header (block (dblock dx))) 0); [done|].
    split; [|done]. split; [|done]. apply dx_ok_header; [apply Hok|].
    pose proof (structure_header_range _ H5). lia.
  - pose proof (Hcb (dblock dx) u H1 H5 ltac:(lia) Hu) as HP.
    destruct (callback (dblock dx) u) as [u' []]; done.
Qed.

Lemma byte_step_ok c dx u : is_byte c → state_ok dx → P u → good (byte_step callback c dx u).
Proof.
  intros Hc Hok Hu. unfold byte_step. destruct (Z.ltb_spec 0 (left dx)).
  - pose proof (put_ok c dx Hc ltac:(done) Hok) as Hp. cbv zeta.
    destruct (Z.ltb_spec 0 (left (put c dx))); [done|].
    destruct Hok as ((_ & H2 & _) & _). apply complete_ok; [done| |cbn; lia|done].
    destruct Hp as ((_ & _ & H3 & _) & _). lia.
  - unfold between. destruct (_ =? FILLER_BYTE); [done|]. destruct (_ =? BLOCK_SEPARATOR); [|done].
    split; [|done]. split; [apply dx_ok_new_block, Hok|apply Hok].
Qed.

Lemma run_ok l o : bytes l → good o → good (run_bytes callback l o).
Proof.
  intros Hl. revert o. induction Hl as [|c l Hc Hl IH]; intros [dx u f|dx u] Ho; cbn [run_bytes]; try done.
  destruct Ho. apply IH. by apply byte_step_ok.
Qed.

Definition returns (r : option (vbi_pfc_demux * U * bool)) : Prop :=
  ∃ dx' u' ok, r = Some (dx', u', ok) ∧ state_ok dx' ∧ P u'.

Lemma finish_ok b o : bytes b → (43 ≤ length b)%nat → good o → returns (finish b o).
Proof.
  intros Hb Hl Ho. destruct o as [dx u []|dx u]; destruct Ho as [Hok Hu].
  - cbn [finish]. destruct (rd_byte b 42 Hb) as (c & -> & Hc); [lia|]. cbn [mbind option_bind].
    unfold between. destruct (_ =? FILLER_BYTE); [by eexists _, _, _|].
    destruct (_ =? BLOCK_SEPARATOR); eexists _, _, _; (split; [reflexivity|]); (split; [|done]).
    + split; [apply dx_ok_new_block, Hok|apply Hok].
    + by apply state_ok_reset.
  - by eexists _, _, _.
  - eexists _, _, _. split; [reflexivity|]. split; [by apply state_ok_reset|done].
Qed.

Lemma decode_ok dx b u :
  bytes b → (43 ≤ length b)%nat → state_ok dx → P u → returns (_vbi_pfc_demux_decode callback dx b u).
Proof.
  intros Hb Hl Hok Hu. rewrite decode_refines by (apply Hok || done || lia).
  assert (∀ i, bytes (payload b i)) as Hp by (intros i; by apply Forall_drop, Forall_take).
  repeat case_match; try (by apply finish_ok; [..|apply run_ok]);
    eexists _, _, _; (split; [reflexivity|]); (split; [|done]); by (apply state_ok_reset || idtac).
Qed.

Lemma feed_ok dx b u :
  bytes b → (43 ≤ length b)%nat → state_ok dx → P u → returns (vbi_pfc_demux_feed callback dx b u).
Proof.
  intros Hb Hl Hok Hu. pose proof (state_ok_reset dx Hok) as Hres.
  assert (∀ dx c p n, state_ok dx → state_ok (PfcDemux c p n (bi dx) (left dx) (dblock dx))) as Hset
    by (intros ???? Hs; exact Hs).
  assert (∀ dx ok, state_ok dx → returns (Some (dx, u, ok))) as Hret by (intros; by eexists _, _, _).
  unfold vbi_pfc_demux_feed, desynced. cbv zeta. repeat case_match; auto.
  all: first [by apply decode_ok; auto | apply Hret; apply (Hset dx); done
             | apply Hret; apply (Hset (vbi_pfc_demux_reset dx)); done].
Qed.
End safety.

(** Whatever arrives on sliced lines, the demultiplexer returns, never leaves
    its arrays or the 56 bytes of a line, gives the client only blocks of 1 to
    2047 bytes within the block array, and keeps its page and stream. *)
Theorem pfc_feed_frame_safe {U : Type} (callback : vbi_pfc_block → U → U * bool) (P : U → Prop)
    (dx : vbi_pfc_demux) (sliced : list vbi_sliced) (u : U) :
  (∀ blk u, length (block blk) = 2048%nat → bytes (block blk) →
    1 ≤ block_size blk ≤ 2047 → P u → P (callback blk u).1) →
  dx_ok dx → Forall sliced_ok sliced → P u →
  ∃ dx' u' ok, vbi_pfc_demux_feed_frame callback dx sliced u = Some (dx', u', ok) ∧
    dx_ok dx' ∧ P u' ∧
    pgno (dblock dx') = pgno (dblock dx) ∧ stream (dblock dx') = stream (dblock dx).
Proof.
  intros Hcb Hok Hs Hu.
  enough (returns P (pgno (dblock dx)) (stream (dblock dx))
    (vbi_pfc_demux_feed_frame callback dx sliced u)) as (dx' & u' & ok & E & (?&?&?) & ?)
    by (exists dx', u', ok; split_and!; auto).
  assert (state_ok (pgno (dblock dx)) (stream (dblock dx)) dx) as Hst by done.
  revert Hst. generalize (pgno (dblock dx)) (stream (dblock dx)). intros pg st. clear Hok.
  revert dx u Hu. induction Hs as [|s sliced [Hlen Hb] Hs IH]; intros dx u Hu Hst;
    cbn [vbi_pfc_demux_feed_frame]; [by eexists _, _, _|].
  destruct (negb _); [|by apply IH].
  destruct (feed_ok callback P Hcb pg st dx (data s) u) as (dx1 & u1 & ok & -> & H1 & Hu1);
    [done|lia|done|done|]. cbn [mbind option_bind].
  destruct ok; cbn [negb]; [by apply IH|by eexists _, _, _].
Qed.

(** A context just initialised. *)
Definition pfc_initial : vbi_pfc_demux :=
  _vbi_pfc_demux_init (PfcDemux 0 0 0 0 0 (PfcBlock 0 0 0 0 (repeat 0 2048))) 0x1DF 0.

Lemma pfc_initial_ok : dx_ok pfc_initial.
Proof.
  unfold dx_ok. split_and!; try (vm_compute; congruence).
  change (bytes (repeat 0 2048)). apply List.Forall_forall.
  intros x Hx. apply repeat_spec in Hx. by subst.
Qed.

Lemma pfc_feed_frame_safe_witness :
  ∃ dx' u' ok, vbi_pfc_demux_feed_frame (λ blk u, (u + block_size blk, true)) pfc_initial
    [Sliced 1 7 (repeat 0x15 56); Sliced 3 8 (repeat 0 56)] 0 = Some (dx', u', ok) ∧ 0 ≤ u'.
Proof.
  destruct (pfc_feed_frame_safe (λ blk u, (u + block_size blk, true)) (λ u, 0 ≤ u) pfc_initial
    [Sliced 1 7 (repeat 0x15 56); Sliced 3 8 (repeat 0 56)] 0) as (dx' & u' & ok & E & _ & Hu & _).
  - cbn. intros. lia.
  - apply pfc_initial_ok.
  - repeat constructor; vm_compute; congruence.
  - lia.
  - exists dx', u', ok. split; [exact E|exact Hu].
Defined.

(** A packet in which a block of 34 bytes begins and ends: 2 + 1 bytes of address
    and pointer, separator, header and data. *)
Definition witness_pfc : pfc_tx :=
  PfcTx (vbi_ham8 0xC) [vbi_ham8 4; vbi_ham8 4; vbi_ham8 4; vbi_ham8 0] 4 (map Z.of_nat (seq 0 34)).
Definition witness_pfc_packet : list Z :=
  [vbi_ham8 9; vbi_ham8 0; vbi_ham8 0] ++ tx_bytes witness_pfc.

Lemma pfc_block_delivered_witness :
  ∃ blk dx', run_bytes (λ blk u, (blk :: u, true)) (vbi_ham8 3 :: tx_bytes witness_pfc)
    (Next pfc_initial [] false) = Next dx' [blk] true ∧
    application_id blk = 4 ∧ block_size blk = 34 ∧ take 34 (block blk) = map Z.of_nat (seq 0 34).
Proof.
  destruct (pfc_block_delivered (λ blk u, (blk :: u, true)) pfc_initial [] false [vbi_ham8 3] witness_pfc)
    as (dx' & _ & _ & Ha & Hs & Hd & _ & E).
  - apply pfc_initial_ok.
  - reflexivity.
  - unfold pfc_tx_ok. split_and!; try (vm_compute; congruence || reflexivity);
      try (cbn; lia); try (left; reflexivity); split; left; reflexivity.
  - repeat constructor.
  - exists (dblock dx'), dx'. split_and!; [exact E|exact Ha|exact Hs|exact Hd].
Defined.

Lemma pfc_decode_refines_witness :
  _vbi_pfc_demux_decode (λ blk u, (block_size blk :: u, true)) pfc_initial
    (witness_pfc_packet ++ repeat (vbi_ham8 3) 14) [] =
  finish (witness_pfc_packet ++ repeat (vbi_ham8 3) 14)
    (run_bytes (λ blk u, (block_size blk :: u, true)) (tx_bytes witness_pfc)
       (Next pfc_initial [] false)).
Proof.
  rewrite pfc_decode_refines; [reflexivity|apply pfc_initial_ok| |cbn; lia].
  repeat constructor; vm_compute; congruence.
Defined.

(** On a packet of 42 bytes, the size the function documents, the decoder reads
    byte 42 behind the packet when a block ends with it. *)
Lemma pfc_reads_behind_packet :
  length witness_pfc_packet = 42%nat ∧
  _vbi_pfc_demux_decode (λ blk u, (block_size blk :: u, true)) pfc_initial witness_pfc_packet [] = None.
Proof. by vm_compute. Qed.

(** In a sliced line that byte is not part of the packet either: when it is zero
    the decoder takes it for an error and discards the page. *)
Lemma pfc_desync_after_full_packet :
  ∃ dx', _vbi_pfc_demux_decode (λ blk u, (block_size blk :: u, true)) pfc_initial
    (witness_pfc_packet ++ repeat 0 14) [] = Some (dx', [34], false).
Proof. eexists. vm_compute. reflexivity. Qed.
