(* ===== verification/Xds.v ===== *)
(** Extended Data Service packets on line 284: the demultiplexer of
    [src/src/xds_demux.c], which collects interleaved packets, each in a buffer
    of its own, and an abstract machine it refines. *)
From stdpp Require Import gmap.
From S2P Require Import Prelude Hamm Sliced.

(** [_vbi_xds_subpacket]: [buffer] has 32 bytes, [count] is the number of
    characters received plus two, or zero before the start of a packet. *)
Record _vbi_xds_subpacket := Subpacket { buffer : list Z; count : Z; checksum : Z }.

(** [vbi_xds_packet]: [text] is the array [buffer] of 36 bytes. *)
Record vbi_xds_packet := XdsPacket { xds_class : Z; xds_subclass : Z; buffer_size : Z; text : list Z }.

Definition VBI_XDS_CLASS_MISC : Z := 3.
Definition VBI_XDS_MAX_CLASSES : Z := 7.
Definition VBI_XDS_MAX_SUBCLASSES : Z := 0x18.

(** [struct _vbi_xds_demux]: the rows of the array [subpacket[7][24]] one after
    the other, as [vbi_xds_demux_reset] sees them; [curr_sp] is an index into it. *)
Record vbi_xds_demux := XdsDemux {
  subpacket : list _vbi_xds_subpacket; curr : vbi_xds_packet; curr_sp : option Z
}.

Definition set_count (n : Z) (sp : _vbi_xds_subpacket) : _vbi_xds_subpacket :=
  Subpacket (buffer sp) n (checksum sp).

Definition vbi_xds_demux_reset (xd : vbi_xds_demux) : vbi_xds_demux :=
  XdsDemux (map (set_count 0) (subpacket xd)) (curr xd) None.

(** Always TRUE. *)
Definition _vbi_xds_demux_init (xd : vbi_xds_demux) : vbi_xds_demux := vbi_xds_demux_reset xd.

(** The label [discard] and the code behind it; also what an error does. *)
Definition discard (xd : vbi_xds_demux) (sp : option Z) : option vbi_xds_demux :=
  match sp with
  | None => Some (XdsDemux (subpacket xd) (curr xd) None)
  | Some i =>
      p ← rd (subpacket xd) i;
      l ← wr (subpacket xd) i (Subpacket (buffer p) 0 0);
      Some (XdsDemux l (curr xd) None)
  end.

(** [c1] is 0x01 to 0x0E. [None] is an access out of bounds; [subpacket[c][i]]
    with [i] one past its row is the start of the next row. *)
Definition packet_header (xd : vbi_xds_demux) (c1 c2 : Z) : option vbi_xds_demux :=
  let class := (c1 - 1) ≫ 1 in
  let i := c2 in
  let i := if 0x40 <=? i then u32 (i + (0x10 - 0x40)) else i in
  if (VBI_XDS_CLASS_MISC <? class) || (VBI_XDS_MAX_SUBCLASSES <? i) then discard xd (curr_sp xd)
  else
    let k := class * VBI_XDS_MAX_SUBCLASSES + i in
    p ← rd (subpacket xd) k;
    let cur := XdsPacket class c2 (buffer_size (curr xd)) (text (curr xd)) in
    if negb (c1 .& 1 =? 0) then (* Start packet. *)
      l ← wr (subpacket xd) k (Subpacket (buffer p) 2 (c1 + c2));
      Some (XdsDemux l cur (Some k))
    else (* Continue packet. *)
      let xd := XdsDemux (subpacket xd) cur (Some k) in
      if count p =? 0 then discard xd (Some k) else Some xd.

(** [c1] is 0x20 to 0x7F. *)
Definition packet_contents (xd : vbi_xds_demux) (c1 c2 : Z) : option vbi_xds_demux :=
  match curr_sp xd with
  | None => Some xd
  | Some k =>
      p ← rd (subpacket xd) k;
      if 32 + 2 <=? count p then discard xd (Some k)
      else
        b ← wr (buffer p) (count p - 2) c1;
        b ← wr b (count p - 1) c2;
        l ← wr (subpacket xd) k
              (Subpacket b (u32 (count p + (1 + (if c2 =? 0 then 0 else 1))))
                 (u32 (checksum p + (c1 + c2))));
        Some (XdsDemux l (curr xd) (curr_sp xd))
  end.

Section demux.
Context {U : Type} (callback : vbi_xds_packet → U → U * bool).

(** The demultiplexer, the client and the returned value. *)
Definition result : Type := option (vbi_xds_demux * U * bool).

(** [c1] is 0x0F. *)
Definition packet_terminator (xd : vbi_xds_demux) (c1 c2 : Z) (u : U) : result :=
  match curr_sp xd with
  | None => Some (xd, u, true)
  | Some k =>
      p ← rd (subpacket xd) k;
      let sum := u32 (checksum p + (c1 + c2)) in
      if negb (sum .& 0x7F =? 0) || (count p <=? 2) then
        xd ← discard xd (Some k); Some (xd, u, true)
      else
        let t := take 32 (buffer p) ++ drop 32 (text (curr xd)) in
        t ← wr t (count p - 2) 0;
        let cur := XdsPacket (xds_class (curr xd)) (xds_subclass (curr xd)) (count p - 2) t in
        let '(u, r) := callback cur u in
        xd ← discard (XdsDemux (subpacket xd) cur (Some k)) (Some k);
        Some (xd, u, r)
  end.

Definition vbi_xds_demux_feed (xd : vbi_xds_demux) (b : list Z) (u : U) : result :=
  let c1 := vbi_unpar8 b.[0] in
  let c2 := vbi_unpar8 b.[1] in
  if c1 .| c2 <? 0 then xd ← discard xd (curr_sp xd); Some (xd, u, false)
  else if c1 =? 0 then Some (xd, u, true) (* Stuffing. *)
  else if c1 <=? 0x0E then xd ← packet_header xd c1 c2; Some (xd, u, true)
  else if c1 =? 0x0F then packet_terminator xd c1 c2 u
  else if c1 <=? 0x1F then Some (XdsDemux (subpacket xd) (curr xd) None, u, true) (* Closed Caption. *)
  else xd ← packet_contents xd c1 c2; Some (xd, u, true).

Definition xds_line (s : vbi_sliced) : bool :=
  ((id s =? VBI_SLICED_CAPTION_525) || (id s =? VBI_SLICED_CAPTION_525_F2))
  && ((line s =? 284) || (line s =? 0)).

Fixpoint vbi_xds_demux_feed_frame (xd : vbi_xds_demux) (sliced : list vbi_sliced) (u : U) : result :=
  match sliced with
  | [] => Some (xd, u, true)
  | s :: sliced =>
      if xds_line s then
        '(xd, u, ok) ← vbi_xds_demux_feed xd (data s) u;
        if negb ok then Some (xd, u, false) else vbi_xds_demux_feed_frame xd sliced u
      else vbi_xds_demux_feed_frame xd sliced u
  end.
End demux.

(** ** The abstract machine

    A packet in progress is the sum of its header and the characters received so
    far; one packet at most is open for characters. *)
Record xds_spec := Spec { packets : gmap Z (Z * list Z); current : option Z; label : Z * Z }.

(** The packet a header names: class and subclass, or [None] if unknown. *)
Definition xds_key (c1 c2 : Z) : option Z :=
  let i := if 0x40 <=? c2 then c2 - 0x30 else c2 in
  if (8 <? c1) || (24 <? i) then None else Some ((c1 - 1) / 2 * 24 + i).

Definition drop_packet (k : option Z) (s : xds_spec) : xds_spec :=
  Spec (match k with Some k => delete k (packets s) | None => packets s end) None (label s).

(** Two characters; the new state and the packet delivered. [None]: 31
    characters have been received and at least one more follows. *)
Definition spec_step (s : xds_spec) (c1 c2 : Z) : option (xds_spec * option (Z * Z * list Z)) :=
  if c1 =? 0 then Some (s, None)
  else if c1 <=? 14 then
    Some (match xds_key c1 c2 with
          | None => drop_packet (current s) s
          | Some k =>
              if Z.odd c1 then Spec (<[k := (c1 + c2, [])]> (packets s)) (Some k) ((c1 - 1) / 2, c2)
              else match packets s !! k with
                   | None => Spec (packets s) None ((c1 - 1) / 2, c2)
                   | Some _ => Spec (packets s) (Some k) ((c1 - 1) / 2, c2)
                   end
          end, None)
  else if c1 =? 15 then
    match current s ≫= λ k, packets s !! k with
    | None => Some (s, None)
    | Some (h, cs) =>
        Some (drop_packet (current s) s,
          if ((h + foldr Z.add 0 cs + 15 + c2) mod 128 =? 0) && negb (Nat.eqb (length cs) 0)
          then Some (label s, cs) else None)
    end
  else if c1 <=? 31 then Some (Spec (packets s) None (label s), None)
  else
    match current s with
    | None => Some (s, None)
    | Some k =>
        match packets s !! k with
        | None => Some (s, None)
        | Some (h, cs) =>
            if Nat.leb 32 (length cs) then Some (drop_packet (Some k) s, None)
            else if Nat.eqb (length cs) 31 then None
            else Some (Spec (<[k := (h, cs ++ c1 :: (if c2 =? 0 then [] else [c2]))]> (packets s))
                         (Some k) (label s), None)
        end
    end.

(** Two bytes with parity. *)
Definition spec_feed (s : xds_spec) (b : list Z) : option (xds_spec * option (Z * Z * list Z) * bool) :=
  if odd_ones b.[0] && odd_ones b.[1] then
    (λ r, (r, true)) <$> spec_step s (b.[0] .& 127) (b.[1] .& 127)
  else Some (drop_packet (current s) s, None, false).

(** What the buffer of a packet holds. *)
Definition sub_rel (sp : _vbi_xds_subpacket) (o : option (Z * list Z)) : Prop :=
  length (buffer sp) = 32%nat ∧
  match o with
  | None => count sp = 0
  | Some (h, cs) =>
      count sp = Z.of_nat (length cs) + 2 ∧ (length cs ≤ 32)%nat ∧
      take (length cs) (buffer sp) = cs ∧
      checksum sp mod 128 = (h + foldr Z.add 0 cs) mod 128
  end.

Definition store_rel (l : list _vbi_xds_subpacket) (m : gmap Z (Z * list Z)) : Prop :=
  length l = 168%nat ∧ ∀ i sp, l !! i = Some sp → sub_rel sp (m !! Z.of_nat i).

(** The demultiplexer and the abstract state it represents. *)
Definition xds_rel (xd : vbi_xds_demux) (s : xds_spec) : Prop :=
  store_rel (subpacket xd) (packets s) ∧ curr_sp xd = current s ∧
  (∀ k, current s = Some k → 0 ≤ k < 168 ∧ is_Some (packets s !! k)) ∧
  (xds_class (curr xd), xds_subclass (curr xd)) = label s ∧ length (text (curr xd)) = 36%nat.

(** What the client sees of a delivered packet: its characters, with a 0 behind. *)
Definition carries (p : vbi_xds_packet) (d : Z * Z * list Z) : Prop :=
  (xds_class p, xds_subclass p) = d.1 ∧ buffer_size p = Z.of_nat (length d.2) ∧
  (1 ≤ length d.2 ≤ 32)%nat ∧ length (text p) = 36%nat ∧
  take (S (length d.2)) (text p) = d.2 ++ [0].

(** ** Refinement *)

Lemma store_rd l m k :
  store_rel l m → 0 ≤ k < 168 → ∃ sp, rd l k = Some sp ∧ sub_rel sp (m !! k).
Proof.
  intros [Hl Hm] Hk. destruct (rd_is_Some l k) as (sp & Hsp & Hi); [lia|].
  exists sp. split; [done|]. rewrite <-(Z2Nat.id k) by lia. by apply Hm.
Qed.

Lemma store_wr l m k sp o :
  store_rel l m → 0 ≤ k < 168 → sub_rel sp o →
  ∃ l', wr l k sp = Some l' ∧ store_rel l' (partial_alter (λ _, o) k m).
Proof.
  intros [Hl Hm] Hk Hsp. unfold wr. rewrite decide_True by lia. eexists. split; [reflexivity|].
  split; [by rewrite length_insert|]. intros i sp' Hi.
  destruct (decide (Z.of_nat i = k)) as [<-|Hne].
  - rewrite lookup_partial_alter_eq. rewrite Nat2Z.id, list_lookup_insert_eq in Hi by lia.
    by injection Hi as <-.
  - rewrite lookup_partial_alter_ne by done. apply Hm.
    by rewrite list_lookup_insert_ne in Hi by lia.
Qed.

Lemma sub_rel_discarded b n : length b = 32%nat → n = 0 → sub_rel (Subpacket b n 0) None.
Proof. by intros. Qed.

(** [discard] forgets a packet. *)
Lemma discard_rel xd s k :
  store_rel (subpacket xd) (packets s) →
  (∀ i, k = Some i → 0 ≤ i < 168) →
  (xds_class (curr xd), xds_subclass (curr xd)) = label s → length (text (curr xd)) = 36%nat →
  ∃ xd', discard xd k = Some xd' ∧ xds_rel xd' (drop_packet k s).
Proof.
  intros Hst Hk Hlab Htext. destruct k as [k|]; cbn [discard drop_packet].
  - specialize (Hk k eq_refl).
    destruct (store_rd _ _ k Hst Hk) as (sp & -> & Hsp). cbn [mbind option_bind].
    destruct (store_wr _ _ k (Subpacket (buffer sp) 0 0) None Hst Hk) as (l' & -> & Hl').
    { split; [apply Hsp|done]. }
    eexists. split; [reflexivity|]. split_and!; cbn; done.
  - eexists. split; [reflexivity|]. split_and!; cbn; done.
Qed.

Lemma xds_rel_discard xd s k :
  xds_rel xd s → k = current s → ∃ xd', discard xd k = Some xd' ∧ xds_rel xd' (drop_packet k s).
Proof.
  intros (Hst & Hc & Hk & Hlab & Htext) ->. apply discard_rel; auto.
  intros i Hi. by apply Hk.
Qed.

Lemma header_class c1 : 1 ≤ c1 → (c1 - 1) ≫ 1 = (c1 - 1) / 2.
Proof. intros. by rewrite Z.shiftr_div_pow2 by done. Qed.

Lemma header_key c1 c2 :
  1 ≤ c1 ≤ 14 → 0 ≤ c2 < 128 →
  let i := if 0x40 <=? c2 then u32 (c2 + (0x10 - 0x40)) else c2 in
  xds_key c1 c2 = if (VBI_XDS_CLASS_MISC <? (c1 - 1) ≫ 1) || (VBI_XDS_MAX_SUBCLASSES <? i) then None
    else Some ((c1 - 1) ≫ 1 * VBI_XDS_MAX_SUBCLASSES + i).
Proof.
  intros H1 H2. cbv zeta. unfold xds_key. rewrite header_class by lia.
  change VBI_XDS_CLASS_MISC with 3. change VBI_XDS_MAX_SUBCLASSES with 24.
  replace (if 0x40 <=? c2 then u32 (c2 + (0x10 - 0x40)) else c2)
    with (if 0x40 <=? c2 then c2 - 0x30 else c2).
  2:{ destruct (Z.leb_spec 0x40 c2); [|done]. rewrite u32_small; lia. }
  replace (3 <? (c1 - 1) / 2) with (8 <? c1); [done|].
  pose proof (Z.div_mod (c1 - 1) 2). pose proof (Z.mod_pos_bound (c1 - 1) 2).
  destruct (Z.ltb_spec 3 ((c1 - 1) / 2)), (Z.ltb_spec 8 c1); done || lia.
Qed.

Lemma xds_key_range c1 c2 k : 1 ≤ c1 ≤ 14 → 0 ≤ c2 < 128 → xds_key c1 c2 = Some k → 0 ≤ k < 168.
Proof.
  intros H1 H2. unfold xds_key.
  destruct (Z.ltb_spec 8 c1); [done|]. cbn [orb].
  destruct (Z.ltb_spec 24 (if 0x40 <=? c2 then c2 - 0x30 else c2)); [done|]. intros [= <-].
  pose proof (Z.div_mod (c1 - 1) 2). pose proof (Z.mod_pos_bound (c1 - 1) 2).
  destruct (Z.leb_spec 0x40 c2); lia.
Qed.

Lemma odd_land1 c : negb (c .& 1 =? 0) = Z.odd c.
Proof. change 1 with (2 ^ 0). by rewrite land_pow2_eqb, Z.bit0_odd, negb_involutive. Qed.

Lemma packet_header_rel xd s c1 c2 s' o :
  xds_rel xd s → 1 ≤ c1 ≤ 14 → 0 ≤ c2 < 128 → spec_step s c1 c2 = Some (s', o) →
  o = None ∧ ∃ xd', packet_header xd c1 c2 = Some xd' ∧ xds_rel xd' s'.
Proof.
  intros Hrel H1 H2. unfold spec_step, packet_header.
  destruct (Z.eqb_spec c1 0); [lia|]. destruct (Z.leb_spec c1 14); [|lia].
  pose proof (header_key c1 c2 H1 H2) as Ek. pose proof (xds_key_range c1 c2) as Hr.
  intros [= <- <-]. split; [done|]. cbv zeta in Ek |- *. rewrite Ek in Hr |- *.
  pose proof Hrel as (Hst & Hc & Hk & Hlab & Htext).
  destruct (_ || _); [rewrite <-Hc; by apply xds_rel_discard|].
  specialize (Hr _ H1 H2 eq_refl). rewrite header_class in * by lia.
  remember ((c1 - 1) / 2 * VBI_XDS_MAX_SUBCLASSES + _) as k eqn:Hkk. clear Hkk Ek.
  destruct (store_rd _ _ k Hst Hr) as (p & -> & Hp). cbn [mbind option_bind].
  rewrite odd_land1. destruct (Z.odd c1).
  - destruct (store_wr _ _ k (Subpacket (buffer p) 2 (c1 + c2)) (Some (c1 + c2, [])) Hst Hr)
      as (l' & -> & Hl').
    { split; [apply Hp|]. cbn. split_and!; try done; [lia|by rewrite Z.add_0_r]. }
    cbn [mbind option_bind]. eexists. split; [reflexivity|]. split_and!; cbn; try done.
    intros k' [= <-]. split; [done|]. rewrite lookup_insert_eq. eauto.
  - destruct (packets s !! k) as [[h cs]|] eqn:Ep; destruct Hp as [Hlen Hp].
    + destruct Hp as (Hcount & Hle & ?). destruct (Z.eqb_spec (count p) 0); [lia|].
      eexists. split; [reflexivity|]. split_and!; cbn; try done.
      intros k' [= <-]. split; [done|]. rewrite Ep. eauto.
    + rewrite Hp. destruct (discard_rel
        (XdsDemux (subpacket xd) (XdsPacket ((c1 - 1) / 2) c2 (buffer_size (curr xd)) (text (curr xd))) (Some k))
        (Spec (packets s) None ((c1 - 1) / 2, c2)) (Some k)) as (xd' & E & Hxd'); [done| |done|done|].
      { by intros i [= <-]. }
      exists xd'. split; [exact E|]. unfold drop_packet in Hxd'. cbn in Hxd'.
      by rewrite delete_id in Hxd'.
Qed.

Lemma u32_add_mod x y : u32 (x + y) mod 128 = (x mod 128 + y) mod 128.
Proof.
  unfold u32. rewrite Z.mod_mod_divide by (by exists (2 ^ 25)).
  by rewrite Zplus_mod_idemp_l.
Qed.

Lemma sum_app l l' : foldr Z.add 0 (l ++ l') = foldr Z.add 0 l + foldr Z.add 0 l'.
Proof. induction l as [|x l IH]; cbn; lia. Qed.

(** The characters received are a prefix of the buffer. *)
Lemma sub_rel_prefix sp h cs :
  sub_rel sp (Some (h, cs)) → ∃ r, buffer sp = cs ++ r ∧ (length cs + length r = 32)%nat.
Proof.
  intros [Hl (_ & Hle & Ht & _)]. exists (drop (length cs) (buffer sp)).
  rewrite <-Ht at 1. rewrite take_drop, length_drop. split; [done|lia].
Qed.

(** Two characters enter the buffer. *)
Lemma write_pair sp h cs c1 c2 :
  sub_rel sp (Some (h, cs)) → (length cs ≤ 30)%nat → 0 ≤ c2 →
  ∃ b b', wr (buffer sp) (count sp - 2) c1 = Some b ∧ wr b (count sp - 1) c2 = Some b' ∧
    sub_rel (Subpacket b' (u32 (count sp + (1 + (if c2 =? 0 then 0 else 1))))
      (u32 (checksum sp + (c1 + c2)))) (Some (h, cs ++ c1 :: (if c2 =? 0 then [] else [c2]))).
Proof.
  intros Hsp Hlen Hc2. destruct (sub_rel_prefix _ _ _ Hsp) as (r & Er & Hr).
  destruct Hsp as [Hl (Hcount & _ & _ & Hsum)].
  destruct r as [|x [|y r]]; cbn [length] in Hr; try lia.
  rewrite Er, wr_app by lia. eexists _, (cs ++ c1 :: c2 :: r). split; [done|]. split.
  { change (cs ++ c1 :: y :: r) with (cs ++ [c1] ++ y :: r).
    rewrite app_assoc, wr_app by (list_lia). by rewrite <-app_assoc. }
  split; cbn [buffer count checksum]; [list_lia|].
  rewrite u32_add_mod, Hsum, sum_app, Zplus_mod_idemp_l, length_app.
  destruct (Z.eqb_spec c2 0) as [H0|]; cbn [length foldr].
  - rewrite u32_small by lia. split_and!; try lia.
    + change (cs ++ c1 :: c2 :: r) with (cs ++ [c1] ++ c2 :: r).
      by rewrite app_assoc, take_app_length' by (list_lia).
    + f_equal. lia.
  - rewrite u32_small by lia. split_and!; try lia.
    + change (cs ++ c1 :: c2 :: r) with (cs ++ [c1; c2] ++ r).
      by rewrite app_assoc, take_app_length' by (list_lia).
    + f_equal. lia.
Qed.

(** Contents that fit, and the ones that do not. *)
Lemma packet_contents_rel xd s c1 c2 :
  xds_rel xd s → 32 ≤ c1 < 128 → 0 ≤ c2 < 128 →
  match spec_step s c1 c2 with
  | None => packet_contents xd c1 c2 = None
  | Some (s', o) => o = None ∧ ∃ xd', packet_contents xd c1 c2 = Some xd' ∧ xds_rel xd' s'
  end.
Proof.
  intros Hrel H1 H2. pose proof Hrel as (Hst & Hc & Hk & Hlab & Htext).
  unfold spec_step, packet_contents. rewrite Hc.
  destruct (Z.eqb_spec c1 0), (Z.leb_spec c1 14), (Z.eqb_spec c1 15), (Z.leb_spec c1 31); try lia.
  destruct (current s) as [k|] eqn:Ec; [|by eauto].
  destruct (Hk k eq_refl) as [Hkr [[h cs] Ep]].
  destruct (store_rd _ _ k Hst Hkr) as (p & -> & Hp). cbn [mbind option_bind].
  rewrite Ep in Hp |- *. pose proof Hp as [Hlen (Hcount & Hle & _)].
  destruct (Nat.leb_spec 32 (length cs)), (Z.leb_spec (32 + 2) (count p)); try lia.
  { split; [done|]. apply xds_rel_discard; done. }
  destruct (Nat.eqb_spec (length cs) 31) as [E31|E31].
  - destruct (wr (buffer p) (count p - 2) c1) as [b|] eqn:Eb; [|done]. cbn [mbind option_bind].
    apply wr_Some in Eb as [Eb _]. by rewrite wr_out by lia.
  - destruct (write_pair p h cs c1 c2 Hp) as (b & b' & -> & E2 & Hsub); [lia..|].
    cbn [mbind option_bind]. rewrite E2. cbn [mbind option_bind].
    destruct (store_wr _ _ k _ _ Hst Hkr Hsub) as (l' & -> & Hl'). cbn [mbind option_bind].
    split; [done|]. eexists. split; [reflexivity|]. split_and!; cbn; try done.
    intros k' [= <-]. split; [done|]. rewrite lookup_insert_eq. eauto.
Qed.

Section refine.
Context {U : Type} (callback : vbi_xds_packet → U → U * bool).

(** The call ended as the abstract step did, after the callback of a delivered
    packet. *)
Definition returns_as (r : option (vbi_xds_demux * U * bool)) (s' : xds_spec)
    (o : option (Z * Z * list Z)) (ok : bool) (u : U) : Prop :=
  ∃ xd', xds_rel xd' s' ∧
    match o with
    | None => r = Some (xd', u, ok)
    | Some d => ∃ p, carries p d ∧ r = Some (xd', (callback p u).1, (callback p u).2)
    end.

Lemma packet_terminator_rel xd s c1 c2 u s' o :
  xds_rel xd s → c1 = 15 → 0 ≤ c2 < 128 → spec_step s c1 c2 = Some (s', o) →
  returns_as (packet_terminator callback xd c1 c2 u) s' o true u.
Proof.
  intros Hrel -> H2. pose proof Hrel as (Hst & Hc & Hk & Hlab & Htext).
  unfold spec_step, packet_terminator, returns_as. cbn [Z.eqb Z.leb Z.compare Pos.compare Pos.compare_cont Pos.eqb].
  rewrite Hc. destruct (current s) as [k|] eqn:Ec; cbn [mbind option_bind];
    [|intros [= <- <-]; by eauto].
  destruct (Hk k eq_refl) as [Hkr [[h cs] Ep]]. rewrite Ep. intros [= <- <-].
  destruct (store_rd _ _ k Hst Hkr) as (p & -> & Hp). cbn [mbind option_bind].
  rewrite Ep in Hp. destruct (sub_rel_prefix _ _ _ Hp) as (r & Er & Hr).
  destruct Hp as [Hlen (Hcount & Hle & _ & Hsum)].
  rewrite (land_ones_mod _ 7) by done. change (2 ^ 7) with 128.
  rewrite u32_add_mod, Hsum, Zplus_mod_idemp_l, Z.add_assoc.
  assert ((count p <=? 2) = Nat.eqb (length cs) 0) as ->.
  { destruct (Z.leb_spec (count p) 2), (Nat.eqb_spec (length cs) 0); done || lia. }
  destruct (_ =? 0); cbn [negb orb andb].
  2:{ destruct (xds_rel_discard xd s (Some k) Hrel ltac:(done)) as (xd' & -> & Hxd').
      cbn [mbind option_bind]. eauto. }
  destruct (Nat.eqb_spec (length cs) 0); cbn [negb].
  { destruct (xds_rel_discard xd s (Some k) Hrel ltac:(done)) as (xd' & -> & Hxd').
    cbn [mbind option_bind]. eauto. }
  rewrite Er, take_ge by (list_lia). rewrite <-app_assoc.
  destruct (r ++ drop 32 (text (curr xd))) as [|x t] eqn:Et.
  { apply (f_equal length) in Et. rewrite length_app, length_drop in Et. cbn in Et. lia. }
  rewrite wr_app by lia. cbn [mbind option_bind].
  assert (length (cs ++ 0 :: t) = 36%nat) as H36.
  { apply (f_equal length) in Et. rewrite length_app, length_drop in Et. rewrite length_app. cbn in *. lia. }
  set (cur := XdsPacket (xds_class (curr xd)) (xds_subclass (curr xd)) (count p - 2) (cs ++ 0 :: t)).
  destruct (discard_rel (XdsDemux (subpacket xd) cur (Some k)) s (Some k)) as (xd' & -> & Hxd');
    [done|by intros i [= <-]|done|done|].
  exists xd'. split; [done|]. exists cur.
  split; [|by destruct (callback cur u)]. unfold carries. cbn [cur text xds_class xds_subclass buffer_size fst snd].
  split_and!; try done; try lia.
  change (cs ++ 0 :: t) with (cs ++ [0] ++ t).
  by rewrite app_assoc, take_app_length' by (list_lia).
Qed.

Lemma feed_rel xd s b u :
  xds_rel xd s → bytes b →
  match spec_feed s b with
  | None => vbi_xds_demux_feed callback xd b u = None
  | Some (s', o, ok) => returns_as (vbi_xds_demux_feed callback xd b u) s' o ok u
  end.
Proof.
  intros Hrel Hb. unfold spec_feed, vbi_xds_demux_feed.
  pose proof (bytes_tbl b 0 Hb) as H0. pose proof (bytes_tbl b 1 Hb) as H1.
  rewrite !vbi_unpar8_spec by done.
  pose proof (land127_range b.[0]) as R0. pose proof (land127_range b.[1]) as R1.
  set (c1 := b.[0] .& 127) in *. set (c2 := b.[1] .& 127) in *. clearbody c1 c2.
  pose proof Hrel as (_ & Hc & _).
  assert (∀ x, -1 .| x = -1) as Em1 by (intros; apply Z.lor_m1_l).
  destruct (odd_ones b.[0]), (odd_ones b.[1]); cbn [andb]; rewrite ?Em1, ?Z.lor_m1_r;
    cbn [Z.ltb Z.compare]; try (destruct (xds_rel_discard xd s (curr_sp xd) Hrel ltac:(done)) as (xd' & -> & Hxd');
      cbn [mbind option_bind]; rewrite <-Hc; exists xd'; by split).
  destruct (Z.ltb_spec (c1 .| c2) 0) as [Hn|_]; [rewrite lor_neg in Hn; lia|].
  destruct (Z.eqb_spec c1 0) as [->|].
  { cbn. exists xd. by split. }
  destruct (Z.leb_spec c1 0x0E).
  { destruct (spec_step s c1 c2) as [[s' o]|] eqn:Es; cbn [fmap option_fmap option_map].
    - destruct (packet_header_rel xd s c1 c2 s' o) as [-> (xd' & -> & ?)]; [done|lia|done|done|].
      exists xd'. by split.
    - unfold spec_step in Es. destruct (Z.eqb_spec c1 0), (Z.leb_spec c1 14); try lia. done. }
  destruct (Z.eqb_spec c1 0x0F) as [->|].
  { destruct (spec_step s 15 c2) as [[s' o]|] eqn:Es; cbn [fmap option_fmap option_map].
    - by eapply packet_terminator_rel.
    - cbn in Es. by repeat case_match. }
  destruct (Z.leb_spec c1 0x1F).
  { unfold spec_step. destruct (Z.eqb_spec c1 0), (Z.leb_spec c1 14), (Z.eqb_spec c1 15),
      (Z.leb_spec c1 31); try lia. cbn [fmap option_fmap option_map].
    eexists. split; [|reflexivity]. destruct Hrel as (? & ? & ? & ? & ?). by split_and!. }
  pose proof (packet_contents_rel xd s c1 c2 Hrel ltac:(lia) ltac:(done)) as Hcont.
  destruct (spec_step s c1 c2) as [[s' o]|]; cbn [fmap option_fmap option_map].
  - destruct Hcont as [-> (xd' & -> & ?)]. exists xd'. by split.
  - by rewrite Hcont.
Qed.
End refine.

(** The abstract machine over the lines of a frame, with a client that looks only
    at the characters of a packet. *)
Section spec_frame.
Context {U : Type} (report : Z * Z * list Z → U → U * bool).

Fixpoint spec_frame (s : xds_spec) (sliced : list vbi_sliced) (u : U) : option (xds_spec * U * bool) :=
  match sliced with
  | [] => Some (s, u, true)
  | l :: sliced =>
      if xds_line l then
        '(s, o, ok) ← spec_feed s (data l);
        let '(u, ok) := match o with None => (u, ok) | Some d => report d u end in
        if negb ok then Some (s, u, false) else spec_frame s sliced u
      else spec_frame s sliced u
  end.
End spec_frame.

Lemma frame_refines {U : Type} (callback : vbi_xds_packet → U → U * bool)
    (report : Z * Z * list Z → U → U * bool) (xd : vbi_xds_demux) (s : xds_spec)
    (sliced : list vbi_sliced) (u : U) :
  (∀ p d u, carries p d → callback p u = report d u) →
  xds_rel xd s → Forall sliced_ok sliced →
  match spec_frame report s sliced u with
  | None => vbi_xds_demux_feed_frame callback xd sliced u = None
  | Some (s', u', ok) =>
      ∃ xd', vbi_xds_demux_feed_frame callback xd sliced u = Some (xd', u', ok) ∧ xds_rel xd' s'
  end.
Proof.
  intros Hcb Hrel Hs. revert xd s u Hrel. induction Hs as [|l sliced [_ Hb] Hs IH]; intros xd s u Hrel;
    cbn [spec_frame vbi_xds_demux_feed_frame]; [by eexists|].
  destruct (xds_line l); [|by apply IH].
  pose proof (feed_rel callback xd s (data l) u Hrel Hb) as Hf.
  destruct (spec_feed s (data l)) as [[[s' [d|]] ok]|]; cbn [mbind option_bind]; [..|by rewrite Hf].
  - destruct Hf as (xd' & Hrel' & p & Hp & ->). cbn [mbind option_bind]. rewrite (Hcb p d u Hp).
    destruct (report d u) as [u' []]; cbn [negb fst snd]; [by apply IH|by eexists].
  - destruct Hf as (xd' & Hrel' & ->). cbn [mbind option_bind].
    destruct ok; cbn [negb]; [by apply IH|by eexists].
Qed.

(** C6: the demultiplexer refines the abstract machine on any sequence of sliced
    lines: the client gets the same packets, the same value is returned, the
    states stay related; the code leaves its arrays exactly when a packet with 31
    characters is continued by another character pair. *)
Theorem xds_feed_frame_refines {U : Type} (callback : vbi_xds_packet → U → U * bool)
    (report : Z * Z * list Z → U → U * bool) (xd : vbi_xds_demux) (s : xds_spec)
    (sliced : list vbi_sliced) (u : U) :
  (∀ p d u, carries p d → callback p u = report d u) →
  xds_rel xd s → Forall sliced_ok sliced →
  match spec_frame report s sliced u with
  | None => vbi_xds_demux_feed_frame callback xd sliced u = None
  | Some (s', u', ok) =>
      ∃ xd', vbi_xds_demux_feed_frame callback xd sliced u = Some (xd', u', ok) ∧ xds_rel xd' s'
  end.
Proof. apply frame_refines. Qed.

(** ** Delivery *)

(** A run of the abstract machine over character pairs. *)
Fixpoint spec_run (s : xds_spec) (ps : list (Z * Z)) : option (xds_spec * list (Z * Z * list Z)) :=
  match ps with
  | [] => Some (s, [])
  | (c1, c2) :: ps =>
      '(s, o) ← spec_step s c1 c2;
      '(s, ds) ← spec_run s ps;
      Some (s, option_list o ++ ds)
  end.

(** Character pairs as a Closed Caption line transmits them. *)
Definition xds_sliced (p : Z * Z) : vbi_sliced :=
  Sliced VBI_SLICED_CAPTION_525 284 (vbi_par8 p.1 :: vbi_par8 p.2 :: repeat 0 54).

(** A transmission: the two character codes of the header, and the contents with
    interruptions, after each of which the packet is continued. *)
Inductive xds_item := Own (p : Z * Z) | Break (l : list (Z * Z)).
Record xds_tx := XdsTx { tx_class : Z; tx_subclass : Z; tx_items : list xds_item; tx_checksum : Z }.

Definition tx_start (t : xds_tx) : Z * Z := (2 * tx_class t + 1, tx_subclass t).
Definition tx_continue (t : xds_tx) : Z * Z := (2 * tx_class t + 2, tx_subclass t).
Definition item_pairs (t : xds_tx) (i : xds_item) : list (Z * Z) :=
  match i with Own p => [p] | Break l => l ++ [tx_continue t] end.
Definition tx_pairs (t : xds_tx) : list (Z * Z) :=
  tx_start t :: concat (map (item_pairs t) (tx_items t)) ++ [(15, tx_checksum t)].

(** The characters in pairs, an odd one with a NUL. *)
Fixpoint pairs_of (cs : list Z) : list (Z * Z) :=
  match cs with
  | [] => []
  | [c] => [(c, 0)]
  | c :: d :: cs => (c, d) :: pairs_of cs
  end.

Definition own (i : xds_item) : option (Z * Z) := match i with Own p => Some p | Break _ => None end.

Definition is_char (c : Z) : Prop := 0 ≤ c < 128.

(** A pair that selects no packet, or another one, for the characters to come. *)
Definition leaves (k : Z) (p : Z * Z) : Prop :=
  16 ≤ p.1 ≤ 31 ∨ (1 ≤ p.1 ≤ 14 ∧ ∃ k', xds_key p.1 p.2 = Some k' ∧ k' ≠ k).
Definition not_selecting (k : Z) (p : Z * Z) : Prop :=
  1 ≤ p.1 ≤ 14 → xds_key p.1 p.2 ≠ Some k.

(** An interruption: captions, other packets, even a header of an unknown class. *)
Definition break_ok (k : Z) (i : xds_item) : Prop :=
  match i with
  | Own _ => True
  | Break [] => False
  | Break (p :: l) => leaves k p ∧ Forall (not_selecting k) l ∧
      Forall (λ p, is_char p.1 ∧ is_char p.2) (p :: l)
  end.

Definition tx_ok (k : Z) (cs : list Z) (t : xds_tx) : Prop :=
  0 ≤ tx_class t ≤ 3 ∧ is_char (tx_subclass t) ∧ is_char (tx_checksum t) ∧
  xds_key (2 * tx_class t + 1) (tx_subclass t) = Some k ∧
  (1 ≤ length cs ≤ 32)%nat ∧ Forall (λ c, 32 ≤ c < 128) cs ∧
  omap own (tx_items t) = pairs_of cs ∧ Forall (break_ok k) (tx_items t) ∧
  (2 * tx_class t + 1 + tx_subclass t + foldr Z.add 0 cs + 15 + tx_checksum t) mod 128 = 0.

Lemma spec_run_app s ps qs s2 ds :
  spec_run s (ps ++ qs) = Some (s2, ds) →
  ∃ s1 d1 d2, spec_run s ps = Some (s1, d1) ∧ spec_run s1 qs = Some (s2, d2) ∧ ds = d1 ++ d2.
Proof.
  revert s ds. induction ps as [|[c1 c2] ps IH]; intros s ds; cbn [app spec_run].
  - intros E. by exists s, [], ds.
  - destruct (spec_step s c1 c2) as [[s' o]|]; [|done]. cbn [mbind option_bind].
    destruct (spec_run s' (ps ++ qs)) as [[s3 d]|] eqn:E; [|done]. cbn [mbind option_bind].
    intros [= <- <-]. destruct (IH _ _ E) as (s1 & d1 & d2 & E1 & E2 & ->).
    exists s1, (option_list o ++ d1), d2. by rewrite E1, E2, app_assoc.
Qed.

(** Pairs that do not select a packet leave it alone unless it is open. *)
Lemma foreign_step k s c1 c2 s' o :
  spec_step s c1 c2 = Some (s', o) → 0 ≤ c1 → current s ≠ Some k → not_selecting k (c1, c2) →
  current s' ≠ Some k ∧ packets s' !! k = packets s !! k.
Proof.
  intros E H0 Hc Hns. unfold not_selecting in Hns. cbn [fst snd] in Hns.
  assert (packets (drop_packet (current s) s) !! k = packets s !! k) as Hdrop.
  { destruct (current s); [|done]. cbn. apply lookup_delete_ne. congruence. }
  assert (current (drop_packet (current s) s) ≠ Some k) as Hdc by done.
  unfold spec_step in E. destruct (Z.eqb_spec c1 0); [by simplify_eq|].
  destruct (Z.leb_spec c1 14).
  { specialize (Hns ltac:(lia)). destruct (xds_key c1 c2) as [k'|]; [|by simplify_eq].
    assert (k' ≠ k) by congruence.
    destruct (Z.odd c1); [|destruct (packets s !! k')]; simplify_eq; cbn; try (split; [congruence|done]).
    split; [congruence|]. by apply lookup_insert_ne. }
  destruct (Z.eqb_spec c1 15).
  { destruct (current s ≫= _) as [[h cs]|]; by simplify_eq. }
  destruct (Z.leb_spec c1 31); [by simplify_eq|].
  destruct (current s) as [k'|] eqn:Ec; [|by simplify_eq; rewrite ?Ec].
  destruct (packets s !! k') as [[h cs]|]; [|by simplify_eq; rewrite ?Ec].
  assert (k' ≠ k) by congruence.
  destruct (Nat.leb 32 (length cs)); [by simplify_eq|]. destruct (Nat.eqb (length cs) 31); [done|].
  simplify_eq; cbn. split; [congruence|]. by apply lookup_insert_ne.
Qed.

Lemma foreign_run k l s s' ds :
  spec_run s l = Some (s', ds) → current s ≠ Some k → Forall (not_selecting k) l →
  Forall (λ p, is_char p.1 ∧ is_char p.2) l →
  packets s' !! k = packets s !! k.
Proof.
  intros E Hc Hns Hch. revert s ds E Hc. induction Hns as [|[c1 c2] l Hp Hns IH]; intros s ds;
    cbn [spec_run]; [by intros [= <- <-]|].
  apply Forall_cons_1 in Hch as [[H1 _] Hch]. cbn [fst] in H1.
  destruct (spec_step s c1 c2) as [[s1 o]|] eqn:Es; [|done]. cbn [mbind option_bind].
  destruct (spec_run s1 l) as [[s2 d]|] eqn:Er; [|done]. cbn [mbind option_bind].
  intros [= -> <-] Hc.
  destruct (foreign_step k s c1 c2 s1 o Es ltac:(apply H1) Hc Hp) as [Hc1 <-].
  by apply (IH Hch s1 d).
Qed.

Lemma leaves_step k s p s' o :
  spec_step s p.1 p.2 = Some (s', o) → leaves k p →
  current s' ≠ Some k ∧ packets s' !! k = packets s !! k ∧ not_selecting k p.
Proof.
  destruct p as [c1 c2]. cbn [fst snd]. intros E Hl. unfold leaves, not_selecting in *. cbn [fst snd] in *.
  unfold spec_step in E. destruct (Z.eqb_spec c1 0); [lia|].
  destruct Hl as [Hl|[Hl (k' & Ek & Hne)]].
  - destruct (Z.leb_spec c1 14); [lia|]. destruct (Z.eqb_spec c1 15); [lia|].
    destruct (Z.leb_spec c1 31); [|lia]. simplify_eq. split_and!; [done|done|lia].
  - destruct (Z.leb_spec c1 14); [|lia]. rewrite Ek in E |- *.
    destruct (Z.odd c1); [|destruct (packets s !! k')]; simplify_eq; cbn;
      (split_and!; [congruence| |congruence]); try done. by apply lookup_insert_ne.
Qed.

Lemma tx_keys k cs t : tx_ok k cs t →
  xds_key (tx_continue t).1 (tx_continue t).2 = Some k ∧ 0 ≤ k < 168.
Proof.
  intros (Hc & Hs & _ & Hk & _). split.
  - rewrite <-Hk. cbn [tx_continue fst snd]. unfold xds_key.
    destruct (Z.ltb_spec 8 (2 * tx_class t + 1)), (Z.ltb_spec 8 (2 * tx_class t + 2)); try lia.
    by replace ((2 * tx_class t + 2 - 1) / 2) with ((2 * tx_class t + 1 - 1) / 2)
      by (Z.to_euclidean_division_equations; lia).
  - eapply xds_key_range; [..|exact Hk]; [lia|apply Hs].
Qed.

(** The state while the packet is being received. *)
Definition receiving (k : Z) (t : xds_tx) (acc : list Z) (s : xds_spec) : Prop :=
  current s = Some k ∧ label s = (tx_class t, tx_subclass t) ∧
  packets s !! k = Some (2 * tx_class t + 1 + tx_subclass t, acc).

(** After an interruption the packet is continued. *)
Lemma break_continued k cs t l acc s s' ds :
  tx_ok k cs t → receiving k t acc s → break_ok k (Break l) →
  spec_run s (l ++ [tx_continue t]) = Some (s', ds) → receiving k t acc s'.
Proof.
  intros Htx (Hc & Hl & Hp) Hb E. destruct (tx_keys k cs t Htx) as [Ek _].
  apply spec_run_app in E as (s1 & d1 & d2 & E1 & E2 & _).
  destruct l as [|p l]; [done|]. destruct Hb as (Hlv & Hns & Hch).
  assert (packets s1 !! k = packets s !! k) as E1'.
  { destruct p as [c1 c2]. cbn [spec_run] in E1.
    destruct (spec_step s c1 c2) as [[s2 o]|] eqn:Es; [|done]. cbn [mbind option_bind] in E1.
    destruct (spec_run s2 l) as [[s3 d]|] eqn:Er; [|done]. cbn [mbind option_bind] in E1.
    injection E1 as -> _. destruct (leaves_step k s (c1, c2) s2 o Es Hlv) as (H2 & <- & _).
    apply Forall_cons_1 in Hch as [_ Hch]. by eapply foreign_run. }
  rewrite Hp in E1'. unfold tx_continue in E2, Ek. cbn [fst snd] in Ek. cbn [spec_run] in E2. unfold spec_step in E2.
  destruct Htx as (H0 & _).
  destruct (Z.eqb_spec (2 * tx_class t + 2) 0), (Z.leb_spec (2 * tx_class t + 2) 14); try lia.
  rewrite Ek, E1' in E2.
  replace (Z.odd (2 * tx_class t + 2)) with false in E2 by (rewrite Z.odd_add, Z.odd_mul; done).
  cbn [mbind option_bind] in E2. injection E2 as <- _. split_and!; cbn; [done| |done].
  f_equal. Z.to_euclidean_division_equations; lia.
Qed.

(** A pair of the packet itself. *)
Lemma own_received k t acc s c1 c2 s' o :
  receiving k t acc s → 32 ≤ c1 < 128 → (length acc ≤ 30)%nat →
  spec_step s c1 c2 = Some (s', o) →
  receiving k t (acc ++ c1 :: (if c2 =? 0 then [] else [c2])) s' ∧ o = None.
Proof.
  intros (Hc & Hl & Hp) H1 Hlen. unfold spec_step.
  destruct (Z.eqb_spec c1 0), (Z.leb_spec c1 14), (Z.eqb_spec c1 15), (Z.leb_spec c1 31); try lia.
  rewrite Hc, Hp. destruct (Nat.leb_spec 32 (length acc)), (Nat.eqb_spec (length acc) 31); try lia.
  intros [= <- <-]. split; [|done]. split_and!; cbn; [done|done|]. apply lookup_insert_eq.
Qed.

Lemma items_received k cs t items rest acc s s' ds :
  tx_ok k cs t → receiving k t acc s → Forall (λ c, 32 ≤ c < 128) rest →
  omap own items = pairs_of rest → (length acc + length rest ≤ 32)%nat →
  (rest ≠ [] → Nat.Even (length acc)) → Forall (break_ok k) items →
  spec_run s (concat (map (item_pairs t) items)) = Some (s', ds) → receiving k t (acc ++ rest) s'.
Proof.
  intros Htx Hrec Hch Hown Hlen Hev Hb. revert rest acc s ds Hrec Hch Hown Hlen Hev.
  induction Hb as [|i items Hi Hb IH]; intros rest acc s ds Hrec Hch Hown Hlen Hev E.
  - cbn in *. injection E as <- _. destruct rest as [|c [|d rest]]; try done. by rewrite app_nil_r.
  - cbn [map concat] in E. apply spec_run_app in E as (s1 & d1 & d2 & E1 & E2 & _).
    destruct i as [[c1 c2]|l]; cbn [omap list_omap own item_pairs] in *.
    2:{ eapply IH; [|done..|exact E2]. by eapply break_continued. }
    cbn [spec_run] in E1. destruct (spec_step s c1 c2) as [[s2 o]|] eqn:Es; [|done].
    cbn [mbind option_bind] in E1. injection E1 as -> _.
    destruct rest as [|c [|d rest]]; [done|..]; cbn [pairs_of length] in *; injection Hown as -> -> Hown.
    + apply Forall_cons_1 in Hch as [Hc _]. destruct Hev as [m Hm]; [done|].
      destruct (own_received k t acc s c 0 s1 o Hrec) as [Hrec' _]; [done|lia|done|].
      cbn in Hrec'. rewrite <-(app_nil_r (acc ++ [c])).
      eapply IH; [exact Hrec'|done|exact Hown| |done|exact E2]. list_lia.
    + apply Forall_cons_1 in Hch as [Hc Hch]. apply Forall_cons_1 in Hch as [Hd Hch].
      destruct (own_received k t acc s c d s1 o Hrec) as [Hrec' _]; [done|lia|done|].
      destruct (Z.eqb_spec d 0); [lia|].
      change (c :: d :: rest) with ([c; d] ++ rest). rewrite app_assoc.
      eapply IH; [exact Hrec'|done|exact Hown| | |exact E2]; rewrite length_app; cbn; [lia|].
      intros _. destruct Hev as [m Hm]; [done|]. exists (S m). lia.
Qed.

Lemma spec_frame_run s ps s' ds (u : list (Z * Z * list Z)) :
  Forall (λ p, is_char p.1 ∧ is_char p.2) ps → spec_run s ps = Some (s', ds) →
  spec_frame (λ d u, (u ++ [d], true)) s (map xds_sliced ps) u = Some (s', u ++ ds, true).
Proof.
  intros Hps. revert s ds u. induction Hps as [|[c1 c2] ps [H1 H2] Hps IH]; intros s ds u;
    cbn [map spec_run spec_frame fst snd] in *.
  - intros [= <- <-]. by rewrite app_nil_r.
  - unfold is_char in *.
    change (xds_line (xds_sliced (c1, c2))) with true. cbn match. unfold spec_feed.
    change (data (xds_sliced (c1, c2))).[0] with (vbi_par8 c1).
    change (data (xds_sliced (c1, c2))).[1] with (vbi_par8 c2).
    rewrite !vbi_par8_odd, !vbi_par8_low, !(land_ones_mod _ 7), !Z.mod_small by (unfold is_byte; done || lia).
    cbn [andb]. destruct (spec_step s c1 c2) as [[s1 o]|]; [|done].
    cbn [mbind option_bind fmap option_fmap option_map].
    destruct (spec_run s1 ps) as [[s2 d]|] eqn:E; [|done]. cbn [mbind option_bind].
    intros [= -> <-]. destruct o as [o|]; cbn [negb option_list app]; rewrite (IH _ _ _ E); [|done].
    by rewrite <-app_assoc.
Qed.

Lemma xds_sliced_ok p : is_char p.1 → is_char p.2 → sliced_ok (xds_sliced p).
Proof.
  unfold is_char. intros H1 H2. split; [done|]. unfold xds_sliced. cbn [data].
  constructor; [apply vbi_par8_byte; unfold is_byte; lia|].
  constructor; [apply vbi_par8_byte; unfold is_byte; lia|].
  apply List.Forall_forall. intros x Hx. apply repeat_spec in Hx. by subst.
Qed.

Lemma pairs_of_chars cs :
  Forall (λ c, 32 ≤ c < 128) cs → Forall (λ p, is_char p.1 ∧ is_char p.2) (pairs_of cs).
Proof.
  assert (∀ n cs, (length cs ≤ n)%nat → Forall (λ c, 32 ≤ c < 128) cs →
    Forall (λ p, is_char p.1 ∧ is_char p.2) (pairs_of cs)) as H; [|by apply (H (length cs))].
  intros n. induction n as [|n IH]; intros [|c [|d cs']] Hn Hcs; cbn in *; try lia; try done;
    repeat match goal with H : Forall _ (_ :: _) |- _ => apply Forall_cons_1 in H as [? H] end;
    unfold is_char; repeat constructor; cbn; try lia. apply IH; [lia|done].
Qed.

Lemma tx_chars k cs t : tx_ok k cs t → Forall (λ p, is_char p.1 ∧ is_char p.2) (tx_pairs t).
Proof.
  intros (Hc & Hs & Hx & _ & _ & Hcs & Hown & Hb & _). unfold tx_pairs.
  constructor; [unfold is_char in *; cbn; lia|]. apply Forall_app. split.
  2:{ repeat constructor; unfold is_char in *; cbn; lia. }
  apply pairs_of_chars in Hcs. rewrite <-Hown in Hcs. clear Hown.
  induction Hb as [|i items Hi Hb IH]; cbn [map concat]; [constructor|].
  destruct i as [p|[|p l]]; cbn [item_pairs omap list_omap own] in *; [|done|].
  - apply Forall_cons_1 in Hcs as [? Hcs]. constructor; [done|]. by apply IH.
  - apply Forall_app. split; [|by apply IH]. apply Forall_app. split; [apply Hi|].
    repeat constructor; unfold is_char in *; cbn; lia.
Qed.

(** The terminator delivers what was received. *)
Lemma terminator_delivers k cs t s s' ds :
  tx_ok k cs t → receiving k t cs s → spec_run s [(15, tx_checksum t)] = Some (s', ds) →
  ds = [(tx_class t, tx_subclass t, cs)].
Proof.
  intros (_ & _ & _ & _ & Hlen & _ & _ & _ & Hsum) (Hc & Hl & Hp). cbn [spec_run].
  unfold spec_step. cbn [Z.eqb Z.leb Z.compare Pos.compare Pos.compare_cont Pos.eqb].
  rewrite Hc. cbn [mbind option_bind]. rewrite Hp. cbn [mbind option_bind].
  destruct (Z.eqb_spec ((2 * tx_class t + 1 + tx_subclass t + foldr Z.add 0 cs + 15 + tx_checksum t) mod 128) 0); [|done].
  destruct (Nat.eqb_spec (length cs) 0); [lia|]. intros [= <- <-]. by rewrite Hl.
Qed.

Lemma tx_delivered k cs t s s' ds :
  tx_ok k cs t → spec_run s (tx_pairs t) = Some (s', ds) →
  ∃ ds', ds = ds' ++ [(tx_class t, tx_subclass t, cs)].
Proof.
  intros Htx. pose proof Htx as (Hc & _ & _ & Hk & Hlen & Hch & Hown & Hb & _).
  unfold tx_pairs. change (?a :: ?l) with ([a] ++ l). intros E.
  apply spec_run_app in E as (s1 & d1 & d2 & E1 & E2 & ->).
  apply spec_run_app in E2 as (s2 & d3 & d4 & E2 & E3 & ->).
  assert (receiving k t [] s1) as Hrec.
  { unfold tx_start in E1. cbn [spec_run] in E1. unfold spec_step in E1.
    destruct (Z.eqb_spec (2 * tx_class t + 1) 0), (Z.leb_spec (2 * tx_class t + 1) 14); try lia.
    rewrite Hk in E1. replace (Z.odd (2 * tx_class t + 1)) with true in E1
      by (rewrite Z.odd_add, Z.odd_mul; done).
    cbn [mbind option_bind] in E1. injection E1 as <- _. split_and!; cbn; [done| |apply lookup_insert_eq].
    f_equal. Z.to_euclidean_division_equations; lia. }
  pose proof (items_received k cs t _ cs [] s1 s2 d3 Htx Hrec Hch Hown) as Hend.
  specialize (Hend ltac:(cbn; lia) ltac:(by exists 0%nat) Hb E2).
  rewrite (terminator_delivers k cs t s2 s' d4 Htx Hend E3). exists (d1 ++ d3). by rewrite app_assoc.
Qed.

(** The client that records what a packet carries. *)
Definition record (p : vbi_xds_packet) (u : list (Z * Z * list Z)) : list (Z * Z * list Z) * bool :=
  (u ++ [(xds_class p, xds_subclass p, take (Z.to_nat (buffer_size p)) (text p))], true).

Lemma record_carries p d u : carries p d → record p u = (u ++ [d], true).
Proof.
  intros (H1 & H2 & _ & _ & H3). unfold record. rewrite H1, H2, Nat2Z.id.
  destruct d as [lab cs]. cbn [fst snd] in *.
  replace (take (length cs) (text p)) with cs; [done|].
  apply (f_equal (take (length cs))) in H3. by rewrite take_take, Nat.min_l, take_app_length in H3 by lia.
Qed.

(** A packet transmitted with its checksum on line 284 reaches the client with
    its class, subclass and characters, whatever state the demultiplexer was in and
    however often the transmission is interrupted by captions and by other packets
    (as long as none of these overruns its buffer) and continued. *)
Theorem xds_packet_delivered (k : Z) (cs : list Z) (t : xds_tx) (xd : vbi_xds_demux)
    (s : xds_spec) (u : list (Z * Z * list Z)) :
  xds_rel xd s → tx_ok k cs t → is_Some (spec_run s (tx_pairs t)) →
  ∃ xd' ds, vbi_xds_demux_feed_frame record xd (map xds_sliced (tx_pairs t)) u =
      Some (xd', u ++ ds ++ [(tx_class t, tx_subclass t, cs)], true).
Proof.
  intros Hrel Htx [[s' ds] E]. pose proof (tx_chars k cs t Htx) as Hch.
  destruct (tx_delivered k cs t s s' ds Htx E) as [ds' ->].
  assert (Forall sliced_ok (map xds_sliced (tx_pairs t))) as Hok.
  { apply Forall_map. eapply List.Forall_impl; [|exact Hch]. intros p [? ?]. by apply xds_sliced_ok. }
  pose proof (frame_refines record (λ d u, (u ++ [d], true)) xd s _ u record_carries Hrel Hok) as H.
  rewrite (spec_frame_run s _ s' (ds' ++ [(tx_class t, tx_subclass t, cs)]) u Hch E) in H.
  destruct H as (xd' & Eq & _). by exists xd', ds'.
Qed.

(** ** Concrete transmissions *)

(** A demultiplexer after [vbi_xds_demux_reset], whatever it held before. *)
Lemma reset_rel xd :
  length (subpacket xd) = 168%nat → Forall (λ sp, length (buffer sp) = 32%nat) (subpacket xd) →
  length (text (curr xd)) = 36%nat →
  xds_rel (vbi_xds_demux_reset xd) (Spec ∅ None (xds_class (curr xd), xds_subclass (curr xd))).
Proof.
  intros Hl Hb Ht. split_and!; cbn; try done. split; [by rewrite length_map|].
  intros i sp Hi. rewrite lookup_empty. change (map ?f ?l) with (f <$> l) in Hi.
  apply list_lookup_fmap_Some in Hi as (sp' & -> & Hi).
  split; [|done]. exact (Forall_lookup_1 _ _ _ _ Hb Hi).
Qed.

Definition xds_fresh : vbi_xds_demux :=
  _vbi_xds_demux_init (XdsDemux (repeat (Subpacket (repeat 7 32) 9 9) 168)
    (XdsPacket 0 0 0 (repeat 7 36)) (Some 5)).

Lemma xds_fresh_rel : xds_rel xds_fresh (Spec ∅ None (0, 0)).
Proof.
  apply (reset_rel (XdsDemux (repeat (Subpacket (repeat 7 32) 9 9) 168)
    (XdsPacket 0 0 0 (repeat 7 36)) (Some 5))); [done| |done].
  apply List.Forall_forall. intros x Hx. apply repeat_spec in Hx. by subst.
Qed.

(** The program name "STAR", interrupted by a caption and by the start of a
    channel packet. *)
Definition witness_xds : xds_tx :=
  XdsTx 0 3 [Own (83, 84); Break [(0x14, 0x20); (65, 66)]; Break [(5, 1); (67, 68)]; Own (65, 82)] 51.

Lemma witness_xds_ok : tx_ok 3 [83; 84; 65; 82] witness_xds.
Proof.
  assert (∀ p, not_selecting 3 p ↔ (1 ≤ p.1 ≤ 14 → xds_key p.1 p.2 ≠ Some 3)) as Hn by done.
  unfold tx_ok, is_char. cbn [witness_xds tx_class tx_subclass tx_checksum tx_items length].
  split_and!; try lia; try done.
  - repeat (constructor; [lia|]). constructor.
  - constructor; [done|]. constructor; [|constructor; [|constructor; [done|constructor]]].
    + split_and!; [left; cbn; lia| |repeat (constructor; [unfold is_char; cbn; lia|]); constructor].
      constructor; [|constructor]. rewrite Hn. cbn. lia.
    + split_and!; [right; split; [cbn; lia|by exists 49]| |
        repeat (constructor; [unfold is_char; cbn; lia|]); constructor].
      constructor; [|constructor]. rewrite Hn. cbn. lia.
Qed.

Lemma xds_packet_delivered_witness :
  ∃ xd' ds, vbi_xds_demux_feed_frame record xds_fresh (map xds_sliced (tx_pairs witness_xds)) [] =
    Some (xd', ds ++ [(0, 3, [83; 84; 65; 82])], true).
Proof.
  apply (xds_packet_delivered 3 [83; 84; 65; 82] witness_xds xds_fresh (Spec ∅ None (0, 0)) []).
  - apply xds_fresh_rel.
  - apply witness_xds_ok.
  - vm_compute. eexists. reflexivity.
Defined.

Lemma xds_feed_frame_refines_witness :
  ∃ xd', vbi_xds_demux_feed_frame record xds_fresh
      [Sliced 1 284 (repeat 0 56); xds_sliced (1, 3); Sliced VBI_SLICED_CAPTION_525 21 (repeat 0 56);
       xds_sliced (83, 0); xds_sliced (15, 26)] [] =
    Some (xd', [(0, 3, [83])], true).
Proof.
  destruct (xds_feed_frame_refines record (λ d u, (u ++ [d], true)) xds_fresh (Spec ∅ None (0, 0))
    [Sliced 1 284 (repeat 0 56); xds_sliced (1, 3); Sliced VBI_SLICED_CAPTION_525 21 (repeat 0 56);
       xds_sliced (83, 0); xds_sliced (15, 26)] []) as (xd' & E & _).
  - apply record_carries.
  - apply xds_fresh_rel.
  - repeat constructor; vm_compute; congruence.
  - exists xd'. exact E.
Defined.

(** A packet of 31 characters, the odd one sent with a NUL, that goes on makes the
    demultiplexer write behind the buffer. *)
Lemma xds_writes_behind_buffer :
  vbi_xds_demux_feed_frame record xds_fresh
    (map xds_sliced ((1, 3) :: repeat (65, 65) 15 ++ [(65, 0); (65, 65)])) [] = None.
Proof. by vm_compute. Qed.

(** A header of an unknown class discards the packet it interrupts, so that it
    cannot be continued. *)
Lemma xds_unknown_header_discards :
  ∃ xd', vbi_xds_demux_feed_frame record xds_fresh
    (map xds_sliced [(1, 3); (83, 84); (9, 1); (2, 3); (65, 82); (15, 51)]) [] = Some (xd', [], true).
Proof. eexists. by vm_compute. Qed.

(** The last program description and the first packet of the next class share a
    buffer. *)
Lemma xds_description_aliases : xds_key 1 0x18 = xds_key 3 0x00.
Proof. done. Qed.
