(* ===== verification/PageTable.v ===== *)
(** Sets of Teletext pages and subpages: [src/src/page_table.c]. *)
From S2P Require Import Prelude Misc.

Definition VBI_ANY_SUBNO : Z := 0x3F7F.
Definition MAX_SUBNO : Z := 0x3F7E.

Record subpage_range := Range { pgno : Z; first : Z; last : Z }.

(** [struct _vbi_page_table]: [subpages] are the elements in use of a vector with
    room for [subpages_capacity]. *)
Record vbi_page_table := PageTable {
  pages : list Z; pages_popcnt : Z; subpages : list subpage_range; subpages_capacity : Z
}.

Definition subpages_size (pt : vbi_page_table) : Z := Z.of_nat (length (subpages pt)).

Definition valid_pgno (pgno : Z) : bool := u32 (pgno - 0x100) <? 0x800.

(** For a valid page number. *)
Definition contains_all_subpages (pt : vbi_page_table) (pgno : Z) : option bool :=
  let mask := u32 (1 ≪ (pgno .& 31)) in
  let offset := (pgno - 0x100) ≫ 5 in
  w ← rd (pages pt) offset;
  Some (negb (w .& mask =? 0)).

Definition vbi_page_table_contains_all_subpages (pt : vbi_page_table) (pgno : Z) : option bool :=
  if negb (valid_pgno pgno) then Some false else contains_all_subpages pt pgno.

Definition vbi_page_table_contains_subpage (pt : vbi_page_table) (pg subno : Z) : option bool :=
  if negb (valid_pgno pg) then Some false
  else
    all ← contains_all_subpages pt pg;
    Some (all ||
      if subno =? VBI_ANY_SUBNO then existsb (λ r, pg =? pgno r) (subpages pt)
      else existsb (λ r, (pg =? pgno r) && (first r <=? subno) && (subno <=? last r)) (subpages pt)).

Definition vbi_page_table_contains_page (pt : vbi_page_table) (pgno : Z) : option bool :=
  vbi_page_table_contains_subpage pt pgno VBI_ANY_SUBNO.

Definition vbi_page_table_num_pages (pt : vbi_page_table) : Z :=
  u32 (pages_popcnt pt + subpages_size pt).

(** ** The vector of subpages *)

Section realloc.
(** Whether the C library grants a number of bytes. *)
Context (realloc : Z → bool).

Definition sizeof_range : Z := 12.

Definition shrink_vector (capacity min_capacity element_size : Z) : Z :=
  if capacity <=? min_capacity then capacity
  else if realloc (min_capacity * element_size) then min_capacity else capacity.

(** [None] when memory ran out, else the new capacity. *)
Definition extend_vector (capacity min_capacity element_size : Z) : option Z :=
  let max_capacity := 0xFFFFFFFF / element_size in
  if max_capacity <? min_capacity then None
  else
    let new_capacity :=
      if max_capacity / 2 <? capacity then max_capacity else Z.min min_capacity (capacity * 2) in
    if realloc (new_capacity * element_size) then Some new_capacity else None.

Definition set_subpages (l : list subpage_range) (pt : vbi_page_table) : vbi_page_table :=
  PageTable (pages pt) (pages_popcnt pt) l (subpages_capacity pt).
Definition set_capacity (n : Z) (pt : vbi_page_table) : vbi_page_table :=
  PageTable (pages pt) (pages_popcnt pt) (subpages pt) n.
Definition set_pages (l : list Z) (n : Z) (pt : vbi_page_table) : vbi_page_table :=
  PageTable l n (subpages pt) (subpages_capacity pt).

Definition shrink_subpages_vector (pt : vbi_page_table) : vbi_page_table :=
  if subpages_capacity pt / 4 <=? subpages_size pt then pt
  else set_capacity (shrink_vector (subpages_capacity pt) (subpages_capacity pt / 2) sizeof_range) pt.

Definition extend_subpages_vector (pt : vbi_page_table) (min_capacity : Z) : option vbi_page_table :=
  if min_capacity <=? subpages_capacity pt then Some pt
  else (λ n, set_capacity n pt) <$> extend_vector (subpages_capacity pt) min_capacity sizeof_range.

(** Stores an element behind the last one; [None] is a write behind the vector. *)
Definition push (r : subpage_range) (pt : vbi_page_table) : option vbi_page_table :=
  if subpages_size pt <? subpages_capacity pt then Some (set_subpages (subpages pt ++ [r]) pt) else None.

Definition valid_subpage_range (pgno first_subno last_subno : Z) : bool :=
  valid_pgno pgno && negb ((MAX_SUBNO <? u32 first_subno) || (MAX_SUBNO <? u32 last_subno)).

(** ** Pages *)

Definition remove_subpages_in_page_range (pt : vbi_page_table) (first_pgno last_pgno : Z) : vbi_page_table :=
  shrink_subpages_vector
    (set_subpages (List.filter (λ r, (pgno r <? first_pgno) || (last_pgno <? pgno r)) (subpages pt)) pt).

Definition valid_pgno_range (first_pgno last_pgno : Z) : bool :=
  valid_pgno first_pgno && valid_pgno last_pgno.

(** A word of [pages] changes by [f], the counter by [n] of the old word. *)
Definition update_word (f n : Z → Z) (offset : Z) (w : list Z * Z) : option (list Z * Z) :=
  old ← rd w.1 offset;
  l ← wr w.1 offset (f old);
  Some (l, u32 (w.2 + n old)).

(** [while (++first_offset < last_offset)]: [f] and [n] are what becomes of a word. *)
Fixpoint word_loop (fuel : nat) (f n : Z → Z) (first_offset last_offset : Z) (w : list Z * Z)
    : option (list Z * Z) :=
  let first_offset := first_offset + 1 in
  if first_offset <? last_offset then
    match fuel with
    | O => None
    | S fuel => w ← update_word f n first_offset w; word_loop fuel f n first_offset last_offset w
    end
  else Some w.

(** Bits [mask] of a word are set or cleared. *)
Definition set_bits (mask old : Z) : Z := mask .| old.
Definition set_count (mask old : Z) : Z := _vbi_popcnt (mask .& Z.lnot old).
Definition clear_bits (mask old : Z) : Z := old .& Z.lnot mask.
Definition clear_count (mask old : Z) : Z := - _vbi_popcnt (old .& mask).

Definition first_mask (first_pgno : Z) : Z := u32 ((-1) ≪ (first_pgno .& 31)).
Definition last_mask (last_pgno : Z) : Z := u32 (Z.lnot ((-2) ≪ (last_pgno .& 31))).

(** The masks of the first and last word and the loop between them. *)
Definition update_range (bits count : Z → Z → Z) (middle middle_count : Z → Z) (first_pgno last_pgno : Z)
    (w : list Z * Z) : option (list Z * Z) :=
  let first_offset := (first_pgno - 0x100) ≫ 5 in
  let last_offset := (last_pgno - 0x100) ≫ 5 in
  let fm := first_mask first_pgno in
  let lm := last_mask last_pgno in
  '(w, fm) ←
    (if negb (first_offset =? last_offset) then
       w ← update_word (bits fm) (count fm) first_offset w;
       w ← word_loop 64 middle middle_count first_offset last_offset w;
       Some (w, 0xFFFFFFFF)
     else Some (w, fm));
  update_word (bits (lm .& fm)) (count (lm .& fm)) last_offset w.

Definition vbi_page_table_remove_pages (pt : vbi_page_table) (first_pgno last_pgno : Z)
    : option (vbi_page_table * bool) :=
  if negb (valid_pgno_range first_pgno last_pgno) then Some (pt, false)
  else
    let '(first_pgno, last_pgno) :=
      if last_pgno <? first_pgno then (last_pgno, first_pgno) else (first_pgno, last_pgno) in
    if (last_pgno =? 0x8FF) && (first_pgno =? 0x100) then
      Some (set_pages (repeat 0 64) 0 (shrink_subpages_vector (set_subpages [] pt)), true)
    else
      let pt := remove_subpages_in_page_range pt first_pgno last_pgno in
      w ← update_range clear_bits clear_count (λ _, 0) (λ old, - _vbi_popcnt old) first_pgno last_pgno
            (pages pt, pages_popcnt pt);
      Some (set_pages w.1 w.2 pt, true).

Definition vbi_page_table_add_pages (pt : vbi_page_table) (first_pgno last_pgno : Z)
    : option (vbi_page_table * bool) :=
  if negb (valid_pgno_range first_pgno last_pgno) then Some (pt, false)
  else
    let '(first_pgno, last_pgno) :=
      if last_pgno <? first_pgno then (last_pgno, first_pgno) else (first_pgno, last_pgno) in
    if (last_pgno =? 0x8FF) && (first_pgno =? 0x100) then
      Some (set_pages (repeat 0xFFFFFFFF 64) 0x800 (shrink_subpages_vector (set_subpages [] pt)), true)
    else
      let pt := remove_subpages_in_page_range pt first_pgno last_pgno in
      w ← update_range set_bits set_count (λ _, 0xFFFFFFFF) (λ old, 32 - _vbi_popcnt old) first_pgno last_pgno
            (pages pt, pages_popcnt pt);
      Some (set_pages w.1 w.2 pt, true).

Definition vbi_page_table_remove_all_pages (pt : vbi_page_table) : option vbi_page_table :=
  fst <$> vbi_page_table_remove_pages pt 0x100 0x8FF.
Definition vbi_page_table_add_all_pages (pt : vbi_page_table) : option vbi_page_table :=
  fst <$> vbi_page_table_add_pages pt 0x100 0x8FF.

(** The inner loop of [vbi_page_table_add_all_displayable_pages]: 20 pages with
    decimal numbers at a time. *)
Fixpoint displayable_loop (fuel : nat) (pgno end_pgno : Z) (pt : vbi_page_table)
    : option (Z * vbi_page_table) :=
  match fuel with
  | O => None
  | S fuel =>
      let pt := remove_subpages_in_page_range pt (pgno + 0x00) (pgno + 0x09) in
      let pt := remove_subpages_in_page_range pt (pgno + 0x10) (pgno + 0x19) in
      w ← update_word (set_bits 0x03FF03FF) (set_count 0x03FF03FF) ((pgno - 0x100) ≫ 5)
            (pages pt, pages_popcnt pt);
      let pt := set_pages w.1 w.2 pt in
      let pgno := pgno + 0x20 in
      if pgno <? end_pgno then displayable_loop fuel pgno end_pgno pt else Some (pgno, pt)
  end.

Fixpoint magazine_loop (fuel : nat) (pgno : Z) (pt : vbi_page_table) : option vbi_page_table :=
  if pgno <? 0x900 then
    match fuel with
    | O => None
    | S fuel =>
        '(pgno, pt) ← displayable_loop 5 pgno (pgno + 0xA0) pt;
        magazine_loop fuel (pgno + (0x100 - 0xA0)) pt
    end
  else Some pt.

Definition vbi_page_table_add_all_displayable_pages (pt : vbi_page_table) : option vbi_page_table :=
  magazine_loop 8 0x100 pt.

(** ** Subpages *)

(** The loop over the ranges from index [i] on. *)
Fixpoint remove_loop (fuel i : nat) (pg first_subno last_subno : Z) (pt : vbi_page_table)
    : option (vbi_page_table * bool) :=
  match subpages pt !! i with
  | None => Some (shrink_subpages_vector pt, true)
  | Some r =>
      match fuel with
      | O => None
      | S fuel =>
          if negb (pg =? pgno r) || (last r <? first_subno) || (last_subno <? first r) then
            remove_loop fuel (S i) pg first_subno last_subno pt
          else if (first r <? first_subno) && (last_subno <? last r) then
            match extend_subpages_vector pt (subpages_size pt + 1) with
            | None => Some (pt, false)
            | Some pt =>
                if subpages_size pt <? subpages_capacity pt then
                  remove_loop fuel (S (S i)) pg first_subno last_subno
                    (set_subpages (take i (subpages pt)
                       ++ Range (pgno r) (first r) first_subno :: Range (pgno r) (last_subno + 1) (last r)
                       :: drop (S i) (subpages pt)) pt)
                else None
            end
          else
            let r := Range (pgno r) (if first r <? first_subno then first_subno else first r) (last r) in
            let r := Range (pgno r) (first r) (if last_subno <? last r then last_subno else last r) in
            if last r <? first r then
              (* The elements behind are moved, and one behind the last. *)
              if subpages_size pt <? subpages_capacity pt then
                remove_loop fuel i pg first_subno last_subno
                  (set_subpages (take i (subpages pt) ++ drop (S i) (subpages pt)) pt)
              else None
            else
              remove_loop fuel (S i) pg first_subno last_subno (set_subpages (<[i := r]> (subpages pt)) pt)
      end
  end.

Definition swap (a b : Z) : Z * Z := if b <? a then (b, a) else (a, b).

Definition vbi_page_table_remove_subpages (pt : vbi_page_table) (pg first_subno last_subno : Z)
    : option (vbi_page_table * bool) :=
  if (first_subno =? VBI_ANY_SUBNO) && (last_subno =? VBI_ANY_SUBNO) then
    vbi_page_table_remove_pages pt pg pg
  else if negb (valid_subpage_range pg first_subno last_subno) then Some (pt, false)
  else
    let '(first_subno, last_subno) := swap first_subno last_subno in
    let mask := u32 (1 ≪ (pg .& 31)) in
    let offset := (pg - 0x100) ≫ 5 in
    old ← rd (pages pt) offset;
    if negb (old .& mask =? 0) then
      match extend_subpages_vector pt (subpages_size pt + 2) with
      | None => Some (pt, false)
      | Some pt =>
          l ← wr (pages pt) offset (old .& Z.lnot mask);
          let pt := set_pages l (u32 (pages_popcnt pt - 1)) pt in
          pt ← (if 0 <? first_subno then push (Range pg 0 (first_subno - 1)) pt else Some pt);
          pt ← (if last_subno <? MAX_SUBNO then push (Range pg (last_subno + 1) MAX_SUBNO) pt else Some pt);
          Some (pt, true)
      end
    else remove_loop (length (subpages pt)) 0 pg first_subno last_subno pt.

(** The first range that overlaps is extended. *)
Fixpoint extend_range (pg first_subno last_subno : Z) (l : list subpage_range)
    : option (list subpage_range) :=
  match l with
  | [] => None
  | r :: l =>
      if (pg =? pgno r) && (first r <=? last_subno) && (first_subno <=? last r) then
        Some (Range (pgno r) (if first_subno <? first r then first_subno else first r)
                (if last r <? last_subno then last_subno else last r) :: l)
      else (cons r) <$> extend_range pg first_subno last_subno l
  end.

Definition vbi_page_table_add_subpages (pt : vbi_page_table) (pg first_subno last_subno : Z)
    : option (vbi_page_table * bool) :=
  if (first_subno =? VBI_ANY_SUBNO) && (last_subno =? VBI_ANY_SUBNO) then
    vbi_page_table_add_pages pt pg pg
  else if negb (valid_subpage_range pg first_subno last_subno) then Some (pt, false)
  else
    contains ← vbi_page_table_contains_page pt pg;
    if (contains : bool) then Some (pt, true)
    else
      let '(first_subno, last_subno) := swap first_subno last_subno in
      match extend_range pg first_subno last_subno (subpages pt) with
      | Some l => Some (set_subpages l pt, true)
      | None =>
          match extend_subpages_vector pt (subpages_size pt + 1) with
          | None => Some (pt, false)
          | Some pt => pt ← push (Range pg first_subno last_subno) pt; Some (pt, true)
          end
      end.

Definition vbi_page_table_remove_subpage (pt : vbi_page_table) (pgno subno : Z) : option (vbi_page_table * bool) :=
  vbi_page_table_remove_subpages pt pgno subno subno.
Definition vbi_page_table_add_subpage (pt : vbi_page_table) (pgno subno : Z) : option (vbi_page_table * bool) :=
  vbi_page_table_add_subpages pt pgno subno subno.
Definition vbi_page_table_remove_page (pt : vbi_page_table) (pgno : Z) : option (vbi_page_table * bool) :=
  vbi_page_table_remove_pages pt pgno pgno.
Definition vbi_page_table_add_page (pt : vbi_page_table) (pgno : Z) : option (vbi_page_table * bool) :=
  vbi_page_table_add_pages pt pgno pgno.
End realloc.

Definition vbi_page_table_new : vbi_page_table := PageTable (repeat 0 64) 0 [] 0.

(** ** Iteration *)

(** The next subpage of the page: the number itself if it is in a range, else the
    lowest start of a higher one. *)
Fixpoint next_in_page (last_pgno next_subno min_subno : Z) (l : list subpage_range) : option Z :=
  match l with
  | [] => if min_subno <=? MAX_SUBNO then Some min_subno else None
  | r :: l =>
      if negb (last_pgno =? pgno r) then next_in_page last_pgno next_subno min_subno l
      else if last r <? next_subno then next_in_page last_pgno next_subno min_subno l
      else if first r <=? next_subno then Some next_subno
      else next_in_page last_pgno next_subno (Z.min (first r) min_subno) l
  end.

(** [min_pgno] and [min_subno] *)
Definition min_page (next_pgno : Z) (l : list subpage_range) (min : Z * Z) : Z * Z :=
  fold_left (λ (m : Z * Z) r, if (next_pgno <=? pgno r) && (next_pgno <? m.1) then (pgno r, first r) else m) l min.

(** The C library's [ffs] on a word that is not zero. *)
Fixpoint ffs (n : nat) (w : Z) : Z :=
  match n with
  | O => 0
  | S n => if Z.odd w then 1 else 1 + ffs n (w / 2)
  end.

Fixpoint mask_loop (fuel : nat) (l : list Z) (mask offset next_pgno : Z) : option (option (Z * Z)) :=
  if negb (mask =? 0) then Some (Some (mask, next_pgno))
  else
    match fuel with
    | O => None
    | S fuel =>
        let next_pgno := next_pgno + 32 in
        if 0x900 <=? next_pgno then Some None
        else mask ← rd l (offset + 1); mask_loop fuel l mask (offset + 1) next_pgno
    end.

(** The new page and subpage number, or FALSE. *)
Definition vbi_page_table_next_subpage (pt : vbi_page_table) (last_pgno last_subno : Z)
    : option (option (Z * Z)) :=
  if 0x8FF <=? last_pgno then Some None
  else
    let found :=
      if (0x100 <=? last_pgno) && (last_subno <=? MAX_SUBNO)
      then next_in_page last_pgno (last_subno + 1) (MAX_SUBNO + 1) (subpages pt) else None in
    match found with
    | Some subno => Some (Some (last_pgno, subno))
    | None =>
      let next_pgno := if last_pgno <? 0x100 then 0x100 else last_pgno + 1 in
      let '(min_pgno, min_subno) := min_page next_pgno (subpages pt) (0x900, 0) in
      let offset := (next_pgno - 0x100) ≫ 5 in
      w ← rd (pages pt) offset;
      r ← mask_loop 64 (pages pt) (u32 ((-1) ≪ (next_pgno .& 31)) .& w) offset (next_pgno .& Z.lnot 31);
      match r with
      | None => Some None
      | Some (mask, next_pgno) =>
          let next_pgno := next_pgno + ffs 32 mask - 1 in
          if min_pgno <? next_pgno then Some (Some (min_pgno, min_subno))
          else Some (Some (next_pgno, VBI_ANY_SUBNO))
      end
    end.

Definition vbi_page_table_next_page (pt : vbi_page_table) (pgno : Z) : option (option Z) :=
  option_map fst <$> vbi_page_table_next_subpage pt pgno VBI_ANY_SUBNO.

(** ** Words and bits *)

Definition is_word (w : Z) : Prop := 0 ≤ w < 2 ^ 32.
Definition words_ok (l : list Z) : Prop := length l = 64%nat ∧ Forall is_word l.

(** Page 0x100 + [j]. *)
Definition member (l : list Z) (j : Z) : bool := Z.testbit (tbl l (j / 32)) (j mod 32).
(** The number of pages. *)
Definition total (l : list Z) : Z := foldr (λ w n, ones 32 w + n) 0 l.

Lemma tbl_word l i : words_ok l → 0 ≤ i < 64 → rd l i = Some (tbl l i) ∧ is_word (tbl l i).
Proof.
  intros [Hl Hw] Hi. destruct (rd_is_Some l i) as (w & Hr & Hlk); [lia|].
  unfold tbl. rewrite (nth_lookup_Some _ _ 0 _ Hlk). split; [done|].
  exact (Forall_lookup_1 _ _ _ _ Hw Hlk).
Qed.

Lemma tbl_insert l i j w :
  0 ≤ i < Z.of_nat (length l) → 0 ≤ j → tbl (<[Z.to_nat i := w]> l) j = if j =? i then w else tbl l j.
Proof.
  intros Hi Hj. unfold tbl. destruct (Z.eqb_spec j i) as [->|Hne].
  - apply nth_lookup_Some. apply list_lookup_insert_eq. lia.
  - rewrite !nth_lookup. by rewrite list_lookup_insert_ne by lia.
Qed.

Lemma total_insert l i w :
  (i < length l)%nat → total (<[i := w]> l) = total l - ones 32 (nth i l 0) + ones 32 w.
Proof.
  revert i. induction l as [|x l IH]; intros [|i] Hi; cbn [length] in *; try lia.
  - unfold total. change (<[0%nat := w]> (x :: l)) with (w :: l). cbn [foldr nth]. lia.
  - specialize (IH i ltac:(lia)). change (<[S i := w]> (x :: l)) with (x :: <[i := w]> l).
    unfold total in *. cbn [foldr nth]. lia.
Qed.

Lemma total_range l : 0 ≤ total l ≤ 32 * Z.of_nat (length l).
Proof.
  unfold total. induction l as [|w l IH]; cbn [foldr length]; [lia|]. pose proof (ones_range 32 w). lia.
Qed.

Lemma u32_add_l x y : u32 (u32 x + y) = u32 (x + y).
Proof. unfold u32. by rewrite Zplus_mod_idemp_l. Qed.

(** The bits and the counter agree. *)
Definition state_ok (w : list Z * Z) : Prop := words_ok w.1 ∧ w.2 = u32 (total w.1).

Section update.
(** How a masked bit and an old bit combine, and the counters. *)
Context (g : bool → bool → bool) (Hg : ∀ x, g false x = x).
Context (bits count : Z → Z → Z) (middle middle_count : Z → Z).
Context (Hbits : ∀ m old, is_word m → is_word old → is_word (bits m old) ∧
  (∀ k, 0 ≤ k < 32 → Z.testbit (bits m old) k = g (Z.testbit m k) (Z.testbit old k)) ∧
  ones 32 (bits m old) = ones 32 old + count m old).
Context (Hmiddle : ∀ old, is_word old → is_word (middle old) ∧
  (∀ k, 0 ≤ k < 32 → Z.testbit (middle old) k = g true (Z.testbit old k)) ∧
  ones 32 (middle old) = ones 32 old + middle_count old).

Lemma update_word_ok f n (mask : Z → bool) off w :
  (∀ old, is_word old → is_word (f old) ∧
    (∀ k, 0 ≤ k < 32 → Z.testbit (f old) k = g (mask k) (Z.testbit old k)) ∧
    ones 32 (f old) = ones 32 old + n old) →
  state_ok w → 0 ≤ off < 64 →
  ∃ w', update_word f n off w = Some w' ∧ state_ok w' ∧
    ∀ j, 0 ≤ j → member w'.1 j = g ((j / 32 =? off) && mask (j mod 32)) (member w.1 j).
Proof.
  intros Hf [[Hl Hw] Hc] Hoff. unfold update_word.
  destruct (tbl_word w.1 off) as [-> Hold]; [done|done|]. cbn [mbind option_bind].
  destruct (Hf _ Hold) as (Hf1 & Hf2 & Hf3).
  unfold wr. rewrite decide_True by lia. cbn [mbind option_bind]. eexists. split; [reflexivity|]. split.
  - split; cbn [fst snd].
    + split; [by rewrite length_insert|by apply Forall_insert].
    + rewrite Hc, u32_add_l, total_insert by lia. fold (tbl w.1 off). rewrite Hf3. f_equal. lia.
  - intros j Hj. unfold member. cbn [fst]. rewrite tbl_insert by (lia || (apply Z.div_pos; lia)).
    destruct (Z.eqb_spec (j / 32) off) as [<-|]; cbn [andb]; [|by rewrite Hg].
    apply Hf2. apply Z.mod_pos_bound. lia.
Qed.

Lemma word_loop_ok fuel fo lo w :
  lo - fo ≤ Z.of_nat fuel + 1 → -1 ≤ fo → lo ≤ 64 → state_ok w →
  ∃ w', word_loop fuel middle middle_count fo lo w = Some w' ∧ state_ok w' ∧
    ∀ j, 0 ≤ j → member w'.1 j = g ((fo <? j / 32) && (j / 32 <? lo)) (member w.1 j).
Proof.
  revert fo w. induction fuel as [|fuel IH]; intros fo w Hfuel Hfo Hlo Hok; cbn [word_loop];
    destruct (Z.ltb_spec (fo + 1) lo); try lia.
  1, 3: exists w; split; [done|]; split; [done|]; intros j Hj;
    destruct (Z.ltb_spec fo (j / 32)), (Z.ltb_spec (j / 32) lo); cbn [andb]; try lia; by rewrite Hg.
  destruct (update_word_ok middle middle_count (λ _, true) (fo + 1) w) as (w1 & -> & Hok1 & H1);
    [done|done|lia|]. cbn [mbind option_bind].
  destruct (IH (fo + 1) w1) as (w2 & -> & Hok2 & H2); [lia|lia|done|done|].
  exists w2. split; [done|]. split; [done|]. intros j Hj. rewrite H2, H1 by done. rewrite andb_true_r.
  destruct (Z.eqb_spec (j / 32) (fo + 1)), (Z.ltb_spec (fo + 1) (j / 32)), (Z.ltb_spec (j / 32) lo),
    (Z.ltb_spec fo (j / 32)); cbn [andb]; try lia; by rewrite ?Hg.
Qed.

Lemma land31 p : (p - 0x100) mod 32 = p .& 31.
Proof.
  rewrite (land_ones_mod _ 5) by done. change (2 ^ 5) with 32.
  replace p with (p - 0x100 + 8 * 32) at 2 by lia. by rewrite Z_mod_plus_full.
Qed.

Lemma first_mask_ok p : is_word (first_mask p) ∧
  ∀ k, 0 ≤ k < 32 → Z.testbit (first_mask p) k = ((p - 0x100) mod 32 <=? k).
Proof.
  split; [apply u32_range|]. intros k Hk. unfold first_mask. rewrite <-land31.
  pose proof (Z.mod_pos_bound (p - 0x100) 32 ltac:(lia)). set (r := (p - 0x100) mod 32) in *. clearbody r.
  rewrite u32_testbit, Z.shiftl_spec by lia. destruct (Z.leb_spec r k).
  - apply Z.bits_m1. lia.
  - apply Z.testbit_neg_r. lia.
Qed.

Lemma last_mask_ok p : is_word (last_mask p) ∧
  ∀ k, 0 ≤ k < 32 → Z.testbit (last_mask p) k = (k <=? (p - 0x100) mod 32).
Proof.
  split; [apply u32_range|]. intros k Hk. unfold last_mask. rewrite <-land31.
  pose proof (Z.mod_pos_bound (p - 0x100) 32 ltac:(lia)). set (r := (p - 0x100) mod 32) in *. clearbody r.
  rewrite u32_testbit, Z.lnot_spec, Z.shiftl_spec by lia. change (-2) with (Z.lnot 1).
  destruct (Z.leb_spec k r).
  - destruct (decide (k = r)) as [->|]; [by rewrite Z.sub_diag|]. by rewrite Z.testbit_neg_r by lia.
  - rewrite Z.lnot_spec by lia. rewrite negb_involutive.
    apply (testbit_small 1 1); lia.
Qed.

Lemma update_range_ok a b w :
  0x100 ≤ a ≤ b → b ≤ 0x8FF → state_ok w →
  ∃ w', update_range bits count middle middle_count a b w = Some w' ∧ state_ok w' ∧
    ∀ j, 0 ≤ j → member w'.1 j = g ((a - 0x100 <=? j) && (j <=? b - 0x100)) (member w.1 j).
Proof.
  intros Ha Hb Hok. unfold update_range. rewrite !Z.shiftr_div_pow2 by done. change (2 ^ 5) with 32.
  destruct (first_mask_ok a) as [Hfm1 Hfm2]. destruct (last_mask_ok b) as [Hlm1 Hlm2].
  set (fm := first_mask a) in *. set (lm := last_mask b) in *. clearbody fm lm.
  remember (a - 0x100) as x. remember (b - 0x100) as y.
  assert (0 ≤ x ≤ y ∧ y < 2048) as Hxy by lia. clear Heqx Heqy Ha Hb a b.
  pose proof (Z.div_mod x 32 ltac:(lia)) as Dx. pose proof (Z.mod_pos_bound x 32 ltac:(lia)) as Mx.
  pose proof (Z.div_mod y 32 ltac:(lia)) as Dy. pose proof (Z.mod_pos_bound y 32 ltac:(lia)) as My.
  assert (∀ m, is_word m → ∀ k, 0 ≤ k < 32 → Z.testbit (lm .& m) k = (k <=? y mod 32) && Z.testbit m k) as Hand.
  { intros m _ k Hk. by rewrite Z.land_spec, Hlm2. }
  assert (∀ m, is_word m → is_word (lm .& m)) as Hwand
    by (intros m Hm; by apply (land_range 32)).
  assert (∀ j, 0 ≤ j → j = 32 * (j / 32) + j mod 32 ∧ 0 ≤ j mod 32 < 32) as Hj32.
  { intros j Hj. pose proof (Z.div_mod j 32 ltac:(lia)). pose proof (Z.mod_pos_bound j 32 ltac:(lia)). lia. }
  destruct (Z.eqb_spec (x / 32) (y / 32)) as [E|E]; cbn [negb mbind option_bind].
  - destruct (update_word_ok (bits (lm .& fm)) (count (lm .& fm)) (Z.testbit (lm .& fm)) (y / 32) w)
      as (w1 & -> & Hok1 & H1); [by auto|done|lia|].
    exists w1. split; [done|]. split; [done|]. intros j Hj. rewrite H1 by done. destruct (Hj32 j Hj).
    rewrite Hand, Hfm2 by done. f_equal.
    destruct (Z.eqb_spec (j / 32) (y / 32)), (Z.leb_spec (j mod 32) (y mod 32)),
      (Z.leb_spec (x mod 32) (j mod 32)), (Z.leb_spec x j), (Z.leb_spec j y); cbn [andb]; done || lia.
  - destruct (update_word_ok (bits fm) (count fm) (Z.testbit fm) (x / 32) w)
      as (w1 & -> & Hok1 & H1); [by auto|done|lia|]. cbn [mbind option_bind].
    destruct (word_loop_ok 64 (x / 32) (y / 32) w1) as (w2 & -> & Hok2 & H2); [lia|lia|lia|done|].
    cbn [mbind option_bind].
    assert (is_word 0xFFFFFFFF) as Hones by done.
    destruct (update_word_ok (bits (lm .& 0xFFFFFFFF)) (count (lm .& 0xFFFFFFFF)) (Z.testbit (lm .& 0xFFFFFFFF)) (y / 32) w2)
      as (w3 & -> & Hok3 & H3); [by auto|done|lia|].
    exists w3. split; [done|]. split; [done|]. intros j Hj. rewrite H3, H2, H1 by done. destruct (Hj32 j Hj).
    rewrite Hand, Hfm2 by done. change 0xFFFFFFFF with (Z.ones 32). rewrite Z.ones_spec_low, andb_true_r by lia.
    destruct (Z.eqb_spec (j / 32) (y / 32)), (Z.leb_spec (j mod 32) (y mod 32)),
      (Z.ltb_spec (x / 32) (j / 32)), (Z.ltb_spec (j / 32) (y / 32)), (Z.eqb_spec (j / 32) (x / 32)),
      (Z.leb_spec (x mod 32) (j mod 32)), (Z.leb_spec x j), (Z.leb_spec j y);
      cbn [andb]; try lia; by rewrite ?Hg.
Qed.
End update.

Lemma ones_minus m old : is_word m → is_word old →
  is_word (m .& Z.lnot old) ∧ ones 32 (m .| old) = ones 32 old + _vbi_popcnt (m .& Z.lnot old).
Proof.
  intros Hm Hold. assert (is_word (m .& Z.lnot old)) as Hw by (by apply (land_range_r 32)).
  split; [done|]. rewrite popcnt_ones by exact Hw.
  replace (m .| old) with (old .| (m .& Z.lnot old)).
  - apply ones_lor. apply Z.bits_inj'. intros k Hk.
    rewrite !Z.land_spec, Z.lnot_spec, Z.bits_0 by done. destruct (Z.testbit old k), (Z.testbit m k); done.
  - apply Z.bits_inj'. intros k Hk. rewrite !Z.lor_spec, Z.land_spec, Z.lnot_spec by done.
    destruct (Z.testbit old k), (Z.testbit m k); done.
Qed.

Lemma set_bits_ok m old : is_word m → is_word old → is_word (set_bits m old) ∧
  (∀ k, 0 ≤ k < 32 → Z.testbit (set_bits m old) k = Z.testbit m k || Z.testbit old k) ∧
  ones 32 (set_bits m old) = ones 32 old + set_count m old.
Proof.
  intros Hm Hold. split; [by apply (lor_range 32)|]. split; [intros; apply Z.lor_spec|].
  by apply ones_minus.
Qed.

Lemma set_middle_ok old : is_word old → is_word 0xFFFFFFFF ∧
  (∀ k, 0 ≤ k < 32 → Z.testbit 0xFFFFFFFF k = true || Z.testbit old k) ∧
  ones 32 0xFFFFFFFF = ones 32 old + (32 - _vbi_popcnt old).
Proof.
  intros Hold. split; [done|]. split.
  - intros k Hk. change 0xFFFFFFFF with (Z.ones 32). by rewrite Z.ones_spec_low by lia.
  - rewrite popcnt_ones by done. change (ones 32 0xFFFFFFFF) with 32. lia.
Qed.

Lemma clear_bits_ok m old : is_word m → is_word old → is_word (clear_bits m old) ∧
  (∀ k, 0 ≤ k < 32 → Z.testbit (clear_bits m old) k = negb (Z.testbit m k) && Z.testbit old k) ∧
  ones 32 (clear_bits m old) = ones 32 old + clear_count m old.
Proof.
  intros Hm Hold. unfold clear_bits, clear_count. split; [by apply (land_range_r 32)|]. split.
  - intros k Hk. rewrite Z.land_spec, Z.lnot_spec by lia. apply andb_comm.
  - assert (is_word (old .& m)) as Hw by (by apply (land_range_r 32)). rewrite popcnt_ones by exact Hw.
    assert (old = (old .& Z.lnot m) .| (old .& m)) as E.
    { apply Z.bits_inj'. intros k Hk. rewrite Z.lor_spec, !Z.land_spec, Z.lnot_spec by done.
      destruct (Z.testbit old k), (Z.testbit m k); done. }
    rewrite E at 2. rewrite ones_lor; [lia|]. apply Z.bits_inj'. intros k Hk.
    rewrite !Z.land_spec, Z.lnot_spec, Z.bits_0 by done. destruct (Z.testbit old k), (Z.testbit m k); done.
Qed.

Lemma clear_middle_ok old : is_word old → is_word 0 ∧
  (∀ k, 0 ≤ k < 32 → Z.testbit 0 k = negb true && Z.testbit old k) ∧
  ones 32 0 = ones 32 old + - _vbi_popcnt old.
Proof.
  intros Hold. split; [done|]. split; [intros; apply Z.bits_0|]. rewrite popcnt_ones by done.
  change (ones 32 0) with 0. lia.
Qed.

(** ** The table as a set *)

(** The counter is right, and ranges of subpages only belong to pages that are not
    in the table as a whole. *)
Definition pt_ok (pt : vbi_page_table) : Prop :=
  state_ok (pages pt, pages_popcnt pt) ∧
  Forall (λ r, 0x100 ≤ pgno r ≤ 0x8FF ∧ member (pages pt) (pgno r - 0x100) = false) (subpages pt).

Lemma valid_pgno_spec p : 0 ≤ p < 2 ^ 31 → valid_pgno p = (0x100 <=? p) && (p <=? 0x8FF).
Proof.
  intros Hp. unfold valid_pgno, u32. destruct (Z.leb_spec 0x100 p).
  - rewrite Z.mod_small by lia. destruct (Z.ltb_spec (p - 0x100) 0x800), (Z.leb_spec p 0x8FF); done || lia.
  - rewrite <-(Z_mod_plus_full _ 1), Z.mod_small by lia. apply Z.ltb_ge. lia.
Qed.

Lemma contains_all_member pt p :
  pt_ok pt → 0x100 ≤ p ≤ 0x8FF → contains_all_subpages pt p = Some (member (pages pt) (p - 0x100)).
Proof.
  intros [[Hw _] _] Hp. unfold contains_all_subpages. rewrite Z.shiftr_div_pow2 by done.
  change (2 ^ 5) with 32.
  destruct (tbl_word (pages pt) ((p - 0x100) / 32)) as [-> _]; [done| |].
  { split; [apply Z.div_pos; lia|apply Z.div_lt_upper_bound; lia]. }
  cbn [mbind option_bind]. rewrite <-land31. pose proof (Z.mod_pos_bound (p - 0x100) 32 ltac:(lia)).
  rewrite Z.shiftl_1_l, u32_small.
  - by rewrite land_pow2_eqb, negb_involutive by lia.
  - split; [lia|]. apply Z.pow_lt_mono_r; lia.
Qed.

(** Whether a subpage, or any subpage, of a page is in one of the ranges. *)
Definition in_ranges (l : list subpage_range) (p subno : Z) : bool :=
  existsb (λ r, (p =? pgno r) && ((subno =? VBI_ANY_SUBNO) || (first r <=? subno) && (subno <=? last r))) l.

Lemma existsb_same {A} (f g : A → bool) l : (∀ x, f x = g x) → existsb f l = existsb g l.
Proof. intros H. induction l as [|x l IH]; cbn [existsb]; [done|]. by rewrite H, IH. Qed.

Lemma contains_spec pt p subno :
  pt_ok pt → 0x100 ≤ p ≤ 0x8FF →
  vbi_page_table_contains_subpage pt p subno =
  Some (member (pages pt) (p - 0x100) || in_ranges (subpages pt) p subno).
Proof.
  intros Hok Hp. unfold vbi_page_table_contains_subpage. rewrite valid_pgno_spec by lia.
  destruct (Z.leb_spec 0x100 p), (Z.leb_spec p 0x8FF); try lia. cbn [andb negb].
  rewrite contains_all_member by done. cbn [mbind option_bind]. do 2 f_equal. unfold in_ranges.
  destruct (subno =? VBI_ANY_SUBNO); apply existsb_same; intros r; cbn [orb].
  - by rewrite andb_true_r.
  - by rewrite andb_assoc.
Qed.

Definition outside (a b : Z) (r : subpage_range) : bool := (pgno r <? a) || (b <? pgno r).

(** Ranges of other pages are kept. *)
Lemma in_ranges_filter l a b p subno :
  in_ranges (List.filter (outside a b) l) p subno = negb ((a <=? p) && (p <=? b)) && in_ranges l p subno.
Proof.
  unfold in_ranges. induction l as [|r l IH]; cbn [List.filter existsb]; [by rewrite andb_false_r|].
  unfold outside at 1.
  destruct (Z.ltb_spec (pgno r) a), (Z.ltb_spec b (pgno r)); cbn [orb existsb]; rewrite IH;
    destruct (Z.eqb_spec p (pgno r)) as [->|]; cbn [andb orb]; try done;
    destruct (Z.leb_spec a (pgno r)), (Z.leb_spec (pgno r) b); cbn [andb negb orb]; done || lia.
Qed.

Lemma shrink_fields realloc pt :
  pages (shrink_subpages_vector realloc pt) = pages pt ∧
  pages_popcnt (shrink_subpages_vector realloc pt) = pages_popcnt pt ∧
  subpages (shrink_subpages_vector realloc pt) = subpages pt.
Proof. unfold shrink_subpages_vector. by destruct (_ <=? _). Qed.

Lemma swap_eq a b : (if b <? a then (b, a) else (a, b)) = (Z.min a b, Z.max a b).
Proof. destruct (Z.ltb_spec b a); f_equal; lia. Qed.

Lemma full_range l j (x : Z) (bit : bool) :
  (∀ k, 0 ≤ k < 32 → Z.testbit x k = bit) → l = repeat x 64 → 0 ≤ j < 2048 → member l j = bit.
Proof.
  intros Hx -> Hj. unfold member, tbl. rewrite nth_repeat_lt.
  - apply Hx. apply Z.mod_pos_bound. lia.
  - assert (j / 32 < 64) by (apply Z.div_lt_upper_bound; lia). lia.
Qed.

(** The result of adding or removing, for a combination [g] of the range and the old bit. *)
Definition updated (g : bool → bool → bool) (a b : Z) (pt pt' : vbi_page_table) : Prop :=
  state_ok (pages pt', pages_popcnt pt') ∧ subpages pt' = List.filter (outside a b) (subpages pt) ∧
  ∀ j, 0 ≤ j < 2048 →
    member (pages pt') j = g ((a - 0x100 <=? j) && (j <=? b - 0x100)) (member (pages pt) j).

Lemma filter_all {A} (f : A → bool) l : (∀ x, In x l → f x = false) → List.filter f l = [].
Proof.
  induction l as [|x l IH]; intros H; cbn [List.filter]; [done|].
  rewrite (H x) by (by left). apply IH. intros y Hy. apply H. by right.
Qed.

Lemma full_filter pt : pt_ok pt → List.filter (outside 0x100 0x8FF) (subpages pt) = [].
Proof.
  intros [_ Hr]. apply filter_all. intros r Hin. rewrite List.Forall_forall in Hr.
  destruct (Hr r Hin) as [Hv _]. unfold outside.
  destruct (Z.ltb_spec (pgno r) 0x100), (Z.ltb_spec 0x8FF (pgno r)); done || lia.
Qed.

Lemma add_pages_updated realloc pt a b :
  pt_ok pt → 0x100 ≤ a ≤ 0x8FF → 0x100 ≤ b ≤ 0x8FF →
  ∃ pt', vbi_page_table_add_pages realloc pt a b = Some (pt', true) ∧
    updated orb (Z.min a b) (Z.max a b) pt pt'.
Proof.
  intros Hok Ha Hb. unfold vbi_page_table_add_pages, valid_pgno_range. rewrite !valid_pgno_spec by lia.
  destruct (Z.leb_spec 0x100 a), (Z.leb_spec a 0x8FF), (Z.leb_spec 0x100 b), (Z.leb_spec b 0x8FF); try lia.
  cbn [andb negb]. rewrite swap_eq. remember (Z.min a b) as lo eqn:Elo. remember (Z.max a b) as hi eqn:Ehi.
  assert (0x100 ≤ lo ≤ hi ∧ hi ≤ 0x8FF) as Hr by lia. clear Elo Ehi.
  destruct ((hi =? 0x8FF) && (lo =? 0x100)) eqn:Efull.
  - apply andb_true_iff in Efull as [E1 E2]. apply Z.eqb_eq in E1 as ->. apply Z.eqb_eq in E2 as ->.
    eexists. split; [reflexivity|]. destruct (shrink_fields realloc (set_subpages [] pt)) as (_ & _ & Hs).
    split; cbn [set_pages pages pages_popcnt subpages].
    + split; [|by vm_compute]. split; [done|]. apply List.Forall_forall. intros w Hw.
      apply repeat_spec in Hw as ->. done.
    + rewrite Hs, full_filter by done. split; [done|]. intros j Hj.
      rewrite (full_range _ j 0xFFFFFFFF true);
        [|intros k Hk; change 0xFFFFFFFF with (Z.ones 32); by rewrite Z.ones_spec_low by lia|done|done].
      destruct (Z.leb_spec (0x100 - 0x100) j), (Z.leb_spec j (0x8FF - 0x100)); done || lia.
  - unfold remove_subpages_in_page_range. fold (outside lo hi).
    destruct (shrink_fields realloc (set_subpages (List.filter (outside lo hi) (subpages pt)) pt)) as (-> & -> & Hs).
    cbn [set_subpages pages pages_popcnt].
    destruct (update_range_ok orb (λ x, eq_refl) set_bits set_count (λ _, 0xFFFFFFFF) (λ old, 32 - _vbi_popcnt old)
      set_bits_ok set_middle_ok lo hi (pages pt, pages_popcnt pt)) as (w & -> & Hw & Hm); [lia|lia|apply Hok|].
    cbn [mbind option_bind]. eexists. split; [reflexivity|]. destruct w as [l c].
    split; [exact Hw|]. split; [exact Hs|]. intros j Hj. apply Hm. lia.
Qed.

Lemma remove_pages_updated realloc pt a b :
  pt_ok pt → 0x100 ≤ a ≤ 0x8FF → 0x100 ≤ b ≤ 0x8FF →
  ∃ pt', vbi_page_table_remove_pages realloc pt a b = Some (pt', true) ∧
    updated (λ m old, negb m && old) (Z.min a b) (Z.max a b) pt pt'.
Proof.
  intros Hok Ha Hb. unfold vbi_page_table_remove_pages, valid_pgno_range. rewrite !valid_pgno_spec by lia.
  destruct (Z.leb_spec 0x100 a), (Z.leb_spec a 0x8FF), (Z.leb_spec 0x100 b), (Z.leb_spec b 0x8FF); try lia.
  cbn [andb negb]. rewrite swap_eq. remember (Z.min a b) as lo eqn:Elo. remember (Z.max a b) as hi eqn:Ehi.
  assert (0x100 ≤ lo ≤ hi ∧ hi ≤ 0x8FF) as Hr by lia. clear Elo Ehi.
  destruct ((hi =? 0x8FF) && (lo =? 0x100)) eqn:Efull.
  - apply andb_true_iff in Efull as [E1 E2]. apply Z.eqb_eq in E1 as ->. apply Z.eqb_eq in E2 as ->.
    eexists. split; [reflexivity|]. destruct (shrink_fields realloc (set_subpages [] pt)) as (_ & _ & Hs).
    split; cbn [set_pages pages pages_popcnt subpages].
    + split; [|by vm_compute]. split; [done|]. apply List.Forall_forall. intros w Hw.
      apply repeat_spec in Hw as ->. done.
    + rewrite Hs, full_filter by done. split; [done|]. intros j Hj.
      rewrite (full_range _ j 0 false); [|intros; apply Z.bits_0|done|done].
      destruct (Z.leb_spec (0x100 - 0x100) j), (Z.leb_spec j (0x8FF - 0x100)); done || lia.
  - unfold remove_subpages_in_page_range. fold (outside lo hi).
    destruct (shrink_fields realloc (set_subpages (List.filter (outside lo hi) (subpages pt)) pt)) as (-> & -> & Hs).
    cbn [set_subpages pages pages_popcnt].
    destruct (update_range_ok (λ m old, negb m && old) (λ x, eq_refl) clear_bits clear_count (λ _, 0)
      (λ old, - _vbi_popcnt old) clear_bits_ok clear_middle_ok lo hi (pages pt, pages_popcnt pt))
      as (w & -> & Hw & Hm); [lia|lia|apply Hok|].
    cbn [mbind option_bind]. eexists. split; [reflexivity|]. destruct w as [l c].
    split; [exact Hw|]. split; [exact Hs|]. intros j Hj. apply Hm. lia.
Qed.

(** The invariant is kept by every such update that leaves the old bits alone outside
    of the range. *)
Lemma updated_ok g a b pt pt' :
  (∀ x, g false x = x) → pt_ok pt → updated g a b pt pt' → pt_ok pt'.
Proof.
  intros Hg [_ Hr] (Hw & Hs & Hm). split; [done|]. rewrite Hs. apply List.Forall_forall.
  intros r Hin. apply filter_In in Hin as [Hin Hout]. rewrite List.Forall_forall in Hr.
  destruct (Hr r Hin) as [Hv Hmem]. split; [done|]. rewrite Hm by lia. unfold outside in Hout.
  apply orb_true_iff in Hout. rewrite !Z.ltb_lt in Hout.
  destruct (Z.leb_spec (a - 0x100) (pgno r - 0x100)), (Z.leb_spec (pgno r - 0x100) (b - 0x100));
    cbn [andb]; rewrite ?Hg; done || lia.
Qed.

Lemma updated_contains g a b pt pt' p subno :
  pt_ok pt → pt_ok pt' → updated g a b pt pt' → 0x100 ≤ p ≤ 0x8FF →
  vbi_page_table_contains_subpage pt' p subno =
  Some (g ((a <=? p) && (p <=? b)) (member (pages pt) (p - 0x100)) ||
        negb ((a <=? p) && (p <=? b)) && in_ranges (subpages pt) p subno).
Proof.
  intros Hok Hok' (_ & Hs & Hm) Hp. rewrite contains_spec by done.
  rewrite Hm, Hs, in_ranges_filter by lia. do 2 f_equal. f_equal.
  destruct (Z.leb_spec (a - 0x100) (p - 0x100)), (Z.leb_spec (p - 0x100) (b - 0x100)),
    (Z.leb_spec a p), (Z.leb_spec p b); done || lia.
Qed.

(** C29: adding and removing pages are set operations: after either, in whatever order
    its bounds are given, a page in the range is in the table with all its
    subpages, or with none, and the answer for every other page and subpage is what
    it was; the bits, the counter and the ranges of subpages stay consistent. *)
Theorem page_table_add_remove_correct (realloc : Z → bool) (pt : vbi_page_table) (a b : Z) :
  pt_ok pt → 0x100 ≤ a ≤ 0x8FF → 0x100 ≤ b ≤ 0x8FF →
  let within p := (Z.min a b <=? p) && (p <=? Z.max a b) in
  (∃ pt', vbi_page_table_add_pages realloc pt a b = Some (pt', true) ∧ pt_ok pt' ∧
    ∀ p subno, 0x100 ≤ p ≤ 0x8FF →
      vbi_page_table_contains_subpage pt' p subno =
      if within p then Some true else vbi_page_table_contains_subpage pt p subno) ∧
  (∃ pt', vbi_page_table_remove_pages realloc pt a b = Some (pt', true) ∧ pt_ok pt' ∧
    ∀ p subno, 0x100 ≤ p ≤ 0x8FF →
      vbi_page_table_contains_subpage pt' p subno =
      if within p then Some false else vbi_page_table_contains_subpage pt p subno).
Proof.
  intros Hok Ha Hb within. split.
  - destruct (add_pages_updated realloc pt a b Hok Ha Hb) as (pt' & E & Hu). exists pt'.
    pose proof (updated_ok orb _ _ _ _ (λ x, eq_refl) Hok Hu) as Hok'. split_and!; [done|done|].
    intros p subno Hp. rewrite (updated_contains _ _ _ _ _ _ _ Hok Hok' Hu Hp), contains_spec by done.
    subst within. cbv beta. by destruct ((Z.min a b <=? p) && (p <=? Z.max a b)).
  - destruct (remove_pages_updated realloc pt a b Hok Ha Hb) as (pt' & E & Hu). exists pt'.
    pose proof (updated_ok _ _ _ _ _ (λ x, eq_refl : negb false && x = x) Hok Hu) as Hok'. split_and!; [done|done|].
    intros p subno Hp. rewrite (updated_contains _ _ _ _ _ _ _ Hok Hok' Hu Hp), contains_spec by done.
    subst within. cbv beta. by destruct ((Z.min a b <=? p) && (p <=? Z.max a b)).
Qed.

Lemma new_ok : pt_ok vbi_page_table_new.
Proof.
  split; [|constructor]. split; [|by vm_compute]. split; [done|].
  apply List.Forall_forall. intros w Hw. apply repeat_spec in Hw as ->. done.
Qed.

Lemma page_table_add_remove_correct_witness :
  ∃ pt, vbi_page_table_add_pages (λ _, true) vbi_page_table_new 0x1F0 0x120 = Some (pt, true) ∧ pt_ok pt ∧
    vbi_page_table_contains_subpage pt 0x19F 5 = Some true ∧
    vbi_page_table_contains_subpage pt 0x200 5 = Some false.
Proof.
  destruct (page_table_add_remove_correct (λ _, true) vbi_page_table_new 0x1F0 0x120)
    as [(pt & E & Hok & Hc) _].
  - apply new_ok.
  - lia.
  - lia.
  - exists pt. split; [exact E|]. split; [exact Hok|]. split; by rewrite Hc by lia.
Defined.

(** ** Iteration over pages *)

Lemma ffs_spec n w :
  0 < w < 2 ^ Z.of_nat n →
  1 ≤ ffs n w ≤ Z.of_nat n ∧ Z.testbit w (ffs n w - 1) = true ∧
  ∀ k, 0 ≤ k < ffs n w - 1 → Z.testbit w k = false.
Proof.
  revert w. induction n as [|n IH]; intros w Hw; [cbn in Hw; lia|]. cbn [ffs].
  rewrite Nat2Z.inj_succ, Z.pow_succ_r in Hw by lia.
  pose proof (Z.div2_odd w) as Ew. rewrite Z.div2_div in Ew.
  destruct (Z.odd w) eqn:Eo; cbn [Z.b2z] in Ew.
  - split; [lia|]. split; [by rewrite Z.sub_diag, Z.bit0_odd|lia].
  - destruct (IH (w / 2)) as (H1 & H2 & H3); [lia|]. split; [lia|].
    assert (∀ k, 0 ≤ k → Z.testbit w (k + 1) = Z.testbit (w / 2) k) as Hk.
    { intros k Hk. rewrite <-Z.div2_div, Z.div2_spec, Z.shiftr_spec by done. done. }
    split.
    + rewrite <-H2, <-Hk by lia. f_equal. lia.
    + intros k Hk'. destruct (decide (k = 0)) as [->|]; [by rewrite Z.bit0_odd|].
      replace k with (k - 1 + 1) by lia. rewrite Hk by lia. apply H3. lia.
Qed.

Lemma mask_loop_spec fuel l mask off :
  words_ok l → 0 ≤ off < 64 → 64 - off ≤ Z.of_nat fuel → 0 ≤ mask →
  match mask_loop fuel l mask off (0x100 + 32 * off) with
  | Some (Some (m, np)) =>
      m ≠ 0 ∧ ∃ o, off ≤ o < 64 ∧ np = 0x100 + 32 * o ∧ m = (if o =? off then mask else tbl l o) ∧
        (off < o → mask = 0) ∧ (∀ i, off < i < o → tbl l i = 0)
  | Some None => mask = 0 ∧ ∀ i, off < i < 64 → tbl l i = 0
  | None => False
  end.
Proof.
  intros Hl. revert mask off. induction fuel as [|fuel IH]; intros mask off Hoff Hf Hm; cbn [mask_loop];
    destruct (Z.eqb_spec mask 0) as [->|Hne]; cbn [negb];
    try (split; [done|]; exists off; rewrite Z.eqb_refl; split_and!; (done || lia)).
  1: lia.
  destruct (Z.leb_spec 0x900 (0x100 + 32 * off + 32)); [split; [done|intros; lia]|].
  destruct (tbl_word l (off + 1)) as [-> Hw]; [done|lia|]. cbn [mbind option_bind].
  replace (0x100 + 32 * off + 32) with (0x100 + 32 * (off + 1)) by lia.
  specialize (IH (tbl l (off + 1)) (off + 1) ltac:(lia) ltac:(lia) ltac:(apply Hw)).
  destruct (mask_loop fuel l _ _ _) as [[[m np]|]|]; [..|done].
  - destruct IH as (Hm0 & o & Ho & -> & -> & Hz & Hi). split; [done|]. exists o.
    split; [lia|]. split; [done|]. destruct (Z.eqb_spec o off); [lia|].
    split; [destruct (Z.eqb_spec o (off + 1)) as [E|]; [by rewrite E|done]|]. split; [lia|].
    intros i Hi'. destruct (decide (i = off + 1)) as [->|]; [apply Hz; lia|apply Hi; lia].
  - destruct IH as (Hz & Hi). split; [done|].
    intros i Hi'. destruct (decide (i = off + 1)) as [->|]; [done|apply Hi; lia].
Qed.

Lemma align32 x : x .& Z.lnot 31 = 32 * (x / 32).
Proof.
  rewrite <-Z.ldiff_land. change 31 with (Z.ones 5). rewrite Z.ldiff_ones_r by done.
  rewrite Z.shiftl_mul_pow2, Z.shiftr_div_pow2 by done. change (2 ^ 5) with 32. lia.
Qed.

Lemma member_zero l j : tbl l (j / 32) = 0 → member l j = false.
Proof. intros H. unfold member. rewrite H. apply Z.bits_0. Qed.

Lemma page_divmod r :
  r - 0x100 = 32 * ((r - 0x100) / 32) + (r - 0x100) mod 32 ∧ 0 ≤ (r - 0x100) mod 32 < 32.
Proof. split; [apply Z.div_mod; lia|apply Z.mod_pos_bound; lia]. Qed.

(** The pages of the first word the scan looks at. *)
Lemma first_word_member l np r :
  np ≤ r → (r - 0x100) / 32 = (np - 0x100) / 32 →
  member l (r - 0x100) = Z.testbit (first_mask np .& tbl l ((np - 0x100) / 32)) ((r - 0x100) mod 32).
Proof.
  intros Hr E. destruct (first_mask_ok np) as [_ Hfmb].
  destruct (page_divmod r), (page_divmod np).
  unfold member. rewrite E, Z.land_spec, Hfmb by done.
  destruct (Z.leb_spec ((np - 0x100) mod 32) ((r - 0x100) mod 32)); [done|lia].
Qed.

(** The scan from [np] finds the first page of the table at or above it. *)
Lemma mask_loop_first_page l np :
  words_ok l → 0x100 ≤ np ≤ 0x8FF →
  match mask_loop 64 l (first_mask np .& tbl l ((np - 0x100) / 32)) ((np - 0x100) / 32)
          (0x100 + 32 * ((np - 0x100) / 32)) with
  | Some (Some (m, np')) =>
      np ≤ np' + ffs 32 m - 1 ≤ 0x8FF ∧ member l (np' + ffs 32 m - 1 - 0x100) = true ∧
      ∀ r, np ≤ r < np' + ffs 32 m - 1 → member l (r - 0x100) = false
  | Some None => ∀ r, np ≤ r ≤ 0x8FF → member l (r - 0x100) = false
  | None => False
  end.
Proof.
  intros Hw Hnp. pose proof (first_word_member l np) as Hfirst.
  destruct (page_divmod np) as [Hdiv Hmod]. destruct (first_mask_ok np) as [Hfm Hfmb].
  set (off := (np - 0x100) / 32) in *.
  assert (0 ≤ off < 64) as Hoff by lia.
  destruct (tbl_word l off) as [_ Hword]; [done|done|].
  assert (is_word (first_mask np .& tbl l off)) as Hmw by (by apply (land_range 32)).
  pose proof (mask_loop_spec 64 l _ off Hw Hoff ltac:(lia) ltac:(apply Hmw)) as Hloop.
  destruct (mask_loop _ _ _ _ _) as [[[m np']|]|]; [..|done].
  - destruct Hloop as (Hm0 & o & Ho & -> & -> & Hz & Hi).
    set (w := if o =? off then _ else _) in *.
    assert (is_word w) as Hww.
    { subst w. destruct (o =? off); [done|]. apply tbl_word; [done|lia]. }
    destruct (ffs_spec 32 w) as (Hk1 & Hk2 & Hk3);
      [unfold is_word in Hww; change (2 ^ Z.of_nat 32) with (2 ^ 32); lia|].
    set (k := ffs 32 w) in *. clearbody k. change (Z.of_nat 32) with 32 in Hk1.
    set (q := 0x100 + 32 * o + k - 1).
    assert ((q - 0x100) / 32 = o ∧ (q - 0x100) mod 32 = k - 1) as [Eq1 Eq2].
    { subst q. replace (0x100 + 32 * o + k - 1 - 0x100) with (k - 1 + o * 32) by lia.
      rewrite Z.div_add, Z_mod_plus_full, Z.div_small, Z.mod_small by lia. lia. }
    assert (np ≤ q ≤ 0x8FF) as Hq.
    { subst q. split; [|lia]. destruct (decide (o = off)) as [->|]; [|lia].
      destruct (Z.le_gt_cases np (0x100 + 32 * off + k - 1)); [done|]. exfalso.
      subst w. rewrite Z.eqb_refl, Z.land_spec, Hfmb in Hk2 by lia.
      destruct (Z.leb_spec ((np - 0x100) mod 32) (k - 1)); [lia|done]. }
    split; [done|]. split.
    { destruct (Z.eqb_spec o off) as [Eo|Eo].
      - rewrite Hfirst by lia. by rewrite Eq2.
      - unfold member. by rewrite Eq1, Eq2. }
    intros r Hr. destruct (page_divmod r) as [Hr1 Hr2], (page_divmod q) as [Hq1 _].
    rewrite Eq1, Eq2 in Hq1. fold q in Hr.
    assert (off ≤ (r - 0x100) / 32 ≤ o) as Hro by (clear -Hr Hr1 Hr2 Hq1 Hdiv Hmod Hk1; lia).
    destruct (decide ((r - 0x100) / 32 = o)) as [E|E].
    + assert ((r - 0x100) mod 32 < k - 1) as Hlt by lia.
      destruct (Z.eqb_spec o off) as [Eo|Eo].
      * rewrite Hfirst by lia. apply Hk3. lia.
      * unfold member. rewrite E. apply Hk3. lia.
    + destruct (decide ((r - 0x100) / 32 = off)) as [E'|E'].
      * rewrite Hfirst by lia. rewrite Hz by lia. apply Z.bits_0.
      * apply member_zero, Hi. lia.
  - destruct Hloop as (Hz & Hi). intros r Hr. destruct (page_divmod r) as [Hr1 Hr2].
    destruct (decide ((r - 0x100) / 32 = off)) as [E|E].
    + rewrite Hfirst by lia. rewrite Hz. apply Z.bits_0.
    + apply member_zero, Hi. clear -Hr Hr1 Hr2 Hdiv Hmod E. lia.
Qed.

(** On a table without ranges of subpages [vbi_page_table_next_page] returns the
    lowest page above the given number that is in the table, or FALSE when there is
    none: the documented loop visits each page once, in order. *)
Theorem page_table_next_page_correct (pt : vbi_page_table) (p : Z) :
  pt_ok pt → subpages pt = [] → 0 ≤ p < 2 ^ 31 →
  match vbi_page_table_next_page pt p with
  | Some (Some q) =>
      p < q ∧ 0x100 ≤ q ≤ 0x8FF ∧ vbi_page_table_contains_page pt q = Some true ∧
      ∀ r, p < r < q → vbi_page_table_contains_page pt r = Some false
  | Some None => ∀ r, p < r < 2 ^ 31 → vbi_page_table_contains_page pt r = Some false
  | None => False
  end.
Proof.
  intros Hok Hsub Hp. pose proof Hok as [[Hw _] _]. cbn [fst] in Hw.
  assert (∀ r, 0x100 ≤ r ≤ 0x8FF →
    vbi_page_table_contains_page pt r = Some (member (pages pt) (r - 0x100))) as Hc.
  { intros r Hr. unfold vbi_page_table_contains_page. rewrite contains_spec, Hsub by done.
    unfold in_ranges. cbn [existsb]. by rewrite orb_false_r. }
  assert (∀ r, 0 ≤ r < 2 ^ 31 → r < 0x100 ∨ 0x8FF < r → vbi_page_table_contains_page pt r = Some false) as Hinv.
  { intros r Hr Hout. unfold vbi_page_table_contains_page, vbi_page_table_contains_subpage.
    rewrite valid_pgno_spec by done. destruct (Z.leb_spec 0x100 r), (Z.leb_spec r 0x8FF); done || lia. }
  unfold vbi_page_table_next_page, vbi_page_table_next_subpage. rewrite Hsub.
  destruct (Z.leb_spec 0x8FF p).
  { cbn. intros r Hr. apply Hinv; lia. }
  change (VBI_ANY_SUBNO <=? MAX_SUBNO) with false. rewrite andb_false_r.
  remember (if p <? 0x100 then 0x100 else p + 1) as np eqn:Enp.
  assert (0x100 ≤ np ≤ 0x8FF ∧ p < np ∧ ∀ r, p < r < np → r < 0x100) as (Hnp & Hpn & Hlow)
    by (destruct (Z.ltb_spec p 0x100); split_and!; intros; lia).
  clear Enp. cbn [min_page fold_left]. rewrite Z.shiftr_div_pow2 by done. change (2 ^ 5) with 32.
  fold (first_mask np). pose proof (page_divmod np).
  destruct (tbl_word (pages pt) ((np - 0x100) / 32)) as [-> Hword]; [done|lia|]. cbn [mbind option_bind].
  assert (np .& Z.lnot 31 = 0x100 + 32 * ((np - 0x100) / 32)) as ->.
  { rewrite align32. replace np with (np - 0x100 + 8 * 32) at 1 by lia. rewrite Z.div_add by done. lia. }
  pose proof (mask_loop_first_page (pages pt) np Hw Hnp) as Hscan.
  destruct (mask_loop _ _ _ _ _) as [[[m np']|]|]; [..|done]; cbn [mbind option_bind].
  - destruct Hscan as (Hq & Hqm & Hbelow).
    destruct (Z.ltb_spec 0x900 (np' + ffs 32 m - 1)); [lia|]. cbn [fmap option_fmap option_map fst].
    split; [lia|]. split; [lia|]. split; [by rewrite Hc, Hqm by lia|].
    intros r Hr. specialize (Hlow r).
    destruct (decide (np ≤ r)); [rewrite Hc, Hbelow by lia; done|apply Hinv; lia].
  - cbn [fmap option_fmap option_map]. intros r Hr. specialize (Hlow r).
    destruct (decide (np ≤ r ≤ 0x8FF)); [rewrite Hc, Hscan by lia; done|apply Hinv; lia].
Qed.

Lemma page_table_next_page_correct_witness :
  ∃ pt, vbi_page_table_add_pages (λ _, true) vbi_page_table_new 0x11F 0x121 = Some (pt, true) ∧
    match vbi_page_table_next_page pt 0x11F with
    | Some (Some q) =>
        0x11F < q ∧ 0x100 ≤ q ≤ 0x8FF ∧ vbi_page_table_contains_page pt q = Some true ∧
        ∀ r, 0x11F < r < q → vbi_page_table_contains_page pt r = Some false
    | Some None => ∀ r, 0x11F < r < 2 ^ 31 → vbi_page_table_contains_page pt r = Some false
    | None => False
    end ∧ vbi_page_table_next_page pt 0x11F = Some (Some 0x120).
Proof.
  destruct (add_pages_updated (λ _, true) vbi_page_table_new 0x11F 0x121) as (pt & E & Hu); [apply new_ok|lia|lia|].
  exists pt. split; [exact E|]. split.
  - apply (page_table_next_page_correct pt 0x11F); [|apply Hu|lia].
    exact (updated_ok orb _ _ _ _ (λ x, eq_refl) new_ok Hu).
  - vm_compute in E. injection E as <-. vm_compute. reflexivity.
Defined.

(** ** The number of pages *)

Lemma filter_map_length (f : Z → bool) (g : Z → Z) l :
  length (List.filter f (g <$> l)) = length (List.filter (λ k, f (g k)) l).
Proof.
  induction l as [|k l IH]; [done|]. cbn [fmap list_fmap List.filter].
  destruct (f (g k)); cbn [length]; by rewrite ?IH.
Qed.

Lemma filter_length_seqZ_S (f : Z → bool) m n :
  Z.of_nat (length (List.filter f (seqZ m (Z.of_nat (S n))))) =
  Z.b2z (f m) + Z.of_nat (length (List.filter (λ k, f (1 + k)) (seqZ m (Z.of_nat n)))).
Proof.
  rewrite seqZ_cons by lia. replace (Z.pred (Z.of_nat (S n))) with (Z.of_nat n) by lia.
  rewrite <-(Z.add_1_l m), <-fmap_add_seqZ. cbn [List.filter].
  destruct (f m); cbn [length Z.b2z]; rewrite filter_map_length; lia.
Qed.

Lemma filter_length_same (f g : Z → bool) m n :
  (∀ k, m ≤ k < m + n → f k = g k) →
  length (List.filter f (seqZ m n)) = length (List.filter g (seqZ m n)).
Proof.
  intros H. f_equal. apply List.filter_ext_in. intros k Hk%list_elem_of_In%elem_of_seqZ. apply H. lia.
Qed.

Lemma ones_count n w :
  ones n w = Z.of_nat (length (List.filter (Z.testbit w) (seqZ 0 (Z.of_nat n)))).
Proof.
  revert w. induction n as [|n IH]; intros w; [done|].
  rewrite filter_length_seqZ_S. cbn [ones]. rewrite IH, Z.bit0_odd, Zmod_odd.
  replace (if Z.odd w then 1 else 0) with (Z.b2z (Z.odd w)) by (by destruct (Z.odd w)). do 2 f_equal. apply filter_length_same. intros k Hk.
  rewrite <-Z.div2_div, Z.div2_spec, Z.shiftr_spec by lia. f_equal. lia.
Qed.

Lemma total_count l :
  total l = Z.of_nat (length (List.filter (member l) (seqZ 0 (32 * Z.of_nat (length l))))).
Proof.
  induction l as [|w l IH]; [done|]. unfold total in *. cbn [foldr length]. rewrite IH, (ones_count 32).
  replace (32 * Z.of_nat (S (length l))) with (32 + 32 * Z.of_nat (length l)) by lia.
  rewrite seqZ_app by lia. rewrite List.filter_app, length_app, Nat2Z.inj_add.
  apply (f_equal2 Z.add); apply (f_equal Z.of_nat).
  - apply filter_length_same. intros k Hk. unfold member. rewrite Z.div_small, Z.mod_small by lia. done.
  - replace (0 + 32) with (32 + 0) by lia. rewrite <-fmap_add_seqZ, filter_map_length.
    apply filter_length_same. intros k Hk. unfold member, tbl.
    replace (32 + k) with (k + 1 * 32) by lia. rewrite Z.div_add, Z_mod_plus_full by lia.
    replace (Z.to_nat (k / 32 + 1)) with (S (Z.to_nat (k / 32))); [done|].
    assert (0 ≤ k / 32) by (apply Z.div_pos; lia). lia.
Qed.

(** On a table without ranges of subpages the counter that
    [vbi_page_table_num_pages] returns is the number of pages in the table. *)
Theorem page_table_num_pages_correct (pt : vbi_page_table) :
  pt_ok pt → subpages pt = [] →
  vbi_page_table_num_pages pt =
  Z.of_nat (length (List.filter (λ p, bool_decide (vbi_page_table_contains_page pt p = Some true))
    (seqZ 0x100 0x800))).
Proof.
  intros Hok Hs. pose proof Hok as [[[Hl Hw] Hc] _]. cbn [fst snd] in Hl, Hc.
  unfold vbi_page_table_num_pages, subpages_size. rewrite Hs, Hc, u32_add_l, Z.add_0_r.
  pose proof (total_range (pages pt)). rewrite u32_small by lia. rewrite total_count, Hl.
  change (seqZ 0x100 0x800) with (seqZ (0x100 + 0) 0x800).
  rewrite <-fmap_add_seqZ, filter_map_length. f_equal. apply filter_length_same. intros k Hk.
  unfold vbi_page_table_contains_page. rewrite contains_spec, Hs by lia || done.
  unfold in_ranges. cbn [existsb]. rewrite orb_false_r.
  replace (256 + k - 0x100) with k by lia. by destruct (member (pages pt) k).
Qed.

Lemma page_table_num_pages_correct_witness :
  ∃ pt, vbi_page_table_add_pages (λ _, true) vbi_page_table_new 0x11F 0x180 = Some (pt, true) ∧
    vbi_page_table_num_pages pt =
    Z.of_nat (length (List.filter (λ p, bool_decide (vbi_page_table_contains_page pt p = Some true))
      (seqZ 0x100 0x800))) ∧ vbi_page_table_num_pages pt = 0x62.
Proof.
  destruct (add_pages_updated (λ _, true) vbi_page_table_new 0x11F 0x180) as (pt & E & Hu); [apply new_ok|lia|lia|].
  exists pt. split; [exact E|]. split.
  - apply (page_table_num_pages_correct pt); [|apply Hu].
    exact (updated_ok orb _ _ _ _ (λ x, eq_refl) new_ok Hu).
  - vm_compute in E. injection E as <-. vm_compute. reflexivity.
Defined.

(** ** All displayable pages *)

(** Pages [D] are added. *)
Definition added (D : Z → bool) (pt pt' : vbi_page_table) : Prop :=
  state_ok (pages pt', pages_popcnt pt') ∧
  subpages pt' = List.filter (λ r, negb (D (pgno r - 0x100))) (subpages pt) ∧
  ∀ j, 0 ≤ j → member (pages pt') j = D j || member (pages pt) j.

Lemma filter_filter {A} (f g : A → bool) l :
  List.filter f (List.filter g l) = List.filter (λ x, g x && f x) l.
Proof.
  induction l as [|x l IH]; [done|]. cbn [List.filter].
  destruct (g x); cbn [List.filter andb]; rewrite ?IH; done.
Qed.

Lemma added_trans D1 D2 pt1 pt2 pt3 :
  added D1 pt1 pt2 → added D2 pt2 pt3 → added (λ j, D1 j || D2 j) pt1 pt3.
Proof.
  intros (_ & Hs1 & Hm1) (Hok & Hs2 & Hm2). split; [done|]. split.
  - rewrite Hs2, Hs1, filter_filter. apply List.filter_ext. intros r. by rewrite negb_orb.
  - intros j Hj. rewrite Hm2, Hm1 by done. by destruct (D1 j), (D2 j), (member (pages pt1) j).
Qed.

Lemma added_ext D1 D2 pt pt' :
  (∀ j, 0 ≤ j < 2048 → D1 j = D2 j) → (∀ j, 2048 ≤ j → D1 j = D2 j) →
  Forall (λ r, 0x100 ≤ pgno r) (subpages pt) → added D1 pt pt' → added D2 pt pt'.
Proof.
  intros H1 H2 Hr (Hok & Hs & Hm).
  assert (∀ j, 0 ≤ j → D1 j = D2 j) as HD by (intros j Hj; destruct (decide (j < 2048)); [apply H1|apply H2]; lia).
  split; [done|]. split.
  - rewrite Hs. apply List.filter_ext_in. intros r Hin. rewrite List.Forall_forall in Hr.
    by rewrite HD by (specialize (Hr r Hin); lia).
  - intros j Hj. by rewrite Hm, HD.
Qed.

(** A page whose last two digits are decimal, in the 32 pages number [o]. *)
Definition decimal (o j : Z) : bool := (j / 32 =? o) && (j mod 16 <=? 9).

Lemma displayable_mask k : 0 ≤ k < 32 → Z.testbit 0x03FF03FF k = (k mod 16 <=? 9).
Proof.
  intros Hk. assert (forallb (λ n, Bool.eqb (Z.testbit 0x03FF03FF (Z.of_nat n)) (Z.of_nat n mod 16 <=? 9)) (seq 0 32) = true)
    as H by (vm_compute; reflexivity).
  rewrite forallb_forall in H. specialize (H (Z.to_nat k)). rewrite Z2Nat.id in H by lia.
  apply Bool.eqb_prop, H. apply in_seq. lia.
Qed.

Section displayable.
Context (realloc : Z → bool).

Definition displayable_step (pgno : Z) (pt : vbi_page_table) : option vbi_page_table :=
  let pt := remove_subpages_in_page_range realloc pt (pgno + 0x00) (pgno + 0x09) in
  let pt := remove_subpages_in_page_range realloc pt (pgno + 0x10) (pgno + 0x19) in
  w ← update_word (set_bits 0x03FF03FF) (set_count 0x03FF03FF) ((pgno - 0x100) ≫ 5)
        (pages pt, pages_popcnt pt);
  Some (set_pages w.1 w.2 pt).

Lemma displayable_loop_step fuel pgno end_pgno pt :
  displayable_loop realloc (S fuel) pgno end_pgno pt =
  (pt ← displayable_step pgno pt;
   if pgno + 0x20 <? end_pgno then displayable_loop realloc fuel (pgno + 0x20) end_pgno pt
   else Some (pgno + 0x20, pt)).
Proof. cbn [displayable_loop]. unfold displayable_step. by destruct (update_word _ _ _ _). Qed.

Lemma remove_fields pt a b :
  pages (remove_subpages_in_page_range realloc pt a b) = pages pt ∧
  pages_popcnt (remove_subpages_in_page_range realloc pt a b) = pages_popcnt pt ∧
  subpages (remove_subpages_in_page_range realloc pt a b) = List.filter (outside a b) (subpages pt).
Proof. exact (shrink_fields realloc (set_subpages (List.filter (outside a b) (subpages pt)) pt)). Qed.

Lemma displayable_step_ok o pt :
  state_ok (pages pt, pages_popcnt pt) → 0 ≤ o < 64 →
  ∃ pt', displayable_step (0x100 + 32 * o) pt = Some pt' ∧ added (decimal o) pt pt'.
Proof.
  intros Hok Ho. unfold displayable_step.
  set (p1 := remove_subpages_in_page_range realloc pt _ _).
  set (p2 := remove_subpages_in_page_range realloc p1 _ _).
  destruct (remove_fields pt (0x100 + 32 * o + 0x00) (0x100 + 32 * o + 0x09)) as (E1 & E2 & E3).
  destruct (remove_fields p1 (0x100 + 32 * o + 0x10) (0x100 + 32 * o + 0x19)) as (E4 & E5 & E6).
  fold p1 in E1, E2, E3. fold p2 in E4, E5, E6. clearbody p1 p2.
  rewrite Z.shiftr_div_pow2 by done. change (2 ^ 5) with 32.
  replace ((0x100 + 32 * o - 0x100) / 32) with o
    by (replace (0x100 + 32 * o - 0x100) with (o * 32) by lia; by rewrite Z.div_mul).
  destruct (update_word_ok orb (λ x, eq_refl) (set_bits 0x03FF03FF) (set_count 0x03FF03FF)
    (Z.testbit 0x03FF03FF) o (pages p2, pages_popcnt p2)) as (w & -> & Hw & Hm);
    [intros old Hold; by apply set_bits_ok|by rewrite E4, E5, E1, E2|done|].
  cbn [mbind option_bind fst snd] in *. eexists. split; [reflexivity|]. destruct w as [l c].
  split; [done|]. cbn [set_pages pages subpages fst] in *. split.
  - rewrite E6, E3, filter_filter. apply List.filter_ext. intros r.
    destruct (page_divmod (pgno r)) as [Hd Hr]. unfold outside, decimal.
    assert ((pgno r - 0x100) mod 16 = (pgno r - 0x100) mod 32 mod 16) as ->.
    { rewrite Hd at 1. replace (32 * ((pgno r - 0x100) / 32)) with (2 * ((pgno r - 0x100) / 32) * 16) by lia.
      by rewrite Z.add_comm, Z_mod_plus_full. }
    set (q := (pgno r - 0x100) / 32) in *. set (m := (pgno r - 0x100) mod 32) in *. clearbody q m.
    assert (m mod 16 = if m <? 16 then m else m - 16) as ->.
    { destruct (Z.ltb_spec m 16); [by rewrite Z.mod_small by lia|].
      replace m with (m - 16 + 1 * 16) at 1 by lia. by rewrite Z_mod_plus_full, Z.mod_small by lia. }
    clear -Hd Hr Ho. apply Bool.eq_iff_eq_true.
    rewrite negb_true_iff, andb_true_iff, !orb_true_iff, andb_false_iff, !Z.ltb_lt, Z.eqb_neq, Z.leb_gt.
    destruct (Z.ltb_spec m 16); lia.
  - intros j Hj. rewrite Hm, E4, E1 by done. unfold decimal. do 2 f_equal.
    rewrite displayable_mask by (apply Z.mod_pos_bound; lia). f_equal.
    pose proof (Z.div_mod j 32 ltac:(lia)) as E. rewrite E at 2.
    replace (32 * (j / 32)) with (2 * (j / 32) * 16) by lia.
    by rewrite Z.add_comm, Z_mod_plus_full.
Qed.

Lemma added_range D pt pt' :
  added D pt pt' → Forall (λ r, 0x100 ≤ pgno r) (subpages pt) → Forall (λ r, 0x100 ≤ pgno r) (subpages pt').
Proof.
  intros (_ & -> & _). rewrite !List.Forall_forall. intros H r [Hin _]%filter_In. by apply H.
Qed.

Lemma displayable_loop_ok n fuel o pt :
  (0 < n ≤ fuel)%nat → 0 ≤ o → o + Z.of_nat n ≤ 64 → state_ok (pages pt, pages_popcnt pt) →
  Forall (λ r, 0x100 ≤ pgno r) (subpages pt) →
  ∃ pt', displayable_loop realloc fuel (0x100 + 32 * o) (0x100 + 32 * (o + Z.of_nat n)) pt =
      Some (0x100 + 32 * (o + Z.of_nat n), pt') ∧
    added (λ j, (o <=? j / 32) && (j / 32 <? o + Z.of_nat n) && (j mod 16 <=? 9)) pt pt'.
Proof.
  revert fuel o pt. induction n as [|n IH]; intros [|fuel] o pt Hn Ho Hon Hok Hr; try lia.
  rewrite displayable_loop_step.
  destruct (displayable_step_ok o pt Hok ltac:(lia)) as (p1 & -> & H1). cbn [mbind option_bind].
  replace (0x100 + 32 * o + 0x20) with (0x100 + 32 * (o + 1)) by lia.
  destruct (Z.ltb_spec (0x100 + 32 * (o + 1)) (0x100 + 32 * (o + Z.of_nat (S n)))).
  - replace (o + Z.of_nat (S n)) with (o + 1 + Z.of_nat n) by lia.
    destruct (IH fuel (o + 1) p1) as (p2 & -> & H2); [lia|lia|lia|apply H1|by apply (added_range _ _ _ H1)|].
    exists p2. split; [done|].
    eapply added_ext; [..|exact (added_trans _ _ _ _ _ H1 H2)]; [..|done]; intros j Hj; unfold decimal;
      destruct (Z.eqb_spec (j / 32) o), (Z.leb_spec (o + 1) (j / 32)), (Z.leb_spec o (j / 32)),
        (Z.ltb_spec (j / 32) (o + 1 + Z.of_nat n)); cbn [andb orb]; rewrite ?orb_false_r; done || lia.
  - assert (n = 0%nat) as -> by lia. change (Z.of_nat 1) with 1. exists p1. split; [done|].
    eapply added_ext; [..|exact H1]; [..|done]; intros j Hj; unfold decimal;
      destruct (Z.eqb_spec (j / 32) o), (Z.leb_spec o (j / 32)), (Z.ltb_spec (j / 32) (o + 1)); cbn [andb]; done || lia.
Qed.

Lemma magazine_loop_ok n fuel m pt :
  (n ≤ fuel)%nat → 0 ≤ m → m + Z.of_nat n = 8 → state_ok (pages pt, pages_popcnt pt) →
  Forall (λ r, 0x100 ≤ pgno r) (subpages pt) →
  ∃ pt', magazine_loop realloc fuel (0x100 + 0x100 * m) pt = Some pt' ∧
    added (λ j, (m <=? j / 256) && (j / 256 <? 8) && (j mod 256 <? 0xA0) && (j mod 16 <=? 9)) pt pt'.
Proof.
  revert fuel m pt. induction n as [|n IH]; intros fuel m pt Hn Hm Hmn Hok Hr.
  { assert (m = 8) as -> by lia. exists pt. split; [by destruct fuel|].
    apply (added_ext (λ _, false)); [| |done|].
    - intros j Hj. by destruct (Z.leb_spec 8 (j / 256)), (Z.ltb_spec (j / 256) 8); [lia|..].
    - intros j Hj. by destruct (Z.leb_spec 8 (j / 256)), (Z.ltb_spec (j / 256) 8); [lia|..].
    - split; [done|]. split; [|done]. clear. induction (subpages pt) as [|r l IH]; [done|].
      cbn [List.filter negb]. by f_equal. }
  destruct fuel as [|fuel]; [lia|]. cbn [magazine_loop].
  destruct (Z.ltb_spec (0x100 + 0x100 * m) 0x900); [|lia].
  destruct (displayable_loop_ok 5 5 (8 * m) pt) as (p1 & E1 & H1); [lia|lia|lia|done|done|].
  replace (0x100 + 32 * (8 * m)) with (0x100 + 0x100 * m) in E1 by lia.
  replace (0x100 + 32 * (8 * m + Z.of_nat 5)) with (0x100 + 0x100 * m + 0xA0) in E1 by lia.
  rewrite E1. cbn [mbind option_bind].
  replace (0x100 + 0x100 * m + 0xA0 + (0x100 - 0xA0)) with (0x100 + 0x100 * (m + 1)) by lia.
  destruct (IH fuel (m + 1) p1) as (p2 & -> & H2); [lia|lia|lia|apply H1|by apply (added_range _ _ _ H1)|].
  exists p2. split; [done|].
  eapply added_ext; [..|exact (added_trans _ _ _ _ _ H1 H2)]; [..|done]; intros j Hj;
    (assert (j / 32 = 8 * (j / 256) + j mod 256 / 32 ∧ 0 ≤ j mod 256 < 256 ∧ 
      j mod 256 = 32 * (j mod 256 / 32) + (j mod 256) mod 32) as (E & Hj1 & Hj2);
     [split_and!; [|apply Z.mod_pos_bound; lia..|apply Z.div_mod; lia];
      rewrite (Z.div_mod j 256) at 1 by lia;
      replace (256 * (j / 256)) with (8 * (j / 256) * 32) by lia;
      by rewrite Z.add_comm, Z.div_add, Z.add_comm by lia|]);
    rewrite E; pose proof (Z.mod_pos_bound (j mod 256) 32 ltac:(lia));
    set (q := j / 256) in *; set (r := j mod 256 / 32) in *; set (i := j mod 256) in *; clearbody q r i;
    destruct (j mod 16 <=? 9); rewrite ?andb_false_r; try done; rewrite ?andb_true_r;
    apply Bool.eq_iff_eq_true; rewrite ?orb_true_iff, ?andb_true_iff, ?Z.ltb_lt, ?Z.leb_le; lia.
Qed.
End displayable.

Lemma added_ok D pt pt' : pt_ok pt → added D pt pt' → pt_ok pt'.
Proof.
  intros [_ Hr] (Hw & Hs & Hm). split; [done|]. rewrite Hs. apply List.Forall_forall.
  intros r [Hin Hout]%filter_In. rewrite List.Forall_forall in Hr.
  destruct (Hr r Hin) as [Hv Hmem]. split; [done|]. apply negb_true_iff in Hout. rewrite Hm by lia. by rewrite Hout.
Qed.

Lemma in_ranges_filter_pgno (f : Z → bool) l p subno :
  in_ranges (List.filter (λ r, f (pgno r)) l) p subno = f p && in_ranges l p subno.
Proof.
  unfold in_ranges. induction l as [|r l IH]; cbn [List.filter existsb]; [by rewrite andb_false_r|].
  destruct (f (pgno r)) eqn:Ef; cbn [existsb]; rewrite IH; destruct (Z.eqb_spec p (pgno r)) as [->|];
    cbn [andb orb]; rewrite ?Ef; cbn [andb orb]; try done.
Qed.

(** The last two digits of a page number are decimal. *)
Definition displayable (p : Z) : bool := (p mod 16 <=? 9) && (p / 16 mod 16 <=? 9).

Lemma displayable_spec p :
  (p - 0x100) mod 256 = p mod 256 ∧ (p - 0x100) mod 16 = p mod 16 ∧ (p / 16 mod 16 = p mod 256 / 16).
Proof.
  split_and!.
  - replace (p - 0x100) with (p + (-1) * 256) by lia. apply Z_mod_plus_full.
  - replace (p - 0x100) with (p + (-16) * 16) by lia. apply Z_mod_plus_full.
  - change 256 with (16 * 16). rewrite Z.rem_mul_r by lia.
    replace (p mod 16 + 16 * (p / 16 mod 16)) with (p mod 16 + p / 16 mod 16 * 16) by lia.
    rewrite Z.div_add by lia. rewrite (Z.div_small (p mod 16)); [lia|]. apply Z.mod_pos_bound. lia.
Qed.

(** [vbi_page_table_add_all_displayable_pages] adds exactly the pages whose last
    two digits are decimal, with all their subpages, and keeps the answer for every
    other page, and the invariant; its nested loops stay in the bit array and end. *)
Theorem page_table_displayable_correct (realloc : Z → bool) (pt : vbi_page_table) :
  pt_ok pt →
  ∃ pt', vbi_page_table_add_all_displayable_pages realloc pt = Some pt' ∧ pt_ok pt' ∧
    ∀ p subno, 0x100 ≤ p ≤ 0x8FF →
      vbi_page_table_contains_subpage pt' p subno =
      if displayable p then Some true else vbi_page_table_contains_subpage pt p subno.
Proof.
  intros Hok. pose proof Hok as [Hst Hr]. unfold vbi_page_table_add_all_displayable_pages.
  destruct (magazine_loop_ok realloc 8 8 0 pt) as (pt' & E & Ha); [lia|lia|done|done| |].
  { eapply List.Forall_impl; [|exact Hr]. intros r [? _]. lia. }
  exists pt'. split; [exact E|]. pose proof (added_ok _ _ _ Hok Ha) as Hok'. split; [done|].
  intros p subno Hp. rewrite !contains_spec by done.
  set (D := λ j, (0 <=? j / 256) && (j / 256 <? 8) && (j mod 256 <? 0xA0) && (j mod 16 <=? 9)) in Ha.
  destruct Ha as (_ & Hs & Hm). rewrite Hm, Hs by lia.
  assert (D (p - 0x100) = displayable p) as HD.
  { subst D. cbv beta. destruct (displayable_spec p) as (-> & -> & E2). unfold displayable. rewrite E2.
    assert (0 ≤ (p - 0x100) / 256 < 8) by (split; [apply Z.div_pos|apply Z.div_lt_upper_bound]; lia).
    destruct (Z.leb_spec 0 ((p - 0x100) / 256)), (Z.ltb_spec ((p - 0x100) / 256) 8); try lia. cbn [andb].
    rewrite andb_comm. f_equal. apply Bool.eq_iff_eq_true. rewrite Z.ltb_lt, Z.leb_le.
    pose proof (Z.div_mod (p mod 256) 16 ltac:(lia)). pose proof (Z.mod_pos_bound (p mod 256) 16 ltac:(lia)). lia. }
  rewrite (in_ranges_filter_pgno (λ q, negb (D (q - 0x100)))), HD. by destruct (displayable p).
Qed.

Lemma page_table_displayable_correct_witness :
  ∃ pt, vbi_page_table_add_all_displayable_pages (λ _, true) vbi_page_table_new = Some pt ∧ pt_ok pt ∧
    vbi_page_table_contains_subpage pt 0x199 1 = Some true ∧
    vbi_page_table_contains_subpage pt 0x19A 1 = Some false.
Proof.
  destruct (page_table_displayable_correct (λ _, true) vbi_page_table_new) as (pt & E & Hok & Hc); [apply new_ok|].
  exists pt. split; [exact E|]. split; [exact Hok|]. split; by rewrite Hc by lia.
Defined.

(** ** What the code does not do

    The vector of subpages grows to the smaller of the room that is needed and twice
    the capacity, so a table that has none never gets any: whatever the allocator
    does, a range of subpages is refused or written behind the vector. *)
Lemma add_subpages_never_grows realloc pt pg a b :
  subpages_capacity pt = 0 → subpages pt = [] → vbi_page_table_contains_page pt pg = Some false →
  ¬ (a = VBI_ANY_SUBNO ∧ b = VBI_ANY_SUBNO) → valid_subpage_range pg a b = true →
  vbi_page_table_add_subpages realloc pt pg a b =
  if realloc 0 then None else Some (pt, false).
Proof.
  intros Hc Hs Hp Hany Hv. unfold vbi_page_table_add_subpages. rewrite Hv, Hp.
  destruct (Z.eqb_spec a VBI_ANY_SUBNO), (Z.eqb_spec b VBI_ANY_SUBNO); try (by destruct Hany);
    cbn [andb negb mbind option_bind]; destruct (swap a b) as [x y]; rewrite Hs; cbn [extend_range];
    unfold extend_subpages_vector, subpages_size, extend_vector, push, set_capacity, subpages_size; rewrite Hc, Hs;
    change (realloc _) with (realloc 0); by destruct (realloc 0).
Qed.

(** Where the table only has ranges of subpages in or behind the page, the scan of the
    bit array ends the iteration before they are looked at. *)
Lemma next_subpage_skips_ranges :
  let pt := PageTable (repeat 0 64) 0 [Range 0x150 1 5] 1 in
  vbi_page_table_contains_page pt 0x150 = Some true ∧ vbi_page_table_next_page pt 0x100 = Some None.
Proof. split_and!; vm_compute; reflexivity. Qed.

(** Two ranges of one page are counted as two pages. *)
Lemma num_pages_counts_ranges :
  vbi_page_table_num_pages (PageTable (repeat 0 64) 0 [Range 0x150 1 5; Range 0x150 7 9] 2) = 2.
Proof. reflexivity. Qed.

(** Subpages 10 to 30 are removed from the range 5 to 20, and exactly 10 to 20 remain;
    a split keeps the first subpage that was to be removed; adding subpages to a page
    with others does nothing. *)
Lemma remove_subpages_inverted :
  let pt l := PageTable (repeat 0 64) 0 l 4 in
  vbi_page_table_remove_subpages (λ _, true) (pt [Range 0x150 5 20]) 0x150 10 30 =
    Some (pt [Range 0x150 10 20], true) ∧
  vbi_page_table_remove_subpages (λ _, true) (pt [Range 0x150 5 20]) 0x150 10 12 =
    Some (pt [Range 0x150 5 10; Range 0x150 13 20], true) ∧
  vbi_page_table_add_subpages (λ _, true) (pt [Range 0x150 5 20]) 0x150 30 40 =
    Some (pt [Range 0x150 5 20], true).
Proof. split_and!; vm_compute; reflexivity. Qed.
