(* ===== verification/Dlist.v ===== *)
(** Doubly linked lists: [src/src/dlist.h], on a heap of nodes.  The files that use such
    lists model them as lists of addresses; here the operations on the pointers are shown
    to be operations on lists. *)
From stdpp Require Import gmap.
From S2P Require Import Prelude.

(** The two fields of each [struct node], by address. *)
Record heap := Heap { succs : gmap Z Z; preds : gmap Z Z }.

Definition NULL : Z := 0.

(** Reads and writes of fields; [None] when there is no node at the address. *)
Definition _succ (h : heap) (n : Z) : option Z := succs h !! n.
Definition _pred (h : heap) (n : Z) : option Z := preds h !! n.
Definition set_succ (n x : Z) (h : heap) : option heap :=
  _ ← succs h !! n; Some (Heap (<[n := x]> (succs h)) (preds h)).
Definition set_pred (n x : Z) (h : heap) : option heap :=
  _ ← preds h !! n; Some (Heap (succs h) (<[n := x]> (preds h))).

(** [verify_ring] returns at once, as [DLIST_CONSISTENCY] is zero. *)

Definition _remove_nodes (before after first last : Z) (close_ring return_ring : bool) (h : heap) : option (heap * Z) :=
  h ← set_succ before (if close_ring then after else NULL) h;
  h ← set_pred after (if close_ring then before else NULL) h;
  h ← set_pred first (if return_ring then last else NULL) h;
  h ← set_succ last (if return_ring then first else NULL) h;
  Some (h, first).

Definition _insert_nodes (before after first last : Z) (h : heap) : option (heap * Z) :=
  h ← set_pred first before h;
  h ← set_succ last after h;
  h ← set_pred after last h;
  h ← set_succ before first h;
  Some (h, first).

Definition insert_after (a n : Z) (h : heap) : option (heap * Z) :=
  s ← _succ h a; _insert_nodes a s n n h.
Definition insert_before (b n : Z) (h : heap) : option (heap * Z) :=
  p ← _pred h b; _insert_nodes p b n n h.

Definition unlink_node (n : Z) (h : heap) : option (heap * Z) :=
  p ← _pred h n; s ← _succ h n; _remove_nodes p s n n true false h.

Definition list_init (l : Z) (h : heap) : option heap :=
  h ← set_succ l l h; set_pred l l h.

Fixpoint destroy_loop (fuel : nat) (l n : Z) (h : heap) : option heap :=
  match fuel with
  | O => None
  | S fuel =>
      s ← _succ h n;
      h ← set_succ n NULL h;
      h ← set_pred n NULL h;
      if s =? l then Some h else destroy_loop fuel l s h
  end.
Definition list_destroy (fuel : nat) (l : Z) (h : heap) : option heap := destroy_loop fuel l l h.

Definition is_head (l n : Z) (h : heap) : option bool :=
  s ← _succ h l; Some (negb (n =? NULL) && (n =? s)).
Definition is_tail (l n : Z) (h : heap) : option bool :=
  p ← _pred h l; Some (negb (n =? NULL) && (n =? p)).
Definition is_empty (l : Z) (h : heap) : option bool :=
  s ← _succ h l; Some (l =? s).

Fixpoint member_loop (fuel : nat) (l n q : Z) (h : heap) : option bool :=
  if q =? l then Some false
  else if q =? n then Some true
  else
    match fuel with
    | O => None
    | S fuel => q ← _succ h q; member_loop fuel l n q h
    end.
Definition is_member (fuel : nat) (l n : Z) (h : heap) : option bool :=
  if n =? NULL then Some false else s ← _succ h l; member_loop fuel l n s h.

Definition add_head (l n : Z) (h : heap) : option (heap * Z) := s ← _succ h l; _insert_nodes l s n n h.
Definition add_tail (l n : Z) (h : heap) : option (heap * Z) := p ← _pred h l; _insert_nodes p l n n h.

(** The result is NULL when [l2] is empty. *)
Definition add_tail_list (l1 l2 : Z) (h : heap) : option (heap * Z) :=
  h2 ← _succ h l2;
  if l2 =? h2 then Some (h, NULL)
  else
    p1 ← _pred h l1; p2 ← _pred h l2;
    '(h, _) ← _insert_nodes p1 l1 h2 p2 h;
    h ← set_succ l2 l2 h;
    h ← set_pred l2 l2 h;
    Some (h, h2).

Definition rem_node (fuel : nat) (l n : Z) (h : heap) : option (heap * Z) :=
  member ← is_member fuel l n h;
  if (member : bool) then unlink_node n h else Some (h, NULL).

Definition rem_head (l : Z) (h : heap) : option (heap * Z) :=
  n ← _succ h l;
  if negb (n =? l) then s ← _succ h n; _remove_nodes l s n n true false h else Some (h, NULL).
Definition rem_tail (l : Z) (h : heap) : option (heap * Z) :=
  n ← _pred h l;
  if negb (n =? l) then p ← _pred h n; _remove_nodes p l n n true false h else Some (h, NULL).

Fixpoint length_loop (fuel : nat) (l n count : Z) (h : heap) : option Z :=
  if n =? l then Some count
  else
    match fuel with
    | O => None
    | S fuel => n ← _succ h n; length_loop fuel l n (count + 1) h
    end.
Definition list_length (fuel : nat) (l : Z) (h : heap) : option Z := n ← _succ h l; length_loop fuel l n 0 h.

(** [FOR_ALL_NODES] and [FOR_ALL_NODES_REVERSE]: [next] is [_succ] or [_pred]; the
    node that follows is read before the body, which may unlink its node. *)
Fixpoint for_all_loop {S} (fuel : nat) (next : heap → Z → option Z) (body : Z → heap * S → option (heap * S)) (l p : Z)
    (st : heap * S) : option (heap * S) :=
  p1 ← next st.1 p;
  if p =? l then Some st
  else
    match fuel with
    | O => None
    | S fuel => st ← body p st; for_all_loop fuel next body l p1 st
    end.
Definition FOR_ALL_NODES {S} (fuel : nat) (body : Z → heap * S → option (heap * S)) (l : Z) (st : heap * S) : option (heap * S) :=
  p ← _succ st.1 l; for_all_loop fuel _succ body l p st.
Definition FOR_ALL_NODES_REVERSE {S} (fuel : nat) (body : Z → heap * S → option (heap * S)) (l : Z) (st : heap * S)
    : option (heap * S) :=
  p ← _pred st.1 l; for_all_loop fuel _pred body l p st.


(** ** Calls *)

(** A call and its result. The loops run on as much fuel as there are nodes. *)
Inductive call :=
  | List_init (l : Z) | List_destroy (l : Z)
  | Insert_after (a n : Z) | Insert_before (b n : Z) | Unlink_node (n : Z)
  | Add_head (l n : Z) | Add_tail (l n : Z) | Add_tail_list (l1 l2 : Z)
  | Rem_node (l n : Z) | Rem_head (l : Z) | Rem_tail (l : Z)
  | Is_empty (l : Z) | Is_head (l n : Z) | Is_tail (l n : Z) | Is_member (l n : Z) | List_length (l : Z).

Inductive result := Node (n : Z) | Truth (b : bool) | Count (n : Z) | Nothing.

Definition returns_node (r : option (heap * Z)) : option (heap * result) := '(h, n) ← r; Some (h, Node n).
Definition returns_truth (h : heap) (r : option bool) : option (heap * result) := b ← r; Some (h, Truth b).

Definition run_call (c : call) (h : heap) : option (heap * result) :=
  let fuel := size (succs h) in
  match c with
  | List_init l => h ← list_init l h; Some (h, Nothing)
  | List_destroy l => h ← list_destroy fuel l h; Some (h, Nothing)
  | Insert_after a n => returns_node (insert_after a n h)
  | Insert_before b n => returns_node (insert_before b n h)
  | Unlink_node n => returns_node (unlink_node n h)
  | Add_head l n => returns_node (add_head l n h)
  | Add_tail l n => returns_node (add_tail l n h)
  | Add_tail_list l1 l2 => returns_node (add_tail_list l1 l2 h)
  | Rem_node l n => returns_node (rem_node fuel l n h)
  | Rem_head l => returns_node (rem_head l h)
  | Rem_tail l => returns_node (rem_tail l h)
  | Is_empty l => returns_truth h (is_empty l h)
  | Is_head l n => returns_truth h (is_head l n h)
  | Is_tail l n => returns_truth h (is_tail l n h)
  | Is_member l n => returns_truth h (is_member fuel l n h)
  | List_length l => n ← list_length fuel l h; Some (h, Count n)
  end.

(** ** Lists in the heap *)

Definition node (h : heap) (n : Z) : Prop := is_Some (succs h !! n) ∧ is_Some (preds h !! n).
Definition linked (h : heap) (a b : Z) : Prop := succs h !! a = Some b ∧ preds h !! b = Some a.

(** The nodes [x], then [xs], are linked both ways. *)
Fixpoint chain (h : heap) (x : Z) (xs : list Z) : Prop :=
  match xs with
  | [] => True
  | y :: xs => linked h x y ∧ chain h y xs
  end.

(** The list with the head node [l] has the nodes [ns]. *)
Definition is_list (h : heap) (l : Z) (ns : list Z) : Prop := chain h l (ns ++ [l]).

Fixpoint end_of (x : Z) (xs : list Z) : Z := match xs with [] => x | y :: xs => end_of y xs end.

Lemma end_of_app x xs y ys : end_of x (xs ++ y :: ys) = end_of y ys.
Proof. revert x. induction xs as [|z xs IH]; intros x; [done|]. apply IH. Qed.

Lemma end_of_in x xs : end_of x xs ∈ x :: xs.
Proof. revert x. induction xs as [|y xs IH]; intros x; [left|right; apply IH]. Qed.

Lemma chain_app h x xs ys : chain h x (xs ++ ys) ↔ chain h x xs ∧ chain h (end_of x xs) ys.
Proof. revert x. induction xs as [|y xs IH]; intros x; cbn [app chain end_of]; [tauto|]. rewrite IH. tauto. Qed.

(** Writes to other nodes, the successor of the last and the predecessor of the first
    node do not matter. *)
Lemma chain_frame h h' x xs :
  (∀ n, n ∈ removelast (x :: xs) → succs h' !! n = succs h !! n) → (∀ n, n ∈ xs → preds h' !! n = preds h !! n) →
  chain h x xs → chain h' x xs.
Proof.
  revert x. induction xs as [|y xs IH]; intros x Hs Hp; [done|]. cbn [chain]. intros [[H1 H2] H3]. split.
  - split; [rewrite Hs by (cbn [removelast]; left); done|]. by rewrite Hp by left.
  - apply IH; [|intros n Hn; apply Hp; by right|done]. intros n Hn. apply Hs. cbn [removelast]. by right.
Qed.

Lemma removelast_in (x n : Z) (xs : list Z) : NoDup (x :: xs) → n ∈ removelast (x :: xs) → n ∈ x :: xs ∧ n ≠ end_of x xs.
Proof.
  revert x. induction xs as [|y xs IH]; intros x Hnd; [by intros ?%elem_of_nil|].
  apply list.NoDup_cons in Hnd as [Hx Hnd]. change (removelast (x :: y :: xs)) with (x :: removelast (y :: xs)).
  intros [->|Hn]%elem_of_cons; cbn [end_of].
  - split; [left|]. intros E. apply Hx. rewrite E. apply end_of_in.
  - apply IH in Hn as [H1 H2]; [|done]. split; [by right|done].
Qed.

(** The successor of what comes before [ys] in the list of [l]. *)
Definition next_in (l : Z) (ys : list Z) : Z := hd l ys.

Lemma next_in_cons l ys : next_in l ys :: tl (ys ++ [l]) = ys ++ [l].
Proof. by destruct ys. Qed.

Lemma next_in_in l ys : next_in l ys ∈ l :: ys.
Proof. destruct ys; [left|right; left]. Qed.

Lemma is_list_split h l xs ys :
  is_list h l (xs ++ ys) ↔ chain h l xs ∧ linked h (end_of l xs) (next_in l ys) ∧ chain h (next_in l ys) (tl (ys ++ [l])).
Proof. unfold is_list. rewrite <-app_assoc, chain_app. by destruct ys. Qed.

Lemma chain_nodes h x xs : chain h x xs → xs ≠ [] → is_Some (succs h !! x) ∧ Forall (λ n, is_Some (preds h !! n)) xs ∧
  Forall (λ n, is_Some (succs h !! n)) (removelast xs).
Proof.
  revert x. induction xs as [|y xs IH]; [done|]. intros x [[H1 H2] H3] _. split; [eauto|].
  destruct xs as [|z xs]; [split; [constructor; [eauto|constructor]|constructor]|].
  destruct (IH y H3 ltac:(done)) as (H4 & H5 & H6).
  change (removelast (y :: z :: xs)) with (y :: removelast (z :: xs)). split; (constructor; [eauto|done]).
Qed.

Lemma is_list_nodes h l ns : is_list h l ns → Forall (node h) (l :: ns).
Proof.
  intros H. apply chain_nodes in H as (H1 & H2 & H3); [|by destruct ns]. rewrite removelast_last in H3.
  apply Forall_app in H2 as [H2 H4]. inversion H4; subst. constructor; [by split|].
  rewrite list.Forall_forall in *. by split; [apply H3|apply H2].
Qed.

(** Nodes with the same fields. *)
Definition same (h h' : heap) (n : Z) : Prop := succs h' !! n = succs h !! n ∧ preds h' !! n = preds h !! n.

Lemma list_frame h h' l ns : (∀ n, n ∈ l :: ns → same h h' n) → is_list h l ns → is_list h' l ns.
Proof.
  intros Hs. apply chain_frame.
  - intros n. rewrite app_comm_cons, removelast_last. apply Hs.
  - intros n [Hn| ->%list_elem_of_singleton]%elem_of_app; apply Hs; [by right|left].
Qed.

Lemma set_succ_eq n s h : is_Some (succs h !! n) → set_succ n s h = Some (Heap (<[n := s]> (succs h)) (preds h)).
Proof. intros [x E]. unfold set_succ. by rewrite E. Qed.
Lemma set_pred_eq n p h : is_Some (preds h !! n) → set_pred n p h = Some (Heap (succs h) (<[n := p]> (preds h))).
Proof. intros [x E]. unfold set_pred. by rewrite E. Qed.

(** What every operation keeps: nodes, and the fields of nodes other than [X]. *)
Definition changes (h h' : heap) (X : list Z) : Prop :=
  (∀ n, node h n → node h' n) ∧ ∀ n, n ∉ X → same h h' n.

Ltac fields := repeat first [rewrite lookup_insert_eq | rewrite lookup_insert_ne by congruence].

Lemma insert_node_some (m : gmap Z Z) n x k : is_Some (m !! k) → is_Some (<[n := x]> m !! k).
Proof. intros H. destruct (decide (n = k)) as [->|Hn]; [rewrite lookup_insert_eq|rewrite lookup_insert_ne by done]; eauto. Qed.

Lemma insert_nodes_ok h l xs ys f fs :
  is_list h l (xs ++ ys) → chain h f fs → node h f → node h (end_of f fs) → NoDup ((l :: xs ++ ys) ++ f :: fs) →
  ∃ h', _insert_nodes (end_of l xs) (next_in l ys) f (end_of f fs) h = Some (h', f) ∧
    is_list h' l (xs ++ (f :: fs) ++ ys) ∧ changes h h' ((l :: xs ++ ys) ++ f :: fs).
Proof.
  intros Hl Hf [_ Hnf] [Hne _] Hnd. pose proof (is_list_nodes _ _ _ Hl) as Hnodes.
  apply is_list_split in Hl as (H1 & H2 & H3).
  assert (end_of l xs ∈ l :: xs ++ ys) as Hin1.
  { rewrite app_comm_cons. apply elem_of_app. left. apply end_of_in. }
  assert (next_in l ys ∈ l :: xs ++ ys) as Hin2.
  { rewrite elem_of_cons, elem_of_app. pose proof (next_in_in l ys) as H. apply elem_of_cons in H. tauto. }
  pose proof (end_of_in f fs) as Hin3. assert (f ∈ f :: fs) as Hin4 by left.
  apply list.NoDup_app in Hnd as (Hnd1 & Hdis & Hnd2).
  assert (∀ a b, a ∈ l :: xs ++ ys → b ∈ f :: fs → a ≠ b) as Hab by (intros a b Ha Hb ->; by apply (Hdis b)).
  pose proof (Hab _ _ Hin1 Hin3). pose proof (Hab _ _ Hin2 Hin4).
  rewrite list.Forall_forall in Hnodes.
  unfold _insert_nodes. rewrite set_pred_eq by done. cbn [mbind option_bind]. rewrite set_succ_eq by done. cbn [mbind option_bind].
  rewrite set_pred_eq by (apply insert_node_some, Hnodes, Hin2). cbn [mbind option_bind].
  rewrite set_succ_eq by (apply insert_node_some, Hnodes, Hin1). cbn [mbind option_bind].
  eexists. split; [reflexivity|]. rewrite app_comm_cons in Hnd1. apply list.NoDup_app in Hnd1 as (Hx & Hxy & Hy).
  apply list.NoDup_cons in Hx as Hx'. destruct Hx' as [Hlx _].
  assert (∀ n, n ∈ l :: xs → n ∈ l :: xs ++ ys) as Sx by (intros n; rewrite !elem_of_cons, elem_of_app; tauto).
  assert (∀ n, n ∈ ys → n ∈ l :: xs ++ ys) as Sy by (intros n; rewrite !elem_of_cons, elem_of_app; tauto).
  split.
  - apply is_list_split. split; [|split].
    + revert H1. apply chain_frame; cbn [succs preds]; intros n Hn.
      * apply removelast_in in Hn as [Hn Hn']; [|done]. pose proof (Hab n _ (Sx n Hn) Hin3). by fields.
      * assert (n ∈ l :: xs) as Hn' by (by right). pose proof (Hab n _ (Sx n Hn') Hin4).
        assert (n ≠ next_in l ys). { intros ->. destruct ys as [|y ys]; cbn in Hn; [done|]. apply (Hxy y); [done|left]. } by fields.
    + change (next_in l ((f :: fs) ++ ys)) with f. split; cbn [succs preds]; by fields.
    + change (next_in l ((f :: fs) ++ ys)) with f. cbn [app tl]. rewrite <-app_assoc. apply chain_app. split.
      * revert Hf. apply chain_frame; cbn [succs preds]; intros n Hn.
        -- apply removelast_in in Hn as [Hn Hn']; [|done]. pose proof (Hab _ n Hin1 Hn). by fields.
        -- assert (n ∈ f :: fs) as Hn' by (by right). pose proof (Hab _ n Hin2 Hn'). apply list.NoDup_cons in Hnd2 as [Hnf' _].
           assert (n ≠ f) by (by intros ->). by fields.
      * rewrite <-next_in_cons. split; [split; cbn [succs preds]; by fields|].
        revert H3. apply chain_frame; cbn [succs preds]; intros n Hn.
        -- rewrite next_in_cons, removelast_last in Hn. pose proof (Hab n _ (Sy n Hn) Hin3).
           assert (n ≠ end_of l xs). { intros ->. by apply (Hxy _ (end_of_in l xs)). } by fields.
        -- destruct ys as [|y ys]; [by apply elem_of_nil in Hn|]. cbn [app tl next_in hd] in *.
           apply list.NoDup_cons in Hy as [Hyn _].
           assert (n ≠ y). { intros ->. apply elem_of_app in Hn as [Hn| ->%list_elem_of_singleton]; [done|]. apply (Hxy l); left. }
           assert (n ∈ l :: xs ++ y :: ys) as Hn'.
           { rewrite elem_of_cons, elem_of_app, elem_of_cons. apply elem_of_app in Hn as [Hn| ->%list_elem_of_singleton]; tauto. }
           pose proof (Hab n _ Hn' Hin4). by fields.
  - split.
    + intros n [Hn1 Hn2]. split; cbn [succs preds]; by repeat apply insert_node_some.
    + intros n Hn. rewrite not_elem_of_app in Hn. destruct Hn as [Hn1 Hn2].
      split; cbn [succs preds]; rewrite !lookup_insert_ne; try done; by intros <-.
Qed.

Lemma remove_nodes_ok h l xs n ys :
  is_list h l (xs ++ n :: ys) → NoDup (l :: xs ++ n :: ys) →
  ∃ h', _remove_nodes (end_of l xs) (next_in l ys) n n true false h = Some (h', n) ∧
    is_list h' l (xs ++ ys) ∧ changes h h' (l :: xs ++ n :: ys).
Proof.
  intros Hl Hnd. pose proof (is_list_nodes _ _ _ Hl) as Hnodes. rewrite list.Forall_forall in Hnodes.
  assert (∀ m, m ∈ l :: xs ++ n :: ys ↔ m ∈ l :: xs ∨ m = n ∨ m ∈ ys) as Hin.
  { intros m. rewrite !elem_of_cons, elem_of_app, elem_of_cons. tauto. }
  change (xs ++ n :: ys) with (xs ++ [n] ++ ys) in Hl. rewrite app_assoc in Hl. apply is_list_split in Hl as (H1 & H2 & H3).
  apply chain_app in H1 as [H1 [H4 _]].
  rewrite app_comm_cons in Hnd. apply list.NoDup_app in Hnd as (Hx & Hdis & [Hn Hy]%list.NoDup_cons).
  pose proof (end_of_in l xs) as Hin1. pose proof (next_in_in l ys) as Hin2.
  assert (∀ m, m ∈ l :: xs → m ≠ n ∧ m ∉ ys) as Hdis'.
  { intros m Hm. specialize (Hdis m Hm). rewrite not_elem_of_cons in Hdis. done. }
  assert (next_in l ys ≠ n) as Hnn.
  { apply elem_of_cons in Hin2 as [->|Hin2]; [apply Hdis'; left|by intros <-]. }
  destruct (Hdis' _ Hin1) as [Hne _].
  assert (node h (end_of l xs)) as [Hs1 _] by (apply Hnodes, Hin; by left).
  assert (node h (next_in l ys)) as [_ Hp1].
  { apply Hnodes, Hin. apply elem_of_cons in Hin2 as [->|Hin2]; [left; left|tauto]. }
  assert (node h n) as [Hs2 Hp2] by (apply Hnodes, Hin; tauto).
  unfold _remove_nodes. rewrite set_succ_eq by done. cbn [mbind option_bind]. rewrite set_pred_eq by done. cbn [mbind option_bind].
  rewrite set_pred_eq by (by apply insert_node_some). cbn [mbind option_bind].
  rewrite set_succ_eq by (by apply insert_node_some). cbn [mbind option_bind].
  eexists. split; [reflexivity|]. split.
  - apply is_list_split. split; [|split].
    + revert H1. apply chain_frame; cbn [succs preds]; intros m Hm.
      * apply removelast_in in Hm as [Hm Hm']; [|done]. destruct (Hdis' m Hm). by fields.
      * assert (m ∈ l :: xs) as Hm' by (by right). destruct (Hdis' m Hm').
        assert (m ≠ next_in l ys).
        { intros ->. apply elem_of_cons in Hin2 as [E|?]; [|done]. rewrite E in Hm. by apply list.NoDup_cons in Hx as [? _]. }
        by fields.
    + split; cbn [succs preds]; by fields.
    + revert H3. apply chain_frame; cbn [succs preds]; intros m Hm.
      * rewrite next_in_cons, removelast_last in Hm. assert (m ≠ n) by (by intros ->).
        assert (m ≠ end_of l xs) by (intros ->; by destruct (Hdis' _ Hin1)). by fields.
      * destruct ys as [|y ys]; [by apply elem_of_nil in Hm|]. cbn [app tl next_in hd] in *. apply list.NoDup_cons in Hy as [Hyn _].
        apply elem_of_app in Hm as [Hm| ->%list_elem_of_singleton].
        -- assert (m ≠ y) by (by intros ->). assert (m ≠ n) by (intros ->; apply Hn; by right). by fields.
        -- destruct (Hdis' l ltac:(left)) as [? Hl]. assert (l ≠ y) by (intros ->; apply Hl; left). by fields.
  - split.
    + intros m [Hm1 Hm2]. split; cbn [succs preds]; by repeat apply insert_node_some.
    + intros m Hm. rewrite Hin in Hm.
      split; cbn [succs preds]; rewrite !lookup_insert_ne; try done; intros <-; apply Hm;
        first [by auto|by left|apply elem_of_cons in Hin2 as [->|Hin2]; [left; left|by auto]].
Qed.

(** ** The specification: lists of nodes *)

(** The lists in the heap by head node, and nodes that are in no list: no node is in
    two of them, and NULL in none. *)
Record rep (h : heap) (M : gmap Z (list Z)) (F : gset Z) : Prop := {
  rep_list : ∀ l ns, M !! l = Some ns → is_list h l ns;
  rep_nodup : ∀ l ns, M !! l = Some ns → NoDup (l :: ns);
  rep_disjoint : ∀ l1 ns1 l2 ns2 n, M !! l1 = Some ns1 → M !! l2 = Some ns2 → n ∈ l1 :: ns1 → n ∈ l2 :: ns2 → l1 = l2;
  rep_free : ∀ n, n ∈ F → node h n;
  rep_apart : ∀ l ns n, M !! l = Some ns → n ∈ l :: ns → n ≠ NULL ∧ n ∉ F;
  rep_null : NULL ∉ F
}.

Lemma rep_eq h M M' F F' : M = M' → F = F' → rep h M F → rep h M' F'.
Proof. by intros -> ->. Qed.

(** One list changes: nodes are taken from or given back to the free ones. *)
Lemma rep_update h h' M F l ns ns' X F' :
  rep h M F → M !! l = Some ns → is_list h' l ns' → NoDup (l :: ns') → changes h h' X →
  (∀ n, n ∈ X → n ∈ l :: ns ∨ n ∈ F) → (∀ n, n ∈ ns' → n ∈ ns ∨ n ∈ F) → (∀ n, n ∈ F' → n ∈ F ∨ n ∈ ns) →
  (∀ n, n ∈ F' → n ∉ ns') → rep h' (<[l := ns']> M) F'.
Proof.
  intros [R1 R2 R3 R4 R5 R6] Hl Hl' Hnd [Hc1 Hc2] HX Hns HF Hd.
  assert (∀ k ks, k ≠ l → M !! k = Some ks → ∀ n, n ∈ k :: ks → n ∉ l :: ns ∧ n ∉ F) as Hother.
  { intros k ks Hk Ek n Hn. split; [intros Hn'; apply Hk; eauto|by apply (R5 k ks)]. }
  assert (∀ n, n ∈ l :: ns' → n ∈ l :: ns ∨ n ∈ F) as Hown.
  { intros n [->|Hn]%elem_of_cons; [left; left|]. destruct (Hns n Hn); [left; by right|by right]. }
  split.
  - intros k ks. destruct (decide (k = l)) as [->|Hk].
    + rewrite lookup_insert_eq. by intros [= <-].
    + rewrite lookup_insert_ne by done. intros Ek. apply (list_frame h); [|by apply R1]. intros n Hn. apply Hc2.
      intros HnX. destruct (Hother k ks Hk Ek n Hn). destruct (HX n HnX); done.
  - intros k ks. destruct (decide (k = l)) as [->|Hk].
    + rewrite lookup_insert_eq. by intros [= <-].
    + rewrite lookup_insert_ne by done. apply R2.
  - intros l1 ns1 l2 ns2 n. destruct (decide (l1 = l)) as [->|Hk1], (decide (l2 = l)) as [->|Hk2];
      rewrite ?lookup_insert_eq, ?lookup_insert_ne by done.
    + done.
    + intros [= <-] E2 H1 H2. destruct (Hother _ _ Hk2 E2 n H2). by destruct (Hown n H1).
    + intros E1 [= <-] H1 H2. destruct (Hother _ _ Hk1 E1 n H1). by destruct (Hown n H2).
    + apply R3.
  - intros n Hn. apply Hc1. destruct (HF n Hn) as [H|H]; [by apply R4|].
    pose proof (is_list_nodes _ _ _ (R1 _ _ Hl)) as Hf. rewrite list.Forall_forall in Hf. apply Hf. by right.
  - intros k ks n. destruct (decide (k = l)) as [->|Hk].
    + rewrite lookup_insert_eq. intros [= <-] Hn. split.
      * destruct (Hown n Hn) as [H|H]; [by apply (R5 l ns)|by intros ->].
      * intros HnF. destruct (Hown n Hn) as [H|H].
        -- apply elem_of_cons in Hn as [->|Hn]; [|by apply (Hd n)].
           destruct (HF l HnF) as [H'|H']; [by apply (R5 l ns) in H as []|]. specialize (R2 _ _ Hl). by apply list.NoDup_cons in R2 as [? _].
        -- apply elem_of_cons in Hn as [->|Hn]; [|by apply (Hd n)]. apply (R5 l ns) in H; [done|done|left].
    + rewrite lookup_insert_ne by done. intros Ek Hn. split; [by apply (R5 k ks)|]. intros HnF.
      destruct (Hother k ks Hk Ek n Hn) as [H1 H2]. destruct (HF n HnF); [done|]. apply H1. by right.
  - intros H. destruct (HF _ H) as [H'|H']; [done|]. assert (NULL ∈ l :: ns) as H'' by (by right). by apply (R5 _ _ _ Hl) in H'' as [].
Qed.

(** What the calls do to the lists [M] and the free nodes [F]. *)
Inductive specified (M : gmap Z (list Z)) (F : gset Z) : call → gmap Z (list Z) → gset Z → result → Prop :=
  | S_init l : l ∈ F → specified M F (List_init l) (<[l := []]> M) (F ∖ {[l]}) Nothing
  | S_destroy l ns : M !! l = Some ns → specified M F (List_destroy l) (delete l M) (F ∪ list_to_set (l :: ns)) Nothing
  | S_insert_after l xs ys n : M !! l = Some (xs ++ ys) → n ∈ F →
      specified M F (Insert_after (end_of l xs) n) (<[l := xs ++ n :: ys]> M) (F ∖ {[n]}) (Node n)
  | S_insert_before l xs ys n : M !! l = Some (xs ++ ys) → n ∈ F →
      specified M F (Insert_before (next_in l ys) n) (<[l := xs ++ n :: ys]> M) (F ∖ {[n]}) (Node n)
  | S_unlink l xs n ys : M !! l = Some (xs ++ n :: ys) →
      specified M F (Unlink_node n) (<[l := xs ++ ys]> M) (F ∪ {[n]}) (Node n)
  | S_add_head l ns n : M !! l = Some ns → n ∈ F → specified M F (Add_head l n) (<[l := n :: ns]> M) (F ∖ {[n]}) (Node n)
  | S_add_tail l ns n : M !! l = Some ns → n ∈ F → specified M F (Add_tail l n) (<[l := ns ++ [n]]> M) (F ∖ {[n]}) (Node n)
  | S_append_empty l1 l2 ns : M !! l1 = Some ns → M !! l2 = Some [] → specified M F (Add_tail_list l1 l2) M F (Node NULL)
  | S_append l1 l2 ns n ns2 : M !! l1 = Some ns → M !! l2 = Some (n :: ns2) → l1 ≠ l2 →
      specified M F (Add_tail_list l1 l2) (<[l2 := []]> (<[l1 := ns ++ n :: ns2]> M)) F (Node n)
  | S_rem_node l xs n ys : M !! l = Some (xs ++ n :: ys) →
      specified M F (Rem_node l n) (<[l := xs ++ ys]> M) (F ∪ {[n]}) (Node n)
  | S_rem_node_not l ns n : M !! l = Some ns → n ∉ ns → specified M F (Rem_node l n) M F (Node NULL)
  | S_rem_head l n ns : M !! l = Some (n :: ns) → specified M F (Rem_head l) (<[l := ns]> M) (F ∪ {[n]}) (Node n)
  | S_rem_head_empty l : M !! l = Some [] → specified M F (Rem_head l) M F (Node NULL)
  | S_rem_tail l n ns : M !! l = Some (ns ++ [n]) → specified M F (Rem_tail l) (<[l := ns]> M) (F ∪ {[n]}) (Node n)
  | S_rem_tail_empty l : M !! l = Some [] → specified M F (Rem_tail l) M F (Node NULL)
  | S_is_empty l ns : M !! l = Some ns → specified M F (Is_empty l) M F (Truth (bool_decide (ns = [])))
  | S_is_head l ns n : M !! l = Some ns → n ≠ l → specified M F (Is_head l n) M F (Truth (bool_decide (head ns = Some n)))
  | S_is_tail l ns n : M !! l = Some ns → n ≠ l → specified M F (Is_tail l n) M F (Truth (bool_decide (list.last ns = Some n)))
  | S_is_member l ns n : M !! l = Some ns → specified M F (Is_member l n) M F (Truth (bool_decide (n ∈ ns)))
  | S_list_length l ns : M !! l = Some ns → specified M F (List_length l) M F (Count (Z.of_nat (length ns))).

(** Any number of calls. *)
Inductive specified_calls : gmap Z (list Z) → gset Z → list call → gmap Z (list Z) → gset Z → list result → Prop :=
  | S_nil M F : specified_calls M F [] M F []
  | S_cons M F c M1 F1 r cs M2 F2 rs : specified M F c M1 F1 r → specified_calls M1 F1 cs M2 F2 rs →
      specified_calls M F (c :: cs) M2 F2 (r :: rs).

Fixpoint run_calls (cs : list call) (h : heap) : option (heap * list result) :=
  match cs with
  | [] => Some (h, [])
  | c :: cs => '(h, r) ← run_call c h; '(h, rs) ← run_calls cs h; Some (h, r :: rs)
  end.

(** ** The operations on a heap with lists *)

Section operations.
Context (h : heap) (M : gmap Z (list Z)) (F : gset Z) (R : rep h M F).

Lemma lookup_succ l xs ys : M !! l = Some (xs ++ ys) → _succ h (end_of l xs) = Some (next_in l ys).
Proof using R. intros E. apply (rep_list _ _ _ R), is_list_split in E as (_ & [E _] & _). done. Qed.

Lemma lookup_pred l xs ys : M !! l = Some (xs ++ ys) → _pred h (next_in l ys) = Some (end_of l xs).
Proof using R. intros E. apply (rep_list _ _ _ R), is_list_split in E as (_ & [_ E] & _). done. Qed.

Lemma lookup_head l ns : M !! l = Some ns → _succ h l = Some (next_in l ns).
Proof using R. apply (lookup_succ l []). Qed.
Lemma lookup_tail l ns : M !! l = Some ns → _pred h l = Some (end_of l ns).
Proof using R. intros E. apply (lookup_pred l ns []). by rewrite app_nil_r. Qed.

Lemma lookup_node l xs n ys : M !! l = Some (xs ++ n :: ys) → _pred h n = Some (end_of l xs) ∧ _succ h n = Some (next_in l ys).
Proof using R.
  intros E. split; [apply (lookup_pred l xs (n :: ys) E)|].
  replace n with (end_of l (xs ++ [n])) by (by rewrite end_of_app). apply lookup_succ. by rewrite <-app_assoc.
Qed.

Lemma insert_ok l xs ys n : M !! l = Some (xs ++ ys) → n ∈ F →
  ∃ h', _insert_nodes (end_of l xs) (next_in l ys) n n h = Some (h', n) ∧ rep h' (<[l := xs ++ n :: ys]> M) (F ∖ {[n]}).
Proof using R.
  intros E Hn. pose proof (rep_nodup _ _ _ R _ _ E) as Hnd. pose proof (rep_free _ _ _ R _ Hn) as Hnode.
  assert (n ∉ l :: xs ++ ys) as Hnot by (intros H; by apply (rep_apart _ _ _ R _ _ _ E) in H as []).
  destruct (insert_nodes_ok h l xs ys n []) as (h' & E' & Hl & Hc); [by apply (rep_list _ _ _ R)|done..| |].
  { apply list.NoDup_app. split; [done|]. split; [|apply NoDup_singleton]. by intros m Hm ->%list_elem_of_singleton. }
  exists h'. split; [done|]. eapply rep_update; [done..| |exact Hc| | | |].
  - rewrite app_comm_cons. apply list.NoDup_app. rewrite app_comm_cons in Hnd, Hnot. apply list.NoDup_app in Hnd as (H1 & H2 & H3).
    rewrite not_elem_of_app in Hnot. split; [done|]. split; [|apply list.NoDup_cons; tauto].
    intros m Hm. rewrite not_elem_of_cons. destruct Hnot as [Hn1 Hn2]. split; [by intros ->|by apply H2].
  - intros m [Hm| ->%list_elem_of_singleton]%elem_of_app; auto.
  - intros m. rewrite !elem_of_app, elem_of_cons. intros [?|[->|?]]; auto.
  - intros m [Hm _]%elem_of_difference. by left.
  - intros m [Hm Hm']%elem_of_difference. rewrite elem_of_app, elem_of_cons. rewrite elem_of_singleton in Hm'.
    intros [H|[H|H]]; [|done|]; apply (rep_apart _ _ _ R _ _ m E); try done; rewrite elem_of_cons, elem_of_app; tauto.
Qed.

Lemma remove_node_ok l xs n ys : M !! l = Some (xs ++ n :: ys) →
  ∃ h', _remove_nodes (end_of l xs) (next_in l ys) n n true false h = Some (h', n) ∧ rep h' (<[l := xs ++ ys]> M) (F ∪ {[n]}).
Proof using R.
  intros E. pose proof (rep_nodup _ _ _ R _ _ E) as Hnd.
  destruct (remove_nodes_ok h l xs n ys) as (h' & E' & Hl & Hc); [by apply (rep_list _ _ _ R)|done|].
  exists h'. split; [done|]. assert (NoDup (l :: xs ++ ys) ∧ n ∉ xs ++ ys) as [Hnd' Hnot].
  { rewrite Permutation_middle in Hnd. rewrite <-Permutation_middle in Hnd.
    assert (l :: xs ++ n :: ys ≡ₚ n :: l :: xs ++ ys) as Hp by (rewrite <-Permutation_middle; constructor).
    rewrite Hp in Hnd. apply list.NoDup_cons in Hnd as [H1 H2]. rewrite not_elem_of_cons in H1. tauto. }
  eapply rep_update; [done..| |exact Hc| | | |]; try done.
  - auto.
  - intros m. rewrite !elem_of_app, elem_of_cons. tauto.
  - intros m [Hm| ->%elem_of_singleton]%elem_of_union; [by left|]. right. rewrite elem_of_app, elem_of_cons. auto.
  - intros m [Hm| ->%elem_of_singleton]%elem_of_union Hm'; [|done].
    apply (rep_apart _ _ _ R _ _ m E); [|done]. rewrite elem_of_cons, elem_of_app, elem_of_cons. apply elem_of_app in Hm'. tauto.
Qed.
End operations.

(** ** Loops *)

Lemma fuel_enough h xs : NoDup xs → Forall (node h) xs → (length xs ≤ size (succs h))%nat.
Proof.
  intros Hnd Hn. rewrite <-size_dom, <-(size_list_to_set (C := gset Z) xs) by done. apply subseteq_size.
  intros x Hx%elem_of_list_to_set. rewrite list.Forall_forall in Hn. apply elem_of_dom, Hn, Hx.
Qed.

Lemma list_fuel h M F l ns : rep h M F → M !! l = Some ns → (length ns < size (succs h))%nat.
Proof.
  intros R E. apply (fuel_enough h (l :: ns)); [by apply (rep_nodup _ _ _ R)|]. by apply is_list_nodes, (rep_list _ _ _ R).
Qed.

Lemma destroy_loop_ok l : ∀ ns fuel x h,
  chain h x ns → succs h !! end_of x ns = Some l → NoDup (x :: ns) → l ∉ ns → Forall (node h) (x :: ns) → (length ns < fuel)%nat →
  ∃ h', destroy_loop fuel l x h = Some h' ∧ changes h h' (x :: ns).
Proof.
  induction ns as [|y ns IH]; intros fuel x h Hc He Hnd Hl Hn Hf; (destruct fuel as [|fuel]; [cbn in Hf; lia|]); cbn [destroy_loop end_of chain] in *.
  all: inversion Hn as [|? ? [Hs Hp] Hn']; subst.
  - unfold _succ. rewrite He. cbn [mbind option_bind]. rewrite set_succ_eq by done. cbn [mbind option_bind].
    rewrite set_pred_eq by done. cbn [mbind option_bind]. rewrite Z.eqb_refl. eexists. split; [done|]. split.
    + intros n [H1 H2]. split; cbn [succs preds]; by apply insert_node_some.
    + intros n Hn0%not_elem_of_cons. split; cbn [succs preds]; apply lookup_insert_ne; naive_solver.
  - destruct Hc as [[E1 E2] Hc]. unfold _succ. rewrite E1. cbn [mbind option_bind]. rewrite set_succ_eq by done. cbn [mbind option_bind].
    rewrite set_pred_eq by done. cbn [mbind option_bind]. apply list.NoDup_cons in Hnd as [Hx Hnd]. apply not_elem_of_cons in Hl as [Hly Hl].
    rewrite (proj2 (Z.eqb_neq y l)) by done.
    assert (∀ n, n ∈ y :: ns → x ≠ n) as Hne by (by intros n Hn0 ->).
    edestruct (IH fuel y) as (h' & E & Hc1 & Hc2); [| |done|done| |cbn in Hf; lia|exists h'; split; [exact E|]].
    + revert Hc. apply chain_frame; cbn [succs preds]; intros n Hn0; apply lookup_insert_ne, Hne.
      * by apply removelast_in in Hn0 as [? _].
      * by right.
    + cbn [succs]. rewrite lookup_insert_ne; [done|]. apply Hne, end_of_in.
    + revert Hn'. apply List.Forall_impl. intros n [H1 H2]. split; cbn [succs preds]; by apply insert_node_some.
    + split.
      * intros n [H1 H2]. apply Hc1. split; cbn [succs preds]; by apply insert_node_some.
      * intros n [Hn1 Hn2]%not_elem_of_cons. destruct (Hc2 n Hn2) as [E3 E4]. cbn [succs preds] in E3, E4.
        rewrite lookup_insert_ne in E3, E4 by done. by split.
Qed.

Section loops.
Context (h : heap) (M : gmap Z (list Z)) (F : gset Z) (R : rep h M F).

(** The list [l] with the nodes [xs ++ ys], from [ys] on. *)
Lemma member_loop_ok l n : ∀ ys xs fuel, M !! l = Some (xs ++ ys) → n ≠ l → (length ys ≤ fuel)%nat →
  member_loop fuel l n (next_in l ys) h = Some (bool_decide (n ∈ ys)).
Proof using R.
  induction ys as [|y ys IH]; intros xs fuel E Hn Hf.
  - destruct fuel; cbn [member_loop next_in hd]; rewrite Z.eqb_refl; done.
  - pose proof (rep_nodup _ _ _ R _ _ E) as [Hl _]%list.NoDup_cons.
    assert (y ≠ l) as Hy. { intros ->. apply Hl. rewrite elem_of_app, elem_of_cons. auto. }
    destruct fuel as [|fuel]; cbn [member_loop next_in hd length] in *; [lia|]. rewrite (proj2 (Z.eqb_neq y l)) by done.
    destruct (Z.eqb_spec y n) as [->|Hyn].
    + rewrite bool_decide_eq_true_2; [done|left].
    + destruct (lookup_node _ _ _ R _ _ _ _ E) as [_ Es]. rewrite Es. cbn [mbind option_bind].
      rewrite (IH (xs ++ [y])); [|by rewrite <-app_assoc|done|lia]. f_equal. apply bool_decide_ext. rewrite elem_of_cons. naive_solver.
Qed.

Lemma length_loop_ok l : ∀ ys xs fuel k, M !! l = Some (xs ++ ys) → (length ys ≤ fuel)%nat →
  length_loop fuel l (next_in l ys) k h = Some (k + Z.of_nat (length ys)).
Proof using R.
  induction ys as [|y ys IH]; intros xs fuel k E Hf.
  - destruct fuel; cbn [length_loop next_in hd length]; rewrite Z.eqb_refl; f_equal; lia.
  - pose proof (rep_nodup _ _ _ R _ _ E) as [Hl _]%list.NoDup_cons.
    assert (y ≠ l) as Hy. { intros ->. apply Hl. rewrite elem_of_app, elem_of_cons. auto. }
    destruct fuel as [|fuel]; cbn [length_loop next_in hd length] in *; [lia|]. rewrite (proj2 (Z.eqb_neq y l)) by done.
    destruct (lookup_node _ _ _ R _ _ _ _ E) as [_ Es]. rewrite Es. cbn [mbind option_bind].
    rewrite (IH (xs ++ [y])); [|by rewrite <-app_assoc|lia]. f_equal. lia.
Qed.

Lemma is_member_ok l ns n : M !! l = Some ns → is_member (size (succs h)) l n h = Some (bool_decide (n ∈ ns)).
Proof using R.
  intros E. assert (∀ m, m ∈ l :: ns → m ≠ NULL) as Hnull by (intros m Hm; by apply (rep_apart _ _ _ R _ _ m E)).
  unfold is_member. destruct (Z.eqb_spec n NULL) as [->|Hn].
  - rewrite bool_decide_eq_false_2; [done|]. intros H. by apply (Hnull NULL); [right|].
  - rewrite (lookup_head _ _ _ R _ _ E). cbn [mbind option_bind]. destruct (decide (n = l)) as [->|Hl].
    + (* the head node itself *)
      pose proof (rep_nodup _ _ _ R _ _ E) as [H _]%list.NoDup_cons. rewrite bool_decide_eq_false_2 by done.
      cut (∀ ys xs fuel, M !! l = Some (xs ++ ys) → (length ys ≤ fuel)%nat → member_loop fuel l l (next_in l ys) h = Some false).
      { intros H'. apply (H' ns []); [done|]. apply Nat.lt_le_incl. by eapply list_fuel. }
      clear E H Hnull Hn. induction ys as [|y ys IH]; intros xs fuel E Hf.
      * destruct fuel; cbn [member_loop next_in hd]; by rewrite Z.eqb_refl.
      * destruct fuel as [|fuel]; cbn [member_loop next_in hd length] in *; [lia|]. destruct (y =? l); [done|].
        destruct (lookup_node _ _ _ R _ _ _ _ E) as [_ Es]. rewrite Es. cbn [mbind option_bind].
        apply (IH (xs ++ [y])); [by rewrite <-app_assoc|lia].
    + apply (member_loop_ok l n ns []); [done|done|]. apply Nat.lt_le_incl. by eapply list_fuel.
Qed.
End loops.

(** ** Calls that add, remove or join lists *)

(** A node of the model: free or in a list. *)
Definition known (M : gmap Z (list Z)) (F : gset Z) (n : Z) : Prop := n ∈ F ∨ ∃ l ns, M !! l = Some ns ∧ n ∈ l :: ns.

Lemma known_ok h M F n : rep h M F → known M F n → node h n ∧ n ≠ NULL.
Proof.
  intros R [Hn|(l & ns & E & Hn)].
  - split; [by apply (rep_free _ _ _ R)|]. intros ->. by apply (rep_null _ _ _ R).
  - split; [|by apply (rep_apart _ _ _ R _ _ n E)]. apply (rep_list _ _ _ R), is_list_nodes in E.
    rewrite list.Forall_forall in E. by apply E.
Qed.

Lemma rep_change h h' M F M' F' X :
  rep h M F → changes h h' X →
  (∀ l ns, M' !! l = Some ns → (is_list h' l ns ∧ NoDup (l :: ns)) ∨ (M !! l = Some ns ∧ ∀ n, n ∈ l :: ns → n ∉ X)) →
  (∀ l1 ns1 l2 ns2 n, M' !! l1 = Some ns1 → M' !! l2 = Some ns2 → n ∈ l1 :: ns1 → n ∈ l2 :: ns2 → l1 = l2) →
  (∀ l ns n, M' !! l = Some ns → n ∈ l :: ns → known M F n ∧ n ∉ F') → (∀ n, n ∈ F' → known M F n) → rep h' M' F'.
Proof.
  intros R [Hc1 Hc2] Hl Hd Hk HF. split.
  - intros l ns E. destruct (Hl l ns E) as [[? _]|[E' Hx]]; [done|]. apply (list_frame h); [|by apply (rep_list _ _ _ R)].
    intros n Hn. by apply Hc2, Hx.
  - intros l ns E. destruct (Hl l ns E) as [[_ ?]|[E' Hx]]; [done|]. by apply (rep_nodup _ _ _ R).
  - exact Hd.
  - intros n Hn. apply Hc1. by apply (known_ok h M F n R), HF.
  - intros l ns n E Hn. destruct (Hk l ns n E Hn) as [H1 H2]. split; [|done]. by apply (known_ok h M F n R).
  - intros H. by apply HF, (known_ok h M F) in H as [].
Qed.

Lemma init_ok h M F l : rep h M F → l ∈ F →
  ∃ h', list_init l h = Some h' ∧ rep h' (<[l := []]> M) (F ∖ {[l]}).
Proof.
  intros R Hl. destruct (rep_free _ _ _ R _ Hl) as [Hs Hp].
  assert (∀ k ns, M !! k = Some ns → ∀ n, n ∈ k :: ns → n ∉ [l] ∧ n ∉ F) as Hk.
  { intros k ns E n Hn. apply (rep_apart _ _ _ R _ _ n E) in Hn as [_ Hn]. split; [|done]. by intros ->%list_elem_of_singleton. }
  unfold list_init. rewrite set_succ_eq by done. cbn [mbind option_bind]. rewrite set_pred_eq by done.
  eexists. split; [reflexivity|]. eapply (rep_change h _ M F _ _ [l]); [done|split| | | |].
  - intros n [H1 H2]. split; cbn [succs preds]; by apply insert_node_some.
  - intros n Hn. rewrite list_elem_of_singleton in Hn. split; cbn [succs preds]; by apply lookup_insert_ne.
  - intros k ns. rewrite lookup_insert_Some. intros [[<- <-]|[Hne E]]; [left|right].
    + split; [|apply NoDup_singleton]. split; [|done]. split; cbn [succs preds]; apply lookup_insert_eq.
    + split; [done|]. intros n Hn. by apply (Hk k ns E n Hn).
  - intros l1 ns1 l2 ns2 n. rewrite !lookup_insert_Some. intros [[<- <-]|[H1 E1]] [[<- <-]|[H2 E2]] Hn1 Hn2; [done| | |by eapply (rep_disjoint _ _ _ R)].
    + by apply (Hk _ _ E2 n) in Hn2 as [? _].
    + by apply (Hk _ _ E1 n) in Hn1 as [? _].
  - intros k ns n. rewrite lookup_insert_Some, elem_of_difference, elem_of_singleton. intros [[<- <-]|[H1 E1]] Hn.
    + apply list_elem_of_singleton in Hn as ->. split; [by left|]. by intros [_ ?].
    + split; [right; eauto|]. destruct (Hk _ _ E1 n Hn). tauto.
  - intros n [Hn _]%elem_of_difference. by left.
Qed.

Lemma destroy_ok h M F l ns : rep h M F → M !! l = Some ns →
  ∃ h', list_destroy (size (succs h)) l h = Some h' ∧ rep h' (delete l M) (F ∪ list_to_set (l :: ns)).
Proof.
  intros R E. pose proof (rep_list _ _ _ R _ _ E) as Hl. pose proof (rep_nodup _ _ _ R _ _ E) as Hnd.
  apply chain_app in Hl as Hl'. destruct Hl' as [Hc [[He _] _]].
  edestruct (destroy_loop_ok l ns (size (succs h)) l h) as (h' & E' & Hch); [done|done|done| | |by eapply list_fuel|].
  { by apply list.NoDup_cons in Hnd as [? _]. }
  { by apply is_list_nodes. }
  exists h'. split; [done|]. eapply (rep_change h h' M F); [done|exact Hch| | | |].
  - intros k ks. rewrite lookup_delete_Some. intros [Hne Ek]. right. split; [done|]. intros n Hn Hn'. apply Hne.
    by eapply (rep_disjoint _ _ _ R).
  - intros l1 ns1 l2 ns2 n. rewrite !lookup_delete_Some. intros [_ E1] [_ E2]. by apply (rep_disjoint _ _ _ R).
  - intros k ks n. rewrite lookup_delete_Some. intros [Hne Ek] Hn. split; [right; eauto|].
    rewrite elem_of_union, elem_of_list_to_set. intros [HF|Hn'].
    + by apply (rep_apart _ _ _ R _ _ n Ek) in Hn as [].
    + apply Hne. by eapply (rep_disjoint _ _ _ R).
  - intros n. rewrite elem_of_union, elem_of_list_to_set. intros [HF|Hn]; [by left|right; eauto].
Qed.

Lemma append_ok h M F l1 l2 ns n ns2 : rep h M F → M !! l1 = Some ns → M !! l2 = Some (n :: ns2) → l1 ≠ l2 →
  ∃ h', add_tail_list l1 l2 h = Some (h', n) ∧ rep h' (<[l2 := []]> (<[l1 := ns ++ n :: ns2]> M)) F.
Proof.
  intros R E1 E2 Hne. pose proof (rep_nodup _ _ _ R _ _ E1) as Hnd1. pose proof (rep_nodup _ _ _ R _ _ E2) as Hnd2.
  apply list.NoDup_cons in Hnd2 as [Hl2 Hnd2]. pose proof (rep_list _ _ _ R _ _ E2) as Hl. apply is_list_nodes in Hl as Hn.
  rewrite list.Forall_forall in Hn. apply chain_app in Hl as [[Hlink Hc] _].
  assert (∀ m, m ∈ l1 :: ns → m ∉ l2 :: n :: ns2) as Hdis by (intros m H1 H2; apply Hne; by eapply (rep_disjoint _ _ _ R)).
  unfold add_tail_list. rewrite (lookup_head _ _ _ R _ _ E2). cbn [mbind option_bind next_in hd].
  rewrite (proj2 (Z.eqb_neq l2 n)) by (intros ->; apply Hl2; left).
  rewrite (lookup_tail _ _ _ R _ _ E1), (lookup_tail _ _ _ R _ _ E2). cbn [mbind option_bind end_of].
  edestruct (insert_nodes_ok h l1 ns [] n ns2) as (h1 & Ei & Hl1 & Hc1 & Hc2); rewrite ?app_nil_r.
  { by apply (rep_list _ _ _ R). } { done. }
  { apply Hn; right; left. } { apply Hn; right. apply end_of_in. }
  { apply list.NoDup_app. split; [done|]. split; [|done]. intros m Hm Hm'. apply (Hdis m Hm). by right. }
  rewrite !app_nil_r in *. cbn [next_in hd] in Ei. rewrite Ei. cbn [mbind option_bind].
  assert (l2 ∉ (l1 :: ns) ++ n :: ns2) as Hnot.
  { rewrite elem_of_app. intros [H|H]; [|done]. apply (Hdis l2 H). left. }
  destruct (Hc1 l2 (Hn l2 ltac:(left))) as [Hs Hp].
  rewrite set_succ_eq by done. cbn [mbind option_bind]. rewrite set_pred_eq by done. cbn [mbind option_bind].
  eexists. split; [reflexivity|]. eapply (rep_change h _ M F _ _ (l2 :: (l1 :: ns) ++ n :: ns2)); [done|split| | | |].
  - intros m [H1 H2]%Hc1. split; cbn [succs preds]; by apply insert_node_some.
  - intros m [H1 H2]%not_elem_of_cons. destruct (Hc2 m H2) as [H3 H4]. split; cbn [succs preds]; by rewrite lookup_insert_ne.
  - intros k ks. rewrite !lookup_insert_Some. intros [[<- <-]|[Hk [[<- <-]|[Hk' Ek]]]].
    + left. split; [|apply NoDup_singleton]. split; [|done]. split; cbn [succs preds]; apply lookup_insert_eq.
    + left. split.
      * revert Hl1. apply list_frame. intros m Hm. assert (l2 ≠ m) by (by intros ->).
        split; cbn [succs preds]; by apply lookup_insert_ne.
      * rewrite app_comm_cons. apply list.NoDup_app. split; [done|]. split; [|done]. intros m Hm Hm'. apply (Hdis m Hm). by right.
    + right. split; [done|]. intros m Hm Hm'. rewrite elem_of_cons, elem_of_app in Hm'.
      assert (m ∈ l1 :: ns ∨ m ∈ l2 :: n :: ns2) as [H|H] by (rewrite (elem_of_cons _ m l2); tauto).
      * apply Hk'. by eapply (rep_disjoint _ _ _ R).
      * apply Hk. by eapply (rep_disjoint _ _ _ R).
  - assert (∀ k ks m, <[l2 := []]> (<[l1 := ns ++ n :: ns2]> M) !! k = Some ks → m ∈ k :: ks →
      (k = l1 ∧ m ∈ n :: ns2) ∨ (m ∉ n :: ns2 ∧ ∃ ks', M !! k = Some ks' ∧ m ∈ k :: ks')) as Hown.
    { intros k ks m. rewrite !lookup_insert_Some. intros [[<- <-]|[Hk [[<- <-]|[Hk' Ek]]]] Hm.
      - apply list_elem_of_singleton in Hm as ->. right. split; [done|]. eexists. split; [done|left].
      - rewrite app_comm_cons, elem_of_app in Hm. destruct Hm as [Hm|Hm]; [right|by left].
        split; [|by eauto]. intros H. apply (Hdis m Hm). by right.
      - right. split; [|by eauto]. intros H. apply Hk. eapply (rep_disjoint _ _ _ R); [exact E2|exact Ek| |exact Hm]. by right. }
    intros k1 ks1 k2 ks2 m H1 H2 Hm1 Hm2.
    destruct (Hown _ _ _ H1 Hm1) as [[-> ?]|[? (? & ? & ?)]], (Hown _ _ _ H2 Hm2) as [[-> ?]|[? (? & ? & ?)]]; try done.
    by eapply (rep_disjoint _ _ _ R).
  - intros k ks m Ek Hm. assert (known M F m ∧ ∃ k ks, M !! k = Some ks ∧ m ∈ k :: ks) as [H1 (k' & ks' & Ek' & Hm')].
    { cut (∃ k ks, M !! k = Some ks ∧ m ∈ k :: ks); [intros H; split; [right; exact H|exact H]|].
      revert Ek. rewrite !lookup_insert_Some. intros [[<- <-]|[Hk [[<- <-]|[Hk' Ek]]]]; [| |by eauto].
      - apply list_elem_of_singleton in Hm as ->. do 2 eexists. split; [exact E2|left].
      - rewrite app_comm_cons, elem_of_app in Hm. destruct Hm as [Hm|Hm]; [by eauto|]. do 2 eexists. split; [exact E2|by right]. }
    split; [done|]. by apply (rep_apart _ _ _ R _ _ m Ek').
  - intros m Hm. by left.
Qed.

(** ** Refinement *)

Lemma empty_iff h M F l ns : rep h M F → M !! l = Some ns → (l =? next_in l ns) = bool_decide (ns = []).
Proof.
  intros R E. destruct ns as [|n ns]; cbn [next_in hd]; [by rewrite Z.eqb_refl|].
  pose proof (rep_nodup _ _ _ R _ _ E) as [H _]%list.NoDup_cons. rewrite (proj2 (Z.eqb_neq l n)) by (intros ->; apply H; left). done.
Qed.

Lemma last_end l (ns : list Z) : ns ≠ [] → list.last ns = Some (end_of l ns).
Proof. revert l. induction ns as [|n ns IH]; [done|]. intros l _. destruct ns as [|m ns]; [done|]. cbn [end_of]. by apply (IH n). Qed.

Lemma is_head_ok h M F l ns n : rep h M F → M !! l = Some ns → n ≠ l →
  is_head l n h = Some (bool_decide (head ns = Some n)).
Proof.
  intros R E Hn. unfold is_head. rewrite (lookup_head _ _ _ R _ _ E). cbn [mbind option_bind]. f_equal.
  destruct ns as [|m ns]; cbn [next_in hd head].
  - rewrite (proj2 (Z.eqb_neq n l)) by done. by rewrite andb_false_r.
  - assert (m ≠ NULL) by (apply (rep_apart _ _ _ R _ _ m E); right; left).
    destruct (Z.eqb_spec n m) as [->|Hm].
    + rewrite (proj2 (Z.eqb_neq m NULL)) by done. cbn. by rewrite bool_decide_eq_true_2.
    + rewrite andb_false_r. rewrite bool_decide_eq_false_2; [done|]. by intros [= ->].
Qed.

Lemma is_tail_ok h M F l ns n : rep h M F → M !! l = Some ns → n ≠ l →
  is_tail l n h = Some (bool_decide (list.last ns = Some n)).
Proof.
  intros R E Hn. unfold is_tail. rewrite (lookup_tail _ _ _ R _ _ E). cbn [mbind option_bind]. f_equal.
  destruct (decide (ns = [])) as [->|Hne]; cbn [end_of].
  - rewrite (proj2 (Z.eqb_neq n l)) by done. by rewrite andb_false_r.
  - rewrite (last_end l ns) by done. pose proof (end_of_in l ns) as Hin.
    assert (end_of l ns ≠ NULL) by (by apply (rep_apart _ _ _ R _ _ _ E)).
    destruct (Z.eqb_spec n (end_of l ns)) as [->|Hm].
    + rewrite (proj2 (Z.eqb_neq _ NULL)) by done. cbn. by rewrite bool_decide_eq_true_2.
    + rewrite andb_false_r. rewrite bool_decide_eq_false_2; [done|]. intros [= H']. by rewrite H' in Hm.
Qed.

Ltac run E := unfold run_call, returns_node, returns_truth; rewrite E; cbn [mbind option_bind]; eexists; split; [reflexivity|].

(** One call. *)
Lemma call_refines h M F c M' F' r : rep h M F → specified M F c M' F' r → ∃ h', run_call c h = Some (h', r) ∧ rep h' M' F'.
Proof.
  intros R. destruct 1 as [l Hl|l ns E|l xs ys n E Hn|l xs ys n E Hn|l xs n ys E|l ns n E Hn|l ns n E Hn|l1 l2 ns E1 E2
    |l1 l2 ns n ns2 E1 E2 Hne|l xs n ys E|l ns n E Hn|l n ns E|l E|l n ns E|l E|l ns E|l ns n E Hn|l ns n E Hn|l ns n E|l ns E].
  - destruct (init_ok _ _ _ l R Hl) as (h' & E & R'). by run E.
  - destruct (destroy_ok _ _ _ l ns R E) as (h' & E' & R'). by run E'.
  - destruct (insert_ok _ _ _ R l xs ys n E Hn) as (h' & E' & R'). cbn [run_call]. unfold insert_after.
    rewrite (lookup_succ _ _ _ R _ _ _ E). cbn [mbind option_bind]. by run E'.
  - destruct (insert_ok _ _ _ R l xs ys n E Hn) as (h' & E' & R'). cbn [run_call]. unfold insert_before.
    rewrite (lookup_pred _ _ _ R _ _ _ E). cbn [mbind option_bind]. by run E'.
  - destruct (remove_node_ok _ _ _ R l xs n ys E) as (h' & E' & R'). cbn [run_call]. unfold unlink_node.
    destruct (lookup_node _ _ _ R _ _ _ _ E) as [-> ->]. cbn [mbind option_bind]. by run E'.
  - destruct (insert_ok _ _ _ R l [] ns n E Hn) as (h' & E' & R'). cbn [run_call]. unfold add_head.
    rewrite (lookup_head _ _ _ R _ _ E). cbn [mbind option_bind end_of] in *. by run E'.
  - rewrite <-(app_nil_r ns) in E. destruct (insert_ok _ _ _ R l ns [] n E Hn) as (h' & E' & R'). cbn [run_call]. unfold add_tail.
    rewrite app_nil_r in E. rewrite (lookup_tail _ _ _ R _ _ E). cbn [mbind option_bind]. change (next_in l []) with l in E'. by run E'.
  - cbn [run_call]. unfold add_tail_list. rewrite (lookup_head _ _ _ R _ _ E2). cbn [mbind option_bind next_in hd returns_node].
    rewrite Z.eqb_refl. by exists h.
  - destruct (append_ok _ _ _ l1 l2 ns n ns2 R E1 E2 Hne) as (h' & E' & R'). by run E'.
  - destruct (remove_node_ok _ _ _ R l xs n ys E) as (h' & E' & R'). cbn [run_call]. unfold rem_node.
    rewrite (is_member_ok _ _ _ R _ _ n E). cbn [mbind option_bind].
    rewrite bool_decide_eq_true_2 by (rewrite elem_of_app, elem_of_cons; auto). unfold unlink_node.
    destruct (lookup_node _ _ _ R _ _ _ _ E) as [-> ->]. cbn [mbind option_bind]. by run E'.
  - cbn [run_call]. unfold rem_node. rewrite (is_member_ok _ _ _ R _ _ n E). cbn [mbind option_bind].
    rewrite bool_decide_eq_false_2 by done. by exists h.
  - destruct (remove_node_ok _ _ _ R l [] n ns E) as (h' & E' & R'). cbn [run_call]. unfold rem_head.
    rewrite (lookup_head _ _ _ R _ _ E). cbn [mbind option_bind next_in hd].
    pose proof (empty_iff _ _ _ _ _ R E) as He. cbn [next_in hd] in He. rewrite Z.eqb_sym, He.
    destruct (lookup_node _ _ _ R _ [] _ _ E) as [_ ->]. cbn [mbind option_bind end_of] in *. by run E'.
  - cbn [run_call]. unfold rem_head. rewrite (lookup_head _ _ _ R _ _ E). cbn [mbind option_bind next_in hd].
    rewrite Z.eqb_refl. by exists h.
  - destruct (remove_node_ok _ _ _ R l ns n [] E) as (h' & E' & R'). rewrite app_nil_r in R'. cbn [run_call]. unfold rem_tail.
    rewrite (lookup_tail _ _ _ R _ _ E), end_of_app. cbn [mbind option_bind end_of].
    assert (n ≠ l) as Hn. { pose proof (rep_nodup _ _ _ R _ _ E) as [H _]%list.NoDup_cons. intros ->. apply H, elem_of_app. right; left. }
    rewrite (proj2 (Z.eqb_neq n l)) by done. cbn [negb].
    destruct (lookup_node _ _ _ R _ _ _ _ E) as [-> _]. cbn [mbind option_bind]. change (next_in l []) with l in E'. by run E'.
  - cbn [run_call]. unfold rem_tail. rewrite (lookup_tail _ _ _ R _ _ E). cbn [mbind option_bind end_of].
    rewrite Z.eqb_refl. by exists h.
  - cbn [run_call]. unfold is_empty. rewrite (lookup_head _ _ _ R _ _ E). cbn [mbind option_bind]. rewrite (empty_iff _ _ _ _ _ R E). by exists h.
  - cbn [run_call]. rewrite (is_head_ok _ _ _ _ _ n R E Hn). by exists h.
  - cbn [run_call]. rewrite (is_tail_ok _ _ _ _ _ n R E Hn). by exists h.
  - cbn [run_call]. rewrite (is_member_ok _ _ _ R _ _ n E). by exists h.
  - cbn [run_call]. unfold list_length. rewrite (lookup_head _ _ _ R _ _ E). cbn [mbind option_bind].
    rewrite (length_loop_ok _ _ _ R l ns []) by (try done; apply Nat.lt_le_incl; by eapply list_fuel). by exists h.
Qed.

Lemma calls_refine (h : heap) (M : gmap Z (list Z)) (F : gset Z) (cs : list call) (M' : gmap Z (list Z)) (F' : gset Z)
    (rs : list result) :
  rep h M F → specified_calls M F cs M' F' rs → ∃ h', run_calls cs h = Some (h', rs) ∧ rep h' M' F'.
Proof.
  intros R H. revert h R. induction H as [M F|M F c M1 F1 r cs M2 F2 rs H1 _ IH]; intros h R; [by exists h|].
  destruct (call_refines _ _ _ _ _ _ _ R H1) as (h1 & E1 & R1). destruct (IH h1 R1) as (h2 & E2 & R2).
  exists h2. split; [|done]. cbn [run_calls]. rewrite E1. cbn [mbind option_bind]. by rewrite E2.
Qed.

(** C27: the doubly linked lists of the library are lists.  On any heap that holds any
    number of lists which share no nodes, any sequence of calls that keeps to the
    contract (a node that is added is in no list, a node that is removed is in one)
    returns, with the results of the specification, and leaves the lists that the
    specification says, wherever in its list a node was: every node keeps linked both
    ways and no other list changes. *)
Theorem dlist_refines (h : heap) (M : gmap Z (list Z)) (F : gset Z) (cs : list call) (M' : gmap Z (list Z)) (F' : gset Z)
    (rs : list result) :
  rep h M F → specified_calls M F cs M' F' rs → ∃ h', run_calls cs h = Some (h', rs) ∧ rep h' M' F'.
Proof. apply calls_refine. Qed.

(** ** Traversals *)

Section traversal.
Context {S : Type} (body : Z → heap * S → option (heap * S)) (visit : Z → S → S) (l : Z).

(** The body may do anything to the nodes that were visited before and to its own, such
    as to unlink it, and to other lists, but it keeps the nodes that follow. *)
Context (body_ok : ∀ h M F s xs p ys, rep h M F → M !! l = Some (xs ++ p :: ys) →
  ∃ h' M' F' xs', body p (h, s) = Some (h', visit p s) ∧ rep h' M' F' ∧ M' !! l = Some (xs' ++ ys)).

Lemma for_all_loop_ok : ∀ ys h M F s xs fuel, rep h M F → M !! l = Some (xs ++ ys) → (length ys ≤ fuel)%nat →
  ∃ h' M' F' xs', for_all_loop fuel _succ body l (next_in l ys) (h, s) = Some (h', foldl (λ s p, visit p s) s ys) ∧
    rep h' M' F' ∧ M' !! l = Some xs'.
Proof using body_ok.
  induction ys as [|p ys IH]; intros h M F s xs fuel R E Hf.
  - rewrite app_nil_r in E. exists h, M, F, xs. split; [|done]. pose proof (lookup_head _ _ _ R _ _ E) as Es.
    destruct fuel; cbn [for_all_loop next_in hd fst]; rewrite Es; cbn [mbind option_bind]; by rewrite Z.eqb_refl.
  - assert (p ≠ l) as Hp.
    { pose proof (rep_nodup _ _ _ R _ _ E) as [H _]%list.NoDup_cons. intros ->. apply H. rewrite elem_of_app, elem_of_cons. auto. }
    destruct (lookup_node _ _ _ R _ _ _ _ E) as [_ Es].
    destruct fuel as [|fuel]; [cbn in Hf; lia|]. cbn [for_all_loop next_in hd fst]. rewrite Es. cbn [mbind option_bind].
    rewrite (proj2 (Z.eqb_neq p l)) by done. destruct (body_ok h M F s xs p ys R E) as (h1 & M1 & F1 & xs1 & -> & R1 & E1).
    cbn [mbind option_bind foldl]. apply (IH h1 M1 F1 _ xs1); [done|done|cbn in Hf; lia].
Qed.

(** C40: a traversal of a list visits every node that the list had when it began, once
    and in order, and ends, although the body may unlink the node it is given, put it
    into another list or free it. *)
Theorem for_all_nodes_visits (h : heap) (M : gmap Z (list Z)) (F : gset Z) (ns : list Z) (s : S) (fuel : nat) :
  rep h M F → M !! l = Some ns → (length ns ≤ fuel)%nat →
  ∃ h' M' F', FOR_ALL_NODES fuel body l (h, s) = Some (h', foldl (λ s p, visit p s) s ns) ∧ rep h' M' F'.
Proof using body_ok.
  intros R E Hf. destruct (for_all_loop_ok ns h M F s [] fuel R E Hf) as (h' & M' & F' & xs' & E' & R' & _).
  exists h', M', F'. split; [|done]. unfold FOR_ALL_NODES. cbn [fst]. by rewrite (lookup_head _ _ _ R _ _ E).
Qed.
End traversal.

(** ** Examples *)

Definition example_free : list Z := [10; 11; 12; 13; 20; 21].
(** Nodes that were allocated with zeros. *)
Definition example_heap : heap :=
  let m := list_to_map (map (λ n, (n, 0)) example_free) in Heap m m.

Lemma example_rep : rep example_heap ∅ (list_to_set example_free).
Proof.
  split; try (intros *; rewrite lookup_empty; done).
  - intros n Hn%elem_of_list_to_set. unfold example_free in Hn. set_unfold.
    repeat destruct Hn as [->|Hn]; try done; split; eexists; vm_compute; reflexivity.
  - intros H%elem_of_list_to_set. revert H. unfold example_free, NULL. set_unfold. lia.
Qed.

Definition example_calls : list call :=
  [List_init 10; List_init 20; Add_tail 10 11; Add_head 10 12; Insert_after 12 13; Add_tail 20 21; Add_tail_list 20 10;
   Unlink_node 13; Is_empty 10; List_length 20; Is_member 20 13; Rem_head 20].
Definition example_results : list result :=
  [Nothing; Nothing; Node 11; Node 12; Node 13; Node 21; Node 12; Node 13; Truth true; Count 3; Truth false; Node 21].

Lemma example_specified : ∃ M' F', specified_calls ∅ (list_to_set example_free) example_calls M' F' example_results.
Proof.
  do 2 eexists. unfold example_calls, example_results.
  eapply S_cons; [apply S_init; vm_compute; reflexivity|].
  eapply S_cons; [apply S_init; vm_compute; reflexivity|].
  eapply S_cons; [eapply (S_add_tail _ _ _ []); vm_compute; reflexivity|].
  eapply S_cons; [eapply (S_add_head _ _ _ [11]); vm_compute; reflexivity|].
  eapply S_cons; [eapply (S_insert_after _ _ 10 [12] [11]); vm_compute; reflexivity|].
  eapply S_cons; [eapply (S_add_tail _ _ _ []); vm_compute; reflexivity|].
  eapply S_cons; [eapply (S_append _ _ _ _ [21] 12 [13; 11]); [vm_compute; reflexivity..|lia]|].
  eapply S_cons; [eapply (S_unlink _ _ 20 [21; 12] 13 [11]); vm_compute; reflexivity|].
  eapply S_cons; [eapply (S_is_empty _ _ _ []); vm_compute; reflexivity|].
  eapply S_cons; [eapply (S_list_length _ _ _ [21; 12; 11]); vm_compute; reflexivity|].
  eapply S_cons; [eapply (S_is_member _ _ _ [21; 12; 11]); vm_compute; reflexivity|].
  eapply S_cons; [eapply (S_rem_head _ _ _ _ [12; 11]); vm_compute; reflexivity|].
  apply S_nil.
Qed.

Lemma dlist_refines_witness : ∃ h' M' F', run_calls example_calls example_heap = Some (h', example_results) ∧ rep h' M' F'.
Proof.
  destruct example_specified as (M' & F' & H). destruct (dlist_refines _ _ _ _ _ _ _ example_rep H) as (h' & E & R).
  exists h', M', F'. split; [exact E|exact R].
Defined.

(** A body that unlinks its node and counts. *)
Definition example_body (p : Z) (st : heap * list Z) : option (heap * list Z) :=
  '(h, _) ← unlink_node p st.1; Some (h, st.2 ++ [p]).

Lemma example_body_ok l h M F s xs p ys : rep h M F → M !! l = Some (xs ++ p :: ys) →
  ∃ h' M' F' xs', example_body p (h, s) = Some (h', s ++ [p]) ∧ rep h' M' F' ∧ M' !! l = Some (xs' ++ ys).
Proof.
  intros R E. destruct (remove_node_ok _ _ _ R l xs p ys E) as (h' & E' & R'). exists h', (<[l := xs ++ ys]> M), (F ∪ {[p]}), xs.
  split; [|split; [done|apply lookup_insert_eq]]. unfold example_body, unlink_node. cbn [fst snd].
  destruct (lookup_node _ _ _ R _ _ _ _ E) as [-> ->]. cbn [mbind option_bind]. by rewrite E'.
Qed.

Lemma for_all_nodes_visits_witness : ∃ h h' M' F', run_calls (take 5 example_calls) example_heap = Some (h, take 5 example_results) ∧
  FOR_ALL_NODES 3 example_body 10 (h, []) = Some (h', [12; 13; 11]) ∧ rep h' M' F'.
Proof.
  destruct (calls_refine example_heap ∅ (list_to_set example_free) (take 5 example_calls) (<[10 := [12; 13; 11]]> (<[10 := [12; 11]]> (<[10 := [11]]> (<[20 := []]> (<[10 := []]> ∅)))))
    (list_to_set example_free ∖ {[10]} ∖ {[20]} ∖ {[11]} ∖ {[12]} ∖ {[13]}) (take 5 example_results) example_rep) as (h & E & R).
  { cbn [take example_calls example_results].
    eapply S_cons; [apply S_init; vm_compute; reflexivity|].
    eapply S_cons; [apply S_init; vm_compute; reflexivity|].
    eapply S_cons; [eapply (S_add_tail _ _ _ []); vm_compute; reflexivity|].
    eapply S_cons; [eapply (S_add_head _ _ _ [11]); vm_compute; reflexivity|].
    eapply S_cons; [eapply (S_insert_after _ _ 10 [12] [11]); vm_compute; reflexivity|]. apply S_nil. }
  destruct (for_all_nodes_visits example_body (λ p s, s ++ [p]) 10 (example_body_ok 10) h _ _ [12; 13; 11] [] 3 R) as (h' & M' & F' & E' & R').
  - vm_compute. reflexivity.
  - cbn. lia.
  - exists h, h', M', F'. split; [exact E|]. split; [exact E'|exact R'].
Defined.
