(* ===== verification/Cache.v ===== *)
(** The Teletext page cache: [src/src/cache.c] and [src/src/cache-priv.h], as compiled for
    version 0.2 of the library. *)
From stdpp Require Import gmap.
From S2P Require Import Prelude Bcd.

Inductive ttx_page_function :=
  | PAGE_FUNCTION_ACI | PAGE_FUNCTION_EPG | PAGE_FUNCTION_EACEM_TRIGGER | PAGE_FUNCTION_DISCARD | PAGE_FUNCTION_UNKNOWN
  | PAGE_FUNCTION_LOP | PAGE_FUNCTION_DATA | PAGE_FUNCTION_GPOP | PAGE_FUNCTION_POP | PAGE_FUNCTION_GDRCS
  | PAGE_FUNCTION_DRCS | PAGE_FUNCTION_MOT | PAGE_FUNCTION_MIP | PAGE_FUNCTION_BTT | PAGE_FUNCTION_AIT
  | PAGE_FUNCTION_MPT | PAGE_FUNCTION_MPT_EX | PAGE_FUNCTION_IEC_TRIGGER.

Inductive cache_priority := CACHE_PRI_ZOMBIE | CACHE_PRI_NORMAL | CACHE_PRI_SPECIAL.
#[export] Instance cache_priority_dec : EqDecision cache_priority.
Proof. solve_decision. Defined.

Definition HASH_SIZE : Z := 113.
Definition VBI_CLOCK_PAGE : Z := 0x79.
Definition VBI_ANY_SUBNO : Z := 0x3F7F.

(** What is stored of a page, apart from its number. *)
Record content := Content {
  function : ttx_page_function; national : Z; flags : Z; lop_packets : Z; x26_designations : Z; x27_designations : Z;
  x28_designations : Z; data : list Z
}.

(** [allocated] is the size of the block the page is stored in; the network is NULL for a
    page that is not cached. *)
Record cache_page := CachePage {
  network : Z; ref_count : Z; priority : cache_priority; pgno : Z; subno : Z; body : content; allocated : Z
}.

(** The fields of the page statistics that the cache uses. *)
Record ttx_page_stat := PageStat { page_type : Z; n_subpages : Z; max_subpages : Z; subno_min : Z; subno_max : Z }.
Definition no_stat : ttx_page_stat := PageStat 0 0 0 0 0.

(** The page statistics are those of zeros where there is no entry. *)
Record cache_network := CacheNetwork {
  net_ref_count : Z; zombie : bool; n_cached_pages : Z; max_cached_pages : Z; n_referenced_pages : Z;
  confirm_cni : Z * Z * Z; pages_stat : gmap Z ttx_page_stat
}.

(** Pages and networks are blocks at addresses, lists are lists of addresses. *)
Record vbi_cache := Cache {
  hash_lists : list (list Z); ca_n_cached_pages : Z; priority_list : list Z; referenced : list Z;
  memory_used : Z; memory_limit : Z; networks : list Z; n_cached_networks : Z; n_networks_limit : Z;
  page_heap : gmap Z cache_page; network_heap : gmap Z cache_network
}.

Definition u64 (x : Z) : Z := x mod 2 ^ 64.

(** ** Fields *)

Definition set_ref (n : Z) (cp : cache_page) : cache_page :=
  CachePage (network cp) n (priority cp) (pgno cp) (subno cp) (body cp) (allocated cp).
Definition set_priority (pri : cache_priority) (cp : cache_page) : cache_page :=
  CachePage (network cp) (ref_count cp) pri (pgno cp) (subno cp) (body cp) (allocated cp).
Definition set_network (n : Z) (cp : cache_page) : cache_page :=
  CachePage n (ref_count cp) (priority cp) (pgno cp) (subno cp) (body cp) (allocated cp).

Definition set_net_ref (n : Z) (cn : cache_network) : cache_network :=
  CacheNetwork n (zombie cn) (n_cached_pages cn) (max_cached_pages cn) (n_referenced_pages cn) (confirm_cni cn) (pages_stat cn).
Definition set_zombie (b : bool) (cn : cache_network) : cache_network :=
  CacheNetwork (net_ref_count cn) b (n_cached_pages cn) (max_cached_pages cn) (n_referenced_pages cn) (confirm_cni cn) (pages_stat cn).
Definition set_cached (n max : Z) (cn : cache_network) : cache_network :=
  CacheNetwork (net_ref_count cn) (zombie cn) n max (n_referenced_pages cn) (confirm_cni cn) (pages_stat cn).
Definition set_n_referenced (n : Z) (cn : cache_network) : cache_network :=
  CacheNetwork (net_ref_count cn) (zombie cn) (n_cached_pages cn) (max_cached_pages cn) n (confirm_cni cn) (pages_stat cn).
Definition set_stat (pg : Z) (ps : ttx_page_stat) (cn : cache_network) : cache_network :=
  CacheNetwork (net_ref_count cn) (zombie cn) (n_cached_pages cn) (max_cached_pages cn) (n_referenced_pages cn) (confirm_cni cn)
    (<[pg := ps]> (pages_stat cn)).

Definition set_hash (l : list (list Z)) (ca : vbi_cache) : vbi_cache :=
  Cache l (ca_n_cached_pages ca) (priority_list ca) (referenced ca) (memory_used ca) (memory_limit ca) (networks ca)
    (n_cached_networks ca) (n_networks_limit ca) (page_heap ca) (network_heap ca).
Definition set_n_pages (n : Z) (ca : vbi_cache) : vbi_cache :=
  Cache (hash_lists ca) n (priority_list ca) (referenced ca) (memory_used ca) (memory_limit ca) (networks ca)
    (n_cached_networks ca) (n_networks_limit ca) (page_heap ca) (network_heap ca).
Definition set_lists (pri ref : list Z) (ca : vbi_cache) : vbi_cache :=
  Cache (hash_lists ca) (ca_n_cached_pages ca) pri ref (memory_used ca) (memory_limit ca) (networks ca)
    (n_cached_networks ca) (n_networks_limit ca) (page_heap ca) (network_heap ca).
Definition set_memory (n : Z) (ca : vbi_cache) : vbi_cache :=
  Cache (hash_lists ca) (ca_n_cached_pages ca) (priority_list ca) (referenced ca) n (memory_limit ca) (networks ca)
    (n_cached_networks ca) (n_networks_limit ca) (page_heap ca) (network_heap ca).
Definition set_networks (l : list Z) (n : Z) (ca : vbi_cache) : vbi_cache :=
  Cache (hash_lists ca) (ca_n_cached_pages ca) (priority_list ca) (referenced ca) (memory_used ca) (memory_limit ca) l
    n (n_networks_limit ca) (page_heap ca) (network_heap ca).
Definition set_page_heap (m : gmap Z cache_page) (ca : vbi_cache) : vbi_cache :=
  Cache (hash_lists ca) (ca_n_cached_pages ca) (priority_list ca) (referenced ca) (memory_used ca) (memory_limit ca) (networks ca)
    (n_cached_networks ca) (n_networks_limit ca) m (network_heap ca).
Definition set_network_heap (m : gmap Z cache_network) (ca : vbi_cache) : vbi_cache :=
  Cache (hash_lists ca) (ca_n_cached_pages ca) (priority_list ca) (referenced ca) (memory_used ca) (memory_limit ca) (networks ca)
    (n_cached_networks ca) (n_networks_limit ca) (page_heap ca) m.

(** Accesses to a block; [None] when it is not allocated. *)
Definition page_at (ca : vbi_cache) (p : Z) : option cache_page := page_heap ca !! p.
Definition network_at (ca : vbi_cache) (n : Z) : option cache_network := network_heap ca !! n.
Definition update_page (p : Z) (f : cache_page → cache_page) (ca : vbi_cache) : option vbi_cache :=
  cp ← page_at ca p; Some (set_page_heap (<[p := f cp]> (page_heap ca)) ca).
Definition update_network (n : Z) (f : cache_network → cache_network) (ca : vbi_cache) : option vbi_cache :=
  cn ← network_at ca n; Some (set_network_heap (<[n := f cn]> (network_heap ca)) ca).

(** [unlink_node]: a node that is in no list has no neighbours to link. *)
Definition without (p : Z) (l : list Z) : list Z := List.filter (λ q, negb (q =? p)) l.
Definition unlink_hash (p : Z) (ca : vbi_cache) : option vbi_cache :=
  if decide (p ∈ concat (hash_lists ca)) then Some (set_hash (map (without p) (hash_lists ca)) ca) else None.
Definition unlink_pri (p : Z) (ca : vbi_cache) : option vbi_cache :=
  if decide (p ∈ priority_list ca ++ referenced ca)
  then Some (set_lists (without p (priority_list ca)) (without p (referenced ca)) ca) else None.
Definition unlink_network (n : Z) (ca : vbi_cache) : option vbi_cache :=
  if decide (n ∈ networks ca) then Some (set_networks (without n (networks ca)) (n_cached_networks ca) ca) else None.

Definition add_hash_head (i p : Z) (ca : vbi_cache) : option vbi_cache :=
  l ← rd (hash_lists ca) i; h ← wr (hash_lists ca) i (p :: l); Some (set_hash h ca).

(** [FOR_ALL_NODES] with a body that may unlink its node: the nodes that the list has at
    the beginning, see [Dlist.for_all_nodes_visits]. *)
Fixpoint for_all {B A} (body : B → A → option A) (l : list B) (a : A) : option A :=
  match l with
  | [] => Some a
  | p :: l => a ← body p a; for_all body l a
  end.

(** The same with a body that may leave the loop. *)
Fixpoint for_all_until {B A} (body : B → A → option (A * bool)) (l : list B) (a : A) : option (A * bool) :=
  match l with
  | [] => Some (a, false)
  | p :: l => '(a, leave) ← body p a; if (leave : bool) then Some (a, true) else for_all_until body l a
  end.

(** ** Network statistics *)

Definition hash (pgno : Z) : Z := Z.rem pgno HASH_SIZE.

Definition cache_network_page_stat (cn : cache_network) (pgno : Z) : option ttx_page_stat :=
  if (0x100 <=? pgno) && (pgno <=? 0x8FF) then Some (default no_stat (pages_stat cn !! pgno)) else None (* assertion *).

Definition cache_network_remove_page (n p : Z) (ca : vbi_cache) : option vbi_cache :=
  cp ← page_at ca p;
  ca ← update_page p (set_network 0) ca;
  cn ← network_at ca n;
  ps ← cache_network_page_stat cn (pgno cp);
  update_network n
    (λ cn, set_stat (pgno cp) (PageStat (page_type ps) (u8 (n_subpages ps - 1)) (max_subpages ps) (subno_min ps) (subno_max ps))
             (set_cached (u32 (n_cached_pages cn - 1)) (max_cached_pages cn) cn)) ca.

Definition stat_add (subno : Z) (ps : ttx_page_stat) : ttx_page_stat :=
  let n := u8 (n_subpages ps + 1) in
  PageStat (page_type ps) n (if max_subpages ps <? n then n else max_subpages ps)
    (if (subno_min ps =? 0) || (subno <? subno_min ps) then u8 subno else subno_min ps)
    (if subno_max ps <? subno then u8 subno else subno_max ps).

(** Undoes the mark for deletion. *)
Definition revive (n : Z) (ca : vbi_cache) : option vbi_cache :=
  cn ← network_at ca n;
  if zombie cn then update_network n (set_zombie false) (set_networks (networks ca) (u32 (n_cached_networks ca + 1)) ca)
  else Some ca.

Definition cache_network_add_page (n p : Z) (ca : vbi_cache) : option vbi_cache :=
  ca ← revive n ca;
  cp ← page_at ca p;
  ca ← update_page p (set_network n) ca;
  cn ← network_at ca n;
  let cached := u32 (n_cached_pages cn + 1) in
  ps ← cache_network_page_stat cn (pgno cp);
  update_network n
    (λ cn, set_stat (pgno cp) (stat_add (subno cp) ps) (set_cached cached (Z.max (max_cached_pages cn) cached) cn)) ca.

(** ** Pages *)

(** The sizes of the parts of a page, which the compiler determines: everything before
    the union of the page data, its members and the union. *)
Record sizes := Sizes {
  size_header : Z; size_lop : Z; size_enh_lop : Z; size_ext_lop : Z; size_pop : Z; size_drcs : Z; size_ait : Z; size_data : Z
}.

Definition sizes_list (sz : sizes) : list Z :=
  [size_lop sz; size_enh_lop sz; size_ext_lop sz; size_pop sz; size_drcs sz; size_ait sz].

(** The members of a union are not larger than the union. *)
Record sizes_ok (sz : sizes) : Prop := {
  so_header : 0 < size_header sz;
  so_data : size_header sz + size_data sz < 2 ^ 31;
  so_members : Forall (λ n, 0 < n ≤ size_data sz) (sizes_list sz)
}.

Section cache.
Context (sz : sizes).

Definition body_size (b : content) : Z :=
  match function b with
  | PAGE_FUNCTION_UNKNOWN | PAGE_FUNCTION_LOP =>
      if negb (x28_designations b .& 0x13 =? 0) then size_ext_lop sz
      else if negb (x26_designations b =? 0) then size_enh_lop sz
      else size_lop sz
  | PAGE_FUNCTION_GPOP | PAGE_FUNCTION_POP => size_pop sz
  | PAGE_FUNCTION_GDRCS | PAGE_FUNCTION_DRCS => size_drcs sz
  | PAGE_FUNCTION_AIT => size_ait sz
  | _ => size_data sz
  end.
Definition cache_page_size (cp : cache_page) : Z := size_header sz + body_size (body cp).

Definition delete_page (p : Z) (ca : vbi_cache) : option vbi_cache :=
  cp ← page_at ca p;
  if 0 <? ref_count cp then
    if decide (priority cp = CACHE_PRI_ZOMBIE) then Some ca
    else ca ← unlink_hash p ca; update_page p (set_priority CACHE_PRI_ZOMBIE) ca
  else
    ca ← (if decide (priority cp = CACHE_PRI_ZOMBIE) then Some ca
          else unlink_hash p (set_memory (u64 (memory_used ca - cache_page_size cp)) ca));
    ca ← unlink_pri p ca;
    ca ← cache_network_remove_page (network cp) p ca;
    Some (set_n_pages (u32 (ca_n_cached_pages ca - 1)) (set_page_heap (delete p (page_heap ca)) ca)).

(** Of the network [n], or of all networks. *)
Definition delete_all_pages (n : option Z) (ca : vbi_cache) : option vbi_cache :=
  for_all (λ p ca,
    cp ← page_at ca p;
    match n with
    | Some n => if network cp =? n then delete_page p ca else Some ca
    | None => delete_page p ca
    end) (priority_list ca) ca.

(** One of the loops: pages of a priority [pri], of networks that are not in use if
    [unused]. *)
Definition surplus_loop (unused : bool) (pri : cache_priority) (ca : vbi_cache) : option (vbi_cache * bool) :=
  for_all_until (λ p ca,
    if memory_used ca <=? memory_limit ca then Some (ca, true)
    else
      cp ← page_at ca p;
      if decide (priority cp = pri) then
        if unused then
          cn ← network_at ca (network cp);
          if net_ref_count cn =? 0 then ca ← delete_page p ca; Some (ca, false) else Some (ca, false)
        else ca ← delete_page p ca; Some (ca, false)
      else Some (ca, false)) (priority_list ca) ca.

Definition delete_surplus_pages (ca : vbi_cache) : option vbi_cache :=
  '(ca, _) ← for_all_until (λ '(unused, pri) ca, surplus_loop unused pri ca)
    [(true, CACHE_PRI_NORMAL); (true, CACHE_PRI_SPECIAL); (false, CACHE_PRI_NORMAL); (false, CACHE_PRI_SPECIAL)] ca;
  Some ca.

(** ** Networks *)

Definition delete_network (n : Z) (ca : vbi_cache) : option vbi_cache :=
  cn ← network_at ca n;
  ca ← (if 0 <? n_cached_pages cn then delete_all_pages (Some n) ca else Some ca);
  cn ← network_at ca n;
  let ca := if zombie cn then ca else set_networks (networks ca) (u32 (n_cached_networks ca - 1)) ca in
  if (0 <? net_ref_count cn) || (0 <? n_referenced_pages cn) then update_network n (set_zombie true) ca
  else
    ca ← unlink_network n ca;
    Some (set_network_heap (delete n (network_heap ca)) ca).

Definition vbi_cache_purge (ca : vbi_cache) : option vbi_cache := for_all delete_network (networks ca) ca.

Definition delete_surplus_networks (ca : vbi_cache) : option vbi_cache :=
  for_all (λ n ca,
    cn ← network_at ca n;
    if (0 <? net_ref_count cn) || (0 <? n_referenced_pages cn) then Some ca
    else if zombie cn || (n_networks_limit ca <? n_cached_networks ca) then delete_network n ca
    else Some ca) (rev (networks ca)) ca.

(** [nk] is the address of a network of the cache, or another pointer. *)
Definition network_by_id (nk : Z) (ca : vbi_cache) : option (vbi_cache * option Z) :=
  if decide (nk ∈ networks ca) then
    ca ← unlink_network nk ca;
    Some (set_networks (nk :: networks ca) (n_cached_networks ca) ca, Some nk)
  else Some (ca, None).

(** The last network without references. *)
Fixpoint find_unused (ca : vbi_cache) (l : list Z) : option (option Z) :=
  match l with
  | [] => Some None
  | n :: l =>
      cn ← network_at ca n;
      if (net_ref_count cn =? 0) && (n_referenced_pages cn =? 0) then Some (Some n) else find_unused ca l
  end.

Definition recycle_network (ca : vbi_cache) : option (vbi_cache * option Z) :=
  found ← find_unused ca (rev (networks ca));
  match found with
  | None => Some (ca, None)
  | Some n =>
      cn ← network_at ca n;
      ca ← (if 0 <? n_cached_pages cn then delete_all_pages (Some n) ca else Some ca);
      ca ← unlink_network n ca;
      ca ← update_network n (λ cn, CacheNetwork 0 false 0 0 0 (0, 0, 0) (pages_stat cn)) ca;
      Some (ca, Some n)
  end.

(** [malloc] is what the C library returns, [None] for NULL. *)
Definition add_network (malloc : option Z) (nk : option Z) (ca : vbi_cache) : option (vbi_cache * option Z) :=
  '(ca, known) ← (match nk with Some nk => network_by_id nk ca | None => Some (ca, None) end);
  match known with
  | Some n => Some (ca, Some n)
  | None =>
      '(ca, cn) ← (if n_cached_networks ca <? n_networks_limit ca then Some (ca, None) else recycle_network ca);
      match cn, malloc with
      | Some n, _ => Some (set_networks (n :: networks ca) (n_cached_networks ca) ca, Some n)
      | None, None => Some (ca, None)
      | None, Some n =>
          let ca := set_network_heap (<[n := CacheNetwork 0 false 0 0 0 (0, 0, 0) ∅]> (network_heap ca)) ca in
          Some (set_networks (n :: networks ca) (u32 (n_cached_networks ca + 1)) ca, Some n)
      end
  end.

Definition cache_network_unref (n : Z) (ca : vbi_cache) : option vbi_cache :=
  if n =? 0 then Some ca
  else
    cn ← network_at ca n;
    if net_ref_count cn =? 0 then Some ca (* warning *)
    else if net_ref_count cn =? 1 then ca ← update_network n (set_net_ref 0) ca; delete_surplus_networks ca
    else update_network n (set_net_ref (net_ref_count cn - 1)) ca.

Definition net_add_ref (n : Z) (ca : vbi_cache) : option vbi_cache :=
  update_network n (λ cn, set_net_ref (u32 (net_ref_count cn + 1)) cn) ca.
Definition cache_network_ref (n : Z) (ca : vbi_cache) : option vbi_cache := net_add_ref n ca.

Definition _vbi_cache_get_network (nk : Z) (ca : vbi_cache) : option (vbi_cache * option Z) :=
  '(ca, cn) ← network_by_id nk ca;
  match cn with
  | None => Some (ca, None)
  | Some n => ca ← revive n ca; ca ← net_add_ref n ca; Some (ca, Some n)
  end.

Definition _vbi_cache_add_network (malloc : option Z) (nk : option Z) (ca : vbi_cache) : option (vbi_cache * option Z) :=
  '(ca, cn) ← add_network malloc nk ca;
  match cn with
  | None => Some (ca, None)
  | Some n => ca ← net_add_ref n ca; Some (ca, Some n)
  end.

(** ** Page references *)

Fixpoint find_page (ca : vbi_cache) (cn : option Z) (pg sub subno_mask : Z) (l : list Z) : option (option Z) :=
  match l with
  | [] => Some None
  | p :: l =>
      cp ← page_at ca p;
      if (pgno cp =? pg) && (subno cp .& subno_mask =? sub) && match cn with Some n => network cp =? n | None => true end
      then Some (Some p) else find_page ca cn pg sub subno_mask l
  end.

Definition page_by_pgno (cn : option Z) (pg sub subno_mask : Z) (ca : vbi_cache) : option (vbi_cache * option Z) :=
  l ← rd (hash_lists ca) (hash pg);
  found ← find_page ca cn pg (sub .& subno_mask) subno_mask l;
  match found with
  | None => Some (ca, None)
  | Some p => ca ← unlink_hash p ca; ca ← add_hash_head (hash pg) p ca; Some (ca, Some p)
  end.

(** The end of [cache_page_unref]: a network that was only kept for its pages is deleted
    and the memory limit enforced. *)
Definition unref_network (n : Z) (ca : vbi_cache) : option vbi_cache :=
  cn ← network_at ca n;
  ca ← (if zombie cn && (n_referenced_pages cn =? 0) && (net_ref_count cn =? 0) then delete_network n ca else Some ca);
  if memory_limit ca <? memory_used ca then delete_surplus_pages ca else Some ca.

(** [p] is zero for NULL. *)
Definition cache_page_unref (p : Z) (ca : vbi_cache) : option vbi_cache :=
  if p =? 0 then Some ca
  else
    cp ← page_at ca p;
    _ ← network_at ca (network cp);
    if ref_count cp =? 0 then Some ca (* warning *)
    else if ref_count cp =? 1 then
      ca ← update_page p (set_ref 0) ca;
      ca ← (if decide (priority cp = CACHE_PRI_ZOMBIE) then delete_page p ca
            else
              ca ← unlink_pri p ca;
              Some (set_memory (u64 (memory_used ca + cache_page_size cp)) (set_lists (priority_list ca ++ [p]) (referenced ca) ca)));
      ca ← update_network (network cp) (λ cn, set_n_referenced (u32 (n_referenced_pages cn - 1)) cn) ca;
      unref_network (network cp) ca
    else update_page p (set_ref (ref_count cp - 1)) ca.

Definition cache_page_ref (p : Z) (ca : vbi_cache) : option vbi_cache :=
  cp ← page_at ca p;
  ca ← (if ref_count cp =? 0 then
          ca ← revive (network cp) ca;
          ca ← update_network (network cp) (λ cn, set_n_referenced (u32 (n_referenced_pages cn + 1)) cn) ca;
          let ca := set_memory (u64 (memory_used ca - cache_page_size cp)) ca in
          ca ← unlink_pri p ca;
          Some (set_lists (priority_list ca) (referenced ca ++ [p]) ca)
        else Some ca);
  update_page p (λ cp, set_ref (u32 (ref_count cp + 1)) cp) ca.

Definition valid_pgno (pg : Z) : bool := negb ((pg <? 0x100) || (0x8FF <? pg) || (pg .& 0xFF =? 0xFF)).

Definition _vbi_cache_get_page (n pg sub subno_mask : Z) (ca : vbi_cache) : option (vbi_cache * option Z) :=
  if negb (valid_pgno pg) then Some (ca, None)
  else
    let subno_mask := if sub =? VBI_ANY_SUBNO then 0 else subno_mask in
    '(ca, found) ← page_by_pgno (Some n) pg sub subno_mask ca;
    match found with
    | None => Some (ca, None)
    | Some p => ca ← cache_page_ref p ca; Some (ca, Some p)
    end.

(** ** Storing pages *)

(** The subpage number to store and the bits that distinguish versions. *)
Definition version_of (page_type pg sub : Z) : Z * Z :=
  if vbi_is_bcd pg then
    if sub =? 0 then (sub, 0)
    else if (page_type =? VBI_CLOCK_PAGE) || (0x0100 <=? sub) then
      (if vbi_bcd_digits_greater sub 0x2959 || (0x2300 <? sub) then 0 else sub, 0)
    else if vbi_bcd_digits_greater sub 0x79 then (0, 0)
    else (sub, 0xFF)
  else (sub, 0x000F).

Definition priority_of (pg sub : Z) (f : ttx_page_function) : cache_priority :=
  if pg .& 0xFF =? 0 then CACHE_PRI_SPECIAL
  else if (pg ≫ 4) =? (pg .& 0xFF) then CACHE_PRI_SPECIAL
  else
    match f with
    | PAGE_FUNCTION_UNKNOWN => CACHE_PRI_NORMAL
    | PAGE_FUNCTION_LOP =>
        if vbi_is_bcd pg && (0x00 <? sub) && (sub <=? 0x79) then CACHE_PRI_SPECIAL else CACHE_PRI_NORMAL
    | _ => CACHE_PRI_SPECIAL
    end.

(** The pages to be replaced and the memory this makes available. *)
Record death_row := DeathRow { row : list Z; memory_available : Z }.

Definition row_loop (needed : Z) (old : option Z) (ca : vbi_cache) (unused : bool) (pri : cache_priority) (d : death_row)
    : option (death_row * bool) :=
  for_all_until (λ p d,
    if needed <=? memory_available d then Some (d, true)
    else
      cp ← page_at ca p;
      if negb (bool_decide (priority cp = pri)) then Some (d, false)
      else
        in_use ← (if unused then cn ← network_at ca (network cp); Some (0 <? net_ref_count cn) else Some false);
        if in_use || bool_decide (old = Some p) then Some (d, false)
        else if (length (row d) <? 20)%nat then
          Some (DeathRow (row d ++ [p]) (memory_available d + cache_page_size cp), false)
        else None (* assertion *)) (priority_list ca) d.

(** The flag is the jump to the replacement. *)
Definition find_row (needed : Z) (old : option Z) (ca : vbi_cache) (d : death_row) : option (death_row * bool) :=
  if needed <=? memory_available d then Some (d, true)
  else
    for_all_until (λ '(unused, pri) d, row_loop needed old ca unused pri d)
      [(true, CACHE_PRI_NORMAL); (true, CACHE_PRI_SPECIAL); (false, CACHE_PRI_NORMAL); (false, CACHE_PRI_SPECIAL)] d.

(** The old version: a replacement candidate, or still in use. *)
Definition old_version (old : option Z) (available : Z) (ca : vbi_cache) : option (vbi_cache * option Z * death_row) :=
  match old with
  | None => Some (ca, None, DeathRow [] available)
  | Some p =>
      cp ← page_at ca p;
      if 0 <? ref_count cp then
        ca ← unlink_hash p ca;
        ca ← update_page p (set_priority CACHE_PRI_ZOMBIE) ca;
        Some (ca, None, DeathRow [] available)
      else Some (ca, Some p, DeathRow [p] (available + cache_page_size cp))
  end.

(** The block for the page: a new one, and the pages to replace are deleted. *)
Definition allocate_block (malloc : option Z) (needed : Z) (d : death_row) (ca : vbi_cache) : option (vbi_cache * option (Z * Z)) :=
  match malloc with
  | None => Some (ca, None)
  | Some q => ca ← for_all delete_page (row d) ca; Some (set_n_pages (u32 (ca_n_cached_pages ca + 1)) ca, Some (q, needed))
  end.

(** Or the block of a single page of the same size. *)
Definition new_block (malloc : option Z) (needed : Z) (d : death_row) (ca : vbi_cache) : option (vbi_cache * option (Z * Z)) :=
  match row d with
  | [p] =>
      if memory_available d =? needed then
        ca ← unlink_pri p ca;
        ca ← unlink_hash p ca;
        cp ← page_at ca p;
        ca ← cache_network_remove_page (network cp) p ca;
        Some (set_memory (u64 (memory_used ca - needed)) ca, Some (p, allocated cp))
      else allocate_block malloc needed d ca
  | _ => allocate_block malloc needed d ca
  end.

(** The first part: the subpage number to store, the pages to replace and whether they
    are enough. *)
Definition put_candidates (n : Z) (new : cache_page) (ca : vbi_cache) : option (vbi_cache * Z * death_row * bool) :=
  let memory_needed := cache_page_size new in
  let available := memory_limit ca - memory_used ca in
  cn ← network_at ca n;
  ps ← (if vbi_is_bcd (pgno new) && negb (subno new =? 0) then cache_network_page_stat cn (pgno new) else Some no_stat);
  let '(sub, subno_mask) := version_of (page_type ps) (pgno new) (subno new) in
  '(ca, old) ← page_by_pgno (Some n) (pgno new) (sub .& subno_mask) subno_mask ca;
  '(ca, old, d) ← old_version old available ca;
  '(d, enough) ← find_row memory_needed old ca d;
  Some (ca, sub, d, enough).

(** The second part: the new page in its block [p] of [size] bytes; the data that is
    copied must fit. *)
Definition put_block (n p size sub : Z) (new : cache_page) (ca : vbi_cache) : option (vbi_cache * option Z) :=
  ca ← add_hash_head (hash (pgno new)) p ca;
  if size <? cache_page_size new then None (* memcpy behind the end of the block *)
  else
    let cp := CachePage 0 1 (priority_of (pgno new) sub (function (body new))) (pgno new) sub (body new) size in
    let ca := set_page_heap (<[p := cp]> (page_heap ca)) ca in
    ca ← update_network n (λ cn, set_n_referenced (u32 (n_referenced_pages cn + 1)) cn) ca;
    ca ← cache_network_add_page n p (set_lists (priority_list ca) (referenced ca ++ [p]) ca);
    Some (ca, Some p).

Definition _vbi_cache_put_page (malloc : option Z) (n : Z) (new : cache_page) (ca : vbi_cache) : option (vbi_cache * option Z) :=
  if pgno new .& 0xFF =? 0xFF then Some (ca, None)
  else
    '(ca, sub, d, enough) ← put_candidates n new ca;
    if negb enough then Some (ca, None)
    else
      '(ca, block) ← new_block malloc (cache_page_size new) d ca;
      match block with
      | None => Some (ca, None)
      | Some (p, size) => put_block n p size sub new ca
      end.

(** ** Walking through the pages *)

Section foreach.
(** The callback gets the page and may call the cache. *)
Context {C : Type} (callback : C → vbi_cache → Z → bool → option (C * vbi_cache * Z)).

(** The page and subpage number that follow; [None] in the inner option when the fuel
    ends. *)
Fixpoint next_page (fuel : nat) (cn : cache_network) (dir pg sub : Z) (wrapped : bool) : option (option (Z * Z * bool)) :=
  match fuel with
  | O => Some None
  | S fuel =>
      ps ← cache_network_page_stat cn pg;
      if (n_subpages ps =? 0) || (sub <? subno_min ps) || (subno_max ps <? sub) then
        if dir <? 0 then
          let '(pg, wrapped) := if pg - 1 <? 0x100 then (0x8FF, true) else (pg - 1, wrapped) in
          ps ← cache_network_page_stat cn pg;
          next_page fuel cn dir pg (subno_max ps) wrapped
        else
          let '(pg, wrapped) := if 0x8FF <? pg + 1 then (0x100, true) else (pg + 1, wrapped) in
          ps ← cache_network_page_stat cn pg;
          next_page fuel cn dir pg (subno_min ps) wrapped
      else Some (Some (pg, sub, wrapped))
  end.

(** [cp] is the page found last.  The result is that of the callback. *)
Fixpoint foreach_loop (fuel : nat) (n dir pg sub : Z) (wrapped : bool) (cp : option Z) (c : C) (ca : vbi_cache)
    : option (option (C * vbi_cache * Z)) :=
  match fuel with
  | O => Some None
  | S fuel' =>
      '(c, ca, r) ←
        (match cp with
         | Some p =>
             '(c, ca, r) ← callback c ca p wrapped;
             ca ← cache_page_unref p ca;
             Some (c, ca, r)
         | None => Some (c, ca, 0)
         end);
      if negb (r =? 0) then Some (Some (c, ca, r))
      else
        cn ← network_at ca n;
        next ← next_page fuel cn dir pg (sub + dir) wrapped;
        match next with
        | None => Some None
        | Some (pg, sub, wrapped) =>
            '(ca, cp) ← _vbi_cache_get_page n pg sub (-1) ca;
            foreach_loop fuel' n dir pg sub wrapped cp c ca
        end
  end.

Definition _vbi_cache_foreach_page (fuel : nat) (n pg sub dir : Z) (c : C) (ca : vbi_cache) : option (option (C * vbi_cache * Z)) :=
  cn ← network_at ca n;
  if n_cached_pages cn =? 0 then Some (Some (c, ca, 0))
  else
    '(ca, cp) ← _vbi_cache_get_page n pg sub (-1) ca;
    sub ← (match cp with
           | Some p => cp ← page_at ca p; Some (subno cp)
           | None => Some (if sub =? VBI_ANY_SUBNO then 0 else sub)
           end);
    _ ← cache_network_page_stat cn pg;
    foreach_loop fuel n dir pg sub false cp c ca.
End foreach.
End cache.

Definition vbi_cache_new : vbi_cache :=
  Cache (repeat [] (Z.to_nat HASH_SIZE)) 0 [] [] 0 (2 ^ 30) [] 0 1 ∅ ∅.

(** [vbi_cache_is_cached] and [vbi_cache_hi_subno] of [vbi.c]. *)
Definition vbi_is_cached (sz : sizes) (n pg sub : Z) (ca : vbi_cache) : option (vbi_cache * bool) :=
  '(ca, cp) ← _vbi_cache_get_page sz n pg sub (-1) ca;
  ca ← cache_page_unref sz (default 0 cp) ca;
  Some (ca, bool_decide (cp ≠ None)).
Definition vbi_cache_hi_subno (n pg : Z) (ca : vbi_cache) : option Z :=
  cn ← network_at ca n; ps ← cache_network_page_stat cn pg; Some (subno_max ps).
