(* ===== verification/CacheInv.v ===== *)
(** The invariant of the page cache, and that every operation of [Cache] keeps it. *)
From stdpp Require Import gmap.
From S2P Require Import Prelude Bcd Cache.

(** ** Sums over maps *)

Definition total {A} (f : A → Z) (m : gmap Z A) : Z := map_fold (λ _ x s, f x + s) 0 m.
Definition value {A} (f : A → Z) (o : option A) : Z := match o with Some x => f x | None => 0 end.

Section total.
Context {A : Type} (f : A → Z).

Lemma total_empty : total f ∅ = 0.
Proof. apply map_fold_empty. Qed.

Lemma total_insert_new m p x : m !! p = None → total f (<[p := x]> m) = f x + total f m.
Proof. intros H. unfold total. rewrite map_fold_insert_L; [done| |done]. intros. lia. Qed.

Lemma total_delete m p : total f m = value f (m !! p) + total f (delete p m).
Proof.
  destruct (m !! p) as [x|] eqn:E; cbn [value].
  - rewrite <-(insert_delete_id m p x) at 1 by done. apply total_insert_new, lookup_delete_eq.
  - by rewrite delete_id.
Qed.

(** One entry changes to [o]. *)
Lemma total_change m p o : total f (partial_alter (λ _, o) p m) = total f m - value f (m !! p) + value f o.
Proof.
  rewrite (total_delete (partial_alter _ p m) p), (total_delete m p), lookup_partial_alter_eq.
  replace (delete p (partial_alter (λ _, o) p m)) with (delete p m); [lia|].
  apply map_eq. intros q. destruct (decide (q = p)) as [->|Hq]; [by rewrite !lookup_delete_eq|].
  by rewrite !lookup_delete_ne, lookup_partial_alter_ne by done.
Qed.

Lemma total_insert_change m p x : total f (<[p := x]> m) = total f m - value f (m !! p) + f x.
Proof. apply (total_change m p (Some x)). Qed.

Lemma total_nonneg m : (∀ p x, m !! p = Some x → 0 ≤ f x) → 0 ≤ total f m.
Proof.
  induction m as [|p x m E IH] using map_ind; intros H; [by rewrite total_empty|].
  rewrite total_insert_new by done. pose proof (H p x (lookup_insert_eq _ _ _)).
  assert (0 ≤ total f m); [|lia]. apply IH. intros q y Eq. apply (H q). rewrite lookup_insert_ne; [done|]. by intros ->; rewrite E in Eq.
Qed.

Lemma total_zero m : (∀ p x, m !! p = Some x → 0 ≤ f x) → total f m = 0 → ∀ p x, m !! p = Some x → f x = 0.
Proof.
  intros H H0 p x E. rewrite (total_delete m p), E in H0. cbn [value] in H0. pose proof (H p x E).
  assert (0 ≤ total f (delete p m)); [|lia]. apply total_nonneg. intros q y [_ Eq]%lookup_delete_Some. by apply (H q).
Qed.
End total.

Lemma total_ext {A} (f g : A → Z) m : (∀ p x, m !! p = Some x → f x = g x) → total f m = total g m.
Proof.
  induction m as [|p x m E IH] using map_ind; intros H; [by rewrite !total_empty|].
  rewrite !total_insert_new by done. rewrite (H p x) by apply lookup_insert_eq. rewrite IH; [done|].
  intros q y Eq. apply (H q). rewrite lookup_insert_ne; [done|]. by intros ->; rewrite E in Eq.
Qed.

Lemma total_le {A} (f g : A → Z) m : (∀ p x, m !! p = Some x → f x ≤ g x) → total f m ≤ total g m.
Proof.
  induction m as [|p x m E IH] using map_ind; intros H; [by rewrite !total_empty|].
  rewrite !total_insert_new by done. pose proof (H p x (lookup_insert_eq _ _ _)).
  assert (total f m ≤ total g m); [|lia]. apply IH. intros q y Eq. apply (H q). rewrite lookup_insert_ne; [done|]. by intros ->; rewrite E in Eq.
Qed.

Lemma total_one {A} (m : gmap Z A) : total (λ _, 1) m = Z.of_nat (size m).
Proof.
  induction m as [|p x m E IH] using map_ind; [done|]. rewrite total_insert_new, map_size_insert_None by done. lia.
Qed.

(** Counts of entries. *)
Definition count {A} (f : A → bool) (m : gmap Z A) : Z := total (λ x, Z.b2z (f x)) m.

Lemma count_bound {A} (f : A → bool) m : 0 ≤ count f m ≤ Z.of_nat (size m).
Proof.
  split.
  - apply total_nonneg. intros p x _. by destruct (f x).
  - rewrite <-total_one. apply total_le. intros p x _. by destruct (f x).
Qed.

Lemma count_zero {A} (f : A → bool) m p x : count f m = 0 → m !! p = Some x → f x = false.
Proof.
  intros H0 E. assert (Z.b2z (f x) = 0); [|by destruct (f x)].
  apply (total_zero (λ x, Z.b2z (f x)) m) with p; [|done|done]. intros q y _. by destruct (f y).
Qed.

Lemma count_pos {A} (f : A → bool) m p x : m !! p = Some x → f x = true → 0 < count f m.
Proof.
  intros E Hf. pose proof (count_bound f m). destruct (decide (count f m = 0)) as [H0|]; [|lia].
  by rewrite (count_zero f m p x H0 E) in Hf.
Qed.

(** ** The invariant *)

Definition of_network (n : Z) (cp : cache_page) : bool := network cp =? n.
Definition in_use_of (n : Z) (cp : cache_page) : bool := (network cp =? n) && (0 <? ref_count cp).
Definition of_page (n pg : Z) (cp : cache_page) : bool := (network cp =? n) && (pgno cp =? pg).

(** At most this many blocks can be allocated. *)
Definition MAX_BLOCKS : Z := 2 ^ 32 - 1.

Section invariant.
Context (sz : sizes) (sz_ok : sizes_ok sz).

Definition charged (cp : cache_page) : Z := if ref_count cp =? 0 then cache_page_size sz cp else 0.

(** A page in the cache is in a hash list unless it is a zombie, and in one of the other
    two lists. *)
Definition hashed (i : Z) (cp : cache_page) : Prop := priority cp ≠ CACHE_PRI_ZOMBIE ∧ hash (pgno cp) = i.
Definition idle (cp : cache_page) : Prop := ref_count cp = 0.
Definition busy (cp : cache_page) : Prop := 0 < ref_count cp.

(** The list [l] has the pages of which [P] holds. *)
Definition lists_pages (P : cache_page → Prop) (m : gmap Z cache_page) (l : list Z) : Prop :=
  NoDup l ∧ ∀ p, p ∈ l ↔ ∃ cp, m !! p = Some cp ∧ P cp.

Record page_ok (nets : gmap Z cache_network) (p : Z) (cp : cache_page) : Prop := {
  pk_address : p ≠ 0;
  pk_ref : 0 ≤ ref_count cp < 2 ^ 32;
  pk_zombie : priority cp = CACHE_PRI_ZOMBIE → 0 < ref_count cp;
  pk_pgno : 0x100 ≤ pgno cp ≤ 0x8FF;
  pk_size : allocated cp = cache_page_size sz cp;
  pk_network : is_Some (nets !! network cp)
}.

Record network_ok (pages : gmap Z cache_page) (n : Z) (cn : cache_network) : Prop := {
  nk_address : n ≠ 0;
  nk_ref : 0 ≤ net_ref_count cn < 2 ^ 32;
  nk_cached : n_cached_pages cn = count (of_network n) pages;
  nk_referenced : n_referenced_pages cn = count (in_use_of n) pages;
  nk_subpages : ∀ pg, n_subpages (default no_stat (pages_stat cn !! pg)) = u8 (count (of_page n pg) pages)
}.

Record cache_inv (ca : vbi_cache) : Prop := {
  ci_hash_length : Z.of_nat (length (hash_lists ca)) = HASH_SIZE;
  ci_hash : ∀ i l, hash_lists ca !! i = Some l → lists_pages (hashed (Z.of_nat i)) (page_heap ca) l;
  ci_priority : lists_pages idle (page_heap ca) (priority_list ca);
  ci_referenced : lists_pages busy (page_heap ca) (referenced ca);
  ci_networks : NoDup (networks ca) ∧ ∀ n, n ∈ networks ca ↔ is_Some (network_heap ca !! n);
  ci_page : ∀ p cp, page_heap ca !! p = Some cp → page_ok (network_heap ca) p cp;
  ci_network : ∀ n cn, network_heap ca !! n = Some cn → network_ok (page_heap ca) n cn;
  ci_n_pages : ca_n_cached_pages ca = Z.of_nat (size (page_heap ca));
  ci_memory : memory_used ca = total charged (page_heap ca);
  ci_n_networks : n_cached_networks ca = count (λ cn, negb (zombie cn)) (network_heap ca);
  ci_pages_few : Z.of_nat (size (page_heap ca)) ≤ MAX_BLOCKS;
  ci_networks_few : Z.of_nat (size (network_heap ca)) ≤ MAX_BLOCKS
}.

(** What holds between calls of the client only. *)
Record cache_tidy (ca : vbi_cache) : Prop := {
  ct_limit : memory_used ca ≤ memory_limit ca;
  ct_zombie : ∀ n cn, network_heap ca !! n = Some cn → zombie cn = true → 0 < net_ref_count cn ∨ 0 < n_referenced_pages cn
}.

(** ** Lists of pages *)

Definition holds (P : cache_page → Prop) (o : option cache_page) : Prop := ∃ cp, o = Some cp ∧ P cp.

Lemma without_in p q l : q ∈ without p l ↔ q ∈ l ∧ q ≠ p.
Proof.
  unfold without. rewrite !list_elem_of_In, filter_In, negb_true_iff, Z.eqb_neq. done.
Qed.

Lemma without_nodup p l : NoDup l → NoDup (without p l).
Proof. intros H. apply NoDup_ListNoDup, NoDup_filter, NoDup_ListNoDup, H. Qed.

(** A list where at most the page [p] changes. *)
Lemma lists_pages_change P m l l' p o :
  lists_pages P m l → NoDup l' → (∀ q, q ≠ p → q ∈ l' ↔ q ∈ l) → (p ∈ l' ↔ holds P o) →
  lists_pages P (partial_alter (λ _, o) p m) l'.
Proof.
  intros [H1 H2] Hnd Ho Hp. split; [done|]. intros q. destruct (decide (q = p)) as [->|Hq].
  - rewrite Hp. unfold holds. by rewrite lookup_partial_alter_eq.
  - rewrite lookup_partial_alter_ne by done. by rewrite Ho, H2.
Qed.

Lemma lists_pages_in P m l p cp : lists_pages P m l → m !! p = Some cp → p ∈ l ↔ P cp.
Proof. intros [_ H] E. rewrite H. split; [intros (cp' & E' & HP); congruence|eauto]. Qed.

Lemma lists_without P m l p o :
  lists_pages P m l → ¬ holds P o → lists_pages P (partial_alter (λ _, o) p m) (without p l).
Proof.
  intros H Ho. apply (lists_pages_change P m l); [done|apply without_nodup, H|..].
  - intros q Hq. rewrite without_in. naive_solver.
  - rewrite without_in. naive_solver.
Qed.

Lemma lists_keep P m l p o : lists_pages P m l → (holds P o ↔ holds P (m !! p)) →
  lists_pages P (partial_alter (λ _, o) p m) l.
Proof. intros H Ho. apply (lists_pages_change P m l); [done|apply H|done|]. rewrite Ho. apply H. Qed.

Lemma lists_add P m l l1 l2 p cp : lists_pages P m l → l ≡ₚ l1 ++ l2 → p ∉ l → P cp →
  lists_pages P (partial_alter (λ _, Some cp) p m) (l1 ++ p :: l2).
Proof.
  intros H Hl Hp HP. apply (lists_pages_change P m l); [done|..].
  - rewrite <-Permutation_middle. rewrite <-Hl. apply list.NoDup_cons. split; [done|apply H].
  - intros q Hq. rewrite Hl, !elem_of_app, elem_of_cons. naive_solver.
  - rewrite elem_of_app, elem_of_cons. unfold holds. naive_solver.
Qed.

Definition hash_ok (m : gmap Z cache_page) (h : list (list Z)) : Prop :=
  Z.of_nat (length h) = HASH_SIZE ∧ ∀ i l, h !! i = Some l → lists_pages (hashed (Z.of_nat i)) m l.

Lemma hash_range pg : 0x100 ≤ pg ≤ 0x8FF → 0 ≤ hash pg < HASH_SIZE.
Proof. intros H. unfold hash, HASH_SIZE. apply Z.rem_bound_pos; lia. Qed.

Lemma hash_list m h pg : hash_ok m h → 0x100 ≤ pg ≤ 0x8FF → ∃ l, rd h (hash pg) = Some l ∧ lists_pages (hashed (hash pg)) m l.
Proof.
  intros [Hlen Hl] Hpg. pose proof (hash_range pg Hpg) as Hr. unfold rd. rewrite decide_True by lia.
  destruct (lookup_lt_is_Some_2 h (Z.to_nat (hash pg))) as [l E]; [lia|]. exists l. split; [done|].
  specialize (Hl _ _ E). by rewrite Z2Nat.id in Hl by lia.
Qed.

Lemma in_hash m h p cp : hash_ok m h → m !! p = Some cp → 0x100 ≤ pgno cp ≤ 0x8FF →
  p ∈ concat h ↔ priority cp ≠ CACHE_PRI_ZOMBIE.
Proof.
  intros H E Hpg. split.
  - intros (l & Hl & Hp)%list_elem_of_In%in_concat. apply list_elem_of_In, list_elem_of_lookup in Hl as [i Hi].
    apply list_elem_of_In in Hp. apply (proj2 H i l Hi) in Hp as (cp' & E' & [H1 _]). congruence.
  - intros Hz. destruct (hash_list m h (pgno cp) H Hpg) as (l & E1 & Hl).
    apply list_elem_of_In, in_concat. exists l. unfold rd in E1. case_decide; [|done]. split.
    + apply list_elem_of_In. by eapply list_elem_of_lookup_2.
    + apply list_elem_of_In. by apply (lists_pages_in _ _ _ _ cp Hl E).
Qed.

Lemma hash_without m h p o : hash_ok m h → (∀ i, ¬ holds (hashed i) o) →
  hash_ok (partial_alter (λ _, o) p m) (map (without p) h).
Proof.
  intros [H1 H2] Ho. split; [by rewrite length_map|]. intros i l E. rewrite list_lookup_fmap in E.
  destruct (h !! i) as [l0|] eqn:E0; [|done]. injection E as <-. apply lists_without; [by apply H2|apply Ho].
Qed.

Lemma hash_keep m h p o : hash_ok m h → (∀ i, holds (hashed i) o ↔ holds (hashed i) (m !! p)) →
  hash_ok (partial_alter (λ _, o) p m) h.
Proof. intros [H1 H2] Ho. split; [done|]. intros i l E. apply lists_keep; [by apply H2|done]. Qed.

Lemma hash_add m h p cp : hash_ok m h → p ∉ concat h → priority cp ≠ CACHE_PRI_ZOMBIE → 0x100 ≤ pgno cp ≤ 0x8FF →
  ∃ l h', rd h (hash (pgno cp)) = Some l ∧ wr h (hash (pgno cp)) (p :: l) = Some h' ∧
    hash_ok (partial_alter (λ _, Some cp) p m) h'.
Proof.
  intros H Hp Hz Hpg. pose proof (hash_range _ Hpg) as Hr. destruct (hash_list _ _ _ H Hpg) as (l & E & Hl).
  exists l. unfold wr. rewrite decide_True by (rewrite (proj1 H); lia). eexists. split; [done|]. split; [reflexivity|].
  split; [rewrite length_insert; apply H|]. unfold rd in E. case_decide; [|done].
  assert (∀ i k, h !! i = Some k → p ∉ k) as Hnot.
  { intros i k Hi Hk. apply Hp, list_elem_of_In, in_concat. exists k. split; apply list_elem_of_In; [|done].
    by eapply list_elem_of_lookup_2. }
  intros i k. rewrite list_lookup_insert_Some. intros [(<- & <- & _)|(Hi & Ek)].
  - rewrite Z2Nat.id by lia. apply (lists_add _ m l [] l); [done|done|by eapply Hnot|done].
  - apply (lists_pages_change _ m k k); [by apply (proj2 H)|exact (proj1 (proj2 H i k Ek))|done|].
    split; [intros Hk; by eapply Hnot in Hk|]. intros (cp' & [= <-] & [_ Hh]). destruct Hi.
    rewrite Hh. apply Nat2Z.id.
Qed.

(** ** Networks and counters *)

Definition tally (f : cache_page → bool) (o : option cache_page) : Z := value (λ x, Z.b2z (f x)) o.

Lemma count_change f (m : gmap Z cache_page) p o :
  count f (partial_alter (λ _, o) p m) = count f m - tally f (m !! p) + tally f o.
Proof. apply total_change. Qed.

Lemma u8_add a d : u8 (u8 a + d) = u8 (a + d).
Proof. unfold u8. apply Zplus_mod_idemp_l. Qed.

Lemma network_change m n cn cn' p o :
  network_ok m n cn → 0 ≤ net_ref_count cn' < 2 ^ 32 →
  n_cached_pages cn' = n_cached_pages cn - tally (of_network n) (m !! p) + tally (of_network n) o →
  n_referenced_pages cn' = n_referenced_pages cn - tally (in_use_of n) (m !! p) + tally (in_use_of n) o →
  (∀ pg, n_subpages (default no_stat (pages_stat cn' !! pg)) =
    u8 (n_subpages (default no_stat (pages_stat cn !! pg)) + (tally (of_page n pg) o - tally (of_page n pg) (m !! p)))) →
  network_ok (partial_alter (λ _, o) p m) n cn'.
Proof.
  intros [H1 H2 H3 H4 H5] Hr Hc Hn Hs. split; [done|done|..].
  - rewrite count_change, Hc, H3. done.
  - rewrite count_change, Hn, H4. done.
  - intros pg. rewrite Hs, H5, u8_add, count_change. f_equal. lia.
Qed.

Lemma u8_of_u8 a : u8 (u8 a + 0) = u8 a.
Proof. by rewrite u8_add, Z.add_0_r. Qed.

(** Networks of which no page changes. *)
Lemma network_keep m n cn p o :
  network_ok m n cn → (∀ cp, m !! p = Some cp → network cp ≠ n) → (∀ cp, o = Some cp → network cp ≠ n) →
  network_ok (partial_alter (λ _, o) p m) n cn.
Proof.
  intros H Hm Ho. assert (∀ f o', (∀ cp, o' = Some cp → network cp ≠ n) → (∀ cp, f cp = true → network cp = n) → tally f o' = 0) as Ht.
  { intros f [cp|] H1 H2; [|done]. cbn. destruct (f cp) eqn:E; [|done]. by destruct (H1 cp eq_refl); apply H2. }
  assert (∀ cp, of_network n cp = true → network cp = n) by (intros cp; apply Z.eqb_eq).
  assert (∀ cp, in_use_of n cp = true → network cp = n) by (intros cp; by intros [?%Z.eqb_eq _]%andb_true_iff).
  assert (∀ pg cp, of_page n pg cp = true → network cp = n) by (intros pg cp; by intros [?%Z.eqb_eq _]%andb_true_iff).
  apply (network_change m n cn); [done|apply H|rewrite !Ht by done; lia..|].
  intros pg. rewrite !Ht by eauto. rewrite (nk_subpages _ _ _ H). by rewrite Z.sub_diag, u8_of_u8.
Qed.

Lemma page_size_bound cp : 0 < cache_page_size sz cp < 2 ^ 31.
Proof using sz_ok.
  destruct sz_ok as [H1 H2 H3]. unfold cache_page_size, body_size, sizes_list in *. rewrite !Forall_cons_iff in H3. repeat case_match; lia.
Qed.

Lemma total_charged_bound ca : cache_inv ca → 0 ≤ total charged (page_heap ca) < 2 ^ 63.
Proof using sz_ok.
  intros H. assert (∀ cp, 0 ≤ charged cp ≤ 2 ^ 31) as Hc.
  { intros cp. unfold charged. pose proof (page_size_bound cp). case_match; lia. }
  split; [apply total_nonneg; intros; apply Hc|].
  apply Z.le_lt_trans with (2 ^ 31 * total (λ _, 1) (page_heap ca)).
  - clear -Hc. induction (page_heap ca) as [|p x m E IH] using map_ind; [by rewrite !total_empty|].
    rewrite !total_insert_new by done. specialize (Hc x). lia.
  - rewrite total_one. pose proof (ci_pages_few _ H). unfold MAX_BLOCKS in *. lia.
Qed.

Lemma inv_hash ca : cache_inv ca → hash_ok (page_heap ca) (hash_lists ca).
Proof. intros H. split; apply H. Qed.

Lemma u64_small x : 0 ≤ x < 2 ^ 64 → u64 x = x.
Proof. intros. by apply Z.mod_small. Qed.

(** Assembles the invariant when the page at [p] becomes [o]. *)
Lemma change_page ca ca' p o :
  cache_inv ca → page_heap ca' = partial_alter (λ _, o) p (page_heap ca) →
  hash_ok (page_heap ca') (hash_lists ca') → lists_pages idle (page_heap ca') (priority_list ca') →
  lists_pages busy (page_heap ca') (referenced ca') →
  (∀ cp, o = Some cp → page_ok (network_heap ca') p cp) →
  networks ca' = networks ca →
  (∀ n, is_Some (network_heap ca' !! n) ↔ is_Some (network_heap ca !! n)) →
  (∀ n cn, network_heap ca' !! n = Some cn → network_ok (page_heap ca') n cn) →
  ca_n_cached_pages ca' = ca_n_cached_pages ca - tally (λ _, true) (page_heap ca !! p) + tally (λ _, true) o →
  memory_used ca' = memory_used ca - value charged (page_heap ca !! p) + value charged o →
  n_cached_networks ca' = count (λ cn, negb (zombie cn)) (network_heap ca') →
  Z.of_nat (size (page_heap ca')) ≤ MAX_BLOCKS → cache_inv ca'.
Proof.
  intros H Ep Hh Hpri Href Hpage En Hdom Hnet Hcnt Hmem Hnn Hfew. split; try done.
  - apply Hh.
  - apply Hh.
  - rewrite En. split; [apply H|]. intros n. rewrite Hdom. apply H.
  - intros q cp E. rewrite Ep in E. destruct (decide (q = p)) as [->|Hq].
    + rewrite lookup_partial_alter_eq in E. by apply Hpage.
    + rewrite lookup_partial_alter_ne in E by done. destruct (ci_page _ H q cp E). split; try done. by apply Hdom.
  - rewrite Hcnt, (ci_n_pages _ H), Ep, <-!total_one, total_change. reflexivity.
  - rewrite Hmem, (ci_memory _ H), Ep, total_change. done.
  - assert (size (network_heap ca') = size (network_heap ca)) as ->; [|apply H].
    rewrite <-!size_dom. f_equal. apply set_eq. intros n. by rewrite !elem_of_dom.
Qed.

(** ** Deleting pages *)

(** Networks that differ in page counts only. *)
Definition same_network (cn cn' : cache_network) : Prop :=
  net_ref_count cn' = net_ref_count cn ∧ zombie cn' = zombie cn ∧ n_referenced_pages cn' = n_referenced_pages cn.
Definition same_networks (m m' : gmap Z cache_network) : Prop :=
  ∀ n, match m !! n, m' !! n with Some cn, Some cn' => same_network cn cn' | None, None => True | _, _ => False end.

(** What deleting unreferenced pages does. *)
Record shrinks (ca ca' : vbi_cache) : Prop := {
  sh_pages : ∀ q cp, page_heap ca' !! q = Some cp → page_heap ca !! q = Some cp;
  sh_busy : ∀ q cp, page_heap ca !! q = Some cp → busy cp → page_heap ca' !! q = Some cp;
  sh_networks : same_networks (network_heap ca) (network_heap ca');
  sh_list : networks ca' = networks ca;
  sh_n_networks : n_cached_networks ca' = n_cached_networks ca;
  sh_memory : memory_used ca' ≤ memory_used ca;
  sh_limits : memory_limit ca' = memory_limit ca ∧ n_networks_limit ca' = n_networks_limit ca
}.

#[local] Instance same_networks_po : PreOrder same_networks.
Proof.
  split.
  - intros m n. destruct (m !! n); done.
  - intros m1 m2 m3 H1 H2 n. specialize (H1 n). specialize (H2 n). unfold same_network in *.
    destruct (m1 !! n), (m2 !! n), (m3 !! n); try done. naive_solver congruence.
Qed.

#[local] Instance shrinks_po : PreOrder shrinks.
Proof.
  split.
  - intros ca. by split.
  - intros c1 c2 c3 [A1 A2 A3 A4 A5 A6 A7] [B1 B2 B3 B4 B5 B6 B7]. split; eauto; try congruence; try lia.
    by transitivity (network_heap c2).
Qed.

Lemma shrinks_network ca ca' n cn : shrinks ca ca' → network_heap ca !! n = Some cn →
  ∃ cn', network_heap ca' !! n = Some cn' ∧ same_network cn cn'.
Proof. intros H E. pose proof (sh_networks _ _ H n) as Hn. rewrite E in Hn. destruct (network_heap ca' !! n); [eauto|done]. Qed.

Lemma shrinks_network_back ca ca' n cn' : shrinks ca ca' → network_heap ca' !! n = Some cn' →
  ∃ cn, network_heap ca !! n = Some cn ∧ same_network cn cn'.
Proof. intros H E. pose proof (sh_networks _ _ H n) as Hn. rewrite E in Hn. destruct (network_heap ca !! n); [eauto|done]. Qed.

Lemma shrinks_tidy ca ca' : shrinks ca ca' → cache_tidy ca → cache_tidy ca'.
Proof.
  intros H [H1 H2]. split.
  - pose proof (sh_memory _ _ H). destruct (sh_limits _ _ H) as [-> _]. lia.
  - intros n cn' E Hz. destruct (shrinks_network_back _ _ _ _ H E) as (cn & E' & H3 & H4 & H5).
    rewrite H3, H5. apply (H2 n cn E'). congruence.
Qed.

Lemma partial_alter_delete {A} (m : gmap Z A) p x : delete p (<[p := x]> m) = partial_alter (λ _, None) p m.
Proof.
  apply map_eq. intros q. destruct (decide (q = p)) as [->|Hq].
  - by rewrite lookup_delete_eq, lookup_partial_alter_eq.
  - by rewrite lookup_delete_ne, lookup_insert_ne, lookup_partial_alter_ne.
Qed.

Lemma inv_in_hash ca p cp : cache_inv ca → page_heap ca !! p = Some cp →
  p ∈ concat (hash_lists ca) ↔ priority cp ≠ CACHE_PRI_ZOMBIE.
Proof. intros H E. apply (in_hash (page_heap ca)); [by apply inv_hash|done|apply (ci_page _ H _ _ E)]. Qed.

Lemma inv_in_pri ca p cp : cache_inv ca → page_heap ca !! p = Some cp → p ∈ priority_list ca ++ referenced ca.
Proof.
  intros H E. rewrite elem_of_app, (lists_pages_in _ _ _ _ cp (ci_priority _ H) E), (lists_pages_in _ _ _ _ cp (ci_referenced _ H) E).
  unfold idle, busy. pose proof (pk_ref _ _ _ (ci_page _ H _ _ E)). lia.
Qed.

(** The statistics of the network of a page that is removed. *)
Definition removed (n p : Z) (cp : cache_page) (cn : cache_network) : cache_network :=
  let ps := default no_stat (pages_stat cn !! pgno cp) in
  set_stat (pgno cp) (PageStat (page_type ps) (u8 (n_subpages ps - 1)) (max_subpages ps) (subno_min ps) (subno_max ps))
    (set_cached (u32 (n_cached_pages cn - 1)) (max_cached_pages cn) cn).

Lemma remove_page_eq ca n p cp cn :
  page_heap ca !! p = Some cp → network_heap ca !! n = Some cn → 0x100 ≤ pgno cp ≤ 0x8FF →
  cache_network_remove_page n p ca =
  Some (set_network_heap (<[n := removed n p cp cn]> (network_heap ca)) (set_page_heap (<[p := set_network 0 cp]> (page_heap ca)) ca)).
Proof.
  intros E1 E2 Hpg. unfold cache_network_remove_page, update_page, update_network, page_at, network_at.
  rewrite E1. cbn [mbind option_bind network_heap set_page_heap]. rewrite E2. cbn [mbind option_bind].
  unfold cache_network_page_stat. rewrite (proj2 (Z.leb_le _ _)) by lia. rewrite (proj2 (Z.leb_le _ _)) by lia. done.
Qed.

Lemma removed_ok m n p cp cn :
  m !! p = Some cp → network cp = n → ref_count cp = 0 → network_ok m n cn → Z.of_nat (size m) ≤ MAX_BLOCKS →
  network_ok (partial_alter (λ _, None) p m) n (removed n p cp cn).
Proof.
  intros E En Er H Hfew. assert (0 < n_cached_pages cn ≤ MAX_BLOCKS) as Hc.
  { rewrite (nk_cached _ _ _ H). pose proof (count_bound (of_network n) m).
    split; [|lia]. apply (count_pos _ _ p cp); [done|]. by apply Z.eqb_eq. }
  assert (of_network n cp = true) as H1 by (by apply Z.eqb_eq).
  assert (in_use_of n cp = false) as H2 by (unfold in_use_of; rewrite Er; apply andb_false_r).
  apply (network_change m n cn); [done|apply H|unfold tally; rewrite E; cbn [value removed]..|].
  - rewrite H1. unfold MAX_BLOCKS in Hc. cbn. rewrite u32_small by lia. lia.
  - rewrite H2. cbn. lia.
  - intros pg. unfold tally. rewrite E. cbn [value removed set_stat pages_stat]. destruct (decide (pg = pgno cp)) as [->|Hpg].
    + rewrite lookup_insert_eq. cbn [default n_subpages set_cached pages_stat].
      unfold of_page. rewrite (proj2 (Z.eqb_eq _ _) En), Z.eqb_refl. reflexivity.
    + rewrite lookup_insert_ne by done. cbn [pages_stat set_cached].
      unfold of_page. rewrite (proj2 (Z.eqb_neq (pgno cp) pg)) by done. rewrite andb_false_r.
      rewrite (nk_subpages _ _ _ H). cbn. by rewrite u8_of_u8.
Qed.

Lemma delete_idle_page ca p cp :
  cache_inv ca → page_heap ca !! p = Some cp → idle cp →
  ∃ ca', delete_page sz p ca = Some ca' ∧ cache_inv ca' ∧ shrinks ca ca' ∧
    page_heap ca' = delete p (page_heap ca) ∧ priority_list ca' = without p (priority_list ca) ∧
    memory_used ca' = memory_used ca - cache_page_size sz cp.
Proof using sz_ok.
  intros H E Hidle. pose proof (ci_page _ H _ _ E) as Hp. assert (priority cp ≠ CACHE_PRI_ZOMBIE) as Hz.
  { intros Hz. pose proof (pk_zombie _ _ _ Hp Hz). unfold idle in Hidle. lia. }
  destruct (pk_network _ _ _ Hp) as [cn En]. pose proof (ci_network _ H _ _ En) as Hn.
  pose proof (total_charged_bound ca H) as Hmem. rewrite <-(ci_memory _ H) in Hmem.
  assert (cache_page_size sz cp ≤ memory_used ca) as Hle.
  { rewrite (ci_memory _ H), (total_delete charged _ p), E. cbn [value]. unfold charged at 1. rewrite (proj2 (Z.eqb_eq _ _) Hidle).
    assert (0 ≤ total charged (delete p (page_heap ca))); [|lia]. apply total_nonneg. intros q x _. unfold charged.
    pose proof (page_size_bound x). case_match; lia. }
  pose proof (page_size_bound cp) as Hsize. pose proof (ci_n_pages _ H) as Hcnt. pose proof (ci_pages_few _ H) as Hfew. unfold MAX_BLOCKS in Hfew.
  pose proof (map_size_delete_Some p (page_heap ca) (ex_intro _ cp E)) as Hdel.
  assert (size (page_heap ca) ≠ 0)%nat as Hne by (apply map_size_ne_0_lookup_2 with p; eauto).
  unfold delete_page, page_at. rewrite E. cbn [mbind option_bind]. unfold idle in Hidle. rewrite Hidle. cbn [Z.ltb Z.compare].
  rewrite decide_False by done. unfold unlink_hash. cbn [set_memory hash_lists].
  rewrite decide_True by (by apply (inv_in_hash ca p cp H E)). cbn [mbind option_bind].
  unfold unlink_pri. cbn [set_hash set_memory priority_list referenced]. rewrite decide_True by (by eapply inv_in_pri). cbn [mbind option_bind].
  rewrite (remove_page_eq _ (network cp) p cp cn); [|done|done|apply Hp]. cbn [mbind option_bind].
  eexists. split; [reflexivity|]. cbn [set_n_pages set_page_heap set_network_heap page_heap network_heap priority_list memory_used set_lists set_hash set_memory].
  rewrite u64_small by lia. split; [|split; [|split; [|done]]].
  - eapply (change_page ca _ p None H); cbn [set_n_pages set_page_heap set_network_heap page_heap network_heap priority_list referenced networks
      hash_lists memory_used set_lists set_hash set_memory ca_n_cached_pages n_cached_networks]; rewrite ?partial_alter_delete.
    + done.
    + apply hash_without; [by apply inv_hash|]. by intros i (? & ? & _).
    + apply lists_without; [apply H|]. by intros (? & ? & _).
    + apply lists_without; [apply H|]. by intros (? & ? & _).
    + done.
    + done.
    + intros n. rewrite lookup_insert_is_Some. destruct (decide (network cp = n)) as [<-|]; naive_solver.
    + intros n cn'. rewrite lookup_insert_Some. intros [[<- <-]|[Hn' E']].
      * by apply removed_ok; [..|apply H].
      * apply network_keep; [by apply (ci_network _ H)|naive_solver..].
    + rewrite E. cbn [tally value Z.b2z]. rewrite u32_small; lia.
    + rewrite E. cbn [value]. unfold charged. rewrite Hidle. cbn. lia.
    + rewrite (ci_n_networks _ H). unfold count. rewrite total_insert_change, En. cbn. lia.
    + change (Z.of_nat (size (delete p (page_heap ca))) ≤ MAX_BLOCKS). unfold MAX_BLOCKS. lia.
  - split; cbn.
    + intros q cq. rewrite partial_alter_delete. destruct (decide (q = p)) as [->|Hq]; [by rewrite lookup_partial_alter_eq|].
      by rewrite lookup_partial_alter_ne.
    + intros q cq Eq Hb. rewrite lookup_delete_ne, lookup_insert_ne; try done; intros <-; rewrite E in Eq; injection Eq as <-; unfold busy in Hb; lia.
    + intros n. destruct (decide (network cp = n)) as [<-|Hn'].
      * rewrite En, lookup_insert_eq. done.
      * rewrite lookup_insert_ne by done. by destruct (network_heap ca !! n).
    + done.
    + done.
    + lia.
    + done.
  - by rewrite partial_alter_delete.
Qed.

(** ** Loops over unreferenced pages *)

Lemma idle_listed ca p : cache_inv ca → p ∈ priority_list ca → ∃ cp, page_heap ca !! p = Some cp ∧ idle cp.
Proof. intros H Hp. by apply (ci_priority _ H). Qed.

(** A step of a loop over unreferenced pages: nothing, or the page is deleted. *)
Definition deletes (p : Z) (ca ca' : vbi_cache) : Prop := ca' = ca ∨ delete_page sz p ca = Some ca'.

Lemma deletes_ok ca p ca' :
  cache_inv ca → p ∈ priority_list ca → deletes p ca ca' →
  cache_inv ca' ∧ shrinks ca ca' ∧ ∀ q, q ≠ p → q ∈ priority_list ca → q ∈ priority_list ca'.
Proof using sz_ok.
  intros H Hp [->|E]; [done|]. destruct (idle_listed ca p H Hp) as (cp & Ep & Hi).
  destruct (delete_idle_page ca p cp H Ep Hi) as (ca1 & E1 & Hinv & Hsh & _ & Hl & _). rewrite E1 in E. injection E as <-.
  split; [done|]. split; [done|]. intros q Hq Hin. rewrite Hl, without_in. done.
Qed.

Lemma for_all_deletes body : ∀ l ca,
  cache_inv ca → NoDup l → (∀ p, p ∈ l → p ∈ priority_list ca) →
  (∀ p ca1, cache_inv ca1 → p ∈ l → p ∈ priority_list ca1 → shrinks ca ca1 → ∃ ca2, body p ca1 = Some ca2 ∧ deletes p ca1 ca2) →
  ∃ ca', for_all body l ca = Some ca' ∧ cache_inv ca' ∧ shrinks ca ca'.
Proof using sz_ok.
  induction l as [|p l IH]; intros ca H Hnd Hin Hb; [by exists ca|]. apply list.NoDup_cons in Hnd as [Hp Hnd].
  destruct (Hb p ca H ltac:(left) (Hin p ltac:(left)) (reflexivity _)) as (ca1 & E1 & Hd).
  destruct (deletes_ok ca p ca1 H (Hin p ltac:(left)) Hd) as (H1 & Hsh & Hl).
  destruct (IH ca1 H1 Hnd) as (ca' & E' & H' & Hsh').
  - intros q Hq. apply Hl; [by intros ->|]. apply Hin. by right.
  - intros q ca2 H2 Hq Hq2 Hsh2. apply Hb; [done|by right|done|by transitivity ca1].
  - exists ca'. cbn [for_all]. rewrite E1. cbn [mbind option_bind]. split; [done|]. split; [done|]. by transitivity ca1.
Qed.

Lemma for_all_until_deletes body : ∀ l ca,
  cache_inv ca → NoDup l → (∀ p, p ∈ l → p ∈ priority_list ca) →
  (∀ p ca1, cache_inv ca1 → p ∈ priority_list ca1 → ∃ ca2 b, body p ca1 = Some (ca2, b) ∧ deletes p ca1 ca2) →
  ∃ ca' b, for_all_until body l ca = Some (ca', b) ∧ cache_inv ca' ∧ shrinks ca ca'.
Proof using sz_ok.
  induction l as [|p l IH]; intros ca H Hnd Hin Hb; [by exists ca, false|]. apply list.NoDup_cons in Hnd as [Hp Hnd].
  destruct (Hb p ca H (Hin p ltac:(left))) as (ca1 & b & E1 & Hd).
  destruct (deletes_ok ca p ca1 H (Hin p ltac:(left)) Hd) as (H1 & Hsh & Hl).
  cbn [for_all_until]. rewrite E1. cbn [mbind option_bind]. destruct b; [by exists ca1, true|].
  destruct (IH ca1 H1 Hnd) as (ca' & b & E' & H' & Hsh'); [|done|].
  - intros q Hq. apply Hl; [by intros ->|]. apply Hin. by right.
  - exists ca', b. split; [done|]. split; [done|]. by transitivity ca1.
Qed.

Lemma delete_all_ok n ca : cache_inv ca →
  ∃ ca', delete_all_pages sz (Some n) ca = Some ca' ∧ cache_inv ca' ∧ shrinks ca ca' ∧
    ∀ q cp, page_heap ca' !! q = Some cp → network cp = n → busy cp.
Proof using sz_ok.
  intros H. unfold delete_all_pages. assert (NoDup (priority_list ca)) as Hnd by apply H.
  assert (∀ q cp, page_heap ca !! q = Some cp → q ∉ priority_list ca → network cp = n → busy cp) as Hrest.
  { intros q cp E Hq _. pose proof (pk_ref _ _ _ (ci_page _ H _ _ E)). unfold busy.
    destruct (decide (ref_count cp = 0)) as [Hi|]; [|lia]. destruct Hq. by apply (lists_pages_in _ _ _ _ cp (ci_priority _ H) E). }
  assert (∀ p, p ∈ priority_list ca → p ∈ priority_list ca) as Hin by done.
  revert Hnd Hin Hrest. generalize (priority_list ca) at 1 2 4 5. intros l. revert ca H. induction l as [|p l IH]; intros ca H Hnd Hin Hrest.
  - exists ca. split; [done|]. split; [done|]. split; [done|]. intros q cp E. apply (Hrest q cp E). apply not_elem_of_nil.
  - apply list.NoDup_cons in Hnd as [Hp Hnd]. pose proof (Hin p ltac:(left)) as Hpp.
    destruct (idle_listed ca p H Hpp) as (cp & Ep & Hi).
    assert (∃ ca1, (cp ← page_at ca p; if network cp =? n then delete_page sz p ca else Some ca) = Some ca1 ∧ deletes p ca ca1 ∧
      ∀ cp, page_heap ca1 !! p = Some cp → network cp = n → busy cp) as (ca1 & E1 & Hd & Hdone).
    { unfold page_at. rewrite Ep. cbn [mbind option_bind]. destruct (Z.eqb_spec (network cp) n) as [En|En].
      - destruct (delete_idle_page ca p cp H Ep Hi) as (ca1 & E1 & _ & _ & Eh & _). exists ca1. split; [done|]. split; [by right|].
        intros cp'. by rewrite Eh, lookup_delete_eq.
      - exists ca. split; [done|]. split; [by left|]. intros cp' E'. congruence. }
    destruct (deletes_ok ca p ca1 H Hpp Hd) as (H1 & Hsh & Hl).
    destruct (IH ca1 H1 Hnd) as (ca' & E' & H' & Hsh' & Hfin).
    + intros q Hq. apply Hl; [by intros ->|]. apply Hin. by right.
    + intros q cq Eq Hq. destruct (decide (q = p)) as [->|Hqp]; [by apply Hdone|].
      apply (Hrest q cq); [by apply (sh_pages _ _ Hsh)|]. by intros [->|?]%elem_of_cons.
    + exists ca'. cbn [for_all]. rewrite E1. cbn [mbind option_bind]. split; [done|]. split; [done|]. split; [by transitivity ca1|done].
Qed.

(** ** Keeping to the memory limit *)

Lemma surplus_loop_ok unused pri ca : cache_inv ca →
  ∃ ca' b, surplus_loop sz unused pri ca = Some (ca', b) ∧ cache_inv ca' ∧ shrinks ca ca'.
Proof using sz_ok.
  intros H. unfold surplus_loop. apply for_all_until_deletes; [done|apply H|done|]. intros p c H1 Hp.
  case_match; [by exists c, true; repeat split; left|].
  destruct (idle_listed c p H1 Hp) as (cp & Ep & Hi). unfold page_at. rewrite Ep. cbn [mbind option_bind].
  destruct (pk_network _ _ _ (ci_page _ H1 _ _ Ep)) as [cn En]. unfold network_at. rewrite En. cbn [mbind option_bind].
  destruct (delete_idle_page c p cp H1 Ep Hi) as (c1 & E1 & _).
  repeat case_match; rewrite ?E1; cbn [mbind option_bind]; do 2 eexists; (split; [reflexivity|]); first [by left|by right].
Qed.

(** A loop that is not left early deletes all pages of its priority. *)
Lemma surplus_loop_all pri ca ca' b : cache_inv ca → surplus_loop sz false pri ca = Some (ca', b) →
  if b then memory_used ca' ≤ memory_limit ca'
  else ∀ q cp, page_heap ca' !! q = Some cp → priority cp = pri → busy cp.
Proof using sz_ok.
  intros H. unfold surplus_loop. assert (NoDup (priority_list ca)) as Hnd by apply H.
  assert (∀ q cp, page_heap ca !! q = Some cp → q ∉ priority_list ca → priority cp = pri → busy cp) as Hrest.
  { intros q cp E Hq _. pose proof (pk_ref _ _ _ (ci_page _ H _ _ E)). unfold busy.
    destruct (decide (ref_count cp = 0)) as [Hi|]; [|lia]. destruct Hq. by apply (lists_pages_in _ _ _ _ cp (ci_priority _ H) E). }
  assert (∀ p, p ∈ priority_list ca → p ∈ priority_list ca) as Hin by done.
  revert Hnd Hin Hrest. generalize (priority_list ca) at 1 2 4 5. intros l. revert ca H.
  induction l as [|p l IH]; intros ca H Hnd Hin Hrest; cbn [for_all_until].
  - intros [= <- <-] q cp E. apply (Hrest q cp E). apply not_elem_of_nil.
  - apply list.NoDup_cons in Hnd as [Hp Hnd]. pose proof (Hin p ltac:(left)) as Hpp.
    destruct (memory_used ca <=? memory_limit ca) eqn:Em; cbn [mbind option_bind].
    { intros [= <- <-]. by apply Z.leb_le. }
    destruct (idle_listed ca p H Hpp) as (cp & Ep & Hi). unfold page_at. rewrite Ep. cbn [mbind option_bind].
    destruct (delete_idle_page ca p cp H Ep Hi) as (c1 & E1 & Hinv1 & Hsh1 & Eh & _). rewrite E1.
    destruct (decide (priority cp = pri)) as [Hpri|Hpri]; cbn [mbind option_bind]; intros E.
    + destruct (deletes_ok ca p c1 H Hpp (or_intror E1)) as (_ & _ & Hl). apply (IH c1 Hinv1 Hnd); [| |done].
      * intros q Hq. apply Hl; [by intros ->|]. apply Hin. by right.
      * intros q cq Eq Hq. rewrite Eh in Eq. apply lookup_delete_Some in Eq as [Hqp Eq]. apply (Hrest q cq Eq).
        by intros [->|?]%elem_of_cons.
    + apply (IH ca H Hnd); [| |done].
      * intros q Hq. apply Hin. by right.
      * intros q cq Eq Hq Hq'. apply (Hrest q cq Eq); [|done]. intros [->|?]%elem_of_cons; [|done]. congruence.
Qed.

Lemma delete_surplus_pages_ok ca : cache_inv ca → 0 ≤ memory_limit ca →
  ∃ ca', delete_surplus_pages sz ca = Some ca' ∧ cache_inv ca' ∧ shrinks ca ca' ∧ memory_used ca' ≤ memory_limit ca'.
Proof using sz_ok.
  intros H Hlim. unfold delete_surplus_pages. cbn [for_all_until].
  assert (∀ unused pri c, cache_inv c → ∃ c' b, surplus_loop sz unused pri c = Some (c', b) ∧ cache_inv c' ∧ shrinks c c' ∧
    (b = true → memory_used c' ≤ memory_limit c')) as Hloop.
  { intros unused pri c Hc. destruct (surplus_loop_ok unused pri c Hc) as (c' & b & E & H1 & H2). exists c', b. split; [done|].
    split; [done|]. split; [done|]. intros ->. destruct unused; [|by apply (surplus_loop_all _ _ _ _ Hc) in E].
    clear -E. unfold surplus_loop in E. revert c E. intros c. generalize (priority_list c). intros l. revert c.
    induction l as [|p l IH]; intros c; cbn [for_all_until]; [done|].
    destruct (memory_used c <=? memory_limit c) eqn:Em; cbn [mbind option_bind]; [intros [= <-]; by apply Z.leb_le|].
    unfold page_at, network_at. destruct (page_heap c !! p); cbn [mbind option_bind]; [|done]. case_decide; [|apply IH].
    destruct (network_heap c !! _); cbn [mbind option_bind]; [|done]. case_match; [|apply IH].
    destruct (delete_page sz p c); cbn [mbind option_bind]; [apply IH|done]. }
  destruct (Hloop true CACHE_PRI_NORMAL ca H) as (c1 & b1 & E1 & H1 & S1 & L1). rewrite E1. cbn [mbind option_bind].
  destruct b1; [exists c1; by auto|].
  destruct (Hloop true CACHE_PRI_SPECIAL c1 H1) as (c2 & b2 & E2 & H2 & S2 & L2). rewrite E2. cbn [mbind option_bind].
  destruct b2; [exists c2; split; [done|]; split; [done|]; split; [by transitivity c1|by auto]|].
  destruct (Hloop false CACHE_PRI_NORMAL c2 H2) as (c3 & b3 & E3 & H3 & S3 & L3). rewrite E3. cbn [mbind option_bind].
  destruct b3; [exists c3; split; [done|]; split; [done|]; split; [transitivity c1; [done|by transitivity c2]|by auto]|].
  destruct (Hloop false CACHE_PRI_SPECIAL c3 H3) as (c4 & b4 & E4 & H4 & S4 & L4). rewrite E4. cbn [mbind option_bind].
  assert (shrinks ca c4) as Hsh by (transitivity c1; [done|]; transitivity c2; [done|]; by transitivity c3).
  pose proof (surplus_loop_all _ _ _ _ H2 E3) as A3. pose proof (surplus_loop_all _ _ _ _ H3 E4) as A4.
  destruct b4; exists c4; (split; [done|]; split; [done|]; split; [done|]); [by auto|].
  destruct (sh_limits _ _ Hsh) as [-> _]. rewrite (ci_memory _ H4). transitivity 0; [|done].
  cbn in A3, A4. assert (total charged (page_heap c4) = total (λ _, 0) (page_heap c4)) as ->.
  { apply total_ext. intros q cp E. unfold charged. destruct (Z.eqb_spec (ref_count cp) 0) as [Hz|]; [|done].
    destruct (priority cp) eqn:Ep.
    - pose proof (pk_zombie _ _ _ (ci_page _ H4 _ _ E) Ep). lia.
    - specialize (A3 q cp (sh_pages _ _ S4 _ _ E) Ep). unfold busy in A3. lia.
    - specialize (A4 q cp E Ep). unfold busy in A4. lia. }
  clear. induction (page_heap c4) as [|p x m E IH] using map_ind; [by rewrite total_empty|]. rewrite total_insert_new by done. lia.
Qed.

(** ** Deleting networks *)

Definition referenced_network (cn : cache_network) : Prop := 0 < net_ref_count cn ∨ 0 < n_referenced_pages cn.

(** What deleting unreferenced pages and networks does. *)
Record reduces (ca ca' : vbi_cache) : Prop := {
  rd_pages : ∀ q cp, page_heap ca' !! q = Some cp → page_heap ca !! q = Some cp;
  rd_busy : ∀ q cp, page_heap ca !! q = Some cp → busy cp → page_heap ca' !! q = Some cp;
  rd_networks : ∀ n cn', network_heap ca' !! n = Some cn' → ∃ cn, network_heap ca !! n = Some cn ∧
    net_ref_count cn' = net_ref_count cn ∧ n_referenced_pages cn' = n_referenced_pages cn ∧
    (zombie cn' = true → zombie cn = true ∨ referenced_network cn);
  rd_kept : ∀ n cn, network_heap ca !! n = Some cn → referenced_network cn → is_Some (network_heap ca' !! n);
  rd_memory : memory_used ca' ≤ memory_used ca;
  rd_limits : memory_limit ca' = memory_limit ca ∧ n_networks_limit ca' = n_networks_limit ca
}.

#[local] Instance reduces_po : PreOrder reduces.
Proof.
  split.
  - intros ca. split; eauto; try done. intros n cn E. exists cn. auto.
  - intros c1 c2 c3 [A1 A2 A3 A4 A5 A6] [B1 B2 B3 B4 B5 B6]. split; eauto; try congruence; try lia.
    + intros n cn3 E3. destruct (B3 _ _ E3) as (cn2 & E2 & H1 & H2 & H3). destruct (A3 _ _ E2) as (cn1 & E1 & H4 & H5 & H6).
      exists cn1. split; [done|]. split; [congruence|]. split; [congruence|]. intros Hz. destruct (H3 Hz) as [Hz'|Hr]; [by auto|].
      right. unfold referenced_network in *. by rewrite <-H4, <-H5.
    + intros n cn1 E1 Hr. destruct (A4 _ _ E1 Hr) as [cn2 E2]. apply (B4 n cn2 E2). destruct (A3 _ _ E2) as (cn & E & H4 & H5 & _).
      rewrite E1 in E. injection E as <-. unfold referenced_network. by rewrite H4, H5.
Qed.

Lemma shrinks_reduces ca ca' : shrinks ca ca' → reduces ca ca'.
Proof.
  intros H. split; try apply H.
  - intros n cn' E. destruct (shrinks_network_back _ _ _ _ H E) as (cn & E' & H1 & H2 & H3). exists cn.
    split; [done|]. split; [done|]. split; [done|]. rewrite H2. by left.
  - intros n cn E _. destruct (shrinks_network _ _ _ _ H E) as (cn' & E' & _). eauto.
Qed.

Lemma reduces_tidy ca ca' : reduces ca ca' → cache_tidy ca → cache_tidy ca'.
Proof.
  intros H [H1 H2]. split.
  - pose proof (rd_memory _ _ H). destruct (rd_limits _ _ H) as [-> _]. lia.
  - intros n cn' E Hz. destruct (rd_networks _ _ H n cn' E) as (cn & E' & H3 & H4 & H5).
    rewrite H3, H4. destruct (H5 Hz) as [Hz'|Hr]; [by apply (H2 n cn)|done].
Qed.

(** The networks change and the pages do not. *)
Lemma change_networks ca ca' :
  cache_inv ca → page_heap ca' = page_heap ca → hash_lists ca' = hash_lists ca → priority_list ca' = priority_list ca →
  referenced ca' = referenced ca → memory_used ca' = memory_used ca → ca_n_cached_pages ca' = ca_n_cached_pages ca →
  NoDup (networks ca') → (∀ n, n ∈ networks ca' ↔ is_Some (network_heap ca' !! n)) →
  (∀ n cn, network_heap ca' !! n = Some cn → network_ok (page_heap ca) n cn) →
  (∀ p cp, page_heap ca !! p = Some cp → is_Some (network_heap ca' !! network cp)) →
  n_cached_networks ca' = count (λ cn, negb (zombie cn)) (network_heap ca') →
  Z.of_nat (size (network_heap ca')) ≤ MAX_BLOCKS → cache_inv ca'.
Proof.
  intros H E1 E2 E3 E4 E5 E6 Hnd Hin Hok Hp Hn Hfew. destruct H. split; rewrite ?E1, ?E2, ?E3, ?E4, ?E5, ?E6; try done.
  intros p cp E. destruct (ci_page0 p cp E). split; try done. by eapply Hp.
Qed.

(** One network changes, no pages. *)
Lemma network_update_size (m : gmap Z cache_network) n cn cn' : m !! n = Some cn → size (<[n := cn']> m) = size m.
Proof. intros E. apply map_size_insert_Some. eauto. Qed.

Lemma lookup_insert_some {A} (m : gmap Z A) n x y k : m !! n = Some x → is_Some (<[n := y]> m !! k) ↔ is_Some (m !! k).
Proof. intros E. rewrite lookup_insert_is_Some. destruct (decide (n = k)) as [<-|]; naive_solver. Qed.

Lemma network_fields m n cn cn' : network_ok m n cn → 0 ≤ net_ref_count cn' < 2 ^ 32 → n_cached_pages cn' = n_cached_pages cn →
  n_referenced_pages cn' = n_referenced_pages cn → pages_stat cn' = pages_stat cn → network_ok m n cn'.
Proof. intros [H1 H2 H3 H4 H5] Hr Hc Hn Hs. split; [done|done|congruence|congruence|]. intros pg. by rewrite Hs. Qed.

Definition live (cn : cache_network) : Z := Z.b2z (negb (zombie cn)).

Lemma live_count ca n cn : cache_inv ca → network_heap ca !! n = Some cn → live cn ≤ n_cached_networks ca ≤ MAX_BLOCKS.
Proof.
  intros H E. rewrite (ci_n_networks _ H). pose proof (count_bound (λ cn, negb (zombie cn)) (network_heap ca)).
  pose proof (ci_networks_few _ H). split; [|lia]. unfold live. destruct (negb (zombie cn)) eqn:Ez; cbn; [|lia].
  pose proof (count_pos (λ cn, negb (zombie cn)) _ n cn E Ez). lia.
Qed.

Lemma delete_network_ok ca n cn : cache_inv ca → network_heap ca !! n = Some cn →
  ∃ ca', delete_network sz n ca = Some ca' ∧ cache_inv ca' ∧ reduces ca ca' ∧
    (¬ referenced_network cn → network_heap ca' !! n = None) ∧
    (∀ m, m ≠ n → is_Some (network_heap ca' !! m) ↔ is_Some (network_heap ca !! m)).
Proof using sz_ok.
  intros H E. unfold delete_network, network_at. rewrite E. cbn [mbind option_bind].
  assert (∃ c1, (if 0 <? n_cached_pages cn then delete_all_pages sz (Some n) ca else Some ca) = Some c1 ∧ cache_inv c1 ∧ shrinks ca c1 ∧
    ∀ q cp, page_heap c1 !! q = Some cp → network cp = n → busy cp) as (c1 & -> & H1 & Hsh & Hbusy).
  { destruct (Z.ltb_spec 0 (n_cached_pages cn)) as [Hc|Hc]; [by apply delete_all_ok|]. exists ca. split; [done|]. split; [done|].
    split; [done|]. intros q cp Eq En. pose proof (ci_network _ H _ _ E) as Hn. rewrite (nk_cached _ _ _ Hn) in Hc.
    pose proof (count_bound (of_network n) (page_heap ca)). pose proof (count_zero (of_network n) (page_heap ca) q cp ltac:(lia) Eq) as Hz.
    by apply Z.eqb_neq in Hz. }
  cbn [mbind option_bind]. destruct (shrinks_network _ _ _ _ Hsh E) as (cn1 & E1 & Hr1 & Hz1 & Hn1). rewrite E1. cbn [mbind option_bind].
  pose proof (ci_network _ H1 _ _ E1) as Hok. pose proof (live_count _ _ _ H1 E1) as Hlive. unfold live in Hlive. unfold MAX_BLOCKS in Hlive.
  set (c2 := if zombie cn1 then c1 else _). assert (c2 = set_networks (networks c1) (n_cached_networks c1 - live cn1) c1) as ->.
  { unfold c2, live. destruct (zombie cn1); cbn [negb Z.b2z] in *; [rewrite Z.sub_0_r; by destruct c1|]. by rewrite u32_small by lia. }
  rewrite Hr1, Hn1. unfold update_network, network_at. cbn [network_heap set_networks]. rewrite E1. cbn [mbind option_bind].
  assert ((0 <? net_ref_count cn) || (0 <? n_referenced_pages cn) = true ↔ referenced_network cn) as Hif.
  { unfold referenced_network. by rewrite orb_true_iff, !Z.ltb_lt. }
  destruct ((0 <? net_ref_count cn) || (0 <? n_referenced_pages cn)) eqn:Eif.
  - (* becomes a zombie *)
    apply proj1 in Hif. specialize (Hif eq_refl). eexists. split; [reflexivity|]. cbn [set_network_heap set_networks network_heap].
    assert (∀ m, is_Some (<[n:=set_zombie true cn1]> (network_heap c1) !! m) ↔ is_Some (network_heap ca !! m)) as Hdom.
    { intros m. rewrite (lookup_insert_some _ _ _ _ _ E1). pose proof (sh_networks _ _ Hsh m) as Hm.
      destruct (network_heap ca !! m), (network_heap c1 !! m); by try destruct Hm. }
    split; [|split; [|split]].
    + apply (change_networks c1); try done; cbn [set_network_heap set_networks network_heap networks n_cached_networks].
      * apply H1.
      * intros m. rewrite (lookup_insert_some _ _ _ _ _ E1). apply H1.
      * intros m cn'. rewrite lookup_insert_Some. intros [[<- <-]|[Hm E']]; [|by apply (ci_network _ H1)].
        apply (network_fields _ _ cn1); [done|apply Hok|done..].
      * intros p cp Ep. rewrite (lookup_insert_some _ _ _ _ _ E1). apply (ci_page _ H1 _ _ Ep).
      * rewrite (ci_n_networks _ H1). unfold count. rewrite total_insert_change, E1. cbn [value zombie set_zombie negb Z.b2z]. unfold live. lia.
      * rewrite (network_update_size _ _ _ _ E1). apply H1.
    + transitivity c1; [by apply shrinks_reduces|]. split; try done; cbn [set_network_heap set_networks network_heap].
      * intros m cn'. rewrite lookup_insert_Some. intros [[<- <-]|[Hm E']]; [|exists cn'; auto].
        exists cn1. split; [done|]. split; [done|]. split; [done|]. intros _. right. unfold referenced_network. by rewrite Hr1, Hn1.
      * intros m cm Em _. rewrite (lookup_insert_some _ _ _ _ _ E1). eauto.
    + done.
    + intros m _. apply Hdom.
  - (* is freed *)
    assert (¬ referenced_network cn) as Hnr by (intros Hr; by apply Hif in Hr).
    assert (∀ q cp, page_heap c1 !! q = Some cp → network cp ≠ n) as Hnone.
    { intros q cp Eq En. specialize (Hbusy q cp Eq En). apply Hnr. right. rewrite <-Hn1, (nk_referenced _ _ _ Hok).
      apply (count_pos (in_use_of n) _ q cp Eq). unfold in_use_of. rewrite (proj2 (Z.eqb_eq _ _) En). by apply Z.ltb_lt. }
    assert (n ∈ networks c1) as Hin by (apply H1; eauto).
    unfold unlink_network. cbn [networks set_networks]. rewrite decide_True by done. cbn [mbind option_bind].
    eexists. split; [reflexivity|]. cbn [set_network_heap set_networks network_heap].
    pose proof (map_size_delete_Some n (network_heap c1) (ex_intro _ cn1 E1)) as Hdel. pose proof (ci_networks_few _ H1).
    split; [|split; [|split]].
    + apply (change_networks c1); try done; cbn [set_network_heap set_networks network_heap networks n_cached_networks].
      * apply without_nodup, H1.
      * intros m. rewrite without_in, (proj2 (ci_networks _ H1)), lookup_delete_is_Some. naive_solver.
      * intros m cn' [_ E']%lookup_delete_Some. by apply (ci_network _ H1).
      * intros p cp Ep. rewrite lookup_delete_is_Some. split; [by intros Heq; apply (Hnone p cp Ep)|]. apply (ci_page _ H1 _ _ Ep).
      * rewrite (ci_n_networks _ H1). unfold count, live. rewrite (total_delete _ _ n), E1. cbn [value]. lia.
      * lia.
    + transitivity c1; [by apply shrinks_reduces|]. split; try done; cbn [set_network_heap set_networks network_heap].
      * intros m cn' [_ E']%lookup_delete_Some. exists cn'. auto.
      * intros m cm Em Hr. apply lookup_delete_is_Some. split; [|eauto]. intros <-. rewrite E1 in Em. injection Em as <-.
        apply Hnr. unfold referenced_network in *. by rewrite <-Hr1, <-Hn1.
    + intros _. apply lookup_delete_eq.
    + intros m Hm. rewrite lookup_delete_ne by done. pose proof (sh_networks _ _ Hsh m) as Hs.
      destruct (network_heap ca !! m), (network_heap c1 !! m); split; intros [? ?]; try done; eauto.
Qed.

(** ** References to networks *)

Lemma unreferenced_spec cn : 0 ≤ net_ref_count cn → 0 ≤ n_referenced_pages cn →
  (0 <? net_ref_count cn) || (0 <? n_referenced_pages cn) = false ↔ ¬ referenced_network cn.
Proof. intros. unfold referenced_network. rewrite orb_false_iff, !Z.ltb_ge. lia. Qed.

(** A zombie must be in use. *)
Definition network_tidy (ca : vbi_cache) (n : Z) : Prop :=
  ∀ cn, network_heap ca !! n = Some cn → zombie cn = true → referenced_network cn.

Lemma reduces_network_tidy ca ca' n : reduces ca ca' → network_tidy ca n → network_tidy ca' n.
Proof.
  intros H Ht cn' E Hz. destruct (rd_networks _ _ H n cn' E) as (cn & E' & H3 & H4 & H5).
  unfold referenced_network. rewrite H3, H4. destruct (H5 Hz) as [Hz'|Hr]; [by apply (Ht cn)|done].
Qed.

Lemma surplus_networks_ok : ∀ l ca, cache_inv ca → NoDup l → (∀ n, n ∈ l → is_Some (network_heap ca !! n)) →
  ∃ ca', for_all (λ n ca,
    cn ← network_at ca n;
    if (0 <? net_ref_count cn) || (0 <? n_referenced_pages cn) then Some ca
    else if zombie cn || (n_networks_limit ca <? n_cached_networks ca) then delete_network sz n ca
    else Some ca) l ca = Some ca' ∧ cache_inv ca' ∧ reduces ca ca' ∧ ∀ n, n ∈ l → network_tidy ca' n.
Proof using sz_ok.
  induction l as [|n l IH]; intros ca H Hnd Hin.
  { exists ca. split; [done|]. split; [done|]. split; [done|]. by intros n Hn%elem_of_nil. }
  apply list.NoDup_cons in Hnd as [Hn Hnd]. destruct (Hin n ltac:(left)) as [cn E].
  cbn [for_all]. assert (network_at ca n = Some cn) as En by exact E. rewrite En. cbn [mbind option_bind].
  assert (∃ c1, (if (0 <? net_ref_count cn) || (0 <? n_referenced_pages cn) then Some ca
      else if zombie cn || (n_networks_limit ca <? n_cached_networks ca) then delete_network sz n ca else Some ca) = Some c1 ∧
    cache_inv c1 ∧ reduces ca c1 ∧ network_tidy c1 n ∧ ∀ m, m ≠ n → is_Some (network_heap c1 !! m) ↔ is_Some (network_heap ca !! m))
    as (c1 & -> & H1 & R1 & T1 & D1).
  { destruct ((0 <? net_ref_count cn) || (0 <? n_referenced_pages cn)) eqn:Eif.
    - exists ca. split; [done|]. split; [done|]. split; [done|]. split; [|done]. intros cn' E' _. rewrite E in E'. injection E' as <-.
      apply orb_true_iff in Eif. rewrite !Z.ltb_lt in Eif. done.
    - apply unreferenced_spec in Eif; [|apply (ci_network _ H _ _ E)|].
      2:{ rewrite (nk_referenced _ _ _ (ci_network _ H _ _ E)). apply count_bound. }
      destruct (zombie cn || _) eqn:Ez.
      + destruct (delete_network_ok ca n cn H E) as (c1 & E1 & H1 & R1 & N1 & D1). exists c1. split; [done|]. split; [done|]. split; [done|].
        split; [|done]. intros cn'. by rewrite (N1 Eif).
      + exists ca. split; [done|]. split; [done|]. split; [done|]. split; [|done]. intros cn' E' Hz. rewrite E in E'. injection E' as <-.
        rewrite Hz in Ez. done. }
  cbn [mbind option_bind]. destruct (IH c1 H1 Hnd) as (c2 & E2 & H2 & R2 & T2).
  - intros m Hm. apply D1; [by intros ->|]. apply Hin. by right.
  - exists c2. split; [done|]. split; [done|]. split; [by transitivity c1|].
    intros m [->|Hm]%elem_of_cons; [by eapply reduces_network_tidy|by apply T2].
Qed.

Lemma delete_surplus_networks_ok ca : cache_inv ca →
  ∃ ca', delete_surplus_networks sz ca = Some ca' ∧ cache_inv ca' ∧ reduces ca ca' ∧ ∀ n, network_tidy ca' n.
Proof using sz_ok.
  intros H. destruct (surplus_networks_ok (rev (networks ca)) ca H) as (ca' & E & H' & R & T).
  - apply NoDup_ListNoDup, List.NoDup_rev, NoDup_ListNoDup, H.
  - intros n Hn. apply (ci_networks _ H). by apply list_elem_of_In, in_rev, list_elem_of_In.
  - exists ca'. split; [done|]. split; [done|]. split; [done|]. intros n. destruct (decide (n ∈ networks ca)) as [Hn|Hn].
    + apply T. by apply list_elem_of_In, in_rev; rewrite rev_involutive; apply list_elem_of_In.
    + intros cn' E'. destruct (rd_networks _ _ R n cn' E') as (cn & E0 & _). destruct Hn. apply H. eauto.
Qed.

(** ** What a call does to the references *)

Definition page_refs (ca : vbi_cache) (p : Z) : Z := value ref_count (page_heap ca !! p).
Definition network_refs (ca : vbi_cache) (n : Z) : Z := value net_ref_count (network_heap ca !! n).
Definition one (p : Z) (q : Z) : Z := if decide (q = p) then 1 else 0.

(** The same page, whatever the number of references. *)
Definition same_page (cp cp' : cache_page) : Prop :=
  network cp' = network cp ∧ pgno cp' = pgno cp ∧ subno cp' = subno cp ∧ body cp' = body cp.

(** The references change by [dp] and [dn], and pages that stay in use stay the same. *)
Record effect (ca ca' : vbi_cache) (dp dn : Z → Z) : Prop := {
  ef_pages : ∀ q, page_refs ca' q = page_refs ca q + dp q;
  ef_networks : ∀ n, network_refs ca' n = network_refs ca n + dn n;
  ef_kept : ∀ q cp, page_heap ca !! q = Some cp → busy cp → 0 < page_refs ca' q →
    ∃ cp', page_heap ca' !! q = Some cp' ∧ same_page cp cp';
  ef_limit : memory_limit ca' = memory_limit ca
}.

Definition none (q : Z) : Z := 0.

Lemma reduces_refs ca ca' : cache_inv ca → reduces ca ca' →
  (∀ q, page_refs ca' q = page_refs ca q) ∧ ∀ n, network_refs ca' n = network_refs ca n.
Proof.
  intros H R. split; intros q; unfold page_refs, network_refs.
  - destruct (page_heap ca' !! q) as [cp|] eqn:E; [by rewrite (rd_pages _ _ R _ _ E)|].
    destruct (page_heap ca !! q) as [cp|] eqn:E'; [|done]. cbn. destruct (pk_ref _ _ _ (ci_page _ H _ _ E')) as [Hr _].
    destruct (decide (ref_count cp = 0)) as [->|]; [done|]. rewrite (rd_busy _ _ R q cp E') in E; [done|]. unfold busy. lia.
  - destruct (network_heap ca' !! q) as [cn|] eqn:E.
    + destruct (rd_networks _ _ R _ _ E) as (cn0 & -> & H1 & _). done.
    + destruct (network_heap ca !! q) as [cn|] eqn:E'; [|done]. cbn. destruct (nk_ref _ _ _ (ci_network _ H _ _ E')) as [Hr _].
      destruct (decide (net_ref_count cn = 0)) as [->|]; [done|]. destruct (rd_kept _ _ R q cn E') as [? E'']; [left; lia|congruence].
Qed.

Lemma effect_reduces ca c1 c2 dp dn : cache_inv c1 → effect ca c1 dp dn → reduces c1 c2 → effect ca c2 dp dn.
Proof.
  intros H [E1 E2 E3 E4] R. destruct (reduces_refs _ _ H R) as [R1 R2]. split.
  - intros q. by rewrite R1.
  - intros n. by rewrite R2.
  - intros q cp E Hb Hr. rewrite R1 in Hr. destruct (E3 q cp E Hb Hr) as (cp' & E' & Hs). exists cp'. split; [|done].
    apply (rd_busy _ _ R); [done|]. unfold page_refs in Hr. rewrite E' in Hr. done.
  - by rewrite (proj1 (rd_limits _ _ R)).
Qed.

Lemma effect_refl ca : effect ca ca none none.
Proof. split; intros; unfold none; try lia; eauto. by exists cp. Qed.

(** One network changes; the pages do not. *)
Lemma update_network_inv ca n f cn :
  cache_inv ca → network_heap ca !! n = Some cn → 0 ≤ net_ref_count (f cn) < 2 ^ 32 → n_cached_pages (f cn) = n_cached_pages cn →
  n_referenced_pages (f cn) = n_referenced_pages cn → pages_stat (f cn) = pages_stat cn → zombie (f cn) = zombie cn →
  ∃ ca', update_network n f ca = Some ca' ∧ ca' = set_network_heap (<[n := f cn]> (network_heap ca)) ca ∧ cache_inv ca'.
Proof.
  intros H E Hr Hc Hn Hs Hz. unfold update_network, network_at. rewrite E. cbn [mbind option_bind]. eexists. split; [reflexivity|]. split; [done|].
  apply (change_networks ca); try done; cbn [set_network_heap network_heap networks n_cached_networks].
  - apply H.
  - intros m. rewrite (lookup_insert_some _ _ _ _ _ E). apply H.
  - intros m cn'. rewrite lookup_insert_Some. intros [[<- <-]|[Hm E']]; [|by apply (ci_network _ H)].
    apply (network_fields _ _ cn); try done. by apply H.
  - intros p cp Ep. rewrite (lookup_insert_some _ _ _ _ _ E). apply (ci_page _ H _ _ Ep).
  - rewrite (ci_n_networks _ H). unfold count. rewrite total_insert_change, E. cbn [value]. rewrite Hz. lia.
  - rewrite (network_update_size _ _ _ _ E). apply H.
Qed.

Lemma network_effect ca n cn cn' d : network_heap ca !! n = Some cn → net_ref_count cn' = net_ref_count cn + d →
  effect ca (set_network_heap (<[n := cn']> (network_heap ca)) ca) none (λ m, d * one n m).
Proof.
  intros E Hr. split; cbn [set_network_heap page_heap network_heap memory_limit]; try done.
  - intros q. unfold none, page_refs. cbn. lia.
  - intros m. unfold network_refs, one. cbn [set_network_heap network_heap]. case_decide as Hm.
    + subst m. rewrite lookup_insert_eq, E. cbn. lia.
    + rewrite lookup_insert_ne by done. lia.
  - intros q cp Eq _ _. by exists cp.
Qed.

Lemma network_ref_ok ca n cn : cache_inv ca → cache_tidy ca → network_heap ca !! n = Some cn → net_ref_count cn < 2 ^ 32 - 1 →
  ∃ ca', net_add_ref n ca = Some ca' ∧ cache_inv ca' ∧ cache_tidy ca' ∧ effect ca ca' none (one n).
Proof.
  intros H T E Hlt. pose proof (nk_ref _ _ _ (ci_network _ H _ _ E)) as Hr.
  destruct (update_network_inv ca n (λ cn, set_net_ref (u32 (net_ref_count cn + 1)) cn) cn H E) as (ca' & E' & -> & H'); try done.
  { cbn. rewrite u32_small; lia. }
  eexists. split; [exact E'|]. split; [done|]. split.
  - split; [apply T|]. cbn [set_network_heap network_heap]. intros m cm. rewrite lookup_insert_Some. intros [[<- <-]|[Hm Em]]; [|by apply (ct_zombie _ T m)].
    cbn. rewrite u32_small by lia. lia.
  - destruct (network_effect ca n cn (set_net_ref (u32 (net_ref_count cn + 1)) cn) 1 E) as [A1 A2 A3 A4]; [cbn; rewrite u32_small by lia; lia|].
    split; try done; intros m; rewrite A2; lia.
Qed.

Lemma network_unref_ok ca n cn : cache_inv ca → cache_tidy ca → network_heap ca !! n = Some cn → 0 < net_ref_count cn →
  ∃ ca', cache_network_unref sz n ca = Some ca' ∧ cache_inv ca' ∧ cache_tidy ca' ∧ effect ca ca' none (λ m, - one n m).
Proof using sz_ok.
  intros H T E Hlt. pose proof (nk_ref _ _ _ (ci_network _ H _ _ E)) as Hr. pose proof (nk_address _ _ _ (ci_network _ H _ _ E)) as Hn.
  unfold cache_network_unref. rewrite (proj2 (Z.eqb_neq n 0)) by done. unfold network_at. rewrite E. cbn [mbind option_bind].
  rewrite (proj2 (Z.eqb_neq _ 0)) by lia. destruct (Z.eqb_spec (net_ref_count cn) 1) as [H1|H1].
  - destruct (update_network_inv ca n (set_net_ref 0) cn H E) as (c1 & -> & Ec1 & Hc1); try done. cbn [mbind option_bind].
    destruct (delete_surplus_networks_ok c1 Hc1) as (c2 & -> & H2 & R2 & T2). exists c2. split; [done|]. split; [done|]. split.
    + split; [|exact T2]. pose proof (rd_memory _ _ R2) as Hm. destruct (rd_limits _ _ R2) as [-> _]. destruct T as [T _]. subst c1. cbn in *. lia.
    + apply (effect_reduces ca c1); [done| |done]. subst c1.
      destruct (network_effect ca n cn (set_net_ref 0 cn) (-1) E) as [A1 A2 A3 A4]; [cbn; lia|]. split; try done; intros m; rewrite A2; lia.
  - destruct (update_network_inv ca n (set_net_ref (net_ref_count cn - 1)) cn H E) as (c1 & -> & -> & Hc1); try done; [cbn; lia|].
    eexists. split; [done|]. split; [done|]. split.
    + split; [apply T|]. cbn [set_network_heap network_heap]. intros m cm. rewrite lookup_insert_Some. intros [[<- <-]|[Hm Em]]; [|by apply (ct_zombie _ T m)].
      cbn. lia.
    + destruct (network_effect ca n cn (set_net_ref (net_ref_count cn - 1) cn) (-1) E) as [A1 A2 A3 A4]; [cbn; lia|]. split; try done; intros m; rewrite A2; lia.
Qed.

(** ** Adding networks *)

Lemma count_none {A} (f : A → bool) m : (∀ p x, m !! p = Some x → f x = false) → count f m = 0.
Proof.
  intros H. unfold count. transitivity (total (λ _ : A, 0) m).
  - apply total_ext. intros p x E. by rewrite (H p x E).
  - clear. induction m as [|p x m E IH] using map_ind; [by rewrite total_empty|]. rewrite total_insert_new by done. lia.
Qed.

(** The network list is rearranged. *)
Lemma reorder_inv ca l : cache_inv ca → l ≡ₚ networks ca → cache_inv (set_networks l (n_cached_networks ca) ca).
Proof.
  intros H Hl. apply (change_networks ca); try done; cbn [set_networks networks network_heap n_cached_networks]; try apply H.
  - rewrite Hl. apply H.
  - intros n. rewrite Hl. apply H.
Qed.

Lemma without_permutation p l : NoDup l → p ∈ l → p :: without p l ≡ₚ l.
Proof.
  intros Hnd Hp. apply NoDup_Permutation; [|done|].
  - apply list.NoDup_cons. split; [by intros [_ ?]%without_in|by apply without_nodup].
  - intros q. rewrite elem_of_cons, without_in. destruct (decide (q = p)) as [->|]; tauto.
Qed.

Lemma network_by_id_ok nk ca : cache_inv ca →
  ∃ r, network_by_id nk ca = Some (match r with Some _ => set_networks (nk :: without nk (networks ca)) (n_cached_networks ca) ca | None => ca end, r) ∧
    (r = None ∨ (r = Some nk ∧ nk ∈ networks ca)).
Proof.
  intros H. unfold network_by_id. case_decide as Hin; [|exists None; auto]. exists (Some nk).
  unfold unlink_network. rewrite decide_True by done. cbn [mbind option_bind networks set_networks n_cached_networks]. split; [done|by right].
Qed.

Lemma find_unused_ok ca : cache_inv ca → ∀ l, (∀ n, n ∈ l → n ∈ networks ca) →
  ∃ r, find_unused ca l = Some r ∧ ∀ n, r = Some n → ∃ cn, network_heap ca !! n = Some cn ∧ ¬ referenced_network cn.
Proof.
  intros H. induction l as [|n l IH]; intros Hl; [by exists None|]. destruct (proj1 (proj2 (ci_networks _ H) n) (Hl n ltac:(left))) as [cn E].
  cbn [find_unused]. unfold network_at. rewrite E. cbn [mbind option_bind].
  destruct ((net_ref_count cn =? 0) && (n_referenced_pages cn =? 0)) eqn:Eif.
  - eexists. split; [done|]. intros m [= <-]. exists cn. split; [done|]. apply andb_true_iff in Eif. rewrite !Z.eqb_eq in Eif. unfold referenced_network. lia.
  - apply IH. intros m Hm. apply Hl. by right.
Qed.

Definition recycled (cn : cache_network) : cache_network := CacheNetwork 0 false 0 0 0 (0, 0, 0) (pages_stat cn).

(** The network is taken from the list and gets its fields reset. *)
Lemma recycle_ok ca : cache_inv ca → cache_tidy ca →
  (recycle_network sz ca = Some (ca, None)) ∨
  ∃ c1 n cn, cache_inv c1 ∧ shrinks ca c1 ∧ network_heap c1 !! n = Some cn ∧ zombie cn = false ∧ net_ref_count cn = 0 ∧
    n_referenced_pages cn = 0 ∧ (∀ q cp, page_heap c1 !! q = Some cp → network cp ≠ n) ∧
    recycle_network sz ca = Some (set_network_heap (<[n := recycled cn]> (network_heap c1))
      (set_networks (without n (networks c1)) (n_cached_networks c1) c1), Some n).
Proof using sz_ok.
  intros H T. unfold recycle_network. destruct (find_unused_ok ca H (rev (networks ca))) as (r & -> & Hr).
  { intros n Hn. by apply list_elem_of_In, in_rev, list_elem_of_In. }
  cbn [mbind option_bind]. destruct r as [n|]; [|by left]. right. destruct (Hr n eq_refl) as (cn & E & Hnr). unfold network_at. rewrite E. cbn [mbind option_bind].
  pose proof (ci_network _ H _ _ E) as Hok.
  assert (net_ref_count cn = 0 ∧ n_referenced_pages cn = 0) as [Hz1 Hz2].
  { unfold referenced_network in Hnr. pose proof (nk_ref _ _ _ Hok). rewrite (nk_referenced _ _ _ Hok) in *. pose proof (count_bound (in_use_of n) (page_heap ca)). lia. }
  assert (zombie cn = false) as Hz3.
  { destruct (zombie cn) eqn:Ez; [|done]. by destruct Hnr; apply (ct_zombie _ T n). }
  assert (∃ c1, (if 0 <? n_cached_pages cn then delete_all_pages sz (Some n) ca else Some ca) = Some c1 ∧ cache_inv c1 ∧ shrinks ca c1 ∧
    ∀ q cp, page_heap c1 !! q = Some cp → network cp ≠ n) as (c1 & -> & H1 & Hsh & Hnone).
  { destruct (Z.ltb_spec 0 (n_cached_pages cn)) as [Hc|Hc].
    - destruct (delete_all_ok n ca H) as (c1 & E1 & H1 & Hsh & Hb). exists c1. split; [done|]. split; [done|]. split; [done|].
      intros q cp Eq En. specialize (Hb q cp Eq En).
      rewrite (nk_referenced _ _ _ Hok) in Hz2. apply (sh_pages _ _ Hsh) in Eq. pose proof (count_zero _ _ _ _ Hz2 Eq) as Hf.
      unfold in_use_of in Hf. rewrite (proj2 (Z.eqb_eq _ _) En) in Hf. unfold busy in Hb. cbn in Hf. apply Z.ltb_ge in Hf. lia.
    - exists ca. split; [done|]. split; [done|]. split; [done|]. intros q cp Eq En.
      rewrite (nk_cached _ _ _ Hok) in Hc. pose proof (count_bound (of_network n) (page_heap ca)).
      pose proof (count_zero (of_network n) (page_heap ca) q cp ltac:(lia) Eq) as Hz. by apply Z.eqb_neq in Hz. }
  cbn [mbind option_bind]. destruct (shrinks_network _ _ _ _ Hsh E) as (cn1 & E1 & Hr1 & Hz4 & Hn1).
  unfold unlink_network. rewrite decide_True by (apply H1; eauto). cbn [mbind option_bind].
  unfold update_network, network_at. cbn [network_heap set_networks]. rewrite E1. cbn [mbind option_bind].
  exists c1, n, cn1. split; [done|]. split; [done|]. split; [done|]. rewrite Hz4, Hr1, Hn1. split; [done|]. split; [done|]. split; [done|]. split; [done|]. done.
Qed.

Definition fresh_block (ca : vbi_cache) (p : Z) : Prop :=
  p ≠ 0 ∧ page_heap ca !! p = None ∧ network_heap ca !! p = None ∧
  Z.of_nat (size (page_heap ca)) < MAX_BLOCKS ∧ Z.of_nat (size (network_heap ca)) < MAX_BLOCKS.

Lemma recycled_ok pages n cn : network_ok pages n cn → (∀ q cp, pages !! q = Some cp → network cp ≠ n) → network_ok pages n (recycled cn).
Proof.
  intros H Hnone. split; cbn [recycled net_ref_count n_cached_pages n_referenced_pages pages_stat]; [apply H|lia| | |apply H].
  - symmetry. apply count_none. intros q cp E. apply Z.eqb_neq, (Hnone q cp E).
  - symmetry. apply count_none. intros q cp E. unfold in_use_of. by rewrite (proj2 (Z.eqb_neq _ _) (Hnone q cp E)).
Qed.

Lemma new_network_ok n ca : cache_inv ca → cache_tidy ca → fresh_block ca n →
  let ca' := set_networks (n :: networks ca) (u32 (n_cached_networks ca + 1))
    (set_network_heap (<[n := CacheNetwork 0 false 0 0 0 (0, 0, 0) ∅]> (network_heap ca)) ca) in
  cache_inv ca' ∧ cache_tidy ca' ∧ effect ca ca' none none.
Proof.
  intros H T (Hn0 & Hp & Hn & _ & Hfew). cbv zeta. unfold MAX_BLOCKS in Hfew.
  assert (∀ q cp, page_heap ca !! q = Some cp → network cp ≠ n) as Hnone.
  { intros q cp E <-. destruct (pk_network _ _ _ (ci_page _ H _ _ E)). congruence. }
  pose proof (count_bound (λ cn, negb (zombie cn)) (network_heap ca)) as Hc. rewrite <-(ci_n_networks _ H) in Hc.
  split; [|split].
  - apply (change_networks ca); try done; cbn [set_networks set_network_heap networks network_heap n_cached_networks].
    + apply list.NoDup_cons. split; [|apply H]. intros Hin%(ci_networks _ H). rewrite Hn in Hin. by destruct Hin.
    + intros m. rewrite elem_of_cons, (proj2 (ci_networks _ H)), lookup_insert_is_Some. destruct (decide (n = m)) as [<-|]; naive_solver.
    + intros m cn. rewrite lookup_insert_Some. intros [[<- <-]|[Hm E]]; [|by apply (ci_network _ H)].
      split; cbn; try done; try lia; try (symmetry; apply count_none; intros q cp E).
      * apply Z.eqb_neq, (Hnone q cp E).
      * unfold in_use_of. by rewrite (proj2 (Z.eqb_neq _ _) (Hnone q cp E)).
      * intros pg. rewrite lookup_empty. cbn. rewrite (count_none (of_page n pg)); [done|]. intros q cp E.
        unfold of_page. by rewrite (proj2 (Z.eqb_neq _ _) (Hnone q cp E)).
    + intros p cp E. rewrite lookup_insert_is_Some'. right. apply (ci_page _ H _ _ E).
    + rewrite u32_small by lia. unfold count. rewrite total_insert_new by done. cbn. rewrite (ci_n_networks _ H). unfold count. lia.
    + rewrite map_size_insert_None by done. unfold MAX_BLOCKS. lia.
  - split; [apply T|]. cbn [set_networks set_network_heap network_heap]. intros m cn. rewrite lookup_insert_Some.
    intros [[<- <-]|[Hm E]]; [done|by apply (ct_zombie _ T m)].
  - split; cbn; try done; intros m; unfold none, page_refs, network_refs; cbn; try lia; [|by intros cp E _ _; exists cp].
    destruct (decide (m = n)) as [->|Hm]; [rewrite lookup_insert_eq, Hn; done|rewrite lookup_insert_ne by done; lia].
Qed.

Lemma recycled_network_ok ca c1 n cn : cache_inv ca → cache_tidy ca → cache_inv c1 → shrinks ca c1 → network_heap c1 !! n = Some cn →
  zombie cn = false → net_ref_count cn = 0 → (∀ q cp, page_heap c1 !! q = Some cp → network cp ≠ n) →
  let ca' := set_networks (n :: without n (networks c1)) (n_cached_networks c1)
    (set_network_heap (<[n := recycled cn]> (network_heap c1)) (set_networks (without n (networks c1)) (n_cached_networks c1) c1)) in
  cache_inv ca' ∧ cache_tidy ca' ∧ effect ca ca' none none.
Proof.
  intros H T H1 Hsh E1 Hz Hr Hnone. cbv zeta. assert (cache_tidy c1) as T1 by (by apply (shrinks_tidy ca)).
  split; [|split].
  - apply (change_networks c1); try done; cbn [set_networks set_network_heap networks network_heap n_cached_networks].
    + rewrite without_permutation; [apply H1|apply H1|apply H1; eauto].
    + intros m. rewrite (lookup_insert_some _ _ _ _ _ E1), without_permutation; [apply H1|apply H1|apply H1; eauto].
    + intros m cm. rewrite lookup_insert_Some. intros [[<- <-]|[Hm E]]; [|by apply (ci_network _ H1)].
      apply recycled_ok; [by apply H1|done].
    + intros p cp E. rewrite (lookup_insert_some _ _ _ _ _ E1). apply (ci_page _ H1 _ _ E).
    + rewrite (ci_n_networks _ H1). unfold count. rewrite total_insert_change, E1. cbn [value]. rewrite Hz. cbn. lia.
    + rewrite (network_update_size _ _ _ _ E1). apply H1.
  - split; [apply T1|]. cbn [set_networks set_network_heap network_heap]. intros m cm. rewrite lookup_insert_Some.
    intros [[<- <-]|[Hm E]]; [done|by apply (ct_zombie _ T1 m)].
  - apply shrinks_reduces in Hsh. destruct (reduces_refs ca c1 H Hsh) as [R1 R2]. split.
    + intros q. unfold none. rewrite Z.add_0_r. apply R1.
    + intros m. unfold none. rewrite Z.add_0_r, <-R2. unfold network_refs. cbn [set_networks set_network_heap network_heap].
      destruct (decide (m = n)) as [->|Hm]; [rewrite lookup_insert_eq, E1; cbn; lia|by rewrite lookup_insert_ne].
    + intros q cp E Hb _. exists cp. split; [|done]. by apply (rd_busy _ _ Hsh).
    + apply (rd_limits _ _ Hsh).
Qed.

Lemma add_network_ok malloc nk ca : cache_inv ca → cache_tidy ca → (∀ p, malloc = Some p → fresh_block ca p) →
  ∃ ca' r, add_network sz malloc nk ca = Some (ca', r) ∧ cache_inv ca' ∧ cache_tidy ca' ∧ effect ca ca' none none ∧
    ∀ n, r = Some n → is_Some (network_heap ca' !! n).
Proof using sz_ok.
  intros H T Hm. unfold add_network.
  assert (∃ r, (match nk with Some nk => network_by_id nk ca | None => Some (ca, None) end) =
    Some (match r with Some n => set_networks (n :: without n (networks ca)) (n_cached_networks ca) ca | None => ca end, r) ∧
    ∀ n, r = Some n → n ∈ networks ca) as (r & -> & Hr).
  { destruct nk as [nk|]; [|by exists None]. destruct (network_by_id_ok nk ca H) as (r & E & [->|[-> Hin]]); rewrite E.
    - by exists None.
    - exists (Some nk). split; [done|]. by intros n [= <-]. }
  cbn [mbind option_bind]. destruct r as [n|].
  { specialize (Hr n eq_refl). do 2 eexists. split; [done|]. split; [|split; [|split]].
    - apply reorder_inv; [done|]. apply without_permutation; [apply H|done].
    - split; apply T.
    - split; cbn; try done; intros; unfold none, page_refs, network_refs; cbn; try lia. by exists cp.
    - intros m [= <-]. by apply (ci_networks _ H). }
  assert (∃ ca' r, match malloc with
    | None => Some (ca, None)
    | Some n => Some (set_networks (n :: networks ca) (u32 (n_cached_networks ca + 1))
        (set_network_heap (<[n := CacheNetwork 0 false 0 0 0 (0, 0, 0) ∅]> (network_heap ca)) ca), Some n)
    end = Some (ca', r) ∧ cache_inv ca' ∧ cache_tidy ca' ∧ effect ca ca' none none ∧ ∀ n, r = Some n → is_Some (network_heap ca' !! n)) as Hnew.
  { destruct malloc as [n|]; do 2 eexists; (split; [reflexivity|]).
    - destruct (new_network_ok n ca H T (Hm n eq_refl)) as (A1 & A2 & A3). split; [done|]. split; [done|]. split; [done|].
      intros m [= <-]. cbn. rewrite lookup_insert_eq. eauto.
    - split; [done|]. split; [done|]. split; [apply effect_refl|done]. }
  destruct (n_cached_networks ca <? n_networks_limit ca); cbn [mbind option_bind]; [exact Hnew|].
  destruct (recycle_ok ca H T) as [->|(c1 & n & cn & H1 & Hsh & E1 & Hz & Hr1 & Hn1 & Hnone & ->)]; cbn [mbind option_bind]; [exact Hnew|].
  do 2 eexists. split; [reflexivity|]. cbn [set_network_heap set_networks networks n_cached_networks].
  destruct (recycled_network_ok ca c1 n cn) as (A1 & A2 & A3); try done. split; [done|]. split; [done|]. split; [done|].
  intros m [= <-]. cbn. rewrite lookup_insert_eq. eauto.
Qed.

Lemma revive_ok ca n cn : cache_inv ca → cache_tidy ca → network_heap ca !! n = Some cn →
  ∃ ca', revive n ca = Some ca' ∧ cache_inv ca' ∧ cache_tidy ca' ∧ effect ca ca' none none ∧
    ca' = set_network_heap (<[n := set_zombie false cn]> (network_heap ca)) (set_networks (networks ca) (n_cached_networks ca + Z.b2z (zombie cn)) ca).
Proof.
  intros H T E. unfold revive, network_at. rewrite E. cbn [mbind option_bind].
  pose proof (count_bound (λ cn, negb (zombie cn)) (delete n (network_heap ca))) as Hc.
  pose proof (ci_networks_few _ H) as Hfew. pose proof (map_size_delete_Some n (network_heap ca) (ex_intro _ cn E)) as Hdel.
  assert (n_cached_networks ca = live cn + count (λ cn, negb (zombie cn)) (delete n (network_heap ca))) as Hn.
  { rewrite (ci_n_networks _ H). unfold count. rewrite (total_delete _ _ n), E. done. }
  assert (size (network_heap ca) ≠ 0)%nat by (apply map_size_ne_0_lookup_2 with n; eauto).
  exists (set_network_heap (<[n := set_zombie false cn]> (network_heap ca)) (set_networks (networks ca) (n_cached_networks ca + Z.b2z (zombie cn)) ca)).
  split; [|split; [|split; [|split; [|done]]]].
  - unfold update_network, network_at. cbn [set_networks network_heap]. rewrite E. cbn [mbind option_bind].
    destruct (zombie cn) eqn:Ez; cbn [Z.b2z].
    + unfold live in Hn. rewrite Ez in Hn. cbn in Hn. unfold MAX_BLOCKS in Hfew. by rewrite u32_small by lia.
    + rewrite Z.add_0_r, insert_id by (rewrite E; destruct cn; cbn in *; by subst). by destruct ca.
  - apply (change_networks ca); try done; cbn [set_networks set_network_heap networks network_heap n_cached_networks].
    + apply H.
    + intros m. rewrite (lookup_insert_some _ _ _ _ _ E). apply H.
    + intros m cm. rewrite lookup_insert_Some. intros [[<- <-]|[Hm' E']]; [|by apply (ci_network _ H)].
      pose proof (ci_network _ H _ _ E) as Hok. by apply (network_fields _ _ cn); [done|apply Hok|done..].
    + intros p cp Ep. rewrite (lookup_insert_some _ _ _ _ _ E). apply (ci_page _ H _ _ Ep).
    + unfold count in *. rewrite total_insert_change, E. cbn [value zombie set_zombie]. rewrite (ci_n_networks _ H). unfold count.
      destruct (zombie cn); cbn; lia.
    + rewrite (network_update_size _ _ _ _ E). apply H.
  - split; [apply T|]. cbn [set_networks set_network_heap network_heap]. intros m cm. rewrite lookup_insert_Some.
    intros [[<- <-]|[Hm E']]; [done|by apply (ct_zombie _ T m)].
  - split; cbn; try done; intros m; unfold none, page_refs, network_refs; cbn; try lia; [|by intros cp Ecp _ _; exists cp].
    destruct (decide (m = n)) as [->|Hm]; [rewrite lookup_insert_eq, E; cbn; lia|rewrite lookup_insert_ne by done; lia].
Qed.

(** ** References to pages *)

Ltac fields_simpl := cbn [set_hash set_n_pages set_lists set_memory set_networks set_page_heap set_network_heap hash_lists
  ca_n_cached_pages priority_list referenced memory_used memory_limit networks n_cached_networks n_networks_limit page_heap network_heap].

Lemma set_hash_inv ca h : cache_inv ca → hash_ok (page_heap ca) h → cache_inv (set_hash h ca).
Proof. intros H [H1 H2]. destruct H. by split. Qed.

Lemma lists_pages_same P m l l' : lists_pages P m l → NoDup l' → (∀ q, q ∈ l' ↔ q ∈ l) → lists_pages P m l'.
Proof. intros [H1 H2] Hnd H. split; [done|]. intros q. by rewrite H. Qed.

(** A page is moved to the head of its hash list. *)
Lemma hash_to_head m h p cp : hash_ok m h → m !! p = Some cp → priority cp ≠ CACHE_PRI_ZOMBIE → 0x100 ≤ pgno cp ≤ 0x8FF →
  ∃ l h', rd (map (without p) h) (hash (pgno cp)) = Some l ∧ wr (map (without p) h) (hash (pgno cp)) (p :: l) = Some h' ∧ hash_ok m h'.
Proof.
  intros H E Hz Hpg. pose proof (hash_range _ Hpg) as Hr. destruct (hash_list _ _ _ H Hpg) as (l & El & Hl).
  assert (p ∈ l) as Hp by (by apply (lists_pages_in _ _ _ _ _ Hl E)).
  unfold rd in *. rewrite decide_True in * by lia. rewrite list_lookup_fmap, El. cbn [fmap option_fmap option_map].
  do 2 eexists. split; [reflexivity|]. unfold wr. rewrite length_map, decide_True by (rewrite (proj1 H); lia). split; [reflexivity|].
  split; [rewrite length_insert, length_map; apply H|]. intros i k. rewrite list_lookup_insert_Some. intros [(<- & <- & _)|(Hi & Ek)].
  - rewrite Z2Nat.id by lia. apply (lists_pages_same _ _ l); [done|..].
    + rewrite without_permutation; [apply Hl|apply Hl|done].
    + intros q. by rewrite without_permutation; [|apply Hl|].
  - rewrite list_lookup_fmap in Ek. destruct (h !! i) as [k0|] eqn:E0; [|done]. injection Ek as <-. pose proof (proj2 H i k0 E0) as Hk.
    apply (lists_pages_same _ _ k0); [done|apply without_nodup, Hk|]. intros q. rewrite without_in. split; [by intros [? _]|].
    intros Hq. split; [done|]. intros ->. apply Hi. apply (lists_pages_in _ _ _ _ _ Hk E) in Hq as [_ Hh]. rewrite Hh. by rewrite Nat2Z.id.
Qed.

Definition matches (n pg sub mask : Z) (cp : cache_page) : Prop :=
  priority cp ≠ CACHE_PRI_ZOMBIE ∧ network cp = n ∧ pgno cp = pg ∧ subno cp .& mask = sub .& mask.

Lemma find_page_ok ca n pg sub mask l : cache_inv ca → (∀ p, p ∈ l → is_Some (page_heap ca !! p)) →
  ∃ r, find_page ca (Some n) pg (sub .& mask) mask l = Some r ∧
    match r with
    | Some p => p ∈ l ∧ ∃ cp, page_heap ca !! p = Some cp ∧ network cp = n ∧ pgno cp = pg ∧ subno cp .& mask = sub .& mask
    | None => ∀ p cp, p ∈ l → page_heap ca !! p = Some cp → ¬ (network cp = n ∧ pgno cp = pg ∧ subno cp .& mask = sub .& mask)
    end.
Proof.
  intros H. induction l as [|p l IH]; intros Hl; [exists None; split; [done|]; by intros p cp ?%elem_of_nil|].
  destruct (Hl p ltac:(left)) as [cp E]. cbn [find_page]. unfold page_at. rewrite E. cbn [mbind option_bind].
  destruct ((pgno cp =? pg) && (subno cp .& mask =? sub .& mask) && (network cp =? n)) eqn:Eif.
  - exists (Some p). split; [done|]. split; [left|]. exists cp. rewrite !andb_true_iff, !Z.eqb_eq in Eif. tauto.
  - destruct IH as (r & E' & Hr); [intros q Hq; apply Hl; by right|]. exists r. split; [done|]. destruct r as [q|].
    + destruct Hr as [Hq Hr]. split; [by right|done].
    + intros q cq [->|Hq]%elem_of_cons Eq; [|by apply (Hr q)]. rewrite E in Eq. injection Eq as <-. intros (H1 & H2 & H3).
      rewrite !andb_false_iff, !Z.eqb_neq in Eif. tauto.
Qed.

Lemma page_by_pgno_ok ca n pg sub mask : cache_inv ca → 0x100 ≤ pg ≤ 0x8FF →
  ∃ h r, page_by_pgno (Some n) pg sub mask ca = Some (set_hash h ca, r) ∧ hash_ok (page_heap ca) h ∧
    match r with
    | Some p => ∃ cp, page_heap ca !! p = Some cp ∧ matches n pg sub mask cp
    | None => ∀ p cp, page_heap ca !! p = Some cp → ¬ matches n pg sub mask cp
    end.
Proof.
  intros H Hpg. pose proof (inv_hash ca H) as Hh. destruct (hash_list _ _ _ Hh Hpg) as (l & El & Hl).
  unfold page_by_pgno. rewrite El. cbn [mbind option_bind].
  destruct (find_page_ok ca n pg sub mask l H) as (r & -> & Hr).
  { intros p Hp. apply Hl in Hp as (cp & E & _). eauto. }
  cbn [mbind option_bind]. destruct r as [p|].
  - destruct Hr as (Hp & cp & E & Hn & Hp' & Hs). pose proof (proj1 (lists_pages_in _ _ _ _ _ Hl E) Hp) as [Hz Hhash].
    unfold unlink_hash. rewrite decide_True by (by apply (inv_in_hash ca p cp H E)). cbn [mbind option_bind].
    destruct (hash_to_head _ _ p cp Hh E Hz) as (l' & h' & E1 & E2 & Hok); [by rewrite Hp'|]. rewrite Hp' in E1, E2.
    unfold add_hash_head. fields_simpl. rewrite E1. cbn [mbind option_bind]. rewrite E2. cbn [mbind option_bind].
    exists h', (Some p). split; [done|]. split; [done|]. exists cp. split; [done|]. done.
  - exists (hash_lists ca), None. split; [by destruct ca|]. split; [done|]. intros p cp E (Hz & Hn & Hp & Hs).
    apply (Hr p cp); [|done|done]. apply (lists_pages_in _ _ _ _ _ Hl E). split; [done|]. by rewrite Hp.
Qed.

Lemma set_hash_tidy h ca : cache_tidy ca → cache_tidy (set_hash h ca).
Proof. by intros [? ?]. Qed.
Lemma set_hash_effect h ca : effect ca (set_hash h ca) none none.
Proof. split; intros; unfold none; try done; rewrite ?Z.add_0_r; try done. by exists cp. Qed.

Lemma count_delete_bound {A} (f : A → bool) (m : gmap Z A) p x : m !! p = Some x →
  count f m = Z.b2z (f x) + count f (delete p m) ∧ 0 ≤ count f (delete p m) ≤ Z.of_nat (size m) - 1.
Proof.
  intros E. unfold count at 1. rewrite (total_delete _ _ p), E. cbn [value]. split; [done|].
  pose proof (count_bound f (delete p m)) as Hb. rewrite (map_size_delete_Some p m) in Hb by eauto.
  assert (size m ≠ 0)%nat by (apply map_size_ne_0_lookup_2 with p; eauto). lia.
Qed.

Lemma size_update {A} (m : gmap Z A) p x y : m !! p = Some x → size (partial_alter (λ _, Some y) p m) = size m.
Proof. intros E. change (size (<[p := y]> m) = size m). apply map_size_insert_Some. eauto. Qed.

(** The effect of a change of the references to one page. *)
Lemma page_effect ca ca' p cp cp' d : page_heap ca !! p = Some cp → page_heap ca' = <[p := cp']> (page_heap ca) →
  ref_count cp' = ref_count cp + d → same_page cp cp' → (∀ n, network_refs ca' n = network_refs ca n) → memory_limit ca' = memory_limit ca →
  effect ca ca' (λ q, d * one p q) none.
Proof.
  intros E Eh Hr Hs Hn Hl. split; [| |intros q cq Eq _ _|done].
  - intros q. unfold page_refs, one. rewrite Eh. case_decide as Hq.
    + subst q. rewrite lookup_insert_eq, E. cbn. lia.
    + rewrite lookup_insert_ne by done. lia.
  - intros n. unfold none. by rewrite Hn, Z.add_0_r.
  - rewrite Eh. destruct (decide (q = p)) as [->|Hq].
    + rewrite lookup_insert_eq. rewrite E in Eq. injection Eq as <-. eauto.
    + rewrite lookup_insert_ne by done. by exists cq.
Qed.

(** A page in use gets another number of references. *)
Lemma update_busy ca p cp r : cache_inv ca → page_heap ca !! p = Some cp → busy cp → 0 < r < 2 ^ 32 →
  cache_inv (set_page_heap (<[p := set_ref r cp]> (page_heap ca)) ca).
Proof.
  intros H E Hb Hr. unfold busy in Hb.
  apply (change_page ca _ p (Some (set_ref r cp)) H); fields_simpl; try done.
  - apply hash_keep; [by apply inv_hash|]. intros i. rewrite E. unfold holds, hashed. naive_solver.
  - apply lists_keep; [apply H|]. rewrite E. unfold holds, idle. split; intros (c & [= <-] & Hc); cbn in Hc; lia.
  - apply lists_keep; [apply H|]. rewrite E. unfold holds, busy. split; intros (c & [= <-] & Hc); (eexists; split; [done|]); cbn; lia.
  - intros c [= <-]. destruct (ci_page _ H _ _ E). split; try done; cbn; lia.
  - intros n cn En. apply (network_change _ n cn); rewrite ?E; unfold tally; cbn [value].
    + by apply (ci_network _ H).
    + apply (ci_network _ H _ _ En).
    + unfold of_network. cbn. lia.
    + unfold in_use_of. cbn. rewrite (proj2 (Z.ltb_lt 0 (ref_count cp))), (proj2 (Z.ltb_lt 0 r)) by lia. lia.
    + intros pg. unfold of_page. cbn. rewrite Z.sub_diag. rewrite (nk_subpages _ _ _ (ci_network _ H _ _ En)). by rewrite u8_of_u8.
  - rewrite E. cbn. lia.
  - rewrite E. cbn [value]. unfold charged. cbn. rewrite (proj2 (Z.eqb_neq (ref_count cp) 0)), (proj2 (Z.eqb_neq r 0)) by lia. lia.
  - apply H.
  - rewrite (map_size_insert_Some p) by eauto. apply H.
Qed.

Lemma inv_charge ca p cp : cache_inv ca → page_heap ca !! p = Some cp → idle cp → cache_page_size sz cp ≤ memory_used ca < 2 ^ 63.
Proof using sz_ok.
  intros H E Hi. pose proof (total_charged_bound ca H) as Hm. rewrite (ci_memory _ H). split; [|lia].
  rewrite (total_delete charged _ p), E. cbn [value]. unfold charged at 1. rewrite (proj2 (Z.eqb_eq _ _) Hi).
  assert (0 ≤ total charged (delete p (page_heap ca))); [|lia]. apply total_nonneg. intros q x _. unfold charged.
  pose proof (page_size_bound x). case_match; lia.
Qed.

(** A page is taken into use. *)
Lemma first_ref ca p cp : cache_inv ca → cache_tidy ca → page_heap ca !! p = Some cp → idle cp →
  ∃ ca', cache_page_ref sz p ca = Some ca' ∧ cache_inv ca' ∧ cache_tidy ca' ∧ effect ca ca' (one p) none ∧
    page_heap ca' = <[p := set_ref 1 cp]> (page_heap ca).
Proof using sz_ok.
  intros H T E Hi. pose proof (ci_page _ H _ _ E) as Hp. destruct (pk_network _ _ _ Hp) as [cn En].
  assert (priority cp ≠ CACHE_PRI_ZOMBIE) as Hz. { intros Hz. pose proof (pk_zombie _ _ _ Hp Hz). unfold idle in Hi. lia. }
  destruct (revive_ok ca (network cp) cn H T En) as (c1 & E1 & H1 & T1 & F1 & Ec1).
  unfold cache_page_ref, page_at. rewrite E. cbn [mbind option_bind]. rewrite (proj2 (Z.eqb_eq _ _) Hi), E1. cbn [mbind option_bind].
  assert (page_heap c1 = page_heap ca) as Hh by (by subst c1). assert (priority_list c1 = priority_list ca) as Hpl by (by subst c1).
  assert (referenced c1 = referenced ca) as Hrl by (by subst c1). assert (memory_used c1 = memory_used ca) as Hmu by (by subst c1).
  assert (network_heap c1 !! network cp = Some (set_zombie false cn)) as En1 by (subst c1; apply lookup_insert_eq).
  unfold update_network, network_at. rewrite En1. cbn [mbind option_bind]. unfold unlink_pri. fields_simpl. rewrite Hpl, Hrl.
  rewrite decide_True by (by eapply inv_in_pri). cbn [mbind option_bind]. unfold update_page, page_at. fields_simpl. rewrite Hh, E. cbn [mbind option_bind].
  eexists. split; [reflexivity|]. fields_simpl. unfold idle in Hi. rewrite Hi. change (u32 (0 + 1)) with 1.
  pose proof (inv_charge ca p cp H E Hi) as Hcharge. pose proof (page_size_bound cp) as Hsize.
  destruct (count_delete_bound (in_use_of (network cp)) _ _ _ E) as [Hcnt Hcb].
  assert (in_use_of (network cp) cp = false) as Hiu by (unfold in_use_of; rewrite Hi; apply andb_false_r). rewrite Hiu in Hcnt. cbn in Hcnt.
  pose proof (ci_network _ H1 _ _ En1) as Hok. rewrite Hh in Hok. pose proof (nk_referenced _ _ _ Hok) as Hnr.
  pose proof (ci_pages_few _ H) as Hfew. unfold MAX_BLOCKS in Hfew. split; [|split; [|split; [|done]]].
  - apply (change_page c1 _ p (Some (set_ref 1 cp)) H1); fields_simpl; rewrite ?Hh; try done.
    + apply hash_keep; [rewrite <-Hh; by apply inv_hash|]. intros i. rewrite E. unfold holds, hashed. naive_solver.
    + apply lists_without; [apply H|]. unfold holds, idle. intros (c & [= <-] & Hc). done.
    + apply (lists_pages_change _ _ (referenced ca)); [apply H|..].
      * apply list.NoDup_app. split; [apply without_nodup, H|]. split; [|apply NoDup_singleton].
        intros q [_ Hq]%without_in. by intros ->%list_elem_of_singleton.
      * intros q Hq. rewrite elem_of_app, without_in, list_elem_of_singleton. tauto.
      * rewrite elem_of_app, list_elem_of_singleton. split; [|by right]. intros _. eexists. by split.
    + intros c [= <-]. destruct Hp. split; try done. cbn [network set_ref]. rewrite lookup_insert_eq. eauto.
    + intros n. by rewrite (lookup_insert_some _ _ _ _ _ En1).
    + intros n cn'. rewrite lookup_insert_Some. intros [[<- <-]|[Hn En']].
      * apply (network_change _ _ (set_zombie false cn)); rewrite ?E; unfold tally; cbn [value]; [done|apply Hok|..].
        -- unfold of_network. cbn. lia.
        -- rewrite Hiu. unfold in_use_of. cbn. rewrite Z.eqb_refl. cbn. cbn in Hnr. rewrite u32_small; lia.
        -- intros pg. unfold of_page. cbn. rewrite Z.sub_diag. rewrite (nk_subpages _ _ _ (ci_network _ H _ _ En)). by rewrite u8_of_u8.
      * apply network_keep; [rewrite <-Hh; by apply (ci_network _ H1)|..]; intros c; [rewrite E; by intros [= <-]|by intros [= <-]].
    + rewrite E. cbn. lia.
    + rewrite E. cbn [value]. unfold charged. rewrite Hi. cbn. rewrite Hmu, u64_small by lia. lia.
    + rewrite (ci_n_networks _ H1). unfold count. rewrite total_insert_change, En1. cbn. lia.
    + rewrite (map_size_insert_Some p) by eauto. apply H.
  - split; fields_simpl.
    + rewrite Hmu, u64_small by lia. pose proof (ct_limit _ T). subst c1. fields_simpl. lia.
    + intros n cn'. rewrite lookup_insert_Some. intros [[<- <-]|[Hn En']]; [done|by apply (ct_zombie _ T1 n)].
  - destruct (page_effect ca (set_page_heap (<[p := set_ref 1 cp]> (page_heap ca)) c1) p cp (set_ref 1 cp) 1) as [A1 A2 A3 A4]; try done.
    + cbn. by rewrite Hi.
    + intros n. pose proof (ef_networks _ _ _ _ F1 n) as F. unfold none in F. rewrite Z.add_0_r in F. exact F.
    + by subst c1.
    + split; try done.
      * intros q. rewrite <-(Z.mul_1_l (one p q)). apply A1.
      * intros n. specialize (A2 n). rewrite <-A2. unfold network_refs. fields_simpl. destruct (decide (n = network cp)) as [->|Hn].
        -- rewrite lookup_insert_eq, En1. done.
        -- by rewrite lookup_insert_ne.
Qed.

Lemma page_ref_ok ca p cp : cache_inv ca → cache_tidy ca → page_heap ca !! p = Some cp → ref_count cp < 2 ^ 32 - 1 →
  ∃ ca', cache_page_ref sz p ca = Some ca' ∧ cache_inv ca' ∧ cache_tidy ca' ∧ effect ca ca' (one p) none ∧
    page_heap ca' = <[p := set_ref (ref_count cp + 1) cp]> (page_heap ca).
Proof using sz_ok.
  intros H T E Hlt. destruct (decide (ref_count cp = 0)) as [Hi|Hi].
  { destruct (first_ref ca p cp H T E Hi) as (ca' & A). exists ca'. by rewrite Hi. }
  pose proof (pk_ref _ _ _ (ci_page _ H _ _ E)) as Hr. unfold cache_page_ref, update_page, page_at. rewrite E. cbn [mbind option_bind].
  rewrite (proj2 (Z.eqb_neq _ _) Hi). cbn [mbind option_bind]. rewrite E. cbn [mbind option_bind]. rewrite u32_small by lia.
  eexists. split; [reflexivity|]. split; [apply update_busy; [done|done|unfold busy; lia|lia]|]. split; [split; apply T|]. split; [|done].
  destruct (page_effect ca (set_page_heap (<[p := set_ref (ref_count cp + 1) cp]> (page_heap ca)) ca) p cp (set_ref (ref_count cp + 1) cp) 1) as [A1 A2 A3 A4]; try done.
  split; try done. intros q. rewrite <-(Z.mul_1_l (one p q)). apply A1.
Qed.

(** The end of [cache_page_unref]. *)
Lemma unref_network_ok ca n cn : cache_inv ca → 0 ≤ memory_limit ca → network_heap ca !! n = Some cn →
  (∀ m, m ≠ n → network_tidy ca m) →
  ∃ ca', unref_network sz n ca = Some ca' ∧ cache_inv ca' ∧ cache_tidy ca' ∧ reduces ca ca'.
Proof using sz_ok.
  intros H Hlim E Ht. unfold unref_network, network_at. rewrite E. cbn [mbind option_bind].
  assert (∃ c1, (if zombie cn && (n_referenced_pages cn =? 0) && (net_ref_count cn =? 0) then delete_network sz n ca else Some ca) = Some c1 ∧
    cache_inv c1 ∧ reduces ca c1 ∧ network_tidy c1 n) as (c1 & -> & H1 & R1 & T1).
  { destruct (zombie cn && (n_referenced_pages cn =? 0) && (net_ref_count cn =? 0)) eqn:Eif.
    - rewrite !andb_true_iff, !Z.eqb_eq in Eif. destruct (delete_network_ok ca n cn H E) as (c1 & E1 & H1 & R1 & N1 & _). exists c1.
      split; [done|]. split; [done|]. split; [done|]. intros cn' E'. rewrite N1 in E'; [done|]. unfold referenced_network. lia.
    - exists ca. split; [done|]. split; [done|]. split; [done|]. intros cn' E' Hz. rewrite E in E'. injection E' as <-.
      rewrite Hz in Eif. cbn in Eif. rewrite andb_false_iff, !Z.eqb_neq in Eif. unfold referenced_network.
      pose proof (nk_ref _ _ _ (ci_network _ H _ _ E)). pose proof (nk_referenced _ _ _ (ci_network _ H _ _ E)).
      pose proof (count_bound (in_use_of n) (page_heap ca)). lia. }
  cbn [mbind option_bind]. assert (∀ m, network_tidy c1 m) as T.
  { intros m. destruct (decide (m = n)) as [->|Hm]; [done|]. apply (reduces_network_tidy ca); [done|by apply Ht]. }
  destruct (Z.ltb_spec (memory_limit c1) (memory_used c1)) as [Hm|Hm].
  - destruct (delete_surplus_pages_ok c1 H1) as (c2 & E2 & H2 & S2 & M2); [by rewrite (proj1 (rd_limits _ _ R1))|].
    exists c2. split; [done|]. split; [done|]. split; [|transitivity c1; [done|by apply shrinks_reduces]].
    split; [done|]. intros m cm Em. apply (reduces_network_tidy c1 c2 m); [by apply shrinks_reduces|apply T|done].
  - exists c1. split; [done|]. split; [done|]. split; [|done]. split; [done|]. intros m cm. apply T.
Qed.

(** The network of a page that is no longer in use. *)
Definition released (cn : cache_network) : cache_network := set_n_referenced (u32 (n_referenced_pages cn - 1)) cn.

Lemma in_use_count ca p cp : cache_inv ca → page_heap ca !! p = Some cp → busy cp →
  1 ≤ count (in_use_of (network cp)) (page_heap ca) ≤ MAX_BLOCKS.
Proof.
  intros H E Hb. pose proof (count_bound (in_use_of (network cp)) (page_heap ca)). pose proof (ci_pages_few _ H).
  assert (0 < count (in_use_of (network cp)) (page_heap ca)); [|lia]. apply (count_pos _ _ p cp E).
  unfold in_use_of. rewrite Z.eqb_refl. by apply Z.ltb_lt.
Qed.

Lemma release_idle ca p cp : cache_inv ca → page_heap ca !! p = Some cp → ref_count cp = 1 → priority cp ≠ CACHE_PRI_ZOMBIE →
  ∃ cn, network_heap ca !! network cp = Some cn ∧
    cache_inv (set_network_heap (<[network cp := released cn]> (network_heap ca))
      (set_memory (u64 (memory_used ca + cache_page_size sz cp))
        (set_lists (without p (priority_list ca) ++ [p]) (without p (referenced ca)) (set_page_heap (<[p := set_ref 0 cp]> (page_heap ca)) ca)))).
Proof using sz_ok.
  intros H E Hr Hz. pose proof (ci_page _ H _ _ E) as Hp. destruct (pk_network _ _ _ Hp) as [cn En]. exists cn. split; [done|].
  pose proof (ci_network _ H _ _ En) as Hok. pose proof (nk_referenced _ _ _ Hok) as Hnr.
  pose proof (in_use_count ca p cp H E ltac:(unfold busy; lia)) as Hcnt. unfold MAX_BLOCKS in Hcnt.
  pose proof (total_charged_bound ca H) as Hm. rewrite <-(ci_memory _ H) in Hm. pose proof (page_size_bound cp) as Hs.
  apply (change_page ca _ p (Some (set_ref 0 cp)) H); fields_simpl; try done.
  - apply hash_keep; [by apply inv_hash|]. intros i. rewrite E. unfold holds, hashed. naive_solver.
  - apply (lists_pages_change _ _ (priority_list ca)); [apply H|..].
    + apply list.NoDup_app. split; [apply without_nodup, H|]. split; [|apply NoDup_singleton].
      intros q [_ Hq]%without_in. by intros ->%list_elem_of_singleton.
    + intros q Hq. rewrite elem_of_app, without_in, list_elem_of_singleton. tauto.
    + rewrite elem_of_app, list_elem_of_singleton. split; [|by right]. intros _. eexists. by split.
  - apply lists_without; [apply H|]. unfold holds, busy. intros (c & [= <-] & Hc). done.
  - intros c [= <-]. destruct Hp. split; try done. cbn [network set_ref]. rewrite lookup_insert_eq. eauto.
  - intros n. by rewrite (lookup_insert_some _ _ _ _ _ En).
  - intros n cn'. rewrite lookup_insert_Some. intros [[<- <-]|[Hn En']].
    + apply (network_change _ _ cn); rewrite ?E; unfold tally; cbn [value released set_n_referenced]; [done|apply Hok|..].
      * unfold of_network. cbn. lia.
      * unfold in_use_of. rewrite Hr. cbn. rewrite Z.eqb_refl. cbn. rewrite u32_small; lia.
      * intros pg. unfold of_page. cbn. rewrite Z.sub_diag. rewrite (nk_subpages _ _ _ Hok). by rewrite u8_of_u8.
    + apply network_keep; [by apply (ci_network _ H)|..]; intros c; [rewrite E; by intros [= <-]|by intros [= <-]].
  - rewrite E. cbn. lia.
  - rewrite E. cbn [value]. unfold charged. rewrite Hr. cbn. rewrite u64_small by lia. unfold cache_page_size. cbn. lia.
  - rewrite (ci_n_networks _ H). unfold count. rewrite total_insert_change, En. cbn. lia.
  - rewrite (map_size_insert_Some p) by eauto. apply H.
Qed.

Lemma release_zombie ca p cp : cache_inv ca → page_heap ca !! p = Some cp → ref_count cp = 1 → priority cp = CACHE_PRI_ZOMBIE →
  ∃ cn c1, network_heap ca !! network cp = Some cn ∧ delete_page sz p (set_page_heap (<[p := set_ref 0 cp]> (page_heap ca)) ca) = Some c1 ∧
    network_heap c1 = <[network cp := removed (network cp) p cp cn]> (network_heap ca) ∧ page_heap c1 = delete p (page_heap ca) ∧
    memory_used c1 = memory_used ca ∧ memory_limit c1 = memory_limit ca ∧
    cache_inv (set_network_heap (<[network cp := released (removed (network cp) p cp cn)]> (network_heap ca)) c1).
Proof using sz_ok.
  intros H E Hr Hz. pose proof (ci_page _ H _ _ E) as Hp. destruct (pk_network _ _ _ Hp) as [cn En]. exists cn.
  pose proof (ci_network _ H _ _ En) as Hok. pose proof (nk_referenced _ _ _ Hok) as Hnr. pose proof (nk_cached _ _ _ Hok) as Hnc.
  pose proof (in_use_count ca p cp H E ltac:(unfold busy; lia)) as Hcnt.
  destruct (count_delete_bound (of_network (network cp)) _ _ _ E) as [Hc1 Hc2]. unfold of_network at 2 in Hc1. rewrite Z.eqb_refl in Hc1. cbn in Hc1.
  pose proof (ci_pages_few _ H) as Hfew. unfold MAX_BLOCKS in *.
  pose proof (map_size_delete_Some p (page_heap ca) (ex_intro _ cp E)) as Hdel. pose proof (ci_n_pages _ H) as Hnp.
  unfold delete_page, page_at. fields_simpl. rewrite lookup_insert_eq. cbn [mbind option_bind ref_count set_ref Z.ltb Z.compare priority].
  rewrite decide_True by done. cbn [mbind option_bind]. unfold unlink_pri. fields_simpl. rewrite decide_True by (by eapply inv_in_pri).
  cbn [mbind option_bind network set_ref].
  rewrite (remove_page_eq _ (network cp) p (set_ref 0 cp) cn); [|fields_simpl; apply lookup_insert_eq|done|apply Hp]. cbn [mbind option_bind].
  eexists. split; [done|]. split; [reflexivity|]. fields_simpl. split; [done|]. split; [|split; [done|split; [done|]]].
  { apply map_eq. intros q. destruct (decide (q = p)) as [->|Hq]; [by rewrite !lookup_delete_eq|]. by rewrite !lookup_delete_ne, !lookup_insert_ne. }
  assert (delete p (<[p:=set_network 0 (set_ref 0 cp)]> (<[p:=set_ref 0 cp]> (page_heap ca))) = partial_alter (λ _, None) p (page_heap ca)) as Eh.
  { apply map_eq. intros q. destruct (decide (q = p)) as [->|Hq]; [by rewrite lookup_delete_eq, lookup_partial_alter_eq|].
    by rewrite lookup_delete_ne, !lookup_insert_ne, lookup_partial_alter_ne. }
  apply (change_page ca _ p None H); fields_simpl; rewrite ?Eh; try done.
  - apply hash_keep; [by apply inv_hash|]. intros i. rewrite E. unfold holds, hashed. split; [by intros (? & ? & _)|].
    intros (c & [= <-] & [? _]). done.
  - apply lists_without; [apply H|]. by intros (? & ? & _).
  - apply lists_without; [apply H|]. by intros (? & ? & _).
  - intros n. by rewrite (lookup_insert_some _ _ _ _ _ En).
  - intros n cn'. rewrite lookup_insert_Some. intros [[<- <-]|[Hn En']].
    + apply (network_change _ _ cn); rewrite ?E; unfold tally; cbn [value released removed set_n_referenced net_ref_count n_cached_pages n_referenced_pages
        set_stat set_cached pages_stat set_ref pgno]; [done|apply Hok|..].
      * unfold of_network. rewrite Z.eqb_refl. cbn. rewrite u32_small; lia.
      * unfold in_use_of. rewrite Hr, Z.eqb_refl. cbn. rewrite u32_small; lia.
      * intros pg. destruct (decide (pg = pgno cp)) as [->|Hpg].
        -- rewrite lookup_insert_eq. cbn [default n_subpages]. unfold of_page. rewrite !Z.eqb_refl. reflexivity.
        -- rewrite lookup_insert_ne by done. unfold of_page. rewrite (proj2 (Z.eqb_neq (pgno cp) pg)) by done. rewrite andb_false_r.
           rewrite (nk_subpages _ _ _ Hok). cbn. by rewrite u8_of_u8.
    + apply network_keep; [by apply (ci_network _ H)|..]; intros c; [rewrite E; by intros [= <-]|done].
  - rewrite E. cbn. rewrite u32_small; lia.
  - rewrite E. cbn [value]. unfold charged. rewrite Hr. cbn. lia.
  - rewrite (ci_n_networks _ H). unfold count. rewrite total_insert_change, En. cbn. lia.
  - change (Z.of_nat (size (delete p (page_heap ca))) ≤ MAX_BLOCKS). unfold MAX_BLOCKS. lia.
Qed.

Lemma release_effect ca ca' p cp cn : page_heap ca !! p = Some cp → ref_count cp = 1 → network_heap ca !! network cp = Some cn →
  (∃ cn', net_ref_count cn' = net_ref_count cn ∧ network_heap ca' = <[network cp := cn']> (network_heap ca)) →
  (page_heap ca' = <[p := set_ref 0 cp]> (page_heap ca) ∨ page_heap ca' = delete p (page_heap ca)) →
  memory_limit ca' = memory_limit ca → effect ca ca' (λ q, - one p q) none.
Proof.
  intros E Hr En (cn' & Hr' & Eh') Eh Hl.
  assert (∀ q, q ≠ p → page_heap ca' !! q = page_heap ca !! q) as Hq.
  { intros q Hq. destruct Eh as [->| ->]; [by rewrite lookup_insert_ne|by rewrite lookup_delete_ne]. }
  assert (page_refs ca' p = 0) as H0.
  { unfold page_refs. destruct Eh as [->| ->]; [by rewrite lookup_insert_eq|by rewrite lookup_delete_eq]. }
  split; [| | |done].
  - intros q. unfold one. case_decide as Hqp.
    + subst q. rewrite H0. unfold page_refs. rewrite E. cbn. lia.
    + unfold page_refs. rewrite Hq by done. lia.
  - intros n. unfold none, network_refs. rewrite Eh'. destruct (decide (n = network cp)) as [->|Hn].
    + rewrite lookup_insert_eq, En. cbn. lia.
    + rewrite lookup_insert_ne by done. lia.
  - intros q cq Eq _ Hpos. destruct (decide (q = p)) as [->|Hqp]; [lia|]. exists cq. by rewrite Hq.
Qed.

Lemma page_unref_ok ca p cp : cache_inv ca → cache_tidy ca → 0 ≤ memory_limit ca → page_heap ca !! p = Some cp → busy cp →
  ∃ ca', cache_page_unref sz p ca = Some ca' ∧ cache_inv ca' ∧ cache_tidy ca' ∧ effect ca ca' (λ q, - one p q) none.
Proof using sz_ok.
  intros H T Hlim E Hb. pose proof (ci_page _ H _ _ E) as Hp. unfold busy in Hb. pose proof (pk_ref _ _ _ Hp) as Hr.
  destruct (pk_network _ _ _ Hp) as [cn0 En0].
  unfold cache_page_unref, page_at, network_at. rewrite (proj2 (Z.eqb_neq p 0)) by apply Hp. rewrite E. cbn [mbind option_bind]. rewrite En0. cbn [mbind option_bind].
  rewrite (proj2 (Z.eqb_neq (ref_count cp) 0)) by lia. destruct (Z.eqb_spec (ref_count cp) 1) as [H1|H1].
  2:{ unfold update_page, page_at. rewrite E. cbn [mbind option_bind]. eexists. split; [reflexivity|].
      split; [apply update_busy; [done|done|unfold busy; lia|lia]|]. split; [split; apply T|].
      destruct (page_effect ca (set_page_heap (<[p := set_ref (ref_count cp - 1) cp]> (page_heap ca)) ca) p cp (set_ref (ref_count cp - 1) cp) (-1)) as [A1 A2 A3 A4]; done. }
  unfold update_page, page_at. rewrite E. cbn [mbind option_bind].
  set (c0 := set_page_heap (<[p:=set_ref 0 cp]> (page_heap ca)) ca).
  assert (∃ c1 cn', (c1' ← (if decide (priority cp = CACHE_PRI_ZOMBIE) then delete_page sz p c0
      else c ← unlink_pri p c0; Some (set_memory (u64 (memory_used c + cache_page_size sz cp)) (set_lists (priority_list c ++ [p]) (referenced c) c)));
      update_network (network cp) (λ cn, set_n_referenced (u32 (n_referenced_pages cn - 1)) cn) c1') = Some c1 ∧ cache_inv c1 ∧
      network_heap c1 = <[network cp := cn']> (network_heap ca) ∧ net_ref_count cn' = net_ref_count cn0 ∧ memory_limit c1 = memory_limit ca ∧
      (page_heap c1 = <[p := set_ref 0 cp]> (page_heap ca) ∨ page_heap c1 = delete p (page_heap ca)))
    as (c1 & cn' & E1 & H1' & Eh & Hr' & Hl & Ehp).
  { case_decide as Hz.
    - destruct (release_zombie ca p cp H E H1 Hz) as (cn & c1 & En & Ed & Eh1 & Eh2 & Hm & Hl & Hinv). fold c0 in Ed. rewrite Ed. cbn [mbind option_bind].
      rewrite En0 in En. injection En as <-. unfold update_network, network_at. rewrite Eh1, lookup_insert_eq. cbn [mbind option_bind].
      do 2 eexists. split; [reflexivity|]. fields_simpl. rewrite insert_insert_eq. split; [exact Hinv|]. split; [done|]. split; [done|]. split; [done|]. by right.
    - destruct (release_idle ca p cp H E H1 Hz) as (cn & En & Hinv). rewrite En0 in En. injection En as <-.
      unfold unlink_pri, c0. fields_simpl. rewrite decide_True by (by eapply inv_in_pri). cbn [mbind option_bind].
      unfold update_network, network_at. fields_simpl. rewrite En0. cbn [mbind option_bind].
      do 2 eexists. split; [reflexivity|]. split; [exact Hinv|]. fields_simpl. split; [reflexivity|]. split; [done|]. split; [done|]. by left. }
  assert (∀ m, m ≠ network cp → network_tidy c1 m) as Ht.
  { intros m Hm cm. rewrite Eh, lookup_insert_ne by done. apply (ct_zombie _ T m). }
  assert (network_heap c1 !! network cp = Some cn') as En1 by (rewrite Eh; apply lookup_insert_eq).
  destruct (unref_network_ok c1 (network cp) cn' H1') as (c2 & E2 & H2 & T2 & R2); [by rewrite Hl|done|done|].
  exists c2. split; [|split; [done|split; [done|]]].
  - revert E1. unfold c0. destruct (if decide (priority cp = CACHE_PRI_ZOMBIE) then _ else _); cbn [mbind option_bind]; [|done].
    intros ->. cbn [mbind option_bind]. exact E2.
  - apply (effect_reduces ca c1); [done| |done]. eapply release_effect; [done..| |done|done]. eauto.
Qed.

Lemma get_page_ok ca n pg sub mask : cache_inv ca → cache_tidy ca → (∀ p, page_refs ca p < 2 ^ 32 - 1) →
  ∃ ca' r, _vbi_cache_get_page sz n pg sub mask ca = Some (ca', r) ∧ cache_inv ca' ∧ cache_tidy ca' ∧
    effect ca ca' (match r with Some p => one p | None => none end) none ∧
    match r with
    | Some p => ∃ cp, page_heap ca !! p = Some cp ∧ matches n pg sub (if sub =? VBI_ANY_SUBNO then 0 else mask) cp ∧
        page_heap ca' = <[p := set_ref (ref_count cp + 1) cp]> (page_heap ca)
    | None => page_heap ca' = page_heap ca ∧ (valid_pgno pg = true → ∀ p cp, page_heap ca !! p = Some cp →
        ¬ matches n pg sub (if sub =? VBI_ANY_SUBNO then 0 else mask) cp)
    end.
Proof using sz_ok.
  intros H T Hrefs. unfold _vbi_cache_get_page. destruct (valid_pgno pg) eqn:Ev; cbn [negb].
  2:{ exists ca, None. split; [done|]. split; [done|]. split; [done|]. split; [apply effect_refl|done]. }
  assert (0x100 ≤ pg ≤ 0x8FF) as Hpg.
  { unfold valid_pgno in Ev. rewrite negb_true_iff, !orb_false_iff, !Z.ltb_ge in Ev. lia. }
  destruct (page_by_pgno_ok ca n pg sub (if sub =? VBI_ANY_SUBNO then 0 else mask) H Hpg) as (h & r & -> & Hh & Hr). cbn [mbind option_bind].
  pose proof (set_hash_inv ca h H Hh) as H1. pose proof (set_hash_tidy h ca T) as T1. destruct r as [p|].
  - destruct Hr as (cp & E & Hm). destruct (page_ref_ok (set_hash h ca) p cp H1 T1 E) as (c2 & -> & H2 & T2 & F2 & Eh).
    { specialize (Hrefs p). unfold page_refs in Hrefs. by rewrite E in Hrefs. }
    cbn [mbind option_bind]. do 2 eexists. split; [reflexivity|]. split; [done|]. split; [done|]. split; [|exists cp; done].
    destruct F2 as [A1 A2 A3 A4]. by split.
  - do 2 eexists. split; [reflexivity|]. split; [done|]. split; [done|]. split; [apply set_hash_effect|]. split; [done|]. intros _. exact Hr.
Qed.

(** ** Storing pages *)

(** The old version is still in use: it leaves its hash list. *)
Lemma zombify_ok ca p cp : cache_inv ca → cache_tidy ca → page_heap ca !! p = Some cp → busy cp → priority cp ≠ CACHE_PRI_ZOMBIE →
  ∃ ca', (ca ← unlink_hash p ca; update_page p (set_priority CACHE_PRI_ZOMBIE) ca) = Some ca' ∧ cache_inv ca' ∧ cache_tidy ca' ∧
    effect ca ca' none none ∧ page_heap ca' = <[p := set_priority CACHE_PRI_ZOMBIE cp]> (page_heap ca) ∧
    priority_list ca' = priority_list ca ∧ network_heap ca' = network_heap ca ∧ networks ca' = networks ca ∧
    memory_used ca' = memory_used ca.
Proof.
  intros H T E Hb Hz. unfold unlink_hash. rewrite decide_True by (by apply (inv_in_hash ca p cp H E)). cbn [mbind option_bind].
  unfold update_page, page_at. fields_simpl. rewrite E. cbn [mbind option_bind]. eexists. split; [reflexivity|].
  split; [|split; [split; apply T|split; [|done]]].
  - apply (change_page ca _ p (Some (set_priority CACHE_PRI_ZOMBIE cp)) H); fields_simpl; try done.
    + apply hash_without; [by apply inv_hash|]. intros i (c & [= <-] & [Hc _]). done.
    + apply lists_keep; [apply H|]. rewrite E. unfold holds, idle. split; intros (c & [= <-] & Hc); eauto.
    + apply lists_keep; [apply H|]. rewrite E. unfold holds, busy. split; intros (c & [= <-] & Hc); eauto.
    + intros c [= <-]. destruct (ci_page _ H _ _ E). by split.
    + intros n cn En. apply (network_change _ n cn); rewrite ?E; unfold tally; cbn [value].
      * by apply (ci_network _ H).
      * apply (ci_network _ H _ _ En).
      * unfold of_network. cbn. lia.
      * unfold in_use_of. cbn. lia.
      * intros pg. unfold of_page. cbn. rewrite Z.sub_diag. rewrite (nk_subpages _ _ _ (ci_network _ H _ _ En)). by rewrite u8_of_u8.
    + rewrite E. cbn. lia.
    + rewrite E. cbn [value]. unfold charged, cache_page_size. cbn. lia.
    + apply H.
    + rewrite (map_size_insert_Some p) by eauto. apply H.
  - set (ca' := set_page_heap _ _). destruct (page_effect ca ca' p cp (set_priority CACHE_PRI_ZOMBIE cp) 0) as [A1 A2 A3 A4]; try done.
    cbn. lia.
Qed.

Lemma revive_eq n cn ca : network_heap ca !! n = Some cn → 0 ≤ n_cached_networks ca + Z.b2z (zombie cn) < 2 ^ 32 →
  revive n ca = Some (set_network_heap (<[n := set_zombie false cn]> (network_heap ca)) (set_networks (networks ca) (n_cached_networks ca + Z.b2z (zombie cn)) ca)).
Proof.
  intros E Hn. unfold revive, network_at. rewrite E. cbn [mbind option_bind]. destruct (zombie cn) eqn:Ez; cbn [Z.b2z] in *.
  - unfold update_network, network_at. fields_simpl. rewrite E. cbn [mbind option_bind]. by rewrite u32_small.
  - rewrite Z.add_0_r, insert_id by (rewrite E; destruct cn; cbn in *; by subst). by destruct ca.
Qed.

Lemma live_networks ca n cn : cache_inv ca → network_heap ca !! n = Some cn → 0 ≤ n_cached_networks ca + Z.b2z (zombie cn) < 2 ^ 32.
Proof.
  intros H E. destruct (count_delete_bound (λ cn, negb (zombie cn)) _ _ _ E) as [H1 H2]. rewrite (ci_n_networks _ H), H1.
  pose proof (ci_networks_few _ H) as Hf. unfold MAX_BLOCKS in Hf. destruct (zombie cn); cbn; lia.
Qed.

Definition stored (n p size sub : Z) (new : cache_page) : cache_page :=
  CachePage n 1 (priority_of (pgno new) sub (function (body new))) (pgno new) sub (body new) size.

Lemma priority_of_live pg sub f : priority_of pg sub f ≠ CACHE_PRI_ZOMBIE.
Proof. unfold priority_of. by repeat case_match. Qed.

Lemma put_block_ok n p sub new ca ca1 cn :
  cache_inv ca → cache_tidy ca → p ≠ 0 → page_heap ca !! p = None → Z.of_nat (size (page_heap ca)) < MAX_BLOCKS →
  network_heap ca !! n = Some cn → 0x100 ≤ pgno new ≤ 0x8FF →
  (∃ m, ca1 = set_page_heap m (set_n_pages (ca_n_cached_pages ca + 1) ca) ∧ ∀ q, q ≠ p → m !! q = page_heap ca !! q) →
  ∃ ca', put_block sz n p (cache_page_size sz new) sub new ca1 = Some (ca', Some p) ∧ cache_inv ca' ∧ cache_tidy ca' ∧
    effect ca ca' (one p) none ∧ page_heap ca' = <[p := stored n p (cache_page_size sz new) sub new]> (page_heap ca) ∧
    ∃ l, rd (hash_lists ca') (hash (pgno new)) = Some (p :: l).
Proof using sz_ok.
  intros H T Hp0 Hp Hfew En Hpg (m & -> & Hm). pose proof (ci_network _ H _ _ En) as Hok. unfold MAX_BLOCKS in Hfew.
  set (cp := stored n p (cache_page_size sz new) sub new).
  assert (p ∉ concat (hash_lists ca)) as Hnot.
  { intros (l & Hl & Hin)%list_elem_of_In%in_concat. apply list_elem_of_In, list_elem_of_lookup in Hl as [i Hi].
    apply list_elem_of_In, (ci_hash _ H i l Hi) in Hin as (c & Ec & _). congruence. }
  destruct (hash_add (page_heap ca) (hash_lists ca) p cp (inv_hash ca H) Hnot) as (l & h' & E1 & E2 & Hh'); [apply priority_of_live|done|].
  unfold put_block, add_hash_head. fields_simpl. cbn [cp stored pgno] in E1, E2. rewrite E1. cbn [mbind option_bind]. rewrite E2. cbn [mbind option_bind].
  rewrite Z.ltb_irrefl. unfold update_network at 1, network_at at 1. fields_simpl. rewrite En. cbn [mbind option_bind].
  unfold cache_network_add_page. pose proof (live_networks ca n cn H En) as Hlive.
  set (cn1 := set_n_referenced (u32 (n_referenced_pages cn + 1)) cn).
  erewrite (revive_eq n cn1); [|fields_simpl; apply lookup_insert_eq|fields_simpl; exact Hlive].
  cbn [mbind option_bind]. unfold update_page, page_at. fields_simpl. rewrite lookup_insert_eq. cbn [mbind option_bind].
  unfold network_at. fields_simpl. rewrite lookup_insert_eq. cbn [mbind option_bind pgno subno].
  unfold cache_network_page_stat. rewrite (proj2 (Z.leb_le 0x100 _)), (proj2 (Z.leb_le _ 0x8FF)) by lia. cbn [andb mbind option_bind].
  unfold update_network, network_at. fields_simpl. rewrite lookup_insert_eq. cbn [mbind option_bind]. rewrite !insert_insert_eq.
  change (set_network n _) with cp.
  eexists. split; [reflexivity|]. fields_simpl.
  assert (<[p := cp]> m = partial_alter (λ _, Some cp) p (page_heap ca)) as Eh.
  { apply map_eq. intros q. destruct (decide (q = p)) as [->|Hq]; [by rewrite lookup_insert_eq, lookup_partial_alter_eq|].
    by rewrite lookup_insert_ne, lookup_partial_alter_ne, Hm. }
  pose proof (count_bound (of_network n) (page_heap ca)) as Hc1. rewrite <-(nk_cached _ _ _ Hok) in Hc1.
  pose proof (count_bound (in_use_of n) (page_heap ca)) as Hc2. rewrite <-(nk_referenced _ _ _ Hok) in Hc2.
  split; [|split; [|split; [|split]]].
  - apply (change_page ca _ p (Some cp) H); fields_simpl; rewrite ?Eh; try done.
    + apply lists_keep; [apply H|]. rewrite Hp. unfold holds, idle. split; intros (c & [= <-] & Hc). done.
    + apply (lists_add _ _ (referenced ca) (referenced ca) []); [apply H|by rewrite app_nil_r| |done].
      intros (c & Ec & _)%(ci_referenced _ H). congruence.
    + intros c [= <-]. split; try done.
      cbn [cp stored network]. rewrite lookup_insert_eq. eauto.
    + intros k. by rewrite (lookup_insert_some _ _ _ _ _ En).
    + intros k cn'. rewrite lookup_insert_Some. intros [[<- <-]|[Hn En']].
      * apply (network_change _ _ cn); rewrite ?Hp; unfold tally; cbn [value cn1 set_n_referenced set_zombie net_ref_count n_cached_pages n_referenced_pages
          set_stat set_cached pages_stat]; [done|apply Hok|..].
        -- unfold of_network. cbn. rewrite Z.eqb_refl. cbn. rewrite u32_small by lia. lia.
        -- unfold in_use_of. cbn. rewrite Z.eqb_refl. cbn. rewrite u32_small by lia. lia.
        -- intros pg. destruct (decide (pg = pgno new)) as [->|Hpg'].
           ++ rewrite lookup_insert_eq. cbn [default n_subpages stat_add]. unfold of_page. cbn. rewrite !Z.eqb_refl. reflexivity.
           ++ rewrite lookup_insert_ne by done. unfold of_page. cbn [cp stored pgno]. rewrite (proj2 (Z.eqb_neq (pgno new) pg)) by done. rewrite andb_false_r.
              rewrite (nk_subpages _ _ _ Hok). cbn. by rewrite u8_of_u8.
      * apply network_keep; [by apply (ci_network _ H)|..]; intros c; [by rewrite Hp|]. intros [= <-]. done.
    + rewrite Hp. cbn. lia.
    + rewrite Hp. cbn. unfold charged. cbn. lia.
    + rewrite (ci_n_networks _ H). unfold count. rewrite total_insert_change, En. cbn. destruct (zombie cn); cbn; lia.
    + change (Z.of_nat (size (<[p := cp]> (page_heap ca))) ≤ MAX_BLOCKS). rewrite map_size_insert_None by done. unfold MAX_BLOCKS. lia.
  - split; fields_simpl; [apply T|]. intros k cn'. rewrite lookup_insert_Some. intros [[<- <-]|[Hn En']]; [done|by apply (ct_zombie _ T k)].
  - split; fields_simpl; try done.
    + intros q. unfold page_refs, one. fields_simpl. rewrite Eh. case_decide as Hq.
      * subst q. rewrite lookup_partial_alter_eq, Hp. done.
      * rewrite lookup_partial_alter_ne by done. lia.
    + intros k. unfold none, network_refs. fields_simpl. destruct (decide (k = n)) as [->|Hk].
      * rewrite lookup_insert_eq, En. cbn. lia.
      * rewrite lookup_insert_ne by done. lia.
    + intros q cq Eq _ _. exists cq. split; [|done]. rewrite Eh, lookup_partial_alter_ne; [done|]. intros <-. congruence.
  - exact Eh.
  - exists l. unfold wr in E2. case_decide as Hr; [|done]. injection E2 as <-. unfold rd. rewrite decide_True by lia.
    apply list_lookup_insert_eq. lia.
Qed.

Lemma for_all_until_inv {B A} (body : B → A → option (A * bool)) (I : A → Prop) l :
  (∀ x a a' b, x ∈ l → I a → body x a = Some (a', b) → I a') → ∀ a a' b, I a → for_all_until body l a = Some (a', b) → I a'.
Proof.
  induction l as [|x l IH]; intros Hb a a' b Ha; cbn [for_all_until]; [by intros [= <- <-]|].
  destruct (body x a) as [[a1 b1]|] eqn:E; cbn [mbind option_bind]; [|done].
  assert (I a1) as H1 by (apply (Hb x a a1 b1); [left|done|done]). destruct b1; [by intros [= <- <-]|].
  apply IH; [|done]. intros y c c' b' Hy. apply Hb. by right.
Qed.

(** The candidates are pages that are not in use. *)
Definition row_ok (ca : vbi_cache) (d : death_row) : Prop := ∀ p, p ∈ row d → p ∈ priority_list ca.

Lemma find_row_ok needed old ca d d' b : row_ok ca d → find_row sz needed old ca d = Some (d', b) → row_ok ca d'.
Proof.
  intros Hd. unfold find_row. case_match; [by intros [= <- _]|]. apply for_all_until_inv; [|done].
  intros [unused pri] a a' b' _ Ha. unfold row_loop. apply for_all_until_inv; [|done]. clear a a' b' Ha.
  intros p a a' b' Hp Ha. case_match; [by intros [= <- _]|]. destruct (page_at ca p) as [cp|]; cbn [mbind option_bind]; [|done].
  case_match; [by intros [= <- _]|]. destruct (if unused then _ else _) as [u|]; cbn [mbind option_bind]; [|done].
  case_match; [by intros [= <- _]|]. case_match; [|done]. intros [= <- _] q Hq. cbn [row] in Hq.
  apply elem_of_app in Hq as [Hq| ->%list_elem_of_singleton]; [by apply Ha|done].
Qed.

(** What a caller of [_vbi_cache_put_page] needs: no page is a candidate twice, and a
    single candidate that leaves no spare memory has the size of the new page. *)
Definition put_fits (needed : Z) (ca : vbi_cache) (d : death_row) : Prop :=
  NoDup (row d) ∧ ∀ p, row d = [p] → memory_available d = needed → ∃ cp, page_heap ca !! p = Some cp ∧ cache_page_size sz cp = needed.

(** Everything that is cached but the page at [p] was cached before. *)
Definition only_adds (p : option Z) (ca ca' : vbi_cache) : Prop :=
  ∀ q cq', Some q ≠ p → page_heap ca' !! q = Some cq' → ∃ cq, page_heap ca !! q = Some cq ∧ same_page cq cq'.

(** A new block, and the candidates deleted. *)
Lemma new_block_malloc ca d : cache_inv ca → row_ok ca d → NoDup (row d) → Z.of_nat (size (page_heap ca)) < MAX_BLOCKS →
  ∃ D, for_all (delete_page sz) (row d) ca = Some D ∧ cache_inv D ∧ shrinks ca D ∧
    set_n_pages (u32 (ca_n_cached_pages D + 1)) D = set_page_heap (page_heap D) (set_n_pages (ca_n_cached_pages D + 1) D).
Proof using sz_ok.
  intros H Hrow Hnd Hfew. destruct (for_all_deletes (delete_page sz) (row d) ca H Hnd Hrow) as (D & E & HD & Hsh).
  { intros p c Hc Hp Hin Hshc. destruct (idle_listed c p Hc Hin) as (cp & Ep & Hi).
    destruct (delete_idle_page c p cp Hc Ep Hi) as (c' & E' & _). exists c'. split; [done|by right]. }
  exists D. split; [done|]. split; [done|]. split; [done|]. pose proof (ci_n_pages _ HD) as Hn. pose proof (ci_pages_few _ HD) as Hf.
  assert (size (page_heap D) ≤ size (page_heap ca))%nat.
  { rewrite <-!(size_dom (D := gset Z)). apply subseteq_size, subseteq_dom, map_subseteq_spec. apply (sh_pages _ _ Hsh). }
  unfold MAX_BLOCKS in *. by rewrite u32_small by lia.
Qed.

(** The block of a page that is replaced is as good as one that was freed and
    allocated again. *)
Lemma new_block_reuse ca p cp needed : cache_inv ca → page_heap ca !! p = Some cp → idle cp → cache_page_size sz cp = needed →
  ∃ D c1 m, cache_inv D ∧ shrinks ca D ∧ page_heap D = delete p (page_heap ca) ∧
    (ca1 ← unlink_pri p ca; ca1 ← unlink_hash p ca1; cp ← page_at ca1 p; ca1 ← cache_network_remove_page (network cp) p ca1;
     Some (set_memory (u64 (memory_used ca1 - needed)) ca1, Some (p, allocated cp))) = Some (c1, Some (p, needed)) ∧
    c1 = set_page_heap m (set_n_pages (ca_n_cached_pages D + 1) D) ∧ ∀ q, q ≠ p → m !! q = page_heap D !! q.
Proof using sz_ok.
  intros H E Hi Hsize. destruct (delete_idle_page ca p cp H E Hi) as (D & ED & HD & Hsh & Hh & _). exists D.
  pose proof (ci_page _ H _ _ E) as Hp. destruct (pk_network _ _ _ Hp) as [cn En].
  assert (priority cp ≠ CACHE_PRI_ZOMBIE) as Hz. { intros Hz. pose proof (pk_zombie _ _ _ Hp Hz). unfold idle in Hi. lia. }
  assert (allocated cp = needed) as Ha by (rewrite <-Hsize; apply Hp).
  revert ED. unfold delete_page, page_at. rewrite E. cbn [mbind option_bind]. unfold idle in Hi. rewrite Hi. cbn [Z.ltb Z.compare].
  rewrite decide_False by done. unfold unlink_hash. fields_simpl. rewrite decide_True by (by apply (inv_in_hash ca p cp H E)). cbn [mbind option_bind].
  unfold unlink_pri. fields_simpl. rewrite decide_True by (by eapply inv_in_pri). cbn [mbind option_bind].
  rewrite (remove_page_eq _ (network cp) p cp cn); [|done|done|apply Hp]. cbn [mbind option_bind]. intros [= <-]. fields_simpl.
  repeat (rewrite decide_True by first [by apply (inv_in_hash ca p cp H E)|by eapply inv_in_pri]; cbn [mbind option_bind]; fields_simpl).
  rewrite E. cbn [mbind option_bind].
  rewrite (remove_page_eq _ (network cp) p cp cn); [|done|done|apply Hp]. cbn [mbind option_bind]. rewrite Ha.
  eexists. exists (<[p := set_network 0 cp]> (page_heap ca)). split; [exact HD|]. split; [exact Hsh|]. split; [exact Hh|]. split; [reflexivity|].
  assert (u32 (ca_n_cached_pages ca - 1) + 1 = ca_n_cached_pages ca) as Hn.
  { pose proof (ci_n_pages _ H) as Hn. pose proof (ci_pages_few _ H) as Hf. unfold MAX_BLOCKS in Hf.
    assert (size (page_heap ca) ≠ 0)%nat by (apply map_size_ne_0_lookup_2 with p; eauto). rewrite u32_small by lia. lia. }
  fields_simpl. split.
  - rewrite Hsize, Hn. reflexivity.
  - intros q Hq. by rewrite lookup_insert_ne, lookup_delete_ne, lookup_insert_ne.
Qed.

Lemma only_adds_refl ca ca' : (∀ q cq', page_heap ca' !! q = Some cq' → ∃ cq, page_heap ca !! q = Some cq ∧ same_page cq cq') → only_adds None ca ca'.
Proof. intros H q cq' _. apply H. Qed.

(** The first part of storing a page. *)
Lemma candidates_ok ca n new c1 sub d enough : cache_inv ca → cache_tidy ca → 0x100 ≤ pgno new ≤ 0x8FF →
  put_candidates sz n new ca = Some (c1, sub, d, enough) →
  cache_inv c1 ∧ cache_tidy c1 ∧ effect ca c1 none none ∧ only_adds None ca c1 ∧ row_ok c1 d ∧
  network_heap c1 = network_heap ca ∧ size (page_heap c1) = size (page_heap ca) ∧ ∀ q, page_heap ca !! q = None → page_heap c1 !! q = None.
Proof.
  intros H T Hpg. unfold put_candidates. destruct (network_at ca n) as [cn|]; cbn [mbind option_bind]; [|done].
  destruct (if vbi_is_bcd (pgno new) && negb (subno new =? 0) then _ else _) as [ps|]; cbn [mbind option_bind]; [|done].
  destruct (version_of (page_type ps) (pgno new) (subno new)) as [sub' mask].
  destruct (page_by_pgno_ok ca n (pgno new) (sub' .& mask) mask H Hpg) as (h & r & -> & Hh & Hr). cbn [mbind option_bind].
  pose proof (set_hash_inv ca h H Hh) as H1. pose proof (set_hash_tidy h ca T) as T1. pose proof (set_hash_effect h ca) as F1.
  unfold old_version. destruct r as [p|]; cbn [mbind option_bind].
  - destruct Hr as (cp & E & (Hz & _)). unfold page_at. fields_simpl. rewrite E. cbn [mbind option_bind].
    destruct (Z.ltb_spec 0 (ref_count cp)) as [Hb|Hb].
    + destruct (zombify_ok (set_hash h ca) p cp H1 T1 E Hb Hz) as (c2 & E2 & H2 & T2 & F2 & Eh & Ep & En & _).
      destruct (unlink_hash p (set_hash h ca)) as [c3|]; cbn [mbind option_bind] in *; [|done]. rewrite E2. cbn [mbind option_bind].
      destruct (find_row _ _ _ _ _) as [[d' b]|] eqn:Ef; cbn [mbind option_bind]; [|done]. intros [= <- <- <- <-].
      split; [done|]. split; [done|]. split; [by destruct F2; split|]. split; [|split; [|split; [done|split]]].
      * apply only_adds_refl. intros q cq'. rewrite Eh. fields_simpl. rewrite lookup_insert_Some.
        intros [[<- <-]|[Hq Eq]]; [by exists cp|by exists cq'].
      * eapply find_row_ok; [|exact Ef]. by intros q Hq%elem_of_nil.
      * rewrite Eh. fields_simpl. apply map_size_insert_Some. eauto.
      * intros q Eq. rewrite Eh. fields_simpl. rewrite lookup_insert_ne; [done|]. intros <-. congruence.
    + cbn [mbind option_bind]. destruct (find_row _ _ _ _ _) as [[d' b]|] eqn:Ef; cbn [mbind option_bind]; [|done]. intros [= <- <- <- <-].
      split; [done|]. split; [done|]. split; [done|]. split; [|split; [|done]].
      * apply only_adds_refl. intros q cq' Eq. by exists cq'.
      * eapply find_row_ok; [|exact Ef]. intros q Hq. cbn [row] in Hq. apply list_elem_of_singleton in Hq as ->. fields_simpl.
        apply (lists_pages_in _ _ _ _ cp (ci_priority _ H) E). pose proof (pk_ref _ _ _ (ci_page _ H _ _ E)). unfold idle. lia.
  - cbn [mbind option_bind]. destruct (find_row _ _ _ _ _) as [[d' b]|] eqn:Ef; cbn [mbind option_bind]; [|done]. intros [= <- <- <- <-].
    split; [done|]. split; [done|]. split; [done|]. split; [|split; [|done]].
    * apply only_adds_refl. intros q cq' Eq. by exists cq'.
    * eapply find_row_ok; [|exact Ef]. by intros q Hq%elem_of_nil.
Qed.

Lemma effect_trans0 ca c1 c2 dp : cache_inv ca → effect ca c1 none none → effect c1 c2 dp none → effect ca c2 dp none.
Proof.
  intros H [A1 A2 A3 A4] [B1 B2 B3 B4]. unfold none in *. split; [| | |congruence].
  - intros q. rewrite B1, A1. lia.
  - intros k. rewrite B2, A2. lia.
  - intros q cp E Hb Hr. assert (page_refs c1 q = page_refs ca q) as E1 by (rewrite A1; lia).
    assert (0 < page_refs c1 q) as Hp by (rewrite E1; unfold page_refs; by rewrite E).
    destruct (A3 q cp E Hb Hp) as (cp1 & Ec1 & S1). unfold page_refs in Hp. rewrite Ec1 in Hp. destruct (B3 q cp1 Ec1 Hp Hr) as (cp2 & Ec2 & S2).
    exists cp2. split; [done|]. unfold same_page in *. naive_solver congruence.
Qed.

Lemma put_page_ok ca n new malloc cn : cache_inv ca → cache_tidy ca → network_heap ca !! n = Some cn → 0x100 ≤ pgno new ≤ 0x8FF →
  (∀ q, malloc = Some q → fresh_block ca q) →
  (pgno new .& 0xFF ≠ 0xFF → ∃ c1 sub d enough, put_candidates sz n new ca = Some (c1, sub, d, enough) ∧
    (enough = true → put_fits (cache_page_size sz new) c1 d)) →
  ∃ ca' r, _vbi_cache_put_page sz malloc n new ca = Some (ca', r) ∧ cache_inv ca' ∧ cache_tidy ca' ∧
    effect ca ca' (match r with Some p => one p | None => none end) none ∧ only_adds r ca ca' ∧
    ∀ p, r = Some p → page_refs ca p = 0 ∧ ∃ sub c1 d enough, put_candidates sz n new ca = Some (c1, sub, d, enough) ∧
      page_heap ca' !! p = Some (stored n p (cache_page_size sz new) sub new) ∧
        ∃ l, rd (hash_lists ca') (hash (pgno new)) = Some (p :: l).
Proof using sz_ok.
  intros H T En Hpg Hm Hput. unfold _vbi_cache_put_page. destruct (Z.eqb_spec (pgno new .& 0xFF) 0xFF) as [Hff|Hff].
  { exists ca, None. split; [done|]. split; [done|]. split; [done|]. split; [apply effect_refl|]. split; [|done]. intros q cq' _ Eq. by exists cq'. }
  destruct (Hput Hff) as (c1 & sub & d & enough & Ec & Hfits). rewrite Ec. cbn [mbind option_bind].
  destruct (candidates_ok _ _ _ _ _ _ _ H T Hpg Ec) as (H1 & T1 & F1 & A1 & Hrow & En1 & Hsize & Hnone).
  destruct enough; cbn [negb].
  2:{ exists c1, None. split; [done|]. split; [done|]. split; [done|]. split; [done|]. split; [done|done]. }
  destruct (Hfits eq_refl) as [Hnd Hexact]. rewrite <-En1 in En.
  assert (∀ D c2 p m, cache_inv D → shrinks c1 D → p ≠ 0 → page_heap D !! p = None → Z.of_nat (size (page_heap D)) < MAX_BLOCKS → page_refs ca p = 0 →
    c2 = set_page_heap m (set_n_pages (ca_n_cached_pages D + 1) D) → (∀ q, q ≠ p → m !! q = page_heap D !! q) →
    ∃ ca' r, put_block sz n p (cache_page_size sz new) sub new c2 = Some (ca', r) ∧ cache_inv ca' ∧ cache_tidy ca' ∧
      effect ca ca' (match r with Some p => one p | None => none end) none ∧ only_adds r ca ca' ∧
      ∀ p, r = Some p → page_refs ca p = 0 ∧ ∃ sub c1 d enough, put_candidates sz n new ca = Some (c1, sub, d, enough) ∧
        page_heap ca' !! p = Some (stored n p (cache_page_size sz new) sub new) ∧
        ∃ l, rd (hash_lists ca') (hash (pgno new)) = Some (p :: l)) as Hstore.
  { intros D c2 p m HD Hsh Hp0 Hp Hfew Href -> Hmq. destruct (shrinks_network _ _ _ _ Hsh En) as (cn' & En' & _).
    destruct (put_block_ok n p sub new D (set_page_heap m (set_n_pages (ca_n_cached_pages D + 1) D)) cn' HD) as (ca' & E' & H' & T' & F' & Eh' & Hl');
      try done; [by apply (shrinks_tidy c1)|by exists m|].
    exists ca', (Some p). split; [done|]. split; [done|]. split; [done|]. split; [|split].
    - apply (effect_trans0 ca c1); [done|done|]. apply (effect_trans0 c1 D); [done| |done].
      apply (effect_reduces c1 c1); [done|apply effect_refl|by apply shrinks_reduces].
    - intros q cq' Hq Eq. rewrite Eh', lookup_insert_ne in Eq by (by intros ->). apply (sh_pages _ _ Hsh) in Eq. by apply (A1 q cq').
    - intros p' [= <-]. split; [done|]. exists sub, c1, d, true. split; [done|]. split; [rewrite Eh'; apply lookup_insert_eq|done]. }
  assert (∀ q, malloc = Some q → q ≠ 0 ∧ page_heap ca !! q = None ∧ Z.of_nat (size (page_heap c1)) < MAX_BLOCKS) as Hm'.
  { intros q Eq. destruct (Hm q Eq) as (A & B & _ & C & _). rewrite Hsize. done. }
  assert (∃ ca' r, ('(ca, block) ← allocate_block sz malloc (cache_page_size sz new) d c1;
      match block with None => Some (ca, None) | Some (p, size) => put_block sz n p size sub new ca end) = Some (ca', r) ∧
      cache_inv ca' ∧ cache_tidy ca' ∧ effect ca ca' (match r with Some p => one p | None => none end) none ∧ only_adds r ca ca' ∧
      ∀ p, r = Some p → page_refs ca p = 0 ∧ ∃ sub c1 d enough, put_candidates sz n new ca = Some (c1, sub, d, enough) ∧
        page_heap ca' !! p = Some (stored n p (cache_page_size sz new) sub new) ∧
        ∃ l, rd (hash_lists ca') (hash (pgno new)) = Some (p :: l)) as Hmalloc.
  { unfold allocate_block. destruct malloc as [q|]; cbn [mbind option_bind].
    2:{ exists c1, None. split; [done|]. split; [done|]. split; [done|]. split; [done|]. split; [done|done]. }
    destruct (Hm' q eq_refl) as (Hq0 & Hq & Hfew). destruct (new_block_malloc c1 d H1 Hrow Hnd Hfew) as (D & -> & HD & Hsh & ED).
    cbn [mbind option_bind]. rewrite ED. apply (Hstore D _ q (page_heap D)); try done.
    - destruct (page_heap D !! q) as [cq|] eqn:Eq; [|done]. apply (sh_pages _ _ Hsh) in Eq. by rewrite Hnone in Eq.
    - rewrite <-!(size_dom (D := gset Z)) in *. assert (dom (page_heap D) ⊆ dom (page_heap c1)) as Hsub%subseteq_size; [|lia].
      apply subseteq_dom, map_subseteq_spec. apply (sh_pages _ _ Hsh).
    - unfold page_refs. by rewrite Hq. }
  rewrite Ec in Hstore, Hmalloc. unfold new_block. destruct (row d) as [|p [|p2 l]] eqn:Erow; [exact Hmalloc| |exact Hmalloc].
  destruct (Z.eqb_spec (memory_available d) (cache_page_size sz new)) as [Ea|Ea]; [|exact Hmalloc]. clear Hmalloc.
  destruct (Hexact p eq_refl Ea) as (cp & Ep & Hs). destruct (idle_listed c1 p H1) as (cp' & Ep' & Hi); [by apply Hrow; rewrite Erow; left|].
  rewrite Ep in Ep'. injection Ep' as <-.
  destruct (new_block_reuse c1 p cp _ H1 Ep Hi Hs) as (D & c2 & m & HD & Hsh & Eh & -> & Ec2 & Hmq). cbn [mbind option_bind].
  apply (Hstore D c2 p m); try done.
  - apply (ci_page _ H1 _ _ Ep).
  - rewrite Eh. apply lookup_delete_eq.
  - rewrite Eh, map_size_delete_Some by eauto. pose proof (ci_pages_few _ H1). assert (size (page_heap c1) ≠ 0)%nat by (apply map_size_ne_0_lookup_2 with p; eauto). lia.
  - pose proof (ef_pages _ _ _ _ F1 p) as F. unfold none in F. unfold page_refs in F at 1. rewrite Ep in F. cbn in F. unfold idle in Hi. lia.
Qed.
End invariant.
