(* ===== verification/CacheClient.v ===== *)
(** Clients of the page cache: what holds for any sequence of calls by clients that use
    only what they hold. *)
From stdpp Require Import gmap.
From S2P Require Import Prelude Bcd Cache CacheInv.

(** What the clients hold: pages, as they were when obtained, and networks. *)
Record client := Client { held_pages : list (Z * cache_page); held_networks : list Z }.

(** The calls of a client; [Set_page_type] is the decoder's write of the page statistics. *)
Inductive call :=
  | Add_network (nk : option Z) | Get_network (nk : Z) | Ref_network (n : Z) | Unref_network (n : Z)
  | Put_page (n : Z) (new : cache_page) | Get_page (n pg sub subno_mask : Z) | Ref_page (p : Z) | Unref_page (p : Z)
  | Set_page_type (n pg page_type : Z).

Fixpoint drop_page (p : Z) (l : list (Z * cache_page)) : list (Z * cache_page) :=
  match l with
  | [] => []
  | x :: l => if x.1 =? p then l else x :: drop_page p l
  end.
Fixpoint drop_network (n : Z) (l : list Z) : list Z :=
  match l with
  | [] => []
  | m :: l => if m =? n then l else m :: drop_network n l
  end.

Section client.
(** [malloc] is what the C library returns for the state of the memory, [None] for
    NULL. *)
Context (sz : sizes) (malloc : vbi_cache → option Z).

Definition hold_page (p : option Z) (ca : vbi_cache) (k : client) : option (vbi_cache * client) :=
  match p with
  | None => Some (ca, k)
  | Some p => cp ← page_at ca p; Some (ca, Client ((p, cp) :: held_pages k) (held_networks k))
  end.
Definition hold_network (n : option Z) (ca : vbi_cache) (k : client) : vbi_cache * client :=
  match n with
  | None => (ca, k)
  | Some n => (ca, Client (held_pages k) (n :: held_networks k))
  end.

Definition set_page_type (pg t : Z) (cn : cache_network) : cache_network :=
  let ps := default no_stat (pages_stat cn !! pg) in
  set_stat pg (PageStat t (n_subpages ps) (max_subpages ps) (subno_min ps) (subno_max ps)) cn.

Definition step (ca : vbi_cache) (k : client) (c : call) : option (vbi_cache * client) :=
  match c with
  | Add_network nk => '(ca, n) ← _vbi_cache_add_network sz (malloc ca) nk ca; Some (hold_network n ca k)
  | Get_network nk => '(ca, n) ← _vbi_cache_get_network nk ca; Some (hold_network n ca k)
  | Ref_network n => ca ← cache_network_ref n ca; Some (hold_network (Some n) ca k)
  | Unref_network n => ca ← cache_network_unref sz n ca; Some (ca, Client (held_pages k) (drop_network n (held_networks k)))
  | Put_page n new => '(ca, p) ← _vbi_cache_put_page sz (malloc ca) n new ca; hold_page p ca k
  | Get_page n pg sub mask => '(ca, p) ← _vbi_cache_get_page sz n pg sub mask ca; hold_page p ca k
  | Ref_page p => ca ← cache_page_ref sz p ca; hold_page (Some p) ca k
  | Unref_page p => ca ← cache_page_unref sz p ca; Some (ca, Client (drop_page p (held_pages k)) (held_networks k))
  | Set_page_type n pg t => ca ← update_network n (set_page_type pg t) ca; Some (ca, k)
  end.

Fixpoint run (ca : vbi_cache) (k : client) (cs : list call) : option (vbi_cache * client) :=
  match cs with
  | [] => Some (ca, k)
  | c :: cs => '(ca, k) ← step ca k c; run ca k cs
  end.

(** ** The contract *)

Definition holds_page (k : client) (p : Z) : bool := existsb (λ x, x.1 =? p) (held_pages k).
Definition holds_network (k : client) (n : Z) : bool := existsb (λ m, m =? n) (held_networks k).

(** The replacement works: see the lemmas below for what happens otherwise. *)
Definition replaces_well (needed : Z) (ca : vbi_cache) (d : death_row) : bool :=
  bool_decide (NoDup (row d)) &&
  match row d with
  | [p] => negb (memory_available d =? needed) ||
      match page_heap ca !! p with Some cp => cache_page_size sz cp =? needed | None => false end
  | _ => true
  end.

Definition put_allowed (ca : vbi_cache) (n : Z) (new : cache_page) : bool :=
  (0x100 <=? pgno new) && (pgno new <=? 0x8FF) &&
  ((pgno new .& 0xFF =? 0xFF) ||
   match put_candidates sz n new ca with
   | Some (ca, _, d, enough) => negb enough || replaces_well (cache_page_size sz new) ca d
   | None => false (* more than twenty candidates *)
   end).

(** Fewer references than an [unsigned int] can count. *)
Definition few (k : client) : bool :=
  (Z.of_nat (length (held_pages k)) <? 2 ^ 32 - 1) && (Z.of_nat (length (held_networks k)) <? 2 ^ 32 - 1).

Definition allowed (ca : vbi_cache) (k : client) (c : call) : bool :=
  few k &&
  match c with
  | Add_network _ | Get_network _ => true
  | Ref_network n | Unref_network n => holds_network k n
  | Put_page n new => holds_network k n && put_allowed ca n new
  | Get_page n pg sub mask => holds_network k n
  | Ref_page p | Unref_page p => holds_page k p
  | Set_page_type n pg t => holds_network k n
  end.

Fixpoint all_allowed (ca : vbi_cache) (k : client) (cs : list call) : bool :=
  match cs with
  | [] => true
  | c :: cs => allowed ca k c && match step ca k c with Some (ca, k) => all_allowed ca k cs | None => true end
  end.

(** ** What always holds *)

Definition pages_held (k : client) (p : Z) : Z := Z.of_nat (count_occ Z.eq_dec (map fst (held_pages k)) p).
Definition networks_held (k : client) (n : Z) : Z := Z.of_nat (count_occ Z.eq_dec (held_networks k) n).

Record consistent (ca : vbi_cache) (k : client) : Prop := {
  cs_inv : cache_inv sz ca;
  cs_tidy : cache_tidy ca;
  cs_limit : 0 ≤ memory_limit ca;
  cs_pages : ∀ p, page_refs ca p = pages_held k p;
  cs_networks : ∀ n, network_refs ca n = networks_held k n;
  cs_content : ∀ p cp, (p, cp) ∈ held_pages k → ∃ cp', page_heap ca !! p = Some cp' ∧ same_page cp cp'
}.

Lemma new_consistent : consistent vbi_cache_new (Client [] []).
Proof.
  assert (∀ i l, hash_lists vbi_cache_new !! i = Some l → l = []) as Hh.
  { intros i l Hl. cbn in Hl. apply list_elem_of_lookup_2, list_elem_of_In, repeat_spec in Hl. done. }
  assert (∀ P, lists_pages P ∅ []) as He.
  { intros P. split; [constructor|]. intros p. rewrite elem_of_nil. split; [done|]. intros (cp & E & _). by rewrite lookup_empty in E. }
  split; [split| | | | |]; try apply He; try done.
  - intros i l Hl. rewrite (Hh i l Hl). apply He.
  - split; [constructor|]. intros n. cbn. rewrite lookup_empty. split; [by intros ?%elem_of_nil|by intros [? ?]].
  - intros p cp Hp. by apply elem_of_nil in Hp.
Qed.

Lemma holds_page_in k p : holds_page k p = true ↔ 0 < pages_held k p.
Proof.
  unfold holds_page, pages_held. rewrite existsb_exists. split.
  - intros ([q cq] & Hin & Hq%Z.eqb_eq). cbn in Hq. subst q. assert (count_occ Z.eq_dec (map fst (held_pages k)) p > 0)%nat; [|lia].
    apply count_occ_In, in_map_iff. by exists (p, cq).
  - intros H. assert (In p (map fst (held_pages k))) as ([q cq] & Hq & Hin)%in_map_iff.
    { apply (count_occ_In Z.eq_dec). lia. }
    cbn in Hq. subst q. exists (p, cq). split; [done|]. by apply Z.eqb_eq.
Qed.

Lemma holds_network_in k n : holds_network k n = true ↔ 0 < networks_held k n.
Proof.
  unfold holds_network, networks_held. rewrite existsb_exists. split.
  - intros (m & Hin & ->%Z.eqb_eq). apply (count_occ_In Z.eq_dec) in Hin. lia.
  - intros H. exists n. split; [apply (count_occ_In Z.eq_dec); lia|by apply Z.eqb_eq].
Qed.

Lemma drop_page_count p l q : holds_page (Client l []) p = true →
  Z.of_nat (count_occ Z.eq_dec (map fst (drop_page p l)) q) = Z.of_nat (count_occ Z.eq_dec (map fst l) q) - one p q.
Proof.
  unfold holds_page. cbn [held_pages]. induction l as [|[r c] l IH]; cbn [existsb drop_page fst map]; [done|].
  destruct (Z.eqb_spec r p) as [->|Hr]; cbn [orb].
  - intros _. cbn [count_occ]. unfold one. destruct (Z.eq_dec p q) as [->|Hq]; [rewrite decide_True by done; lia|].
    rewrite decide_False by congruence. lia.
  - intros Hl. specialize (IH Hl). cbn [map fst count_occ]. destruct (Z.eq_dec r q); lia.
Qed.

Lemma drop_page_in p l x : x ∈ drop_page p l → x ∈ l.
Proof.
  induction l as [|y l IH]; cbn [drop_page]; [done|]. destruct (y.1 =? p); [by right|].
  intros [->|Hx]%elem_of_cons; [left|right; by apply IH].
Qed.

Lemma drop_network_count n l m : holds_network (Client [] l) n = true →
  Z.of_nat (count_occ Z.eq_dec (drop_network n l) m) = Z.of_nat (count_occ Z.eq_dec l m) - one n m.
Proof.
  unfold holds_network. cbn [held_networks]. induction l as [|r l IH]; cbn [existsb drop_network]; [done|].
  destruct (Z.eqb_spec r n) as [->|Hr]; cbn [orb].
  - intros _. cbn [count_occ]. unfold one. destruct (Z.eq_dec n m) as [->|Hq]; [rewrite decide_True by done; lia|].
    rewrite decide_False by congruence. lia.
  - intros Hl. specialize (IH Hl). cbn [count_occ]. destruct (Z.eq_dec r m); lia.
Qed.

Lemma effect_consistent ca ca' k k' dp dn :
  consistent ca k → cache_inv sz ca' → cache_tidy ca' → effect ca ca' dp dn →
  (∀ p, pages_held k' p = pages_held k p + dp p) → (∀ n, networks_held k' n = networks_held k n + dn n) →
  (∀ p cp, (p, cp) ∈ held_pages k' → (p, cp) ∈ held_pages k ∨ page_heap ca' !! p = Some cp) → consistent ca' k'.
Proof.
  intros [C1 C2 C3 C4 C5 C6] H T [E1 E2 E3 E4] Hp Hn Hc. split; [done|done|by rewrite E4|..].
  - intros p. by rewrite E1, C4, Hp.
  - intros n. by rewrite E2, C5, Hn.
  - intros p cp Hin. destruct (Hc p cp Hin) as [Hk|Heap]; [|by exists cp].
    assert (∀ k0 : client, (p, cp) ∈ held_pages k0 → 0 < pages_held k0 p) as Hpos.
    { intros k0 H0. apply holds_page_in. unfold holds_page. apply existsb_exists. exists (p, cp). split; [by apply list_elem_of_In|]. by apply Z.eqb_eq. }
    destruct (C6 p cp Hk) as (cp0 & E0 & S0). pose proof (Hpos _ Hk) as P0. rewrite <-C4 in P0.
    destruct (E3 p cp0 E0) as (cp1 & E1' & S1).
    + unfold page_refs in P0. by rewrite E0 in P0.
    + rewrite E1, C4, <-Hp. by apply Hpos.
    + exists cp1. split; [done|]. unfold same_page in *. naive_solver congruence.
Qed.

Lemma few_pages ca k p : consistent ca k → few k = true → page_refs ca p < 2 ^ 32 - 1.
Proof.
  intros C [Hf _]%andb_true_iff. apply Z.ltb_lt in Hf. rewrite (cs_pages _ _ C). unfold pages_held.
  pose proof (count_occ_bound Z.eq_dec p (map fst (held_pages k))) as Hb. rewrite length_map in Hb. lia.
Qed.

Lemma few_networks ca k n : consistent ca k → few k = true → network_refs ca n < 2 ^ 32 - 1.
Proof.
  intros C [_ Hf]%andb_true_iff. apply Z.ltb_lt in Hf. rewrite (cs_networks _ _ C). unfold networks_held.
  pose proof (count_occ_bound Z.eq_dec n (held_networks k)). lia.
Qed.

Lemma held_network_at ca k n : consistent ca k → holds_network k n = true → ∃ cn, network_heap ca !! n = Some cn ∧ 0 < net_ref_count cn.
Proof.
  intros C Hn%holds_network_in. rewrite <-(cs_networks _ _ C) in Hn. unfold network_refs in Hn.
  destruct (network_heap ca !! n) as [cn|]; [by exists cn|done].
Qed.

Lemma held_page_at ca k p : consistent ca k → holds_page k p = true → ∃ cp, page_heap ca !! p = Some cp ∧ busy cp.
Proof.
  intros C Hn%holds_page_in. rewrite <-(cs_pages _ _ C) in Hn. unfold page_refs in Hn.
  destruct (page_heap ca !! p) as [cp|]; [by exists cp|done].
Qed.

Lemma pages_held_cons k p cp q : pages_held (Client ((p, cp) :: held_pages k) (held_networks k)) q = pages_held k q + one p q.
Proof.
  unfold pages_held, one. cbn [held_pages map fst count_occ]. destruct (Z.eq_dec p q) as [->|Hq].
  - rewrite decide_True by done. lia.
  - rewrite decide_False by congruence. lia.
Qed.
Lemma networks_held_cons k n m : networks_held (Client (held_pages k) (n :: held_networks k)) m = networks_held k m + one n m.
Proof.
  unfold networks_held, one. cbn [held_networks count_occ]. destruct (Z.eq_dec n m) as [->|Hq].
  - rewrite decide_True by done. lia.
  - rewrite decide_False by congruence. lia.
Qed.

(** A call that returns a page, or NULL. *)
Lemma hold_page_ok ca ca' k r : consistent ca k → cache_inv sz ca' → cache_tidy ca' →
  effect ca ca' (match r with Some p => one p | None => none end) none →
  ∃ ca2 k', hold_page r ca' k = Some (ca2, k') ∧ consistent ca2 k'.
Proof.
  intros C H T F. unfold hold_page. destruct r as [p|].
  - assert (is_Some (page_heap ca' !! p)) as [cp E].
    { pose proof (ef_pages _ _ _ _ F p) as Hp. unfold one in Hp. rewrite decide_True in Hp by done. rewrite (cs_pages _ _ C) in Hp.
      unfold page_refs, pages_held in Hp. destruct (page_heap ca' !! p); [eauto|cbn in Hp; lia]. }
    unfold page_at. rewrite E. cbn [mbind option_bind]. do 2 eexists. split; [reflexivity|].
    apply (effect_consistent ca ca' k _ (one p) none); try done.
    + intros q. apply pages_held_cons.
    + intros n. unfold none. by rewrite Z.add_0_r.
    + cbn [held_pages]. intros q cq [[= -> ->]|Hq]%elem_of_cons; [by right|by left].
  - do 2 eexists. split; [reflexivity|]. apply (effect_consistent ca ca' k k none none); try done; try (intros; unfold none; by rewrite Z.add_0_r).
    intros p cp Hp. by left.
Qed.

Lemma hold_network_ok ca ca' k n : consistent ca k → cache_inv sz ca' → cache_tidy ca' →
  effect ca ca' none (match n with Some n => one n | None => none end) →
  ∃ ca2 k', Some (hold_network n ca' k) = Some (ca2, k') ∧ consistent ca2 k'.
Proof.
  intros C H T F. unfold hold_network. destruct n as [n|]; do 2 eexists; (split; [reflexivity|]).
  - apply (effect_consistent ca ca' k _ none (one n)); try done.
    + intros q. unfold none. by rewrite Z.add_0_r.
    + intros m. apply networks_held_cons.
    + intros p cp Hp. by left.
  - apply (effect_consistent ca ca' k k none none); try done; try (intros; unfold none; by rewrite Z.add_0_r).
    intros p cp Hp. by left.
Qed.

(** ** Every call *)

Context (sz_ok : sizes_ok sz).
Context (malloc_fresh : ∀ ca p, malloc ca = Some p → fresh_block ca p).

Lemma effect_none ca ca' c1 dp dn : cache_inv sz ca → effect ca c1 none none → effect c1 ca' dp dn → dp = none ∨ dn = none →
  (∀ q, page_refs c1 q = page_refs ca q) → effect ca ca' dp dn.
Proof.
  intros H [A1 A2 A3 A4] [B1 B2 B3 B4] _ Hq. unfold none in *. split; [| | |congruence].
  - intros q. by rewrite B1, Hq.
  - intros n. rewrite B2, A2. lia.
  - intros q cp E Hb Hr. assert (0 < page_refs c1 q) as Hp by (rewrite Hq; unfold page_refs; by rewrite E).
    destruct (A3 q cp E Hb Hp) as (cp1 & Ec1 & S1). unfold page_refs in Hp. rewrite Ec1 in Hp. destruct (B3 q cp1 Ec1 Hp Hr) as (cp2 & Ec2 & S2).
    exists cp2. split; [done|]. unfold same_page in *. naive_solver congruence.
Qed.

Lemma add_network_step ca k nk : consistent ca k → few k = true →
  ∃ ca2 k', step ca k (Add_network nk) = Some (ca2, k') ∧ consistent ca2 k'.
Proof using sz_ok malloc_fresh.
  intros C Hf. cbn [step]. unfold _vbi_cache_add_network.
  destruct (add_network_ok sz sz_ok (malloc ca) nk ca (cs_inv _ _ C) (cs_tidy _ _ C)) as (c1 & r & -> & H1 & T1 & F1 & Hr); [by apply malloc_fresh|].
  cbn [mbind option_bind]. destruct r as [n|]; [|by apply (hold_network_ok ca)].
  destruct (Hr n eq_refl) as [cn E]. destruct (network_ref_ok sz c1 n cn H1 T1 E) as (c2 & -> & H2 & T2 & F2).
  { pose proof (few_networks ca k n C Hf) as Hlt. pose proof (ef_networks _ _ _ _ F1 n) as Hn. unfold none in Hn. unfold network_refs at 1 in Hn. rewrite E in Hn. cbn in Hn. lia. }
  cbn [mbind option_bind]. apply (hold_network_ok ca); [done|done|done|]. apply (effect_none ca c2 c1); [apply C|done|done|by left|].
  intros q. rewrite (ef_pages _ _ _ _ F1). unfold none. lia.
Qed.

Lemma get_network_step ca k nk : consistent ca k → few k = true →
  ∃ ca2 k', step ca k (Get_network nk) = Some (ca2, k') ∧ consistent ca2 k'.
Proof.
  intros C Hf. pose proof (cs_inv _ _ C) as H. pose proof (cs_tidy _ _ C) as T. cbn [step]. unfold _vbi_cache_get_network.
  destruct (network_by_id_ok sz nk ca H) as (r & -> & [->|[-> Hin]]); cbn [mbind option_bind].
  { apply (hold_network_ok ca); [done..|]. apply effect_refl. }
  set (c1 := set_networks _ _ ca). assert (cache_inv sz c1) as H1.
  { apply reorder_inv; [done|]. apply without_permutation; [apply H|done]. }
  assert (cache_tidy c1) as T1 by (split; apply T). assert (effect ca c1 none none) as F1.
  { split; unfold none, c1; cbn; try done; intros; unfold page_refs, network_refs; cbn; try lia. by exists cp. }
  apply (proj2 (ci_networks _ _ H)) in Hin as [cn E]. destruct (revive_ok sz c1 nk cn H1 T1 E) as (c2 & -> & H2 & T2 & F2 & Ec2).
  cbn [mbind option_bind]. assert (network_heap c2 !! nk = Some (set_zombie false cn)) as E2 by (rewrite Ec2; apply lookup_insert_eq).
  destruct (network_ref_ok sz c2 nk _ H2 T2 E2) as (c3 & -> & H3 & T3 & F3).
  { pose proof (few_networks ca k nk C Hf) as Hlt. unfold network_refs in Hlt. by rewrite E in Hlt. }
  cbn [mbind option_bind]. apply (hold_network_ok ca); [done|done|done|].
  apply (effect_none ca c3 c1); [apply C|done| |by left|done]. apply (effect_none c1 c3 c2); [done|done|done|by left|].
  intros q. rewrite (ef_pages _ _ _ _ F2). unfold none. lia.
Qed.

Lemma set_page_type_step ca k n pg t : consistent ca k → holds_network k n = true →
  ∃ ca2 k', step ca k (Set_page_type n pg t) = Some (ca2, k') ∧ consistent ca2 k'.
Proof.
  intros C Hn. destruct (held_network_at ca k n C Hn) as (cn & E & _). pose proof (cs_inv _ _ C) as H. pose proof (cs_tidy _ _ C) as T.
  cbn [step]. unfold update_network, network_at. rewrite E. cbn [mbind option_bind]. do 2 eexists. split; [reflexivity|].
  pose proof (ci_network _ _ H _ _ E) as Hok.
  apply (effect_consistent ca _ k k none none C); try (intros; unfold none; by rewrite Z.add_0_r).
  - apply (change_networks sz ca); try done; cbn [set_network_heap network_heap networks n_cached_networks].
    + apply H.
    + intros m. rewrite (lookup_insert_some _ _ _ _ _ E). apply H.
    + intros m cm. rewrite lookup_insert_Some. intros [[<- <-]|[Hm Em]]; [|by apply (ci_network _ _ H)].
      destruct Hok as [K1 K2 K3 K4 K5]. split; try done. intros pg'. cbn [set_page_type set_stat pages_stat].
      destruct (decide (pg' = pg)) as [->|Hpg]; [rewrite lookup_insert_eq; apply K5|by rewrite lookup_insert_ne].
    + intros p cp Ep. rewrite (lookup_insert_some _ _ _ _ _ E). apply (ci_page _ _ H _ _ Ep).
    + rewrite (ci_n_networks _ _ H). unfold count. rewrite total_insert_change, E. cbn. lia.
    + rewrite (map_size_insert_Some n) by eauto. apply H.
  - split; cbn; [apply T|]. intros m cm. rewrite lookup_insert_Some. intros [[<- <-]|[Hm Em]]; [by apply (ct_zombie _ T n cn)|by apply (ct_zombie _ T m)].
  - split; cbn; try done; intros m; unfold none, page_refs, network_refs; cbn; try lia; [|by intros cp Ecp _ _; exists cp].
    destruct (decide (m = n)) as [->|Hm]; [rewrite lookup_insert_eq, E; cbn; lia|rewrite lookup_insert_ne by done; lia].
  - intros p cp Hp. by left.
Qed.

Lemma replaces_well_fits needed ca d : replaces_well needed ca d = true → put_fits sz needed ca d.
Proof.
  intros [Hnd%bool_decide_eq_true Hx]%andb_true_iff. split; [done|]. intros p Er Em. rewrite Er in Hx.
  apply orb_true_iff in Hx as [Hx|Hx]; [by rewrite Em, Z.eqb_refl in Hx|].
  destruct (page_heap ca !! p) as [cp|]; [|done]. exists cp. split; [done|]. by apply Z.eqb_eq.
Qed.

Lemma put_allowed_ok ca n new : put_allowed ca n new = true → 0x100 ≤ pgno new ≤ 0x8FF ∧
  (pgno new .& 0xFF ≠ 0xFF → ∃ c1 sub d enough, put_candidates sz n new ca = Some (c1, sub, d, enough) ∧
    (enough = true → put_fits sz (cache_page_size sz new) c1 d)).
Proof.
  intros [[H1%Z.leb_le H2%Z.leb_le]%andb_true_iff H3]%andb_true_iff. split; [lia|]. intros Hff.
  rewrite (proj2 (Z.eqb_neq _ _) Hff) in H3. cbn [orb] in H3.
  destruct (put_candidates sz n new ca) as [[[[c1 sub] d] enough]|]; [|done]. exists c1, sub, d, enough. split; [done|].
  intros ->. cbn in H3. by apply replaces_well_fits.
Qed.

Lemma step_ok ca k c : consistent ca k → allowed ca k c = true → ∃ ca' k', step ca k c = Some (ca', k') ∧ consistent ca' k'.
Proof using sz_ok malloc_fresh.
  intros C [Hf Ha]%andb_true_iff. pose proof (cs_inv _ _ C) as H. pose proof (cs_tidy _ _ C) as T. destruct c as [nk|nk|n|n|n new|n pg sub mask|p|p|n pg t].
  - by apply add_network_step.
  - by apply get_network_step.
  - destruct (held_network_at ca k n C Ha) as (cn & E & _). destruct (network_ref_ok sz ca n cn H T E) as (c1 & E1 & H1 & T1 & F1).
    { pose proof (few_networks ca k n C Hf) as Hlt. unfold network_refs in Hlt. by rewrite E in Hlt. }
    cbn [step]. unfold cache_network_ref. rewrite E1. cbn [mbind option_bind]. by apply (hold_network_ok ca c1 k (Some n)).
  - destruct (held_network_at ca k n C Ha) as (cn & E & Hr). destruct (network_unref_ok sz sz_ok ca n cn H T E Hr) as (c1 & E1 & H1 & T1 & F1).
    cbn [step]. rewrite E1. cbn [mbind option_bind]. do 2 eexists. split; [reflexivity|].
    apply (effect_consistent ca c1 k _ _ _ C H1 T1 F1).
    + intros q. unfold none, pages_held. cbn. lia.
    + intros m. unfold networks_held. cbn [held_networks]. rewrite drop_network_count by done. lia.
    + intros p cp Hp. by left.
  - apply andb_true_iff in Ha as [Hn Hput]. destruct (held_network_at ca k n C Hn) as (cn & E & _). destruct (put_allowed_ok _ _ _ Hput) as [Hpg Hc].
    destruct (put_page_ok sz sz_ok ca n new (malloc ca) cn H T E Hpg) as (c1 & r & E1 & H1 & T1 & F1 & _ & _); [by apply malloc_fresh|done|].
    cbn [step]. rewrite E1. cbn [mbind option_bind]. by apply (hold_page_ok ca).
  - destruct (get_page_ok sz sz_ok ca n pg sub mask H T) as (c1 & r & E1 & H1 & T1 & F1 & _).
    { intros p. by apply (few_pages ca k). }
    cbn [step]. rewrite E1. cbn [mbind option_bind]. by apply (hold_page_ok ca).
  - destruct (held_page_at ca k p C Ha) as (cp & E & _). destruct (page_ref_ok sz sz_ok ca p cp H T E) as (c1 & E1 & H1 & T1 & F1 & _).
    { pose proof (few_pages ca k p C Hf) as Hlt. unfold page_refs in Hlt. by rewrite E in Hlt. }
    cbn [step]. rewrite E1. cbn [mbind option_bind]. by apply (hold_page_ok ca c1 k (Some p)).
  - destruct (held_page_at ca k p C Ha) as (cp & E & Hb). destruct (page_unref_ok sz sz_ok ca p cp H T (cs_limit _ _ C) E Hb) as (c1 & E1 & H1 & T1 & F1).
    cbn [step]. rewrite E1. cbn [mbind option_bind]. do 2 eexists. split; [reflexivity|].
    apply (effect_consistent ca c1 k _ _ _ C H1 T1 F1).
    + intros q. unfold pages_held. cbn [held_pages]. rewrite drop_page_count by done. lia.
    + intros m. unfold none, networks_held. cbn. lia.
    + intros q cq Hq. left. by eapply drop_page_in.
  - by apply set_page_type_step.
Qed.

Lemma run_calls_ok cs : ∀ ca k, consistent ca k → all_allowed ca k cs = true → ∃ ca' k', run ca k cs = Some (ca', k') ∧ consistent ca' k'.
Proof using sz_ok malloc_fresh.
  induction cs as [|c cs IH]; intros ca k C Ha; [by exists ca, k|]. apply andb_true_iff in Ha as [Ha Hcs].
  destruct (step_ok ca k c C Ha) as (c1 & k1 & E1 & C1). rewrite E1 in Hcs. destruct (IH c1 k1 C1 Hcs) as (c2 & k2 & E2 & C2).
  exists c2, k2. split; [|done]. cbn [run]. rewrite E1. cbn [mbind option_bind]. done.
Qed.

(** C13: references keep what they point to.  Whatever clients of a new cache do, as
    long as they use networks and pages they hold, store pages numbered 100 to 8FF, and a
    page is not stored where the replacement of old pages goes wrong ([put_allowed]: at most
    twenty candidates, none listed twice, see [candidate_deleted_twice], and a single
    candidate whose block is reused has the size of the new page, see
    [replaced_page_too_small]), every call returns without an access to memory that was freed and the invariant
    holds: each page and network is in the lists it belongs to, all counters count what
    they say, the pages not in use keep to the memory limit, a network marked for
    deletion is still in use, the reference counts are the numbers of references the
    clients hold, and every page a client holds is allocated and has the number,
    network and contents it had when the client got it, although newer versions may
    have been stored and its network deleted. *)
Theorem cache_references_safe (cs : list call) :
  all_allowed vbi_cache_new (Client [] []) cs = true →
  ∃ ca k, run vbi_cache_new (Client [] []) cs = Some (ca, k) ∧ cache_inv sz ca ∧ cache_tidy ca ∧
    (∀ p, page_refs ca p = pages_held k p) ∧ (∀ n, network_refs ca n = networks_held k n) ∧
    (∀ p cp, (p, cp) ∈ held_pages k → ∃ cp', page_heap ca !! p = Some cp' ∧ same_page cp cp').
Proof using sz_ok malloc_fresh.
  intros Ha. destruct (run_calls_ok cs vbi_cache_new (Client [] []) new_consistent Ha) as (ca & k & E & C). exists ca, k. split; [done|].
  destruct C. done.
Qed.

End client.

(** ** Examples *)

(** Sizes close to those of a 32 bit machine, and an allocator. *)
Definition example_sizes : sizes := Sizes 84 1056 4132 4700 3100 7032 2900 7032.
Definition example_malloc (ca : vbi_cache) : option Z :=
  if (Z.of_nat (size (page_heap ca)) <? MAX_BLOCKS) && (Z.of_nat (size (network_heap ca)) <? MAX_BLOCKS)
  then Some (1 + foldr Z.max 0 (elements (dom (page_heap ca) ∪ dom (network_heap ca)))) else None.

Lemma example_sizes_ok : sizes_ok example_sizes.
Proof. split; [done|done|]. repeat constructor; done. Qed.

Lemma max_above (l : list Z) p : p ∈ l → p ≤ foldr Z.max 0 l.
Proof. induction l as [|q l IH]; [by intros ?%elem_of_nil|]. intros [->|Hp]%elem_of_cons; cbn [foldr]; [lia|]. specialize (IH Hp). lia. Qed.

Lemma max_nonneg (l : list Z) : 0 ≤ foldr Z.max 0 l.
Proof. induction l as [|q l IH]; cbn [foldr]; lia. Qed.

Lemma example_block_fresh ca p : example_malloc ca = Some p → fresh_block ca p.
Proof.
  unfold example_malloc. case_match eqn:Hb; [|done]. apply andb_true_iff in Hb as [H1%Z.ltb_lt H2%Z.ltb_lt]. intros [= <-].
  set (l := elements _). pose proof (max_nonneg l). assert (∀ q, q ∈ l → q ≤ foldr Z.max 0 l) as Hl by apply max_above.
  assert (∀ q, q ∈ l ↔ is_Some (page_heap ca !! q) ∨ is_Some (network_heap ca !! q)) as Hin.
  { intros q. unfold l. by rewrite elem_of_elements, elem_of_union, !elem_of_dom. }
  split; [lia|]. split; [|split; [|done]]; apply eq_None_not_Some; intros Hs.
  - pose proof (Hl (1 + foldr Z.max 0 l) (proj2 (Hin _) (or_introl Hs))). lia.
  - pose proof (Hl (1 + foldr Z.max 0 l) (proj2 (Hin _) (or_intror Hs))). lia.
Qed.

Definition example_body (c : Z) : content := Content PAGE_FUNCTION_LOP 0 0 1 0 0 0 [c].
Definition example_new (pg sub c : Z) : cache_page := CachePage 0 0 CACHE_PRI_NORMAL pg sub (example_body c) 0.

(** Stores page 100 twice while the first version is held, switches to another network
    and releases everything. *)
Definition example_calls : list call :=
  [Add_network None; Put_page 1 (example_new 0x100 0 65); Put_page 1 (example_new 0x100 0 66); Put_page 1 (example_new 0x123 2 67);
   Unref_page 4; Get_page 1 0x100 0 (-1); Unref_network 1; Add_network None; Put_page 5 (example_new 0x100 0 68); Get_page 5 0x100 VBI_ANY_SUBNO 0;
   Unref_page 2; Unref_page 3; Unref_page 3; Unref_page 6; Unref_page 6].

Lemma cache_references_safe_witness : ∃ ca k, run example_sizes example_malloc vbi_cache_new (Client [] []) example_calls = Some (ca, k) ∧
  cache_inv example_sizes ca ∧ held_networks k = [5] ∧ held_pages k = [].
Proof.
  destruct (cache_references_safe example_sizes example_malloc example_sizes_ok example_block_fresh example_calls) as (ca & k & E & H & _).
  { vm_compute. reflexivity. }
  exists ca, k. split; [exact E|]. split; [exact H|]. revert E. clear H.
  assert (match run example_sizes example_malloc vbi_cache_new (Client [] []) example_calls with
    | Some (_, k) => held_networks k = [5] ∧ held_pages k = [] | None => True end) as H by (vm_compute; done).
  intros E. rewrite E in H. exact H.
Defined.

(** The state after some calls, with another memory limit. *)
Definition example_state (limit : Z) (cs : list call) : vbi_cache * client :=
  match run example_sizes example_malloc vbi_cache_new (Client [] []) cs with
  | Some (ca, k) =>
      (Cache (hash_lists ca) (ca_n_cached_pages ca) (priority_list ca) (referenced ca) (memory_used ca) limit (networks ca)
         (n_cached_networks ca) (n_networks_limit ca) (page_heap ca) (network_heap ca), k)
  | None => (vbi_cache_new, Client [] [])
  end.


(** ** Where the replacement of pages does not work *)

(** The data of the new page is copied into the block of the old one when the memory just
    suffices, although the old page and its block are smaller. *)
Lemma replaced_page_too_small :
  let s := example_state (1140 + 3076) [Add_network None; Put_page 1 (example_new 0x123 0 65); Unref_page 2] in
  let new := CachePage 0 0 CACHE_PRI_NORMAL 0x123 0 (Content PAGE_FUNCTION_LOP 0 0 1 1 0 0 [66]) 0 in
  cache_page_size example_sizes new = 1140 + 3076 ∧ _vbi_cache_put_page example_sizes (example_malloc s.1) 1 new s.1 = None.
Proof. vm_compute. done. Qed.

(** A page of a network that is not in use becomes a candidate in the first search for
    pages and again in the second, and is deleted twice. *)
Lemma candidate_deleted_twice :
  let s := example_state 4000 [Add_network None; Put_page 1 (example_new 0x123 0 65); Put_page 1 (example_new 0x124 0 66); Put_page 1 (example_new 0x125 0 67);
    Unref_page 2; Unref_page 3; Unref_network 1; Add_network None] in
  let new := CachePage 0 0 CACHE_PRI_NORMAL 0x130 0 (Content PAGE_FUNCTION_LOP 0 0 1 1 0 0 [68]) 0 in
  held_networks s.2 = [5] ∧ row <$> (r ← put_candidates example_sizes 5 new s.1; Some r.1.2) = Some [2; 3; 2] ∧
  _vbi_cache_put_page example_sizes (example_malloc s.1) 5 new s.1 = None.
Proof. vm_compute. done. Qed.

(** The last candidate makes enough memory available, but it is not used. *)
Lemma last_candidate_unused :
  let s := example_state 1200 [Add_network None; Put_page 1 (example_new 0x100 0 65); Unref_page 2] in
  option_map snd (_vbi_cache_put_page example_sizes (example_malloc s.1) 1 (example_new 0x200 0 66) s.1) = Some None.
Proof. vm_compute. done. Qed.

(** A clock page is stored at 23:00 but not at 23:01. *)
Lemma clock_page_cut_off : version_of VBI_CLOCK_PAGE 0x100 0x2300 = (0x2300, 0) ∧ version_of VBI_CLOCK_PAGE 0x100 0x2301 = (0, 0).
Proof. vm_compute. done. Qed.

(** Subpage 00 counts as no subpage yet: when page 100.00 is stored and then 100.05 the
    lowest subpage becomes 05. *)
Lemma lowest_subpage_lost :
  let s := example_state (2 ^ 30) [Add_network None; Put_page 1 (example_new 0x100 0 65); Put_page 1 (example_new 0x100 5 66)] in
  (n_subpages <$> (network_at s.1 1 ≫= λ cn, cache_network_page_stat cn 0x100), subno_min <$> (network_at s.1 1 ≫= λ cn, cache_network_page_stat cn 0x100))
  = (Some 2, Some 5).
Proof. vm_compute. done. Qed.

(** ** Walking through the pages *)

Lemma next_page_fuel cn dir : ∀ N fuel pg sub w r, next_page N cn dir pg sub w = Some (Some r) →
  next_page fuel cn dir pg sub w = Some None ∨ next_page fuel cn dir pg sub w = Some (Some r).
Proof.
  induction N as [|N IH]; intros [|fuel] pg sub w r; cbn [next_page]; try done; [by left|].
  destruct (cache_network_page_stat cn pg) as [ps|]; cbn [mbind option_bind]; [|done].
  case_match; [|by right]. case_match; repeat case_match; destruct (cache_network_page_stat cn _); cbn [mbind option_bind]; try done; apply IH.
Qed.

Section endless.
Context {C : Type} (callback : C → vbi_cache → Z → bool → option (C * vbi_cache * Z)).

(** A clock page is cached, but its subpage number is not in the range that the page
    statistics have for it in eight bits. *)
Definition clock_state : vbi_cache :=
  (example_state (2 ^ 30) [Add_network None; Set_page_type 1 0x100 VBI_CLOCK_PAGE; Put_page 1 (example_new 0x100 0x0930 65); Unref_page 2]).1.

Definition clock_network : cache_network := default (CacheNetwork 0 false 0 0 0 (0, 0, 0) ∅) (network_at clock_state 1).

Lemma clock_next w : next_page 3000 clock_network 1 0x100 0x31 w = Some (Some (0x100, 0x30, true)).
Proof. destruct w; vm_compute; done. Qed.

Lemma clock_start : next_page 3000 clock_network 1 0x200 1 false = Some (Some (0x100, 0x30, true)).
Proof. vm_compute. done. Qed.

Lemma clock_get : _vbi_cache_get_page example_sizes 1 0x100 0x30 (-1) clock_state = Some (clock_state, None) ∧
  _vbi_cache_get_page example_sizes 1 0x200 0 (-1) clock_state = Some (clock_state, None) ∧ network_at clock_state 1 = Some clock_network.
Proof. vm_compute. done. Qed.

(** Then the walk through the pages never ends and calls nobody. *)
Lemma foreach_endless (fuel : nat) (c : C) :
  n_cached_pages clock_network = 1 ∧ _vbi_cache_foreach_page example_sizes callback fuel 1 0x200 0 1 c clock_state = Some None.
Proof.
  split; [vm_compute; done|]. destruct clock_get as (G1 & G2 & N1). unfold _vbi_cache_foreach_page. rewrite N1. cbn [mbind option_bind].
  assert (n_cached_pages clock_network =? 0 = false) as -> by (vm_compute; done). rewrite G2. cbn [mbind option_bind].
  assert (cache_network_page_stat clock_network 0x200 = Some no_stat) as -> by (vm_compute; done). cbn [mbind option_bind Z.eqb].
  unfold VBI_ANY_SUBNO. cbn match.
  assert (∀ fuel w, foreach_loop example_sizes callback fuel 1 1 0x100 0x30 w None c clock_state = Some None) as Hloop.
  { clear fuel. induction fuel as [|fuel IH]; intros w; [done|]. cbn [foreach_loop mbind option_bind Z.eqb negb]. rewrite N1. cbn [mbind option_bind].
    change (0x30 + 1) with 0x31. destruct (next_page_fuel clock_network 1 3000 (S fuel) 0x100 0x31 w _ (clock_next w)) as [->| ->]; cbn [mbind option_bind]; [done|].
    rewrite G1. cbn [mbind option_bind]. apply IH. }
  destruct fuel as [|fuel]; [done|]. cbn [foreach_loop mbind option_bind Z.eqb negb]. rewrite N1. cbn [mbind option_bind]. change (0 + 1) with 1.
  destruct (next_page_fuel clock_network 1 3000 (S fuel) 0x200 1 false _ clock_start) as [->| ->]; cbn [mbind option_bind]; [done|].
  rewrite G1. cbn [mbind option_bind]. apply Hloop.
Qed.
End endless.
