(* ===== verification/SlicedFilter.v ===== *)
(** The filter of sliced lines by service and Teletext page: [src/src/sliced_filter.c].
    The pages to keep are a table of [PageTable]. *)
From stdpp Require Import gmap.
From S2P Require Import Prelude Hamm Bcd Sliced PageTable.

Definition VBI_SERIAL : Z := 0x100000.

(** [struct _vbi_sliced_filter]: the output buffer is the array of [output_max_lines]
    elements; [errstr], which only receives messages, and the log are left out. *)
Record vbi_sliced_filter := SlicedFilter {
  keep_ttx_pages : vbi_page_table; keep_ttx_system_pages : bool; output_buffer : list vbi_sliced;
  keep_mag_set_next : Z; start : bool; keep_services : Z
}.

Definition output_max_lines (sf : vbi_sliced_filter) : Z := Z.of_nat (length (output_buffer sf)).

Definition set_mag_set (n : Z) (b : bool) (sf : vbi_sliced_filter) : vbi_sliced_filter :=
  SlicedFilter (keep_ttx_pages sf) (keep_ttx_system_pages sf) (output_buffer sf) n b (keep_services sf).
Definition set_keep (pt : vbi_page_table) (services : Z) (sf : vbi_sliced_filter) : vbi_sliced_filter :=
  SlicedFilter pt (keep_ttx_system_pages sf) (output_buffer sf) (keep_mag_set_next sf) (start sf) services.
Definition set_output (l : list vbi_sliced) (sf : vbi_sliced_filter) : vbi_sliced_filter :=
  SlicedFilter (keep_ttx_pages sf) (keep_ttx_system_pages sf) l (keep_mag_set_next sf) (start sf) (keep_services sf).

(** ** Selection of services and pages *)

Definition vbi_sliced_filter_keep_ttx_system_pages (sf : vbi_sliced_filter) (keep : bool) : vbi_sliced_filter :=
  SlicedFilter (keep_ttx_pages sf) keep (output_buffer sf) (keep_mag_set_next sf) (start sf) (keep_services sf).

Definition valid_ttx_page (pgno : Z) : bool := u32 (u32 pgno - 0x100) <? 0x800.

Definition valid_ttx_subpage_range (pgno first_subno last_subno : Z) : bool :=
  valid_ttx_page pgno && ((u32 first_subno <=? MAX_SUBNO) && (u32 last_subno <=? MAX_SUBNO)).

Definition valid_ttx_page_range (first_pgno last_pgno : Z) : bool :=
  valid_ttx_page first_pgno && valid_ttx_page last_pgno.

Definition keeps_teletext (sf : vbi_sliced_filter) : bool :=
  negb (keep_services sf .& VBI_SLICED_TELETEXT_B_625 =? 0).

Section realloc.
Context (realloc : Z → bool).

(** To drop some pages of all. *)
Definition keep_all_but (sf : vbi_sliced_filter) : option vbi_sliced_filter :=
  if keeps_teletext sf then
    pt ← vbi_page_table_add_all_pages realloc (keep_ttx_pages sf);
    Some (set_keep pt (keep_services sf .& Z.lnot VBI_SLICED_TELETEXT_B_625) sf)
  else Some sf.

Definition vbi_sliced_filter_drop_ttx_pages (sf : vbi_sliced_filter) (first_pgno last_pgno : Z)
    : option (vbi_sliced_filter * bool) :=
  if negb (valid_ttx_page_range first_pgno last_pgno) then Some (sf, false)
  else
    sf ← keep_all_but sf;
    '(pt, ok) ← vbi_page_table_remove_pages realloc (keep_ttx_pages sf) first_pgno last_pgno;
    Some (set_keep pt (keep_services sf) sf, ok).

Definition vbi_sliced_filter_keep_ttx_pages (sf : vbi_sliced_filter) (first_pgno last_pgno : Z)
    : option (vbi_sliced_filter * bool) :=
  if negb (valid_ttx_page_range first_pgno last_pgno) then Some (sf, false)
  else if keeps_teletext sf then Some (sf, true)
  else
    '(pt, ok) ← vbi_page_table_add_pages realloc (keep_ttx_pages sf) first_pgno last_pgno;
    Some (set_keep pt (keep_services sf) sf, ok).

Definition vbi_sliced_filter_drop_ttx_subpages (sf : vbi_sliced_filter) (pgno first_subno last_subno : Z)
    : option (vbi_sliced_filter * bool) :=
  if (first_subno =? VBI_ANY_SUBNO) && (last_subno =? VBI_ANY_SUBNO) then
    vbi_sliced_filter_drop_ttx_pages sf pgno pgno
  else if negb (valid_ttx_subpage_range pgno first_subno last_subno) then Some (sf, false)
  else
    sf ← keep_all_but sf;
    '(pt, ok) ← vbi_page_table_remove_subpages realloc (keep_ttx_pages sf) pgno first_subno last_subno;
    Some (set_keep pt (keep_services sf) sf, ok).

Definition vbi_sliced_filter_keep_ttx_subpages (sf : vbi_sliced_filter) (pgno first_subno last_subno : Z)
    : option (vbi_sliced_filter * bool) :=
  if (first_subno =? VBI_ANY_SUBNO) && (last_subno =? VBI_ANY_SUBNO) then
    vbi_sliced_filter_keep_ttx_pages sf pgno pgno
  else if negb (valid_ttx_subpage_range pgno first_subno last_subno) then Some (sf, false)
  else if keeps_teletext sf then Some (sf, true)
  else
    '(pt, ok) ← vbi_page_table_add_subpages realloc (keep_ttx_pages sf) pgno first_subno last_subno;
    Some (set_keep pt (keep_services sf) sf, ok).
Definition remove_teletext (sf : vbi_sliced_filter) (services : Z) : option vbi_page_table :=
  if negb (services .& VBI_SLICED_TELETEXT_B_625 =? 0) then vbi_page_table_remove_all_pages realloc (keep_ttx_pages sf)
  else Some (keep_ttx_pages sf).

Definition vbi_sliced_filter_drop_services (sf : vbi_sliced_filter) (services : Z) : option (vbi_sliced_filter * Z) :=
  pt ← remove_teletext sf services;
  let n := keep_services sf .& Z.lnot services in
  Some (set_keep pt n sf, n).

Definition vbi_sliced_filter_keep_services (sf : vbi_sliced_filter) (services : Z) : option (vbi_sliced_filter * Z) :=
  pt ← remove_teletext sf services;
  let n := keep_services sf .| services in
  Some (set_keep pt n sf, n).

End realloc.

Definition vbi_sliced_filter_reset (sf : vbi_sliced_filter) : vbi_sliced_filter := set_mag_set 0 true sf.

Definition vbi_sliced_filter_new : vbi_sliced_filter :=
  vbi_sliced_filter_reset (SlicedFilter vbi_page_table_new false [] 0 false 0).

(** ** Teletext packets *)

(** The context and [*keep_mag_set], or a Hamming error. *)
Definition decode_teletext_packet_0 (sf : vbi_sliced_filter) (keep_mag_set : Z) (buffer : list Z) (magazine : Z)
    : option (option (vbi_sliced_filter * Z)) :=
  let page := vbi_unham16p (drop 2 buffer) in
  if page <? 0 then Some None
  else if 0xFF =? page then Some (Some (sf, 0))
  else
    let pgno := magazine * 0x100 + page in
    let flags := vbi_unham16p (drop 4 buffer) .| (vbi_unham16p (drop 6 buffer) ≪ 8)
                 .| (vbi_unham16p (drop 8 buffer) ≪ 16) in
    if flags <? 0 then Some None
    else
      let mag_set := if negb (flags .& VBI_SERIAL =? 0) then u32 (-1) else 1 ≪ magazine in
      match_ ←
        (if negb (vbi_is_bcd pgno) then Some (keep_ttx_system_pages sf)
         else vbi_page_table_contains_subpage (keep_ttx_pages sf) pgno (flags .& 0x3F7F));
      if (match_ : bool) then
        let keep := keep_mag_set .| mag_set in
        Some (Some (set_mag_set keep false sf, keep))
      else if negb (keep_mag_set .& mag_set =? 0) then
        Some (Some (set_mag_set (keep_mag_set .& Z.lnot mag_set) false sf, keep_mag_set))
      else if start sf then Some (Some (set_mag_set 0 false sf, mag_set))
      else
        let keep := keep_mag_set .& Z.lnot mag_set in
        Some (Some (set_mag_set keep false sf, keep)).

(** The context and [*keep], or a Hamming error. *)
Definition decode_teletext (sf : vbi_sliced_filter) (buffer : list Z) : option (option (vbi_sliced_filter * bool)) :=
  let keep_mag_set := keep_mag_set_next sf in
  let pmag := vbi_unham16p buffer in
  if pmag <? 0 then Some None
  else
    let magazine := if pmag .& 7 =? 0 then 8 else pmag .& 7 in
    let packet := pmag ≫ 3 in
    let finish r :=
      match r with
      | None => Some None
      | Some (sf, keep_mag_set) => Some (Some (sf, negb (keep_mag_set .& (1 ≪ magazine) =? 0)))
      end in
    if packet =? 0 then r ← decode_teletext_packet_0 sf keep_mag_set buffer magazine; finish r
    else if packet <=? 29 then finish (Some (sf, keep_mag_set))
    else if packet <=? 31 then Some (Some (sf, false))
    else None (* assertion *).

(** ** The filter *)

(** Whether a line passes, or a Hamming error. *)
Definition filter_line (sf : vbi_sliced_filter) (s : vbi_sliced) : option (option (vbi_sliced_filter * bool)) :=
  if negb (id s .& keep_services sf =? 0) then Some (Some (sf, true))
  else if (id s =? VBI_SLICED_TELETEXT_B_L10_625) || (id s =? VBI_SLICED_TELETEXT_B_L25_625)
          || (id s =? VBI_SLICED_TELETEXT_B_625) then decode_teletext sf (data s)
  else Some (Some (sf, false)).

(** The context, the output array, [*n_lines_out], [*n_lines_in] and the returned value. *)
Record filtered := Filtered {
  f_sf : vbi_sliced_filter; f_out : list vbi_sliced; f_n_out : Z; f_n_in : Z; f_ok : bool
}.

(** The loop from line [i] on.  [input] reads a line of the input, from the output
    array when both are the same. *)
Fixpoint filter_loop (fuel : nat) (input : list vbi_sliced → Z → option vbi_sliced) (sf : vbi_sliced_filter)
    (out_array : list vbi_sliced) (out max_lines_out i n_lines_in : Z) : option filtered :=
  if i <? n_lines_in then
    match fuel with
    | O => None
    | S fuel =>
        s ← input out_array i;
        r ← filter_line sf s;
        match r with
        | None => Some (Filtered sf out_array out i false)
        | Some (sf, pass_through) =>
            if (pass_through : bool) then
              if max_lines_out <=? out then Some (Filtered sf out_array out i false)
              else
                s ← input out_array i;
                out_array ← wr out_array out s;
                filter_loop fuel input sf out_array (out + 1) max_lines_out (i + 1) n_lines_in
            else filter_loop fuel input sf out_array out max_lines_out (i + 1) n_lines_in
        end
    end
  else Some (Filtered sf out_array out n_lines_in true).

(** [vbi_sliced_filter_cor] with two arrays, and with [sliced_out] and [sliced_in]
    the same. *)
Definition vbi_sliced_filter_cor (sf : vbi_sliced_filter) (sliced_out : list vbi_sliced) (max_lines_out : Z)
    (sliced_in : list vbi_sliced) (n_lines_in : Z) : option filtered :=
  filter_loop (length sliced_in) (λ _, rd sliced_in) sf sliced_out 0 max_lines_out 0 n_lines_in.
Definition filter_in_place (sf : vbi_sliced_filter) (sliced : list vbi_sliced) (max_lines_out n_lines_in : Z) : option filtered :=
  filter_loop (length sliced) rd sf sliced 0 max_lines_out 0 n_lines_in.

Section client.
Context {C : Type} (callback : option (C → list vbi_sliced → C * bool)) (realloc : Z → bool).

Definition sizeof_sliced : Z := 64.

(** The array grown to [n] lines; [junk] is what the new memory contains. *)
Definition grow_output (sf : vbi_sliced_filter) (junk : list vbi_sliced) (n : Z) : option vbi_sliced_filter :=
  if output_max_lines sf <? n then
    let n := Z.min n 50 in
    if realloc (n * sizeof_sliced) then
      Some (set_output (take (Z.to_nat n) (output_buffer sf ++ junk)) sf)
    else None
  else Some sf.

(** The context, [*n_lines], the returned value and the client. *)
Definition vbi_sliced_filter_feed (sf : vbi_sliced_filter) (junk sliced : list vbi_sliced) (n_lines : Z) (c : C)
    : option (vbi_sliced_filter * Z * bool * C) :=
  match grow_output sf junk n_lines with
  | None => Some (sf, n_lines, false, c)
  | Some sf =>
      r ← vbi_sliced_filter_cor sf (output_buffer sf) (output_max_lines sf) sliced n_lines;
      let sf := set_output (f_out r) (f_sf r) in
      if negb (f_ok r) then Some (sf, f_n_in r, false, c)
      else
        match callback with
        | Some cb =>
            let '(c, ok) := cb c (take (Z.to_nat (f_n_out r)) (f_out r)) in
            Some (sf, f_n_in r, ok, c)
          | None => Some (sf, f_n_in r, true, c)
        end
  end.
End client.

(** ** What the filter promises *)

(** A Teletext packet, magazine and packet number first. *)
Inductive packet :=
  | Header (m page flags : Z)
  | Row (m n : Z)
  | Damaged.

Definition magazine_ok (m : Z) : Prop := 1 ≤ m ≤ 8.

(** The line carries the packet: the bytes that are looked at have one bit error at
    most, or two in one of them ([Damaged]). *)
Definition carries (s : vbi_sliced) (p : packet) : Prop :=
  match p with
  | Header m page flags =>
      magazine_ok m ∧ is_byte page ∧ 0 ≤ flags < 2 ^ 24 ∧ ham16_near (m mod 8) (data s) ∧
      ham16_near page (drop 2 (data s)) ∧ ham16_near (flags mod 256) (drop 4 (data s)) ∧
      ham16_near (flags / 256 mod 256) (drop 6 (data s)) ∧ ham16_near (flags / 65536) (drop 8 (data s))
  | Row m n => magazine_ok m ∧ 1 ≤ n ≤ 31 ∧ ham16_near (m mod 8 + 8 * n) (data s)
  | Damaged => vbi_unham16p (data s) < 0 ∨
      (∃ m, magazine_ok m ∧ ham16_near (m mod 8) (data s)) ∧
      (vbi_unham16p (drop 2 (data s)) < 0 ∨
       (∃ page, is_byte page ∧ page ≠ 0xFF ∧ ham16_near page (drop 2 (data s))) ∧
       (vbi_unham16p (drop 4 (data s)) < 0 ∨ vbi_unham16p (drop 6 (data s)) < 0 ∨ vbi_unham16p (drop 8 (data s)) < 0))
  end.

(** The magazines a header ends the page of share a key: all of them in serial
    transmission, the magazine of the header in parallel transmission. *)
Definition key (serial : bool) (m : Z) : Z := if serial then 0 else m.
Definition serial_flag (flags : Z) : bool := Z.testbit flags 20.

(** The keys whose page passes, and whether no header was seen yet. *)
Record view := View { passing : gset Z; fresh : bool }.

(** The filter, as the selection of packets: the headers and rows of wanted pages, the
    header that ends such a page, and the very first one. *)
Definition spec_step (serial : bool) (wants : Z → Z → bool) (v : view) (p : packet) : view * bool :=
  match p with
  | Header m page flags =>
      let k := key serial m in
      if page =? 0xFF then (v, false)
      else if wants (m * 256 + page) flags then (View ({[k]} ∪ passing v) false, true)
      else if decide (k ∈ passing v) then (View (passing v ∖ {[k]}) false, true)
      else (View (passing v) false, fresh v)
  | Row m n => (v, (n <=? 29) && bool_decide (key serial m ∈ passing v))
  | Damaged => (v, false)
  end.

Definition is_teletext (s : vbi_sliced) : bool :=
  (id s =? VBI_SLICED_TELETEXT_B_L10_625) || (id s =? VBI_SLICED_TELETEXT_B_L25_625) || (id s =? VBI_SLICED_TELETEXT_B_625).

(** A frame, from its line [i] on: the lines that pass, the number of lines read and
    whether all were. *)
Fixpoint spec_frame (serial : bool) (wants : Z → Z → bool) (services : Z) (max : nat) (v : view) (i : Z)
    (l : list (vbi_sliced * packet)) : view * list vbi_sliced * Z * bool :=
  match l with
  | [] => (v, [], i, true)
  | (s, p) :: l =>
      let '(v, pass, ok) :=
        if negb (id s .& services =? 0) then (v, true, true)
        else if is_teletext s then
          match p with Damaged => (v, false, false) | p => (spec_step serial wants v p, true) end
        else (v, false, true) in
      if (negb ok || pass && (max =? 0)%nat : bool) then (v, [], i, false)
      else
        let '(v, out, n, ok) := spec_frame serial wants services (if (pass : bool) then pred max else max) v (i + 1) l in
        (v, if (pass : bool) then s :: out else out, n, ok)
  end.

(** Whether the tables of the filter have a page. *)
Definition wanted (sf : vbi_sliced_filter) (pgno flags : Z) : bool :=
  if vbi_is_bcd pgno then
    member (pages (keep_ttx_pages sf)) (pgno - 0x100)
    || in_ranges (subpages (keep_ttx_pages sf)) pgno (flags .& 0x3F7F)
  else keep_ttx_system_pages sf.

(** The set of magazines as the code keeps it. *)
Definition mag_bits (serial : bool) (n : Z) (K : gset Z) : Prop :=
  if serial then n = if decide (0 ∈ K) then 0xFFFFFFFF else 0
  else 0 ≤ n < 2 ^ 32 ∧ ∀ i, 0 ≤ i < 32 → Z.testbit n i = bool_decide (i ∈ K).

Record sees (serial : bool) (sf : vbi_sliced_filter) (v : view) : Prop := {
  se_pages : pt_ok (keep_ttx_pages sf);
  se_bits : mag_bits serial (keep_mag_set_next sf) (passing v);
  se_start : start sf = fresh v;
  se_fresh : fresh v = true → passing v = ∅
}.

(** What of the filter lines leave alone. *)
Definition same_options (sf sf' : vbi_sliced_filter) : Prop :=
  keep_ttx_pages sf' = keep_ttx_pages sf ∧ keep_ttx_system_pages sf' = keep_ttx_system_pages sf ∧
  keep_services sf' = keep_services sf ∧ output_buffer sf' = output_buffer sf.

Lemma serial_bit flags : (flags .& VBI_SERIAL =? 0) = negb (serial_flag flags).
Proof. apply (land_pow2_eqb flags 20). lia. Qed.

(** *** Sets of magazines *)

Definition mag_set (serial : bool) (m : Z) : Z := if serial then u32 (-1) else 1 ≪ m.

Lemma mag_test serial n K m :
  mag_bits serial n K → magazine_ok m →
  negb (n .& (1 ≪ m) =? 0) = bool_decide (key serial m ∈ K) ∧
  negb (n .& mag_set serial m =? 0) = bool_decide (key serial m ∈ K).
Proof.
  intros Hn Hm. unfold magazine_ok in Hm. unfold mag_set, key. rewrite Z.shiftl_1_l.
  assert (negb (n .& 2 ^ m =? 0) = Z.testbit n m) as E by (rewrite land_pow2_eqb, negb_involutive by lia; done).
  rewrite E. destruct serial; cbn in Hn.
  - destruct (decide (0 ∈ K)) as [Hk|Hk]; subst n.
    + rewrite bool_decide_eq_true_2 by done. split; [|done]. change 0xFFFFFFFF with (Z.ones 32).
      apply Z.ones_spec_low. lia.
    + rewrite bool_decide_eq_false_2 by done. split; [apply Z.bits_0|done].
  - rewrite E. destruct Hn as [_ Hn]. by rewrite Hn by lia.
Qed.

Lemma mag_join serial n K m :
  mag_bits serial n K → magazine_ok m → mag_bits serial (n .| mag_set serial m) ({[key serial m]} ∪ K).
Proof.
  intros Hn Hm. unfold magazine_ok in Hm. unfold mag_bits, mag_set, key in *. destruct serial.
  - rewrite decide_True by set_solver. destruct (decide (0 ∈ K)); by subst n.
  - destruct Hn as [Hr Hn]. rewrite Z.shiftl_1_l. split.
    + apply lor_range; [lia|done|]. split; [lia|apply Z.pow_lt_mono_r; lia].
    + intros i Hi. rewrite Z.lor_spec, Hn, Z.pow2_bits_eqb by lia.
      destruct (Z.eqb_spec m i); destruct (bool_decide_reflect (i ∈ K)), (bool_decide_reflect (i ∈ {[m]} ∪ K)); try done; set_solver.
Qed.

Lemma mag_leave serial n K m :
  mag_bits serial n K → magazine_ok m → mag_bits serial (n .& Z.lnot (mag_set serial m)) (K ∖ {[key serial m]}).
Proof.
  intros Hn Hm. unfold magazine_ok in Hm. unfold mag_bits, mag_set, key in *. destruct serial.
  - rewrite decide_False by set_solver. destruct (decide (0 ∈ K)); by subst n.
  - destruct Hn as [Hr Hn]. rewrite Z.shiftl_1_l. split.
    + apply land_range_r; [done|lia].
    + intros i Hi. rewrite Z.land_spec, Z.lnot_spec, Hn, Z.pow2_bits_eqb by lia.
      destruct (Z.eqb_spec m i); destruct (bool_decide_reflect (i ∈ K)), (bool_decide_reflect (i ∈ K ∖ {[m]})); try done; set_solver.
Qed.

Lemma mag_empty serial : mag_bits serial 0 ∅.
Proof. destruct serial; cbn; [done|]. split; [lia|]. intros i Hi. by rewrite Z.bits_0. Qed.

(** *** One line *)

Definition mode_ok (serial : bool) (p : packet) : Prop :=
  match p with Header _ page flags => page = 0xFF ∨ serial_flag flags = serial | _ => True end.

Lemma sees_set serial sf v n (b : bool) :
  pt_ok (keep_ttx_pages sf) → mag_bits serial n (passing v) → b = fresh v → (fresh v = true → passing v = ∅) →
  sees serial (set_mag_set n b sf) v.
Proof. done. Qed.

Lemma same_set n b sf : same_options sf (set_mag_set n b sf).
Proof. done. Qed.

Lemma flags_near flags p4 p6 p8 :
  0 ≤ flags < 2 ^ 24 → ham16_near (flags mod 256) p4 → ham16_near (flags / 256 mod 256) p6 → ham16_near (flags / 65536) p8 →
  vbi_unham16p p4 .| (vbi_unham16p p6 ≪ 8) .| (vbi_unham16p p8 ≪ 16) = flags.
Proof.
  intros Hf H4 H6 H8. assert (0 ≤ flags / 65536 < 256) by (split; [apply Z.div_pos|apply Z.div_lt_upper_bound]; lia).
  rewrite (unham16p_near _ _ ltac:(apply Z.mod_pos_bound; lia) H4), (unham16p_near _ _ ltac:(apply Z.mod_pos_bound; lia) H6),
    (unham16p_near _ _ H H8), !Z.shiftl_mul_pow2 by done.
  rewrite (lor_add _ _ 8), (lor_add _ _ 16); Z.to_euclidean_division_equations; lia.
Qed.

Lemma page_number_valid m page : magazine_ok m → is_byte page → 0x100 ≤ m * 256 + page ≤ 0x8FF.
Proof. unfold magazine_ok, is_byte. lia. Qed.

Lemma wanted_contains sf pgno flags :
  pt_ok (keep_ttx_pages sf) → 0x100 ≤ pgno ≤ 0x8FF →
  (if negb (vbi_is_bcd pgno) then Some (keep_ttx_system_pages sf)
   else vbi_page_table_contains_subpage (keep_ttx_pages sf) pgno (flags .& 0x3F7F)) = Some (wanted sf pgno flags).
Proof. intros Hok Hp. unfold wanted. destruct (vbi_is_bcd pgno); cbn [negb]; [by rewrite contains_spec|done]. Qed.

Lemma packet_0_spec serial sf v s m page flags :
  sees serial sf v → carries s (Header m page flags) → mode_ok serial (Header m page flags) →
  ∃ sf' keep, decode_teletext_packet_0 sf (keep_mag_set_next sf) (data s) m = Some (Some (sf', keep)) ∧
    sees serial sf' (spec_step serial (wanted sf) v (Header m page flags)).1 ∧ same_options sf sf' ∧
    negb (keep .& (1 ≪ m) =? 0) = (spec_step serial (wanted sf) v (Header m page flags)).2.
Proof.
  intros [Hok Hbits Hstart Hfresh] (Hm & Hpage & Hf & _ & Hp & H4 & H6 & H8) Hmode. unfold decode_teletext_packet_0.
  rewrite (unham16p_near page _ Hpage Hp). cbn [spec_step]. rewrite (Z.eqb_sym page).
  destruct (Z.ltb_spec page 0); [unfold is_byte in Hpage; lia|].
  destruct (Z.eqb_spec 0xFF page) as [|Hff]; [by exists sf, 0|].
  rewrite (flags_near flags) by done. destruct (Z.ltb_spec flags 0); [lia|].
  destruct Hmode as [|Hmode]; [congruence|]. rewrite serial_bit, Hmode, negb_involutive.
  rewrite wanted_contains by (try apply page_number_valid; done). cbn [mbind option_bind].
  fold (mag_set serial m). set (n := keep_mag_set_next sf) in *.
  destruct (mag_test serial n (passing v) m Hbits Hm) as [Et1 Et2].
  destruct (wanted sf (m * 256 + page) flags).
  { pose proof (mag_join _ _ _ _ Hbits Hm) as Hj. eexists _, _. split; [reflexivity|].
    cbn [fst snd]. split; [by apply sees_set|]. split; [apply same_set|].
    rewrite (proj1 (mag_test _ _ _ _ Hj Hm)). apply bool_decide_eq_true. set_solver. }
  rewrite Et2. destruct (decide (key serial m ∈ passing v)) as [Hin|Hin].
  { rewrite bool_decide_eq_true_2 by done. pose proof (mag_leave _ _ _ _ Hbits Hm). eexists _, n. split; [reflexivity|].
    cbn [fst snd]. split; [by apply sees_set|]. split; [apply same_set|]. by rewrite Et1, bool_decide_eq_true_2. }
  rewrite bool_decide_eq_false_2, Hstart by done. destruct (fresh v) eqn:Ef.
  { rewrite Hfresh in * by done. eexists _, (mag_set serial m). split; [reflexivity|]. cbn [fst snd].
    split; [apply sees_set; [done|apply mag_empty|done..]|]. split; [apply same_set|].
    pose proof (mag_join serial 0 ∅ m (mag_empty _) Hm) as Hj. rewrite Z.lor_0_l in Hj.
    rewrite (proj1 (mag_test _ _ _ _ Hj Hm)). apply bool_decide_eq_true. set_solver. }
  pose proof (mag_leave _ _ _ _ Hbits Hm) as Hl. rewrite difference_disjoint_L in Hl by set_solver.
  eexists _, _. split; [reflexivity|]. cbn [fst snd]. split; [by apply sees_set|]. split; [apply same_set|].
  by rewrite (proj1 (mag_test _ _ _ _ Hl Hm)), bool_decide_eq_false_2.
Qed.

Lemma magazine_near m n s :
  magazine_ok m → 0 ≤ n ≤ 31 → ham16_near (m mod 8 + 8 * n) (data s) →
  vbi_unham16p (data s) = m mod 8 + 8 * n ∧ (if (m mod 8 + 8 * n) .& 7 =? 0 then 8 else (m mod 8 + 8 * n) .& 7) = m ∧
  (m mod 8 + 8 * n) ≫ 3 = n.
Proof.
  intros Hm Hn Hs. unfold magazine_ok in Hm. split; [apply unham16p_near; [Z.to_euclidean_division_equations; lia|done]|].
  rewrite (land_ones_mod _ 3), Z.shiftr_div_pow2 by done. change (2 ^ 3) with 8.
  replace ((m mod 8 + 8 * n) mod 8) with (m mod 8) by (Z.to_euclidean_division_equations; lia).
  destruct (Z.eqb_spec (m mod 8) 0); Z.to_euclidean_division_equations; lia.
Qed.

Lemma decode_spec serial sf v s p :
  sees serial sf v → carries s p → mode_ok serial p → p ≠ Damaged →
  ∃ sf', decode_teletext sf (data s) = Some (Some (sf', (spec_step serial (wanted sf) v p).2)) ∧
    sees serial sf' (spec_step serial (wanted sf) v p).1 ∧ same_options sf sf'.
Proof.
  intros Hs Hc Hmode Hd. unfold decode_teletext. destruct p as [m page flags|m n|]; [..|done].
  - pose proof Hc as (Hm & _ & _ & Hn & _). assert (ham16_near (m mod 8 + 8 * 0) (data s)) as Hn' by (by rewrite Z.mul_0_r, Z.add_0_r).
    destruct (magazine_near m 0 s Hm ltac:(lia) Hn') as (-> & Em & En). rewrite Em, En.
    destruct (Z.ltb_spec (m mod 8 + 8 * 0) 0) as [Hneg|_]; [pose proof (Z.mod_pos_bound m 8); lia|].
    destruct (packet_0_spec serial sf v s m page flags Hs Hc Hmode) as (sf' & keep & E & Hs' & Ho & Hk).
    change (0 =? 0) with true. cbn match. rewrite E. cbn [mbind option_bind]. rewrite Hk. eauto.
  - pose proof Hc as (Hm & Hn1 & Hn). destruct (magazine_near m n s Hm ltac:(lia) Hn) as (-> & Em & En). rewrite Em, En.
    destruct (Z.ltb_spec (m mod 8 + 8 * n) 0) as [Hneg|_]; [pose proof (Z.mod_pos_bound m 8); lia|].
    destruct (Z.eqb_spec n 0); [lia|]. cbn [spec_step fst snd]. destruct (Z.leb_spec n 29); cbn [andb].
    + rewrite (proj1 (mag_test _ _ _ _ (se_bits _ _ _ Hs) Hm)). by exists sf.
    + destruct (Z.leb_spec n 31); [|lia]. by exists sf.
Qed.

Lemma decode_damaged sf s : carries s Damaged → decode_teletext sf (data s) = Some None.
Proof.
  intros Hc. unfold decode_teletext. destruct (Z.ltb_spec (vbi_unham16p (data s)) 0) as [|Hpm]; [done|].
  destruct Hc as [|((m & Hm & Hn) & Hc)]; [lia|].
  assert (ham16_near (m mod 8 + 8 * 0) (data s)) as Hn' by (by rewrite Z.mul_0_r, Z.add_0_r).
  destruct (magazine_near m 0 s Hm ltac:(lia) Hn') as (Epm & Em & En). rewrite Epm, Em, En.
  change (0 =? 0) with true. cbn match. unfold decode_teletext_packet_0.
  destruct (Z.ltb_spec (vbi_unham16p (drop 2 (data s))) 0) as [|Hp]; [done|]. destruct Hc as [|((page & Hb & Hne & Hp') & Hc)]; [lia|].
  rewrite (unham16p_near page) by done. destruct (Z.eqb_spec 0xFF page); [congruence|].
  set (flags := _ .| _ .| _). assert (flags < 0) as Hneg.
  { subst flags. rewrite <-!Z.lor_assoc.
    destruct Hc as [H|[H|H]]; apply Z.lor_neg; [by left|right..]; apply Z.lor_neg; [left|right]; by apply Z.shiftl_neg. }
  by apply Z.ltb_lt in Hneg as ->.
Qed.

(** *** Frames *)

Lemma is_teletext_eq s : (id s =? VBI_SLICED_TELETEXT_B_L10_625) || (id s =? VBI_SLICED_TELETEXT_B_L25_625)
  || (id s =? VBI_SLICED_TELETEXT_B_625) = is_teletext s.
Proof. done. Qed.

Lemma spec_step_ext serial w w' v p : (∀ a b, w a b = w' a b) → spec_step serial w v p = spec_step serial w' v p.
Proof. intros H. destruct p; [|done..]. cbn [spec_step]. by rewrite H. Qed.

Lemma spec_frame_ext serial w w' services max v i l :
  (∀ a b, w a b = w' a b) → spec_frame serial w services max v i l = spec_frame serial w' services max v i l.
Proof.
  intros H. revert max v i. induction l as [|[s p] l IH]; intros max v i; [done|]. cbn [spec_frame].
  destruct (negb (id s .& services =? 0)); [cbv beta iota; by rewrite !IH|]. destruct (is_teletext s); [|cbv beta iota; by rewrite !IH].
  destruct p as [m page flags|m n|]; [rewrite (spec_step_ext _ w w') by done|..].
  1: destruct (spec_step serial w' v (Header m page flags)) as [v' b]. all: cbv beta iota; cbn [spec_step]; by rewrite ?IH.
Qed.

Lemma wanted_same sf sf' a b : same_options sf sf' → wanted sf' a b = wanted sf a b.
Proof. intros (H1 & H2 & _). unfold wanted. by rewrite H1, H2. Qed.

Lemma filter_line_spec serial sf v s p :
  sees serial sf v → (is_teletext s = true → id s .& keep_services sf = 0 → carries s p ∧ mode_ok serial p) →
  let r :=
    if negb (id s .& keep_services sf =? 0) then (v, true, true)
    else if is_teletext s then
      match p with Damaged => (v, false, false) | p => (spec_step serial (wanted sf) v p, true) end
    else (v, false, true) in
  if r.2 then ∃ sf', filter_line sf s = Some (Some (sf', r.1.2)) ∧ sees serial sf' r.1.1 ∧ same_options sf sf'
  else filter_line sf s = Some None.
Proof.
  intros Hs Hp. unfold filter_line. rewrite is_teletext_eq. destruct (Z.eqb_spec (id s .& keep_services sf) 0) as [Hk|Hk]; cbn.
  - destruct (is_teletext s); [|by exists sf]. destruct (Hp eq_refl Hk) as [Hc Hm].
    destruct p as [m page flags|m n|]; cbn.
    1-2: by destruct (decode_spec serial sf v s _ Hs Hc Hm) as (sf' & -> & H1 & H2); [done|exists sf'].
    by apply decode_damaged.
  - by exists sf.
Qed.

(** What the lines of a frame carry; lines of other services may carry anything. *)
Definition frame_carries (serial : bool) (services : Z) (l : list vbi_sliced) (ps : list packet) : Prop :=
  Forall2 (λ s p, is_teletext s = true → id s .& services = 0 → carries s p ∧ mode_ok serial p) l ps.

Lemma filter_loop_spec serial l : ∀ fuel sf v ps (pre outs rest : list vbi_sliced) max,
  sees serial sf v → frame_carries serial (keep_services sf) l ps → (length l ≤ fuel)%nat → (max ≤ length rest)%nat →
  ∃ sf' v' outs' n ok,
    spec_frame serial (wanted sf) (keep_services sf) max v (Z.of_nat (length pre)) (zip l ps) = (v', outs', n, ok) ∧
    filter_loop fuel (λ _, rd (pre ++ l)) sf (outs ++ rest) (Z.of_nat (length outs)) (Z.of_nat (length outs + max))
      (Z.of_nat (length pre)) (Z.of_nat (length (pre ++ l))) =
    Some (Filtered sf' (outs ++ outs' ++ drop (length outs') rest) (Z.of_nat (length outs + length outs')) n ok) ∧
    sees serial sf' v' ∧ same_options sf sf' ∧ (length outs' ≤ max)%nat.
Proof.
  induction l as [|s l IH]; intros fuel sf v ps pre outs rest max Hs Hc Hf Hmax.
  - inversion Hc; subst. cbn [zip zip_with spec_frame]. exists sf, v, [], (Z.of_nat (length pre)), true.
    split; [done|]. rewrite app_nil_r. destruct fuel; cbn [filter_loop]; rewrite Z.ltb_irrefl, Nat.add_0_r; (split; [done|]); (split; [done|]); (split; [done|]); cbn; lia.
  - inversion Hc as [|? p ? ps' Hp Hc' E1 E2]; subst. destruct fuel as [|fuel]; [cbn in Hf; lia|].
    cbn [zip zip_with spec_frame filter_loop].
    destruct (Z.ltb_spec (Z.of_nat (length pre)) (Z.of_nat (length (pre ++ s :: l)))) as [_|Hbad];
      [|rewrite length_app in Hbad; cbn in Hbad; lia].
    assert (rd (pre ++ s :: l) (Z.of_nat (length pre)) = Some s) as ->.
    { unfold rd. rewrite decide_True, Nat2Z.id by lia. by apply list_lookup_middle. }
    cbn [mbind option_bind]. pose proof (filter_line_spec serial sf v s p Hs Hp) as Hline. cbv zeta in Hline.
    destruct (if negb (id s .& keep_services sf =? 0) then (v, true, true) else _) as [[v1 pass] ok1] eqn:Er.
    cbn [fst snd] in Hline. destruct ok1; cbn [negb orb].
    2:{ rewrite Hline. cbn [mbind option_bind]. eexists sf, v1, [], _, false. split; [reflexivity|]. rewrite Nat.add_0_r.
        assert (v1 = v) as -> by (destruct (negb _), (is_teletext s), p; cbn in Er; congruence).
        (split; [done|]); (split; [done|]); (split; [done|]); cbn; lia. }
    destruct Hline as (sf1 & -> & Hs1 & Ho1). cbn [mbind option_bind].
    replace (Z.of_nat (length pre) + 1) with (Z.of_nat (length (pre ++ [s]))) by (rewrite length_app; cbn; lia).
    assert (pre ++ s :: l = (pre ++ [s]) ++ l) as -> by (by rewrite <-app_assoc).
    pose proof Ho1 as (_ & _ & Hsv & _). destruct pass; cbn [andb].
    + destruct max as [|max]; cbn [Nat.eqb].
      { rewrite Nat.add_0_r. destruct (Z.leb_spec (Z.of_nat (length outs)) (Z.of_nat (length outs))); [|lia].
        eexists sf1, v1, [], _, false. split; [reflexivity|]. rewrite Nat.add_0_r. (split; [done|]); (split; [done|]); (split; [done|]); cbn; lia. }
      destruct rest as [|r rest]; [cbn in Hmax; lia|].
      destruct (Z.leb_spec (Z.of_nat (length outs + S max)) (Z.of_nat (length outs))); [lia|].
      rewrite wr_app by lia. cbn [mbind option_bind pred].
      destruct (IH fuel sf1 v1 ps' (pre ++ [s]) (outs ++ [s]) rest max) as (sf' & v' & outs' & n & ok & E & El & Hs' & Ho & Hl);
        [done|by rewrite Hsv|cbn in *; lia..|].
      rewrite (spec_frame_ext _ _ (wanted sf)) in E by (intros; by apply wanted_same). rewrite Hsv in E. rewrite E.
      exists sf', v', (s :: outs'), n, ok. split; [done|].
      rewrite <-!(app_assoc outs [s]) in El. cbn [app] in El. rewrite length_app in El. cbn [length] in El.
      replace (Z.of_nat (length outs) + 1) with (Z.of_nat (length outs + 1)) by lia.
      replace (length outs + S max)%nat with (length outs + 1 + max)%nat by lia. rewrite El. cbn [length drop app].
      split; [by rewrite <-Nat.add_assoc|]. split; [done|].
      split; [|lia]. destruct Ho as (?&?&?&?), Ho1 as (?&?&?&?). unfold same_options. split_and!; congruence.
    + destruct (IH fuel sf1 v1 ps' (pre ++ [s]) outs rest max) as (sf' & v' & outs' & n & ok & E & El & Hs' & Ho & Hl);
        [done|by rewrite Hsv|cbn in *; lia..|].
      rewrite (spec_frame_ext _ _ (wanted sf)) in E by (intros; by apply wanted_same). rewrite Hsv in E. rewrite E.
      exists sf', v', outs', n, ok. split; [done|]. split; [exact El|]. split; [done|].
      split; [|lia]. destruct Ho as (?&?&?&?), Ho1 as (?&?&?&?). unfold same_options. split_and!; congruence.
Qed.

Lemma sees_reset serial sf : pt_ok (keep_ttx_pages sf) → sees serial (vbi_sliced_filter_reset sf) (View ∅ true).
Proof. intros Hok. split; [done|apply mag_empty|done..]. Qed.

Lemma cor_spec serial sf v lines ps out_array max :
  sees serial sf v → frame_carries serial (keep_services sf) lines ps → (max ≤ length out_array)%nat →
  ∃ sf' v' passed n ok,
    spec_frame serial (wanted sf) (keep_services sf) max v 0 (zip lines ps) = (v', passed, n, ok) ∧
    vbi_sliced_filter_cor sf out_array (Z.of_nat max) lines (Z.of_nat (length lines)) =
      Some (Filtered sf' (passed ++ drop (length passed) out_array) (Z.of_nat (length passed)) n ok) ∧
    sees serial sf' v' ∧ same_options sf sf' ∧ (length passed ≤ max)%nat.
Proof.
  intros Hs Hc Hmax.
  destruct (filter_loop_spec serial lines (length lines) sf v ps [] [] out_array max) as (sf' & v' & outs & n & ok & E);
    [done..|]. by exists sf', v', outs, n, ok.
Qed.

(** The filter is a selection of packets. After a reset and from then on, for
    transmissions in serial and in parallel mode with up to one bit error in each byte,
    it passes the lines of the kept services, the headers and rows of wanted pages, the
    next header behind a wanted page (of the same magazine, in parallel mode), and the
    very first header. It stops at a line with an uncorrectable error, or when the
    output is full, with what it passed so far and the number of lines read, and can go
    on behind it. *)
Theorem sliced_filter_cor_refines (serial : bool) (sf : vbi_sliced_filter) :
  (pt_ok (keep_ttx_pages sf) → sees serial (vbi_sliced_filter_reset sf) (View ∅ true)) ∧
  ∀ v lines ps out_array max,
  sees serial sf v → frame_carries serial (keep_services sf) lines ps → (max ≤ length out_array)%nat →
  ∃ sf' v' passed n ok,
    spec_frame serial (wanted sf) (keep_services sf) max v 0 (zip lines ps) = (v', passed, n, ok) ∧
    vbi_sliced_filter_cor sf out_array (Z.of_nat max) lines (Z.of_nat (length lines)) =
      Some (Filtered sf' (passed ++ drop (length passed) out_array) (Z.of_nat (length passed)) n ok) ∧
    sees serial sf' v' ∧ same_options sf sf' ∧ (length passed ≤ max)%nat.
Proof.
  split; [apply sees_reset|]. intros v lines ps out_array max. apply cor_spec.
Qed.

(** *** One array for input and output *)

(** The lines that are still to be read have not been overwritten. *)
Lemma filter_loop_in_place lines fuel : ∀ sf arr arr2 out max i n,
  0 ≤ out ≤ i → length arr = length lines → max ≤ Z.of_nat (length arr2) → n ≤ Z.of_nat (length lines) →
  (∀ j, (Z.to_nat i ≤ j)%nat → arr !! j = lines !! j) → take (Z.to_nat out) arr = take (Z.to_nat out) arr2 →
  match filter_loop fuel (λ _, rd lines) sf arr2 out max i n, filter_loop fuel rd sf arr out max i n with
  | Some r2, Some r =>
      f_sf r = f_sf r2 ∧ f_n_out r = f_n_out r2 ∧ f_n_in r = f_n_in r2 ∧ f_ok r = f_ok r2 ∧
      take (Z.to_nat (f_n_out r)) (f_out r) = take (Z.to_nat (f_n_out r2)) (f_out r2)
  | None, None => True
  | _, _ => False
  end.
Proof.
  induction fuel as [|fuel IH]; intros sf arr arr2 out max i n Hout Hlen Hmax Hn Hsame Htake; cbn [filter_loop];
    destruct (Z.ltb_spec i n); [done|by cbn|..|by cbn].
  assert (rd arr i = rd lines i) as Hrd.
  { unfold rd. destruct (decide (0 ≤ i)); [|done]. by apply Hsame. }
  rewrite Hrd. destruct (rd lines i) as [s|] eqn:Es; cbn [mbind option_bind]; [|done].
  destruct (filter_line sf s) as [[[sf1 pass]|]|]; cbn [mbind option_bind]; [|done..].
  destruct pass.
  - destruct (Z.leb_spec max out); [done|]. unfold wr. rewrite !decide_True by lia. cbn [mbind option_bind].
    apply IH; rewrite ?length_insert; try lia.
    + intros j Hj. rewrite list_lookup_insert_ne by lia. apply Hsame. lia.
    + replace (Z.to_nat (out + 1)) with (S (Z.to_nat out)) by lia.
      rewrite !(take_S_r _ _ s) by (apply list_lookup_insert_eq; lia). by rewrite !take_insert_ge, Htake by lia.
  - apply IH; try lia; [|done]. intros j Hj. apply Hsame. lia.
Qed.

(** The output array may be the input array: the lines passed, the numbers, the
    result and the context are those with a separate output array. *)
Theorem sliced_filter_in_place (sf : vbi_sliced_filter) (sliced out_array : list vbi_sliced) (max n : Z) :
  max ≤ Z.of_nat (length out_array) → n ≤ Z.of_nat (length sliced) →
  match vbi_sliced_filter_cor sf out_array max sliced n, filter_in_place sf sliced max n with
  | Some r2, Some r =>
      f_sf r = f_sf r2 ∧ f_n_out r = f_n_out r2 ∧ f_n_in r = f_n_in r2 ∧ f_ok r = f_ok r2 ∧
      take (Z.to_nat (f_n_out r)) (f_out r) = take (Z.to_nat (f_n_out r2)) (f_out r2)
  | None, None => True
  | _, _ => False
  end.
Proof. intros Hmax Hn. by apply filter_loop_in_place. Qed.

(** *** Pages *)

(** The packets of a stream without limits or errors. *)
Fixpoint spec_stream (serial : bool) (wants : Z → Z → bool) (v : view) (l : list (vbi_sliced * packet)) : view * list vbi_sliced :=
  match l with
  | [] => (v, [])
  | (s, p) :: l =>
      let '(v, pass) := spec_step serial wants v p in
      let '(v, out) := spec_stream serial wants v l in
      (v, if (pass : bool) then s :: out else out)
  end.

Lemma spec_stream_app serial wants v l1 l2 :
  spec_stream serial wants v (l1 ++ l2) =
  let '(v1, out1) := spec_stream serial wants v l1 in
  let '(v2, out2) := spec_stream serial wants v1 l2 in (v2, out1 ++ out2).
Proof.
  revert v. induction l1 as [|[s p] l1 IH]; intros v; cbn [app spec_stream].
  - by destruct (spec_stream serial wants v l2).
  - destruct (spec_step serial wants v p) as [v1 pass]. rewrite IH. destruct (spec_stream serial wants v1 l1) as [v2 out].
    destruct (spec_stream serial wants v2 l2). by destruct pass.
Qed.

Definition plain (services : Z) (x : vbi_sliced * packet) : Prop :=
  is_teletext x.1 = true ∧ id x.1 .& services = 0 ∧ x.2 ≠ Damaged.

Lemma spec_frame_stream serial wants services l : ∀ max v i,
  Forall (plain services) l → (length l ≤ max)%nat →
  spec_frame serial wants services max v i l =
  ((spec_stream serial wants v l).1, (spec_stream serial wants v l).2, i + Z.of_nat (length l), true).
Proof.
  induction l as [|[s p] l IH]; intros max v i Hl Hmax; cbn [spec_frame spec_stream length fst snd].
  { by rewrite Z.add_0_r. }
  inversion Hl as [|? ? (H1 & H2 & H3) Hl']; subst. cbn [fst snd] in *. rewrite H2, H1. cbn [negb Z.eqb].
  replace (match p with Damaged => (v, false, false) | _ => (spec_step serial wants v p, true) end)
    with (spec_step serial wants v p, true) by (by destruct p).
  destruct (spec_step serial wants v p) as [v1 pass]. cbn [negb orb].
  destruct max as [|max]; [cbn in Hmax; lia|]. cbn [Nat.eqb]. rewrite andb_false_r. cbn [length] in Hmax.
  rewrite IH; [|done|destruct pass; cbn; lia]. destruct (spec_stream serial wants v1 l) as [v2 out]. cbn [fst snd].
  replace (i + 1 + Z.of_nat (length l)) with (i + Z.of_nat (S (length l))) by lia. by destruct pass.
Qed.

(** A page as it is transmitted. *)
Record sliced_filter_page := Page { p_m : Z; p_page : Z; p_flags : Z; p_header : vbi_sliced; p_rows : list vbi_sliced }.
Definition page_lines (pg : sliced_filter_page) : list vbi_sliced := p_header pg :: p_rows pg.
Definition page_wanted (sf : vbi_sliced_filter) (pg : sliced_filter_page) : bool := wanted sf (p_m pg * 256 + p_page pg) (p_flags pg).

Definition transmits (services : Z) (pg : sliced_filter_page) : Prop :=
  Forall (λ s, is_teletext s = true ∧ id s .& services = 0) (page_lines pg) ∧
  carries (p_header pg) (Header (p_m pg) (p_page pg) (p_flags pg)) ∧ p_page pg ≠ 0xFF ∧ serial_flag (p_flags pg) = true ∧
  Forall (λ s, ∃ n, n ≤ 29 ∧ carries s (Row (p_m pg) n)) (p_rows pg).

(** Wanted pages whole, and the header of a page that follows one of them. *)
Fixpoint selected (wants : sliced_filter_page → bool) (before : bool) (pages : list sliced_filter_page) : list vbi_sliced :=
  match pages with
  | [] => []
  | pg :: pages =>
      (if wants pg then page_lines pg else if (before : bool) then [p_header pg] else [])
      ++ selected wants (wants pg) pages
  end.

Lemma zip_app {A B} (l1 l2 : list A) (m1 m2 : list B) :
  length l1 = length m1 → zip (l1 ++ l2) (m1 ++ m2) = zip l1 m1 ++ zip l2 m2.
Proof. revert m1. induction l1 as [|x l1 IH]; intros [|y m1] H; try done. cbn. f_equal. apply IH. by injection H. Qed.

Lemma spec_rows wants v m rows :
  Forall (λ s, ∃ n, n ≤ 29 ∧ carries s (Row m n)) rows →
  ∃ ps, Forall2 (λ s p, carries s p ∧ mode_ok true p ∧ p ≠ Damaged) rows ps ∧
    spec_stream true wants v (zip rows ps) = (v, if decide (0 ∈ passing v) then rows else []).
Proof.
  induction 1 as [|s rows (n & Hn & Hs) _ (ps & Hps & E)].
  - exists []. split; [constructor|]. by destruct (decide _).
  - exists (Row m n :: ps). split; [by constructor|]. cbn [zip zip_with spec_stream spec_step]. fold (zip rows ps). rewrite E.
    destruct (Z.leb_spec n 29); [|lia]. cbn [andb key].
    destruct (decide (0 ∈ passing v)); [by rewrite bool_decide_eq_true_2|by rewrite bool_decide_eq_false_2].
Qed.

Lemma spec_pages wants services pages : ∀ v,
  passing v ⊆ {[0]} → (fresh v = true → passing v = ∅) → Forall (transmits services) pages →
  ∃ ps v', Forall2 (λ s p, carries s p ∧ mode_ok true p ∧ p ≠ Damaged) (concat (map page_lines pages)) ps ∧
    spec_stream true wants v (zip (concat (map page_lines pages)) ps) =
      (v', selected (λ pg, wants (p_m pg * 256 + p_page pg) (p_flags pg)) (fresh v || bool_decide (0 ∈ passing v)) pages).
Proof.
  induction pages as [|pg pages IH]; intros v Hv Hfr Hp; [exists [], v; split; [constructor|done]|].
  inversion Hp as [|? ? (Hid & Hh & Hff & Hser & Hrows) Hp']; subst.
  assert (0 ∈@{gset Z} {[0]} ∧ 0 ∉@{gset Z} ∅) as [Hin1 Hin0] by set_solver.
  set (w := λ pg, wants (p_m pg * 256 + p_page pg) (p_flags pg)).
  set (step := spec_step true wants v (Header (p_m pg) (p_page pg) (p_flags pg))).
  assert (step.1 = View (if w pg then {[0]} else ∅) false ∧ step.2 = w pg || fresh v || bool_decide (0 ∈ passing v)) as [E1 E2].
  { subst step w. cbn [spec_step key]. apply Z.eqb_neq in Hff as ->. destruct (wants _ _); cbn [fst snd orb].
    - split; [|done]. f_equal. set_solver.
    - destruct (decide (0 ∈ passing v)) as [Hin|Hin]; cbn [fst snd].
      + rewrite bool_decide_eq_true_2, orb_true_r by done. split; [|done]. f_equal. set_solver.
      + rewrite bool_decide_eq_false_2, orb_false_r by done. split; [|done]. f_equal. set_solver. }
  rewrite <-orb_assoc in E2. set (before := fresh v || bool_decide (0 ∈ passing v)) in *.
  destruct (spec_rows wants step.1 (p_m pg) (p_rows pg) Hrows) as (ps1 & Hps1 & Er).
  destruct (IH step.1) as (ps2 & v2 & Hps2 & Ep); [rewrite E1; cbn; destruct (w pg); set_solver|by rewrite E1|done|].
  exists (Header (p_m pg) (p_page pg) (p_flags pg) :: ps1 ++ ps2), v2. cbn [map concat page_lines app]. split.
  - constructor; [split; [done|]; split; [by right|done]|]. by apply Forall2_app.
  - pose proof (Forall2_length Hps1) as Hl1.
    assert (∀ (x : vbi_sliced * packet) l1 l2 (m1 m2 : list packet), length l1 = length m1 →
      zip (x.1 :: l1 ++ l2) (x.2 :: m1 ++ m2) = x :: zip l1 m1 ++ zip l2 m2) as Hz
      by (intros [??] * H; rewrite <-zip_with_app by done; done).
    rewrite (Hz (p_header pg, Header (p_m pg) (p_page pg) (p_flags pg))) by done. cbn [spec_stream]. fold step.
    destruct step as [v1 pass] eqn:Estep. cbn [fst snd] in *. rewrite spec_stream_app, Er, Ep, E1, E2. cbn [selected fresh passing orb].
    fold (w pg). destruct (w pg); cbn [orb].
    + by rewrite decide_True, bool_decide_eq_true_2 by exact Hin1.
    + rewrite decide_False, bool_decide_eq_false_2 by exact Hin0. cbn [app]. by destruct before.
Qed.

(** Frames fed to the filter one after the other; the client keeps what it gets. *)
Fixpoint feed_frames (realloc : Z → bool) (sf : vbi_sliced_filter) (junk : list vbi_sliced) (frames : list (list vbi_sliced))
    (c : list vbi_sliced) : option (vbi_sliced_filter * bool * list vbi_sliced) :=
  match frames with
  | [] => Some (sf, true, c)
  | f :: frames =>
      '(sf, _, ok, c) ← vbi_sliced_filter_feed (Some (λ c l, (c ++ l, true))) realloc sf junk f (Z.of_nat (length f)) c;
      if (ok : bool) then feed_frames realloc sf junk frames c else Some (sf, false, c)
  end.

Lemma grow_output_spec realloc sf junk n :
  realloc (n * sizeof_sliced) = true → (50 ≤ length junk)%nat → 0 ≤ n ≤ 50 →
  ∃ sf', grow_output realloc sf junk n = Some sf' ∧ n ≤ output_max_lines sf' ∧
    sf' = set_output (output_buffer sf') sf.
Proof.
  intros Hr Hj Hn. unfold grow_output. destruct (Z.ltb_spec (output_max_lines sf) n).
  - rewrite Z.min_l, Hr by lia. eexists. split; [reflexivity|]. split; [|done].
    unfold output_max_lines. cbn [output_buffer set_output]. rewrite length_take, length_app. lia.
  - exists sf. split; [done|]. split; [done|]. by destruct sf.
Qed.

Lemma feed_frames_spec realloc junk serial frames : ∀ sf v ps c,
  sees serial sf v → Forall (λ f, realloc (Z.of_nat (length f) * sizeof_sliced) = true ∧ (length f ≤ 50)%nat) frames →
  (50 ≤ length junk)%nat →
  Forall (λ s, is_teletext s = true ∧ id s .& keep_services sf = 0) (concat frames) →
  Forall2 (λ s p, carries s p ∧ mode_ok serial p ∧ p ≠ Damaged) (concat frames) ps →
  ∃ sf', feed_frames realloc sf junk frames c =
    Some (sf', true, c ++ (spec_stream serial (wanted sf) v (zip (concat frames) ps)).2).
Proof.
  induction frames as [|f frames IH]; intros sf v ps c Hs Hfr Hj Hid Hps; cbn [feed_frames concat].
  { inversion Hps; subst. exists sf. by rewrite app_nil_r. }
  inversion Hfr as [|? ? [Hr Hl] Hfr']; subst. cbn [concat] in Hid, Hps.
  apply Forall_app in Hid as [Hid1 Hid2]. apply Forall2_app_inv_l in Hps as (ps1 & ps2 & Hps1 & Hps2 & ->).
  unfold vbi_sliced_filter_feed.
  destruct (grow_output_spec realloc sf junk (Z.of_nat (length f)) Hr Hj ltac:(lia)) as (sf1 & -> & Hmax & Eq).
  assert (sees serial sf1 v) as Hs1 by (rewrite Eq; by destruct Hs).
  assert (keep_services sf1 = keep_services sf) as Ek by (by rewrite Eq).
  assert (∀ a b, wanted sf1 a b = wanted sf a b) as Ew by (intros; by rewrite Eq).
  pose proof (Forall2_length Hps1) as Hl1.
  assert (Forall (plain (keep_services sf)) (zip f ps1)) as Hplain.
  { clear -Hid1 Hps1. induction Hps1 as [|s p f ps1 (H1 & H2 & H3) _ IH]; [constructor|].
    inversion Hid1 as [|? ? [H4 H5] H6]; subst. cbn. constructor; [done|]. by apply IH. }
  destruct (cor_spec serial sf1 v f ps1 (output_buffer sf1) (length (output_buffer sf1)) Hs1)
    as (sf2 & v2 & outs & n & ok & E & Ecor & Hs2 & Ho & Hlo); [|done|].
  { rewrite Ek. unfold frame_carries. revert Hps1. apply Forall2_impl. by intros s p (H1 & H2 & H3). }
  unfold output_max_lines in *. rewrite Ecor. cbn [mbind option_bind f_out f_sf f_ok f_n_out f_n_in].
  rewrite Ek, (spec_frame_ext _ _ (wanted sf)) in E by exact Ew.
  rewrite spec_frame_stream in E by (exact Hplain || (rewrite length_zip_with_l_eq by done; lia)).
  injection E as Ev Eo _ <-. cbn [negb]. rewrite Nat2Z.id, take_app_length. cbn [mbind option_bind].
  set (sf3 := set_output _ sf2). destruct Ho as (Ho1 & Ho2 & Ho3 & _).
  assert (sees serial sf3 v2) as Hs3 by (by destruct Hs2).
  assert (∀ a b, wanted sf3 a b = wanted sf a b) as Ew3.
  { intros. rewrite <-Ew. unfold wanted. cbn. by rewrite Ho1, Ho2. }
  destruct (IH sf3 v2 ps2 (c ++ outs)) as (sf' & E2); [done|done|done|by cbn; rewrite Ho3, Ek|done|].
  exists sf'. rewrite E2, zip_app, spec_stream_app by done.
  destruct (spec_stream serial (wanted sf) v (zip f ps1)) as [v2' o1]. cbn [fst snd] in *. subst v2' o1.
  rewrite <-app_assoc. do 4 f_equal.
  assert (∀ l v, spec_stream serial (wanted sf3) v l = spec_stream serial (wanted sf) v l) as Hext.
  { clear -Ew3. induction l as [|[s p] l IH]; intros v; [done|]. cbn [spec_stream]. rewrite (spec_step_ext _ _ (wanted sf)) by done.
    destruct (spec_step _ _ _ p). by rewrite IH. }
  rewrite Hext. by destruct (spec_stream serial (wanted sf) v2 _).
Qed.

(** C10: pages transmitted in serial mode, in frames of up to 50 lines that need not
    end where a page does: after a reset the client gets the wanted pages whole, the
    header behind each of them, which ends the page, and the very first header, and
    nothing else. *)
Theorem sliced_filter_pages (realloc : Z → bool) (junk : list vbi_sliced) (sf : vbi_sliced_filter) (pages : list sliced_filter_page)
    (frames : list (list vbi_sliced)) (c : list vbi_sliced) :
  pt_ok (keep_ttx_pages sf) → (50 ≤ length junk)%nat →
  Forall (λ f, realloc (Z.of_nat (length f) * sizeof_sliced) = true ∧ (length f ≤ 50)%nat) frames →
  Forall (transmits (keep_services sf)) pages → concat frames = concat (map page_lines pages) →
  ∃ sf', feed_frames realloc (vbi_sliced_filter_reset sf) junk frames c =
    Some (sf', true, c ++ selected (page_wanted sf) true pages).
Proof.
  intros Hok Hj Hfr Hp E.
  destruct (spec_pages (wanted sf) (keep_services sf) pages (View ∅ true)) as (ps & v' & Hps & Es); [set_solver|done|done|].
  destruct (feed_frames_spec realloc junk true frames (vbi_sliced_filter_reset sf) (View ∅ true) ps c) as (sf' & Ef);
    [by apply sees_reset|done|done| |by rewrite E|].
  - rewrite E. clear -Hp. induction Hp as [|pg pages (H & _) _ IH]; [constructor|]. cbn [map concat]. by apply Forall_app.
  - exists sf'. rewrite Ef, E. do 3 f_equal. change (wanted (vbi_sliced_filter_reset sf)) with (wanted sf).
    rewrite Es. done.
Qed.

(** *** Examples *)

Definition ham16 (v : Z) : list Z := [vbi_ham8 (v mod 16); vbi_ham8 (v / 16)].
Definition header_line (m page flags : Z) : vbi_sliced :=
  Sliced VBI_SLICED_TELETEXT_B_625 7
    (ham16 (m mod 8) ++ ham16 page ++ ham16 (flags mod 256) ++ ham16 (flags / 256 mod 256) ++ ham16 (flags / 65536) ++ repeat 0x20 46).
Definition row_line (m n : Z) : vbi_sliced := Sliced VBI_SLICED_TELETEXT_B_625 8 (ham16 (m mod 8 + 8 * n) ++ repeat 0x20 54).

Lemma ham16_near_self v l : ham16_near v (ham16 v ++ l).
Proof. split; left; reflexivity. Qed.

Lemma header_carries m page flags :
  magazine_ok m → is_byte page → 0 ≤ flags < 2 ^ 24 → carries (header_line m page flags) (Header m page flags).
Proof. intros Hm Hp Hf. split; [done|]. split; [done|]. split; [done|]. split_and!; apply ham16_near_self. Qed.

Lemma row_carries m n : magazine_ok m → 1 ≤ n ≤ 31 → carries (row_line m n) (Row m n).
Proof. intros Hm Hn. split; [done|]. split; [done|]. apply ham16_near_self. Qed.

Definition example_page (page : Z) : sliced_filter_page :=
  Page 1 page 0x100000 (header_line 1 page 0x100000) [row_line 1 1; row_line 1 24].
Definition example_pages : list sliced_filter_page := [example_page 0x00; example_page 0x20; example_page 0x21; example_page 0x22].
Definition example_filter : vbi_sliced_filter :=
  match vbi_sliced_filter_keep_ttx_pages (λ _, true) vbi_sliced_filter_new 0x120 0x120 with
  | Some (sf, _) => sf | None => vbi_sliced_filter_new end.

Lemma example_filter_ok : pt_ok (keep_ttx_pages example_filter).
Proof.
  destruct (add_pages_updated (λ _, true) vbi_page_table_new 0x120 0x120) as (pt & E & Hu); [apply new_ok|lia|lia|].
  assert (keep_ttx_pages example_filter = pt) as -> by (vm_compute in E; injection E as <-; reflexivity).
  exact (updated_ok orb _ _ _ _ (λ x, eq_refl) new_ok Hu).
Qed.

Lemma example_page_ok page : is_byte page → page ≠ 0xFF → transmits 0 (example_page page).
Proof.
  intros Hb Hne. split; [repeat constructor|]. split; [by apply header_carries|]. split; [done|]. split; [done|].
  repeat constructor; eexists; (split; [|by apply row_carries]); done.
Qed.

Lemma sliced_filter_pages_witness :
  ∃ sf', feed_frames (λ _, true) (vbi_sliced_filter_reset example_filter) (repeat (Sliced 0 0 []) 50)
      [take 4 (concat (map page_lines example_pages)); drop 4 (concat (map page_lines example_pages))] [] =
    Some (sf', true, [header_line 1 0x00 0x100000; header_line 1 0x20 0x100000; row_line 1 1; row_line 1 24;
                      header_line 1 0x21 0x100000]).
Proof.
  destruct (sliced_filter_pages (λ _, true) (repeat (Sliced 0 0 []) 50) example_filter example_pages
    [take 4 (concat (map page_lines example_pages)); drop 4 (concat (map page_lines example_pages))] [])
    as (sf' & E).
  - apply example_filter_ok.
  - cbn. lia.
  - repeat constructor; cbn; lia.
  - assert (keep_services example_filter = 0) as -> by (vm_compute; reflexivity). unfold example_pages.
    do 4 (apply List.Forall_cons; [by apply example_page_ok|]). apply List.Forall_nil.
  - cbn [concat]. rewrite app_nil_r. apply take_drop.
  - exists sf'. rewrite E. vm_compute. reflexivity.
Defined.

Lemma sliced_filter_cor_refines_witness :
  ∃ sf' v' passed n ok,
    vbi_sliced_filter_cor (vbi_sliced_filter_reset example_filter) (repeat (Sliced 0 0 []) 3) 3
      [header_line 2 0x20 0; Sliced VBI_SLICED_VPS 16 []; header_line 1 0x20 0; row_line 1 5; row_line 2 5] 5 =
      Some (Filtered sf' (passed ++ drop (length passed) (repeat (Sliced 0 0 []) 3)) (Z.of_nat (length passed)) n ok) ∧
    sees false sf' v' ∧ passed = [header_line 2 0x20 0; header_line 1 0x20 0; row_line 1 5].
Proof.
  destruct (sliced_filter_cor_refines false (vbi_sliced_filter_reset example_filter)) as [Hinit Hcor].
  destruct (Hcor (View ∅ true) [header_line 2 0x20 0; Sliced VBI_SLICED_VPS 16 []; header_line 1 0x20 0; row_line 1 5; row_line 2 5]
    [Header 2 0x20 0; Damaged; Header 1 0x20 0; Row 1 5; Row 2 5] (repeat (Sliced 0 0 []) 3) 3%nat)
    as (sf' & v' & passed & n & ok & Es & Ec & Hs & _).
  - apply Hinit, example_filter_ok.
  - unfold frame_carries. apply List.Forall2_cons; [intros _ _; split; [by apply header_carries|right; reflexivity]|].
    apply List.Forall2_cons; [intros H; discriminate H|].
    apply List.Forall2_cons; [intros _ _; split; [by apply header_carries|right; reflexivity]|].
    do 2 (apply List.Forall2_cons; [intros _ _; split; [by apply row_carries|exact I]|]). apply List.Forall2_nil.
  - cbn. lia.
  - exists sf', v', passed, n, ok. split; [exact Ec|]. split; [exact Hs|]. vm_compute in Es. by injection Es.
Defined.

Lemma sliced_filter_in_place_witness :
  match vbi_sliced_filter_cor example_filter (repeat (Sliced 0 0 []) 2) 2 [header_line 1 0x20 0; row_line 2 1; row_line 1 1] 3,
    filter_in_place example_filter [header_line 1 0x20 0; row_line 2 1; row_line 1 1] 2 3 with
  | Some r2, Some r => f_n_out r = 2 ∧ take (Z.to_nat (f_n_out r)) (f_out r) = take (Z.to_nat (f_n_out r2)) (f_out r2)
  | _, _ => False
  end.
Proof.
  pose proof (sliced_filter_in_place example_filter [header_line 1 0x20 0; row_line 2 1; row_line 1 1] (repeat (Sliced 0 0 []) 2) 2 3
    ltac:(done) ltac:(done)) as H.
  revert H. vm_compute. intros H. split; [done|]. apply H.
Defined.
