(* ===== verification/Event.v ===== *)
(** Lists of event handlers: [src/src/event.c]. Handlers may change the list that is
    being traversed and send events themselves, so sending is a machine with a stack of
    the work that is left to do. *)
From S2P Require Import Prelude.

(** [struct _vbi_event_handler_rec], with its address. *)
Record vbi_event_handler_rec := HandlerRec {
  address : Z; callback : Z; user_data : Z; rec_mask : Z; remove : bool
}.

(** [_vbi_event_handler_list]: [first] are the linked records, in order. *)
Record handler_list := HandlerList { first : list vbi_event_handler_rec; event_mask : Z; ref_count : Z }.

Definition set_rec_mask (m : Z) (eh : vbi_event_handler_rec) : vbi_event_handler_rec :=
  HandlerRec (address eh) (callback eh) (user_data eh) m (remove eh).
Definition set_remove (eh : vbi_event_handler_rec) : vbi_event_handler_rec :=
  HandlerRec (address eh) (callback eh) (user_data eh) (rec_mask eh) true.

Definition _vbi_event_handler_list_init : handler_list := HandlerList [] 0 0.

(** Unlinks a record, or marks it for removal during a traversal. *)
Definition unlink (el : handler_list) (eh : vbi_event_handler_rec) : list vbi_event_handler_rec :=
  if ref_count el =? 0 then [] else [set_remove eh].

Definition _vbi_event_handler_list_remove_by_event (el : handler_list) (mask : Z) : handler_list :=
  let clear_mask := u32 (Z.lnot mask) in
  let visit eh :=
    let eh := set_rec_mask (rec_mask eh .& clear_mask) eh in
    if rec_mask eh =? 0 then unlink el eh else [eh] in
  HandlerList (concat (map visit (first el))) (event_mask el .& clear_mask) (ref_count el).

Definition _vbi_event_handler_list_remove (el : handler_list) (eh : Z) : handler_list :=
  let visit eh1 := if address eh1 =? eh then unlink el eh1 else [eh1] in
  let union u eh1 := if address eh1 =? eh then u else u .| rec_mask eh1 in
  HandlerList (concat (map visit (first el))) (fold_left union (first el) 0) (ref_count el).

(** The loop: the list, [event_union] and [found]. *)
Fixpoint add_loop (el : handler_list) (mask cb data : Z) (l : list vbi_event_handler_rec) (union : Z) (found : option Z)
    : list vbi_event_handler_rec * Z * option Z :=
  match l with
  | [] => ([], union, found)
  | eh :: l =>
      if (callback eh =? cb) && (user_data eh =? data) then
        if mask =? 0 then
          let '(l, union, found) := add_loop el mask cb data l union found in
          (unlink el eh ++ l, union, found)
        else
          let eh := set_rec_mask mask eh in
          let '(l, union, found) := add_loop el mask cb data l (union .| rec_mask eh) (Some (address eh)) in
          (eh :: l, union, found)
      else
        let '(l, union, found) := add_loop el mask cb data l (union .| rec_mask eh) found in
        (eh :: l, union, found)
  end.

(** [malloc] is what the C library returns, [None] for NULL. *)
Definition _vbi_event_handler_list_add (malloc : option Z) (el : handler_list) (mask cb data : Z)
    : handler_list * option Z :=
  let '(l, union, found) := add_loop el mask cb data (first el) 0 None in
  match found, malloc with
  | None, Some p =>
      if negb (mask =? 0) then
        (HandlerList (l ++ [HandlerRec p cb data mask false]) (union .| mask) (ref_count el), Some p)
      else (HandlerList l union (ref_count el), None)
  | found, _ => (HandlerList l union (ref_count el), found)
  end.

Definition _vbi_event_handler_list_remove_by_callback (malloc : option Z) (el : handler_list) (cb data : Z) : handler_list :=
  (_vbi_event_handler_list_add malloc el 0 cb data).1.

Definition _vbi_event_handler_list_destroy (el : handler_list) : handler_list :=
  let el := _vbi_event_handler_list_remove_by_event el (-1) in
  HandlerList [] 0 0.

(** ** Sending *)

Fixpoint find_rec (l : list vbi_event_handler_rec) (p : Z) : option vbi_event_handler_rec :=
  match l with
  | [] => None
  | eh :: l => if address eh =? p then Some eh else find_rec l p
  end.

(** [eh->next]: [None] when there is no record at [p]. *)
Fixpoint next_of (l : list vbi_event_handler_rec) (p : Z) : option (option Z) :=
  match l with
  | [] => None
  | eh :: l => if address eh =? p then Some (address <$> head l) else next_of l p
  end.

Section client.
(** Events [E] with their type; clients with a state [C] and a callback that makes calls. *)
Context {E C : Type} (type : E → Z).

Inductive action :=
  | Add (mask cb data : Z)
  | Remove_by_callback (cb data : Z)
  | Remove_by_event (mask : Z)
  | Remove (eh : Z)
  | Send (ev : E).

Context (run_callback : C → Z → Z → E → C * list action) (malloc : C → handler_list → option Z).

(** What is left to do: calls, the record a traversal looks at ([Visit]) or leaves
    ([Next]), and the end of a traversal with its [ref_count]. *)
Inductive work :=
  | Call (a : action)
  | Visit (ev : E) (eh : option Z)
  | Next (ev : E) (eh : Z)
  | Finish (ref_count : Z).

Record config := Config { el : handler_list; client : C; stack : list work }.

Definition set_ref_count (n : Z) (el : handler_list) : handler_list := HandlerList (first el) (event_mask el) n.

(** The head of [__vbi_event_handler_list_send]. *)
Definition send_begin (l : handler_list) (ev : E) : option handler_list :=
  if event_mask l .& type ev =? 0 then None
  else
    let n := u32 (ref_count l + 1) in
    if n =? 0 then None else Some (set_ref_count n l).

(** Its end. *)
Definition send_end (l : handler_list) (n : Z) : handler_list :=
  let n := u32 (n - 1) in
  if 0 <? n then set_ref_count n l
  else HandlerList (List.filter (λ eh, negb (remove eh)) (first l)) (event_mask l) n.

(** [None] is an access to a record that was freed. *)
Definition step (l : handler_list) (c : C) (w : work) : option config :=
  match w with
  | Call (Add mask cb data) => Some (Config (_vbi_event_handler_list_add (malloc c l) l mask cb data).1 c [])
  | Call (Remove_by_callback cb data) => Some (Config (_vbi_event_handler_list_remove_by_callback (malloc c l) l cb data) c [])
  | Call (Remove_by_event mask) => Some (Config (_vbi_event_handler_list_remove_by_event l mask) c [])
  | Call (Remove eh) => Some (Config (_vbi_event_handler_list_remove l eh) c [])
  | Call (Send ev) =>
      match send_begin l ev with
      | None => Some (Config l c [])
      | Some l => Some (Config l c [Visit ev (address <$> head (first l)); Finish (ref_count l)])
      end
  | Visit ev None => Some (Config l c [])
  | Visit ev (Some p) =>
      eh ← find_rec (first l) p;
      if negb (rec_mask eh .& type ev =? 0) && negb (remove eh) then
        let '(c, actions) := run_callback c (callback eh) (user_data eh) ev in
        Some (Config l c (map Call actions ++ [Next ev p]))
      else Some (Config l c [Next ev p])
  | Next ev p =>
      next ← next_of (first l) p;
      Some (Config l c [Visit ev next])
  | Finish n => Some (Config (send_end l n) c [])
  end.

Definition run_step (cf : config) : option config :=
  match stack cf with
  | [] => Some cf
  | w :: ws =>
      cf' ← step (el cf) (client cf) w;
      Some (Config (el cf') (client cf') (stack cf' ++ ws))
  end.

Fixpoint run (n : nat) (cf : config) : option config :=
  match n with
  | O => Some cf
  | S n => cf ← run_step cf; run n cf
  end.
End client.

(** ** Operations on the list *)

Definition addresses (l : list vbi_event_handler_rec) : list Z := map address l.

Definition live (eh : vbi_event_handler_rec) : Prop := remove eh = false.

(** The mask of the list has all bits of the handlers'. *)
Definition covered (mask : Z) (eh : vbi_event_handler_rec) : Prop := live eh → Z.ldiff (rec_mask eh) mask = 0.

Record list_ok (el : handler_list) : Prop := {
  lo_nodup : NoDup (addresses (first el));
  lo_live : ref_count el = 0 → Forall live (first el);
  lo_mask : Forall (covered (event_mask el)) (first el);
  lo_count : 0 ≤ ref_count el < 2 ^ 32
}.

Lemma unlink_addresses el eh : ref_count el ≠ 0 → addresses (unlink el eh) = [address eh].
Proof. intros H. unfold unlink. by apply Z.eqb_neq in H as ->. Qed.

Lemma concat_unlink (f : vbi_event_handler_rec → list vbi_event_handler_rec) l :
  (∀ eh, sublist (addresses (f eh)) [address eh]) → sublist (addresses (concat (map f l))) (addresses l).
Proof.
  intros Hf. induction l as [|eh l IH]; [constructor|]. cbn [map concat addresses]. unfold addresses in *. rewrite map_app.
  apply (sublist_app _ [address eh] _ _); [apply Hf|exact IH].
Qed.

Lemma concat_marked (f : vbi_event_handler_rec → list vbi_event_handler_rec) l :
  (∀ eh, addresses (f eh) = [address eh]) → addresses (concat (map f l)) = addresses l.
Proof.
  intros Hf. induction l as [|eh l IH]; [done|]. cbn [map concat]. unfold addresses in *. by rewrite map_app, Hf, IH.
Qed.

Lemma unlink_sublist el eh : sublist (addresses (unlink el eh)) [address eh].
Proof. unfold unlink. destruct (ref_count el =? 0); [apply sublist_nil_l|]. apply sublist_skip; constructor. Qed.

Lemma unlink_live el eh : ref_count el = 0 → unlink el eh = [].
Proof. intros H. unfold unlink. by rewrite H. Qed.

Lemma unlink_covered el mask eh : Forall (covered mask) (unlink el eh).
Proof. unfold unlink. destruct (ref_count el =? 0); repeat constructor. intros H. discriminate H. Qed.

Lemma Forall_concat_map {A B} (P : B → Prop) (f : A → list B) l : Forall (λ x, Forall P (f x)) l → Forall P (concat (map f l)).
Proof. induction 1; [constructor|]. cbn [map concat]. by apply Forall_app. Qed.

Lemma ldiff_or a u m : Z.ldiff a u = 0 → Z.ldiff a (u .| m) = 0.
Proof. intros H. by rewrite <-Z.ldiff_ldiff_l, H, Z.ldiff_0_l. Qed.

Lemma ldiff_self u m : Z.ldiff m (u .| m) = 0.
Proof. rewrite Z.lor_comm, <-Z.ldiff_ldiff_l, Z.ldiff_diag. apply Z.ldiff_0_l. Qed.

Lemma covered_or u m eh : covered u eh → covered (u .| m) eh.
Proof. intros H Hl. by apply ldiff_or, H. Qed.

Lemma remove_by_event_ok el mask :
  list_ok el → list_ok (_vbi_event_handler_list_remove_by_event el mask) ∧
  (ref_count el ≠ 0 → addresses (first (_vbi_event_handler_list_remove_by_event el mask)) = addresses (first el)) ∧
  ref_count (_vbi_event_handler_list_remove_by_event el mask) = ref_count el.
Proof.
  intros [Hn Hl Hm Hc]. unfold _vbi_event_handler_list_remove_by_event.
  set (visit := λ eh, _). assert (∀ eh, sublist (addresses (visit eh)) [address eh]) as Hs.
  { intros eh. subst visit. cbv beta zeta. destruct (_ =? 0); [exact (unlink_sublist el (set_rec_mask _ eh))|by apply sublist_skip]. }
  split; [split|split]; cbn [first event_mask ref_count]; [..|done].
  - eapply sublist_NoDup; [exact Hn|]. by apply concat_unlink.
  - intros H0. apply Forall_concat_map. specialize (Hl H0). revert Hl. apply List.Forall_impl. intros eh Hlive. subst visit.
    cbv beta zeta. destruct (_ =? 0); [by rewrite unlink_live|]. by repeat constructor.
  - apply Forall_concat_map. revert Hm. apply List.Forall_impl. intros eh Hcov. subst visit. cbv beta zeta.
    destruct (_ =? 0); [apply unlink_covered|]. repeat constructor. intros Hlive. specialize (Hcov Hlive). cbn [rec_mask set_rec_mask].
    apply Z.bits_inj'. intros i Hi. rewrite Z.ldiff_spec, !Z.land_spec, Z.bits_0.
    assert (Z.testbit (Z.ldiff (rec_mask eh) (event_mask el)) i = false) as E by (by rewrite Hcov, Z.bits_0).
    rewrite Z.ldiff_spec in E. destruct (Z.testbit (rec_mask eh) i), (Z.testbit (event_mask el) i), (Z.testbit (u32 _) i); done.
  - done.
  - intros H0. apply concat_marked. intros eh. subst visit. cbv beta zeta. destruct (_ =? 0); [exact (unlink_addresses el (set_rec_mask _ eh) H0)|done].
Qed.

Lemma union_covers (p : vbi_event_handler_rec → bool) l : ∀ u,
  let union := fold_left (λ u eh, if p eh then u else u .| rec_mask eh) l u in
  (∀ a, Z.ldiff a u = 0 → Z.ldiff a union = 0) ∧ Forall (λ eh, p eh = false → Z.ldiff (rec_mask eh) union = 0) l.
Proof.
  induction l as [|eh l IH]; intros u; cbn [fold_left]; [done|].
  destruct (IH (if p eh then u else u .| rec_mask eh)) as [IH1 IH2]. cbv zeta in *. split.
  - intros a Ha. apply IH1. destruct (p eh); [done|by apply ldiff_or].
  - constructor; [|done]. intros Hp. apply IH1. rewrite Hp. apply ldiff_self.
Qed.

Lemma remove_ok el eh :
  list_ok el → list_ok (_vbi_event_handler_list_remove el eh) ∧
  (ref_count el ≠ 0 → addresses (first (_vbi_event_handler_list_remove el eh)) = addresses (first el)) ∧
  ref_count (_vbi_event_handler_list_remove el eh) = ref_count el.
Proof.
  intros [Hn Hl Hm Hc]. unfold _vbi_event_handler_list_remove.
  set (visit := λ eh1, if address eh1 =? eh then unlink el eh1 else [eh1]).
  destruct (union_covers (λ eh1, address eh1 =? eh) (first el) 0) as [_ Hu]. cbv zeta in *.
  split; [split|split]; cbn [first event_mask ref_count]; [..|done].
  - eapply sublist_NoDup; [exact Hn|]. apply concat_unlink. intros eh1. subst visit. cbv beta.
    destruct (_ =? _); [apply unlink_sublist|by apply sublist_skip].
  - intros H0. apply Forall_concat_map. specialize (Hl H0). revert Hl. apply List.Forall_impl. intros eh1 Hlive. subst visit.
    cbv beta. destruct (_ =? _); [by rewrite unlink_live|by repeat constructor].
  - apply Forall_concat_map. revert Hu. apply List.Forall_impl. intros eh1 Hcov. subst visit. cbv beta.
    destruct (_ =? _); [apply unlink_covered|]. repeat constructor. intros _. by apply Hcov.
  - done.
  - intros H0. apply concat_marked. intros eh1. subst visit. cbv beta. destruct (_ =? _); [by rewrite unlink_addresses|done].
Qed.

Lemma add_loop_ok el mask cb data : ∀ l u found l' u' found',
  add_loop el mask cb data l u found = (l', u', found') →
  sublist (addresses l') (addresses l) ∧ (ref_count el ≠ 0 ∨ mask ≠ 0 → addresses l' = addresses l) ∧
  (ref_count el = 0 → Forall live l → Forall live l') ∧
  (∀ a, Z.ldiff a u = 0 → Z.ldiff a u' = 0) ∧ Forall (covered u') l'.
Proof.
  induction l as [|eh l IH]; intros u found l' u' found' E; cbn [add_loop] in E.
  { injection E as <- <- <-. split_and!; try done; constructor. }
  destruct ((callback eh =? cb) && (user_data eh =? data)); [destruct (Z.eqb_spec mask 0)|].
  - destruct (add_loop el mask cb data l u found) as [[l1 u1] f1] eqn:E1. injection E as <- <- <-.
    destruct (IH _ _ _ _ _ E1) as (H1 & H2 & H3 & H4 & H5). unfold addresses. rewrite map_app. fold (addresses l1). split_and!.
    + apply (sublist_app _ [address eh] _ _); [apply unlink_sublist|done].
    + intros [H|H]; [|done]. rewrite (unlink_addresses _ _ H : map address _ = _), H2 by (by left). done.
    + intros H0 Hl. inversion Hl; subst. rewrite unlink_live by done. by apply H3.
    + done.
    + apply Forall_app. split; [apply unlink_covered|done].
  - destruct (add_loop el mask cb data l _ _) as [[l1 u1] f1] eqn:E1. injection E as <- <- <-.
    destruct (IH _ _ _ _ _ E1) as (H1 & H2 & H3 & H4 & H5). unfold addresses. cbn [map]. fold (addresses l1) (addresses l). split_and!.
    + by apply sublist_skip.
    + intros H. by rewrite H2.
    + intros H0 Hl. inversion Hl; subst. constructor; [done|by apply H3].
    + intros a Ha. by apply H4, ldiff_or.
    + constructor; [|done]. intros _. apply H4, ldiff_self.
  - destruct (add_loop el mask cb data l _ _) as [[l1 u1] f1] eqn:E1. injection E as <- <- <-.
    destruct (IH _ _ _ _ _ E1) as (H1 & H2 & H3 & H4 & H5). unfold addresses. cbn [map]. fold (addresses l1) (addresses l). split_and!.
    + by apply sublist_skip.
    + intros H. by rewrite H2.
    + intros H0 Hl. inversion Hl; subst. constructor; [done|by apply H3].
    + intros a Ha. by apply H4, ldiff_or.
    + constructor; [|done]. intros _. apply H4, ldiff_self.
Qed.

Lemma add_ok malloc el mask cb data :
  list_ok el → (∀ p, malloc = Some p → p ∉ addresses (first el)) →
  list_ok (_vbi_event_handler_list_add malloc el mask cb data).1 ∧
  (ref_count el ≠ 0 → ∃ new, addresses (first (_vbi_event_handler_list_add malloc el mask cb data).1) = addresses (first el) ++ new ∧ (mask = 0 → new = [])) ∧
  ref_count (_vbi_event_handler_list_add malloc el mask cb data).1 = ref_count el.
Proof.
  intros [Hn Hl Hm Hc] Hfresh. unfold _vbi_event_handler_list_add.
  destruct (add_loop el mask cb data (first el) 0 None) as [[l u] found] eqn:E.
  destruct (add_loop_ok _ _ _ _ _ _ _ _ _ _ E) as (H1 & H2 & H3 & H4 & H5).
  assert (NoDup (addresses l)) as Hnl by (by eapply sublist_NoDup).
  assert (∀ f : option Z, list_ok (HandlerList l u (ref_count el), f).1 ∧
    (ref_count el ≠ 0 → ∃ new, addresses (first (HandlerList l u (ref_count el), f).1) = addresses (first el) ++ new ∧ (mask = 0 → new = [])) ∧
    ref_count (HandlerList l u (ref_count el), f).1 = ref_count el) as Hsame.
  { intros f. split; [|split; [|done]].
    - split; cbn [first event_mask ref_count fst]; try done. intros H. by apply H3, Hl.
    - intros H. exists []. cbn [first fst]. rewrite app_nil_r, H2 by (by left). done. }
  destruct found as [p|]; [apply Hsame|]. destruct malloc as [p|]; [|apply Hsame].
  destruct (Z.eqb_spec mask 0) as [|Hmask]; [apply Hsame|]. cbn [negb fst].
  split; [|split; [|done]].
  - split; cbn [first event_mask ref_count]; [..|done].
    + unfold addresses. rewrite map_app. fold (addresses l). rewrite H2 by (by right). cbn [map address].
      apply list.NoDup_app. split; [done|]. split; [|apply list.NoDup_singleton]. intros x Hx ->%list_elem_of_singleton. by apply (Hfresh p).
    + intros H. apply Forall_app. split; [by apply H3, Hl|by repeat constructor].
    + apply Forall_app. split; [|repeat constructor; intros _; apply ldiff_self].
      revert H5. apply List.Forall_impl. intros eh. apply covered_or.
  - intros H. exists [p]. cbn [first]. unfold addresses. rewrite map_app. fold (addresses l). rewrite H2 by (by left). done.
Qed.

(** ** Traversals *)

Section client.
Context {Ev C : Type} (type : Ev → Z) (run_callback : C → Z → Z → Ev → C * list (action (E := Ev)))
  (malloc : C → handler_list → option Z).
(** The C library does not return the address of a record in use. *)
Context (malloc_fresh : ∀ c el p, malloc c el = Some p → p ∉ addresses (first el)).

(** Traversals under way hold their count, one below the other, and look at records of
    the list. *)
Fixpoint stack_ok (ps : list Z) (n : Z) (ws : list (work (E := Ev))) : Prop :=
  match ws with
  | [] => n = 0
  | Call _ :: ws => stack_ok ps n ws
  | Visit _ eh :: ws => 0 < n ∧ (∀ p, eh = Some p → p ∈ ps) ∧ stack_ok ps n ws
  | Next _ p :: ws => 0 < n ∧ p ∈ ps ∧ stack_ok ps n ws
  | Finish m :: ws => m = n ∧ 0 < n ∧ stack_ok ps (n - 1) ws
  end.

Record config_ok (cf : config (E := Ev) (C := C)) : Prop := {
  cf_list : list_ok (el cf);
  cf_stack : stack_ok (addresses (first (el cf))) (ref_count (el cf)) (stack cf)
}.

Lemma stack_ok_mono ps ps' n ws : (n ≠ 0 → ∀ p, p ∈ ps → p ∈ ps') → 0 ≤ n → stack_ok ps n ws → stack_ok ps' n ws.
Proof.
  revert n. induction ws as [|w ws IH]; intros n Hps Hn; [done|]. destruct w; cbn [stack_ok].
  - by apply IH.
  - intros (H1 & H2 & H3). split; [done|]. split; [intros p Hp; apply Hps; [lia|by apply H2]|by apply IH].
  - intros (H1 & H2 & H3). split; [done|]. split; [apply Hps; [lia|done]|by apply IH].
  - intros (H1 & H2 & H3). split; [done|]. split; [done|]. apply IH; [intros; apply Hps; [lia|done]|lia|done].
Qed.

Lemma stack_ok_calls ps n acts ws : stack_ok ps n (map Call acts ++ ws) ↔ stack_ok ps n ws.
Proof. by induction acts. Qed.

Lemma find_in l p : p ∈ addresses l → ∃ eh, find_rec l p = Some eh ∧ address eh = p.
Proof.
  induction l as [|eh l IH]; [by intros H%not_elem_of_nil|]. cbn [addresses map find_rec].
  destruct (Z.eqb_spec (address eh) p) as [|Hne]; [by eexists|]. intros [->|H]%elem_of_cons; [done|]. by apply IH.
Qed.

Lemma next_in l p : p ∈ addresses l → ∃ next, next_of l p = Some next ∧ ∀ q, next = Some q → q ∈ addresses l.
Proof.
  induction l as [|eh l IH]; [by intros H%not_elem_of_nil|]. cbn [addresses map next_of].
  destruct (Z.eqb_spec (address eh) p) as [|Hne].
  - intros _. eexists. split; [reflexivity|]. destruct l as [|eh2 l]; cbn; [done|]. intros q [= <-]. right. left.
  - intros [->|H]%elem_of_cons; [done|]. destruct (IH H) as (nx & -> & Hq). exists nx. split; [done|].
    intros q Hnx. right. by apply Hq.
Qed.

Lemma call_ok l c a :
  list_ok l → (∀ ev, a ≠ Send ev) →
  ∃ l', step type run_callback malloc l c (Call a) = Some (Config l' c []) ∧ list_ok l' ∧ ref_count l' = ref_count l ∧
    (ref_count l ≠ 0 → ∃ new, addresses (first l') = addresses (first l) ++ new ∧ ((∀ m cb d, a ≠ Add m cb d) → new = [])).
Proof.
  intros Hl Hns. destruct a as [mask cb d|cb d|mask|eh|ev]; [..|by destruct (Hns ev)]; cbn [step].
  - destruct (add_ok (malloc c l) l mask cb d Hl (malloc_fresh c l)) as (H1 & H2 & H3).
    eexists. split; [reflexivity|]. split; [done|]. split; [done|]. intros H0. destruct (H2 H0) as (new & E1 & E2).
    exists new. split; [done|]. intros Hna. by destruct (Hna mask cb d).
  - destruct (add_ok (malloc c l) l 0 cb d Hl (malloc_fresh c l)) as (H1 & H2 & H3).
    eexists. split; [reflexivity|]. split; [done|]. split; [done|]. intros H0. destruct (H2 H0) as (new & E1 & E2).
    exists new. split; [done|]. intros _. by apply E2.
  - destruct (remove_by_event_ok l mask Hl) as (H1 & H2 & H3). eexists. split; [reflexivity|]. split; [done|].
    split; [done|]. intros H0. exists []. rewrite app_nil_r. by rewrite H2.
  - destruct (remove_ok l eh Hl) as (H1 & H2 & H3). eexists. split; [reflexivity|]. split; [done|].
    split; [done|]. intros H0. exists []. rewrite app_nil_r. by rewrite H2.
Qed.

Lemma list_ok_count l n : list_ok l → 0 < n < 2 ^ 32 → list_ok (set_ref_count n l).
Proof. intros [H1 H2 H3 H4] Hn. split; cbn; try done; lia. Qed.

Lemma send_end_ok l ps ws :
  list_ok l → 0 < ref_count l → ps = addresses (first l) → stack_ok ps (ref_count l - 1) ws →
  list_ok (send_end l (ref_count l)) ∧ stack_ok (addresses (first (send_end l (ref_count l)))) (ref_count (send_end l (ref_count l))) ws.
Proof.
  intros Hl Hn -> Hs. pose proof (lo_count _ Hl). unfold send_end. rewrite u32_small by lia.
  destruct (Z.ltb_spec 0 (ref_count l - 1)).
  - split; [apply list_ok_count; [done|lia]|done].
  - replace (ref_count l - 1) with 0 in * by lia. destruct Hl as [H1 H2 H3 H4]. split; [split; cbn [first event_mask ref_count]|].
    + eapply sublist_NoDup; [exact H1|]. clear. induction (first l) as [|eh fl IH]; [constructor|]. cbn [List.filter addresses map].
      destruct (negb (remove eh)); [by apply sublist_skip|by apply sublist_cons].
    + intros _. apply List.Forall_forall. intros eh [_ Hr]%filter_In. unfold live. by destruct (remove eh).
    + apply List.Forall_forall. intros eh [Hin _]%filter_In. revert H3. rewrite List.Forall_forall. intros H3. by apply H3.
    + lia.
    + apply (stack_ok_mono (addresses (first l))); done.
Qed.

Lemma run_step_ok cf : config_ok cf → ∃ cf', run_step type run_callback malloc cf = Some cf' ∧ config_ok cf'.
Proof.
  destruct cf as [l c ws]. intros [Hl Hs]. cbn [el stack] in *. unfold run_step. cbn [stack el client].
  destruct ws as [|w ws]; [eexists; split; [reflexivity|by split]|]. pose proof (lo_count _ Hl) as Hcount.
  destruct w as [a|ev eh|ev p|m]; cbn [stack_ok] in Hs.
  - assert ((∃ ev, a = Send ev) ∨ ∀ ev, a ≠ Send ev) as [[ev ->]|Hns] by (destruct a; [right; done..|left; by eexists]).
    + cbn [step]. unfold send_begin. destruct (event_mask l .& type ev =? 0); [|destruct (Z.eqb_spec (u32 (ref_count l + 1)) 0) as [|Hne]].
      1-2: cbn [mbind option_bind]; eexists; (split; [reflexivity|by split]).
      assert (ref_count l + 1 ≠ 2 ^ 32) as Hlt by (intros e; unfold u32 in Hne; by rewrite e in Hne).
      assert (u32 (ref_count l + 1) = ref_count l + 1) as Eu by (apply Z.mod_small; lia).
      rewrite Eu. cbn [mbind option_bind]. eexists. split; [reflexivity|]. split; cbn [el stack app stack_ok].
      * apply list_ok_count; [done|lia].
      * cbn [first set_ref_count ref_count]. split; [lia|]. split.
        -- intros p. destruct (first l) as [|eh fl]; cbn; [done|]. intros [= <-]. left.
        -- split; [done|]. split; [lia|]. by replace (ref_count l + 1 - 1) with (ref_count l) by lia.
    + destruct (call_ok l c a Hl) as (l' & -> & Hl' & Hc & Ha); [done|].
      cbn [mbind option_bind]. eexists. split; [reflexivity|]. split; cbn [el stack app]; [done|]. rewrite Hc.
      apply (stack_ok_mono (addresses (first l))); [|lia|done]. intros H0 p Hp. destruct (Ha H0) as (new & -> & _).
      apply elem_of_app. by left.
  - destruct Hs as (Hn & Hp & Hs). destruct eh as [p|]; cbn [step].
    + destruct (find_in (first l) p (Hp p eq_refl)) as (eh & -> & Eeh). cbn [mbind option_bind].
      assert (stack_ok (addresses (first l)) (ref_count l) (Next ev p :: ws)) as Hs'.
      { cbn [stack_ok]. split; [done|]. split; [by apply Hp|done]. }
      destruct (_ && _); [destruct (run_callback c (callback eh) (user_data eh) ev) as [c' acts]|];
        cbn [mbind option_bind]; eexists; (split; [reflexivity|]); split; cbn [el stack]; try done.
      rewrite <-app_assoc. by apply stack_ok_calls.
    + cbn [mbind option_bind]. eexists. split; [reflexivity|by split].
  - destruct Hs as (Hn & Hp & Hs). cbn [step]. destruct (next_in (first l) p Hp) as (nx & -> & Hq). cbn [mbind option_bind].
    eexists. split; [reflexivity|]. split; [done|]. cbn [el stack app stack_ok]. done.
  - destruct Hs as (-> & Hn & Hs). cbn [step mbind option_bind]. eexists. split; [reflexivity|].
    destruct (send_end_ok l _ ws Hl Hn eq_refl Hs). by split.
Qed.

(** C11: handlers may do what they like during a traversal: add handlers, remove
    themselves or others, change masks, send events, to any depth. No freed record is
    looked at, the mask of the list has all events the handlers wait for, and when
    all traversals have ended no record is left that was to be removed. *)
Theorem event_list_safe (l : handler_list) (c : C) (actions : list action) (n : nat) :
  list_ok l → ref_count l = 0 →
  ∃ cf, run type run_callback malloc n (Config l c (map Call actions)) = Some cf ∧ list_ok (el cf) ∧
    (stack cf = [] → ref_count (el cf) = 0 ∧ Forall live (first (el cf))).
Proof using malloc_fresh.
  intros Hl H0. assert (config_ok (Config l c (map Call actions))) as Hok.
  { split; [done|]. cbn [el stack]. rewrite <-(app_nil_r (map Call actions)). by apply stack_ok_calls. }
  revert Hok. generalize (Config l c (map Call actions)). clear -malloc_fresh. induction n as [|n IH]; intros cf Hok.
  - exists cf. destruct Hok as [Hl Hs]. split; [done|]. split; [done|]. intros E. rewrite E in Hs. cbn in Hs.
    split; [done|]. by apply lo_live.
  - destruct (run_step_ok cf Hok) as (cf' & E & Hok'). cbn [run]. rewrite E. cbn [mbind option_bind]. by apply IH.
Qed.

(** ** Delivery *)

(** Calls that neither send events nor add a handler. *)
Definition quiet (a : action (E := Ev)) : Prop :=
  match a with Send _ => False | Add mask _ _ => mask = 0 | _ => True end.

(** The list after such a call. *)
Definition after (c : C) (l : handler_list) (a : action (E := Ev)) : handler_list :=
  match a with
  | Add mask cb data => (_vbi_event_handler_list_add (malloc c l) l mask cb data).1
  | Remove_by_callback cb data => _vbi_event_handler_list_remove_by_callback (malloc c l) l cb data
  | Remove_by_event mask => _vbi_event_handler_list_remove_by_event l mask
  | Remove eh => _vbi_event_handler_list_remove l eh
  | Send _ => l
  end.

(** The handler at an address gets the event, unless it was removed in the meantime. *)
Definition deliver (ev : Ev) (lc : handler_list * C) (p : Z) : handler_list * C :=
  let '(l, c) := lc in
  match find_rec (first l) p with
  | Some eh =>
      if negb (rec_mask eh .& type ev =? 0) && negb (remove eh) then
        let '(c, actions) := run_callback c (callback eh) (user_data eh) ev in
        (foldl (after c) l actions, c)
      else (l, c)
  | None => (l, c)
  end.

Context (callbacks_quiet : ∀ c cb data ev, Forall quiet (run_callback c cb data ev).2).

Local Abbreviation runs := (run type run_callback malloc).

Lemma run_app n m cf cf' : runs n cf = Some cf' → runs (n + m) cf = runs m cf'.
Proof.
  revert cf. induction n as [|n IH]; intros cf E; cbn in *; [by injection E as ->|].
  destruct (run_step _ _ _ cf) as [cf1|]; [|done]. cbn [mbind option_bind] in *. by apply IH.
Qed.

Lemma calls_run c ws acts : ∀ l,
  list_ok l → ref_count l = 1 → Forall quiet acts →
  runs (length acts) (Config l c (map Call acts ++ ws)) = Some (Config (foldl (after c) l acts) c ws) ∧
  list_ok (foldl (after c) l acts) ∧ ref_count (foldl (after c) l acts) = 1 ∧
  addresses (first (foldl (after c) l acts)) = addresses (first l).
Proof using malloc_fresh.
  clear callbacks_quiet. induction acts as [|a acts IH]; intros l Hl Hc Hq; [done|]. inversion Hq as [|? ? Ha Hq']; subst.
  destruct (call_ok l c a Hl) as (l' & E & Hl' & Hc' & Hp); [by intros ev ->|].
  assert (l' = after c l a) as -> by (destruct a; cbn in E; by inversion E).
  destruct (Hp ltac:(lia)) as (new & Ea & Hnew). 
  assert (addresses (first (after c l a)) = addresses (first l)) as Ea'.
  { destruct a as [mask cb d|?|?|?|?]; try (rewrite Ea, Hnew by done; by rewrite app_nil_r).
    cbn in Ha. subst mask. destruct (add_ok (malloc c l) l 0 cb d Hl (malloc_fresh c l)) as (_ & H2 & _).
    destruct (H2 ltac:(lia)) as (new' & E1 & E2). cbn [after]. by rewrite E1, E2, app_nil_r. }
  destruct (IH (after c l a)) as (Er & H1 & H2 & H3); [done|lia|done|]. cbn [length foldl]. split_and!; [|done|done|congruence].
  cbn [run map app]. unfold run_step. cbn [stack el client]. rewrite E. cbn [mbind option_bind el client stack app].
  exact Er.
Qed.

Lemma next_at l pre p suf : addresses l = pre ++ p :: suf → NoDup (addresses l) → next_of l p = Some (head suf).
Proof.
  revert pre. induction l as [|eh l IH]; intros pre E Hn; [by destruct pre|]. cbn [addresses map] in *. cbn [next_of].
  inversion Hn as [|? ? Hnin Hn']; subst. destruct pre as [|q pre]; cbn [app] in E; injection E as E1 E2.
  - rewrite E1, Z.eqb_refl. f_equal. rewrite <-E2. by destruct l.
  - destruct (Z.eqb_spec (address eh) p) as [e|]; [|by eapply IH].
    exfalso. apply Hnin. rewrite e. fold (addresses l) in E2. unfold addresses in E2. rewrite E2. apply elem_of_app. right. left.
Qed.

Lemma visit_run ev ws suf : ∀ pre l c,
  list_ok l → ref_count l = 1 → addresses (first l) = pre ++ suf →
  ∃ n l' c', foldl (deliver ev) (l, c) suf = (l', c') ∧
    runs n (Config l c (Visit ev (head suf) :: ws)) = Some (Config l' c' ws) ∧ list_ok l' ∧ ref_count l' = 1.
Proof using malloc_fresh callbacks_quiet.
  induction suf as [|p suf IH]; intros pre l c Hl Hc Ea; [by exists 1%nat, l, c|]. cbn [head foldl].
  assert (p ∈ addresses (first l)) as Hp by (rewrite Ea; apply elem_of_app; right; left).
  destruct (find_in _ _ Hp) as (eh & Ef & Eeh). unfold deliver at 2. rewrite Ef.
  set (wanted := negb (rec_mask eh .& type ev =? 0) && negb (remove eh)).
  destruct (if wanted then _ else _) as [l1 c1] eqn:E1.
  assert (∃ n, runs n (Config l c (Visit ev (Some p) :: ws)) = Some (Config l1 c1 (Next ev p :: ws)) ∧
    list_ok l1 ∧ ref_count l1 = 1 ∧ addresses (first l1) = addresses (first l)) as (n1 & R1 & Hl1 & Hc1 & Ea1).
  { destruct wanted eqn:Ew.
    - pose proof (callbacks_quiet c (callback eh) (user_data eh) ev) as Hq.
      destruct (run_callback c (callback eh) (user_data eh) ev) as [c2 acts] eqn:Er. injection E1 as <- <-.
      destruct (calls_run c2 (Next ev p :: ws) acts l Hl Hc Hq) as (R & H1 & H2 & H3). exists (S (length acts)).
      split_and!; [|done..]. cbn [run]. unfold run_step. cbn [stack el client step].
      rewrite Ef. cbn [mbind option_bind]. fold wanted. rewrite Ew, Er. cbn [mbind option_bind el client stack].
      rewrite <-app_assoc. exact R.
    - injection E1 as <- <-. exists 1%nat. split_and!; [|done..]. cbn [run]. unfold run_step.
      cbn [stack el client step]. rewrite Ef. cbn [mbind option_bind]. fold wanted. by rewrite Ew. }
  destruct (IH (pre ++ [p]) l1 c1) as (n2 & l' & c' & E2 & R2 & H1 & H2); [done|done|by rewrite Ea1, Ea, <-app_assoc|].
  exists (n1 + S n2)%nat, l', c'. split; [exact E2|]. split; [|done]. rewrite (run_app _ _ _ _ R1).
  cbn [run]. unfold run_step. cbn [stack el client step].
  rewrite (next_at (first l1) pre p suf) by (congruence || apply Hl1). cbn [mbind option_bind el client stack app]. exact R2.
Qed.

(** C12: when the handlers only remove handlers ([callbacks_quiet]: they neither add any nor
    send events), sending an event ends. The handlers that
    wait for it are called once each, in the order of registration, but for those that
    an earlier one removed; then the records to be removed are gone and the list is as
    at rest. *)
Theorem event_list_delivers (l : handler_list) (c : C) (ev : Ev) :
  list_ok l → ref_count l = 0 →
  ∃ n,
    run type run_callback malloc n (Config l c [Call (Send ev)]) =
    if event_mask l .& type ev =? 0 then Some (Config l c [])
    else
      let '(l', c') := foldl (deliver ev) (set_ref_count 1 l, c) (addresses (first l)) in
      Some (Config (HandlerList (List.filter (λ eh, negb (remove eh)) (first l')) (event_mask l') 0) c' []).
Proof using malloc_fresh callbacks_quiet.
  intros Hl H0. destruct (event_mask l .& type ev =? 0) eqn:Em.
  - exists 1%nat. cbn [run]. unfold run_step. cbn [stack el client step]. unfold send_begin. by rewrite Em.
  - destruct (visit_run ev [Finish 1] (addresses (first l)) [] (set_ref_count 1 l) c) as (n & l' & c' & E & R & Hl' & Hc');
      [by apply list_ok_count|done|done|]. rewrite E.
    exists (1 + n + 1)%nat. cbn [Nat.add run]. unfold run_step at 1. cbn [stack el client step]. unfold send_begin.
    rewrite Em, H0. change (u32 (0 + 1)) with 1. cbn [Z.eqb mbind option_bind el client stack app].
    assert (address <$> head (first (set_ref_count 1 l)) = head (addresses (first l))) as -> by (cbn; by destruct (first l)).
    rewrite (run_app _ _ _ _ R). reflexivity.
Qed.
End client.

(** ** Examples *)

(** Three handlers; the client keeps the order of calls. The first removes itself and
    the second one. *)
Definition example_list : handler_list :=
  HandlerList [HandlerRec 100 1 0 0x3 false; HandlerRec 200 2 0 0x1 false; HandlerRec 300 3 0 0x1 false] 0x3 0.
Definition example_callback (c : list Z) (cb data ev : Z) : list Z * list (action (E := Z)) :=
  (c ++ [cb], if cb =? 1 then [Remove_by_callback 1 0; Remove 200] else []).
Definition example_malloc (c : list Z) (el : handler_list) : option Z := Some (1 + foldr Z.max 0 (addresses (first el))).

Lemma example_malloc_fresh c el p : example_malloc c el = Some p → p ∉ addresses (first el).
Proof.
  unfold example_malloc. intros [= <-]. assert (∀ l q, q ∈ l → q ≤ foldr Z.max 0 l) as H.
  { induction l as [|x l IH]; intros q; [by intros Hq%not_elem_of_nil|]. intros [->|Hq]%elem_of_cons; cbn; [lia|].
    specialize (IH q Hq). lia. }
  intros Hin. specialize (H _ _ Hin). lia.
Qed.

Lemma example_list_ok : list_ok example_list.
Proof.
  split; [|repeat constructor..|done].
  - cbn. by apply (bool_decide_unpack (NoDup [100; 200; 300])).
Qed.

Lemma event_list_delivers_witness :
  ∃ n, run (λ ev, ev) example_callback example_malloc n (Config example_list [] [Call (Send 1)]) =
    Some (Config (HandlerList [HandlerRec 300 3 0 0x1 false] 0x3 0) [1; 3] []).
Proof.
  destruct (event_list_delivers (λ ev, ev) example_callback example_malloc example_malloc_fresh) with (l := example_list) (c := @nil Z) (ev := 1)
    as (n & E).
  - intros c cb data ev. unfold example_callback. cbn [snd]. destruct (cb =? 1); repeat constructor.
  - apply example_list_ok.
  - done.
  - exists n. rewrite E. vm_compute. reflexivity.
Defined.

Lemma event_list_safe_witness :
  ∃ cf, run (λ ev, ev) (λ (c : list Z) cb data ev, (c ++ [cb], if cb =? 2 then [Add 0x1 4 0; Send 2] else [Remove_by_event 1]))
      example_malloc 5 (Config example_list [] (map Call [Send 1; Add 4 5 6])) = Some cf ∧ list_ok (el cf).
Proof.
  destruct (event_list_safe (λ ev, ev)
    (λ (c : list Z) cb data ev, (c ++ [cb], if cb =? 2 then [Add 0x1 4 0; Send 2] else [Remove_by_event 1]))
    example_malloc example_malloc_fresh example_list [] [Send 1; Add 4 5 6] 5) as (cf & E & Hl & _).
  - apply example_list_ok.
  - done.
  - exists cf. split; [exact E|exact Hl].
Defined.

(** A handler that removes itself and registers again during a traversal is lost: the
    record keeps its removal mark. *)
Lemma registered_again_is_lost :
  run (λ ev, ev) (λ (c : list Z) cb data ev, (c ++ [cb], [Remove_by_callback cb data; Add 0x1 cb data]))
    example_malloc 7 (Config (HandlerList [HandlerRec 100 1 0 0x1 false] 0x1 0) [] [Call (Send 1)]) =
  Some (Config (HandlerList [] 0x1 0) [1] []).
Proof. vm_compute. reflexivity. Qed.
