(* ===== verification/Handlers.v ===== *)
(** The event handlers of the decoder: [src/src/vbi.c]. They are freed at once, and the
    traversal keeps a pointer to the next one that registration corrects. *)
From S2P Require Import Prelude Event.

Definition VBI_EVENT_TTX_PAGE : Z := 0x0002.
Definition VBI_EVENT_CAPTION : Z := 0x0004.
Definition VBI_EVENT_NETWORK : Z := 0x0008.
Definition VBI_EVENT_TRIGGER : Z := 0x0010.
Definition VBI_EVENT_ASPECT : Z := 0x0040.
Definition VBI_EVENT_PROG_INFO : Z := 0x0080.
Definition VBI_EVENT_NETWORK_ID : Z := 0x0100.
Definition VBI_EVENT_PROG_ID : Z := 0x0800.

(** [struct event_handler], with its address. *)
Record event_handler := EventHandler { eh_address : Z; eh_mask : Z; handler : Z; eh_data : Z }.

(** What [vbi_event_enable] resets. *)
Inductive reset := Reset_teletext | Reset_caption | Reset_network | Reset_trigger | Reset_prog_info | Reset_prog_id.

(** The part of [struct vbi_decoder] the handlers are in. [locked] is [event_mutex];
    [resets] collects what was reset. *)
Record vbi_decoder := Decoder {
  handlers : list event_handler; next_handler : option Z; locked : bool; d_mask : Z; resets : list reset
}.

Definition set_locked (b : bool) (vbi : vbi_decoder) : vbi_decoder :=
  Decoder (handlers vbi) (next_handler vbi) b (d_mask vbi) (resets vbi).
Definition set_next_handler (p : option Z) (vbi : vbi_decoder) : vbi_decoder :=
  Decoder (handlers vbi) p (locked vbi) (d_mask vbi) (resets vbi).

Definition vbi_event_enable (vbi : vbi_decoder) (mask : Z) : vbi_decoder :=
  let activate := mask .& Z.lnot (d_mask vbi) in
  let reset_if bits r := if activate .& bits =? 0 then [] else [r] in
  let l :=
    reset_if VBI_EVENT_TTX_PAGE Reset_teletext ++ reset_if VBI_EVENT_CAPTION Reset_caption
    ++ reset_if (VBI_EVENT_NETWORK .| VBI_EVENT_NETWORK_ID) Reset_network ++ reset_if VBI_EVENT_TRIGGER Reset_trigger
    ++ (if d_mask vbi .& (VBI_EVENT_ASPECT .| VBI_EVENT_PROG_INFO) =? 0
        then reset_if (VBI_EVENT_ASPECT .| VBI_EVENT_PROG_INFO) Reset_prog_info else [])
    ++ reset_if VBI_EVENT_PROG_ID Reset_prog_id in
  Decoder (handlers vbi) (next_handler vbi) (locked vbi) mask (resets vbi ++ l).

(** The loop over the handlers that [same] selects: the handlers, [next_handler], the
    mask and whether one was found. *)
Fixpoint register_loop (same : event_handler → bool) (event_mask : Z) (l : list event_handler) (next : option Z)
    (mask : Z) (found : bool) : list event_handler * option Z * Z * bool :=
  match l with
  | [] => ([], next, mask, found)
  | eh :: l =>
      if same eh then
        if event_mask =? 0 then
          register_loop same event_mask l
            (if decide (next = Some (eh_address eh)) then eh_address <$> head l else next) mask true
        else
          let eh := EventHandler (eh_address eh) event_mask (handler eh) (eh_data eh) in
          let '(l, next, mask, found) := register_loop same event_mask l next (mask .| eh_mask eh) true in
          (eh :: l, next, mask, found)
      else
        let '(l, next, mask, found) := register_loop same event_mask l next (mask .| eh_mask eh) found in
        (eh :: l, next, mask, found)
  end.

(** [calloc] is what the C library returns, [None] for NULL. *)
Definition register (same : event_handler → bool) (calloc : option Z) (vbi : vbi_decoder) (event_mask handler data : Z)
    : vbi_decoder * bool :=
  let was_locked := locked vbi in
  let '(l, next, mask, found) := register_loop same event_mask (handlers vbi) (next_handler vbi) 0 false in
  let vbi := Decoder l next true (d_mask vbi) (resets vbi) in
  let unlock vbi := if was_locked then vbi else set_locked false vbi in
  if negb found && negb (event_mask =? 0) then
    match calloc with
    | None => (vbi, false)
    | Some p =>
        let vbi := Decoder (l ++ [EventHandler p event_mask handler data]) next true (d_mask vbi) (resets vbi) in
        (unlock (vbi_event_enable vbi (mask .| event_mask)), true)
    end
  else (unlock (vbi_event_enable vbi mask), true).

Definition vbi_event_handler_register (calloc : option Z) (vbi : vbi_decoder) (event_mask h data : Z) : vbi_decoder * bool :=
  register (λ eh, (handler eh =? h) && (eh_data eh =? data)) calloc vbi event_mask h data.
Definition vbi_event_handler_add (calloc : option Z) (vbi : vbi_decoder) (event_mask h data : Z) : vbi_decoder * bool :=
  register (λ eh, handler eh =? h) calloc vbi event_mask h data.
Definition vbi_event_handler_unregister (calloc : option Z) (vbi : vbi_decoder) (h data : Z) : vbi_decoder :=
  (vbi_event_handler_register calloc vbi 0 h data).1.
Definition vbi_event_handler_remove (calloc : option Z) (vbi : vbi_decoder) (h : Z) : vbi_decoder :=
  (vbi_event_handler_add calloc vbi 0 h 0).1.

Fixpoint find_handler (l : list event_handler) (p : Z) : option event_handler :=
  match l with
  | [] => None
  | eh :: l => if eh_address eh =? p then Some eh else find_handler l p
  end.
Fixpoint successor (l : list event_handler) (p : Z) : option Z :=
  match l with
  | [] => None
  | eh :: l => if eh_address eh =? p then eh_address <$> head l else successor l p
  end.

Section client.
Context {E C : Type} (type : E → Z).

Inductive call :=
  | Register (event_mask h data : Z)
  | Unregister (h data : Z)
  | Add (event_mask h data : Z)
  | Remove (h : Z)
  | Send (ev : E).

Context (run_handler : C → Z → Z → E → C * list call) (calloc : C → vbi_decoder → option Z).

(** What is left to do: calls, the handler a traversal looks at, its loop, its end. *)
Inductive work :=
  | Call (a : call)
  | Visit (ev : E) (eh : option Z)
  | Loop (ev : E)
  | Unlock.

Record config := Config { vbi : vbi_decoder; client : C; stack : list work }.

(** A step can also wait for the mutex forever, or access a handler that was freed. *)
Inductive outcome := Running (cf : config) | Deadlock | Freed.

Definition run_step (cf : config) : outcome :=
  let v := vbi cf in
  let c := client cf in
  match stack cf with
  | [] => Running cf
  | Call (Register m h data) :: ws => Running (Config (vbi_event_handler_register (calloc c v) v m h data).1 c ws)
  | Call (Unregister h data) :: ws => Running (Config (vbi_event_handler_unregister (calloc c v) v h data) c ws)
  | Call (Add m h data) :: ws => Running (Config (vbi_event_handler_add (calloc c v) v m h data).1 c ws)
  | Call (Remove h) :: ws => Running (Config (vbi_event_handler_remove (calloc c v) v h) c ws)
  | Call (Send ev) :: ws =>
      if locked v then Deadlock
      else Running (Config (set_locked true v) c (Visit ev (eh_address <$> head (handlers v)) :: Unlock :: ws))
  | Visit ev None :: ws => Running (Config v c ws)
  | Visit ev (Some p) :: ws =>
      match find_handler (handlers v) p with
      | None => Freed
      | Some eh =>
          let v := set_next_handler (successor (handlers v) p) v in
          if negb (eh_mask eh .& type ev =? 0) then
            let '(c, calls) := run_handler c (handler eh) (eh_data eh) ev in
            Running (Config v c (map Call calls ++ Loop ev :: ws))
          else Running (Config v c (Loop ev :: ws))
      end
  | Loop ev :: ws => Running (Config v c (Visit ev (next_handler v) :: ws))
  | Unlock :: ws => Running (Config (set_locked false v) c ws)
  end.

Fixpoint run (n : nat) (cf : config) : outcome :=
  match n with
  | O => Running cf
  | S n => match run_step cf with Running cf => run n cf | o => o end
  end.
End client.

Definition addrs (l : list event_handler) : list Z := map eh_address l.
Definition within (mask : Z) (eh : event_handler) : Prop := Z.ldiff (eh_mask eh) mask = 0.

Record decoder_ok (v : vbi_decoder) : Prop := {
  dk_nodup : NoDup (addrs (handlers v));
  dk_next : ∀ p, next_handler v = Some p → p ∈ addrs (handlers v);
  dk_mask : Forall (within (d_mask v)) (handlers v)
}.

Lemma register_loop_ok same m : ∀ l next mask found l' next' mask' found',
  register_loop same m l next mask found = (l', next', mask', found') →
  sublist (addrs l') (addrs l) ∧ Forall (within mask') l' ∧ (∀ a, Z.ldiff a mask = 0 → Z.ldiff a mask' = 0) ∧
  (NoDup (addrs l) → ∀ p, next' = Some p → p ∈ addrs l' ∨ (next = Some p ∧ p ∉ addrs l)).
Proof.
  induction l as [|eh l IH]; intros next mask found l' next' mask' found' E; cbn [register_loop] in E.
  { injection E as <- <- <- <-. split; [constructor|]. split; [constructor|]. split; [done|]. intros _ p ->. right.
    split; [done|]. apply not_elem_of_nil. }
  assert (∀ eh', eh_address eh' = eh_address eh → ∀ found0 l1 next1 mask1 found1,
    register_loop same m l next (mask .| eh_mask eh') found0 = (l1, next1, mask1, found1) →
    sublist (addrs (eh' :: l1)) (addrs (eh :: l)) ∧ Forall (within mask1) (eh' :: l1) ∧
    (∀ a, Z.ldiff a mask = 0 → Z.ldiff a mask1 = 0) ∧
    (NoDup (addrs (eh :: l)) → ∀ p, next1 = Some p → p ∈ addrs (eh' :: l1) ∨ (next = Some p ∧ p ∉ addrs (eh :: l)))) as Hkeep.
  { intros eh' Ea found0 l1 next1 mask1 found1 E1. destruct (IH _ _ _ _ _ _ _ E1) as (H1 & H2 & H3 & H4).
    unfold addrs. cbn [map]. fold (addrs l1) (addrs l). rewrite Ea. split; [by apply sublist_skip|]. split.
    { constructor; [|done]. apply H3, Event.ldiff_self. }
    split; [intros a Ha; by apply H3, Event.ldiff_or|]. intros Hn p Hp. apply list.NoDup_cons in Hn as [Hnin Hn].
    destruct (H4 Hn p Hp) as [|[Hnx Hnot]]; [left; by right|].
    destruct (decide (p = eh_address eh)) as [->|]; [by left; left|]. right. split; [done|].
    intros [?|?]%elem_of_cons; [congruence|done]. }
  destruct (same eh); [destruct (m =? 0)|].
  - destruct (IH _ _ _ _ _ _ _ E) as (H1 & H2 & H3 & H4). unfold addrs. cbn [map]. fold (addrs l') (addrs l).
    split; [by apply sublist_cons|]. split; [done|]. split; [done|]. intros Hn p Hp. apply list.NoDup_cons in Hn as [Hnin Hn].
    destruct (H4 Hn p Hp) as [|[Hnx Hnot]]; [by left|].
    destruct (decide (next = Some (eh_address eh))) as [e|Hne].
    + destruct l as [|eh2 l]; cbn in Hnx; [done|]. injection Hnx as <-. exfalso. apply Hnot. left.
    + right. split; [done|]. intros [->|?]%elem_of_cons; [congruence|done].
  - destruct (register_loop same m l next _ true) as [[[l1 n1] m1] f1] eqn:E1. injection E as <- <- <- <-.
    exact (Hkeep (EventHandler (eh_address eh) m (handler eh) (eh_data eh)) eq_refl _ _ _ _ _ E1).
  - destruct (register_loop same m l next _ found) as [[[l1 n1] m1] f1] eqn:E1. injection E as <- <- <- <-.
    exact (Hkeep eh eq_refl _ _ _ _ _ E1).
Qed.

(** Nothing changes when memory for a new handler runs out. *)
Lemma register_loop_keep same m : ∀ l next mask found l' next' mask' found',
  register_loop same m l next mask found = (l', next', mask', found') → m ≠ 0 → found' = false →
  l' = l ∧ next' = next ∧ found = false.
Proof.
  induction l as [|eh l IH]; intros next mask found l' next' mask' found' E Hm Hf; cbn [register_loop] in E.
  { injection E as <- <- <- <-. done. }
  apply Z.eqb_neq in Hm as Hm'. rewrite Hm' in E. destruct (same eh).
  - destruct (register_loop same m l next _ true) as [[[l1 n1] m1] f1] eqn:E1. injection E as <- <- <- <-.
    by destruct (IH _ _ _ _ _ _ _ E1 Hm Hf) as (_ & _ & ?).
  - destruct (register_loop same m l next _ found) as [[[l1 n1] m1] f1] eqn:E1. injection E as <- <- <- <-.
    by destruct (IH _ _ _ _ _ _ _ E1 Hm Hf) as (-> & -> & ->).
Qed.

Lemma register_ok same calloc v m h data :
  decoder_ok v → (∀ p, calloc = Some p → p ∉ addrs (handlers v)) →
  decoder_ok (register same calloc v m h data).1 ∧
  (calloc ≠ None → locked (register same calloc v m h data).1 = locked v) ∧
  (locked v = true → locked (register same calloc v m h data).1 = true).
Proof.
  intros [Hn Hnx Hm] Hfresh. unfold register.
  destruct (register_loop same m (handlers v) (next_handler v) 0 false) as [[[l next] mask] found] eqn:E.
  destruct (register_loop_ok _ _ _ _ _ _ _ _ _ _ E) as (H1 & H2 & H3 & H4).
  assert (NoDup (addrs l)) as Hnl by (by eapply sublist_NoDup).
  assert (∀ p, next = Some p → p ∈ addrs l) as Hnext.
  { intros p Hp. destruct (H4 Hn p Hp) as [|[Hp' Hnot]]; [done|]. by destruct (Hnot (Hnx p Hp')). }
  assert (∀ l' u b, NoDup (addrs l') → Forall (within u) l' → (∀ p, next = Some p → p ∈ addrs l') →
    decoder_ok (vbi_event_enable (Decoder l' next b (d_mask v) (resets v)) u)) as Henable by done.
  destruct (negb found && negb (m =? 0)) eqn:Ec; [destruct calloc as [p|]|].
  - cbn [fst]. assert (decoder_ok (vbi_event_enable (Decoder (l ++ [EventHandler p m h data]) next true (d_mask v) (resets v)) (mask .| m))) as Hok.
    { apply Henable.
      - unfold addrs. rewrite map_app. fold (addrs l). apply list.NoDup_app. split; [done|]. split; [|apply list.NoDup_singleton].
        intros x Hx ->%list_elem_of_singleton. apply (Hfresh p eq_refl). by eapply elem_of_submseteq; [|apply sublist_submseteq].
      - apply Forall_app. split; [|repeat constructor; apply Event.ldiff_self]. revert H2. apply List.Forall_impl.
        intros eh. apply Event.ldiff_or.
      - intros q Hq. unfold addrs. rewrite map_app. apply elem_of_app. left. by apply Hnext. }
    destruct (locked v) eqn:El; cbn; [by split_and!|]. split; [by destruct Hok|done].
  - cbn [fst]. destruct found; [done|]. destruct (Z.eqb_spec m 0) as [|Hm0]; [done|]. clear Ec.
    destruct (register_loop_keep _ _ _ _ _ _ _ _ _ _ E Hm0 eq_refl) as (-> & -> & _). split; [by split|done].
  - cbn [fst]. split; [by destruct (locked v); cbn; [|destruct (Henable l mask true Hnl H2 Hnext)]; try apply Henable|].
    destruct (locked v) eqn:El; cbn; done.
Qed.

Section client.
Context {Ev C : Type} (type : Ev → Z) (run_handler : C → Z → Z → Ev → C * list (call (E := Ev)))
  (calloc : C → vbi_decoder → option Z).
Context (calloc_fresh : ∀ c v p, calloc c v = Some p → p ∉ addrs (handlers v)).

(** A traversal looks at a handler of the list, and does so before anything else
    happens. *)
Definition stack_ok (v : vbi_decoder) (ws : list (work (E := Ev))) : Prop :=
  match ws with
  | Visit _ eh :: ws => (∀ p, eh = Some p → p ∈ addrs (handlers v)) ∧ Forall (λ w, ∀ ev eh, w ≠ Visit ev eh) ws
  | ws => Forall (λ w, ∀ ev eh, w ≠ Visit ev eh) ws
  end.

Definition config_ok (cf : config (E := Ev) (C := C)) : Prop := decoder_ok (vbi cf) ∧ stack_ok (vbi cf) (stack cf).

Lemma handler_in l p : p ∈ addrs l → ∃ eh, find_handler l p = Some eh.
Proof.
  induction l as [|eh l IH]; [by intros H%not_elem_of_nil|]. cbn [addrs map find_handler].
  destruct (Z.eqb_spec (eh_address eh) p) as [|Hne]; [by eexists|]. intros [->|H]%elem_of_cons; [done|]. by apply IH.
Qed.

Lemma successor_in l p q : successor l p = Some q → q ∈ addrs l.
Proof.
  induction l as [|eh l IH]; [done|]. cbn [addrs map successor]. destruct (eh_address eh =? p).
  - destruct l as [|eh2 l]; cbn; [done|]. intros [= <-]. right. left.
  - intros H. right. by apply IH.
Qed.

Lemma no_visit ws : Forall (λ w : work (E := Ev), ∀ ev eh, w ≠ Visit ev eh) ws → ∀ v, stack_ok v ws.
Proof. intros H v. destruct ws as [|w ws]; [done|]. inversion H as [|? ? Hw]; subst. destruct w as [|ev eh| |]; [done|by destruct (Hw ev eh)|done..]. Qed.

Lemma same_ok v v' : handlers v' = handlers v → next_handler v' = next_handler v → d_mask v' = d_mask v → decoder_ok v → decoder_ok v'.
Proof. intros E1 E2 E3 [H1 H2 H3]. split; by rewrite ?E1, ?E2, ?E3. Qed.

Lemma handler_step_ok cf :
  config_ok cf →
  match run_step type run_handler calloc cf with
  | Running cf' => config_ok cf'
  | Deadlock => locked (vbi cf) = true
  | Freed => False
  end.
Proof.
  destruct cf as [v c ws]. intros [Hv Hs]. cbn [vbi stack] in *. unfold run_step. cbn [stack vbi client].
  assert (∀ same m h data, decoder_ok (register same (calloc c v) v m h data).1) as Hreg
    by (intros; apply register_ok; [done|apply calloc_fresh]).
  destruct ws as [|[[m h d|h d|m h d|h|ev]|ev [p|]|ev|] ws]; cbn [stack_ok] in Hs; [by split|..].
  1-4: inversion Hs; subst; split; [apply Hreg|by apply no_visit].
  - inversion Hs; subst. destruct (locked v); [done|]. split; cbn [vbi stack].
    + by apply (same_ok v).
    + cbn [stack_ok]. split; [|by constructor]. intros p. cbn. destruct (handlers v) as [|eh l]; cbn; [done|]. intros [= <-]. left.
  - destruct Hs as [Hp Hs]. destruct (handler_in (handlers v) p (Hp p eq_refl)) as (eh & ->).
    assert (decoder_ok (set_next_handler (successor (handlers v) p) v)) as Hv'.
    { destruct Hv as [H1 H2 H3]. split; [done| |done]. cbn. intros q. apply successor_in. }
    destruct (negb _).
    + destruct (run_handler c (handler eh) (eh_data eh) ev) as [c' calls]. split; [done|]. cbn [stack]. apply no_visit.
      apply Forall_app. split; [|by constructor]. apply List.Forall_forall. intros w (a & <- & _)%in_map_iff. done.
    + split; [done|]. cbn [stack]. apply no_visit. by constructor.
  - destruct Hs as [_ Hs]. split; [done|]. by apply no_visit.
  - inversion Hs; subst. split; [done|]. cbn [stack vbi stack_ok]. split; [|done]. apply (dk_next _ Hv).
  - inversion Hs; subst. split; [by apply (same_ok v)|by apply no_visit].
Qed.

(** C39: handlers may register, unregister and replace handlers, themselves included,
    while an event is sent: no handler that was freed is called or looked at, every
    handler stays linked once and the mask of enabled events covers all handlers. A
    call can only wait forever when the mutex is locked. *)
Theorem decoder_handlers_safe (v : vbi_decoder) (c : C) (calls : list call) (n : nat) :
  decoder_ok v →
  match run type run_handler calloc n (Config v c (map Call calls)) with
  | Running cf => decoder_ok (vbi cf)
  | Deadlock => True
  | Freed => False
  end.
Proof using calloc_fresh.
  intros Hv. assert (config_ok (Config v c (map Call calls))) as Hok.
  { split; [done|]. apply no_visit. apply List.Forall_forall. by intros w (a & <- & _)%in_map_iff. }
  revert Hok. generalize (Config v c (map Call calls)). clear -calloc_fresh. induction n as [|n IH]; intros cf Hok; cbn [run]; [apply Hok|].
  pose proof (handler_step_ok cf Hok) as Hstep. destruct (run_step type run_handler calloc cf); [by apply IH|done|done].
Qed.

(** ** The mutex *)

(** The mutex is locked exactly during a traversal, and handlers send no events. *)
Fixpoint balanced (l : bool) (ws : list (work (E := Ev))) : Prop :=
  match ws with
  | [] => l = false
  | Call (Send _) :: ws => l = false ∧ balanced l ws
  | Call _ :: ws => balanced l ws
  | Visit _ _ :: ws | Loop _ :: ws => l = true ∧ balanced l ws
  | Unlock :: ws => l = true ∧ balanced false ws
  end.

Context (calloc_succeeds : ∀ c v, calloc c v ≠ None).
Context (handlers_send_nothing : ∀ c h data ev, Forall (λ a, ∀ ev, a ≠ Send ev) (run_handler c h data ev).2).

Lemma register_locked same c v m h data : locked (register same (calloc c v) v m h data).1 = locked v.
Proof using calloc_succeeds.
  unfold register. destruct (register_loop _ _ _ _ _ _) as [[[l next] mask] found]. pose proof (calloc_succeeds c v).
  destruct (negb found && negb (m =? 0)); [destruct (calloc c v); [|done]|]; cbn; by destruct (locked v).
Qed.

Lemma balanced_calls l calls ws : Forall (λ a, ∀ ev, a ≠ Send ev) calls → balanced l ws → balanced l (map Call calls ++ ws).
Proof.
  clear. induction 1 as [|a calls Ha _ IH]; intros H; [done|]. cbn [map app balanced]. destruct a as [| | | |ev]; [by apply IH..|by destruct (Ha ev)].
Qed.

Lemma run_step_balanced cf :
  config_ok cf → balanced (locked (vbi cf)) (stack cf) →
  ∃ cf', run_step type run_handler calloc cf = Running cf' ∧ config_ok cf' ∧ balanced (locked (vbi cf')) (stack cf').
Proof using calloc_fresh calloc_succeeds handlers_send_nothing.
  intros Hok Hb. pose proof (handler_step_ok cf Hok) as Hstep. destruct cf as [v c ws]. cbn [vbi stack] in *.
  unfold run_step in *. cbn [stack vbi client] in *.
  destruct ws as [|[[m h d|h d|m h d|h|ev]|ev [p|]|ev|] ws]; cbn [balanced] in Hb.
  1: by eexists.
  1-4: eexists; (split; [reflexivity|]); (split; [done|]); cbn [vbi stack];
    unfold vbi_event_handler_unregister, vbi_event_handler_remove, vbi_event_handler_register, vbi_event_handler_add;
    by rewrite register_locked.
  - destruct Hb as [Hl Hb]. rewrite Hl in *. eexists. split; [reflexivity|]. split; [done|]. done.
  - destruct Hb as [Hl Hb]. destruct (find_handler (handlers v) p) as [eh|]; [|done]. destruct (negb _).
    + pose proof (handlers_send_nothing c (handler eh) (eh_data eh) ev) as Hn.
      destruct (run_handler c (handler eh) (eh_data eh) ev) as [c' calls]. eexists. split; [reflexivity|]. split; [done|].
      cbn [vbi stack locked set_next_handler]. by apply balanced_calls.
    + eexists. split; [reflexivity|]. split; [done|]. done.
  - destruct Hb as [Hl Hb]. eexists. split; [reflexivity|]. by split.
  - destruct Hb as [Hl Hb]. eexists. split; [reflexivity|]. by split.
  - destruct Hb as [Hl Hb]. eexists. split; [reflexivity|]. by split.
Qed.

(** When handlers send no events themselves and memory does not run out, no call
    waits forever, and the mutex is free when all calls have returned. *)
Theorem decoder_handlers_deadlock_free (v : vbi_decoder) (c : C) (calls : list call) (n : nat) :
  decoder_ok v → locked v = false →
  ∃ cf, run type run_handler calloc n (Config v c (map Call calls)) = Running cf ∧
    (stack cf = [] → locked (vbi cf) = false).
Proof using calloc_fresh calloc_succeeds handlers_send_nothing.
  intros Hv Hl. assert (config_ok (Config v c (map Call calls)) ∧ balanced (locked v) (map Call calls)) as [Hok Hb].
  { split; [split; [done|]|].
    - apply no_visit, List.Forall_forall. by intros w (a & <- & _)%in_map_iff.
    - rewrite Hl. clear. induction calls as [|[]]; done. }
  change v with (vbi (Config v c (map Call calls))) in Hb at 1. change (map Call calls) with (stack (Config v c (map Call calls))) in Hb at 2.
  revert Hok Hb. generalize (Config v c (map Call calls)). clear -calloc_fresh calloc_succeeds handlers_send_nothing.
  induction n as [|n IH]; intros cf Hok Hb; cbn [run].
  - exists cf. split; [done|]. intros E. rewrite E in Hb. exact Hb.
  - destruct (run_step_balanced cf Hok Hb) as (cf' & -> & Hok' & Hb'). by apply IH.
Qed.
End client.

(** ** Examples *)

Definition example_decoder : vbi_decoder := Decoder [EventHandler 100 0x3 1 0; EventHandler 200 0x1 2 0] None false 0x3 [].
(** The first handler removes both and registers itself again. *)
Definition example_handler (c : list Z) (h data ev : Z) : list Z * list (call (E := Z)) :=
  (c ++ [h], if h =? 1 then [Unregister 1 0; Unregister 2 0; Register 0x1 1 0] else []).
Definition example_calloc (c : list Z) (v : vbi_decoder) : option Z := Some (1 + foldr Z.max 0 (addrs (handlers v))).

Lemma example_calloc_fresh c v p : example_calloc c v = Some p → p ∉ addrs (handlers v).
Proof.
  unfold example_calloc. intros [= <-]. assert (∀ l q, q ∈ l → q ≤ foldr Z.max 0 l) as H.
  { induction l as [|x l IH]; intros q; [by intros Hq%not_elem_of_nil|]. intros [->|Hq]%elem_of_cons; cbn; [lia|].
    specialize (IH q Hq). lia. }
  intros Hin. specialize (H _ _ Hin). lia.
Qed.

Lemma example_decoder_ok : decoder_ok example_decoder.
Proof.
  split; [by apply (bool_decide_unpack (NoDup [100; 200]))|done|]. repeat constructor.
Qed.

Lemma decoder_handlers_safe_witness :
  match run (λ ev, ev) example_handler example_calloc 12 (Config example_decoder [] (map Call [Send 1; Send 1])) with
  | Running cf => decoder_ok (vbi cf)
  | _ => True
  end ∧
  run (λ ev, ev) example_handler example_calloc 8 (Config example_decoder [] (map Call [Send 1])) =
    Running (Config (Decoder [EventHandler 1 0x1 1 0] None false 0x1 []) [1] []).
Proof.
  split; [|vm_compute; reflexivity].
  pose proof (decoder_handlers_safe (λ ev, ev) example_handler example_calloc example_calloc_fresh example_decoder [] [Send 1; Send 1] 12
    example_decoder_ok) as H.
  destruct (run _ _ _ _ _); [exact H|exact I..].
Defined.

Lemma decoder_handlers_deadlock_free_witness :
  ∃ cf, run (λ ev, ev) example_handler example_calloc 30 (Config example_decoder [] (map Call [Send 1; Send 1])) = Running cf ∧
    (stack cf = [] → locked (vbi cf) = false).
Proof.
  apply (decoder_handlers_deadlock_free (λ ev, ev) example_handler example_calloc example_calloc_fresh).
  - intros c v. discriminate.
  - intros c h data ev. unfold example_handler. cbn [snd]. destruct (h =? 1); repeat constructor; done.
  - apply example_decoder_ok.
  - reflexivity.
Defined.

(** When memory for a new handler runs out the mutex stays locked: the next event is
    never sent. *)
Lemma out_of_memory_deadlock :
  run (λ ev, ev) example_handler (λ _ _, None) 2 (Config example_decoder [] (map Call [Register 1 9 9; Send 1])) = Deadlock.
Proof. reflexivity. Qed.
