(* ===== verification/Double.v ===== *)
(** The type [double] of C: IEEE 754 binary64 numbers, with the conversions from and to
    integers the sources use, and upper bounds that survive rounding. *)
From Stdlib Require Export SpecFloat.
From S2P Require Import Prelude.

(** [double] is an IEEE 754 binary64 number. *)
Definition double : Type := spec_float.
Definition d_zero : double := S754_zero false.

Definition d_add : double → double → double := SFadd 53 1024.
Definition d_sub : double → double → double := SFsub 53 1024.
Definition d_mul : double → double → double := SFmul 53 1024.
Definition d_div : double → double → double := SFdiv 53 1024.

(** [(double) z]; also the double nearest to a decimal fraction [num / den]. *)
Definition d_of_Z (z : Z) : double := binary_normalize 53 1024 z 0 false.
Definition d_frac (num den : Z) : double := d_div (d_of_Z num) (d_of_Z den).

Definition d_trunc (d : double) : option Z :=
  match d with
  | S754_zero _ => Some 0
  | S754_finite s m e =>
      let x := if 0 <=? e then Z.pos m * 2 ^ e else Z.pos m / 2 ^ (- e) in
      Some (if s then - x else x)
  | _ => None
  end.

(** [(int64_t) d], [(int) d]: the conversion discards the fraction; [None] when the value is
    not in the range of the type. *)
Definition int64_of_double (d : double) : option Z :=
  x ← d_trunc d; if (- 2 ^ 63 <=? x) && (x <? 2 ^ 63) then Some x else None.
Definition int_of_double (d : double) : option Z :=
  x ← d_trunc d; if (- 2 ^ 31 <=? x) && (x <? 2 ^ 31) then Some x else None.

(** ** Upper bounds

    [d_le x k n]: [x] is not negative and at most [n / 2 ^ k]. Rounding to nearest is
    monotone, and a number [n / 2 ^ k] with [n < 2 ^ 53] needs no rounding, so such a bound
    of the exact result is a bound of the rounded one. *)
Definition d_le (x : double) (k n : Z) : Prop :=
  match x with
  | S754_zero _ => 0 ≤ n
  | S754_finite false m e => Z.pos m * 2 ^ Z.max 0 (e + k) ≤ n * 2 ^ Z.max 0 (- (e + k))
  | _ => False
  end.

Lemma iter_pos_nat {A} (f : A → A) p x : SpecFloat.iter_pos f p x = Nat.iter (Pos.to_nat p) f x.
Proof.
  revert x. induction p as [p IH|p IH|]; intros x; cbn [SpecFloat.iter_pos]; rewrite ?IH.
  - replace (Pos.to_nat p~1) with (Pos.to_nat p + (Pos.to_nat p + 1))%nat by lia.
    rewrite !Nat.iter_add. reflexivity.
  - replace (Pos.to_nat p~0) with (Pos.to_nat p + Pos.to_nat p)%nat by lia.
    rewrite !Nat.iter_add. reflexivity.
  - reflexivity.
Qed.

Lemma shr_1_spec (mrs : shr_record) : 0 ≤ shr_m mrs →
  shr_m (shr_1 mrs) = shr_m mrs / 2 ∧
  (loc_of_shr_record (shr_1 mrs) = loc_Exact ↔
   shr_m mrs mod 2 = 0 ∧ loc_of_shr_record mrs = loc_Exact).
Proof.
  destruct mrs as [m r s]; intros H; cbn [shr_m] in H.
  assert (D : shr_m (shr_1 (Build_shr_record m r s)) = m / 2).
  { rewrite <- Z.div2_div. by destruct m as [|[p|p|]|p]; try lia. }
  split; [done|]. cbn [shr_m].
  assert (M : loc_of_shr_record (shr_1 (Build_shr_record m r s)) = loc_Exact ↔
    Z.odd m = false ∧ loc_of_shr_record (Build_shr_record m r s) = loc_Exact).
  { destruct m as [|[p|p|]|p]; try lia; destruct r, s; cbn; intuition discriminate. }
  rewrite M, Zmod_odd. destruct (Z.odd m); intuition discriminate.
Qed.

Lemma shr_iter_spec (mrs : shr_record) (p : nat) : 0 ≤ shr_m mrs →
  shr_m (Nat.iter p shr_1 mrs) = shr_m mrs / 2 ^ Z.of_nat p ∧
  (loc_of_shr_record (Nat.iter p shr_1 mrs) = loc_Exact ↔
   shr_m mrs mod 2 ^ Z.of_nat p = 0 ∧ loc_of_shr_record mrs = loc_Exact).
Proof.
  intros H. induction p as [|p [IH1 IH2]].
  { cbn. rewrite Z.div_1_r, Z.mod_1_r. intuition. }
  cbn [Nat.iter nat_rect].
  assert (H2 := Z.pow_pos_nonneg 2 (Z.of_nat p) ltac:(lia) ltac:(lia)).
  destruct (shr_1_spec (Nat.iter p shr_1 mrs)) as [E1 E2].
  { rewrite IH1. by apply Z.div_pos. }
  assert (Ep : 2 ^ Z.of_nat (S p) = 2 ^ Z.of_nat p * 2).
  { rewrite Nat2Z.inj_succ, Z.pow_succ_r by lia. lia. }
  unfold Nat.iter in *. rewrite E1, IH1, Ep. split; [by rewrite Z.div_div by lia|].
  rewrite E2, IH2, IH1, Z.rem_mul_r by lia.
  pose proof (Z.mod_pos_bound (shr_m mrs) (2 ^ Z.of_nat p) H2).
  pose proof (Z.mod_pos_bound (shr_m mrs / 2 ^ Z.of_nat p) 2 ltac:(lia)).
  split; [intros (? & ? & ?); split; [nia|done]|intros (? & ?); split; [nia|split; [nia|done]]].
Qed.

(** [a * 2 ^ p ≤ n] for any exponent [p]. *)
Definition dle (a p n : Z) : Prop := a * 2 ^ Z.max 0 p ≤ n * 2 ^ Z.max 0 (- p).

Lemma dle_mono a b p n : a ≤ b → dle b p n → dle a p n.
Proof.
  unfold dle. intros H1 H2. assert (0 < 2 ^ Z.max 0 p) by (apply Z.pow_pos_nonneg; lia). nia.
Qed.

Lemma dle_shift a s p n : 0 ≤ s → dle (a * 2 ^ s) p n ↔ dle a (p + s) n.
Proof.
  intros H. unfold dle.
  assert (P : ∀ x, 0 ≤ x → 0 < 2 ^ x) by (intros; apply Z.pow_pos_nonneg; lia).
  destruct (decide (0 ≤ p)).
  { rewrite (Z.max_r 0 p), (Z.max_r 0 (p + s)), !Z.max_l, Z.pow_add_r by lia.
    by rewrite <- Z.mul_assoc, (Z.mul_comm (2 ^ s)). }
  rewrite (Z.max_l 0 p), (Z.max_r 0 (- p)) by lia. destruct (decide (0 ≤ p + s)).
  - rewrite Z.max_r, Z.max_l by lia. replace s with ((p + s) + (- p)) at 1 by lia.
    rewrite (Z.pow_add_r 2 (p + s)) by lia. pose proof (P (- p) ltac:(lia)). nia.
  - rewrite Z.max_l, Z.max_r by lia. replace (- p) with (- (p + s) + s) at 1 by lia.
    rewrite (Z.pow_add_r 2 (- (p + s))) by lia. pose proof (P s ltac:(lia)). nia.
Qed.

Lemma dle_neg a p n : p ≤ 0 → dle a p n ↔ a ≤ n * 2 ^ (- p).
Proof. intros H. unfold dle. rewrite Z.max_l, Z.max_r by lia. by rewrite Z.mul_1_r. Qed.

Lemma dle_nonneg a p n : 0 ≤ a → dle a p n → 0 ≤ n.
Proof.
  unfold dle. intros H1 H2. assert (0 < 2 ^ Z.max 0 p) by (apply Z.pow_pos_nonneg; lia).
  assert (0 < 2 ^ Z.max 0 (- p)) by (apply Z.pow_pos_nonneg; lia). nia.
Qed.

Lemma d_le_finite m e k n : d_le (S754_finite false m e) k n ↔ dle (Z.pos m) (e + k) n.
Proof. done. Qed.

Lemma Zdigits2_spec m : 0 < m → 2 ^ (Zdigits2 m - 1) ≤ m < 2 ^ Zdigits2 m.
Proof.
  destruct m as [|p|p]; try lia. intros _. cbn [Zdigits2].
  induction p as [p IH|p IH|]; cbn [digits2_pos]; [..|by cbn].
  all: rewrite Pos2Z.inj_succ; unfold Z.succ;
    replace (Z.pos (digits2_pos p) + 1 - 1) with (Z.pos (digits2_pos p) - 1 + 1) by lia;
    rewrite !Z.pow_add_r by lia; rewrite ?Pos2Z.inj_xI, ?(Pos2Z.inj_xO p); lia.
Qed.

Lemma dle_digits m p n B : 0 < m → 0 ≤ B → n < 2 ^ B → dle m p n → Zdigits2 m + p ≤ B.
Proof.
  intros Hm HB Hn H. destruct (Z.le_gt_cases (Zdigits2 m + p) B) as [|G]; [done|exfalso].
  assert (D := proj1 (Zdigits2_spec m Hm)). apply (dle_mono _ _ _ _ D) in H.
  assert (D0 : 0 < Zdigits2 m) by (by destruct m).
  rewrite <- (Z.mul_1_l (2 ^ _)) in H. apply dle_shift in H; [|lia].
  unfold dle in H. rewrite Z.max_r, Z.max_l in H by lia.
  assert (2 ^ B ≤ 2 ^ (p + (Zdigits2 m - 1))) by (apply Z.pow_le_mono_r; lia). lia.
Qed.

Lemma shr_fexp_spec m e l : 0 ≤ m →
  let s := Z.max 0 (fexp 53 1024 (Zdigits2 m + e) - e) in
  (shr_fexp 53 1024 m e l).2 = e + s ∧ shr_m (shr_fexp 53 1024 m e l).1 = m / 2 ^ s ∧
  (loc_of_shr_record (shr_fexp 53 1024 m e l).1 = loc_Exact ↔ m mod 2 ^ s = 0 ∧ l = loc_Exact).
Proof.
  intros Hm s. assert (M : shr_m (shr_record_of_loc m l) = m) by (by destruct l as [|[]]).
  assert (L : loc_of_shr_record (shr_record_of_loc m l) = l) by (by destruct l as [|[]]).
  unfold shr_fexp, shr. subst s. destruct (fexp 53 1024 (Zdigits2 m + e) - e) as [|p|p] eqn:E.
  1,3: rewrite Z.max_l by lia; cbn [fst snd]; rewrite M, L, Z.div_1_r, Z.mod_1_r;
    (split; [lia|]); (split; [done|]); intuition.
  rewrite Z.max_r by lia. cbn [fst snd]. rewrite iter_pos_nat.
  destruct (shr_iter_spec (shr_record_of_loc m l) (Pos.to_nat p) ltac:(by rewrite M)) as [E1 E2].
  rewrite M, positive_nat_Z, ?L in *. done.
Qed.

(** The mantissa [m] with the rounding location [l] is at most [n / 2 ^ p]. *)
Definition loc_le (m p : Z) (l : location) (n : Z) : Prop :=
  match l with loc_Exact => dle m p n | _ => p ≤ 0 ∧ dle (m + 1) p n end.

Lemma round_once m e l k n : 0 ≤ m → n < 2 ^ 53 → k ≤ 1074 → loc_le m (e + k) l n →
  let x := shr_fexp 53 1024 m e l in
  let r := round_nearest_even (shr_m x.1) (loc_of_shr_record x.1) in
  0 ≤ r ∧ dle r (x.2 + k) n.
Proof.
  intros Hm Hn Hk Hl x r. subst r.
  destruct (shr_fexp_spec m e l Hm) as (E1 & E2 & E3). fold x in E1, E2, E3. rewrite E1, E2.
  set (s := Z.max 0 (fexp 53 1024 (Zdigits2 m + e) - e)) in *.
  assert (S0 : 0 ≤ s) by lia. assert (P : 0 < 2 ^ s) by (apply Z.pow_pos_nonneg; lia).
  assert (Q : 0 ≤ m / 2 ^ s) by (by apply Z.div_pos).
  assert (Hd : dle m (e + k) n).
  { destruct l; [done|]. destruct Hl as [_ Hl]. revert Hl. apply dle_mono. lia. }
  destruct (loc_of_shr_record x.1) as [|c] eqn:El.
  { cbn [round_nearest_even]. split; [done|]. destruct (proj1 E3 eq_refl) as [E4 ->].
    replace (e + s + k) with (e + k + s) by lia. apply dle_shift; [done|].
    assert (m = m / 2 ^ s * 2 ^ s) as <- by (pose proof (Z.div_mod m (2 ^ s)); lia). done. }
  assert (R : 0 ≤ round_nearest_even (m / 2 ^ s) (loc_Inexact c) ≤ m / 2 ^ s + 1).
  { destruct c; cbn [round_nearest_even]; try lia. destruct (Z.even _); lia. }
  split; [lia|]. apply (dle_mono _ (m / 2 ^ s + 1)); [lia|].
  assert (K : e + s + k ≤ 0).
  { destruct (decide (s = 0)) as [Z0|].
    - destruct l; [|cbn in Hl; lia]. rewrite Z0, Z.mod_1_r in E3. discriminate (proj2 E3 (conj eq_refl eq_refl)).
    - assert (s = fexp 53 1024 (Zdigits2 m + e) - e) as -> by lia. unfold fexp, emin in *.
      destruct (decide (m = 0)) as [->|]; [cbn [Zdigits2] in *; lia|].
      pose proof (dle_digits m (e + k) n 53 ltac:(lia) ltac:(lia) Hn Hd). lia. }
  apply dle_neg; [done|].
  assert (B : (m / 2 ^ s) * 2 ^ s < n * 2 ^ (- (e + s + k)) * 2 ^ s).
  { rewrite <- Z.mul_assoc, <- Z.pow_add_r by lia. replace (- (e + s + k) + s) with (- (e + k)) by lia.
    pose proof (Z.mul_div_le m (2 ^ s) P). destruct l as [|c'].
    - apply dle_neg in Hl; [|lia].
      enough (m mod 2 ^ s ≠ 0) by (pose proof (Z.div_mod m (2 ^ s)); lia).
      intros X. discriminate (proj2 E3 (conj X eq_refl)).
    - destruct Hl as [_ Hl]. apply dle_neg in Hl; [|lia]. lia. }
  nia.
Qed.

Lemma round_aux_le m e l k n : 0 ≤ m → n < 2 ^ 53 → 0 ≤ k ≤ 1074 → loc_le m (e + k) l n →
  d_le (binary_round_aux 53 1024 false m e l) k n.
Proof.
  intros Hm Hn Hk Hl. unfold binary_round_aux.
  destruct (round_once m e l k n Hm Hn ltac:(lia) Hl) as [R1 R2].
  destruct (shr_fexp 53 1024 m e l) as [mrs' e']. cbn [fst snd] in R1, R2.
  set (r := round_nearest_even (shr_m mrs') (loc_of_shr_record mrs')) in *.
  destruct (shr_fexp_spec r e' loc_Exact R1) as (E1 & E2 & _).
  destruct (shr_fexp 53 1024 r e' loc_Exact) as [mrs'' e'']. cbn [fst snd] in E1, E2.
  set (s := Z.max 0 (fexp 53 1024 (Zdigits2 r + e') - e')) in *. rewrite E2, E1.
  assert (S0 : 0 ≤ s) by lia. assert (P : 0 < 2 ^ s) by (apply Z.pow_pos_nonneg; lia).
  assert (D : dle (r / 2 ^ s) (e' + s + k) n).
  { replace (e' + s + k) with (e' + k + s) by lia. apply dle_shift; [done|].
    revert R2. apply dle_mono. pose proof (Z.mul_div_le r (2 ^ s) P). lia. }
  assert (Q : 0 ≤ r / 2 ^ s) by (by apply Z.div_pos). pose proof (dle_nonneg _ _ _ Q D).
  destruct (r / 2 ^ s) as [|p|p]; [done| |lia].
  destruct (Z.leb_spec (e' + s) (1024 - 53)); [done|exfalso].
  pose proof (dle_digits (Z.pos p) _ n 53 ltac:(lia) ltac:(lia) Hn D). cbn [Zdigits2] in *. lia.
Qed.

Lemma iter_xO m d : Z.pos (Pos.iter xO m d) = Z.pos m * 2 ^ Z.pos d.
Proof.
  induction d as [|d IH] using Pos.peano_ind; [cbn; lia|].
  rewrite Pos.iter_succ, Pos2Z.inj_xO, IH, Pos2Z.inj_succ, Z.pow_succ_r by lia. lia.
Qed.

(** Moving to a smaller exponent does not change a number. *)
Lemma shl_align_spec m e e' : let x := shl_align m e e' in
  x.2 = Z.min e e' ∧ Z.pos x.1 = Z.pos m * 2 ^ (e - Z.min e e').
Proof.
  unfold shl_align. destruct (e' - e) as [|d|d] eqn:E; cbn [fst snd].
  1,2: rewrite Z.min_l, Z.sub_diag by lia; lia.
  rewrite Z.min_r, iter_xO by lia. split; [done|]. do 2 f_equal. lia.
Qed.

Lemma binary_round_le m e k n : n < 2 ^ 53 → 0 ≤ k ≤ 1074 → dle (Z.pos m) (e + k) n →
  d_le (binary_round 53 1024 false m e) k n.
Proof.
  intros Hn Hk H. unfold binary_round. set (e1 := fexp 53 1024 _).
  destruct (shl_align_spec m e e1) as [E1 E2]. destruct (shl_align m e e1) as [mz ez].
  cbn [fst snd] in E1, E2. apply round_aux_le; [lia|done|done|].
  cbn [loc_le]. rewrite E2. apply dle_shift; [lia|].
  by replace (ez + k + (e - Z.min e e1)) with (e + k) by lia.
Qed.

Lemma dle_add a b p m n : dle a p m → dle b p n → dle (a + b) p (m + n).
Proof. unfold dle. lia. Qed.

Lemma d_add_le x y k a b : d_le x k a → d_le y k b → a + b < 2 ^ 53 → 0 ≤ k ≤ 1074 →
  d_le (d_add x y) k (a + b).
Proof.
  intros Hx Hy Hn Hk. unfold d_add.
  assert (0 ≤ a) by (destruct x as [|? |  |[] ? ?]; try done; by apply dle_nonneg in Hx).
  assert (0 ≤ b) by (destruct y as [|? |  |[] ? ?]; try done; by apply dle_nonneg in Hy).
  destruct x as [s1| | |[] m1 e1]; try done; destruct y as [s2| | |[] m2 e2]; try done; cbn [SFadd].
  - destruct s1, s2; cbn [d_le]; lia.
  - revert Hy. cbn [d_le]. intros. nia.
  - revert Hx. cbn [d_le]. intros. nia.
  - cbn [cond_Zopp].
    destruct (shl_align_spec m1 e1 (Z.min e1 e2)) as [_ E1].
    destruct (shl_align_spec m2 e2 (Z.min e1 e2)) as [_ E2].
    destruct (shl_align m1 e1 _) as [n1 f1], (shl_align m2 e2 _) as [n2 f2]. cbn [fst snd] in *.
    cbn [Z.add binary_normalize]. apply binary_round_le; [lia|done|].
    rewrite Pos2Z.inj_add, E1, E2. apply dle_add; apply dle_shift; try lia.
    all: rewrite ?Z.min_assoc, ?Z.min_id, ?(Z.min_comm e2), <- ?Z.min_assoc, ?Z.min_id.
    + by replace (Z.min e1 e2 + k + (e1 - Z.min e1 e2)) with (e1 + k) by lia.
    + by replace (Z.min e1 e2 + k + (e2 - Z.min e1 e2)) with (e2 + k) by lia.
Qed.

Lemma dle_mul a b p q m n : 0 ≤ a → 0 ≤ b → dle a p m → dle b q n → dle (a * b) (p + q) (m * n).
Proof.
  intros Ha Hb H1 H2. pose proof (dle_nonneg _ _ _ Ha H1). pose proof (dle_nonneg _ _ _ Hb H2).
  unfold dle in *.
  assert (P : ∀ x, 0 ≤ x → 0 < 2 ^ x) by (intros; apply Z.pow_pos_nonneg; lia).
  assert (M : a * 2 ^ Z.max 0 p * (b * 2 ^ Z.max 0 q)
    ≤ m * 2 ^ Z.max 0 (- p) * (n * 2 ^ Z.max 0 (- q))).
  { apply Z.mul_le_mono_nonneg; try done;
      [pose proof (P (Z.max 0 p) ltac:(lia))|pose proof (P (Z.max 0 q) ltac:(lia))]; nia. }
  set (c := Z.max 0 p + Z.max 0 q - Z.max 0 (p + q)).
  assert (C : 0 ≤ c) by lia. pose proof (P c C).
  apply (Zmult_le_reg_r _ _ (2 ^ c)); [lia|].
  rewrite <- !Z.mul_assoc, <- !Z.pow_add_r by lia.
  replace (Z.max 0 (p + q) + c) with (Z.max 0 p + Z.max 0 q) by lia.
  replace (Z.max 0 (- (p + q)) + c) with (Z.max 0 (- p) + Z.max 0 (- q)) by lia.
  rewrite !Z.pow_add_r by lia. lia.
Qed.

(** [x ≤ a / 2 ^ k] and [y ≤ b / 2 ^ j] give [x * y ≤ n / 2 ^ k]. *)
Lemma d_mul_le x y k a j b n : d_le x k a → d_le y j b → a * b ≤ n * 2 ^ j → 0 ≤ j →
  n < 2 ^ 53 → 0 ≤ k ≤ 1074 → d_le (d_mul x y) k n.
Proof.
  intros Hx Hy Hn Hj H Hk. unfold d_mul.
  assert (0 ≤ a) by (destruct x as [|? |  |[] ? ?]; try done; by apply dle_nonneg in Hx).
  assert (0 ≤ b) by (destruct y as [|? |  |[] ? ?]; try done; by apply dle_nonneg in Hy).
  assert (0 < 2 ^ j) by (apply Z.pow_pos_nonneg; lia).
  assert (0 ≤ n) by nia.
  destruct x as [s1| | |[] m1 e1]; try done; destruct y as [s2| | |[] m2 e2]; try done; cbn [SFmul].
  cbn [xorb]. apply round_aux_le; [lia|done|done|]. cbn [loc_le].
  apply (proj1 (d_le_finite _ _ _ _)) in Hx, Hy. pose proof (dle_mul (Z.pos m1) (Z.pos m2) _ _ _ _ ltac:(lia) ltac:(lia) Hx Hy) as M.
  unfold dle in *. set (p := e1 + k + (e2 + j)) in *. rewrite Pos2Z.inj_mul.
  change (dle (Z.pos m1 * Z.pos m2) p (a * b)) in M.
  change (dle (Z.pos m1 * Z.pos m2) (e1 + e2 + k) n).
  replace p with (e1 + e2 + k + j) in M by lia. apply dle_shift in M; [|lia].
  revert M. unfold dle. intros M.
  assert (0 < 2 ^ Z.max 0 (- (e1 + e2 + k))) by (apply Z.pow_pos_nonneg; lia). nia.
Qed.

(** Integers below [2 ^ 53] are converted exactly. *)
Lemma d_of_Z_exact z : 0 < z < 2 ^ 53 →
  ∃ m, d_of_Z z = S754_finite false m (Zdigits2 z - 53) ∧ Z.pos m = z * 2 ^ (53 - Zdigits2 z) ∧
    Zdigits2 (Z.pos m) = 53.
Proof.
  intros Hz. destruct (Zdigits2_spec z ltac:(lia)) as [D1 D2].
  assert (D : 1 ≤ Zdigits2 z ≤ 53).
  { split; [destruct z; cbn; lia|]. destruct (Z.le_gt_cases (Zdigits2 z) 53) as [|G]; [done|exfalso].
    assert (2 ^ 53 ≤ 2 ^ (Zdigits2 z - 1)) by (apply Z.pow_le_mono_r; lia). lia. }
  destruct z as [|z|z]; try lia. unfold d_of_Z, binary_normalize, binary_round.
  set (d := Zdigits2 (Z.pos z)) in *. change (Z.pos (digits2_pos z)) with d.
  assert (F : fexp 53 1024 (d + 0) = d - 53) by (unfold fexp, emin; lia). rewrite F.
  destruct (shl_align_spec z 0 (d - 53)) as [E1 E2].
  destruct (shl_align z 0 (d - 53)) as [m e]. cbn [fst snd] in E1, E2.
  rewrite Z.min_r in E1, E2 by lia. subst e. replace (0 - (d - 53)) with (53 - d) in E2 by lia.
  assert (Dm : Zdigits2 (Z.pos m) = 53).
  { destruct (Zdigits2_spec (Z.pos m) ltac:(lia)) as [M1 M2].
    assert (P : 0 < 2 ^ (53 - d)) by (apply Z.pow_pos_nonneg; lia).
    assert (L : 2 ^ 52 ≤ Z.pos m < 2 ^ 53).
    { rewrite E2. replace (2 ^ 52) with (2 ^ (d - 1) * 2 ^ (53 - d)) by (rewrite <- Z.pow_add_r by lia; f_equal; lia).
      replace (2 ^ 53) with (2 ^ d * 2 ^ (53 - d)) by (rewrite <- Z.pow_add_r by lia; f_equal; lia).
      nia. }
    assert (1 ≤ Zdigits2 (Z.pos m)) by (cbn; lia).
    destruct (Z.lt_trichotomy (Zdigits2 (Z.pos m)) 53) as [G|[G|G]]; [|done|]; exfalso.
    - assert (2 ^ Zdigits2 (Z.pos m) ≤ 2 ^ 52) by (apply Z.pow_le_mono_r; lia). lia.
    - assert (2 ^ 53 ≤ 2 ^ (Zdigits2 (Z.pos m) - 1)) by (apply Z.pow_le_mono_r; lia). lia. }
  exists m. split; [|done]. unfold binary_round_aux, shr_fexp. rewrite Dm.
  replace (fexp 53 1024 (53 + (d - 53)) - (d - 53)) with 0 by (unfold fexp, emin; lia).
  cbn [shr shr_record_of_loc shr_m loc_of_shr_record round_nearest_even]. rewrite Dm.
  replace (fexp 53 1024 (53 + (d - 53)) - (d - 53)) with 0 by (unfold fexp, emin; lia).
  cbn [shr shr_record_of_loc shr_m]. destruct (Z.leb_spec (d - 53) (1024 - 53)); [done|lia].
Qed.

Lemma d_of_Z_le z k n : 0 ≤ z < 2 ^ 53 → n < 2 ^ 53 → 0 ≤ k ≤ 1074 → z * 2 ^ k ≤ n → d_le (d_of_Z z) k n.
Proof.
  intros Hz Hn Hk H. destruct z as [|z|z]; [by cbn in *|idtac|lia].
  apply binary_round_le; [done|done|]. unfold dle.
  rewrite Z.max_r, (Z.max_l 0 (- (0 + k))) by lia. rewrite Z.add_0_l. lia.
Qed.

(** The quotient and remainder of the mantissas say where the exact quotient is. *)
Lemma new_location_exact b r : 0 ≤ r → new_location b r = loc_Exact ↔ r = 0.
Proof.
  intros H. unfold new_location, new_location_even, new_location_odd.
  destruct (Z.even b), (Z.eqb_spec r 0); by subst.
Qed.


Lemma dle_scale a p m t : 0 ≤ a → 0 ≤ t → dle a p m → dle a (p + t) (m * 2 ^ t).
Proof.
  intros Ha Ht H. rewrite <- (Z.mul_1_r a). apply dle_mul; [done|lia|done|].
  unfold dle. rewrite Z.max_r, Z.max_l by lia. lia.
Qed.

Lemma dle_cancel a b p n : 0 < b → dle (a * b) p (n * b) → dle a p n.
Proof. unfold dle. intros. nia. Qed.

(** [x ≤ a / 2 ^ k] and [a ≤ n * c] give [x / c ≤ n / 2 ^ k]. *)
Lemma d_div_le x c k a n : d_le x k a → 0 < c < 2 ^ 53 → a ≤ n * c → n < 2 ^ 53 → 0 ≤ k ≤ 1074 →
  d_le (d_div x (d_of_Z c)) k n.
Proof.
  intros Hx Hc Ha Hn Hk.
  assert (A0 : 0 ≤ a) by (destruct x as [|? |  |[] ? ?]; try done; by apply dle_nonneg in Hx).
  assert (N0 : 0 ≤ n) by nia.
  destruct (d_of_Z_exact c Hc) as (my & -> & Ey & Dy).
  destruct (Zdigits2_spec c ltac:(lia)) as [D1 D2].
  assert (D : Zdigits2 c ≤ 53).
  { destruct (Z.le_gt_cases (Zdigits2 c) 53) as [|G]; [done|exfalso].
    assert (2 ^ 53 ≤ 2 ^ (Zdigits2 c - 1)) by (apply Z.pow_le_mono_r; lia). lia. }
  set (ey := Zdigits2 c - 53) in *. replace (53 - Zdigits2 c) with (- ey) in Ey by lia.
  unfold d_div. destruct x as [s1| | |[] mx ex]; try done.
  cbn [SFdiv]. apply (proj1 (d_le_finite _ _ _ _)) in Hx. unfold SFdiv_core_binary. rewrite Dy.
  set (e' := Z.min _ (ex - ey)). set (s := ex - ey - e'). assert (S0 : 0 ≤ s) by lia.
  replace (match s with Z0 => _ | Zpos _ => _ | Zneg _ => _ end) with (Z.pos mx * 2 ^ s).
  2: { destruct s; [lia|by rewrite Z.shiftl_mul_pow2|lia]. }
  pose proof (Z_div_mod (Z.pos mx * 2 ^ s) (Z.pos my) ltac:(lia)) as DM.
  destruct (Z.div_eucl (Z.pos mx * 2 ^ s) (Z.pos my)) as [q r]. destruct DM as [DM1 DM2].
  assert (P : 0 < 2 ^ s) by (apply Z.pow_pos_nonneg; lia). assert (Q0 : 0 ≤ q) by nia.
  assert (H : dle (Z.pos mx) (ex - ey + k) (n * Z.pos my)).
  { rewrite Ey, Z.mul_assoc. replace (ex - ey + k) with (ex + k + - ey) by lia.
    apply dle_scale; [lia|lia|].
    revert Hx. unfold dle. assert (0 < 2 ^ Z.max 0 (- (ex + k))) by (apply Z.pow_pos_nonneg; lia).
    intros Hx. etrans; [exact Hx|]. apply Z.mul_le_mono_nonneg_r; lia. }
  assert (E' : e' + k ≤ 0).
  { assert (My := proj2 (Zdigits2_spec (Z.pos my) ltac:(lia))). rewrite Dy in My.
    assert (B : n * Z.pos my < 2 ^ 106).
    { change (2 ^ 106) with (2 ^ 53 * 2 ^ 53). apply Z.mul_lt_mono_nonneg; lia. }
    pose proof (dle_digits (Z.pos mx) _ _ 106 ltac:(lia) ltac:(lia) B H).
    unfold e', fexp, emin. lia. }
  assert (H' : dle (Z.pos mx * 2 ^ s) (e' + k) (n * Z.pos my)).
  { apply dle_shift; [done|]. by replace (e' + k + s) with (ex - ey + k) by lia. }
  cbn [xorb]. apply round_aux_le; [done|done|done|].
  destruct (new_location (Z.pos my) r) eqn:L.
  - apply new_location_exact in L; [|lia]. subst r. cbn [loc_le].
    apply (dle_cancel _ (Z.pos my)); [lia|]. revert H'. apply dle_mono. lia.
  - cbn [loc_le]. split; [done|]. assert (r ≠ 0).
    { intros ->. by rewrite (proj2 (new_location_exact (Z.pos my) 0 ltac:(lia)) eq_refl) in L. }
    apply dle_neg; [done|]. apply dle_neg in H'; [|done]. nia.
Qed.

Lemma int_of_double_le x k n : d_le x k n → 0 ≤ k → n / 2 ^ k < 2 ^ 31 →
  ∃ v, int_of_double x = Some v ∧ 0 ≤ v ≤ n / 2 ^ k.
Proof.
  intros H Hk Hn. assert (P : 0 < 2 ^ k) by (apply Z.pow_pos_nonneg; lia).
  assert (T : ∃ v, d_trunc x = Some v ∧ 0 ≤ v ≤ n / 2 ^ k).
  { destruct x as [s| | |[] m e]; try done; cbn [d_trunc].
    { exists 0. split; [done|]. cbn in H. split; [lia|by apply Z.div_pos]. }
    apply (proj1 (d_le_finite _ _ _ _)) in H. eexists; split; [done|]. destruct (Z.leb_spec 0 e).
    - unfold dle in H. rewrite Z.max_r, Z.max_l, Z.pow_add_r in H by lia.
      split; [nia|]. apply Z.div_le_lower_bound; [done|]. lia.
    - assert (P2 : 0 < 2 ^ - e) by (apply Z.pow_pos_nonneg; lia).
      split; [apply Z.div_pos; lia|]. apply Z.div_le_lower_bound; [done|].
      pose proof (Z.mul_div_le (Z.pos m) (2 ^ - e) P2) as M.
      assert (H' : dle (Z.pos m / 2 ^ - e) k n).
      { replace k with (e + k + - e) by lia. apply dle_shift; [lia|].
        revert H. apply dle_mono. lia. }
      unfold dle in H'. rewrite Z.max_r, Z.max_l in H' by lia. lia. }
  destruct T as (v & E & Hv). unfold int_of_double. rewrite E. cbn.
  destruct (Z.leb_spec (- 2 ^ 31) v), (Z.ltb_spec v (2 ^ 31)); try lia. eauto.
Qed.

(** ** Comparison

    A normal number has 53 bits of mantissa; numbers are compared by their exponents first,
    which is right for such numbers. *)
Definition d_normal (b : Z) (x : double) : Prop :=
  match x with S754_finite _ m e => 2 ^ 52 ≤ Z.pos m ∧ b ≤ e | _ => True end.

Lemma digits_53 m : 2 ^ 52 ≤ m → 53 ≤ Zdigits2 m.
Proof.
  intros H. destruct (Z.le_gt_cases 53 (Zdigits2 m)) as [|G]; [done|exfalso].
  pose proof (proj2 (Zdigits2_spec m ltac:(lia))).
  assert (2 ^ Zdigits2 m ≤ 2 ^ 52) by (apply Z.pow_le_mono_r; lia). lia.
Qed.

(** Cutting a mantissa to 53 bits. *)
Lemma shr_53 b m e l : 2 ^ 52 ≤ m → -1000 ≤ b ≤ e →
  2 ^ 52 ≤ shr_m (shr_fexp 53 1024 m e l).1 ∧ b ≤ (shr_fexp 53 1024 m e l).2.
Proof.
  intros Hm He. destruct (shr_fexp_spec m e l ltac:(lia)) as (E1 & E2 & _). rewrite E1, E2.
  pose proof (digits_53 m Hm). pose proof (proj1 (Zdigits2_spec m ltac:(lia))).
  assert (S : fexp 53 1024 (Zdigits2 m + e) - e = Zdigits2 m - 53) by (unfold fexp, emin; lia). rewrite S.
  rewrite Z.max_r by lia. split; [|lia]. apply Z.div_le_lower_bound; [apply Z.pow_pos_nonneg; lia|].
  rewrite <- Z.pow_add_r by lia. by replace (Zdigits2 m - 53 + 52) with (Zdigits2 m - 1) by lia.
Qed.

Lemma round_aux_normal b s m e l : 2 ^ 52 ≤ m → -1000 ≤ b ≤ e → d_normal b (binary_round_aux 53 1024 s m e l).
Proof.
  intros Hm He. unfold binary_round_aux. destruct (shr_53 b m e l Hm He) as [H1 H2].
  destruct (shr_fexp 53 1024 m e l) as [mrs' e']. cbn [fst snd] in H1, H2.
  assert (R : 2 ^ 52 ≤ round_nearest_even (shr_m mrs') (loc_of_shr_record mrs')).
  { destruct (loc_of_shr_record mrs') as [|[]]; cbn [round_nearest_even]; try lia. destruct (Z.even _); lia. }
  destruct (shr_53 b _ e' loc_Exact R ltac:(lia)) as [H3 H4].
  destruct (shr_fexp 53 1024 (round_nearest_even _ _) e' loc_Exact) as [mrs'' e'']. cbn [fst snd] in H3, H4.
  destruct (shr_m mrs'') as [|p|p]; [done| |done]. destruct (_ <=? _); [split; [exact H3|exact H4]|done].
Qed.

Lemma d_of_Z_exponent z : 0 < z < 2 ^ 53 → -53 ≤ Zdigits2 z - 53 ≤ 0.
Proof.
  intros Hz. destruct (Zdigits2_spec z ltac:(lia)) as [D1 D2].
  assert (0 < Zdigits2 z) by (destruct z; cbn; lia).
  destruct (Z.le_gt_cases (Zdigits2 z) 53) as [|G]; [lia|exfalso].
  assert (2 ^ 53 ≤ 2 ^ (Zdigits2 z - 1)) by (apply Z.pow_le_mono_r; lia). lia.
Qed.

Lemma d_div_normal a c : 0 ≤ a < 2 ^ 53 → 0 < c < 2 ^ 53 → d_normal (-200) (d_div (d_of_Z a) (d_of_Z c)).
Proof.
  intros Ha Hc. destruct (d_of_Z_exact c Hc) as (mc & Ec & _ & Dc). pose proof (d_of_Z_exponent c Hc).
  destruct (Z.eq_dec a 0) as [->|Na]; [rewrite Ec; done|].
  destruct (d_of_Z_exact a ltac:(lia)) as (ma & Ea & _ & Da). pose proof (d_of_Z_exponent a ltac:(lia)).
  rewrite Ea, Ec. cbn [d_div SFdiv]. unfold SFdiv_core_binary. rewrite Da, Dc.
  set (ea := Zdigits2 a - 53) in *. set (ec := Zdigits2 c - 53) in *.
  assert (Fx : fexp 53 1024 (53 + ea - (53 + ec)) = ea - ec - 53) by (unfold fexp, emin; lia).
  rewrite Fx, Z.min_l by lia. replace (ea - ec - (ea - ec - 53)) with 53 by lia.
  pose proof (Z_div_mod (Z.shiftl (Z.pos ma) 53) (Z.pos mc) ltac:(lia)) as DM.
  destruct (Z.div_eucl (Z.shiftl (Z.pos ma) 53) (Z.pos mc)) as [q r]. destruct DM as [DM1 DM2].
  apply round_aux_normal; [|lia]. rewrite Z.shiftl_mul_pow2 in DM1 by lia.
  pose proof (proj1 (Zdigits2_spec (Z.pos ma) ltac:(lia))) as A. rewrite Da in A.
  pose proof (proj2 (Zdigits2_spec (Z.pos mc) ltac:(lia))) as C. rewrite Dc in C.
  change (2 ^ (53 - 1)) with (2 ^ 52) in A. change (2 ^ 53) with (2 * 2 ^ 52) in *. nia.
Qed.

Lemma binary_round_normal b s m e : -900 ≤ b ≤ e → d_normal (b - 60) (binary_round 53 1024 s m e).
Proof.
  intros He. unfold binary_round. set (e1 := fexp 53 1024 _).
  assert (D : 1 ≤ Z.pos (digits2_pos m)) by lia.
  assert (E1 : e1 = Z.pos (digits2_pos m) + e - 53) by (unfold e1, fexp, emin; lia).
  destruct (shl_align_spec m e e1) as [H1 H2]. destruct (shl_align m e e1) as [mz ez]. cbn [fst snd] in H1, H2.
  apply round_aux_normal; [|lia]. rewrite H2.
  pose proof (proj1 (Zdigits2_spec (Z.pos m) ltac:(lia))) as M. cbn [Zdigits2] in M.
  set (d := Z.pos (digits2_pos m)) in *.
  assert (P : 0 < 2 ^ (e - Z.min e e1)) by (apply Z.pow_pos_nonneg; lia).
  destruct (Z.le_gt_cases d 53).
  - replace (e - Z.min e e1) with (53 - d) in * by lia.
    replace (2 ^ 52) with (2 ^ (d - 1) * 2 ^ (53 - d)) by (rewrite <- Z.pow_add_r by lia; f_equal; lia). nia.
  - assert (2 ^ 52 ≤ 2 ^ (d - 1)) by (apply Z.pow_le_mono_r; lia). nia.
Qed.

(** A difference from a positive number: negative, or not above the first number. *)
Lemma d_sub_le b x k n m e : d_le x k n → d_normal b x → -900 ≤ b ≤ e → n < 2 ^ 53 → 0 ≤ k ≤ 1074 →
  let y := d_sub x (S754_finite false m e) in
  (d_normal (b - 60) y ∧ d_le y k n) ∨ ∀ m' e', SFltb y (S754_finite false m' e') = true.
Proof.
  intros Hx Nx He Hn Hk. destruct x as [s| | |[] m1 e1]; try done; cbn [d_sub SFsub]; [by right|].
  cbn in Nx. cbn [cond_Zopp].
  destruct (shl_align_spec m1 e1 (Z.min e1 e)) as [_ E1]. destruct (shl_align_spec m e (Z.min e1 e)) as [_ E2].
  destruct (shl_align m1 e1 _) as [n1 f1], (shl_align m e _) as [n2 f2]. cbn [fst snd] in *.
  assert (N0 : 0 ≤ n) by (by apply dle_nonneg in Hx).
  destruct (Z.pos n1 - Z.pos n2) as [|p|p] eqn:D; cbn [binary_normalize].
  - left. split; [done|]. exact N0.
  - left. split; [apply binary_round_normal; lia|]. apply binary_round_le; [done|done|].
    apply (dle_mono _ (Z.pos n1)); [lia|]. rewrite E1. apply dle_shift; [lia|].
    by replace (Z.min e1 e + k + (e1 - Z.min e1 (Z.min e1 e))) with (e1 + k) by lia.
  - right. intros m' e'. unfold binary_round. destruct (shl_align p _ _) as [mz ez]. unfold binary_round_aux.
    destruct (shr_fexp_spec (Z.pos mz) ez loc_Exact ltac:(lia)) as (_ & S1 & _).
    destruct (shr_fexp 53 1024 (Z.pos mz) ez loc_Exact) as [r1 f]. cbn [fst] in S1.
    assert (R : 0 ≤ round_nearest_even (shr_m r1) (loc_of_shr_record r1)).
    { assert (0 ≤ shr_m r1) by (rewrite S1; apply Z.div_pos; [lia|apply Z.pow_pos_nonneg; lia]).
      destruct (loc_of_shr_record r1) as [|[]]; cbn [round_nearest_even]; try lia. destruct (Z.even _); lia. }
    destruct (shr_fexp_spec _ f loc_Exact R) as (_ & S2 & _).
    destruct (shr_fexp 53 1024 (round_nearest_even _ _) f loc_Exact) as [r2 g]. cbn [fst] in S2.
    assert (0 ≤ shr_m r2) by (rewrite S2; apply Z.div_pos; [lia|apply Z.pow_pos_nonneg; lia]).
    destruct (shr_m r2); [done| |lia]. by destruct (_ <=? _).
Qed.

Lemma SFltb_le b x k n m e : d_le x k n → d_normal b x → Z.pos m < 2 ^ 53 →
  ¬ dle (Z.pos m) (e + k) n → SFltb x (S754_finite false m e) = true.
Proof.
  intros Hx Nx Hm Hn. destruct x as [s| | |[] m1 e1]; try done. apply (proj1 (d_le_finite _ _ _ _)) in Hx.
  unfold SFltb, SFcompare. destruct Nx as [Nm Ne]. destruct (Z.compare_spec e1 e) as [->| |G]; [|done|exfalso].
  - destruct (Pos.compare_cont Eq m1 m) eqn:C; [exfalso|done|exfalso]; apply Hn; revert Hx; apply dle_mono.
    + apply Pos.compare_eq in C. by subst.
    + apply Pos.compare_gt_iff in C. lia.
  - apply Hn. replace (e + k) with (e1 + k - (e1 - e)) by lia.
    apply (dle_mono _ (Z.pos m1 * 2 ^ (e1 - e))).
    + assert (2 ≤ 2 ^ (e1 - e)) by (change 2 with (2 ^ 1) at 1; apply Z.pow_le_mono_r; lia).
      change (2 ^ 53) with (2 ^ 52 * 2) in Hm. nia.
    + apply dle_shift; [lia|]. by replace (e1 + k - (e1 - e) + (e1 - e)) with (e1 + k) by lia.
Qed.
