(* ===== verification/BitSlicer.v ===== *)
(** The bit slicer of [src/src/bit_slicer.c] and [src/src/bit_slicer.h], which finds the
    bits of a data service in one scan line of raw video samples: the clock run-in (CRI)
    synchronizes, the framing code (FRC) confirms, the payload follows.

    [raw] is the memory from the start of the scan line on, [p] an offset into it. Reading
    behind the memory or writing behind the output buffer or the array of sampling points
    is [None]. *)
From S2P Require Import Prelude Double.

(** ** Pixel formats, [vbi_pixfmt] *)

Definition VBI_PIXFMT_YUV420 : Z := 1.
Definition VBI_PIXFMT_YUYV : Z := 2.
Definition VBI_PIXFMT_YVYU : Z := 3.
Definition VBI_PIXFMT_UYVY : Z := 4.
Definition VBI_PIXFMT_VYUY : Z := 5.
Definition VBI_PIXFMT_PAL8 : Z := 6.
Definition VBI_PIXFMT_RGBA32_LE : Z := 32.
Definition VBI_PIXFMT_RGBA32_BE : Z := 33.
Definition VBI_PIXFMT_BGRA32_LE : Z := 34.
Definition VBI_PIXFMT_BGRA32_BE : Z := 35.
Definition VBI_PIXFMT_RGB24 : Z := 36.
Definition VBI_PIXFMT_BGR24 : Z := 37.
Definition VBI_PIXFMT_RGB16_LE : Z := 38.
Definition VBI_PIXFMT_RGB16_BE : Z := 39.
Definition VBI_PIXFMT_BGR16_LE : Z := 40.
Definition VBI_PIXFMT_BGR16_BE : Z := 41.
Definition VBI_PIXFMT_RGBA15_LE : Z := 42.
Definition VBI_PIXFMT_RGBA15_BE : Z := 43.
Definition VBI_PIXFMT_BGRA15_LE : Z := 44.
Definition VBI_PIXFMT_BGRA15_BE : Z := 45.
Definition VBI_PIXFMT_ARGB15_LE : Z := 46.
Definition VBI_PIXFMT_ARGB15_BE : Z := 47.
Definition VBI_PIXFMT_ABGR15_LE : Z := 48.
Definition VBI_PIXFMT_ABGR15_BE : Z := 49.

Definition VBI_PIXFMT_BPP (fmt : Z) : Z :=
  if fmt =? VBI_PIXFMT_YUV420 then 1
  else if (VBI_PIXFMT_RGBA32_LE <=? fmt) && (fmt <=? VBI_PIXFMT_BGRA32_BE) then 4
  else if (fmt =? VBI_PIXFMT_RGB24) || (fmt =? VBI_PIXFMT_BGR24) then 3
  else 2.

(** ** Contexts *)

Inductive vbi3_modulation :=
  VBI3_MODULATION_NRZ_LSB | VBI3_MODULATION_NRZ_MSB | VBI3_MODULATION_BIPHASE_LSB | VBI3_MODULATION_BIPHASE_MSB.

(** The function pointer [func]; it is [NULL] in a context that was cleared. *)
Inductive slicer_func :=
  func_NULL | null_function | bit_slicer_Y8 | bit_slicer_YUYV | bit_slicer_RGB24_LE | bit_slicer_RGBA24_LE
| bit_slicer_RGB16_LE | bit_slicer_RGB16_BE | low_pass_bit_slicer_Y8.
#[global] Instance slicer_func_eq_dec : EqDecision slicer_func.
Proof. solve_decision. Defined.

Record vbi3_bit_slicer := BitSlicer {
  bs_func : slicer_func; bs_sample_format : Z; bs_cri : Z; bs_cri_mask : Z; bs_thresh : Z; bs_thresh_frac : Z;
  bs_cri_samples : Z; bs_cri_rate : Z; bs_oversampling_rate : Z; bs_phase_shift : Z; bs_step : Z; bs_frc : Z;
  bs_frc_bits : Z; bs_total_bits : Z; bs_payload : Z; bs_endian : Z; bs_bytes_per_sample : Z; bs_skip : Z;
  bs_green_mask : Z
}.

Definition set_thresh (x : Z) (bs : vbi3_bit_slicer) : vbi3_bit_slicer :=
  BitSlicer (bs_func bs) (bs_sample_format bs) (bs_cri bs) (bs_cri_mask bs) x (bs_thresh_frac bs)
    (bs_cri_samples bs) (bs_cri_rate bs) (bs_oversampling_rate bs) (bs_phase_shift bs) (bs_step bs) (bs_frc bs)
    (bs_frc_bits bs) (bs_total_bits bs) (bs_payload bs) (bs_endian bs) (bs_bytes_per_sample bs) (bs_skip bs)
    (bs_green_mask bs).

Definition set_func (x : slicer_func) (bs : vbi3_bit_slicer) : vbi3_bit_slicer :=
  BitSlicer x (bs_sample_format bs) (bs_cri bs) (bs_cri_mask bs) (bs_thresh bs) (bs_thresh_frac bs)
    (bs_cri_samples bs) (bs_cri_rate bs) (bs_oversampling_rate bs) (bs_phase_shift bs) (bs_step bs) (bs_frc bs)
    (bs_frc_bits bs) (bs_total_bits bs) (bs_payload bs) (bs_endian bs) (bs_bytes_per_sample bs) (bs_skip bs)
    (bs_green_mask bs).

Inductive vbi3_bit_slicer_bit := VBI3_CRI_BIT | VBI3_FRC_BIT | VBI3_PAYLOAD_BIT.

Record vbi3_bit_slicer_point := Point { kind : vbi3_bit_slicer_bit; index : Z; level : Z; thresh : Z }.

(** The array of sampling points: its capacity, or [None] for a [NULL] pointer; the points
    stored so far. *)
Definition put_point (points : option Z) (x : vbi3_bit_slicer_point) (pts : list vbi3_bit_slicer_point)
    : option (list vbi3_bit_slicer_point) :=
  match points with
  | None => Some pts
  | Some max => if Z.of_nat (length pts) <? max then Some (pts ++ [x]) else None
  end.

(** ** Samples *)

Definition DEF_THR_FRAC : Z := 9.
Definition LP_AVG : Z := 4.

(** What the template [BIT_SLICER] is instantiated with: the pixel format, as the way its
    green sample is read, the bytes per pixel and the bits of fraction of the threshold. *)
Inductive sample_kind := Byte | Word_LE | Word_BE.
Record template := Template { t_kind : sample_kind; t_bpp : Z; t_frac : Z }.

Definition GREEN2 (raw : list Z) (p endian mask : Z) : option Z :=
  lo ← rd raw (p + endian); hi ← rd raw (p + (1 - endian)); Some ((lo + hi * 256) .& mask).

Definition GREEN (bs : vbi3_bit_slicer) (k : sample_kind) (raw : list Z) (p : Z) : option Z :=
  match k with
  | Byte => rd raw p
  | Word_LE => GREEN2 raw p 0 (bs_green_mask bs)
  | Word_BE => GREEN2 raw p 1 (bs_green_mask bs)
  end.

(** How a bit is sampled: the kind of bit and its position in 1/256 samples give the level,
    which is stored in the array of sampling points, too. *)
Definition sampler : Type :=
  vbi3_bit_slicer_bit → Z → list vbi3_bit_slicer_point → option (Z * list vbi3_bit_slicer_point).

(** The level at position [i], interpolated. *)
Definition sample_level (bs : vbi3_bit_slicer) (tm : template) (raw : list Z) (p i : Z) : option Z :=
  let r := p + (i ≫ 8) * t_bpp tm in
  raw0 ← GREEN bs (t_kind tm) raw r;
  raw1 ← GREEN bs (t_kind tm) raw (r + t_bpp tm);
  Some (u32 (s32 (raw1 - raw0) * (i .& 255) + (raw0 ≪ 8))).

Definition SAMPLE (bs : vbi3_bit_slicer) (tm : template) (raw : list Z) (points : option Z) (p tr : Z) : sampler :=
  λ kind i pts,
  raw0 ← sample_level bs tm raw p i;
  pts ← put_point points (Point kind (u32 (p * 256 + i)) raw0 tr) pts;
  Some (raw0, pts).

(** The sum of 16 samples. *)
Fixpoint low_pass_sum (raw : list Z) (bps p : Z) (n : nat) : option Z :=
  match n with
  | O => Some 0
  | S n => x ← rd raw p; s ← low_pass_sum raw bps (p + bps) n; Some (x + s)
  end.

Definition lp_sum (bs : vbi3_bit_slicer) (raw : list Z) (p : Z) : option Z :=
  low_pass_sum raw (bs_bytes_per_sample bs) p 16.

Definition LP_SAMPLE (bs : vbi3_bit_slicer) (raw : list Z) (points : option Z) (p tr : Z) : sampler :=
  λ kind i pts,
  let ii := (i ≫ 8) * bs_bytes_per_sample bs in
  raw0 ← lp_sum bs raw (p + ii);
  pts ← put_point points
    (Point kind (u32 (p * 256 / bs_bytes_per_sample bs + 16 * 128 + ii * 256)) (raw0 ≪ 4) (tr ≪ 4)) pts;
  Some (raw0, pts).

(** ** Framing code and payload *)

(** [n] bits from position [i] on; [add k c b] adds the [k]-th bit [b] to the number [c]. *)
Fixpoint sample_bits (sample : sampler) (kind : vbi3_bit_slicer_bit) (add : Z → Z → bool → Z) (tr step : Z)
    (n : nat) (k i c : Z) (pts : list vbi3_bit_slicer_point)
    : option (Z * Z * list vbi3_bit_slicer_point) :=
  match n with
  | O => Some (i, c, pts)
  | S n =>
      '(raw0, pts) ← sample kind i pts;
      sample_bits sample kind add tr step n (k + 1) (u32 (i + step)) (add k c (tr <=? raw0)) pts
  end.

Definition add_msb (k c : Z) (b : bool) : Z := u32 (c * 2 + Z.b2z b).
Definition add_lsb (k c : Z) (b : bool) : Z := u32 ((c ≫ 1) + (Z.b2z b ≪ 7)).
Definition add_kth (k c : Z) (b : bool) : Z := u32 (c + (Z.b2z b ≪ k)).

(** [payload] octets; [start c] is the number an octet begins with. *)
Fixpoint octets (sample : sampler) (start : Z → Z) (add : Z → Z → bool → Z) (tr step : Z)
    (n : nat) (i c : Z) (buffer : list Z) (o : Z) (pts : list vbi3_bit_slicer_point)
    : option (list Z * list vbi3_bit_slicer_point) :=
  match n with
  | O => Some (buffer, pts)
  | S n =>
      '(i, c, pts) ← sample_bits sample VBI3_PAYLOAD_BIT add tr step 8 0 i (start c) pts;
      buffer ← wr buffer o (u8 c);
      octets sample start add tr step n i c buffer (o + 1) pts
  end.

(** [payload] bits from the [j]-th on, storing every full octet; the last [c]. *)
Fixpoint bitwise (sample : sampler) (add : Z → Z → bool → Z) (tr step : Z)
    (n : nat) (j i c : Z) (buffer : list Z) (o : Z) (pts : list vbi3_bit_slicer_point)
    : option (Z * list Z * Z * list vbi3_bit_slicer_point) :=
  match n with
  | O => Some (c, buffer, o, pts)
  | S n =>
      '(i, c, pts) ← sample_bits sample VBI3_PAYLOAD_BIT add tr step 1 j i c pts;
      if j .& 7 =? 7 then
        buffer ← wr buffer o (u8 c); bitwise sample add tr step n (j + 1) i c buffer (o + 1) pts
      else bitwise sample add tr step n (j + 1) i c buffer o pts
  end.

Definition bitwise_lsb (bs : vbi3_bit_slicer) (sample : sampler) (tr i c : Z) (buffer : list Z)
    (pts : list vbi3_bit_slicer_point) : option (list Z * list vbi3_bit_slicer_point) :=
  '(c, buffer, o, pts) ← bitwise sample add_lsb tr (bs_step bs) (Z.to_nat (bs_payload bs)) 0 i c buffer 0 pts;
  buffer ← wr buffer o (u8 (c ≫ ((8 - bs_payload bs) .& 7)));
  Some (buffer, pts).

Definition bitwise_msb (bs : vbi3_bit_slicer) (sample : sampler) (tr i c : Z) (buffer : list Z)
    (pts : list vbi3_bit_slicer_point) : option (list Z * list vbi3_bit_slicer_point) :=
  '(c, buffer, o, pts) ← bitwise sample add_msb tr (bs_step bs) (Z.to_nat (bs_payload bs)) 0 i c buffer 0 pts;
  buffer ← wr buffer o (u8 (c .& ((1 ≪ (bs_payload bs .& 7)) - 1)));
  Some (buffer, pts).

(** The result of [PAYLOAD] and of the end of the low-pass slicer: whether the framing code
    was found, the output buffer and the sampling points. *)
Definition payload_result : Type := option (bool * list Z * list vbi3_bit_slicer_point).

Definition PAYLOAD (bs : vbi3_bit_slicer) (sample : sampler) (tr : Z) (buffer : list Z)
    (pts : list vbi3_bit_slicer_point) : payload_result :=
  let step := bs_step bs in
  '(i, c, pts) ← sample_bits sample VBI3_FRC_BIT add_msb tr step (Z.to_nat (bs_frc_bits bs)) 0 (bs_phase_shift bs) 0 pts;
  if negb (c =? bs_frc bs) then Some (false, buffer, pts) else
  let octs := Z.to_nat (bs_payload bs) in
  '(buffer, pts) ←
    (if bs_endian bs =? 3 then bitwise_lsb bs sample tr i c buffer pts
     else if bs_endian bs =? 2 then bitwise_msb bs sample tr i c buffer pts
     else if bs_endian bs =? 1 then octets sample (λ _, 0) add_kth tr step octs i c buffer 0 pts
     else octets sample id add_msb tr step octs i c buffer 0 pts);
  Some (true, buffer, pts).

(** ** Clock run-in *)

(** The variables of [CORE] while it looks for the clock run-in. *)
Record cri_state := CriState { cs_cl : Z; cs_c : Z; cs_b1 : bool; cs_t : Z; cs_points : list vbi3_bit_slicer_point }.

(** One of the [oversampling] steps between a sample and the next; [raw1] is their
    difference. The result says whether the clock run-in is complete. *)
Definition CRI (bs : vbi3_bit_slicer) (points : option Z) (oversampling tr raw1 p : Z) (s : cri_state)
    : option (bool * cri_state) :=
  let tavg := u32 (cs_t s + oversampling / 2) / oversampling in
  let b := tr <=? tavg in
  let t := u32 (cs_t s + raw1) in
  if xorb b (cs_b1 s) then
    Some (false, CriState (bs_oversampling_rate bs ≫ 1) (cs_c s) b t (cs_points s))
  else
    let cl := u32 (cs_cl s + bs_cri_rate bs) in
    if bs_oversampling_rate bs <=? cl then
      pts ← put_point points (Point VBI3_CRI_BIT (u32 (p ≪ 8)) (u32 (tavg ≪ 8)) (u32 (tr ≪ 8))) (cs_points s);
      let cl := cl - bs_oversampling_rate bs in
      let c := u32 (cs_c s * 2 + Z.b2z b) in
      Some (c .& bs_cri_mask bs =? bs_cri bs, CriState cl c b t pts)
    else Some (false, CriState cl (cs_c s) b t (cs_points s)).

Fixpoint CRI_loop (bs : vbi3_bit_slicer) (points : option Z) (oversampling tr raw1 p : Z) (j : nat) (s : cri_state)
    : option (bool * cri_state) :=
  match j with
  | O => Some (false, s)
  | S j =>
      '(found, s) ← CRI bs points oversampling tr raw1 p s;
      if found : bool then Some (true, s) else CRI_loop bs points oversampling tr raw1 p j s
  end.

(** Where the clock run-in ended, if it did, with the threshold [tr] there, and the adapted
    threshold. *)
Inductive cri_end := CriFound (p tr thresh : Z) | CriNotFound.

(** [ABS ((int) x)] *)
Definition ABS (x : Z) : Z := Z.abs (s32 x).

(** The loop over [i] samples; every iteration reads behind [p], so [length raw] iterations
    are the most that stay in the memory. *)
Fixpoint core_loop (bs : vbi3_bit_slicer) (tm : template) (oversampling : Z) (points : option Z) (raw : list Z)
    (fuel : nat) (i p thresh : Z) (s : cri_state) : option (cri_end * list vbi3_bit_slicer_point) :=
  match fuel with
  | O => None
  | S fuel =>
      if i =? 0 then Some (CriNotFound, cs_points s) else
      let tr := thresh ≫ t_frac tm in
      raw0 ← GREEN bs (t_kind tm) raw p;
      raw1 ← GREEN bs (t_kind tm) raw (p + t_bpp tm);
      let raw1 := u32 (raw1 - raw0) in
      let thresh := u32 (thresh + s32 (raw0 - tr) * ABS raw1) in
      let s := CriState (cs_cl s) (cs_c s) (cs_b1 s) (u32 (raw0 * oversampling)) (cs_points s) in
      '(found, s) ← CRI_loop bs points oversampling tr raw1 p (Z.to_nat oversampling) s;
      if found : bool then Some (CriFound p tr thresh, cs_points s)
      else core_loop bs tm oversampling points raw fuel (i - 1) (p + t_bpp tm) thresh s
  end.

(** The result of slicing a line: the context, the value returned, the output buffer, the
    sampling points stored and their number where it was returned. *)
Record slice_result := SliceResult {
  r_bs : vbi3_bit_slicer; r_ok : bool; r_buffer : list Z; r_points : list vbi3_bit_slicer_point;
  r_n_points : option Z
}.

Definition CORE (bs : vbi3_bit_slicer) (tm : template) (points : option Z) (buffer raw : list Z)
    : option slice_result :=
  '(e, pts) ← core_loop bs tm 4 points raw (S (length raw)) (bs_cri_samples bs) (bs_skip bs) (bs_thresh bs)
    (CriState 0 0 false 0 []);
  match e with
  | CriFound p tr thresh =>
      let tr := u32 (tr * 256) in
      '(ok, buffer, pts) ← PAYLOAD bs (SAMPLE bs tm raw points p tr) tr buffer pts;
      Some (SliceResult (set_thresh thresh bs) ok buffer pts (if ok : bool then Some (Z.of_nat (length pts)) else None))
  | CriNotFound => Some (SliceResult bs false buffer pts (Some (Z.of_nat (length pts))))
  end.

(** ** The low-pass bit slicer *)

(** The endless loop of [low_pass_bit_slicer_Y8]; as above every iteration reads behind
    [p]. *)
Fixpoint lp_loop (bs : vbi3_bit_slicer) (points : option Z) (raw : list Z) (fuel : nat)
    (i p cl c : Z) (b1 : bool) (raw0sum thresh : Z) (pts : list vbi3_bit_slicer_point)
    : option (cri_end * list vbi3_bit_slicer_point) :=
  match fuel with
  | O => None
  | S fuel =>
      let bps := bs_bytes_per_sample bs in
      let tr := thresh ≫ bs_thresh_frac bs in
      let raw0 := raw0sum in
      new ← rd raw (p + (bps ≪ LP_AVG));
      old ← rd raw p;
      let raw0sum := u32 (raw0sum + new - old) in
      let p := p + bps in
      let thresh := u32 (thresh + s32 (raw0 - tr) * ABS (raw0sum - raw0)) in
      let b := tr <=? raw0 in
      let next cl c pts :=
        let i := u32 (i - 1) in
        if i =? 0 then Some (CriNotFound, pts)
        else lp_loop bs points raw fuel i p cl c b raw0sum thresh pts in
      if xorb b b1 then next (bs_oversampling_rate bs ≫ 1) c pts
      else
        let cl := u32 (cl + bs_cri_rate bs) in
        if bs_oversampling_rate bs <=? cl then
          pts ← put_point points
            (Point VBI3_CRI_BIT (u32 (p * 256 / bps + 16 * 128)) (u32 (raw0 ≪ 4)) (u32 (tr ≪ 4))) pts;
          let c := u32 (c * 2 + Z.b2z b) in
          if c .& bs_cri_mask bs =? bs_cri bs then Some (CriFound p tr thresh, pts)
          else next (cl - bs_oversampling_rate bs) c pts
        else next cl c pts
  end.

(** [do ... while (--j > 0)] with [j = payload]: with a payload of zero [j] wraps around, for
    more octets than any buffer has. *)
Definition do_while_octets (payload : Z) (buffer : list Z) : nat :=
  if payload =? 0 then S (length buffer) else Z.to_nat payload.

Definition lp_payload (bs : vbi3_bit_slicer) (sample : sampler) (tr : Z) (buffer : list Z)
    (pts : list vbi3_bit_slicer_point) : payload_result :=
  let step := bs_step bs in
  '(i, c, pts) ← sample_bits sample VBI3_FRC_BIT add_msb tr step (Z.to_nat (bs_frc_bits bs)) 0 (bs_phase_shift bs) 0 pts;
  if negb (c =? bs_frc bs) then Some (false, buffer, pts) else
  let octs := do_while_octets (bs_payload bs) buffer in
  '(buffer, pts) ←
    (if bs_endian bs =? 3 then bitwise_lsb bs sample tr i 0 buffer pts
     else if bs_endian bs =? 2 then bitwise_msb bs sample tr i 0 buffer pts
     else if bs_endian bs =? 1 then octets sample id add_lsb tr step octs i 0 buffer 0 pts
     else octets sample id add_msb tr step octs i 0 buffer 0 pts);
  Some (true, buffer, pts).

Definition low_pass (bs : vbi3_bit_slicer) (points : option Z) (buffer raw : list Z)
    : option slice_result :=
  raw0sum ← lp_sum bs raw (bs_skip bs);
  '(e, pts) ← lp_loop bs points raw (S (length raw)) (bs_cri_samples bs) (bs_skip bs) 0 (2 ^ 32 - 1) false
    raw0sum (bs_thresh bs) [];
  match e with
  | CriFound p tr thresh =>
      '(ok, buffer, pts) ← lp_payload bs (LP_SAMPLE bs raw points p tr) tr buffer pts;
      Some (SliceResult (set_thresh thresh bs) ok buffer pts (if ok : bool then Some (Z.of_nat (length pts)) else None))
  | CriNotFound => Some (SliceResult bs false buffer pts (Some (Z.of_nat (length pts))))
  end.

(** ** Slicing a line *)

(** The instances of [BIT_SLICER]. *)
Definition bit_slicer_template (bs : vbi3_bit_slicer) : option template :=
  match bs_func bs with
  | bit_slicer_Y8 => Some (Template Byte (VBI_PIXFMT_BPP VBI_PIXFMT_YUV420) DEF_THR_FRAC)
  | bit_slicer_YUYV => Some (Template Byte (VBI_PIXFMT_BPP VBI_PIXFMT_YUYV) DEF_THR_FRAC)
  | bit_slicer_RGB24_LE => Some (Template Byte (VBI_PIXFMT_BPP VBI_PIXFMT_RGB24) DEF_THR_FRAC)
  | bit_slicer_RGBA24_LE => Some (Template Byte (VBI_PIXFMT_BPP VBI_PIXFMT_RGBA32_LE) DEF_THR_FRAC)
  | bit_slicer_RGB16_LE => Some (Template Word_LE (VBI_PIXFMT_BPP VBI_PIXFMT_RGB16_LE) (bs_thresh_frac bs))
  | bit_slicer_RGB16_BE => Some (Template Word_BE (VBI_PIXFMT_BPP VBI_PIXFMT_RGB16_BE) (bs_thresh_frac bs))
  | _ => None
  end.

(** [bs->func (bs, buffer, points, n_points, raw)]; the instances of [BIT_SLICER] do not
    store points. *)
Definition run_func (bs : vbi3_bit_slicer) (points : option Z) (buffer raw : list Z) : option slice_result :=
  match bs_func bs with
  | func_NULL => None
  | null_function => Some (SliceResult bs false buffer [] None)
  | low_pass_bit_slicer_Y8 => low_pass bs points buffer raw
  | _ => tm ← bit_slicer_template bs; CORE bs tm None buffer raw
  end.

Definition vbi3_bit_slicer_slice (bs : vbi3_bit_slicer) (buffer : list Z) (buffer_size : Z) (raw : list Z)
    : option slice_result :=
  if u32 (buffer_size * 8) <? bs_payload bs then Some (SliceResult bs false buffer [] None)
  else run_func bs None buffer raw.

(** The number of points is 0 where the called function does not return it. *)
Definition or_n_points (n : Z) (r : slice_result) : slice_result :=
  SliceResult (r_bs r) (r_ok r) (r_buffer r) (r_points r) (Some (default n (r_n_points r))).

Definition vbi3_bit_slicer_slice_with_points (bs : vbi3_bit_slicer) (buffer : list Z) (buffer_size max_points : Z)
    (raw : list Z) : option slice_result :=
  if u32 (buffer_size * 8) <? bs_payload bs then Some (SliceResult bs false buffer [] (Some 0))
  else if max_points <? bs_total_bits bs then Some (SliceResult bs false buffer [] (Some 0))
  else or_n_points 0 <$>
    match bs_func bs with
    | low_pass_bit_slicer_Y8 => run_func bs (Some max_points) buffer raw
    | bit_slicer_Y8 => CORE bs (Template Byte 1 DEF_THR_FRAC) (Some max_points) buffer raw
    | _ => run_func bs None buffer raw
    end.

(** ** Parameters of the slicer *)

(** The cases of the pixel format: the function, the bytes per sample, the bytes to skip in a
    sample and how the threshold is kept; formats with an octet of their own for luminance
    or green are low-pass filtered when a bit has many samples. *)
Record format_par := FormatPar {
  f_func : slicer_func; f_bytes : Z; f_skip : Z; f_oversampling : Z; f_thresh : Z; f_frac : Z; f_mask : Z
}.

Definition byte_format (bs : vbi3_bit_slicer) (func : slicer_func) (bytes skip min_samples_per_bit : Z) : format_par :=
  if 3 ≪ (LP_AVG - 1) <? min_samples_per_bit then
    FormatPar low_pass_bit_slicer_Y8 bytes skip 1 ((105 ≪ DEF_THR_FRAC) ≪ (LP_AVG - 2)) (DEF_THR_FRAC + (LP_AVG - 2))
      (bs_green_mask bs)
  else FormatPar func bytes skip 4 (105 ≪ DEF_THR_FRAC) DEF_THR_FRAC (bs_green_mask bs).

Definition word_format (func : slicer_func) (mask thresh frac : Z) : format_par :=
  FormatPar func 2 0 4 thresh frac mask.

Definition pixel_format (bs : vbi3_bit_slicer) (fmt min_samples_per_bit : Z) : option format_par :=
  let one_of := existsb (Z.eqb fmt) in
  let n := min_samples_per_bit in
  if one_of [VBI_PIXFMT_YUV420] then Some (byte_format bs bit_slicer_Y8 1 0 n)
  else if one_of [VBI_PIXFMT_YUYV; VBI_PIXFMT_YVYU] then Some (byte_format bs bit_slicer_YUYV 2 0 n)
  else if one_of [VBI_PIXFMT_UYVY; VBI_PIXFMT_VYUY] then Some (byte_format bs bit_slicer_YUYV 2 1 n)
  else if one_of [VBI_PIXFMT_RGBA32_LE; VBI_PIXFMT_BGRA32_LE] then Some (byte_format bs bit_slicer_RGBA24_LE 4 1 n)
  else if one_of [VBI_PIXFMT_RGBA32_BE; VBI_PIXFMT_BGRA32_BE] then Some (byte_format bs bit_slicer_RGBA24_LE 4 2 n)
  else if one_of [VBI_PIXFMT_RGB24; VBI_PIXFMT_BGR24] then Some (byte_format bs bit_slicer_RGB24_LE 3 1 n)
  else if one_of [VBI_PIXFMT_RGB16_LE; VBI_PIXFMT_BGR16_LE] then
    Some (word_format bit_slicer_RGB16_LE 0x07E0 (105 ≪ (5 - 2 + 12)) 12)
  else if one_of [VBI_PIXFMT_RGB16_BE; VBI_PIXFMT_BGR16_BE] then
    Some (word_format bit_slicer_RGB16_BE 0x07E0 (105 ≪ (5 - 2 + 12)) 12)
  else if one_of [VBI_PIXFMT_RGBA15_LE; VBI_PIXFMT_BGRA15_LE] then
    Some (word_format bit_slicer_RGB16_LE 0x03E0 (105 ≪ (5 - 3 + 11)) 11)
  else if one_of [VBI_PIXFMT_RGBA15_BE; VBI_PIXFMT_BGRA15_BE] then
    Some (word_format bit_slicer_RGB16_BE 0x03E0 (105 ≪ (5 - 3 + 11)) 11)
  else if one_of [VBI_PIXFMT_ARGB15_LE; VBI_PIXFMT_ABGR15_LE] then
    Some (word_format bit_slicer_RGB16_LE 0x07C0 (105 ≪ (6 - 3 + 12)) 12)
  else if one_of [VBI_PIXFMT_ARGB15_BE; VBI_PIXFMT_ABGR15_BE] then
    Some (word_format bit_slicer_RGB16_BE 0x07C0 (105 ≪ (6 - 3 + 12)) 12)
  else None.

(** The parameters of a data service. *)
Record service_par := ServicePar {
  p_cri : Z; p_cri_mask : Z; p_cri_bits : Z; p_cri_rate : Z; p_cri_end : Z;
  p_frc : Z; p_frc_bits : Z; p_payload_bits : Z; p_payload_rate : Z; p_modulation : vbi3_modulation
}.

Definition bits_mask (n : Z) : Z := if n =? 32 then 2 ^ 32 - 1 else (1 ≪ n) - 1.

(** [sampling_rate * 256.0 / cri_rate * .5 + bs->step * share + 128], as a number of 1/256
    samples; [share] is half a bit, or a quarter where a bit has two phases. *)
Definition d_half : double := d_frac 1 2.
Definition d_quarter : double := d_frac 1 4.
Definition phase_shift (sampling_rate cri_rate step : Z) (share : double) : option Z :=
  int_of_double
    (d_add (d_add (d_mul (d_div (d_mul (d_of_Z sampling_rate) (d_of_Z 256)) (d_of_Z cri_rate)) d_half)
                  (d_mul (d_of_Z step) share))
           (d_of_Z 128)).

Definition is_msb (m : vbi3_modulation) : bool :=
  match m with VBI3_MODULATION_NRZ_MSB | VBI3_MODULATION_BIPHASE_MSB => true | _ => false end.
Definition bit_share (m : vbi3_modulation) : double :=
  match m with VBI3_MODULATION_NRZ_MSB | VBI3_MODULATION_NRZ_LSB => d_half | _ => d_quarter end.

(** [None]: an assertion fails, a rate is zero or the phase shift is not an [int]. *)
Definition vbi3_bit_slicer_set_params (bs : vbi3_bit_slicer) (sample_format sampling_rate sample_offset
    samples_per_line : Z) (par : service_par) : option (bool * vbi3_bit_slicer) :=
  if negb ((p_cri_bits par <=? 32) && (p_frc_bits par <=? 32) && (p_payload_bits par <=? 32767)
           && (samples_per_line <=? 32767)) then None else
  let failure bs := Some (false, set_func null_function bs) in
  if sampling_rate <? p_cri_rate par then failure bs else
  if sampling_rate <? p_payload_rate par then failure bs else
  let max_rate := Z.max (p_cri_rate par) (p_payload_rate par) in
  if max_rate =? 0 then None else
  let min_samples_per_bit := sampling_rate / max_rate in
  match pixel_format bs sample_format min_samples_per_bit with
  | None =>
      Some (false, BitSlicer (bs_func bs) sample_format (bs_cri bs) (bs_cri_mask bs) (105 ≪ DEF_THR_FRAC) DEF_THR_FRAC
        (bs_cri_samples bs) (bs_cri_rate bs) (bs_oversampling_rate bs) (bs_phase_shift bs) (bs_step bs) (bs_frc bs)
        (bs_frc_bits bs) (bs_total_bits bs) (bs_payload bs) (bs_endian bs) (bs_bytes_per_sample bs) (bs_skip bs)
        (bs_green_mask bs))
  | Some f =>
      let skip := u32 (sample_offset * f_bytes f + f_skip f) in
      let cri_mask := p_cri_mask par .& bits_mask (p_cri_bits par) in
      let cri := p_cri par .& cri_mask in
      if (p_cri_rate par =? 0) || (p_payload_rate par =? 0) then None else
      let cri_samples := u32 (sampling_rate * p_cri_bits par / p_cri_rate par) in
      let data_bits := u32 (p_payload_bits par + p_frc_bits par) in
      let data_samples := u32 (sampling_rate * data_bits / p_payload_rate par) in
      let total_bits := u32 (p_cri_bits par + data_bits) in
      if (samples_per_line <? sample_offset)
         || (samples_per_line - sample_offset <? u32 (cri_samples + data_samples)) then
        failure (BitSlicer (f_func f) sample_format cri cri_mask (f_thresh f) (f_frac f)
          (bs_cri_samples bs) (bs_cri_rate bs) (bs_oversampling_rate bs) (bs_phase_shift bs) (bs_step bs) (bs_frc bs)
          (bs_frc_bits bs) total_bits (bs_payload bs) (bs_endian bs) (f_bytes f) skip (f_mask f))
      else
        let cri_end := Z.min (p_cri_end par) (u32 (samples_per_line - data_samples)) in
        let step := u32 (sampling_rate * 256 / p_payload_rate par) in
        let '(payload, endian) :=
          if negb (p_payload_bits par .& 7 =? 0) then (p_payload_bits par, 3) else (p_payload_bits par ≫ 3, 1) in
        let endian := if is_msb (p_modulation par) then endian - 1 else endian in
        phase ← phase_shift sampling_rate (p_cri_rate par) step (bit_share (p_modulation par));
        Some (true, BitSlicer (f_func f) sample_format cri cri_mask (f_thresh f) (f_frac f)
          (u32 (cri_end - sample_offset)) (p_cri_rate par) (u32 (sampling_rate * f_oversampling f)) (u32 phase) step
          (p_frc par .& bits_mask (p_frc_bits par)) (p_frc_bits par) total_bits payload endian (f_bytes f) skip
          (f_mask f))
  end.

(** What [CLEAR] leaves. *)
Definition bs_cleared : vbi3_bit_slicer := BitSlicer func_NULL 0 0 0 0 0 0 0 0 0 0 0 0 0 0 0 0 0 0.
Definition _vbi3_bit_slicer_destroy (bs : vbi3_bit_slicer) : vbi3_bit_slicer := bs_cleared.
Definition _vbi3_bit_slicer_init (bs : vbi3_bit_slicer) : bool * vbi3_bit_slicer :=
  (true, set_func null_function bs_cleared).
