(* ===== verification/SlicerBounds.v ===== *)
(** Bounds of the bit slicer: what a slicer reads and writes, and how far the memory behind a
    scan line must reach for parameters that [vbi3_bit_slicer_set_params] accepts. *)
From S2P Require Import Prelude Double BitSlicer.

(** ** Samples *)

Definition in_mem (raw : list Z) (p : Z) : Prop := 0 ≤ p < Z.of_nat (length raw).

(** The bytes read for one sample, and the largest level. *)
Definition width (k : sample_kind) : Z := match k with Byte => 1 | _ => 2 end.
Definition level_max (bs : vbi3_bit_slicer) (k : sample_kind) : Z :=
  match k with Byte => 255 | _ => bs_green_mask bs end.

Lemma land_le a m : 0 ≤ m → 0 ≤ a .& m ≤ m.
Proof.
  intros Hm. split; [apply Z.land_nonneg; lia|].
  enough (Z.ldiff m a + (a .& m) = m) by (pose proof (proj2 (Z.ldiff_nonneg m a) ltac:(lia)); lia).
  rewrite Z.add_nocarry_lxor, Z.lxor_lor.
  - apply Z.bits_inj'. intros i Hi. rewrite Z.lor_spec, Z.ldiff_spec, Z.land_spec.
    by destruct (Z.testbit m i), (Z.testbit a i).
  - apply Z.bits_inj'. intros i Hi. rewrite !Z.land_spec, Z.ldiff_spec, Z.bits_0.
    by destruct (Z.testbit m i), (Z.testbit a i).
  - apply Z.bits_inj'. intros i Hi. rewrite !Z.land_spec, Z.ldiff_spec, Z.bits_0.
    by destruct (Z.testbit m i), (Z.testbit a i).
Qed.

Lemma GREEN_ok bs k raw p : bytes raw → 0 ≤ bs_green_mask bs → 0 ≤ p → p + width k ≤ Z.of_nat (length raw) →
  ∃ g, GREEN bs k raw p = Some g ∧ 0 ≤ g ≤ level_max bs k.
Proof.
  intros Hraw Hm Hp Hw. destruct k; cbn [width GREEN level_max] in *.
  - destruct (rd_byte raw p Hraw ltac:(lia)) as (g & -> & Hg). exists g. unfold is_byte in Hg. split; [done|lia].
  - unfold GREEN2. destruct (rd_byte raw (p + 0) Hraw ltac:(lia)) as (g & -> & Hg).
    destruct (rd_byte raw (p + (1 - 0)) Hraw ltac:(lia)) as (h & -> & Hh). cbn. eexists; split; [done|by apply land_le].
  - unfold GREEN2. destruct (rd_byte raw (p + 1) Hraw ltac:(lia)) as (g & -> & Hg).
    destruct (rd_byte raw (p + (1 - 1)) Hraw ltac:(lia)) as (h & -> & Hh). cbn. eexists; split; [done|by apply land_le].
Qed.

(** ** The threshold *)

(** The threshold without its fraction is between [lo] and [hi]. *)
Definition thresh_between (frac lo hi t : Z) : Prop := lo * 2 ^ frac ≤ t < (hi + 1) * 2 ^ frac.

Lemma thresh_level frac lo hi t : 0 ≤ frac → thresh_between frac lo hi t → lo ≤ t ≫ frac ≤ hi.
Proof.
  intros Hf [H1 H2]. rewrite Z.shiftr_div_pow2 by done.
  assert (0 < 2 ^ frac) by (apply Z.pow_pos_nonneg; lia).
  split; [apply Z.div_le_lower_bound; lia|].
  assert (t / 2 ^ frac < hi + 1) by (apply Z.div_lt_upper_bound; lia). lia.
Qed.

(** A step of [d] below 1 moves the threshold towards the sample. *)
Lemma thresh_step frac lo hi t x d : 0 ≤ frac → thresh_between frac lo hi t → lo ≤ x ≤ hi → 0 ≤ d < 2 ^ frac →
  thresh_between frac lo hi (t + (x - (t ≫ frac)) * d).
Proof.
  intros Hf Ht Hx Hd. pose proof (thresh_level _ _ _ _ Hf Ht) as Hl. destruct Ht as [H1 H2].
  rewrite Z.shiftr_div_pow2 in * by done. set (F := 2 ^ frac) in *.
  pose proof (Z.div_mod t F ltac:(lia)) as Hdm. pose proof (Z.mod_pos_bound t F ltac:(lia)).
  set (q := t / F) in *. unfold thresh_between. fold F. destruct (Z.le_gt_cases q x); split; nia.
Qed.

Lemma s32_diff x y : 0 ≤ x < 2 ^ 31 → 0 ≤ y < 2 ^ 31 → s32 (x - y) = x - y.
Proof. intros. apply s32_small. lia. Qed.

Lemma ABS_u32_diff x y : 0 ≤ x < 2 ^ 31 → 0 ≤ y < 2 ^ 31 → ABS (u32 (x - y)) = Z.abs (x - y).
Proof.
  intros. unfold ABS. f_equal. unfold s32, u32. rewrite Zplus_mod_idemp_l, Z.mod_small by lia. lia.
Qed.

(** ** Sampling bits *)

(** [sample] works for positions up to [x]. *)
Definition sampler_ok (sample : sampler) (x : Z) : Prop :=
  ∀ kind i pts, 0 ≤ i ≤ x → ∃ l pts', sample kind i pts = Some (l, pts').

Definition u32_result (add : Z → Z → bool → Z) : Prop := ∀ k c b, 0 ≤ add k c b < 2 ^ 32.

Lemma add_msb_ok : u32_result add_msb.
Proof. intros k c b. apply u32_range. Qed.
Lemma add_lsb_ok : u32_result add_lsb.
Proof. intros k c b. apply u32_range. Qed.
Lemma add_kth_ok : u32_result add_kth.
Proof. intros k c b. apply u32_range. Qed.
#[export] Hint Resolve add_msb_ok add_lsb_ok add_kth_ok : zvbi.

Section Bits.
Context (sample : sampler) (x tr step : Z) (Hs : sampler_ok sample x) (Hstep : 0 ≤ step).
Context (Hx : x + step < 2 ^ 32).

Lemma sample_bits_ok add kind n : u32_result add → ∀ k i c pts, 0 ≤ i → i + Z.of_nat n * step ≤ x + step →
  0 ≤ c < 2 ^ 32 →
  ∃ c' pts', sample_bits sample kind add tr step n k i c pts = Some (i + Z.of_nat n * step, c', pts') ∧ 0 ≤ c' < 2 ^ 32.
Proof.
  intros Hadd. induction n as [|n IH]; intros k i c pts Hi Hn Hc; cbn [sample_bits].
  { exists c, pts. split; [do 3 f_equal; lia|done]. }
  destruct (Hs kind i pts) as (l & pts' & ->); [nia|]. cbn.
  rewrite u32_small by nia.
  destruct (IH (k + 1) (i + step) (add k c (tr <=? l)) pts') as (c' & pts'' & -> & Hc'); [lia|nia|apply Hadd|].
  exists c', pts''. split; [do 3 f_equal; nia|done].
Qed.

(** [buffer'] differs from [buffer] between [o] and [o + n] only. *)
Definition wrote (buffer : list Z) (o n : Z) (buffer' : list Z) : Prop :=
  length buffer' = length buffer ∧ (bytes buffer → bytes buffer') ∧
  ∀ j : nat, Z.of_nat j < o ∨ o + n ≤ Z.of_nat j → buffer' !! j = buffer !! j.

Lemma wr_wrote buffer o c : 0 ≤ o < Z.of_nat (length buffer) →
  ∃ buffer', wr buffer o (u8 c) = Some buffer' ∧ wrote buffer o 1 buffer'.
Proof.
  intros Ho. unfold wr. rewrite decide_True by done. eexists; split; [done|].
  split; [by rewrite length_insert|]. split.
  - intros Hb. apply Forall_insert; [done|]. apply u8_range.
  - intros j Hj. apply list_lookup_insert_ne. lia.
Qed.

Lemma wrote_refl buffer o : wrote buffer o 0 buffer.
Proof. split; [done|]. split; [done|]. done. Qed.

Lemma wrote_trans b1 b2 b3 o n m : 0 ≤ n → 0 ≤ m → wrote b1 o n b2 → wrote b2 (o + n) m b3 → wrote b1 o (n + m) b3.
Proof.
  intros Hn Hm (H1 & H2 & H3) (H4 & H5 & H6). split; [congruence|]. split; [tauto|].
  intros j Hj. rewrite H6, H3 by lia. done.
Qed.

Lemma octets_ok start add n : u32_result add → (∀ c, 0 ≤ c < 2 ^ 32 → 0 ≤ start c < 2 ^ 32) →
  ∀ i c buffer o pts, 0 ≤ i → i + 8 * Z.of_nat n * step ≤ x + step → 0 ≤ c < 2 ^ 32 →
  0 ≤ o → o + Z.of_nat n ≤ Z.of_nat (length buffer) →
  ∃ buffer' pts', octets sample start add tr step n i c buffer o pts = Some (buffer', pts') ∧
    wrote buffer o (Z.of_nat n) buffer'.
Proof.
  intros Hadd Hst. induction n as [|n IH]; intros i c buffer o pts Hi Hn Hc Ho Hlen; cbn [octets].
  { exists buffer, pts. split; [done|apply wrote_refl]. }
  destruct (sample_bits_ok add VBI3_PAYLOAD_BIT 8 Hadd 0 i (start c) pts) as (c' & pts' & -> & Hc'); [done|nia|by apply Hst|].
  cbn. destruct (wr_wrote buffer o c') as (b' & -> & Hb'); [lia|]. cbn.
  destruct (IH (i + Z.of_nat 8 * step) c' b' (o + 1) pts') as (b'' & pts'' & -> & Hb''); try nia.
  { rewrite (proj1 Hb'). lia. }
  exists b'', pts''. split; [done|]. replace (Z.of_nat (S n)) with (1 + Z.of_nat n) by lia.
  by apply (wrote_trans _ b'); [lia..| |].
Qed.
(** The octets completed by the bits from the [j]-th on. *)
Lemma bitwise_ok add n : u32_result add → ∀ j i c buffer o pts, 0 ≤ j → 0 ≤ i →
  i + Z.of_nat n * step ≤ x + step → 0 ≤ c < 2 ^ 32 → 0 ≤ o →
  o + ((j + Z.of_nat n) / 8 - j / 8) ≤ Z.of_nat (length buffer) →
  ∃ c' buffer' pts', bitwise sample add tr step n j i c buffer o pts =
      Some (c', buffer', o + ((j + Z.of_nat n) / 8 - j / 8), pts') ∧
    wrote buffer o ((j + Z.of_nat n) / 8 - j / 8) buffer' ∧ 0 ≤ c' < 2 ^ 32.
Proof.
  intros Hadd. induction n as [|n IH]; intros j i c buffer o pts Hj Hi Hn Hc Ho Hlen; cbn [bitwise].
  { exists c, buffer, pts. rewrite Z.add_0_r, Z.sub_diag, Z.add_0_r. split; [done|]. split; [apply wrote_refl|done]. }
  destruct (sample_bits_ok add VBI3_PAYLOAD_BIT 1 Hadd j i c pts) as (c' & pts' & -> & Hc'); [done|nia|done|].
  cbn [mbind option_bind]. replace (Z.of_nat 1 * step) with step by lia.
  replace (j + Z.of_nat (S n)) with (j + 1 + Z.of_nat n) in * by lia.
  assert (J : j .& 7 = j mod 8) by (change 7 with (Z.ones 3); by rewrite Z.land_ones). rewrite J.
  pose proof (Z.div_mod j 8 ltac:(lia)). pose proof (Z.mod_pos_bound j 8 ltac:(lia)).
  assert (D : (j + 1) / 8 ≤ (j + 1 + Z.of_nat n) / 8) by (apply Z.div_le_mono; lia).
  destruct (Z.eqb_spec (j mod 8) 7) as [E|E].
  - assert (J8 : (j + 1) / 8 = j / 8 + 1) by (rewrite H, E at 1; replace (8 * (j / 8) + 7 + 1) with ((j / 8 + 1) * 8) by lia; by rewrite Z.div_mul).
    destruct (wr_wrote buffer o c') as (b' & -> & Hb'); [lia|]. cbn [mbind option_bind].
    destruct (IH (j + 1) (i + step) c' b' (o + 1) pts') as (c'' & b'' & pts'' & -> & Hb'' & Hc''); try nia.
    { rewrite (proj1 Hb'). lia. }
    exists c'', b'', pts''. split; [do 3 f_equal; lia|]. split; [|done].
    replace ((j + 1 + Z.of_nat n) / 8 - j / 8) with (1 + ((j + 1 + Z.of_nat n) / 8 - (j + 1) / 8)) by lia.
    by apply (wrote_trans _ b'); [lia..| |].
  - assert (J8 : (j + 1) / 8 = j / 8).
    { rewrite H at 1. replace (8 * (j / 8) + j mod 8 + 1) with (j mod 8 + 1 + (j / 8) * 8) by lia.
      rewrite Z.div_add by lia. rewrite (Z.div_small (j mod 8 + 1)) by lia. lia. }
    destruct (IH (j + 1) (i + step) c' buffer o pts') as (c'' & b'' & pts'' & -> & Hb'' & Hc''); try nia.
    exists c'', b'', pts''. rewrite <- J8. done.
Qed.
End Bits.

(** ** Framing code and payload *)

Definition payload_bits (bs : vbi3_bit_slicer) : Z := if 2 <=? bs_endian bs then bs_payload bs else 8 * bs_payload bs.

(** The octets a successful call stores, the last one may be incomplete. *)
Definition octets_stored (bs : vbi3_bit_slicer) : Z := (payload_bits bs + 7) / 8.

(** The position of the last bit. *)
Definition last_position (bs : vbi3_bit_slicer) : Z :=
  bs_phase_shift bs + (bs_frc_bits bs + payload_bits bs - 1) * bs_step bs.

(** The bit routines are for a number of bits that is no multiple of eight. *)
Record payload_ok (bs : vbi3_bit_slicer) : Prop := PayloadOk {
  po_frc : 0 ≤ bs_frc_bits bs; po_phase : 0 ≤ bs_phase_shift bs; po_step : 0 ≤ bs_step bs;
  po_payload : 0 < bs_payload bs;
  po_endian : (0 ≤ bs_endian bs ≤ 1) ∨ (2 ≤ bs_endian bs ≤ 3 ∧ bs_payload bs mod 8 ≠ 0);
  po_last : last_position bs + bs_step bs < 2 ^ 32
}.

Lemma bitwise_stored bs : payload_ok bs → 2 ≤ bs_endian bs → octets_stored bs = bs_payload bs / 8 + 1.
Proof.
  intros H He. destruct (po_endian _ H) as [?|[_ Hm]]; [lia|]. pose proof (po_payload _ H).
  unfold octets_stored, payload_bits. rewrite (proj2 (Z.leb_le _ _) He).
  Z.div_mod_to_equations. lia.
Qed.

Lemma octetwise_stored bs : bs_endian bs < 2 → octets_stored bs = bs_payload bs.
Proof.
  intros He. unfold octets_stored, payload_bits. rewrite (proj2 (Z.leb_gt _ _) He).
  rewrite Z.mul_comm, Z.div_add_l, (Z.div_small 7) by lia. lia.
Qed.

Lemma bit_routines_ok bs sample add tr i c buffer pts finish : payload_ok bs → 2 ≤ bs_endian bs →
  sampler_ok sample (last_position bs) → u32_result add →
  i = bs_phase_shift bs + bs_frc_bits bs * bs_step bs → 0 ≤ c < 2 ^ 32 →
  octets_stored bs ≤ Z.of_nat (length buffer) →
  ∃ b' pts',
    ('(c, buffer, o, pts) ← bitwise sample add tr (bs_step bs) (Z.to_nat (bs_payload bs)) 0 i c buffer 0 pts;
     buffer ← wr buffer o (u8 (finish c)); Some (buffer, pts)) = Some (b', pts') ∧ wrote buffer 0 (octets_stored bs) b'.
Proof.
  intros Hok He Hs Hadd -> Hc Hb. rewrite (bitwise_stored bs Hok He) in *. destruct Hok as [? ? ? ? _ Hl].
  unfold last_position, payload_bits in *. rewrite (proj2 (Z.leb_le _ _) He) in *.
  set (x := bs_phase_shift bs + (bs_frc_bits bs + bs_payload bs - 1) * bs_step bs) in *.
  pose proof (Z.div_pos (bs_payload bs) 8 ltac:(lia) ltac:(lia)) as Hq.
  destruct (bitwise_ok sample x tr (bs_step bs) Hs ltac:(done) Hl add (Z.to_nat (bs_payload bs)) Hadd 0
    (bs_phase_shift bs + bs_frc_bits bs * bs_step bs) c buffer 0 pts) as (c' & b' & pts' & -> & W & _); try nia.
  { rewrite Z2Nat.id, !Z.add_0_l, Z.div_0_l by lia. lia. }
  rewrite Z2Nat.id, !Z.add_0_l, Z.div_0_l, Z.sub_0_r in * by lia. cbn [mbind option_bind].
  destruct (wr_wrote b' (bs_payload bs / 8) (finish c')) as (b'' & -> & W'); [rewrite (proj1 W); lia|].
  exists b'', pts'. split; [done|]. by apply (wrote_trans _ b'); [lia..| |].
Qed.

Lemma octet_routines_ok bs sample start add tr i c buffer pts : payload_ok bs → bs_endian bs < 2 →
  sampler_ok sample (last_position bs) → u32_result add → (∀ c, 0 ≤ c < 2 ^ 32 → 0 ≤ start c < 2 ^ 32) →
  i = bs_phase_shift bs + bs_frc_bits bs * bs_step bs → 0 ≤ c < 2 ^ 32 →
  octets_stored bs ≤ Z.of_nat (length buffer) →
  ∃ b' pts', octets sample start add tr (bs_step bs) (Z.to_nat (bs_payload bs)) i c buffer 0 pts = Some (b', pts') ∧
    wrote buffer 0 (octets_stored bs) b'.
Proof.
  intros Hok He Hs Hadd Hst -> Hc Hb. rewrite (octetwise_stored bs He) in *. destruct Hok as [? ? ? ? _ Hl].
  unfold last_position, payload_bits in *. rewrite (proj2 (Z.leb_gt _ _) He) in *.
  destruct (octets_ok sample _ tr (bs_step bs) Hs ltac:(done) ltac:(lia) start add (Z.to_nat (bs_payload bs)) Hadd Hst
    (bs_phase_shift bs + bs_frc_bits bs * bs_step bs) c buffer 0 pts) as (b' & pts' & E & W); try nia.
  rewrite Z2Nat.id in W by lia. eauto.
Qed.

Lemma frc_ok bs sample tr pts : payload_ok bs → sampler_ok sample (last_position bs) →
  ∃ c pts', sample_bits sample VBI3_FRC_BIT add_msb tr (bs_step bs) (Z.to_nat (bs_frc_bits bs)) 0 (bs_phase_shift bs) 0 pts
    = Some (bs_phase_shift bs + bs_frc_bits bs * bs_step bs, c, pts') ∧ 0 ≤ c < 2 ^ 32.
Proof.
  intros [? ? ? ? ? Hl] Hs. assert (0 ≤ payload_bits bs) by (unfold payload_bits; destruct (2 <=? _); lia).
  destruct (sample_bits_ok sample _ tr (bs_step bs) Hs ltac:(done) Hl add_msb VBI3_FRC_BIT (Z.to_nat (bs_frc_bits bs))
    add_msb_ok 0 (bs_phase_shift bs) 0 pts) as (c & pts' & E & W); [done|unfold last_position; nia|lia|].
  rewrite Z2Nat.id in E by lia. eauto.
Qed.

(** A line whose framing code does not match leaves the buffer alone, another one stores the
    octets of the payload in it. *)
Definition payload_safe (bs : vbi3_bit_slicer) (buffer : list Z) (r : payload_result) : Prop :=
  ∃ (ok : bool) b' pts', r = Some (ok, b', pts') ∧ (ok = false → b' = buffer) ∧ wrote buffer 0 (octets_stored bs) b'.

Lemma wrote_nothing buffer n : 0 ≤ n → wrote buffer 0 n buffer.
Proof. intros. split; [done|]. done. Qed.

Lemma stored_nonneg bs : payload_ok bs → 0 ≤ octets_stored bs.
Proof.
  intros [? ? ? ? ? ?]. unfold octets_stored, payload_bits. apply Z.div_pos; [destruct (2 <=? _); lia|lia].
Qed.

Lemma payload_stored bs buffer (m : option (list Z * list vbi3_bit_slicer_point)) :
  (∃ b' pts', m = Some (b', pts') ∧ wrote buffer 0 (octets_stored bs) b') →
  payload_safe bs buffer ('(b, pts) ← m; Some (true, b, pts)).
Proof. intros (b' & pts' & -> & W). exists true, b', pts'. done. Qed.

Lemma PAYLOAD_ok bs sample tr buffer pts : payload_ok bs → sampler_ok sample (last_position bs) →
  octets_stored bs ≤ Z.of_nat (length buffer) → payload_safe bs buffer (PAYLOAD bs sample tr buffer pts).
Proof.
  intros Hok Hs Hb. unfold PAYLOAD. destruct (frc_ok bs sample tr pts Hok Hs) as (c & pts' & -> & Hc).
  cbn [mbind option_bind]. destruct (negb _).
  { exists false, buffer, pts'. split; [done|]. split; [done|]. by apply wrote_nothing, stored_nonneg. }
  apply payload_stored.
  pose proof (po_endian bs Hok).
  destruct (Z.eqb_spec (bs_endian bs) 3); [apply bit_routines_ok; auto with zvbi|].
  destruct (Z.eqb_spec (bs_endian bs) 2); [apply bit_routines_ok; auto with zvbi|].
  destruct (Z.eqb_spec (bs_endian bs) 1); apply octet_routines_ok; auto with zvbi; lia.
Qed.

Lemma lp_payload_ok bs sample tr buffer pts : payload_ok bs → sampler_ok sample (last_position bs) →
  octets_stored bs ≤ Z.of_nat (length buffer) → payload_safe bs buffer (lp_payload bs sample tr buffer pts).
Proof.
  intros Hok Hs Hb. unfold lp_payload. destruct (frc_ok bs sample tr pts Hok Hs) as (c & pts' & -> & Hc).
  cbn [mbind option_bind]. destruct (negb _).
  { exists false, buffer, pts'. split; [done|]. split; [done|]. by apply wrote_nothing, stored_nonneg. }
  apply payload_stored.
  pose proof (po_endian bs Hok). pose proof (po_payload bs Hok).
  unfold do_while_octets. rewrite (proj2 (Z.eqb_neq (bs_payload bs) 0)) by lia.
  destruct (Z.eqb_spec (bs_endian bs) 3); [apply bit_routines_ok; auto with zvbi|].
  destruct (Z.eqb_spec (bs_endian bs) 2); [apply bit_routines_ok; auto with zvbi|].
  destruct (Z.eqb_spec (bs_endian bs) 1); apply octet_routines_ok; auto with zvbi; lia.
Qed.

(** ** The clock run-in *)

(** The threshold of levels up to [hi], moved by steps below [2 ^ frac]. *)
Definition signal_ok (frac hi d t : Z) : Prop :=
  0 ≤ frac ∧ 0 ≤ hi < 2 ^ 31 ∧ 0 ≤ d < 2 ^ frac ∧ (hi + 1) * 2 ^ frac ≤ 2 ^ 32 ∧ thresh_between frac 0 hi t.

Lemma signal_level frac hi d t : signal_ok frac hi d t → 0 ≤ t ≫ frac ≤ hi.
Proof. intros (H & _ & _ & _ & Ht). by apply thresh_level. Qed.

(** The threshold as the slicers compute it: nothing overflows. *)
Lemma signal_step frac hi d t x a : signal_ok frac hi d t → 0 ≤ x ≤ hi → 0 ≤ a ≤ d →
  signal_ok frac hi d (u32 (t + s32 (x - (t ≫ frac)) * a)).
Proof.
  intros H Hx Ha. pose proof (signal_level _ _ _ _ H). destruct H as (Hf & Hhi & Hd & Hm & Ht).
  rewrite s32_diff by lia.
  pose proof (thresh_step frac 0 hi t x a Hf Ht Hx ltac:(lia)) as Hn.
  rewrite u32_small by (unfold thresh_between in Hn; lia). done.
Qed.

Lemma CRI_loop_ok bs os tr raw1 p j : ∀ s, ∃ found s', CRI_loop bs None os tr raw1 p j s = Some (found, s').
Proof.
  induction j as [|j IH]; intros s; cbn [CRI_loop]; [by eexists _, _|].
  unfold CRI, put_point. destruct (xorb _ _); [apply IH|].
  destruct (_ <=? u32 (cs_cl s + bs_cri_rate bs)); [cbn [mbind option_bind]|apply IH].
  destruct (_ =? _); [by eexists _, _|apply IH].
Qed.

Definition template_ok (bs : vbi3_bit_slicer) (tm : template) : Prop :=
  0 < t_bpp tm ∧ 0 ≤ bs_green_mask bs ∧ signal_ok (t_frac tm) (level_max bs (t_kind tm)) (level_max bs (t_kind tm)) (bs_thresh bs).

Section Core.
Context (bs : vbi3_bit_slicer) (tm : template) (raw : list Z) (Hraw : bytes raw).
Context (Hb : 0 < t_bpp tm) (Hm : 0 ≤ bs_green_mask bs).
Let hi := level_max bs (t_kind tm).
Let w := width (t_kind tm).
Let signal := signal_ok (t_frac tm) hi hi.

Lemma core_loop_ok os fuel : ∀ i p t s, 0 ≤ i < Z.of_nat fuel → 0 ≤ p →
  p + i * t_bpp tm + w ≤ Z.of_nat (length raw) → signal t →
  ∃ e pts, core_loop bs tm os None raw fuel i p t s = Some (e, pts) ∧
    match e with
    | CriFound p' tr t' => p ≤ p' ≤ p + (i - 1) * t_bpp tm ∧ 0 ≤ tr ≤ hi ∧ signal t'
    | CriNotFound => True
    end.
Proof.
  induction fuel as [|fuel IH]; intros i p t s Hi Hp Hlen Ht; [lia|]. cbn [core_loop].
  destruct (Z.eqb_spec i 0); [by eexists CriNotFound, _|].
  assert (w = 1 ∨ w = 2) by (unfold w; destruct (t_kind tm); cbn; lia).
  destruct (GREEN_ok bs (t_kind tm) raw p Hraw Hm Hp) as (g & -> & Hg); [fold w; nia|].
  destruct (GREEN_ok bs (t_kind tm) raw (p + t_bpp tm) Hraw Hm) as (g1 & -> & Hg1); [lia|fold w; nia|].
  cbn [mbind option_bind]. fold hi in Hg, Hg1. set (tr := t ≫ t_frac tm).
  assert (Hhi : 0 ≤ hi < 2 ^ 31) by apply Ht.
  assert (Ht' : signal (u32 (t + s32 (g - tr) * ABS (u32 (g1 - g))))).
  { rewrite ABS_u32_diff by lia. apply signal_step; [done|lia|lia]. }
  destruct (CRI_loop_ok bs os tr (u32 (g1 - g)) p (Z.to_nat os)
    (CriState (cs_cl s) (cs_c s) (cs_b1 s) (u32 (g * os)) (cs_points s))) as (found & s' & ->).
  cbn [mbind option_bind]. destruct found.
  { eexists (CriFound p tr _), _. split; [done|]. split; [nia|]. split; [by apply (signal_level _ _ hi)|done]. }
  destruct (IH (i - 1) (p + t_bpp tm) _ s' ltac:(lia) ltac:(lia) ltac:(nia) Ht') as (e & pts & -> & He).
  exists e, pts. split; [done|]. destruct e; [|done]. destruct He as (? & ? & ?). split_and!; try done; nia.
Qed.

Lemma sample_level_ok p x i : 0 ≤ p → 0 ≤ i ≤ x → p + (x / 256 + 1) * t_bpp tm + w ≤ Z.of_nat (length raw) →
  ∃ l, sample_level bs tm raw p i = Some l.
Proof.
  intros Hp Hi Hx. unfold sample_level. rewrite Z.shiftr_div_pow2 by lia. change (2 ^ 8) with 256.
  assert (0 ≤ i / 256 ≤ x / 256) by (split; [apply Z.div_pos|apply Z.div_le_mono]; lia).
  destruct (GREEN_ok bs (t_kind tm) raw (p + i / 256 * t_bpp tm) Hraw Hm) as (g & -> & _); [nia|fold w; nia|].
  destruct (GREEN_ok bs (t_kind tm) raw (p + i / 256 * t_bpp tm + t_bpp tm) Hraw Hm) as (g1 & -> & _); [nia|fold w; nia|].
  by eexists.
Qed.

Lemma SAMPLE_ok p tr x : 0 ≤ p → p + (x / 256 + 1) * t_bpp tm + w ≤ Z.of_nat (length raw) →
  sampler_ok (SAMPLE bs tm raw None p tr) x.
Proof.
  intros Hp Hx kind i pts Hi. unfold SAMPLE. destruct (sample_level_ok p x i) as (l & ->); [done..|].
  by eexists _, _.
Qed.
End Core.

(** The bytes a slicer made from a template may read. *)
Definition core_bytes (bs : vbi3_bit_slicer) (tm : template) : Z :=
  bs_skip bs + (bs_cri_samples bs + last_position bs / 256) * t_bpp tm + width (t_kind tm).

(** A slicer whose threshold is [t] now and has all other parameters of [bs]. *)
Definition adapted (bs bs' : vbi3_bit_slicer) : Prop := bs' = set_thresh (bs_thresh bs') bs.

Lemma set_thresh_adapted t bs : adapted bs (set_thresh t bs).
Proof. done. Qed.
Lemma adapted_refl bs : adapted bs bs.
Proof. by destruct bs. Qed.

(** What the functions of the slicer promise for a line in memory. *)
Definition slice_safe (bs : vbi3_bit_slicer) (buffer : list Z) (thresh_ok : Z → Prop) (o : option slice_result) : Prop :=
  ∃ r, o = Some r ∧ adapted bs (r_bs r) ∧ thresh_ok (bs_thresh (r_bs r)) ∧
    (r_ok r = false → r_buffer r = buffer) ∧ wrote buffer 0 (octets_stored bs) (r_buffer r).

Lemma last_position_nonneg bs : payload_ok bs → 0 ≤ last_position bs.
Proof.
  intros [? ? ? ? ? ?]. unfold last_position.
  assert (1 ≤ payload_bits bs) by (unfold payload_bits; destruct (2 <=? _); lia). nia.
Qed.

Lemma CORE_ok bs tm buffer raw : payload_ok bs → template_ok bs tm → 0 ≤ bs_skip bs → 0 ≤ bs_cri_samples bs →
  bytes raw → core_bytes bs tm ≤ Z.of_nat (length raw) → octets_stored bs ≤ Z.of_nat (length buffer) →
  slice_safe bs buffer (signal_ok (t_frac tm) (level_max bs (t_kind tm)) (level_max bs (t_kind tm)))
    (CORE bs tm None buffer raw).
Proof.
  intros Hp (Hb & Hm & Ht) Hs Hc Hraw Hlen Hbuf. unfold CORE, core_bytes in *.
  pose proof (last_position_nonneg bs Hp) as Hl.
  assert (0 ≤ last_position bs / 256) by (apply Z.div_pos; lia).
  assert (0 < width (t_kind tm)) by (destruct (t_kind tm); cbn; lia).
  destruct (core_loop_ok bs tm raw Hraw Hb Hm 4 (S (length raw)) (bs_cri_samples bs) (bs_skip bs) (bs_thresh bs)
    (CriState 0 0 false 0 [])) as (e & pts & -> & He); [nia|done|nia|done|]. cbn [mbind option_bind].
  destruct e as [p tr t|].
  - destruct He as (Hpp & Htr & Ht').
    destruct (PAYLOAD_ok bs (SAMPLE bs tm raw None p (u32 (tr * 256))) (u32 (tr * 256)) buffer pts Hp)
      as (ok & b' & pts' & -> & Hok & W); [apply SAMPLE_ok; try done; [lia|nia]|done|].
    cbn [mbind option_bind]. eexists; split; [done|]. cbn. split; [done|]. done.
  - eexists; split; [done|]. cbn. split; [apply adapted_refl|]. split_and!; try done; by apply wrote_nothing, stored_nonneg.
Qed.

(** ** The low-pass slicer *)

Definition lp_bytes (bs : vbi3_bit_slicer) : Z :=
  bs_skip bs + (bs_cri_samples bs + last_position bs / 256 + 15) * bs_bytes_per_sample bs + 1.

Definition lp_signal (bs : vbi3_bit_slicer) : Z → Prop := signal_ok (bs_thresh_frac bs) 4080 255.

Section LowPass.
Context (bs : vbi3_bit_slicer) (raw : list Z) (Hraw : bytes raw) (Hb : 0 < bs_bytes_per_sample bs).
Let bps := bs_bytes_per_sample bs.

Lemma low_pass_sum_ok (n : nat) : ∀ p, 0 ≤ p → (n ≠ O → p + (Z.of_nat n - 1) * bps < Z.of_nat (length raw)) →
  ∃ s, low_pass_sum raw bps p n = Some s ∧ 0 ≤ s ≤ 255 * Z.of_nat n.
Proof.
  induction n as [|n IH]; intros p Hp Hn; cbn [low_pass_sum]; [exists 0; split; [done|lia]|].
  destruct (rd_byte raw p Hraw) as (x & -> & Hx); [unfold bps in *; nia|].
  destruct (IH (p + bps)) as (s & -> & Hs); [unfold bps; lia|intros; unfold bps in *; nia|].
  exists (x + s). split; [done|]. unfold is_byte in Hx. lia.
Qed.

(** One sample enters the sum and one leaves it. *)
Lemma low_pass_sum_next n : ∀ p s x y, low_pass_sum raw bps p (S n) = Some s →
  rd raw p = Some x → rd raw (p + Z.of_nat (S n) * bps) = Some y →
  low_pass_sum raw bps (p + bps) (S n) = Some (s + y - x).
Proof.
  induction n as [|n IH]; intros p s x y Hs Hx Hy.
  - cbn in Hs. rewrite Hx in Hs. injection Hs as <-. cbn.
    replace (p + bps) with (p + Z.of_nat 1 * bps) by lia. rewrite Hy. cbn. f_equal. lia.
  - cbn [low_pass_sum] in Hs. rewrite Hx in Hs.
    change (x0 ← rd raw (p + bps); s0 ← low_pass_sum raw bps (p + bps + bps) n; Some (x0 + s0))
      with (low_pass_sum raw bps (p + bps) (S n)) in Hs. cbn [mbind option_bind] in Hs.
    destruct (low_pass_sum raw bps (p + bps) (S n)) as [s1|] eqn:E1; [|done]. injection Hs as <-.
    assert (X1 : ∃ x1, rd raw (p + bps) = Some x1).
    { cbn [low_pass_sum] in E1. destruct (rd raw (p + bps)); [eauto|done]. }
    destruct X1 as [x1 X1].
    pose proof (IH (p + bps) s1 x1 y E1 X1 ltac:(rewrite <- Hy; f_equal; lia)) as E2.
    change (low_pass_sum raw bps (p + bps) (S (S n)))
      with (x0 ← rd raw (p + bps); s0 ← low_pass_sum raw bps (p + bps + bps) (S n); Some (x0 + s0)).
    rewrite X1, E2. cbn. f_equal. lia.
Qed.

Lemma lp_loop_ok fuel : ∀ i p cl c b1 sum t pts, 1 ≤ i < 2 ^ 32 → i < Z.of_nat fuel → 0 ≤ p →
  p + (i + 15) * bps < Z.of_nat (length raw) → lp_sum bs raw p = Some sum → lp_signal bs t →
  ∃ e pts', lp_loop bs None raw fuel i p cl c b1 sum t pts = Some (e, pts') ∧
    match e with
    | CriFound p' tr t' => p ≤ p' ≤ p + i * bps ∧ lp_signal bs t'
    | CriNotFound => True
    end.
Proof.
  induction fuel as [|fuel IH]; intros i p cl c b1 sum t pts Hi Hf Hp Hlen Hsum Ht; [lia|]. cbn [lp_loop].
  fold bps. change (bps ≪ LP_AVG) with (Z.shiftl bps 4). rewrite (Z.shiftl_mul_pow2 bps 4) by lia. change (2 ^ 4) with 16.
  destruct (rd_byte raw (p + bps * 16) Hraw ltac:(unfold bps in *; nia)) as (new & Enew & Hnew).
  destruct (rd_byte raw p Hraw ltac:(unfold bps in *; nia)) as (old & Eold & Hold).
  rewrite Enew, Eold. cbn [mbind option_bind]. unfold is_byte in *.
  assert (Hs : 0 ≤ sum ≤ 4080).
  { destruct (low_pass_sum_ok 16 p Hp ltac:(unfold bps in *; lia)) as (s & E & Es).
    unfold lp_sum in Hsum. fold bps in Hsum. rewrite E in Hsum. injection Hsum as <-. lia. }
  assert (Hsum' : lp_sum bs raw (p + bps) = Some (sum + new - old)).
  { apply (low_pass_sum_next 15); [done|done|]. rewrite <- Enew. f_equal. lia. }
  assert (Hs' : 0 ≤ sum + new - old ≤ 4080).
  { destruct (low_pass_sum_ok 16 (p + bps)) as (s & E & Es); [unfold bps; lia|unfold bps in *; nia|].
    unfold lp_sum in Hsum'. fold bps in Hsum'. rewrite E in Hsum'. injection Hsum' as Es'. lia. }
  rewrite (u32_small (sum + new - old)) by lia.
  set (t' := u32 (t + s32 (sum - (t ≫ bs_thresh_frac bs)) * ABS (sum + new - old - sum))).
  assert (Ht' : lp_signal bs t').
  { unfold t', ABS. rewrite (s32_small (sum + new - old - sum)) by lia. apply signal_step; [done|lia|lia]. }
  assert (Next : ∀ cl c b pts, ∃ e pts',
    (if u32 (i - 1) =? 0 then Some (CriNotFound, pts)
     else lp_loop bs None raw fuel (u32 (i - 1)) (p + bps) cl c b (sum + new - old) t' pts) = Some (e, pts') ∧
    match e with CriFound p' tr t' => p ≤ p' ≤ p + i * bps ∧ lp_signal bs t' | CriNotFound => True end).
  { intros cl' c' b' pts0. rewrite u32_small by lia. destruct (Z.eqb_spec (i - 1) 0); [by eexists CriNotFound, _|].
    destruct (IH (i - 1) (p + bps) cl' c' b' (sum + new - old) t' pts0) as (e & pts' & -> & He); try done;
      [lia..|unfold bps in *; lia|unfold bps in *; nia|].
    exists e, pts'. split; [done|]. destruct e; [|done]. destruct He as [? ?]. split; [unfold bps in *; nia|done]. }
  destruct (xorb _ _); [apply Next|]. destruct (_ <=? _); [|apply Next]. cbn [put_point mbind option_bind].
  destruct (_ =? bs_cri bs); [|apply Next].
  eexists (CriFound _ _ _), _. split; [done|]. split; [unfold bps in *; nia|done].
Qed.

Lemma LP_SAMPLE_ok p tr x : 0 ≤ p → p + (x / 256 + 15) * bps < Z.of_nat (length raw) →
  sampler_ok (LP_SAMPLE bs raw None p tr) x.
Proof.
  intros Hp Hx kind i pts Hi. unfold LP_SAMPLE, lp_sum. fold bps.
  rewrite Z.shiftr_div_pow2 by lia. change (2 ^ 8) with 256.
  assert (0 ≤ i / 256 ≤ x / 256) by (split; [apply Z.div_pos|apply Z.div_le_mono]; lia).
  destruct (low_pass_sum_ok 16 (p + i / 256 * bps)) as (s & -> & _); [unfold bps in *; nia|unfold bps in *; nia|].
  by eexists _, _.
Qed.
End LowPass.

Lemma low_pass_ok bs buffer raw : payload_ok bs → 0 < bs_bytes_per_sample bs → 0 ≤ bs_skip bs →
  1 ≤ bs_cri_samples bs < 2 ^ 32 → lp_signal bs (bs_thresh bs) → bytes raw → lp_bytes bs ≤ Z.of_nat (length raw) →
  octets_stored bs ≤ Z.of_nat (length buffer) → slice_safe bs buffer (lp_signal bs) (low_pass bs None buffer raw).
Proof.
  intros Hp Hb Hs Hc Ht Hraw Hlen Hbuf. unfold low_pass, lp_bytes in *.
  pose proof (last_position_nonneg bs Hp) as Hl.
  assert (0 ≤ last_position bs / 256) by (apply Z.div_pos; lia).
  destruct (low_pass_sum_ok bs raw Hraw Hb 16 (bs_skip bs) Hs) as (s & Es & _); [nia|].
  change (low_pass_sum raw (bs_bytes_per_sample bs) (bs_skip bs) 16) with (lp_sum bs raw (bs_skip bs)) in Es. rewrite Es.
  cbn [mbind option_bind].
  destruct (lp_loop_ok bs raw Hraw Hb (S (length raw)) (bs_cri_samples bs) (bs_skip bs) 0 (2 ^ 32 - 1) false s (bs_thresh bs) [])
    as (e & pts & -> & He); [lia|nia|done|nia|done|done|]. cbn [mbind option_bind].
  destruct e as [p tr t|].
  - destruct He as (Hpp & Ht').
    destruct (lp_payload_ok bs (LP_SAMPLE bs raw None p tr) tr buffer pts Hp)
      as (ok & b' & pts' & -> & Hok & W); [apply LP_SAMPLE_ok; try done; [lia|nia]|done|].
    cbn [mbind option_bind]. eexists; split; [done|]. cbn. split; [done|]. done.
  - eexists; split; [done|]. cbn. split; [apply adapted_refl|]. split_and!; try done; by apply wrote_nothing, stored_nonneg.
Qed.

(** ** The whole slicer *)

(** The bytes of a line the slicer may read. *)
Definition bytes_read (bs : vbi3_bit_slicer) : Z :=
  match bs_func bs with
  | low_pass_bit_slicer_Y8 => lp_bytes bs
  | _ => match bit_slicer_template bs with Some tm => core_bytes bs tm | None => 0 end
  end.

(** A slicer is ready for use, or refuses every line because its parameters were not set. *)
Definition slicer_ok (bs : vbi3_bit_slicer) : Prop :=
  match bs_func bs with
  | func_NULL => False
  | null_function => True
  | low_pass_bit_slicer_Y8 =>
      payload_ok bs ∧ 0 ≤ bs_skip bs ∧ 1 ≤ bs_cri_samples bs < 2 ^ 32 ∧
      0 < bs_bytes_per_sample bs ∧ lp_signal bs (bs_thresh bs)
  | _ =>
      payload_ok bs ∧ 0 ≤ bs_skip bs ∧ 0 ≤ bs_cri_samples bs ∧
      match bit_slicer_template bs with Some tm => template_ok bs tm | None => False end
  end.

Lemma payload_ok_adapted bs t : payload_ok bs → payload_ok (set_thresh t bs).
Proof. by intros [? ? ? ? ? ?]. Qed.

Lemma slice_safe_slicer bs buffer P o : slice_safe bs buffer P o →
  (∀ t, P t → slicer_ok (set_thresh t bs)) →
  ∃ r, o = Some r ∧ slicer_ok (r_bs r) ∧ adapted bs (r_bs r) ∧ (r_ok r = false → r_buffer r = buffer) ∧
    wrote buffer 0 (octets_stored bs) (r_buffer r).
Proof.
  intros (r & -> & Ha & Ht & Hb & W) H. exists r. split; [done|]. split; [rewrite Ha; by apply H|]. done.
Qed.

Lemma line_refused bs buffer : slicer_ok bs →
  ∃ r, Some (SliceResult bs false buffer [] None) = Some r ∧ slicer_ok (r_bs r) ∧ adapted bs (r_bs r) ∧
    (r_ok r = false → r_buffer r = buffer) ∧ wrote buffer 0 (octets_stored bs) (r_buffer r).
Proof.
  intros H. eexists; split; [done|]. cbn. split; [done|]. split; [apply adapted_refl|]. split; [done|].
  split; [done|]. done.
Qed.

Lemma run_func_ok bs buffer raw : slicer_ok bs → bytes raw → bytes_read bs ≤ Z.of_nat (length raw) →
  octets_stored bs ≤ Z.of_nat (length buffer) →
  ∃ r, run_func bs None buffer raw = Some r ∧ slicer_ok (r_bs r) ∧ adapted bs (r_bs r) ∧
    (r_ok r = false → r_buffer r = buffer) ∧ wrote buffer 0 (octets_stored bs) (r_buffer r).
Proof.
  intros H Hraw Hlen Hbuf.
  destruct (decide (bs_func bs = null_function)) as [E|N].
  { unfold run_func. rewrite E. by apply line_refused. }
  unfold run_func, bytes_read, slicer_ok in H, Hlen |- *.
  destruct (bs_func bs) eqn:F; try done.
  all: try (destruct H as (Hp & Hs & Hc & Ht); destruct (bit_slicer_template bs) as [tm|] eqn:T; [|done];
    cbn [mbind option_bind]; eapply slice_safe_slicer; [by apply CORE_ok|];
    intros t Hsig; unfold slicer_ok; cbn [bs_func set_thresh]; rewrite F; split; [by apply payload_ok_adapted|];
    split; [done|]; split; [done|];
    replace (bit_slicer_template (set_thresh t bs)) with (Some tm) by (rewrite <- T; unfold bit_slicer_template; cbn; by rewrite F);
    destruct Ht as (? & ? & ?); done).
  destruct H as (Hp & Hs & Hc & Hb & Ht). eapply slice_safe_slicer; [by apply low_pass_ok|].
  intros t Hsig. unfold slicer_ok. cbn [bs_func set_thresh]. rewrite F.
  split; [by apply payload_ok_adapted|]. done.
Qed.

Lemma ready_slice_ok (bs : vbi3_bit_slicer) (buffer raw : list Z) (buffer_size : Z) :
  slicer_ok bs → bytes raw → bytes_read bs ≤ Z.of_nat (length raw) →
  octets_stored bs ≤ Z.of_nat (length buffer) →
  ∃ r, vbi3_bit_slicer_slice bs buffer buffer_size raw = Some r ∧ slicer_ok (r_bs r) ∧ adapted bs (r_bs r) ∧
    (r_ok r = false → r_buffer r = buffer) ∧ wrote buffer 0 (octets_stored bs) (r_buffer r).
Proof.
  intros H Hraw Hlen Hbuf. unfold vbi3_bit_slicer_slice. destruct (_ <? _); [by apply line_refused|by apply run_func_ok].
Qed.

(** Line after line: a buffer and the samples of each. *)
Fixpoint slice_lines (bs : vbi3_bit_slicer) (buffer_size : Z) (lines : list (list Z * list Z)) : option (list slice_result) :=
  match lines with
  | [] => Some []
  | (buffer, raw) :: lines =>
      r ← vbi3_bit_slicer_slice bs buffer buffer_size raw; l ← slice_lines (r_bs r) buffer_size lines; Some (r :: l)
  end.

Lemma adapted_bounds bs bs' : adapted bs bs' → bytes_read bs' = bytes_read bs ∧ octets_stored bs' = octets_stored bs.
Proof. intros ->. split; [|done]. unfold bytes_read, bit_slicer_template. cbn [bs_func set_thresh]. by destruct (bs_func bs). Qed.

Lemma ready_slice_lines buffer_size lines : ∀ bs, slicer_ok bs →
  Forall (λ '(buffer, raw), bytes raw ∧ bytes_read bs ≤ Z.of_nat (length raw) ∧ octets_stored bs ≤ Z.of_nat (length buffer)) lines →
  ∃ rs, slice_lines bs buffer_size lines = Some rs ∧
    Forall2 (λ line r, slicer_ok (r_bs r) ∧ (r_ok r = false → r_buffer r = line.1) ∧ wrote line.1 0 (octets_stored bs) (r_buffer r)) lines rs.
Proof.
  induction lines as [|[buffer raw] lines IH]; intros bs H F; cbn [slice_lines]; [by exists []|].
  apply Forall_cons_iff in F as [(F1 & F2 & F3) F].
  destruct (ready_slice_ok bs buffer raw buffer_size H F1 F2 F3) as (r & -> & R1 & R2 & R3). cbn [mbind option_bind].
  destruct (adapted_bounds _ _ R2) as [E1 E2]. destruct (IH (r_bs r) R1) as (rs & -> & Hrs); [by rewrite E1, E2|].
  rewrite E2 in Hrs. cbn [mbind option_bind]. exists (r :: rs). split; [done|]. by constructor.
Qed.

(** ** Parameters *)

Lemma d_half_le : d_le d_half 1 1.
Proof. vm_compute. congruence. Qed.
Lemma d_quarter_le : d_le d_quarter 2 1.
Proof. vm_compute. congruence. Qed.

Lemma bit_share_le m : d_le (bit_share m) 1 1.
Proof. destruct m; vm_compute; congruence. Qed.

(** The rounded phase shift exceeds the exact one by less than half a unit. *)
Lemma phase_shift_le sr c step m : 0 ≤ sr < 2 ^ 32 → 0 < c ≤ sr → sr < 2 ^ 15 * c → 0 ≤ step < 2 ^ 24 →
  ∃ ph, phase_shift sr c step (bit_share m) = Some ph ∧ 0 ≤ ph < 2 ^ 31 ∧ 2 * c * ph ≤ 256 * sr + c * step + 257 * c.
Proof.
  intros Hsr Hc Hr Hst. unfold phase_shift.
  set (a := sr * 2 ^ 19). set (q := (a + c - 1) / c). set (h := (q + 1) / 2).
  assert (Q : a ≤ q * c ≤ a + c - 1) by (unfold q; Z.div_mod_to_equations; nia).
  assert (H : q ≤ h * 2 ≤ q + 1) by (unfold h; Z.div_mod_to_equations; lia).
  assert (A0 : 0 ≤ a < 2 ^ 51) by (unfold a; lia).
  assert (Q0 : 0 ≤ q < 2 ^ 35) by (unfold a in *; nia).
  assert (D : d_le (d_add (d_add (d_mul (d_div (d_mul (d_of_Z sr) (d_of_Z 256)) (d_of_Z c)) d_half)
                  (d_mul (d_of_Z step) (bit_share m))) (d_of_Z 128)) 11 (h + step * 2 ^ 10 + 128 * 2 ^ 11)).
  { apply d_add_le; [apply d_add_le|apply d_of_Z_le; lia|lia|lia]; [| |lia|lia].
    - apply (d_mul_le _ _ 11 q 1 1); [|apply d_half_le|lia..].
      apply (d_div_le _ c 11 a); [|lia..].
      apply (d_mul_le _ _ 11 (sr * 2 ^ 11) 0 256); [apply d_of_Z_le; lia|vm_compute; congruence|lia..].
    - apply (d_mul_le _ _ 11 (step * 2 ^ 11) 1 1); [apply d_of_Z_le; lia|apply bit_share_le|lia..]. }
  destruct (int_of_double_le _ _ _ D) as (ph & E & Hph); [lia|Z.div_mod_to_equations; lia|].
  exists ph. split; [exact E|].
  assert (P : ph * 2 ^ 11 ≤ h + step * 2 ^ 10 + 128 * 2 ^ 11) by (Z.div_mod_to_equations; lia).
  split; [lia|]. unfold a in *. nia.
Qed.

(** The cases of the pixel format fit together. *)
Definition format_ok (fmt : Z) (f : format_par) : Prop :=
  f_bytes f = VBI_PIXFMT_BPP fmt ∧ 0 ≤ f_skip f ∧
  if decide (f_func f = low_pass_bit_slicer_Y8) then
    f_skip f + 1 ≤ f_bytes f ∧ signal_ok (f_frac f) 4080 255 (f_thresh f)
  else
    f_func f ≠ func_NULL ∧ f_func f ≠ null_function ∧ 0 ≤ f_mask f ∧
    ∀ bs, bs_func bs = f_func f → bs_thresh_frac bs = f_frac f → bs_green_mask bs = f_mask f →
      ∃ tm, bit_slicer_template bs = Some tm ∧ t_bpp tm = f_bytes f ∧ f_skip f + width (t_kind tm) ≤ f_bytes f ∧
        signal_ok (t_frac tm) (level_max bs (t_kind tm)) (level_max bs (t_kind tm)) (f_thresh f).

Lemma byte_format_ok bs func bytes skip n fmt : bytes = VBI_PIXFMT_BPP fmt → 0 ≤ skip < bytes →
  (func, bytes) ∈ [(bit_slicer_Y8, 1); (bit_slicer_YUYV, 2); (bit_slicer_RGB24_LE, 3); (bit_slicer_RGBA24_LE, 4)] →
  0 ≤ bs_green_mask bs → format_ok fmt (byte_format bs func bytes skip n).
Proof.
  intros Hb Hs Hf Hm. unfold byte_format, format_ok. destruct (_ <? n).
  - cbn. rewrite decide_True by done. split_and!; try done; try lia.
  - cbn [f_func f_bytes f_skip f_thresh f_frac f_mask].
    split; [done|]. split; [lia|].
    repeat (apply elem_of_cons in Hf as [[= -> ->]|Hf];
      [rewrite decide_False by done; split_and!; try done; intros b Eb _ _; unfold bit_slicer_template; rewrite Eb;
       eexists; split_and!; [done|done|cbn; lia|vm_compute; intuition congruence]|]).
    by apply elem_of_nil in Hf.
Qed.

Lemma word_format_ok func mask thresh frac fmt : VBI_PIXFMT_BPP fmt = 2 → 0 ≤ mask →
  func = bit_slicer_RGB16_LE ∨ func = bit_slicer_RGB16_BE → signal_ok frac mask mask thresh →
  format_ok fmt (word_format func mask thresh frac).
Proof.
  intros Hb Hm Hf Hs. unfold format_ok. cbn. split; [done|]. split; [lia|].
  rewrite decide_False by (by destruct Hf as [->| ->]).
  split_and!; [by destruct Hf as [->| ->]..|done|]. intros b Eb Ef Em. unfold bit_slicer_template. rewrite Eb, Ef.
  destruct Hf as [->| ->]; eexists; (split; [done|]); cbn; rewrite Em; done.
Qed.

Lemma pixel_format_ok bs fmt n f : 0 ≤ bs_green_mask bs → pixel_format bs fmt n = Some f → format_ok fmt f.
Proof.
  intros Hm. unfold pixel_format.
  assert (One : ∀ l, existsb (Z.eqb fmt) l = true → fmt ∈ l).
  { intros l. rewrite existsb_exists. intros (x & Hx & <-%Z.eqb_eq). by apply list_elem_of_In. }
  repeat (case_match; [match goal with H : existsb _ _ = true |- _ => apply One in H end; intros [= <-];
    repeat (match goal with H : _ ∈ _ :: _ |- _ => apply elem_of_cons in H as [->|H] end);
    try (match goal with H : _ ∈ [] |- _ => by apply elem_of_nil in H end);
    (apply byte_format_ok; [done|done|rewrite !elem_of_cons; tauto|done]) || (apply word_format_ok; [done|done|tauto|vm_compute; intuition congruence])|]).
  done.
Qed.

(** What the parameters of a data service and the sampling are assumed to be: a bit takes
    less than [2 ^ 15] samples, the clock run-in is not slower than the payload, and the
    search for it may end behind its first sample. *)
Record service_ok (sampling_rate sample_offset : Z) (par : service_par) : Prop := ServiceOk {
  so_rate : 0 < sampling_rate < 2 ^ 32; so_offset : 0 ≤ sample_offset;
  so_cri_bits : 1 ≤ p_cri_bits par ≤ 32; so_frc_bits : 0 ≤ p_frc_bits par ≤ 32;
  so_payload : 1 ≤ p_payload_bits par ≤ 32767;
  so_payload_rate : 0 < p_payload_rate par ≤ p_cri_rate par;
  so_cri_end : sample_offset < p_cri_end par < 2 ^ 32;
  so_samples : sampling_rate < 2 ^ 15 * p_payload_rate par
}.

(** The samples behind the line a slicer may read. *)
Definition overread (bs : vbi3_bit_slicer) : Z :=
  if decide (bs_func bs = low_pass_bit_slicer_Y8) then 17 else 2.

Lemma div_bounds a b : 0 < b → b * (a / b) ≤ a < b * (a / b) + b.
Proof. intros. Z.div_mod_to_equations. lia. Qed.

(** The last bit of the payload is at most a sample behind the [ds] samples of the bits. *)
Lemma last_bit_bound sr pr c ph step D ds : 0 < pr ≤ c → 0 < c → 1 ≤ D → 0 ≤ sr →
  step = sr * 256 / pr → ds = sr * D / pr → 2 * c * ph ≤ 256 * sr + c * step + 257 * c →
  (ph + (D - 1) * step) / 256 ≤ ds + 1 ∧ (0 ≤ step).
Proof.
  intros Hpr Hc HD Hsr -> -> Hph.
  pose proof (div_bounds (sr * 256) pr ltac:(lia)) as S1. pose proof (div_bounds (sr * D) pr ltac:(lia)) as S2.
  set (step := sr * 256 / pr) in *. set (ds := sr * D / pr) in *.
  assert (S0 : 0 ≤ step) by (apply Z.div_pos; lia). split; [|done].
  assert (P : ph ≤ step + 128).
  { assert (256 * sr < c * (step + 1)) by nia. nia. }
  assert (DS : D * step < 256 * (ds + 1)) by nia.
  assert ((ph + (D - 1) * step) < 256 * (ds + 2)) by nia. Z.div_mod_to_equations. lia.
Qed.

Lemma slicer_ok_template bs tm : bs_func bs ≠ low_pass_bit_slicer_Y8 → bit_slicer_template bs = Some tm →
  payload_ok bs → 0 ≤ bs_skip bs → 0 ≤ bs_cri_samples bs → template_ok bs tm →
  slicer_ok bs ∧ bytes_read bs = core_bytes bs tm.
Proof.
  intros N T Hp Hs Hc Ht. unfold slicer_ok, bytes_read. rewrite T.
  unfold bit_slicer_template in T. by destruct (bs_func bs).
Qed.

Section SetParams.
Context (bs : vbi3_bit_slicer) (fmt sr off spl : Z) (par : service_par).
Context (Hpar : service_ok sr off par) (Hspl : 0 ≤ spl ≤ 32767) (Hmask : 0 ≤ bs_green_mask bs).
Let step := sr * 256 / p_payload_rate par.
Let D := p_payload_bits par + p_frc_bits par.
Let ds := sr * D / p_payload_rate par.
Let cs := sr * p_cri_bits par / p_cri_rate par.

Lemma counts_fit : 0 < p_cri_rate par → p_cri_rate par ≤ sr → 0 ≤ step < 2 ^ 24 ∧ 0 ≤ ds < 2 ^ 31 ∧ 1 ≤ cs < 2 ^ 31.
Proof.
  intros Hc Hcr. destruct Hpar. unfold step, ds, cs, D.
  split_and!; try (apply Z.div_pos; nia); try (apply Z.div_lt_upper_bound; nia).
  apply Z.div_le_lower_bound; nia.
Qed.

(** The assertions hold and no division or conversion fails; where the parameters are
    accepted the slicer is ready, stores the octets of the payload, and reads at most two
    samples behind the [samples_per_line] samples of the line, or 17 samples where it
    averages samples. *)
Theorem set_params_ok :
  ∃ ok bs', vbi3_bit_slicer_set_params bs fmt sr off spl par = Some (ok, bs') ∧
    (ok = true → slicer_ok bs' ∧ payload_bits bs' = p_payload_bits par ∧
       bytes_read bs' ≤ (spl + overread bs') * VBI_PIXFMT_BPP fmt).
Proof.
  destruct Hpar as [H1 H2 H3 H4 H5 H6 H7 H8]. unfold vbi3_bit_slicer_set_params.
  rewrite !(proj2 (Z.leb_le _ _)) by lia. cbn [andb negb].
  destruct (Z.ltb_spec sr (p_cri_rate par)); [by eexists _, _|].
  destruct (Z.ltb_spec sr (p_payload_rate par)); [by eexists _, _|].
  rewrite (proj2 (Z.eqb_neq _ _)) by lia.
  destruct (pixel_format bs fmt _) as [f|] eqn:F; [|by eexists _, _].
  apply pixel_format_ok in F; [|done]. rewrite !(proj2 (Z.eqb_neq _ _)) by lia. cbn [orb].
  destruct counts_fit as (Fs & Fd & Fc); [lia..|].
  rewrite (u32_small (p_payload_bits par + p_frc_bits par)) by lia. fold D. fold ds cs step.
  rewrite (u32_small ds), (u32_small cs), (u32_small step), (u32_small (cs + ds)) by lia.
  destruct (Z.ltb_spec spl off); [by eexists _, _|].
  destruct (Z.ltb_spec (spl - off) (cs + ds)) as [|Fit]; [by eexists _, _|]. cbn [orb].
  destruct (if negb (p_payload_bits par .& 7 =? 0) then _ else _) as [payload endian] eqn:PE.
  rewrite (u32_small (spl - ds)) by lia.
  set (cri_end := Z.min (p_cri_end par) (spl - ds)).
  destruct (phase_shift_le sr (p_cri_rate par) step (p_modulation par)) as (ph & -> & Hph & Bph); [lia..|].
  cbn [mbind option_bind].
  assert (Ecs : 1 ≤ cri_end - off ≤ spl - ds - off) by (unfold cri_end; lia).
  rewrite (u32_small (cri_end - off)), (u32_small ph) by lia.
  eexists _, _. split; [done|]. intros _.
  match goal with |- slicer_ok ?b ∧ _ => set (bs' := b) end.
  assert (Hpe : payload_bits bs' = p_payload_bits par ∧ 0 < payload ∧
    let e := if is_msb (p_modulation par) then endian - 1 else endian in
    0 ≤ e ≤ 1 ∨ 2 ≤ e ≤ 3 ∧ payload mod 8 ≠ 0).
  { assert (E7 : p_payload_bits par .& 7 = p_payload_bits par mod 8) by (change 7 with (Z.ones 3); by rewrite Z.land_ones).
    rewrite E7 in PE. unfold payload_bits, bs'. cbn [bs_payload bs_endian].
    destruct (Z.eqb_spec (p_payload_bits par mod 8) 0) as [E0|E0]; cbn [negb] in PE; injection PE as <- <-.
    - rewrite Z.shiftr_div_pow2 by lia. change (2 ^ 3) with 8.
      pose proof (Z.div_mod (p_payload_bits par) 8 ltac:(lia)).
      set (e := if is_msb _ then _ else _). assert (0 ≤ e ≤ 1) by (unfold e; destruct (is_msb _); lia).
      rewrite (proj2 (Z.leb_gt 2 e)) by lia. split_and!; lia.
    - set (e := if is_msb _ then _ else _). assert (2 ≤ e ≤ 3) by (unfold e; destruct (is_msb _); lia).
      rewrite (proj2 (Z.leb_le 2 e)) by lia. split_and!; lia. }
  destruct Hpe as (Epb & Hpay & Hend).
  destruct (last_bit_bound sr (p_payload_rate par) (p_cri_rate par) ph step D ds) as [HL _]; [lia|lia|unfold D; lia|lia|done|done|done|].
  assert (EL : last_position bs' = ph + (D - 1) * step) by (unfold last_position; rewrite Epb; unfold bs', D; cbn; lia).
  assert (Pok : payload_ok bs').
  { split; cbn [bs' bs_frc_bits bs_phase_shift bs_step bs_payload bs_endian]; [lia..|done|].
    rewrite EL. assert (ph + (D - 1) * step < 2 ^ 24) by (Z.div_mod_to_equations; lia). lia. }
  pose proof (last_position_nonneg _ Pok) as L0.
  assert (L1 : 0 ≤ last_position bs' / 256 ≤ ds + 1) by (rewrite EL in *; split; [apply Z.div_pos; lia|done]).
  destruct F as (Fb & Fs0 & F). rewrite <- Fb.
  assert (Hb : 1 ≤ f_bytes f ≤ 4).
  { rewrite Fb. unfold VBI_PIXFMT_BPP. repeat case_match; lia. }
  assert (Esk : bs_skip bs' = off * f_bytes f + f_skip f).
  { unfold bs'. cbn [bs_skip]. apply u32_small.
    assert (f_skip f ≤ 4) by (destruct (decide _); [lia|destruct F as (_ & _ & _ & F);
      destruct (F bs') as (tm & _ & _ & ? & _); [done..|]; destruct (t_kind tm); cbn in *; lia]). nia. }
  assert (Ecri : bs_cri_samples bs' = cri_end - off) by done.
  destruct (decide (f_func f = low_pass_bit_slicer_Y8)) as [E|E].
  - assert (O : overread bs' = 17) by (unfold overread; by rewrite decide_True).
    rewrite O. unfold slicer_ok, bytes_read. change (bs_func bs') with (f_func f). rewrite E.
    change (bs_bytes_per_sample bs') with (f_bytes f). destruct F as [F1 F2].
    split; [split_and!; try done; lia|]. split; [done|]. unfold lp_bytes.
    change (bs_bytes_per_sample bs') with (f_bytes f). rewrite Esk, Ecri. nia.
  - destruct F as (F1 & F2 & F3 & F4). destruct (F4 bs') as (tm & Et & Eb & Ew & Es); [done..|].
    assert (O : overread bs' = 2) by (unfold overread; by rewrite decide_False).
    destruct (slicer_ok_template bs' tm) as [Ok Er]; try done; [lia|lia|split; [lia|done]|].
    split; [done|]. split; [done|]. rewrite Er, O. unfold core_bytes. rewrite Esk, Ecri, Eb. nia.
Qed.

End SetParams.

(** ** Examples *)

(** Closed Caption sampled at 13.5 MHz, 720 samples. *)
Definition new_slicer : vbi3_bit_slicer := (_vbi3_bit_slicer_init bs_cleared).2.
Definition caption_par : service_par :=
  ServicePar 0x03 0x0F 4 1006976 (2 ^ 32 - 1) 0 0 16 503488 VBI3_MODULATION_NRZ_LSB.
Definition caption_slicer : vbi3_bit_slicer :=
  BitSlicer bit_slicer_Y8 1 3 15 53760 9 291 1006976 54000000 5276 6864 0 0 20 2 1 1 0 0.

Lemma caption_slicer_set : vbi3_bit_slicer_set_params new_slicer VBI_PIXFMT_YUV420 13500000 0 720 caption_par =
  Some (true, caption_slicer).
Proof. vm_compute. reflexivity. Qed.

Lemma caption_slicer_ok : slicer_ok caption_slicer.
Proof.
  unfold slicer_ok. cbn. split; [split; vm_compute; intuition congruence|].
  split; [lia|]. split; [lia|]. vm_compute. intuition congruence.
Qed.

Lemma repeat_bytes x n : is_byte x → bytes (repeat x n).
Proof. intros Hx. apply List.Forall_forall. by intros y ->%repeat_spec. Qed.


Lemma set_params_ok_witness :
  ∃ ok bs', vbi3_bit_slicer_set_params new_slicer VBI_PIXFMT_YUV420 13500000 0 720 caption_par = Some (ok, bs') ∧
    (ok = true → slicer_ok bs' ∧ payload_bits bs' = p_payload_bits caption_par ∧
       bytes_read bs' ≤ (720 + overread bs') * VBI_PIXFMT_BPP VBI_PIXFMT_YUV420).
Proof.
  apply (set_params_ok new_slicer VBI_PIXFMT_YUV420 13500000 0 720 caption_par).
  - split; vm_compute; intuition congruence.
  - lia.
  - vm_compute. congruence.
Defined.

(** ** What the code does not mean to do *)

(** One bit of clock run-in and eight bits of payload, eight samples per bit. *)
Definition tiny_par : service_par := ServicePar 1 1 1 1 (2 ^ 32 - 1) 0 0 8 1 VBI3_MODULATION_NRZ_LSB.
Definition tiny_slicer (spl : Z) : vbi3_bit_slicer :=
  match vbi3_bit_slicer_set_params new_slicer VBI_PIXFMT_YUV420 8 0 spl tiny_par with
  | Some (_, bs) => bs
  | None => bs_cleared
  end.
Definition late_line (n : nat) : list Z := repeat 16 4 ++ repeat 200 n.

(** [samples_per_line] does not limit what is read: a clock run-in that ends late makes the
    slicer read behind the 72 samples of the line. *)
Lemma reads_behind_line :
  (∃ bs, vbi3_bit_slicer_set_params new_slicer VBI_PIXFMT_YUV420 8 0 72 tiny_par = Some (true, bs)) ∧
  length (late_line 68) = 72%nat ∧
  vbi3_bit_slicer_slice (tiny_slicer 72) [0; 0] 2 (late_line 68) = None ∧
  (r_ok <$> vbi3_bit_slicer_slice (tiny_slicer 72) [0; 0] 2 (late_line 69)) = Some true.
Proof. split; [by eexists; vm_compute|]. vm_compute. done. Qed.

(** The payload counts octets then, but is compared with the bits of the buffer: a buffer of
    one octet is accepted for two. *)
Lemma buffer_too_small :
  vbi3_bit_slicer_slice caption_slicer [0] 1 (repeat 16 100 ++ repeat 200 700) = None ∧
  (r_buffer <$> vbi3_bit_slicer_slice caption_slicer [0; 0] 2 (repeat 16 100 ++ repeat 200 700)) = Some [255; 255].
Proof. vm_compute. done. Qed.

(** The array of sampling points may have an element for each bit of clock run-in, framing
    code and payload, but the slicer stores every bit it sees before it finds the run-in. *)
Lemma points_overflow :
  bs_total_bits caption_slicer = 20 ∧
  vbi3_bit_slicer_slice_with_points caption_slicer [0; 0] 2 20 (repeat 16 722) = None ∧
  (r_n_points <$> vbi3_bit_slicer_slice_with_points caption_slicer [0; 0] 2 21 (repeat 16 722)) = Some (Some 21).
Proof. vm_compute. done. Qed.

(** A [cri_end] before [sample_offset] wraps around and is no limit at all. *)
Lemma cri_end_wraps :
  (λ x, (x.1, bs_cri_samples x.2)) <$> vbi3_bit_slicer_set_params new_slicer VBI_PIXFMT_YUV420 8 2 80
    (ServicePar 1 1 1 1 1 0 0 8 1 VBI3_MODULATION_NRZ_LSB) = Some (true, 2 ^ 32 - 1).
Proof. vm_compute. done. Qed.
