(* ===== verification/SlicerBits.v ===== *)
(** What the bit slicer delivers: the octets in terms of the levels of the signal, and that
    collecting sampling points changes nothing. *)
From S2P Require Import Prelude Double BitSlicer SlicerBounds.

(** ** Sampling points *)

(** Sampler [q] is [s] without an array of sampling points. *)
Definition quiet (q s : sampler) : Prop :=
  ∀ kind i pts x pts', s kind i pts = Some (x, pts') → q kind i [] = Some (x, []).

Lemma SAMPLE_quiet bs tm raw points p tr : quiet (SAMPLE bs tm raw None p tr) (SAMPLE bs tm raw points p tr).
Proof.
  intros kind i pts x pts'. unfold SAMPLE. destruct (sample_level _ _ _ _ _); [|done].
  cbn [mbind option_bind]. destruct (put_point _ _ _); [|done]. by intros [= -> <-].
Qed.

Lemma LP_SAMPLE_quiet bs raw points p tr : quiet (LP_SAMPLE bs raw None p tr) (LP_SAMPLE bs raw points p tr).
Proof.
  intros kind i pts x pts'. unfold LP_SAMPLE. destruct (lp_sum _ _ _); [|done].
  cbn [mbind option_bind]. destruct (put_point _ _ _); [|done]. by intros [= -> <-].
Qed.

Section Quiet.
Context (q s : sampler) (Hq : quiet q s) (tr step : Z).

Lemma sample_bits_quiet kind add n : ∀ k i c pts i' c' pts',
  sample_bits s kind add tr step n k i c pts = Some (i', c', pts') →
  sample_bits q kind add tr step n k i c [] = Some (i', c', []).
Proof.
  induction n as [|n IH]; intros k i c pts i' c' pts'; cbn [sample_bits]; [by intros [= -> -> <-]|].
  destruct (s kind i pts) as [[x pts1]|] eqn:E; [|done]. rewrite (Hq _ _ _ _ _ E).
  cbn [mbind option_bind]. apply IH.
Qed.

Lemma octets_quiet start add n : ∀ i c buffer o pts b' pts',
  octets s start add tr step n i c buffer o pts = Some (b', pts') →
  octets q start add tr step n i c buffer o [] = Some (b', []).
Proof.
  induction n as [|n IH]; intros i c buffer o pts b' pts'; cbn [octets]; [by intros [= -> <-]|].
  destruct (sample_bits s _ _ _ _ _ _ _ _ pts) as [[[i1 c1] pts1]|] eqn:E; [|done].
  rewrite (sample_bits_quiet _ _ _ _ _ _ _ _ _ _ E). cbn [mbind option_bind].
  destruct (wr buffer o (u8 c1)); [apply IH|done].
Qed.

Lemma bitwise_quiet add n : ∀ j i c buffer o pts c' b' o' pts',
  bitwise s add tr step n j i c buffer o pts = Some (c', b', o', pts') →
  bitwise q add tr step n j i c buffer o [] = Some (c', b', o', []).
Proof.
  induction n as [|n IH]; intros j i c buffer o pts c' b' o' pts'; cbn [bitwise]; [by intros [= -> -> -> <-]|].
  destruct (sample_bits s _ _ _ _ _ _ _ _ pts) as [[[i1 c1] pts1]|] eqn:E; [|done].
  rewrite (sample_bits_quiet _ _ _ _ _ _ _ _ _ _ E). cbn [mbind option_bind].
  destruct (_ =? 7); [|apply IH]. destruct (wr buffer o (u8 c1)); [apply IH|done].
Qed.

(** A result without its points. *)
Definition silent (o : payload_result) : payload_result := (λ x, (x.1, [])) <$> o.

Lemma bits_finish_quiet add n i c buffer pts finish b' pts' :
  ('(c, buffer, o, pts) ← bitwise s add tr step n 0 i c buffer 0 pts;
   buffer ← wr buffer o (u8 (finish c)); Some (buffer, pts)) = Some (b', pts') →
  ('(c, buffer, o, pts) ← bitwise q add tr step n 0 i c buffer 0 [];
   buffer ← wr buffer o (u8 (finish c)); Some (buffer, pts)) = Some (b', []).
Proof.
  destruct (bitwise s _ _ _ _ _ _ _ _ _ pts) as [[[[c1 b1] o1] pts1]|] eqn:E; [|done].
  rewrite (bitwise_quiet _ _ _ _ _ _ _ _ _ _ _ _ E). cbn [mbind option_bind].
  destruct (wr b1 o1 _); [|done]. by intros [= -> <-].
Qed.
End Quiet.

Lemma PAYLOAD_quiet bs q s tr buffer pts ok b' pts' : quiet q s →
  PAYLOAD bs s tr buffer pts = Some (ok, b', pts') → PAYLOAD bs q tr buffer [] = Some (ok, b', []).
Proof.
  intros Hq. unfold PAYLOAD. destruct (sample_bits s _ _ _ _ _ _ _ _ pts) as [[[i1 c1] pts1]|] eqn:E; [|done].
  rewrite (sample_bits_quiet q s Hq _ _ _ _ _ _ _ _ _ _ _ _ E). cbn [mbind option_bind].
  destruct (negb _); [by intros [= -> -> <-]|].
  intros H. apply bind_Some in H as ([b2 pts2] & H & [= <- <- <-]).
  enough (X : (if bs_endian bs =? 3 then bitwise_lsb bs q tr i1 c1 buffer [] else if bs_endian bs =? 2
     then bitwise_msb bs q tr i1 c1 buffer [] else if bs_endian bs =? 1
     then octets q (λ _, 0) add_kth tr (bs_step bs) (Z.to_nat (bs_payload bs)) i1 c1 buffer 0 []
     else octets q id add_msb tr (bs_step bs) (Z.to_nat (bs_payload bs)) i1 c1 buffer 0 []) = Some (b2, []))
    by by rewrite X.
  destruct (_ =? 3); [by eapply bits_finish_quiet|]. destruct (_ =? 2); [by eapply bits_finish_quiet|].
  destruct (_ =? 1); by eapply octets_quiet.
Qed.

Lemma lp_payload_quiet bs q s tr buffer pts ok b' pts' : quiet q s →
  lp_payload bs s tr buffer pts = Some (ok, b', pts') → lp_payload bs q tr buffer [] = Some (ok, b', []).
Proof.
  intros Hq. unfold lp_payload. destruct (sample_bits s _ _ _ _ _ _ _ _ pts) as [[[i1 c1] pts1]|] eqn:E; [|done].
  rewrite (sample_bits_quiet q s Hq _ _ _ _ _ _ _ _ _ _ _ _ E). cbn [mbind option_bind].
  destruct (negb _); [by intros [= -> -> <-]|].
  intros H. apply bind_Some in H as ([b2 pts2] & H & [= <- <- <-]).
  set (n := do_while_octets (bs_payload bs) buffer) in *.
  enough (X : (if bs_endian bs =? 3 then bitwise_lsb bs q tr i1 0 buffer [] else if bs_endian bs =? 2
     then bitwise_msb bs q tr i1 0 buffer [] else if bs_endian bs =? 1
     then octets q id add_lsb tr (bs_step bs) n i1 0 buffer 0 []
     else octets q id add_msb tr (bs_step bs) n i1 0 buffer 0 []) = Some (b2, []))
    by by rewrite X.
  destruct (_ =? 3); [by eapply bits_finish_quiet|]. destruct (_ =? 2); [by eapply bits_finish_quiet|].
  destruct (_ =? 1); by eapply octets_quiet.
Qed.

(** The state without its points. *)
Definition silent_state (s : cri_state) : cri_state := CriState (cs_cl s) (cs_c s) (cs_b1 s) (cs_t s) [].

Lemma CRI_loop_quiet bs points os tr raw1 p j : ∀ s found s',
  CRI_loop bs points os tr raw1 p j s = Some (found, s') →
  CRI_loop bs None os tr raw1 p j (silent_state s) = Some (found, silent_state s').
Proof.
  induction j as [|j IH]; intros s found s'; cbn [CRI_loop]; [by intros [= <- <-]|].
  unfold CRI. cbn [silent_state cs_cl cs_c cs_b1 cs_t cs_points put_point].
  destruct (xorb _ _); [apply IH|]. destruct (_ <=? u32 (cs_cl s + bs_cri_rate bs)); [|apply IH].
  destruct (put_point points _ _); [|done]. cbn [mbind option_bind]. destruct (_ =? _); [by intros [= <- <-]|apply IH].
Qed.

Lemma core_loop_quiet bs tm os points raw fuel : ∀ i p t s e pts,
  core_loop bs tm os points raw fuel i p t s = Some (e, pts) →
  core_loop bs tm os None raw fuel i p t (silent_state s) = Some (e, []).
Proof.
  induction fuel as [|fuel IH]; intros i p t s e pts; cbn [core_loop]; [done|].
  destruct (_ =? 0); [by intros [= <- <-]|].
  destruct (GREEN _ _ _ p); [|done]. destruct (GREEN _ _ _ (p + _)); [|done]. cbn [mbind option_bind].
  destruct (CRI_loop bs points _ _ _ _ _ _) as [[found s']|] eqn:E; [|done].
  apply CRI_loop_quiet in E. unfold silent_state in E at 1. cbn [cs_cl cs_c cs_b1 cs_t cs_points] in E.
  cbn [silent_state cs_cl cs_c cs_b1 cs_t cs_points]. rewrite E. cbn [mbind option_bind].
  destruct found; [by intros [= <- <-]|apply IH].
Qed.

Lemma lp_loop_quiet bs points raw fuel : ∀ i p cl c b1 sum t pts e pts',
  lp_loop bs points raw fuel i p cl c b1 sum t pts = Some (e, pts') →
  lp_loop bs None raw fuel i p cl c b1 sum t [] = Some (e, []).
Proof.
  induction fuel as [|fuel IH]; intros i p cl c b1 sum t pts e pts'; cbn [lp_loop]; [done|].
  destruct (rd raw (p + _)); [|done]. destruct (rd raw p); [|done]. cbn [mbind option_bind].
  destruct (xorb _ _); [destruct (_ =? 0); [by intros [= <- <-]|apply IH]|].
  destruct (_ <=? u32 (cl + bs_cri_rate bs)); [|destruct (_ =? 0); [by intros [= <- <-]|apply IH]].
  destruct (put_point points _ _); [|done]. cbn [put_point mbind option_bind].
  destruct (_ =? bs_cri bs); [by intros [= <- <-]|]. destruct (_ =? 0); [by intros [= <- <-]|apply IH].
Qed.

(** Two results that differ in the sampling points at most. *)
Definition same_slice (r r' : slice_result) : Prop :=
  r_bs r' = r_bs r ∧ r_ok r' = r_ok r ∧ r_buffer r' = r_buffer r.

Lemma CORE_quiet bs tm points buffer raw r : CORE bs tm points buffer raw = Some r →
  ∃ r', CORE bs tm None buffer raw = Some r' ∧ same_slice r r'.
Proof.
  unfold CORE. destruct (core_loop bs tm 4 points _ _ _ _ _ _) as [[e pts]|] eqn:E; [|done].
  apply core_loop_quiet in E. unfold silent_state in E. cbn [cs_cl cs_c cs_b1 cs_t cs_points] in E. rewrite E.
  cbn [mbind option_bind]. destruct e as [p tr t|]; [|intros [= <-]; eexists; split; done].
  destruct (PAYLOAD bs (SAMPLE bs tm raw points p _) _ buffer pts) as [[[ok b'] pts']|] eqn:P; [|done].
  rewrite (PAYLOAD_quiet _ _ _ _ _ _ _ _ _ (SAMPLE_quiet bs tm raw points p _) P).
  intros [= <-]. eexists; split; done.
Qed.

Lemma low_pass_quiet bs points buffer raw r : low_pass bs points buffer raw = Some r →
  ∃ r', low_pass bs None buffer raw = Some r' ∧ same_slice r r'.
Proof.
  unfold low_pass. destruct (lp_sum _ _ _); [|done]. cbn [mbind option_bind].
  destruct (lp_loop bs points _ _ _ _ _ _ _ _ _ _) as [[e pts]|] eqn:E; [|done].
  rewrite (lp_loop_quiet _ _ _ _ _ _ _ _ _ _ _ _ _ _ E).
  cbn [mbind option_bind]. destruct e as [p tr t|]; [|intros [= <-]; eexists; split; done].
  destruct (lp_payload bs (LP_SAMPLE bs raw points p tr) _ buffer pts) as [[[ok b'] pts']|] eqn:P; [|done].
  rewrite (lp_payload_quiet _ _ _ _ _ _ _ _ _ (LP_SAMPLE_quiet bs raw points p tr) P).
  intros [= <-]. eexists; split; done.
Qed.

(** Where the array of sampling points is large enough for the call to end, slicing a
    line with sampling points gives the same result, octets and adapted slicer as slicing it
    without: what a debugging client sees is what was decoded. *)
Theorem points_do_not_matter (bs : vbi3_bit_slicer) (buffer raw : list Z) (buffer_size max_points : Z) (r : slice_result) :
  bs_total_bits bs ≤ max_points →
  vbi3_bit_slicer_slice_with_points bs buffer buffer_size max_points raw = Some r →
  ∃ r', vbi3_bit_slicer_slice bs buffer buffer_size raw = Some r' ∧ same_slice r r'.
Proof.
  intros Hmax. unfold vbi3_bit_slicer_slice_with_points, vbi3_bit_slicer_slice.
  destruct (_ <? bs_payload bs); [intros [= <-]; eexists; split; done|].
  rewrite (proj2 (Z.ltb_ge _ _)) by lia. intros H. apply fmap_Some in H as (r1 & H & ->).
  enough (X : ∃ r', run_func bs None buffer raw = Some r' ∧ same_slice r1 r')
    by (destruct X as (r' & ? & ?); eexists; split; done).
  assert (Id : ∀ x, x = Some r1 → ∃ r', x = Some r' ∧ same_slice r1 r') by (intros x ->; eexists; split; done).
  destruct (bs_func bs) eqn:F; try by apply Id.
  - apply CORE_quiet in H. unfold run_func, bit_slicer_template. by rewrite F.
  - unfold run_func in H |- *. rewrite F in H |- *. by apply low_pass_quiet in H.
Qed.

(** ** Numbers from bits *)

Definition lsb_number (l : list bool) : Z := foldr (λ b c, Z.b2z b + 2 * c) 0 l.
Definition msb_number (l : list bool) : Z := fold_left (λ c b, c * 2 + Z.b2z b) l 0.

(** [n] octets from groups of eight bits; the last group may be shorter. *)
Fixpoint pack (num : list bool → Z) (n : nat) (l : list bool) : list Z :=
  match n with O => [] | S n => num (take 8 l) :: pack num n (drop 8 l) end.

Lemma lsb_number_range l : 0 ≤ lsb_number l < 2 ^ Z.of_nat (length l).
Proof.
  induction l as [|b l IH]; [done|]. cbn [lsb_number foldr length]. fold (lsb_number l).
  rewrite Nat2Z.inj_succ, Z.pow_succ_r by lia. destruct b; cbn [Z.b2z]; lia.
Qed.

Lemma msb_number_acc l : ∀ c, fold_left (λ c b, c * 2 + Z.b2z b) l c = c * 2 ^ Z.of_nat (length l) + msb_number l.
Proof.
  unfold msb_number. induction l as [|b l IH]; intros c; cbn [fold_left length]; [lia|].
  rewrite (IH (c * 2 + Z.b2z b)), (IH (0 * 2 + Z.b2z b)), Nat2Z.inj_succ, Z.pow_succ_r by lia. lia.
Qed.

Lemma msb_number_range l : 0 ≤ msb_number l < 2 ^ Z.of_nat (length l).
Proof.
  induction l as [|b l IH]; [done|]. unfold msb_number. cbn [fold_left length].
  rewrite msb_number_acc, Nat2Z.inj_succ, Z.pow_succ_r by lia. destruct b; cbn [Z.b2z]; lia.
Qed.

(** The effect of several bits on [c]. *)
Fixpoint feed (add : Z → Z → bool → Z) (k c : Z) (l : list bool) : Z :=
  match l with [] => c | b :: l => feed add (k + 1) (add k c b) l end.

Lemma feed_app add l1 l2 : ∀ k c, feed add k c (l1 ++ l2) = feed add (k + Z.of_nat (length l1)) (feed add k c l1) l2.
Proof.
  induction l1 as [|b l1 IH]; intros k c; cbn [feed app length]; [by rewrite Z.add_0_r|].
  rewrite IH. f_equal. lia.
Qed.

Lemma feed_msb l : ∀ k c, feed add_msb k c l = match l with [] => c | _ => u32 (c * 2 ^ Z.of_nat (length l) + msb_number l) end.
Proof.
  induction l as [|b l IH]; intros k c; [done|]. cbn [feed]. rewrite IH.
  assert (E : msb_number (b :: l) = Z.b2z b * 2 ^ Z.of_nat (length l) + msb_number l).
  { unfold msb_number at 1. cbn [fold_left]. rewrite msb_number_acc. lia. }
  rewrite E. cbn [length]. rewrite Nat2Z.inj_succ, Z.pow_succ_r by lia. unfold add_msb.
  destruct l as [|b' l]; [f_equal; change (2 ^ Z.of_nat (length [])) with 1; change (msb_number []) with 0; lia|].
  set (P := 2 ^ Z.of_nat (length (b' :: l))). unfold u32.
  rewrite <- Zplus_mod_idemp_l, Zmult_mod_idemp_l, Zplus_mod_idemp_l. f_equal. lia.
Qed.

Lemma add_lsb_eq k c b : 0 ≤ c < 256 → add_lsb k c b = c / 2 + Z.b2z b * 128 ∧ 0 ≤ c / 2 + Z.b2z b * 128 < 256.
Proof.
  intros Hc. unfold add_lsb. rewrite Z.shiftr_div_pow2, Z.shiftl_mul_pow2 by lia.
  change (2 ^ 1) with 2. change (2 ^ 7) with 128.
  assert (0 ≤ c / 2 + Z.b2z b * 128 < 256) by (destruct b; cbn [Z.b2z]; Z.div_mod_to_equations; lia).
  by rewrite u32_small by lia.
Qed.

Lemma feed_lsb l : ∀ k c, 0 ≤ c < 256 → (length l ≤ 8)%nat →
  feed add_lsb k c l = c / 2 ^ Z.of_nat (length l) + lsb_number l * 2 ^ (8 - Z.of_nat (length l)) ∧
  0 ≤ feed add_lsb k c l < 256.
Proof.
  induction l as [|b l IH]; intros k c Hc Hl.
  { cbn. rewrite Z.div_1_r. lia. }
  cbn [feed length] in *. destruct (add_lsb_eq k c b Hc) as [-> Hc'].
  destruct (IH (k + 1) _ Hc' ltac:(lia)) as [E R].
  split; [rewrite E; clear E R|done].
  cbn [lsb_number foldr]. fold (lsb_number l).
  rewrite Nat2Z.inj_succ, Z.pow_succ_r by lia.
  replace (8 - Z.of_nat (length l)) with (1 + (8 - Z.succ (Z.of_nat (length l)))) by lia.
  rewrite (Z.pow_add_r 2 1) by lia. change (2 ^ 1) with 2.
  set (e := 8 - Z.succ (Z.of_nat (length l))). assert (He : 0 ≤ e) by lia.
  assert (E128 : 128 = 2 ^ e * 2 ^ Z.of_nat (length l)) by (rewrite <- Z.pow_add_r by lia; unfold e; by replace (_ + _) with 7 by lia).
  rewrite E128 at 1. rewrite Z.mul_assoc, Z.div_add, Z.div_div by lia. lia.
Qed.

Lemma feed_kth l : ∀ k c, 0 ≤ k → 0 ≤ c < 2 ^ k → k + Z.of_nat (length l) ≤ 8 →
  feed add_kth k c l = c + lsb_number l * 2 ^ k.
Proof.
  induction l as [|b l IH]; intros k c Hk Hc Hl; cbn [feed length] in *; [cbn; lia|].
  assert (P : 2 ^ (k + 1) = 2 * 2 ^ k) by (rewrite Z.pow_add_r by lia; lia).
  assert (2 ^ (k + 1) ≤ 2 ^ 8) by (apply Z.pow_le_mono_r; lia).
  assert (0 ≤ c + Z.b2z b * 2 ^ k < 2 ^ (k + 1)) by (destruct b; cbn [Z.b2z]; lia).
  assert (E : add_kth k c b = c + Z.b2z b * 2 ^ k) by (unfold add_kth; rewrite Z.shiftl_mul_pow2 by lia; by apply u32_small; lia).
  rewrite E, IH by lia. cbn [lsb_number foldr]. fold (lsb_number l). rewrite P. lia.
Qed.

(** ** Payload *)

(** The bits [a] to [a + n - 1] of a signal whose [k]-th level is [lv k]. *)
Definition signal_bits (tr : Z) (lv : Z → Z) (a : Z) (n : nat) : list bool :=
  map (λ k, tr <=? lv (a + Z.of_nat k)) (seq 0 n).

Lemma length_signal_bits tr lv a n : length (signal_bits tr lv a n) = n.
Proof. unfold signal_bits. by rewrite length_map, length_seq. Qed.

Lemma signal_bits_S tr lv a n : signal_bits tr lv a (S n) = (tr <=? lv a) :: signal_bits tr lv (a + 1) n.
Proof.
  unfold signal_bits. cbn [seq map]. rewrite Z.add_0_r, <- seq_shift, map_map. f_equal.
  apply map_ext. intros k. do 2 f_equal. lia.
Qed.

Lemma signal_bits_app tr lv a n m :
  signal_bits tr lv a (n + m) = signal_bits tr lv a n ++ signal_bits tr lv (a + Z.of_nat n) m.
Proof.
  revert a. induction n as [|n IH]; intros a; [by cbn; rewrite Z.add_0_r|].
  cbn [Nat.add app]. rewrite !signal_bits_S, IH. cbn [app]. do 3 f_equal. lia.
Qed.

Section Payload.
(** A sampler that sees [lv k] at the position of the [k]-th bit, for [total] bits. *)
Context (sample : sampler) (tr step phase total : Z) (lv : Z → Z).
Context (Hs : ∀ kind k pts, 0 ≤ k < total → sample kind (phase + k * step) pts = Some (lv k, pts)).
Context (Hstep : 0 ≤ step) (Hphase : 0 ≤ phase) (Hlast : phase + total * step < 2 ^ 32).

Lemma sample_bits_val kind add n : ∀ k a c pts, 0 ≤ a → a + Z.of_nat n ≤ total →
  sample_bits sample kind add tr step n k (phase + a * step) c pts =
    Some (phase + (a + Z.of_nat n) * step, feed add k c (signal_bits tr lv a n), pts).
Proof.
  induction n as [|n IH]; intros k a c pts Ha Hn; cbn [sample_bits].
  { by rewrite Z.add_0_r. }
  rewrite Hs by lia. cbn [mbind option_bind]. rewrite u32_small by nia.
  replace (phase + a * step + step) with (phase + (a + 1) * step) by lia.
  rewrite IH by lia. rewrite signal_bits_S. cbn [feed]. do 3 f_equal. lia.
Qed.

(** A routine for octets turns eight bits into their number, whatever was in [c]. *)
Definition octet_routine (P : Z → Prop) (start : Z → Z) (add : Z → Z → bool → Z) (num : list bool → Z) : Prop :=
  ∀ c l, P c → length l = 8%nat → P (feed add 0 (start c) l) ∧ u8 (feed add 0 (start c) l) = num l.

Lemma octets_val P start add num n : octet_routine P start add num → ∀ a c pre mid post pts, P c →
  length mid = n → 0 ≤ a → a + 8 * Z.of_nat n ≤ total →
  octets sample start add tr step n (phase + a * step) c (pre ++ mid ++ post) (Z.of_nat (length pre)) pts =
    Some (pre ++ pack num n (signal_bits tr lv a (8 * n)) ++ post, pts).
Proof.
  intros Hr. induction n as [|n IH]; intros a c pre mid post pts Hc Hm Ha Hn; cbn [octets].
  { by destruct mid. }
  destruct mid as [|x mid]; [done|]. rewrite sample_bits_val by lia. cbn [mbind option_bind].
  destruct (Hr c (signal_bits tr lv a 8) Hc (length_signal_bits _ _ _ _)) as [Hc' E]. rewrite E.
  cbn [app]. rewrite wr_app by done. cbn [mbind option_bind].
  set (y := num (signal_bits tr lv a 8)).
  replace (pre ++ y :: mid ++ post) with ((pre ++ [y]) ++ mid ++ post) by (by rewrite <- app_assoc).
  replace (Z.of_nat (length pre) + 1) with (Z.of_nat (length (pre ++ [y]))) by (rewrite length_app; cbn; lia).
  change (Z.of_nat 8) with 8. rewrite (IH (a + 8)); [|done|by injection Hm|lia|lia].
  replace (8 * S n)%nat with (8 + 8 * n)%nat by lia. rewrite signal_bits_app.
  cbn [pack]. rewrite take_app_length', drop_app_length' by (by rewrite length_signal_bits).
  rewrite <- app_assoc. done.
Qed.

(** Bits that do not complete an octet. *)
Lemma bitwise_part add n m : (∀ k k' c b, add k c b = add k' c b) → ∀ j a c buffer o pts, 0 ≤ j →
  j mod 8 + Z.of_nat n ≤ 7 → 0 ≤ a → a + Z.of_nat n ≤ total →
  bitwise sample add tr step (n + m) j (phase + a * step) c buffer o pts =
    bitwise sample add tr step m (j + Z.of_nat n) (phase + (a + Z.of_nat n) * step)
      (feed add 0 c (signal_bits tr lv a n)) buffer o pts.
Proof.
  intros Hadd. induction n as [|n IH]; intros j a c buffer o pts Hj H7 Ha Hn; cbn [bitwise Nat.add].
  { by rewrite !Z.add_0_r. }
  rewrite sample_bits_val by lia. cbn [mbind option_bind].
  replace (j .& 7) with (j mod 8) by (change 7 with (Z.ones 3); by rewrite Z.land_ones).
  rewrite (proj2 (Z.eqb_neq _ _)) by lia. change (Z.of_nat 1) with 1.
  pose proof (Z.mod_pos_bound j 8 ltac:(lia)).
  rewrite (IH (j + 1) (a + 1)); [|lia|rewrite <- Zplus_mod_idemp_l, (Z.mod_small (j mod 8 + 1)); lia|lia|lia].
  rewrite !signal_bits_S. cbn [feed signal_bits map seq]. f_equal; try lia.
  rewrite (Hadd j 0). generalize (add 0 c (tr <=? lv a)). intros x.
  enough (G : ∀ l k k' x, feed add k x l = feed add k' x l) by apply G.
  induction l as [|b l IHl]; intros k k' y; cbn [feed]; [done|]. rewrite (Hadd k k'). apply IHl.
Qed.

Lemma bitwise_octet add m : (∀ k k' c b, add k c b = add k' c b) → ∀ j a c pre x post pts, 0 ≤ j → j mod 8 = 0 →
  0 ≤ a → a + 8 ≤ total →
  bitwise sample add tr step (8 + m) j (phase + a * step) c (pre ++ x :: post) (Z.of_nat (length pre)) pts =
    bitwise sample add tr step m (j + 8) (phase + (a + 8) * step) (feed add 0 c (signal_bits tr lv a 8))
      (pre ++ u8 (feed add 0 c (signal_bits tr lv a 8)) :: post) (Z.of_nat (length pre) + 1) pts.
Proof.
  intros Hadd j a c pre x post pts Hj H0 Ha Hn.
  change (8 + m)%nat with (7 + S m)%nat. rewrite bitwise_part by (done || lia). cbn [bitwise].
  rewrite sample_bits_val by lia. cbn [mbind option_bind].
  replace ((j + Z.of_nat 7) .& 7) with ((j + Z.of_nat 7) mod 8) by (change 7 with (Z.ones 3); by rewrite Z.land_ones).
  rewrite <- Zplus_mod_idemp_l, H0. change ((0 + Z.of_nat 7) mod 8 =? 7) with true. cbn iota.
  change 8%nat with (7 + 1)%nat. rewrite (signal_bits_app tr lv a 7 1), feed_app, length_signal_bits.
  replace (feed add (j + Z.of_nat 7) (feed add 0 c (signal_bits tr lv a 7)) (signal_bits tr lv (a + Z.of_nat 7) 1))
    with (feed add (0 + Z.of_nat 7) (feed add 0 c (signal_bits tr lv a 7)) (signal_bits tr lv (a + Z.of_nat 7) 1))
    by (cbn [signal_bits seq map feed]; apply Hadd).
  rewrite wr_app by done. cbn [mbind option_bind]. f_equal; lia.
Qed.

Lemma bitwise_val P add num m r : octet_routine P id add num → (∀ k k' c b, add k c b = add k' c b) → (r < 8)%nat →
  ∀ j a c pre mid post pts, P c → length mid = m → 0 ≤ j → j mod 8 = 0 → 0 ≤ a →
  a + 8 * Z.of_nat m + Z.of_nat r ≤ total →
  ∃ c', P c' ∧ bitwise sample add tr step (8 * m + r) j (phase + a * step) c (pre ++ mid ++ post) (Z.of_nat (length pre)) pts =
    Some (feed add 0 c' (signal_bits tr lv (a + 8 * Z.of_nat m) r),
      pre ++ pack num m (signal_bits tr lv a (8 * m)) ++ post, Z.of_nat (length pre) + Z.of_nat m, pts).
Proof.
  intros Hr Hadd Hr8. induction m as [|m IH]; intros j a c pre mid post pts Hc Hm Hj H0 Ha Hn.
  { destruct mid; [|done]. exists c. split; [done|]. rewrite <- (Nat.add_0_r (8 * 0 + r)).
    rewrite bitwise_part by (done || lia). cbn [bitwise pack app].
    change (Z.of_nat 0) with 0. change (8 * 0) with 0. by rewrite !Z.add_0_r. }
  destruct mid as [|x mid]; [done|]. cbn [app].
  replace (8 * S m + r)%nat with (8 + (8 * m + r))%nat by lia. rewrite bitwise_octet by (done || lia).
  destruct (Hr c (signal_bits tr lv a 8) Hc (length_signal_bits _ _ _ _)) as [Hc' E]. cbn [id] in *. rewrite E.
  set (y := num (signal_bits tr lv a 8)).
  replace (pre ++ y :: mid ++ post) with ((pre ++ [y]) ++ mid ++ post) by (by rewrite <- app_assoc).
  replace (Z.of_nat (length pre) + 1) with (Z.of_nat (length (pre ++ [y]))) by (rewrite length_app; cbn; lia).
  destruct (IH (j + 8) (a + 8) _ (pre ++ [y]) mid post pts Hc') as (c' & Pc' & ->);
    [by injection Hm|lia|rewrite <- Zplus_mod_idemp_l, H0; done|lia|lia|].
  exists c'. split; [done|]. replace (8 * S m)%nat with (8 + 8 * m)%nat by lia. rewrite signal_bits_app.
  cbn [pack]. rewrite take_app_length', drop_app_length' by (by rewrite length_signal_bits).
  rewrite <- app_assoc, length_app. cbn [length app].
  replace (a + 8 + 8 * Z.of_nat m) with (a + 8 * Z.of_nat (S m)) by lia. do 3 f_equal. lia.
Qed.
End Payload.

Lemma lsb_routine : octet_routine (λ c, 0 ≤ c < 256) id add_lsb lsb_number.
Proof.
  intros c l Hc Hl. cbn [id]. destruct (feed_lsb l 0 c Hc ltac:(lia)) as [E R]. split; [done|].
  rewrite E, Hl. change (2 ^ Z.of_nat 8) with 256. rewrite Z.div_small by done. change (2 ^ (8 - Z.of_nat 8)) with 1.
  pose proof (lsb_number_range l) as L. rewrite Hl in L. unfold u8. rewrite Z.mod_small; lia.
Qed.

Lemma msb_routine : octet_routine (λ _, True) id add_msb msb_number.
Proof.
  intros c l _ Hl. split; [done|]. cbn [id]. rewrite feed_msb. pose proof (msb_number_range l) as L.
  destruct l as [|b l]; [done|]. rewrite Hl in *. change (2 ^ Z.of_nat 8) with 256 in *. unfold u8, u32.
  change (2 ^ 32) with (256 * 2 ^ 24). rewrite Z.rem_mul_r, (Z.mul_comm 256 (_ mod _)), Z.mod_add by lia.
  rewrite Z.mod_mod, Z.add_comm, Z.mod_add by lia. by apply Z.mod_small.
Qed.

Lemma kth_routine : octet_routine (λ _, True) (λ _, 0) add_kth lsb_number.
Proof.
  intros c l _ Hl. split; [done|]. rewrite feed_kth by (cbn; lia). rewrite Z.mul_1_r, Z.add_0_l.
  pose proof (lsb_number_range l) as L. rewrite Hl in L. by apply Z.mod_small.
Qed.

Lemma pack_snoc num n : ∀ l1 l2, length l1 = (8 * n)%nat → (length l2 ≤ 8)%nat →
  pack num (n + 1) (l1 ++ l2) = pack num n l1 ++ [num l2].
Proof.
  induction n as [|n IH]; intros l1 l2 H1 H2; cbn [Nat.add pack].
  - destruct l1; [|done]. cbn [app]. by rewrite take_ge by lia.
  - rewrite take_app_le, drop_app_le by lia. cbn [app]. f_equal. apply IH; [rewrite length_drop|]; lia.
Qed.

(** The last, incomplete octet. *)
Lemma lsb_finish c l n : 0 ≤ c < 256 → (length l < 8)%nat → n mod 8 = Z.of_nat (length l) → (0 < length l)%nat →
  u8 (feed add_lsb 0 c l ≫ ((8 - n) .& 7)) = lsb_number l.
Proof.
  intros Hc Hl Hn H0. destruct (feed_lsb l 0 c Hc ltac:(lia)) as [E _]. rewrite E.
  replace ((8 - n) .& 7) with (8 - Z.of_nat (length l)).
  2: { change 7 with (Z.ones 3). rewrite Z.land_ones by lia. change (2 ^ 3) with 8. Z.div_mod_to_equations. lia. }
  set (r := Z.of_nat (length l)) in *. rewrite Z.shiftr_div_pow2, Z.div_add, Z.div_div, <- Z.pow_add_r by lia.
  replace (r + (8 - r)) with 8 by lia. change (2 ^ 8) with 256. rewrite Z.div_small by done.
  pose proof (lsb_number_range l) as L. fold r in L. assert (2 ^ r ≤ 2 ^ 8) by (apply Z.pow_le_mono_r; lia).
  unfold u8. rewrite Z.mod_small; lia.
Qed.

Lemma msb_finish c l n : (length l < 8)%nat → n mod 8 = Z.of_nat (length l) → (0 < length l)%nat →
  u8 (feed add_msb 0 c l .& ((1 ≪ (n .& 7)) - 1)) = msb_number l.
Proof.
  intros Hl Hn H0. rewrite feed_msb. pose proof (msb_number_range l) as L.
  replace (n .& 7) with (Z.of_nat (length l)) by (change 7 with (Z.ones 3); by rewrite Z.land_ones).
  set (r := Z.of_nat (length l)) in *. rewrite Z.shiftl_mul_pow2, Z.mul_1_l by lia.
  replace (2 ^ r - 1) with (Z.ones r) by (rewrite Z.ones_equiv; lia). rewrite Z.land_ones by lia.
  destruct l as [|b l]; [cbn in H0; lia|]. assert (2 ^ r ≤ 2 ^ 8) by (apply Z.pow_le_mono_r; lia).
  assert (P : 0 < 2 ^ r) by lia.
  unfold u8, u32. replace (2 ^ 32) with (2 ^ r * 2 ^ (32 - r)) by (rewrite <- Z.pow_add_r by lia; f_equal; lia).
  assert (0 < 2 ^ (32 - r)) by (apply Z.pow_pos_nonneg; lia).
  rewrite Z.rem_mul_r, (Z.mul_comm (2 ^ r) (_ mod _)), Z.mod_add, Z.mod_mod by lia.
  rewrite Z.add_comm, Z.mod_add by lia. rewrite (Z.mod_small _ (2 ^ r)) by lia. rewrite Z.mod_small; lia.
Qed.

(** ** A line *)

(** What a line delivers: the bits of the payload in octets, the least significant bit first
    with [endian] 1 and 3, the most significant one first with 0 and 2. *)
Definition delivered (bs : vbi3_bit_slicer) (bits : list bool) : list Z :=
  pack (if Z.odd (bs_endian bs) then lsb_number else msb_number) (Z.to_nat (octets_stored bs)) bits.

(** The bits of framing code and payload when the levels are [lv]. *)
Definition frc_bits (bs : vbi3_bit_slicer) (tr : Z) (lv : Z → Z) : list bool :=
  signal_bits tr lv 0 (Z.to_nat (bs_frc_bits bs)).
Definition data_bits (bs : vbi3_bit_slicer) (tr : Z) (lv : Z → Z) : list bool :=
  signal_bits tr lv (bs_frc_bits bs) (Z.to_nat (payload_bits bs)).

(** The buffer after a line. *)
Definition payload_stored (bs : vbi3_bit_slicer) (tr : Z) (lv : Z → Z) (buffer : list Z) : list Z :=
  delivered bs (data_bits bs tr lv) ++ drop (Z.to_nat (octets_stored bs)) buffer.

(** [lv k] is the level at the position of the [k]-th bit of framing code and payload. *)
Definition sees (bs : vbi3_bit_slicer) (sample : sampler) (lv : Z → Z) : Prop :=
  ∀ kind k pts, 0 ≤ k < bs_frc_bits bs + payload_bits bs →
    sample kind (bs_phase_shift bs + k * bs_step bs) pts = Some (lv k, pts).

Lemma split_buffer (buffer : list Z) n : 0 ≤ n ≤ Z.of_nat (length buffer) →
  buffer = [] ++ take (Z.to_nat n) buffer ++ drop (Z.to_nat n) buffer ∧ length (take (Z.to_nat n) buffer) = Z.to_nat n.
Proof. intros. cbn [app]. rewrite take_drop, length_take. split; [done|lia]. Qed.

Section Line.
Context (bs : vbi3_bit_slicer) (sample : sampler) (tr : Z) (lv : Z → Z).
Context (Hok : payload_ok bs) (Hs : sees bs sample lv).

Lemma positions_fit : bs_phase_shift bs + (bs_frc_bits bs + payload_bits bs) * bs_step bs < 2 ^ 32.
Proof. pose proof (po_last bs Hok). unfold last_position in *. lia. Qed.

Lemma frc_val pts : bs_frc_bits bs ≤ 32 →
  sample_bits sample VBI3_FRC_BIT add_msb tr (bs_step bs) (Z.to_nat (bs_frc_bits bs)) 0 (bs_phase_shift bs) 0 pts =
    Some (bs_phase_shift bs + bs_frc_bits bs * bs_step bs, msb_number (frc_bits bs tr lv), pts).
Proof.
  intros H32. pose proof positions_fit. pose proof (po_frc bs Hok). pose proof (po_payload bs Hok).
  assert (0 ≤ payload_bits bs) by (unfold payload_bits; destruct (2 <=? _); lia).
  pose proof (sample_bits_val sample tr (bs_step bs) (bs_phase_shift bs) _ lv Hs (po_step bs Hok) (po_phase bs Hok)
    ltac:(done) VBI3_FRC_BIT add_msb (Z.to_nat (bs_frc_bits bs)) 0 0 0 pts ltac:(lia) ltac:(lia)) as E.
  rewrite Z.mul_0_l, Z.add_0_r, Z.add_0_l, Z2Nat.id in E by lia. rewrite E. do 3 f_equal.
  fold (frc_bits bs tr lv). rewrite feed_msb, Z.mul_0_l, Z.add_0_l.
  pose proof (msb_number_range (frc_bits bs tr lv)) as R.
  assert (L : length (frc_bits bs tr lv) = Z.to_nat (bs_frc_bits bs)) by apply length_signal_bits.
  destruct (frc_bits bs tr lv) as [|b l]; [done|]. apply u32_small.
  assert (2 ^ Z.of_nat (length (b :: l)) ≤ 2 ^ 32) by (apply Z.pow_le_mono_r; lia). lia.
Qed.

Lemma octet_routines_val P start add num c buffer pts : octet_routine P start add num → bs_endian bs < 2 → P c →
  num = (if Z.odd (bs_endian bs) then lsb_number else msb_number) → octets_stored bs ≤ Z.of_nat (length buffer) →
  octets sample start add tr (bs_step bs) (Z.to_nat (bs_payload bs)) (bs_phase_shift bs + bs_frc_bits bs * bs_step bs)
    c buffer 0 pts = Some (payload_stored bs tr lv buffer, pts).
Proof.
  intros Hr He Hc Hnum Hb. pose proof positions_fit. pose proof (po_frc bs Hok). pose proof (po_payload bs Hok).
  pose proof (octetwise_stored bs He) as Es. unfold payload_stored, delivered, data_bits. rewrite Es in *.
  assert (Eb : payload_bits bs = 8 * bs_payload bs) by (unfold payload_bits; by rewrite (proj2 (Z.leb_gt _ _) He)).
  destruct (split_buffer buffer (bs_payload bs) ltac:(lia)) as [E L]. rewrite E at 1. change 0 with (Z.of_nat (@length Z [])).
  erewrite (octets_val sample tr (bs_step bs) (bs_phase_shift bs) _ lv Hs (po_step bs Hok) (po_phase bs Hok) ltac:(done) P);
    [|done|done|done|lia|rewrite Eb, Z2Nat.id by lia; lia].
  cbn [app]. rewrite <- Hnum, Eb, Z2Nat.inj_mul by lia. done.
Qed.

Lemma bit_routines_val P add num c buffer pts finish : octet_routine P id add num →
  (∀ k k' c b, add k c b = add k' c b) → 2 ≤ bs_endian bs → P c →
  num = (if Z.odd (bs_endian bs) then lsb_number else msb_number) → octets_stored bs ≤ Z.of_nat (length buffer) →
  (∀ c l, P c → (length l < 8)%nat → bs_payload bs mod 8 = Z.of_nat (length l) → (0 < length l)%nat →
    u8 (finish (feed add 0 c l)) = num l) →
  ('(c, buffer, o, pts) ← bitwise sample add tr (bs_step bs) (Z.to_nat (bs_payload bs)) 0
      (bs_phase_shift bs + bs_frc_bits bs * bs_step bs) c buffer 0 pts;
   buffer ← wr buffer o (u8 (finish c)); Some (buffer, pts)) = Some (payload_stored bs tr lv buffer, pts).
Proof.
  intros Hr Hadd He Hc Hnum Hb Hfin. pose proof positions_fit. pose proof (po_frc bs Hok). pose proof (po_payload bs Hok).
  pose proof (bitwise_stored bs Hok He) as Es. unfold payload_stored, delivered, data_bits. rewrite Es in *.
  assert (Eb : payload_bits bs = bs_payload bs) by (unfold payload_bits; by rewrite (proj2 (Z.leb_le _ _) He)).
  assert (Hm8 : bs_payload bs mod 8 ≠ 0) by (destruct (po_endian bs Hok) as [?|[_ ?]]; [lia|done]).
  set (m := Z.to_nat (bs_payload bs / 8)). set (r := Z.to_nat (bs_payload bs mod 8)).
  pose proof (Z.div_mod (bs_payload bs) 8 ltac:(lia)). pose proof (Z.mod_pos_bound (bs_payload bs) 8 ltac:(lia)).
  pose proof (Z.div_pos (bs_payload bs) 8 ltac:(lia) ltac:(lia)).
  assert (En : Z.to_nat (bs_payload bs) = (8 * m + r)%nat) by lia.
  destruct (split_buffer buffer (bs_payload bs / 8 + 1) ltac:(lia)) as [E L].
  rewrite E at 1. set (post := drop (Z.to_nat (bs_payload bs / 8 + 1)) buffer) in *.
  set (b := take (Z.to_nat (bs_payload bs / 8 + 1)) buffer) in *. cbn [app].
  rewrite <- (take_drop m b) at 1. assert (L1 : length (take m b) = m) by (rewrite length_take; lia).
  assert (L2 : length (drop m b) = 1%nat) by (rewrite length_drop; lia).
  destruct (drop m b) as [|x [|]]; try done. rewrite En, <- app_assoc. cbn [app].
  destruct (bitwise_val sample tr (bs_step bs) (bs_phase_shift bs) _ lv Hs (po_step bs Hok) (po_phase bs Hok) ltac:(done)
    P add num m r Hr Hadd ltac:(lia) 0 (bs_frc_bits bs) c [] (take m b) (x :: post) pts Hc L1 ltac:(lia) ltac:(done)
    ltac:(lia) ltac:(lia)) as (c' & Pc' & X).
  cbn [app length] in X. change (Z.of_nat 0) with 0 in X. rewrite X, Z.add_0_l. cbn [mbind option_bind].
  assert (Lp : length (pack num m (signal_bits tr lv (bs_frc_bits bs) (8 * m))) = m).
  { generalize (signal_bits tr lv (bs_frc_bits bs) (8 * m)). clear. induction m; intros l; cbn; [done|by rewrite IHm]. }
  rewrite wr_app by (by rewrite Lp). cbn [mbind option_bind].
  rewrite Hfin by (try done; rewrite length_signal_bits; lia). do 2 f_equal.
  rewrite <- Hnum, Eb, En, signal_bits_app. replace (Z.to_nat (bs_payload bs / 8 + 1)) with (m + 1)%nat by lia.
  rewrite pack_snoc by (rewrite length_signal_bits; lia). rewrite <- app_assoc. cbn [app].
  by replace (Z.of_nat (8 * m)) with (8 * Z.of_nat m) by lia.
Qed.

Lemma PAYLOAD_val buffer pts : bs_frc_bits bs ≤ 32 → (bs_endian bs = 3 → 0 ≤ bs_frc bs < 256) →
  octets_stored bs ≤ Z.of_nat (length buffer) →
  PAYLOAD bs sample tr buffer pts =
    if msb_number (frc_bits bs tr lv) =? bs_frc bs then Some (true, payload_stored bs tr lv buffer, pts)
    else Some (false, buffer, pts).
Proof.
  intros H32 H3 Hb. unfold PAYLOAD. rewrite frc_val by done. cbn [mbind option_bind].
  destruct (Z.eqb_spec (msb_number (frc_bits bs tr lv)) (bs_frc bs)) as [->|]; [cbn [negb]|done].
  pose proof (po_endian bs Hok).
  destruct (Z.eqb_spec (bs_endian bs) 3) as [E3|].
  { unfold bitwise_lsb. rewrite (bit_routines_val _ _ _ _ _ _ (λ c, c ≫ ((8 - bs_payload bs) .& 7)) lsb_routine);
      try done; try lia; [by rewrite E3|]. intros c l Hc Hl Hr Hz. by apply lsb_finish. }
  destruct (Z.eqb_spec (bs_endian bs) 2) as [E2|].
  { unfold bitwise_msb. rewrite (bit_routines_val _ _ _ _ _ _ (λ c, c .& ((1 ≪ (bs_payload bs .& 7)) - 1)) msb_routine);
      try done; try lia; [by rewrite E2|]. intros c l _ Hl Hr Hz. by apply msb_finish. }
  destruct (Z.eqb_spec (bs_endian bs) 1) as [E1|].
  - rewrite (octet_routines_val _ _ _ _ _ _ _ kth_routine); try done; try lia; by rewrite E1.
  - assert (E0 : bs_endian bs = 0) by lia.
    rewrite (octet_routines_val _ _ _ _ _ _ _ msb_routine); try done; try lia; by rewrite E0.
Qed.

Lemma lp_payload_val buffer pts : bs_frc_bits bs ≤ 32 → octets_stored bs ≤ Z.of_nat (length buffer) →
  lp_payload bs sample tr buffer pts =
    if msb_number (frc_bits bs tr lv) =? bs_frc bs then Some (true, payload_stored bs tr lv buffer, pts)
    else Some (false, buffer, pts).
Proof.
  intros H32 Hb. unfold lp_payload. rewrite frc_val by done. cbn [mbind option_bind].
  destruct (Z.eqb_spec (msb_number (frc_bits bs tr lv)) (bs_frc bs)) as [E|]; [cbn [negb]|done].
  pose proof (po_endian bs Hok). pose proof (po_payload bs Hok).
  unfold do_while_octets. rewrite (proj2 (Z.eqb_neq (bs_payload bs) 0)) by lia.
  destruct (Z.eqb_spec (bs_endian bs) 3) as [E3|].
  { unfold bitwise_lsb. rewrite (bit_routines_val _ _ _ _ _ _ (λ c, c ≫ ((8 - bs_payload bs) .& 7)) lsb_routine);
      try done; try lia; [by rewrite E3|]. intros c l Hc Hl Hr Hz. by apply lsb_finish. }
  destruct (Z.eqb_spec (bs_endian bs) 2) as [E2|].
  { unfold bitwise_msb. rewrite (bit_routines_val _ _ _ _ _ _ (λ c, c .& ((1 ≪ (bs_payload bs .& 7)) - 1)) msb_routine);
      try done; try lia; [by rewrite E2|]. intros c l _ Hl Hr Hz. by apply msb_finish. }
  destruct (Z.eqb_spec (bs_endian bs) 1) as [E1|].
  - rewrite (octet_routines_val _ _ _ _ _ _ _ lsb_routine); try done; try lia; by rewrite E1.
  - assert (E0 : bs_endian bs = 0) by lia.
    rewrite (octet_routines_val _ _ _ _ _ _ _ msb_routine); try done; try lia; by rewrite E0.
Qed.
End Line.

(** The slicer found the clock run-in of the line: the bits are sampled with [sample] and
    compared with [tr] then, and the threshold was adapted to [t]. *)
Inductive synchronized (bs : vbi3_bit_slicer) (raw : list Z) : sampler → Z → Z → Prop :=
| sync_core tm p tr t pts :
    bit_slicer_template bs = Some tm →
    core_loop bs tm 4 None raw (S (length raw)) (bs_cri_samples bs) (bs_skip bs) (bs_thresh bs)
      (CriState 0 0 false 0 []) = Some (CriFound p tr t, pts) →
    synchronized bs raw (SAMPLE bs tm raw None p (u32 (tr * 256))) (u32 (tr * 256)) t
| sync_low_pass p tr t s pts :
    bs_func bs = low_pass_bit_slicer_Y8 →
    lp_sum bs raw (bs_skip bs) = Some s →
    lp_loop bs None raw (S (length raw)) (bs_cri_samples bs) (bs_skip bs) 0 (2 ^ 32 - 1) false s (bs_thresh bs) []
      = Some (CriFound p tr t, pts) →
    synchronized bs raw (LP_SAMPLE bs raw None p tr) tr t.

Lemma run_func_template bs tm buffer raw : bit_slicer_template bs = Some tm → run_func bs None buffer raw = CORE bs tm None buffer raw.
Proof. intros T. unfold run_func. rewrite T. unfold bit_slicer_template in T. by destruct (bs_func bs). Qed.

(** C18: once the clock run-in is found, a line is accepted exactly when the bits after it are
    the framing code, and then the buffer begins with the bits of the payload, those whose
    levels reach the threshold, in octets of the order the modulation has; the rest of the
    buffer is kept. The bit routine for the least significant bit first needs a framing code
    of at most eight bits. *)
Theorem line_delivered (bs : vbi3_bit_slicer) (buffer raw : list Z) (buffer_size : Z) sample tr t (lv : Z → Z) :
  payload_ok bs → bs_frc_bits bs ≤ 32 →
  (bs_func bs ≠ low_pass_bit_slicer_Y8 → bs_endian bs = 3 → 0 ≤ bs_frc bs < 256) →
  bs_payload bs ≤ u32 (buffer_size * 8) → octets_stored bs ≤ Z.of_nat (length buffer) →
  synchronized bs raw sample tr t → sees bs sample lv →
  ∃ r, vbi3_bit_slicer_slice bs buffer buffer_size raw = Some r ∧ r_bs r = set_thresh t bs ∧
    r_ok r = (msb_number (frc_bits bs tr lv) =? bs_frc bs) ∧
    r_buffer r = if r_ok r then payload_stored bs tr lv buffer else buffer.
Proof.
  intros Hok H32 H3 Hsize Hb Hsync Hs. unfold vbi3_bit_slicer_slice.
  rewrite (proj2 (Z.ltb_ge _ _)) by lia. destruct Hsync as [tm p tr t pts T C|p tr t s pts F E C].
  - rewrite (run_func_template bs tm) by done. unfold CORE. rewrite C. cbn [mbind option_bind].
    rewrite (PAYLOAD_val bs _ _ lv Hok Hs) by (try done; apply H3; intros F; unfold bit_slicer_template in T; by rewrite F in T).
    destruct (msb_number _ =? _); by eexists.
  - unfold run_func. rewrite F. unfold low_pass. rewrite E. cbn [mbind option_bind]. rewrite C. cbn [mbind option_bind].
    rewrite (lp_payload_val bs _ _ lv Hok Hs) by done. destruct (msb_number _ =? _); by eexists.
Qed.

(** ** Examples *)

(** A signal of [bits], [period] samples each, after [offset] samples of black. *)
Fixpoint nrz (period : nat) (bits : list bool) : list Z :=
  match bits with [] => [] | b :: bits => repeat (if b : bool then 200 else 16) period ++ nrz period bits end.
Definition nrz_line (offset period after : nat) (bits : list bool) : list Z :=
  repeat 16 offset ++ nrz period bits ++ repeat 16 after.

Fixpoint bits_lsb (n : nat) (x : Z) : list bool :=
  match n with O => [] | S n => Z.odd x :: bits_lsb n (x / 2) end.

(** A Teletext packet, with five samples per bit: the clock run-in, the framing code and 42
    octets. *)
Definition teletext_par : service_par :=
  ServicePar (0xAAAAE4 ≫ 6) (0xFFFF ≫ 6) 18 1 (2 ^ 32 - 1) (0xE4 .& 63) 6 336 1 VBI3_MODULATION_NRZ_LSB.
Definition teletext_slicer : vbi3_bit_slicer :=
  match vbi3_bit_slicer_set_params new_slicer VBI_PIXFMT_YUV420 5 0 1900 teletext_par with
  | Some (_, bs) => bs
  | None => bs_cleared
  end.
Definition teletext_octets : list Z := map (λ k, (37 * Z.of_nat k + 2) mod 256) (seq 0 42).
Definition teletext_line : list Z :=
  nrz_line 60 5 70 (bits_lsb 16 0x5555 ++ bits_lsb 8 0x27 ++ concat (map (bits_lsb 8) teletext_octets)).

Lemma teletext_line_sliced :
  (λ r, (r_ok r, take 42 (r_buffer r))) <$> vbi3_bit_slicer_slice teletext_slicer (repeat 0 56) 56 teletext_line =
    Some (true, teletext_octets).
Proof. vm_compute. reflexivity. Qed.

(** A Closed Caption line: clock run-in, start bit and two octets. *)
Definition caption_line : list Z :=
  nrz_line 60 13 0 [true; false; true; false; true; false; true; false; false; false] ++
  nrz 27 (true :: bits_lsb 8 0x94 ++ bits_lsb 8 0x2C) ++ repeat 16 200.

(** A line with Closed Caption, sliced with room for 40 points. *)
Definition caption_points : option slice_result :=
  vbi3_bit_slicer_slice_with_points caption_slicer (repeat 0 56) 56 40 caption_line.

Lemma points_do_not_matter_witness : ∃ r r', caption_points = Some r ∧
  vbi3_bit_slicer_slice caption_slicer (repeat 0 56) 56 caption_line = Some r' ∧ same_slice r r'.
Proof.
  destruct caption_points as [r|] eqn:E; [|vm_compute in E; discriminate].
  destruct (points_do_not_matter caption_slicer (repeat 0 56) caption_line 56 40 r) as (r' & E' & S).
  - vm_compute. congruence.
  - exact E.
  - exists r, r'. split; [reflexivity|]. split; [exact E'|exact S].
Defined.

(** The levels where the slicer samples it. *)
Definition caption_levels (k : Z) : Z :=
  default 0 (sample_level caption_slicer (Template Byte 1 9) caption_line 210 (5276 + k * 6864)).

Lemma line_delivered_witness :
  ∃ r, vbi3_bit_slicer_slice caption_slicer [0; 0; 7] 3 caption_line = Some r ∧ r_bs r = set_thresh 44928 caption_slicer ∧
    r_ok r = (msb_number (frc_bits caption_slicer 22272 caption_levels) =? bs_frc caption_slicer) ∧
    r_buffer r = if r_ok r then payload_stored caption_slicer 22272 caption_levels [0; 0; 7] else [0; 0; 7].
Proof.
  apply (line_delivered caption_slicer [0; 0; 7] caption_line 3
    (SAMPLE caption_slicer (Template Byte 1 9) caption_line None 210 (u32 (87 * 256))) 22272 44928 caption_levels).
  - split; vm_compute; intuition congruence.
  - vm_compute. congruence.
  - vm_compute. discriminate.
  - vm_compute. congruence.
  - vm_compute. congruence.
  - apply (sync_core _ _ (Template Byte 1 9) 210 87 44928 []); vm_compute; reflexivity.
  - intros kind k pts Hk. change (0 ≤ k < 16) in Hk. unfold SAMPLE, caption_levels.
    assert (E := forallb_seqZ 16 (λ k, match sample_level caption_slicer (Template Byte 1 9) caption_line 210 (5276 + k * 6864)
      with Some _ => true | None => false end) ltac:(vm_compute; reflexivity) k Hk). cbv beta in E.
    change (bs_phase_shift caption_slicer) with 5276. change (bs_step caption_slicer) with 6864.
    by destruct (sample_level _ _ _ _ _).
Defined.

(** ** What the code does not mean to do *)

Definition rate_slicer (fmt rate spl : Z) (par : service_par) : vbi3_bit_slicer :=
  match vbi3_bit_slicer_set_params new_slicer fmt rate 0 spl par with Some (_, bs) => bs | None => bs_cleared end.

(** The bit routine of [PAYLOAD] begins with the framing code in [c]: with a framing code of
    sixteen one bits, twelve zero bits are delivered as 0xFF and 0. *)
Lemma long_framing_code_delivered :
  let bs := rate_slicer VBI_PIXFMT_YUV420 16 1100 (ServicePar 1 1 1 1 (2 ^ 32 - 1) 0xFFFF 16 12 1 VBI3_MODULATION_NRZ_LSB) in
  let line := nrz_line 40 16 300 (repeat true 17 ++ repeat false 12) in
  (λ r, (r_ok r, r_buffer r)) <$> vbi3_bit_slicer_slice bs [7; 7] 2 line = Some (true, [0xFF; 0]).
Proof. vm_compute. done. Qed.

(** The start value of the threshold is 105 of 255, but the low-pass slicer compares it with
    the sum of sixteen samples, which is a level of 6.6: it takes a line that is black (16)
    throughout for one bits, where the other slicers find no data. *)
Lemma black_is_one :
  let bs rate := rate_slicer VBI_PIXFMT_YUV420 rate 2000 (ServicePar 1 1 1 1 (2 ^ 32 - 1) 0 0 8 1 VBI3_MODULATION_NRZ_LSB) in
  let slice rate := (λ r, (r_ok r, r_buffer r)) <$> vbi3_bit_slicer_slice (bs rate) [7] 1 (repeat 16 2017) in
  bs_thresh (bs 16) ≫ bs_thresh_frac (bs 16) = 105 ∧ slice 16 = Some (false, [7]) ∧
  bs_func (bs 32) = low_pass_bit_slicer_Y8 ∧ bs_thresh (bs 32) ≫ bs_thresh_frac (bs 32) = 105 ∧
  slice 32 = Some (true, [0xFF]).
Proof. vm_compute. done. Qed.

(** The position of a payload bit among the samples: the low-pass slicer counts bytes, so
    with two bytes per pixel the positions of neighbouring bits are twice as far apart as
    the bits. *)
Lemma low_pass_point_positions :
  let bs := rate_slicer VBI_PIXFMT_YUYV 32 600 (ServicePar 1 1 1 1 (2 ^ 32 - 1) 0 0 8 1 VBI3_MODULATION_NRZ_LSB) in
  let line := concat (map (λ y, [y; 128]) (nrz_line 40 32 300 (repeat true 9))) in
  bs_step bs = 32 * 256 ∧
  (λ r, map index (List.filter (λ p, match kind p with VBI3_PAYLOAD_BIT => true | _ => false end) (r_points r))) <$>
    vbi3_bit_slicer_slice_with_points bs [0] 1 20 line = Some [22784; 39168; 55552; 71936; 88320; 104704; 121088; 137472].
Proof. vm_compute. done. Qed.
