(* ===== verification/Services.v ===== *)
(** The data services of the raw VBI decoder: the table in [src/src/raw_decoder.c] with its
    types in [src/src/raw_decoder.h] and [src/src/sampling_par.h], and the lookups in it. *)
From Stdlib Require Import String.
From S2P Require Import Prelude Sliced BitSlicer.

(** ** Identifiers, beside those of [Sliced] *)

Definition VBI_SLICED_TELETEXT_A : Z := 0x00002000.
Definition VBI_SLICED_TELETEXT_B : Z := VBI_SLICED_TELETEXT_B_625.
Definition VBI_SLICED_TELETEXT_C_625 : Z := 0x00004000.
Definition VBI_SLICED_TELETEXT_D_625 : Z := 0x00008000.
Definition VBI_SLICED_2xCAPTION_525 : Z := 0x00000080.
Definition VBI_SLICED_TELETEXT_B_525 : Z := 0x00010000.
Definition VBI_SLICED_TELETEXT_C_525 : Z := 0x00000100.
Definition VBI_SLICED_TELETEXT_BD_525 : Z := 0x00000200.
Definition VBI_SLICED_TELETEXT_D_525 : Z := 0x00020000.
Definition VBI_SLICED_VBI_625 : Z := 0x20000000.
Definition VBI_SLICED_VBI_525 : Z := 0x40000000.

Definition VBI_VIDEOSTD_SET_PAL_BG : Z := 1.
Definition VBI_VIDEOSTD_SET_625_50 : Z := 1.
Definition VBI_VIDEOSTD_SET_525_60 : Z := 2.
Definition VBI_VIDEOSTD_SET_ALL : Z := 3.

Definition _VBI_SP_LINE_NUM : Z := 1 ≪ 0.
Definition _VBI_SP_FIELD_NUM : Z := 1 ≪ 1.

(** ** The table *)

(** A pair of values for the two fields of a frame. *)
Definition fields : Type := Z * Z.
Definition of_field (field : Z) (x : fields) : Z := if field =? 0 then x.1 else x.2.
Definition set_field (field y : Z) (x : fields) : fields := if field =? 0 then (y, x.2) else (x.1, y).

(** [_vbi_service_par] *)
Record _vbi_service_par := Par {
  par_id : Z; par_label : string; par_videostd_set : Z; par_first : fields; par_last : fields; par_offset : Z;
  par_cri_rate : Z; par_bit_rate : Z; par_cri_frc : Z; par_cri_frc_mask : Z; par_cri_bits : Z; par_frc_bits : Z;
  par_payload : Z; par_modulation : vbi3_modulation; par_flags : Z
}.

(** The table, less the entry with [id] 0 that ends it. *)
Definition _vbi_service_table : list _vbi_service_par := [
  Par VBI_SLICED_TELETEXT_A "Teletext System A" VBI_VIDEOSTD_SET_625_50 (6, 318) (22, 335)
    10500 6203125 6203125 0x00AAAAE7 0xFFFF 18 6 (37 * 8) VBI3_MODULATION_NRZ_LSB 0;
  Par VBI_SLICED_TELETEXT_B_L10_625 "Teletext System B 625 Level 1.5" VBI_VIDEOSTD_SET_625_50 (7, 320) (22, 335)
    10300 6937500 6937500 0x00AAAAE4 0xFFFF 18 6 (42 * 8) VBI3_MODULATION_NRZ_LSB 0;
  Par VBI_SLICED_TELETEXT_B "Teletext System B, 625" VBI_VIDEOSTD_SET_625_50 (6, 318) (22, 335)
    10300 6937500 6937500 0x00AAAAE4 0xFFFF 18 6 (42 * 8) VBI3_MODULATION_NRZ_LSB 0;
  Par VBI_SLICED_TELETEXT_C_625 "Teletext System C 625" VBI_VIDEOSTD_SET_625_50 (6, 318) (22, 335)
    10480 5734375 5734375 0x00AAAAE7 0xFFFF 18 6 (33 * 8) VBI3_MODULATION_NRZ_LSB 0;
  Par VBI_SLICED_TELETEXT_D_625 "Teletext System D 625" VBI_VIDEOSTD_SET_625_50 (6, 318) (22, 335)
    10500 5642787 5642787 0x00AAAAE5 0xFFFF 18 6 (34 * 8) VBI3_MODULATION_NRZ_LSB 0;
  Par VBI_SLICED_VPS "Video Program System" VBI_VIDEOSTD_SET_PAL_BG (16, 0) (16, 0)
    12500 5000000 2500000 0xAAAA8A99 0xFFFFFF 32 0 (13 * 8) VBI3_MODULATION_BIPHASE_MSB _VBI_SP_FIELD_NUM;
  Par VBI_SLICED_VPS_F2 "Pseudo-VPS on field 2" VBI_VIDEOSTD_SET_PAL_BG (0, 329) (0, 329)
    12500 5000000 2500000 0xAAAA8A99 0xFFFFFF 32 0 (13 * 8) VBI3_MODULATION_BIPHASE_MSB _VBI_SP_FIELD_NUM;
  Par VBI_SLICED_WSS_625 "Wide Screen Signalling 625" VBI_VIDEOSTD_SET_625_50 (23, 0) (23, 0)
    11000 5000000 833333 0x8E3C783E 0x2499339C 32 0 (14 * 1) VBI3_MODULATION_BIPHASE_LSB (_VBI_SP_FIELD_NUM .| _VBI_SP_LINE_NUM);
  Par VBI_SLICED_CAPTION_625_F1 "Closed Caption 625, field 1" VBI_VIDEOSTD_SET_625_50 (22, 0) (22, 0)
    10500 1000000 500000 0x00005551 0x7FF 14 2 (2 * 8) VBI3_MODULATION_NRZ_LSB _VBI_SP_FIELD_NUM;
  Par VBI_SLICED_CAPTION_625_F2 "Closed Caption 625, field 2" VBI_VIDEOSTD_SET_625_50 (0, 335) (0, 335)
    10500 1000000 500000 0x00005551 0x7FF 14 2 (2 * 8) VBI3_MODULATION_NRZ_LSB _VBI_SP_FIELD_NUM;
  Par VBI_SLICED_VBI_625 "VBI 625" VBI_VIDEOSTD_SET_625_50 (6, 318) (22, 335)
    10000 1510000 1510000 0 0 0 0 (10 * 8) VBI3_MODULATION_NRZ_LSB 0;
  Par VBI_SLICED_TELETEXT_B_525 "Teletext System B 525" VBI_VIDEOSTD_SET_525_60 (10, 272) (21, 284)
    10500 5727272 5727272 0x00AAAAE4 0xFFFF 18 6 (34 * 8) VBI3_MODULATION_NRZ_LSB 0;
  Par VBI_SLICED_TELETEXT_C_525 "Teletext System C 525" VBI_VIDEOSTD_SET_525_60 (10, 272) (21, 284)
    10480 5727272 5727272 0x00AAAAE7 0xFFFF 18 6 (33 * 8) VBI3_MODULATION_NRZ_LSB 0;
  Par VBI_SLICED_TELETEXT_D_525 "Teletext System D 525" VBI_VIDEOSTD_SET_525_60 (10, 272) (21, 284)
    9780 5727272 5727272 0x00AAAAE5 0xFFFF 18 6 (34 * 8) VBI3_MODULATION_NRZ_LSB 0;
  Par VBI_SLICED_CAPTION_525_F1 "Closed Caption 525, field 1" VBI_VIDEOSTD_SET_525_60 (21, 0) (21, 0)
    10500 1006976 503488 0x03 0x0F 4 0 (2 * 8) VBI3_MODULATION_NRZ_LSB (_VBI_SP_FIELD_NUM .| _VBI_SP_LINE_NUM);
  Par VBI_SLICED_CAPTION_525_F2 "Closed Caption 525, field 2" VBI_VIDEOSTD_SET_525_60 (0, 284) (0, 284)
    10500 1006976 503488 0x03 0x0F 4 0 (2 * 8) VBI3_MODULATION_NRZ_LSB (_VBI_SP_FIELD_NUM .| _VBI_SP_LINE_NUM);
  Par VBI_SLICED_2xCAPTION_525 "2xCaption 525" VBI_VIDEOSTD_SET_525_60 (10, 0) (21, 0)
    10500 1006976 1006976 0x000554ED 0xFFFF 12 8 (4 * 8) VBI3_MODULATION_NRZ_LSB _VBI_SP_FIELD_NUM;
  Par VBI_SLICED_VBI_525 "VBI 525" VBI_VIDEOSTD_SET_525_60 (10, 272) (21, 284)
    9500 1510000 1510000 0 0 0 0 (10 * 8) VBI3_MODULATION_NRZ_LSB 0
].

Definition find_service_par (service : Z) : option _vbi_service_par :=
  find (λ par, service =? par_id par) _vbi_service_table.

Definition vbi_sliced_name (service : Z) : option string :=
  if service =? VBI_SLICED_CAPTION_525 then Some "Closed Caption 525"%string
  else if service =? VBI_SLICED_CAPTION_625 then Some "Closed Caption 625"%string
  else if service =? VBI_SLICED_VPS .| VBI_SLICED_VPS_F2 then Some "Video Program System"%string
  else if service =? VBI_SLICED_TELETEXT_B_L25_625 then Some "Teletext System B 625 Level 2.5"%string
  else if service =? VBI_SLICED_TELETEXT_BD_525 then Some "Teletext System B/D"%string
  else par_label <$> find_service_par service.

Definition vbi_sliced_payload_bits (service : Z) : Z :=
  if service =? VBI_SLICED_CAPTION_525 then 16
  else if service =? VBI_SLICED_CAPTION_625 then 16
  else if service =? VBI_SLICED_VPS .| VBI_SLICED_VPS_F2 then 13 * 8
  else if service =? VBI_SLICED_TELETEXT_B_L25_625 then 42 * 8
  else if service =? VBI_SLICED_TELETEXT_BD_525 then 34 * 8
  else match find_service_par service with Some par => par_payload par | None => 0 end.
