(* ===== verification/SamplingPar.v ===== *)
(** Sampling parameters, [src/src/sampling_par.c]: which data services can be decoded from
    raw video that was sampled in a given way, and how to sample to decode given services. *)
From S2P Require Import Prelude Double Sliced BitSlicer Services.

(** The sampling parameters of [vbi_sampling_par], which is the type [vbi_raw_decoder] of
    [decoder.h]; its private fields are left out. *)
Record vbi_sampling_par := SamplingPar {
  scanning : Z; sampling_format : Z; sampling_rate : Z; bytes_per_line : Z; offset : Z;
  start : fields; count : fields; interlaced : bool; synchronous : bool
}.

Definition sampling_cleared : vbi_sampling_par := SamplingPar 0 0 0 0 0 (0, 0) (0, 0) false false.

Definition _vbi_videostd_set_from_scanning (scanning : Z) : Z :=
  if scanning =? 525 then VBI_VIDEOSTD_SET_525_60
  else if scanning =? 625 then VBI_VIDEOSTD_SET_625_50
  else 0.

Definition range_check (start count min max : Z) : bool :=
  (min <=? start) && (u32 (start + count) <=? max) && (start <=? u32 (start + count)).

(** The test of the lines of one field. *)
Definition field_range_ok (sp : vbi_sampling_par) (field min max : Z) : bool :=
  (of_field field (start sp) =? 0) || range_check (u32 (of_field field (start sp))) (u32 (of_field field (count sp))) min max.

(** [_vbi_sampling_par_valid_log], less the log. *)
Definition _vbi_sampling_par_valid (sp : vbi_sampling_par) : bool :=
  if negb (sampling_format sp =? VBI_PIXFMT_YUV420)
     && negb (u32 (bytes_per_line sp) mod VBI_PIXFMT_BPP (sampling_format sp) =? 0) then false
  else if bytes_per_line sp =? 0 then false
  else if ((count sp).1 =? 0) && ((count sp).2 =? 0) then false
  else
    let videostd_set := _vbi_videostd_set_from_scanning (scanning sp) in
    let range :=
      if negb (VBI_VIDEOSTD_SET_525_60 .& videostd_set =? 0) then
        if negb (VBI_VIDEOSTD_SET_625_50 .& videostd_set =? 0) then false
        else field_range_ok sp 0 1 262 && field_range_ok sp 1 263 525
      else if negb (VBI_VIDEOSTD_SET_625_50 .& videostd_set =? 0) then
        field_range_ok sp 0 1 311 && field_range_ok sp 1 312 625
      else false in
    if negb range then false
    else if interlaced sp && (negb ((count sp).1 =? (count sp).2) || ((count sp).1 =? 0)) then false
    else true.

(** ** Which services can be decoded *)

(** The length of the signal in seconds. *)
Definition signal_length (par : _vbi_service_par) : double :=
  d_add (d_div (d_of_Z (par_cri_bits par)) (d_of_Z (par_cri_rate par)))
        (d_div (d_of_Z (par_frc_bits par + par_payload par)) (d_of_Z (par_bit_rate par))).

Definition d_micro : double := d_frac 1 1000000.

(** The samples of a line. *)
Definition par_samples_per_line (sp : vbi_sampling_par) : Z :=
  u32 (Z.quot (bytes_per_line sp) (VBI_PIXFMT_BPP (sampling_format sp))).

(** The sampling length in seconds, with a headroom if [strict]. *)
Definition sampling_length (sp : vbi_sampling_par) (strict : Z) : double :=
  let samples := d_div (d_of_Z (par_samples_per_line sp)) (d_of_Z (sampling_rate sp)) in
  if 0 <? strict then d_sub samples d_micro else samples.

(** The lines of one field; [strict] is unsigned, but compared as [int], too. *)
Definition permit_field (sp : vbi_sampling_par) (par : _vbi_service_par) (strict field : Z) : bool :=
  let first := of_field field (par_first par) in
  let last := of_field field (par_last par) in
  let line := u32 (of_field field (start sp)) in
  let line_end := u32 (line + of_field field (count sp) - 1) in
  if (first =? 0) || (last =? 0) then true
  else if of_field field (count sp) =? 0 then false
  else if (s32 strict <=? 0) || (of_field field (start sp) =? 0) then true
  else if (strict =? 1) && (last <? first) then true
  else negb ((first <? line) || (line_end <? last)).

Definition requires_lines (sp : vbi_sampling_par) (par : _vbi_service_par) : bool :=
  ((0 <? (par_first par).1) && ((start sp).1 =? 0)) || ((0 <? (par_first par).2) && ((start sp).2 =? 0)).

Definition service_rate (par : _vbi_service_par) : Z :=
  let rate := Z.max (par_cri_rate par) (par_bit_rate par) in
  if par_id par =? VBI_SLICED_WSS_625 then rate else u32 (rate * 3) ≫ 1.

Definition _vbi_sampling_par_permit_service (sp : vbi_sampling_par) (par : _vbi_service_par) (strict : Z) : bool :=
  let videostd_set := _vbi_videostd_set_from_scanning (scanning sp) in
  if par_videostd_set par .& videostd_set =? 0 then false
  else if negb (par_flags par .& _VBI_SP_LINE_NUM =? 0) && requires_lines sp par then false
  else if u32 (sampling_rate sp) <? service_rate par then false
  else if SFltb (sampling_length sp strict) (signal_length par) then false
  else if negb (par_flags par .& _VBI_SP_FIELD_NUM =? 0) && negb (synchronous sp) then false
  else permit_field sp par strict 0 && permit_field sp par strict 1.

(** [_vbi_sampling_par_check_services_log], less the log. *)
Definition _vbi_sampling_par_check_services (sp : vbi_sampling_par) (services strict : Z) : Z :=
  fold_left (λ rservices par,
    if par_id par .& services =? 0 then rservices
    else if _vbi_sampling_par_permit_service sp par strict then rservices .| par_id par
    else rservices) _vbi_service_table 0.

Definition vbi_sampling_par_check_services : vbi_sampling_par → Z → Z → Z := _vbi_sampling_par_check_services.

(** ** How to sample given services *)

(** What the loop over the table changes. *)
Record from_state := FromState {
  fs_rservices : Z; fs_videostd_set : Z; fs_rate : Z; fs_offset : Z; fs_samples_per_line : Z;
  fs_start : fields; fs_count : fields
}.

(** [(int)(d * sp->sampling_rate)]; [None] when it is not an [int]. *)
Definition samples_of (d : double) : option Z := int_of_double (d_mul d (d_of_Z 27000000)).

Definition from_field (par : _vbi_service_par) (field : Z) (sc : fields * fields) : fields * fields :=
  let first := of_field field (par_first par) in
  let last := of_field field (par_last par) in
  if (0 <? first) && (0 <? last) then
    let line := Z.min (of_field field sc.1) first in
    (set_field field line sc.1,
     set_field field (s32 (Z.max (u32 (line + of_field field sc.2)) (u32 (last + 1)) - line)) sc.2)
  else sc.

Definition from_service (videostd_set_req services : Z) (par : _vbi_service_par) (s : from_state) : option from_state :=
  if par_id par .& services =? 0 then Some s else
  let videostd_set :=
    if videostd_set_req =? 0 then
      let set := par_videostd_set par .| fs_videostd_set s in
      if (set .& Z.lnot VBI_VIDEOSTD_SET_525_60 =? 0) || (set .& Z.lnot VBI_VIDEOSTD_SET_625_50 =? 0)
      then fs_videostd_set s .| par_videostd_set par else fs_videostd_set s
    else fs_videostd_set s in
  if par_videostd_set par .& videostd_set =? 0 then
    Some (FromState (fs_rservices s) videostd_set (fs_rate s) (fs_offset s) (fs_samples_per_line s) (fs_start s) (fs_count s))
  else
    let rate := Z.max (Z.max (fs_rate s) (par_cri_rate par)) (par_bit_rate par) in
    off ← samples_of (d_div (d_of_Z (par_offset par)) (d_of_Z 1000000000));
    samples ← samples_of (d_add (signal_length par) d_micro);
    let sp_offset := Z.min (fs_offset s) off in
    let samples_per_line := u32 (Z.max (u32 (fs_samples_per_line s + sp_offset)) (u32 (samples + off)) - sp_offset) in
    let '(start, count) := from_field par 1 (from_field par 0 (fs_start s, fs_count s)) in
    Some (FromState (fs_rservices s .| par_id par) videostd_set rate sp_offset samples_per_line start count).

Fixpoint from_services_loop (videostd_set_req services : Z) (table : list _vbi_service_par) (s : from_state) : option from_state :=
  match table with
  | [] => Some s
  | par :: table => s ← from_service videostd_set_req services par s; from_services_loop videostd_set_req services table s
  end.

(** [_vbi_sampling_par_from_services_log], less the log: the parameters, [max_rate] where it
    is written, and the services. *)
Definition _vbi_sampling_par_from_services (videostd_set_req services : Z) : option (vbi_sampling_par * option Z * Z) :=
  if negb (videostd_set_req =? 0)
     && ((VBI_VIDEOSTD_SET_ALL .& videostd_set_req =? 0)
         || (negb (VBI_VIDEOSTD_SET_525_60 .& videostd_set_req =? 0)
             && negb (VBI_VIDEOSTD_SET_625_50 .& videostd_set_req =? 0)))
  then Some (sampling_cleared, None, 0)
  else
    off ← samples_of (d_frac 64 1000000);
    s ← from_services_loop videostd_set_req services _vbi_service_table
      (FromState 0 videostd_set_req 0 off 0 (30000, 30000) (0, 0));
    if fs_rservices s =? 0 then Some (sampling_cleared, None, 0) else
    let '(c0, c1) := fs_count s in
    let '(s0, s1) := fs_start s in
    let start :=
      if c1 =? 0 then (if c0 =? 0 then 0 else s0, 0)
      else (if c0 =? 0 then 0 else s0, s1) in
    let off := if (c1 =? 0) && (c0 =? 0) then 0 else fs_offset s in
    Some (SamplingPar (if negb (fs_videostd_set s .& VBI_VIDEOSTD_SET_525_60 =? 0) then 525 else 625) VBI_PIXFMT_YUV420
            27000000 (Z.max 1440 (fs_samples_per_line s)) off start (c0, c1) false true,
          Some (fs_rate s), fs_rservices s).

Definition vbi_sampling_par_from_services : Z → Z → option (vbi_sampling_par * option Z * Z) :=
  _vbi_sampling_par_from_services.

(** ** Parameters for services that cannot be decoded with them *)

(** The line of a service is left out when one with an earlier line follows in the table. *)
Lemma last_line_not_sampled :
  (λ x, (start x.1.1, count x.1.1, x.2, _vbi_sampling_par_check_services x.1.1 (VBI_SLICED_WSS_625 .| VBI_SLICED_CAPTION_625_F1) 2)) <$>
    _vbi_sampling_par_from_services 0 (VBI_SLICED_WSS_625 .| VBI_SLICED_CAPTION_625_F1) =
  Some ((22, 0), (1, 0), VBI_SLICED_WSS_625 .| VBI_SLICED_CAPTION_625_F1, VBI_SLICED_CAPTION_625_F1).
Proof. vm_compute. reflexivity. Qed.

(** The line is too short for the test with headroom. *)
Lemma line_too_short :
  (λ x, (bytes_per_line x.1.1, x.2, map (_vbi_sampling_par_check_services x.1.1 VBI_SLICED_TELETEXT_D_625) [0; 1])) <$>
    _vbi_sampling_par_from_services 0 VBI_SLICED_TELETEXT_D_625 =
  Some (1443, VBI_SLICED_TELETEXT_D_625, [VBI_SLICED_TELETEXT_D_625; 0]).
Proof. vm_compute. reflexivity. Qed.

(** More services than requested are returned. *)
Lemma more_than_requested : (λ x, x.2) <$> _vbi_sampling_par_from_services 0 VBI_SLICED_TELETEXT_B_L10_625 = Some VBI_SLICED_TELETEXT_B.
Proof. vm_compute. reflexivity. Qed.
