(* ===== verification/RawDecoder.v ===== *)
(** The raw VBI decoder of [src/src/raw_decoder.c] and [src/src/raw_decoder.h]: it slices the
    scan lines of an image, trying on each line the data services that may be on it, and
    remembers in a pattern which one it found.

    The pattern is a list of rows, one per scan line; an access outside of a row is [None],
    which is stricter than C. [raw] is the memory from the start of the image on. *)
From S2P Require Import Prelude Double Sliced BitSlicer Services SamplingPar.

Definition _VBI3_RAW_DECODER_MAX_JOBS : Z := 8.
Definition _VBI3_RAW_DECODER_MAX_WAYS : Z := 8.

(** [_vbi3_raw_decoder_job] *)
Record decoder_job := Job { job_id : Z; slicer : vbi3_bit_slicer }.
Definition job_cleared : decoder_job := Job 0 bs_cleared.

(** [_vbi3_raw_decoder_sp_line]; [points] has 512 elements. *)
Record sp_line := SpLine { points : list vbi3_bit_slicer_point; n_points : Z }.
Definition SP_POINTS : Z := 512.

(** [n_sp_lines] is the length of [sp_lines]; a [NULL] pointer is the empty list. *)
Record vbi3_raw_decoder := RawDecoder {
  sampling : vbi_sampling_par; services : Z; debug : bool; n_jobs : Z; readjust : Z;
  pattern : option (list (list Z)); jobs : list decoder_job; sp_lines : list sp_line
}.

Definition set_services x rd := RawDecoder (sampling rd) x (debug rd) (n_jobs rd) (readjust rd) (pattern rd) (jobs rd) (sp_lines rd).
Definition set_n_jobs x rd := RawDecoder (sampling rd) (services rd) (debug rd) x (readjust rd) (pattern rd) (jobs rd) (sp_lines rd).
Definition set_readjust x rd := RawDecoder (sampling rd) (services rd) (debug rd) (n_jobs rd) x (pattern rd) (jobs rd) (sp_lines rd).
Definition set_pattern x rd := RawDecoder (sampling rd) (services rd) (debug rd) (n_jobs rd) (readjust rd) x (jobs rd) (sp_lines rd).
Definition set_jobs x rd := RawDecoder (sampling rd) (services rd) (debug rd) (n_jobs rd) (readjust rd) (pattern rd) x (sp_lines rd).
Definition set_sampling x rd := RawDecoder x (services rd) (debug rd) (n_jobs rd) (readjust rd) (pattern rd) (jobs rd) (sp_lines rd).
Definition set_debug x y rd := RawDecoder (sampling rd) (services rd) x (n_jobs rd) (readjust rd) (pattern rd) (jobs rd) y.

Definition set_slicer (bs : vbi3_bit_slicer) (j : decoder_job) : decoder_job := Job (job_id j) bs.
Definition set_id (id : Z) (j : decoder_job) : decoder_job := Job id (slicer j).

Definition scan_lines (rd : vbi3_raw_decoder) : Z := u32 ((count (sampling rd)).1 + (count (sampling rd)).2).

(** ** Decoding a line *)

(** The points [slice_with_points] stored in the array of line [i]. *)
Definition store_points (r : slice_result) (l : sp_line) : sp_line :=
  SpLine (r_points r ++ drop (length (r_points r)) (points l)) (default (n_points l) (r_n_points r)).

(** [slice]: the result and the arrays of sampling points. *)
Definition slice (rd : vbi3_raw_decoder) (data : list Z) (job : decoder_job) (i : Z) (raw : list Z)
    : option (slice_result * list sp_line) :=
  if debug rd && negb (bool_decide (sp_lines rd = [])) then
    line ← Prelude.rd (sp_lines rd) i;
    r ← vbi3_bit_slicer_slice_with_points (slicer job) data 56 SP_POINTS raw;
    lines ← wr (sp_lines rd) i (store_points r line);
    Some (r, lines)
  else
    r ← vbi3_bit_slicer_slice (slicer job) data 56 raw; Some (r, sp_lines rd).

(** The number of scan line [i] of the image. *)
Definition line_number (rd : vbi3_raw_decoder) (i : Z) : Z :=
  let sp := sampling rd in
  if u32 (count sp).1 <=? i then
    if synchronous sp && negb ((start sp).2 =? 0) then u32 ((start sp).2 + i - (count sp).1) else 0
  else
    if synchronous sp && negb ((start sp).1 =? 0) then u32 ((start sp).1 + i) else 0.

(** What decoding a line changes: the decoder, the array of sliced lines with the number of
    lines in it, and the row of the pattern. *)
Record line_state := LineState { ls_rd : vbi3_raw_decoder; ls_sliced : list vbi_sliced; ls_n : Z; ls_row : list Z }.

(** Try the found data service first next time. *)
Definition try_first (row : list Z) (pat j : Z) : option (list Z) :=
  x ← rd row 0; row ← wr row pat x; wr row 0 j.

(** [memmove] of the ways 1 to 7 to the front, the first way becomes the last. *)
Definition rotate (row : list Z) : option (list Z) :=
  j ← rd row 0; wr (take 7 (drop 1 row) ++ drop 7 row) 7 j.

(** The loop over the ways of a line; [raw] begins with the scan line. *)
Fixpoint decode_ways (ways : nat) (pat i : Z) (raw : list Z) (s : line_state) : option line_state :=
  match ways with
  | O => None
  | S ways =>
      let row := ls_row s in
      j ← rd row pat;
      if 0 <? j then
        job ← rd (jobs (ls_rd s)) (j - 1);
        out ← rd (ls_sliced s) (ls_n s);
        '(r, lines) ← slice (ls_rd s) (data out) job i raw;
        jobs ← wr (jobs (ls_rd s)) (j - 1) (set_slicer (r_bs r) job);
        let rd1 := set_debug (debug (ls_rd s)) lines (set_jobs jobs (ls_rd s)) in
        if negb (r_ok r) then
          sliced ← wr (ls_sliced s) (ls_n s) (Sliced (id out) (line out) (r_buffer r));
          decode_ways ways (pat + 1) i raw (LineState rd1 sliced (ls_n s) row)
        else
          sliced ← wr (ls_sliced s) (ls_n s) (Sliced (job_id job) (line_number rd1 i) (r_buffer r));
          row ← wr row (_VBI3_RAW_DECODER_MAX_WAYS - 1) (-128);
          row ← try_first row pat j;
          Some (LineState rd1 sliced (ls_n s + 1) row)
      else if pat =? 0 then
        row ← (if readjust (ls_rd s) =? 0 then rotate row else Some row);
        Some (LineState (ls_rd s) (ls_sliced s) (ls_n s) row)
      else
        j ← rd row (_VBI3_RAW_DECODER_MAX_WAYS - 1);
        if j <? 0 then Some s
        else row ← try_first row pat j; Some (LineState (ls_rd s) (ls_sliced s) (ls_n s) row)
  end.

Definition decode_pattern (i : Z) (raw : list Z) (s : line_state) : option line_state :=
  decode_ways (Z.to_nat _VBI3_RAW_DECODER_MAX_WAYS) 0 i raw s.

(** ** Decoding an image *)

(** The loop over [n] scan lines from line [i] on; the line begins at [p]. *)
Fixpoint decode_lines (n : nat) (i p pitch max_lines : Z) (raw : list Z) (rd : vbi3_raw_decoder)
    (sliced : list vbi_sliced) (k : Z) (rows : list (list Z)) : option (vbi3_raw_decoder * list vbi_sliced * Z * list (list Z)) :=
  match n with
  | O => Some (rd, sliced, k, rows)
  | S n =>
      if max_lines <=? k then Some (rd, sliced, k, rows) else
      let p := if interlaced (sampling rd) && (i =? u32 (count (sampling rd)).1) then bytes_per_line (sampling rd) else p in
      row ← Prelude.rd rows i;
      s ← decode_pattern i (drop (Z.to_nat p) raw) (LineState rd sliced k row);
      rows ← wr rows i (ls_row s);
      decode_lines n (i + 1) (p + pitch) pitch max_lines raw (ls_rd s) (ls_sliced s) (ls_n s) rows
  end.

Definition vbi3_raw_decoder_decode (rd : vbi3_raw_decoder) (sliced : list vbi_sliced) (max_lines : Z) (raw : list Z)
    : option (vbi3_raw_decoder * list vbi_sliced * Z) :=
  if services rd =? 0 then Some (rd, sliced, 0) else
  let sp := sampling rd in
  let pitch := bytes_per_line sp ≪ (if interlaced sp then 1 else 0) in
  rows ← pattern rd;
  '(rd, sliced, k, rows) ← decode_lines (Z.to_nat (scan_lines rd)) 0 0 pitch max_lines raw rd sliced 0 rows;
  Some (set_readjust ((readjust rd + 1) .& 15) (set_pattern (Some rows) rd), sliced, k).

(** ** Removing services *)

Definition vbi3_raw_decoder_reset (rd : vbi3_raw_decoder) : vbi3_raw_decoder :=
  RawDecoder (sampling rd) 0 (debug rd) 0 1 None (repeat job_cleared 8) (sp_lines rd).

(** One row without [job_num], which counts from 1: jobs above it move down, zeros fill up. *)
Definition remove_from_row (job_num : Z) (row : list Z) : list Z :=
  let ways := concat (map (λ num, if job_num <? num then [num - 1] else if negb (num =? job_num) then [num] else []) row) in
  ways ++ repeat 0 (8 - length ways).

Definition remove_job_from_pattern (rows : list (list Z)) (job_num : Z) : list (list Z) :=
  map (remove_from_row (job_num + 1)) rows.

(** [memmove] of [n] elements from behind [l[i]] to [l[i]]. *)
Definition move_down {A} (l : list A) (i n : Z) : list A :=
  take (Z.to_nat i) l ++ take (Z.to_nat n) (drop (Z.to_nat (i + 1)) l) ++ drop (Z.to_nat (i + n)) l.

(** The loop of [remove_services]; [job] is the index of the pointer of the same name, which
    the loop does not advance. Every iteration takes a job off or goes on to the next, so
    [n_jobs] iterations are enough. *)
Fixpoint remove_loop (fuel : nat) (set job job_num : Z) (rd : vbi3_raw_decoder) : option vbi3_raw_decoder :=
  if n_jobs rd <=? job_num then Some rd else
  match fuel with
  | O => None
  | S fuel =>
      j ← Prelude.rd (jobs rd) job;
      if negb (job_id j .& set =? 0) then
        let rd := set_pattern ((λ rows, remove_job_from_pattern rows job_num) <$> pattern rd) rd in
        js ← wr (move_down (jobs rd) job (n_jobs rd - job_num - 1)) (n_jobs rd - 1) job_cleared;
        remove_loop fuel set job job_num (set_jobs js (set_n_jobs (n_jobs rd - 1) rd))
      else remove_loop fuel set job (job_num + 1) rd
  end.

Definition vbi3_raw_decoder_remove_services (rd : vbi3_raw_decoder) (set : Z) : option (vbi3_raw_decoder * Z) :=
  rd ← remove_loop (Z.to_nat (n_jobs rd)) set 0 0 rd;
  let rd := set_services (services rd .& Z.lnot set) rd in
  Some (rd, services rd).

(** ** Adding services *)

(** One row with the jobs first and zeros behind them, and the number of ways [job_num]
    might use. *)
Definition compact_row (row : list Z) : list Z :=
  let ways := List.filter (Z.ltb 0) row in ways ++ repeat 0 (8 - length ways).
Definition free_ways (job_num : Z) (row : list Z) : Z :=
  Z.of_nat (length (List.filter (λ num, (num <=? 0) || (num =? job_num)) row)).

(** The scan lines [start] to [start + count - 1] have two free ways each, one of them stays
    empty; the result and the compacted rows. An assertion fails behind the last row. *)
Fixpoint reserve_lines (job_num : Z) (count : nat) (start : Z) (rows : list (list Z)) : option (bool * list (list Z)) :=
  match count with
  | O => Some (true, rows)
  | S count =>
      row ← rd rows start;
      rows ← wr rows start (compact_row row);
      if free_ways job_num row <=? 1 then Some (false, rows)
      else reserve_lines job_num count (start + 1) rows
  end.

(** The first way that is empty or has [job_num] already. *)
Fixpoint find_way (job_num : Z) (ways : nat) (way : Z) (row : list Z) : option Z :=
  match ways with
  | O => None
  | S ways =>
      num ← rd row way;
      if (0 <? num) && negb (num =? job_num) then find_way job_num ways (way + 1) row else Some way
  end.

Definition add_to_row (job_num : Z) (row : list Z) : option (list Z) :=
  way ← find_way job_num (Z.to_nat _VBI3_RAW_DECODER_MAX_WAYS) 0 row;
  row ← wr row way job_num; wr row (_VBI3_RAW_DECODER_MAX_WAYS - 1) (-128).

Fixpoint add_to_lines (job_num : Z) (count : nat) (start : Z) (rows : list (list Z)) : option (list (list Z)) :=
  match count with
  | O => Some rows
  | S count =>
      row ← rd rows start; row ← add_to_row job_num row; rows ← wr rows start row;
      add_to_lines job_num count (start + 1) rows
  end.

Definition add_job_to_pattern (rows : list (list Z)) (job_num : Z) (start count : fields) : option (bool * list (list Z)) :=
  let job_num := job_num + 1 in
  '(ok, rows) ← reserve_lines job_num (Z.to_nat count.1) start.1 rows;
  if negb ok then Some (false, rows) else
  '(ok, rows) ← reserve_lines job_num (Z.to_nat count.2) start.2 rows;
  if negb ok then Some (false, rows) else
  rows ← add_to_lines job_num (Z.to_nat count.1) start.1 rows;
  rows ← add_to_lines job_num (Z.to_nat count.2) start.2 rows;
  Some (true, rows).

(** The rows of one field that may contain the data: where they begin and how many. *)
Definition field_lines (sp : vbi_sampling_par) (par : _vbi_service_par) (field : Z) : option (Z * Z) :=
  let start0 := if field =? 0 then 0 else u32 (count sp).1 in
  let count0 := u32 (of_field field (count sp)) in
  if negb (synchronous sp) then Some (start0, count0)
  else if (of_field field (par_first par) =? 0) || (of_field field (par_last par) =? 0) then Some (start0, 0)
  else
    let first := u32 (of_field field (start sp)) in
    let last := u32 (first + count0 - 1) in
    if (0 <? first) && (0 <? of_field field (count sp)) then
      if of_field field (par_last par) <? of_field field (par_first par) then None
      else if (last <? of_field field (par_first par)) || (of_field field (par_last par) <? first) then Some (start0, count0)
      else
        let first1 := Z.max first (of_field field (par_first par)) in
        let last1 := Z.min (of_field field (par_last par)) last in
        Some (u32 (start0 + (first1 - first)), u32 (last1 + 1 - first1))
    else Some (start0, count0).

Definition lines_containing_data (sp : vbi_sampling_par) (par : _vbi_service_par) : option (fields * fields) :=
  '(s0, c0) ← field_lines sp par 0;
  '(s1, c1) ← field_lines sp par 1;
  Some ((s0, s1), (c0, c1)).

(** Whether one job can decode the services of [id]. *)
Definition mergeable (id : Z) : bool :=
  (id .& Z.lnot VBI_SLICED_TELETEXT_B =? 0) || (id .& Z.lnot VBI_SLICED_CAPTION_525 =? 0)
  || (id .& Z.lnot VBI_SLICED_CAPTION_625 =? 0) || (id .& Z.lnot (VBI_SLICED_VPS .| VBI_SLICED_VPS_F2) =? 0).

(** The index of the first of [n] jobs [par] can be merged with, or [n]. *)
Fixpoint find_job (id : Z) (js : list decoder_job) : Z :=
  match js with
  | [] => 0
  | j :: js => if mergeable (job_id j .| id) then 0 else 1 + find_job id js
  end.

Definition slicer_par (par : _vbi_service_par) : service_par :=
  ServicePar (par_cri_frc par ≫ par_frc_bits par) (par_cri_frc_mask par ≫ par_frc_bits par) (par_cri_bits par)
    (par_cri_rate par) (2 ^ 32 - 1) (par_cri_frc par .& ((1 ≪ par_frc_bits par) - 1)) (par_frc_bits par)
    (par_payload par) (par_bit_rate par) (par_modulation par).

(** The slicer of a job for [par]; [None] when the assertion that the parameters are accepted
    fails. *)
Definition job_slicer (sp : vbi_sampling_par) (par : _vbi_service_par) : option vbi3_bit_slicer :=
  '(ok, bs) ← vbi3_bit_slicer_set_params (_vbi3_bit_slicer_init bs_cleared).2 (sampling_format sp) (u32 (sampling_rate sp)) 0
    (par_samples_per_line sp) (slicer_par par);
  if ok : bool then Some bs else None.

(** One service of the table; [false] stops the loop. *)
Definition add_service (set strict : Z) (par : _vbi_service_par) (rd : vbi3_raw_decoder) : option (bool * vbi3_raw_decoder) :=
  if par_id par .& set =? 0 then Some (true, rd) else
  let j := find_job (par_id par) (take (Z.to_nat (n_jobs rd)) (jobs rd)) in
  if _VBI3_RAW_DECODER_MAX_JOBS <=? j then Some (false, rd) else
  job ← Prelude.rd (jobs rd) j;
  let job := if n_jobs rd <=? j then set_id 0 job else job in
  js ← wr (jobs rd) j job;
  let rd := set_jobs js rd in
  if _vbi_sampling_par_check_services (sampling rd) (par_id par) (u32 strict) =? 0 then Some (true, rd) else
  bs ← job_slicer (sampling rd) par;
  js ← wr (jobs rd) j (set_slicer bs job);
  '(start, count) ← lines_containing_data (sampling rd) par;
  rows ← pattern rd;
  '(ok, rows) ← add_job_to_pattern rows j start count;
  let rd := set_pattern (Some rows) (set_jobs js rd) in
  if negb ok then Some (true, rd) else
  js ← wr (jobs rd) j (set_id (job_id job .| par_id par) (set_slicer bs job));
  let rd := set_jobs js rd in
  let rd := if n_jobs rd <=? j then set_n_jobs (n_jobs rd + 1) rd else rd in
  Some (true, set_services (services rd .| par_id par) rd).

Fixpoint add_loop (set strict : Z) (table : list _vbi_service_par) (rd : vbi3_raw_decoder) : option vbi3_raw_decoder :=
  match table with
  | [] => Some rd
  | par :: table =>
      '(go_on, rd) ← add_service set strict par rd;
      if go_on : bool then add_loop set strict table rd else Some rd
  end.

(** [malloc]: whether there is memory for the pattern. *)
Definition vbi3_raw_decoder_add_services (malloc : bool) (rd : vbi3_raw_decoder) (set strict : Z)
    : option (vbi3_raw_decoder * Z) :=
  let set := set .& Z.lnot (VBI_SLICED_VBI_525 .| VBI_SLICED_VBI_625) in
  let set := set .& Z.lnot (services rd) in
  if set =? 0 then Some (rd, services rd) else
  if negb (bool_decide (is_Some (pattern rd))) && negb malloc then Some (rd, services rd) else
  let rows := default (repeat (repeat 0 8) (Z.to_nat (scan_lines rd))) (pattern rd) in
  rd ← add_loop set strict _vbi_service_table (set_pattern (Some rows) rd);
  Some (rd, services rd).

(** ** Contexts *)

Definition vbi3_raw_decoder_sampling_point (rd : vbi3_raw_decoder) (row nth_bit : Z) : option (option vbi3_bit_slicer_point) :=
  if Z.of_nat (length (sp_lines rd)) <=? row then Some None else
  l ← Prelude.rd (sp_lines rd) row;
  if n_points l <=? nth_bit then Some None else p ← Prelude.rd (points l) nth_bit; Some (Some p).

Definition sp_line_cleared : sp_line := SpLine (repeat (Point VBI3_CRI_BIT 0 0 0) (Z.to_nat SP_POINTS)) 0.

Definition vbi3_raw_decoder_debug (calloc : bool) (rd : vbi3_raw_decoder) (enable : bool) : vbi3_raw_decoder * bool :=
  let r := sampling_format (sampling rd) =? VBI_PIXFMT_YUV420 in
  let n_lines := if enable && r then scan_lines rd else 0 in
  if Z.of_nat (length (sp_lines rd)) =? n_lines then (set_debug enable (sp_lines rd) rd, r)
  else if 0 <? n_lines then
    if calloc then (set_debug enable (repeat sp_line_cleared (Z.to_nat n_lines)) rd, r) else (set_debug enable [] rd, false)
  else (set_debug enable [] rd, r).

Definition vbi3_raw_decoder_services (rd : vbi3_raw_decoder) : Z := services rd.

Definition vbi3_raw_decoder_set_sampling_par (malloc calloc : bool) (rd : vbi3_raw_decoder) (sp : vbi_sampling_par) (strict : Z)
    : option (vbi3_raw_decoder * Z) :=
  let set := services rd in
  let rd := vbi3_raw_decoder_reset rd in
  if negb (_vbi_sampling_par_valid sp) then Some (set_sampling sampling_cleared rd, 0) else
  let rd := (vbi3_raw_decoder_debug calloc (set_sampling sp rd) (debug rd)).1 in
  vbi3_raw_decoder_add_services malloc rd set strict.

Definition vbi3_raw_decoder_get_sampling_par (rd : vbi3_raw_decoder) : vbi_sampling_par := sampling rd.

Definition decoder_cleared : vbi3_raw_decoder := RawDecoder sampling_cleared 0 false 0 0 None (repeat job_cleared 8) [].

Definition _vbi3_raw_decoder_destroy (rd : vbi3_raw_decoder) : vbi3_raw_decoder := decoder_cleared.

Definition _vbi3_raw_decoder_init (sp : option vbi_sampling_par) : bool * vbi3_raw_decoder :=
  let rd := vbi3_raw_decoder_reset decoder_cleared in
  match sp with
  | None => (true, rd)
  | Some sp => if negb (_vbi_sampling_par_valid sp) then (false, rd) else (true, set_sampling sp rd)
  end.

Definition vbi3_raw_decoder_new (malloc : bool) (sp : option vbi_sampling_par) : option vbi3_raw_decoder :=
  if negb malloc then None else
  let '(ok, rd) := _vbi3_raw_decoder_init sp in if ok then Some rd else None.
