(* ===== verification/Permit.v ===== *)
(** A data service that [_vbi_sampling_par_permit_service] permits has parameters the bit
    slicer accepts: the duration test in floating point implies the test in whole samples. *)
From Stdlib Require Import String.
From S2P Require Import Prelude Double Sliced BitSlicer SlicerBounds Services SamplingPar RawDecoder.

(** ** Parameters the slicer accepts *)

Definition supported_format (fmt : Z) : bool :=
  match pixel_format bs_cleared fmt 1 with Some _ => true | None => false end.

Lemma pixel_format_supported bs fmt n : supported_format fmt = true → ∃ f, pixel_format bs fmt n = Some f.
Proof.
  unfold supported_format, pixel_format. cbv zeta.
  repeat match goal with |- context [if existsb ?p ?l then _ else _] => destruct (existsb p l); [by eexists|] end. done.
Qed.

Lemma set_params_accepts bs fmt sr off spl par : service_ok sr off par → 0 ≤ spl ≤ 32767 → supported_format fmt = true →
  p_cri_rate par ≤ sr → off ≤ spl →
  sr * p_cri_bits par / p_cri_rate par + sr * (p_payload_bits par + p_frc_bits par) / p_payload_rate par ≤ spl - off →
  ∃ bs', vbi3_bit_slicer_set_params bs fmt sr off spl par = Some (true, bs').
Proof.
  intros Hpar Hspl Hf Hcr Hoff Hfit. pose proof (counts_fit sr off par Hpar ltac:(destruct Hpar; lia) Hcr) as (Fs & Fd & Fc).
  destruct Hpar as [H1 H2 H3 H4 H5 H6 H7 H8]. unfold vbi3_bit_slicer_set_params.
  rewrite !(proj2 (Z.leb_le _ _)) by lia. cbn [andb negb].
  rewrite !(proj2 (Z.ltb_ge sr _)) by lia. rewrite (proj2 (Z.eqb_neq (Z.max _ _) _)) by lia.
  destruct (pixel_format_supported bs fmt (sr / Z.max (p_cri_rate par) (p_payload_rate par)) Hf) as [f ->].
  rewrite !(proj2 (Z.eqb_neq _ 0)) by lia. cbn [orb].
  rewrite (u32_small (p_payload_bits par + p_frc_bits par)) by lia.
  set (ds := sr * (p_payload_bits par + p_frc_bits par) / p_payload_rate par) in *.
  set (cs := sr * p_cri_bits par / p_cri_rate par) in *. set (step := sr * 256 / p_payload_rate par) in *.
  rewrite (u32_small ds), (u32_small cs), (u32_small step), (u32_small (cs + ds)) by lia.
  rewrite !(proj2 (Z.ltb_ge _ _)) by lia. cbn [orb].
  destruct (if negb (p_payload_bits par .& 7 =? 0) then _ else _) as [payload endian].
  destruct (phase_shift_le sr (p_cri_rate par) step (p_modulation par)) as (ph & -> & _ & _); [lia..|].
  by eexists.
Qed.

(** ** The duration of the signal *)

(** What is computed for an entry of the table: the signal is not shorter, as a number of
    type [double], than the bits take, up to [2 ^ -36] seconds. *)
Definition duration_ok (par : _vbi_service_par) : bool :=
  match signal_length par with
  | S754_finite false m e =>
      let cr := par_cri_rate par in let br := par_bit_rate par in
      let bits := par_cri_bits par * br + (par_payload par + par_frc_bits par) * cr in
      (Z.pos m <? 2 ^ 53) && (e <=? -36) && (0 <? cr) && (0 <? br) &&
      (2 ^ (- (e + 36)) * 2 ^ 36 * bits - Z.pos m * (cr * br) <=? 2 ^ (- (e + 36)) * (cr * br))
  | _ => false
  end.

Lemma too_short par sr spl n : duration_ok par = true → 0 < sr < 2 ^ 31 →
  spl < sr * par_cri_bits par / par_cri_rate par + sr * (par_payload par + par_frc_bits par) / par_bit_rate par →
  n * sr ≤ spl * 2 ^ 36 + sr - 1 →
  ∃ m e, signal_length par = S754_finite false m e ∧ Z.pos m < 2 ^ 53 ∧ ¬ dle (Z.pos m) (e + 36) n.
Proof.
  unfold duration_ok. destruct (signal_length par) as [| | |[] m e]; try done. intros H Hsr Hspl Hn.
  rewrite !andb_true_iff, !Z.ltb_lt, !Z.leb_le in H. destruct H as ((((Hm & He) & Hcr) & Hbr) & Hd).
  exists m, e. split; [done|]. split; [done|]. intros D. apply dle_neg in D; [|lia].
  set (cr := par_cri_rate par) in *. set (br := par_bit_rate par) in *. set (cb := par_cri_bits par) in *.
  set (bits := par_payload par + par_frc_bits par) in *. set (E := 2 ^ (- (e + 36))) in *.
  assert (E0 : 0 < E) by (apply Z.pow_pos_nonneg; lia).
  pose proof (div_bounds (sr * cb) cr Hcr) as [B1 _]. pose proof (div_bounds (sr * bits) br Hbr) as [B2 _].
  set (cs := sr * cb / cr) in *. set (ds := sr * bits / br) in *.
  assert (CB : 0 < cr * br) by nia.
  assert (S : (spl + 1) * (cr * br) ≤ sr * (cb * br + bits * cr)).
  { assert ((cs + ds) * (cr * br) ≤ sr * (cb * br + bits * cr)) by nia. nia. }
  assert (M : Z.pos m * sr ≤ (spl * 2 ^ 36 + sr - 1) * E) by nia.
  assert (M2 : Z.pos m * sr * (cr * br) ≤ (spl * 2 ^ 36 + sr - 1) * E * (cr * br)) by nia.
  assert (S2 : (spl + 1) * (cr * br) * (2 ^ 36 * E) ≤ sr * (cb * br + bits * cr) * (2 ^ 36 * E)).
  { apply Z.mul_le_mono_nonneg_r; [lia|done]. }
  assert (F : 2 ^ 36 * E * (cr * br) ≤ sr * (2 * E * (cr * br))) by nia.
  assert (E1 : 0 < E * (cr * br)) by nia.
  assert (2 ^ 36 ≤ sr * 2) by nia. lia.
Qed.

(** A permitted service is long enough in whole samples, too. *)
Lemma duration_permitted sp par strict : duration_ok par = true → 0 < sampling_rate sp < 2 ^ 31 →
  0 ≤ par_samples_per_line sp ≤ 32767 → SFltb (sampling_length sp strict) (signal_length par) = false →
  sampling_rate sp * par_cri_bits par / par_cri_rate par
    + sampling_rate sp * (par_payload par + par_frc_bits par) / par_bit_rate par ≤ par_samples_per_line sp.
Proof.
  intros Hd Hsr Hspl Hlt. set (sr := sampling_rate sp) in *. set (spl := par_samples_per_line sp) in *.
  match goal with |- ?x ≤ _ => destruct (Z.le_gt_cases x spl) as [|G]; [done|exfalso] end.
  set (n := (spl * 2 ^ 36 + sr - 1) / sr).
  pose proof (div_bounds (spl * 2 ^ 36 + sr - 1) sr ltac:(lia)) as N. fold n in N.
  destruct (too_short par sr spl n Hd Hsr ltac:(lia) ltac:(lia)) as (m & e & Es & Hm & Hn). rewrite Es in Hlt.
  assert (N0 : 0 ≤ n < 2 ^ 52) by (unfold n in *; split; [apply Z.div_pos|apply Z.div_lt_upper_bound]; nia).
  assert (L : d_le (d_div (d_of_Z spl) (d_of_Z sr)) 36 n).
  { apply (d_div_le _ sr 36 (spl * 2 ^ 36)); [apply d_of_Z_le; lia|lia..]. }
  assert (Nx : d_normal (-200) (d_div (d_of_Z spl) (d_of_Z sr))) by (apply d_div_normal; lia).
  unfold sampling_length in Hlt. fold sr spl in Hlt. cbv zeta in Hlt. destruct (0 <? strict).
  - assert (Em : d_micro = S754_finite false 4722366482869645 (-72)) by (vm_compute; reflexivity).
    rewrite Em in Hlt.
    destruct (d_sub_le (-200) _ 36 n 4722366482869645 (-72) L Nx) as [[Ny Ly]|H]; [lia..| |by rewrite H in Hlt].
    by rewrite (SFltb_le _ _ _ _ _ _ Ly Ny Hm Hn) in Hlt.
  - by rewrite (SFltb_le _ _ _ _ _ _ L Nx Hm Hn) in Hlt.
Qed.

(** ** The table *)

#[global] Instance modulation_eq_dec : EqDecision vbi3_modulation.
Proof. solve_decision. Defined.
#[global] Instance service_par_eq_dec : EqDecision service_par.
Proof. solve_decision. Defined.

(** The entries for all scan lines have no clock run-in and are never decoded. *)
Definition VBI_SLICED_VBI : Z := VBI_SLICED_VBI_525 .| VBI_SLICED_VBI_625.
Definition all_lines (par : _vbi_service_par) : bool := negb (par_id par .& VBI_SLICED_VBI =? 0).

Definition entry_ok (par : _vbi_service_par) : bool :=
  duration_ok par && (1 <=? par_cri_bits par) && (par_cri_bits par <=? 32) && (0 <=? par_frc_bits par)
  && (par_frc_bits par <=? 32) && (1 <=? par_payload par) && (par_payload par <=? 56 * 8)
  && (0 <? par_bit_rate par) && (par_bit_rate par <=? par_cri_rate par) && (par_cri_rate par <=? service_rate par)
  && (2 ^ 31 <=? 2 ^ 15 * par_bit_rate par) && (0 <? par_id par) && (par_id par <? 2 ^ 31).

Definition overlap (par par' : _vbi_service_par) : bool := negb (par_id par .& par_id par' =? 0).

(** Entries of the same service are sliced alike. *)
Definition overlap_ok (par par' : _vbi_service_par) : bool :=
  negb (overlap par par') || bool_decide (slicer_par par = slicer_par par').

Lemma service_table_ok par : par ∈ _vbi_service_table → all_lines par = false → entry_ok par = true.
Proof.
  intros Hp Ha. assert (T : forallb (λ par, all_lines par || entry_ok par) _vbi_service_table = true)
    by (vm_compute; reflexivity).
  rewrite forallb_forall in T. apply list_elem_of_In, T in Hp. by rewrite Ha in Hp.
Qed.

Lemma service_table_overlap par par' : par ∈ _vbi_service_table → par' ∈ _vbi_service_table →
  overlap par par' = true → slicer_par par = slicer_par par'.
Proof.
  intros Hp Hp' Ho.
  assert (T : forallb (λ p, forallb (overlap_ok p) _vbi_service_table) _vbi_service_table = true)
    by (vm_compute; reflexivity).
  rewrite forallb_forall in T. apply list_elem_of_In, T in Hp. rewrite forallb_forall in Hp.
  apply list_elem_of_In, Hp in Hp'. unfold overlap_ok in Hp'. rewrite Ho in Hp'. by apply bool_decide_eq_true in Hp'.
Qed.

Lemma service_table_all_lines par par' : par ∈ _vbi_service_table → par' ∈ _vbi_service_table →
  overlap par par' = true → all_lines par = false → all_lines par' = false.
Proof.
  intros Hp Hp' Ho Ha.
  assert (T : forallb (λ p, forallb (λ p', negb (overlap p p') || all_lines p || negb (all_lines p')) _vbi_service_table)
    _vbi_service_table = true) by (vm_compute; reflexivity).
  rewrite forallb_forall in T. apply list_elem_of_In, T in Hp. rewrite forallb_forall in Hp.
  apply list_elem_of_In, Hp in Hp'. rewrite Ho, Ha in Hp'. by destruct (all_lines par').
Qed.

(** ** Permitted services *)

Lemma check_services_permits sp services strict : _vbi_sampling_par_check_services sp services strict ≠ 0 →
  ∃ par, par ∈ _vbi_service_table ∧ par_id par .& services ≠ 0 ∧ _vbi_sampling_par_permit_service sp par strict = true.
Proof.
  unfold _vbi_sampling_par_check_services.
  enough (G : ∀ l a, fold_left (λ rservices par, if par_id par .& services =? 0 then rservices
      else if _vbi_sampling_par_permit_service sp par strict then rservices .| par_id par else rservices) l a ≠ 0 →
    a ≠ 0 ∨ ∃ par, par ∈ l ∧ par_id par .& services ≠ 0 ∧ _vbi_sampling_par_permit_service sp par strict = true)
    by (intros H; by destruct (G _ _ H)).
  induction l as [|par l IH]; intros a H; cbn [fold_left] in H; [by left|].
  apply IH in H as [H|(p & ? & ?)]; [|right; exists p; split; [by right|done]].
  destruct (Z.eqb_spec (par_id par .& services) 0) as [|N]; [by left|].
  destruct (_vbi_sampling_par_permit_service sp par strict) eqn:P; [|by left].
  right. exists par. split; [by left|]. done.
Qed.

(** Sampling parameters that are valid, of a supported pixel format, and not too large for
    the slicer. *)
Record sampling_ok (sp : vbi_sampling_par) : Prop := SamplingOk {
  sm_valid : _vbi_sampling_par_valid sp = true;
  sm_format : supported_format (sampling_format sp) = true;
  sm_rate : 0 < sampling_rate sp < 2 ^ 31;
  sm_bytes : 0 < bytes_per_line sp ≤ 32767;
  sm_start : 0 ≤ (start sp).1 < 2 ^ 30 ∧ 0 ≤ (start sp).2 < 2 ^ 30;
  sm_count : 0 ≤ (count sp).1 < 2 ^ 30 ∧ 0 ≤ (count sp).2 < 2 ^ 30
}.

Lemma bpp_range fmt : 1 ≤ VBI_PIXFMT_BPP fmt ≤ 4.
Proof. unfold VBI_PIXFMT_BPP. repeat case_match; lia. Qed.

Lemma samples_range sp : sampling_ok sp → par_samples_per_line sp = bytes_per_line sp / VBI_PIXFMT_BPP (sampling_format sp) ∧
  0 ≤ par_samples_per_line sp ≤ 32767 ∧ par_samples_per_line sp * VBI_PIXFMT_BPP (sampling_format sp) ≤ bytes_per_line sp.
Proof.
  intros H. pose proof (sm_bytes sp H). pose proof (bpp_range (sampling_format sp)). unfold par_samples_per_line.
  rewrite Z.quot_div_nonneg by lia.
  set (b := VBI_PIXFMT_BPP (sampling_format sp)) in *. pose proof (div_bounds (bytes_per_line sp) b ltac:(lia)).
  assert (0 ≤ bytes_per_line sp / b) by (apply Z.div_pos; lia).
  rewrite u32_small by nia. split; [done|]. nia.
Qed.

(** The bytes from the start of a scan line on that may be read. *)
Definition line_memory (sp : vbi_sampling_par) : Z := bytes_per_line sp + 17 * VBI_PIXFMT_BPP (sampling_format sp).

(** A slicer for the lines of an image. *)
Definition slicer_fits (sp : vbi_sampling_par) (bs : vbi3_bit_slicer) : Prop :=
  slicer_ok bs ∧ octets_stored bs ≤ 56 ∧ bytes_read bs ≤ line_memory sp.

(** An entry that is permitted at the given strictness. *)
Lemma permitted_entry sp par strict : sampling_ok sp → entry_ok par = true →
  _vbi_sampling_par_permit_service sp par strict = true → ∃ bs, job_slicer sp par = Some bs ∧ slicer_fits sp bs.
Proof.
  intros Hsp T Hper. unfold job_slicer, entry_ok in *. rewrite !andb_true_iff, !Z.leb_le, !Z.ltb_lt in T.
  destruct T as ((((((((((((Hd & T1) & T2) & T3) & T4) & T5) & T6) & T7) & T8) & T9) & T10) & T11) & T12).
  pose proof (samples_range sp Hsp) as (_ & Hspl & Hbpl). pose proof (sm_rate sp Hsp) as Hsr.
  unfold _vbi_sampling_par_permit_service in Hper.
  destruct (_ =? 0); [done|]. destruct (negb _ && requires_lines _ _); [done|].
  destruct (Z.ltb_spec (u32 (sampling_rate sp)) (service_rate par)) as [|Hrate]; [done|].
  destruct (SFltb _ _) eqn:Hlt; [done|]. clear Hper. rewrite u32_small in Hrate |- * by lia.
  pose proof (duration_permitted sp par strict Hd Hsr Hspl Hlt) as Hfit.
  assert (So : service_ok (sampling_rate sp) 0 (slicer_par par)) by (split; cbn; lia).
  destruct (set_params_accepts (_vbi3_bit_slicer_init bs_cleared).2 (sampling_format sp) (sampling_rate sp) 0
    (par_samples_per_line sp) (slicer_par par) So Hspl (sm_format sp Hsp)) as [bs E]; [cbn; lia|lia|cbn; lia|].
  destruct (set_params_ok (_vbi3_bit_slicer_init bs_cleared).2 (sampling_format sp) (sampling_rate sp) 0
    (par_samples_per_line sp) (slicer_par par) So Hspl ltac:(cbn; lia)) as (ok & bs' & E' & H).
  rewrite E in E'. injection E' as <- <-. rewrite E. cbn [mbind option_bind]. destruct (H eq_refl) as (H1 & H2 & H3).
  exists bs. split; [done|]. split; [done|]. unfold octets_stored. rewrite H2. cbn [slicer_par p_payload_bits].
  split; [Z.div_mod_to_equations; lia|]. unfold line_memory, overread in *.
  pose proof (bpp_range (sampling_format sp)). destruct (decide _); nia.
Qed.

(** A service that is accepted is permitted by an entry that is sliced alike. *)
Lemma accepted_entry sp par strict : par ∈ _vbi_service_table → all_lines par = false →
  _vbi_sampling_par_check_services sp (par_id par) strict ≠ 0 →
  ∃ par', job_slicer sp par' = job_slicer sp par ∧ entry_ok par' = true ∧ _vbi_sampling_par_permit_service sp par' strict = true.
Proof.
  intros Hp Ha Hc. apply check_services_permits in Hc as (par' & Hp' & Ho & Hper).
  assert (O : overlap par' par = true) by (unfold overlap; by rewrite (proj2 (Z.eqb_neq _ _) Ho)).
  assert (O' : overlap par par' = true) by (unfold overlap in *; by rewrite Z.land_comm).
  exists par'. split; [unfold job_slicer; by rewrite (service_table_overlap par' par Hp' Hp O)|].
  split; [apply (service_table_ok par' Hp'), (service_table_all_lines par par' Hp Hp' O' Ha)|done].
Qed.


(** A PAL frame with 16 lines of each field at 13.5 MHz. *)
Definition pal_sampling : vbi_sampling_par :=
  SamplingPar 625 VBI_PIXFMT_YUV420 13500000 720 0 (7, 320) (16, 16) false true.

Lemma pal_sampling_ok : sampling_ok pal_sampling.
Proof. split; cbn; [vm_compute; reflexivity..|lia|lia|lia|lia]. Qed.

Definition teletext_service : _vbi_service_par :=
  Par VBI_SLICED_TELETEXT_B_L10_625 "Teletext System B 625 Level 1.5" VBI_VIDEOSTD_SET_625_50 (7, 320) (22, 335)
    10300 6937500 6937500 0x00AAAAE4 0xFFFF 18 6 (42 * 8) VBI3_MODULATION_NRZ_LSB 0.

