(* ===== verification/RawLines.v ===== *)
(** Decoding a line and the lines of an image stays inside the image, the pattern and the
    jobs of the raw VBI decoder: rows of the pattern, slicers, lines. *)
From stdpp Require Import sorting.
From S2P Require Import Prelude Double Sliced BitSlicer SlicerBounds Services SamplingPar RawDecoder Permit.

(** ** Rows of the pattern *)

(** A row refers to the first [n] jobs, one of its ways is empty, and when the last way is a
    job the first one is empty: finding data overwrites the last way. *)
Record row_ok (n : Z) (row : list Z) : Prop := RowOk {
  row_length : length row = 8%nat;
  row_entries : Forall (λ x, -128 ≤ x ≤ n) row;
  row_empty : Exists (λ x, x ≤ 0) row;
  row_last : 0 < row.[7] → row.[0] ≤ 0
}.

(** How often a row has job [j]. *)
Definition how_often (j : Z) (row : list Z) : Z := foldr (λ x n, Z.b2z (x =? j) + n) 0 row.
Definition same_jobs (row row' : list Z) : Prop := ∀ j, 0 < j → how_often j row' = how_often j row.

Lemma how_often_nonneg j row : 0 ≤ how_often j row.
Proof. induction row as [|x row IH]; cbn [how_often foldr]; [done|]. fold (how_often j row). destruct (x =? j); cbn; lia. Qed.

Lemma how_often_in j row : 0 < how_often j row ↔ j ∈ row.
Proof.
  induction row as [|x row IH]; cbn [how_often foldr]; [split; [lia|by intros ?%not_elem_of_nil]|].
  rewrite elem_of_cons, <- IH. pose proof (how_often_nonneg j row).
  fold (how_often j row). destruct (Z.eqb_spec x j) as [->|]; cbn [Z.b2z]; [lia|]. split; [right; lia|intros [->|]; lia].
Qed.

#[export] Instance same_jobs_refl : Reflexive same_jobs.
Proof. done. Qed.
#[export] Instance same_jobs_trans : Transitive same_jobs.
Proof. intros r1 r2 r3 H1 H2 j Hj. by rewrite H2, H1. Qed.

(** The jobs that are tried on a line: those before the first empty way. *)
Fixpoint tried (row : list Z) : list Z :=
  match row with x :: row => if 0 <? x then x :: tried row else [] | [] => [] end.

(** A row is active when all its jobs are tried, and tried again in the next image. *)
Fixpoint jobs_first (row : list Z) : Prop :=
  match row with x :: (y :: _) as row => (0 < y → 0 < x) ∧ jobs_first row | _ => True end.
Definition active (row : list Z) : Prop := Forall (λ x, x ≤ 0) row ∨ (row.[7] < 0 ∧ jobs_first row).

(** What decoding keeps of a row. *)
Definition kept_row (row row' : list Z) : Prop := same_jobs row row' ∧ (active row → active row').

#[export] Instance kept_row_refl : Reflexive kept_row.
Proof. done. Qed.
#[export] Instance kept_row_trans : Transitive kept_row.
Proof. intros r1 r2 r3 [H1 A1] [H2 A2]. split; [by etrans|auto]. Qed.

Lemma tried_lookup row x : ∀ k, row !! k = Some x → (∀ j y, (j ≤ k)%nat → row !! j = Some y → 0 < y) → x ∈ tried row.
Proof.
  induction row as [|y row IH]; intros k Hk Hpos; [done|]. cbn [tried].
  rewrite (proj2 (Z.ltb_lt 0 y)) by (apply (Hpos 0%nat); [lia|done]). destruct k as [|k]; cbn in Hk; [injection Hk as ->; by left|].
  right. apply (IH k Hk). intros j z Hj Hz. apply (Hpos (S j)); [lia|done].
Qed.

Lemma tried_before row x : x ∈ tried row → ∃ k, row !! k = Some x ∧ ∀ j y, (j ≤ k)%nat → row !! j = Some y → 0 < y.
Proof.
  induction row as [|y row IH]; cbn [tried]; [by intros ?%not_elem_of_nil|].
  destruct (Z.ltb_spec 0 y); [|by intros ?%not_elem_of_nil]. intros [->|Hx]%elem_of_cons.
  - exists 0%nat. split; [done|]. intros [|j] z Hj Hz; [|lia]. cbn in Hz. by injection Hz as <-.
  - destruct (IH Hx) as (k & Hk & Hpos). exists (S k). split; [done|]. intros [|j] z Hj Hz; cbn in Hz; [by injection Hz as <-|].
    apply (Hpos j); [lia|done].
Qed.

(** In an active row all jobs are tried. *)
Lemma active_tried row num : active row → 0 < num → num ∈ row → num ∈ tried row.
Proof.
  intros [F|[_ F]] Hn Hin.
  - rewrite List.Forall_forall in F. specialize (F num ltac:(by apply list_elem_of_In)). cbn in F. lia.
  - induction row as [|x row IH]; [by apply not_elem_of_nil in Hin|]. cbn [tried].
    assert (Hx : 0 < x).
    { clear IH. revert x F Hin. induction row as [|y row IH]; intros x F Hin; [apply list_elem_of_singleton in Hin; lia|].
      destruct F as [F1 F2]. apply elem_of_cons in Hin as [->|Hin]; [done|]. apply F1. by apply IH. }
    rewrite (proj2 (Z.ltb_lt 0 x)) by done. apply elem_of_cons in Hin as [->|Hin]; [by left|right].
    apply IH; [|done]. destruct row; [done|apply F].
Qed.

(** The ways of a row. *)
Ltac row_cases row H :=
  let L := fresh "L" in pose proof (row_length _ _ H) as L;
  destruct row as [|x0 [|x1 [|x2 [|x3 [|x4 [|x5 [|x6 [|x7 [|]]]]]]]]]; try discriminate L; clear L.
Ltac row_eval := cbv [tbl nth Z.to_nat Pos.to_nat Pos.iter_op Nat.add insert list_insert firstn skipn app] in *.
Ltac entries := repeat first [apply List.Forall_nil|apply List.Forall_cons; [cbv beta; lia|]].
Ltac empty_way := repeat (first [left; cbv beta; lia|right]).
Ltac split_entries := repeat match goal with H : Forall _ (_ :: _) |- _ => apply Forall_cons_iff in H as [? H] end.
Ltac way_cases p := let E := fresh in
  assert (p = 0 ∨ p = 1 ∨ p = 2 ∨ p = 3 ∨ p = 4 ∨ p = 5 ∨ p = 6 ∨ p = 7) as E by lia;
  destruct E as [->|[->|[->|[->|[->|[->|[->| ->]]]]]]].
Ltac count_ways := let j := fresh "j" in let Hj := fresh "Hj" in
  intros j Hj; cbn [how_often foldr];
  repeat match goal with |- context [?x =? j] => first [rewrite (proj2 (Z.eqb_neq x j)) by lia | lazymatch goal with |- context [Z.b2z (x =? j)] => let b := fresh "b" in generalize (Z.b2z (x =? j)); intros b end] end; lia.

Ltac keep_active := intros [F|[F7 F]]; [split_entries; cbv beta in *; first [lia|solve [left; entries]]|
  cbn [jobs_first] in *; row_eval; first [lia|solve [left; entries]|right; cbn [jobs_first]; row_eval; lia]].

(** What decoding a line does to its row: data of job [j] was found, *)
Definition found_row (row : list Z) (pat : Z) : list Z :=
  let row' := <[7%nat := -128]> row in <[0%nat := row.[pat]]> (<[Z.to_nat pat := row'.[0]]> row').

Lemma found_row_eq n row pat : row_ok n row → n ≤ 127 → 0 ≤ pat < 8 → (∀ i, 0 ≤ i ≤ pat → 0 < row.[i]) →
  ∃ row1, wr row 7 (-128) = Some row1 ∧ try_first row1 pat row.[pat] = Some (found_row row pat) ∧
    row_ok n (found_row row pat) ∧ kept_row row (found_row row pat) ∧ (found_row row pat).[0] = row.[pat].
Proof.
  intros H Hn Hp Hpos. pose proof (row_last _ _ H) as H7. pose proof (row_entries _ _ H) as He.
  pose proof (Hpos 0 ltac:(lia)) as P0. pose proof (Hpos pat ltac:(lia)) as Pp. clear Hpos.
  row_cases row H. clear H. split_entries. eexists. split; [reflexivity|].
  way_cases pat; (split; [reflexivity|]); unfold found_row; row_eval; try (exfalso; lia);
    (split; [split; row_eval; [done|entries|empty_way|lia]|split; [split; [count_ways|keep_active]|done]]).
Qed.

(** nothing was found on a line predicted as blank, *)
Lemma rotate_ok n row : row_ok n row → 0 ≤ n → row.[0] ≤ 0 →
  ∃ row', rotate row = Some row' ∧ row_ok n row' ∧ kept_row row row'.
Proof.
  intros H Hn H0. pose proof (row_entries _ _ H) as He. row_cases row H. clear H. split_entries.
  eexists. split; [reflexivity|]. row_eval. split; [split; row_eval; [done|entries|empty_way|lia]|split; [count_ways|keep_active]].
Qed.

(** and nothing was found on another line. *)
Lemma missed_ok n row pat : row_ok n row → 0 ≤ n → 0 < pat < 8 → (∀ i, 0 ≤ i < pat → 0 < row.[i]) → row.[pat] ≤ 0 →
  0 ≤ row.[7] → ∃ row', try_first row pat row.[7] = Some row' ∧ row_ok n row' ∧ kept_row row row'.
Proof.
  intros H Hn Hp Hpos Hpat H7. pose proof (row_last _ _ H) as Hl. pose proof (row_entries _ _ H) as He.
  pose proof (Hpos 0 ltac:(lia)) as P0. clear Hpos. row_cases row H. clear H. split_entries.
  way_cases pat; try lia; (eexists; split; [reflexivity|]); row_eval;
    (split; [split; row_eval; [done|entries|empty_way|lia]|split; [count_ways|keep_active]]).
Qed.

Lemma rd_row n row i : row_ok n row → 0 ≤ i < 8 → rd row i = Some row.[i].
Proof.
  intros H Hi. unfold rd, tbl. rewrite decide_True by lia. rewrite nth_lookup.
  destruct (lookup_lt_is_Some_2 row (Z.to_nat i)) as [x ->]; [rewrite (row_length _ _ H); lia|done].
Qed.

Lemma row_lookup n row i : row_ok n row → 0 ≤ i < 8 → row !! Z.to_nat i = Some row.[i].
Proof. intros H Hi. pose proof (rd_row _ _ _ H Hi) as E. unfold rd in E. by rewrite decide_True in E by lia. Qed.

Lemma row_entry n row i : row_ok n row → 0 ≤ i < 8 → -128 ≤ row.[i] ≤ n ∧ row.[i] ∈ row.
Proof.
  intros H Hi. pose proof (rd_row _ _ _ H Hi) as E. unfold rd in E. rewrite decide_True in E by lia.
  split; [exact (proj1 (Forall_lookup _ _) (row_entries _ _ H) _ _ E)|by eapply list_elem_of_lookup_2].
Qed.

Lemma row_not_full n row : row_ok n row → ¬ ∀ i, 0 ≤ i < 8 → 0 < row.[i].
Proof.
  intros H F. pose proof (row_empty _ _ H) as E. apply Exists_exists in E as (x & Hx & Le).
  apply list_elem_of_In, list_elem_of_lookup_1 in Hx as [i Hi]. pose proof (lookup_lt_Some _ _ _ Hi) as L. rewrite (row_length _ _ H) in L.
  specialize (F (Z.of_nat i) ltac:(lia)). unfold tbl in F. rewrite Nat2Z.id, nth_lookup, Hi in F. cbn in F. lia.
Qed.

(** ** Slicers and jobs *)

Lemma adapted_trans b1 b2 b3 : adapted b1 b2 → adapted b2 b3 → adapted b1 b3.
Proof. unfold adapted. intros H1 H2. rewrite H2, H1. done. Qed.

Lemma adapted_sym b1 b2 : adapted b1 b2 → adapted b2 b1.
Proof. unfold adapted. intros H. rewrite H. by destruct b1. Qed.

Lemma slicer_fits_adapted sp bs bs' : slicer_fits sp bs → adapted bs bs' → slicer_ok bs' → slicer_fits sp bs'.
Proof. intros (H1 & H2 & H3) A H. rewrite A in H |- *. split; [done|]. split; [exact H2|exact H3]. Qed.

(** The same job, its threshold may have adapted to the signal. *)
Definition same_job (j j' : decoder_job) : Prop := job_id j' = job_id j ∧ adapted (slicer j) (slicer j').

#[export] Instance same_job_refl : Reflexive same_job.
Proof. intros j. split; [done|apply adapted_refl]. Qed.
#[export] Instance same_job_trans : Transitive same_job.
Proof. intros j1 j2 j3 [I1 A1] [I2 A2]. split; [congruence|by eapply adapted_trans]. Qed.

#[export] Instance same_job_sym : Symmetric same_job.
Proof. intros j1 j2 [I A]. split; [done|by apply adapted_sym]. Qed.

(** The first [n] jobs are ready for the lines of the image. *)
Definition jobs_ok (sp : vbi_sampling_par) (n : Z) (js : list decoder_job) : Prop :=
  length js = 8%nat ∧ 0 ≤ n ≤ 8 ∧ ∀ i j, js !! i = Some j → Z.of_nat i < n → slicer_fits sp (slicer j).

(** Decoding changes nothing in the decoder but jobs, pattern and counter. *)
Definition same_decoder (rd rd' : vbi3_raw_decoder) : Prop :=
  ∃ js, rd' = set_jobs js rd ∧ Forall2 same_job (jobs rd) js.

Lemma same_decoder_refl rd : same_decoder rd rd.
Proof. exists (jobs rd). split; [by destruct rd|reflexivity]. Qed.
Lemma same_decoder_trans rd1 rd2 rd3 : same_decoder rd1 rd2 → same_decoder rd2 rd3 → same_decoder rd1 rd3.
Proof. intros (j1 & -> & H1) (j2 & -> & H2). exists j2. split; [done|]. cbn in H2. by etrans. Qed.
Lemma same_decoder_sym rd rd' : same_decoder rd rd' → same_decoder rd' rd.
Proof. intros (js & -> & H). exists (jobs rd). split; [by destruct rd|by symmetry]. Qed.

(** ** Decoding a line *)

(** What the decoder needs: debugging is off, the first [n] jobs are ready. *)
Definition decoding (n : Z) (rd : vbi3_raw_decoder) : Prop := debug rd = false ∧ jobs_ok (sampling rd) n (jobs rd).

(** Job [num] slices a line, [raw], with result [r]; its threshold may have adapted. *)
Definition sliced_by (rd : vbi3_raw_decoder) (num : Z) (raw : list Z) (job : decoder_job) (r : slice_result) : Prop :=
  jobs rd !! Z.to_nat (num - 1) = Some job ∧
  ∃ bs buffer, adapted (slicer job) bs ∧ vbi3_bit_slicer_slice bs buffer 56 raw = Some r.

(** A job tried on line [i] finds [out]. *)
Definition delivers (rd : vbi3_raw_decoder) (row : list Z) (i : Z) (raw : list Z) (out : vbi_sliced) : Prop :=
  ∃ num job r, num ∈ tried row ∧ sliced_by rd num raw job r ∧ r_ok r = true ∧
    out = Sliced (job_id job) (line_number rd i) (r_buffer r).

(** No job tried on the line finds data. *)
Definition misses (rd : vbi3_raw_decoder) (row : list Z) (raw : list Z) : Prop :=
  ∀ num, num ∈ tried row → ∃ job r, sliced_by rd num raw job r ∧ r_ok r = false.

Lemma sliced_by_before rd rd' num raw job r : same_decoder rd rd' → sliced_by rd' num raw job r →
  ∃ job0, sliced_by rd num raw job0 r ∧ job_id job0 = job_id job.
Proof.
  intros (js & -> & Hj) (H3 & bs & buffer & H4 & H5). cbn in H3.
  destruct (Forall2_lookup_r _ _ _ _ _ Hj H3) as (job0 & E0 & I0 & A0).
  exists job0. split; [|done]. split; [done|]. exists bs, buffer. split; [by eapply adapted_trans|done].
Qed.

Lemma delivers_before rd rd' row i raw out : same_decoder rd rd' → delivers rd' row i raw out → delivers rd row i raw out.
Proof.
  intros S (num & job & r & H1 & H2 & H3 & ->). destruct (sliced_by_before _ _ _ _ _ _ S H2) as (job0 & H0 & <-).
  exists num, job0, r. split; [done|]. split; [done|]. split; [done|]. by destruct S as (js & -> & _).
Qed.

Lemma misses_before rd rd' row raw : same_decoder rd rd' → misses rd' row raw → misses rd row raw.
Proof.
  intros S H num Hn. destruct (H num Hn) as (job & r & H2 & H3). destruct (sliced_by_before _ _ _ _ _ _ S H2) as (job0 & H0 & _).
  by exists job0, r.
Qed.

(** A line ends with or without a sliced line. *)
Definition line_outcome (s s' : line_state) (i : Z) (raw : list Z) : Prop :=
  (misses (ls_rd s) (ls_row s) raw ∧ ls_sliced s' = ls_sliced s ∧ ls_n s' = ls_n s) ∨
  (∃ out, delivers (ls_rd s) (ls_row s) i raw out ∧ sliced_ok out ∧
    ls_sliced s' = <[Z.to_nat (ls_n s) := out]> (ls_sliced s) ∧ ls_n s' = ls_n s + 1).

Definition line_done (n : Z) (s s' : line_state) (i : Z) (raw : list Z) : Prop :=
  same_decoder (ls_rd s) (ls_rd s') ∧ decoding n (ls_rd s') ∧ row_ok n (ls_row s') ∧ kept_row (ls_row s) (ls_row s') ∧
  line_outcome s s' i raw.

Lemma line_done_blank n s row i raw : decoding n (ls_rd s) → row_ok n row → kept_row (ls_row s) row →
  misses (ls_rd s) (ls_row s) raw → line_done n s (LineState (ls_rd s) (ls_sliced s) (ls_n s) row) i raw.
Proof. intros. split; [apply same_decoder_refl|]. split; [done|]. split; [done|]. split; [done|]. by left. Qed.

Lemma decoding_job n rd num : decoding n rd → 0 < num ≤ n → ∃ job, Prelude.rd (jobs rd) (num - 1) = Some job ∧
  jobs rd !! Z.to_nat (num - 1) = Some job ∧ slicer_fits (sampling rd) (slicer job).
Proof.
  intros (_ & L & Hn & F) H. destruct (rd_is_Some (jobs rd) (num - 1)) as (job & E & E'); [lia|].
  exists job. split; [done|]. split; [done|]. eapply F; [done|]. lia.
Qed.

Lemma decoding_adapted n rd i job bs : decoding n rd → jobs rd !! i = Some job → adapted (slicer job) bs →
  slicer_fits (sampling rd) bs →
  let rd' := set_jobs (<[i := set_slicer bs job]> (jobs rd)) rd in decoding n rd' ∧ same_decoder rd rd'.
Proof.
  intros (D & L & Hn & F) Hi A Hf. split.
  - split; [done|]. cbn. split; [by rewrite length_insert|]. split; [done|]. intros k j Hk Hkn.
    apply list_lookup_insert_Some in Hk as [(-> & <- & _)|(_ & Hk)]; [done|]. by eapply F.
  - exists (<[i := set_slicer bs job]> (jobs rd)). split; [done|]. apply Forall2_same_length_lookup_2; [by rewrite length_insert|].
    intros k x y Hx Hy. apply list_lookup_insert_Some in Hy as [(-> & <- & _)|(_ & Hy)].
    + replace x with job by congruence. done.
    + replace y with x by congruence. reflexivity.
Qed.

(** Slicing a line. *)
Lemma slice_line n rd out job i raw : decoding n rd → slicer_fits (sampling rd) (slicer job) → sliced_ok out → bytes raw →
  line_memory (sampling rd) ≤ Z.of_nat (length raw) →
  ∃ r, slice rd (data out) job i raw = Some (r, sp_lines rd) ∧ vbi3_bit_slicer_slice (slicer job) (data out) 56 raw = Some r ∧
    adapted (slicer job) (r_bs r) ∧ slicer_fits (sampling rd) (r_bs r) ∧ (r_ok r = false → r_buffer r = data out) ∧
    length (r_buffer r) = 56%nat ∧ bytes (r_buffer r).
Proof.
  intros (D & _) Hf (Hl & Hb) Hraw Hm. pose proof Hf as (F1 & F2 & F3).
  assert (X : ∃ r, vbi3_bit_slicer_slice (slicer job) (data out) 56 raw = Some r ∧ slicer_ok (r_bs r) ∧ adapted (slicer job) (r_bs r) ∧
    (r_ok r = false → r_buffer r = data out) ∧ wrote (data out) 0 (octets_stored (slicer job)) (r_buffer r)).
  { unfold vbi3_bit_slicer_slice. destruct (_ <? _); [by apply line_refused|apply run_func_ok; (done || lia)]. }
  destruct X as (r & E & S1 & S2 & S3 & (W1 & W2 & _)).
  exists r. unfold slice. rewrite D, E. cbn. split; [done|]. split; [done|]. split; [done|].
  split; [by eapply slicer_fits_adapted|]. split; [done|]. split; [lia|auto].
Qed.

Lemma wr_same {A} (l : list A) i x : rd l i = Some x → wr l i x = Some l.
Proof.
  intros H. pose proof (rd_Some _ _ _ H). unfold wr, rd in *. rewrite decide_True in H by lia. rewrite decide_True by lia.
  by rewrite list_insert_id.
Qed.

Lemma wr_ok {A} (l : list A) i x : 0 ≤ i < Z.of_nat (length l) → wr l i x = Some (<[Z.to_nat i := x]> l).
Proof. intros. unfold wr. by rewrite decide_True. Qed.

Lemma set_debug_same rd js : set_debug (debug rd) (sp_lines rd) (set_jobs js rd) = set_jobs js rd.
Proof. done. Qed.

Lemma tried_upto n row pat : row_ok n row → 0 ≤ pat < 8 → (∀ k, 0 ≤ k ≤ pat → 0 < row.[k]) → row.[pat] ∈ tried row.
Proof.
  intros H Hp Hpos. pose proof (row_lookup _ _ _ H Hp) as E.
  apply (tried_lookup row _ (Z.to_nat pat) E). intros j y Hj Hy. specialize (Hpos (Z.of_nat j) ltac:(lia)).
  unfold tbl in Hpos. by rewrite Nat2Z.id, nth_lookup, Hy in Hpos.
Qed.

Lemma misses_upto n rd row raw pat : row_ok n row → 0 ≤ pat < 8 → row.[pat] ≤ 0 →
  (∀ k, 0 ≤ k < pat → ∃ job r, sliced_by rd row.[k] raw job r ∧ r_ok r = false) → misses rd row raw.
Proof.
  intros H Hp Hj Hmiss num (k & Hk & Hpos)%tried_before. destruct (decide (Z.of_nat k < pat)) as [L|L].
  - specialize (Hmiss (Z.of_nat k) ltac:(lia)). unfold tbl in Hmiss. by rewrite Nat2Z.id, nth_lookup, Hk in Hmiss.
  - pose proof (row_lookup _ _ _ H Hp) as E.
    specialize (Hpos (Z.to_nat pat) _ ltac:(lia) E). lia.
Qed.

(** The end of the loop on a way without a job. *)
Lemma decode_blank n pat i raw s : decoding n (ls_rd s) → n ≤ 127 → row_ok n (ls_row s) → 0 ≤ pat < 8 →
  (∀ k, 0 ≤ k < pat → 0 < (ls_row s).[k]) → (ls_row s).[pat] ≤ 0 → misses (ls_rd s) (ls_row s) raw →
  ∃ s', (if pat =? 0 then
      row ← (if readjust (ls_rd s) =? 0 then rotate (ls_row s) else Some (ls_row s));
      Some (LineState (ls_rd s) (ls_sliced s) (ls_n s) row)
    else
      j ← Prelude.rd (ls_row s) (_VBI3_RAW_DECODER_MAX_WAYS - 1);
      if j <? 0 then Some s
      else row ← try_first (ls_row s) pat j; Some (LineState (ls_rd s) (ls_sliced s) (ls_n s) row)) = Some s' ∧
    line_done n s s' i raw.
Proof.
  intros D Hn H Hp Hpos Hj Hmiss. assert (Hn0 : 0 ≤ n) by apply D. destruct (Z.eqb_spec pat 0) as [->|N].
  - destruct (Z.eqb_spec (readjust (ls_rd s)) 0).
    + destruct (rotate_ok n _ H Hn0 Hj) as (row & -> & Hr & Hs). eexists. split; [reflexivity|]. by apply line_done_blank.
    + eexists. split; [reflexivity|]. by apply line_done_blank.
  - change (_VBI3_RAW_DECODER_MAX_WAYS - 1) with 7. rewrite (rd_row n) by (done || lia). cbn [mbind option_bind].
    destruct (Z.ltb_spec (ls_row s).[7] 0).
    + exists s. split; [done|]. replace s with (LineState (ls_rd s) (ls_sliced s) (ls_n s) (ls_row s)) at 2 by by destruct s.
      by apply line_done_blank.
    + destruct (missed_ok n _ pat H Hn0 ltac:(lia) Hpos Hj ltac:(done)) as (row & -> & Hr & Hs).
      eexists. split; [reflexivity|]. by apply line_done_blank.
Qed.

Lemma decode_ways_ok n i raw ways : ∀ pat s, Z.of_nat ways + pat = 8 → 0 ≤ pat → decoding n (ls_rd s) → n ≤ 127 →
  row_ok n (ls_row s) → 0 ≤ ls_n s < Z.of_nat (length (ls_sliced s)) → Forall sliced_ok (ls_sliced s) → bytes raw →
  line_memory (sampling (ls_rd s)) ≤ Z.of_nat (length raw) → (∀ k, 0 ≤ k < pat → 0 < (ls_row s).[k]) →
  (∀ k, 0 ≤ k < pat → ∃ job r, sliced_by (ls_rd s) (ls_row s).[k] raw job r ∧ r_ok r = false) →
  ∃ s', decode_ways ways pat i raw s = Some s' ∧ line_done n s s' i raw.
Proof.
  induction ways as [|ways IH]; intros pat s Hw Hp D Hn H Hk Hs Hraw Hm Hpos Hmiss.
  { exfalso. apply (row_not_full n (ls_row s) H). intros k Hk'. apply Hpos. lia. }
  cbn [decode_ways]. cbv zeta. pose proof (row_entry _ _ pat H ltac:(lia)) as [He Hin].
  rewrite (rd_row n (ls_row s) pat) by (done || lia). cbn [mbind option_bind]. destruct (Z.ltb_spec 0 (ls_row s).[pat]) as [Hj|Hj].
  2:{ apply decode_blank; try (done || lia). apply (misses_upto n _ _ _ pat); (done || lia). }
  destruct (decoding_job n _ (ls_row s).[pat] D ltac:(lia)) as (job & -> & Ej & Hf). cbn [mbind option_bind].
  destruct (rd_is_Some (ls_sliced s) (ls_n s) Hk) as (out & Eo & Eo'). rewrite Eo. cbn [mbind option_bind].
  pose proof (proj1 (List.Forall_forall _ _) Hs out ltac:(by eapply list_elem_of_In, list_elem_of_lookup_2)) as Ho.
  destruct (slice_line n (ls_rd s) out job i raw D Hf Ho Hraw Hm) as (r & -> & Er & A & F & Hfail & Hl & Hb).
  cbn [mbind option_bind].
  rewrite (wr_ok (jobs (ls_rd s))) by (apply lookup_lt_Some in Ej; lia). cbn [mbind option_bind]. rewrite set_debug_same.
  destruct (decoding_adapted n _ _ job (r_bs r) D Ej A F) as [D' Sd]. set (rd' := set_jobs _ _) in *.
  destruct (r_ok r) eqn:Eok; cbn [negb].
  - rewrite (wr_ok (ls_sliced s)) by lia. cbn [mbind option_bind].
    destruct (found_row_eq n (ls_row s) pat H Hn ltac:(lia)) as (row1 & Ew & Et & Hr & Hsame & _).
    { intros k Hk'. destruct (decide (k = pat)) as [->|]; [done|apply Hpos; lia]. }
    change (_VBI3_RAW_DECODER_MAX_WAYS - 1) with 7. rewrite Ew. cbn [mbind option_bind]. rewrite Et. cbn [mbind option_bind].
    eexists. split; [reflexivity|]. split; [done|]. split; [done|]. split; [done|]. split; [done|]. right.
    exists (Sliced (job_id job) (line_number rd' i) (r_buffer r)).
    split; [exists (ls_row s).[pat], job, r; split; [eapply tried_upto; [done|lia|]|by repeat split; try done; exists (slicer job), (data out); split; [apply adapted_refl|]]|].
    { intros k Hk'. destruct (decide (k = pat)) as [->|]; [done|apply Hpos; lia]. }
    split; [by split|]. done.
  - rewrite (Hfail eq_refl). replace (Sliced (id out) (line out) (data out)) with out by by destruct out.
    rewrite (wr_same _ _ _ Eo). cbn [mbind option_bind].
    destruct (IH (pat + 1) (LineState rd' (ls_sliced s) (ls_n s) (ls_row s))) as (s' & -> & S1 & S2 & S3 & S4 & S5);
      cbn [ls_rd ls_row ls_sliced ls_n]; try (done || lia).
    { intros k Hk'. destruct (decide (k = pat)) as [->|]; [done|apply Hpos; lia]. }
    { intros k Hk'. assert (X : ∃ job r, sliced_by (ls_rd s) (ls_row s).[k] raw job r ∧ r_ok r = false).
      - destruct (decide (k = pat)) as [->|]; [|apply Hmiss; lia]. exists job, r. split; [|done]. split; [done|].
        exists (slicer job), (data out). split; [apply adapted_refl|done].
      - destruct X as (job1 & r1 & X & ?). destruct (sliced_by_before _ _ _ _ _ _ (same_decoder_sym _ _ Sd) X) as (job0 & ? & _). by exists job0, r1. }
    exists s'. split; [done|]. split; [by eapply same_decoder_trans|]. split; [done|]. split; [done|]. split; [done|].
    destruct S5 as [(O1 & O2)|(out' & O1 & O2)]; [left; split; [by eapply misses_before|done]|].
    right. exists out'. split; [by eapply delivers_before|done].
Qed.

(** ** Decoding an image *)

(** Where scan line [i] begins in the image. *)
Definition line_start (sp : vbi_sampling_par) (i : Z) : Z :=
  if interlaced sp then
    if i <? (count sp).1 then i * 2 * bytes_per_line sp else (1 + (i - (count sp).1) * 2) * bytes_per_line sp
  else i * bytes_per_line sp.

Definition all_scan_lines (sp : vbi_sampling_par) : Z := (count sp).1 + (count sp).2.

(** The memory of an image, with the samples behind the last line that may be read. *)
Definition image_memory (sp : vbi_sampling_par) : Z :=
  all_scan_lines sp * bytes_per_line sp + 17 * VBI_PIXFMT_BPP (sampling_format sp).

Lemma valid_interlaced sp : _vbi_sampling_par_valid sp = true → interlaced sp = true → (count sp).1 = (count sp).2.
Proof.
  unfold _vbi_sampling_par_valid. intros H I. destruct (Z.eqb_spec (count sp).1 (count sp).2); [done|exfalso].
  rewrite I in H. cbn [negb orb andb] in H. cbv zeta in H. repeat (case_match; try done).
Qed.

Lemma line_in_image sp i : sampling_ok sp → 0 ≤ i < all_scan_lines sp →
  0 ≤ line_start sp i ∧ line_start sp i + line_memory sp ≤ image_memory sp.
Proof.
  intros H Hi. pose proof (sm_bytes sp H). pose proof (bpp_range (sampling_format sp)). pose proof (sm_count sp H).
  unfold line_start, line_memory, image_memory, all_scan_lines in *. destruct (interlaced sp) eqn:I; [|nia].
  pose proof (valid_interlaced sp (sm_valid sp H) I). destruct (Z.ltb_spec i (count sp).1); nia.
Qed.

Lemma scan_lines_eq rd : sampling_ok (sampling rd) → scan_lines rd = all_scan_lines (sampling rd).
Proof. intros H. pose proof (sm_count _ H). unfold scan_lines. apply u32_small. unfold all_scan_lines. lia. Qed.

Definition image_line (sp : vbi_sampling_par) (raw : list Z) (i : Z) : list Z := drop (Z.to_nat (line_start sp i)) raw.

(** The lines of the array from element [k] on come from lines of the image, in order; on
    the other lines no job finds data, unless the array was full. *)
Definition image_outcome (rd : vbi3_raw_decoder) (rows : list (list Z)) (raw : list Z) (max_lines first : Z)
    (sliced : list vbi_sliced) (k : Z) (sliced' : list vbi_sliced) (k' : Z) : Prop :=
  ∃ nums outs, sliced' = take (Z.to_nat k) sliced ++ outs ++ drop (Z.to_nat k + length outs) sliced ∧
    k' = k + Z.of_nat (length outs) ∧ Sorted Z.lt nums ∧ Forall (λ i, first ≤ i < all_scan_lines (sampling rd)) nums ∧
    Forall2 (λ i out, ∃ row, rows !! Z.to_nat i = Some row ∧ delivers rd row i (image_line (sampling rd) raw i) out) nums outs ∧
    ∀ i row, first ≤ i < all_scan_lines (sampling rd) → rows !! Z.to_nat i = Some row →
      i ∈ nums ∨ max_lines ≤ k' ∨ misses rd row (image_line (sampling rd) raw i).

Lemma image_outcome_end rd rows raw max_lines first sliced k : max_lines ≤ k ∨ all_scan_lines (sampling rd) ≤ first →
  image_outcome rd rows raw max_lines first sliced k sliced k.
Proof.
  intros He. exists [], []. split; [cbn; by rewrite Nat.add_0_r, take_drop|]. split; [cbn; lia|].
  split; [constructor|]. split; [constructor|]. split; [constructor|]. intros i row Hi _. destruct He; [right; by left|lia].
Qed.

Lemma same_decoder_sampling rd rd' : same_decoder rd rd' → sampling rd' = sampling rd.
Proof. by intros (js & -> & _). Qed.

(** An outcome of the following lines, of a decoder that went on. *)
Lemma image_outcome_later rd rd' rows rows' raw max_lines first sliced k sliced' k' : same_decoder rd rd' → 0 ≤ first →
  (∀ i, (Z.to_nat first ≤ i)%nat → rows' !! i = rows !! i) →
  image_outcome rd' rows' raw max_lines first sliced k sliced' k' → image_outcome rd rows raw max_lines first sliced k sliced' k'.
Proof.
  intros S H0 R (nums & outs & H1 & H2 & H3 & H4 & H5 & H6). pose proof (same_decoder_sampling _ _ S) as Es. rewrite Es in *.
  exists nums, outs. split; [done|]. split; [done|]. split; [done|]. split; [done|]. split.
  - apply Forall2_same_length_lookup_2; [by eapply Forall2_length|]. intros j i out Hi Ho.
    destruct (Forall2_lookup_lr _ _ _ _ _ _ H5 Hi Ho) as (row & E & D). apply (proj1 (Forall_lookup _ _) H4) in Hi.
    rewrite R in E by lia. exists row. split; [done|]. by eapply delivers_before.
  - intros i row Hi E. rewrite <- R in E by lia. destruct (H6 i row Hi E) as [?|[?|M]]; [by left|right; by left|right; right].
    by eapply misses_before.
Qed.

(** One more line in front, *)
Lemma image_outcome_cons rd rows raw max_lines i sliced k out row sliced' k' : 0 ≤ k < Z.of_nat (length sliced) →
  0 ≤ i < all_scan_lines (sampling rd) → rows !! Z.to_nat i = Some row → delivers rd row i (image_line (sampling rd) raw i) out →
  image_outcome rd rows raw max_lines (i + 1) (<[Z.to_nat k := out]> sliced) (k + 1) sliced' k' →
  image_outcome rd rows raw max_lines i sliced k sliced' k'.
Proof.
  intros Hk Hi Er Hd (nums & outs & -> & -> & H3 & H4 & H5 & H6). exists (i :: nums), (out :: outs).
  assert (Ek : Z.to_nat (k + 1) = S (Z.to_nat k)) by lia. rewrite Ek. split.
  { rewrite (take_S_r _ _ out) by (rewrite list_lookup_insert_eq by lia; done).
    rewrite take_insert_ge, drop_insert_lt, <- app_assoc by lia. cbn [app length]. do 3 f_equal. f_equal. lia. }
  split; [cbn [length]; lia|]. split.
  { constructor; [done|]. destruct nums as [|i' nums]; constructor. apply Forall_cons_iff in H4 as [? _]. lia. }
  split; [constructor; [lia|eapply List.Forall_impl; [|exact H4]; cbn; lia]|]. split; [constructor; [by exists row|done]|].
  intros j row' Hj Ej. destruct (decide (j = i)) as [->|]; [left; by left|].
  destruct (H6 j row' ltac:(lia) Ej) as [?|[?|?]]; [left; by right|right; left; cbn [length]; lia|right; by right].
Qed.

(** or a line without data. *)
Lemma image_outcome_skip rd rows raw max_lines i sliced k row sliced' k' : rows !! Z.to_nat i = Some row →
  misses rd row (image_line (sampling rd) raw i) →
  image_outcome rd rows raw max_lines (i + 1) sliced k sliced' k' → image_outcome rd rows raw max_lines i sliced k sliced' k'.
Proof.
  intros Er M (nums & outs & H1 & H2 & H3 & H4 & H5 & H6). exists nums, outs. do 3 (split; [done|]).
  split; [eapply List.Forall_impl; [|exact H4]; cbn; lia|]. split; [done|].
  intros j row' Hj Ej. destruct (decide (j = i)) as [->|]; [right; right; by replace row' with row by congruence|].
  apply (H6 j row' ltac:(lia) Ej).
Qed.

(** The pattern of an image. *)
Definition pattern_ok (sp : vbi_sampling_par) (n : Z) (rows : list (list Z)) : Prop :=
  length rows = Z.to_nat (all_scan_lines sp) ∧ Forall (row_ok n) rows.

Lemma line_start_next sp i : sampling_ok sp → 0 ≤ i → (interlaced sp = true → i + 1 ≠ (count sp).1) →
  line_start sp (i + 1) = line_start sp i + (bytes_per_line sp ≪ (if interlaced sp then 1 else 0)).
Proof.
  intros H Hi Hc. rewrite Z.shiftl_mul_pow2 by (destruct (interlaced sp); lia).
  unfold line_start. destruct (interlaced sp) eqn:I; [|lia]. specialize (Hc eq_refl).
  destruct (Z.ltb_spec i (count sp).1), (Z.ltb_spec (i + 1) (count sp).1); lia.
Qed.

(** The rows before and after a line was decoded. *)
Lemma rows_insert n sp rows i row row' : pattern_ok sp n rows → rows !! i = Some row → row_ok n row' → kept_row row row' →
  pattern_ok sp n (<[i := row']> rows) ∧ Forall2 kept_row rows (<[i := row']> rows).
Proof.
  intros [L F] E H S. split.
  - split; [by rewrite length_insert|]. by apply Forall_insert.
  - apply Forall2_same_length_lookup_2; [by rewrite length_insert|]. intros k x y Hx Hy.
    apply list_lookup_insert_Some in Hy as [(-> & <- & _)|(_ & Hy)]; [by replace x with row by congruence|].
    replace y with x by congruence. reflexivity.
Qed.

(** The pointer moves to the first line of the second field of an interlaced image. *)
Definition line_pointer (sp : vbi_sampling_par) (i p : Z) : Prop :=
  interlaced sp = true ∧ i = (count sp).1 ∨ p = line_start sp i.

Lemma line_pointer_eq sp i p : sampling_ok sp → line_pointer sp i p →
  (if interlaced sp && (i =? u32 (count sp).1) then bytes_per_line sp else p) = line_start sp i.
Proof.
  intros H Hpos. pose proof (sm_count sp H). rewrite u32_small by lia. unfold line_pointer in Hpos.
  destruct (Z.eqb_spec i (count sp).1) as [->|N]; [|rewrite andb_false_r; destruct Hpos as [[? ?]|?]; [lia|done]].
  rewrite andb_true_r. destruct (interlaced sp) eqn:I; [|destruct Hpos as [[? _]|?]; done].
  unfold line_start. rewrite I, Z.ltb_irrefl. lia.
Qed.

Lemma line_pointer_next sp i : sampling_ok sp → 0 ≤ i →
  line_pointer sp (i + 1) (line_start sp i + (bytes_per_line sp ≪ (if interlaced sp then 1 else 0))).
Proof.
  intros H Hi. destruct (decide (interlaced sp = true ∧ i + 1 = (count sp).1)); [by left|right].
  symmetry. apply line_start_next; [done|done|naive_solver].
Qed.

Lemma line_outcome_sliced s s' i raw : line_outcome s s' i raw → Forall sliced_ok (ls_sliced s) →
  Forall sliced_ok (ls_sliced s') ∧ length (ls_sliced s') = length (ls_sliced s) ∧ ls_n s ≤ ls_n s' ≤ ls_n s + 1.
Proof.
  intros [(_ & -> & ->)|(out & _ & Ho & -> & ->)] Hs; [split; [done|split; [done|lia]]|].
  split; [by apply Forall_insert|]. rewrite length_insert. lia.
Qed.

(** The outcome of a line and of the lines behind it. *)
Lemma image_outcome_line rd rows raw max_lines i sliced k row s sliced' k' : 0 ≤ k < Z.of_nat (length sliced) →
  0 ≤ i < all_scan_lines (sampling rd) → rows !! Z.to_nat i = Some row → same_decoder rd (ls_rd s) →
  line_outcome (LineState rd sliced k row) s i (image_line (sampling rd) raw i) →
  image_outcome (ls_rd s) (<[Z.to_nat i := ls_row s]> rows) raw max_lines (i + 1) (ls_sliced s) (ls_n s) sliced' k' →
  image_outcome rd rows raw max_lines i sliced k sliced' k'.
Proof.
  intros Hk Hi Er S L T. apply (image_outcome_later rd (ls_rd s) rows) in T; [|done|lia|].
  2:{ intros j Hj. apply list_lookup_insert_ne. lia. }
  destruct L as [(M & E1 & E2)|(out & Ho & _ & E1 & E2)]; rewrite E1, E2 in T; cbn [ls_sliced ls_n ls_rd ls_row] in *.
  - by eapply image_outcome_skip.
  - by eapply image_outcome_cons.
Qed.

Lemma decode_lines_ok n sp max_lines raw m : sampling_ok sp → n ≤ 127 → bytes raw → image_memory sp ≤ Z.of_nat (length raw) →
  ∀ i p rd sliced k rows, Z.of_nat m + i = all_scan_lines sp → 0 ≤ i → sampling rd = sp → decoding n rd →
  pattern_ok sp n rows → 0 ≤ k → max_lines ≤ Z.of_nat (length sliced) → Forall sliced_ok sliced → line_pointer sp i p →
  ∃ rd' sliced' k' rows', decode_lines m i p (bytes_per_line sp ≪ (if interlaced sp then 1 else 0)) max_lines raw rd sliced k rows
      = Some (rd', sliced', k', rows') ∧
    same_decoder rd rd' ∧ decoding n rd' ∧ pattern_ok sp n rows' ∧ Forall2 kept_row rows rows' ∧ Forall sliced_ok sliced' ∧
    k' ≤ Z.max k max_lines ∧ image_outcome rd rows raw max_lines i sliced k sliced' k'.
Proof.
  intros Hsp Hn Hraw Hmem. induction m as [|m IH]; intros i p rd sliced k rows Hm Hi Es D Hr Hk Hmax Hs Hpos.
  { exists rd, sliced, k, rows. split; [done|]. split; [apply same_decoder_refl|]. split; [done|]. split; [done|].
    split; [reflexivity|]. split; [done|]. split; [lia|]. apply image_outcome_end. right. rewrite Es. lia. }
  cbn [decode_lines]. destruct (Z.leb_spec max_lines k) as [|Hk'].
  { exists rd, sliced, k, rows. split; [done|]. split; [apply same_decoder_refl|]. split; [done|]. split; [done|].
    split; [reflexivity|]. split; [done|]. split; [lia|]. apply image_outcome_end. by left. }
  rewrite Es. cbv zeta. rewrite (line_pointer_eq sp i p Hsp Hpos). pose proof Hr as [Lr Fr].
  destruct (rd_is_Some rows i) as (row & -> & Er); [lia|]. cbn [mbind option_bind].
  pose proof (proj1 (Forall_lookup _ _) Fr _ _ Er) as Hrow. pose proof (line_in_image sp i Hsp ltac:(lia)) as [Hl1 Hl2].
  destruct (decode_ways_ok n i (drop (Z.to_nat (line_start sp i)) raw) 8 0 (LineState rd sliced k row))
    as (s & E & S1 & S2 & S3 & S4 & S5); cbn [ls_rd ls_row ls_sliced ls_n]; try (done || lia).
  { by apply Forall_drop. }
  { rewrite Es, length_drop. lia. }
  unfold decode_pattern. change (Z.to_nat _VBI3_RAW_DECODER_MAX_WAYS) with 8%nat. rewrite E. cbn [mbind option_bind]. clear E.
  rewrite wr_ok by lia. cbn [mbind option_bind]. cbn [ls_rd ls_row ls_sliced ls_n] in *.
  destruct (rows_insert n sp rows (Z.to_nat i) row (ls_row s)) as [R1 R2]; [done..|].
  destruct (line_outcome_sliced _ _ _ _ S5 Hs) as (Hs1 & Hs2 & Hs3). cbn [ls_sliced ls_n] in Hs2, Hs3.
  destruct (IH (i + 1) _ (ls_rd s) (ls_sliced s) (ls_n s) (<[Z.to_nat i := ls_row s]> rows) ltac:(lia) ltac:(lia)
    ltac:(by rewrite (same_decoder_sampling _ _ S1)) S2 R1 ltac:(lia) ltac:(lia) Hs1 (line_pointer_next sp i Hsp Hi))
    as (rd' & sliced' & k' & rows' & -> & T1 & T2 & T3 & T4 & T5 & T6 & T7).
  exists rd', sliced', k', rows'. split; [done|]. split; [by eapply same_decoder_trans|]. split; [done|]. split; [done|].
  split; [by etrans|]. split; [done|]. split; [lia|].
  eapply image_outcome_line; [lia|rewrite Es; lia|exact Er|exact S1|by rewrite Es|exact T7].
Qed.

(** ** The numbers of the lines *)

(** Increasing numbers are not more than fit into their range. *)
Lemma sorted_length nums a b : a ≤ b → Sorted Z.lt nums → Forall (λ i, a ≤ i < b) nums → Z.of_nat (length nums) ≤ b - a.
Proof.
  intros Hab S. apply Sorted_StronglySorted in S; [|intros ? ? ?; lia].
  revert a Hab. induction S as [|x nums S IH Fx]; intros a Hab F; cbn [length]; [lia|].
  apply Forall_cons_iff in F as [Hx F]. enough (Z.of_nat (length nums) ≤ b - (x + 1)) by lia. apply IH; [lia|].
  rewrite List.Forall_forall in *. intros y Hy. specialize (Fx y Hy). specialize (F y Hy). lia.
Qed.

(** The lines of the two fields follow each other. *)
Lemma valid_fields sp : _vbi_sampling_par_valid sp = true → (start sp).1 ≠ 0 → (start sp).2 ≠ 0 →
  0 ≤ (start sp).1 < 2 ^ 30 → 0 ≤ (start sp).2 < 2 ^ 30 → 0 ≤ (count sp).1 < 2 ^ 30 → 0 ≤ (count sp).2 < 2 ^ 30 →
  (start sp).1 + (count sp).1 ≤ (start sp).2.
Proof.
  intros V N1 N2 H1 H2 H3 H4. unfold _vbi_sampling_par_valid, field_range_ok, range_check, of_field in V. cbv zeta in V.
  cbn [Z.eqb] in V. rewrite (proj2 (Z.eqb_neq _ _) N1), (proj2 (Z.eqb_neq _ _) N2) in V.
  rewrite (u32_small (start sp).1), (u32_small (start sp).2), (u32_small (count sp).1), (u32_small (count sp).2),
    (u32_small ((start sp).1 + _)), (u32_small ((start sp).2 + _)) in V by lia.
  cbn [orb] in V. repeat (case_match; try done);
  repeat match goal with H : negb _ = false |- _ => apply negb_false_iff in H | H : (_ && _) = true |- _ => apply andb_true_iff in H as [? H]
    | H : (_ && _ && _) = true |- _ => apply andb_true_iff in H as [H ?] | H : (_ <=? _) = true |- _ => apply Z.leb_le in H end; lia.
Qed.

Lemma line_number_lt rd i j : sampling_ok (sampling rd) → synchronous (sampling rd) = true →
  (start (sampling rd)).1 ≠ 0 → (start (sampling rd)).2 ≠ 0 → 0 ≤ i < j → j < all_scan_lines (sampling rd) →
  line_number rd i < line_number rd j.
Proof.
  intros H Sy N1 N2 Hi Hj. pose proof (sm_count _ H). pose proof (sm_start _ H).
  pose proof (valid_fields _ (sm_valid _ H) N1 N2 ltac:(lia) ltac:(lia) ltac:(lia) ltac:(lia)).
  unfold line_number, all_scan_lines in *. cbv zeta. rewrite Sy. cbn [andb].
  rewrite (proj2 (Z.eqb_neq _ _) N1), (proj2 (Z.eqb_neq _ _) N2). cbn [negb]. rewrite (u32_small (count _).1) by lia.
  destruct (Z.leb_spec (count (sampling rd)).1 i), (Z.leb_spec (count (sampling rd)).1 j); try lia; rewrite !u32_small by lia; lia.
Qed.

Lemma image_outcome_sorted rd rows raw max_lines k sliced sliced' k' : sampling_ok (sampling rd) → synchronous (sampling rd) = true →
  (start (sampling rd)).1 ≠ 0 → (start (sampling rd)).2 ≠ 0 → k = 0 → 
  image_outcome rd rows raw max_lines 0 sliced k sliced' k' → Sorted (λ a b, line a < line b) (take (Z.to_nat k') sliced').
Proof.
  intros H Sy N1 N2 -> (nums & outs & -> & -> & S & F & D & _). rewrite Z.add_0_l, Nat2Z.id.
  change (take (Z.to_nat 0) sliced) with (@nil vbi_sliced). cbn [app]. rewrite take_app_length.
  clear sliced. revert S F. induction D as [|i out nums outs (row & _ & Hd) D IH]; intros S F; constructor.
  - apply Forall_cons_iff in F as [_ F]. apply Sorted_inv in S as [S _]. by apply IH.
  - apply Forall_cons_iff in F as [Hi F]. apply Sorted_inv in S as [_ S]. destruct D as [|j out' nums outs (row' & _ & Hd') D]; constructor.
    apply Forall_cons_iff in F as [Hj F]. apply HdRel_inv in S.
    destruct Hd as (? & ? & ? & _ & _ & _ & ->), Hd' as (? & ? & ? & _ & _ & _ & ->).
    cbn [line]. apply line_number_lt; try done; lia.
Qed.

