(* ===== verification/RawPattern.v ===== *)
(** The pattern of the raw VBI decoder: rows without a job or with another one, and what
    adding the job of a service does to the lines of an image. *)
From S2P Require Import Prelude Sliced Services SamplingPar RawDecoder Permit RawLines.

(** ** Rows that are compacted *)

Lemma row_ok_mono n m row : n ≤ m → row_ok n row → row_ok m row.
Proof. intros Hn [L E X R]. split; [done| |done|done]. eapply List.Forall_impl; [|exact E]. cbn. lia. Qed.

(** Ways that leave room, filled up with zeros. *)
Lemma padded_ok n ways : 0 ≤ n → Forall (λ x, -128 ≤ x ≤ n) ways → (length ways < 8)%nat →
  row_ok n (ways ++ repeat 0 (8 - length ways)).
Proof.
  intros Hn F L. assert (E : (8 - length ways = S (7 - length ways))%nat) by lia.
  split.
  - rewrite length_app, repeat_length. lia.
  - apply Forall_app. split; [done|]. apply List.Forall_forall. intros x ->%repeat_spec. lia.
  - rewrite E. apply Exists_app. right. cbn. by left.
  - intros H. exfalso. unfold tbl in H. change (Z.to_nat 7) with 7%nat in H. rewrite app_nth2, nth_repeat in H by lia. lia.
Qed.

(** ** Removing a job from a row *)

Definition kept (num : Z) (row : list Z) : list Z :=
  concat (map (λ x, if num <? x then [x - 1] else if negb (x =? num) then [x] else []) row).

Lemma kept_entries num n row : num ≤ n → Forall (λ x, -128 ≤ x ≤ n) row → 0 ≤ num → Forall (λ x, -128 ≤ x ≤ n - 1) (kept num row).
Proof.
  intros Hn F H0. induction F as [|x row Hx F IH]; [constructor|]. unfold kept in *. cbn [map concat]. apply Forall_app.
  split; [|done]. destruct (Z.ltb_spec num x); [constructor; [lia|constructor]|].
  destruct (Z.eqb_spec x num); cbn [negb]; [constructor|constructor; [lia|constructor]].
Qed.

(** Without the job nothing moves. *)
Lemma kept_length num row : (length (kept num row) < length row)%nat ∨
  kept num row = map (λ x, if num <? x then x - 1 else x) row.
Proof.
  induction row as [|x row IH]; [by right|]. unfold kept in *. cbn [map concat length].
  destruct (num <? x), (x =? num); cbn [negb app length]; destruct IH as [IH|IH]; try (left; lia); try (left; rewrite IH, length_map; lia); right; by rewrite IH.
Qed.

Lemma remove_from_row_ok num n row : 1 ≤ num ≤ n → row_ok n row → row_ok (n - 1) (remove_from_row num row).
Proof.
  intros Hn H. pose proof (row_length _ _ H) as L. unfold remove_from_row. cbv zeta. fold (kept num row).
  pose proof (kept_entries num n row ltac:(lia) (row_entries _ _ H) ltac:(lia)) as F.
  destruct (kept_length num row) as [Lk|E]; [apply padded_ok; (done || lia)|].
  rewrite E in *. rewrite length_map, L. cbn [Nat.sub repeat]. rewrite app_nil_r.
  pose proof (row_empty _ _ H) as X. pose proof (row_last _ _ H) as R. split.
  - by rewrite length_map.
  - done.
  - clear - X Hn. induction X as [x row Hx|x row X IH]; cbn [map]; [left|by right]. destruct (Z.ltb_spec num x); lia.
  - clear - R Hn L. destruct row as [|x0 [|x1 [|x2 [|x3 [|x4 [|x5 [|x6 [|x7 [|]]]]]]]]]; try discriminate L.
    cbn [map]. row_eval. destruct (Z.ltb_spec num x0), (Z.ltb_spec num x7); lia.
Qed.

(** ** Adding a job to a row *)

Lemma room_left n row : row_ok n row → (length (List.filter (Z.ltb 0) row) < 8)%nat.
Proof.
  intros H. pose proof (row_empty _ _ H) as X. rewrite <- (row_length _ _ H). clear H.
  induction X as [x row Hx|x row X IH]; cbn [List.filter length].
  - rewrite (proj2 (Z.ltb_ge 0 x)) by done. pose proof (filter_length_le (Z.ltb 0) row). lia.
  - destruct (0 <? x); cbn [length]; lia.
Qed.

Lemma compact_row_ok n row : 0 ≤ n → row_ok n row → row_ok n (compact_row row).
Proof.
  intros Hn H. unfold compact_row. cbv zeta. pose proof (row_entries _ _ H) as F. apply padded_ok; [done| |by eapply room_left].
  apply List.Forall_forall. intros x Hx. apply filter_In in Hx as [Hx _]. rewrite List.Forall_forall in F. auto.
Qed.

Lemma find_way_ok n row num ways : ∀ way, Z.of_nat ways + way = 8 → 0 ≤ way → row_ok n row →
  (∀ k, 0 ≤ k < way → 0 < row.[k]) → ∃ w, find_way num ways way row = Some w ∧ way ≤ w < 8.
Proof.
  induction ways as [|ways IH]; intros way Hw H0 H Hpos; cbn [find_way].
  { exfalso. apply (row_not_full n row H). intros k Hk. apply Hpos. lia. }
  rewrite (rd_row n row way) by (done || lia). cbn [mbind option_bind].
  destruct (Z.ltb_spec 0 row.[way]) as [Hp|Hp]; cbn [andb]; [|exists way; split; [done|lia]].
  destruct (row.[way] =? num); cbn [negb]; [exists way; split; [done|lia]|].
  destruct (IH (way + 1)) as (w & -> & Hr); [lia|lia|done| |exists w; split; [done|lia]].
  intros k Hk. destruct (decide (k = way)) as [->|]; [done|apply Hpos; lia].
Qed.

Lemma add_to_row_ok n num row : 1 ≤ num ≤ n → row_ok n row → ∃ row', add_to_row num row = Some row' ∧ row_ok n row'.
Proof.
  intros Hn H. pose proof (row_length _ _ H) as L. unfold add_to_row. destruct (find_way_ok n row num 8 0) as (w & E & Hw); [done..| |].
  { intros k Hk. lia. }
  change (Z.to_nat _VBI3_RAW_DECODER_MAX_WAYS) with 8%nat. rewrite E. cbn [mbind option_bind].
  rewrite (wr_ok row) by lia. cbn [mbind option_bind]. change (_VBI3_RAW_DECODER_MAX_WAYS - 1) with 7.
  rewrite wr_ok by (rewrite length_insert; lia). eexists. split; [reflexivity|]. change (Z.to_nat 7) with 7%nat. split.
  - by rewrite !length_insert.
  - apply Forall_insert; [apply Forall_insert; [apply (row_entries _ _ H)|lia]|lia].
  - apply Exists_exists. exists (-128). split; [|lia]. apply list_elem_of_In, (list_elem_of_lookup_2 _ 7%nat).
    apply list_lookup_insert_eq. rewrite length_insert. lia.
  - intros X. exfalso. unfold tbl in X. change (Z.to_nat 7) with 7%nat in X.
    rewrite nth_lookup, list_lookup_insert_eq in X by (rewrite length_insert; lia). cbn in X. lia.
Qed.

(** ** Patterns *)

Lemma pattern_ok_mono sp n m rows : n ≤ m → pattern_ok sp n rows → pattern_ok sp m rows.
Proof. intros H [L F]. split; [done|]. eapply List.Forall_impl; [|exact F]. intros row. by apply row_ok_mono. Qed.

Lemma new_pattern_ok sp : pattern_ok sp 0 (repeat (repeat 0 8) (Z.to_nat (all_scan_lines sp))).
Proof.
  split; [by rewrite repeat_length|]. apply List.Forall_forall. intros row ->%repeat_spec.
  split; [done|entries|by left|intros H; by vm_compute in H].
Qed.

Lemma pattern_insert sp n rows i row row' : pattern_ok sp n rows → rows !! i = Some row → row_ok n row' →
  pattern_ok sp n (<[i := row']> rows).
Proof. intros [L F] E H. split; [by rewrite length_insert|by apply Forall_insert]. Qed.

Lemma pattern_row sp n rows i : pattern_ok sp n rows → 0 ≤ i < all_scan_lines sp →
  ∃ row, rd rows i = Some row ∧ rows !! Z.to_nat i = Some row ∧ row_ok n row ∧
    ∀ row', row_ok n row' → wr rows i row' = Some (<[Z.to_nat i := row']> rows) ∧ pattern_ok sp n (<[Z.to_nat i := row']> rows).
Proof.
  intros P Hi. pose proof P as [L F]. destruct (rd_is_Some rows i) as (row & E & E'); [lia|]. exists row.
  split; [done|]. split; [done|]. split; [exact (proj1 (Forall_lookup _ _) F _ _ E')|]. intros row' H'.
  split; [by rewrite wr_ok by lia|]. by eapply pattern_insert.
Qed.

Lemma reserve_lines_ok sp n num m : 0 ≤ n → ∀ first rows, pattern_ok sp n rows → 0 ≤ first →
  first + Z.of_nat m ≤ all_scan_lines sp →
  ∃ ok rows', reserve_lines num m first rows = Some (ok, rows') ∧ pattern_ok sp n rows'.
Proof.
  intros Hn. induction m as [|m IH]; intros first rows P H0 Hm; cbn [reserve_lines]; [by exists true, rows|].
  destruct (pattern_row sp n rows first P ltac:(lia)) as (row & -> & _ & Hr & W). cbn [mbind option_bind].
  destruct (W _ (compact_row_ok n row Hn Hr)) as [-> P']. cbn [mbind option_bind].
  destruct (free_ways num row <=? 1); [by eexists _, _|]. apply IH; [done|lia|lia].
Qed.

Lemma add_to_lines_ok sp n num m : 1 ≤ num ≤ n → ∀ first rows, pattern_ok sp n rows → 0 ≤ first →
  first + Z.of_nat m ≤ all_scan_lines sp → ∃ rows', add_to_lines num m first rows = Some rows' ∧ pattern_ok sp n rows'.
Proof.
  intros Hn. induction m as [|m IH]; intros first rows P H0 Hm; cbn [add_to_lines]; [by exists rows|].
  destruct (pattern_row sp n rows first P ltac:(lia)) as (row & -> & _ & Hr & W). cbn [mbind option_bind].
  destruct (add_to_row_ok n num row Hn Hr) as (row' & -> & Hr'). cbn [mbind option_bind].
  destruct (W _ Hr') as [-> P']. cbn [mbind option_bind]. apply IH; [done|lia|lia].
Qed.

(** Lines of the image: where they begin and how many. *)
Definition lines_inside (sp : vbi_sampling_par) (first count : Z) : Prop :=
  0 ≤ first ∧ 0 ≤ count ∧ first + count ≤ all_scan_lines sp.

Lemma add_job_to_pattern_ok sp n job rows s0 s1 c0 c1 : 0 ≤ job ≤ n → pattern_ok sp n rows →
  lines_inside sp s0 c0 → lines_inside sp s1 c1 →
  ∃ ok rows', add_job_to_pattern rows job (s0, s1) (c0, c1) = Some (ok, rows') ∧
    pattern_ok sp (if ok then Z.max n (job + 1) else n) rows'.
Proof.
  intros Hj P (A1 & A2 & A3) (B1 & B2 & B3). unfold add_job_to_pattern. cbn [fst snd].
  destruct (reserve_lines_ok sp n (job + 1) (Z.to_nat c0) ltac:(lia) s0 rows P A1 ltac:(lia)) as (ok1 & rows1 & -> & P1).
  cbn [mbind option_bind]. destruct ok1; cbn [negb]; [|by exists false, rows1].
  destruct (reserve_lines_ok sp n (job + 1) (Z.to_nat c1) ltac:(lia) s1 rows1 P1 B1 ltac:(lia)) as (ok2 & rows2 & -> & P2).
  cbn [mbind option_bind]. destruct ok2; cbn [negb]; [|by exists false, rows2].
  apply (pattern_ok_mono sp n (Z.max n (job + 1))) in P2; [|lia].
  destruct (add_to_lines_ok sp (Z.max n (job + 1)) (job + 1) (Z.to_nat c0) ltac:(lia) s0 rows2 P2 A1 ltac:(lia)) as (rows3 & -> & P3).
  cbn [mbind option_bind].
  destruct (add_to_lines_ok sp (Z.max n (job + 1)) (job + 1) (Z.to_nat c1) ltac:(lia) s1 rows3 P3 B1 ltac:(lia)) as (rows4 & -> & P4).
  cbn [mbind option_bind]. by exists true, rows4.
Qed.

(** The lines of a service in the table are in order. *)
Lemma service_lines par field : par ∈ _vbi_service_table → 
  0 ≤ of_field field (par_first par) < 2 ^ 30 ∧ 0 ≤ of_field field (par_last par) < 2 ^ 30 ∧
  (of_field field (par_first par) ≠ 0 → of_field field (par_last par) ≠ 0 → of_field field (par_first par) ≤ of_field field (par_last par)).
Proof.
  intros Hp. assert (T : forallb (λ par, forallb (λ f, (0 <=? f (par_first par)) && (f (par_first par) <? 2 ^ 30) && (0 <=? f (par_last par))
    && (f (par_last par) <? 2 ^ 30) && (f (par_first par) <=? f (par_last par))) [fst; snd]) _vbi_service_table = true) by (vm_compute; reflexivity).
  rewrite forallb_forall in T. apply list_elem_of_In, T in Hp. cbn [forallb] in Hp.
  rewrite !andb_true_iff, !Z.leb_le, !Z.ltb_lt in Hp. unfold of_field. destruct (field =? 0); lia.
Qed.

(** Lines of one field. *)
Definition field_inside (sp : vbi_sampling_par) (field first count0 : Z) : Prop :=
  0 ≤ count0 ∧ if field =? 0 then 0 ≤ first ∧ first + count0 ≤ (count sp).1
  else (count sp).1 ≤ first ∧ first + count0 ≤ all_scan_lines sp.

Lemma field_lines_ok sp par field : sampling_ok sp → par ∈ _vbi_service_table → field = 0 ∨ field = 1 →
  ∃ s c, field_lines sp par field = Some (s, c) ∧ field_inside sp field s c.
Proof.
  intros H Hp Hf. pose proof (service_lines par field Hp) as (L1 & L2 & L3). pose proof (sm_count sp H). pose proof (sm_start sp H).
  enough (G : ∃ s c, field_lines sp par field = Some (s, c) ∧ 0 ≤ c ∧ (if field =? 0 then 0 else (count sp).1) ≤ s ∧
    s + c ≤ (if field =? 0 then 0 else (count sp).1) + of_field field (count sp)).
  { destruct G as (s & c & E & G). exists s, c. split; [done|]. unfold field_inside, of_field, all_scan_lines in *.
    destruct Hf as [->| ->]; cbn [Z.eqb] in *; lia. }
  unfold field_lines. cbv zeta.
  assert (Hc : 0 ≤ of_field field (count sp) < 2 ^ 30 ∧ 0 ≤ of_field field (start sp) < 2 ^ 30 ∧
    0 ≤ (if field =? 0 then 0 else (count sp).1) ∧
    (if field =? 0 then 0 else (count sp).1) + of_field field (count sp) ≤ (count sp).1 + (count sp).2).
  { unfold of_field. destruct Hf as [->| ->]; cbn [Z.eqb]; lia. }
  rewrite (u32_small (count sp).1) by lia. set (s0 := if field =? 0 then 0 else (count sp).1) in *.
  set (c0 := of_field field (count sp)) in *. set (first := of_field field (start sp)) in *.
  rewrite (u32_small c0), (u32_small first) by lia.
  destruct (synchronous sp); cbn [negb]; [|eexists _, _; split; [reflexivity|lia]].
  destruct (Z.eqb_spec (of_field field (par_first par)) 0); cbn [orb]; [eexists _, _; split; [reflexivity|lia]|].
  destruct (Z.eqb_spec (of_field field (par_last par)) 0); [eexists _, _; split; [reflexivity|lia]|]. specialize (L3 ltac:(done) ltac:(done)).
  destruct (Z.ltb_spec 0 first); cbn [andb]; [|eexists _, _; split; [reflexivity|lia]].
  destruct (Z.ltb_spec 0 c0); [|eexists _, _; split; [reflexivity|lia]].
  rewrite (u32_small (first + c0 - 1)) by lia. rewrite (proj2 (Z.ltb_ge _ _)) by lia.
  destruct (Z.ltb_spec (first + c0 - 1) (of_field field (par_first par))); cbn [orb]; [eexists _, _; split; [reflexivity|lia]|].
  destruct (Z.ltb_spec (of_field field (par_last par)) first); [eexists _, _; split; [reflexivity|lia]|].
  eexists _, _. split; [reflexivity|]. rewrite !u32_small by lia. lia.
Qed.

Lemma field_inside_lines sp field s c : sampling_ok sp → field_inside sp field s c → lines_inside sp s c.
Proof.
  intros H F. pose proof (sm_count sp H). unfold field_inside, lines_inside, all_scan_lines in *. destruct (field =? 0); lia.
Qed.

(** ** What adding a job does to the lines *)

Lemma how_often_app j l1 l2 : how_often j (l1 ++ l2) = how_often j l1 + how_often j l2.
Proof. induction l1 as [|x l1 IH]; cbn [app how_often foldr]; [done|]. unfold how_often in *. lia. Qed.

Lemma how_often_none j l : Forall (λ x, x ≤ 0) l → 0 < j → how_often j l = 0.
Proof.
  intros F Hj. induction F as [|x l Hx F IH]; [done|]. cbn [how_often foldr]. fold (how_often j l).
  rewrite (proj2 (Z.eqb_neq x j)) by lia. cbn. lia.
Qed.

Lemma how_often_filter j row : 0 < j → how_often j (List.filter (Z.ltb 0) row) = how_often j row.
Proof.
  intros Hj. induction row as [|x row IH]; [done|]. cbn [List.filter]. destruct (Z.ltb_spec 0 x); cbn [how_often foldr];
    fold (how_often j row); [fold (how_often j (List.filter (Z.ltb 0) row)); lia|].
  rewrite (proj2 (Z.eqb_neq x j)) by lia. cbn. lia.
Qed.

(** Jobs and then empty ways. *)
Lemma jobs_first_app q z : Forall (λ x, 0 < x) q → Forall (λ x, x ≤ 0) z → jobs_first (q ++ z).
Proof.
  intros Q Zs. induction Q as [|x q Hx Q IH]; cbn [app].
  - induction Zs as [|x z Hx Zs IH]; [done|]. destruct z as [|y z]; [done|]. split; [|exact IH].
    apply Forall_cons_iff in Zs as [Hy _]. lia.
  - cbn [jobs_first]. destruct (q ++ z); [done|]. by split.
Qed.

Lemma find_way_first num q : ∀ way z, num ∉ q → Forall (λ x, 0 < x) q → z ≠ [] → Forall (λ x, x ≤ 0) z →
  ∀ pre ways, Z.of_nat (length pre) = way → (length q < ways)%nat → find_way num ways way (pre ++ q ++ z) = Some (way + Z.of_nat (length q)).
Proof.
  induction q as [|x q IH]; intros way z Hn Q Nz Zs pre ways Hw Hl; (destruct ways as [|ways]; [cbn in Hl; lia|]); cbn [find_way app length].
  - destruct z as [|y z]; [done|]. rewrite rd_app by done. cbn [mbind option_bind]. apply Forall_cons_iff in Zs as [Hy _].
    rewrite (proj2 (Z.ltb_ge 0 y)) by lia. cbn [andb]. f_equal. lia.
  - rewrite rd_app by done. cbn [mbind option_bind]. apply Forall_cons_iff in Q as [Hx Q]. apply not_elem_of_cons in Hn as [Nx Hn].
    rewrite (proj2 (Z.ltb_lt 0 x)) by lia. rewrite (proj2 (Z.eqb_neq x num)) by congruence. cbn [andb negb].
    replace (pre ++ x :: q ++ z) with ((pre ++ [x]) ++ q ++ z) by by rewrite <- app_assoc.
    rewrite (IH (way + 1) z) by (try done; rewrite ?length_app; cbn [length] in *; lia). f_equal. lia.
Qed.

Lemma find_way_there num q1 : ∀ way z, num ∉ q1 → Forall (λ x, 0 < x) q1 → 
  ∀ pre ways, Z.of_nat (length pre) = way → (length q1 < ways)%nat →
  find_way num ways way (pre ++ q1 ++ num :: z) = Some (way + Z.of_nat (length q1)).
Proof.
  induction q1 as [|x q IH]; intros way z Hn Q pre ways Hw Hl; (destruct ways as [|ways]; [cbn in Hl; lia|]); cbn [find_way app length].
  - rewrite rd_app by done. cbn [mbind option_bind]. rewrite Z.eqb_refl, andb_false_r. f_equal. lia.
  - rewrite rd_app by done. cbn [mbind option_bind]. apply Forall_cons_iff in Q as [Hx Q]. apply not_elem_of_cons in Hn as [Nx Hn].
    rewrite (proj2 (Z.ltb_lt 0 x)) by lia. rewrite (proj2 (Z.eqb_neq x num)) by congruence. cbn [andb negb].
    replace (pre ++ x :: q ++ num :: z) with ((pre ++ [x]) ++ q ++ num :: z) by by rewrite <- app_assoc.
    rewrite (IH (way + 1) z) by (try done; rewrite ?length_app; cbn [length] in *; lia). f_equal. lia.
Qed.

(** The free ways are those that no other job has. *)
Lemma free_ways_count num row : 0 < num → 
  free_ways num row + Z.of_nat (length (List.filter (Z.ltb 0) row)) = Z.of_nat (length row) + how_often num row.
Proof.
  intros Hn. unfold free_ways. induction row as [|x row IH]; [done|]. cbn [List.filter length how_often foldr]. fold (how_often num row).
  destruct (Z.leb_spec x 0), (Z.ltb_spec 0 x), (Z.eqb_spec x num); cbn [orb length Z.b2z]; lia.
Qed.

(** A row with jobs [q]: the other ways are empty and all jobs will be tried. *)
Definition row_of (q : list Z) : list Z := q ++ repeat 0 (7 - length q) ++ [-128].

Lemma row_of_wr q : (length q ≤ 7)%nat → wr (q ++ repeat 0 (8 - length q)) 7 (-128) = Some (row_of q).
Proof.
  intros L. replace (8 - length q)%nat with (7 - length q + 1)%nat by lia. rewrite repeat_app, app_assoc.
  unfold row_of. rewrite app_assoc. apply wr_app. rewrite length_app, repeat_length. lia.
Qed.

Lemma row_of_active q : Forall (λ x, 0 < x) q → (length q ≤ 7)%nat → active (row_of q).
Proof.
  intros Q L. right. split.
  - unfold tbl, row_of. change (Z.to_nat 7) with 7%nat. rewrite app_assoc.
    rewrite nth_lookup, lookup_app_r by (rewrite length_app, repeat_length; lia).
    rewrite length_app, repeat_length. replace (7 - (length q + (7 - length q)))%nat with 0%nat by lia. done.
  - apply jobs_first_app; [done|]. apply Forall_app. split; [|entries]. apply List.Forall_forall. intros x ->%repeat_spec. lia.
Qed.

Lemma row_of_how_often j q : 0 < j → how_often j (row_of q) = how_often j q.
Proof.
  intros Hj. unfold row_of. rewrite how_often_app, (how_often_none j (_ ++ _)); [lia| |done].
  apply Forall_app. split; [|entries]. apply List.Forall_forall. intros x ->%repeat_spec. lia.
Qed.

(** The row has job [num], all its jobs are tried, and it has the other jobs as before. *)
Definition job_added (num : Z) (row row' : list Z) : Prop :=
  num ∈ tried row' ∧ active row' ∧ ∀ j, 0 < j → j ≠ num → how_often j row' = how_often j row.

Lemma row_of_added num q row : 0 < num → Forall (λ x, 0 < x) q → (length q ≤ 7)%nat → num ∈ q →
  (∀ j, 0 < j → j ≠ num → how_often j q = how_often j row) → job_added num row (row_of q).
Proof.
  intros Hn Q L Hin Hj. pose proof (row_of_active q Q L) as A. split; [|split; [done|]].
  - apply active_tried; [done|done|]. unfold row_of. apply elem_of_app. by left.
  - intros j H0 Nj. rewrite row_of_how_often by done. by apply Hj.
Qed.

Lemma add_to_reserved n num row : row_ok n row → 0 < num → 1 < free_ways num row →
  ∃ row', add_to_row num (compact_row row) = Some row' ∧ job_added num row row'.
Proof.
  intros H Hn Hf. pose proof (free_ways_count num row Hn) as Hc. rewrite (row_length _ _ H) in Hc.
  unfold compact_row. cbv zeta. set (q := List.filter (Z.ltb 0) row) in *.
  assert (Q : Forall (λ x, 0 < x) q). { apply List.Forall_forall. intros x [_ Hx%Z.ltb_lt]%filter_In. done. }
  assert (Hq : ∀ j, 0 < j → how_often j q = how_often j row) by (intros; by apply how_often_filter).
  pose proof (room_left n row H) as L8. fold q in L8. assert (L : (length q ≤ 7)%nat) by lia.
  assert (Zs : Forall (λ x, x ≤ 0) (repeat 0 (8 - length q))). { apply List.Forall_forall. intros x ->%repeat_spec. lia. }
  unfold add_to_row. change (Z.to_nat _VBI3_RAW_DECODER_MAX_WAYS) with 8%nat. change (_VBI3_RAW_DECODER_MAX_WAYS - 1) with 7.
  destruct (decide (num ∈ q)) as [Hin|Hin].
  - destruct (list_elem_of_split_l q num Hin) as (q1 & q2 & E & N1).
    assert (Ew : q ++ repeat 0 (8 - length q) = [] ++ q1 ++ num :: (q2 ++ repeat 0 (8 - length q))) by (rewrite E at 1; by rewrite <- app_assoc).
    rewrite Ew, (find_way_there num q1 0); [|done|rewrite E in Q; by apply Forall_app in Q as [? _]|done|
      apply (f_equal length) in E; rewrite length_app in E; cbn [length] in E; lia].
    cbn [mbind option_bind]. cbn [app]. rewrite wr_app by lia. cbn [mbind option_bind]. cbn [app] in Ew. rewrite <- Ew.
    rewrite row_of_wr by done. eexists. split; [reflexivity|]. apply row_of_added; [done..|]. intros; by apply Hq.
  - assert (E0 : how_often num row = 0).
    { rewrite <- Hq by done. destruct (Z.eq_dec (how_often num q) 0) as [|N]; [done|]. exfalso. apply Hin, how_often_in. 
      pose proof (how_often_nonneg num q). lia. }
    replace (8 - length q)%nat with (S (7 - length q)) in * by lia.
    pose proof (find_way_first num q 0 (repeat 0 (S (7 - length q))) Hin Q ltac:(done) Zs [] 8 ltac:(done) ltac:(lia)) as F.
    cbn [app] in F. rewrite F.
    cbn [mbind option_bind repeat]. rewrite wr_app by lia. cbn [mbind option_bind].
    replace (q ++ num :: repeat 0 (7 - length q)) with ((q ++ [num]) ++ repeat 0 (8 - length (q ++ [num])))
      by (rewrite <- app_assoc; cbn [app]; do 3 f_equal; rewrite length_app; cbn [length]; lia).
    assert (L' : (length (q ++ [num]) ≤ 7)%nat) by (rewrite length_app; cbn [length]; lia).
    rewrite row_of_wr by done. eexists. split; [reflexivity|]. apply row_of_added; [done| |done| |].
    + apply Forall_app. split; [done|entries].
    + apply elem_of_app. right. by left.
    + intros j Hj Nj. rewrite how_often_app, Hq by done. cbn [how_often foldr]. rewrite (proj2 (Z.eqb_neq num j)) by congruence. cbn. lia.
Qed.

(** Whether the line is one of [m] lines from [first] on. *)
Definition among (first : Z) (m : nat) (i : nat) : Prop := first ≤ Z.of_nat i < first + Z.of_nat m.

Lemma reserve_lines_rows sp n num m : 0 ≤ n → ∀ first rows rows', pattern_ok sp n rows → 0 ≤ first →
  first + Z.of_nat m ≤ all_scan_lines sp → reserve_lines num m first rows = Some (true, rows') →
  pattern_ok sp n rows' ∧ ∀ i row, rows !! i = Some row →
    (among first m i → rows' !! i = Some (compact_row row) ∧ 1 < free_ways num row) ∧ (¬ among first m i → rows' !! i = Some row).
Proof.
  intros Hn. unfold among. induction m as [|m IH]; intros first rows rows' P H0 Hm E; cbn [reserve_lines] in E.
  { injection E as <-. split; [done|]. intros i row Hi. split; [lia|done]. }
  destruct (pattern_row sp n rows first P ltac:(lia)) as (row0 & E0 & L0 & Hr & W). rewrite E0 in E. cbn [mbind option_bind] in E.
  destruct (W _ (compact_row_ok n row0 Hn Hr)) as [Ew P']. rewrite Ew in E. cbn [mbind option_bind] in E.
  destruct (Z.leb_spec (free_ways num row0) 1); [done|].
  destruct (IH (first + 1) _ _ P' ltac:(lia) ltac:(lia) E) as [P1 R]. split; [done|]. intros i row Hi.
  destruct (decide (i = Z.to_nat first)) as [->|N].
  - replace row with row0 by congruence. destruct (R (Z.to_nat first) (compact_row row0)) as [_ R2];
      [apply list_lookup_insert_eq; by eapply lookup_lt_Some|]. split; [intros _; split; [apply R2; lia|done]|intros; lia].
  - destruct (R i row) as [R1 R2]; [by rewrite list_lookup_insert_ne by done|]. split; intros; [apply R1; lia|apply R2; lia].
Qed.

Lemma add_to_lines_rows num m : ∀ first rows rows', 0 ≤ first → add_to_lines num m first rows = Some rows' →
  ∀ i row, rows !! i = Some row →
    (among first m i → rows' !! i = add_to_row num row) ∧ (¬ among first m i → rows' !! i = Some row).
Proof.
  unfold among. induction m as [|m IH]; intros first rows rows' H0 E i row Hi; cbn [add_to_lines] in E.
  { injection E as <-. split; [lia|done]. }
  destruct (rd rows first) as [row0|] eqn:E0; [|done]. cbn [mbind option_bind] in E.
  destruct (add_to_row num row0) as [row1|] eqn:E1; [|done]. cbn [mbind option_bind] in E.
  destruct (wr rows first row1) as [rows1|] eqn:Ew; [|done]. cbn [mbind option_bind] in E. apply wr_Some in Ew as [_ ->].
  unfold rd in E0. rewrite decide_True in E0 by done. pose proof (IH (first + 1) _ _ ltac:(lia) E) as R.
  destruct (decide (i = Z.to_nat first)) as [->|N].
  - replace row with row0 by congruence. destruct (R (Z.to_nat first) row1) as [_ R2];
      [apply list_lookup_insert_eq; by eapply lookup_lt_Some|]. split; [intros _; rewrite R2 by lia; done|intros; lia].
  - destruct (R i row) as [R1 R2]; [by rewrite list_lookup_insert_ne by done|]. split; intros; [apply R1; lia|apply R2; lia].
Qed.

(** The lines of both fields. *)
Lemma job_added_rows sp n rows rows' job s0 s1 c0 c1 : 0 ≤ job ≤ n → pattern_ok sp n rows → lines_inside sp s0 c0 → lines_inside sp s1 c1 →
  s0 + c0 ≤ s1 → add_job_to_pattern rows job (s0, s1) (c0, c1) = Some (true, rows') → ∀ i row, rows !! i = Some row →
  ∃ row', rows' !! i = Some row' ∧
    if decide (s0 ≤ Z.of_nat i < s0 + c0 ∨ s1 ≤ Z.of_nat i < s1 + c1) then job_added (job + 1) row row' else row' = row.
Proof.
  intros Hj P (A1 & A2 & A3) (B1 & B2 & B3) Hd E i row Hi. unfold add_job_to_pattern in E. cbn [fst snd] in E.
  destruct (reserve_lines (job + 1) (Z.to_nat c0) s0 rows) as [[[] rows1]|] eqn:E1; cbn [mbind option_bind negb] in E; [|done..].
  destruct (reserve_lines (job + 1) (Z.to_nat c1) s1 rows1) as [[[] rows2]|] eqn:E2; cbn [mbind option_bind negb] in E; [|done..].
  destruct (add_to_lines (job + 1) (Z.to_nat c0) s0 rows2) as [rows3|] eqn:E3; cbn [mbind option_bind] in E; [|done].
  destruct (add_to_lines (job + 1) (Z.to_nat c1) s1 rows3) as [rows4|] eqn:E4; cbn [mbind option_bind] in E; [|done].
  injection E as <-.
  destruct (reserve_lines_rows sp n _ (Z.to_nat c0) ltac:(lia) s0 rows rows1 P A1 ltac:(lia) E1) as [P1 R1].
  destruct (reserve_lines_rows sp n _ (Z.to_nat c1) ltac:(lia) s1 rows1 rows2 P1 B1 ltac:(lia) E2) as [_ R2].
  pose proof (add_to_lines_rows _ _ _ _ _ A1 E3) as R3. pose proof (add_to_lines_rows _ _ _ _ _ B1 E4) as R4.
  unfold among in *. specialize (R1 i row Hi). pose proof (proj1 (Forall_lookup _ _) (proj2 P) _ _ Hi) as Hr.
  assert (Add : 1 < free_ways (job + 1) row → ∃ row', add_to_row (job + 1) (compact_row row) = Some row' ∧ job_added (job + 1) row row')
    by (intros; apply (add_to_reserved n); [done|lia|done]).
  destruct (decide (s0 ≤ Z.of_nat i < s0 + c0)) as [I0|I0]; [|destruct (decide (s1 ≤ Z.of_nat i < s1 + c1)) as [I1|I1]].
  - destruct (proj1 R1 ltac:(lia)) as [L1 F]. destruct (Add F) as (row' & Ea & G). exists row'. rewrite decide_True by (by left).
    split; [|done]. destruct (R2 i _ L1) as [_ L2]. specialize (L2 ltac:(lia)). destruct (R3 i _ L2) as [L3 _].
    specialize (L3 ltac:(lia)). rewrite Ea in L3. destruct (R4 i _ L3) as [_ L4]. apply L4. lia.
  - pose proof (proj2 R1 ltac:(lia)) as L1. destruct (R2 i _ L1) as [L2 _]. destruct (L2 ltac:(lia)) as [L2' F].
    destruct (Add F) as (row' & Ea & G). exists row'. rewrite decide_True by (by right). split; [|done].
    destruct (R3 i _ L2') as [_ L3]. specialize (L3 ltac:(lia)). destruct (R4 i _ L3) as [L4 _]. rewrite L4 by lia. done.
  - exists row. rewrite decide_False by naive_solver. split; [|done]. pose proof (proj2 R1 ltac:(lia)) as L1.
    destruct (R2 i _ L1) as [_ L2]. specialize (L2 ltac:(lia)). destruct (R3 i _ L2) as [_ L3]. specialize (L3 ltac:(lia)).
    destruct (R4 i _ L3) as [_ L4]. apply L4. lia.
Qed.

(** The ways of a line that other jobs have. *)
Definition other_jobs (num : Z) (row : list Z) : Z :=
  Z.of_nat (length (List.filter (λ x, (0 <? x) && negb (x =? num)) row)).

Lemma free_ways_others num row : free_ways num row + other_jobs num row = Z.of_nat (length row).
Proof.
  unfold free_ways, other_jobs. induction row as [|x row IH]; [done|]. cbn [List.filter length].
  destruct (Z.leb_spec x 0), (Z.ltb_spec 0 x), (Z.eqb_spec x num); cbn [orb andb negb length]; lia.
Qed.

(** The same jobs, how often a job has the line and where apart. *)
Definition same_jobs (row row' : list Z) : Prop := ∀ j, 0 < j → how_often j row' = how_often j row.

Lemma compact_row_jobs row : same_jobs row (compact_row row).
Proof.
  intros j Hj. unfold compact_row. cbv zeta. rewrite how_often_app, how_often_filter, (how_often_none j (repeat 0 _)); [lia| |done..].
  apply List.Forall_forall. intros x ->%repeat_spec. lia.
Qed.

(** Lines are reserved where all of them have less than seven other jobs. *)
Lemma reserve_lines_result sp n num m : 0 ≤ n → ∀ first rows ok rows', pattern_ok sp n rows → 0 ≤ first →
  first + Z.of_nat m ≤ all_scan_lines sp → reserve_lines num m first rows = Some (ok, rows') →
  (ok = true ↔ ∀ i row, among first m i → rows !! i = Some row → other_jobs num row ≤ 6) ∧
  (∀ i row, rows !! i = Some row → ∃ row', rows' !! i = Some row' ∧ same_jobs row row').
Proof.
  intros Hn. unfold among. induction m as [|m IH]; intros first rows ok rows' P H0 Hm E; cbn [reserve_lines] in E.
  { injection E as <- <-. split; [split; [intros _ i row; lia|done]|]. intros i row Hi. by exists row. }
  destruct (pattern_row sp n rows first P ltac:(lia)) as (row0 & E0 & L0 & Hr & W). rewrite E0 in E. cbn [mbind option_bind] in E.
  destruct (W _ (compact_row_ok n row0 Hn Hr)) as [Ew P']. rewrite Ew in E. cbn [mbind option_bind] in E.
  pose proof (free_ways_others num row0) as Ho. rewrite (row_length _ _ Hr) in Ho.
  assert (J : ∀ i row, rows !! i = Some row → ∃ row', <[Z.to_nat first := compact_row row0]> rows !! i = Some row' ∧ same_jobs row row').
  { intros i row Hi. destruct (decide (i = Z.to_nat first)) as [->|N].
    - exists (compact_row row0). split; [apply list_lookup_insert_eq; by eapply lookup_lt_Some|]. replace row with row0 by congruence. apply compact_row_jobs.
    - exists row. by rewrite list_lookup_insert_ne. }
  destruct (Z.leb_spec (free_ways num row0) 1).
  { injection E as <- <-. split; [|exact J]. split; [done|]. intros A. exfalso. specialize (A (Z.to_nat first) row0 ltac:(lia) L0). lia. }
  destruct (IH (first + 1) _ ok rows' P' ltac:(lia) ltac:(lia) E) as [R1 R2]. split.
  - rewrite R1. split; intros A i row Hi Hrow.
    + destruct (decide (i = Z.to_nat first)) as [->|N]; [replace row with row0 by congruence; lia|].
      apply (A i); [lia|by rewrite list_lookup_insert_ne].
    + apply (A i); [lia|]. rewrite list_lookup_insert_ne in Hrow by lia. done.
  - intros i row Hi. destruct (J i row Hi) as (row1 & E1 & J1). destruct (R2 i row1 E1) as (row2 & E2 & J2). exists row2. split; [done|].
    intros j Hj. by rewrite J2, J1.
Qed.

(** When the lines of both fields are reserved, and what a refusal leaves. *)
Lemma add_job_result sp n job rows s0 s1 c0 c1 ok rows' : 0 ≤ job ≤ n → pattern_ok sp n rows → lines_inside sp s0 c0 → lines_inside sp s1 c1 →
  s0 + c0 ≤ s1 → add_job_to_pattern rows job (s0, s1) (c0, c1) = Some (ok, rows') →
  (ok = true ↔ ∀ i row, rows !! i = Some row → s0 ≤ Z.of_nat i < s0 + c0 ∨ s1 ≤ Z.of_nat i < s1 + c1 → other_jobs (job + 1) row ≤ 6) ∧
  (ok = false → ∀ i row, rows !! i = Some row → ∃ row', rows' !! i = Some row' ∧ same_jobs row row').
Proof.
  intros Hj P (A1 & A2 & A3) (B1 & B2 & B3) Hd E. unfold add_job_to_pattern in E. cbn [fst snd] in E.
  destruct (reserve_lines (job + 1) (Z.to_nat c0) s0 rows) as [[ok1 rows1]|] eqn:E1; cbn [mbind option_bind] in E; [|done].
  destruct (reserve_lines_result sp n _ (Z.to_nat c0) ltac:(lia) s0 rows ok1 rows1 P A1 ltac:(lia) E1) as [K1 J1]. unfold among in K1.
  destruct ok1; cbn [negb] in E.
  2:{ injection E as <- <-. split; [|done]. split; [done|]. intros A. apply K1. intros i row Hi Hr. apply (A i); [done|lia]. }
  destruct (reserve_lines_rows sp n _ (Z.to_nat c0) ltac:(lia) s0 rows rows1 P A1 ltac:(lia) E1) as [P1 R1]. unfold among in R1.
  destruct (reserve_lines (job + 1) (Z.to_nat c1) s1 rows1) as [[ok2 rows2]|] eqn:E2; cbn [mbind option_bind] in E; [|done].
  destruct (reserve_lines_result sp n _ (Z.to_nat c1) ltac:(lia) s1 rows1 ok2 rows2 P1 B1 ltac:(lia) E2) as [K2 J2]. unfold among in K2.
  assert (K : ok2 = true ↔ ∀ i row, rows !! i = Some row → s0 ≤ Z.of_nat i < s0 + c0 ∨ s1 ≤ Z.of_nat i < s1 + c1 → other_jobs (job + 1) row ≤ 6).
  { rewrite K2. split; intros A i row Hi; [intros Hr|intros Hr].
    - destruct (decide (s0 ≤ Z.of_nat i < s0 + c0)) as [I|I]; [apply (proj1 K1 eq_refl i); [lia|done]|].
      apply (A i); [lia|]. apply (R1 i row Hi). lia.
    - assert (L : (i < length rows)%nat).
      { destruct P as [Lp _], P1 as [Lp1 _]. apply lookup_lt_Some in Hr. lia. }
      destruct (lookup_lt_is_Some_2 _ _ L) as [row1 Hr1]. pose proof (proj2 (R1 i row1 Hr1) ltac:(lia)) as Er.
      replace row with row1 by congruence. apply (A i); [done|lia]. }
  destruct ok2; cbn [negb] in E.
  - destruct (add_to_lines _ _ s0 rows2) as [rows3|]; cbn [mbind option_bind] in E; [|done].
    destruct (add_to_lines _ _ s1 rows3) as [rows4|]; cbn [mbind option_bind] in E; [|done]. injection E as <- <-. by split.
  - injection E as <- <-. split; [done|]. intros _ i row Hi. destruct (J1 i row Hi) as (row1 & Er1 & S1).
    destruct (J2 i row1 Er1) as (row2 & Er2 & S2). exists row2. split; [done|]. intros j Hj0. by rewrite S2, S1.
Qed.


