(* ===== verification/RawDecoderInv.v ===== *)
(** The invariant of the raw VBI decoder under all operations, and what decoding an image
    delivers. *)
From stdpp Require Import sorting.
From S2P Require Import Prelude Double Sliced BitSlicer SlicerBounds SlicerBits Services SamplingPar RawDecoder Permit RawLines RawPattern.

(** The invariant of a decoder with debugging off. *)
Record rd_ok (rd : vbi3_raw_decoder) : Prop := RdOk {
  rk_sampling : sampling rd = sampling_cleared ∨ sampling_ok (sampling rd);
  rk_decoding : decoding (n_jobs rd) rd;
  rk_services : services rd ≠ 0 → is_Some (pattern rd) ∧ sampling_ok (sampling rd);
  rk_pattern : match pattern rd with None => n_jobs rd = 0 | Some rows => pattern_ok (sampling rd) (n_jobs rd) rows end
}.

(** ** Removing services *)

Lemma rd_reset_ok rd : rd_ok rd → rd_ok (vbi3_raw_decoder_reset rd).
Proof.
  intros [S (D & _) _ _]. split; cbn; [done| |done|done]. split; [done|]. split; [done|]. split; [cbn; lia|].
  intros i j _ Hi. cbn in Hi. lia.
Qed.

Lemma remove_pattern_ok sp n rows : 1 ≤ n → pattern_ok sp n rows → pattern_ok sp (n - 1) (remove_job_from_pattern rows 0).
Proof.
  intros Hn [L F]. split; [by unfold remove_job_from_pattern; rewrite length_map|].
  apply Forall_map. eapply List.Forall_impl; [|exact F]. intros row H. apply remove_from_row_ok; [lia|done].
Qed.

(** The first of [n] jobs goes. *)
Lemma first_job_removed sp n js : 1 ≤ n → jobs_ok sp n js →
  ∃ js', wr (move_down js 0 (n - 0 - 1)) (n - 1) job_cleared = Some js' ∧ jobs_ok sp (n - 1) js'.
Proof.
  intros Hn (L & Hn8 & F). unfold move_down. change (take (Z.to_nat 0) js) with (@nil decoder_job). cbn [app]. rewrite Z.sub_0_r, !Z.add_0_l. change (Z.to_nat 1) with 1%nat.
  assert (Ll : length (take (Z.to_nat (n - 1)) (drop 1 js) ++ drop (Z.to_nat (n - 1)) js) = 8%nat).
  { rewrite length_app, length_take, !length_drop. lia. }
  rewrite wr_ok by lia. eexists. split; [reflexivity|]. split; [by rewrite length_insert|]. split; [lia|].
  intros i j Hi Hin. apply list_lookup_insert_Some in Hi as [(E & _ & _)|(_ & Hi)]; [lia|].
  rewrite lookup_app_l in Hi by (rewrite length_take, length_drop; lia). rewrite lookup_take_lt, lookup_drop in Hi by lia.
  eapply F; [exact Hi|]. lia.
Qed.

Lemma remove_loop_ok set fuel : ∀ num rd, n_jobs rd - num ≤ Z.of_nat fuel → 0 ≤ num → rd_ok rd →
  num = 0 ∨ (∃ j, Prelude.rd (jobs rd) 0 = Some j ∧ job_id j .& set = 0) →
  ∃ rd', remove_loop fuel set 0 num rd = Some rd' ∧ rd_ok rd' ∧ sampling rd' = sampling rd ∧ services rd' = services rd.
Proof.
  induction fuel as [|fuel IH]; intros num rd Hf H0 H Hnum; cbn [remove_loop];
    destruct (Z.leb_spec (n_jobs rd) num) as [|Hn]; try (by exists rd); [lia|].
  pose proof (rk_decoding _ H) as (Hd & Hj). pose proof Hj as (L & Hn8 & F).
  destruct (rd_is_Some (jobs rd) 0) as (j & Ej & _); [lia|]. rewrite Ej. cbn [mbind option_bind].
  destruct (Z.eqb_spec (job_id j .& set) 0) as [E|E]; cbn [negb].
  { apply IH; [lia|lia|done|right; by exists j]. }
  destruct Hnum as [->|(j' & Ej' & E')]; [|by replace j' with j in E' by congruence].
  destruct (first_job_removed (sampling rd) (n_jobs rd) (jobs rd) ltac:(lia) Hj) as (js & Ew & Hjs).
  cbn [jobs n_jobs set_pattern]. rewrite Ew. cbn [mbind option_bind].
  set (rd1 := set_jobs _ _). assert (H1 : rd_ok rd1).
  { split; cbn.
    - apply (rk_sampling _ H).
    - split; [done|exact Hjs].
    - intros N. destruct (rk_services _ H N) as [[rows ->] S]. split; [by eexists|done].
    - pose proof (rk_pattern _ H) as P. destruct (pattern rd) as [rows|]; cbn; [apply remove_pattern_ok; [lia|done]|lia]. }
  destruct (IH 0 rd1) as (rd' & -> & Hr & Hs & Hv); [cbn; lia|lia|done|by left|]. by exists rd'.
Qed.

Lemma remove_services_ok rd set : rd_ok rd → ∃ rd', vbi3_raw_decoder_remove_services rd set = Some (rd', services rd .& Z.lnot set) ∧
  rd_ok rd' ∧ sampling rd' = sampling rd ∧ services rd' = services rd .& Z.lnot set.
Proof.
  intros H. unfold vbi3_raw_decoder_remove_services. pose proof (rk_decoding _ H) as (_ & _ & ? & _).
  destruct (remove_loop_ok set (Z.to_nat (n_jobs rd)) 0 rd) as (rd' & -> & Hr & Hs & Hv); [lia|lia|done|by left|].
  cbn [mbind option_bind]. rewrite <- Hv. eexists. split; [reflexivity|]. split; [|done].
  destruct Hr as [R1 R2 R3 R4]. split; cbn; [done|done| |done]. intros N. apply R3. intros E. apply N. by rewrite E.
Qed.

(** ** Adding services *)

Lemma find_job_range id js : 0 ≤ find_job id js ≤ Z.of_nat (length js).
Proof. induction js as [|j js IH]; cbn [find_job length]; [lia|]. destruct (mergeable _); lia. Qed.

(** The slot of a job is filled, the [m] first jobs are in use. *)
Lemma job_stored sp n m j job js : jobs_ok sp n js → 0 ≤ j ≤ n → j < 8 → n ≤ m ≤ Z.max n (j + 1) → (j < m → slicer_fits sp (slicer job)) →
  wr js j job = Some (<[Z.to_nat j := job]> js) ∧ jobs_ok sp m (<[Z.to_nat j := job]> js).
Proof.
  intros (L & Hn & F) Hj Hj8 Hm Hf. split; [by apply wr_ok; lia|]. split; [by rewrite length_insert|]. split; [lia|].
  intros i x Hi Him. apply list_lookup_insert_Some in Hi as [(E & <- & _)|(N & Hi)]; [apply Hf; lia|]. eapply F; [exact Hi|]. lia.
Qed.

Lemma check_services_cleared services strict : _vbi_sampling_par_check_services sampling_cleared services strict = 0.
Proof.
  destruct (decide (_vbi_sampling_par_check_services sampling_cleared services strict = 0)) as [|N]; [done|exfalso].
  apply check_services_permits in N as (par & _ & _ & Hp). unfold _vbi_sampling_par_permit_service in Hp.
  change (_vbi_videostd_set_from_scanning (scanning sampling_cleared)) with 0 in Hp. by rewrite Z.land_0_r in Hp.
Qed.

Lemma rd_ok_build sp sv dbg n ra rows js spl : sp = sampling_cleared ∨ sampling_ok sp → dbg = false → jobs_ok sp n js →
  (sv ≠ 0 → sampling_ok sp) → pattern_ok sp n rows → rd_ok (RawDecoder sp sv dbg n ra (Some rows) js spl).
Proof. intros. split; [done|by split| |done]. intros N. split; [by eexists|auto]. Qed.

(** A decoder like [rd] that has a pattern. *)
Definition goes_on (rd rd' : vbi3_raw_decoder) : Prop := rd_ok rd' ∧ sampling rd' = sampling rd ∧ is_Some (pattern rd').

(** A permitted service gets a job and its lines. *)
Lemma permitted_service_ok par rd rows j job js : rd_ok rd → pattern rd = Some rows → sampling_ok (sampling rd) →
  par ∈ _vbi_service_table → 0 ≤ j ≤ n_jobs rd → j < 8 → jobs_ok (sampling rd) (n_jobs rd) js → 
  (∃ bs, job_slicer (sampling rd) par = Some bs ∧ slicer_fits (sampling rd) bs) →
  ∃ rd', (bs ← job_slicer (sampling rd) par;
    js ← wr js j (set_slicer bs job);
    '(start, count) ← lines_containing_data (sampling rd) par;
    rows ← pattern rd;
    '(ok, rows) ← add_job_to_pattern rows j start count;
    let rd := set_pattern (Some rows) (set_jobs js rd) in
    if negb ok then Some (true, rd) else
    js ← wr (jobs rd) j (set_id (job_id job .| par_id par) (set_slicer bs job));
    let rd := set_jobs js rd in
    let rd := if n_jobs rd <=? j then set_n_jobs (n_jobs rd + 1) rd else rd in
    Some (true, set_services (services rd .| par_id par) rd)) = Some (true, rd') ∧ goes_on rd rd'.
Proof.
  intros H Ep S Hp Hj Hj8 Hjs (bs & -> & Hbs). pose proof (rk_decoding _ H) as (D & _ & Hn & _). cbn [mbind option_bind].
  destruct (job_stored _ _ (n_jobs rd) j (set_slicer bs job) js Hjs Hj Hj8 ltac:(lia) (λ _, Hbs)) as [-> Hjs1]. cbn [mbind option_bind].
  unfold lines_containing_data.
  destruct (field_lines_ok (sampling rd) par 0 S Hp ltac:(by left)) as (s0 & c0 & -> & I0). cbn [mbind option_bind].
  destruct (field_lines_ok (sampling rd) par 1 S Hp ltac:(by right)) as (s1 & c1 & -> & I1). cbn [mbind option_bind].
  apply field_inside_lines in I0, I1; [|done..].
  pose proof (rk_pattern _ H) as P. rewrite Ep in P |- *. cbn [mbind option_bind].
  destruct (add_job_to_pattern_ok (sampling rd) (n_jobs rd) j rows s0 s1 c0 c1 Hj P I0 I1) as (ok & rows' & -> & P').
  cbn [mbind option_bind]. cbv zeta. destruct ok; cbn [negb].
  - cbn [jobs set_pattern set_jobs].
    destruct (job_stored _ _ (Z.max (n_jobs rd) (j + 1)) j (set_id (job_id job .| par_id par) (set_slicer bs job)) _ Hjs1 Hj Hj8 ltac:(lia) (λ _, Hbs))
      as [-> Hjs2].
    cbn [mbind option_bind]. eexists. split; [reflexivity|]. cbn [n_jobs set_jobs set_pattern].
    destruct (Z.leb_spec (n_jobs rd) j); (split; [|split; [done|by eexists]]); apply rd_ok_build;
      first [by right|done|intros; exact S|idtac];
      cbn [n_jobs set_jobs set_pattern] in *; [replace (n_jobs rd + 1) with (Z.max (n_jobs rd) (j + 1)) by lia..|
      replace (n_jobs rd) with (Z.max (n_jobs rd) (j + 1)) by lia|replace (n_jobs rd) with (Z.max (n_jobs rd) (j + 1)) by lia]; done.
  - eexists. split; [reflexivity|]. split; [|split; [done|by eexists]]. apply rd_ok_build; [by right|done|done|by intros|done].
Qed.

Lemma add_service_ok set strict par rd : rd_ok rd → is_Some (pattern rd) → par ∈ _vbi_service_table →
  (par_id par .& set ≠ 0 → all_lines par = false) →
  ∃ go_on rd', add_service set strict par rd = Some (go_on, rd') ∧ goes_on rd rd'.
Proof.
  intros H [rows Ep] Hp Ha. unfold add_service. destruct (Z.eqb_spec (par_id par .& set) 0) as [|N]; [by exists true, rd|].
  specialize (Ha N). cbv zeta. pose proof (rk_decoding _ H) as (D & Hjs). pose proof Hjs as (L & Hn & F).
  set (j := find_job _ _). pose proof (find_job_range (par_id par) (take (Z.to_nat (n_jobs rd)) (jobs rd))) as Hj.
  rewrite length_take in Hj. fold j in Hj. change _VBI3_RAW_DECODER_MAX_JOBS with 8.
  destruct (Z.leb_spec 8 j); [by exists false, rd|].
  destruct (rd_is_Some (jobs rd) j) as (job & -> & Ej); [lia|]. cbn [mbind option_bind].
  set (job' := if n_jobs rd <=? j then _ else _).
  destruct (job_stored (sampling rd) (n_jobs rd) (n_jobs rd) j job' (jobs rd) Hjs ltac:(lia) ltac:(lia) ltac:(lia)) as [-> Hjs1].
  { intros Hlt. unfold job'. rewrite (proj2 (Z.leb_gt _ _)) by lia. eapply F; [exact Ej|lia]. }
  cbn [mbind option_bind]. set (rd1 := set_jobs _ rd).
  assert (H1 : rd_ok rd1). { destruct H as [A1 A2 A3 A4]. split; [done|by split|done|done]. }
  destruct (Z.eqb_spec (_vbi_sampling_par_check_services (sampling rd1) (par_id par) (u32 strict)) 0) as [|C].
  { exists true, rd1. split; [done|]. split; [done|]. split; [done|]. cbn. rewrite Ep. by eexists. }
  assert (S : sampling_ok (sampling rd1)).
  { destruct (rk_sampling _ H1) as [E|]; [|done]. rewrite E, check_services_cleared in C. done. }
  destruct (permitted_service_ok par rd1 rows j job' (jobs rd1) H1 Ep S Hp ltac:(cbn; lia) ltac:(lia) Hjs1) as (rd' & E & G).
  { destruct (accepted_entry (sampling rd1) par (u32 strict) Hp Ha C) as (par' & <- & He & Hper). by eapply permitted_entry. }
  exists true, rd'. split; [exact E|exact G].
Qed.

Lemma add_table_ok set strict table : (∀ par, par ∈ table → par ∈ _vbi_service_table) →
  (∀ par, par ∈ table → par_id par .& set ≠ 0 → all_lines par = false) → ∀ rd, rd_ok rd → is_Some (pattern rd) →
  ∃ rd', add_loop set strict table rd = Some rd' ∧ goes_on rd rd'.
Proof.
  induction table as [|par table IH]; intros Ht Ha rd H Hr; cbn [add_loop]; [by exists rd|].
  destruct (add_service_ok set strict par rd H Hr) as (go_on & rd1 & -> & G); [apply Ht; by left|apply Ha; by left|].
  cbn [mbind option_bind]. destruct go_on; [|by exists rd1]. destruct G as (G1 & G2 & G3).
  destruct (IH ltac:(intros; apply Ht; by right) ltac:(intros; by apply Ha; [right|]) rd1 G1 G3) as (rd' & -> & A1 & A2 & A3).
  exists rd'. split; [done|]. split; [done|]. split; [congruence|done].
Qed.

Lemma all_lines_masked par set : par ∈ _vbi_service_table → par_id par .& (set .& Z.lnot VBI_SLICED_VBI) ≠ 0 → all_lines par = false.
Proof.
  intros Hp N. assert (T : forallb (λ par, negb (all_lines par) || (par_id par .& Z.lnot VBI_SLICED_VBI =? 0)) _vbi_service_table = true)
    by (vm_compute; reflexivity).
  rewrite forallb_forall in T. apply list_elem_of_In, T, orb_true_iff in Hp as [Hp|Hp%Z.eqb_eq]; [by apply negb_true_iff|].
  exfalso. apply N. by rewrite (Z.land_comm set), Z.land_assoc, Hp.
Qed.

Lemma add_services_ok malloc rd set strict : rd_ok rd →
  ∃ rd' sv, vbi3_raw_decoder_add_services malloc rd set strict = Some (rd', sv) ∧ rd_ok rd' ∧ sampling rd' = sampling rd ∧ services rd' = sv.
Proof.
  intros H. unfold vbi3_raw_decoder_add_services. cbv zeta. fold VBI_SLICED_VBI.
  set (set' := set .& Z.lnot VBI_SLICED_VBI .& Z.lnot (services rd)).
  destruct (set' =? 0); [by eexists _, _|]. destruct (negb (bool_decide _) && _); [by eexists _, _|].
  set (rows := default _ (pattern rd)).
  assert (R : rd_ok (set_pattern (Some rows) rd)).
  { pose proof (rk_pattern _ H) as P. destruct H as [A1 (A2 & A5) A3 A4]. apply rd_ok_build; [done|done|done|intros N; by apply A3|].
    unfold rows. destruct (pattern rd) as [rows0|]; cbn [default]; [done|]. rewrite P.
    replace (scan_lines rd) with (all_scan_lines (sampling rd)); [apply new_pattern_ok|].
    destruct A1 as [E|S]; [unfold scan_lines, all_scan_lines; by rewrite E|symmetry; by apply scan_lines_eq]. }
  destruct (add_table_ok set' strict _vbi_service_table ltac:(done)) with (rd := set_pattern (Some rows) rd) as (rd' & -> & G1 & G2 & _);
    [|done|by eexists|].
  - intros par Hp N. apply (all_lines_masked par (set .& Z.lnot (services rd))); [done|]. intros E. apply N. unfold set'.
    by rewrite <- (Z.land_assoc set), (Z.land_comm (Z.lnot VBI_SLICED_VBI)), (Z.land_assoc set).
  - cbn [mbind option_bind]. by eexists _, _.
Qed.

(** ** Decoding *)

Lemma rd_ok_lines rd : rd_ok rd → 0 ≤ all_scan_lines (sampling rd).
Proof. intros H. destruct (rk_sampling _ H) as [->|S]; [done|]. pose proof (sm_count _ S). unfold all_scan_lines. lia. Qed.

Lemma image_outcome_count rd rows raw max_lines sliced sliced' k : rd_ok rd → image_outcome rd rows raw max_lines 0 sliced 0 sliced' k →
  k ≤ all_scan_lines (sampling rd).
Proof.
  intros H (nums & outs & _ & -> & Hsort & Hf & Hd & _). rewrite <- (Forall2_length Hd).
  pose proof (sorted_length nums 0 _ (rd_ok_lines rd H) Hsort Hf). lia.
Qed.

Lemma decode_delivers (rd : vbi3_raw_decoder) (sliced : list vbi_sliced) (max_lines : Z) (raw : list Z) :
  rd_ok rd → bytes raw → image_memory (sampling rd) ≤ Z.of_nat (length raw) →
  0 ≤ max_lines ≤ Z.of_nat (length sliced) → Forall sliced_ok sliced →
  ∃ rd' sliced' k, vbi3_raw_decoder_decode rd sliced max_lines raw = Some (rd', sliced', k) ∧
    rd_ok rd' ∧ Forall sliced_ok sliced' ∧ 0 ≤ k ≤ max_lines ∧ (services rd = 0 → rd' = rd ∧ sliced' = sliced ∧ k = 0) ∧
    services rd' = services rd ∧ sampling rd' = sampling rd ∧
    (∀ rows, services rd ≠ 0 → pattern rd = Some rows → ∃ rows', pattern rd' = Some rows' ∧ Forall2 kept_row rows rows' ∧
      image_outcome rd rows raw max_lines 0 sliced 0 sliced' k).
Proof.
  intros H Hraw Hmem Hmax Hs. unfold vbi3_raw_decoder_decode. destruct (Z.eqb_spec (services rd) 0) as [|N].
  { exists rd, sliced, 0. do 7 (split; [done || lia|]). done. }
  destruct (rk_services _ H N) as [[rows E] S]. pose proof (rk_pattern _ H) as P. rewrite E in P |- *. cbn [mbind option_bind]. cbv zeta.
  rewrite scan_lines_eq by done. pose proof (sm_count _ S) as C. pose proof (rk_decoding _ H) as D.
  destruct (decode_lines_ok (n_jobs rd) (sampling rd) max_lines raw (Z.to_nat (all_scan_lines (sampling rd))) S ltac:(destruct D as (_ & ? & ? & _); lia)
    Hraw Hmem 0 0 rd sliced 0 rows) as (rd' & sliced' & k & rows' & -> & T1 & T2 & T3 & T4 & T5 & T6 & T7); try (done || lia).
  { unfold all_scan_lines. lia. }
  { unfold line_pointer, line_start. destruct (interlaced (sampling rd)); [|right; lia].
    destruct (Z.ltb_spec 0 (count (sampling rd)).1); [right; lia|left; split; [done|lia]]. }
  cbn [mbind option_bind]. destruct T1 as (js & -> & Hj). eexists _, _, _. split; [reflexivity|].
  split; [split; [by right|done|intros _; split; [by eexists|done]|done]|]. split; [done|].
  split; [destruct T7 as (nums & outs & _ & -> & _); lia|]. split; [done|]. split; [done|]. split; [done|].
  intros rows0 _ E0. replace rows0 with rows by congruence. by exists rows'.
Qed.

Lemma decode_safe rd sliced max_lines raw : rd_ok rd → bytes raw → image_memory (sampling rd) ≤ Z.of_nat (length raw) →
  0 ≤ max_lines ≤ Z.of_nat (length sliced) → Forall sliced_ok sliced →
  ∃ rd' sliced' k, vbi3_raw_decoder_decode rd sliced max_lines raw = Some (rd', sliced', k) ∧ rd_ok rd' ∧ sampling rd' = sampling rd.
Proof.
  intros H1 H2 H3 H4 H5.
  destruct (decode_delivers rd sliced max_lines raw H1 H2 H3 H4 H5) as (rd' & sliced' & k & E & A & _ & _ & _ & _ & B & _).
  by exists rd', sliced', k.
Qed.


(** An NTSC decoder for Closed Caption of line 21 and an image with a caption line. *)
Definition ntsc_sampling : vbi_sampling_par :=
  SamplingPar 525 VBI_PIXFMT_YUV420 13500000 720 0 (21, 284) (1, 1) false true.
Lemma ntsc_sampling_ok : sampling_ok ntsc_sampling.
Proof. split; cbn; [vm_compute; reflexivity..|lia|lia|lia|lia]. Qed.

Definition new_decoder (sp : vbi_sampling_par) : vbi3_raw_decoder := (_vbi3_raw_decoder_init (Some sp)).2.
Definition services_added (rd : vbi3_raw_decoder) (set strict : Z) : vbi3_raw_decoder :=
  match vbi3_raw_decoder_add_services true rd set strict with Some (rd, _) => rd | None => rd end.
Definition caption_decoder : vbi3_raw_decoder := services_added (new_decoder ntsc_sampling) VBI_SLICED_CAPTION_525 1.

Lemma new_decoder_ok sp : _vbi_sampling_par_valid sp = true → sampling_ok sp → rd_ok (new_decoder sp).
Proof.
  intros V S. unfold new_decoder, _vbi3_raw_decoder_init. rewrite V. cbn [negb snd].
  split; cbn; [by right| |done|done]. split; [done|]. split; [done|]. split; [cbn; lia|]. intros i j _ Hi. cbn in Hi. lia.
Qed.

Lemma services_added_ok rd set strict : rd_ok rd → rd_ok (services_added rd set strict) ∧ sampling (services_added rd set strict) = sampling rd.
Proof. intros H. unfold services_added. by destruct (add_services_ok true rd set strict H) as (rd' & sv & -> & ? & ? & _). Qed.

Lemma caption_decoder_ok : rd_ok caption_decoder ∧ sampling caption_decoder = ntsc_sampling.
Proof.
  destruct (services_added_ok (new_decoder ntsc_sampling) VBI_SLICED_CAPTION_525 1) as [H E];
    [by apply new_decoder_ok; [|apply ntsc_sampling_ok]|]. by split.
Qed.

Definition caption_image : list Z := take 720 caption_line ++ repeat 16 (720 - length caption_line) ++ repeat 16 (720 + 17).
Definition no_lines (n : nat) : list vbi_sliced := repeat (Sliced 0 0 (repeat 0 56)) n.
Lemma no_lines_ok n : Forall sliced_ok (no_lines n).
Proof. apply List.Forall_forall. intros s ->%repeat_spec. split; [done|]. apply repeat_bytes. vm_compute. intuition congruence. Qed.

Lemma caption_decoded : (λ x, (x.2, map (λ s, (id s, line s, take 2 (data s))) x.1.2)) <$>
    vbi3_raw_decoder_decode caption_decoder (no_lines 2) 2 caption_image =
  Some (1, [(VBI_SLICED_CAPTION_525, 21, [0x94; 0x2C]); (0, 0, [0; 0])]).
Proof. vm_compute. reflexivity. Qed.

Lemma caption_image_bytes : bytes caption_image.
Proof. apply (bool_decide_unpack _). vm_compute. exact I. Qed.


(** ** All operations *)

(** What a client does with a decoder; [malloc] and [calloc] say whether there is memory. *)
Inductive raw_op :=
  | OpDecode (sliced : list vbi_sliced) (max_lines : Z) (raw : list Z)
  | OpAddServices (malloc : bool) (set strict : Z)
  | OpRemoveServices (set : Z)
  | OpReset
  | OpSetSamplingPar (malloc calloc : bool) (sp : vbi_sampling_par) (strict : Z)
  | OpDebugOff (calloc : bool).

Definition run_op (rd : vbi3_raw_decoder) (op : raw_op) : option vbi3_raw_decoder :=
  match op with
  | OpDecode sliced max_lines raw => '(rd, _, _) ← vbi3_raw_decoder_decode rd sliced max_lines raw; Some rd
  | OpAddServices malloc set strict => '(rd, _) ← vbi3_raw_decoder_add_services malloc rd set strict; Some rd
  | OpRemoveServices set => '(rd, _) ← vbi3_raw_decoder_remove_services rd set; Some rd
  | OpReset => Some (vbi3_raw_decoder_reset rd)
  | OpSetSamplingPar malloc calloc sp strict =>
      '(rd, _) ← vbi3_raw_decoder_set_sampling_par malloc calloc rd sp strict; Some rd
  | OpDebugOff calloc => Some (vbi3_raw_decoder_debug calloc rd false).1
  end.

Fixpoint run_ops (rd : vbi3_raw_decoder) (ops : list raw_op) : option vbi3_raw_decoder :=
  match ops with [] => Some rd | op :: ops => rd ← run_op rd op; run_ops rd ops end.

(** The client passes an image of the sampled size with the memory behind it, an array of
    [max_lines] sliced lines, and sampling parameters in the range of the slicer. *)
Definition op_ok (sp : vbi_sampling_par) (op : raw_op) : Prop :=
  match op with
  | OpDecode sliced max_lines raw => bytes raw ∧ image_memory sp ≤ Z.of_nat (length raw) ∧
      0 ≤ max_lines ≤ Z.of_nat (length sliced) ∧ Forall sliced_ok sliced
  | OpSetSamplingPar _ _ sp _ => _vbi_sampling_par_valid sp = true → sampling_ok sp
  | _ => True
  end.

(** The parameters behind an operation. *)
Definition sampling_after (sp : vbi_sampling_par) (op : raw_op) : vbi_sampling_par :=
  match op with
  | OpSetSamplingPar _ _ sp _ => if _vbi_sampling_par_valid sp then sp else sampling_cleared
  | _ => sp
  end.

Fixpoint ops_ok (sp : vbi_sampling_par) (ops : list raw_op) : Prop :=
  match ops with [] => True | op :: ops => op_ok sp op ∧ ops_ok (sampling_after sp op) ops end.

Lemma debug_off_ok calloc rd : rd_ok rd → rd_ok (vbi3_raw_decoder_debug calloc rd false).1 ∧
  sampling (vbi3_raw_decoder_debug calloc rd false).1 = sampling rd.
Proof.
  intros [A1 (A2 & A5) A3 A4]. unfold vbi3_raw_decoder_debug. cbn [andb]. cbv zeta. change (0 <? 0) with false.
  destruct (_ =? 0); (split; [by split|done]).
Qed.

Lemma set_sampling_par_ok malloc calloc rd sp strict : rd_ok rd → (_vbi_sampling_par_valid sp = true → sampling_ok sp) →
  ∃ rd' sv, vbi3_raw_decoder_set_sampling_par malloc calloc rd sp strict = Some (rd', sv) ∧ rd_ok rd' ∧
    sampling rd' = if _vbi_sampling_par_valid sp then sp else sampling_cleared.
Proof.
  intros H Hsp. unfold vbi3_raw_decoder_set_sampling_par. cbv zeta. pose proof (rk_decoding _ H) as (D & _).
  assert (G : ∀ sp', sp' = sampling_cleared ∨ sampling_ok sp' → rd_ok (set_sampling sp' (vbi3_raw_decoder_reset rd))).
  { intros sp' Hs. split; cbn; [done| |done|done]. split; [done|]. split; [done|]. split; [cbn; lia|]. intros i j _ Hi. cbn in Hi. lia. }
  destruct (_vbi_sampling_par_valid sp); cbn [negb].
  - change (debug (vbi3_raw_decoder_reset rd)) with (debug rd). rewrite D.
    destruct (debug_off_ok calloc _ (G sp ltac:(by right; apply Hsp))) as [G1 G2].
    destruct (add_services_ok malloc _ (services rd) strict G1) as (rd' & sv & -> & A1 & A2 & _).
    eexists _, _. split; [reflexivity|]. split; [done|]. by rewrite A2, G2.
  - eexists _, _. split; [reflexivity|]. split; [apply G; by left|done].
Qed.

Lemma run_op_ok rd op : rd_ok rd → op_ok (sampling rd) op →
  ∃ rd', run_op rd op = Some rd' ∧ rd_ok rd' ∧ sampling rd' = sampling_after (sampling rd) op.
Proof.
  intros H Ho. destruct op as [sliced max_lines raw|malloc set strict|set| |malloc calloc sp strict|calloc]; cbn [run_op op_ok sampling_after] in *.
  - destruct Ho as (H1 & H2 & H3 & H4). 
    destruct (decode_safe rd sliced max_lines raw H H1 H2 H3 H4) as (rd' & sliced' & k & -> & A1 & A2). by exists rd'.
  - destruct (add_services_ok malloc rd set strict H) as (rd' & sv & -> & A1 & A2 & _). by exists rd'.
  - destruct (remove_services_ok rd set H) as (rd' & -> & A1 & A2 & _). by exists rd'.
  - eexists. split; [reflexivity|]. split; [by apply rd_reset_ok|done].
  - destruct (set_sampling_par_ok malloc calloc rd sp strict H Ho) as (rd' & sv & -> & A1 & A2). by exists rd'.
  - destruct (debug_off_ok calloc rd H) as [A1 A2]. eexists. split; [reflexivity|done].
Qed.

(** C16: a decoder made by [vbi3_raw_decoder_new] keeps its invariant: every sequence of
    operations with sampling parameters in the range of the slicer ([sampling_ok]: not
    PAL8, lines of at most 32767 bytes, line numbers and counts below 2^30; see
    [assertion_fails] for others), with the memory the slicer reads behind the image and
    with debugging, if at all, switched off, returns, so no access leaves the image, the arrays of
    sliced lines, the rows of the pattern or the jobs, no assertion fails, and the jobs in
    the pattern are ready slicers. *)
Theorem raw_decoder_invariant (sp : option vbi_sampling_par) (rd : vbi3_raw_decoder) (ops : list raw_op) :
  vbi3_raw_decoder_new true sp = Some rd → (∀ sp0, sp = Some sp0 → sampling_ok sp0) → ops_ok (sampling rd) ops →
  ∃ rd', run_ops rd ops = Some rd' ∧ rd_ok rd'.
Proof.
  intros E Hsp. assert (H : rd_ok rd).
  { unfold vbi3_raw_decoder_new in E. cbn [negb] in E. destruct sp as [sp|].
    - pose proof (new_decoder_ok sp) as N. unfold new_decoder in N. unfold _vbi3_raw_decoder_init in E, N.
      destruct (_vbi_sampling_par_valid sp); cbn [negb snd] in *; [|done]. injection E as <-. by apply N, Hsp.
    - injection E as <-. split; cbn; [by left| |done|done]. split; [done|]. split; [done|]. split; [cbn; lia|]. intros i j _ Hi. cbn in Hi. lia. }
  clear E. revert rd H. induction ops as [|op ops IH]; intros rd H Ho; cbn [run_ops ops_ok] in *; [by exists rd|].
  destruct Ho as [Ho1 Ho2]. destruct (run_op_ok rd op H Ho1) as (rd1 & -> & H1 & Es). cbn [mbind option_bind].
  apply IH; [done|by rewrite Es].
Qed.

Lemma raw_decoder_invariant_witness :
  ∃ rd', run_ops (new_decoder ntsc_sampling) [OpAddServices true VBI_SLICED_CAPTION_525 1; OpDecode (no_lines 2) 2 caption_image;
    OpRemoveServices VBI_SLICED_CAPTION_525_F1; OpDecode (no_lines 2) 1 caption_image; OpSetSamplingPar true true pal_sampling 1;
    OpAddServices true (VBI_SLICED_TELETEXT_B .| VBI_SLICED_VPS) 1; OpReset] = Some rd' ∧ rd_ok rd'.
Proof.
  apply (raw_decoder_invariant (Some ntsc_sampling)).
  - vm_compute. reflexivity.
  - intros sp0 [= <-]. exact ntsc_sampling_ok.
  - cbn [ops_ok op_ok sampling_after]. pose proof caption_image_bytes as B. pose proof (no_lines_ok 2) as N.
    change (sampling (new_decoder ntsc_sampling)) with ntsc_sampling.
    split; [done|]. split; [split; [exact B|split; [vm_compute; congruence|split; [vm_compute; intuition congruence|exact N]]]|].
    split; [done|]. split; [split; [exact B|split; [vm_compute; congruence|split; [vm_compute; intuition congruence|exact N]]]|].
    split; [intros _; exact pal_sampling_ok|]. done.
Defined.

(** ** What the operations do not do *)

Definition jobs_and_services (rd : vbi3_raw_decoder) : Z * list Z * Z :=
  (n_jobs rd, map job_id (take (Z.to_nat (n_jobs rd)) (jobs rd)), services rd).

Definition pal_services_decoder : vbi3_raw_decoder :=
  services_added (new_decoder pal_sampling) (VBI_SLICED_TELETEXT_B .| VBI_SLICED_VPS) 1.

(** A service whose job is not the first one is reported as removed, but still decoded. *)
Lemma second_job_not_removed : jobs_and_services pal_services_decoder = (2, [VBI_SLICED_TELETEXT_B; VBI_SLICED_VPS], 7) ∧
  (jobs_and_services ∘ fst) <$> vbi3_raw_decoder_remove_services pal_services_decoder VBI_SLICED_VPS =
    Some (2, [VBI_SLICED_TELETEXT_B; VBI_SLICED_VPS], VBI_SLICED_TELETEXT_B).
Proof. split; vm_compute; reflexivity. Qed.

(** Removing one of two services of a job removes the job; the other service is reported,
    cannot be added again, and is not decoded. *)
Lemma other_field_removed : jobs_and_services caption_decoder = (1, [VBI_SLICED_CAPTION_525], VBI_SLICED_CAPTION_525) ∧
  ('(rd, _) ← vbi3_raw_decoder_remove_services caption_decoder VBI_SLICED_CAPTION_525_F1;
   '(rd, _) ← vbi3_raw_decoder_add_services true rd VBI_SLICED_CAPTION_525_F2 1;
   Some (jobs_and_services rd)) = Some (0, [], VBI_SLICED_CAPTION_525_F2).
Proof. split; vm_compute; reflexivity. Qed.

(** Both Teletext levels are added where only one of them is permitted. *)
Lemma level_not_permitted : _vbi_sampling_par_check_services pal_sampling VBI_SLICED_TELETEXT_B 2 = VBI_SLICED_TELETEXT_B_L10_625 ∧
  services (services_added (new_decoder pal_sampling) VBI_SLICED_TELETEXT_B 2) = VBI_SLICED_TELETEXT_B.
Proof. split; vm_compute; reflexivity. Qed.

(** Sampling parameters that are valid and permit the service, but an assertion fails: a
    pixel format the slicer does not know, and a line longer than 32767 samples. *)
Definition pal8_sampling : vbi_sampling_par := SamplingPar 625 VBI_PIXFMT_PAL8 13500000 2880 0 (7, 320) (16, 16) false true.
Definition long_sampling : vbi_sampling_par := SamplingPar 625 VBI_PIXFMT_YUV420 13500000 40000 0 (7, 320) (16, 16) false true.
Lemma assertion_fails sp : sp = pal8_sampling ∨ sp = long_sampling → _vbi_sampling_par_valid sp = true ∧
  _vbi_sampling_par_check_services sp VBI_SLICED_TELETEXT_B 1 = VBI_SLICED_TELETEXT_B_L10_625 ∧
  vbi3_raw_decoder_add_services true (new_decoder sp) VBI_SLICED_TELETEXT_B 1 = None.
Proof. intros [->| ->]; (split; [|split]); vm_compute; reflexivity. Qed.
