(* ===== verification/Format.v ===== *)
(** Formatted pages: the parts of [src/src/format.h] that the caption decoder and the
    character set functions use. *)
From S2P Require Import Prelude.

(** ** Colours, opacity *)

Definition VBI_BLACK : Z := 0.
Definition VBI_RED : Z := 1.
Definition VBI_GREEN : Z := 2.
Definition VBI_YELLOW : Z := 3.
Definition VBI_BLUE : Z := 4.
Definition VBI_MAGENTA : Z := 5.
Definition VBI_CYAN : Z := 6.
Definition VBI_WHITE : Z := 7.

Definition VBI_TRANSPARENT_SPACE : Z := 0.
Definition VBI_TRANSPARENT_FULL : Z := 1.
Definition VBI_SEMI_TRANSPARENT : Z := 2.
Definition VBI_OPAQUE : Z := 3.

(** ** Characters *)

(** [vbi_char]; bit fields of one bit are [bool]. *)
Record vbi_char := Char {
  underline : bool; bold : bool; italic : bool; flash : bool; conceal : bool;
  proportional : bool; link : bool; reserved : bool;
  size : Z; opacity : Z; foreground : Z; background : Z; drcs_clut_offs : Z; unicode : Z
}.

(** A character after [CLEAR]. *)
Definition char0 : vbi_char :=
  Char false false false false false false false false 0 0 0 0 0 0.

Definition set_underline (b : bool) (c : vbi_char) : vbi_char :=
  Char b (bold c) (italic c) (flash c) (conceal c) (proportional c) (link c) (reserved c)
    (size c) (opacity c) (foreground c) (background c) (drcs_clut_offs c) (unicode c).
Definition set_bold (b : bool) (c : vbi_char) : vbi_char :=
  Char (underline c) b (italic c) (flash c) (conceal c) (proportional c) (link c) (reserved c)
    (size c) (opacity c) (foreground c) (background c) (drcs_clut_offs c) (unicode c).
Definition set_italic (b : bool) (c : vbi_char) : vbi_char :=
  Char (underline c) (bold c) b (flash c) (conceal c) (proportional c) (link c) (reserved c)
    (size c) (opacity c) (foreground c) (background c) (drcs_clut_offs c) (unicode c).
Definition set_flash (b : bool) (c : vbi_char) : vbi_char :=
  Char (underline c) (bold c) (italic c) b (conceal c) (proportional c) (link c) (reserved c)
    (size c) (opacity c) (foreground c) (background c) (drcs_clut_offs c) (unicode c).
Definition set_opacity (x : Z) (c : vbi_char) : vbi_char :=
  Char (underline c) (bold c) (italic c) (flash c) (conceal c) (proportional c) (link c) (reserved c)
    (size c) x (foreground c) (background c) (drcs_clut_offs c) (unicode c).
Definition set_foreground (x : Z) (c : vbi_char) : vbi_char :=
  Char (underline c) (bold c) (italic c) (flash c) (conceal c) (proportional c) (link c) (reserved c)
    (size c) (opacity c) x (background c) (drcs_clut_offs c) (unicode c).
Definition set_background (x : Z) (c : vbi_char) : vbi_char :=
  Char (underline c) (bold c) (italic c) (flash c) (conceal c) (proportional c) (link c) (reserved c)
    (size c) (opacity c) (foreground c) x (drcs_clut_offs c) (unicode c).
Definition set_unicode (x : Z) (c : vbi_char) : vbi_char :=
  Char (underline c) (bold c) (italic c) (flash c) (conceal c) (proportional c) (link c) (reserved c)
    (size c) (opacity c) (foreground c) (background c) (drcs_clut_offs c) x.

(** ** Pages *)

(** [vbi_page] without the links into the Teletext cache and the fields only the
    Teletext formatter sets. *)
Record vbi_page := Page {
  pg_pgno : Z; pg_subno : Z; pg_rows : Z; pg_columns : Z; pg_text : list vbi_char;
  dirty_y0 : Z; dirty_y1 : Z; dirty_roll : Z;
  screen_color : Z; screen_opacity : Z; color_map : list Z
}.

(** [vbi_char text[1056]], [vbi_rgba color_map[40]]. *)
Definition text_size : nat := 1056.
Definition color_map_size : nat := 40.

(** A page after [CLEAR]. *)
Definition page0 : vbi_page :=
  Page 0 0 0 0 (repeat char0 text_size) 0 0 0 0 0 (repeat 0 color_map_size).

#[global] Instance vbi_char_eq_dec : EqDecision vbi_char.
Proof. solve_decision. Defined.
