(* ===== verification/Lang.v ===== *)
(** Character sets: [src/src/lang.c] and [src/src/lang.h], which translate Teletext and
    Closed Caption character codes to Unicode. *)
From S2P Require Import Prelude Format.

(** ** Character sets *)

Inductive vbi_character_set :=
  LATIN_G0 | LATIN_G2 | CYRILLIC_1_G0 | CYRILLIC_2_G0 | CYRILLIC_3_G0 | CYRILLIC_G2
| GREEK_G0 | GREEK_G2 | ARABIC_G0 | ARABIC_G2 | HEBREW_G0 | BLOCK_MOSAIC_G1 | SMOOTH_MOSAIC_G3
| NO_SET.

Inductive vbi_national_subset :=
  NO_SUBSET | CZECH_SLOVAK | ENGLISH | ESTONIAN | FRENCH | GERMAN | ITALIAN | LETT_LITH | POLISH
| PORTUG_SPANISH | RUMANIAN | SERB_CRO_SLO | SWE_FIN_HUN | TURKISH.

(** The values of the enumeration, 0 to 13. *)
Definition subset_num (n : vbi_national_subset) : Z :=
  match n with
  | NO_SUBSET => 0 | CZECH_SLOVAK => 1 | ENGLISH => 2 | ESTONIAN => 3 | FRENCH => 4 | GERMAN => 5
  | ITALIAN => 6 | LETT_LITH => 7 | POLISH => 8 | PORTUG_SPANISH => 9 | RUMANIAN => 10
  | SERB_CRO_SLO => 11 | SWE_FIN_HUN => 12 | TURKISH => 13
  end.

(** [struct vbi_font_descr] without its label; [NO_SET] is 0. *)
Record vbi_font_descr := FontDescr { G0 : vbi_character_set; G2 : vbi_character_set; subset : vbi_national_subset }.

Definition vbi_font_descriptors : list vbi_font_descr := [
  FontDescr LATIN_G0 LATIN_G2 ENGLISH; FontDescr LATIN_G0 LATIN_G2 GERMAN;
  FontDescr LATIN_G0 LATIN_G2 SWE_FIN_HUN; FontDescr LATIN_G0 LATIN_G2 ITALIAN;
  FontDescr LATIN_G0 LATIN_G2 FRENCH; FontDescr LATIN_G0 LATIN_G2 PORTUG_SPANISH;
  FontDescr LATIN_G0 LATIN_G2 CZECH_SLOVAK; FontDescr LATIN_G0 LATIN_G2 NO_SUBSET;
  FontDescr LATIN_G0 LATIN_G2 POLISH; FontDescr LATIN_G0 LATIN_G2 GERMAN;
  FontDescr LATIN_G0 LATIN_G2 SWE_FIN_HUN; FontDescr LATIN_G0 LATIN_G2 ITALIAN;
  FontDescr LATIN_G0 LATIN_G2 FRENCH; FontDescr LATIN_G0 LATIN_G2 NO_SUBSET;
  FontDescr LATIN_G0 LATIN_G2 CZECH_SLOVAK; FontDescr LATIN_G0 LATIN_G2 NO_SUBSET;
  FontDescr LATIN_G0 LATIN_G2 ENGLISH; FontDescr LATIN_G0 LATIN_G2 GERMAN;
  FontDescr LATIN_G0 LATIN_G2 SWE_FIN_HUN; FontDescr LATIN_G0 LATIN_G2 ITALIAN;
  FontDescr LATIN_G0 LATIN_G2 FRENCH; FontDescr LATIN_G0 LATIN_G2 PORTUG_SPANISH;
  FontDescr LATIN_G0 LATIN_G2 TURKISH; FontDescr LATIN_G0 LATIN_G2 NO_SUBSET;
  FontDescr LATIN_G0 LATIN_G2 NO_SUBSET; FontDescr LATIN_G0 LATIN_G2 NO_SUBSET;
  FontDescr LATIN_G0 LATIN_G2 NO_SUBSET; FontDescr LATIN_G0 LATIN_G2 NO_SUBSET;
  FontDescr LATIN_G0 LATIN_G2 NO_SUBSET; FontDescr LATIN_G0 LATIN_G2 SERB_CRO_SLO;
  FontDescr LATIN_G0 LATIN_G2 NO_SUBSET; FontDescr LATIN_G0 LATIN_G2 RUMANIAN;
  FontDescr CYRILLIC_1_G0 CYRILLIC_G2 NO_SUBSET; FontDescr LATIN_G0 LATIN_G2 GERMAN;
  FontDescr LATIN_G0 LATIN_G2 ESTONIAN; FontDescr LATIN_G0 LATIN_G2 LETT_LITH;
  FontDescr CYRILLIC_2_G0 CYRILLIC_G2 NO_SUBSET; FontDescr CYRILLIC_3_G0 CYRILLIC_G2 NO_SUBSET;
  FontDescr LATIN_G0 LATIN_G2 CZECH_SLOVAK; FontDescr NO_SET NO_SET NO_SUBSET;
  FontDescr NO_SET NO_SET NO_SUBSET; FontDescr NO_SET NO_SET NO_SUBSET;
  FontDescr NO_SET NO_SET NO_SUBSET; FontDescr NO_SET NO_SET NO_SUBSET;
  FontDescr NO_SET NO_SET NO_SUBSET; FontDescr NO_SET NO_SET NO_SUBSET;
  FontDescr NO_SET NO_SET NO_SUBSET; FontDescr NO_SET NO_SET NO_SUBSET;
  FontDescr NO_SET NO_SET NO_SUBSET; FontDescr NO_SET NO_SET NO_SUBSET;
  FontDescr NO_SET NO_SET NO_SUBSET; FontDescr NO_SET NO_SET NO_SUBSET;
  FontDescr NO_SET NO_SET NO_SUBSET; FontDescr NO_SET NO_SET NO_SUBSET;
  FontDescr LATIN_G0 LATIN_G2 TURKISH; FontDescr GREEK_G0 GREEK_G2 NO_SUBSET;
  FontDescr NO_SET NO_SET NO_SUBSET; FontDescr NO_SET NO_SET NO_SUBSET;
  FontDescr NO_SET NO_SET NO_SUBSET; FontDescr NO_SET NO_SET NO_SUBSET;
  FontDescr NO_SET NO_SET NO_SUBSET; FontDescr NO_SET NO_SET NO_SUBSET;
  FontDescr NO_SET NO_SET NO_SUBSET; FontDescr NO_SET NO_SET NO_SUBSET;
  FontDescr LATIN_G0 ARABIC_G2 ENGLISH; FontDescr NO_SET NO_SET NO_SUBSET;
  FontDescr NO_SET NO_SET NO_SUBSET; FontDescr NO_SET NO_SET NO_SUBSET;
  FontDescr LATIN_G0 ARABIC_G2 FRENCH; FontDescr NO_SET NO_SET NO_SUBSET;
  FontDescr NO_SET NO_SET NO_SUBSET; FontDescr ARABIC_G0 ARABIC_G2 NO_SUBSET;
  FontDescr NO_SET NO_SET NO_SUBSET; FontDescr NO_SET NO_SET NO_SUBSET;
  FontDescr NO_SET NO_SET NO_SUBSET; FontDescr NO_SET NO_SET NO_SUBSET;
  FontDescr NO_SET NO_SET NO_SUBSET; FontDescr NO_SET NO_SET NO_SUBSET;
  FontDescr NO_SET NO_SET NO_SUBSET; FontDescr NO_SET NO_SET NO_SUBSET;
  FontDescr NO_SET NO_SET NO_SUBSET; FontDescr NO_SET NO_SET NO_SUBSET;
  FontDescr NO_SET NO_SET NO_SUBSET; FontDescr NO_SET NO_SET NO_SUBSET;
  FontDescr NO_SET NO_SET NO_SUBSET; FontDescr HEBREW_G0 ARABIC_G2 NO_SUBSET;
  FontDescr NO_SET NO_SET NO_SUBSET; FontDescr ARABIC_G0 ARABIC_G2 NO_SUBSET].

(** [VALID_CHARACTER_SET (n)]. *)
Definition VALID_CHARACTER_SET (n : Z) : bool :=
  (n <? 88) && match rd vbi_font_descriptors n with
               | Some (FontDescr NO_SET _ _) | None => false | Some _ => true end.

Definition vbi_is_print (unicode : Z) : bool := unicode <? 0xE600.
Definition vbi_is_gfx (unicode : Z) : bool := (0xEE00 <=? unicode) && (unicode <=? 0xEFFF).
Definition vbi_is_drcs (unicode : Z) : bool := 0xF000 <=? unicode.

(** ** Tables *)

Definition national_subset : list (list Z) := [
  [0x0023; 0x0024; 0x0040; 0x005B; 0x005C; 0x005D; 0x005E; 0x005F; 0x0060; 0x007B; 0x007C; 0x007D; 0x007E];
  [0x0023; 0x016F; 0x010D; 0x0165; 0x017E; 0x00FD; 0x00ED; 0x0159; 0x00E9; 0x00E1; 0x011B; 0x00FA; 0x0161];
  [0x00A3; 0x0024; 0x0040; 0x2190; 0x00BD; 0x2192; 0x2191; 0x0023; 0x2014; 0x00BC; 0x2016; 0x00BE; 0x00F7];
  [0x0023; 0x00F5; 0x0160; 0x00C4; 0x00D6; 0x017D; 0x00DC; 0x00D5; 0x0161; 0x00E4; 0x00F6; 0x017E; 0x00FC];
  [0x00E9; 0x00EF; 0x00E0; 0x00EB; 0x00EA; 0x00F9; 0x00EE; 0x0023; 0x00E8; 0x00E2; 0x00F4; 0x00FB; 0x00E7];
  [0x0023; 0x0024; 0x00A7; 0x00C4; 0x00D6; 0x00DC; 0x005E; 0x005F; 0x00B0; 0x00E4; 0x00F6; 0x00FC; 0x00DF];
  [0x00A3; 0x0024; 0x00E9; 0x00B0; 0x00E7; 0x2192; 0x2191; 0x0023; 0x00F9; 0x00E0; 0x00F2; 0x00E8; 0x00EC];
  [0x0023; 0x0024; 0x0160; 0x0117; 0x0229; 0x017D; 0x010D; 0x016B; 0x0161; 0x0105; 0x0173; 0x017E; 0x012F];
  [0x0023; 0x0144; 0x0105; 0x01B5; 0x015A; 0x0141; 0x0107; 0x00F3; 0x0119; 0x017C; 0x015B; 0x0142; 0x017A];
  [0x00E7; 0x0024; 0x00A1; 0x00E1; 0x00E9; 0x00ED; 0x00F3; 0x00FA; 0x00BF; 0x00FC; 0x00F1; 0x00E8; 0x00E0];
  [0x0023; 0x00A4; 0x0162; 0x00C2; 0x015E; 0x01CD; 0x00CD; 0x0131; 0x0163; 0x00E2; 0x015F; 0x01CE; 0x00EE];
  [0x0023; 0x00CB; 0x010C; 0x0106; 0x017D; 0x00D0; 0x0160; 0x00EB; 0x010D; 0x0107; 0x017E; 0x00F0; 0x0161];
  [0x0023; 0x00A4; 0x00C9; 0x00C4; 0x00D6; 0x00C5; 0x00DC; 0x005F; 0x00E9; 0x00E4; 0x00F6; 0x00E5; 0x00FC];
  [0xE800; 0x011F; 0x0130; 0x015E; 0x00D6; 0x00C7; 0x00DC; 0x011E; 0x0131; 0x015F; 0x00F6; 0x00E7; 0x00FC]].

Definition latin_g2 : list Z := [
  0x00A0; 0x00A1; 0x00A2; 0x00A3; 0x0024; 0x00A5; 0x0023; 0x00A7; 0x00A4; 0x2018; 0x201C; 0x00AB; 0x2190; 0x2191;
  0x2192; 0x2193; 0x00B0; 0x00B1; 0x00B2; 0x00B3; 0x00D7; 0x00B5; 0x00B6; 0x00B7; 0x00F7; 0x2019; 0x201D; 0x00BB;
  0x00BC; 0x00BD; 0x00BE; 0x00BF; 0x0020; 0x02CB; 0x02CA; 0x02C6; 0x02DC; 0x02C9; 0x02D8; 0x02D9; 0x00A8; 0x002E;
  0x02DA; 0x02CF; 0x02CD; 0x02DD; 0x02DB; 0x02C7; 0x2014; 0x00B9; 0x00AE; 0x00A9; 0x2122; 0x266A; 0x20A0; 0x2030;
  0x0251; 0x0020; 0x0020; 0x0020; 0x215B; 0x215C; 0x215D; 0x215E; 0x2126; 0x00C6; 0x00D0; 0x00AA; 0x0126; 0x0020;
  0x0132; 0x013F; 0x0141; 0x00D8; 0x0152; 0x00BA; 0x00DE; 0x0166; 0x014A; 0x0149; 0x0138; 0x00E6; 0x0111; 0x00F0;
  0x0127; 0x0131; 0x0133; 0x0140; 0x0142; 0x00F8; 0x0153; 0x00DF; 0x00FE; 0x0167; 0x014B; 0x25A0].

Definition cyrillic_1_g0 : list Z := [
  0x0427; 0x0410; 0x0411; 0x0426; 0x0414; 0x0415; 0x0424; 0x0413; 0x0425; 0x0418; 0x0408; 0x041A; 0x041B; 0x041C;
  0x041D; 0x041E; 0x041F; 0x040C; 0x0420; 0x0421; 0x0422; 0x0423; 0x0412; 0x0403; 0x0409; 0x040A; 0x0417; 0x040B;
  0x0416; 0x0402; 0x0428; 0x040F; 0x0447; 0x0430; 0x0431; 0x0446; 0x0434; 0x0435; 0x0444; 0x0433; 0x0445; 0x0438;
  0x0458; 0x043A; 0x043B; 0x043C; 0x043D; 0x043E; 0x043F; 0x045C; 0x0440; 0x0441; 0x0442; 0x0443; 0x0432; 0x0453;
  0x0459; 0x045A; 0x0437; 0x045B; 0x0436; 0x0452; 0x0448; 0x25A0].

Definition cyrillic_2_g0 : list Z := [
  0x042E; 0x0410; 0x0411; 0x0426; 0x0414; 0x0415; 0x0424; 0x0413; 0x0425; 0x0418; 0x040D; 0x041A; 0x041B; 0x041C;
  0x041D; 0x041E; 0x041F; 0x042F; 0x0420; 0x0421; 0x0422; 0x0423; 0x0416; 0x0412; 0x042C; 0x042A; 0x0417; 0x0428;
  0x042D; 0x0429; 0x0427; 0x042B; 0x044E; 0x0430; 0x0431; 0x0446; 0x0434; 0x0435; 0x0444; 0x0433; 0x0445; 0x0438;
  0x045D; 0x043A; 0x043B; 0x043C; 0x043D; 0x043E; 0x043F; 0x044F; 0x0440; 0x0441; 0x0442; 0x0443; 0x0436; 0x0432;
  0x044C; 0x044A; 0x0437; 0x0448; 0x044D; 0x0449; 0x0447; 0x25A0].

Definition cyrillic_3_g0 : list Z := [
  0x042E; 0x0410; 0x0411; 0x0426; 0x0414; 0x0415; 0x0424; 0x0413; 0x0425; 0x0418; 0x040D; 0x041A; 0x041B; 0x041C;
  0x041D; 0x041E; 0x041F; 0x042F; 0x0420; 0x0421; 0x0422; 0x0423; 0x0416; 0x0412; 0x042C; 0x0406; 0x0417; 0x0428;
  0x0404; 0x0429; 0x0427; 0x0407; 0x044E; 0x0430; 0x0431; 0x0446; 0x0434; 0x0435; 0x0444; 0x0433; 0x0445; 0x0438;
  0x045D; 0x043A; 0x043B; 0x043C; 0x043D; 0x043E; 0x043F; 0x044F; 0x0440; 0x0441; 0x0442; 0x0443; 0x0436; 0x0432;
  0x044C; 0x0456; 0x0437; 0x0448; 0x0454; 0x0449; 0x0447; 0x25A0].

Definition cyrillic_g2 : list Z := [
  0x00A0; 0x00A1; 0x00A2; 0x00A3; 0x0020; 0x00A5; 0x0023; 0x00A7; 0x0020; 0x2018; 0x201C; 0x00AB; 0x2190; 0x2191;
  0x2192; 0x2193; 0x00B0; 0x00B1; 0x00B2; 0x00B3; 0x00D7; 0x00B5; 0x00B6; 0x00B7; 0x00F7; 0x2019; 0x201D; 0x00BB;
  0x00BC; 0x00BD; 0x00BE; 0x00BF; 0x0020; 0x02CB; 0x02CA; 0x02C6; 0x02DC; 0x02C9; 0x02D8; 0x02D9; 0x00A8; 0x002E;
  0x02DA; 0x02CF; 0x02CD; 0x02DD; 0x02DB; 0x02C7; 0x2014; 0x00B9; 0x00AE; 0x00A9; 0x2122; 0x266A; 0x20A0; 0x2030;
  0x0251; 0x0141; 0x0142; 0x00DF; 0x215B; 0x215C; 0x215D; 0x215E; 0x0044; 0x0045; 0x0046; 0x0047; 0x0049; 0x004A;
  0x004B; 0x004C; 0x004E; 0x0051; 0x0052; 0x0053; 0x0055; 0x0056; 0x0057; 0x005A; 0x0064; 0x0065; 0x0066; 0x0067;
  0x0069; 0x006A; 0x006B; 0x006C; 0x006E; 0x0071; 0x0072; 0x0073; 0x0075; 0x0076; 0x0077; 0x007A].

Definition greek_g0 : list Z := [
  0x0390; 0x0391; 0x0392; 0x0393; 0x0394; 0x0395; 0x0396; 0x0397; 0x0398; 0x0399; 0x039A; 0x039B; 0x039C; 0x039D;
  0x039E; 0x039F; 0x03A0; 0x03A1; 0x0374; 0x03A3; 0x03A4; 0x03A5; 0x03A6; 0x03A7; 0x03A8; 0x03A9; 0x03AA; 0x03AB;
  0x03AC; 0x03AD; 0x03AE; 0x03AF; 0x03B0; 0x03B1; 0x03B2; 0x03B3; 0x03B4; 0x03B5; 0x03B6; 0x03B7; 0x03B8; 0x03B9;
  0x03BA; 0x03BB; 0x03BC; 0x03BD; 0x03BE; 0x03BF; 0x03C0; 0x03C1; 0x03C2; 0x03C3; 0x03C4; 0x03C5; 0x03C6; 0x03C7;
  0x03C8; 0x03C9; 0x03CA; 0x03CB; 0x03CC; 0x03CD; 0x03CE; 0x25A0].

Definition greek_g2 : list Z := [
  0x00A0; 0x0061; 0x0062; 0x00A3; 0x0065; 0x0068; 0x0069; 0x00A7; 0x003A; 0x2018; 0x201C; 0x006B; 0x2190; 0x2191;
  0x2192; 0x2193; 0x00B0; 0x00B1; 0x00B2; 0x00B3; 0x0078; 0x006D; 0x006E; 0x0070; 0x00F7; 0x2019; 0x201D; 0x0074;
  0x00BC; 0x00BD; 0x00BE; 0x0078; 0x0020; 0x02CB; 0x02CA; 0x02C6; 0x02DC; 0x02C9; 0x02D8; 0x02D9; 0x00A8; 0x002E;
  0x02DA; 0x02CF; 0x02CD; 0x02DD; 0x02DB; 0x02C7; 0x003F; 0x00B9; 0x00AE; 0x00A9; 0x2122; 0x266A; 0x20A0; 0x2030;
  0x0251; 0x038A; 0x038E; 0x038F; 0x215B; 0x215C; 0x215D; 0x215E; 0x0043; 0x0044; 0x0046; 0x0047; 0x004A; 0x004C;
  0x0051; 0x0052; 0x0053; 0x0055; 0x0056; 0x0057; 0x0059; 0x005A; 0x0386; 0x0389; 0x0063; 0x0064; 0x0066; 0x0067;
  0x006A; 0x006C; 0x0071; 0x0072; 0x0073; 0x0075; 0x0076; 0x0077; 0x0079; 0x007A; 0x0388; 0x25A0].

Definition arabic_g0 : list Z := [
  0x0020; 0x0021; 0x0022; 0x00A3; 0x0024; 0x0025; 0xE606; 0xE607; 0x0029; 0x0028; 0x002A; 0x002B; 0x060C; 0x002D;
  0x002E; 0x002F; 0x0030; 0x0031; 0x0032; 0x0033; 0x0034; 0x0035; 0x0036; 0x0037; 0x0038; 0x0039; 0x003A; 0x061B;
  0x003E; 0x003D; 0x003C; 0x061F; 0xE620; 0xE621; 0xE622; 0xE623; 0xE624; 0xE625; 0xE626; 0xE627; 0xE628; 0xE629;
  0xE62A; 0xE62B; 0xE62C; 0xE62D; 0xE62E; 0xE62F; 0xE630; 0xE631; 0xE632; 0xE633; 0xE634; 0xE635; 0xE636; 0xE637;
  0xE638; 0xE639; 0xE63A; 0xE63B; 0xE63C; 0xE63D; 0xE63E; 0x0023; 0xE640; 0xE641; 0xE642; 0xE643; 0xE644; 0xE645;
  0xE646; 0xE647; 0xE648; 0xE649; 0xE64A; 0xE64B; 0xE64C; 0xE64D; 0xE64E; 0xE64F; 0xE650; 0xE651; 0xE652; 0xE653;
  0xE654; 0xE655; 0xE656; 0xE657; 0xE658; 0xE659; 0xE65A; 0xE65B; 0xE65C; 0xE65D; 0xE65E; 0x25A0].

Definition arabic_g2 : list Z := [
  0xE660; 0xE661; 0xE662; 0xE663; 0xE664; 0xE665; 0xE666; 0xE667; 0xE668; 0xE669; 0xE66A; 0xE66B; 0xE66C; 0xE66D;
  0xE66E; 0xE66F; 0xE670; 0xE671; 0xE672; 0xE673; 0xE674; 0xE675; 0xE676; 0xE677; 0xE678; 0xE679; 0xE67A; 0xE67B;
  0xE67C; 0xE67D; 0xE67E; 0xE67F; 0x00E0; 0x0041; 0x0042; 0x0043; 0x0044; 0x0045; 0x0046; 0x0047; 0x0048; 0x0049;
  0x004A; 0x004B; 0x004C; 0x004D; 0x004E; 0x004F; 0x0050; 0x0051; 0x0052; 0x0053; 0x0054; 0x0055; 0x0056; 0x0057;
  0x0058; 0x0059; 0x005A; 0x00EB; 0x00EA; 0x00F9; 0x00EE; 0xE75F; 0x00E9; 0x0061; 0x0062; 0x0063; 0x0064; 0x0065;
  0x0066; 0x0067; 0x0068; 0x0069; 0x006A; 0x006B; 0x006C; 0x006D; 0x006E; 0x006F; 0x0070; 0x0071; 0x0072; 0x0073;
  0x0074; 0x0075; 0x0076; 0x0077; 0x0078; 0x0079; 0x007A; 0x00E2; 0x00F4; 0x00FB; 0x00E7; 0x0020].

Definition hebrew_g0 : list Z := [
  0x2190; 0x00BD; 0x2192; 0x2191; 0x0023; 0x05D0; 0x05D1; 0x05D2; 0x05D3; 0x05D4; 0x05D5; 0x05D6; 0x05D7; 0x05D8;
  0x05D9; 0x05DA; 0x05DB; 0x05DC; 0x05DD; 0x05DE; 0x05DF; 0x05E0; 0x05E1; 0x05E2; 0x05E3; 0x05E4; 0x05E5; 0x05E6;
  0x05E7; 0x05E8; 0x05E9; 0x05EA; 0x20AA; 0x2016; 0x00BE; 0x00F7; 0x25A0].

Definition composed : list Z := [
  0x1041; 0x2041; 0x3041; 0x4041; 0x8041; 0xA041; 0x0000; 0xB043; 0x1045; 0x2045; 0x3045; 0x8045; 0x1049; 0x2049;
  0x3049; 0x8049; 0x0000; 0x404E; 0x104F; 0x204F; 0x304F; 0x404F; 0x804F; 0x0000; 0x0000; 0x1055; 0x2055; 0x3055;
  0x8055; 0x2059; 0x0000; 0x0000; 0x1061; 0x2061; 0x3061; 0x4061; 0x8061; 0xA061; 0x0000; 0xB063; 0x1065; 0x2065;
  0x3065; 0x8065; 0x1069; 0x2069; 0x3069; 0x8069; 0x0000; 0x406E; 0x106F; 0x206F; 0x306F; 0x406F; 0x806F; 0x0000;
  0x0000; 0x1075; 0x2075; 0x3075; 0x8075; 0x2079; 0x0000; 0x8079; 0x5041; 0x5061; 0x6041; 0x6061; 0xE041; 0xE061;
  0x2043; 0x2063; 0x3043; 0x3063; 0x7043; 0x7063; 0xF043; 0xF063; 0xF044; 0xF064; 0x0000; 0x0000; 0x5045; 0x5065;
  0x6045; 0x6065; 0x7045; 0x7065; 0xE045; 0xE065; 0xF045; 0xF065; 0x3047; 0x3067; 0x6047; 0x6067; 0x7047; 0x7067;
  0xB047; 0xB067; 0x3048; 0x3068; 0x0000; 0x0000; 0x4049; 0x4069; 0x5049; 0x5069; 0x6049; 0x6069; 0xE049; 0xE069;
  0x7049; 0x0000; 0x0000; 0x0000; 0x304A; 0x306A; 0xB04B; 0xB06B; 0x0000; 0x204C; 0x206C; 0xB04C; 0xB06C; 0xF04C;
  0xF06C; 0x0000; 0x0000; 0x0000; 0x0000; 0x204E; 0x206E; 0xB04E; 0xB06E; 0xF04E; 0xF06E; 0x0000; 0x0000; 0x0000;
  0x504F; 0x506F; 0x604F; 0x606F; 0xD04F; 0xD06F; 0x0000; 0x0000; 0x2052; 0x2072; 0xB052; 0xB072; 0xF052; 0xF072;
  0x2053; 0x2073; 0x3053; 0x3073; 0xB053; 0xB073; 0xF053; 0xF073; 0xB054; 0xB074; 0xF054; 0xF074; 0x0000; 0x0000;
  0x4055; 0x4075; 0x5055; 0x5075; 0x6055; 0x6075; 0xA055; 0xA075; 0xD055; 0xD075; 0xE055; 0xE075; 0x3057; 0x3077;
  0x3059; 0x3079; 0x8059; 0x205A; 0x207A; 0x705A; 0x707A; 0xF05A; 0xF07A; 0x0000].

Definition caption : list (Z * Z) := [
  (0x0020, 0x0020); (0x0021, 0x0021); (0x0022, 0x0022); (0x0023, 0x0023); (0x0024, 0x0024);
  (0x0025, 0x0025); (0x0026, 0x0026); (0x0027, 0x0027); (0x0028, 0x0028); (0x0029, 0x0029);
  (0x00E1, 0x00C1); (0x002B, 0x002B); (0x002C, 0x002C); (0x002D, 0x002D); (0x002E, 0x002E);
  (0x002F, 0x002F); (0x0030, 0x0030); (0x0031, 0x0031); (0x0032, 0x0032); (0x0033, 0x0033);
  (0x0034, 0x0034); (0x0035, 0x0035); (0x0036, 0x0036); (0x0037, 0x0037); (0x0038, 0x0038);
  (0x0039, 0x0039); (0x003A, 0x003A); (0x003B, 0x003B); (0x003C, 0x003C); (0x003D, 0x003D);
  (0x003E, 0x003E); (0x003F, 0x003F); (0x0040, 0x0040); (0x0041, 0x0041); (0x0042, 0x0042);
  (0x0043, 0x0043); (0x0044, 0x0044); (0x0045, 0x0045); (0x0046, 0x0046); (0x0047, 0x0047);
  (0x0048, 0x0048); (0x0049, 0x0049); (0x004A, 0x004A); (0x004B, 0x004B); (0x004C, 0x004C);
  (0x004D, 0x004D); (0x004E, 0x004E); (0x004F, 0x004F); (0x0050, 0x0050); (0x0051, 0x0051);
  (0x0052, 0x0052); (0x0053, 0x0053); (0x0054, 0x0054); (0x0055, 0x0055); (0x0056, 0x0056);
  (0x0057, 0x0057); (0x0058, 0x0058); (0x0059, 0x0059); (0x005A, 0x005A); (0x005B, 0x005B);
  (0x00E9, 0x00C9); (0x005D, 0x005D); (0x00ED, 0x00CD); (0x00F3, 0x00D3); (0x00FA, 0x00DA);
  (0x0061, 0x0041); (0x0062, 0x0042); (0x0063, 0x0043); (0x0064, 0x0044); (0x0065, 0x0045);
  (0x0066, 0x0046); (0x0067, 0x0047); (0x0068, 0x0048); (0x0069, 0x0049); (0x006A, 0x004A);
  (0x006B, 0x004B); (0x006C, 0x004C); (0x006D, 0x004D); (0x006E, 0x004E); (0x006F, 0x004F);
  (0x0070, 0x0050); (0x0071, 0x0051); (0x0072, 0x0052); (0x0073, 0x0053); (0x0074, 0x0054);
  (0x0075, 0x0055); (0x0076, 0x0056); (0x0077, 0x0057); (0x0078, 0x0058); (0x0079, 0x0059);
  (0x007A, 0x005A); (0x00E7, 0x00C7); (0x00F7, 0x00F7); (0x00D1, 0x00D1); (0x00F1, 0x00D1);
  (0x25A0, 0x25A0)].

Definition caption_special : list (Z * Z) := [
  (0x00AE, 0x00AE); (0x00B0, 0x00B0); (0x00BD, 0x00BD); (0x00BF, 0x00BF); (0x2122, 0x2122);
  (0x00A2, 0x00A2); (0x00A3, 0x00A3); (0x266A, 0x266A); (0x00E0, 0x00C0); (0x0020, 0x0020);
  (0x00E8, 0x00C8); (0x00E2, 0x00C2); (0x00EA, 0x00CA); (0x00EE, 0x00CE); (0x00F4, 0x00D4);
  (0x00FB, 0x00DB)].

Definition caption_extended2 : list (Z * Z) := [
  (0x00C1, 0x00C1); (0x00C9, 0x00C9); (0x00D3, 0x00D3); (0x00DA, 0x00DA); (0x00DC, 0x00DC);
  (0x00FC, 0x00DC); (0x2018, 0x2018); (0x00A1, 0x00A1); (0x002A, 0x002A); (0x0027, 0x0027);
  (0x2500, 0x2500); (0x00A9, 0x00A9); (0x2120, 0x2120); (0x2022, 0x2022); (0x201C, 0x201C);
  (0x201D, 0x201D); (0x00C0, 0x00C0); (0x00C2, 0x00C2); (0x00C7, 0x00C7); (0x00C8, 0x00C8);
  (0x00CA, 0x00CA); (0x00CB, 0x00CB); (0x00EB, 0x00CB); (0x00CE, 0x00CE); (0x00CF, 0x00CF);
  (0x00EF, 0x00CF); (0x00D4, 0x00D4); (0x00D9, 0x00D9); (0x00F9, 0x00D9); (0x00DB, 0x00DB);
  (0x00AB, 0x00AB); (0x00BB, 0x00BB)].

Definition caption_extended3 : list (Z * Z) := [
  (0x00C3, 0x00C3); (0x00E3, 0x00C3); (0x00CD, 0x00CD); (0x00CC, 0x00CC); (0x00EC, 0x00CC);
  (0x00D2, 0x00D2); (0x00F2, 0x00D2); (0x00D5, 0x00D5); (0x00F5, 0x00D5); (0x007B, 0x007B);
  (0x007D, 0x007D); (0x005C, 0x005C); (0x005E, 0x005E); (0x005F, 0x005F); (0x007C, 0x007C);
  (0x007E, 0x007E); (0x00C4, 0x00C4); (0x00E4, 0x00C4); (0x00D6, 0x00D6); (0x00F6, 0x00D6);
  (0x00DF, 0x00DF); (0x00A5, 0x00A5); (0x00A4, 0x00A4); (0x2502, 0x2502); (0x00C5, 0x00C5);
  (0x00E5, 0x00C5); (0x00D8, 0x00D8); (0x00F8, 0x00D8); (0x250C, 0x250C); (0x2510, 0x2510);
  (0x2514, 0x2514); (0x2518, 0x2518)].

(** ** Teletext *)

(** The search in the first row of the table: the code in the row of the subset. *)
Fixpoint subset_loop (base row : list Z) (c : Z) : option Z :=
  match base, row with
  | b :: base, r :: row => if c =? b then Some r else subset_loop base row c
  | _, _ => None
  end.

(** [assert] and [exit] are [None]. *)
Definition vbi_teletext_unicode (s : vbi_character_set) (n : vbi_national_subset) (c : Z) : option Z :=
  if negb ((0x20 <=? c) && (c <=? 0x7F)) then None else
  match s with
  | LATIN_G0 =>
      let rest :=
        if c =? 0x24 then 0x00A4 else if c =? 0x7C then 0x00A6 else if c =? 0x7F then 0x25A0 else c in
      if negb (0xF8000019 .& s32 (1 ≪ (c .& 31)) =? 0) then
        if 0 <? subset_num n then
          base ← rd national_subset 0;
          row ← rd national_subset (subset_num n);
          Some (match subset_loop base row c with Some u => u | None => rest end)
        else Some rest
      else Some c
  | LATIN_G2 => rd latin_g2 (c - 0x20)
  | CYRILLIC_1_G0 => if c <? 0x40 then Some c else rd cyrillic_1_g0 (c - 0x40)
  | CYRILLIC_2_G0 =>
      if c =? 0x26 then Some 0x044B else if c <? 0x40 then Some c else rd cyrillic_2_g0 (c - 0x40)
  | CYRILLIC_3_G0 =>
      if c =? 0x26 then Some 0x00EF else if c <? 0x40 then Some c else rd cyrillic_3_g0 (c - 0x40)
  | CYRILLIC_G2 => rd cyrillic_g2 (c - 0x20)
  | GREEK_G0 =>
      if c =? 0x3C then Some 0x00AB else if c =? 0x3E then Some 0x00BB
      else if c <? 0x40 then Some c else rd greek_g0 (c - 0x40)
  | GREEK_G2 => rd greek_g2 (c - 0x20)
  | ARABIC_G0 => rd arabic_g0 (c - 0x20)
  | ARABIC_G2 => rd arabic_g2 (c - 0x20)
  | HEBREW_G0 => if c <? 0x5B then Some c else rd hebrew_g0 (c - 0x5B)
  | BLOCK_MOSAIC_G1 => if (c <? 0x40) || (0x60 <=? c) then Some (0xEE00 + c) else None
  | SMOOTH_MOSAIC_G3 => Some (0xEF00 + c)
  | NO_SET => None
  end.

Fixpoint composed_loop (l : list Z) (i c : Z) : Z :=
  match l with [] => 0 | x :: l => if x =? c then 0x00C0 + i else composed_loop l (i + 1) c end.

Definition vbi_teletext_composed_unicode (a c : Z) : option Z :=
  if negb (a <=? 15) then None else
  if negb ((0x20 <=? c) && (c <=? 0x7F)) then None else
  if a =? 0 then
    if c =? 0x2A then Some 0x0040 else vbi_teletext_unicode LATIN_G0 NO_SUBSET c
  else Some (composed_loop composed 0 (c + a ≪ 12)).

(** ** Page optimisation *)

Definition is_blank (c : vbi_char) : bool :=
  if flash c || conceal c || underline c then false
  else (unicode c <=? 0x20) || (unicode c =? 0xA0) || (unicode c =? 0xEE00) || (unicode c =? 0xEE20).

Definition is_full (c : vbi_char) : bool :=
  if flash c || conceal c then false else (unicode c =? 0xEE7F) || (unicode c =? 0xFF3F).

(** The body of both loops: the character [c] next to the character [l]. *)
Definition optimize_char (l c : vbi_char) : vbi_char :=
  if is_blank c then set_foreground (foreground l) (set_italic (italic l) (set_bold (bold l) c))
  else if is_full c then set_background (background l) (set_italic (italic l) (set_bold (bold l) c))
  else c.

(** A loop over the cells at the given indices; returns the text and [l]. *)
Fixpoint optimize_loop (text : list vbi_char) (l : vbi_char) (cells : list Z) : option (list vbi_char * vbi_char) :=
  match cells with
  | [] => Some (text, l)
  | p :: cells =>
      c ← rd text p;
      let c := optimize_char l c in
      text ← wr text p c;
      optimize_loop text c cells
  end.

(** The cells of the rectangle, row by row. *)
Definition optimize_cells (columns column row width height : Z) : list Z :=
  concat (map (λ r, map (λ c, columns * r + c) (seqZ column width)) (seqZ row height)).

Definition vbi_optimize_page (pg : vbi_page) (column row width height : Z) : option vbi_page :=
  let cells := optimize_cells (pg_columns pg) column row width height in
  l ← rd (pg_text pg) (pg_columns pg * row + column);
  '(text, l) ← optimize_loop (pg_text pg) l cells;
  '(text, l) ← optimize_loop text l (rev cells);
  Some (Page (pg_pgno pg) (pg_subno pg) (pg_rows pg) (pg_columns pg) text (dirty_y0 pg) (dirty_y1 pg)
          (dirty_roll pg) (screen_color pg) (screen_opacity pg) (color_map pg)).

(** ** Closed Caption *)

(** [table[i][to_upper]]. *)
Definition cased (table : list (Z * Z)) (i : Z) (to_upper : bool) : Z :=
  match rd table i with Some (l, u) => if to_upper then u else l | None => 0 end.

Definition vbi_caption_unicode (c : Z) (to_upper : bool) : Z :=
  if c <? 0x80 then
    if 0x20 <=? c then cased caption (c - 0x20) to_upper else 0
  else
    let c := c .& Z.lnot 0x0800 in
    if c <? 0x1240 then
      if (c <? 0x1140) && (0x1130 <=? c) then cased caption_special (c - 0x1130) to_upper
      else if 0x1220 <=? c then cased caption_extended2 (c - 0x1220) to_upper
      else 0
    else if (c <? 0x1340) && (0x1320 <=? c) then cased caption_extended3 (c - 0x1320) to_upper
    else 0.

(** ** Teletext characters *)

#[global] Instance character_set_eq_dec : EqDecision vbi_character_set.
Proof. solve_decision. Defined.
#[global] Instance national_subset_eq_dec : EqDecision vbi_national_subset.
Proof. solve_decision. Defined.

Definition all_sets : list vbi_character_set :=
  [LATIN_G0; LATIN_G2; CYRILLIC_1_G0; CYRILLIC_2_G0; CYRILLIC_3_G0; CYRILLIC_G2; GREEK_G0; GREEK_G2;
   ARABIC_G0; ARABIC_G2; HEBREW_G0; BLOCK_MOSAIC_G1; SMOOTH_MOSAIC_G3; NO_SET].
Definition all_subsets : list vbi_national_subset :=
  [NO_SUBSET; CZECH_SLOVAK; ENGLISH; ESTONIAN; FRENCH; GERMAN; ITALIAN; LETT_LITH; POLISH;
   PORTUG_SPANISH; RUMANIAN; SERB_CRO_SLO; SWE_FIN_HUN; TURKISH].

(** The codes a set has. *)
Definition code_ok (s : vbi_character_set) (c : Z) : bool :=
  (0x20 <=? c) && (c <=? 0x7F) &&
  match s with NO_SET => false | BLOCK_MOSAIC_G1 => (c <? 0x40) || (0x60 <=? c) | _ => true end.

Lemma sets_by_eval (P : vbi_character_set → vbi_national_subset → Z → bool) :
  forallb (λ s, forallb (λ n, forallb (P s n) (seqZ 0 128)) all_subsets) all_sets = true →
  ∀ s n c, 0 ≤ c < 128 → P s n c = true.
Proof.
  intros H s n c Hc. rewrite forallb_forall in H.
  assert (In s all_sets) as Hs by (destruct s; cbn; tauto).
  specialize (H s Hs). rewrite forallb_forall in H.
  assert (In n all_subsets) as Hn by (destruct n; cbn; tauto).
  apply (forallb_seqZ 128 _ (H n Hn) c Hc).
Qed.

(** Every code a set has is translated, to a code that is neither a control character nor a DRCS. *)
Lemma teletext_unicode_total s n c :
  code_ok s c = true → ∃ u, vbi_teletext_unicode s n c = Some u ∧ 0x20 ≤ u < 0xF000.
Proof.
  intros H. assert (0 ≤ c < 128) as Hc by (unfold code_ok in H; lia).
  pose proof (sets_by_eval (λ s n c, implb (code_ok s c)
    match vbi_teletext_unicode s n c with Some u => (0x20 <=? u) && (u <? 0xF000) | None => false end)
    ltac:(vm_compute; reflexivity) s n c Hc) as E.
  cbv beta in E. rewrite H in E. cbn [implb] in E.
  destruct (vbi_teletext_unicode s n c) as [u|]; [|done]. exists u. split; [done|lia].
Qed.

Lemma teletext_unicode_dom s n c u : vbi_teletext_unicode s n c = Some u → code_ok s c = true.
Proof.
  intros H. assert (0 ≤ c < 128) as Hc.
  { unfold vbi_teletext_unicode in H. destruct (Z.leb_spec 0x20 c), (Z.leb_spec c 0x7F); try done; lia. }
  pose proof (sets_by_eval (λ s n c, code_ok s c ||
    match vbi_teletext_unicode s n c with Some _ => false | None => true end)
    ltac:(vm_compute; reflexivity) s n c Hc) as E.
  cbv beta in E. rewrite H in E. by destruct (code_ok s c).
Qed.

(** The accent table has no entry twice, so that composing is the inverse of its decompositions. *)
Lemma composed_decompose i x :
  rd composed i = Some x → x ≠ 0 → vbi_teletext_composed_unicode (x ≫ 12) (x .& 0xFFF) = Some (0xC0 + i).
Proof.
  intros H Hx. assert (0 ≤ i < 192) as Hi by (apply rd_Some in H; exact H).
  pose proof (forallb_seqZ 192 (λ i, match rd composed i with
    | Some x => (x =? 0) || match vbi_teletext_composed_unicode (x ≫ 12) (x .& 0xFFF) with
                                  Some u => u =? 0xC0 + i | None => false end
    | None => true end) ltac:(vm_compute; reflexivity) i Hi) as E.
  cbv beta in E. rewrite H in E. apply orb_true_iff in E as [E|E]; [lia|].
  destruct (vbi_teletext_composed_unicode _ _); [|done]. f_equal. lia.
Qed.

(** [is_full] tests for 0xFF3F; the characters of the smooth mosaic set are 0xEF20 to 0xEF7F. *)
Lemma full_block_never_produced s n c u : vbi_teletext_unicode s n c = Some u → u ≠ 0xFF3F.
Proof.
  intros H. destruct (teletext_unicode_total s n c (teletext_unicode_dom _ _ _ _ H)) as (v & Hv & ?).
  rewrite Hv in H. simplify_eq. lia.
Qed.

(** ** Caption characters *)

(** The codes the documentation lists; bit 11 is the channel. *)
Definition caption_code (c : Z) : bool :=
  existsb (λ '(a, b), (a <=? c) && (c <=? b))
    [(0x20, 0x7F); (0x1130, 0x113F); (0x1930, 0x193F); (0x1220, 0x123F); (0x1A20, 0x1A3F);
     (0x1320, 0x133F); (0x1B20, 0x1B3F)].

(** Clearing the channel bit. *)
Lemma clear_channel c : 0 ≤ c → c .& Z.lnot 0x0800 = c - (if Z.testbit c 11 then 0x800 else 0).
Proof.
  intros Hc. rewrite <-Z.ldiff_land. assert (Z.ldiff c 0x0800 .& (c .& 0x0800) = 0) as E.
  { rewrite (Z.land_comm c), Z.land_assoc, Z.land_ldiff. apply Z.land_0_l. }
  pose proof (Z.add_nocarry_lxor _ _ E) as E2. rewrite Z.lxor_lor, Z.lor_ldiff_and in E2 by done.
  pose proof (land_mask c 1 11 ltac:(lia) ltac:(lia)) as E3. change (Z.ones 1 ≪ 11) with 0x800 in E3.
  change (2 ^ 1) with 2 in E3.
  pose proof (Z.testbit_spec' c 11 ltac:(lia)) as E4. destruct (Z.testbit c 11); cbn [Z.b2z] in E4; lia.
Qed.

Definition in_bmp (x : Z * Z) : Prop := 0x20 ≤ x.1 < 0x10000 ∧ 0x20 ≤ x.2 < 0x10000.
Lemma cased_range table i up : Forall in_bmp table → 0 ≤ i < Z.of_nat (length table) → 0x20 ≤ cased table i up < 0x10000.
Proof.
  intros Ht Hi. unfold cased. destruct (rd_is_Some table i Hi) as ([l u] & -> & Hx).
  eapply Forall_lookup_1 in Ht as [Hl Hu]; [|exact Hx]. by destruct up.
Qed.

Ltac in_table t := let n := eval vm_compute in (Z.of_nat (length t)) in change (Z.of_nat (length t)) with n; lia.

Lemma caption_tables : Forall in_bmp caption ∧ Forall in_bmp caption_special ∧ Forall in_bmp caption_extended2 ∧
  Forall in_bmp caption_extended3.
Proof. split_and!; repeat (constructor; [by split|]); constructor. Qed.

Lemma caption_unicode_spec c up :
  0 ≤ c → if caption_code c then 0x20 ≤ vbi_caption_unicode c up < 0x10000 else vbi_caption_unicode c up = 0.
Proof.
  intros Hc. destruct caption_tables as (H1 & H2 & H3 & H4). unfold vbi_caption_unicode.
  rewrite clear_channel by done.
  assert (Z.testbit c 11 = true → 0x800 ≤ c) as Hb.
  { intros E. pose proof (Z.testbit_spec' c 11 ltac:(lia)) as E4. rewrite E in E4. cbn [Z.b2z] in E4.
    destruct (Z.lt_ge_cases c 0x800); [|done]. rewrite Z.div_small in E4 by (change (2 ^ 11) with 0x800; lia). done. }
  assert (∀ q, q * 0x800 ≤ c < (q + 1) * 0x800 → Z.b2z (Z.testbit c 11) = q mod 2) as Hq.
  { intros q Hr. rewrite Z.testbit_spec' by lia. f_equal. change (2 ^ 11) with 0x800.
    symmetry. apply (Z.div_unique _ _ _ (c - 0x800 * q)); lia. }
  unfold caption_code. cbn [existsb].
  destruct (Z.ltb_spec c 0x80); [destruct (Z.leb_spec 0x20 c)|].
  - rewrite (proj2 (Z.leb_le c 0x7F)) by lia. cbn [andb orb]. apply cased_range; [done|in_table caption].
  - replace (_ || _) with false by lia. done.
  - destruct (decide (0x1000 ≤ c < 0x2000)) as [Hr|Hr].
    + destruct (decide (c < 0x1800)) as [Hlo|Hhi]; [specialize (Hq 2 ltac:(lia))|specialize (Hq 3 ltac:(lia))];
        (destruct (Z.testbit c 11); [|try rewrite Z.sub_0_r]; try done);
        repeat case_match; try lia;
        match goal with |- context [cased ?t _ _] => apply cased_range; [done|in_table t] end.
    + replace (_ || _) with false by lia. destruct (Z.testbit c 11) eqn:E11; [specialize (Hb eq_refl)|];
        repeat (case_match; try lia).
Qed.

(** ** The optimised page *)

(** What a viewer sees of a character: a blank shows its background only, a full block its
    foreground only, and neither shows whether it is bold or italic. *)
Definition looks (c : vbi_char) : vbi_char :=
  if is_blank c then set_foreground 0 (set_italic false (set_bold false c))
  else if is_full c then set_background 0 (set_italic false (set_bold false c)) else c.

Lemma optimize_char_looks l c : looks (optimize_char l c) = looks c.
Proof.
  unfold optimize_char. destruct (is_blank c) eqn:E1.
  - unfold looks. rewrite E1. by change (is_blank (set_foreground (foreground l)
      (set_italic (italic l) (set_bold (bold l) c)))) with (is_blank c); rewrite E1.
  - destruct (is_full c) eqn:E2; [|done]. unfold looks. rewrite E1, E2.
    change (is_blank (set_background (background l) (set_italic (italic l) (set_bold (bold l) c))))
      with (is_blank c). rewrite E1.
    change (is_full (set_background (background l) (set_italic (italic l) (set_bold (bold l) c))))
      with (is_full c). by rewrite E2.
Qed.

Lemma optimize_loop_looks cells : ∀ text l,
  (∀ p, p ∈ cells → 0 ≤ p < Z.of_nat (length text)) →
  ∃ text' l', optimize_loop text l cells = Some (text', l') ∧ map looks text' = map looks text.
Proof.
  induction cells as [|p cells IH]; intros text l Hp; cbn [optimize_loop]; [by eauto|].
  destruct (rd_is_Some text p) as (c & Hc & Hl); [apply Hp; by left|]. rewrite Hc. cbn [mbind option_bind].
  unfold wr. rewrite decide_True by (apply Hp; by left). cbn [mbind option_bind].
  edestruct IH as (t' & l' & -> & E).
  { intros q Hq. rewrite length_insert. apply Hp. by right. }
  exists t', l'. split; [done|]. rewrite E, !list_fmap_insert, optimize_char_looks.
  apply list_insert_id. by rewrite list_lookup_fmap, Hl.
Qed.

Lemma elem_of_optimize_cells columns column row width height p :
  p ∈ optimize_cells columns column row width height →
  ∃ r c, p = columns * r + c ∧ row ≤ r < row + height ∧ column ≤ c < column + width.
Proof.
  unfold optimize_cells. intros H. apply list_elem_of_In, in_concat in H as (l & Hl & H).
  apply in_map_iff in Hl as (r & <- & Hr). apply in_map_iff in H as (c & <- & Hc).
  apply list_elem_of_In, elem_of_seqZ in Hr, Hc. eauto.
Qed.

(** Optimising a rectangle inside a page succeeds and no character looks different. *)
Lemma optimize_page_looks pg column row width height :
  0 ≤ column → 0 ≤ row → 0 < width → 0 < height →
  column + width ≤ pg_columns pg → row + height ≤ pg_rows pg →
  pg_rows pg * pg_columns pg ≤ Z.of_nat (length (pg_text pg)) →
  ∃ pg', vbi_optimize_page pg column row width height = Some pg' ∧
    map looks (pg_text pg') = map looks (pg_text pg).
Proof.
  intros Hc Hr Hw Hh Hcw Hrh Hlen. unfold vbi_optimize_page.
  assert (∀ text : list vbi_char, length text = length (pg_text pg) → ∀ p, 
    p ∈ optimize_cells (pg_columns pg) column row width height → 0 ≤ p < Z.of_nat (length text)) as Hin.
  { intros text -> p (r & c & -> & ? & ?)%elem_of_optimize_cells. nia. }
  destruct (rd_is_Some (pg_text pg) (pg_columns pg * row + column)) as (l & -> & _); [nia|].
  cbn [mbind option_bind].
  destruct (optimize_loop_looks _ (pg_text pg) l (Hin _ eq_refl)) as (t1 & l1 & -> & E1). cbn [mbind option_bind].
  destruct (optimize_loop_looks (rev (optimize_cells (pg_columns pg) column row width height)) t1 l1)
    as (t2 & l2 & -> & E2).
  { intros p Hp. apply Hin; [by rewrite <-(length_map looks t1), E1, length_map|].
    apply list_elem_of_In, in_rev, list_elem_of_In, Hp. }
  eexists. split; [done|]. cbn [pg_text]. by rewrite E2.
Qed.
