(* ===== verification/Cc608Format.v ===== *)
(** Closed Caption pages: the channel buffers of [src/src/cc608_decoder.c] and how a row
    is formatted. *)
From S2P Require Import Prelude Double Format Lang.

(** ** Channels *)

Definition MAX_CHANNELS : Z := 8.
Definition FIRST_ROW : Z := 0.
Definition LAST_ROW : Z := 14.
Definition MAX_ROWS : Z := 15.
Definition ALL_ROWS_MASK : Z := (1 ≪ MAX_ROWS) - 1.
Definition FIRST_COLUMN : Z := 1.
Definition LAST_COLUMN : Z := 32.
Definition MAX_COLUMNS : Z := 32.

(** [_vbi_cc608_mode] *)
Inductive mode := MODE_UNKNOWN | MODE_ROLL_UP | MODE_POP_ON | MODE_PAINT_ON | MODE_TEXT.
#[global] Instance mode_eq_dec : EqDecision mode.
Proof. solve_decision. Defined.

Record timestamp := Timestamp { sys : double; pts : Z }.

Definition timestamp_reset : timestamp := Timestamp d_zero (-1).
Definition timestamp_is_set (ts : timestamp) : bool := (0 <=? pts ts) || SFltb d_zero (sys ts).

(** [struct channel]. A [buffer] has 15 rows of 33 cells: the cell in column 0, then the
    visible ones. The field [timestamp] is only ever reset. *)
Record channel := Channel {
  buffer : list (list (list Z)); dirty : list Z; displayed_buffer : Z;
  curr_row : Z; curr_column : Z; window_rows : Z; last_pac : Z; uppercase_predictor : Z;
  ch_mode : mode; ch_timestamp : timestamp; timestamp_c0 : timestamp
}.

Definition set_buffer x ch := Channel x (dirty ch) (displayed_buffer ch) (curr_row ch) (curr_column ch)
  (window_rows ch) (last_pac ch) (uppercase_predictor ch) (ch_mode ch) (ch_timestamp ch) (timestamp_c0 ch).
Definition set_dirty x ch := Channel (buffer ch) x (displayed_buffer ch) (curr_row ch) (curr_column ch)
  (window_rows ch) (last_pac ch) (uppercase_predictor ch) (ch_mode ch) (ch_timestamp ch) (timestamp_c0 ch).
Definition set_displayed x ch := Channel (buffer ch) (dirty ch) x (curr_row ch) (curr_column ch)
  (window_rows ch) (last_pac ch) (uppercase_predictor ch) (ch_mode ch) (ch_timestamp ch) (timestamp_c0 ch).
Definition set_row x ch := Channel (buffer ch) (dirty ch) (displayed_buffer ch) x (curr_column ch)
  (window_rows ch) (last_pac ch) (uppercase_predictor ch) (ch_mode ch) (ch_timestamp ch) (timestamp_c0 ch).
Definition set_column x ch := Channel (buffer ch) (dirty ch) (displayed_buffer ch) (curr_row ch) x
  (window_rows ch) (last_pac ch) (uppercase_predictor ch) (ch_mode ch) (ch_timestamp ch) (timestamp_c0 ch).
Definition set_window x ch := Channel (buffer ch) (dirty ch) (displayed_buffer ch) (curr_row ch) (curr_column ch)
  x (last_pac ch) (uppercase_predictor ch) (ch_mode ch) (ch_timestamp ch) (timestamp_c0 ch).
Definition set_pac x ch := Channel (buffer ch) (dirty ch) (displayed_buffer ch) (curr_row ch) (curr_column ch)
  (window_rows ch) x (uppercase_predictor ch) (ch_mode ch) (ch_timestamp ch) (timestamp_c0 ch).
Definition set_upper x ch := Channel (buffer ch) (dirty ch) (displayed_buffer ch) (curr_row ch) (curr_column ch)
  (window_rows ch) (last_pac ch) x (ch_mode ch) (ch_timestamp ch) (timestamp_c0 ch).
Definition set_mode x ch := Channel (buffer ch) (dirty ch) (displayed_buffer ch) (curr_row ch) (curr_column ch)
  (window_rows ch) (last_pac ch) (uppercase_predictor ch) x (ch_timestamp ch) (timestamp_c0 ch).
Definition set_c0 x ch := Channel (buffer ch) (dirty ch) (displayed_buffer ch) (curr_row ch) (curr_column ch)
  (window_rows ch) (last_pac ch) (uppercase_predictor ch) (ch_mode ch) (ch_timestamp ch) x.

(** ** Buffers *)

Definition rows := list (list Z).

(** [ch->buffer[b][row]] and an assignment to it. *)
Definition row_of (ch : channel) (b row : Z) : option (list Z) := buf ← rd (buffer ch) b; rd buf row.
Definition put_row (b row : Z) (text : list Z) (ch : channel) : option channel :=
  buf ← rd (buffer ch) b;
  buf ← wr buf row text;
  bufs ← wr (buffer ch) b buf;
  Some (set_buffer bufs ch).

(** [ch->dirty[b] & (1 << row)] and an assignment to [ch->dirty[b]]. *)
Definition row_dirty (ch : channel) (b row : Z) : option bool :=
  d ← rd (dirty ch) b; Some (negb (d .& 1 ≪ row =? 0)).
Definition put_dirty (b d : Z) (ch : channel) : option channel :=
  l ← wr (dirty ch) b d; Some (set_dirty l ch).

(** A row and a buffer after [memset (..., 0, ...)]. *)
Definition row0 : list Z := repeat 0 33.
Definition rows0 : rows := repeat row0 15.

(** ** Attributes *)

Definition cc_color_map : list Z :=
  [VBI_WHITE; VBI_GREEN; VBI_BLUE; VBI_CYAN; VBI_RED; VBI_YELLOW; VBI_MAGENTA; VBI_BLACK].

Definition VBI_UNDERLINE : Z := 1 ≪ 0.
Definition VBI_ITALIC : Z := 1 ≪ 2.
Definition VBI_FLASH : Z := 1 ≪ 3.

Definition has (attr a : Z) : bool := negb (attr .& a =? 0).

Definition vbi_char_clear_attr (cp : vbi_char) (attr : Z) : vbi_char :=
  let cp := if has attr VBI_UNDERLINE then set_underline false cp else cp in
  let cp := if has attr VBI_ITALIC then set_italic false cp else cp in
  if has attr VBI_FLASH then set_flash false cp else cp.

Definition vbi_char_set_attr (cp : vbi_char) (attr : Z) : vbi_char :=
  let cp := if has attr VBI_UNDERLINE then set_underline true cp else cp in
  let cp := if has attr VBI_ITALIC then set_italic true cp else cp in
  if has attr VBI_FLASH then set_flash true cp else cp.

(** ** Formatting *)

(** The characters stored so far are a list, the last one first, so that [cp[-1]] is its
    head. The current attributes are those of the character [ac]. *)

(** [padding && VBI_TRANSPARENT_SPACE != cp[-1].opacity && 0x20 != cp[-1].unicode] *)
Definition after_text (padding : bool) (out : list vbi_char) : option bool :=
  if padding then
    match out with
    | [] => None
    | p :: _ => Some (negb (opacity p =? VBI_TRANSPARENT_SPACE) && negb (unicode p =? 0x20))
    end
  else Some false.

(** A cell that shows nothing: a transparent space or a PAC. *)
Definition blank_cell (padding alpha : bool) (i : Z) (ac : vbi_char) (out : list vbi_char) : option (list vbi_char) :=
  t ← after_text padding out;
  if t : bool then Some (vbi_char_clear_attr ac (-1) :: out)
  else if 0 <? i then
    let ts := set_opacity VBI_TRANSPARENT_SPACE ac in
    Some ((if alpha then set_background (16 + (background ac .& 7)) (set_foreground (16 + (foreground ac .& 7)) ts)
           else ts) :: out)
  else Some out.

(** Replaces a transparent space before a character by a space with the colours of the character. *)
Definition lead_space (padding : bool) (ac : vbi_char) (out : list vbi_char) : option (list vbi_char) :=
  if padding then
    match out with
    | [] => None
    | p :: out' =>
        Some (if opacity p =? VBI_TRANSPARENT_SPACE then vbi_char_clear_attr ac (-1) :: out' else out)
    end
  else Some out.

(** The attributes after a PAC. *)
Definition pac_attr (c : Z) (ac : vbi_char) : vbi_char :=
  let ac := vbi_char_clear_attr ac (VBI_UNDERLINE .| VBI_ITALIC) in
  let ac := if has c 0x0001 then vbi_char_set_attr ac VBI_UNDERLINE else ac in
  if has c 0x0010 then set_foreground VBI_WHITE ac
  else
    let color := c ≫ 1 .& 7 in
    if color =? 7 then vbi_char_set_attr (set_foreground VBI_WHITE ac) VBI_ITALIC
    else set_foreground cc_color_map.[color] ac.

(** The attributes after a Mid-Row Code and after a background attribute. *)
Definition mid_row_attr (c : Z) (ac : vbi_char) : vbi_char :=
  let ac := vbi_char_clear_attr ac (-1) in
  let ac := if has c 0x0001 then vbi_char_set_attr ac VBI_UNDERLINE else ac in
  let color := c ≫ 1 .& 7 in
  if color =? 7 then vbi_char_set_attr ac VBI_ITALIC else set_foreground cc_color_map.[color] ac.

Definition background_attr (alpha : bool) (c : Z) (ac : vbi_char) : vbi_char :=
  let color := c ≫ 1 .& 7 in
  let bg := cc_color_map.[color] in
  if has c 0x0001 then
    set_opacity VBI_SEMI_TRANSPARENT (set_background (if alpha then bg + 8 else bg) ac)
  else set_opacity VBI_OPAQUE (set_background bg ac).

(** The end of the loop body, [*cp++ = ac]. *)
Definition put_ac (ac : vbi_char) (out : list vbi_char) : list vbi_char :=
  (if unicode ac =? 0x20 then vbi_char_clear_attr ac (-1) else ac) :: out.

(** The loop body for the cell [c] in column [i]; a failed assertion is [None]. *)
Definition format_cell (to_upper padding alpha : bool) (i c : Z) (ac : vbi_char) (out : list vbi_char)
    : option (vbi_char * list vbi_char) :=
  let ac := set_unicode 0x20 ac in
  if c =? 0 then
    out ← blank_cell padding alpha i ac out; Some (ac, out)
  else if c <? 0x1020 then
    out ← lead_space padding ac out;
    let ac :=
      if ((97 <=? c) && (c <=? 122)) || (c =? 0x7E) then set_unicode (vbi_caption_unicode c false) ac
      else set_unicode (vbi_caption_unicode c to_upper) ac in
    Some (ac, put_ac ac out)
  else if c <? 0x1040 then
    let ac := background_attr alpha c ac in Some (ac, put_ac ac out)
  else if c <? 0x1120 then
    out ← blank_cell padding alpha i ac out; Some (pac_attr c ac, out)
  else if c <? 0x1130 then
    let ac := mid_row_attr c ac in Some (ac, put_ac ac out)
  else if c <? 0x1220 then
    out ← lead_space padding ac out;
    if c =? 0x1139 then None else
    let ac := set_unicode (vbi_caption_unicode c to_upper) ac in Some (ac, put_ac ac out)
  else if c <? 0x1428 then
    out ← lead_space padding ac out;
    let ac := set_unicode (vbi_caption_unicode c false) ac in
    if unicode ac .& 0xFFE0 =? 0x2500 then
      Some (ac, vbi_char_clear_attr ac (VBI_ITALIC .| VBI_UNDERLINE) :: out)
    else Some (ac, put_ac ac out)
  else if c <? 0x172D then
    let ac := vbi_char_set_attr ac VBI_FLASH in Some (ac, put_ac ac out)
  else if c <? 0x172E then
    let ac := set_opacity VBI_TRANSPARENT_FULL ac in
    let ac := if alpha then set_background (16 + (background ac .& 7)) ac else ac in
    Some (ac, put_ac ac out)
  else if c <=? 0x172F then
    let ac := vbi_char_clear_attr ac (-1) in
    let ac := if has c 0x0001 then vbi_char_set_attr ac VBI_UNDERLINE else ac in
    let ac := set_foreground VBI_BLACK ac in
    Some (ac, put_ac ac out)
  else Some (ac, put_ac ac out).

(** The loop over the columns; [text] are the cells from column [i] on. *)
Fixpoint format_loop (to_upper padding alpha : bool) (i : Z) (text : list Z) (ac : vbi_char) (out : list vbi_char)
    : option (vbi_char * list vbi_char) :=
  match text with
  | [] => Some (ac, out)
  | c :: text =>
      '(ac, out) ← format_cell to_upper padding alpha i c ac out;
      format_loop to_upper padding alpha (i + 1) text ac out
  end.

(** The defaults: white on black. *)
Definition ac0 : vbi_char := set_background VBI_BLACK (set_foreground VBI_WHITE (set_opacity VBI_OPAQUE char0)).
Definition ac_ts (alpha : bool) : vbi_char :=
  let ts := set_opacity VBI_TRANSPARENT_SPACE (set_unicode 0x20 ac0) in
  if alpha then set_background (background ts + 16) (set_foreground (foreground ts + 16) ts) else ts.

(** The space that ends a padded row. *)
Definition end_space (ac : vbi_char) (out : list vbi_char) : option (list vbi_char) :=
  let ac := vbi_char_clear_attr (set_unicode 0x20 ac) (-1) in
  t ← after_text true out;
  if t : bool then Some (ac :: out)
  else
    let ac := set_opacity VBI_TRANSPARENT_SPACE ac in
    Some (set_background (16 + (background ac .& 7)) (set_foreground (16 + (foreground ac .& 7)) ac) :: out).

(** The characters of a row, [MAX_COLUMNS] of them or two more with [padding]. *)
Definition format_row (max_columns : Z) (ch : channel) (b row : Z) (to_upper padding alpha : bool)
    : option (list vbi_char) :=
  let columns := if padding then MAX_COLUMNS + 2 else MAX_COLUMNS in
  if max_columns <? columns then None else
  d ← row_dirty ch b row;
  if negb d then Some (repeat (ac_ts alpha) (Z.to_nat columns))
  else
    text ← row_of ch b row;
    '(ac, out) ← format_loop to_upper padding alpha (FIRST_COLUMN - 1) (take 33 text) ac0
                   (if padding then [ac_ts alpha] else []);
    out ← if padding then end_space ac out else Some out;
    if Z.of_nat (length out) =? columns then Some (rev out) else None.

(** ** The page of a channel *)

Definition VBI_CAPTION_CC1 : Z := 1.
Definition VBI_CAPTION_T1 : Z := 5.
Definition VBI_CAPTION_T4 : Z := 8.

Definition default_color_map : list Z :=
  [0xFF000000; 0xFF0000FF; 0xFF00FF00; 0xFF00FFFF; 0xFFFF0000; 0xFFFF00FF; 0xFFFFFF00; 0xFFFFFFFF;
   0x80000000; 0x800000FF; 0x8000FF00; 0x8000FFFF; 0x80FF0000; 0x80FF00FF; 0x80FFFF00; 0x80FFFFFF;
   0x00000000; 0x000000FF; 0x0000FF00; 0x0000FFFF; 0x00FF0000; 0x00FF00FF; 0x00FFFF00; 0x00FFFFFF].

(** The loop over [n] rows from [row] on, [cp] is an index into the text of the page. *)
Fixpoint page_loop (ch : channel) (columns : Z) (to_upper padding : bool) (n : nat) (row cp : Z) (text : list vbi_char)
    : option (list vbi_char) :=
  match n with
  | O => Some text
  | S n =>
      chars ← format_row columns ch (displayed_buffer ch) row to_upper padding true;
      text ← store text cp chars;
      page_loop ch columns to_upper padding n (row + 1) (cp + columns) text
  end.

(** [Some None] when the function returns [FALSE]. *)
Definition _vbi_cc608_decoder_get_page (channels : list channel) (chan : Z) (padding : bool)
    : option (option vbi_page) :=
  if (chan <? VBI_CAPTION_CC1) || (VBI_CAPTION_T4 <? chan) then Some None else
  ch ← rd channels (chan - VBI_CAPTION_CC1);
  let columns := if padding then MAX_COLUMNS + 2 else MAX_COLUMNS in
  let to_upper := 3 <? uppercase_predictor ch in
  map ← store (color_map page0) 0 default_color_map;
  text ← page_loop ch columns to_upper padding (Z.to_nat MAX_ROWS) 0 0 (pg_text page0);
  Some (Some (Page chan 0 MAX_ROWS columns text 0 LAST_ROW 0 0 VBI_TRANSPARENT_SPACE map)).

(** ** What a cell shows *)

(** The contents of cells: transparent, a PAC, a spacing attribute or a character. *)
Definition within (a b c : Z) : bool := (a <=? c) && (c <=? b).
Definition is_pac (c : Z) : bool := within 0x1040 0x107F c.
Definition is_attr (c : Z) : bool :=
  within 0x1020 0x102F c || within 0x1120 0x112F c || (c =? 0x1428) || within 0x172D 0x172F c.
Definition is_glyph (c : Z) : bool :=
  within 0x20 0x7F c || (within 0x1130 0x113F c && negb (c =? 0x1139)) || within 0x1220 0x123F c ||
  within 0x1320 0x133F c.
Definition is_blank_cell (c : Z) : bool := (c =? 0) || is_pac c.
Definition cell_ok (c : Z) : bool := is_blank_cell c || is_attr c || is_glyph c.

(** Characters with an upper case version among the codes keep their case. *)
Definition keeps_case (c : Z) : bool := within 97 122 c || (c =? 0x7E) || (0x1220 <=? c).
Definition glyph (to_upper : bool) (c : Z) : Z :=
  if is_glyph c then vbi_caption_unicode c (to_upper && negb (keeps_case c)) else 0x20.

(** A character with its background is seen; a transparent space is not. *)
Definition vis (x : vbi_char) : bool := negb (opacity x =? VBI_TRANSPARENT_SPACE).
Definition text_char (x : vbi_char) : bool := vis x && negb (unicode x =? 0x20).

(** Next to a character other than a space there is background. *)
Definition beside (x y : vbi_char) : Prop := (text_char x = true → vis y = true) ∧ (text_char y = true → vis x = true).
Fixpoint legible (l : list vbi_char) : Prop :=
  match l with
  | x :: l' => match l' with y :: _ => beside x y ∧ legible l' | [] => True end
  | [] => True
  end.

Definition space_ok (x : vbi_char) : Prop := vis x = true ∨ unicode x = 0x20.

Lemma beside_sym x y : beside x y → beside y x.
Proof. intros [? ?]. by split. Qed.

Lemma legible_snoc l x y : legible (l ++ [x]) → beside x y → legible (l ++ [x; y]).
Proof.
  induction l as [|a l IH]; intros H Hxy; [by split|].
  destruct l as [|b l]; cbn [app legible] in *; [tauto|]. destruct H. split; [done|]. by apply IH.
Qed.

Lemma legible_rev l : legible l → legible (rev l).
Proof.
  induction l as [|x l IH]; [done|]. destruct l as [|y l]; [done|]. intros [Hb Hl].
  specialize (IH Hl). cbn [rev] in *. rewrite <-app_assoc. apply legible_snoc; [done|]. by apply beside_sym.
Qed.

Lemma vis_clear x a : vis (vbi_char_clear_attr x a) = vis x.
Proof. unfold vbi_char_clear_attr. by repeat case_match. Qed.
Lemma unicode_clear x a : unicode (vbi_char_clear_attr x a) = unicode x.
Proof. unfold vbi_char_clear_attr. by repeat case_match. Qed.
Lemma vis_set_attr x a : vis (vbi_char_set_attr x a) = vis x.
Proof. unfold vbi_char_set_attr. by repeat case_match. Qed.
Lemma unicode_set_attr x a : unicode (vbi_char_set_attr x a) = unicode x.
Proof. unfold vbi_char_set_attr. by repeat case_match. Qed.
Lemma vis_unicode x u : vis (set_unicode u x) = vis x.
Proof. done. Qed.
Lemma vis_foreground x u : vis (set_foreground u x) = vis x.
Proof. done. Qed.
Lemma unicode_foreground x u : unicode (set_foreground u x) = unicode x.
Proof. done. Qed.

Lemma vis_put_ac ac out : ∃ x, put_ac ac out = x :: out ∧ vis x = vis ac ∧ unicode x = unicode ac.
Proof.
  unfold put_ac. destruct (_ =? _); eexists; (split; [done|]); rewrite ?vis_clear, ?unicode_clear; done.
Qed.

(** Adding one character: [out1] is [out], or [out] with its transparent space made visible. *)
Definition emitted (padding : bool) (out : list vbi_char) (g : Z) (v : bool) (out' : list vbi_char) : Prop :=
  ∃ x out1, out' = x :: out1 ∧ unicode x = g ∧ map unicode out1 = map unicode out ∧
    (padding = false → out1 = out ∧ vis x = v) ∧ Forall space_ok out' ∧ (padding = true → legible out').

Lemma blank_cell_ok padding alpha i ac out :
  0 < i → vis ac = true → unicode ac = 0x20 → Forall space_ok out → (padding = true → out ≠ [] ∧ legible out) →
  ∃ out', blank_cell padding alpha i ac out = Some out' ∧ emitted padding out 0x20 false out'.
Proof.
  intros Hi Hv Hu Hs Hp. unfold blank_cell, after_text. rewrite (proj2 (Z.ltb_lt _ _) Hi).
  assert (∀ al, let y := (if al : bool then set_background (16 + (background ac .& 7))
      (set_foreground (16 + (foreground ac .& 7)) (set_opacity VBI_TRANSPARENT_SPACE ac))
      else set_opacity VBI_TRANSPARENT_SPACE ac) in vis y = false ∧ unicode y = 0x20) as Hy by (by intros []).
  destruct padding.
  - destruct (Hp eq_refl) as [Hne Hl]. destruct out as [|p out]; [done|]. cbn [mbind option_bind].
    fold (vis p). destruct (vis p && negb (unicode p =? 32)) eqn:E.
    + eexists. split; [done|]. exists (vbi_char_clear_attr ac (-1)), (p :: out).
      rewrite unicode_clear. split_and!; try done.
      * constructor; [|done]. left. by rewrite vis_clear.
      * intros _. split; [|done]. split; intros _; [|by rewrite vis_clear]. by apply andb_true_iff in E as [-> _].
    + destruct (Hy alpha) as [Hy1 Hy2]. eexists. split; [done|]. eexists _, (p :: out). split; [done|]. split_and!; try done.
      * constructor; [|done]. by right.
      * intros _. split; [|done]. unfold beside, text_char. rewrite Hy1, E. done.
  - cbn [mbind option_bind]. destruct (Hy alpha) as [Hy1 Hy2]. eexists. split; [done|]. eexists _, out.
    split; [done|]. split_and!; try done. constructor; [|done]. by right.
Qed.

Lemma lead_space_ok padding ac out :
  vis ac = true → unicode ac = 0x20 → Forall space_ok out → (padding = true → out ≠ [] ∧ legible out) →
  ∃ out1, lead_space padding ac out = Some out1 ∧ map unicode out1 = map unicode out ∧ Forall space_ok out1 ∧
    (padding = false → out1 = out) ∧
    (padding = true → legible out1 ∧ ∃ p t, out1 = p :: t ∧ vis p = true).
Proof.
  intros Hv Hu Hs Hp. unfold lead_space. destruct padding; [|by eexists].
  destruct (Hp eq_refl) as [Hne Hl]. destruct out as [|p out]; [done|]. eexists. split; [done|].
  apply List.Forall_cons_iff in Hs as [Hs1 Hs]. destruct (opacity p =? VBI_TRANSPARENT_SPACE) eqn:E.
  - destruct Hs1 as [Hs1|Hs1]; [unfold vis in Hs1; by rewrite E in Hs1|].
    cbn [map]. rewrite unicode_clear, Hu, Hs1. split_and!; try done.
    + constructor; [|done]. left. by rewrite vis_clear.
    + intros _. split; [|eexists _, _; split; [done|]; by rewrite vis_clear].
      destruct out as [|q out]; [done|]. destruct Hl as [_ Hl]. split; [|done].
      unfold beside, text_char. rewrite vis_clear, unicode_clear, Hv, Hu. done.
  - split_and!; try done; [by constructor|]. intros _. split; [done|]. eexists _, _. split; [done|]. unfold vis. by rewrite E.
Qed.

Lemma emit_glyph padding ac out out1 x :
  vis x = true → Forall space_ok out1 → map unicode out1 = map unicode out → (padding = false → out1 = out) →
  (padding = true → legible out1 ∧ ∃ p t, out1 = p :: t ∧ vis p = true) →
  unicode x = ac → emitted padding out ac true (x :: out1).
Proof.
  intros Hx Hs Hm Hn Hl Hu. exists x, out1. split_and!; try done.
  - intros ->. by rewrite Hn.
  - constructor; [by left|done].
  - intros ->. destruct (Hl eq_refl) as (? & p & t & -> & Hp). split; [|done]. by split.
Qed.

Lemma emit_attr padding out x :
  vis x = true → unicode x = 0x20 → Forall space_ok out → (padding = true → out ≠ [] ∧ legible out) →
  emitted padding out 0x20 true (x :: out).
Proof.
  intros Hx Hu Hs Hp. exists x, out. split_and!; try done.
  - constructor; [by left|done].
  - intros ->. destruct (Hp eq_refl) as [Hne Hl]. destruct out as [|p out]; [done|]. split; [|done].
    unfold beside, text_char. rewrite Hx, Hu. done.
Qed.

Lemma vis_pac_attr c ac : vis (pac_attr c ac) = vis ac.
Proof.
  unfold pac_attr.
  repeat (case_match || rewrite ?vis_set_attr, ?vis_clear, ?vis_foreground); done.
Qed.
Lemma vis_mid_row_attr c ac : vis (mid_row_attr c ac) = vis ac ∧ unicode (mid_row_attr c ac) = unicode ac.
Proof.
  unfold mid_row_attr.
  repeat (case_match || rewrite ?vis_set_attr, ?vis_clear, ?vis_foreground, ?unicode_set_attr, ?unicode_clear, ?unicode_foreground); done.
Qed.
Lemma vis_background_attr al c ac :
  vis (background_attr al c ac) = true ∧ unicode (background_attr al c ac) = unicode ac.
Proof. unfold background_attr. by repeat case_match. Qed.

Lemma is_blank_cases c : is_blank_cell c = true → c = 0 ∨ 0x1040 ≤ c ≤ 0x107F.
Proof. unfold is_blank_cell, is_pac, within. lia. Qed.
Lemma is_attr_cases c : is_attr c = true → 0x1020 ≤ c ≤ 0x102F ∨ 0x1120 ≤ c ≤ 0x112F ∨ c = 0x1428 ∨ 0x172D ≤ c ≤ 0x172F.
Proof. unfold is_attr, within. lia. Qed.
Lemma is_glyph_cases c : is_glyph c = true →
  0x20 ≤ c ≤ 0x7F ∨ (0x1130 ≤ c ≤ 0x113F ∧ c ≠ 0x1139) ∨ 0x1220 ≤ c ≤ 0x123F ∨ 0x1320 ≤ c ≤ 0x133F.
Proof. unfold is_glyph, within. lia. Qed.

Ltac cell_branch :=
  repeat match goal with
  | |- context [?a =? ?b] => rewrite (proj2 (Z.eqb_neq a b)) by lia
  | |- context [?a <? ?b] =>
      first [ rewrite (proj2 (Z.ltb_lt a b)) by lia | rewrite (proj2 (Z.ltb_ge a b)) by lia ]
  | |- context [?a <=? ?b] =>
      first [ rewrite (proj2 (Z.leb_le a b)) by lia | rewrite (proj2 (Z.leb_gt a b)) by lia ]
  end.

Section cell.
Context (up padding alpha : bool) (ac : vbi_char) (out : list vbi_char).
Context (Hv : vis ac = true) (Hs : Forall space_ok out) (Hp : padding = true → out ≠ [] ∧ legible out).

Lemma format_blank i c : 0 < i → is_blank_cell c = true →
  ∃ ac' out', format_cell up padding alpha i c ac out = Some (ac', out') ∧ vis ac' = true ∧
    emitted padding out 0x20 false out'.
Proof.
  intros Hi Hc. destruct (blank_cell_ok padding alpha i (set_unicode 0x20 ac) out) as (out' & E & H); try done.
  unfold format_cell. destruct (is_blank_cases c Hc) as [->|Hr].
  - change (0 =? 0) with true. cbv iota. rewrite E. by eexists _, _.
  - rewrite (proj2 (Z.eqb_neq c 0)), !(proj2 (Z.ltb_ge c _)), (proj2 (Z.ltb_lt c 0x1120)) by lia.
    rewrite E. eexists _, _. split; [done|]. split; [|done]. by rewrite vis_pac_attr.
Qed.

(** The zeroth column sets the attributes and shows nothing. *)
Lemma format_col0 c : is_blank_cell c = true → (padding = true → ∃ p t, out = p :: t ∧ vis p = false) →
  ∃ ac', format_cell up padding alpha 0 c ac out = Some (ac', out) ∧ vis ac' = true.
Proof.
  intros Hc Hout. assert (blank_cell padding alpha 0 (set_unicode 0x20 ac) out = Some out) as E.
  { unfold blank_cell, after_text. destruct padding; [|done]. destruct (Hout eq_refl) as (p & t & -> & E).
    cbn [mbind option_bind]. fold (vis p). rewrite E. done. }
  unfold format_cell. destruct (is_blank_cases c Hc) as [->|Hr].
  - change (0 =? 0) with true. cbv iota. rewrite E. by eexists.
  - rewrite (proj2 (Z.eqb_neq c 0)), !(proj2 (Z.ltb_ge c _)), (proj2 (Z.ltb_lt c 0x1120)) by lia.
    rewrite E. eexists. split; [done|]. by rewrite vis_pac_attr.
Qed.

Lemma format_attr i c : is_attr c = true →
  ∃ ac' out', format_cell up padding alpha i c ac out = Some (ac', out') ∧ vis ac' = true ∧
    emitted padding out 0x20 true out'.
Proof.
  intros Hc. unfold format_cell.
  assert (∀ ac', vis ac' = true → unicode ac' = 0x20 → ∃ ac1 out', Some (ac', put_ac ac' out) = Some (ac1, out') ∧
    vis ac1 = true ∧ emitted padding out 0x20 true out') as Hput.
  { intros ac' H1 H2. destruct (vis_put_ac ac' out) as (x & -> & H3 & H4). eexists _, _. split; [done|].
    split; [done|]. apply emit_attr; try done; congruence. }
  destruct (is_attr_cases c Hc) as [Hr|[Hr|[->|Hr]]].
  - rewrite (proj2 (Z.eqb_neq c 0)), !(proj2 (Z.ltb_ge c 0x1020)), (proj2 (Z.ltb_lt c 0x1040)) by lia.
    apply Hput; apply vis_background_attr.
  - rewrite (proj2 (Z.eqb_neq c 0)), !(proj2 (Z.ltb_ge c _)), (proj2 (Z.ltb_lt c 0x1130)) by lia.
    pose proof (vis_mid_row_attr c (set_unicode 0x20 ac)) as [H1 H2]. apply Hput; [by rewrite H1|by rewrite H2].
  - cbn [Z.eqb Z.ltb Z.leb Z.compare Pos.compare Pos.compare_cont Pos.eqb].
    apply Hput; [by rewrite vis_set_attr|by rewrite unicode_set_attr].
  - rewrite (proj2 (Z.eqb_neq c 0)), !(proj2 (Z.ltb_ge c _)) by lia. destruct (Z.ltb_spec c 0x172E).
    + apply Hput; by destruct alpha.
    + rewrite (proj2 (Z.leb_le c _)) by lia.
      apply Hput; destruct (has c 1); rewrite ?vis_foreground, ?unicode_foreground, ?vis_set_attr, ?unicode_set_attr,
        ?vis_clear, ?unicode_clear; done.
Qed.
End cell.

Section glyphs.
Context (up padding alpha : bool) (ac : vbi_char) (out : list vbi_char).
Context (Hv : vis ac = true) (Hs : Forall space_ok out) (Hp : padding = true → out ≠ [] ∧ legible out).

(** All characters: first the space before them, then the character itself. *)
Lemma format_glyph i c : is_glyph c = true →
  ∃ ac' out', format_cell up padding alpha i c ac out = Some (ac', out') ∧ vis ac' = true ∧
    emitted padding out (glyph up c) true out'.
Proof.
  intros Hc. destruct (lead_space_ok padding (set_unicode 0x20 ac) out) as (out1 & E & Hm & Hs1 & Hn & Hl); try done.
  assert (∀ u, u = glyph up c → let ac' := set_unicode u (set_unicode 0x20 ac) in
    ∃ ac1 out', Some (ac', put_ac ac' out1) = Some (ac1, out') ∧ vis ac1 = true ∧
      emitted padding out (glyph up c) true out') as Hput.
  { intros u Hu ac'. destruct (vis_put_ac ac' out1) as (x & -> & H3 & H4). eexists _, _. split; [done|].
    split; [done|]. apply emit_glyph; try done; [by rewrite H3|by rewrite H4]. }
  unfold format_cell. destruct (is_glyph_cases c Hc) as [Hr|[[Hr Hne]|Hr]].
  - rewrite (proj2 (Z.eqb_neq c 0)), (proj2 (Z.ltb_lt c _)) by lia. rewrite E. cbn [mbind option_bind].
    destruct (_ || _) eqn:E1; apply Hput; unfold glyph, keeps_case, within; rewrite Hc, E1.
    + by rewrite andb_false_r.
    + by rewrite (proj2 (Z.leb_gt 0x1220 c)), andb_true_r by lia.
  - rewrite (proj2 (Z.eqb_neq c 0)), !(proj2 (Z.ltb_ge c _)), (proj2 (Z.ltb_lt c 0x1220)) by lia.
    rewrite E. cbn [mbind option_bind]. rewrite (proj2 (Z.eqb_neq c _)) by lia. apply Hput.
    unfold glyph, keeps_case, within.
    rewrite Hc, (proj2 (Z.leb_gt c 122)), (proj2 (Z.eqb_neq c _)), (proj2 (Z.leb_gt 0x1220 c)) by lia.
    by rewrite andb_false_r, andb_true_r.
  - rewrite (proj2 (Z.eqb_neq c 0)), !(proj2 (Z.ltb_ge c _)), (proj2 (Z.ltb_lt c 0x1428)) by lia.
    rewrite E. cbn [mbind option_bind].
    assert (vbi_caption_unicode c false = glyph up c) as Hg.
    { unfold glyph, keeps_case. by rewrite Hc, (proj2 (Z.leb_le 0x1220 c)), orb_true_r, andb_false_r by lia. }
    destruct (_ =? 0x2500); [|by apply Hput]. eexists _, _. split; [done|]. split; [done|].
    by apply emit_glyph.
Qed.

Lemma format_cell_ok i c : 0 < i → cell_ok c = true →
  ∃ ac' out', format_cell up padding alpha i c ac out = Some (ac', out') ∧ vis ac' = true ∧
    emitted padding out (glyph up c) (negb (is_blank_cell c)) out'.
Proof.
  intros Hi Hc. unfold cell_ok in Hc. unfold glyph.
  destruct (is_glyph c) eqn:Eg.
  - destruct (is_blank_cell c) eqn:Eb.
    + apply is_blank_cases in Eb. apply is_glyph_cases in Eg. lia.
    + pose proof (format_glyph i c Eg) as H. unfold glyph in H. by rewrite Eg in H.
  - destruct (is_blank_cell c) eqn:Eb; [by apply format_blank|]. apply format_attr; try done.
    by rewrite orb_false_r in Hc.
Qed.
End glyphs.

(** The loop over the visible columns. *)
Lemma format_loop_ok up padding alpha : ∀ text i ac out,
  0 < i → Forall (λ c, cell_ok c = true) text → vis ac = true → Forall space_ok out →
  (padding = true → out ≠ [] ∧ legible out) →
  ∃ ac' out', format_loop up padding alpha i text ac out = Some (ac', out') ∧ vis ac' = true ∧
    map unicode out' = rev (map (glyph up) text) ++ map unicode out ∧
    (padding = false → map vis out' = rev (map (λ c, negb (is_blank_cell c)) text) ++ map vis out) ∧
    Forall space_ok out' ∧ (padding = true → out' ≠ [] ∧ legible out').
Proof.
  induction text as [|c text IH]; intros i ac out Hi Hc Hv Hs Hp; cbn [format_loop]; [by eexists _, _|].
  apply List.Forall_cons_iff in Hc as [Hc1 Hc].
  destruct (format_cell_ok up padding alpha ac out Hv Hs Hp i c Hi Hc1)
    as (ac1 & out1 & -> & Hv1 & x & o & -> & Hu & Hm & Hn & Hs1 & Hl). cbn [mbind option_bind].
  destruct (IH (i + 1) ac1 (x :: o)) as (ac2 & out2 & -> & Hv2 & Hm2 & Hn2 & Hs2 & Hl2); try done; [lia|naive_solver|].
  eexists _, _. split; [done|]. split_and!; try done.
  - rewrite Hm2. cbn [map rev]. by rewrite <-app_assoc, Hu, Hm.
  - intros Hf. rewrite (Hn2 Hf). destruct (Hn Hf) as [-> E]. cbn [map rev]. by rewrite <-app_assoc, E.
Qed.

(** ** Rows and pages *)

(** A row of a buffer: nothing or a PAC in column 0, then 32 cells. *)
Definition text_ok (text : list Z) : Prop :=
  ∃ c0 cells, text = c0 :: cells ∧ length cells = 32%nat ∧ is_blank_cell c0 = true ∧
    Forall (λ c, cell_ok c = true) cells.

(** The visible cells are all transparent. *)
Definition blank (text : list Z) : Prop := Forall (λ c, c = 0) (tail text).

Lemma row0_ok : text_ok row0.
Proof. exists 0, (repeat 0 32). split_and!; try done. apply List.Forall_forall. intros c Hc. by apply repeat_spec in Hc as ->. Qed.
Lemma map_repeat {A B} (f : A → B) x n : map f (repeat x n) = repeat (f x) n.
Proof. induction n; cbn; congruence. Qed.

Lemma Forall_repeat {A} (P : A → Prop) x n : P x → Forall P (repeat x n).
Proof. intros H. apply List.Forall_forall. intros y Hy. by apply repeat_spec in Hy as ->. Qed.

Lemma row0_blank : blank row0.
Proof. by apply (Forall_repeat _ 0 32). Qed.

Lemma rev_repeat {A} (x : A) n : rev (repeat x n) = repeat x n.
Proof.
  induction n as [|n IH]; [done|]. cbn [repeat rev]. rewrite IH, <-repeat_cons. done.
Qed.

Lemma legible_repeat x n : text_char x = false → legible (repeat x n).
Proof.
  intros Hx. induction n as [|n IH]; [done|]. destruct n; [done|]. split; [|done].
  unfold beside. by rewrite Hx.
Qed.

(** What a formatted row shows: the characters of its cells, with a space on either side if
    it is padded; in an unpadded row exactly the transparent cells are transparent, in a padded
    row characters have background on both sides. *)
Definition shows (up padding : bool) (cells : list Z) (out : list vbi_char) : Prop :=
  map unicode out = (if padding then 0x20 :: map (glyph up) cells ++ [0x20] else map (glyph up) cells) ∧
  (padding = false → map vis out = map (λ c, negb (is_blank_cell c)) cells) ∧
  (padding = true → legible out).

Lemma end_space_ok ac out :
  vis ac = true → Forall space_ok out → out ≠ [] → legible out →
  ∃ x, end_space ac out = Some (x :: out) ∧ unicode x = 0x20 ∧ legible (x :: out).
Proof.
  intros Hv Hs Hne Hl. unfold end_space, after_text. destruct out as [|p out]; [done|]. cbn [mbind option_bind].
  fold (vis p). destruct (vis p && negb (unicode p =? 0x20)) eqn:E.
  - eexists. split; [done|]. rewrite unicode_clear. split; [done|]. split; [|done].
    split; intros _; [by apply andb_true_iff in E as [-> _]|by rewrite vis_clear].
  - eexists. split; [done|]. split; [by rewrite ?unicode_clear|]. split; [|done]. unfold beside, text_char.
    rewrite E. done.
Qed.

Lemma format_loop_row up padding alpha c0 cells :
  is_blank_cell c0 = true → Forall (λ c, cell_ok c = true) cells →
  ∃ ac out, format_loop up padding alpha 0 (c0 :: cells) ac0 (if padding then [ac_ts alpha] else []) = Some (ac, out) ∧
    vis ac = true ∧ Forall space_ok out ∧ (padding = true → out ≠ [] ∧ legible out) ∧
    map unicode out = rev (map (glyph up) cells) ++ (if padding then [0x20] else []) ∧
    (padding = false → map vis out = rev (map (λ c, negb (is_blank_cell c)) cells)).
Proof.
  intros H0 Hc. set (out0 := if padding then [ac_ts alpha] else []).
  assert (Forall space_ok out0) as Hs.
  { subst out0. destruct padding; [|done]. constructor; [|done]. right. by destruct alpha. }
  assert (padding = true → out0 ≠ [] ∧ legible out0) as Hp by (by intros ->).
  destruct (format_col0 up padding alpha ac0 out0 eq_refl Hs Hp c0 H0) as (ac1 & E1 & Hv1).
  { intros ->. eexists _, _. split; [done|]. by destruct alpha. }
  destruct (format_loop_ok up padding alpha cells (0 + 1) ac1 out0) as (ac & out & E & Hv & Hm & Hn & Hs2 & Hp2); try done.
  exists ac, out. cbn [format_loop]. rewrite E1. cbn [mbind option_bind]. split; [done|]. split_and!; try done.
  - rewrite Hm. subst out0. destruct padding; [|done]. by destruct alpha.
  - intros Hf. rewrite (Hn Hf). subst out0. rewrite Hf. cbn [map]. by rewrite app_nil_r.
Qed.

Lemma format_row_ok cols ch b row d up padding alpha c0 cells :
  (if padding : bool then 34 else 32) ≤ cols → row_dirty ch b row = Some d → row_of ch b row = Some (c0 :: cells) →
  text_ok (c0 :: cells) → (d = false → blank (c0 :: cells)) →
  ∃ out, format_row cols ch b row up padding alpha = Some out ∧
    length out = (if padding then 34 else 32)%nat ∧ shows up padding cells out.
Proof.
  intros Hcols Hd Hr (? & ? & [= <- <-] & Hlen & H0 & Hc) Hb. unfold format_row.
  rewrite (proj2 (Z.ltb_ge cols _)) by (destruct padding; exact Hcols). rewrite Hd. cbn [mbind option_bind].
  destruct d; cbn [negb].
  - rewrite Hr. cbn [mbind option_bind]. rewrite firstn_all2 by (cbn [length]; lia).
    destruct (format_loop_row up padding alpha c0 cells H0 Hc) as (ac & out & E & Hv & Hs & Hp & Hm & Hn).
    change (FIRST_COLUMN - 1) with 0. rewrite E. cbn [mbind option_bind].
    assert (length out = (32 + if padding then 1 else 0)%nat) as Hlo.
    { rewrite <-(length_map unicode), Hm, length_app, length_rev, length_map, Hlen. by destruct padding. }
    destruct padding.
    + destruct (Hp eq_refl) as [Hne Hl]. destruct (end_space_ok ac out Hv Hs Hne Hl) as (x & -> & Hx & Hlx).
      cbn [mbind option_bind]. rewrite (proj2 (Z.eqb_eq _ _)) by (cbn [length]; rewrite Hlo; done).
      eexists. split; [done|]. split; [rewrite length_rev; cbn [length]; by rewrite Hlo|]. split_and!; try done.
      * rewrite map_rev. cbn [map rev]. rewrite Hm, rev_app_distr, rev_involutive, Hx. done.
      * intros _. by apply legible_rev.
    + cbn [mbind option_bind]. rewrite (proj2 (Z.eqb_eq _ _)) by (rewrite Hlo; done).
      eexists. split; [done|]. split; [by rewrite length_rev|]. split_and!; try done.
      * by rewrite map_rev, Hm, app_nil_r, rev_involutive.
      * intros _. by rewrite map_rev, (Hn eq_refl), rev_involutive.
  - assert (cells = repeat 0 32) as ->.
    { apply list_eq_same_length with 32%nat; [by rewrite repeat_length|done|]. intros i x y _ Hx Hy.
      specialize (Hb eq_refl). eapply Forall_lookup_1 in Hx; [|exact Hb].
      apply list_elem_of_lookup_2, list_elem_of_In, repeat_spec in Hy. congruence. }
    eexists. split; [done|]. split; [by rewrite repeat_length; destruct padding|].
    unfold shows. rewrite !map_repeat. destruct padding.
    + split_and!; try done; [by destruct alpha|]. intros _. apply legible_repeat. by destruct alpha.
    + split_and!; try done; by destruct alpha.
Qed.

(** Every row of the displayed buffer can be formatted. *)
Definition shown_row (ch : channel) (row : Z) (text : list Z) : Prop :=
  row_of ch (displayed_buffer ch) row = Some text ∧ text_ok text ∧
  ∃ d, row_dirty ch (displayed_buffer ch) row = Some d ∧ (d = false → blank text).
Definition displayable (ch : channel) : Prop := ∀ row, 0 ≤ row < 15 → ∃ text, shown_row ch row text.

Definition columns_of (padding : bool) : nat := if padding then 34 else 32.

Lemma page_loop_ok ch up padding : displayable ch → ∀ n row text,
  0 ≤ row → row + Z.of_nat n ≤ 15 → (15 * columns_of padding ≤ length text)%nat →
  ∃ outs, page_loop ch (Z.of_nat (columns_of padding)) up padding n row (row * Z.of_nat (columns_of padding)) text =
      Some (take (Z.to_nat row * columns_of padding) text ++ concat outs ++
            drop ((Z.to_nat row + n) * columns_of padding) text) ∧
    length outs = n ∧
    ∀ k out, outs !! k = Some out → length out = columns_of padding ∧
      ∃ t, shown_row ch (row + Z.of_nat k) t ∧ shows up padding (tail t) out.
Proof.
  intros Hd. set (cols := columns_of padding). induction n as [|n IH]; intros row text Hr Hn Hlen; cbn [page_loop].
  - exists []. split; [|done]. cbn [concat app]. by rewrite Nat.add_0_r, take_drop.
  - destruct (Hd row ltac:(lia)) as (t & Ht). pose proof Ht as (Hrow & Hok & d & Hdr & Hb).
    destruct t as [|c0 cells]; [by destruct Hok as (? & ? & ? & _)|].
    destruct (format_row_ok (Z.of_nat cols) ch (displayed_buffer ch) row d up padding true c0 cells) as (out & -> & Hl & Hs); try done.
    { by destruct padding. }
    cbn [mbind option_bind]. assert (length out = cols) as Hl' by (rewrite Hl; by destruct padding). clear Hl.
    assert (0 < cols)%nat by (unfold cols, columns_of; destruct padding; lia).
    unfold store. rewrite decide_True by (rewrite Hl'; nia). cbn [mbind option_bind].
    set (text1 := take _ text ++ out ++ _).
    assert (Z.to_nat (row * Z.of_nat cols) = Z.to_nat row * cols)%nat as En by nia. 
    assert (length text1 = length text) as El.
    { unfold text1. rewrite !length_app, length_take, length_drop, Hl', En. nia. }
    destruct (IH (row + 1) text1) as (outs & E & Hlo & Ho); [lia|lia|by rewrite El|].
    replace (row * Z.of_nat cols + Z.of_nat cols) with ((row + 1) * Z.of_nat cols) by lia. rewrite E.
    exists (out :: outs). split; [|split; [by cbn; rewrite Hlo|]].
    + f_equal. cbn [concat]. rewrite !Z2Nat.inj_add by lia. change (Z.to_nat 1) with 1%nat.
      unfold text1. rewrite En, Hl'.
      replace ((Z.to_nat row + 1) * cols)%nat with (Z.to_nat row * cols + cols)%nat by lia.
      rewrite !app_assoc. rewrite take_app_length' by (rewrite length_app, length_take, Hl'; nia).
      f_equal. rewrite drop_app_ge by (rewrite length_app, length_take, Hl'; nia).
      rewrite drop_drop. f_equal. rewrite length_app, length_take, Hl'. nia.
    + intros [|k] o Hk; cbn in Hk; simplify_eq.
      * split; [done|]. exists (c0 :: cells). by rewrite Z.add_0_r.
      * destruct (Ho k o Hk) as (? & t & ? & ?). split; [done|]. exists t.
        by replace (row + Z.of_nat (S k)) with (row + 1 + Z.of_nat k) by lia.
Qed.

Lemma length_concat_fixed {A} (l : list (list A)) n : Forall (λ x, length x = n) l → length (concat l) = (length l * n)%nat.
Proof. induction 1 as [|x l Hx _ IH]; [done|]. cbn [concat length]. rewrite length_app, Hx, IH. lia. Qed.

(** The page of a channel is its displayed buffer, row by row. *)
Lemma caption_page_ok channels chan padding ch :
  1 ≤ chan ≤ 8 → rd channels (chan - 1) = Some ch → displayable ch →
  ∃ pg outs, _vbi_cc608_decoder_get_page channels chan padding = Some (Some pg) ∧
    pg_pgno pg = chan ∧ pg_rows pg = 15 ∧ pg_columns pg = Z.of_nat (columns_of padding) ∧
    length outs = 15%nat ∧ take (15 * columns_of padding) (pg_text pg) = concat outs ∧
    ∀ row out, outs !! row = Some out → length out = columns_of padding ∧
      ∃ t, row_of ch (displayed_buffer ch) (Z.of_nat row) = Some t ∧
        shows (3 <? uppercase_predictor ch) padding (tail t) out.
Proof.
  intros Hc Hch Hd. unfold _vbi_cc608_decoder_get_page, VBI_CAPTION_CC1, VBI_CAPTION_T4.
  rewrite !(proj2 (Z.ltb_ge _ _)) by lia. cbn [orb]. rewrite Hch. cbn [mbind option_bind].
  destruct (store _ _ _) as [cmap|] eqn:Em; [|done]. cbn [mbind option_bind].
  replace (if padding then MAX_COLUMNS + 2 else MAX_COLUMNS) with (Z.of_nat (columns_of padding)) by by destruct padding.
  destruct (page_loop_ok ch (3 <? uppercase_predictor ch) padding Hd 15 0 (pg_text page0)) as (outs & E & Hl & Ho).
  - lia.
  - lia.
  - change (length (pg_text page0)) with 1056%nat. unfold columns_of. destruct padding; lia.
  - change (Z.to_nat MAX_ROWS) with 15%nat. change (0 * Z.of_nat (columns_of padding)) with 0 in E.
    rewrite E. cbn [mbind option_bind]. eexists _, outs. split; [done|]. split_and!; try done.
    + cbn [pg_text]. change (take (Z.to_nat 0 * columns_of padding) (pg_text page0)) with (@nil vbi_char).
      cbn [app]. rewrite take_app_length'; [done|].
      rewrite (length_concat_fixed _ (columns_of padding)); [by rewrite Hl|].
      apply Forall_lookup. intros k o Hk. by destruct (Ho k o Hk).
    + intros row out Hk. destruct (Ho row out Hk) as (? & t & (Hr & _) & Hs). split; [done|]. by exists t.
Qed.
