(* ===== verification/Cc608.v ===== *)
(** The Closed Caption decoder [src/src/cc608_decoder.c] (EIA 608-B): byte pairs of line
    21 to eight channels of captions and text, display events and transcript events.

    An operation is a function on the decoder and the state of the client, which is told
    of every event when the C code sends it; [None] is undefined behaviour or a failed
    assertion. A [struct channel *] is the index of the channel. *)
From S2P Require Import Prelude Double Format Lang Hamm Sliced Event Cc608Format.

(** ** The decoder *)

Record decoder := Decoder {
  channels : list channel; curr_ch_num : list Z; expect_ctrl : list (Z * Z); in_xds : list bool;
  event_pending : option Z; error_history : Z; cd_timestamp : timestamp; handlers : handler_list
}.

Definition set_channels x cd := Decoder x (curr_ch_num cd) (expect_ctrl cd) (in_xds cd) (event_pending cd)
  (error_history cd) (cd_timestamp cd) (handlers cd).
Definition set_curr x cd := Decoder (channels cd) x (expect_ctrl cd) (in_xds cd) (event_pending cd)
  (error_history cd) (cd_timestamp cd) (handlers cd).
Definition set_expect x cd := Decoder (channels cd) (curr_ch_num cd) x (in_xds cd) (event_pending cd)
  (error_history cd) (cd_timestamp cd) (handlers cd).
Definition set_xds x cd := Decoder (channels cd) (curr_ch_num cd) (expect_ctrl cd) x (event_pending cd)
  (error_history cd) (cd_timestamp cd) (handlers cd).
Definition set_pending x cd := Decoder (channels cd) (curr_ch_num cd) (expect_ctrl cd) (in_xds cd) x
  (error_history cd) (cd_timestamp cd) (handlers cd).
Definition set_history x cd := Decoder (channels cd) (curr_ch_num cd) (expect_ctrl cd) (in_xds cd) (event_pending cd)
  x (cd_timestamp cd) (handlers cd).
Definition set_timestamp x cd := Decoder (channels cd) (curr_ch_num cd) (expect_ctrl cd) (in_xds cd) (event_pending cd)
  (error_history cd) x (handlers cd).
Definition set_handlers x cd := Decoder (channels cd) (curr_ch_num cd) (expect_ctrl cd) (in_xds cd) (event_pending cd)
  (error_history cd) (cd_timestamp cd) x.

Definition UNKNOWN_CHANNEL : Z := 0.

(** [_VBI_EVENT_CC608] with [struct _vbi_event_cc608_page] and [_VBI_EVENT_CC608_STREAM] with
    [struct _vbi_event_cc608_stream]. *)
Inductive event :=
| CC608 (chan : Z) (m : mode) (flags : Z)
| CC608_STREAM (capture_time : double) (pts : Z) (chan : Z) (m : mode) (text : list vbi_char).

Definition START_ROLLING : Z := 1 ≪ 0.

(** ** Initialisation *)

Definition reset_channel (ch_num : Z) (ch : channel) : channel :=
  let text := negb (ch_num <=? 3) in
  Channel [rows0; rows0; rows0] [0; 0; 0] 0 (if text then FIRST_ROW else LAST_ROW) FIRST_COLUMN
    (if text then 0 else 4) 0 (uppercase_predictor ch) (if text then MODE_TEXT else MODE_UNKNOWN)
    timestamp_reset timestamp_reset.

Definition _vbi_cc608_decoder_reset (cd : decoder) : decoder :=
  Decoder (imap (λ i ch, reset_channel (Z.of_nat i) ch) (channels cd)) [UNKNOWN_CHANNEL; UNKNOWN_CHANNEL]
    [(-1, -1); (-1, -1)] [false; false] None (error_history cd) (cd_timestamp cd) (handlers cd).

(** A channel and the decoder after [CLEAR]. *)
Definition channel0 : channel :=
  Channel [rows0; rows0; rows0] [0; 0; 0] 0 0 0 0 0 0 MODE_UNKNOWN (Timestamp d_zero 0) (Timestamp d_zero 0).
Definition decoder0 : decoder :=
  Decoder (repeat channel0 8) [0; 0] [(0, 0); (0, 0)] [false; false] None 0 (Timestamp d_zero 0)
    _vbi_event_handler_list_init.

Definition _vbi_cc608_decoder_init : decoder :=
  set_timestamp timestamp_reset
    (_vbi_cc608_decoder_reset (set_handlers _vbi_event_handler_list_init decoder0)).

(** ** The caption handler list *)

Definition _VBI_EVENT_CC608 : Z := 0x1000.
Definition _VBI_EVENT_CC608_STREAM : Z := 0x2000.

Definition _vbi_cc608_decoder_remove_event_handler (malloc : option Z) (cd : decoder) (callback user_data : Z) : decoder :=
  set_handlers (_vbi_event_handler_list_remove_by_callback malloc (handlers cd) callback user_data) cd.

Definition _vbi_cc608_decoder_add_event_handler (malloc : option Z) (cd : decoder) (mask callback user_data : Z)
    : decoder * bool :=
  let mask := mask .& (_VBI_EVENT_CC608 .| _VBI_EVENT_CC608_STREAM) in
  if mask =? 0 then
    (set_handlers (_vbi_event_handler_list_remove_by_callback malloc (handlers cd) callback user_data) cd, true)
  else
    let '(el, eh) := _vbi_event_handler_list_add malloc (handlers cd) mask callback user_data in
    (set_handlers el cd, match eh with Some _ => true | None => false end).

(** ** Operations on cells *)

(** [for (; n > 0; --n, ++i) c |= text[i]] *)
Fixpoint or_cells (text : list Z) (i : Z) (n : nat) (c : Z) : option Z :=
  match n with
  | O => Some c
  | S n => x ← rd text i; or_cells text (i + 1) n (c .| x)
  end.

(** [ch->dirty[b] &= ~((0 == c) << row)] *)
Definition clean_row (b row c : Z) (ch : channel) : option channel :=
  d ← rd (dirty ch) b;
  put_dirty b (d .& Z.lnot (Z.b2z (c =? 0) ≪ row)) ch.

(** The buffer characters are written to. *)
Definition write_buffer (ch : channel) : Z :=
  displayed_buffer ch .^ Z.b2z (bool_decide (ch_mode ch = MODE_POP_ON)).

(** [if (FIRST_COLUMN == column || 0 == text[column - 1]) text[column - 1] = ch->last_pac] *)
Definition put_pac (text : list Z) (column pac : Z) : option (list Z) :=
  if column =? FIRST_COLUMN then wr text (column - 1) pac
  else
    x ← rd text (column - 1);
    if x =? 0 then wr text (column - 1) pac else Some text.

Definition predict_upper (c : Z) (ch : channel) : channel :=
  if (97 <=? c) && (c <=? 122) then set_upper 0 ch
  else if (65 <=? c) && (c <=? 90) then
    let up := u32 (uppercase_predictor ch + 1) in
    if 0 <? up then set_upper up ch else ch
  else ch.

(** [put_char] without the assignment to [event_pending]; [now] is [cd->timestamp]. *)
Definition put_char_ch (now : timestamp) (c : Z) (displayable backspace : bool) (ch : channel) : option channel :=
  let b := write_buffer ch in
  let row := curr_row ch in
  let column := curr_column ch in
  let '(ch, column) :=
    if backspace then (ch, if FIRST_COLUMN <? column then column - 1 else column)
    else (if column <? LAST_COLUMN then set_column (column + 1) ch else ch, column) in
  text ← row_of ch b row;
  text ← wr text column c;
  let finish ch :=
    d ← rd (dirty ch) b;
    ch ← put_dirty b (d .| 1 ≪ row) ch;
    Some (if timestamp_is_set (timestamp_c0 ch) then ch else set_c0 now ch) in
  if displayable then
    text ← put_pac text column (last_pac ch);
    ch ← put_row b row text ch;
    finish (predict_upper c ch)
  else if c =? 0 then
    ch ← put_row b row text ch;
    c ← or_cells text FIRST_COLUMN 32 c;
    clean_row b row c ch
  else
    text ← put_pac text column (last_pac ch);
    ch ← put_row b row text ch;
    finish ch.

(** [ch->curr_column] after a tab offset. *)
Definition tab_offset (c2 : Z) (ch : channel) : channel :=
  set_column (Z.min (curr_column ch + (c2 .& 3)) LAST_COLUMN) ch.

(** The cell as [stream_event_if_changed] compares it: PACs are transparent and spacing
    attributes are spaces. In the second test the C code assigns to [c1]. *)
Fixpoint row_changed (t1 t2 : list Z) (i : Z) (n : nat) : option bool :=
  match n with
  | O => Some false
  | S n =>
      c1 ← rd t1 i;
      let c1 :=
        if 0x1040 <=? c1 then
          if c1 <? 0x1120 then 0 else if (c1 <? 0x1130) || (0x1428 <=? c1) then 0x20 else c1
        else c1 in
      c2 ← rd t2 i;
      let '(c1, c2) :=
        if 0x1040 <=? c2 then
          if c2 <? 0x1120 then (c1, 0) else if (c2 <? 0x1130) || (0x1428 <=? c2) then (0x20, c2) else (c1, c2)
        else (c1, c2) in
      if negb (c1 =? c2) then Some true else row_changed t1 t2 (i + 1) n
  end.

(** [memmove] of [n] rows in a buffer, from row [src] to row [dst], and [memset] of rows to 0. *)
Definition move_rows (buf : rows) (dst src n : Z) : option rows :=
  if (0 <=? src) && (0 <=? n) && (src + n <=? Z.of_nat (length buf))
  then store buf dst (take (Z.to_nat n) (drop (Z.to_nat src) buf)) else None.
Definition clear_rows (buf : rows) (i n : Z) : option rows :=
  if 0 <=? n then store buf i (repeat row0 (Z.to_nat n)) else None.

(** [ch->buffer[b]] and an assignment to it. *)
Definition put_rows (b : Z) (buf : rows) (ch : channel) : option channel :=
  bufs ← wr (buffer ch) b buf; Some (set_buffer bufs ch).

(** The scrolling in [carriage_return]. *)
Definition roll_rows (b row window : Z) (ch : channel) : option channel :=
  let first_row := row + 1 - window in
  buf ← rd (buffer ch) b;
  buf ← move_rows buf first_row (first_row + 1) (window - 1);
  ch ← put_rows b buf ch;
  d ← rd (dirty ch) b;
  ch ← put_dirty b (d ≫ 1) ch;
  buf ← rd (buffer ch) b;
  buf ← clear_rows buf row 1;
  put_rows b buf ch.

(** [resize_window] after the tests: the rows above the new window are erased. *)
Definition shrink_window (b row1 old_rows new_rows : Z) (ch : channel) : option channel :=
  buf ← rd (buffer ch) b;
  buf ← clear_rows buf (row1 - old_rows) (old_rows - new_rows);
  ch ← put_rows b buf ch;
  d ← rd (dirty ch) b;
  put_dirty b (d .& (-1) ≪ (row1 - new_rows)) ch.

(** [move_window] after the tests, in rows instead of bytes. *)
Definition shift_window (b new_base_row : Z) (ch : channel) : option channel :=
  buf ← rd (buffer ch) b;
  d ← rd (dirty ch) b;
  let old_max_rows := curr_row ch + 1 - FIRST_ROW in
  let new_max_rows := new_base_row + 1 - FIRST_ROW in
  let copy := Z.min (Z.min old_max_rows new_max_rows) (window_rows ch) in
  if new_base_row <? curr_row ch then
    let erase_begin := new_base_row + 1 in
    let erase_end := curr_row ch + 1 in
    buf ← move_rows buf (erase_begin - copy) (erase_end - copy) copy;
    ch ← put_dirty b (d ≫ (curr_row ch - new_base_row)) ch;
    buf ← clear_rows buf erase_begin (erase_end - erase_begin);
    put_rows b buf ch
  else
    let erase_begin := curr_row ch + 1 - copy in
    let erase_end := new_base_row + 1 - copy in
    buf ← move_rows buf erase_end erase_begin copy;
    ch ← put_dirty b (u32 (d ≪ (new_base_row - curr_row ch)) .& ALL_ROWS_MASK) ch;
    buf ← clear_rows buf erase_begin (erase_end - erase_begin);
    put_rows b buf ch.

(** [delete_to_end_of_row] and [backspace] after the tests. *)
Definition erase_row_end (b row column : Z) (ch : channel) : option channel :=
  text ← row_of ch b row;
  text ← store text column (repeat 0 (Z.to_nat (LAST_COLUMN - column + 1)));
  ch ← put_row b row text ch;
  c ← or_cells text FIRST_COLUMN (Z.to_nat (column - FIRST_COLUMN)) 0;
  clean_row b row c ch.

Definition erase_cell (b row column : Z) (ch : channel) : option channel :=
  text ← row_of ch b row;
  text ← wr text column 0;
  ch ← put_row b row text ch;
  c ← or_cells text FIRST_COLUMN 32 0;
  clean_row b row c ch.

(** ** The state of the decoder and its client *)

Section client.
Context {X : Type} (send : decoder → event → X → X).

Definition st : Type := decoder * X.
Definition M (A : Type) : Type := st → option (A * st).

#[global] Instance M_ret : MRet M := λ A a s, Some (a, s).
#[global] Instance M_bind : MBind M := λ A B f m s, '(a, s) ← m s; f a s.

Definition lift {A} (o : option A) : M A := λ s, a ← o; Some (a, s).
Definition get_ch (i : Z) : M channel := λ s, ch ← rd (channels s.1) i; Some (ch, s).
Definition put_ch (i : Z) (ch : channel) : M unit :=
  λ s, l ← wr (channels s.1) i ch; Some (tt, (set_channels l s.1, s.2)).
Definition get_curr (f : Z) : M Z := λ s, n ← rd (curr_ch_num s.1) f; Some (n, s).
Definition put_curr (f n : Z) : M unit :=
  λ s, l ← wr (curr_ch_num s.1) f n; Some (tt, (set_curr l s.1, s.2)).
Definition now : M timestamp := λ s, Some (cd_timestamp s.1, s).
Definition pending : M (option Z) := λ s, Some (event_pending s.1, s).
Definition put_pending (p : option Z) : M unit := λ s, Some (tt, (set_pending p s.1, s.2)).
(** [_vbi_event_handler_list_send (&cd->handlers, &ev)] *)
Definition send_event (ev : event) : M unit := λ s, Some (tt, (s.1, send s.1 ev s.2)).

(** Changes a channel. *)
Definition upd_ch (i : Z) (f : channel → option channel) : M unit :=
  ch ← get_ch i; ch ← lift (f ch); put_ch i ch.
Definition set_ch (i : Z) (f : channel → channel) : M unit := upd_ch i (λ ch, Some (f ch)).

(** ** Events *)

Definition display_event (i flags : Z) : M unit :=
  ch ← get_ch i; send_event (CC608 (i + 1) (ch_mode ch) flags).

Fixpoint stream_loop (i : Z) (ch : channel) (to_upper : bool) (row : Z) (n : nat) : M unit :=
  match n with
  | O => mret tt
  | S n =>
      text ← lift (format_row 32 ch (displayed_buffer ch) row to_upper false false);
      _ ← (if forallb (λ c, opacity c =? VBI_TRANSPARENT_SPACE) text then mret tt
           else send_event (CC608_STREAM (sys (timestamp_c0 ch)) (pts (timestamp_c0 ch)) (i + 1) (ch_mode ch) text));
      stream_loop i ch to_upper (row + 1) n
  end.

Definition stream_event (i first_row last_row : Z) : M unit :=
  ch ← get_ch i;
  _ ← stream_loop i ch (3 <? uppercase_predictor ch) first_row (Z.to_nat (last_row - first_row + 1));
  set_ch i (set_c0 timestamp_reset).

(** [if (0 != (ch->dirty[b] & (1 << row))) stream_event (cd, ch, row, row)] *)
Definition stream_row_if_dirty (i row : Z) : M unit :=
  ch ← get_ch i;
  d ← lift (row_dirty ch (displayed_buffer ch) row);
  if d : bool then stream_event i row row else mret tt.

Definition stream_event_if_changed (i : Z) : M unit :=
  ch ← get_ch i;
  let b := displayed_buffer ch in
  let row := curr_row ch in
  d ← lift (row_dirty ch b row);
  if negb d then mret tt else
  t1 ← lift (row_of ch b row);
  t2 ← lift (row_of ch 2 row);
  changed ← lift (row_changed t1 t2 FIRST_COLUMN 32);
  if changed : bool then
    _ ← stream_event i row row;
    upd_ch i (λ ch,
      t1 ← row_of ch b row;
      ch ← put_row 2 row t1 ch;
      d ← rd (dirty ch) b;
      put_dirty 2 d ch)
  else mret tt.

(** ** Characters and control codes *)

Definition put_char (i c : Z) (displayable backspace : bool) : M unit :=
  t ← now;
  _ ← upd_ch i (put_char_ch t c displayable backspace);
  ch ← get_ch i;
  if decide (ch_mode ch = MODE_POP_ON) then mret tt else put_pending (Some i).

Definition ext_control_code (i c2 : Z) : M unit :=
  if (0x21 <=? c2) && (c2 <=? 0x23) then set_ch i (tab_offset c2)
  else if (0x2D <=? c2) && (c2 <=? 0x2F) then put_char i (0x1700 .| c2) false true
  else mret tt.

Definition end_of_caption (i : Z) : M unit :=
  ch ← get_ch i;
  let b := displayed_buffer ch in
  match ch_mode ch with
  | MODE_TEXT => mret tt
  | m =>
      _ ← (match m with
           | MODE_ROLL_UP => stream_row_if_dirty i (curr_row ch)
           | MODE_PAINT_ON => stream_event_if_changed i
           | _ => mret tt end);
      let b := b .^ 1 in
      _ ← set_ch i (λ ch, set_mode MODE_POP_ON (set_displayed b ch));
      ch ← get_ch i;
      d ← lift (rd (dirty ch) b);
      if d =? 0 then mret tt else
      t ← now;
      _ ← set_ch i (set_c0 t);
      _ ← stream_event i FIRST_ROW LAST_ROW;
      display_event i 0
  end.

(** The end of [carriage_return]. *)
Definition scroll (i row window : Z) : M unit :=
  _ ← stream_row_if_dirty i row;
  ch ← get_ch i;
  _ ← upd_ch i (roll_rows (displayed_buffer ch) row window);
  display_event i START_ROLLING.

Definition carriage_return (i : Z) : M unit :=
  ch ← get_ch i;
  let b := displayed_buffer ch in
  let row := curr_row ch in
  match ch_mode ch with
  | MODE_UNKNOWN | MODE_POP_ON | MODE_PAINT_ON => mret tt
  | MODE_ROLL_UP =>
      _ ← set_ch i (λ ch, set_pac 0 (set_column FIRST_COLUMN ch));
      d ← lift (rd (dirty ch) b);
      if d =? 0 then mret tt else scroll i row (Z.min (row + 1 - FIRST_ROW) (window_rows ch))
  | MODE_TEXT =>
      _ ← set_ch i (λ ch, set_pac 0 (set_column FIRST_COLUMN ch));
      if negb (row =? LAST_ROW) then
        _ ← stream_row_if_dirty i row;
        set_ch i (set_row (row + 1))
      else
        d ← lift (rd (dirty ch) b);
        if d =? 0 then mret tt else scroll i row MAX_ROWS
  end.

Definition erase_memory (i b : Z) : M unit :=
  ch ← get_ch i;
  d ← lift (rd (dirty ch) b);
  if d =? 0 then mret tt else
  _ ← upd_ch i (λ ch, ch ← put_rows b rows0 ch; put_dirty b 0 ch);
  if b =? displayed_buffer ch then display_event i 0 else mret tt.

Definition erase_displayed_memory (i : Z) : M unit :=
  ch ← get_ch i;
  match ch_mode ch with
  | MODE_TEXT => mret tt
  | m =>
      _ ← (match m with
           | MODE_ROLL_UP => stream_row_if_dirty i (curr_row ch)
           | MODE_PAINT_ON => stream_event_if_changed i
           | _ => mret tt end);
      erase_memory i (displayed_buffer ch)
  end.

Definition text_restart (i : Z) : M unit :=
  ch ← get_ch i;
  _ ← stream_row_if_dirty i (curr_row ch);
  _ ← erase_memory i (displayed_buffer ch);
  set_ch i (λ ch, set_column FIRST_COLUMN (set_row FIRST_ROW ch)).

Definition resume_direct_captioning (i : Z) : M unit :=
  ch ← get_ch i;
  match ch_mode ch with
  | MODE_TEXT => mret tt
  | m =>
      _ ← (if decide (m = MODE_ROLL_UP) then stream_row_if_dirty i (curr_row ch) else mret tt);
      _ ← (if decide (m = MODE_PAINT_ON) then mret tt
           else upd_ch i (λ ch, buf ← rd (buffer ch) (displayed_buffer ch); put_rows 2 buf ch));
      set_ch i (set_mode MODE_PAINT_ON)
  end.

Definition resize_window (i new_rows : Z) : M unit :=
  ch ← get_ch i;
  let b := displayed_buffer ch in
  d ← lift (rd (dirty ch) b);
  if d =? 0 then mret tt else
  let row1 := curr_row ch + 1 in
  let max_rows := row1 - FIRST_ROW in
  let old_rows := Z.min (window_rows ch) max_rows in
  let new_rows := Z.min new_rows max_rows in
  if (new_rows =? 0) || (old_rows <=? new_rows) then mret tt else
  _ ← upd_ch i (shrink_window b row1 old_rows new_rows);
  display_event i 0.

Definition roll_up_caption (i c2 : Z) : M unit :=
  let window_rows := (c2 .& 7) - 3 in
  ch ← get_ch i;
  let enter := set_ch i (λ ch, set_window window_rows (set_mode MODE_ROLL_UP ch)) in
  match ch_mode ch with
  | MODE_TEXT => mret tt
  | MODE_ROLL_UP => _ ← resize_window i window_rows; enter
  | MODE_UNKNOWN => enter
  | m =>
      _ ← (if decide (m = MODE_PAINT_ON) then stream_event_if_changed i else mret tt);
      _ ← enter;
      _ ← set_ch i (λ ch, set_column FIRST_COLUMN (set_row LAST_ROW ch));
      _ ← erase_memory i (displayed_buffer ch);
      erase_memory i (displayed_buffer ch .^ 1)
  end.

Definition delete_to_end_of_row (i : Z) : M unit :=
  ch ← get_ch i;
  let b := write_buffer ch in
  let row := curr_row ch in
  d ← lift (row_dirty ch b row);
  if negb d then mret tt else
  _ ← upd_ch i (erase_row_end b row (curr_column ch));
  display_event i 0.

Definition backspace (i : Z) : M unit :=
  ch ← get_ch i;
  let column := curr_column ch in
  if column <=? FIRST_COLUMN then mret tt else
  let column := column - 1 in
  _ ← set_ch i (set_column column);
  let b := write_buffer ch in
  let row := curr_row ch in
  text ← lift (row_of ch b row);
  x ← lift (rd text column);
  if x =? 0 then mret tt else
  _ ← upd_ch i (erase_cell b row column);
  display_event i 0.

Definition resume_caption_loading (i : Z) : M unit :=
  ch ← get_ch i;
  match ch_mode ch with
  | MODE_TEXT => mret tt
  | m =>
      _ ← (match m with
           | MODE_ROLL_UP => stream_row_if_dirty i (curr_row ch)
           | MODE_PAINT_ON => stream_event_if_changed i
           | _ => mret tt end);
      set_ch i (set_mode MODE_POP_ON)
  end.

(** [switch_channel]; returns the index of the new channel. *)
Definition switch_channel (new_ch_num f : Z) : M Z :=
  _ ← put_curr f new_ch_num; mret (new_ch_num - VBI_CAPTION_CC1).

(** [if (UNKNOWN_CHANNEL == cd->curr_ch_num[f] || MODE_UNKNOWN == ch->mode) break] *)
Definition when_known (f i : Z) (m : M unit) : M unit :=
  n ← get_curr f;
  ch ← get_ch i;
  if (n =? UNKNOWN_CHANNEL) || bool_decide (ch_mode ch = MODE_UNKNOWN) then mret tt else m.

Definition misc_control_code (i c2 ch_num0 f : Z) : M unit :=
  let caption_channel := VBI_CAPTION_CC1 + (ch_num0 .& 3) in
  let text_channel := VBI_CAPTION_T1 + (ch_num0 .& 3) in
  let code := c2 .& 15 in
  if code =? 0 then i ← switch_channel caption_channel f; resume_caption_loading i
  else if code =? 1 then when_known f i (backspace i)
  else if (code =? 2) || (code =? 3) then mret tt
  else if code =? 4 then when_known f i (delete_to_end_of_row i)
  else if (code =? 5) || (code =? 6) || (code =? 7) then
    i ← switch_channel caption_channel f; roll_up_caption i c2
  else if code =? 8 then when_known f i (put_char i 0x1428 false false)
  else if code =? 9 then i ← switch_channel caption_channel f; resume_direct_captioning i
  else if code =? 10 then i ← switch_channel text_channel f; text_restart i
  else if code =? 11 then _ ← switch_channel text_channel f; mret tt
  else if code =? 12 then erase_displayed_memory (ch_num0 .& 3)
  else if code =? 13 then
    n ← get_curr f; if n =? UNKNOWN_CHANNEL then mret tt else carriage_return i
  else if code =? 14 then
    ch ← get_ch (ch_num0 .& 3); erase_memory (ch_num0 .& 3) (displayed_buffer ch .^ 1)
  else i ← switch_channel caption_channel f; end_of_caption i.

Definition pac_row_map : list Z := [10; -1; 0; 1; 2; 3; 11; 12; 13; 14; 4; 5; 6; 7; 8; 9].

Definition move_window (i new_base_row : Z) : M unit :=
  ch ← get_ch i;
  let b := displayed_buffer ch in
  d ← lift (rd (dirty ch) b);
  if (new_base_row =? curr_row ch) || (d =? 0) then mret tt else
  _ ← upd_ch i (shift_window b new_base_row);
  display_event i 0.

(** The end of [preamble_address_code]: column and attributes. *)
Definition pac_column (c2 : Z) (ch : channel) : channel :=
  let ch := if has c2 0x10 then set_column (FIRST_COLUMN + (c2 .& 0x0E) * 2) ch else ch in
  set_pac (0x1000 .| c2) ch.

Definition preamble_address_code (i c1 c2 : Z) : M unit :=
  let row := pac_row_map.[(c1 .& 7) * 2 + (c2 ≫ 5 .& 1)] in
  if row <? 0 then mret tt else
  ch ← get_ch i;
  match ch_mode ch with
  | MODE_UNKNOWN => mret tt
  | m =>
      _ ← (match m with
           | MODE_ROLL_UP =>
               let row := if row + 1 <? window_rows ch then window_rows ch - 1 else row in
               _ ← move_window i row;
               set_ch i (set_row row)
           | MODE_PAINT_ON => _ ← stream_event_if_changed i; set_ch i (set_row row)
           | MODE_POP_ON => set_ch i (set_row row)
           | _ => mret tt end);
      set_ch i (pac_column c2)
  end.

Definition control_code (c1 c2 f : Z) : M unit :=
  n ← get_curr f;
  let ch_num0 := ((n - VBI_CAPTION_CC1) .& 4) + f * 2 + (c1 ≫ 3 .& 1) in
  let i := ch_num0 in
  if 0x40 <=? c2 then
    if negb (n =? UNKNOWN_CHANNEL) then preamble_address_code i c1 c2 else mret tt
  else
  let a := c1 .& 7 in
  if a =? 0 then
    when_known f i (if c2 <? 0x30 then put_char i (0x1000 .| c2) false true else mret tt)
  else if a =? 1 then
    when_known f i
      (if c2 <? 0x30 then put_char i (0x1100 .| c2) false false
       else if c2 =? 0x39 then put_char i 0 false false
       else put_char i (0x1100 .| c2) true false)
  else if (a =? 2) || (a =? 3) then
    when_known f i (put_char i ((c1 * 256 + c2) .& 0x777F) true true)
  else if (a =? 4) || (a =? 5) then
    if c2 <? 0x30 then misc_control_code i c2 ch_num0 f else mret tt
  else if a =? 6 then mret tt
  else when_known f i (ext_control_code i c2).

Definition characters (i c : Z) : M bool :=
  ch ← get_ch i;
  let known := negb (bool_decide (ch_mode ch = MODE_UNKNOWN)) in
  if c =? 0 then mret true
  else if c <? 0x20 then
    _ ← (if (c <? 0) && known then put_char i 0x7F true false else mret tt);
    mret false
  else
    _ ← (if known then put_char i c true false else mret tt);
    mret true.

(** ** Feeding *)

Definition put_expect (f : Z) (c : Z * Z) : M unit :=
  λ s, l ← wr (expect_ctrl s.1) f c; Some (tt, (set_expect l s.1, s.2)).
Definition get_expect (f : Z) : M (Z * Z) := λ s, c ← rd (expect_ctrl s.1) f; Some (c, s).
Definition put_in_xds (f : Z) (b : bool) : M unit :=
  λ s, l ← wr (in_xds s.1) f b; Some (tt, (set_xds l s.1, s.2)).
(** [cd->expect_ctrl[f][0] = -1] *)
Definition no_repeat (f : Z) : M unit := e ← get_expect f; put_expect f (-1, e.2).

Definition send_pending : M unit :=
  p ← pending;
  match p with
  | Some i => _ ← display_event i 0; put_pending None
  | None => mret tt
  end.

(** [cd->error_history = cd->error_history * 2 + bit] *)
Definition add_history (bit : bool) : M unit :=
  λ s, Some (tt, (set_history (u32 (error_history s.1 * 2 + Z.b2z bit)) s.1, s.2)).

(** The labels [finish] and [parity_error]. *)
Definition finish (all_successful : bool) : M bool := _ ← add_history all_successful; mret all_successful.
Definition parity_error (f : Z) : M bool := _ ← no_repeat f; _ ← add_history false; mret false.

(** The two characters of a pair. *)
Definition text_pair (f c1 c2 : Z) : M bool :=
  ch_num ← get_curr f;
  if ch_num =? UNKNOWN_CHANNEL then finish true else
  let i := ((ch_num - VBI_CAPTION_CC1) .& 5) + f * 2 in
  r1 ← characters i c1;
  r2 ← characters i c2;
  _ ← send_pending;
  finish (r1 && r2).

(** A byte pair with its parity checked, negative bytes are errors, on field [f]. *)
Definition feed_pair (f c1 c2 : Z) : M bool :=
  e ← get_expect f;
  if c1 <? 0 then parity_error f
  else if (c1 =? e.1) && (c2 =? e.2) then _ ← no_repeat f; finish true
  else if (0x10 <=? c1) && (c1 <? 0x20) then
    _ ← put_in_xds f false;
    if c2 <? 0x20 then parity_error f else
    _ ← control_code c1 c2 f;
    _ ← send_pending;
    _ ← put_expect f (c1, c2);
    finish true
  else
    _ ← no_repeat f;
    if c1 <? 0x10 then
      if f =? 0 then text_pair f 0 c2
      else if c1 =? 0x0F then _ ← put_in_xds 1 false; finish true
      else if 0x01 <=? c1 then _ ← put_in_xds 1 true; finish true
      else text_pair f c1 c2
    else text_pair f c1 c2.

(** [(int64_t)(capture_time * 90000)]; [None] when the product is not in the range of [int64_t]. *)
Definition d_90000 : double := S754_finite false (90000 * 2 ^ 36) (-36).
Definition pts_of_time (capture_time : double) : option Z :=
  int64_of_double (SFmul 53 1024 capture_time d_90000).

Definition put_timestamp (ts : timestamp) : M unit := λ s, Some (tt, (set_timestamp ts s.1, s.2)).

Definition _vbi_cc608_decoder_feed (buffer : list Z) (line : Z) (capture_time : double) (pts : Z) : M bool :=
  if negb ((line =? 21) || (line =? 22) || (line =? 284)) then mret false else
  let f := if line =? 284 then 1 else 0 in
  pts ← lift (if pts <? 0 then pts_of_time capture_time else Some pts);
  _ ← put_timestamp (Timestamp capture_time (pts .& ((1 ≪ 33) - 1)));
  b0 ← lift (rd buffer 0);
  b1 ← lift (rd buffer 1);
  feed_pair f (vbi_unpar8 b0) (vbi_unpar8 b1).

Fixpoint _vbi_cc608_decoder_feed_frame (sliced : list vbi_sliced) (capture_time : double) (pts : Z) : M bool :=
  match sliced with
  | [] => mret true
  | s :: sliced =>
      if negb (id s .& VBI_SLICED_CAPTION_525 =? 0) then
        ok ← _vbi_cc608_decoder_feed (data s) (line s) capture_time pts;
        if negb ok then mret false else _vbi_cc608_decoder_feed_frame sliced capture_time pts
      else _vbi_cc608_decoder_feed_frame sliced capture_time pts
  end.

End client.
