(* ===== verification/Cc608Rows.v ===== *)
(** The channels of the caption decoder: the invariant of a channel, and that writing,
    erasing and moving rows keeps it. Whatever is received, the cells hold what [format_row]
    accepts, cursor and window stay on the screen, and the row flags cover all rows that
    show something. *)
From S2P Require Import Prelude Double Format Lang Hamm Sliced Event Cc608Format Cc608.

(** ** Arrays, element by element *)

Lemma rd_lookup {A} (l : list A) i : 0 ≤ i → rd l i = l !! Z.to_nat i.
Proof. intros. unfold rd. by rewrite decide_True. Qed.

Lemma rd_wr {A} (l : list A) i x : 0 ≤ i < Z.of_nat (length l) →
  ∃ l', wr l i x = Some l' ∧ length l' = length l ∧ ∀ j, rd l' j = if decide (j = i) then Some x else rd l j.
Proof.
  intros Hi. unfold wr. rewrite decide_True by done. eexists. split; [done|].
  split; [by rewrite length_insert|]. intros j. destruct (decide (j = i)) as [->|Hj].
  - rewrite rd_lookup, list_lookup_insert_eq by lia. done.
  - unfold rd. case_decide; [|done]. rewrite list_lookup_insert_ne by lia. done.
Qed.

Lemma rd_store {A} (l xs : list A) i : 0 ≤ i → i + Z.of_nat (length xs) ≤ Z.of_nat (length l) →
  ∃ l', store l i xs = Some l' ∧ length l' = length l ∧
    ∀ j, rd l' j = if decide (i ≤ j < i + Z.of_nat (length xs)) then rd xs (j - i) else rd l j.
Proof.
  intros Hi Hl. unfold store. rewrite decide_True by lia. eexists. split; [done|].
  split; [rewrite !length_app, length_take, length_drop; lia|].
  intros j. case_decide.
  - rewrite !rd_lookup by lia. rewrite lookup_app_r, length_take by (rewrite length_take; lia).
    rewrite lookup_app_l by lia. f_equal. lia.
  - unfold rd. case_decide; [|done]. destruct (decide (j < i)).
    + rewrite lookup_app_l by (rewrite length_take; lia). rewrite lookup_take_lt by lia. done.
    + rewrite !lookup_app_r by (rewrite ?length_take; lia). rewrite lookup_drop, length_take. f_equal. lia.
Qed.

Lemma rd_move_rows (buf : rows) dst src n :
  0 ≤ src → 0 ≤ dst → 0 ≤ n → src + n ≤ Z.of_nat (length buf) → dst + n ≤ Z.of_nat (length buf) →
  ∃ buf', move_rows buf dst src n = Some buf' ∧ length buf' = length buf ∧
    ∀ r, rd buf' r = if decide (dst ≤ r < dst + n) then rd buf (r - dst + src) else rd buf r.
Proof.
  intros. unfold move_rows. rewrite !(proj2 (Z.leb_le _ _)) by lia. cbn [andb].
  edestruct (rd_store buf (take (Z.to_nat n) (drop (Z.to_nat src) buf)) dst) as (l' & E & El & Hr); [lia|list_lia|].
  exists l'. split; [done|]. split; [done|]. intros r. rewrite Hr.
  replace (Z.of_nat (length (take (Z.to_nat n) (drop (Z.to_nat src) buf)))) with n by list_lia.
  case_decide; [|done]. rewrite rd_take, rd_drop by lia. f_equal. lia.
Qed.

Lemma lookup_repeat {A} (x : A) n i : (i < n)%nat → repeat x n !! i = Some x.
Proof. revert i. induction n as [|n IH]; intros [|i] Hi; cbn; try done; try lia. apply IH. lia. Qed.

Lemma rd_clear_rows (buf : rows) i n :
  0 ≤ i → 0 ≤ n → i + n ≤ Z.of_nat (length buf) →
  ∃ buf', clear_rows buf i n = Some buf' ∧ length buf' = length buf ∧
    ∀ r, rd buf' r = if decide (i ≤ r < i + n) then Some row0 else rd buf r.
Proof.
  intros. unfold clear_rows. rewrite (proj2 (Z.leb_le _ _)) by lia.
  edestruct (rd_store buf (repeat row0 (Z.to_nat n)) i) as (l' & E & El & Hr); [lia|rewrite repeat_length; lia|].
  exists l'. split; [done|]. split; [done|]. intros r. rewrite Hr, repeat_length.
  replace (i + Z.of_nat (Z.to_nat n)) with (i + n) by lia. case_decide; [|done].
  rewrite rd_lookup by lia. apply lookup_repeat. lia.
Qed.

(** ** Well-formed channels *)

Definition rows_ok (buf : rows) : Prop := length buf = 15%nat ∧ ∀ r text, rd buf r = Some text → text_ok text.

(** The flags of a buffer cover its rows. *)
Definition covers (d : Z) (buf : rows) : Prop :=
  0 ≤ d < 2 ^ 15 ∧ ∀ r text, rd buf r = Some text → Z.testbit d r = false → blank text.

(** Rows outside of [first, last] show nothing. *)
Definition confined (first last : Z) (buf : rows) : Prop :=
  ∀ r text, rd buf r = Some text → ¬ (first ≤ r ≤ last) → blank text.

Definition bufs_ok (ch : channel) : Prop :=
  length (buffer ch) = 3%nat ∧ length (dirty ch) = 3%nat ∧
  ∀ b, 0 ≤ b < 3 → ∃ buf d, rd (buffer ch) b = Some buf ∧ rd (dirty ch) b = Some d ∧ rows_ok buf ∧
    (if decide (b < 2) then covers d buf else 0 ≤ d < 2 ^ 15).

Record core_ok (i : Z) (ch : channel) : Prop := CoreOk {
  ok_bufs : bufs_ok ch;
  ok_displayed : displayed_buffer ch = 0 ∨ displayed_buffer ch = 1;
  ok_row : 0 ≤ curr_row ch ≤ 14;
  ok_column : 1 ≤ curr_column ch ≤ 32;
  ok_pac : is_blank_cell (last_pac ch) = true;
  ok_upper : 0 ≤ uppercase_predictor ch < 2 ^ 32;
  ok_text : ch_mode ch = MODE_TEXT ↔ 4 ≤ i
}.

(** In roll-up mode only the rows of the window show something, and nothing before the mode is known. *)
Record ch_ok (i : Z) (ch : channel) : Prop := ChOk {
  ok_core :> core_ok i ch;
  ok_roll : ch_mode ch = MODE_ROLL_UP → 2 ≤ window_rows ch ≤ 4 ∧
    ∀ buf, rd (buffer ch) (displayed_buffer ch) = Some buf →
      confined (curr_row ch + 1 - window_rows ch) (curr_row ch) buf;
  ok_unknown : ch_mode ch = MODE_UNKNOWN →
    ∀ buf, rd (buffer ch) (displayed_buffer ch) = Some buf → confined 1 0 buf
}.

(** ** Changes of a buffer *)

(** [ch'] is [ch] with another buffer [b] and flags [d] for it. *)
Definition buf_upd (b : Z) (buf : rows) (d : Z) (ch ch' : channel) : Prop :=
  ∃ bufs ds, ch' = set_dirty ds (set_buffer bufs ch) ∧ length bufs = 3%nat ∧ length ds = 3%nat ∧
    (∀ j, rd bufs j = if decide (j = b) then Some buf else rd (buffer ch) j) ∧
    (∀ j, rd ds j = if decide (j = b) then Some d else rd (dirty ch) j).

Lemma put_rows_upd b buf d ch :
  length (buffer ch) = 3%nat → length (dirty ch) = 3%nat → rd (dirty ch) b = Some d →
  ∃ ch', put_rows b buf ch = Some ch' ∧ buf_upd b buf d ch ch'.
Proof.
  intros Hb Hd Hr. pose proof (rd_Some _ _ _ Hr) as Hi. unfold put_rows.
  destruct (rd_wr (buffer ch) b buf) as (bufs & E & El & Hj); [lia|]. rewrite E. cbn [mbind option_bind].
  eexists. split; [done|]. exists bufs, (dirty ch). split_and!; try done; [congruence|].
  intros j. case_decide; [by subst|done].
Qed.

Lemma put_dirty_upd b buf d ch :
  length (buffer ch) = 3%nat → length (dirty ch) = 3%nat → rd (buffer ch) b = Some buf →
  ∃ ch', put_dirty b d ch = Some ch' ∧ buf_upd b buf d ch ch'.
Proof.
  intros Hb Hd Hr. pose proof (rd_Some _ _ _ Hr) as Hi. unfold put_dirty.
  destruct (rd_wr (dirty ch) b d) as (ds & E & El & Hj); [lia|]. rewrite E. cbn [mbind option_bind].
  eexists. split; [done|]. exists (buffer ch), ds. split_and!; try done; [congruence|].
  intros j. case_decide; [by subst|done].
Qed.

Lemma put_row_upd b buf d ch row text :
  length (buffer ch) = 3%nat → length (dirty ch) = 3%nat → rd (buffer ch) b = Some buf → rd (dirty ch) b = Some d →
  0 ≤ row < Z.of_nat (length buf) →
  ∃ ch' buf', put_row b row text ch = Some ch' ∧ buf_upd b buf' d ch ch' ∧ length buf' = length buf ∧
    ∀ r, rd buf' r = if decide (r = row) then Some text else rd buf r.
Proof.
  intros Hb Hd Hr Hrd Hrow. unfold put_row. rewrite Hr. cbn [mbind option_bind].
  destruct (rd_wr buf row text Hrow) as (buf' & -> & El & Hj). cbn [mbind option_bind].
  destruct (put_rows_upd b buf' d ch Hb Hd Hrd) as (ch' & E & Hu). unfold put_rows in E. rewrite E.
  exists ch', buf'. done.
Qed.

Lemma buf_upd_trans b buf d buf' d' ch ch' ch'' :
  buf_upd b buf d ch ch' → buf_upd b buf' d' ch' ch'' → buf_upd b buf' d' ch ch''.
Proof.
  intros (b1 & d1 & -> & ? & ? & H1 & H2) (b2 & d2 & -> & ? & ? & H3 & H4). exists b2, d2.
  split_and!; try done; intros j; rewrite ?H3, ?H4; cbn; rewrite ?H1, ?H2; by case_decide.
Qed.

Lemma buf_upd_shape b buf d ch ch' : buf_upd b buf d ch ch' → 0 ≤ b < 3 →
  length (buffer ch') = 3%nat ∧ length (dirty ch') = 3%nat ∧ rd (buffer ch') b = Some buf ∧ rd (dirty ch') b = Some d ∧
  (∀ j, j ≠ b → rd (buffer ch') j = rd (buffer ch) j ∧ rd (dirty ch') j = rd (dirty ch) j).
Proof.
  intros (bufs & ds & -> & ? & ? & H1 & H2) Hb. cbn [buffer dirty set_dirty set_buffer]. split_and!; try done.
  - by rewrite H1, decide_True.
  - by rewrite H2, decide_True.
  - intros j Hj. by rewrite H1, H2, !decide_False.
Qed.

(** The control fields. *)
Definition same_control (ch ch' : channel) : Prop :=
  displayed_buffer ch' = displayed_buffer ch ∧ curr_row ch' = curr_row ch ∧ curr_column ch' = curr_column ch ∧
  window_rows ch' = window_rows ch ∧ last_pac ch' = last_pac ch ∧ uppercase_predictor ch' = uppercase_predictor ch ∧
  ch_mode ch' = ch_mode ch.

Lemma buf_upd_control b buf d ch ch' : buf_upd b buf d ch ch' → same_control ch ch'.
Proof. by intros (bufs & ds & -> & _). Qed.

Lemma bufs_ok_upd b buf d ch ch' :
  buf_upd b buf d ch ch' → 0 ≤ b < 3 → bufs_ok ch → rows_ok buf → (if decide (b < 2) then covers d buf else 0 ≤ d < 2 ^ 15) →
  bufs_ok ch'.
Proof.
  intros Hu Hb (Hl & Hd & H) Hr Hc. destruct (buf_upd_shape _ _ _ _ _ Hu Hb) as (? & ? & ? & ? & Hj).
  split_and!; try done. intros j Hj3. destruct (decide (j = b)) as [->|Hne]; [by exists buf, d|].
  destruct (Hj j Hne) as [-> ->]. by apply H.
Qed.

(** A change of one buffer keeps the invariant of the channel. *)
Lemma core_ok_upd i b buf d ch ch' :
  core_ok i ch → buf_upd b buf d ch ch' → 0 ≤ b < 3 → rows_ok buf →
  (if decide (b < 2) then covers d buf else 0 ≤ d < 2 ^ 15) → core_ok i ch'.
Proof.
  intros [H1 H2 H3 H4 H5 H6 H7] Hu Hb Hr Hc.
  pose proof (bufs_ok_upd _ _ _ _ _ Hu Hb H1 Hr Hc) as Hbo.
  destruct (buf_upd_control _ _ _ _ _ Hu) as (E1 & E2 & E3 & E4 & E5 & E6 & E7).
  by split; rewrite ?E1, ?E2, ?E3, ?E4, ?E5, ?E6, ?E7.
Qed.

Lemma ch_ok_upd i b buf d ch ch' :
  ch_ok i ch → buf_upd b buf d ch ch' → 0 ≤ b < 3 → rows_ok buf →
  (if decide (b < 2) then covers d buf else 0 ≤ d < 2 ^ 15) →
  (b = displayed_buffer ch → ch_mode ch = MODE_ROLL_UP →
     confined (curr_row ch + 1 - window_rows ch) (curr_row ch) buf) →
  (b = displayed_buffer ch → ch_mode ch = MODE_UNKNOWN → confined 1 0 buf) →
  ch_ok i ch'.
Proof.
  intros [H1 H8 H9] Hu Hb Hr Hc Hroll Hunk.
  pose proof (core_ok_upd _ _ _ _ _ _ H1 Hu Hb Hr Hc) as Hco.
  destruct (buf_upd_shape _ _ _ _ _ Hu Hb) as (? & ? & Hbuf & ? & Hj).
  destruct (buf_upd_control _ _ _ _ _ Hu) as (E1 & E2 & E3 & E4 & E5 & E6 & E7).
  split; rewrite ?E1, ?E2, ?E3, ?E4, ?E5, ?E6, ?E7; try done.
  - intros Hm. destruct (H8 Hm) as [Hw Hcf]. split; [done|]. intros buf' Hbuf'.
    destruct (decide (displayed_buffer ch = b)) as [<-|Hne]; [|apply Hcf; by rewrite <-(proj1 (Hj _ Hne))].
    rewrite Hbuf in Hbuf'. simplify_eq. by apply Hroll.
  - intros Hm buf' Hbuf'. destruct (decide (displayed_buffer ch = b)) as [<-|Hne].
    + rewrite Hbuf in Hbuf'. simplify_eq. by apply Hunk.
    + apply H9; [done|]. by rewrite <-(proj1 (Hj _ Hne)).
Qed.

(** ** Cells and flags *)

Lemma cell_nonneg c : cell_ok c = true → 0 ≤ c.
Proof.
  unfold cell_ok. rewrite !orb_true_iff. intros [[H|H]|H].
  - apply is_blank_cases in H. lia.
  - apply is_attr_cases in H. lia.
  - apply is_glyph_cases in H. lia.
Qed.

Lemma blank_cell_ok_cell c : is_blank_cell c = true → cell_ok c = true.
Proof. unfold cell_ok. by intros ->. Qed.

(** [text_ok] by positions. *)
Lemma text_ok_iff text : text_ok text ↔ length text = 33%nat ∧ (∀ c, rd text 0 = Some c → is_blank_cell c = true) ∧
  ∀ i c, rd text i = Some c → cell_ok c = true.
Proof.
  split.
  - intros (c0 & cells & -> & Hl & H0 & Hc). split_and!; [cbn; lia|by intros c [= <-]|].
    intros i c Hi. pose proof (rd_Some _ _ _ Hi). rewrite rd_lookup in Hi by lia.
    destruct (Z.to_nat i) as [|k]; cbn in Hi; [simplify_eq; by apply blank_cell_ok_cell|].
    exact (Forall_lookup_1 _ _ _ _ Hc Hi).
  - intros (Hl & H0 & Hc). destruct text as [|c0 cells]; [done|]. exists c0, cells.
    split_and!; [done|by injection Hl|by apply H0|]. apply Forall_lookup. intros k c Hk.
    apply (Hc (Z.of_nat (S k))). by rewrite rd_lookup, Nat2Z.id by lia.
Qed.

Lemma blank_iff text : blank text ↔ ∀ i c, 1 ≤ i → rd text i = Some c → c = 0.
Proof.
  unfold blank. destruct text as [|c0 cells].
  - split; [|by constructor]. intros _ i c _ Hi. apply rd_Some in Hi. cbn in Hi. lia.
  - cbn [tail]. rewrite Forall_lookup. split.
    + intros H i c Hi Hr. rewrite rd_lookup in Hr by lia. apply (H (Z.to_nat (i - 1))).
      replace (Z.to_nat i) with (S (Z.to_nat (i - 1))) in Hr by lia. done.
    + intros H k c Hk. apply (H (Z.of_nat (S k))); [lia|]. by rewrite rd_lookup, Nat2Z.id by lia.
Qed.

(** [or_cells] is 0 when all cells are. *)
Lemma or_cells_ok text : text_ok text → ∀ n i c, 0 ≤ c → 0 ≤ i → i + Z.of_nat n ≤ 33 →
  ∃ v, or_cells text i n c = Some v ∧ 0 ≤ v ∧
    (v = 0 ↔ c = 0 ∧ ∀ j x, i ≤ j < i + Z.of_nat n → rd text j = Some x → x = 0).
Proof.
  intros (Hl & _ & Hc)%text_ok_iff. induction n as [|n IH]; intros i c H0 Hi Hn; cbn [or_cells].
  - exists c. split_and!; [done|done|]. split; [intros ->; split; [done|]; intros; lia|by intros [-> _]].
  - destruct (rd_is_Some text i) as (x & Hx & _); [lia|]. rewrite Hx. cbn [mbind option_bind].
    pose proof (cell_nonneg x (Hc _ _ Hx)) as Hx0.
    destruct (IH (i + 1) (c .| x)) as (v & -> & Hv0 & Hv); [by apply Z.lor_nonneg|lia|lia|].
    exists v. split_and!; [done|done|]. rewrite Hv, Z.lor_eq_0_iff. split.
    + intros [[-> ->] H]. split; [done|]. intros j y Hj Hy. destruct (decide (j = i)) as [->|]; [congruence|].
      apply (H j y); [lia|done].
    + intros [-> H]. split; [split; [done|apply (H i x); [lia|done]]|]. intros j y Hj. apply H. lia.
Qed.

Lemma testbit_range d n : 0 ≤ n → 0 ≤ d → (∀ i, n ≤ i → Z.testbit d i = false) → 0 ≤ d < 2 ^ n.
Proof.
  intros Hn Hd H. split; [done|]. destruct (Z.eq_dec d 0) as [->|]; [by apply Z.pow_pos_nonneg|].
  apply Z.log2_lt_pow2; [lia|]. destruct (Z.lt_ge_cases (Z.log2 d) n) as [|Hge]; [done|].
  specialize (H _ Hge). rewrite Z.bit_log2 in H by lia. done.
Qed.

(** Setting the flag of a row, and clearing it when the row is empty. *)
Lemma testbit_pow2_shift row i : 0 ≤ row → 0 ≤ i → Z.testbit (1 ≪ row) i = bool_decide (i = row).
Proof.
  intros. rewrite Z.shiftl_1_l, Z.pow2_bits_eqb by done. destruct (Z.eqb_spec row i); by case_bool_decide.
Qed.

Lemma set_flag_range d row : 0 ≤ row < 15 → 0 ≤ d < 2 ^ 15 → 0 ≤ d .| 1 ≪ row < 2 ^ 15.
Proof.
  intros Hr Hd. apply lor_range; [done|done|]. rewrite Z.shiftl_1_l. split; [lia|]. apply Z.pow_lt_mono_r; lia.
Qed.

Lemma clean_flag_range d row c : 0 ≤ row < 15 → 0 ≤ d < 2 ^ 15 → 0 ≤ d .& Z.lnot (Z.b2z (c =? 0) ≪ row) < 2 ^ 15.
Proof. intros Hr Hd. by apply land_range_r. Qed.

Lemma testbit_clean d row c i : 0 ≤ row → 0 ≤ i →
  Z.testbit (d .& Z.lnot (Z.b2z (c =? 0) ≪ row)) i = Z.testbit d i && negb ((c =? 0) && bool_decide (i = row)).
Proof.
  intros. rewrite Z.land_spec, Z.lnot_spec by done. f_equal. f_equal. destruct (c =? 0); cbn [Z.b2z andb].
  - by apply testbit_pow2_shift.
  - by rewrite Z.shiftl_0_l, Z.bits_0.
Qed.

Lemma row_dirty_testbit ch b row d : rd (dirty ch) b = Some d → 0 ≤ row →
  row_dirty ch b row = Some (Z.testbit d row).
Proof.
  intros H Hr. unfold row_dirty. rewrite H. cbn [mbind option_bind].
  by rewrite Z.shiftl_1_l, land_pow2_eqb, negb_involutive by done.
Qed.

(** A buffer after one of its rows changed. *)
Definition row_set (row : Z) (text : list Z) (buf buf' : rows) : Prop :=
  length buf' = length buf ∧ ∀ r, rd buf' r = if decide (r = row) then Some text else rd buf r.

Lemma row_set_ok row text buf buf' : row_set row text buf buf' → rows_ok buf → text_ok text → rows_ok buf'.
Proof.
  intros [Hl Hr] [Hb Ht] Hok. split; [by rewrite Hl|]. intros r t. rewrite Hr. case_decide; [congruence|]. apply Ht.
Qed.

Lemma row_set_confined row text buf buf' a z :
  row_set row text buf buf' → confined a z buf → (¬ (a ≤ row ≤ z) → blank text) → confined a z buf'.
Proof.
  intros [_ Hr] Hc Hb r t. rewrite Hr. case_decide; [intros [= <-]; subst; done|]. apply Hc.
Qed.

Lemma row_set_covers row text buf buf' d d' :
  row_set row text buf buf' → covers d buf → 0 ≤ d' < 2 ^ 15 →
  (∀ r, r ≠ row → 0 ≤ r → Z.testbit d' r = false → Z.testbit d r = false) →
  (Z.testbit d' row = false → blank text) → covers d' buf'.
Proof.
  intros [_ Hr] [Hd Hc] Hd' Hne Hrow. split; [done|]. intros r t. rewrite Hr. case_decide as E.
  - intros [= <-]. subst. done.
  - intros Ht Hb. eapply Hc; [exact Ht|]. apply Hne; [done| |done]. apply rd_Some in Ht. lia.
Qed.

(** ** Control fields *)

Lemma ch_ok_column i x ch : ch_ok i ch → 1 ≤ x ≤ 32 → ch_ok i (set_column x ch).
Proof. intros [[] ? ?] ?. split; [by split|done|done]. Qed.
Lemma ch_ok_c0 i t ch : ch_ok i ch → ch_ok i (set_c0 t ch).
Proof. intros [[] ? ?]. split; [by split|done|done]. Qed.
Lemma ch_ok_upper i x ch : ch_ok i ch → 0 ≤ x < 2 ^ 32 → ch_ok i (set_upper x ch).
Proof. intros [[] ? ?] ?. split; [by split|done|done]. Qed.
Lemma ch_ok_pac i x ch : ch_ok i ch → is_blank_cell x = true → ch_ok i (set_pac x ch).
Proof. intros [[] ? ?] ?. split; [by split|done|done]. Qed.

Lemma ch_ok_predict i c ch : ch_ok i ch → ch_ok i (predict_upper c ch).
Proof.
  intros H. unfold predict_upper. case_match; [by apply ch_ok_upper|]. case_match; [|done].
  case_match; [|done]. apply ch_ok_upper; [done|]. apply u32_range.
Qed.

(** What the client sees. *)
Definition shown (ch : channel) : option rows := rd (buffer ch) (displayed_buffer ch).

Lemma write_buffer_cases i ch : core_ok i ch →
  (ch_mode ch = MODE_POP_ON ∧ (write_buffer ch = 0 ∨ write_buffer ch = 1) ∧ write_buffer ch ≠ displayed_buffer ch) ∨
  (ch_mode ch ≠ MODE_POP_ON ∧ write_buffer ch = displayed_buffer ch).
Proof.
  intros H. unfold write_buffer. case_bool_decide; [left|right].
  - split; [done|]. destruct (ok_displayed _ _ H) as [-> | ->]; split; (done || (by left) || by right).
  - split; [done|]. apply Z.lxor_0_r.
Qed.

Lemma write_buffer_range i ch : core_ok i ch → write_buffer ch = 0 ∨ write_buffer ch = 1.
Proof. intros H. destruct (write_buffer_cases i ch H) as [(_ & ? & _)|[_ ->]]; [done|]. apply (ok_displayed _ _ H). Qed.

(** Buffer 0 or 1 of a channel, with its flags. *)
Lemma get_buf i ch b : core_ok i ch → b = 0 ∨ b = 1 →
  ∃ buf d, rd (buffer ch) b = Some buf ∧ rd (dirty ch) b = Some d ∧ rows_ok buf ∧ covers d buf.
Proof.
  intros H Hb. destruct (ok_bufs _ _ H) as (_ & _ & Hbufs). destruct (Hbufs b) as (buf & d & E1 & E2 & Hr & Hc); [lia|].
  exists buf, d. rewrite decide_True in Hc by lia. done.
Qed.

Lemma get_row buf row : rows_ok buf → 0 ≤ row ≤ 14 → ∃ text, rd buf row = Some text ∧ text_ok text.
Proof. intros [Hl Ht] Hr. destruct (rd_is_Some buf row) as (text & E & _); [lia|]. eauto. Qed.

Lemma row_of_eq ch b row buf : rd (buffer ch) b = Some buf → row_of ch b row = rd buf row.
Proof. intros H. unfold row_of. by rewrite H. Qed.

(** ** Characters *)

Lemma wr_cell_ok text col c : text_ok text → 1 ≤ col ≤ 32 → cell_ok c = true →
  ∃ text', wr text col c = Some text' ∧ text_ok text' ∧ ∀ j, rd text' j = if decide (j = col) then Some c else rd text j.
Proof.
  intros (Hl & H0 & Hc)%text_ok_iff Hcol Hok. destruct (rd_wr text col c) as (t & E & El & Hj); [lia|].
  exists t. split; [done|]. split; [|done]. apply text_ok_iff. split_and!; [lia| |].
  - intros x. rewrite Hj, decide_False by lia. apply H0.
  - intros k x. rewrite Hj. case_decide; [congruence|]. apply Hc.
Qed.

Lemma put_pac_ok text col pac : text_ok text → 1 ≤ col ≤ 32 → is_blank_cell pac = true →
  ∃ text', put_pac text col pac = Some text' ∧ text_ok text'.
Proof.
  intros Ht Hcol Hpac. assert (∃ text', wr text (col - 1) pac = Some text' ∧ text_ok text') as Hw.
  { destruct (decide (col = 1)) as [->|].
    - apply text_ok_iff in Ht as (Hl & H0 & Hc). destruct (rd_wr text (1 - 1) pac) as (t & E & El & Hj); [lia|].
      exists t. split; [done|]. apply text_ok_iff. split_and!; [lia| |].
      + intros x. rewrite Hj, decide_True by lia. congruence.
      + intros k x. rewrite Hj. case_decide; [intros [= <-]; by apply blank_cell_ok_cell|]. apply Hc.
    - destruct (wr_cell_ok text (col - 1) pac Ht ltac:(lia) (blank_cell_ok_cell _ Hpac)) as (t & ? & ? & _). eauto. }
  unfold put_pac, FIRST_COLUMN. destruct (Z.eqb_spec col 1) as [->|]; [done|].
  apply text_ok_iff in Ht as Ht'. destruct (rd_is_Some text (col - 1)) as (x & -> & _); [lia|]. cbn [mbind option_bind].
  destruct (x =? 0); [done|]. eauto.
Qed.

(** A row of the buffer that is written to changes. *)
Lemma ch_ok_row_set i ch row text buf d buf' d' ch' :
  ch_ok i ch → ch_mode ch ≠ MODE_UNKNOWN → row = curr_row ch →
  rd (buffer ch) (write_buffer ch) = Some buf → rd (dirty ch) (write_buffer ch) = Some d →
  row_set row text buf buf' → text_ok text → 0 ≤ d' < 2 ^ 15 →
  (∀ r, r ≠ row → 0 ≤ r → Z.testbit d' r = false → Z.testbit d r = false) →
  (Z.testbit d' row = false → blank text) →
  buf_upd (write_buffer ch) buf' d' ch ch' → ch_ok i ch'.
Proof.
  intros H Hm -> Eb Ed Hs Ht Hd' Hne Hrow Hu.
  pose proof (write_buffer_range i ch H) as Hw.
  destruct (get_buf i ch (write_buffer ch) H Hw) as (? & ? & E1 & E2 & Hr & Hc). simplify_eq.
  eapply ch_ok_upd; [done|done|lia| | | |].
  - by eapply row_set_ok.
  - rewrite decide_True by lia. by eapply row_set_covers.
  - intros Hdisp Hroll. destruct (ok_roll _ _ H Hroll) as [Hwin Hcf]. eapply row_set_confined; [done| |lia].
    apply Hcf. by rewrite <-Hdisp.
  - intros _ ?. done.
Qed.

Definition char_ok (c : Z) (displayable : bool) : Prop :=
  if displayable then is_glyph c = true else c = 0 ∨ is_attr c = true.

Lemma char_cell_ok c displayable : char_ok c displayable → cell_ok c = true.
Proof.
  unfold char_ok, cell_ok. destruct displayable; [intros ->; by rewrite orb_true_r|].
  intros [-> | ->]; [done|]. by rewrite orb_true_r.
Qed.

(** The channel keeps its mode and displayed buffer; what a pop-on channel shows does not change. *)
Definition writes (ch ch' : channel) : Prop :=
  ch_mode ch' = ch_mode ch ∧ displayed_buffer ch' = displayed_buffer ch ∧
  (ch_mode ch = MODE_POP_ON → shown ch' = shown ch).

Lemma buf_upd_writes i b buf d ch ch' :
  core_ok i ch → buf_upd b buf d ch ch' → b = write_buffer ch → writes ch ch'.
Proof.
  intros H Hu ->. pose proof (write_buffer_range i ch H).
  destruct (buf_upd_control _ _ _ _ _ Hu) as (E1 & _ & _ & _ & _ & _ & E7).
  split_and!; [done|done|]. intros Hm. unfold shown. rewrite E1.
  destruct (write_buffer_cases i ch H) as [(_ & _ & Hne)|[? _]]; [|done].
  destruct (buf_upd_shape _ _ _ _ _ Hu) as (_ & _ & _ & _ & Hj); [lia|]. apply Hj. done.
Qed.

Lemma writes_trans ch ch' ch'' : writes ch ch' → writes ch' ch'' → writes ch ch''.
Proof. intros (E1 & E2 & E3) (F1 & F2 & F3). split_and!; [congruence|congruence|]. intros H. rewrite F3, E3; congruence. Qed.

(** The flag of the row is set, and the time of its first character noted. *)
Lemma char_finish_ok i now ch0 b row text buf d buf' ch :
  ch_ok i ch0 → ch_mode ch0 ≠ MODE_UNKNOWN → b = write_buffer ch0 → row = curr_row ch0 →
  rd (buffer ch0) b = Some buf → rd (dirty ch0) b = Some d → row_set row text buf buf' → text_ok text →
  buf_upd b buf' d ch0 ch →
  ∃ ch', (d ← rd (dirty ch) b;
          ch ← put_dirty b (d .| 1 ≪ row) ch;
          Some (if timestamp_is_set (timestamp_c0 ch) then ch else set_c0 now ch)) = Some ch' ∧
    ch_ok i ch' ∧ writes ch0 ch'.
Proof.
  intros H Hm -> -> Eb Ed Hs Ht Hu. pose proof (write_buffer_range i ch0 H) as Hw.
  destruct (get_buf i ch0 _ H Hw) as (? & ? & ? & ? & _ & Hc). simplify_eq. destruct Hc as [Hd Hc].
  pose proof (ok_row _ _ H) as Hrow.
  destruct (buf_upd_shape _ _ _ _ _ Hu) as (L1 & L2 & B1 & D1 & _); [lia|]. rewrite D1. cbn [mbind option_bind].
  destruct (put_dirty_upd (write_buffer ch0) buf' (d .| 1 ≪ curr_row ch0) ch L1 L2 B1) as (ch1 & -> & Hu1).
  cbn [mbind option_bind]. pose proof (buf_upd_trans _ _ _ _ _ _ _ _ Hu Hu1) as Hu2.
  assert (ch_ok i ch1) as H1.
  { apply (ch_ok_row_set i ch0 (curr_row ch0) text buf d buf' (d .| 1 ≪ curr_row ch0) ch1); try done.
    - apply set_flag_range; [lia|done].
    - intros r Hne Hr0. rewrite Z.lor_spec, testbit_pow2_shift, bool_decide_eq_false_2, orb_false_r by lia. done.
    - rewrite Z.lor_spec, testbit_pow2_shift, bool_decide_eq_true_2, orb_true_r by lia. done. }
  pose proof (buf_upd_writes i _ _ _ _ _ H Hu2 eq_refl) as Hwr.
  eexists. split; [done|]. case_match; [done|]. split; [by apply ch_ok_c0|done].
Qed.

Lemma predict_upper_upd c b buf d ch0 ch : buf_upd b buf d ch0 ch →
  buf_upd b buf d (predict_upper c ch0) (predict_upper c ch).
Proof.
  intros (bufs & ds & -> & H). exists bufs, ds. split; [|unfold predict_upper; repeat case_match; exact H].
  unfold predict_upper. cbn [uppercase_predictor set_dirty set_buffer]. by repeat case_match.
Qed.

(** The flag is only cleared when the row is empty. *)
Lemma clean_blank d row v text text' :
  0 ≤ row → (Z.testbit d row = false → blank text) → (blank text → blank text') → (v = 0 → blank text') →
  Z.testbit (d .& Z.lnot (Z.b2z (v =? 0) ≪ row)) row = false → blank text'.
Proof.
  intros Hr H1 H2 H3. rewrite testbit_clean, bool_decide_eq_true_2, andb_true_r by done.
  rewrite andb_false_iff, negb_false_iff, Z.eqb_eq. intros [Hf|Hz]; auto.
Qed.

Lemma blank_cells text : text_ok text → (∀ j x, 1 ≤ j < 33 → rd text j = Some x → x = 0) → blank text.
Proof.
  intros (Hl & _)%text_ok_iff H. apply blank_iff. intros j x Hj Hx. apply (H j x); [|done].
  apply rd_Some in Hx. lia.
Qed.

(** What [clean_row] does to a buffer with the changed row [text]. *)
Lemma clean_row_ok i ch row text old buf d buf' ch1 v :
  ch_ok i ch → ch_mode ch ≠ MODE_UNKNOWN → row = curr_row ch →
  rd (buffer ch) (write_buffer ch) = Some buf → rd (dirty ch) (write_buffer ch) = Some d →
  rd buf row = Some old → row_set row text buf buf' → text_ok text → (blank old → blank text) → (v = 0 → blank text) →
  buf_upd (write_buffer ch) buf' d ch ch1 →
  ∃ ch', clean_row (write_buffer ch) row v ch1 = Some ch' ∧ ch_ok i ch' ∧ writes ch ch'.
Proof.
  intros H Hm -> Eb Ed Eo Hs Ht Hb Hv Hu. pose proof (write_buffer_range i ch H) as Hw.
  destruct (get_buf i ch _ H Hw) as (? & ? & ? & ? & _ & Hd & Hcv). simplify_eq. pose proof (ok_row _ _ H) as Hr0.
  destruct (buf_upd_shape _ _ _ _ _ Hu) as (M1 & M2 & B1 & D1 & _); [lia|]. unfold clean_row.
  rewrite D1. cbn [mbind option_bind].
  destruct (put_dirty_upd (write_buffer ch) buf' (d .& Z.lnot (Z.b2z (v =? 0) ≪ curr_row ch)) ch1 M1 M2 B1) as (ch' & E & Hu1).
  exists ch'. split; [done|]. pose proof (buf_upd_trans _ _ _ _ _ _ _ _ Hu Hu1) as Hu2.
  split; [|by apply (buf_upd_writes i _ _ _ _ _ H Hu2)].
  apply (ch_ok_row_set i ch (curr_row ch) text buf d buf' (d .& Z.lnot (Z.b2z (v =? 0) ≪ curr_row ch)) ch'); try done.
  - apply clean_flag_range; [lia|done].
  - intros r Hne Hr1. rewrite testbit_clean, bool_decide_eq_false_2, andb_false_r, andb_true_r by lia. done.
  - apply (clean_blank d (curr_row ch) v old text); [lia|by apply (Hcv _ _ Eo)|done|done].
Qed.

(** Writing a character or attribute that [char_ok] allows. *)
Lemma put_char_ok i now c displayable backspace ch :
  ch_ok i ch → ch_mode ch ≠ MODE_UNKNOWN → char_ok c displayable →
  ∃ ch', put_char_ch now c displayable backspace ch = Some ch' ∧ ch_ok i ch' ∧ writes ch ch'.
Proof.
  intros H Hm Hc. unfold put_char_ch.
  pose proof (ok_column _ _ H) as Hcol. unfold FIRST_COLUMN, LAST_COLUMN.
  destruct (if backspace then _ else _) as [ch0 col] eqn:E0.
  assert (ch_ok i ch0 ∧ writes ch ch0 ∧ write_buffer ch0 = write_buffer ch ∧ curr_row ch0 = curr_row ch ∧
    last_pac ch0 = last_pac ch ∧ 1 ≤ col ≤ 32) as (H0 & Hw0 & Hwb & Hrow & Hpac & Hcol0).
  { destruct backspace; [injection E0 as <- <-|injection E0 as <- <-].
    - split_and!; try done; destruct (Z.ltb_spec 1 (curr_column ch)); lia.
    - destruct (Z.ltb_spec (curr_column ch) 32); split_and!; try done; try lia. apply ch_ok_column; [done|lia]. }
  assert (ch_mode ch0 ≠ MODE_UNKNOWN) as Hm0 by (by destruct Hw0 as (-> & _)).
  rewrite <-Hwb, <-Hrow. clear E0. pose proof (write_buffer_range i ch0 H0) as Hw.
  destruct (get_buf i ch0 _ H0 Hw) as (buf & d & Eb & Ed & Hr & Hcv). pose proof (ok_row _ _ H0) as Hr0.
  destruct (get_row buf (curr_row ch0) Hr Hr0) as (text & Et & Htext).
  rewrite (row_of_eq _ _ _ _ Eb), Et. cbn [mbind option_bind].
  destruct (wr_cell_ok text col c Htext Hcol0 (char_cell_ok _ _ Hc)) as (t1 & -> & Ht1 & Hj). cbn [mbind option_bind].
  destruct (ok_bufs _ _ H0) as (L1 & L2 & _).
  assert (∀ text', ∃ ch' buf', put_row (write_buffer ch0) (curr_row ch0) text' ch0 = Some ch' ∧
    buf_upd (write_buffer ch0) buf' d ch0 ch' ∧ row_set (curr_row ch0) text' buf buf') as Hput.
  { intros text'. destruct (put_row_upd _ _ _ ch0 (curr_row ch0) text' L1 L2 Eb Ed) as (ch' & buf' & ? & ? & ? & ?);
      [destruct Hr as [-> _]; lia|]. exists ch', buf'. done. }
  destruct (put_pac_ok t1 col (last_pac ch0) Ht1 Hcol0 (ok_pac _ _ H0)) as (t2 & Ep & Ht2).
  destruct displayable; [|destruct (Z.eqb_spec c 0) as [->|Hne]].
  - rewrite Ep. cbn [mbind option_bind]. destruct (Hput t2) as (ch1 & buf1 & -> & Hu & Hs). cbn [mbind option_bind].
    pose proof (ch_ok_predict i c ch0 H0) as Hp. apply (predict_upper_upd c) in Hu.
    assert (∀ A (f : channel → A), (∀ x, f (set_upper x ch0) = f ch0) → f (predict_upper c ch0) = f ch0) as Hsame.
    { intros A f Hf. unfold predict_upper. by repeat case_match. }
    destruct (char_finish_ok i now (predict_upper c ch0) (write_buffer ch0) (curr_row ch0) t2 buf d buf1 (predict_upper c ch1))
      as (ch' & E & Hok & Hwr); rewrite ?(Hsame _ ch_mode), ?(Hsame _ write_buffer), ?(Hsame _ curr_row), ?(Hsame _ buffer), ?(Hsame _ dirty) by done; try done.
    exists ch'. split; [done|]. split; [done|]. eapply writes_trans; [done|]. eapply writes_trans; [|done].
    split_and!; [by apply Hsame|by apply Hsame|]. intros _. by apply (Hsame _ shown).
  - destruct (Hput t1) as (ch1 & buf1 & -> & Hu & Hs). cbn [mbind option_bind].
    destruct (or_cells_ok t1 Ht1 32 1 0) as (v & -> & Hv0 & Hv); [lia|lia|lia|]. cbn [mbind option_bind].
    destruct (clean_row_ok i ch0 (curr_row ch0) t1 text buf d buf1 ch1 v) as (ch' & E & Hok & Hwr); try done.
    + intros Hb. apply blank_iff. intros j x Hj1. rewrite Hj. case_decide; [congruence|]. by apply blank_iff.
    + intros Hz. apply blank_cells; [done|]. intros j x Hj1 Hx. apply (proj2 (proj1 Hv Hz) j x); [lia|done].
    + exists ch'. split; [done|]. split; [done|]. by eapply writes_trans.
  - rewrite Ep. cbn [mbind option_bind]. destruct (Hput t2) as (ch1 & buf1 & -> & Hu & Hs). cbn [mbind option_bind].
    destruct (char_finish_ok i now ch0 (write_buffer ch0) (curr_row ch0) t2 buf d buf1 ch1) as (ch' & E & Hok & Hwr); try done.
    exists ch'. split; [done|]. split; [done|]. by eapply writes_trans.
Qed.

(** ** Moving rows *)

Lemma erase_row_end_ok i ch :
  ch_ok i ch → ch_mode ch ≠ MODE_UNKNOWN →
  ∃ ch', erase_row_end (write_buffer ch) (curr_row ch) (curr_column ch) ch = Some ch' ∧ ch_ok i ch' ∧ writes ch ch'.
Proof.
  intros H Hm. pose proof (write_buffer_range i ch H) as Hw. pose proof (ok_column _ _ H) as Hcol.
  destruct (get_buf i ch _ H Hw) as (buf & d & Eb & Ed & Hr & Hcv). pose proof (ok_row _ _ H) as Hr0.
  destruct (get_row buf (curr_row ch) Hr Hr0) as (text & Et & Htext). unfold erase_row_end.
  rewrite (row_of_eq _ _ _ _ Eb), Et. cbn [mbind option_bind]. unfold LAST_COLUMN, FIRST_COLUMN.
  apply text_ok_iff in Htext as (Hl & H0 & Hc).
  destruct (rd_store text (repeat 0 (Z.to_nat (32 - curr_column ch + 1))) (curr_column ch)) as (t & -> & El & Hj);
    [lia|rewrite repeat_length; lia|]. rewrite repeat_length in Hj. cbn [mbind option_bind].
  assert (∀ j x, rd t j = Some x → x = 0 ∨ rd text j = Some x) as Hsub.
  { intros j x. rewrite Hj. case_decide; [|by right]. rewrite rd_lookup, lookup_repeat by lia. intros [= <-]. by left. }
  assert (text_ok t) as Ht.
  { apply text_ok_iff. split_and!; [lia| |].
    - intros x Hx. destruct (Hsub _ _ Hx) as [-> |]; [done|]. by apply H0.
    - intros j x Hx. destruct (Hsub _ _ Hx) as [-> |]; [done|]. by apply (Hc j). }
  destruct (ok_bufs _ _ H) as (L1 & L2 & _).
  destruct (put_row_upd _ _ _ ch (curr_row ch) t L1 L2 Eb Ed) as (ch1 & buf' & -> & Hu & Hs);
    [destruct Hr as [-> _]; lia|]. cbn [mbind option_bind].
  destruct (or_cells_ok t Ht (Z.to_nat (curr_column ch - 1)) 1 0) as (v & -> & Hv0 & Hv); [lia|lia|lia|]. cbn [mbind option_bind].
  apply (clean_row_ok i ch (curr_row ch) t text buf d buf' ch1 v); try done.
  - rewrite !blank_iff. intros Hb j x Hj1 Hx. destruct (Hsub _ _ Hx); [done|]. by apply (Hb j).
  - intros Hz. apply blank_cells; [done|]. intros j x Hj1 Hx. destruct (decide (j < curr_column ch)).
    + apply (proj2 (proj1 Hv Hz) j x); [lia|done].
    + rewrite Hj, decide_True, rd_lookup, lookup_repeat in Hx by lia. congruence.
Qed.

Lemma erase_cell_ok i ch :
  ch_ok i ch → ch_mode ch ≠ MODE_UNKNOWN →
  ∃ ch', erase_cell (write_buffer ch) (curr_row ch) (curr_column ch) ch = Some ch' ∧ ch_ok i ch' ∧ writes ch ch'.
Proof.
  intros H Hm. pose proof (write_buffer_range i ch H) as Hw. pose proof (ok_column _ _ H) as Hcol.
  destruct (get_buf i ch _ H Hw) as (buf & d & Eb & Ed & Hr & Hcv). pose proof (ok_row _ _ H) as Hr0.
  destruct (get_row buf (curr_row ch) Hr Hr0) as (text & Et & Htext). unfold erase_cell, FIRST_COLUMN.
  rewrite (row_of_eq _ _ _ _ Eb), Et. cbn [mbind option_bind].
  destruct (wr_cell_ok text (curr_column ch) 0 Htext Hcol eq_refl) as (t & -> & Ht & Hj). cbn [mbind option_bind].
  destruct (ok_bufs _ _ H) as (L1 & L2 & _).
  destruct (put_row_upd _ _ _ ch (curr_row ch) t L1 L2 Eb Ed) as (ch1 & buf' & -> & Hu & Hs);
    [destruct Hr as [-> _]; lia|]. cbn [mbind option_bind].
  destruct (or_cells_ok t Ht 32 1 0) as (v & -> & Hv0 & Hv); [lia|lia|lia|]. cbn [mbind option_bind].
  apply (clean_row_ok i ch (curr_row ch) t text buf d buf' ch1 v); try done.
  - rewrite !blank_iff. intros Hb j x Hj1. rewrite Hj. case_decide; [congruence|]. by apply Hb.
  - intros Hz. apply blank_cells; [done|]. intros j x Hj1 Hx. apply (proj2 (proj1 Hv Hz) j x); [lia|done].
Qed.

(** ** Scrolling *)

Lemma shiftr_flags d n : 0 ≤ n → 0 ≤ d < 2 ^ 15 → 0 ≤ d ≫ n < 2 ^ 15.
Proof.
  intros Hn Hd. rewrite Z.shiftr_div_pow2 by done. split; [apply Z.div_pos; lia|].
  apply Z.div_lt_upper_bound; [lia|]. assert (0 < 2 ^ n) by lia. nia.
Qed.

(** A buffer whose rows come from rows of another, or are empty. *)
Lemma rows_ok_from (buf buf' : rows) :
  rows_ok buf → length buf' = length buf →
  (∀ r t, rd buf' r = Some t → t = row0 ∨ ∃ r', rd buf r' = Some t) → rows_ok buf'.
Proof.
  intros [Hl Ht] El H. split; [congruence|]. intros r t Hr. destruct (H r t Hr) as [-> | (r' & E)]; [apply row0_ok|eauto].
Qed.

Lemma roll_rows_ok i ch window buf :
  core_ok i ch → rd (buffer ch) (displayed_buffer ch) = Some buf →
  1 ≤ window ≤ curr_row ch + 1 → confined (curr_row ch + 1 - window) (curr_row ch) buf →
  ∃ ch' buf' d', roll_rows (displayed_buffer ch) (curr_row ch) window ch = Some ch' ∧
    buf_upd (displayed_buffer ch) buf' d' ch ch' ∧ rows_ok buf' ∧ covers d' buf' ∧
    confined (curr_row ch + 1 - window) (curr_row ch) buf'.
Proof.
  intros H Eb Hw Hcf. pose proof (ok_row _ _ H) as Hr0.
  destruct (get_buf i ch _ H (ok_displayed _ _ H)) as (? & d & ? & Ed & Hr & Hd & Hcv). simplify_eq.
  destruct (ok_bufs _ _ H) as (L1 & L2 & _). pose proof (ok_displayed _ _ H) as Hb01. pose proof Hr as [Hlen _].
  unfold roll_rows. set (b := displayed_buffer ch) in *. set (row := curr_row ch) in *. set (first := row + 1 - window) in *.
  rewrite Eb. cbn [mbind option_bind].
  destruct (rd_move_rows buf first (first + 1) (window - 1)) as (buf1 & -> & El1 & Hj1); [lia..|]. cbn [mbind option_bind].
  destruct (put_rows_upd b buf1 d ch L1 L2 Ed) as (ch1 & -> & Hu1). cbn [mbind option_bind].
  destruct (buf_upd_shape _ _ _ _ _ Hu1) as (M1 & M2 & B1 & D1 & _); [lia|]. rewrite D1. cbn [mbind option_bind].
  destruct (put_dirty_upd b buf1 (d ≫ 1) ch1 M1 M2 B1) as (ch2 & -> & Hu2). cbn [mbind option_bind].
  destruct (buf_upd_shape _ _ _ _ _ Hu2) as (N1 & N2 & B2 & D2 & _); [lia|]. rewrite B2. cbn [mbind option_bind].
  destruct (rd_clear_rows buf1 row 1) as (buf2 & -> & El2 & Hj2); [lia..|]. cbn [mbind option_bind].
  destruct (put_rows_upd b buf2 (d ≫ 1) ch2 N1 N2 D2) as (ch3 & E3 & Hu3). 
  exists ch3, buf2, (d ≫ 1). split; [done|].
  split; [eapply buf_upd_trans; [eapply buf_upd_trans; [exact Hu1|exact Hu2]|exact Hu3]|].
  assert (∀ r t, rd buf2 r = Some t →
    (r = row ∧ t = row0) ∨ (first ≤ r < row ∧ rd buf (r + 1) = Some t) ∨ (¬ (first ≤ r ≤ row) ∧ rd buf r = Some t)) as Hcase.
  { intros r t. rewrite Hj2, Hj1. case_decide; [intros [= <-]; left; split; [lia|done]|].
    case_decide; [|right; right; split; [lia|done]]. right; left. split; [lia|].
    by replace (r + 1) with (r - first + (first + 1)) by lia. }
  split_and!.
  - apply (rows_ok_from buf); [done|lia|]. intros r t Ht. destruct (Hcase r t Ht) as [[_ ->]|[[_ ?]|[_ ?]]]; eauto.
  - split; [by apply shiftr_flags|]. intros r t Ht Hbit.
    destruct (Hcase r t Ht) as [[_ ->]|[[Hr1 E]|[Hr1 E]]]; [apply row0_blank| |by apply (Hcf r)].
    apply (Hcv _ _ E). rewrite Z.shiftr_spec in Hbit by (apply rd_Some in Ht; lia). done.
  - intros r t Ht Hout. destruct (Hcase r t Ht) as [[_ ->]|[[Hr1 E]|[Hr1 E]]]; [apply row0_blank|lia|by apply (Hcf r)].
Qed.

(** The window shrinks. *)
Lemma shrink_window_ok i ch old new buf :
  core_ok i ch → rd (buffer ch) (displayed_buffer ch) = Some buf →
  1 ≤ new < old → old ≤ curr_row ch + 1 → confined (curr_row ch + 1 - old) (curr_row ch) buf →
  ∃ ch' buf' d', shrink_window (displayed_buffer ch) (curr_row ch + 1) old new ch = Some ch' ∧
    buf_upd (displayed_buffer ch) buf' d' ch ch' ∧ rows_ok buf' ∧ covers d' buf' ∧
    confined (curr_row ch + 1 - new) (curr_row ch) buf'.
Proof.
  intros H Eb Hn Ho Hcf. pose proof (ok_row _ _ H) as Hr0.
  destruct (get_buf i ch _ H (ok_displayed _ _ H)) as (? & d & ? & Ed & Hr & Hd & Hcv). simplify_eq.
  destruct (ok_bufs _ _ H) as (L1 & L2 & _). pose proof (ok_displayed _ _ H) as Hb01. pose proof Hr as [Hlen _].
  unfold shrink_window. set (b := displayed_buffer ch) in *. set (row := curr_row ch) in *.
  rewrite Eb. cbn [mbind option_bind].
  destruct (rd_clear_rows buf (row + 1 - old) (old - new)) as (buf1 & -> & El1 & Hj1); [lia..|]. cbn [mbind option_bind].
  destruct (put_rows_upd b buf1 d ch L1 L2 Ed) as (ch1 & -> & Hu1). cbn [mbind option_bind].
  destruct (buf_upd_shape _ _ _ _ _ Hu1) as (M1 & M2 & B1 & D1 & _); [lia|]. rewrite D1. cbn [mbind option_bind].
  set (d' := d .& (-1) ≪ (row + 1 - new)).
  destruct (put_dirty_upd b buf1 d' ch1 M1 M2 B1) as (ch2 & E2 & Hu2).
  exists ch2, buf1, d'. split; [done|]. split; [eapply buf_upd_trans; [exact Hu1|exact Hu2]|].
  assert (∀ r t, rd buf1 r = Some t → t = row0 ∨ (¬ (row + 1 - old ≤ r < row + 1 - new) ∧ rd buf r = Some t)) as Hcase.
  { intros r t. rewrite Hj1. case_decide; [intros [= <-]; by left|]. right. split; [lia|done]. }
  assert (confined (row + 1 - new) row buf1) as Hcf'.
  { intros r t Ht Hout. destruct (Hcase r t Ht) as [-> |[Hr1 E]]; [apply row0_blank|]. apply (Hcf r); [done|lia]. }
  split_and!; [| |done].
  - apply (rows_ok_from buf); [done|lia|]. intros r t Ht. destruct (Hcase r t Ht) as [-> |[_ ?]]; eauto.
  - split; [by apply land_range_r|]. intros r t Ht Hbit. destruct (decide (row + 1 - new ≤ r)) as [Hge|]; [|apply (Hcf' r); [done|lia]].
    destruct (Hcase r t Ht) as [-> |[Hr1 E]]; [apply row0_blank|]. apply (Hcv r); [done|].
    subst d'. rewrite Z.land_spec, Z.shiftl_spec, Z.bits_m1, andb_true_r in Hbit by lia. done.
Qed.

Lemma shiftl_flags d n : 0 ≤ n ≤ 15 → 0 ≤ d < 2 ^ 15 → 0 ≤ u32 (d ≪ n) .& ALL_ROWS_MASK < 2 ^ 15 ∧
  ∀ r, 0 ≤ r < 15 → Z.testbit (u32 (d ≪ n) .& ALL_ROWS_MASK) r = Z.testbit d (r - n).
Proof.
  intros Hn Hd. change ALL_ROWS_MASK with (Z.ones 15). split.
  - rewrite Z.land_ones by done. by apply Z.mod_pos_bound.
  - intros r Hr. rewrite Z.land_ones, Z.mod_pow2_bits_low, u32_testbit, Z.shiftl_spec by lia. done.
Qed.

(** A buffer whose rows [first..last] were moved by [k] rows, in [ch] with the flags [d']. *)
Definition moved (k first last : Z) (buf buf' : rows) : Prop :=
  length buf' = length buf ∧
  ∀ r t, rd buf' r = Some t → t = row0 ∨ (first ≤ r - k ≤ last ∧ rd buf (r - k) = Some t) ∨
    (¬ (first ≤ r ≤ last) ∧ ¬ (first ≤ r - k ≤ last) ∧ rd buf r = Some t).

Lemma moved_ok k first last buf buf' d d' :
  moved k first last buf buf' → rows_ok buf → covers d buf → confined first last buf → 0 ≤ d' < 2 ^ 15 →
  (∀ r, 0 ≤ r < 15 → first ≤ r - k ≤ last → Z.testbit d' r = false → Z.testbit d (r - k) = false) →
  rows_ok buf' ∧ covers d' buf' ∧ confined (first + k) (last + k) buf'.
Proof.
  intros [Hl Hm] Hr [Hd Hcv] Hcf Hd' Hbits. split_and!.
  - apply (rows_ok_from buf); [done|done|]. intros r t Ht. destruct (Hm r t Ht) as [-> |[[_ ?]|(_ & _ & ?)]]; eauto.
  - split; [done|]. intros r t Ht Hb. destruct (Hm r t Ht) as [-> |[[Hk E]|(Hk & _ & E)]].
    + apply row0_blank.
    + apply (Hcv _ _ E), Hbits; [|done|done]. apply rd_Some in Ht. destruct Hr as [Hlen _]. lia.
    + by apply (Hcf r).
  - intros r t Ht Hout. destruct (Hm r t Ht) as [-> |[[Hk E]|(Hk & _ & E)]]; [apply row0_blank|lia|by apply (Hcf r)].
Qed.

Lemma confined_weaken first last first' last' buf :
  confined first last buf → first' ≤ first → last ≤ last' → confined first' last' buf.
Proof. intros H ?? r t Ht Hout. apply (H r t Ht). lia. Qed.

(** Rows below 0 do not exist. *)
Lemma confined_clip first last buf : confined first last buf → confined (Z.max 0 first) last buf.
Proof. intros H r t Ht Hout. apply (H r t Ht). apply rd_Some in Ht. lia. Qed.

Lemma shift_window_ok i ch new buf :
  core_ok i ch → rd (buffer ch) (displayed_buffer ch) = Some buf → 2 ≤ window_rows ch ≤ 4 →
  window_rows ch - 1 ≤ new ≤ 14 → new ≠ curr_row ch → confined (curr_row ch + 1 - window_rows ch) (curr_row ch) buf →
  ∃ ch' buf' d', shift_window (displayed_buffer ch) new ch = Some ch' ∧
    buf_upd (displayed_buffer ch) buf' d' ch ch' ∧ rows_ok buf' ∧ covers d' buf' ∧
    confined (new + 1 - window_rows ch) new buf'.
Proof.
  intros H Eb Hw Hn Hne Hcf. pose proof (ok_row _ _ H) as Hr0.
  destruct (get_buf i ch _ H (ok_displayed _ _ H)) as (? & d & ? & Ed & Hr & Hcv). simplify_eq.
  destruct (ok_bufs _ _ H) as (L1 & L2 & _). pose proof (ok_displayed _ _ H) as Hb01. pose proof Hr as [Hlen _].
  unfold shift_window, FIRST_ROW. rewrite Eb, Ed. cbn [mbind option_bind]. rewrite !Z.sub_0_r.
  set (b := displayed_buffer ch) in *. set (row := curr_row ch) in *. set (w := window_rows ch) in *.
  set (copy := Z.min _ w). apply confined_clip in Hcf.
  destruct (Z.ltb_spec new row) as [Hlt|Hge].
  - assert (copy = w) as -> by lia.
    destruct (rd_move_rows buf (new + 1 - w) (row + 1 - w) w) as (buf1 & -> & El1 & Hj1); [lia..|]. cbn [mbind option_bind].
    destruct (put_dirty_upd b buf (d ≫ (row - new)) ch L1 L2 Eb) as (ch1 & -> & Hu1). cbn [mbind option_bind].
    destruct (buf_upd_shape _ _ _ _ _ Hu1) as (M1 & M2 & B1 & D1 & _); [lia|].
    destruct (rd_clear_rows buf1 (new + 1) (row + 1 - (new + 1))) as (buf2 & -> & El2 & Hj2); [lia..|]. cbn [mbind option_bind].
    destruct (put_rows_upd b buf2 (d ≫ (row - new)) ch1 M1 M2 D1) as (ch2 & E2 & Hu2).
    exists ch2, buf2, (d ≫ (row - new)). split; [done|]. split; [eapply buf_upd_trans; [exact Hu1|exact Hu2]|].
    destruct (moved_ok (new - row) (Z.max 0 (row + 1 - w)) row buf buf2 d (d ≫ (row - new))) as (? & ? & Hc); try done.
    + split; [lia|]. intros r t. rewrite Hj2, Hj1. case_decide; [intros [= <-]; by left|]. case_decide.
      * intros Ht. right; left. replace (r - (new + 1 - w) + (row + 1 - w)) with (r - (new - row)) in Ht by lia.
        split; [lia|done].
      * intros Ht. right; right. split_and!; [lia|lia|done].
    + destruct Hcv as [Hd _]. by apply shiftr_flags; [lia|].
    + intros r Hr1 _. rewrite Z.shiftr_spec by lia. by replace (r + (row - new)) with (r - (new - row)) by lia.
    + split_and!; try done. eapply confined_weaken; [exact Hc|lia|lia].
  - assert (copy = Z.min (row + 1) w) as Hcopy by lia.
    destruct (rd_move_rows buf (new + 1 - copy) (row + 1 - copy) copy) as (buf1 & -> & El1 & Hj1); [lia..|]. cbn [mbind option_bind].
    set (d' := u32 (d ≪ (new - row)) .& ALL_ROWS_MASK).
    destruct (put_dirty_upd b buf d' ch L1 L2 Eb) as (ch1 & -> & Hu1). cbn [mbind option_bind].
    destruct (buf_upd_shape _ _ _ _ _ Hu1) as (M1 & M2 & B1 & D1 & _); [lia|].
    destruct (rd_clear_rows buf1 (row + 1 - copy) (new + 1 - copy - (row + 1 - copy))) as (buf2 & -> & El2 & Hj2); [lia..|].
    cbn [mbind option_bind].
    destruct (put_rows_upd b buf2 d' ch1 M1 M2 D1) as (ch2 & E2 & Hu2).
    exists ch2, buf2, d'. split; [done|]. split; [eapply buf_upd_trans; [exact Hu1|exact Hu2]|].
    destruct (shiftl_flags d (new - row)) as [Hd' Hbit]; [lia|apply Hcv|].
    destruct (moved_ok (new - row) (Z.max 0 (row + 1 - w)) row buf buf2 d d') as (? & ? & Hc); try done.
    + split; [lia|]. intros r t. rewrite Hj2, Hj1. case_decide; [intros [= <-]; by left|]. case_decide.
      * intros Ht. right; left. replace (r - (new + 1 - copy) + (row + 1 - copy)) with (r - (new - row)) in Ht by lia.
        split; [lia|done].
      * intros Ht. right; right. split_and!; [lia|lia|done].
    + intros r Hr1 _. subst d'. by rewrite Hbit.
    + split_and!; try done. eapply confined_weaken; [exact Hc|lia|lia].
Qed.

(** A channel can be displayed at any time. *)
Lemma displayable_core i ch : core_ok i ch → displayable ch.
Proof.
  intros H row Hr. destruct (get_buf i ch _ H (ok_displayed _ _ H)) as (buf & d & Eb & Ed & Hok & Hd & Hcv).
  destruct (get_row buf row Hok) as (text & Et & Ht); [lia|]. exists text. split; [by rewrite (row_of_eq _ _ _ _ Eb)|].
  split; [done|]. exists (Z.testbit d row). split; [apply row_dirty_testbit; [done|lia]|]. by apply Hcv.
Qed.

(** The empty buffer. *)
Lemma rows0_ok : rows_ok rows0.
Proof. split; [done|]. intros r t H. rewrite rd_lookup in H by (apply rd_Some in H; lia).
  apply list_elem_of_lookup_2, list_elem_of_In, repeat_spec in H as ->. apply row0_ok. Qed.
Lemma rows0_blank a z : confined a z rows0.
Proof. intros r t H _. rewrite rd_lookup in H by (apply rd_Some in H; lia).
  apply list_elem_of_lookup_2, list_elem_of_In, repeat_spec in H as ->. apply row0_blank. Qed.
Lemma rows0_covers : covers 0 rows0.
Proof. split; [done|]. intros r t H _. by apply (rows0_blank 1 0 r t H); lia. Qed.
