(* ===== verification/Cc608Ops.v ===== *)
(** The operations of the caption decoder on one channel: each runs without leaving its
    arrays, keeps the invariant of the channel, leaves all other channels alone, and tells
    the client of every change of what is displayed. *)
From S2P Require Import Prelude Double Format Lang Hamm Sliced Event Cc608Format Cc608 Cc608Rows.

(** ** Recording the events *)

(** The client that keeps the events, with the decoder at the time of each. *)
Definition trace : Type := list (decoder * event).
Definition record (cd : decoder) (ev : event) (x : trace) : trace := x ++ [(cd, ev)].

(** A decoder with another channel [i] and pending event. *)
Definition at_ (cd : decoder) (i : Z) (ch : channel) (p : option Z) : decoder :=
  set_pending p (set_channels (<[Z.to_nat i := ch]> (channels cd)) cd).

(** What an operation on one channel sent: the channel, the pending event and the event. *)
Definition local_trace : Type := list (channel * option Z * event).
Definition snap (cd : decoder) (i : Z) (e : channel * option Z * event) : decoder * event :=
  (at_ cd i e.1.1 e.1.2, e.2).

(** From channel [ch] and pending event [p], [m] returns [a] and leaves [ch'] and [p'];
    nothing else in the decoder changes. *)
Definition runs {A} (cd : decoder) (i : Z) (m : M (X := trace) A) (ch : channel) (p : option Z)
    (a : A) (ch' : channel) (p' : option Z) (tr : local_trace) : Prop :=
  ∀ x, m (at_ cd i ch p, x) = Some (a, (at_ cd i ch' p', x ++ map (snap cd i) tr)).

(** ** What the client knows *)

(** A client that looks at the channel when it is told to: what it saw last. *)
Fixpoint seen (v : option rows) (tr : local_trace) : option rows :=
  match tr with
  | [] => v
  | (ch, _, CC608 _ _ _) :: tr => seen (shown ch) tr
  | (_, _, CC608_STREAM _ _ _ _ _) :: tr => seen v tr
  end.

(** Nothing is displayed. *)
Definition hidden (ch : channel) : Prop := ∀ buf, shown ch = Some buf → confined 1 0 buf.

(** What the client saw last is what is displayed, if anything is. *)
Definition synced (v : option rows) (ch : channel) : Prop := v = shown ch ∨ hidden ch.
Definition complete (ch : channel) (tr : local_trace) (ch' : channel) : Prop :=
  ∀ v, synced v ch → synced (seen v tr) ch'.

(** An event is about channel [i], which can be displayed at that time; the text of a
    row has 32 characters. *)
Definition event_ok (i : Z) (ev : event) : Prop :=
  match ev with
  | CC608 chan _ _ => chan = i + 1
  | CC608_STREAM _ _ chan _ text => chan = i + 1 ∧ length text = 32%nat
  end.
Definition entry_ok (i : Z) (e : channel * option Z * event) : Prop := displayable e.1.1 ∧ event_ok i e.2.
Definition fine (i : Z) (ch : channel) (tr : local_trace) (ch' : channel) : Prop :=
  Forall (entry_ok i) tr ∧ complete ch tr ch'.

Lemma seen_app v tr1 tr2 : seen v (tr1 ++ tr2) = seen (seen v tr1) tr2.
Proof. revert v. induction tr1 as [|[[c p] []] tr1 IH]; intros v; cbn; auto. Qed.

Lemma complete_trans ch tr1 ch1 tr2 ch2 : complete ch tr1 ch1 → complete ch1 tr2 ch2 → complete ch (tr1 ++ tr2) ch2.
Proof. intros H1 H2 v Hv. rewrite seen_app. auto. Qed.

Lemma fine_trans i ch tr1 ch1 tr2 ch2 : fine i ch tr1 ch1 → fine i ch1 tr2 ch2 → fine i ch (tr1 ++ tr2) ch2.
Proof. intros [? ?] [? ?]. split; [by apply Forall_app|]. by eapply complete_trans. Qed.

(** A change the client need not be told. *)
Definition quiet (ch ch' : channel) : Prop := shown ch' = shown ch ∨ hidden ch'.

Lemma quiet_complete ch ch' : quiet ch ch' → complete ch [] ch'.
Proof.
  intros [H|H] v Hv; [|by right]. destruct Hv as [-> |Hv]; [by left|]. right.
  intros buf. rewrite H. apply Hv.
Qed.

(** ** Rules *)

Section rules.
Context (cd : decoder) (i : Z) (Hcd : length (channels cd) = 8%nat) (Hi : 0 ≤ i < 8).

Lemma rd_at ch p : rd (channels (at_ cd i ch p)) i = Some ch.
Proof.
  cbn [at_ channels set_pending set_channels]. rewrite rd_lookup by lia. apply list_lookup_insert_eq. lia.
Qed.

Lemma runs_ret {A} (a : A) ch p : runs cd i (mret a) ch p a ch p [].
Proof. intros x. by rewrite app_nil_r. Qed.

Lemma runs_bind {A B} (m : M A) (f : A → M B) ch p a ch1 p1 tr1 b ch2 p2 tr2 :
  runs cd i m ch p a ch1 p1 tr1 → runs cd i (f a) ch1 p1 b ch2 p2 tr2 →
  runs cd i (m ≫= f) ch p b ch2 p2 (tr1 ++ tr2).
Proof.
  intros H1 H2 x. unfold mbind, M_bind. rewrite H1. cbn [mbind option_bind]. rewrite H2.
  by rewrite map_app, app_assoc.
Qed.

Lemma runs_get {B} (f : channel → M B) ch p b ch' p' tr :
  runs cd i (f ch) ch p b ch' p' tr → runs cd i (get_ch i ≫= f) ch p b ch' p' tr.
Proof.
  intros H x. unfold mbind, M_bind, get_ch. cbn [fst]. rewrite rd_at. cbn [mbind option_bind]. apply H.
Qed.

Lemma runs_lift {A B} (o : option A) a (f : A → M B) ch p b ch' p' tr :
  o = Some a → runs cd i (f a) ch p b ch' p' tr → runs cd i (lift o ≫= f) ch p b ch' p' tr.
Proof. intros -> H x. apply H. Qed.

Lemma runs_now {B} (f : timestamp → M B) ch p b ch' p' tr :
  runs cd i (f (cd_timestamp cd)) ch p b ch' p' tr → runs cd i (now ≫= f) ch p b ch' p' tr.
Proof. intros H x. apply H. Qed.

Lemma runs_put ch p ch' : runs cd i (put_ch i ch') ch p tt ch' p [].
Proof.
  intros x. unfold put_ch, wr. cbn [fst snd].
  replace (length (channels (at_ cd i ch p))) with 8%nat by (cbn; by rewrite length_insert).
  rewrite decide_True by lia. cbn [mbind option_bind map]. rewrite app_nil_r. unfold at_, set_pending, set_channels. cbn.
  by rewrite list_insert_insert_eq.
Qed.

Lemma runs_upd f ch p ch' : f ch = Some ch' → runs cd i (upd_ch i f) ch p tt ch' p [].
Proof. intros H. apply runs_get, (runs_lift _ ch'); [done|]. apply runs_put. Qed.

Lemma runs_send ev ch p : runs cd i (send_event record ev) ch p tt ch p [(ch, p, ev)].
Proof. intros x. done. Qed.

Lemma runs_display fl ch p :
  runs cd i (display_event record i fl) ch p tt ch p [(ch, p, CC608 (i + 1) (ch_mode ch) fl)].
Proof. apply runs_get, runs_send. Qed.

Lemma runs_put_pending q ch p : runs cd i (put_pending q) ch p tt ch q [].
Proof. intros x. unfold put_pending. cbn [fst snd map]. by rewrite app_nil_r. Qed.

(** An operation from [ch] that keeps the pending event; [Q] holds afterwards. *)
Definition op_ok (m : M (X := trace) unit) (ch : channel) (Q : channel → Prop) : Prop :=
  ∀ p, ∃ ch' tr, runs cd i m ch p tt ch' p tr ∧ fine i ch tr ch' ∧ Q ch'.

Lemma op_weaken m ch (Q Q' : channel → Prop) : op_ok m ch Q → (∀ ch', Q ch' → Q' ch') → op_ok m ch Q'.
Proof. intros H HQ p. destruct (H p) as (ch' & tr & ? & ? & ?). exists ch', tr. auto. Qed.

Lemma op_ret ch (Q : channel → Prop) : Q ch → op_ok (mret tt) ch Q.
Proof.
  intros H p. exists ch, []. split; [apply runs_ret|]. split; [|done]. split; [done|].
  apply quiet_complete. by left.
Qed.

Lemma op_seq (m : M unit) (f : unit → M unit) ch (Q1 Q : channel → Prop) :
  op_ok m ch Q1 → (∀ ch1, Q1 ch1 → op_ok (f tt) ch1 Q) → op_ok (m ≫= f) ch Q.
Proof.
  intros H1 H2 p. destruct (H1 p) as (ch1 & tr1 & R1 & F1 & HQ1). destruct (H2 ch1 HQ1 p) as (ch2 & tr2 & R2 & F2 & HQ2).
  exists ch2, (tr1 ++ tr2). split; [by eapply runs_bind|]. split; [by eapply fine_trans|done].
Qed.

Lemma op_get f ch Q : op_ok (f ch) ch Q → op_ok (get_ch i ≫= f) ch Q.
Proof. intros H p. destruct (H p) as (ch' & tr & ? & ?). exists ch', tr. split; [by apply runs_get|done]. Qed.

Lemma op_lift {A} (o : option A) a (f : A → M unit) ch Q : o = Some a → op_ok (f a) ch Q → op_ok (lift o ≫= f) ch Q.
Proof. intros Ho H p. destruct (H p) as (ch' & tr & ? & ?). exists ch', tr. split; [by eapply runs_lift|done]. Qed.

Lemma op_now f ch Q : op_ok (f (cd_timestamp cd)) ch Q → op_ok (now ≫= f) ch Q.
Proof. intros H p. destruct (H p) as (ch' & tr & ? & ?). exists ch', tr. split; [by apply runs_now|done]. Qed.

Lemma op_upd f ch ch' (Q : channel → Prop) : f ch = Some ch' → quiet ch ch' → Q ch' → op_ok (upd_ch i f) ch Q.
Proof.
  intros H Hq HQ p. exists ch', []. split; [by apply runs_upd|]. split; [|done]. split; [done|].
  by apply quiet_complete.
Qed.

Lemma op_set f ch (Q : channel → Prop) : quiet ch (f ch) → Q (f ch) → op_ok (set_ch i f) ch Q.
Proof. intros. by eapply op_upd. Qed.

(** A change and the event that tells of it. *)
Lemma op_upd_display f fl ch ch' (Q : channel → Prop) : f ch = Some ch' → displayable ch' → Q ch' →
  op_ok (_ ← upd_ch i f; display_event record i fl) ch Q.
Proof.
  intros H Hd HQ p. eexists ch', _. split; [eapply runs_bind; [by apply runs_upd|apply runs_display]|].
  split; [|done]. split.
  - constructor; [|done]. by split.
  - intros v _. by left.
Qed.

Lemma op_display fl ch (Q : channel → Prop) : displayable ch → Q ch → op_ok (display_event record i fl) ch Q.
Proof.
  intros Hd HQ p. eexists ch, _. split; [apply runs_display|]. split; [|done]. split.
  - constructor; [|done]. by split.
  - intros v _. by left.
Qed.

Lemma op_stream t q m text ch (Q : channel → Prop) : displayable ch → length text = 32%nat → Q ch →
  op_ok (send_event record (CC608_STREAM t q (i + 1) m text)) ch Q.
Proof.
  intros Hd Hl HQ p. eexists ch, _. split; [apply runs_send|]. split; [|done]. split.
  - constructor; [|done]. by split.
  - intros v Hv. exact Hv.
Qed.

(** ** Channels at rest *)

Lemma core_displayable ch : core_ok i ch → displayable ch.
Proof. apply displayable_core. Qed.

(** The flags of the displayed buffer. *)
Lemma core_shown ch : core_ok i ch → ∃ buf d, shown ch = Some buf ∧ rd (dirty ch) (displayed_buffer ch) = Some d ∧
  rows_ok buf ∧ covers d buf ∧ (d = 0 → hidden ch).
Proof.
  intros H. destruct (get_buf i ch _ H (ok_displayed _ _ H)) as (buf & d & Eb & Ed & Hok & Hcv).
  exists buf, d. split_and!; try done. intros -> buf' Eb' r t Ht _. unfold shown in Eb'. simplify_eq.
  apply (proj2 Hcv r t Ht). apply Z.bits_0.
Qed.

Lemma core_row_dirty ch row : core_ok i ch → 0 ≤ row ≤ 14 →
  ∃ b, row_dirty ch (displayed_buffer ch) row = Some b.
Proof.
  intros H Hr. destruct (core_shown ch H) as (buf & d & _ & Ed & _). exists (Z.testbit d row).
  apply row_dirty_testbit; [done|lia].
Qed.

(** Only the time and the snapshot of the displayed buffer change. *)
Definition settled (ch ch' : channel) : Prop :=
  ch_ok i ch' ∧ same_control ch ch' ∧ shown ch' = shown ch ∧ (∀ b, b ≠ 2 → rd (dirty ch') b = rd (dirty ch) b).

Lemma settled_refl ch : ch_ok i ch → settled ch ch.
Proof. intros H. split_and!; try done. Qed.

Lemma stream_loop_ok ch up n : ∀ row, displayable ch → 0 ≤ row → row + Z.of_nat n ≤ 15 →
  op_ok (stream_loop record i ch up row n) ch (λ ch', ch' = ch).
Proof.
  induction n as [|n IH]; intros row Hd Hr Hn; cbn [stream_loop]; [by apply op_ret|].
  destruct (Hd row) as (text & Hrow & Hok & d & Hdr & Hb); [lia|].
  destruct text as [|c0 cells]; [by destruct Hok as (? & ? & ? & _)|].
  destruct (format_row_ok 32 ch (displayed_buffer ch) row d up false false c0 cells) as (out & E & Hl & _); try done.
  eapply op_lift; [exact E|]. eapply (op_seq _ _ _ (λ ch', ch' = ch)).
  - destruct (forallb _ out); [by apply op_ret|]. by apply op_stream.
  - intros ch1 ->. apply IH; [done|lia|lia].
Qed.

Lemma stream_event_ok ch a z : ch_ok i ch → 0 ≤ a → a ≤ z + 1 → z ≤ 14 →
  op_ok (stream_event record i a z) ch (settled ch).
Proof.
  intros H Ha Haz Hz. apply op_get. eapply (op_seq _ _ _ (λ ch', ch' = ch)).
  - apply stream_loop_ok; [by apply core_displayable; destruct H|done|lia].
  - intros ? ->. apply op_set; [by left|]. split_and!; try done. by apply ch_ok_c0.
Qed.

Lemma stream_row_if_dirty_ok ch row : ch_ok i ch → 0 ≤ row ≤ 14 →
  op_ok (stream_row_if_dirty record i row) ch (settled ch).
Proof.
  intros H Hr. apply op_get. destruct (core_row_dirty ch row H Hr) as (b & E). eapply op_lift; [exact E|].
  destruct b; [apply stream_event_ok; [done|lia..]|]. by apply op_ret, settled_refl.
Qed.

Lemma row_changed_total t1 t2 : text_ok t1 → text_ok t2 → ∀ n k, 0 ≤ k → k + Z.of_nat n ≤ 33 →
  ∃ b, row_changed t1 t2 k n = Some b.
Proof.
  intros (L1 & _)%text_ok_iff (L2 & _)%text_ok_iff. induction n as [|n IH]; intros k Hk Hn; cbn [row_changed]; [by eexists|].
  destruct (rd_is_Some t1 k) as (x & -> & _); [lia|]. destruct (rd_is_Some t2 k) as (y & -> & _); [lia|].
  cbn [mbind option_bind]. destruct (if 0x1040 <=? y then _ else _) as [c1 c2].
  destruct (negb (c1 =? c2)); [by eexists|]. apply IH; lia.
Qed.

Lemma settled_trans ch ch1 ch2 : settled ch ch1 → settled ch1 ch2 → settled ch ch2.
Proof.
  intros (Hok1 & (? & ? & ? & ? & ? & ? & ?) & ? & Hd1) (Hok2 & (? & ? & ? & ? & ? & ? & ?) & ? & Hd2).
  split; [done|]. split; [split_and!; congruence|]. split; [congruence|].
  intros b Hb. by rewrite Hd2, Hd1.
Qed.

(** The row is copied to the snapshot. *)
Lemma snapshot_ok ch b row : ch_ok i ch → b = displayed_buffer ch → 0 ≤ row ≤ 14 →
  ∃ ch', (t1 ← row_of ch b row; ch ← put_row 2 row t1 ch; d ← rd (dirty ch) b; put_dirty 2 d ch) = Some ch' ∧ settled ch ch'.
Proof.
  intros H -> Hr. destruct (core_shown ch H) as (buf & d & Eb & Ed & Hok & [Hd _] & _).
  destruct (get_row buf row Hok Hr) as (text & Et & Ht). rewrite (row_of_eq _ _ _ _ Eb), Et. cbn [mbind option_bind].
  destruct (ok_bufs _ _ (ok_core _ _ H)) as (L1 & L2 & Hbufs). destruct (Hbufs 2) as (buf2 & d2 & Eb2 & Ed2 & Hok2 & Hd2); [lia|].
  destruct (put_row_upd 2 buf2 d2 ch row text L1 L2 Eb2 Ed2) as (ch1 & buf2' & -> & Hu & Hs); [destruct Hok2 as [-> _]; lia|].
  cbn [mbind option_bind]. destruct (buf_upd_shape _ _ _ _ _ Hu) as (M1 & M2 & B1 & D1 & Hj); [lia|].
  pose proof (ok_displayed _ _ (ok_core _ _ H)) as Hb01.
  destruct (Hj (displayed_buffer ch)) as [_ ->]; [lia|]. rewrite Ed. cbn [mbind option_bind].
  destruct (put_dirty_upd 2 buf2' d ch1 M1 M2 B1) as (ch2 & E2 & Hu2). exists ch2. split; [done|].
  pose proof (buf_upd_trans _ _ _ _ _ _ _ _ Hu Hu2) as Hu3.
  pose proof (buf_upd_control _ _ _ _ _ Hu3) as Hctl.
  destruct (buf_upd_shape _ _ _ _ _ Hu3) as (_ & _ & _ & _ & Hj3); [lia|].
  split_and!; try apply Hctl.
  - eapply ch_ok_upd; [done|done|lia|by eapply row_set_ok|by rewrite decide_False by lia|lia|lia].
  - unfold shown. rewrite (proj1 Hctl). apply Hj3. lia.
  - intros b Hb. by apply Hj3.
Qed.

Lemma stream_event_if_changed_ok ch : ch_ok i ch → op_ok (stream_event_if_changed record i) ch (settled ch).
Proof.
  intros H. apply op_get. pose proof (ok_row _ _ H) as Hr.
  destruct (core_row_dirty ch (curr_row ch) H Hr) as (b & E). eapply op_lift; [exact E|].
  destruct b; cbn [negb]; [|by apply op_ret, settled_refl].
  destruct (core_shown ch H) as (buf & d & Eb & Ed & Hok & _). destruct (get_row buf _ Hok Hr) as (t1 & Et & Ht1).
  unfold shown in Eb. eapply op_lift; [by rewrite (row_of_eq _ _ _ _ Eb)|].
  destruct (ok_bufs _ _ (ok_core _ _ H)) as (_ & _ & Hbufs). destruct (Hbufs 2) as (buf2 & d2 & Eb2 & Ed2 & Hok2 & _); [lia|].
  destruct (get_row buf2 _ Hok2 Hr) as (t2 & Et2 & Ht2). eapply op_lift; [by rewrite (row_of_eq _ _ _ _ Eb2)|].
  destruct (row_changed_total t1 t2 Ht1 Ht2 32 FIRST_COLUMN) as ([] & Ec); [done|done| |].
  - eapply op_lift; [exact Ec|]. eapply op_seq; [by apply stream_event_ok; [|lia..]|].
    intros ch1 Hs. pose proof Hs as (H1 & (E1 & E2 & _) & Esh & _).
    destruct (snapshot_ok ch1 (displayed_buffer ch) (curr_row ch) H1) as (ch2 & E3 & Hs2); [done|done|].
    eapply op_upd; [exact E3|left; apply Hs2|]. by eapply settled_trans.
  - eapply op_lift; [exact Ec|]. by apply op_ret, settled_refl.
Qed.

(** ** Modes *)

(** The event before a mode ends: the row of a roll-up caption, a changed row of a paint-on caption. *)
Lemma leave_mode_ok ch m : ch_ok i ch →
  op_ok (match m with
         | MODE_ROLL_UP => stream_row_if_dirty record i (curr_row ch)
         | MODE_PAINT_ON => stream_event_if_changed record i
         | _ => mret tt end) ch (settled ch).
Proof.
  intros H. destruct m; try by apply op_ret, settled_refl.
  - apply stream_row_if_dirty_ok; [done|]. apply (ok_row _ _ H).
  - by apply stream_event_if_changed_ok.
Qed.

Lemma core_set_mode m ch : core_ok i ch → (m = MODE_TEXT ↔ 4 ≤ i) → core_ok i (set_mode m ch).
Proof. intros [] ?. by split. Qed.

(** Pop-on and paint-on mode need no more than the core of the invariant. *)
Lemma ch_ok_mode m ch : core_ok i ch → ch_mode ch ≠ MODE_TEXT → m = MODE_POP_ON ∨ m = MODE_PAINT_ON → ch_ok i (set_mode m ch).
Proof.
  intros H Hm Hm'. pose proof (ok_text _ _ H) as Ht. split; [|destruct Hm'; subst; done..].
  apply core_set_mode; [done|]. rewrite <-Ht. split; [destruct Hm'; subst; done|done].
Qed.

Ltac leave H :=
  eapply op_seq; [match goal with E : ch_mode _ = ?m |- _ => apply (leave_mode_ok _ m H) end|].

Lemma resume_caption_loading_ok ch : ch_ok i ch → op_ok (resume_caption_loading record i) ch (ch_ok i).
Proof.
  intros H. apply op_get. destruct (ch_mode ch) eqn:Em; try by apply op_ret.
  all: leave H; intros ch1 (H1 & (_ & _ & _ & _ & _ & _ & Em1) & _); apply op_set; [by left|].
  all: apply ch_ok_mode; [by destruct H1|congruence|by left].
Qed.

(** ** Erasing *)

Definition erased (b : Z) (ch ch' : channel) : Prop :=
  core_ok i ch' ∧ same_control ch ch' ∧ (∀ buf, rd (buffer ch') b = Some buf → confined 1 0 buf) ∧
  ∀ j, j ≠ b → rd (buffer ch') j = rd (buffer ch) j.

Lemma erase_memory_ok ch b : core_ok i ch → b = 0 ∨ b = 1 → op_ok (erase_memory record i b) ch (erased b ch).
Proof.
  intros H Hb. apply op_get. destruct (get_buf i ch b H Hb) as (buf & d & Eb & Ed & Hok & Hcv).
  eapply op_lift; [exact Ed|]. destruct (Z.eqb_spec d 0) as [->|Hd].
  - apply op_ret. split_and!; try done. intros buf' Eb' r t Ht _. simplify_eq. apply (proj2 Hcv r t Ht), Z.bits_0.
  - destruct (ok_bufs _ _ H) as (L1 & L2 & _). 
    destruct (put_rows_upd b rows0 d ch L1 L2 Ed) as (ch1 & E1 & Hu1).
    destruct (buf_upd_shape _ _ _ _ _ Hu1) as (M1 & M2 & B1 & D1 & _); [lia|].
    destruct (put_dirty_upd b rows0 0 ch1 M1 M2 B1) as (ch2 & E2 & Hu2).
    pose proof (buf_upd_trans _ _ _ _ _ _ _ _ Hu1 Hu2) as Hu.
    assert (erased b ch ch2) as Her.
    { destruct (buf_upd_shape _ _ _ _ _ Hu) as (_ & _ & B & _ & Hj); [lia|]. split_and!.
      - eapply core_ok_upd; [done|done|lia|apply rows0_ok|]. rewrite decide_True by lia. apply rows0_covers.
      - by eapply buf_upd_control.
      - intros buf' E. rewrite B in E. simplify_eq. apply rows0_blank.
      - intros j Hne. by apply Hj. }
    assert ((ch ← put_rows b rows0 ch; put_dirty b 0 ch) = Some ch2) as E by (rewrite E1; exact E2).
    destruct (Z.eqb_spec b (displayed_buffer ch)) as [->|Hne].
    + eapply op_upd_display; [exact E|by apply core_displayable, Her|done].
    + eapply op_seq; [eapply op_upd; [exact E| |exact Her]|intros ch3 ?; by apply op_ret].
      destruct Her as (_ & Hc & _ & Hj). left. unfold shown. rewrite (proj1 Hc). apply Hj. lia.
Qed.

Lemma erased_ok ch b ch' : ch_ok i ch → erased b ch ch' → ch_ok i ch'.
Proof.
  intros H (Hco & (E1 & E2 & E3 & E4 & E5 & E6 & E7) & Hb & Hj).
  assert (∀ buf a z, rd (buffer ch') (displayed_buffer ch) = Some buf →
    (∀ buf0, rd (buffer ch) (displayed_buffer ch) = Some buf0 → confined a z buf0) → confined a z buf) as Hc.
  { intros buf a z Eb H0. destruct (decide (displayed_buffer ch = b)) as [<-|Hne].
    - intros r t Ht _. by apply (Hb buf Eb r t Ht); lia.
    - apply H0. by rewrite <-(Hj _ Hne). }
  split; [done|..]; rewrite ?E1, ?E2, ?E4, ?E7; intros Hm.
  - destruct (ok_roll _ _ H Hm) as [Hw Hcf]. split; [done|]. intros buf Eb. by apply Hc.
  - intros buf Eb. apply Hc; [done|]. by apply (ok_unknown _ _ H).
Qed.

Lemma displayed_cases ch : core_ok i ch → displayed_buffer ch .^ 1 = 0 ∨ displayed_buffer ch .^ 1 = 1.
Proof. intros H. destruct (ok_displayed _ _ H) as [-> | ->]; [by right|by left]. Qed.

Lemma erase_displayed_memory_ok ch : ch_ok i ch → op_ok (erase_displayed_memory record i) ch (ch_ok i).
Proof.
  intros H. apply op_get. destruct (ch_mode ch) eqn:Em; try by apply op_ret.
  all: leave H; intros ch1 (H1 & (E1 & _) & _).
  all: eapply op_weaken; [apply erase_memory_ok; [by destruct H1|rewrite <-E1; apply H1]|intros ch2; by apply erased_ok].
Qed.

Lemma erase_non_displayed_ok ch : ch_ok i ch → op_ok (erase_memory record i (displayed_buffer ch .^ 1)) ch (ch_ok i).
Proof.
  intros H. eapply op_weaken; [apply erase_memory_ok; [by destruct H|by apply displayed_cases; destruct H]|].
  intros ch2. by apply erased_ok.
Qed.

(** An operation that ends with the client up to date, whatever it knew before. *)
Definition op_loud (m : M (X := trace) unit) (ch : channel) (Q : channel → Prop) : Prop :=
  ∀ p, ∃ ch' tr, runs cd i m ch p tt ch' p tr ∧ Forall (entry_ok i) tr ∧ (∀ v, synced (seen v tr) ch') ∧ Q ch'.

Lemma op_loud_ok m ch Q : op_loud m ch Q → op_ok m ch Q.
Proof.
  intros H p. destruct (H p) as (ch' & tr & R & F & S & HQ). exists ch', tr. split; [done|]. split; [|done].
  split; [done|]. intros v _. apply S.
Qed.

Lemma op_loud_set f (g : unit → M unit) ch Q : op_loud (g tt) (f ch) Q → op_loud (set_ch i f ≫= g) ch Q.
Proof.
  intros H p. destruct (H p) as (ch' & tr & R & F & S & HQ). exists ch', tr. split; [|done].
  apply (runs_bind _ _ _ _ tt (f ch) p [] _ _ _ tr); [by apply runs_upd|done].
Qed.

Lemma op_loud_seq (m : M unit) (g : unit → M unit) ch (Q1 Q : channel → Prop) :
  op_ok m ch Q1 → (∀ ch1, Q1 ch1 → op_loud (g tt) ch1 Q) → op_loud (m ≫= g) ch Q.
Proof.
  intros H1 H2 p. destruct (H1 p) as (ch1 & tr1 & R1 & [F1 _] & HQ1). destruct (H2 ch1 HQ1 p) as (ch2 & tr2 & R2 & F2 & S2 & HQ2).
  exists ch2, (tr1 ++ tr2). split; [by eapply runs_bind|]. split_and!; [by apply Forall_app| |done].
  intros v. rewrite seen_app. apply S2.
Qed.

Lemma op_loud_get f ch Q : op_loud (f ch) ch Q → op_loud (get_ch i ≫= f) ch Q.
Proof. intros H p. destruct (H p) as (ch' & tr & ? & ?). exists ch', tr. split; [by apply runs_get|done]. Qed.
Lemma op_loud_lift {A} (o : option A) a (f : A → M unit) ch Q : o = Some a → op_loud (f a) ch Q → op_loud (lift o ≫= f) ch Q.
Proof. intros Ho H p. destruct (H p) as (ch' & tr & ? & ?). exists ch', tr. split; [by eapply runs_lift|done]. Qed.
Lemma op_loud_now f ch Q : op_loud (f (cd_timestamp cd)) ch Q → op_loud (now ≫= f) ch Q.
Proof. intros H p. destruct (H p) as (ch' & tr & ? & ?). exists ch', tr. split; [by apply runs_now|done]. Qed.

Lemma op_loud_hidden ch (Q : channel → Prop) : hidden ch → Q ch → op_loud (mret tt) ch Q.
Proof. intros Hh HQ p. exists ch, []. split; [apply runs_ret|]. split_and!; try done. intros v. by right. Qed.

Lemma op_loud_display fl ch (Q : channel → Prop) : displayable ch → Q ch → op_loud (display_event record i fl) ch Q.
Proof.
  intros Hd HQ p. eexists ch, _. split; [apply runs_display|]. split_and!; [by repeat constructor| |done].
  intros v. by left.
Qed.

Lemma ch_ok_swap ch : core_ok i ch → ch_mode ch ≠ MODE_TEXT →
  ch_ok i (set_mode MODE_POP_ON (set_displayed (displayed_buffer ch .^ 1) ch)).
Proof.
  intros H Hm. pose proof (displayed_cases ch H) as Hb. pose proof (ok_text _ _ H) as Ht. split; [|done..].
  destruct H. split; try done. cbn [ch_mode set_mode]. rewrite <-Ht. split; done.
Qed.

Lemma end_of_caption_ok ch : ch_ok i ch → op_ok (end_of_caption record i) ch (ch_ok i).
Proof.
  intros H. apply op_get. destruct (ch_mode ch) eqn:Em; try by apply op_ret.
  all: leave H; intros ch1 (H1 & (E1 & _ & _ & _ & _ & _ & Em1) & _ & _).
  all: apply op_loud_ok, op_loud_set, op_loud_get; rewrite <-E1.
  all: pose proof (ch_ok_swap ch1 (ok_core _ _ H1) ltac:(congruence)) as H2.
  all: set (ch2 := set_mode MODE_POP_ON _) in *.
  all: destruct (core_shown ch2 H2) as (buf & d & _ & Ed & _ & _ & Hd).
  all: eapply op_loud_lift; [exact Ed|]; destruct (Z.eqb_spec d 0); [apply op_loud_hidden; auto|].
  all: apply op_loud_now, op_loud_set; eapply op_loud_seq.
  all: try (apply stream_event_ok; [by apply ch_ok_c0|done..]).
  all: intros ch3 (H3 & _); apply op_loud_display; [by apply core_displayable; destruct H3|done].
Qed.

(** Several operations first ask whether the displayed buffer is empty. *)
Lemma text_restart_ok ch : ch_ok i ch → ch_mode ch = MODE_TEXT → op_ok (text_restart record i) ch (ch_ok i).
Proof.
  intros H Hm. apply op_get. pose proof (ok_row _ _ H) as Hr.
  eapply op_seq; [by apply stream_row_if_dirty_ok|]. intros ch1 (H1 & (E1 & _ & _ & _ & _ & _ & Em1) & _).
  eapply op_seq; [apply erase_memory_ok; [by destruct H1|apply H]|].
  intros ch2 He. apply (erased_ok ch1) in He as H2; [|done]. apply op_set; [by left|].
  destruct He as (_ & (_ & _ & _ & _ & _ & _ & Em2) & _).
  destruct H2 as [[] ? ?]. split; [by split|cbn; congruence|cbn; congruence].
Qed.

(** [memcpy] of the displayed buffer to the snapshot. *)
Lemma save_displayed_ok ch : ch_ok i ch →
  ∃ ch', (buf ← rd (buffer ch) (displayed_buffer ch); put_rows 2 buf ch) = Some ch' ∧ settled ch ch'.
Proof.
  intros H. destruct (core_shown ch H) as (buf & d & Eb & Ed & Hok & [Hd _] & _). unfold shown in Eb. rewrite Eb.
  cbn [mbind option_bind].
  destruct (ok_bufs _ _ (ok_core _ _ H)) as (L1 & L2 & Hbufs). destruct (Hbufs 2) as (buf2 & d2 & Eb2 & Ed2 & Hok2 & Hd2); [lia|].
  rewrite decide_False in Hd2 by lia.
  destruct (put_rows_upd 2 buf d2 ch L1 L2 Ed2) as (ch' & E & Hu). exists ch'. split; [done|].
  pose proof (buf_upd_control _ _ _ _ _ Hu) as Hctl. pose proof (ok_displayed _ _ (ok_core _ _ H)) as Hb01.
  destruct (buf_upd_shape _ _ _ _ _ Hu) as (_ & _ & _ & _ & Hj3); [lia|]. split_and!; try apply Hctl.
  - eapply ch_ok_upd; [done|done|lia|done|by rewrite decide_False by lia|lia|lia].
  - unfold shown. rewrite (proj1 Hctl). apply Hj3. lia.
  - intros b Hb. by apply Hj3.
Qed.

Lemma resume_direct_captioning_ok ch : ch_ok i ch → op_ok (resume_direct_captioning record i) ch (ch_ok i).
Proof.
  intros H. apply op_get. pose proof (ok_row _ _ H) as Hr.
  assert (ch_mode ch ≠ MODE_TEXT → ∀ ch2, settled ch ch2 → op_ok (set_ch i (set_mode MODE_PAINT_ON)) ch2 (ch_ok i)) as Hend.
  { intros Hm ch2 (H2 & (_ & _ & _ & _ & _ & _ & Em2) & _). apply op_set; [by left|].
    apply ch_ok_mode; [by destruct H2|congruence|by right]. }
  assert (∀ ch1, settled ch ch1 → op_ok (upd_ch i (λ ch, buf ← rd (buffer ch) (displayed_buffer ch); put_rows 2 buf ch))
    ch1 (settled ch)) as Hsave.
  { intros ch1 Hs. destruct (save_displayed_ok ch1) as (ch2 & E & Hs2); [apply Hs|].
    eapply op_upd; [exact E|left; apply Hs2|by eapply settled_trans]. }
  destruct (ch_mode ch) eqn:Em; try by apply op_ret.
  all: eapply op_seq; [|intros ch1 Hs1; eapply op_seq; [|by apply Hend]].
  all: first [by apply op_ret, settled_refl | by apply stream_row_if_dirty_ok | by apply Hsave | by apply op_ret].
Qed.

(** ** Scrolling and windows *)

(** A change of the displayed buffer that keeps the core. *)
Lemma core_upd_shown ch ch' buf d : core_ok i ch → buf_upd (displayed_buffer ch) buf d ch ch' → rows_ok buf → covers d buf →
  core_ok i ch' ∧ shown ch' = Some buf.
Proof.
  intros H Hu Hr Hc. pose proof (ok_displayed _ _ H).
  split; [eapply core_ok_upd; [done|done|lia|done|by rewrite decide_True by lia]|].
  unfold shown. rewrite (proj1 (buf_upd_control _ _ _ _ _ Hu)).
  destruct (buf_upd_shape _ _ _ _ _ Hu) as (_ & _ & B & _); [lia|done].
Qed.

Lemma scroll_ok ch row window : ch_ok i ch → row = curr_row ch → 1 ≤ window ≤ row + 1 → ch_mode ch ≠ MODE_UNKNOWN →
  (ch_mode ch = MODE_ROLL_UP → window ≤ window_rows ch) →
  (∀ buf, shown ch = Some buf → confined (row + 1 - window) row buf) →
  op_ok (scroll record i row window) ch (ch_ok i).
Proof.
  intros H -> Hw Hunk Hroll Hcf. pose proof (ok_row _ _ H) as Hr.
  eapply op_seq; [by apply stream_row_if_dirty_ok|].
  intros ch1 (H1 & (E1 & E2 & E3 & E4 & _ & _ & E7) & Es & _). apply op_get.
  destruct (core_shown ch1 H1) as (buf & d & Eb & _). rewrite <-E2. pose proof (ok_displayed _ _ (ok_core _ _ H1)).
  destruct (roll_rows_ok i ch1 window buf) as (ch2 & buf' & d' & E & Hu & Hok & Hcv & Hc2); [apply H1|done|lia| |].
  { rewrite E2. apply Hcf. by rewrite <-Es. }
  destruct (core_upd_shown ch1 ch2 buf' d' H1 Hu Hok Hcv) as [Hco Hsh].
  eapply op_upd_display; [exact E|by apply core_displayable|].
  eapply ch_ok_upd; [exact H1|exact Hu|lia|done|by rewrite decide_True by lia|..]; intros _ Hm; [|congruence].
  eapply confined_weaken; [exact Hc2| |done]. rewrite E4. specialize (Hroll ltac:(congruence)). lia.
Qed.

Lemma core_column_pac ch : ch_ok i ch → ch_ok i (set_pac 0 (set_column FIRST_COLUMN ch)).
Proof. intros H. apply ch_ok_pac; [|done]. by apply ch_ok_column. Qed.

Lemma carriage_return_ok ch : ch_ok i ch → op_ok (carriage_return record i) ch (ch_ok i).
Proof.
  intros H. apply op_get. pose proof (ok_row _ _ H) as Hr. pose proof (core_column_pac ch H) as H1.
  destruct (core_shown ch H) as (buf & d & Eb & Ed & Hok & _).
  assert (∀ m, op_ok m (set_pac 0 (set_column FIRST_COLUMN ch)) (ch_ok i) →
    op_ok (_ ← set_ch i (λ ch, set_pac 0 (set_column FIRST_COLUMN ch)); m) ch (ch_ok i)) as Hstart.
  { intros m Hm. eapply (op_seq _ _ _ (λ ch1, ch1 = set_pac 0 (set_column FIRST_COLUMN ch))).
    - apply op_set; [by left|done].
    - by intros ? ->. }
  destruct (ch_mode ch) eqn:Em; try by apply op_ret.
  - apply Hstart. eapply op_lift; [exact Ed|]. destruct (d =? 0); [by apply op_ret|].
    destruct (ok_roll _ _ H Em) as [Hw Hcf]. unfold FIRST_ROW. rewrite Z.sub_0_r.
    apply scroll_ok; [done|done|cbn; lia|cbn; congruence|cbn; lia|].
    intros buf' Eb'. eapply confined_weaken; [apply confined_clip, Hcf; exact Eb'|cbn; lia|cbn; lia].
  - apply Hstart. destruct (Z.eqb_spec (curr_row ch) LAST_ROW) as [El|El]; cbn [negb].
    + eapply op_lift; [exact Ed|]. destruct (d =? 0); [by apply op_ret|]. unfold LAST_ROW, MAX_ROWS in *.
      apply scroll_ok; [done|done|lia|cbn; congruence|cbn; congruence|].
      intros buf' Eb' r t Ht Hout. change (shown ch = Some buf') in Eb'. simplify_eq. apply rd_Some in Ht. destruct Hok. lia.
    + unfold LAST_ROW in El. eapply op_seq; [by apply stream_row_if_dirty_ok|].
      intros ch1 (H2 & (_ & E2 & _ & _ & _ & _ & E7) & _). apply op_set; [by left|]. cbn in E7.
      destruct H2 as [[] ? ?]. split; [by split; cbn; try done; lia|cbn; congruence|cbn; congruence].
Qed.

(** After the window has shrunk both window sizes are right. *)
Lemma resize_window_ok ch new : ch_ok i ch → ch_mode ch = MODE_ROLL_UP → 2 ≤ new ≤ 4 →
  op_ok (resize_window record i new) ch (λ ch', ch_ok i ch' ∧ ch_mode ch' = MODE_ROLL_UP ∧
    ∀ buf, shown ch' = Some buf → confined (curr_row ch' + 1 - new) (curr_row ch') buf).
Proof.
  intros H Hm Hn. apply op_get. pose proof (ok_row _ _ H) as Hr. destruct (ok_roll _ _ H Hm) as [Hw Hcf].
  destruct (core_shown ch H) as (buf & d & Eb & Ed & Hok & Hcv & Hd). eapply op_lift; [exact Ed|].
  destruct (Z.eqb_spec d 0) as [Hz|_].
  { apply op_ret. split_and!; try done. intros buf' Eb' r t Ht _. by apply (Hd Hz buf' Eb' r t Ht); lia. }
  unfold FIRST_ROW. rewrite Z.sub_0_r. set (old := Z.min (window_rows ch) (curr_row ch + 1)). set (new' := Z.min new (curr_row ch + 1)).
  pose proof (ok_displayed _ _ (ok_core _ _ H)).
  destruct (_ || _) eqn:E.
  - apply op_ret. split_and!; try done. intros buf' Eb'.
    eapply confined_weaken; [apply confined_clip, (Hcf buf' Eb')| |done]. lia.
  - destruct (shrink_window_ok i ch old new' buf) as (ch' & buf' & d' & E' & Hu & Hok' & Hcv' & Hc'); [apply H|done|lia|lia| |].
    { eapply confined_weaken; [apply confined_clip, (Hcf buf Eb)| |done]. lia. }
    destruct (core_upd_shown ch ch' buf' d' H Hu Hok' Hcv') as [Hco Hsh].
    destruct (buf_upd_control _ _ _ _ _ Hu) as (_ & E2 & _ & _ & _ & _ & E7).
    eapply op_upd_display; [exact E'|by apply core_displayable|]. split_and!; [|congruence|].
    + eapply ch_ok_upd; [exact H|exact Hu|lia|done|by rewrite decide_True by lia|..]; intros _ Hm'; [|congruence].
      eapply confined_weaken; [exact Hc'|lia|done].
    + intros b Eb2. simplify_eq. rewrite E2. eapply confined_weaken; [exact Hc'|lia|done].
Qed.

Lemma core_enter_roll ch new : core_ok i ch → ch_mode ch ≠ MODE_TEXT → core_ok i (set_window new (set_mode MODE_ROLL_UP ch)).
Proof.
  intros H Hm. pose proof (ok_text _ _ H) as Ht. destruct H. split; try done. cbn. rewrite <-Ht. done.
Qed.

Lemma roll_up_caption_ok ch c2 : ch_ok i ch → 5 ≤ c2 .& 7 ≤ 7 → op_ok (roll_up_caption record i c2) ch (ch_ok i).
Proof.
  intros H Hc. apply op_get. set (w := (c2 .& 7) - 3). pose proof (ok_row _ _ H) as Hr.
  pose proof (ok_displayed _ _ (ok_core _ _ H)) as Hb01.
  assert (∀ ch1, ch_ok i ch1 → ch_mode ch1 = MODE_POP_ON ∨ ch_mode ch1 = MODE_PAINT_ON → displayed_buffer ch1 = displayed_buffer ch →
    op_ok (_ ← set_ch i (λ ch, set_window w (set_mode MODE_ROLL_UP ch));
           _ ← set_ch i (λ ch, set_column FIRST_COLUMN (set_row LAST_ROW ch));
           _ ← erase_memory record i (displayed_buffer ch);
           erase_memory record i (displayed_buffer ch .^ 1)) ch1 (ch_ok i)) as Hfresh.
  { intros ch1 H1 Hm Ed. set (ch2 := set_column FIRST_COLUMN (set_row LAST_ROW (set_window w (set_mode MODE_ROLL_UP ch1)))).
    assert (core_ok i ch2) as H2.
    { pose proof (core_enter_roll ch1 w H1 ltac:(destruct Hm; congruence)) as []. by split. }
    eapply op_seq; [apply (op_set _ _ (λ ch', ch' = set_window w (set_mode MODE_ROLL_UP ch1))); [by left|done]|intros ? ->].
    eapply op_seq; [apply (op_set _ _ (λ ch', ch' = ch2)); [by left|done]|intros ? ->].
    eapply op_seq; [by apply erase_memory_ok|]. intros ch3 (H3 & Hc3 & Hb3 & _).
    eapply op_weaken; [by apply erase_memory_ok; [|apply displayed_cases, H]|]. intros ch4 (H4 & Hc4 & _ & Hj4).
    assert (ch_mode ch4 = MODE_ROLL_UP ∧ window_rows ch4 = w ∧ displayed_buffer ch4 = displayed_buffer ch) as (E1 & E2 & E3).
    { destruct Hc3 as (? & ? & ? & ? & ? & ? & ?), Hc4 as (? & ? & ? & ? & ? & ? & ?). subst ch2. cbn in *. split_and!; congruence. }
    split; [done|..]; intros Hm4; [|congruence]. split; [lia|]. intros buf Eb r t Ht _. rewrite E3 in Eb.
    rewrite Hj4 in Eb by (destruct Hb01 as [-> | ->]; done). by apply (Hb3 buf Eb r t Ht); lia. }
  destruct (ch_mode ch) eqn:Em; try by apply op_ret.
  - apply op_set; [by left|]. split; [by apply core_enter_roll; [apply H|congruence]|..]; intros Hm; [|done].
    split; [cbn; lia|]. intros buf Eb r t Ht _. by apply (ok_unknown _ _ H Em buf Eb r t Ht); lia.
  - eapply op_seq; [apply (resize_window_ok ch w); [done|done|lia]|]. intros ch1 (H1 & Em1 & Hcf).
    apply op_set; [by left|]. split; [by apply core_enter_roll; [apply H1|congruence]|..]; intros Hm; [|done].
    split; [cbn; lia|]. done.
  - eapply (op_seq _ _ _ (λ ch', ch' = ch)); [by apply op_ret|].
    intros ? ->. apply Hfresh; [done|by left|done].
  - eapply op_seq; [by apply stream_event_if_changed_ok|].
    intros ch1 (H1 & (E1 & _ & _ & _ & _ & _ & Em1) & _). apply Hfresh; [done|right; congruence|done].
Qed.

(** ** Cells *)

Lemma delete_to_end_of_row_ok ch : ch_ok i ch → ch_mode ch ≠ MODE_UNKNOWN → op_ok (delete_to_end_of_row record i) ch (ch_ok i).
Proof.
  intros H Hm. apply op_get. pose proof (ok_row _ _ H) as Hr.
  destruct (get_buf i ch _ H (write_buffer_range i ch H)) as (buf & d & Eb & Ed & _).
  eapply op_lift; [apply row_dirty_testbit; [exact Ed|lia]|]. destruct (Z.testbit d _); cbn [negb]; [|by apply op_ret].
  destruct (erase_row_end_ok i ch H Hm) as (ch' & E & H' & _).
  eapply op_upd_display; [exact E|by apply core_displayable; destruct H'|done].
Qed.

Lemma backspace_ok ch : ch_ok i ch → ch_mode ch ≠ MODE_UNKNOWN → op_ok (backspace record i) ch (ch_ok i).
Proof.
  intros H Hm. apply op_get. pose proof (ok_row _ _ H) as Hr. pose proof (ok_column _ _ H) as Hcol. unfold FIRST_COLUMN.
  destruct (Z.leb_spec (curr_column ch) 1); [by apply op_ret|].
  set (ch1 := set_column (curr_column ch - 1) ch). assert (ch_ok i ch1) as H1 by (by apply ch_ok_column; [|lia]).
  eapply op_seq; [apply (op_set _ _ (λ ch', ch' = ch1)); [by left|done]|intros ? ->].
  destruct (get_buf i ch _ H (write_buffer_range i ch H)) as (buf & d & Eb & Ed & Hok & _).
  destruct (get_row buf _ Hok Hr) as (text & Et & Ht). eapply op_lift; [by rewrite (row_of_eq _ _ _ _ Eb)|].
  apply text_ok_iff in Ht as (Hl & _). destruct (rd_is_Some text (curr_column ch - 1)) as (x & Ex & _); [lia|].
  eapply op_lift; [exact Ex|]. destruct (x =? 0); [by apply op_ret|].
  destruct (erase_cell_ok i ch1 H1 Hm) as (ch' & E & H' & _).
  eapply op_upd_display; [exact E|by apply core_displayable; destruct H'|done].
Qed.

(** ** PACs *)

Lemma pac_row_map_range k : 0 ≤ k < 16 → -1 ≤ pac_row_map.[k] ≤ 14.
Proof.
  intros Hk. pose proof (forallb_seqZ 16 (λ k, (-1 <=? pac_row_map.[k]) && (pac_row_map.[k] <=? 14)) eq_refl k Hk) as E.
  cbv beta in E. lia.
Qed.

Lemma pac_column_ok ch c2 : ch_ok i ch → 0x40 ≤ c2 < 0x80 → ch_ok i (pac_column c2 ch).
Proof.
  intros H Hc. unfold pac_column. apply ch_ok_pac.
  - destruct (has c2 16); [|done]. apply ch_ok_column; [done|]. unfold FIRST_COLUMN.
    pose proof (land_range 4 c2 0x0E ltac:(lia) ltac:(lia)).
    assert (c2 .& 0x0E ≤ 14) as ?; [|lia].
    pose proof (forallb_seqZ 128 (λ c, c .& 0x0E <=? 14) eq_refl c2 ltac:(lia)) as E.
    cbv beta in E. lia.
  - pose proof (forallb_seqZ 128 (λ c, (c <? 0x40) || is_blank_cell (0x1000 .| c)) eq_refl c2 ltac:(lia)) as E.
    cbv beta in E. rewrite orb_true_iff in E. destruct E as [E|E]; [lia|done].
Qed.

(** The window is moved, then the cursor. *)
Lemma move_window_ok ch row : ch_ok i ch → ch_mode ch = MODE_ROLL_UP → window_rows ch - 1 ≤ row ≤ 14 →
  op_ok (_ ← move_window record i row; set_ch i (set_row row)) ch (ch_ok i).
Proof.
  intros H Hm Hrow. destruct (ok_roll _ _ H Hm) as [Hw Hcf]. pose proof (ok_displayed _ _ (ok_core _ _ H)).
  assert (∀ ch1 buf, core_ok i ch1 → ch_mode ch1 = MODE_ROLL_UP → window_rows ch1 = window_rows ch → shown ch1 = Some buf →
    confined (row + 1 - window_rows ch) row buf → op_ok (set_ch i (set_row row)) ch1 (ch_ok i)) as Hend.
  { intros ch1 buf H1 Hm1 Ew Eb Hc. apply op_set; [by left|]. pose proof H1 as []. split; [split; try done; cbn; lia|..]; cbn.
    - intros _. split; [by rewrite Ew|]. intros buf' Eb'. unfold shown in Eb. simplify_eq. by rewrite Ew.
    - congruence. }
  destruct (core_shown ch H) as (buf & d & Eb & Ed & Hok & _ & Hd).
  eapply (op_seq _ _ _ (λ ch1, core_ok i ch1 ∧ ch_mode ch1 = MODE_ROLL_UP ∧ window_rows ch1 = window_rows ch ∧
    ∃ buf, shown ch1 = Some buf ∧ confined (row + 1 - window_rows ch) row buf)).
  - apply op_get. eapply op_lift; [exact Ed|]. destruct (Z.eqb_spec row (curr_row ch)) as [->|Hne]; cbn [orb].
    { apply op_ret. split_and!; [apply H|done|done|]. exists buf. split; [done|]. by apply Hcf. }
    destruct (Z.eqb_spec d 0) as [Hz|_].
    { apply op_ret. split_and!; [apply H|done|done|]. exists buf. split; [done|]. intros r t Ht _. by apply (Hd Hz buf Eb r t Ht); lia. }
    destruct (shift_window_ok i ch row buf) as (ch' & buf' & d' & E & Hu & Hok' & Hcv' & Hc'); try done; [apply H|by apply Hcf|].
    destruct (core_upd_shown ch ch' buf' d' H Hu Hok' Hcv') as [Hco Hsh].
    destruct (buf_upd_control _ _ _ _ _ Hu) as (_ & _ & _ & E4 & _ & _ & E7).
    eapply op_upd_display; [exact E|by apply core_displayable|]. split_and!; [done|congruence|congruence|]. eauto.
  - intros ch1 (H1 & Hm1 & Ew & b & Eb1 & Hc1). by eapply Hend.
Qed.

Lemma preamble_address_code_ok ch c1 c2 : ch_ok i ch → 0 ≤ c1 → 0x40 ≤ c2 < 0x80 →
  op_ok (preamble_address_code record i c1 c2) ch (ch_ok i).
Proof.
  intros H Hc1 Hc2. unfold preamble_address_code. set (row := pac_row_map.[_]).
  assert (-1 ≤ row ≤ 14) as Hrow.
  { apply pac_row_map_range. pose proof (land_range 3 c1 7). pose proof (land_range 1 (c2 ≫ 5) 1). lia. }
  clearbody row. destruct (Z.ltb_spec row 0); [by apply op_ret|]. apply op_get.
  assert (∀ ch1, ch_ok i ch1 → op_ok (set_ch i (pac_column c2)) ch1 (ch_ok i)) as Hend.
  { intros ch1 H1. apply op_set; [|by apply pac_column_ok]. left. unfold pac_column. by destruct (has c2 16). }
  assert (∀ ch1, ch_ok i ch1 → ch_mode ch1 = MODE_POP_ON ∨ ch_mode ch1 = MODE_PAINT_ON →
    op_ok (set_ch i (set_row row)) ch1 (ch_ok i)) as Hset.
  { intros ch1 [[] ? ?] Hm. apply op_set; [by left|]. split; [by split; try done; cbn; lia|..]; cbn; destruct Hm; congruence. }
  destruct (ch_mode ch) eqn:Em; [by apply op_ret|..].
  all: eapply op_seq; [|exact Hend].
  - apply move_window_ok; [done|done|]. destruct (ok_roll _ _ H Em). destruct (Z.ltb_spec (row + 1) (window_rows ch)); lia.
  - apply Hset; [done|by left].
  - eapply op_seq; [by apply stream_event_if_changed_ok|]. intros ch1 (H1 & (_ & _ & _ & _ & _ & _ & E7) & _).
    apply Hset; [done|right; congruence].
  - by apply op_ret.
Qed.

End rules.
