(* ===== verification/Cc608Inv.v ===== *)
(** The caption decoder as a whole: for all inputs [_vbi_cc608_decoder_feed] stays inside its
    arrays, keeps the invariant of all channels, changes the channels of its field only, and
    keeps a client that looks at a channel when it is told to up to date. *)
From S2P Require Import Prelude Double Format Lang Hamm Sliced Event Cc608Format Cc608 Cc608Rows Cc608Ops.

(** ** The decoder invariant *)

(** The field a channel is transmitted in: CC1, CC2, T1, T2 on field 1, the others on field 2. *)
Definition field_of (i : Z) : Z := i ≫ 1 .& 1.

Definition curr_ok (f n : Z) : Prop := n = UNKNOWN_CHANNEL ∨ 1 ≤ n ≤ 8 ∧ field_of (n - 1) = f.

Record cd_ok (cd : decoder) : Prop := CdOk {
  ok_channels : length (channels cd) = 8%nat;
  ok_channel : ∀ i ch, rd (channels cd) i = Some ch → ch_ok i ch;
  ok_curr : length (curr_ch_num cd) = 2%nat ∧ ∀ f n, rd (curr_ch_num cd) f = Some n → curr_ok f n;
  ok_expect : length (expect_ctrl cd) = 2%nat;
  ok_xds : length (in_xds cd) = 2%nat
}.

(** ** A client that looks when it is told to *)

(** What it saw last of every channel. *)
Definition view : Type := Z → option rows.
Definition shown_of (cd : decoder) (i : Z) : option rows := ch ← rd (channels cd) i; shown ch.
Definition look (cd : decoder) (ev : event) (v : view) : view :=
  match ev with
  | CC608 chan _ _ => λ j, if j =? chan - 1 then shown_of cd j else v j
  | CC608_STREAM _ _ _ _ _ => v
  end.
Definition look_all (v : view) (tr : trace) : view := fold_left (λ v e, look e.1 e.2 v) tr v.

(** The client knows what every channel displays, but for channels that display nothing and
    the channel for which an event is pending. *)
Definition up_to_date (v : view) (cd : decoder) : Prop :=
  ∀ j ch, rd (channels cd) j = Some ch → event_pending cd = Some j ∨ synced (v j) ch.

(** An event of field [f], sent by a decoder whose pages can be formatted. *)
Definition sent_ok (f : Z) (e : decoder * event) : Prop :=
  match e.2 with
  | CC608 chan _ _ => field_of (chan - 1) = f ∧ 1 ≤ chan ≤ 8
  | CC608_STREAM _ _ chan _ text => field_of (chan - 1) = f ∧ 1 ≤ chan ≤ 8 ∧ length text = 32%nat
  end ∧ length (channels e.1) = 8%nat ∧ ∀ j ch, rd (channels e.1) j = Some ch → displayable ch.

(** From [cd] to [cd'] on field [f], sending [tr]. *)
Record advance (f : Z) (cd : decoder) (tr : trace) (cd' : decoder) : Prop := Advance {
  adv_ok : cd_ok cd';
  adv_other : ∀ j, field_of j ≠ f → rd (channels cd') j = rd (channels cd) j;
  adv_curr : ∀ g, g ≠ f → rd (curr_ch_num cd') g = rd (curr_ch_num cd) g;
  adv_expect : ∀ g, g ≠ f → rd (expect_ctrl cd') g = rd (expect_ctrl cd) g;
  adv_sent : Forall (sent_ok f) tr;
  adv_view : ∀ v, up_to_date v cd → up_to_date (look_all v tr) cd'
}.

Lemma look_all_app v tr1 tr2 : look_all v (tr1 ++ tr2) = look_all (look_all v tr1) tr2.
Proof. apply fold_left_app. Qed.

Lemma advance_refl f cd : cd_ok cd → advance f cd [] cd.
Proof. intros H. by split. Qed.

Lemma advance_trans f cd tr1 cd1 tr2 cd2 : advance f cd tr1 cd1 → advance f cd1 tr2 cd2 → advance f cd (tr1 ++ tr2) cd2.
Proof.
  intros [A1 A2 A3 A4 A5 A6] [B1 B2 B3 B4 B5 B6]. split; [done|..].
  - intros j Hj. by rewrite B2, A2.
  - intros g Hg. by rewrite B3, A3.
  - intros g Hg. by rewrite B4, A4.
  - by apply Forall_app.
  - intros v Hv. rewrite look_all_app. auto.
Qed.

(** ** Operations on a channel of the decoder *)

Lemma at_same cd i ch : rd (channels cd) i = Some ch → at_ cd i ch (event_pending cd) = cd.
Proof.
  intros H. pose proof (rd_Some _ _ _ H). rewrite rd_lookup in H by lia. destruct cd. unfold at_. cbn in *.
  by rewrite list_insert_id.
Qed.

Lemma rd_channels_at cd i ch p j : length (channels cd) = 8%nat → 0 ≤ i < 8 →
  rd (channels (at_ cd i ch p)) j = if decide (j = i) then Some ch else rd (channels cd) j.
Proof.
  intros Hl Hi. cbn [at_ channels set_pending set_channels]. destruct (decide (j = i)) as [->|Hne].
  - rewrite rd_lookup, list_lookup_insert_eq by lia. done.
  - unfold rd. case_decide; [|done]. apply list_lookup_insert_ne. lia.
Qed.

Lemma cd_ok_at cd i ch p : cd_ok cd → 0 ≤ i < 8 → ch_ok i ch → cd_ok (at_ cd i ch p).
Proof.
  intros [H1 H2 H3 H4 H5] Hi Hc. split; try done.
  - cbn. by rewrite length_insert.
  - intros j c. rewrite rd_channels_at by done. case_decide; [intros [= <-]; by subst|]. apply H2.
Qed.

(** The local trace as the client sees it. *)
Lemma look_all_snap cd i v tr : length (channels cd) = 8%nat → 0 ≤ i < 8 → Forall (entry_ok i) tr →
  ∀ j, look_all v (map (snap cd i) tr) j = if decide (j = i) then seen (v i) tr else v j.
Proof.
  intros Hl Hi Ht j. revert v. induction Ht as [|[[c p] ev] tr [_ He] Ht IH]; intros v; cbn [map look_all fold_left seen snap].
  - case_decide; congruence.
  - unfold look_all in IH. rewrite IH. destruct ev as [chan m fl|]; [|done]. cbn [snd event_ok] in He. subst chan.
    assert (look (snap cd i (c, p, CC608 (i + 1) m fl)).1 (snap cd i (c, p, CC608 (i + 1) m fl)).2 v j =
      if decide (j = i) then shown c else v j) as E.
    { cbn [snap fst snd look]. replace (i + 1 - 1) with i by lia. unfold shown_of. destruct (decide (j = i)) as [->|Hne].
      - by rewrite Z.eqb_refl, rd_channels_at, decide_True by done.
      - by rewrite (proj2 (Z.eqb_neq j i)). }
    case_decide; [subst j|done]. by rewrite E.
Qed.

Lemma op_advance cd i m (Q : channel → Prop) x ch :
  cd_ok cd → rd (channels cd) i = Some ch → op_ok cd i m ch Q → (∀ ch', Q ch' → ch_ok i ch') →
  ∃ cd' tr, m (cd, x) = Some (tt, (cd', x ++ tr)) ∧ advance (field_of i) cd tr cd' ∧
    event_pending cd' = event_pending cd ∧ ∃ ch', cd' = at_ cd i ch' (event_pending cd) ∧ Q ch'.
Proof.
  intros H Hch Hop HQ. pose proof (rd_Some _ _ _ Hch) as Hi. rewrite (ok_channels _ H) in Hi.
  pose proof (ok_channels _ H) as Hl.
  destruct (Hop (event_pending cd)) as (ch' & tr & R & [F S] & Q'). specialize (R x).
  rewrite (at_same cd i ch Hch) in R. eexists _, _. split; [exact R|]. split; [|split; [done|by exists ch']]. split.
  - by apply cd_ok_at; [|lia|apply HQ].
  - intros j Hj. rewrite rd_channels_at by (done || lia). rewrite decide_False by congruence. done.
  - done.
  - done.
  - apply List.Forall_map. eapply List.Forall_impl; [|exact F]. intros [[c p] ev] [Hd He]. cbn [fst snd] in Hd, He. unfold sent_ok. cbn [snap fst snd]. split.
    + destruct ev; cbn [event_ok] in He; [subst|destruct He as [-> ?]]; replace (i + 1 - 1) with i by lia; split_and!; done || lia.
    + cbn. rewrite length_insert. split; [done|]. intros j c0. 
      change (<[Z.to_nat i:=c]> (channels cd)) with (channels (at_ cd i c p)).
      rewrite rd_channels_at by (done || lia). case_decide; [intros [= <-]; done|].
      intros Hj. apply (displayable_core j), (ok_channel _ H _ _ Hj).
  - intros v Hv j c. rewrite rd_channels_at by (done || lia). rewrite look_all_snap by (done || lia).
    case_decide as Ej; [intros [= <-]; subst|apply Hv]. cbn [event_pending at_ set_pending].
    destruct (Hv i ch Hch) as [?|Hs]; [by left|right]. by apply S.
Qed.

(** ** Composition *)

(** [m] succeeds on [cd], advances field [f], and [Q] holds of its result and the new decoder. *)
Definition advances {A} (f : Z) (m : M (X := trace) A) (cd : decoder) (Q : A → decoder → Prop) : Prop :=
  ∀ x, ∃ a cd' tr, m (cd, x) = Some (a, (cd', x ++ tr)) ∧ advance f cd tr cd' ∧ Q a cd'.

Lemma adv_weaken {A} f (m : M A) cd (Q Q' : A → decoder → Prop) :
  advances f m cd Q → (∀ a cd', cd_ok cd' → Q a cd' → Q' a cd') → advances f m cd Q'.
Proof.
  intros H HQ x. destruct (H x) as (a & cd' & tr & E & Ha & Hq). exists a, cd', tr. split_and!; try done.
  apply HQ; [by destruct Ha|done].
Qed.

Lemma adv_ret {A} f (a : A) cd (Q : A → decoder → Prop) : cd_ok cd → Q a cd → advances f (mret a) cd Q.
Proof. intros H HQ x. exists a, cd, []. rewrite app_nil_r. split; [done|]. split; [by apply advance_refl|done]. Qed.

Lemma adv_bind {A B} f (m : M A) (k : A → M B) cd (Q1 : A → decoder → Prop) (Q : B → decoder → Prop) :
  advances f m cd Q1 → (∀ a cd1, cd_ok cd1 → Q1 a cd1 → advances f (k a) cd1 Q) → advances f (m ≫= k) cd Q.
Proof.
  intros H1 H2 x. destruct (H1 x) as (a & cd1 & tr1 & E1 & A1 & HQ1).
  destruct (H2 a cd1 (adv_ok _ _ _ _ A1) HQ1 (x ++ tr1)) as (b & cd2 & tr2 & E2 & A2 & HQ2).
  exists b, cd2, (tr1 ++ tr2). split_and!; [|by eapply advance_trans|done].
  unfold mbind, M_bind. rewrite E1. cbn [mbind option_bind]. rewrite app_assoc. exact E2.
Qed.

(** A step that does not touch the channels and sends nothing. *)
Lemma adv_quiet {A} f (m : M A) cd a cd' (Q : A → decoder → Prop) :
  (∀ x, m (cd, x) = Some (a, (cd', x))) → cd_ok cd' → channels cd' = channels cd → event_pending cd' = event_pending cd →
  (∀ g, g ≠ f → rd (curr_ch_num cd') g = rd (curr_ch_num cd) g) →
  (∀ g, g ≠ f → rd (expect_ctrl cd') g = rd (expect_ctrl cd) g) → Q a cd' → advances f m cd Q.
Proof.
  intros E Hok Hch Hp Hc He HQ x. exists a, cd', []. rewrite app_nil_r. split_and!; [done| |done].
  split; try done; [by rewrite Hch|]. intros v Hv j ch. rewrite Hch, Hp. apply Hv.
Qed.

Lemma adv_get_curr {A} f g (k : Z → M A) cd Q : cd_ok cd → g = 0 ∨ g = 1 →
  (∀ n, curr_ok g n → advances f (k n) cd Q) → advances f (get_curr g ≫= k) cd Q.
Proof.
  intros H Hg Hk x. destruct (ok_curr _ H) as [Hl Hc]. destruct (rd_is_Some (curr_ch_num cd) g) as (n & E & _); [lia|].
  destruct (Hk n (Hc g n E) x) as (a & cd' & tr & ? & ?). exists a, cd', tr. split; [|done].
  unfold mbind, M_bind, get_curr. cbn [fst]. by rewrite E.
Qed.

Lemma adv_get_ch {A} f i (k : channel → M A) cd Q : cd_ok cd → 0 ≤ i < 8 →
  (∀ ch, rd (channels cd) i = Some ch → ch_ok i ch → advances f (k ch) cd Q) → advances f (get_ch i ≫= k) cd Q.
Proof.
  intros H Hi Hk x. destruct (rd_is_Some (channels cd) i) as (ch & E & _); [rewrite (ok_channels _ H); lia|].
  destruct (Hk ch E (ok_channel _ H _ _ E) x) as (a & cd' & tr & ? & ?). exists a, cd', tr. split; [|done].
  unfold mbind, M_bind, get_ch. cbn [fst]. by rewrite E.
Qed.

(** The decoder between the events of a field: at most an event for channel [i] is pending. *)
Definition pend (i : Z) (cd : decoder) : Prop := event_pending cd = None ∨ event_pending cd = Some i.

Lemma adv_op f i m cd p : cd_ok cd → 0 ≤ i < 8 → field_of i = f → event_pending cd = p →
  (∀ ch, rd (channels cd) i = Some ch → ch_ok i ch → op_ok cd i m ch (ch_ok i)) →
  advances f m cd (λ _ cd', event_pending cd' = p).
Proof.
  intros H Hi <- <- Hop x. destruct (rd_is_Some (channels cd) i) as (ch & E & _); [rewrite (ok_channels _ H); lia|].
  destruct (op_advance cd i m (ch_ok i) x ch H E) as (cd' & tr & E' & Ha & Hp & _); [by apply Hop, (ok_channel _ H)|done|].
  exists tt, cd', tr. done.
Qed.

Lemma adv_put_char f i c displayable backspace cd :
  cd_ok cd → 0 ≤ i < 8 → field_of i = f → pend i cd → char_ok c displayable →
  (∀ ch, rd (channels cd) i = Some ch → ch_mode ch ≠ MODE_UNKNOWN) →
  advances f (put_char i c displayable backspace) cd (λ _ cd', pend i cd').
Proof.
  intros H Hi Hf Hp Hc Hm x. pose proof (ok_channels _ H) as Hl.
  destruct (rd_is_Some (channels cd) i) as (ch & E & _); [lia|]. pose proof (ok_channel _ H _ _ E) as Hch.
  destruct (put_char_ok i (cd_timestamp cd) c displayable backspace ch Hch (Hm _ E) Hc) as (ch' & E' & H' & Hw1 & Hw2 & Hw3).
  set (p' := if decide (ch_mode ch' = MODE_POP_ON) then event_pending cd else Some i).
  assert (runs cd i (put_char i c displayable backspace) ch (event_pending cd) tt ch' p' []) as R.
  { apply runs_now. apply (runs_bind _ _ _ _ _ _ tt ch' (event_pending cd) [] _ _ _ []); [by apply runs_upd|].
    apply runs_get; [done|done|]. subst p'. destruct (decide _); [apply runs_ret|apply runs_put_pending]. }
  specialize (R x). rewrite (at_same cd i ch E) in R. exists tt, (at_ cd i ch' p'), []. split; [exact R|]. split.
  - split; try done.
    + by apply cd_ok_at.
    + intros j Hj. by rewrite rd_channels_at, decide_False by congruence.
    + intros v Hv j c0. rewrite rd_channels_at by done. cbn [event_pending at_ set_pending look_all map fold_left].
      case_decide as Ej.
      * intros [= <-]. subst j p'. case_decide as Em; [|by left]. destruct (Hv i ch E) as [?|Hs]; [by left|right].
        rewrite Hw1 in Em. specialize (Hw3 Em). destruct Hs as [-> |Hs]; [by left|].
        right. intros buf. rewrite Hw3. apply Hs.
      * intros Hj. destruct (Hv j c0 Hj) as [Hpj|Hs]; [|by right]. destruct Hp as [Hp|Hp]; congruence.
  - subst p'. destruct (decide _); [exact Hp|by right].
Qed.

(** The pending event is sent; nothing is pending afterwards. *)
Lemma adv_send_pending f i cd : cd_ok cd → 0 ≤ i < 8 → field_of i = f → pend i cd →
  advances f (send_pending record) cd (λ _ cd', event_pending cd' = None).
Proof.
  intros H Hi Hf Hp x. pose proof (ok_channels _ H) as Hl. unfold send_pending, pending, mbind, M_bind. cbn [fst].
  destruct (event_pending cd) as [j|] eqn:Ep.
  - unfold pend in Hp. rewrite Ep in Hp. destruct Hp as [|[= ->]]; [done|]. destruct (rd_is_Some (channels cd) i) as (ch & E & _); [lia|].
    assert (runs cd i (_ ← display_event record i 0; put_pending None) ch (Some i) tt ch None
      ([(ch, Some i, CC608 (i + 1) (ch_mode ch) 0)] ++ [])) as R.
    { eapply runs_bind; [by apply runs_display|apply runs_put_pending]. }
    specialize (R x). rewrite <-Ep, (at_same cd i ch E) in R. exists tt. eexists _, _. split; [exact R|]. split; [|done].
    pose proof (displayable_core _ _ (ok_core _ _ (ok_channel _ H _ _ E))) as Hd.
    split; try done.
    + apply cd_ok_at; [done|done|]. by apply (ok_channel _ H).
    + intros k Hk. by rewrite rd_channels_at, decide_False by congruence.
    + constructor; [|done]. unfold sent_ok. cbn [snap fst snd]. replace (i + 1 - 1) with i by lia. split; [split; [done|lia]|].
      cbn. rewrite length_insert. split; [done|]. intros k c0.
      change (<[Z.to_nat i:=ch]> (channels cd)) with (channels (at_ cd i ch (Some i))). rewrite rd_channels_at by done.
      case_decide; [intros [= <-]; done|]. intros Hk. apply (displayable_core k), (ok_channel _ H _ _ Hk).
    + intros v Hv k c0. rewrite rd_channels_at by done. intros Hk. right.
      rewrite look_all_snap; [|done|done|by repeat constructor]. destruct (decide (k = i)) as [->|Hne].
      * injection Hk as <-. by left.
      * destruct (Hv k c0 Hk) as [Hk'|Hs]; [congruence|exact Hs].
  - exists tt, cd, []. rewrite app_nil_r. split; [done|]. split; [by apply advance_refl|done].
Qed.

(** ** Control codes *)

(** The channel a control code is for. *)
Lemma ch_index n f c1 : f = 0 ∨ f = 1 →
  let i := ((n - VBI_CAPTION_CC1) .& 4) + f * 2 + (c1 ≫ 3 .& 1) in
  0 ≤ i < 8 ∧ field_of i = f ∧ 0 ≤ i .& 3 < 4 ∧ field_of (i .& 3) = f ∧ field_of (4 + (i .& 3)) = f.
Proof.
  intros Hf i. pose proof (land_range 1 (c1 ≫ 3) 1 ltac:(lia) ltac:(lia)).
  assert ((n - VBI_CAPTION_CC1) .& 4 = 0 ∨ (n - VBI_CAPTION_CC1) .& 4 = 4) as Hm.
  { pose proof (land_mask (n - VBI_CAPTION_CC1) 1 2 ltac:(lia) ltac:(lia)) as E. change (Z.ones 1 ≪ 2) with 4 in E.
    pose proof (Z.mod_pos_bound ((n - VBI_CAPTION_CC1) / 2 ^ 2) (2 ^ 1)). lia. }
  assert (c1 ≫ 3 .& 1 = 0 ∨ c1 ≫ 3 .& 1 = 1) as Hb by lia.
  unfold i. destruct Hf as [-> | ->], Hm as [-> | ->], Hb as [-> | ->]; by vm_compute.
Qed.

Lemma text_index n f : curr_ok f n → n ≠ 0 → f = 0 ∨ f = 1 →
  let i := ((n - VBI_CAPTION_CC1) .& 5) + f * 2 in 0 ≤ i < 8 ∧ field_of i = f.
Proof.
  intros [?|[Hn _]] Hne Hf i; [done|]. pose proof (land_range 3 (n - VBI_CAPTION_CC1) 5 ltac:(lia) ltac:(lia)).
  pose proof (forallb_seqZ 8 (λ m, forallb (λ f, (0 <=? (m .& 5) + f * 2) && ((m .& 5) + f * 2 <? 8) &&
    (field_of ((m .& 5) + f * 2) =? f)) [0; 1]) eq_refl (n - 1) ltac:(lia)) as E.
  cbv beta in E. rewrite forallb_forall in E. specialize (E f ltac:(cbn; lia)). unfold i, VBI_CAPTION_CC1. lia.
Qed.

Lemma switch_channel_ok f n cd p : cd_ok cd → f = 0 ∨ f = 1 → 1 ≤ n ≤ 8 → field_of (n - 1) = f → event_pending cd = p →
  advances f (switch_channel n f) cd (λ i cd', i = n - 1 ∧ event_pending cd' = p).
Proof.
  intros H Hf Hn Hfn Hp. pose proof H as [H1 H2 [H3 H3'] H4 H5].
  destruct (rd_wr (curr_ch_num cd) f n) as (l & E & El & Hj); [lia|].
  apply (adv_quiet f _ cd (n - 1) (set_curr l cd)); try done.
  - intros x. unfold switch_channel, put_curr, mbind, M_bind. cbn [fst snd]. by rewrite E.
  - split; try done. split; [by rewrite <-H3|]. intros g m. cbn [curr_ch_num set_curr]. rewrite Hj.
    case_decide; [|apply H3']. intros [= <-]. subst. right. done.
  - intros g Hg. cbn [curr_ch_num set_curr]. by rewrite Hj, decide_False.
Qed.

Section control.
Context (f : Z) (Hf : f = 0 ∨ f = 1).

(** After a control code at most an event for one channel of the field is pending. *)
Definition code_done (cd : decoder) : Prop := ∃ i, 0 ≤ i < 8 ∧ field_of i = f ∧ pend i cd.

Lemma none_done cd : event_pending cd = None → code_done cd.
Proof. intros H. exists (f * 2). destruct Hf as [-> | ->]; (split; [lia|]); (split; [done|by left]). Qed.

Lemma adv_op_done i m cd : cd_ok cd → 0 ≤ i < 8 → field_of i = f → event_pending cd = None →
  (∀ ch, rd (channels cd) i = Some ch → ch_ok i ch → op_ok cd i m ch (ch_ok i)) →
  advances f m cd (λ _ cd', code_done cd').
Proof.
  intros H Hi Hfi Hp Hop. eapply adv_weaken; [by apply (adv_op f i m cd None)|]. intros ? cd' _. apply none_done.
Qed.

Lemma when_known_ok i m cd : cd_ok cd → 0 ≤ i < 8 → event_pending cd = None →
  ((∀ ch, rd (channels cd) i = Some ch → ch_mode ch ≠ MODE_UNKNOWN) → advances f m cd (λ _ cd', code_done cd')) →
  advances f (when_known f i m) cd (λ _ cd', code_done cd').
Proof.
  intros H Hi Hp Hm. apply adv_get_curr; [done|done|]. intros n Hn. apply adv_get_ch; [done|done|]. intros ch Hch Hok.
  destruct (n =? UNKNOWN_CHANNEL); cbn [orb]; [apply adv_ret; [done|by apply none_done]|].
  case_bool_decide; [apply adv_ret; [done|by apply none_done]|]. apply Hm. congruence.
Qed.

Lemma put_char_done i c displayable backspace cd :
  cd_ok cd → 0 ≤ i < 8 → field_of i = f → event_pending cd = None → char_ok c displayable →
  advances f (when_known f i (put_char i c displayable backspace)) cd (λ _ cd', code_done cd').
Proof.
  intros H Hi Hfi Hp Hc. apply when_known_ok; [done|done|done|]. intros Hm.
  eapply adv_weaken; [by apply adv_put_char; try done; left|]. intros ? cd' _ Hp'. by exists i.
Qed.

Lemma ret_done cd : cd_ok cd → event_pending cd = None → advances f (mret tt) cd (λ _ cd', code_done cd').
Proof. intros H Hp. apply adv_ret; [done|by apply none_done]. Qed.

(** A code that switches to the channel it is for. *)
Lemma switch_op_done n (m : Z → M (X := trace) unit) cd : cd_ok cd → 1 ≤ n ≤ 8 → field_of (n - 1) = f → event_pending cd = None →
  (∀ cd' ch, length (channels cd') = 8%nat → ch_ok (n - 1) ch → op_ok cd' (n - 1) (m (n - 1)) ch (ch_ok (n - 1))) →
  advances f (i ← switch_channel n f; m i) cd (λ _ cd', code_done cd').
Proof.
  intros H Hn Hfn Hp Hop. eapply adv_bind; [by apply (switch_channel_ok f n cd None)|].
  intros i cd1 H1 [-> Hp1]. apply (adv_op_done (n - 1)); [done|lia|done|done|]. intros ch _ Hch.
  apply Hop; [apply H1|done].
Qed.

Lemma caption_channel_ok k : 0 ≤ k < 4 → field_of k = f →
  1 ≤ VBI_CAPTION_CC1 + k ≤ 8 ∧ field_of (VBI_CAPTION_CC1 + k - 1) = f ∧ VBI_CAPTION_CC1 + k - 1 = k.
Proof. unfold VBI_CAPTION_CC1. intros Hk Hfk. replace (1 + k - 1) with k by lia. split_and!; done || lia. Qed.

Lemma misc_control_code_ok i c2 cd : cd_ok cd → 0 ≤ i < 8 → field_of i = f → 0 ≤ i .& 3 < 4 → field_of (i .& 3) = f →
  field_of (4 + (i .& 3)) = f → event_pending cd = None → 0x20 ≤ c2 < 0x30 →
  advances f (misc_control_code record i c2 i f) cd (λ _ cd', code_done cd').
Proof.
  intros H Hi Hfi Hi3 Hf3 Hf4 Hp Hc2. pose proof (ok_channels _ H) as Hl.
  destruct (caption_channel_ok (i .& 3) Hi3 Hf3) as (Hn & Hfn & Hn1). unfold misc_control_code.
  assert (1 ≤ VBI_CAPTION_T1 + (i .& 3) ≤ 8) as Ht by (unfold VBI_CAPTION_T1; lia).
  assert (field_of (VBI_CAPTION_T1 + (i .& 3) - 1) = f) as Hft.
  { unfold VBI_CAPTION_T1. by replace (5 + (i .& 3) - 1) with (4 + (i .& 3)) by lia. }
  assert (∀ ch, ch_ok (VBI_CAPTION_T1 + (i .& 3) - 1) ch → ch_mode ch = MODE_TEXT) as Htext.
  { intros ch [Hch _ _]. apply (ok_text _ _ Hch). unfold VBI_CAPTION_T1. lia. }
  destruct (c2 .& 15 =? 0); [apply switch_op_done; try done; intros; apply resume_caption_loading_ok; done || lia|].
  destruct (c2 .& 15 =? 1).
  { apply when_known_ok; [done..|]. intros Hm. apply (adv_op_done i); try done. intros ch Hch Hok. apply backspace_ok; auto. }
  destruct (_ || _); [by apply ret_done|].
  destruct (c2 .& 15 =? 4).
  { apply when_known_ok; [done..|]. intros Hm. apply (adv_op_done i); try done. intros ch Hch Hok. apply delete_to_end_of_row_ok; auto. }
  destruct (_ || _ || _) eqn:Eru.
  { apply switch_op_done; try done. intros. apply roll_up_caption_ok; try done; [lia|].
    pose proof (forallb_seqZ 128 (λ c, negb ((c .& 15 =? 5) || (c .& 15 =? 6) || (c .& 15 =? 7)) ||
      ((5 <=? c .& 7) && (c .& 7 <=? 7))) eq_refl c2 ltac:(lia)) as E. cbv beta in E. rewrite Eru in E. cbn [negb orb] in E. lia. }
  destruct (c2 .& 15 =? 8); [by apply put_char_done; try done; right|].
  destruct (c2 .& 15 =? 9); [apply switch_op_done; try done; intros; apply resume_direct_captioning_ok; done || lia|].
  destruct (c2 .& 15 =? 10); [apply switch_op_done; try done; intros; apply text_restart_ok; auto; lia|].
  destruct (c2 .& 15 =? 11).
  { eapply adv_bind; [by apply (switch_channel_ok f _ cd None)|]. intros j cd1 H1 [_ Hp1]. by apply ret_done. }
  destruct (c2 .& 15 =? 12).
  { apply (adv_op_done (i .& 3)); try done; [lia|]. intros ch _ Hok. apply erase_displayed_memory_ok; done || lia. }
  destruct (c2 .& 15 =? 13).
  { apply adv_get_curr; [done|done|]. intros n _. destruct (n =? UNKNOWN_CHANNEL); [by apply ret_done|].
    apply (adv_op_done i); try done. intros ch _ Hok. by apply carriage_return_ok. }
  destruct (c2 .& 15 =? 14).
  { apply adv_get_ch; [done|lia|]. intros ch Hch Hok. apply (adv_op_done (i .& 3)); try done; [lia|].
    intros ch' Hch' _. rewrite Hch in Hch'. injection Hch' as <-. apply erase_non_displayed_ok; done || lia. }
  apply switch_op_done; try done. intros. apply end_of_caption_ok; done || lia.
Qed.
End control.

(** ** The codes of a pair *)

(** What the control codes write is a character or an attribute. *)
Lemma background_char c2 : 0x20 ≤ c2 < 0x30 → char_ok (0x1000 .| c2) false.
Proof.
  intros Hc. right. pose proof (forallb_seqZ 128 (λ c, negb (within 0x20 0x2F c) || is_attr (0x1000 .| c)) eq_refl c2 ltac:(lia)) as E.
  cbv beta in E. unfold within in E. rewrite orb_true_iff in E. destruct E; [lia|done].
Qed.
Lemma mid_row_char c2 : 0x20 ≤ c2 < 0x30 → char_ok (0x1100 .| c2) false.
Proof.
  intros Hc. right. pose proof (forallb_seqZ 128 (λ c, negb (within 0x20 0x2F c) || is_attr (0x1100 .| c)) eq_refl c2 ltac:(lia)) as E.
  cbv beta in E. unfold within in E. rewrite orb_true_iff in E. destruct E; [lia|done].
Qed.
Lemma special_char c2 : 0x30 ≤ c2 < 0x40 → c2 ≠ 0x39 → char_ok (0x1100 .| c2) true.
Proof.
  intros Hc Hne. pose proof (forallb_seqZ 128 (λ c, negb (within 0x30 0x3F c) || (c =? 0x39) || is_glyph (0x1100 .| c)) eq_refl c2 ltac:(lia)) as E.
  cbv beta in E. unfold within in E. rewrite !orb_true_iff in E. destruct E as [[E|E]|E]; [lia|lia|done].
Qed.
Lemma extended_char c1 c2 : 0x10 ≤ c1 < 0x20 → c1 .& 7 = 2 ∨ c1 .& 7 = 3 → 0x20 ≤ c2 < 0x40 →
  char_ok ((c1 * 256 + c2) .& 0x777F) true.
Proof.
  intros Hc1 H7 Hc2. pose proof (forallb_seqZ 32 (λ c1, (c1 <? 16) || negb ((c1 .& 7 =? 2) || (c1 .& 7 =? 3)) ||
    forallb (λ c2, (c2 <? 0x20) || is_glyph ((c1 * 256 + c2) .& 0x777F)) (seqZ 0 0x40)) eq_refl c1 ltac:(lia)) as E.
  cbv beta in E. rewrite !orb_true_iff in E. destruct E as [[E|E]|E]; [lia|lia|].
  pose proof (forallb_seqZ 0x40 _ E c2 ltac:(lia)) as E2. cbv beta in E2. rewrite orb_true_iff in E2. destruct E2; [lia|done].
Qed.

Section pair.
Context (f : Z) (Hf : f = 0 ∨ f = 1).

Lemma ext_control_code_ok i c2 cd : cd_ok cd → 0 ≤ i < 8 → field_of i = f → event_pending cd = None →
  advances f (when_known f i (ext_control_code i c2)) cd (λ _ cd', code_done f cd').
Proof.
  intros H Hi Hfi Hp. unfold ext_control_code. destruct (_ && _).
  - apply when_known_ok; [done..|]. intros Hm. apply (adv_op_done f Hf i); try done. intros ch _ Hok.
    apply op_set; [apply H|done|by left|]. apply ch_ok_column; [done|]. pose proof (ok_column _ _ Hok).
    pose proof (land_range 2 c2 3 ltac:(lia) ltac:(lia)). unfold LAST_COLUMN. lia.
  - destruct (_ && _) eqn:E.
    + apply put_char_done; try done. right. assert (c2 = 0x2D ∨ c2 = 0x2E ∨ c2 = 0x2F) as [->|[-> | ->]] by lia; done.
    + apply when_known_ok; [done..|]. intros _. by apply ret_done.
Qed.

Lemma control_code_ok c1 c2 cd : cd_ok cd → event_pending cd = None → 0x10 ≤ c1 < 0x20 → 0x20 ≤ c2 < 0x80 →
  advances f (control_code record c1 c2 f) cd (λ _ cd', code_done f cd').
Proof.
  intros H Hp Hc1 Hc2. apply adv_get_curr; [done|done|]. intros n Hn.
  destruct (ch_index n f c1 Hf) as (Hi & Hfi & Hi3 & Hf3 & Hf4). set (i := _ + _ * 2 + _) in *. clearbody i. cbv zeta.
  destruct (Z.leb_spec 0x40 c2).
  { destruct (negb _); [|by apply ret_done]. apply (adv_op_done f Hf i); try done. intros ch _ Hok.
    apply preamble_address_code_ok; try done; [apply H|lia|lia]. }
  destruct (c1 .& 7 =? 0).
  { destruct (Z.ltb_spec c2 0x30); [apply put_char_done; try done; apply background_char; lia|].
    apply when_known_ok; [done..|]. intros _. by apply ret_done. }
  destruct (c1 .& 7 =? 1).
  { destruct (Z.ltb_spec c2 0x30); [apply put_char_done; try done; apply mid_row_char; lia|].
    destruct (Z.eqb_spec c2 0x39); apply put_char_done; try done; [by left|]. apply special_char; lia. }
  destruct ((c1 .& 7 =? 2) || (c1 .& 7 =? 3)) eqn:E2; [apply put_char_done; try done; apply extended_char; lia|].
  destruct ((c1 .& 7 =? 4) || (c1 .& 7 =? 5)).
  { destruct (Z.ltb_spec c2 0x30); [|by apply ret_done]. apply misc_control_code_ok; done || lia. }
  destruct (c1 .& 7 =? 6); [by apply ret_done|]. by apply ext_control_code_ok.
Qed.

Lemma glyph_char c : 0x20 ≤ c < 0x80 → char_ok c true.
Proof. intros Hc. unfold char_ok, is_glyph, within. lia. Qed.

Lemma characters_ok i c cd : cd_ok cd → 0 ≤ i < 8 → field_of i = f → pend i cd → -1 ≤ c < 0x80 →
  advances f (characters i c) cd (λ _ cd', pend i cd').
Proof.
  intros H Hi Hfi Hp Hc. apply adv_get_ch; [done|done|]. intros ch Hch Hok. cbv zeta.
  assert (∀ c' b, char_ok c' true → advances f
    (if b && negb (bool_decide (ch_mode ch = MODE_UNKNOWN)) then put_char i c' true false else mret tt) cd
    (λ _ cd', pend i cd')) as Hput.
  { intros c' b Hc'. destruct b; [|by apply adv_ret]. cbn [andb]. case_bool_decide; cbn [negb]; [by apply adv_ret|].
    apply adv_put_char; try done. congruence. }
  destruct (c =? 0); [by apply adv_ret|]. destruct (Z.ltb_spec c 0x20).
  - eapply adv_bind; [by apply Hput|]. intros [] cd1 H1 Hp1. by apply adv_ret.
  - eapply adv_bind; [apply (Hput c true), glyph_char; lia|]. intros [] cd1 H1 Hp1. by apply adv_ret.
Qed.

Lemma add_history_ok b cd p : cd_ok cd → event_pending cd = p →
  advances f (add_history b) cd (λ _ cd', event_pending cd' = p).
Proof.
  intros H Hp. apply (adv_quiet f _ cd tt (set_history (u32 (error_history cd * 2 + Z.b2z b)) cd)); try done. by destruct H.
Qed.

Lemma finish_pair b cd p : cd_ok cd → event_pending cd = p → advances f (finish b) cd (λ _ cd', event_pending cd' = p).
Proof.
  intros H Hp. eapply adv_bind; [by apply (add_history_ok _ _ p)|]. intros [] cd1 H1 Hp1. by apply adv_ret.
Qed.

Lemma put_expect_ok e cd p : cd_ok cd → event_pending cd = p →
  advances f (put_expect f e) cd (λ _ cd', event_pending cd' = p).
Proof.
  intros H Hp. destruct (rd_wr (expect_ctrl cd) f e) as (l & E & El & Hj); [rewrite (ok_expect _ H); lia|].
  apply (adv_quiet f _ cd tt (set_expect l cd)); try done.
  - intros x. unfold put_expect. cbn [fst snd]. by rewrite E.
  - destruct H. split; try done. cbn. lia.
  - intros g Hg. cbn [expect_ctrl set_expect]. by rewrite Hj, decide_False.
Qed.

Lemma get_expect_ok {A} (k : Z * Z → M A) cd Q : cd_ok cd → (∀ e, advances f (k e) cd Q) → advances f (get_expect f ≫= k) cd Q.
Proof.
  intros H Hk x. destruct (rd_is_Some (expect_ctrl cd) f) as (e & E & _); [rewrite (ok_expect _ H); lia|].
  destruct (Hk e x) as (a & cd' & tr & ? & ?). exists a, cd', tr. split; [|done].
  unfold mbind, M_bind, get_expect. cbn [fst]. by rewrite E.
Qed.

Lemma no_repeat_ok cd p : cd_ok cd → event_pending cd = p → advances f (no_repeat f) cd (λ _ cd', event_pending cd' = p).
Proof. intros H Hp. apply get_expect_ok; [done|]. intros e. by apply put_expect_ok. Qed.

Lemma put_in_xds_ok g b cd p : cd_ok cd → g = 0 ∨ g = 1 → event_pending cd = p →
  advances f (put_in_xds g b) cd (λ _ cd', event_pending cd' = p).
Proof.
  intros H Hg Hp. destruct (rd_wr (in_xds cd) g b) as (l & E & El & Hj); [rewrite (ok_xds _ H); lia|].
  apply (adv_quiet f _ cd tt (set_xds l cd)); try done.
  - intros x. unfold put_in_xds. cbn [fst snd]. by rewrite E.
  - destruct H. split; try done. cbn. lia.
Qed.

Lemma parity_error_ok cd p : cd_ok cd → event_pending cd = p → advances f (parity_error f) cd (λ _ cd', event_pending cd' = p).
Proof.
  intros H Hp. eapply adv_bind; [by apply (no_repeat_ok _ p)|]. intros [] cd1 H1 Hp1.
  eapply adv_bind; [by apply (add_history_ok _ _ p)|]. intros [] cd2 H2 Hp2. by apply adv_ret.
Qed.

Lemma text_pair_ok c1 c2 cd : cd_ok cd → event_pending cd = None → -1 ≤ c1 < 0x80 → -1 ≤ c2 < 0x80 →
  advances f (text_pair record f c1 c2) cd (λ _ cd', event_pending cd' = None).
Proof.
  intros H Hp Hc1 Hc2. apply adv_get_curr; [done|done|]. intros n Hn.
  destruct (Z.eqb_spec n UNKNOWN_CHANNEL); [by apply finish_pair|].
  destruct (text_index n f Hn) as [Hi Hfi]; [done|done|]. set (i := _ + _ * 2) in *. clearbody i. cbv zeta.
  eapply adv_bind; [apply (characters_ok i c1); try done; by left|]. intros r1 cd1 H1 Hp1.
  eapply adv_bind; [by apply (characters_ok i c2)|]. intros r2 cd2 H2 Hp2.
  eapply adv_bind; [by apply (adv_send_pending f i)|]. intros [] cd3 H3 Hp3. by apply finish_pair.
Qed.

(** Any byte pair. *)
Lemma feed_pair_ok c1 c2 cd : cd_ok cd → event_pending cd = None → -1 ≤ c1 < 0x80 → -1 ≤ c2 < 0x80 →
  advances f (feed_pair record f c1 c2) cd (λ _ cd', event_pending cd' = None).
Proof.
  intros H Hp Hc1 Hc2. apply get_expect_ok; [done|]. intros e.
  destruct (Z.ltb_spec c1 0); [by apply parity_error_ok|].
  destruct (_ && _); [eapply adv_bind; [by apply (no_repeat_ok _ None)|]; intros [] cd1 H1 Hp1; by apply finish_pair|].
  destruct ((0x10 <=? c1) && (c1 <? 0x20)) eqn:Ec.
  - eapply adv_bind; [by apply (put_in_xds_ok f false _ None)|]. intros [] cd1 H1 Hp1.
    destruct (Z.ltb_spec c2 0x20) as [|Hge]; [by apply parity_error_ok|].
    eapply adv_bind; [apply control_code_ok; try done; lia|]. intros [] cd2 H2 (i & Hi & Hfi & Hp2).
    eapply adv_bind; [by apply (adv_send_pending f i)|]. intros [] cd3 H3 Hp3.
    eapply adv_bind; [by apply (put_expect_ok _ _ None)|]. intros [] cd4 H4 Hp4. by apply finish_pair.
  - eapply adv_bind; [by apply (no_repeat_ok _ None)|]. intros [] cd1 H1 Hp1.
    assert (∀ g b, g = 0 ∨ g = 1 → advances f (_ ← put_in_xds g b; finish true) cd1 (λ _ cd', event_pending cd' = None)) as Hx.
    { intros g b Hg. eapply adv_bind; [by apply (put_in_xds_ok g b _ None)|]. intros [] cd2 H2 Hp2. by apply finish_pair. }
    destruct (Z.ltb_spec c1 0x10); [|by apply text_pair_ok]. destruct (f =? 0); [by apply text_pair_ok|].
    destruct (c1 =? 0x0F); [by apply Hx; right|]. destruct (1 <=? c1); [by apply Hx; right|]. by apply text_pair_ok.
Qed.
End pair.

(** ** Feeding *)

(** What a caller may pass: two bytes, and a time that can be converted to a PTS if there is none. *)
Definition input_ok (buffer : list Z) (capture_time : double) (pts : Z) : Prop :=
  length buffer = 2%nat ∧ bytes buffer ∧ (pts < 0 → is_Some (pts_of_time capture_time)).

Lemma unpar8_range c : is_byte c → -1 ≤ vbi_unpar8 c < 0x80.
Proof.
  intros Hc. rewrite vbi_unpar8_spec by done. destruct (odd_ones c); [|lia].
  pose proof (land_range 7 c 127 ltac:(lia) ltac:(lia)). lia.
Qed.

Definition known_line (line : Z) : bool := (line =? 21) || (line =? 22) || (line =? 284).
Definition line_field (line : Z) : Z := if line =? 284 then 1 else 0.

Lemma caption_feed_ok buffer line t pts cd : cd_ok cd → event_pending cd = None → input_ok buffer t pts → known_line line = true →
  advances (line_field line) (_vbi_cc608_decoder_feed record buffer line t pts) cd (λ _ cd', event_pending cd' = None).
Proof.
  intros H Hp (Hl & Hb & Ht) Hk x. unfold _vbi_cc608_decoder_feed. fold (known_line line). rewrite Hk. cbn [negb].
  destruct buffer as [|b0 [|b1 []]]; try done. apply List.Forall_cons_iff in Hb as [Hb0 Hb].
  apply List.Forall_cons_iff in Hb as [Hb1 _].
  assert (∃ p, (if pts <? 0 then pts_of_time t else Some pts) = Some p) as [p Ep].
  { destruct (Z.ltb_spec pts 0) as [Hneg|]; [apply Ht, Hneg|by eexists]. }
  unfold mbind, M_bind at 1, lift at 1. rewrite Ep. cbn [mbind option_bind].
  set (cd1 := set_timestamp (Timestamp t (p .& ((1 ≪ 33) - 1))) cd).
  assert (cd_ok cd1) as H1 by (by destruct H).
  assert (line_field line = 0 ∨ line_field line = 1) as Hf by (unfold line_field; destruct (_ =? _); auto).
  destruct (feed_pair_ok (line_field line) Hf (vbi_unpar8 b0) (vbi_unpar8 b1) cd1 H1 Hp) with x as (r & cd' & tr & E & A & Hp');
    [by apply unpar8_range..|].
  exists r, cd', tr. split; [exact E|]. split; [|done]. destruct A. by split.
Qed.

Lemma feed_unknown_line buffer line t pts cd x : known_line line = false →
  _vbi_cc608_decoder_feed record buffer line t pts (cd, x) = Some (false, (cd, x)).
Proof. intros Hk. unfold _vbi_cc608_decoder_feed. fold (known_line line). by rewrite Hk. Qed.

(** ** Initialisation *)

Lemma reset_channel_ok i ch : 0 ≤ uppercase_predictor ch < 2 ^ 32 → ch_ok i (reset_channel i ch) ∧ hidden (reset_channel i ch).
Proof.
  intros Hu. assert (hidden (reset_channel i ch)) as Hh.
  { intros buf E. unfold shown in E. cbn in E. injection E as <-. apply rows0_blank. }
  split; [|done]. assert (4 ≤ i ↔ (i <=? 3) = false) as Hi by lia.
  split; [split; cbn; try done|..].
  - split; [done|]. split; [done|]. intros b Hb. exists rows0, 0.
    assert (b = 0 ∨ b = 1 ∨ b = 2) as [->|[-> | ->]] by lia; split_and!; try done; apply rows0_ok || apply rows0_covers.
  - by left.
  - by destruct (i <=? 3).
  - rewrite Hi. by destruct (i <=? 3).
  - cbn. by destruct (i <=? 3).
  - intros _. apply Hh.
Qed.

Lemma rd_imap {A B} (f : nat → A → B) l j y : rd (imap f l) j = Some y → ∃ x, rd l j = Some x ∧ y = f (Z.to_nat j) x.
Proof.
  intros H. pose proof (rd_Some _ _ _ H) as Hj. rewrite rd_lookup in H by lia. rewrite rd_lookup by lia.
  rewrite list_lookup_imap in H.
  destruct (l !! Z.to_nat j) as [x|]; [|done]. exists x. by injection H as <-.
Qed.

Lemma reset_ok cd : length (channels cd) = 8%nat → (∀ j ch, rd (channels cd) j = Some ch → 0 ≤ uppercase_predictor ch < 2 ^ 32) →
  cd_ok (_vbi_cc608_decoder_reset cd) ∧ event_pending (_vbi_cc608_decoder_reset cd) = None ∧
  ∀ v, up_to_date v (_vbi_cc608_decoder_reset cd).
Proof.
  intros Hl Hu.
  assert (∀ j ch, rd (channels (_vbi_cc608_decoder_reset cd)) j = Some ch → ch_ok j ch ∧ hidden ch) as Hch.
  { intros j ch E. pose proof (rd_Some _ _ _ E). apply rd_imap in E as (c & E & ->). rewrite Z2Nat.id by lia.
    apply reset_channel_ok. by apply (Hu j). }
  split_and!; [|done|].
  - split; try done.
    + cbn. by rewrite length_imap.
    + intros j ch E. by apply Hch.
    + split; [done|]. intros f n E. pose proof (rd_Some _ _ _ E) as Hf. cbn in Hf. left.
      assert (f = 0 ∨ f = 1) as [-> | ->] by lia; by injection E.
  - intros v j ch E. right. right. by apply (Hch j).
Qed.

(** ** Reachable decoders *)

(** Everything a client may do with a decoder, and the events it was sent. *)
Inductive reachable : decoder → trace → Prop :=
| reach_new : reachable _vbi_cc608_decoder_init []
| reach_feed cd x buffer line t pts r cd' x' :
    reachable cd x → input_ok buffer t pts →
    _vbi_cc608_decoder_feed record buffer line t pts (cd, x) = Some (r, (cd', x')) → reachable cd' x'
| reach_reset cd x : reachable cd x → reachable (_vbi_cc608_decoder_reset cd) x
| reach_add cd x malloc mask callback data :
    reachable cd x → reachable (_vbi_cc608_decoder_add_event_handler malloc cd mask callback data).1 x
| reach_remove cd x malloc callback data :
    reachable cd x → reachable (_vbi_cc608_decoder_remove_event_handler malloc cd callback data) x.

Lemma add_handler_same malloc cd mask callback data :
  ∃ el, (_vbi_cc608_decoder_add_event_handler malloc cd mask callback data).1 = set_handlers el cd.
Proof.
  unfold _vbi_cc608_decoder_add_event_handler. destruct (_ =? 0); [by eexists|].
  destruct (_vbi_event_handler_list_add _ _ _ _ _). by eexists.
Qed.

(** The invariant of reachable decoders. *)
Definition decoder_ok (cd : decoder) (x : trace) : Prop :=
  cd_ok cd ∧ event_pending cd = None ∧ (∀ e, e ∈ x → sent_ok 0 e ∨ sent_ok 1 e) ∧ ∀ v, up_to_date (look_all v x) cd.

Lemma handlers_ok el cd x : decoder_ok cd x → decoder_ok (set_handlers el cd) x.
Proof. intros ([] & Hp & He & Hv). by split_and!. Qed.

Lemma reachable_ok cd x : reachable cd x → decoder_ok cd x.
Proof.
  induction 1 as [|cd x buffer line t pts r cd' x' _ (H & Hp & He & Hv) Hin E|cd x _ (H & Hp & He & Hv)|cd x ml mask cb dt _ IH|cd x ml cb dt _ IH].
  - destruct (reset_ok (set_handlers _vbi_event_handler_list_init decoder0)) as (H & Hp & Hv); [done| |].
    { intros j ch E. apply rd_Some in E as E'. rewrite rd_lookup in E by lia.
      apply list_elem_of_lookup_2, list_elem_of_In, (repeat_spec 8) in E as ->. cbn. lia. }
    split; [by destruct H|]. split; [done|]. split; [intros e He; by apply not_elem_of_nil in He|]. intros v. apply Hv.
  - destruct (known_line line) eqn:Ek; [|rewrite feed_unknown_line in E by done; by simplify_eq].
    destruct (caption_feed_ok buffer line t pts cd H Hp Hin Ek x) as (r2 & cd2 & tr & E2 & A & Hp2). rewrite E in E2. simplify_eq.
    split_and!; [by destruct A|done|..].
    + intros e [He'|He']%elem_of_app; [by apply He|]. pose proof (adv_sent _ _ _ _ A) as Hs. 
      rewrite List.Forall_forall in Hs. apply list_elem_of_In in He'. specialize (Hs e He'). unfold line_field in Hs. destruct (line =? 284); [by right|by left].
    + intros v. rewrite look_all_app. by apply (adv_view _ _ _ _ A).
  - destruct (reset_ok cd) as (H1 & Hp1 & Hv1); [apply H| |].
    { intros j ch E. apply (ok_upper _ _ (ok_core _ _ (ok_channel _ H _ _ E))). }
    by split_and!.
  - destruct (add_handler_same ml cd mask cb dt) as (el & ->). by apply handlers_ok.
  - by apply handlers_ok.
Qed.

(** ** Sequences of lines *)

Record input := Input { in_buffer : list Z; in_line : Z; in_time : double; in_pts : Z }.
Definition valid (i : input) : Prop := input_ok (in_buffer i) (in_time i) (in_pts i).
Definition feed_input {X} (send : decoder → event → X → X) (i : input) : M bool :=
  _vbi_cc608_decoder_feed send (in_buffer i) (in_line i) (in_time i) (in_pts i).
Fixpoint feed_all {X} (send : decoder → event → X → X) (l : list input) : M unit :=
  match l with [] => mret tt | i :: l => _ ← feed_input send i; feed_all send l end.

(** A character with odd parity. *)
Definition odd_parity (c : Z) : Z := if Z.odd (ones 8 c) then c else c .| 128.
Definition pair_on (line c1 c2 : Z) : input := Input [odd_parity c1; odd_parity c2] line d_zero 0.

(** The decoder and what it sent after some lines. *)
Definition after (inputs : list input) : st (X := trace) :=
  match feed_all record inputs (_vbi_cc608_decoder_init, [] : trace) with
  | Some (_, s) => s
  | None => (_vbi_cc608_decoder_init, [])
  end.

Lemma feed_record_total cd x buffer line t pts : reachable cd x → input_ok buffer t pts →
  ∃ r cd' x', _vbi_cc608_decoder_feed record buffer line t pts (cd, x) = Some (r, (cd', x')).
Proof.
  intros Hr Hin. destruct (reachable_ok _ _ Hr) as (H & Hp & _). destruct (known_line line) eqn:Hk.
  - destruct (caption_feed_ok buffer line t pts cd H Hp Hin Hk x) as (r & cd' & sent & E & _). by eexists _, _, _.
  - exists false, cd, x. by apply feed_unknown_line.
Qed.

Lemma feed_all_reachable inputs : Forall valid inputs → ∀ cd x, reachable cd x →
  ∃ cd' x', feed_all record inputs (cd, x) = Some (tt, (cd', x')) ∧ reachable cd' x'.
Proof.
  induction 1 as [|i l Hi _ IH]; intros cd x Hr; [by exists cd, x|].
  destruct (feed_record_total cd x (in_buffer i) (in_line i) (in_time i) (in_pts i) Hr Hi) as (r & cd1 & x1 & E).
  destruct (IH cd1 x1 (reach_feed _ _ _ _ _ _ _ _ _ Hr Hi E)) as (cd2 & x2 & E2 & Hr2). exists cd2, x2.
  split; [|done]. cbn [feed_all]. unfold mbind at 1, M_bind at 1, feed_input. rewrite E. exact E2.
Qed.

Lemma after_reachable inputs : Forall valid inputs → reachable (after inputs).1 (after inputs).2.
Proof.
  intros H. destruct (feed_all_reachable inputs H _ _ reach_new) as (cd & x & E & Hr). unfold after. by rewrite E.
Qed.

Lemma pair_valid line c1 c2 : is_byte c1 → is_byte c2 → valid (pair_on line c1 c2).
Proof.
  intros H1 H2. assert (∀ c, is_byte c → is_byte (odd_parity c)) as Hp.
  { intros c Hc. unfold odd_parity. destruct (Z.odd _); [done|]. apply (lor_range 8); unfold is_byte in Hc; lia. }
  split; [done|]. split; [|cbn; lia]. by repeat (constructor; [by apply Hp|]).
Qed.

(** Roll-up captions on both fields. *)
Definition transmission : list input :=
  [pair_on 21 0x14 0x25; pair_on 284 0x15 0x26; pair_on 21 0x14 0x25; pair_on 284 0x15 0x26;
   pair_on 21 0x48 0x49; pair_on 284 0x42 0x59; pair_on 21 0x14 0x2D].

Lemma transmission_valid : Forall valid transmission.
Proof. unfold transmission. repeat (constructor; [apply pair_valid; unfold is_byte; lia|]). constructor. Qed.

(** ** What a caller relies on *)

(** C22: a client that fetches a page when it receives a display event for the channel, and
    at no other time, has the current page of every channel after every call: what it saw
    last is what the channel displays, unless the channel displays nothing. *)
Theorem cc608_client_current cd tr : reachable cd tr →
  ∀ v j ch, rd (channels cd) j = Some ch → look_all v tr j = shown ch ∨ hidden ch.
Proof.
  intros Hr v j ch E. destruct (reachable_ok _ _ Hr) as (_ & Hp & _ & Hv).
  destruct (Hv v j ch E) as [Hj|Hs]; [congruence|exact Hs].
Qed.

(** C25: the page of a channel is what its displayed buffer holds: 15 rows of 32 characters,
    34 with padding, a row being the characters of its cells in order, in upper case letters
    where the transmission is in upper case; without padding the transparent cells are
    transparent spaces and no others, with padding every character has a background on
    either side. *)
Theorem cc608_page_shows_buffer cd tr chan padding : reachable cd tr → 1 ≤ chan ≤ 8 →
  ∃ ch pg outs, rd (channels cd) (chan - 1) = Some ch ∧
    _vbi_cc608_decoder_get_page (channels cd) chan padding = Some (Some pg) ∧
    pg_pgno pg = chan ∧ pg_rows pg = 15 ∧ pg_columns pg = Z.of_nat (columns_of padding) ∧
    length outs = 15%nat ∧ take (15 * columns_of padding) (pg_text pg) = concat outs ∧
    ∀ row out, outs !! row = Some out → length out = columns_of padding ∧
      ∃ t, row_of ch (displayed_buffer ch) (Z.of_nat row) = Some t ∧ length t = 33%nat ∧
        shows (3 <? uppercase_predictor ch) padding (tail t) out.
Proof.
  intros Hr Hc. destruct (reachable_ok _ _ Hr) as (H & _). destruct (rd_is_Some (channels cd) (chan - 1)) as (ch & E & _).
  { rewrite (ok_channels _ H). lia. }
  assert (displayable ch) as Hd by (by apply (displayable_core (chan - 1)), (ok_channel _ H)).
  destruct (caption_page_ok (channels cd) chan padding ch Hc E Hd) as (pg & outs & Ep & H1 & H2 & H3 & H4 & H5 & H6).
  exists ch, pg, outs. split; [done|]. split; [done|]. split_and!; try done. intros row out Hrow.
  destruct (H6 row out Hrow) as (Hl & t & Et & Hs). split; [done|]. exists t. split; [done|]. split; [|done].
  destruct (Hd (Z.of_nat row)) as (t2 & Et2 & (c0 & cells & -> & Hl2 & _) & _).
  { apply lookup_lt_Some in Hrow. lia. }
  rewrite Et2 in Et. injection Et as <-. by cbn [length]; rewrite Hl2.
Qed.

Lemma cc608_client_current_witness : ∃ ch, rd (channels (after transmission).1) 0 = Some ch ∧
  (look_all (λ _, None) (after transmission).2 0 = shown ch ∨ hidden ch).
Proof.
  eexists. split; [vm_compute; reflexivity|].
  apply (cc608_client_current (after transmission).1 (after transmission).2); [|vm_compute; reflexivity].
  apply after_reachable, transmission_valid.
Defined.

Lemma cc608_page_shows_buffer_witness : ∃ ch pg outs, rd (channels (after transmission).1) 2 = Some ch ∧
  _vbi_cc608_decoder_get_page (channels (after transmission).1) 3 true = Some (Some pg) ∧
  pg_pgno pg = 3 ∧ pg_rows pg = 15 ∧ pg_columns pg = 34 ∧
  length outs = 15%nat ∧ take 510 (pg_text pg) = concat outs ∧
  ∀ row out, outs !! row = Some out → length out = 34%nat ∧
    ∃ t, row_of ch (displayed_buffer ch) (Z.of_nat row) = Some t ∧ length t = 33%nat ∧
      shows (3 <? uppercase_predictor ch) true (tail t) out.
Proof.
  apply (cc608_page_shows_buffer (after transmission).1 (after transmission).2 3 true); [|lia].
  apply after_reachable, transmission_valid.
Defined.

