(* ===== verification/Cc608Rel.v ===== *)
(** Two runs of the caption decoder side by side: with different clients, or with the lines
    of both fields and of one field. *)
From S2P Require Import Prelude Double Format Lang Hamm Sliced Event Cc608Format Cc608 Cc608Rows Cc608Ops Cc608Inv.

(** ** A relational logic *)

Section rel.
Context {X1 X2 : Type} (send1 : decoder → event → X1 → X1) (send2 : decoder → event → X2 → X2).
Context (R : st (X := X1) → st (X := X2) → Prop).

(** Both runs fail, or both succeed with the same result in related states. *)
Definition rel {A} (m1 : M (X := X1) A) (m2 : M (X := X2) A) : Prop :=
  ∀ s1 s2, R s1 s2 →
  match m1 s1, m2 s2 with
  | Some (a, s1'), Some (b, s2') => a = b ∧ R s1' s2'
  | None, None => True
  | _, _ => False
  end.

Lemma rel_ret {A} (a : A) : rel (mret a) (mret a).
Proof. by intros s1 s2 H. Qed.

Lemma rel_bind {A B} (m1 : M A) (m2 : M A) (k1 : A → M B) (k2 : A → M B) :
  rel m1 m2 → (∀ a, rel (k1 a) (k2 a)) → rel (m1 ≫= k1) (m2 ≫= k2).
Proof.
  intros Hm Hk s1 s2 H. specialize (Hm s1 s2 H). unfold mbind, M_bind.
  destruct (m1 s1) as [[a s1']|], (m2 s2) as [[b s2']|]; try done. destruct Hm as [-> Hs]. by apply Hk.
Qed.

Lemma rel_lift {A} (o : option A) : rel (lift o) (lift o).
Proof. intros s1 s2 H. unfold lift. by destruct o. Qed.

(** What the relation must allow for the channels of field [f]. *)
Context (f : Z) (Hf : f = 0 ∨ f = 1).
Context (R_get : ∀ i, field_of i = f → rel (get_ch i) (get_ch i)).
Context (R_put : ∀ i ch, field_of i = f → rel (put_ch i ch) (put_ch i ch)).
Context (R_get_curr : rel (get_curr f) (get_curr f)).
Context (R_put_curr : ∀ n, rel (put_curr f n) (put_curr f n)).
Context (R_get_expect : rel (get_expect f) (get_expect f)).
Context (R_put_expect : ∀ e, rel (put_expect f e) (put_expect f e)).
Context (R_put_xds : ∀ g b, g = 0 ∨ g = 1 → rel (put_in_xds g b) (put_in_xds g b)).
Context (R_now : rel now now).
Context (R_put_pending : ∀ i, field_of i = f → rel (put_pending (Some i)) (put_pending (Some i))).
Context (R_history : ∀ b, rel (add_history b) (add_history b)).
Context (R_timestamp : ∀ t, rel (put_timestamp t) (put_timestamp t)).
Context (R_page : ∀ i m fl, field_of i = f → rel (send_event send1 (CC608 (i + 1) m fl)) (send_event send2 (CC608 (i + 1) m fl))).
Context (R_stream : ∀ i t p m text, field_of i = f →
  rel (send_event send1 (CC608_STREAM t p (i + 1) m text)) (send_event send2 (CC608_STREAM t p (i + 1) m text))).

(** Follows the two programs, which are the same. *)
Ltac rel_step :=
  match goal with
  | |- rel (mret _) (mret _) => apply rel_ret
  | |- rel (lift _) (lift _) => apply rel_lift
  | |- rel (_ ≫= _) (_ ≫= _) => apply rel_bind; [|intros ?]
  | |- rel (if ?b then _ else _) (if ?b then _ else _) => destruct b
  | |- rel (match ?x with _ => _ end) (match ?x with _ => _ end) => destruct x
  | |- rel (let _ := _ in _) (let _ := _ in _) => cbv zeta
  | _ => solve [eauto]
  end.
Ltac rel_auto := repeat rel_step.

Lemma rel_upd i g : field_of i = f → rel (upd_ch i g) (upd_ch i g).
Proof. intros Hi. unfold upd_ch. rel_auto. Qed.
Lemma rel_set i g : field_of i = f → rel (set_ch i g) (set_ch i g).
Proof. intros Hi. by apply rel_upd. Qed.
Hint Resolve rel_upd rel_set : core.

Lemma rel_display i fl : field_of i = f → rel (display_event send1 i fl) (display_event send2 i fl).
Proof. intros Hi. unfold display_event. rel_auto. Qed.
Hint Resolve rel_display : core.

Lemma rel_stream_loop i ch up n : field_of i = f → ∀ row, rel (stream_loop send1 i ch up row n) (stream_loop send2 i ch up row n).
Proof. intros Hi. induction n as [|n IH]; intros row; cbn [stream_loop]; rel_auto. Qed.
Hint Resolve rel_stream_loop : core.
Lemma rel_stream i a z : field_of i = f → rel (stream_event send1 i a z) (stream_event send2 i a z).
Proof. intros Hi. unfold stream_event. rel_auto. Qed.
Hint Resolve rel_stream : core.
Lemma rel_stream_row i row : field_of i = f → rel (stream_row_if_dirty send1 i row) (stream_row_if_dirty send2 i row).
Proof. intros Hi. unfold stream_row_if_dirty. rel_auto. Qed.
Lemma rel_stream_changed i : field_of i = f → rel (stream_event_if_changed send1 i) (stream_event_if_changed send2 i).
Proof. intros Hi. unfold stream_event_if_changed. rel_auto. Qed.
Lemma rel_erase i b : field_of i = f → rel (erase_memory send1 i b) (erase_memory send2 i b).
Proof. intros Hi. unfold erase_memory. rel_auto. Qed.
Hint Resolve rel_stream_row rel_stream_changed rel_erase : core.
Lemma rel_scroll i row w : field_of i = f → rel (scroll send1 i row w) (scroll send2 i row w).
Proof. intros Hi. unfold scroll. rel_auto. Qed.
Lemma rel_resize i w : field_of i = f → rel (resize_window send1 i w) (resize_window send2 i w).
Proof. intros Hi. unfold resize_window. rel_auto. Qed.
Lemma rel_move i row : field_of i = f → rel (move_window send1 i row) (move_window send2 i row).
Proof. intros Hi. unfold move_window. rel_auto. Qed.
Hint Resolve rel_scroll rel_resize rel_move : core.
Lemma rel_put_char i c d b : field_of i = f → rel (put_char i c d b) (put_char i c d b).
Proof. intros Hi. unfold put_char. rel_auto. Qed.
Hint Resolve rel_put_char : core.

Lemma rel_control_ops i c1 c2 : field_of i = f →
  rel (end_of_caption send1 i) (end_of_caption send2 i) ∧ rel (carriage_return send1 i) (carriage_return send2 i) ∧
  rel (erase_displayed_memory send1 i) (erase_displayed_memory send2 i) ∧ rel (text_restart send1 i) (text_restart send2 i) ∧
  rel (resume_direct_captioning send1 i) (resume_direct_captioning send2 i) ∧
  rel (roll_up_caption send1 i c2) (roll_up_caption send2 i c2) ∧
  rel (delete_to_end_of_row send1 i) (delete_to_end_of_row send2 i) ∧ rel (backspace send1 i) (backspace send2 i) ∧
  rel (resume_caption_loading send1 i) (resume_caption_loading send2 i) ∧
  rel (preamble_address_code send1 i c1 c2) (preamble_address_code send2 i c1 c2).
Proof.
  intros Hi. unfold end_of_caption, carriage_return, erase_displayed_memory, text_restart, resume_direct_captioning,
    roll_up_caption, delete_to_end_of_row, backspace, resume_caption_loading, preamble_address_code.
  split_and!; rel_auto.
Qed.

Lemma rel_switch n : rel (switch_channel n f) (switch_channel n f).
Proof. unfold switch_channel. rel_auto. Qed.
Lemma rel_when_known i (m1 : M unit) (m2 : M unit) : field_of i = f → rel m1 m2 → rel (when_known f i m1) (when_known f i m2).
Proof. intros Hi Hm. unfold when_known. rel_auto. Qed.

(** An operation on the channel that is switched to. *)
Lemma rel_switch_op n (m1 : Z → M (X := X1) unit) (m2 : Z → M (X := X2) unit) : rel (m1 (n - 1)) (m2 (n - 1)) →
  rel (i ← switch_channel n f; m1 i) (i ← switch_channel n f; m2 i).
Proof.
  intros Hm s1 s2 H. pose proof (R_put_curr n s1 s2 H) as Hc. unfold switch_channel, mbind, M_bind in *.
  destruct (put_curr f n s1) as [[[] s1']|], (put_curr f n s2) as [[[] s2']|]; try done. apply Hm, Hc.
Qed.

Lemma rel_misc i c2 : field_of i = f → 0 ≤ i .& 3 < 4 → field_of (i .& 3) = f → field_of (4 + (i .& 3)) = f →
  rel (misc_control_code send1 i c2 i f) (misc_control_code send2 i c2 i f).
Proof.
  intros Hi Hi3 Hf3 Hf4. unfold misc_control_code.
  assert (field_of (VBI_CAPTION_CC1 + (i .& 3) - 1) = f) as Hcc.
  { unfold VBI_CAPTION_CC1. by replace (1 + (i .& 3) - 1) with (i .& 3) by lia. }
  assert (field_of (VBI_CAPTION_T1 + (i .& 3) - 1) = f) as Hct.
  { unfold VBI_CAPTION_T1. by replace (5 + (i .& 3) - 1) with (4 + (i .& 3)) by lia. }
  pose proof (rel_control_ops i 0 c2 Hi) as (? & H2 & ? & ? & ? & ? & H7 & H8 & ? & ?).
  pose proof (rel_control_ops _ 0 c2 Hcc) as (C1 & ? & ? & ? & C5 & C6 & ? & ? & C9 & ?).
  pose proof (rel_control_ops _ 0 c2 Hct) as (? & ? & ? & T4 & ? & ? & ? & ? & ? & ?).
  pose proof (rel_control_ops _ 0 c2 Hf3) as (? & ? & E3 & ? & ? & ? & ? & ? & ? & ?).
  destruct (_ =? 0); [apply rel_switch_op; exact C9|]. destruct (_ =? 1); [by apply rel_when_known|].
  destruct (_ || _); [apply rel_ret|]. destruct (_ =? 4); [by apply rel_when_known|].
  destruct (_ || _ || _); [apply rel_switch_op; exact C6|]. destruct (_ =? 8); [by apply rel_when_known, rel_put_char|].
  destruct (_ =? 9); [apply rel_switch_op; exact C5|]. destruct (_ =? 10); [apply rel_switch_op; exact T4|].
  destruct (_ =? 11); [apply rel_bind; [apply rel_switch|]; intros ?; apply rel_ret|]. destruct (_ =? 12); [exact E3|].
  destruct (_ =? 13).
  { apply rel_bind; [done|]. intros n. destruct (n =? UNKNOWN_CHANNEL); [apply rel_ret|exact H2]. }
  destruct (_ =? 14); [|apply rel_switch_op; exact C1].
  apply rel_bind; [by apply R_get|]. intros ch. by apply rel_erase.
Qed.

Lemma field_text n : field_of (((n - VBI_CAPTION_CC1) .& 5) + f * 2) = f.
Proof.
  pose proof (land_range 3 (n - VBI_CAPTION_CC1) 5 ltac:(lia) ltac:(lia)) as H.
  rewrite <-(Z.land_diag 5), Z.land_assoc. set (m := _ .& 5) in *. clearbody m.
  pose proof (forallb_seqZ 8 (λ m, (field_of ((m .& 5) + 0 * 2) =? 0) && (field_of ((m .& 5) + 1 * 2) =? 1)) eq_refl m ltac:(lia)) as E.
  cbv beta in E. destruct Hf as [-> | ->]; lia.
Qed.

Lemma rel_control c1 c2 : rel (control_code send1 c1 c2 f) (control_code send2 c1 c2 f).
Proof.
  unfold control_code. apply rel_bind; [done|]. intros n. cbv zeta.
  destruct (ch_index n f c1 Hf) as (_ & Hi & Hi3 & Hf3 & Hf4). set (i := _ + _ * 2 + _) in *. clearbody i.
  pose proof (rel_control_ops i c1 c2 Hi) as (_ & _ & _ & _ & _ & _ & _ & _ & _ & Hpac).
  pose proof (rel_misc i c2 Hi Hi3 Hf3 Hf4). unfold ext_control_code.
  repeat match goal with
  | |- rel (if ?b then _ else _) _ => destruct b
  | |- rel (when_known _ _ _) _ => apply rel_when_known; [done|]
  end; rel_auto.
Qed.

Lemma rel_characters i c : field_of i = f → rel (characters i c) (characters i c).
Proof. intros Hi. unfold characters. rel_auto. Qed.

(** An event can only be pending for a channel of the field. *)
Context (R_send_pending : rel (send_pending send1) (send_pending send2)).

Lemma rel_text_pair c1 c2 : rel (text_pair send1 f c1 c2) (text_pair send2 f c1 c2).
Proof.
  unfold text_pair, finish. apply rel_bind; [done|]. intros n. pose proof (field_text n) as Hi.
  set (i := _ + f * 2) in *. clearbody i. pose proof (rel_characters i c1 Hi). pose proof (rel_characters i c2 Hi). rel_auto.
Qed.

Lemma rel_feed_pair c1 c2 : rel (feed_pair send1 f c1 c2) (feed_pair send2 f c1 c2).
Proof.
  pose proof (rel_control c1 c2). pose proof (rel_text_pair c1 c2). pose proof (rel_text_pair 0 c2).
  assert (rel (no_repeat f) (no_repeat f)) as Hn by (unfold no_repeat; rel_auto).
  unfold feed_pair, finish, parity_error. rel_auto.
Qed.

Lemma rel_feed buffer line t pts : (known_line line = true → line_field line = f) →
  rel (_vbi_cc608_decoder_feed send1 buffer line t pts) (_vbi_cc608_decoder_feed send2 buffer line t pts).
Proof.
  intros Hl. unfold _vbi_cc608_decoder_feed. fold (known_line line) (line_field line).
  destruct (known_line line); cbn [negb]; [|apply rel_ret]. rewrite Hl by done. cbv zeta.
  apply rel_bind; [rel_auto|]. intros p. apply rel_bind; [rel_auto|]. intros ?.
  apply rel_bind; [rel_auto|]. intros b0. apply rel_bind; [rel_auto|]. intros b1. apply rel_feed_pair.
Qed.
End rel.

(** ** Any client *)

(** A client is a fold over what it is sent. *)
Lemma feed_any_client {X} (send : decoder → event → X → X) buffer line t pts cd x r cd' tr :
  _vbi_cc608_decoder_feed record buffer line t pts (cd, []) = Some (r, (cd', tr)) →
  _vbi_cc608_decoder_feed send buffer line t pts (cd, x) = Some (r, (cd', fold_left (λ x e, send e.1 e.2 x) tr x)).
Proof.
  intros H. set (R := λ (s1 : st (X := X)) (s2 : st (X := trace)),
    s1.1 = s2.1 ∧ s1.2 = fold_left (λ x e, send e.1 e.2 x) s2.2 x).
  assert (line_field line = 0 ∨ line_field line = 1) as Hf by (unfold line_field; destruct (line =? 284); auto).
  assert (rel R (_vbi_cc608_decoder_feed send buffer line t pts) (_vbi_cc608_decoder_feed record buffer line t pts)) as Hrel.
  { apply (rel_feed send record R (line_field line) Hf); try done.
    all: try (intros; intros [cd1 x1] [cd2 x2] [E1 E2]; cbn [fst snd] in *; subst).
    all: unfold get_ch, put_ch, get_curr, put_curr, get_expect, put_expect, put_in_xds; cbn [fst snd].
    all: repeat match goal with |- context [rd ?l ?i] => destruct (rd l i) | |- context [wr ?l ?i ?y] => destruct (wr l i y) end.
    all: cbn [mbind option_bind]; try done.
    - split; [done|]. split; [done|]. unfold record. cbn [fst snd]. by rewrite fold_left_app.
    - split; [done|]. split; [done|]. unfold record. cbn [fst snd]. by rewrite fold_left_app.
    - unfold send_pending, pending, mbind, M_bind. cbn [fst snd]. destruct (event_pending cd2) as [i|]; [|done].
      unfold display_event, get_ch, send_event, put_pending, mbind, M_bind. cbn [fst snd].
      cbn. destruct (rd (channels cd2) i) as [ch|]; cbn; [|done]. split; [done|].
      split; [done|]. unfold record. cbn [fst snd]. by rewrite fold_left_app. }
  specialize (Hrel (cd, x) (cd, [])). rewrite H in Hrel. specialize (Hrel (conj eq_refl eq_refl)).
  destruct (_vbi_cc608_decoder_feed send _ _ _ _ _) as [[r1 [cd1 x1]]|]; [|done].
  destruct Hrel as [-> [E1 E2]]. cbn in E1, E2. by subst.
Qed.

(** ** Field by field *)

Definition chan_of (ev : event) : Z := match ev with CC608 chan _ _ | CC608_STREAM _ _ chan _ _ => chan end.
Definition of_field (f : Z) (ev : event) : bool := field_of (chan_of ev - 1) =? f.

(** The events of a field. *)
Definition events_of (f : Z) (tr : trace) : list event := List.filter (of_field f) (map snd tr).

(** Two decoders are the same as far as field [f] is concerned. *)
Definition agree (f : Z) (cd1 cd2 : decoder) : Prop :=
  (∀ j, field_of j = f → rd (channels cd1) j = rd (channels cd2) j) ∧
  rd (curr_ch_num cd1) f = rd (curr_ch_num cd2) f ∧ rd (expect_ctrl cd1) f = rd (expect_ctrl cd2) f.

(** All arrays have their sizes. *)
Definition sized (cd : decoder) : Prop :=
  length (channels cd) = 8%nat ∧ length (curr_ch_num cd) = 2%nat ∧ length (expect_ctrl cd) = 2%nat ∧ length (in_xds cd) = 2%nat.

Lemma cd_ok_sized cd : cd_ok cd → sized cd.
Proof. by intros [? ? [? _] ? ?]. Qed.

(** The states of two runs during a call for field [f]. *)
Definition same_field (f : Z) (s1 s2 : st (X := trace)) : Prop :=
  sized s1.1 ∧ sized s2.1 ∧ agree f s1.1 s2.1 ∧ event_pending s1.1 = event_pending s2.1 ∧
  (∀ i, event_pending s1.1 = Some i → field_of i = f) ∧
  cd_timestamp s1.1 = cd_timestamp s2.1 ∧ events_of f s1.2 = events_of f s2.2.

Lemma events_of_app f tr1 tr2 : events_of f (tr1 ++ tr2) = events_of f tr1 ++ events_of f tr2.
Proof. unfold events_of. by rewrite map_app, List.filter_app. Qed.

Lemma wr_both {A} (l1 l2 : list A) i x : length l1 = length l2 →
  match wr l1 i x, wr l2 i x with
  | Some l1', Some l2' => length l1' = length l1 ∧ length l2' = length l2 ∧
      (∀ j, rd l1' j = if decide (j = i) then Some x else rd l1 j) ∧ ∀ j, rd l2' j = if decide (j = i) then Some x else rd l2 j
  | None, None => True
  | _, _ => False
  end.
Proof.
  intros Hl. destruct (decide (0 ≤ i < Z.of_nat (length l1))) as [Hi|Hi].
  - destruct (rd_wr l1 i x Hi) as (l1' & -> & ? & ?). destruct (rd_wr l2 i x) as (l2' & -> & ? & ?); [lia|]. done.
  - unfold wr. rewrite !decide_False by lia. done.
Qed.

Section same_field.
Context (f : Z) (Hf : f = 0 ∨ f = 1).

Lemma sf_put_ch i ch : field_of i = f → rel (same_field f) (put_ch i ch) (put_ch i ch).
Proof.
  intros Hi [cd1 x1] [cd2 x2] (S1 & S2 & (A1 & A2 & A3) & P & Q & T & E). unfold put_ch. cbn [fst snd] in *.
  destruct S1 as (L1 & ? & ? & ?), S2 as (L2 & ? & ? & ?). pose proof (wr_both (channels cd1) (channels cd2) i ch ltac:(congruence)) as Hw.
  destruct (wr (channels cd1) i ch) as [l1|], (wr (channels cd2) i ch) as [l2|]; try done.
  destruct Hw as (W1 & W2 & W3 & W4). cbn [mbind option_bind]. split; [done|]. repeat split; cbn; try done; try congruence.
  intros j Hj. rewrite W3, W4. case_decide; [done|]. by apply A1.
Qed.

Lemma sf_put_curr n : rel (same_field f) (put_curr f n) (put_curr f n).
Proof.
  intros [cd1 x1] [cd2 x2] (S1 & S2 & (A1 & A2 & A3) & P & Q & T & E). unfold put_curr. cbn [fst snd] in *.
  destruct S1 as (? & L1 & ? & ?), S2 as (? & L2 & ? & ?). pose proof (wr_both (curr_ch_num cd1) (curr_ch_num cd2) f n ltac:(congruence)) as Hw.
  destruct (wr (curr_ch_num cd1) f n) as [l1|], (wr (curr_ch_num cd2) f n) as [l2|]; try done.
  destruct Hw as (W1 & W2 & W3 & W4). cbn [mbind option_bind]. split; [done|]. repeat split; cbn; try done; try congruence.
  by rewrite W3, W4, !decide_True.
Qed.

Lemma sf_put_expect e : rel (same_field f) (put_expect f e) (put_expect f e).
Proof.
  intros [cd1 x1] [cd2 x2] (S1 & S2 & (A1 & A2 & A3) & P & Q & T & E). unfold put_expect. cbn [fst snd] in *.
  destruct S1 as (? & ? & L1 & ?), S2 as (? & ? & L2 & ?). pose proof (wr_both (expect_ctrl cd1) (expect_ctrl cd2) f e ltac:(congruence)) as Hw.
  destruct (wr (expect_ctrl cd1) f e) as [l1|], (wr (expect_ctrl cd2) f e) as [l2|]; try done.
  destruct Hw as (W1 & W2 & W3 & W4). cbn [mbind option_bind]. split; [done|]. repeat split; cbn; try done; try congruence.
  by rewrite W3, W4, !decide_True.
Qed.

Lemma sf_put_xds g b : g = 0 ∨ g = 1 → rel (same_field f) (put_in_xds g b) (put_in_xds g b).
Proof.
  intros Hg [cd1 x1] [cd2 x2] (S1 & S2 & A & P & Q & T & E). unfold put_in_xds. cbn [fst snd] in *.
  destruct S1 as (? & ? & ? & L1), S2 as (? & ? & ? & L2). pose proof (wr_both (in_xds cd1) (in_xds cd2) g b ltac:(congruence)) as Hw.
  destruct (wr (in_xds cd1) g b) as [l1|], (wr (in_xds cd2) g b) as [l2|]; try done.
  destruct Hw as (W1 & W2 & _). cbn [mbind option_bind]. split; [done|]. repeat split; cbn; try done; try apply A; congruence.
Qed.

Lemma sf_send ev : field_of (chan_of ev - 1) = f → rel (same_field f) (send_event record ev) (send_event record ev).
Proof.
  intros Hev [cd1 x1] [cd2 x2] (S1 & S2 & A & P & Q & T & E). unfold send_event, record. cbn [fst snd] in *.
  split; [done|]. repeat (split; [done|]). cbn [snd]. by rewrite !events_of_app, E.
Qed.
End same_field.

(** ** One field alone *)

Definition on_field (f : Z) (i : input) : bool := known_line (in_line i) && (line_field (in_line i) =? f).


(** Between calls: the field is the same in both runs. *)
Definition in_step (f : Z) (s1 s2 : st (X := trace)) : Prop :=
  cd_ok s1.1 ∧ cd_ok s2.1 ∧ event_pending s1.1 = None ∧ event_pending s2.1 = None ∧ agree f s1.1 s2.1 ∧
  events_of f s1.2 = events_of f s2.2.

Lemma rel_feed_field f buffer line t pts : f = 0 ∨ f = 1 → line_field line = f →
  rel (same_field f) (_vbi_cc608_decoder_feed record buffer line t pts) (_vbi_cc608_decoder_feed record buffer line t pts).
Proof.
  intros Hf Hl. apply (rel_feed record record (same_field f) f Hf).
  - intros i Hi [cd1 x1] [cd2 x2] H. pose proof H as (_ & _ & (A1 & _) & _). cbn [fst snd] in *.
    unfold get_ch. cbn [fst]. rewrite (A1 i Hi). destruct (rd (channels cd2) i); [by split|done].
  - intros i ch. by apply sf_put_ch.
  - intros [cd1 x1] [cd2 x2] H. pose proof H as (_ & _ & (_ & A2 & _) & _). cbn [fst snd] in *.
    unfold get_curr. cbn [fst]. rewrite A2. destruct (rd (curr_ch_num cd2) f); [by split|done].
  - intros n. by apply sf_put_curr.
  - intros [cd1 x1] [cd2 x2] H. pose proof H as (_ & _ & (_ & _ & A3) & _). cbn [fst snd] in *.
    unfold get_expect. cbn [fst]. rewrite A3. destruct (rd (expect_ctrl cd2) f); [by split|done].
  - intros e. by apply sf_put_expect.
  - intros g b. by apply sf_put_xds.
  - intros s1 s2 H. split; [apply H|done].
  - intros i Hi s1 s2 (S1 & S2 & A & P & Q & T & E). split; [done|]. repeat (split; [done|]). split; [|done].
    by intros j [= <-].
  - intros b s1 s2 H. split; [done|]. exact H.
  - intros ts s1 s2 (S1 & S2 & A & P & Q & T & E). split; [done|]. by repeat (split; [done|]).
  - intros i m fl Hi. apply sf_send. cbn. by replace (i + 1 - 1) with i by lia.
  - intros i ts p m text Hi. apply sf_send. cbn. by replace (i + 1 - 1) with i by lia.
  - intros [cd1 x1] [cd2 x2] H. pose proof H as (S1 & S2 & (A1 & A2 & A3) & P & Q & T & E). cbn [fst snd] in *.
    unfold send_pending, pending, mbind, M_bind. cbn [fst snd]. rewrite <-P. destruct (event_pending cd1) as [i|] eqn:Ep; [|by split].
    unfold display_event, get_ch, send_event, put_pending, mbind, M_bind. cbn.
    rewrite (A1 i (Q i eq_refl)). destruct (rd (channels cd2) i) as [ch|]; cbn; [|done]. split; [done|].
    unfold same_field, record. cbn [fst snd]. repeat (split; [done|]). rewrite !events_of_app, E. done.
  - done.
Qed.

(** The old time stamp does not matter. *)
Lemma feed_timestamp ts buffer line t pts cd x : known_line line = true →
  _vbi_cc608_decoder_feed record buffer line t pts (set_timestamp ts cd, x) = _vbi_cc608_decoder_feed record buffer line t pts (cd, x).
Proof.
  intros Hk. unfold _vbi_cc608_decoder_feed. fold (known_line line). rewrite Hk. cbn [negb].
  unfold lift, mbind, M_bind. destruct (if pts <? 0 then _ else _); done.
Qed.

Lemma feed_both f i s1 s2 : f = 0 ∨ f = 1 → valid i → on_field f i = true → in_step f s1 s2 →
  ∃ r s1' s2', feed_input record i s1 = Some (r, s1') ∧ feed_input record i s2 = Some (r, s2') ∧ in_step f s1' s2'.
Proof.
  intros Hf Hv [Hk Hl%Z.eqb_eq]%andb_true_iff (H1 & H2 & P1 & P2 & A & E). destruct s1 as [cd1 x1], s2 as [cd2 x2]. cbn [fst snd] in *.
  destruct (caption_feed_ok (in_buffer i) (in_line i) (in_time i) (in_pts i) cd1 H1 P1 Hv Hk x1) as (r1 & cd1' & tr1 & E1 & [O1 _ _ _ _ _] & P1').
  destruct (caption_feed_ok (in_buffer i) (in_line i) (in_time i) (in_pts i) cd2 H2 P2 Hv Hk x2) as (r2 & cd2' & tr2 & E2 & [O2 _ _ _ _ _] & P2').
  assert (same_field f (cd1, x1) (set_timestamp (cd_timestamp cd1) cd2, x2)) as Hs.
  { split; [by apply cd_ok_sized|]. split; [exact (cd_ok_sized _ H2)|]. split; [exact A|]. cbn [fst snd].
    split; [exact (eq_trans P1 (eq_sym P2))|]. split; [by rewrite P1|]. done. }
  pose proof (rel_feed_field f (in_buffer i) (in_line i) (in_time i) (in_pts i) Hf Hl _ _ Hs) as Hrel.
  rewrite feed_timestamp, E1, E2 in Hrel by done. destruct Hrel as [-> (_ & _ & A' & _ & _ & _ & E')].
  exists r2, (cd1', x1 ++ tr1), (cd2', x2 ++ tr2). split; [exact E1|]. split; [exact E2|]. by repeat (split; [done|]).
Qed.

(** A line of the other field changes nothing. *)
Lemma feed_other f i s1 s2 : f = 0 ∨ f = 1 → valid i → on_field f i = false → in_step f s1 s2 →
  ∃ r s1', feed_input record i s1 = Some (r, s1') ∧ in_step f s1' s2.
Proof.
  intros Hf Hv Ho (H1 & H2 & P1 & P2 & (A1 & A2 & A3) & E). destruct s1 as [cd1 x1], s2 as [cd2 x2]. cbn [fst snd] in *.
  unfold on_field in Ho. destruct (known_line (in_line i)) eqn:Hk; cbn [andb] in Ho.
  - apply Z.eqb_neq in Ho.
    destruct (caption_feed_ok (in_buffer i) (in_line i) (in_time i) (in_pts i) cd1 H1 P1 Hv Hk x1) as (r1 & cd1' & tr1 & E1 & [O1 O2 O3 O4 O5 _] & P1').
    exists r1, (cd1', x1 ++ tr1). split; [exact E1|]. split; [done|]. split; [done|]. split; [done|]. split; [done|]. cbn [fst snd].
    split; [split_and!|].
    + intros j Hj. rewrite O2 by congruence. by apply A1.
    + by rewrite O3 by congruence.
    + by rewrite O4 by congruence.
    + rewrite events_of_app, E. assert (events_of f tr1 = []) as ->; [|by rewrite app_nil_r].
      unfold events_of. clear -O5 Ho. induction O5 as [|e tr [Hs _] _ IH]; [done|]. cbn [map List.filter].
      assert (of_field f e.2 = false) as ->; [|done]. unfold of_field. apply Z.eqb_neq. intros Hc. apply Ho. rewrite <-Hc.
      destruct e.2; cbn; by destruct Hs.
  - exists false, (cd1, x1). split; [by apply feed_unknown_line|]. by repeat (split; [done|]).
Qed.

Lemma feed_all_in_step f inputs : f = 0 ∨ f = 1 → Forall valid inputs → ∀ s1 s2, in_step f s1 s2 →
  ∃ s1' s2', feed_all record inputs s1 = Some (tt, s1') ∧
    feed_all record (List.filter (on_field f) inputs) s2 = Some (tt, s2') ∧ in_step f s1' s2'.
Proof.
  intros Hf. induction 1 as [|i l Hv Hl IH]; intros s1 s2 Hs; [by exists s1, s2|].
  cbn [feed_all List.filter]. destruct (on_field f i) eqn:Ho.
  - destruct (feed_both f i s1 s2 Hf Hv Ho Hs) as (r & s1' & s2' & E1 & E2 & Hs'). destruct (IH s1' s2' Hs') as (t1 & t2 & F1 & F2 & Ht).
    exists t1, t2. cbn [feed_all]. unfold mbind, M_bind. rewrite E1, E2. done.
  - destruct (feed_other f i s1 s2 Hf Hv Ho Hs) as (r & s1' & E1 & Hs'). destruct (IH s1' s2 Hs') as (t1 & t2 & F1 & F2 & Ht).
    exists t1, t2. split; [|done]. unfold mbind at 1, M_bind at 1. rewrite E1. done.
Qed.

(** ** Repeated control codes *)

Lemma put_expect_set f e cd p : f = 0 ∨ f = 1 → cd_ok cd → event_pending cd = p →
  advances f (put_expect f e) cd (λ _ cd', event_pending cd' = p ∧ rd (expect_ctrl cd') f = Some e).
Proof.
  intros Hf H Hp. destruct (rd_wr (expect_ctrl cd) f e) as (l & E & El & Hj); [rewrite (ok_expect _ H); lia|].
  apply (adv_quiet f _ cd tt (set_expect l cd)); try done.
  - intros x. unfold put_expect. cbn [fst snd]. by rewrite E.
  - destruct H. split; try done. cbn. lia.
  - intros g Hg. cbn [expect_ctrl set_expect]. by rewrite Hj, decide_False.
  - split; [done|]. cbn [expect_ctrl set_expect]. by rewrite Hj, decide_True.
Qed.

(** A control code is remembered after it was acted upon. *)
Lemma feed_control_expect f c1 c2 cd : f = 0 ∨ f = 1 → cd_ok cd → event_pending cd = None →
  0x10 ≤ c1 < 0x20 → 0x20 ≤ c2 < 0x80 → rd (expect_ctrl cd) f ≠ Some (c1, c2) →
  advances f (feed_pair record f c1 c2) cd (λ r cd', r = true ∧ event_pending cd' = None ∧ rd (expect_ctrl cd') f = Some (c1, c2)).
Proof.
  intros Hf H Hp Hc1 Hc2 He x. destruct (rd_is_Some (expect_ctrl cd) f) as (e & Ee & _); [rewrite (ok_expect _ H); lia|].
  unfold feed_pair, mbind at 1, M_bind at 1, get_expect. cbn [fst]. rewrite Ee. cbn [mbind option_bind].
  rewrite (proj2 (Z.ltb_ge c1 0)) by lia.
  assert ((c1 =? e.1) && (c2 =? e.2) = false) as ->.
  { apply not_true_iff_false. rewrite andb_true_iff, !Z.eqb_eq. intros [-> ->]. apply He. by destruct e. }
  rewrite (proj2 (Z.leb_le 0x10 c1)), (proj2 (Z.ltb_lt c1 0x20)), (proj2 (Z.ltb_ge c2 0x20)) by lia. cbn [andb].
  revert x. change (advances f (_ ← put_in_xds f false; _ ← control_code record c1 c2 f; _ ← send_pending record;
    _ ← put_expect f (c1, c2); finish true) cd (λ r cd', r = true ∧ event_pending cd' = None ∧ rd (expect_ctrl cd') f = Some (c1, c2))).
  eapply adv_bind; [by eapply (put_in_xds_ok f f false _ None)|]. intros [] cd1 H1 Hp1.
  eapply adv_bind; [by apply control_code_ok|]. intros [] cd2 H2 (i & Hi & Hfi & Hp2).
  eapply adv_bind; [by apply (adv_send_pending f i)|]. intros [] cd3 H3 Hp3.
  eapply adv_bind; [by apply (put_expect_set f _ _ None)|]. intros [] cd4 H4 [Hp4 He4].
  eapply adv_bind.
  - apply (adv_quiet f _ cd4 tt (set_history (u32 (error_history cd4 * 2 + Z.b2z true)) cd4)
      (λ _ cd', event_pending cd' = None ∧ rd (expect_ctrl cd') f = Some (c1, c2))); try done. by destruct H4.
  - intros [] cd5 H5 [? ?]. by apply adv_ret.
Qed.

(** A code that is expected is not acted upon again. *)
Lemma feed_expected f c1 c2 cd x : f = 0 ∨ f = 1 → cd_ok cd → 0 ≤ c1 → rd (expect_ctrl cd) f = Some (c1, c2) →
  ∃ cd', feed_pair record f c1 c2 (cd, x) = Some (true, (cd', x)) ∧ channels cd' = channels cd ∧ curr_ch_num cd' = curr_ch_num cd.
Proof.
  intros Hf H Hc1 Ee. destruct (rd_wr (expect_ctrl cd) f (-1, c2)) as (l & E & _); [rewrite (ok_expect _ H); lia|].
  eexists. split.
  - unfold feed_pair, get_expect, no_repeat, put_expect, finish, add_history, mbind, M_bind. cbn [fst snd].
    rewrite Ee. cbn [mbind option_bind fst snd]. rewrite (proj2 (Z.ltb_ge c1 0)), !Z.eqb_refl by lia. cbn [andb].
    unfold get_expect, put_expect. cbn [fst snd]. rewrite Ee. cbn [mbind option_bind fst snd]. rewrite E. reflexivity.
  - done.
Qed.

(** The part of a call after the parity check. *)
Lemma feed_as_pair buffer line t pts cd x b0 b1 : known_line line = true → buffer = [b0; b1] → input_ok buffer t pts →
  ∃ ts, _vbi_cc608_decoder_feed record buffer line t pts (cd, x) =
    feed_pair record (line_field line) (vbi_unpar8 b0) (vbi_unpar8 b1) (set_timestamp ts cd, x).
Proof.
  intros Hk -> (_ & _ & Ht). unfold _vbi_cc608_decoder_feed. fold (known_line line). rewrite Hk. cbn [negb].
  assert (∃ p, (if pts <? 0 then pts_of_time t else Some pts) = Some p) as [p Ep].
  { destruct (Z.ltb_spec pts 0) as [Hneg|]; [apply Ht, Hneg|by eexists]. }
  exists (Timestamp t (p .& ((1 ≪ 33) - 1))). unfold mbind, M_bind at 1, lift at 1. rewrite Ep. done.
Qed.

Lemma set_timestamp_ok ts cd : cd_ok cd → cd_ok (set_timestamp ts cd).
Proof. by intros []. Qed.

Lemma feed_others_expect f inputs cd x : f = 0 ∨ f = 1 → Forall valid inputs → Forall (λ i, on_field f i = false) inputs →
  cd_ok cd → event_pending cd = None →
  ∃ cd' tr, feed_all record inputs (cd, x) = Some (tt, (cd', x ++ tr)) ∧ cd_ok cd' ∧ event_pending cd' = None ∧
    rd (expect_ctrl cd') f = rd (expect_ctrl cd) f.
Proof.
  intros Hf Hv. revert cd x. induction Hv as [|i l Hi Hl IH]; intros cd x Ho H Hp; cbn [feed_all].
  - exists cd, []. by rewrite app_nil_r.
  - apply List.Forall_cons_iff in Ho as [Ho1 Ho].
    assert (∃ r cd1 tr1, feed_input record i (cd, x) = Some (r, (cd1, x ++ tr1)) ∧ cd_ok cd1 ∧ event_pending cd1 = None ∧
      rd (expect_ctrl cd1) f = rd (expect_ctrl cd) f) as (r & cd1 & tr1 & E & H1 & Hp1 & He1).
    { unfold on_field in Ho1. destruct (known_line (in_line i)) eqn:Hk; cbn [andb] in Ho1.
      - apply Z.eqb_neq in Ho1. destruct (caption_feed_ok _ _ _ _ cd H Hp Hi Hk x) as (r & cd1 & tr1 & E & A & Hp1).
        exists r, cd1, tr1. split; [exact E|]. split; [by destruct A|]. split; [done|]. apply (adv_expect _ _ _ _ A). congruence.
      - exists false, cd, []. rewrite app_nil_r. split; [by apply feed_unknown_line|done]. }
    destruct (IH cd1 (x ++ tr1) Ho H1 Hp1) as (cd2 & tr2 & E2 & H2 & Hp2 & He2).
    exists cd2, (tr1 ++ tr2). split; [|split; [done|split; [done|congruence]]].
    unfold mbind at 1, M_bind at 1. rewrite E. cbn [mbind option_bind]. by rewrite app_assoc.
Qed.

(** ** What a caller relies on *)

(** A page of any channel can be fetched. *)
Definition pages_total (cd : decoder) : Prop :=
  ∀ chan padding, 1 ≤ chan ≤ 8 → ∃ pg, _vbi_cc608_decoder_get_page (channels cd) chan padding = Some (Some pg).

(** An event a client may receive for a line of field [f]. *)
Definition event_sane (f : Z) (ev : event) : Prop :=
  1 ≤ chan_of ev ≤ 8 ∧ of_field f ev = true ∧
  match ev with CC608 _ _ _ => True | CC608_STREAM _ _ _ _ text => length text = 32%nat end.

Lemma displayable_total cd : length (channels cd) = 8%nat → (∀ j ch, rd (channels cd) j = Some ch → displayable ch) → pages_total cd.
Proof.
  intros Hl Hd chan padding Hc. destruct (rd_is_Some (channels cd) (chan - 1)) as (ch & E & _); [lia|].
  destruct (caption_page_ok (channels cd) chan padding ch Hc E (Hd _ _ E)) as (pg & outs & E' & _). by exists pg.
Qed.

Lemma cd_ok_total cd : cd_ok cd → pages_total cd.
Proof.
  intros H. apply displayable_total; [by destruct H|]. intros j ch E. by apply (displayable_core j), (ok_channel _ H).
Qed.

Lemma sent_ok_sane f e : sent_ok f e → event_sane f e.2 ∧ pages_total e.1.
Proof.
  destruct e as [cd ev]. intros (He & Hl & Hd). cbn [fst snd] in *. split; [|by apply displayable_total].
  unfold event_sane, of_field. rewrite Z.eqb_eq.
  destruct ev; cbn [chan_of]; destruct He as (? & He); [|destruct He]; (split; [done|]); (split; [congruence|done]).
Qed.

(** Every line is decoded, whatever the client does with the events. *)
Lemma feed_reachable {X} (send : decoder → event → X → X) cd tr buffer line t pts x :
  reachable cd tr → input_ok buffer t pts →
  ∃ r cd' sent, _vbi_cc608_decoder_feed send buffer line t pts (cd, x) =
      Some (r, (cd', fold_left (λ x e, send e.1 e.2 x) sent x)) ∧
    reachable cd' (tr ++ sent) ∧ Forall (sent_ok (line_field line)) sent.
Proof.
  intros Hr Hin. destruct (reachable_ok _ _ Hr) as (H & Hp & _).
  destruct (known_line line) eqn:Hk.
  - destruct (caption_feed_ok buffer line t pts cd H Hp Hin Hk []) as (r & cd' & sent & E & A & _).
    destruct (caption_feed_ok buffer line t pts cd H Hp Hin Hk tr) as (r2 & cd2 & sent2 & E2 & _).
    pose proof (feed_any_client send _ _ _ _ _ x _ _ _ E) as E'. exists r, cd', sent. split; [exact E'|].
    split; [|by destruct A].
    assert (∀ tr', fold_left (λ x e, record e.1 e.2 x) sent tr' = tr' ++ sent) as Hrec.
    { clear. induction sent as [|e l IH]; intros tr'; cbn [fold_left]; [by rewrite app_nil_r|].
      rewrite IH. unfold record. rewrite <-app_assoc. by destruct e. }
    pose proof (feed_any_client record _ _ _ _ _ tr _ _ _ E) as Er. rewrite Hrec in Er. exact (reach_feed _ _ _ _ _ _ _ _ _ Hr Hin Er).
  - exists false, cd, []. rewrite app_nil_r. split; [|done]. cbn [fold_left]. unfold _vbi_cc608_decoder_feed.
    fold (known_line line). by rewrite Hk.
Qed.

(** C21: for every decoder a client can obtain and every pair of bytes,
    [_vbi_cc608_decoder_feed] stays inside its buffers and fails no assertion, whatever the
    client does with the events. Every event is about a channel 1 ... 8 of the field of the
    line, a transcript has 32 characters, and while the client handles an event and
    afterwards [_vbi_cc608_decoder_get_page] returns the page of every channel. *)
Theorem cc608_feed_safe {X} (send : decoder → event → X → X) cd tr buffer line t pts x :
  reachable cd tr → input_ok buffer t pts →
  ∃ r cd' sent, _vbi_cc608_decoder_feed send buffer line t pts (cd, x) =
      Some (r, (cd', fold_left (λ x e, send e.1 e.2 x) sent x)) ∧
    reachable cd' (tr ++ sent) ∧ pages_total cd' ∧
    Forall (λ e, event_sane (line_field line) e.2 ∧ pages_total e.1) sent.
Proof.
  intros Hr Hin. destruct (feed_reachable send cd tr buffer line t pts x Hr Hin) as (r & cd' & sent & E & Hr' & Hs).
  exists r, cd', sent. split; [exact E|]. split; [done|]. split.
  - by apply cd_ok_total, (reachable_ok _ _ Hr').
  - eapply List.Forall_impl; [|exact Hs]. intros e. apply sent_ok_sane.
Qed.

(** C24: the fields are decoded independently. Whatever lines of both fields are fed, in any
    order, field [f] ends up as if only the lines of the field had been fed: the same events
    were sent for it in the same order, its channels, its current channel and the control
    code it may repeat are the same. *)
Theorem cc608_fields_independent f inputs cd tr : f = 0 ∨ f = 1 → reachable cd tr → Forall valid inputs →
  ∃ cd1 x1 cd2 x2, feed_all record inputs (cd, []) = Some (tt, (cd1, x1)) ∧
    feed_all record (List.filter (on_field f) inputs) (cd, []) = Some (tt, (cd2, x2)) ∧
    agree f cd1 cd2 ∧ events_of f x1 = events_of f x2.
Proof.
  intros Hf Hr Hv. destruct (reachable_ok _ _ Hr) as (H & Hp & _).
  destruct (feed_all_in_step f inputs Hf Hv (cd, []) (cd, [])) as ([cd1 x1] & [cd2 x2] & E1 & E2 & (_ & _ & _ & _ & A & E)).
  { by repeat (split; [done|]). }
  by exists cd1, x1, cd2, x2.
Qed.

(** C26: control codes are transmitted twice, and the second transmission is not acted upon:
    when a control code has been received on a field, lines of the other field follow and
    then the same code again, the second one changes no channel and sends no event. *)
Theorem cc608_repeated_code cd tr b0 b1 line1 line2 t1 t2 p1 p2 others x :
  reachable cd tr → input_ok [b0; b1] t1 p1 → input_ok [b0; b1] t2 p2 →
  known_line line1 = true → known_line line2 = true → line_field line1 = line_field line2 →
  0x10 ≤ vbi_unpar8 b0 < 0x20 → 0x20 ≤ vbi_unpar8 b1 →
  rd (expect_ctrl cd) (line_field line1) ≠ Some (vbi_unpar8 b0, vbi_unpar8 b1) →
  Forall valid others → Forall (λ i, on_field (line_field line1) i = false) others →
  ∃ cd1 x1 cd2 x2 cd3, feed_input record (Input [b0; b1] line1 t1 p1) (cd, x) = Some (true, (cd1, x1)) ∧
    feed_all record others (cd1, x1) = Some (tt, (cd2, x2)) ∧
    feed_input record (Input [b0; b1] line2 t2 p2) (cd2, x2) = Some (true, (cd3, x2)) ∧
    channels cd3 = channels cd2 ∧ curr_ch_num cd3 = curr_ch_num cd2.
Proof.
  intros Hr Hi1 Hi2 Hk1 Hk2 Hl Hc1 Hc2 He Hv Ho. destruct (reachable_ok _ _ Hr) as (H & Hp & _).
  assert (line_field line1 = 0 ∨ line_field line1 = 1) as Hf by (unfold line_field; destruct (line1 =? 284); auto).
  pose proof Hi1 as (_ & Hb & _). apply List.Forall_cons_iff in Hb as [_ Hb]. apply List.Forall_cons_iff in Hb as [Hb1 _].
  destruct (unpar8_range b1 Hb1) as [_ Hc2'].
  destruct (feed_as_pair [b0; b1] line1 t1 p1 cd x b0 b1 Hk1 eq_refl Hi1) as (ts & E1).
  destruct (feed_control_expect (line_field line1) _ _ (set_timestamp ts cd) Hf (set_timestamp_ok ts cd H) Hp Hc1 (conj Hc2 Hc2') He x)
    as (r & cd1 & tr1 & E1' & A1 & -> & Hp1 & He1). rewrite E1' in E1.
  destruct (feed_others_expect (line_field line1) others cd1 (x ++ tr1) Hf Hv Ho (adv_ok _ _ _ _ A1) Hp1)
    as (cd2 & tr2 & E2 & H2 & Hp2 & He2).
  destruct (feed_as_pair [b0; b1] line2 t2 p2 cd2 ((x ++ tr1) ++ tr2) b0 b1 Hk2 eq_refl Hi2) as (ts2 & E3).
  rewrite <-Hl in E3. destruct (feed_expected (line_field line1) (vbi_unpar8 b0) (vbi_unpar8 b1) (set_timestamp ts2 cd2) ((x ++ tr1) ++ tr2))
    as (cd3 & E3' & Hch & Hcu); [done|by apply set_timestamp_ok|lia|by rewrite <-He1, <-He2|].
  rewrite E3' in E3. exists cd1, (x ++ tr1), cd2, ((x ++ tr1) ++ tr2), cd3. by repeat (split; [done|]).
Qed.

Lemma cc608_feed_safe_witness : ∃ r cd' sent,
  _vbi_cc608_decoder_feed (λ _ _ n, S n) [0x14; 0xAD] 21 d_zero 0 ((after transmission).1, O) =
    Some (r, (cd', fold_left (λ n _, S n) sent O)) ∧
  reachable cd' ((after transmission).2 ++ sent) ∧ pages_total cd' ∧
  Forall (λ e, event_sane 0 e.2 ∧ pages_total e.1) sent.
Proof.
  apply (cc608_feed_safe (λ _ _ n, S n) (after transmission).1 (after transmission).2 [0x14; 0xAD] 21 d_zero 0 O).
  - apply after_reachable, transmission_valid.
  - split; [done|]. split; [repeat constructor; unfold is_byte; lia|lia].
Defined.

Lemma cc608_fields_independent_witness : ∃ cd1 x1 cd2 x2,
  feed_all record transmission (_vbi_cc608_decoder_init, []) = Some (tt, (cd1, x1)) ∧
  feed_all record (List.filter (on_field 1) transmission) (_vbi_cc608_decoder_init, []) = Some (tt, (cd2, x2)) ∧
  agree 1 cd1 cd2 ∧ events_of 1 x1 = events_of 1 x2.
Proof.
  apply (cc608_fields_independent 1 transmission _vbi_cc608_decoder_init []); [by right|apply reach_new|apply transmission_valid].
Defined.

Lemma cc608_repeated_code_witness : ∃ cd1 x1 cd2 x2 cd3,
  feed_input record (Input [0x94; 0x25] 21 d_zero 0) ((after transmission).1, []) = Some (true, (cd1, x1)) ∧
  feed_all record [pair_on 284 0x42 0x59] (cd1, x1) = Some (tt, (cd2, x2)) ∧
  feed_input record (Input [0x94; 0x25] 21 d_zero 3000) (cd2, x2) = Some (true, (cd3, x2)) ∧
  channels cd3 = channels cd2 ∧ curr_ch_num cd3 = curr_ch_num cd2.
Proof.
  assert (∀ p, 0 ≤ p → input_ok [0x94; 0x25] d_zero p) as Hi.
  { intros p Hp. split; [done|]. split; [repeat constructor; unfold is_byte; lia|lia]. }
  apply (cc608_repeated_code _ (after transmission).2 0x94 0x25 21 21 d_zero d_zero 0 3000); try reflexivity.
  - apply after_reachable, transmission_valid.
  - by apply Hi.
  - by apply Hi.
  - by vm_compute.
  - by vm_compute.
  - intros E. vm_compute in E. discriminate E.
  - constructor; [apply pair_valid; unfold is_byte; lia|constructor].
  - by repeat constructor.
Defined.
