(* ===== verification/Cc608Captions.v ===== *)
(** A pop-on caption from the first control code to the screen: what was loaded is what is
    displayed, and the transcript holds it once. And what the decoder does that the comments
    and the standard do not say. *)
From S2P Require Import Prelude Double Format Lang Hamm Sliced Event Cc608Format Cc608 Cc608Rows Cc608Ops Cc608Inv Cc608Rel.

(** ** The first channel *)

Lemma rd_first {A} (a : A) l : rd (a :: l) 0 = Some a.
Proof. done. Qed.
Lemma wr_first {A} (a b : A) l : wr (a :: l) 0 b = Some (b :: l).
Proof. unfold wr. rewrite decide_True by (cbn [length]; lia). done. Qed.

Section first.
Context (chs : list channel) (ns : list Z) (es : list (Z * Z)) (bs : list bool) (hs : handler_list).

(** A decoder with channel [ch] as CC1, on field 1. *)
Definition first (ch : channel) (n : Z) (e : Z * Z) (b : bool) (h : Z) (ts : timestamp) : decoder :=
  Decoder (ch :: chs) (n :: ns) (e :: es) (b :: bs) None h ts hs.

(** At time [ts], [m] takes CC1 from [ch] to a channel in [Q], sending [evs], and nothing else changes. *)
Definition does (ts : timestamp) (m : M (X := trace) unit) (ch : channel) (evs : list event) (Q : channel → Prop) : Prop :=
  ∀ n e b h x, ∃ ch' tr, m (first ch n e b h ts, x) = Some (tt, (first ch' n e b h ts, x ++ tr)) ∧
    map snd tr = evs ∧ Q ch'.

Lemma does_ret ts ch (Q : channel → Prop) : Q ch → does ts (mret tt) ch [] Q.
Proof. intros H n e b h x. exists ch, []. by rewrite app_nil_r. Qed.

Lemma does_seq ts (m : M unit) (k : unit → M unit) ch evs1 evs2 (Q1 Q : channel → Prop) :
  does ts m ch evs1 Q1 → (∀ ch1, Q1 ch1 → does ts (k tt) ch1 evs2 Q) → does ts (m ≫= k) ch (evs1 ++ evs2) Q.
Proof.
  intros H1 H2 n e b h x. destruct (H1 n e b h x) as (ch1 & tr1 & E1 & <- & HQ1).
  destruct (H2 ch1 HQ1 n e b h (x ++ tr1)) as (ch2 & tr2 & E2 & <- & HQ). exists ch2, (tr1 ++ tr2).
  unfold mbind, M_bind. rewrite E1. cbn [mbind option_bind]. rewrite map_app, app_assoc. by split; [exact E2|].
Qed.

Lemma does_get ts ch (k : channel → M unit) evs Q : does ts (k ch) ch evs Q → does ts (get_ch 0 ≫= k) ch evs Q.
Proof. intros H. exact H. Qed.
Lemma does_lift {A} ts (o : option A) a (k : A → M unit) ch evs Q : o = Some a → does ts (k a) ch evs Q → does ts (lift o ≫= k) ch evs Q.
Proof. intros -> H. exact H. Qed.

Lemma does_upd ts f ch ch' (Q : channel → Prop) : f ch = Some ch' → Q ch' → does ts (upd_ch 0 f) ch [] Q.
Proof.
  intros E H n e b h x. exists ch', []. rewrite app_nil_r. split; [|done].
  unfold upd_ch, get_ch, put_ch, lift, first, mbind, M_bind. cbn [fst snd channels]. rewrite rd_first. cbn [mbind option_bind].
  rewrite E. cbn [mbind option_bind fst snd channels]. rewrite wr_first. done.
Qed.
Lemma does_set ts f ch (Q : channel → Prop) : Q (f ch) → does ts (set_ch 0 f) ch [] Q.
Proof. intros H. by eapply does_upd. Qed.
Lemma does_send ts ev ch (Q : channel → Prop) : Q ch → does ts (send_event record ev) ch [ev] Q.
Proof. intros H n e b h x. by exists ch, [(first ch n e b h ts, ev)]. Qed.
Lemma does_display ts fl ch (Q : channel → Prop) : Q ch → does ts (display_event record 0 fl) ch [CC608 1 (ch_mode ch) fl] Q.
Proof. intros H. apply does_get, (does_send ts (CC608 (0 + 1) (ch_mode ch) fl)), H. Qed.

Lemma does_now ts (k : timestamp → M unit) ch evs Q : does ts (k ts) ch evs Q → does ts (now ≫= k) ch evs Q.
Proof. intros H. exact H. Qed.

(** From the rules for all channels. *)
Lemma op_does m ch Q : length chs = 7%nat → (∀ cd, length (channels cd) = 8%nat → op_ok cd 0 m ch Q) →
  ∀ n e b h ts x, ∃ ch' tr, m (first ch n e b h ts, x) = Some (tt, (first ch' n e b h ts, x ++ tr)) ∧ Q ch'.
Proof.
  intros Hchs H n e b h ts x. destruct (H (first ch n e b h ts)) with (p := @None Z) as (ch' & tr & R & _ & HQ).
  { cbn. by rewrite Hchs. }
  exists ch', (map (snap (first ch n e b h ts) 0) tr). split; [exact (R x)|done].
Qed.

(** ** Byte pairs on field 1 *)

Lemma control_pair c1 c2 ch n e b h ts x ch' n' x' :
  0x10 ≤ c1 < 0x20 → 0x20 ≤ c2 → e ≠ (c1, c2) →
  control_code record c1 c2 0 (first ch n e false h ts, x) = Some (tt, (first ch' n' e false h ts, x')) →
  feed_pair record 0 c1 c2 (first ch n e b h ts, x) =
    Some (true, (first ch' n' (c1, c2) false (u32 (h * 2 + 1)) ts, x')).
Proof.
  intros Hc1 Hc2 He E. unfold first in *. unfold feed_pair, mbind at 1, M_bind at 1, get_expect. cbn [fst expect_ctrl].
  rewrite rd_first. cbn [mbind option_bind]. rewrite (proj2 (Z.ltb_ge c1 0)) by lia.
  assert ((c1 =? e.1) && (c2 =? e.2) = false) as ->.
  { apply not_true_iff_false. rewrite andb_true_iff, !Z.eqb_eq. intros [-> ->]. apply He. by destruct e. }
  rewrite (proj2 (Z.leb_le 0x10 c1)), (proj2 (Z.ltb_lt c1 0x20)), (proj2 (Z.ltb_ge c2 0x20)) by lia. cbn [andb].
  unfold mbind at 1, M_bind at 1, put_in_xds. cbn [fst snd in_xds]. rewrite wr_first. cbn [mbind option_bind set_xds].
  unfold mbind at 1, M_bind at 1. unfold set_xds. cbn. cbn in E. rewrite E. cbn [mbind option_bind].
  unfold put_expect, finish, add_history, mbind, M_bind. cbn. by rewrite ?wr_first.
Qed.

(** Two characters in pop-on mode: nothing is sent. *)
Lemma text_pair_first c1 c2 ch e b h ts x ch1 ch2 : ch_mode ch = MODE_POP_ON →
  0x20 ≤ c1 → c1 < 0x80 → c1 ≠ e.1 → put_char_ch ts c1 true false ch = Some ch1 → ch_mode ch1 = MODE_POP_ON →
  (c2 = 0 ∧ ch2 = ch1 ∨ 0x20 ≤ c2 ∧ put_char_ch ts c2 true false ch1 = Some ch2 ∧ ch_mode ch2 = MODE_POP_ON) →
  feed_pair record 0 c1 c2 (first ch 1 e b h ts, x) =
    Some (true, (first ch2 1 (-1, e.2) b (u32 (h * 2 + 1)) ts, x)).
Proof.
  intros Hm Hc1 Hc1' Hne E1 Hm1 E2. unfold first in *. unfold feed_pair, mbind at 1, M_bind at 1, get_expect. cbn [fst expect_ctrl].
  rewrite rd_first. cbn [mbind option_bind]. rewrite (proj2 (Z.ltb_ge c1 0)), (proj2 (Z.eqb_neq c1 e.1)) by lia.
  rewrite (proj2 (Z.ltb_ge c1 0x20)), andb_false_r by lia. cbn [andb].
  unfold no_repeat, put_expect, get_expect, text_pair, get_curr, finish, add_history, send_pending, pending, mbind, M_bind.
  cbn [fst snd expect_ctrl]. rewrite rd_first. cbn [mbind option_bind fst snd expect_ctrl]. rewrite wr_first.
  cbn [mbind option_bind set_expect]. rewrite (proj2 (Z.ltb_ge c1 0x10)) by lia.
  cbn [fst snd curr_ch_num set_expect]. rewrite rd_first. cbn [mbind option_bind]. change (1 =? UNKNOWN_CHANNEL) with false. cbv iota.
  change (((1 - VBI_CAPTION_CC1) .& 5) + 0 * 2) with 0.
  assert (∀ c ch ch' cd, ch_mode ch = MODE_POP_ON → 0x20 ≤ c → put_char_ch ts c true false ch = Some ch' → ch_mode ch' = MODE_POP_ON →
    cd = Decoder (ch :: chs) (1 :: ns) ((-1, e.2) :: es) (b :: bs) None h ts hs →
    characters 0 c (cd, x) = Some (true, (Decoder (ch' :: chs) (1 :: ns) ((-1, e.2) :: es) (b :: bs) None h ts hs, x))) as Hch.
  { clear. intros c ch ch' cd Hm Hc E Hm' ->. unfold characters, mbind at 1, M_bind at 1, get_ch. cbn [fst channels].
    rewrite rd_first. cbn [mbind option_bind]. rewrite Hm. rewrite bool_decide_eq_false_2 by done.
    rewrite (proj2 (Z.eqb_neq c 0)), (proj2 (Z.ltb_ge c 0x20)) by lia. cbn [negb].
    unfold put_char, upd_ch, set_ch, get_ch, put_ch, lift, now, mbind, M_bind. cbn [fst snd channels cd_timestamp mbind option_bind]. rewrite rd_first.
    cbn [mbind option_bind]. rewrite E. cbn [mbind option_bind fst snd channels]. rewrite wr_first.
    cbn [mbind option_bind fst snd channels set_channels]. rewrite rd_first. cbn [mbind option_bind]. by rewrite decide_True. }
  cbn [fst snd set_expect]. unfold set_expect. cbn [channels curr_ch_num expect_ctrl in_xds event_pending error_history cd_timestamp handlers].
  rewrite (Hch c1 ch ch1 _ Hm Hc1 E1 Hm1 eq_refl). cbn [mbind option_bind].
  destruct E2 as [[-> ->]|(Hc2 & E2 & Hm2)].
  - unfold characters, get_ch, mbind, M_bind. cbn [fst channels]. rewrite rd_first. done.
  - by rewrite (Hch c2 ch1 ch2 _ Hm1 Hc2 E2 Hm2 eq_refl).
Qed.
End first.

(** ** Loading a caption *)

(** The row after some characters were received. *)
Definition loading_row (c0 : Z) (text : list Z) : list Z := c0 :: text ++ repeat 0 (32 - length text).
Definition PAC_ROW_15 : Z := 0x1070.

(** The channel while the bottom row of the non-displayed buffer is written; [s] is displayed. *)
Record loading (s : option rows) (ch : channel) (text : list Z) : Prop := Loading {
  ld_ok : ch_ok 0 ch;
  ld_mode : ch_mode ch = MODE_POP_ON;
  ld_shown : shown ch = s;
  ld_row : curr_row ch = 14;
  ld_column : curr_column ch = Z.min (1 + Z.of_nat (length text)) 32;
  ld_pac : last_pac ch = PAC_ROW_15;
  ld_buffer : ∃ buf c0, rd (buffer ch) (displayed_buffer ch .^ 1) = Some buf ∧ rows_ok buf ∧
    rd buf 14 = Some (loading_row c0 text) ∧ (text ≠ [] → c0 = PAC_ROW_15) ∧
    (∀ r t, r ≠ 14 → rd buf r = Some t → blank t);
  ld_dirty : rd (dirty ch) (displayed_buffer ch .^ 1) = Some (match text with [] => 0 | _ => 2 ^ 14 end)
}.

Definition is_text (text : list Z) : Prop := Forall (λ c, 0x20 ≤ c < 0x80) text.

Lemma pop_on_write ch : ch_mode ch = MODE_POP_ON → write_buffer ch = displayed_buffer ch .^ 1.
Proof. intros H. unfold write_buffer. by rewrite bool_decide_eq_true_2. Qed.

(** The cells written for the next character. *)
Lemma put_next c0 text c : is_text text → (length text < 32)%nat → (text ≠ [] → c0 = PAC_ROW_15) →
  ∃ t1, wr (loading_row c0 text) (1 + Z.of_nat (length text)) c = Some t1 ∧
    put_pac t1 (1 + Z.of_nat (length text)) PAC_ROW_15 = Some (loading_row PAC_ROW_15 (text ++ [c])).
Proof.
  intros Ht Hl Hc. unfold loading_row. destruct (32 - length text)%nat as [|m] eqn:Em; [lia|].
  replace (32 - length (text ++ [c]))%nat with m by (rewrite length_app; cbn [length]; lia). cbn [repeat].
  rewrite <-app_assoc. cbn [app].
  change (c0 :: text ++ 0 :: repeat 0 m) with ((c0 :: text) ++ 0 :: repeat 0 m).
  eexists. split; [apply wr_app; cbn [length]; lia|]. unfold put_pac, FIRST_COLUMN.
  destruct text as [|a text'] eqn:Et.
  - cbn [length]. rewrite (proj2 (Z.eqb_eq _ 1)) by lia. done.
  - rewrite (proj2 (Z.eqb_neq _ 1)) by (cbn [length]; lia). rewrite <-Et in *.
    destruct (exists_last (l := text)) as (l & z & El); [by rewrite Et|].
    assert (z ≠ 0) as Hz. { rewrite El in Ht. apply List.Forall_app in Ht as [_ Hz]. apply List.Forall_cons_iff in Hz as [Hz _]. lia. }
    rewrite El at 1. rewrite app_comm_cons, <-app_assoc. cbn [app].
    change (c0 :: l ++ z :: c :: repeat 0 m) with ((c0 :: l) ++ z :: c :: repeat 0 m).
    rewrite rd_app by (rewrite El, length_app; cbn [length]; lia). cbn [mbind option_bind].
    rewrite (proj2 (Z.eqb_neq z 0)) by done. rewrite El, Hc by (by rewrite Et). cbn [app]. by rewrite <-app_assoc.
Qed.

Lemma loading_put s ch text c ts : loading s ch text → is_text text → (length text < 32)%nat → 0x20 ≤ c < 0x80 →
  ∃ ch', put_char_ch ts c true false ch = Some ch' ∧ loading s ch' (text ++ [c]).
Proof.
  intros H Ht Hl Hc. pose proof (ld_ok _ _ _ H) as Hok. pose proof (ld_mode _ _ _ H) as Hm.
  assert (is_glyph c = true) as Hg by (unfold is_glyph, within; lia).
  destruct (put_char_ok 0 ts c true false ch Hok) as (ch' & E & Hok' & Hw1 & Hw2 & Hw3); [by rewrite Hm|done|].
  exists ch'. split; [done|]. destruct (ld_buffer _ _ _ H) as (buf & c0 & Eb & Hr & Erow & Hc0 & Hbl).
  pose proof (ld_dirty _ _ _ H) as Ed. pose proof (ld_column _ _ _ H) as Ecol.
  destruct (put_next c0 text c Ht Hl Hc0) as (t1 & Ew & Ep).
  set (col := 1 + Z.of_nat (length text)) in *. assert (curr_column ch = col) as Ecol' by lia. clear Ecol.
  set (t2 := loading_row PAC_ROW_15 (text ++ [c])) in *. set (b := displayed_buffer ch .^ 1) in *.
  unfold put_char_ch in E. rewrite (pop_on_write ch Hm), (ld_row _ _ _ H) in E. fold b in E. rewrite Ecol' in E.
  set (ch0 := if col <? LAST_COLUMN then set_column (col + 1) ch else ch) in E.
  assert (∀ A (f : channel → A), (∀ x, f (set_column x ch) = f ch) → f ch0 = f ch) as Hsame.
  { intros A f Hf. subst ch0. by destruct (col <? LAST_COLUMN). }
  assert (curr_column ch0 = Z.min (col + 1) 32) as Ecol0.
  { subst ch0. unfold LAST_COLUMN. destruct (Z.ltb_spec col 32); cbn; lia. }
  assert (buffer ch0 = buffer ch) as EB by by apply Hsame. assert (dirty ch0 = dirty ch) as ED by by apply Hsame.
  assert (last_pac ch0 = PAC_ROW_15) as Epac by (rewrite (Hsame _ last_pac) by done; apply H).
  rewrite (row_of_eq ch0 b 14 buf) in E by congruence. rewrite Erow in E. cbn [mbind option_bind] in E.
  rewrite Ew in E. cbn [mbind option_bind] in E. rewrite Epac, Ep in E. cbn [mbind option_bind] in E.
  destruct (ok_bufs _ _ Hok) as (L1 & L2 & _).
  destruct (put_row_upd b buf (match text with [] => 0 | _ => 2 ^ 14 end) ch0 14 t2)
    as (ch1 & buf1 & E1 & Hu & El1 & Hr1); [by rewrite EB|by rewrite ED|by rewrite EB|by rewrite ED|destruct Hr as [-> _]; lia|].
  rewrite E1 in E. cbn [mbind option_bind] in E. apply (predict_upper_upd c) in Hu.
  assert (0 ≤ b < 3) as Hb by (subst b; destruct (ok_displayed _ _ Hok) as [-> | ->]; done).
  destruct (buf_upd_shape _ _ _ _ _ Hu Hb) as (M1 & M2 & B1 & D1 & _). rewrite D1 in E. cbn [mbind option_bind] in E.
  destruct (put_dirty_upd b buf1 ((match text with [] => 0 | _ => 2 ^ 14 end) .| 1 ≪ 14) (predict_upper c ch1) M1 M2 B1)
    as (ch2 & E2 & Hu2). rewrite E2 in E. cbn [mbind option_bind] in E. injection E as E.
  pose proof (buf_upd_trans _ _ _ _ _ _ _ _ Hu Hu2) as Hu3.
  destruct (buf_upd_shape _ _ _ _ _ Hu3 Hb) as (_ & _ & B3 & D3 & _).
  destruct (buf_upd_control _ _ _ _ _ Hu3) as (_ & F2 & F3 & _ & F5 & _ & _).
  assert (∀ A (f : channel → A), (∀ x y, f (set_upper x y) = f y) → (∀ x y, f (set_c0 x y) = f y) →
    f (predict_upper c ch0) = f ch0 ∧ f ch' = f ch2) as Hf.
  { intros A f Hf1 Hf2. split; [unfold predict_upper; by repeat case_match|]. rewrite <-E. by destruct (timestamp_is_set _). }
  split; rewrite ?Hw2; fold b; try done.
  - congruence.
  - rewrite Hw3 by done. apply H.
  - destruct (Hf _ curr_row) as [G1 ->]; [done..|]. rewrite F2, G1, (Hsame _ curr_row) by done. apply H.
  - destruct (Hf _ curr_column) as [G1 ->]; [done..|]. rewrite F3, G1, Ecol0, length_app. cbn [length]. lia.
  - destruct (Hf _ last_pac) as [G1 ->]; [done..|]. by rewrite F5, G1, Epac.
  - destruct (Hf _ buffer) as [_ ->]; [done..|]. exists buf1, PAC_ROW_15. split; [done|].
    destruct (get_buf 0 ch' b Hok') as (buf' & ? & Eb' & _ & Hok1 & _); [destruct (ok_displayed _ _ Hok) as [G|G]; subst b; rewrite G; auto|].
    destruct (Hf _ buffer) as [_ EB']; [done..|]. rewrite EB', B3 in Eb'. injection Eb' as <-.
    split; [done|]. split; [by rewrite Hr1, decide_True|]. split; [done|]. intros r t Hne. rewrite Hr1, decide_False by done. by apply Hbl.
  - destruct (Hf _ dirty) as [_ ->]; [done..|]. rewrite D3. by destruct text.
Qed.

(** ** Displaying a caption *)

(** The transcript of a row: the characters, then transparent spaces. *)
Definition row_shows (up : bool) (text : list Z) (out : list vbi_char) : Prop :=
  map unicode out = map (glyph up) text ++ repeat 0x20 (32 - length text) ∧
  map vis out = repeat true (length text) ++ repeat false (32 - length text).

Section eoc.
Context (chs : list channel) (ns : list Z) (es : list (Z * Z)) (bs : list bool) (hs : handler_list).
Context (text : list Z) (Ht : is_text text) (Hl : (1 ≤ length text ≤ 32)%nat).

(** Buffer [b] of the channel holds the caption. *)
Definition holds (b : Z) (ch : channel) : Prop :=
  ∃ buf, rd (buffer ch) b = Some buf ∧ rd buf 14 = Some (loading_row PAC_ROW_15 text) ∧
    (∀ r t, r ≠ 14 → rd buf r = Some t → blank t) ∧ rd (dirty ch) b = Some (2 ^ 14).

Lemma is_text_glyph c : 0x20 ≤ c < 0x80 → is_glyph c = true.
Proof. intros Hc. unfold is_glyph, within. lia. Qed.

Lemma format_caption ch b up : holds b ch →
  ∃ out, format_row 32 ch b 14 up false false = Some out ∧ row_shows up text out ∧
    forallb (λ c, opacity c =? VBI_TRANSPARENT_SPACE) out = false.
Proof.
  intros (buf & Eb & Er & _ & Ed).
  assert (Forall (λ c, cell_ok c = true) (text ++ repeat 0 (32 - length text))) as Hcells.
  { apply List.Forall_app. split; [|by apply Forall_repeat]. eapply List.Forall_impl; [|exact Ht].
    intros c Hc. unfold cell_ok. by rewrite (is_text_glyph c Hc), orb_true_r. }
  destruct (format_row_ok 32 ch b 14 true up false false PAC_ROW_15 (text ++ repeat 0 (32 - length text)))
    as (out & E & Hlen & Hu & Hv & _); try done.
  - by rewrite (row_dirty_testbit ch b 14 (2 ^ 14) Ed).
  - by rewrite (row_of_eq ch b 14 buf Eb).
  - exists PAC_ROW_15, (text ++ repeat 0 (32 - length text)). split; [done|].
    split; [rewrite length_app, repeat_length; lia|done].
  - exists out. split; [done|]. specialize (Hv eq_refl). cbv beta iota in Hu. rewrite map_app, map_repeat in Hu. rewrite map_app, map_repeat in Hv.
    assert (map (λ c, negb (is_blank_cell c)) text = repeat true (length text)) as Ev.
    { clear -Ht. induction text as [|c l IH]; [done|]. apply List.Forall_cons_iff in Ht as [Hc Hl0]. cbn [map length repeat].
      assert (is_blank_cell c = false) as -> by (unfold is_blank_cell, is_pac, within; lia). cbn [negb]. by rewrite (IH Hl0). }
    rewrite Ev in Hv. split; [by split|]. apply not_true_iff_false. rewrite forallb_forall. intros Hall.
    destruct out as [|x out]; [done|]. destruct text as [|c l]; [cbn in Hl; lia|]. cbn [map repeat length app] in Hv.
    injection Hv as Hx _. specialize (Hall x (or_introl eq_refl)). unfold vis in Hx. by rewrite Hall in Hx.
Qed.

Lemma format_blank_row ch b row up : holds b ch → 0 ≤ row < 14 →
  ∃ out, format_row 32 ch b row up false false = Some out ∧
    forallb (λ c, opacity c =? VBI_TRANSPARENT_SPACE) out = true.
Proof.
  intros (buf & _ & _ & _ & Ed) Hr. unfold format_row. change (32 <? _) with false. cbv iota.
  rewrite (row_dirty_testbit ch b row (2 ^ 14) Ed), Z.pow2_bits_eqb, (proj2 (Z.eqb_neq 14 row)) by lia.
  by eexists.
Qed.

Lemma stream_caption ts ch b up : holds b ch → b = displayed_buffer ch →
  ∃ out, row_shows up text out ∧ ∀ n row ch1, 0 ≤ row ≤ 14 → row + Z.of_nat n = 15 →
    does chs ns es bs hs ts (stream_loop record 0 ch up row n) ch1
      [CC608_STREAM (sys (timestamp_c0 ch)) (pts (timestamp_c0 ch)) 1 (ch_mode ch) out] (λ ch', ch' = ch1).
Proof.
  intros H ->. destruct (format_caption ch _ up H) as (out & Ef & Hs & Hv). exists out. split; [done|].
  induction n as [|n IH]; intros row ch1 Hr Hn; [lia|]. cbn [stream_loop]. destruct (decide (row = 14)) as [->|Hne].
  - assert (n = 0)%nat as -> by lia. eapply does_lift; [exact Ef|]. rewrite Hv.
    eapply (does_seq _ _ _ _ _ _ _ _ _ [_] []); [by apply (does_send _ _ _ _ _ _ _ _ (λ c, c = ch1))|]. intros ch2 ->. by apply does_ret.
  - destruct (format_blank_row ch _ row up H) as (o & Eo & Hb); [lia|]. eapply does_lift; [exact Eo|]. rewrite Hb.
    eapply (does_seq _ _ _ _ _ _ _ _ _ []); [by apply (does_ret _ _ _ _ _ _ _ (λ c, c = ch1))|]. intros ch2 ->. apply IH; lia.
Qed.

(** The caption is displayed: one row of transcript, then a display event. *)
Lemma end_of_caption_does ts s ch : loading s ch text →
  ∃ up out, row_shows up text out ∧
    does chs ns es bs hs ts (end_of_caption record 0) ch
      [CC608_STREAM (sys ts) (pts ts) 1 MODE_POP_ON out; CC608 1 MODE_POP_ON 0]
      (λ ch', holds (displayed_buffer ch') ch').
Proof.
  intros H. pose proof (ld_mode _ _ _ H) as Hm. destruct (ld_buffer _ _ _ H) as (buf & c0 & Eb & Hr & Er & Hc & Hbl).
  pose proof (ld_dirty _ _ _ H) as Ed. set (b := displayed_buffer ch .^ 1) in *.
  set (ch1 := set_c0 ts (set_mode MODE_POP_ON (set_displayed b ch))).
  assert (holds b ch1) as Hh.
  { exists buf. destruct text; [cbn in Hl; lia|]. rewrite Hc in Er by done. by split_and!. }
  destruct (stream_caption ts ch1 b (3 <? uppercase_predictor ch1) Hh eq_refl) as (out & Hs & Hd).
  exists (3 <? uppercase_predictor ch1), out. split; [done|]. unfold end_of_caption. apply does_get. rewrite Hm.
  eapply (does_seq _ _ _ _ _ _ _ _ _ []); [by apply (does_ret _ _ _ _ _ _ _ (λ c, c = ch))|]. intros ? ->. fold b.
  eapply (does_seq _ _ _ _ _ _ _ _ _ []); [by apply (does_set _ _ _ _ _ _ _ _ (λ c, c = set_mode MODE_POP_ON (set_displayed b ch)))|].
  intros ? ->. apply does_get. eapply does_lift; [exact Ed|]. destruct text as [|c l] eqn:Et; [cbn in Hl; lia|]. rewrite <-Et in *.
  change (2 ^ 14 =? 0) with false. cbv iota. apply does_now.
  eapply (does_seq _ _ _ _ _ _ _ _ _ []); [by apply (does_set _ _ _ _ _ _ _ _ (λ c, c = ch1))|]. intros ? ->.
  eapply (does_seq _ _ _ _ _ _ _ _ _ [_] [_]).
  - unfold stream_event. apply does_get. eapply (does_seq _ _ _ _ _ _ _ _ _ [_] []).
    + apply (Hd 15%nat FIRST_ROW ch1); [done|done].
    + intros ? ->. by apply (does_set _ _ _ _ _ _ _ _ (λ c, c = set_c0 timestamp_reset ch1)).
  - intros ? ->. apply (does_display _ _ _ _ _ _ 0 (set_c0 timestamp_reset ch1)). exact Hh.
Qed.
End eoc.

(** ** The control codes of a pop-on caption *)

Section load.
Context (chs : list channel) (ns : list Z) (es : list (Z * Z)) (bs : list bool) (hs : handler_list).
Local Abbreviation first := (first chs ns es bs hs).
Local Abbreviation does := (does chs ns es bs hs).

Lemma not_text ch : ch_ok 0 ch → ch_mode ch ≠ MODE_TEXT.
Proof. intros H E. apply (ok_text _ _ H) in E. lia. Qed.

Lemma resume_does ch n e b h ts x : length chs = 7%nat → ch_ok 0 ch →
  ∃ ch' tr, resume_caption_loading record 0 (first ch n e b h ts, x) = Some (tt, (first ch' n e b h ts, x ++ tr)) ∧
    ch_ok 0 ch' ∧ ch_mode ch' = MODE_POP_ON ∧ shown ch' = shown ch.
Proof.
  intros Hchs H. apply op_does; [done|]. intros cd Hcd.
  assert (∀ ch1, settled 0 ch ch1 → ch_ok 0 (set_mode MODE_POP_ON ch1) ∧
    ch_mode (set_mode MODE_POP_ON ch1) = MODE_POP_ON ∧ shown (set_mode MODE_POP_ON ch1) = shown ch) as Hs.
  { intros ch1 (H1 & (_ & _ & _ & _ & _ & _ & Em1) & Esh & _). split; [|done].
    apply ch_ok_mode; [by destruct H1|rewrite Em1; by apply not_text|by left]. }
  unfold resume_caption_loading. apply op_get; [done|lia|]. pose proof (not_text ch H) as Hm.
  assert (∀ m : mode, op_ok cd 0 (_ ← (match m with
      | MODE_ROLL_UP => stream_row_if_dirty record 0 (curr_row ch)
      | MODE_PAINT_ON => stream_event_if_changed record 0
      | _ => mret tt end); set_ch 0 (set_mode MODE_POP_ON)) ch
    (λ ch', ch_ok 0 ch' ∧ ch_mode ch' = MODE_POP_ON ∧ shown ch' = shown ch)) as Hop.
  { intros m. eapply op_seq; [by apply leave_mode_ok|]. intros ch1 H1. apply op_set; [done|lia|by left|]. by apply Hs. }
  destruct (ch_mode ch); done || apply (Hop MODE_UNKNOWN) || apply (Hop MODE_ROLL_UP) || apply (Hop MODE_POP_ON) || apply (Hop MODE_PAINT_ON).
Qed.

(** The non-displayed buffer after it was erased. *)
Definition erased_back (s : option rows) (ch : channel) : Prop :=
  ch_ok 0 ch ∧ ch_mode ch = MODE_POP_ON ∧ shown ch = s ∧
  ∃ buf, rd (buffer ch) (displayed_buffer ch .^ 1) = Some buf ∧ rows_ok buf ∧
    (∀ r t, rd buf r = Some t → blank t) ∧ rd (dirty ch) (displayed_buffer ch .^ 1) = Some 0.

Lemma erase_back_does ts s ch : ch_ok 0 ch → ch_mode ch = MODE_POP_ON → shown ch = s →
  does ts (erase_memory record 0 (displayed_buffer ch .^ 1)) ch [] (erased_back s).
Proof.
  intros H Hm Hs. pose proof (displayed_cases 0 ch H) as Hb. set (b := displayed_buffer ch .^ 1) in *.
  destruct (get_buf 0 ch b H Hb) as (buf & d & Eb & Ed & Hok & Hcv).
  assert (b ≠ displayed_buffer ch) as Hne by (subst b; destruct (ok_displayed _ _ H) as [-> | ->]; done).
  unfold erase_memory. apply does_get. eapply does_lift; [exact Ed|]. destruct (Z.eqb_spec d 0) as [->|Hd].
  - apply does_ret. split; [done|]. split; [done|]. split; [done|]. exists buf. split; [done|]. split; [done|].
    split; [|done]. intros r t Hr. apply (proj2 Hcv r t Hr), Z.bits_0.
  - destruct (ok_bufs _ _ H) as (L1 & L2 & _). destruct (put_rows_upd b rows0 d ch L1 L2 Ed) as (ch1 & E1 & Hu1).
    destruct (buf_upd_shape _ _ _ _ _ Hu1) as (M1 & M2 & B1 & D1 & _); [lia|].
    destruct (put_dirty_upd b rows0 0 ch1 M1 M2 B1) as (ch2 & E2 & Hu2).
    pose proof (buf_upd_trans _ _ _ _ _ _ _ _ Hu1 Hu2) as Hu.
    destruct (buf_upd_shape _ _ _ _ _ Hu) as (_ & _ & B & D & Hj); [lia|].
    destruct (buf_upd_control _ _ _ _ _ Hu) as (F1 & _ & _ & _ & _ & _ & F7).
    eapply (does_seq _ _ _ _ _ _ _ _ _ [] []); [eapply (does_upd _ _ _ _ _ _ _ _ _ (λ c, c = ch2)); [by rewrite E1|done]|].
    intros ? ->. rewrite (proj2 (Z.eqb_neq _ _)) by done. apply does_ret. split.
    + eapply ch_ok_upd; [exact H|exact Hu|lia|apply rows0_ok| |done|done]. rewrite decide_True by lia. apply rows0_covers.
    + split; [congruence|]. split; [unfold shown in *; rewrite F1, (proj1 (Hj _ (not_eq_sym Hne))); done|].
      rewrite F1. fold b. exists rows0. split; [done|]. split; [apply rows0_ok|]. split; [|done].
      intros r t Hr. apply (rows0_blank 1 0 r t Hr). lia.
Qed.

Lemma pac_does ts s ch : erased_back s ch →
  does ts (preamble_address_code record 0 0x14 0x70) ch [] (λ ch', loading s ch' []).
Proof.
  intros (H & Hm & Hs & buf & Eb & Hok & Hbl & Ed). unfold preamble_address_code.
  change (pac_row_map.[(0x14 .& 7) * 2 + (0x70 ≫ 5 .& 1)]) with 14. change (14 <? 0) with false. cbv iota zeta.
  apply does_get. rewrite Hm.
  eapply (does_seq _ _ _ _ _ _ _ _ _ [] []); [by apply (does_set _ _ _ _ _ _ _ _ (λ c, c = set_row 14 ch))|]. intros ? ->.
  apply does_set. change (pac_column 0x70 (set_row 14 ch)) with (set_pac PAC_ROW_15 (set_column 1 (set_row 14 ch))).
  assert (ch_ok 0 (set_row 14 ch)) as Hrow.
  { destruct H as [[] H2 H3]. split; [by split| |done]. cbn. rewrite Hm. done. }
  split; try done.
  - apply ch_ok_pac; [|done]. by apply ch_ok_column.
  - destruct (get_row buf 14 Hok) as (t & Et & Htok); [lia|]. pose proof (Hbl 14 t Et) as Hb.
    destruct Htok as (c0 & cells & -> & Hlen & _). exists buf, c0. split; [done|]. split; [done|]. split.
    + rewrite Et. f_equal. unfold loading_row. cbn [app length]. f_equal. clear -Hlen Hb. unfold blank in Hb. cbn [tail] in Hb.
      change (32 - 0)%nat with 32%nat. rewrite <-Hlen. clear Hlen. induction Hb as [|x l -> _ IH]; [done|]. cbn. by rewrite <-IH.
    + split; [done|]. intros r t _. apply Hbl.
Qed.

(** What [switch_channel] and the channel number make of the codes for CC1. *)
Lemma caption_index n : ((n - VBI_CAPTION_CC1) .& 4) .& 3 = 0.
Proof. rewrite <-Z.land_assoc. apply Z.land_0_r. Qed.

Lemma curr_first {A} (k : Z → M (X := trace) A) ch n e b h ts x :
  (get_curr 0 ≫= k) (first ch n e b h ts, x) = k n (first ch n e b h ts, x).
Proof. done. Qed.
Lemma put_curr_first {A} (k : unit → M (X := trace) A) n' ch n e b h ts x :
  (put_curr 0 n' ≫= k) (first ch n e b h ts, x) = k tt (first ch n' e b h ts, x).
Proof. unfold put_curr, mbind, M_bind, first. cbn [fst snd curr_ch_num]. by rewrite wr_first. Qed.

(** The two codes that select CC1. *)
Lemma select_code c2 ch n e h ts x r : c2 = 0x20 ∨ c2 = 0x2F →
  (if c2 =? 0x20 then resume_caption_loading record 0 else end_of_caption record 0) (first ch 1 e false h ts, x) = r →
  control_code record 0x14 c2 0 (first ch n e false h ts, x) = r.
Proof.
  intros Hc <-. unfold control_code. rewrite curr_first. cbv zeta. change (0x14 ≫ 3 .& 1) with 0. rewrite !Z.add_0_r.
  pose proof (caption_index n) as Hi. set (i := (n - VBI_CAPTION_CC1) .& 4) in *. clearbody i.
  destruct Hc as [-> | ->]; cbn [Z.leb Z.ltb Z.eqb Z.compare Pos.compare Pos.compare_cont Pos.eqb Z.land Pos.land Pos.Ndouble orb Z.of_N];
    unfold misc_control_code; cbv zeta; rewrite Hi; change (VBI_CAPTION_CC1 + 0) with 1;
    unfold switch_channel; rewrite <-(put_curr_first (λ _, _) 1 ch n); done.
Qed.

Lemma erase_code ch e h ts x r :
  (ch ← get_ch 0; erase_memory record 0 (displayed_buffer ch .^ 1)) (first ch 1 e false h ts, x) = r →
  control_code record 0x14 0x2E 0 (first ch 1 e false h ts, x) = r.
Proof. intros <-. unfold control_code. by rewrite curr_first. Qed.
Lemma pac_code ch e h ts x r :
  preamble_address_code record 0 0x14 0x70 (first ch 1 e false h ts, x) = r →
  control_code record 0x14 0x70 0 (first ch 1 e false h ts, x) = r.
Proof. intros <-. unfold control_code. by rewrite curr_first. Qed.
End load.

(** ** From the lines to the screen *)

Lemma unpar_odd c : 0 ≤ c < 128 → vbi_unpar8 (odd_parity c) = c.
Proof.
  intros Hc. pose proof (forallb_seqZ 128 (λ c, vbi_unpar8 (odd_parity c) =? c) ltac:(vm_compute; reflexivity) c Hc) as E.
  cbv beta in E. lia.
Qed.

Lemma feed_line c1 c2 t p cd (x : trace) : 0 ≤ c1 < 128 → 0 ≤ c2 < 128 → 0 ≤ p →
  feed_input record (Input [odd_parity c1; odd_parity c2] 21 t p) (cd, x) =
    feed_pair record 0 c1 c2 (set_timestamp (Timestamp t (p .& ((1 ≪ 33) - 1))) cd, x).
Proof.
  intros H1 H2 Hp. unfold feed_input, _vbi_cc608_decoder_feed. cbn [in_buffer in_line in_time in_pts].
  change ((21 =? 21) || (21 =? 22) || (21 =? 284)) with true. cbn [negb]. change (21 =? 284) with false. cbv iota zeta.
  unfold lift, mbind, M_bind, put_timestamp. rewrite (proj2 (Z.ltb_ge p 0)) by done. cbn [mbind option_bind fst snd].
  change (rd [odd_parity c1; odd_parity c2] 0) with (Some (odd_parity c1)).
  change (rd [odd_parity c1; odd_parity c2] 1) with (Some (odd_parity c2)). cbn [mbind option_bind].
  by rewrite !unpar_odd.
Qed.

Lemma feed_all_app (l1 l2 : list input) (s : st (X := trace)) :
  feed_all record (l1 ++ l2) s = (_ ← feed_all record l1; feed_all record l2) s.
Proof.
  revert s. induction l1 as [|i l1 IH]; intros s; [done|]. cbn [app feed_all]. unfold mbind at 1 2 3, M_bind.
  destruct (feed_input record i s) as [[r s']|]; [|done]. cbn [mbind option_bind]. rewrite IH. done.
Qed.

(** Two characters in a line, a NUL at the end if their number is odd. *)
Fixpoint pairs_of (text : list Z) : list (Z * Z) :=
  match text with
  | c1 :: c2 :: text => (c1, c2) :: pairs_of text
  | [c1] => [(c1, 0)]
  | [] => []
  end.
Definition line_21 (p : Z * Z) : input := pair_on 21 p.1 p.2.

(** RCL, ENM, PAC for row 15, the text. *)
Definition pop_on_caption (text : list Z) : list input :=
  map line_21 [(0x14, 0x20); (0x14, 0x2E); (0x14, 0x70)] ++ map line_21 (pairs_of text).
Definition end_of_caption_line (t : double) (p : Z) : input := Input [odd_parity 0x14; odd_parity 0x2F] 21 t p.

Section feed.
Context (chs : list channel) (ns : list Z) (es : list (Z * Z)) (bs : list bool) (hs : handler_list).
Local Abbreviation first := (first chs ns es bs hs).

Lemma feed_first c1 c2 ch n e b h ts x : 0 ≤ c1 < 128 → 0 ≤ c2 < 128 →
  feed_input record (line_21 (c1, c2)) (first ch n e b h ts, x) =
    feed_pair record 0 c1 c2 (first ch n e b h (Timestamp d_zero 0), x).
Proof. intros H1 H2. unfold line_21, pair_on. rewrite feed_line by (cbn; lia). done. Qed.

(** One line of text. *)
Lemma feed_text c1 c2 s text ch e b h ts x :
  loading s ch text → is_text text → 0x20 ≤ c1 < 0x80 → (length text < 32)%nat → e.1 < 0x20 →
  c2 = 0 ∨ 0x20 ≤ c2 < 0x80 ∧ (length text < 31)%nat →
  ∃ ch' e' h' ts', feed_input record (line_21 (c1, c2)) (first ch 1 e b h ts, x) = Some (true, (first ch' 1 e' b h' ts', x)) ∧
    loading s ch' (text ++ if c2 =? 0 then [c1] else [c1; c2]) ∧ e'.1 = -1.
Proof.
  intros H Ht Hc1 Hl He Hc2. rewrite feed_first by lia. set (t0 := Timestamp d_zero 0).
  destruct (loading_put s ch text c1 t0 H Ht Hl Hc1) as (ch1 & E1 & H1).
  assert (is_text (text ++ [c1])) as Ht1 by (apply List.Forall_app; split; [done|constructor; [done|constructor]]).
  destruct Hc2 as [->|[Hc2 Hl2]].
  - exists ch1, (-1, e.2), (u32 (h * 2 + 1)), t0. split; [|done].
    eapply text_pair_first; [apply H|lia|lia|lia|exact E1|apply H1|by left].
  - destruct (loading_put s ch1 (text ++ [c1]) c2 t0 H1 Ht1) as (ch2 & E2 & H2); [rewrite length_app; cbn; lia|done|].
    exists ch2, (-1, e.2), (u32 (h * 2 + 1)), t0. rewrite (proj2 (Z.eqb_neq c2 0)) by lia. split.
    + eapply text_pair_first; [apply H|lia|lia|lia|exact E1|apply H1|]. right. split; [lia|]. split; [exact E2|apply H2].
    + rewrite <-app_assoc in H2. done.
Qed.

Lemma feed_text_lines s : ∀ n text, (length text ≤ n)%nat → ∀ done ch e b h ts x,
  loading s ch done → is_text (done ++ text) → (length (done ++ text) ≤ 32)%nat → e.1 < 0x20 → e ≠ (0x14, 0x2F) →
  ∃ ch' e' h' ts', feed_all record (map line_21 (pairs_of text)) (first ch 1 e b h ts, x) =
      Some (tt, (first ch' 1 e' b h' ts', x)) ∧ loading s ch' (done ++ text) ∧ e' ≠ (0x14, 0x2F).
Proof.
  induction n as [|n IH]; intros text Hn dn ch e b h ts x H Ht Hl He He2.
  - destruct text; [|cbn in Hn; lia]. rewrite app_nil_r in *. by exists ch, e, h, ts.
  - destruct text as [|c1 text]; [rewrite app_nil_r in *; by exists ch, e, h, ts|].
    rewrite length_app in Hl. cbn [length] in Hl, Hn.
    apply List.Forall_app in Ht as Ht2. destruct Ht2 as [Hd Ht2]. apply List.Forall_cons_iff in Ht2 as [Hc1 Ht2].
    destruct text as [|c2 text]; cbn [pairs_of map feed_all].
    + destruct (feed_text c1 0 s dn ch e b h ts x H Hd Hc1) as (ch' & e' & h' & ts' & E & H' & He'); [lia|done|by left|].
      exists ch', e', h', ts'. unfold mbind at 1, M_bind. rewrite E. cbn [mbind option_bind]. split; [done|]. split; [done|].
      intros ->. done.
    + apply List.Forall_cons_iff in Ht2 as [Hc2 Ht2]. cbn [length] in Hl, Hn.
      destruct (feed_text c1 c2 s dn ch e b h ts x H Hd Hc1) as (ch1 & e1 & h1 & ts1 & E & H1 & He1);
        [lia|done|right; split; [done|lia]|]. rewrite (proj2 (Z.eqb_neq c2 0)) in H1 by lia.
      destruct (IH text ltac:(lia) (dn ++ [c1; c2]) ch1 e1 b h1 ts1 x H1) as (ch' & e' & h' & ts' & E' & H' & He').
      * rewrite <-app_assoc. exact Ht.
      * rewrite !length_app. cbn [length]. lia.
      * rewrite He1. lia.
      * intros ->. done.
      * exists ch', e', h', ts'. rewrite <-app_assoc in H'. split; [|done].
        unfold mbind at 1, M_bind. rewrite E. cbn [mbind option_bind]. exact E'.
Qed.

(** A control code whose effect is known. *)
Lemma feed_control c2 ch n e b h ts x ch' n' x' : 0x20 ≤ c2 < 0x80 → e ≠ (0x14, c2) →
  control_code record 0x14 c2 0 (first ch n e false h (Timestamp d_zero 0), x) =
    Some (tt, (first ch' n' e false h (Timestamp d_zero 0), x')) →
  feed_input record (line_21 (0x14, c2)) (first ch n e b h ts, x) =
    Some (true, (first ch' n' (0x14, c2) false (u32 (h * 2 + 1)) (Timestamp d_zero 0), x')).
Proof. intros Hc He E. rewrite feed_first by lia. by apply control_pair; [lia|lia| |]. Qed.

(** The control codes before the text. *)
Lemma feed_setup ch n e b h ts x : length chs = 7%nat → ch_ok 0 ch → e ≠ (0x14, 0x20) →
  ∃ ch' h' ts' tr, feed_all record (map line_21 [(0x14, 0x20); (0x14, 0x2E); (0x14, 0x70)]) (first ch n e b h ts, x) =
    Some (tt, (first ch' 1 (0x14, 0x70) false h' ts', x ++ tr)) ∧ loading (shown ch) ch' [].
Proof.
  intros Hchs H He. set (t0 := Timestamp d_zero 0).
  destruct (resume_does chs ns es bs hs ch 1 e false h t0 x Hchs H) as (ch1 & tr1 & E1 & H1 & Hm1 & Hs1).
  destruct (erase_back_does chs ns es bs hs t0 (shown ch) ch1 H1 Hm1 Hs1 1 (0x14, 0x20) false (u32 (h * 2 + 1)) (x ++ tr1))
    as (ch2 & tr2 & E2 & Htr2 & H2). apply map_eq_nil in Htr2 as ->.
  destruct (pac_does chs ns es bs hs t0 (shown ch) ch2 H2 1 (0x14, 0x2E) false (u32 (u32 (h * 2 + 1) * 2 + 1)) (x ++ tr1))
    as (ch3 & tr3 & E3 & Htr3 & H3). apply map_eq_nil in Htr3 as ->. rewrite app_nil_r in E2, E3.
  eexists ch3, _, _, tr1. split; [|exact H3]. cbn [map feed_all].
  unfold mbind at 1, M_bind at 1. erewrite feed_control; [|lia|done|apply (select_code chs ns es bs hs 0x20); [by left|exact E1]].
  cbn [mbind option_bind].
  unfold mbind at 1, M_bind at 1. erewrite feed_control; [|lia|done|apply erase_code; exact E2]. cbn [mbind option_bind].
  unfold mbind at 1, M_bind at 1. erewrite feed_control; [|lia|done|apply pac_code; exact E3]. done.
Qed.
End feed.

(** C23: a pop-on caption is loaded unseen and displayed at once. From any decoder a client
    can obtain, the codes RCL, ENM and a PAC for row 15 and then 1 to 32 characters change
    nothing that is displayed; with EOC exactly this text is displayed, every other row is
    blank, and two events are sent: the row of the transcript, with the time of EOC and the
    characters of the text, and the display event. *)
Theorem cc608_pop_on_caption cd tr x text t p :
  reachable cd tr → rd (expect_ctrl cd) 0 ≠ Some (0x14, 0x20) → is_text text → (1 ≤ length text ≤ 32)%nat → 0 ≤ p →
  ∃ cd1 x1 cd2 sent up out buf,
    feed_all record (pop_on_caption text) (cd, x) = Some (tt, (cd1, x1)) ∧ shown_of cd1 0 = shown_of cd 0 ∧
    feed_input record (end_of_caption_line t p) (cd1, x1) = Some (true, (cd2, x1 ++ sent)) ∧
    map snd sent = [CC608_STREAM t (p .& ((1 ≪ 33) - 1)) 1 MODE_POP_ON out; CC608 1 MODE_POP_ON 0] ∧
    row_shows up text out ∧ shown_of cd2 0 = Some buf ∧ rd buf 14 = Some (loading_row PAC_ROW_15 text) ∧
    ∀ r row, r ≠ 14 → rd buf r = Some row → blank row.
Proof.
  intros Hr He Ht Hl Hp. destruct (reachable_ok _ _ Hr) as (H & Hpend & _). pose proof H as [L1 H1 [L2 _] L3 L4].
  destruct cd as [[|ch chs] [|n ns] [|e es] [|b bs] pend h ts hs]; try done. cbn in Hpend. subst pend.
  injection L1 as L1. fold (first chs ns es bs hs ch n e b h ts) in *.
  assert (ch_ok 0 ch) as Hch by by apply H1. assert (e ≠ (0x14, 0x20)) as Hne by (intros ->; by apply He).
  destruct (feed_setup chs ns es bs hs ch n e b h ts x L1 Hch Hne) as (ch1 & h1 & ts1 & tr1 & E1 & Hld1).
  destruct (feed_text_lines chs ns es bs hs (shown ch) (length text) text ltac:(lia) [] ch1 (0x14, 0x70) false h1 ts1 (x ++ tr1) Hld1 Ht)
    as (ch2 & e2 & h2 & ts2 & E2 & Hld2 & He2); [cbn; lia|done|done|].
  set (t0 := Timestamp t (p .& ((1 ≪ 33) - 1))). cbn [app] in Hld2.
  destruct (end_of_caption_does chs ns es bs hs text Ht Hl t0 (shown ch) ch2 Hld2) as (up & out & Hs & Hd).
  destruct (Hd 1 e2 false h2 (x ++ tr1)) as (ch3 & tr3 & E3 & Htr3 & buf & Eb & Er & Hbl & _).
  eexists _, (x ++ tr1), (first chs ns es bs hs ch3 1 (0x14, 0x2F) false (u32 (h2 * 2 + 1)) t0), tr3, up, out, buf.
  split; [unfold pop_on_caption; rewrite feed_all_app; unfold mbind, M_bind; rewrite E1; exact E2|].
  split; [exact (ld_shown _ _ _ Hld2)|]. split.
  - unfold end_of_caption_line. rewrite feed_line by lia. unfold set_timestamp. cbn [channels].
    apply (control_pair chs ns es bs hs 0x14 0x2F ch2 1 e2 false h2 t0); [lia|lia|done|].
    apply (select_code chs ns es bs hs 0x2F); [by right|exact E3].
  - split; [exact Htr3|]. split; [done|]. split; [exact Eb|]. by split.
Qed.

(** "HELLO" after roll-up captions. *)
Lemma cc608_pop_on_caption_witness : ∃ cd1 x1 cd2 sent up out buf,
  feed_all record (pop_on_caption [0x48; 0x45; 0x4C; 0x4C; 0x4F]) (after transmission) = Some (tt, (cd1, x1)) ∧
  shown_of cd1 0 = shown_of (after transmission).1 0 ∧
  feed_input record (end_of_caption_line d_zero 900) (cd1, x1) = Some (true, (cd2, x1 ++ sent)) ∧
  map snd sent = [CC608_STREAM d_zero 900 1 MODE_POP_ON out; CC608 1 MODE_POP_ON 0] ∧
  row_shows up [0x48; 0x45; 0x4C; 0x4C; 0x4F] out ∧ shown_of cd2 0 = Some buf ∧
  rd buf 14 = Some (loading_row PAC_ROW_15 [0x48; 0x45; 0x4C; 0x4C; 0x4F]) ∧
  ∀ r row, r ≠ 14 → rd buf r = Some row → blank row.
Proof.
  destruct (after transmission) as [cd x] eqn:E.
  assert (cd = (after transmission).1) as Ecd by by rewrite E. cbn [fst].
  apply (cc608_pop_on_caption cd (after transmission).2 x _ d_zero 900).
  - rewrite Ecd. apply after_reachable, transmission_valid.
  - rewrite Ecd. intros H. vm_compute in H. discriminate H.
  - repeat (constructor; [lia|]). constructor.
  - cbn. lia.
  - lia.
Defined.

(** ** What the decoder does unexpectedly *)

(** Lines of one field, given as pairs of characters. *)
Definition pairs_on (line : Z) (l : list (Z * Z)) : list input := map (λ p, pair_on line p.1 p.2) l.
Definition events_after (l : list input) : list event := map snd (after l).2.
Definition is_display (ev : event) : bool := match ev with CC608 _ _ _ => true | _ => false end.
(** Cells of the displayed buffer of a channel. *)
Definition displayed_cells (l : list input) (i row first n : Z) : option (list Z) :=
  ch ← rd (channels (after l).1) i; text ← row_of ch (displayed_buffer ch) row;
  Some (take (Z.to_nat n) (drop (Z.to_nat first) text)).

(** The flag [in_xds] is set and never tested: the characters "HI" of an XDS packet on field 2
    are displayed as a caption on CC3. *)
Lemma xds_displayed_as_caption :
  displayed_cells (pairs_on 284 [(0x15, 0x25); (0x01, 0x03); (0x48, 0x49)]) 2 14 1 2 = Some [0x48; 0x49].
Proof. vm_compute. reflexivity. Qed.

(** In paint-on mode a row is reported again when it did not change, if it holds a mid-row
    code: three PACs after "HI" send the row three times, without the code only once. *)
Lemma unchanged_row_reported_again :
  let again := [(0x14, 0x70); (0x14, 0x60); (0x14, 0x70); (0x14, 0x60); (0x14, 0x70)] in
  let n l := length (List.filter (λ ev, negb (is_display ev)) (events_after (pairs_on 21 l))) in
  n ([(0x14, 0x29); (0x14, 0x70); (0x11, 0x21); (0x48, 0x49)] ++ again) = 5%nat ∧
  n ([(0x14, 0x29); (0x14, 0x70); (0x48, 0x49)] ++ again) = 1%nat.
Proof. vm_compute. split; reflexivity. Qed.

(** EOC with an empty non-displayed memory: the caption disappears, but no event says so. *)
Lemma caption_vanishes_silently :
  let shown := [(0x14, 0x20); (0x14, 0x70); (0x48, 0x49); (0x14, 0x2F); (0x00, 0x00)] in
  displayed_cells (pairs_on 21 shown) 0 14 1 2 = Some [0x48; 0x49] ∧
  displayed_cells (pairs_on 21 (shown ++ [(0x14, 0x2F)])) 0 14 1 2 = Some [0; 0] ∧
  events_after (pairs_on 21 (shown ++ [(0x14, 0x2F)])) = events_after (pairs_on 21 shown).
Proof. vm_compute. repeat split. Qed.

(** A backspace in pop-on mode changes the non-displayed memory only, yet a display event is sent. *)
Lemma backspace_event_without_change :
  let load := [(0x14, 0x20); (0x14, 0x70); (0x48, 0x49)] in
  events_after (pairs_on 21 load) = [] ∧ events_after (pairs_on 21 (load ++ [(0x14, 0x21)])) = [CC608 1 MODE_POP_ON 0].
Proof. vm_compute. split; reflexivity. Qed.

(** After a carriage return the flag of the row above the window stays set although the row is empty. *)
Lemma stale_row_flag :
  let l := pairs_on 21 [(0x14, 0x25); (0x48, 0x49); (0x14, 0x2D); (0x14, 0x25); (0x14, 0x2D); (0x14, 0x25); (0x14, 0x2D)] in
  displayed_cells l 0 11 1 32 = Some (repeat 0 32) ∧
  (ch ← rd (channels (after l).1) 0; row_dirty ch (displayed_buffer ch) 11) = Some true.
Proof. vm_compute. split; reflexivity. Qed.

(** [_vbi_cc608_decoder_feed_frame] stops at a line with a parity error: the line of field 2
    that follows is lost. *)
Lemma second_field_lost ok :
  let line1 := Sliced VBI_SLICED_CAPTION_525 21 [0x00; 0x00] in
  let line2 := Sliced VBI_SLICED_CAPTION_525 284 [odd_parity 0x15; odd_parity 0x25] in
  ok = _vbi_cc608_decoder_feed_frame record [line1; line2] d_zero 0 (_vbi_cc608_decoder_init, [] : trace) →
  (s ← ok; rd (curr_ch_num s.2.1) 1) = Some UNKNOWN_CHANNEL ∧
  (s ← _vbi_cc608_decoder_feed_frame record [line2] d_zero 0 (_vbi_cc608_decoder_init, [] : trace); rd (curr_ch_num s.2.1) 1) = Some 3.
Proof. intros line1 line2 ->. vm_compute. split; reflexivity. Qed.
