(* ===== verification/DvbMux.v ===== *)
(** DVB VBI data units, EN 301 775: the encoder of sliced data of
    [src/src/dvb_mux.c]. *)
From S2P Require Import Prelude Hamm Sliced.

(** [src/src/dvb.h] *)
Definition DATA_UNIT_EBU_TELETEXT_NON_SUBTITLE : Z := 0x02.
Definition DATA_UNIT_EBU_TELETEXT_SUBTITLE : Z := 0x03.
Definition DATA_UNIT_ZVBI_WSS_CPR1204 : Z := 0xB4.
Definition DATA_UNIT_ZVBI_CLOSED_CAPTION_525 : Z := 0xB5.
Definition DATA_UNIT_ZVBI_MONOCHROME_SAMPLES_525 : Z := 0xB6.
Definition DATA_UNIT_VPS : Z := 0xC3.
Definition DATA_UNIT_WSS : Z := 0xC4.
Definition DATA_UNIT_CLOSED_CAPTION : Z := 0xC5.
Definition DATA_UNIT_MONOCHROME_SAMPLES : Z := 0xC6.
Definition DATA_UNIT_STUFFING : Z := 0xFF.

(** The error codes of the multiplexer. *)
Definition VBI_ERR_LINE_NUMBER : Z := 0x7081802.
Definition VBI_ERR_LINE_ORDER : Z := 0x7081803.
Definition VBI_ERR_INVALID_SERVICE : Z := 0x7081804.

(** ** Stuffing *)

(** The loop over whole stuffing units: the buffer, the position, the bytes left
    and the size of the last unit. *)
Fixpoint stuffing_loop (n : nat) (du_size : Z) (buf : list Z) (p p_left last_du_size : Z)
    : option (list Z * Z * Z * Z) :=
  if du_size <=? p_left then
    match n with
    | O => None
    | S n =>
        buf ← wr buf (p + 1) (u8 (du_size - 2));
        stuffing_loop n du_size buf (p + du_size) (p_left - du_size) du_size
    end
  else Some (buf, p, p_left, last_du_size).

(** [None] is a failed assertion or a write outside of the buffer. *)
Definition encode_stuffing (buf : list Z) (p p_left last_du_size : Z) (fixed_length : bool)
    : option (list Z) :=
  buf ← store buf p (repeat 0xFF (Z.to_nat p_left));
  let du_size := if fixed_length then 46 else 257 in
  '(buf, p, p_left, last_du_size) ← stuffing_loop (Z.to_nat p_left) du_size buf p p_left last_du_size;
  if 0 <? p_left then
    if fixed_length then None
    else if 2 <=? p_left then wr buf (p + 1) (u8 (p_left - 2))
    else if last_du_size <? 2 then None
    else if last_du_size =? 257 then
      buf ← wr buf (p + (1 - 257)) (256 - 2);
      wr buf (p + (1 - 1)) (2 - 2)
    else wr buf (p + (1 - last_du_size)) (u8 (last_du_size - 1))
  else Some buf.

(** ** Sliced data *)

Definition strict : bool := true.
Definition f2_start : Z := 313.

(** The switch over the service: [inl] an error, [inr] the size of the data unit. *)
Definition du_switch (id line : Z) : Z + Z :=
  let bad_line := inl VBI_ERR_LINE_NUMBER in
  if (id =? VBI_SLICED_TELETEXT_B_L10_625) || (id =? VBI_SLICED_TELETEXT_B_L25_625)
     || (id =? VBI_SLICED_TELETEXT_B_625) then
    let du_size := 2 + 2 + 42 in
    if (line =? 0) || negb strict then inr du_size
    else
      let line := if f2_start <=? line then line - f2_start else line in
      if 22 - 7 <? u32 (line - 7) then bad_line else inr du_size
  else if id =? VBI_SLICED_VPS then
    if negb (line =? 16) && (strict || (line =? 0)) then bad_line else inr (2 + 1 + 13)
  else if id =? VBI_SLICED_WSS_625 then
    if negb (line =? 23) && (strict || (line =? 0)) then bad_line else inr (2 + 1 + 2)
  else if (id =? VBI_SLICED_CAPTION_625) || (id =? VBI_SLICED_CAPTION_625_F1) then
    if negb (line =? 21) && (strict || (line =? 0)) then bad_line else inr (2 + 1 + 2)
  else inl VBI_ERR_INVALID_SERVICE.

(** The byte with the field parity and line offset, [None] for a line that has none. *)
Definition du_lofp (last_line line : Z) : option Z :=
  if line =? 0 then
    Some (if f2_start <=? last_line then (3 ≪ 6) + (0 ≪ 5) else (3 ≪ 6) + (1 ≪ 5))
  else if line <? 32 then Some ((3 ≪ 6) + (1 ≪ 5) + line)
  else if line <? f2_start then None
  else if line <? f2_start + 32 then Some ((3 ≪ 6) + (0 ≪ 5) + line - f2_start)
  else None.

(** The data_unit_id and the bytes behind the line offset; [None] is the failed
    assertion. *)
Definition du_payload (s : vbi_sliced) : option (Z * list Z) :=
  if negb (id s .& VBI_SLICED_TELETEXT_B_625 =? 0) then
    Some (DATA_UNIT_EBU_TELETEXT_NON_SUBTITLE,
          0xE4 :: map (λ i, vbi_rev8 (data s).[i]) (seqZ 0 42))
  else if negb (id s .& (VBI_SLICED_VPS .| VBI_SLICED_VPS_F2) =? 0) then
    Some (DATA_UNIT_VPS, map (λ i, (data s).[i]) (seqZ 0 13))
  else if negb (id s .& VBI_SLICED_WSS_625 =? 0) then
    Some (DATA_UNIT_WSS, [vbi_rev8 (data s).[0]; vbi_rev8 (data s).[1] .| 3])
  else if negb (id s .& VBI_SLICED_CAPTION_625 =? 0) then
    Some (DATA_UNIT_CLOSED_CAPTION, [vbi_rev8 (data s).[0]; vbi_rev8 (data s).[1]])
  else None.

(** What the function leaves: the buffer, the position behind the units stored, the
    size of the last one, the lines not converted and the error code. *)
Record inserted := Inserted {
  ins_packet : list Z; ins_p : Z; ins_last_du_size : Z; ins_sliced : list vbi_sliced; ins_err : Z
}.

Fixpoint insert_loop (service_mask : Z) (fixed_length : bool) (buf : list Z)
    (p p_left last_line last_du_size : Z) (sliced : list vbi_sliced) : option inserted :=
  match sliced with
  | [] => Some (Inserted buf p last_du_size [] 0)
  | s :: rest =>
      let return_ buf err := Some (Inserted buf p last_du_size sliced err) in
      if id s .& service_mask =? 0 then
        insert_loop service_mask fixed_length buf p p_left last_line last_du_size rest
      else if (0 <? line s) && (line s <=? last_line) then return_ buf VBI_ERR_LINE_ORDER
      else
        let last_line := if 0 <? line s then line s else last_line in
        match du_switch (id s) (line s) with
        | inl err => return_ buf err
        | inr du_size =>
            let du_size := if fixed_length then 2 + 0x2C else du_size in
            if p_left <? du_size then return_ buf 0
            else
              buf ← (if fixed_length then store buf p (repeat 0xFF (Z.to_nat du_size)) else Some buf);
              match du_lofp last_line (line s) with
              | None => return_ buf VBI_ERR_LINE_NUMBER
              | Some lofp =>
                  '(data_unit_id, payload) ← du_payload s;
                  buf ← store buf p (data_unit_id :: u8 (du_size - 2) :: u8 lofp :: payload);
                  insert_loop service_mask fixed_length buf (p + du_size) (p_left - du_size)
                    last_line du_size rest
              end
        end
  end.

Definition insert_sliced_data_units (buf : list Z) (p p_left : Z) (sliced : list vbi_sliced)
    (service_mask : Z) (fixed_length : bool) : option inserted :=
  insert_loop service_mask fixed_length buf p p_left 0 0 sliced.

Definition fixed_length_format (data_identifier : Z) : bool :=
  data_identifier .& Z.lnot 0xF =? 0x10.

(** [p] is the offset of [*packet] in its buffer, [sliced] the lines at [*sliced]
    (none for NULL). The results are the values of [*packet], [*packet_left],
    [*sliced] and the returned value. *)
Definition vbi_dvb_multiplex_sliced (buf : list Z) (p packet_left : Z) (sliced : list vbi_sliced)
    (service_mask data_identifier : Z) (stuffing : bool)
    : option (list Z * Z * Z * list vbi_sliced * bool) :=
  if packet_left <? 2 then Some (buf, p, packet_left, sliced, false)
  else
    let fixed_length := fixed_length_format data_identifier in
    if fixed_length && (0 <? packet_left mod 46) then Some (buf, p, packet_left, sliced, false)
    else
      r ← insert_sliced_data_units buf p packet_left sliced service_mask fixed_length;
      let packet_left := packet_left - (ins_p r - p) in
      if 0 <? ins_err r then Some (ins_packet r, ins_p r, packet_left, ins_sliced r, false)
      else if stuffing then
        buf ← encode_stuffing (ins_packet r) (ins_p r) packet_left (ins_last_du_size r) fixed_length;
        Some (buf, ins_p r + packet_left, 0, ins_sliced r, true)
      else Some (ins_packet r, ins_p r, packet_left, ins_sliced r, true).

(** ** What is written *)

(** The services, the lines and the sizes of their data units. *)
Definition supported (id line n : Z) : Prop :=
  (id = 1 ∨ id = 2 ∨ id = 3) ∧ (line = 0 ∨ 7 ≤ line ≤ 22 ∨ 320 ≤ line ≤ 335) ∧ n = 46 ∨
  id = 4 ∧ line = 16 ∧ n = 16 ∨
  id = 0x400 ∧ line = 23 ∧ n = 5 ∨
  (id = 0x18 ∨ id = 8) ∧ line = 21 ∧ n = 5.

Lemma ttx_line line : 0 ≤ line < 2 ^ 32 →
  (22 - 7 <? u32 ((if f2_start <=? line then line - f2_start else line) - 7)) = false ↔
  7 ≤ line ≤ 22 ∨ 320 ≤ line ≤ 335.
Proof.
  intros Hl. rewrite Z.ltb_ge. unfold u32, f2_start. destruct (Z.leb_spec 313 line).
  - destruct (Z.leb_spec 320 line).
    + rewrite Z.mod_small by lia. lia.
    + rewrite <-(Z_mod_plus_full _ 1), Z.mod_small by lia. lia.
  - destruct (Z.leb_spec 7 line).
    + rewrite Z.mod_small by lia. lia.
    + rewrite <-(Z_mod_plus_full _ 1), Z.mod_small by lia. lia.
Qed.

Lemma du_switch_inr id line n :
  0 ≤ line < 2 ^ 32 → du_switch id line = inr n ↔ supported id line n.
Proof.
  intros Hl. pose proof (ttx_line line Hl) as Ht. unfold du_switch, supported.
  change VBI_SLICED_TELETEXT_B_L10_625 with 1. change VBI_SLICED_TELETEXT_B_L25_625 with 2.
  change VBI_SLICED_TELETEXT_B_625 with 3. change VBI_SLICED_VPS with 4.
  change VBI_SLICED_WSS_625 with 0x400. change VBI_SLICED_CAPTION_625 with 0x18.
  change VBI_SLICED_CAPTION_625_F1 with 8. cbn [strict negb orb]. rewrite orb_false_r, !andb_true_r.
  destruct (_ <? u32 _);
  destruct (Z.eqb_spec id 1), (Z.eqb_spec id 2), (Z.eqb_spec id 3), (Z.eqb_spec id 4),
    (Z.eqb_spec id 0x400), (Z.eqb_spec id 0x18), (Z.eqb_spec id 8); cbn [orb]; try lia;
    destruct (Z.eqb_spec line 0), (Z.eqb_spec line 16), (Z.eqb_spec line 23), (Z.eqb_spec line 21);
    cbn [negb]; try lia; (split; [intros [= <-] || done|intros; try f_equal]; try lia);
    destruct Ht as [Ht1 Ht2]; try specialize (Ht1 eq_refl); try lia.
  all: exfalso; cut (true = false); [done|]; apply Ht2; lia.
Qed.

(** A data unit, padded to 46 bytes in the fixed length format. *)
Definition du_unit (fixed : bool) (n lofp : Z) (payload : Z * list Z) : list Z :=
  let n := if fixed then 46 else n in
  let u := payload.1 :: (n - 2) :: lofp :: payload.2 in
  u ++ repeat 0xFF (Z.to_nat n - length u).

(** The data units of the lines converted, and the last line number. *)
Inductive encodes (mask : Z) (fixed : bool) : Z → list vbi_sliced → list (list Z) → Z → Prop :=
| enc_nil last : encodes mask fixed last [] [] last
| enc_skip last s l us last' :
    id s .& mask = 0 → encodes mask fixed last l us last' →
    encodes mask fixed last (s :: l) us last'
| enc_unit last s l us last' n lofp payload :
    id s .& mask ≠ 0 → line s = 0 ∨ last < line s → supported (id s) (line s) n →
    du_lofp (Z.max last (line s)) (line s) = Some lofp → du_payload s = Some payload →
    encodes mask fixed (Z.max last (line s)) l us last' →
    encodes mask fixed last (s :: l) (du_unit fixed n lofp payload :: us) last'.

(** The services DVB has. *)
Definition dvb_service (id : Z) : Prop := id = 1 ∨ id = 2 ∨ id = 3 ∨ id = 4 ∨ id = 0x400 ∨ id = 0x18 ∨ id = 8.

(** A service DVB does not have, or one on a wrong line. *)
Definition refused (id line err : Z) : Prop :=
  err = VBI_ERR_INVALID_SERVICE ∧ ¬ dvb_service id ∨
  err = VBI_ERR_LINE_NUMBER ∧ dvb_service id ∧ ∀ n, ¬ supported id line n.

(** Why the function stopped in front of the remaining lines: a wrong line order, a
    line or service that cannot be encoded, or no space for the unit. *)
Definition stop_reason (mask : Z) (fixed : bool) (last left : Z) (rest : list vbi_sliced) (err : Z) : Prop :=
  match rest with
  | [] => err = 0
  | s :: _ => id s .& mask ≠ 0 ∧
      (err = VBI_ERR_LINE_ORDER ∧ 0 < line s ≤ last ∨
       (line s = 0 ∨ last < line s) ∧
       (refused (id s) (line s) err ∨
        err = 0 ∧ ∃ n, supported (id s) (line s) n ∧ left < (if fixed then 46 else n)))
  end.

Lemma du_switch_refused id line err : 0 ≤ line < 2 ^ 32 → du_switch id line = inl err → refused id line err.
Proof.
  intros Hl E. assert (∀ n, ¬ supported id line n) as Hn by (intros n Hs; apply du_switch_inr in Hs; [congruence|done]).
  unfold refused. revert E. unfold du_switch, dvb_service.
  change VBI_SLICED_TELETEXT_B_L10_625 with 1. change VBI_SLICED_TELETEXT_B_L25_625 with 2.
  change VBI_SLICED_TELETEXT_B_625 with 3. change VBI_SLICED_VPS with 4.
  change VBI_SLICED_WSS_625 with 0x400. change VBI_SLICED_CAPTION_625 with 0x18. change VBI_SLICED_CAPTION_625_F1 with 8.
  destruct (Z.eqb_spec id 1), (Z.eqb_spec id 2), (Z.eqb_spec id 3), (Z.eqb_spec id 4),
    (Z.eqb_spec id 0x400), (Z.eqb_spec id 0x18), (Z.eqb_spec id 8); cbn [orb]; try lia;
    try (intros [= <-]; left; split; [done|lia]); repeat case_match; intros [= <-]; right; (split; [done|]); (split; [tauto|exact Hn]).
Qed.

Lemma stop_reason_err mask fixed last left rest err :
  stop_reason mask fixed last left rest err → 0 ≤ err.
Proof.
  destruct rest as [|s rest]; [by intros ->|]. intros (_ & [[-> _]|[_ [[[-> _]|[-> _]]|[-> _]]]]); done.
Qed.

Definition line_ok (s : vbi_sliced) : Prop := sliced_ok s ∧ 0 ≤ line s < 2 ^ 32.

Lemma du_lofp_supported id line n last :
  supported id line n → ∃ lofp, du_lofp last line = Some lofp ∧ u8 lofp = lofp.
Proof.
  intros Hs. assert (line = 0 ∨ 7 ≤ line ≤ 23 ∨ 320 ≤ line ≤ 335) as Hl by (unfold supported in Hs; lia).
  unfold du_lofp, f2_start. change (3 ≪ 6) with 192. change (1 ≪ 5) with 32. change (0 ≪ 5) with 0.
  destruct (Z.eqb_spec line 0).
  { destruct (313 <=? last); by eexists. }
  destruct (Z.ltb_spec line 32).
  { eexists. split; [done|]. apply Z.mod_small. lia. }
  destruct (Z.ltb_spec line 313); [lia|]. destruct (Z.ltb_spec line (313 + 32)); [|lia].
  eexists. split; [done|]. apply Z.mod_small. lia.
Qed.

(** Which of the four kinds of unit a service gets. *)
Lemma du_payload_supported s n :
  supported (id s) (line s) n →
  du_payload s = Some
    (if id s <? 4 then (DATA_UNIT_EBU_TELETEXT_NON_SUBTITLE, 0xE4 :: map (λ i, vbi_rev8 (data s).[i]) (seqZ 0 42))
     else if id s =? 4 then (DATA_UNIT_VPS, map (λ i, (data s).[i]) (seqZ 0 13))
     else if id s =? 0x400 then (DATA_UNIT_WSS, [vbi_rev8 (data s).[0]; vbi_rev8 (data s).[1] .| 3])
     else (DATA_UNIT_CLOSED_CAPTION, [vbi_rev8 (data s).[0]; vbi_rev8 (data s).[1]])).
Proof.
  intros Hs. assert (id s = 1 ∨ id s = 2 ∨ id s = 3 ∨ id s = 4 ∨ id s = 0x400 ∨ id s = 0x18 ∨ id s = 8)
    as [E|[E|[E|[E|[E|[E|E]]]]]] by (unfold supported in Hs; lia);
  unfold du_payload; rewrite E; reflexivity.
Qed.

Lemma du_payload_length s n payload :
  supported (id s) (line s) n → du_payload s = Some payload → 3 + Z.of_nat (length payload.2) = n.
Proof.
  intros Hs. rewrite (du_payload_supported s n Hs). intros [= <-]. unfold supported in Hs.
  destruct (Z.ltb_spec (id s) 4); [change (3 + 43 = n); lia|].
  destruct (Z.eqb_spec (id s) 4); [change (3 + 13 = n); lia|].
  destruct (Z.eqb_spec (id s) 0x400); change (3 + 2 = n); lia.
Qed.

Lemma du_unit_length (fixed : bool) s n lofp payload :
  supported (id s) (line s) n → du_payload s = Some payload →
  Z.of_nat (length (du_unit fixed n lofp payload)) = if fixed then 46 else n.
Proof.
  intros Hs Hp. pose proof (du_payload_length s n payload Hs Hp).
  assert (n ≤ 46) by (unfold supported in Hs; lia).
  unfold du_unit. rewrite length_app, repeat_length. cbn [length]. destruct fixed; lia.
Qed.

(** The unit is stored at the position, over the padding. *)
Lemma store_unit (fixed : bool) s n lofp payload (pre hole post : list Z) :
  supported (id s) (line s) n → du_payload s = Some payload → u8 lofp = lofp →
  let m := if fixed then 46 else n in
  m ≤ Z.of_nat (length hole) →
  (buf ← (if fixed then store (pre ++ hole ++ post) (Z.of_nat (length pre)) (repeat 0xFF (Z.to_nat m))
          else Some (pre ++ hole ++ post));
   store buf (Z.of_nat (length pre)) (payload.1 :: u8 (m - 2) :: u8 lofp :: payload.2)) =
  Some ((pre ++ du_unit fixed n lofp payload) ++ drop (Z.to_nat m) hole ++ post).
Proof.
  intros Hs Hp Hlofp m Hm. pose proof (du_payload_length s n payload Hs Hp) as Hlen.
  assert (5 ≤ n ≤ 46) by (unfold supported in Hs; lia).
  assert (u8 (m - 2) = m - 2) as Em by (apply Z.mod_small; subst m; destruct fixed; lia).
  rewrite Em, Hlofp. set (u := payload.1 :: (m - 2) :: lofp :: payload.2).
  assert (length u = Z.to_nat n) as Hu by (cbn; lia).
  assert (∃ h r, hole = h ++ r ∧ length h = Z.to_nat m) as (h & r & -> & Ht).
  { exists (take (Z.to_nat m) hole), (drop (Z.to_nat m) hole). rewrite take_drop, length_take. split; [done|lia]. }
  rewrite (drop_app_length' h r) by done. rewrite <-app_assoc.
  unfold du_unit. fold m u. subst m. destruct fixed; cbn [mbind option_bind].
  - rewrite store_app by (rewrite ?Ht, ?repeat_length; done). cbn [mbind option_bind].
    change (Z.to_nat 46) with 46%nat in *.
    replace 46%nat with (length u + (46 - length u))%nat at 1 by lia.
    rewrite repeat_app, <-!app_assoc. rewrite store_app by (rewrite ?repeat_length; done). done.
  - rewrite store_app by (rewrite ?Ht, ?Hu; done). rewrite Hu, Nat.sub_diag, app_nil_r, <-!app_assoc. done.
Qed.

(** The size of the last unit stored, or what it was before. *)
Definition last_size (ldu : Z) (us : list (list Z)) : Z :=
  foldl (λ _ u, Z.of_nat (length u)) ldu us.

Lemma insert_spec mask fixed sliced : ∀ (pre hole post : list Z) (last ldu : Z),
  Forall line_ok sliced → 0 ≤ last →
  ∃ done rest us hole' last' err,
    sliced = done ++ rest ∧ encodes mask fixed last done us last' ∧
    stop_reason mask fixed last' (Z.of_nat (length hole')) rest err ∧
    (length (concat us) + length hole' = length hole)%nat ∧ hole' = drop (length (concat us)) hole ∧
    insert_loop mask fixed (pre ++ hole ++ post) (Z.of_nat (length pre)) (Z.of_nat (length hole))
      last ldu sliced =
    Some (Inserted (pre ++ concat us ++ hole' ++ post) (Z.of_nat (length pre + length (concat us)))
            (last_size ldu us) rest err).
Proof.
  induction sliced as [|s sliced IH]; intros pre hole post last ldu Hok Hlast; cbn [insert_loop].
  { exists [], [], [], hole, last, 0. split_and!; try done; [constructor|]. cbn. by rewrite Nat.add_0_r. }
  apply Forall_cons_1 in Hok as [[Hs Hline] Hok].
  assert (∀ err, stop_reason mask fixed last (Z.of_nat (length hole)) (s :: sliced) err →
    ∃ done rest us hole' last' err', s :: sliced = done ++ rest ∧
      encodes mask fixed last done us last' ∧
      stop_reason mask fixed last' (Z.of_nat (length hole')) rest err' ∧
      (length (concat us) + length hole' = length hole)%nat ∧ hole' = drop (length (concat us)) hole ∧
      Some (Inserted (pre ++ hole ++ post) (Z.of_nat (length pre)) ldu (s :: sliced) err) =
      Some (Inserted (pre ++ concat us ++ hole' ++ post) (Z.of_nat (length pre + length (concat us)))
            (last_size ldu us) rest err')) as Hstop.
  { intros err Herr. exists [], (s :: sliced), [], hole, last, err.
    split_and!; try done; [constructor|]. cbn. by rewrite Nat.add_0_r. }
  destruct (Z.eqb_spec (id s .& mask) 0) as [Hm|Hm].
  { destruct (IH pre hole post last ldu Hok Hlast) as (dn & rest & us & h' & l' & err & -> & He & Hst & Hl & Hh & ->).
    exists (s :: dn), rest, us, h', l', err. split_and!; try done. by constructor. }
  destruct ((0 <? line s) && (line s <=? last)) eqn:Eo.
  { apply andb_true_iff in Eo as [H1 H2]. apply Hstop. cbn. split; [done|]. left. lia. }
  assert (line s = 0 ∨ last < line s) as Hord.
  { apply andb_false_iff in Eo. lia. }
  replace (if 0 <? line s then line s else last) with (Z.max last (line s))
    by (destruct (Z.ltb_spec 0 (line s)); lia).
  destruct (du_switch (id s) (line s)) as [err|n] eqn:Esw.
  { apply Hstop. cbn. split; [done|]. right. split; [done|]. left. by apply du_switch_refused. }
  apply du_switch_inr in Esw; [|done]. change (2 + 0x2C) with 46.
  destruct (Z.ltb_spec (Z.of_nat (length hole)) (if fixed then 46 else n)).
  { apply Hstop. cbn. split; [done|]. right. split; [done|]. right. split; [done|]. by exists n. }
  destruct (du_lofp_supported _ _ _ (Z.max last (line s)) Esw) as (lofp & Elofp & Hu8).
  pose proof (du_payload_supported s n Esw) as Epl.
  remember (if id s <? 4 then _ else _) as payload eqn:Epayload. clear Epayload.
  pose proof (store_unit fixed s n lofp payload pre hole post Esw Epl Hu8 ltac:(done)) as Hst.
  destruct (if fixed then store _ _ _ else _) as [b|]; [|done]. cbn [mbind option_bind] in Hst |- *.
  rewrite Elofp, Epl. cbn [mbind option_bind]. destruct payload as [uid pl]. cbn [fst snd] in Hst.
  rewrite Hst. cbn [mbind option_bind].
  pose proof (du_unit_length fixed s n lofp _ Esw Epl) as Hul.
  set (u := du_unit fixed n lofp (uid, pl)) in *.
  replace (Z.of_nat (length pre) + (if fixed then 46 else n)) with (Z.of_nat (length (pre ++ u)))
    by (list_lia).
  replace (Z.of_nat (length hole) - (if fixed then 46 else n))
    with (Z.of_nat (length (drop (Z.to_nat (if fixed then 46 else n)) hole)))
    by (list_lia).
  destruct (IH (pre ++ u) (drop (Z.to_nat (if fixed then 46 else n)) hole) post
    (Z.max last (line s)) (if fixed then 46 else n) Hok ltac:(lia))
    as (dn & rest & us & h' & l' & err & -> & He & Hstr & Hl & Hh & ->).
  exists (s :: dn), rest, (u :: us), h', l', err. split_and!; try done.
  - by eapply enc_unit.
  - cbn [concat]. rewrite length_app. rewrite length_drop in Hl. lia.
  - rewrite Hh. cbn [concat]. rewrite length_app, <-drop_drop. do 2 f_equal. lia.
  - cbn [concat last_size foldl]. rewrite Hul, <-!app_assoc, !length_app. do 2 f_equal. lia.
Qed.

(** *** Stuffing units *)

Definition stuffing_unit (n : Z) : list Z :=
  DATA_UNIT_STUFFING :: (n - 2) :: repeat 0xFF (Z.to_nat (n - 2)).

Lemma stuffing_unit_length n : 2 ≤ n → Z.of_nat (length (stuffing_unit n)) = n.
Proof. intros. cbn [stuffing_unit length]. rewrite repeat_length. lia. Qed.

Lemma stuffing_unit_bytes n :
  2 ≤ n ≤ 257 → 0xFF :: u8 (n - 2) :: repeat 0xFF (Z.to_nat n - 2) = stuffing_unit n.
Proof.
  intros. unfold stuffing_unit, DATA_UNIT_STUFFING, u8. rewrite Z.mod_small by lia.
  by replace (Z.to_nat n - 2)%nat with (Z.to_nat (n - 2)) by lia.
Qed.

(** Setting the length byte of a run of 0xFF makes it a stuffing unit. *)
Lemma wr_length_byte (pre post : list Z) (n : nat) x p :
  (2 ≤ n)%nat → p = Z.of_nat (length pre) →
  wr (pre ++ repeat 0xFF n ++ post) (p + 1) x =
  Some (pre ++ (0xFF :: x :: repeat 0xFF (n - 2)) ++ post).
Proof.
  intros Hn ->. replace n with (2 + (n - 2))%nat at 1 by lia. rewrite repeat_app.
  change (repeat 0xFF 2) with [0xFF; 0xFF]. rewrite <-app_assoc.
  change (pre ++ [0xFF; 0xFF] ++ ?l) with (pre ++ [0xFF] ++ 0xFF :: l). rewrite app_assoc.
  rewrite wr_app by (list_lia). by rewrite <-app_assoc.
Qed.

Lemma stuffing_loop_spec n du : ∀ (pre post : list Z) (left : nat) ldu,
  (left ≤ n)%nat → 2 ≤ du ≤ 257 →
  ∃ (k r : nat), Z.of_nat left = Z.of_nat k * du + Z.of_nat r ∧ Z.of_nat r < du ∧
    stuffing_loop n du (pre ++ repeat 0xFF left ++ post) (Z.of_nat (length pre)) (Z.of_nat left) ldu =
    Some (pre ++ concat (repeat (stuffing_unit du) k) ++ repeat 0xFF r ++ post,
          Z.of_nat (length pre) + Z.of_nat k * du, Z.of_nat r,
          match k with O => ldu | S _ => du end).
Proof.
  induction n as [|n IH]; intros pre post left ldu Hn Hdu; cbn [stuffing_loop].
  - destruct (Z.leb_spec du (Z.of_nat left)); [lia|]. exists 0%nat, left. cbn.
    rewrite Z.add_0_r. split_and!; try done; lia.
  - destruct (Z.leb_spec du (Z.of_nat left)).
    2:{ exists 0%nat, left. cbn. rewrite Z.add_0_r. split_and!; try done; lia. }
    assert (repeat 0xFF left = repeat 0xFF (Z.to_nat du) ++ repeat 0xFF (left - Z.to_nat du)) as ->.
    { rewrite <-repeat_app. f_equal. lia. }
    rewrite <-app_assoc, wr_length_byte by lia. cbn [mbind option_bind].
    rewrite stuffing_unit_bytes by lia.
    pose proof (stuffing_unit_length du ltac:(lia)) as Hl.
    destruct (IH (pre ++ stuffing_unit du) post (left - Z.to_nat du)%nat du) as (k & r & E1 & E2 & E3);
      [lia|lia|].
    exists (S k), r. split; [lia|]. split; [done|].
    replace (Z.of_nat (length pre) + du) with (Z.of_nat (length (pre ++ stuffing_unit du)))
      by (list_lia).
    replace (Z.of_nat left - du) with (Z.of_nat (left - Z.to_nat du)) by lia.
    rewrite app_assoc, E3, length_app, Nat2Z.inj_add, Hl. cbn [repeat concat]. rewrite <-!app_assoc.
    replace (Z.of_nat (length pre) + du + Z.of_nat k * du)
      with (Z.of_nat (length pre) + Z.of_nat (S k) * du) by lia.
    by destruct k.
Qed.

Definition is_stuffing (u : list Z) : Prop := ∃ n, 2 ≤ n ≤ 257 ∧ u = stuffing_unit n.

(** The bytes left are filled with stuffing units, or a single one is appended to
    the unit before them. *)
Lemma encode_stuffing_spec (pre hole post : list Z) ldu (fixed : bool) :
  (fixed = true → Z.of_nat (length hole) mod 46 = 0) →
  (length hole = 1%nat → 2 ≤ ldu ≤ 256) →
  (∃ sus, Forall is_stuffing sus ∧ length (concat sus) = length hole ∧
    encode_stuffing (pre ++ hole ++ post) (Z.of_nat (length pre)) (Z.of_nat (length hole)) ldu fixed =
    Some (pre ++ concat sus ++ post)) ∨
  length hole = 1%nat ∧
  encode_stuffing (pre ++ hole ++ post) (Z.of_nat (length pre)) (Z.of_nat (length hole)) ldu fixed =
  wr (pre ++ [0xFF] ++ post) (Z.of_nat (length pre) + (1 - ldu)) (ldu - 1).
Proof.
  intros Hfix Hldu. unfold encode_stuffing. rewrite store_app by (rewrite ?repeat_length; lia).
  cbn [mbind option_bind]. rewrite Nat2Z.id. set (du := if fixed then 46 else 257).
  destruct (stuffing_loop_spec (length hole) du pre post (length hole) ldu) as (k & r & E1 & E2 & ->);
    [lia|subst du; destruct fixed; lia|]. cbn [mbind option_bind].
  assert (Forall is_stuffing (repeat (stuffing_unit du) k)) as Hk.
  { apply List.Forall_forall. intros x Hx. apply repeat_spec in Hx as ->.
    exists du. split; [subst du; destruct fixed; lia|done]. }
  assert (Z.of_nat (length (concat (repeat (stuffing_unit du) k))) = Z.of_nat k * du) as Hlk.
  { clear. induction k as [|k IH]; [done|]. cbn [repeat concat]. rewrite length_app, Nat2Z.inj_add, IH.
    rewrite stuffing_unit_length by (subst du; destruct fixed; lia). lia. }
  destruct (Z.ltb_spec 0 (Z.of_nat r)) as [Hr|Hr].
  2:{ left. exists (repeat (stuffing_unit du) k). destruct r; [|lia]. split_and!; [done|lia|done]. }
  destruct fixed.
  { specialize (Hfix eq_refl). rewrite E1 in Hfix. rewrite Z.add_comm, Z_mod_plus_full in Hfix.
    rewrite Z.mod_small in Hfix by lia. lia. }
  destruct (Z.leb_spec 2 (Z.of_nat r)).
  { left. exists (repeat (stuffing_unit du) k ++ [stuffing_unit (Z.of_nat r)]).
    rewrite concat_app. cbn [concat]. rewrite app_nil_r. split_and!.
    - apply Forall_app. split; [done|]. repeat constructor. exists (Z.of_nat r). split; [lia|done].
    - rewrite length_app. pose proof (stuffing_unit_length (Z.of_nat r)). lia.
    - rewrite app_assoc, wr_length_byte by (list_lia).
      rewrite <-(stuffing_unit_bytes (Z.of_nat r)), Nat2Z.id, <-!app_assoc by lia. done. }
  assert (r = 1%nat) as -> by lia. destruct k as [|k].
  - right. split; [lia|]. specialize (Hldu ltac:(lia)).
    destruct (Z.ltb_spec ldu 2); [lia|]. destruct (Z.eqb_spec ldu 257); [lia|].
    cbn [repeat concat]. rewrite app_nil_l, Z.mul_0_l, Z.add_0_r.
    unfold u8. rewrite Z.mod_small by lia. done.
  - left. exists (repeat (stuffing_unit du) k ++ [stuffing_unit 256; stuffing_unit 2]).
    change (du <? 2) with false. change (du =? 257) with true. cbn match.
    cbn [repeat] in Hlk. rewrite repeat_cons, concat_app, length_app in Hlk. cbn [concat length] in Hlk.
    rewrite app_nil_r, Nat2Z.inj_add, stuffing_unit_length in Hlk by lia.
    rewrite concat_app. cbn [concat]. split_and!.
    + apply Forall_app. split; [by apply (Forall_inv_tail Hk)|].
      repeat constructor; eexists; (split; [|reflexivity]); lia.
    + rewrite !length_app. pose proof (stuffing_unit_length 256). pose proof (stuffing_unit_length 2).
      cbn [length]. lia.
    + cbn [repeat]. rewrite repeat_cons, concat_app. cbn [concat]. rewrite app_nil_r.
      set (q := concat (repeat (stuffing_unit du) k)) in *.
      change (stuffing_unit du) with ([0xFF] ++ 255 :: repeat 0xFF 255).
      rewrite <-!app_assoc, (app_assoc pre q), (app_assoc (pre ++ q) [0xFF]). rewrite <-app_comm_cons.
      rewrite wr_app by (list_lia). cbn [mbind option_bind].
      match goal with |- wr ?l _ _ = _ =>
        replace l with ((((pre ++ q) ++ [0xFF]) ++ 254 :: repeat 0xFF 255) ++ 0xFF :: post)
          by (by rewrite <-!app_assoc) end.
      assert (Z.of_nat (length (((pre ++ q) ++ [0xFF]) ++ 254 :: repeat 0xFF 255)) =
        Z.of_nat (length pre) + Z.of_nat (length q) + 257) as Hw.
      { rewrite !length_app. change (length [0xFF]) with 1%nat.
        change (length (254 :: repeat 0xFF 255)) with 256%nat. lia. }
      change du with 257 in Hlk |- *. clearbody q.
      rewrite (wr_app (((pre ++ q) ++ [0xFF]) ++ 254 :: repeat 0xFF 255)) by lia. by rewrite <-!app_assoc.
Qed.

(** *** Data units are bytes *)

Lemma bytes_repeat x n : is_byte x → bytes (repeat x n).
Proof. intros H. induction n; by constructor. Qed.

Lemma stuffing_is_bytes u : is_stuffing u → bytes u.
Proof.
  intros (n & Hn & ->). constructor; [done|]. constructor; [unfold is_byte; lia|]. by apply bytes_repeat.
Qed.

Lemma bytes_map {A} (f : A → Z) l : (∀ i, is_byte (f i)) → bytes (map f l).
Proof. intros H. induction l; by constructor. Qed.

Lemma du_payload_bytes s n payload :
  line_ok s → supported (id s) (line s) n → du_payload s = Some payload → bytes (payload.1 :: payload.2).
Proof.
  intros [[_ Hb] _] Hs. rewrite (du_payload_supported s n Hs). intros H. apply (inj Some) in H. subst payload.
  assert (∀ i, is_byte (vbi_rev8 (data s).[i])) as Hr by (intros; apply rev8_byte).
  destruct (id s <? 4); [|destruct (id s =? 4); [|destruct (id s =? 0x400)]].
  - constructor; [done|]. unfold snd. constructor; [done|]. by apply bytes_map.
  - constructor; [done|]. unfold snd. apply bytes_map. intros i. by apply bytes_tbl.
  - constructor; [done|]. constructor; [apply Hr|]. constructor; [|constructor].
    apply (lor_range 8); [done|apply Hr|done].
  - constructor; [done|]. constructor; [apply Hr|]. constructor; [apply Hr|constructor].
Qed.

Lemma encodes_bytes mask fixed last l us last' :
  encodes mask fixed last l us last' → Forall line_ok l → Forall bytes us.
Proof.
  induction 1 as [last|last s l us last' Hm He IH|last s l us last' n lofp payload Hm Hord Hs Hlofp Hp He IH]; intros Hok.
  - constructor.
  - apply IH. by apply Forall_inv_tail in Hok.
  - inversion Hok as [|? ? H1 H2]; subst. constructor; [|by apply IH].
    pose proof (du_payload_bytes s n payload H1 Hs Hp) as Hb. inversion Hb as [|? ? Hb1 Hb2]; subst.
    destruct (du_lofp_supported _ _ _ (Z.max last (line s)) Hs) as (lofp' & E & Eu). rewrite Hlofp in E. injection E as <-.
    assert (5 ≤ n ≤ 46) by (unfold supported in Hs; lia). unfold du_unit. apply Forall_app. split.
    + constructor; [done|]. constructor; [unfold is_byte; destruct fixed; lia|]. constructor; [|done].
      rewrite <-Eu. apply u8_range.
    + by apply bytes_repeat.
Qed.

(** *** The units of the standard *)

(** The bits of a byte in transmission order, the first in the most significant place. *)
Definition reversed (c r : Z) : Prop := is_byte r ∧ ∀ i, 0 ≤ i < 8 → Z.testbit r i = Z.testbit c (7 - i).

Lemma rev8_reversed c : is_byte c → reversed c (vbi_rev8 c).
Proof. intros Hc. split; [apply rev8_byte|]. intros i Hi. by apply rev8_testbit_byte. Qed.

(** EN 301 775, sections 4.5 to 4.8: the data unit and its payload for a line of a
    service. *)
Inductive dvb_payload (s : vbi_sliced) : Z → list Z → Prop :=
  | Teletext_unit l : (id s = 1 ∨ id s = 2 ∨ id s = 3) → Forall2 reversed (take 42 (data s)) l → dvb_payload s 0x02 (0xE4 :: l)
  | Vps_unit : id s = 4 → dvb_payload s 0xC3 (take 13 (data s))
  | Wss_unit r0 r1 : id s = 0x400 → Forall2 reversed (take 2 (data s)) [r0; r1] → dvb_payload s 0xC4 [r0; r1 .| 3]
  | Caption_unit r0 r1 : (id s = 0x18 ∨ id s = 8) → Forall2 reversed (take 2 (data s)) [r0; r1] → dvb_payload s 0xC5 [r0; r1].

(** Two reserved bits, the field and the line in the field; a line that is not known is in
    the field of the last one. *)
Definition line_code (last line : Z) : Z :=
  0xC0 + (if line =? 0 then (if last <? 313 then 0x20 else 0) else if line <? 313 then 0x20 + line else line - 313).

(** A whole unit of [n] bytes, or 46 with padding. *)
Definition dvb_unit (fixed : bool) (last : Z) (s : vbi_sliced) (u : list Z) : Prop :=
  ∃ n uid payload, supported (id s) (line s) n ∧ dvb_payload s uid payload ∧
    u = uid :: ((if fixed then 46 else n) - 2) :: line_code last (line s) :: payload ++ repeat 0xFF (Z.to_nat (if fixed then 46 - n else 0)).

Inductive dvb_units (mask : Z) (fixed : bool) : Z → list vbi_sliced → list (list Z) → Z → Prop :=
  | units_end last : dvb_units mask fixed last [] [] last
  | units_skip last s l us last' : id s .& mask = 0 → dvb_units mask fixed last l us last' → dvb_units mask fixed last (s :: l) us last'
  | units_next last s l u us last' :
      id s .& mask ≠ 0 → line s = 0 ∨ last < line s → dvb_unit fixed (Z.max last (line s)) s u →
      dvb_units mask fixed (Z.max last (line s)) l us last' → dvb_units mask fixed last (s :: l) (u :: us) last'.

Lemma reversed_bytes d n : bytes d → (n ≤ length d)%nat → Forall2 reversed (take n d) (map (λ i, vbi_rev8 d.[i]) (seqZ 0 (Z.of_nat n))).
Proof.
  intros Hd Hn. apply Forall2_same_length_lookup. split; [rewrite length_map, length_seqZ, length_take; lia|].
  intros i x y Hx Hy. rewrite list_lookup_fmap in Hy. destruct (seqZ 0 (Z.of_nat n) !! i) as [j|] eqn:Ej; [|done].
  apply lookup_seqZ in Ej as [-> Hi]. cbn in Hy. injection Hy as <-. rewrite lookup_take_lt in Hx by lia.
  assert (d.[0 + Z.of_nat i] = x) as ->.
  { unfold tbl. rewrite Z.add_0_l, Nat2Z.id, nth_lookup, Hx. done. }
  apply rev8_reversed. by apply (proj1 (Forall_lookup _ _) Hd _ _ Hx).
Qed.

Lemma take_tbl (d : list Z) n : (n ≤ length d)%nat → map (λ i, d.[i]) (seqZ 0 (Z.of_nat n)) = take n d.
Proof.
  intros Hn. apply list_eq_same_length with n; [rewrite length_take; lia|rewrite length_map, length_seqZ; lia|].
  intros i x y Hi Hx Hy. rewrite list_lookup_fmap in Hx. destruct (seqZ 0 (Z.of_nat n) !! i) as [j|] eqn:Ej; [|done].
  apply lookup_seqZ in Ej as [-> _]. cbn in Hx. injection Hx as <-. rewrite lookup_take_lt in Hy by lia.
  unfold tbl. by rewrite Z.add_0_l, Nat2Z.id, nth_lookup, Hy.
Qed.

Lemma payload_dvb s n uid payload : line_ok s → supported (id s) (line s) n → du_payload s = Some (uid, payload) → dvb_payload s uid payload.
Proof.
  intros [[Hlen Hb] _] Hs. rewrite (du_payload_supported s n Hs). intros E.
  assert (∀ k, (k ≤ 56)%nat → (k ≤ length (data s))%nat) as Hk by lia.
  assert (id s = 1 ∨ id s = 2 ∨ id s = 3 ∨ id s = 4 ∨ id s = 0x400 ∨ id s = 0x18 ∨ id s = 8) as Hid by (unfold supported in Hs; lia).
  pose proof (reversed_bytes (data s) 2 Hb ltac:(apply Hk; lia)) as R2.
  destruct (Z.ltb_spec (id s) 4).
  - injection E as <- <-. apply Teletext_unit; [lia|]. apply (reversed_bytes _ 42); [done|apply Hk; lia].
  - destruct (Z.eqb_spec (id s) 4).
    + pose proof (take_tbl (data s) 13 ltac:(apply Hk; lia)) as T. change (Z.of_nat 13) with 13 in T. rewrite T in E. apply (inj Some), pair_equal_spec in E as [<- <-].
      by apply Vps_unit.
    + destruct (Z.eqb_spec (id s) 0x400); injection E as <- <-; [by apply Wss_unit|apply Caption_unit; [lia|done]].
Qed.

Lemma lofp_code last line id n lofp : supported id line n → line ≤ last → du_lofp last line = Some lofp → lofp = line_code last line.
Proof.
  intros Hs Hl. assert (line = 0 ∨ 7 ≤ line ≤ 23 ∨ 320 ≤ line ≤ 335) as Hline by (unfold supported in Hs; lia).
  unfold du_lofp, line_code, f2_start. change (3 ≪ 6) with 192. change (1 ≪ 5) with 32. change (0 ≪ 5) with 0.
  destruct (Z.eqb_spec line 0).
  { intros [= <-]. destruct (Z.leb_spec 313 last), (Z.ltb_spec last 313); lia. }
  destruct (Z.ltb_spec line 32), (Z.ltb_spec line 313); try lia; [intros [= <-]; lia|].
  destruct (_ <? 313 + 32); [intros [= <-]; lia|done].
Qed.

Lemma encodes_dvb mask fixed last l us last' : encodes mask fixed last l us last' → Forall line_ok l → dvb_units mask fixed last l us last'.
Proof.
  induction 1 as [last|last s l us last' Hm He IH|last s l us last' n lofp payload Hm Hord Hs Hlofp Hp He IH]; intros Hok;
    [constructor|apply units_skip; [done|]; apply IH; by apply Forall_inv_tail in Hok|].
  inversion Hok as [|? ? H1 H2]; subst. apply units_next; [done..| |by apply IH]. destruct payload as [uid payload].
  exists n, uid, payload. split; [done|]. split; [by eapply payload_dvb|].
  pose proof (du_payload_length s n _ Hs Hp) as Hlen. cbn [snd] in Hlen. unfold du_unit. cbn [fst snd].
  rewrite (lofp_code (Z.max last (line s)) _ _ _ _ Hs ltac:(lia) Hlofp). assert (n ≤ 46) by (unfold supported in Hs; lia).
  cbn [app length]. do 5 f_equal. destruct fixed; lia.
Qed.

(** C37: without stuffing the encoder stores the data units of EN 301 775 for the first
    lines one after the other from [p] on and changes nothing else; it stops, and reports
    failure, exactly at a line out of order, on a wrong line or of a service DVB does not
    have, and stops without failure only if the next unit does not fit.  Caption belongs on
    line 21, as section 4.8.2 that the code cites says, although the documentation of the
    function says line 22. *)
Theorem dvb_multiplex_correct (buf : list Z) (p left : Z) (sliced : list vbi_sliced) (mask ident : Z) :
  0 ≤ p → 2 ≤ left → p + left ≤ Z.of_nat (length buf) →
  (fixed_length_format ident = true → left mod 46 = 0) → Forall line_ok sliced →
  ∃ converted rest units last err,
    let n := Z.of_nat (length (concat units)) in
    vbi_dvb_multiplex_sliced buf p left sliced mask ident false =
      Some (take (Z.to_nat p) buf ++ concat units ++ drop (Z.to_nat (p + n)) buf,
            p + n, left - n, rest, err =? 0) ∧
    n ≤ left ∧ sliced = converted ++ rest ∧
    dvb_units mask (fixed_length_format ident) 0 converted units last ∧
    stop_reason mask (fixed_length_format ident) last (left - n) rest err.
Proof.
  intros Hp H2 Hbuf Hfix Hok.
  destruct (split_hole buf p left) as (pre & hole & post & Ebuf & Epre & Ehole & -> & _); [lia..|].
  rewrite Ebuf. clear Ebuf Hbuf buf. subst p left. clear Hp.
  unfold vbi_dvb_multiplex_sliced, insert_sliced_data_units.
  destruct (Z.ltb_spec (Z.of_nat (length hole)) 2); [lia|].
  set (fixed := fixed_length_format ident) in *.
  assert (fixed && (0 <? Z.of_nat (length hole) mod 46) = false) as ->
    by (destruct fixed; [by rewrite Hfix|done]).
  destruct (insert_spec mask fixed sliced pre hole post 0 0 Hok ltac:(done))
    as (dn & rest & us & hole' & last' & err & Esl & He & Hstop & Hlen & Hh & ->).
  cbn [mbind option_bind ins_packet ins_p ins_last_du_size ins_sliced ins_err].
  assert (err =? 0 = negb (0 <? err)) as Eerr.
  { pose proof (stop_reason_err _ _ _ _ _ _ Hstop). destruct (Z.eqb_spec err 0), (Z.ltb_spec 0 err); done || lia. }
  exists dn, rest, us, last', err. cbv zeta.
  replace (Z.of_nat (length hole) - Z.of_nat (length (concat us))) with (Z.of_nat (length hole')) by lia.
  rewrite Esl in Hok. apply Forall_app in Hok as [Hok _].
  split_and!; try done; [|lia|by apply encodes_dvb]. rewrite Eerr.
  replace (Z.to_nat (Z.of_nat (length pre) + Z.of_nat (length (concat us))))
    with (length pre + length (concat us))%nat by lia.
  rewrite <-drop_drop, drop_app_length, drop_app_le, <-Hh by lia.
  rewrite Nat2Z.inj_add.
  replace (Z.of_nat (length hole) - (Z.of_nat (length pre) + Z.of_nat (length (concat us)) - Z.of_nat (length pre)))
    with (Z.of_nat (length hole')) by lia.
  by destruct (0 <? err).
Qed.

Lemma dvb_multiplex_correct_witness :
  ∃ converted rest units last err,
    vbi_dvb_multiplex_sliced (repeat 0 100) 0 100
      [Sliced 4 16 (repeat 1 56); Sliced 0x400 22 (repeat 2 56)] 0x404 0x99 false =
    Some (concat units ++ drop (length (concat units)) (repeat 0 100), Z.of_nat (length (concat units)),
          100 - Z.of_nat (length (concat units)), rest, err =? 0) ∧
    [Sliced 4 16 (repeat 1 56); Sliced 0x400 22 (repeat 2 56)] = converted ++ rest ∧
    dvb_units 0x404 false 0 converted units last ∧
    stop_reason 0x404 false last (100 - Z.of_nat (length (concat units))) rest err.
Proof.
  destruct (dvb_multiplex_correct (repeat 0 100) 0 100
    [Sliced 4 16 (repeat 1 56); Sliced 0x400 22 (repeat 2 56)] 0x404 0x99)
    as (conv & rest & units & last & err & E & _ & E1 & E2 & E3).
  - done.
  - done.
  - done.
  - done.
  - repeat constructor; vm_compute; congruence.
  - exists conv, rest, units, last, err. rewrite Z.add_0_l, Nat2Z.id in E. by split_and!.
Defined.
