(* ===== verification/DvbDemux.v ===== *)
(** DVB VBI data units: the decoder of [src/src/dvb_demux.c], and the round trip
    with the encoder of [src/src/dvb_mux.c]. *)
From S2P Require Import Prelude Hamm Sliced DvbMux.

(** The error codes of the demultiplexer. *)
Definition VBI_ERR_SLICED_BUFFER_OVERFLOW : Z := 0x7080601.
Definition VBI_ERR_DU_OVERFLOW : Z := 0x7080901.
Definition VBI_ERR_DU_LENGTH : Z := 0x7080902.
Definition VBI_ERR_DU_LINE_NUMBER : Z := 0x7080903.

(** [struct frame]: [lines] is the array from [sliced_begin] to [sliced_end], [sp]
    an index into it.  No caller asks for raw data, [raw] is NULL and [raw_offset]
    zero throughout. *)
Record frame := Frame {
  lines : list vbi_sliced; sp : Z; last_field : Z; last_field_line : Z; last_frame_line : Z;
  last_data_unit_id : Z; n_data_units_extracted_from_packet : Z
}.

Inductive systems := SYSTEM_525 | SYSTEM_625.

Definition field_start (system : systems) (field : Z) : Z :=
  if field =? 0 then 0 else match system with SYSTEM_525 => 263 | SYSTEM_625 => 313 end.

(** The field, the line of the field and the line of the frame. *)
Definition lofp_to_line (lofp : Z) (system : systems) : Z * Z * Z :=
  let field := if lofp .& (1 ≪ 5) =? 0 then 1 else 0 in
  let line_offset := lofp .& 31 in
  if 0 <? line_offset then (field, line_offset, field_start system field + line_offset)
  else (field, 0, 0).

(** Allocates the next slot and stores its line number: [inl] is -1 for a new frame
    or an error code, [inr] the index of the slot. *)
Definition line_address (f : frame) (lofp : Z) (system : systems) : option (frame * (Z + Z)) :=
  if Z.of_nat (length (lines f)) <=? sp f then Some (f, inl VBI_ERR_SLICED_BUFFER_OVERFLOW)
  else
    let '(field, field_line, frame_line) := lofp_to_line lofp system in
    let allocate frame_line last_frame_line :=
      s ← rd (lines f) (sp f);
      l ← wr (lines f) (sp f) (Sliced (id s) frame_line (data s));
      Some (Frame l (sp f + 1) field field_line last_frame_line (last_data_unit_id f)
              (n_data_units_extracted_from_packet f + 1), inr (sp f)) in
    if negb (frame_line =? 0) then
      if frame_line <=? last_frame_line f then
        if 0 <? n_data_units_extracted_from_packet f then Some (f, inl VBI_ERR_DU_LINE_NUMBER)
        else Some (f, inl (-1))
      else allocate frame_line frame_line
    else (* Undefined line. *)
      if negb (last_data_unit_id f =? 0) && negb (field =? last_field f) then
        if n_data_units_extracted_from_packet f =? 0 then Some (f, inl (-1))
        else if field <? last_field f then Some (f, inl VBI_ERR_DU_LINE_NUMBER)
        else allocate 0 (last_frame_line f)
      else allocate 0 (last_frame_line f).

(** [--f->sp] *)
Definition release (f : frame) : frame :=
  Frame (lines f) (sp f - 1) (last_field f) (last_field_line f) (last_frame_line f)
    (last_data_unit_id f) (n_data_units_extracted_from_packet f).

(** Identifies the line in a slot and stores the first bytes of its data. *)
Definition put_line (f : frame) (slot id : Z) (payload : list Z) : option frame :=
  s ← rd (lines f) slot;
  d ← store (data s) 0 payload;
  l ← wr (lines f) slot (Sliced id (line s) d);
  Some (Frame l (sp f) (last_field f) (last_field_line f) (last_frame_line f)
          (last_data_unit_id f) (n_data_units_extracted_from_packet f)).

(** The bytes [p[i]] to [p[i + n - 1]]. *)
Fixpoint fetch (p : list Z) (i : Z) (n : nat) : option (list Z) :=
  match n with
  | O => Some []
  | S n => c ← rd p i; l ← fetch p (i + 1) n; Some (c :: l)
  end.

(** What the cases of sliced data have in common: a slot is allocated, the line
    checked by [bad_line] and the data stored. *)
Definition sliced_unit (f : frame) (p : list Z) (system : systems) (bad_line : frame → Z → bool)
    (service : Z → Z) (payload : option (list Z)) : option (frame * Z) :=
  lofp ← rd p 2;
  '(f, r) ← line_address f lofp system;
  match r with
  | inl err => Some (f, err)
  | inr slot =>
      s ← rd (lines f) slot;
      if bad_line f (line s) then Some (release f, VBI_ERR_DU_LINE_NUMBER)
      else
        payload ← payload;
        f ← put_line f slot (service (last_field f)) payload;
        Some (f, 0)
  end.

Definition no_check (f : frame) (line : Z) : bool := false.

(** The switch over data_unit_id: the frame and an error code or zero. *)
Definition data_unit (f : frame) (p : list Z) (data_unit_id data_unit_length : Z) : option (frame * Z) :=
  let bad_length := Some (f, VBI_ERR_DU_LENGTH) in
  if data_unit_id =? DATA_UNIT_STUFFING then Some (f, 0)
  else if (data_unit_id =? DATA_UNIT_EBU_TELETEXT_NON_SUBTITLE)
          || (data_unit_id =? DATA_UNIT_EBU_TELETEXT_SUBTITLE) then
    if data_unit_length <? 1 + 1 + 42 then bad_length
    else
      framing ← rd p 3;
      if negb (framing =? 0xE4) then Some (f, 0) (* custom framing code *)
      else
        sliced_unit f p SYSTEM_625
          (λ f _, (0 <? last_field_line f) && (23 - 7 <=? u32 (last_field_line f - 7)))
          (λ _, VBI_SLICED_TELETEXT_B_625) (map vbi_rev8 <$> fetch p 4 42)
  else if data_unit_id =? DATA_UNIT_VPS then
    if data_unit_length <? 1 + 13 then bad_length
    else
      sliced_unit f p SYSTEM_625 (λ _ line, negb (line =? 16))
        (λ field, if field =? 0 then VBI_SLICED_VPS else VBI_SLICED_VPS_F2) (fetch p 3 13)
  else if data_unit_id =? DATA_UNIT_WSS then
    if data_unit_length <? 1 + 2 then bad_length
    else
      sliced_unit f p SYSTEM_625 (λ _ line, negb (line =? 23))
        (λ _, VBI_SLICED_WSS_625) (map vbi_rev8 <$> fetch p 3 2)
  else if data_unit_id =? DATA_UNIT_ZVBI_WSS_CPR1204 then
    if data_unit_length <? 1 + 3 then bad_length
    else sliced_unit f p SYSTEM_525 no_check (λ _, VBI_SLICED_WSS_CPR1204) (fetch p 3 3)
  else if data_unit_id =? DATA_UNIT_ZVBI_CLOSED_CAPTION_525 then
    if data_unit_length <? 1 + 2 then bad_length
    else
      sliced_unit f p SYSTEM_525 no_check
        (λ field, if field =? 0 then VBI_SLICED_CAPTION_525_F1 else VBI_SLICED_CAPTION_525_F2)
        (map vbi_rev8 <$> fetch p 3 2)
  else if data_unit_id =? DATA_UNIT_CLOSED_CAPTION then
    if data_unit_length <? 1 + 2 then bad_length
    else
      sliced_unit f p SYSTEM_625 (λ _ line, negb (line =? 21))
        (λ field, if field =? 0 then VBI_SLICED_CAPTION_625_F1 else VBI_SLICED_CAPTION_625_F2)
        (map vbi_rev8 <$> fetch p 3 2)
  else Some (f, 0). (* raw data, which was not requested, and unknown units *)

Definition set_last_data_unit_id (id : Z) (f : frame) : frame :=
  Frame (lines f) (sp f) (last_field f) (last_field_line f) (last_frame_line f) id
    (n_data_units_extracted_from_packet f).

(** [p] are the bytes up to the end of the packet.  The results are the values of
    the frame, [*src], [*src_left] and the returned value. *)
Fixpoint extract_loop (n : nat) (f : frame) (p : list Z) : option (frame * list Z * Z * Z) :=
  if 2 <? Z.of_nat (length p) then
    match n with
    | O => None
    | S n =>
        data_unit_id ← rd p 0;
        data_unit_length ← rd p 1;
        if Z.of_nat (length p) - 2 <? data_unit_length then
          Some (f, p, Z.of_nat (length p), VBI_ERR_DU_OVERFLOW)
        else
          '(f, err) ← data_unit f p data_unit_id data_unit_length;
          if negb (err =? 0) then Some (f, p, Z.of_nat (length p), err)
          else
            extract_loop n (set_last_data_unit_id data_unit_id f)
              (drop (Z.to_nat (data_unit_length + 2)) p)
    end
  else Some (f, p, 0, 0).

Definition extract_data_units (f : frame) (src : list Z) : option (frame * list Z * Z * Z) :=
  extract_loop (length src) f src.

Definition reset_frame (f : frame) : frame := Frame (lines f) 0 0 0 0 0 0.

(** The bytes left after the unit, or FALSE. *)
Definition _vbi_dvb_skip_data_unit (buffer : list Z) : option (list Z * bool) :=
  if Z.of_nat (length buffer) <? 2 then Some (buffer, false)
  else
    len ← rd buffer 1;
    let skip := 2 + len in
    if Z.of_nat (length buffer) <? skip then Some (buffer, false)
    else Some (drop (Z.to_nat skip) buffer, true).

(** The array, the number of lines, [*buffer], [*buffer_left] and the returned
    value; the number is [None] when it is not set. *)
Definition _vbi_dvb_demultiplex_sliced (sliced : list vbi_sliced) (buffer : list Z)
    : option (list vbi_sliced * option Z * list Z * Z * bool) :=
  if Z.of_nat (length buffer) <? 2 then
    Some (sliced, None, buffer, Z.of_nat (length buffer), false)
  else
    '(f, p, src_left, err) ← extract_data_units (Frame sliced 0 0 0 0 0 0) buffer;
    Some (lines f, Some (sp f), p, src_left, err =? 0).

(** ** Any input *)

Definition has_data (s : vbi_sliced) : Prop := length (data s) = 56%nat.

(** The array, the lines stored so far in ascending order, lines 0 aside. *)
Definition frame_ok (f : frame) : Prop :=
  0 ≤ sp f ≤ Z.of_nat (length (lines f)) ∧ 0 ≤ last_frame_line f ∧ Forall has_data (lines f) ∧
  (∀ i s, lines f !! i = Some s → Z.of_nat i < sp f → 0 ≤ line s ≤ last_frame_line f) ∧
  (∀ i j s t, lines f !! i = Some s → lines f !! j = Some t → (i < j)%nat → Z.of_nat j < sp f →
    line s ≠ 0 → line t ≠ 0 → line s < line t).

Lemma release_ok f : frame_ok f → 1 ≤ sp f → frame_ok (release f).
Proof.
  intros (Hsp & Hl0 & Hd & Hle & Hasc) H1. split_and!; cbn; try done; try lia.
  - intros i s Hi Hlt. apply (Hle i s Hi). lia.
  - intros i j s t Hi Hj Hij Hlt. apply (Hasc i j s t); (done || lia).
Qed.

Lemma fetch_spec p i n :
  0 ≤ i → i + Z.of_nat n ≤ Z.of_nat (length p) → fetch p i n = Some (take n (drop (Z.to_nat i) p)).
Proof.
  revert i. induction n as [|n IH]; intros i H0 Hi; cbn [fetch]; [done|].
  destruct (rd_is_Some p i) as (c & -> & Hc); [lia|]. cbn [mbind option_bind].
  rewrite IH by lia. cbn [mbind option_bind].
  rewrite (drop_S p c (Z.to_nat i)) by done. cbn [take]. do 4 f_equal. lia.
Qed.

(** The slot of an allocation that succeeds. *)
Lemma line_address_ok f lofp system :
  frame_ok f →
  ∃ f' r, line_address f lofp system = Some (f', r) ∧
    length (lines f') = length (lines f) ∧
    match r with
    | inl err => f' = f ∧ err ≠ 0
    | inr slot => slot = sp f ∧ sp f' = sp f + 1 ∧ sp f < Z.of_nat (length (lines f)) ∧
        frame_ok f'
    end.
Proof.
  intros (Hsp & Hl0 & Hd & Hle & Hasc). unfold line_address.
  assert (∀ err, err ≠ 0 → ∃ f' r, Some (f, @inl Z Z err) = Some (f', r) ∧
    length (lines f') = length (lines f) ∧
    match r with
    | inl err => f' = f ∧ err ≠ 0
    | inr slot => slot = sp f ∧ sp f' = sp f + 1 ∧ sp f < Z.of_nat (length (lines f)) ∧
        frame_ok f'
    end) as Herr by (intros; eexists _, _; split; [reflexivity|]; by split_and!).
  destruct (Z.leb_spec (Z.of_nat (length (lines f))) (sp f)); [by apply Herr|].
  destruct (lofp_to_line lofp system) as [[field fl] nl] eqn:El.
  destruct (rd_is_Some (lines f) (sp f)) as (s & -> & Hs); [lia|]. cbn [mbind option_bind].
  assert (has_data s) as Hds by (exact (Forall_lookup_1 _ _ _ _ Hd Hs)).
  assert (∀ nl lfl, 0 ≤ nl → (nl = 0 ∧ lfl = last_frame_line f ∨ last_frame_line f < nl ∧ lfl = nl) →
    ∃ f' r, (l ← wr (lines f) (sp f) (Sliced (id s) nl (data s));
      Some (Frame l (sp f + 1) field fl lfl (last_data_unit_id f)
              (n_data_units_extracted_from_packet f + 1), @inr Z Z (sp f))) = Some (f', r) ∧
      length (lines f') = length (lines f) ∧
      match r with
      | inl err => f' = f ∧ err ≠ 0
      | inr slot => slot = sp f ∧ sp f' = sp f + 1 ∧ sp f < Z.of_nat (length (lines f)) ∧
          frame_ok f'
      end) as Halloc.
  { intros nl' lfl Hnl Hcase. unfold wr. rewrite decide_True by lia. cbn [mbind option_bind].
    eexists _, _. split; [reflexivity|]. cbn [lines]. rewrite length_insert. split; [done|].
    assert (Forall has_data (<[Z.to_nat (sp f) := Sliced (id s) nl' (data s)]> (lines f)))
      by (by apply Forall_insert).
    assert (∀ i t, <[Z.to_nat (sp f) := Sliced (id s) nl' (data s)]> (lines f) !! i = Some t →
      Z.of_nat i < sp f → lines f !! i = Some t) as Hlow.
    { intros i t Hi Hlt. by rewrite list_lookup_insert_ne in Hi by lia. }
    assert (∀ t, <[Z.to_nat (sp f) := Sliced (id s) nl' (data s)]> (lines f) !! Z.to_nat (sp f) = Some t →
      line t = nl') as Htop.
    { intros t Ht. rewrite list_lookup_insert_eq in Ht by lia. by injection Ht as <-. }
    split_and!; try done; try (split_and!; cbn; rewrite ?length_insert; try done; try lia).
    - intros i t Hi Hlt. destruct (decide (Z.of_nat i < sp f)) as [Hc|Hc].
      + specialize (Hle i t (Hlow i t Hi Hc) Hc). lia.
      + assert (i = Z.to_nat (sp f)) as -> by lia. rewrite (Htop t Hi). lia.
    - intros i j t u Hi Hj Hij Hlt Ht Hu. specialize (Hlow i t Hi ltac:(lia)) as Hi'.
      destruct (decide (Z.of_nat j < sp f)) as [Hc|Hc].
      + apply (Hasc i j t u); auto.
      + assert (j = Z.to_nat (sp f)) as -> by lia. rewrite (Htop u Hj) in Hu |- *.
        specialize (Hle i t Hi' ltac:(lia)). lia.
    }
  assert (0 ≤ nl) as Hnl.
  { unfold lofp_to_line in El. assert (0 ≤ lofp .& 31) by (apply Z.land_nonneg; lia).
    assert (0 ≤ field_start system (if lofp .& (1 ≪ 5) =? 0 then 1 else 0))
      by (unfold field_start; repeat case_match; lia).
    destruct (0 <? lofp .& 31); injection El as <- <- <-; lia. }
  destruct (Z.eqb_spec nl 0); cbn [negb].
  - destruct (_ && _); [|apply Halloc; lia].
    destruct (_ =? 0); [by apply Herr|]. destruct (field <? _); [by apply Herr|]. apply Halloc; lia.
  - destruct (Z.leb_spec nl (last_frame_line f)); [|apply Halloc; lia].
    destruct (0 <? _); by apply Herr.
Qed.

Lemma put_line_ok f slot id payload :
  frame_ok f → 0 ≤ slot < Z.of_nat (length (lines f)) → (length payload ≤ 56)%nat →
  ∃ f', put_line f slot id payload = Some f' ∧ length (lines f') = length (lines f) ∧ frame_ok f' ∧
    sp f' = sp f.
Proof.
  intros (Hsp & Hl0 & Hd & Hle & Hasc) Hslot Hp. unfold put_line.
  destruct (rd_is_Some (lines f) slot) as (s & -> & Hs); [done|]. cbn [mbind option_bind].
  assert (has_data s) as Hds by (exact (Forall_lookup_1 _ _ _ _ Hd Hs)). unfold has_data in Hds.
  unfold store. rewrite decide_True by lia. cbn [mbind option_bind].
  unfold wr. rewrite decide_True by lia. cbn [mbind option_bind].
  eexists. split; [reflexivity|]. cbn [lines sp]. rewrite length_insert. split; [done|]. split; [|done].
  set (s' := Sliced _ _ _).
  assert (∀ i t, <[Z.to_nat slot := s']> (lines f) !! i = Some t →
    ∃ t', lines f !! i = Some t' ∧ line t = line t') as Hsame.
  { intros i t Hi. destruct (decide (i = Z.to_nat slot)) as [->|].
    - rewrite list_lookup_insert_eq in Hi by lia. injection Hi as <-. by exists s.
    - rewrite list_lookup_insert_ne in Hi by done. by exists t. }
  split_and!; cbn [lines sp last_frame_line]; rewrite ?length_insert; try done; try lia.
  - apply Forall_insert; [done|]. unfold has_data. subst s'. cbn [data].
    list_lia.
  - intros i t Hi. destruct (Hsame i t Hi) as (t' & Hi' & ->). by apply Hle.
  - intros i j t u Hi Hj. destruct (Hsame i t Hi) as (t' & Hi' & ->).
    destruct (Hsame j u Hj) as (u' & Hj' & ->). by apply (Hasc i j).
Qed.

(** A case of the switch that returned: the frame goes on, or the function stops. *)
Definition unit_returns (f : frame) (r : option (frame * Z)) : Prop :=
  ∃ f' err, r = Some (f', err) ∧ length (lines f') = length (lines f) ∧ frame_ok f'.

Lemma sliced_unit_ok f p system bad_line service payload :
  frame_ok f → 3 ≤ Z.of_nat (length p) →
  (∃ l, payload = Some l ∧ (length l ≤ 56)%nat) →
  unit_returns f (sliced_unit f p system bad_line service payload).
Proof.
  intros Hf Hp (l & -> & Hl). unfold sliced_unit, unit_returns.
  destruct (rd_is_Some p 2) as (lofp & -> & _); [lia|]. cbn [mbind option_bind].
  destruct (line_address_ok f lofp system Hf) as (f1 & r & -> & Hlen & Hr). cbn [mbind option_bind].
  destruct r as [err|slot].
  - destruct Hr as [-> Herr]. by exists f, err.
  - destruct Hr as (-> & Hsp & Hlt & Hok). pose proof Hf as ((? & _) & _).
    destruct (rd_is_Some (lines f1) (sp f)) as (s & -> & _); [lia|]. cbn [mbind option_bind].
    destruct (bad_line f1 (line s)).
    { exists (release f1), VBI_ERR_DU_LINE_NUMBER. split_and!; [done|done|]. apply release_ok; [done|lia]. }
    destruct (put_line_ok f1 (sp f) (service (last_field f1)) l Hok ltac:(lia) Hl)
      as (f2 & -> & Hlen2 & Hok2 & _). cbn [mbind option_bind].
    exists f2, 0. split_and!; [done|lia|done].
Qed.

Lemma fetch_ok p i n (f : list Z → list Z) :
  0 ≤ i → i + Z.of_nat n ≤ Z.of_nat (length p) → (n ≤ 56)%nat → (∀ l, length (f l) = length l) →
  ∃ l, f <$> fetch p i n = Some l ∧ (length l ≤ 56)%nat.
Proof.
  intros H0 Hi Hn Hf. rewrite fetch_spec by done. eexists. split; [reflexivity|].
  rewrite Hf, length_take. lia.
Qed.

Lemma data_unit_ok f p uid len :
  frame_ok f → 0 ≤ len → 2 + len ≤ Z.of_nat (length p) → unit_returns f (data_unit f p uid len).
Proof.
  intros Hf Hlen Hp.
  assert (unit_returns f (Some (f, 0))) as Hskip
    by (by exists f, 0).
  assert (unit_returns f (Some (f, VBI_ERR_DU_LENGTH))) as Hbad
    by (by exists f, VBI_ERR_DU_LENGTH).
  assert (∀ i n, 0 ≤ i → i + Z.of_nat n ≤ Z.of_nat (length p) → (n ≤ 56)%nat →
    ∃ l, fetch p i n = Some l ∧ (length l ≤ 56)%nat) as Hfetch.
  { intros i n H0 Hi Hn. rewrite fetch_spec by done. eexists. split; [reflexivity|]. list_lia. }
  assert (∀ l, length (map vbi_rev8 l) = length l) as Hmap by (intros; apply length_map).
  unfold data_unit. destruct (uid =? DATA_UNIT_STUFFING); [done|].
  destruct (_ || _).
  { destruct (Z.ltb_spec len (1 + 1 + 42)); [done|].
    destruct (rd_is_Some p 3) as (c & -> & _); [lia|]. cbn [mbind option_bind].
    destruct (negb _); [done|]. apply sliced_unit_ok; [done|lia|]. apply fetch_ok; (done || lia). }
  repeat (destruct (uid =? _);
    [match goal with |- context [if len <? ?k then _ else _] => destruct (Z.ltb_spec len k) end;
     [done|]; apply sliced_unit_ok; [done|lia|];
     first [apply fetch_ok; (done || lia) | apply Hfetch; lia]|]).
  done.
Qed.

Lemma extract_loop_ok n f p :
  (length p ≤ n)%nat → bytes p → frame_ok f →
  ∃ f' k src_left err, extract_loop n f p = Some (f', drop k p, src_left, err) ∧
    length (lines f') = length (lines f) ∧ frame_ok f' ∧
    (err = 0 ∧ src_left = 0 ∨ err ≠ 0 ∧ src_left = Z.of_nat (length (drop k p))).
Proof.
  revert f p. induction n as [|n IH]; intros f p Hn Hb Hf; cbn [extract_loop];
    destruct (Z.ltb_spec 2 (Z.of_nat (length p))); try lia.
  1, 3: exists f, 0%nat, 0, 0; split_and!; [done|done|done|by left].
  destruct (rd_byte p 0 Hb) as (uid & -> & _); [lia|]. cbn [mbind option_bind].
  destruct (rd_byte p 1 Hb) as (len & -> & Hlen); [lia|]. cbn [mbind option_bind].
  destruct (Z.ltb_spec (Z.of_nat (length p) - 2) len).
  { exists f, 0%nat, (Z.of_nat (length p)), VBI_ERR_DU_OVERFLOW.
    split_and!; [done|done|done|by right]. }
  unfold is_byte in Hlen.
  destruct (data_unit_ok f p uid len Hf) as (f1 & err & -> & Hl1 & Ho1); [lia|lia|].
  cbn [mbind option_bind]. destruct (Z.eqb_spec err 0) as [->|Herr]; cbn [negb].
  - destruct (IH (set_last_data_unit_id uid f1) (drop (Z.to_nat (len + 2)) p))
      as (f2 & k & left & err & -> & Hl2 & Hs2 & He).
    { list_lia. } { by apply Forall_drop. } { done. }
    exists f2, (Z.to_nat (len + 2) + k)%nat, left, err. rewrite drop_drop in He |- *.
    split_and!; [done|by rewrite Hl2|done|done].
  - exists f1, 0%nat, (Z.of_nat (length p)), err. split_and!; [done|done|done|by right].
Qed.

(** Whatever bytes a packet has, the data unit decoder returns without leaving
    the packet or the output array; it reports how many lines it stored, at most
    [max_lines], in ascending order apart from unknown lines, and where it
    stopped. *)
Theorem demultiplex_safe (sliced : list vbi_sliced) (buffer : list Z) :
  bytes buffer → Forall has_data sliced → 2 ≤ Z.of_nat (length buffer) →
  ∃ out n k src_left ok,
    _vbi_dvb_demultiplex_sliced sliced buffer = Some (out, Some n, drop k buffer, src_left, ok) ∧
    length out = length sliced ∧ Forall has_data out ∧ 0 ≤ n ≤ Z.of_nat (length sliced) ∧
    (∀ i j s t, out !! i = Some s → out !! j = Some t → (i < j)%nat → Z.of_nat j < n →
      line s ≠ 0 → line t ≠ 0 → line s < line t) ∧
    src_left = (if ok then 0 else Z.of_nat (length (drop k buffer))).
Proof.
  intros Hb Hs Hl. unfold _vbi_dvb_demultiplex_sliced, extract_data_units.
  destruct (Z.ltb_spec (Z.of_nat (length buffer)) 2); [lia|].
  destruct (extract_loop_ok (length buffer) (Frame sliced 0 0 0 0 0 0) buffer)
    as (f & k & left & err & -> & Hlen & (Hsp & _ & Hd & _ & Hasc) & He); [done|done| |].
  { split_and!; cbn; try done; intros; lia. }
  cbn [mbind option_bind]. cbn [lines] in Hlen. exists (lines f), (sp f), k, left, (err =? 0).
  split_and!; try done; try lia.
  destruct He as [[-> ->]|[He ->]]; [done|]. by destruct (Z.eqb_spec err 0).
Qed.

(** ** Round trip *)

(** The service a line is received as, and the data that is transmitted. *)
Definition received_id (id : Z) : Z :=
  if id <? 4 then VBI_SLICED_TELETEXT_B_625
  else if (id =? VBI_SLICED_VPS) || (id =? VBI_SLICED_WSS_625) then id else VBI_SLICED_CAPTION_625_F1.

Definition sent_data (s : vbi_sliced) : list Z :=
  if id s <? 4 then take 42 (data s)
  else if id s =? VBI_SLICED_VPS then take 13 (data s)
  else if id s =? VBI_SLICED_WSS_625 then [(data s).[0]; (data s).[1] .| 0xC0] (* 14 bits *)
  else take 2 (data s).

(** What becomes of the array element [old]. *)
Definition received (s old : vbi_sliced) : vbi_sliced :=
  Sliced (received_id (id s)) (line s) (sent_data s ++ drop (length (sent_data s)) (data old)).

Lemma rev8_rev8 c : is_byte c → vbi_rev8 (vbi_rev8 c) = c.
Proof. revert c. apply (eq_by_eval 256 (λ c, vbi_rev8 (vbi_rev8 c)) (λ c, c)). vm_compute. reflexivity. Qed.

Lemma rev8_wss c : is_byte c → vbi_rev8 (vbi_rev8 c .| 3) = c .| 0xC0.
Proof.
  revert c. apply (eq_by_eval 256 (λ c, vbi_rev8 (vbi_rev8 c .| 3)) (λ c, c .| 0xC0)).
  vm_compute. reflexivity.
Qed.

Lemma map_tbl (l : list Z) n : (n ≤ length l)%nat → map (λ i, l.[i]) (seqZ 0 (Z.of_nat n)) = take n l.
Proof.
  intros Hn. apply list_eq. intros i. change (map ?f ?l) with (f <$> l). rewrite list_lookup_fmap.
  destruct (decide (i < n)%nat).
  - rewrite lookup_seqZ_lt, lookup_take_lt by lia. cbn. unfold tbl. rewrite Z.add_0_l, Nat2Z.id.
    destruct (lookup_lt_is_Some_2 l i) as [x Hx]; [lia|]. rewrite Hx. f_equal. by apply nth_lookup_Some.
  - rewrite lookup_seqZ_ge, lookup_take_ge by lia. done.
Qed.

Lemma map_rev8_tbl (l : list Z) n : (n ≤ length l)%nat → bytes l →
  map vbi_rev8 (map (λ i, vbi_rev8 l.[i]) (seqZ 0 (Z.of_nat n))) = take n l.
Proof.
  intros Hn Hl. rewrite <-map_tbl by done. rewrite map_map. apply map_ext. intros i.
  by apply rev8_rev8, bytes_tbl.
Qed.

(** The line offset and back. *)
Lemma lofp_line_check :
  forallb (λ line, implb ((7 <=? line) && (line <=? 23) || (320 <=? line) && (line <=? 335))
    match du_lofp line line with
    | Some lofp =>
        let '(field, fl, nl) := lofp_to_line lofp SYSTEM_625 in
        (field =? if 313 <=? line then 1 else 0) && (7 <=? fl) && (fl <=? 23) && (nl =? line)
        && implb ((line <=? 22) || (320 <=? line)) (fl <=? 22)
    | None => false
    end) (seqZ 0 345) = true.
Proof. vm_compute. reflexivity. Qed.

Lemma lofp_roundtrip id last line n lofp :
  supported id line n → line = 0 ∨ last < line →
  du_lofp (Z.max last line) line = Some lofp →
  ∃ fl, lofp_to_line lofp SYSTEM_625 = (if 313 <=? Z.max last line then 1 else 0, fl, line) ∧
    (fl = 0 ∧ line = 0 ∨ 7 ≤ fl ≤ 23 ∧ line ≠ 0) ∧ (id < 4 → fl ≤ 22).
Proof.
  intros Hs Hord Hl. destruct (decide (line = 0)) as [->|Hne].
  - unfold du_lofp, f2_start in Hl. cbn [Z.eqb] in Hl.
    destruct (313 <=? Z.max last 0); injection Hl as <-; by (exists 0; split_and!; [|left|lia]).
  - assert (Z.max last line = line) as E by (unfold supported in Hs; lia). rewrite E in *.
    pose proof (forallb_seqZ 345 _ lofp_line_check line ltac:(unfold supported in Hs; lia)) as H.
    cbv beta in H. rewrite Hl in H. destruct (lofp_to_line lofp SYSTEM_625) as [[field fl] nl].
    assert ((7 <=? line) && (line <=? 23) || (320 <=? line) && (line <=? 335) = true) as Hc.
    { apply orb_true_iff. rewrite !andb_true_iff, !Z.leb_le. unfold supported in Hs. lia. }
    rewrite Hc in H. cbn [implb] in H.
    rewrite !andb_true_iff, !Z.eqb_eq, !Z.leb_le in H. destruct H as [[[[-> H7] H23] ->] Himp].
    exists fl. split_and!; [done|right; lia|]. intros Hid.
    assert ((line <=? 22) || (320 <=? line) = true) as Hc'.
    { apply orb_true_iff. rewrite !Z.leb_le. unfold supported in Hs. lia. }
    rewrite Hc' in Himp. cbn [implb] in Himp. by apply Z.leb_le in Himp.
Qed.

(** The decoder follows the encoder: the line numbers agree, and the field once a
    data unit was seen. *)
Definition in_sync (f : frame) (last : Z) : Prop :=
  last_frame_line f = last ∧
  (last_data_unit_id f = 0 ∨ last_field f = if 313 <=? last then 1 else 0).

Lemma line_address_sync f last s n lofp :
  in_sync f last → 0 ≤ last → 0 ≤ sp f < Z.of_nat (length (lines f)) →
  supported (id s) (line s) n → line s = 0 ∨ last < line s →
  du_lofp (Z.max last (line s)) (line s) = Some lofp →
  ∃ old fl, lines f !! Z.to_nat (sp f) = Some old ∧
    (fl = 0 ∨ 7 ≤ fl ≤ 23) ∧ (id s < 4 → fl ≤ 22) ∧
    line_address f lofp SYSTEM_625 =
    Some (Frame (<[Z.to_nat (sp f) := Sliced (id old) (line s) (data old)]> (lines f)) (sp f + 1)
            (if 313 <=? Z.max last (line s) then 1 else 0) fl (Z.max last (line s))
            (last_data_unit_id f) (n_data_units_extracted_from_packet f + 1), inr (sp f)).
Proof.
  intros [Hlast Hfield] Hl0 Hsp Hs Hord Hlofp. unfold line_address.
  destruct (Z.leb_spec (Z.of_nat (length (lines f))) (sp f)); [lia|].
  destruct (lofp_roundtrip _ _ _ _ _ Hs Hord Hlofp) as (fl & -> & Hfl & Hfl22).
  destruct (rd_is_Some (lines f) (sp f)) as (old & -> & Hold); [lia|]. cbn [mbind option_bind].
  assert (∀ x, wr (lines f) (sp f) x = Some (<[Z.to_nat (sp f) := x]> (lines f))) as Hwr
    by (intros; unfold wr; by rewrite decide_True by done).
  exists old, fl. split; [done|]. split; [lia|]. split; [done|].
  destruct (Z.eqb_spec (line s) 0) as [E|E]; cbn [negb].
  - rewrite E in *. replace (Z.max last 0) with last by lia.
    destruct (negb (last_data_unit_id f =? 0) && negb (_ =? last_field f)) eqn:Ec.
    { apply andb_true_iff in Ec as [E1 E2]. apply negb_true_iff, Z.eqb_neq in E1.
      apply negb_true_iff, Z.eqb_neq in E2. destruct Hfield; congruence. }
    rewrite Hwr, Hlast. done.
  - destruct (Z.leb_spec (line s) (last_frame_line f)); [lia|].
    rewrite Hwr. by replace (Z.max last (line s)) with (line s) by lia.
Qed.

Lemma put_line_slot f slot old id payload :
  lines f !! Z.to_nat slot = Some old → 0 ≤ slot → (length payload ≤ length (data old))%nat →
  put_line f slot id payload = Some
    (Frame (<[Z.to_nat slot := Sliced id (line old) (payload ++ drop (length payload) (data old))]> (lines f))
       (sp f) (last_field f) (last_field_line f) (last_frame_line f) (last_data_unit_id f)
       (n_data_units_extracted_from_packet f)).
Proof.
  intros Hl H0 Hp. pose proof (lookup_lt_Some _ _ _ Hl). unfold put_line, rd.
  rewrite decide_True, Hl by done. cbn [mbind option_bind].
  unfold store. rewrite decide_True by lia. cbn [mbind option_bind].
  unfold wr. by rewrite decide_True by lia.
Qed.

(** A unit of a line that was encoded is decoded to this line. *)
Definition takes (f : frame) (s : vbi_sliced) (last : Z) (f' : frame) : Prop :=
  ∃ old, lines f !! Z.to_nat (sp f) = Some old ∧
    lines f' = <[Z.to_nat (sp f) := received s old]> (lines f) ∧ sp f' = sp f + 1 ∧
    last_frame_line f' = Z.max last (line s) ∧
    last_field f' = if 313 <=? Z.max last (line s) then 1 else 0.

Lemma sliced_unit_takes f p last s n lofp bad_line service payload :
  in_sync f last → 0 ≤ last → 0 ≤ sp f < Z.of_nat (length (lines f)) → Forall has_data (lines f) →
  supported (id s) (line s) n → line s = 0 ∨ last < line s →
  du_lofp (Z.max last (line s)) (line s) = Some lofp → rd p 2 = Some lofp →
  payload = Some (sent_data s) → (length (sent_data s) ≤ 56)%nat →
  (∀ f' fl, last_field_line f' = fl → fl = 0 ∨ 7 ≤ fl ≤ 23 → (id s < 4 → fl ≤ 22) →
    bad_line f' (line s) = false) →
  service (if 313 <=? Z.max last (line s) then 1 else 0) = received_id (id s) →
  ∃ f', sliced_unit f p SYSTEM_625 bad_line service payload = Some (f', 0) ∧ takes f s last f'.
Proof.
  intros Hsync Hl0 Hsp Hd Hs Hord Hlofp Hp -> Hpl Hbad Hserv. unfold sliced_unit. rewrite Hp.
  cbn [mbind option_bind].
  destruct (line_address_sync f last s n lofp) as (old & fl & Hold & Hfl & Hfl22 & ->); try done.
  assert (has_data old) as Hdo by exact (Forall_lookup_1 _ _ _ _ Hd Hold). unfold has_data in Hdo.
  cbn [mbind option_bind]. unfold rd at 1. cbn [lines]. rewrite decide_True by lia.
  rewrite list_lookup_insert_eq by lia. cbn [mbind option_bind line].
  rewrite (Hbad _ fl) by done.
  rewrite (put_line_slot _ _ (Sliced (id old) (line s) (data old)));
    [|cbn [lines]; by rewrite list_lookup_insert_eq by lia|lia|cbn [data]; lia].
  cbn [mbind option_bind]. eexists. split; [reflexivity|]. exists old. cbn [lines sp last_frame_line last_field line data].
  rewrite Hserv, list_insert_insert_eq. by split_and!.
Qed.

Lemma fetch_middle (a b c : list Z) i n :
  i = Z.of_nat (length a) → n = length b → fetch (a ++ b ++ c) i n = Some b.
Proof.
  intros -> ->. rewrite fetch_spec by (list_lia).
  by rewrite Nat2Z.id, drop_app_length, take_app_length.
Qed.

Lemma unit_takes f last s n lofp payload len tail :
  in_sync f last → 0 ≤ last → 0 ≤ sp f < Z.of_nat (length (lines f)) → Forall has_data (lines f) →
  line_ok s → supported (id s) (line s) n → line s = 0 ∨ last < line s →
  du_lofp (Z.max last (line s)) (line s) = Some lofp → du_payload s = Some payload →
  1 + Z.of_nat (length payload.2) ≤ len →
  ∃ f', data_unit f (payload.1 :: len :: lofp :: payload.2 ++ tail) payload.1 len = Some (f', 0) ∧
    takes f s last f'.
Proof.
  intros Hsync Hl0 Hsp Hd [[H56 Hb] _] Hs Hord Hlofp Hpay Hlen.
  rewrite (du_payload_supported s n Hs) in Hpay.
  assert (∀ i, is_byte (data s).[i]) as Hbt by (intros; by apply bytes_tbl).
  assert (id s < 4 ∨ id s = 4 ∨ id s = 0x400 ∨ 4 < id s < 0x400) as Hid by (unfold supported in Hs; lia).
  assert (∀ x, line s = x → negb (line s =? x) = false) as Hline by (intros x ->; by rewrite Z.eqb_refl).
  assert (0 < line s < 313 → (if 313 <=? Z.max last (line s) then 1 else 0) = 0) as Hfirst
    by (intros; destruct (Z.leb_spec 313 (Z.max last (line s))); lia).
  destruct Hid as [Hid|[Hid|[Hid|Hid]]].
  - destruct (Z.ltb_spec (id s) 4) as [Hlt|]; [|lia].
    set (pl := map (λ i, vbi_rev8 (data s).[i]) (seqZ 0 42)) in *.
    assert (length pl = 42%nat) as Hpl by (subst pl; rewrite length_map, length_seqZ; done).
    assert (map vbi_rev8 pl = take 42 (data s)) as Hrev by (apply (map_rev8_tbl (data s) 42); [lia|done]).
    clearbody pl. injection Hpay as <-. cbn [fst snd length] in *. unfold data_unit.
    cbn [DATA_UNIT_EBU_TELETEXT_NON_SUBTITLE Z.eqb Pos.eqb orb].
    destruct (Z.ltb_spec len (1 + 1 + 42)); [lia|].
    assert (sent_data s = take 42 (data s)) as Esent
      by (unfold sent_data; destruct (Z.ltb_spec (id s) 4); [done|lia]).
    eapply sliced_unit_takes; try done; rewrite ?Esent.
    + change (?a :: ?b :: ?c :: (?d :: pl) ++ tail) with ([a; b; c; d] ++ pl ++ tail).
      rewrite fetch_middle by (cbn [length]; lia). by rewrite <-Hrev.
    + list_lia.
    + intros f' fl -> Hfl Hfl22. specialize (Hfl22 ltac:(lia)).
      destruct (Z.ltb_spec 0 fl); [|done]. cbn [andb]. apply Z.leb_gt. rewrite u32_small; lia.
    + unfold received_id. destruct (Z.ltb_spec (id s) 4); [done|lia].
  - assert (sent_data s = take 13 (data s)) as Esent by (unfold sent_data; by rewrite Hid).
    rewrite Hid in Hpay. cbn [Z.ltb Z.compare Z.eqb Pos.compare Pos.compare_cont Pos.eqb] in Hpay.
    pose proof (map_tbl (data s) 13 ltac:(lia)) as Em. change (Z.of_nat 13) with 13 in Em.
    rewrite Em in Hpay. clear Em. injection Hpay as <-. cbn [fst snd] in *.
    assert (length (take 13 (data s)) = 13%nat) as Hpl by (list_lia).
    unfold data_unit. cbn [DATA_UNIT_VPS Z.eqb Pos.eqb orb].
    destruct (Z.ltb_spec len (1 + 13)); [lia|].
    eapply sliced_unit_takes; try done; rewrite ?Esent; try lia.
    + change (?a :: ?b :: ?c :: take 13 (data s) ++ tail) with ([a; b; c] ++ take 13 (data s) ++ tail).
      by rewrite fetch_middle by (cbn [length]; lia).
    + intros. apply Hline. unfold supported in Hs. lia.
    + rewrite Hfirst by (unfold supported in Hs; lia). unfold received_id. by rewrite Hid.
  - assert (sent_data s = [(data s).[0]; (data s).[1] .| 0xC0]) as Esent by (unfold sent_data; by rewrite Hid).
    rewrite Hid in Hpay. cbn [Z.ltb Z.compare Z.eqb Pos.compare Pos.compare_cont Pos.eqb] in Hpay.
    injection Hpay as <-. cbn [fst snd length] in *.
    unfold data_unit. cbn [DATA_UNIT_WSS Z.eqb Pos.eqb orb].
    destruct (Z.ltb_spec len (1 + 2)); [lia|].
    eapply sliced_unit_takes; try done; rewrite ?Esent; cbn [length]; try lia.
    + match goal with |- context [fetch ?p 3 2] =>
        change p with ([DATA_UNIT_WSS; len; lofp] ++ [vbi_rev8 (data s).[0]; vbi_rev8 (data s).[1] .| 3] ++ tail) end.
      rewrite fetch_middle by (cbn [length]; lia).
      cbn [fmap option_fmap option_map map]. by rewrite rev8_rev8, rev8_wss.
    + intros. apply Hline. unfold supported in Hs. lia.
    + unfold received_id. by rewrite Hid.
  - assert (sent_data s = take 2 (data s)) as Esent.
    { unfold sent_data, VBI_SLICED_VPS, VBI_SLICED_WSS_625.
      destruct (Z.ltb_spec (id s) 4), (Z.eqb_spec (id s) 4), (Z.eqb_spec (id s) 0x400); done || lia. }
    destruct (Z.ltb_spec (id s) 4), (Z.eqb_spec (id s) 4), (Z.eqb_spec (id s) 0x400); try lia.
    injection Hpay as <-. cbn [fst snd length] in *.
    unfold data_unit. cbn [DATA_UNIT_CLOSED_CAPTION Z.eqb Pos.eqb orb].
    destruct (Z.ltb_spec len (1 + 2)); [lia|].
    eapply sliced_unit_takes; try done; rewrite ?Esent, ?length_take; try lia.
    + match goal with |- context [fetch ?p 3 2] =>
        change p with ([DATA_UNIT_CLOSED_CAPTION; len; lofp] ++ [vbi_rev8 (data s).[0]; vbi_rev8 (data s).[1]] ++ tail) end.
      rewrite fetch_middle by (cbn [length]; lia).
      by rewrite <-(map_rev8_tbl (data s) 2) by (done || lia).
    + intros. apply Hline. unfold supported in Hs. lia.
    + rewrite Hfirst by (unfold supported in Hs; lia). unfold received_id, VBI_SLICED_VPS, VBI_SLICED_WSS_625.
      destruct (Z.ltb_spec (id s) 4), (Z.eqb_spec (id s) 4), (Z.eqb_spec (id s) 0x400); done || lia.
Qed.

(** The units of lines that were converted, whatever follows the data in a unit. *)
Inductive units_of : Z → list vbi_sliced → list (list Z) → Prop :=
| uo_nil last : units_of last [] []
| uo_unit last s l us n lofp payload len tail :
    line_ok s → supported (id s) (line s) n → line s = 0 ∨ last < line s →
    du_lofp (Z.max last (line s)) (line s) = Some lofp → du_payload s = Some payload →
    len = 1 + Z.of_nat (length payload.2 + length tail) → len ≤ 255 →
    units_of (Z.max last (line s)) l us →
    units_of last (s :: l) ((payload.1 :: len :: lofp :: payload.2 ++ tail) :: us).

Definition selected (mask : Z) (l : list vbi_sliced) : list vbi_sliced :=
  filter (λ s, id s .& mask ≠ 0) l.

Lemma encodes_units mask fixed last l us last' :
  encodes mask fixed last l us last' → Forall line_ok l → units_of last (selected mask l) us.
Proof.
  unfold selected. induction 1 as [last|last s l us last' Hm He IH|last s l us last' n lofp payload Hm Hord Hs Hlofp Hp He IH];
    intros Hok.
  - constructor.
  - rewrite filter_cons_False by auto. apply IH. by apply Forall_inv_tail in Hok.
  - rewrite filter_cons_True by done. unfold du_unit.
    pose proof (du_payload_length s n payload Hs Hp). assert (n ≤ 46) by (unfold supported in Hs; lia).
    eapply (uo_unit last s _ us n lofp payload); try done.
    + by apply Forall_inv in Hok.
    + rewrite repeat_length. cbn [length]. destruct fixed; lia.
    + destruct fixed; lia.
    + apply IH. by apply Forall_inv_tail in Hok.
Qed.

(** A stuffing byte appended to the last unit. *)
Lemma units_append last l us u len :
  units_of last l (us ++ [u]) → u !! 1%nat = Some len → len ≤ 254 →
  units_of last l (us ++ [(<[1%nat := len + 1]> u) ++ [0xFF]]).
Proof.
  intros H Hlen Hle. remember (us ++ [u]) as us' eqn:E. revert us E.
  induction H as [last|last s l us' n lofp payload len' tail Hok Hs Hord Hlofp Hp El H255 Hu IH]; intros us E.
  - by destruct us.
  - destruct us as [|u0 us]; cbn [app] in *.
    + injection E as <- ->. cbn in Hlen. injection Hlen as <-.
      inversion Hu; subst. cbn [list_insert insert].
      change (<[1%nat := ?x]> (?a :: ?b :: ?c)) with (a :: x :: c).
      cbn [app]. rewrite <-app_assoc. eapply uo_unit; try done; [list_lia|lia].
    + injection E as <- ->. eapply uo_unit; try done. by apply IH.
Qed.

Lemma takes_sync f s last f' uid :
  takes f s last f' → uid ≠ 0 → in_sync (set_last_data_unit_id uid f') (Z.max last (line s)).
Proof. intros (old & _ & _ & _ & H1 & H2) Hu. split; [done|by right]. Qed.

Lemma du_payload_id s payload : du_payload s = Some payload → payload.1 ≠ 0.
Proof. unfold du_payload. by repeat case_match; intros [= <-]. Qed.

(** The highest line number of some lines. *)
Definition last_line_of (last : Z) (l : list vbi_sliced) : Z := foldl (λ m s, Z.max m (line s)) last l.

Lemma extract_units us : ∀ l last f a b c (rest : list Z) n,
  units_of last l us → 0 ≤ last → in_sync f last →
  lines f = a ++ b ++ c → sp f = Z.of_nat (length a) → length b = length l → Forall has_data (lines f) →
  (length (concat us ++ rest) ≤ n)%nat →
  ∃ f' n', extract_loop n f (concat us ++ rest) = extract_loop n' f' rest ∧ (length rest ≤ n')%nat ∧
    lines f' = a ++ zip_with received l b ++ c ∧ sp f' = Z.of_nat (length a + length l) ∧
    last_frame_line f' = last_line_of last l.
Proof.
  induction us as [|u us IH]; intros l last f a b c rest n Hu Hl0 Hsync Hlines Hsp Hb Hd Hn;
    inversion Hu as [|? s l' ? nn lofp payload len tail Hok Hs Hord Hlofp Hp Elen H255 Hu']; subst; clear Hu.
  { exists f, n. destruct b; [|done]. destruct Hsync as [Hsync _]. cbn in *. rewrite Nat.add_0_r. by split_and!. }
  destruct b as [|old b]; [done|]. cbn [length] in Hb.
  set (len := 1 + Z.of_nat (length payload.2 + length tail)) in *.
  set (r := concat us ++ rest) in *.
  assert (concat ((payload.1 :: len :: lofp :: payload.2 ++ tail) :: us) ++ rest =
    payload.1 :: len :: lofp :: payload.2 ++ tail ++ r) as Ep
    by (cbn [concat app]; by rewrite <-!app_assoc).
  rewrite Ep in Hn |- *. clear Ep.
  assert (0 ≤ sp f < Z.of_nat (length (lines f))) as Hr by (rewrite Hlines, !length_app; cbn [length]; lia).
  destruct (unit_takes f last s nn lofp payload len (tail ++ r) Hsync Hl0 Hr Hd Hok Hs Hord Hlofp Hp
    ltac:(lia)) as (f1 & E1 & Ht).
  cbn [length] in Hn. rewrite !length_app in Hn. destruct n as [|n]; [lia|]. cbn [extract_loop].
  set (p := payload.1 :: len :: lofp :: payload.2 ++ tail ++ r) in *.
  assert (length p = 3 + length payload.2 + length tail + length r)%nat as Hpl
    by (subst p; cbn [length]; list_lia).
  destruct (Z.ltb_spec 2 (Z.of_nat (length p))); [|lia].
  change (rd p 0) with (Some payload.1). change (rd p 1) with (Some len). cbn [mbind option_bind].
  destruct (Z.ltb_spec (Z.of_nat (length p) - 2) len); [lia|].
  rewrite E1. cbn [mbind option_bind Z.eqb negb].
  assert (drop (Z.to_nat (len + 2)) p = r) as ->.
  { subst p. change (payload.1 :: len :: lofp :: payload.2 ++ tail ++ r)
      with ([payload.1; len; lofp] ++ payload.2 ++ tail ++ r).
    rewrite !app_assoc. apply drop_app_length'. rewrite !length_app. cbn [length]. lia. }
  pose proof (takes_sync f s last f1 payload.1 Ht (du_payload_id s payload Hp)) as Hsync1.
  destruct Ht as (old' & Hold & Hl1 & Hsp1 & _).
  rewrite Hlines, Hsp, Nat2Z.id, lookup_app_r, Nat.sub_diag in Hold by lia. cbn in Hold. injection Hold as <-.
  rewrite Hlines, Hsp, Nat2Z.id, insert_app_r_alt, Nat.sub_diag in Hl1 by lia. cbn [app insert list_insert] in Hl1.
  destruct (IH l' (Z.max last (line s)) (set_last_data_unit_id payload.1 f1) (a ++ [received s old]) b c rest n)
    as (f2 & n2 & E2 & Hn2 & Hl2 & Hsp2 & Hlf2); try done.
  - lia.
  - cbn [lines set_last_data_unit_id]. rewrite Hl1, <-app_assoc. done.
  - cbn [sp set_last_data_unit_id]. list_lia.
  - lia.
  - cbn [lines set_last_data_unit_id]. rewrite Hl1. rewrite Hlines in Hd.
    apply Forall_app in Hd as [Hda Hdb]. apply Forall_app. split; [done|].
    apply Forall_cons_1 in Hdb as [Hold Hdb]. constructor; [|done].
    unfold has_data, received in *. cbn [data]. rewrite length_app, length_drop.
    assert (length (sent_data s) ≤ 56)%nat; [|lia].
    destruct Hok as [[H56 _] _]. unfold sent_data. repeat case_match; rewrite ?length_take; cbn [length]; lia.
  - fold r. lia.
  - exists f2, n2. fold r in E2. rewrite E2. split; [done|]. split; [done|].
    rewrite Hl2, Hsp2, Hlf2, <-app_assoc, length_app. cbn [length zip_with]. split; [done|]. split; [lia|done].
Qed.

(** Stuffing leaves the lines alone. *)
Lemma extract_stuffing sus : ∀ f n,
  Forall is_stuffing sus → (length (concat sus) ≤ n)%nat →
  ∃ f' p, extract_loop n f (concat sus) = Some (f', p, 0, 0) ∧ lines f' = lines f ∧ sp f' = sp f ∧
    last_frame_line f' = last_frame_line f.
Proof.
  induction sus as [|u sus IH]; intros f n Hs Hn.
  { exists f, []. destruct n; done. }
  apply Forall_cons_1 in Hs as [(m & Hm & ->) Hs].
  assert (concat (stuffing_unit m :: sus) =
    DATA_UNIT_STUFFING :: (m - 2) :: repeat 0xFF (Z.to_nat (m - 2)) ++ concat sus) as Ep by done.
  rewrite Ep in Hn |- *. clear Ep. cbn [length] in Hn. rewrite length_app, repeat_length in Hn.
  destruct n as [|n]; [lia|]. cbn [extract_loop].
  set (p := DATA_UNIT_STUFFING :: _) in *.
  assert (length p = 2 + Z.to_nat (m - 2) + length (concat sus))%nat as Hpl
    by (subst p; cbn [length]; list_lia).
  destruct (Z.ltb_spec 2 (Z.of_nat (length p))); [|by exists f, p].
  change (rd p 0) with (Some DATA_UNIT_STUFFING). change (rd p 1) with (Some (m - 2)).
  cbn [mbind option_bind]. destruct (Z.ltb_spec (Z.of_nat (length p) - 2) (m - 2)); [lia|].
  change (data_unit f p DATA_UNIT_STUFFING (m - 2)) with (Some (f, 0)). cbn [mbind option_bind Z.eqb negb].
  assert (drop (Z.to_nat (m - 2 + 2)) p = concat sus) as ->.
  { subst p. change (DATA_UNIT_STUFFING :: m - 2 :: ?l) with ([DATA_UNIT_STUFFING; m - 2] ++ l).
    rewrite app_assoc. apply drop_app_length'. rewrite length_app, repeat_length. cbn [length]. lia. }
  destruct (IH (set_last_data_unit_id DATA_UNIT_STUFFING f) n Hs) as (f' & q & -> & H1 & H2 & H3); [lia|].
  by exists f', q.
Qed.

(** Lines in ascending order that can be encoded; others are not looked at. *)
Fixpoint acceptable (mask last : Z) (l : list vbi_sliced) : Prop :=
  match l with
  | [] => True
  | s :: l =>
      if decide (id s .& mask = 0) then acceptable mask last l
      else (line s = 0 ∨ last < line s) ∧ (∃ n, supported (id s) (line s) n) ∧
           acceptable mask (Z.max last (line s)) l
  end.

(** The bytes the data units of some lines take. *)
Definition unit_size (fixed : bool) (s : vbi_sliced) : Z :=
  if fixed then 46 else match du_switch (id s) (line s) with inr n => n | inl _ => 0 end.
Definition units_size (fixed : bool) (l : list vbi_sliced) : Z :=
  foldr (λ s n, unit_size fixed s + n) 0 l.

Lemma unit_size_supported fixed s n :
  line_ok s → supported (id s) (line s) n → unit_size fixed s = if fixed then 46 else n.
Proof. intros [_ Hl] Hs. unfold unit_size. apply du_switch_inr in Hs; [|done]. by rewrite Hs. Qed.

Lemma encodes_facts mask fixed last l us last' rest :
  encodes mask fixed last l us last' → Forall line_ok l → 
  Z.of_nat (length (concat us)) = units_size fixed (selected mask l) ∧
  (acceptable mask last (l ++ rest) → acceptable mask last' rest) ∧
  Forall (λ u, ∃ len, u !! 1%nat = Some len ∧ Z.of_nat (length u) = len + 2 ∧ 5 ≤ len + 2 ≤ 46
               ∧ (fixed = true → len = 44)) us.
Proof.
  unfold selected. induction 1 as [last|last s l us last' Hm He IH|last s l us last' n lofp payload Hm Hord Hs Hlofp Hp He IH];
    intros Hok.
  - split_and!; [done|done|constructor].
  - destruct IH as (H1 & H2 & H3); [by apply Forall_inv_tail in Hok|].
    rewrite filter_cons_False by auto. split_and!; try done. cbn [acceptable app]. by rewrite decide_True by done.
  - destruct IH as (H1 & H2 & H3); [by apply Forall_inv_tail in Hok|]. apply Forall_inv in Hok.
    rewrite filter_cons_True by done. pose proof (du_unit_length fixed s n lofp payload Hs Hp) as Hl.
    assert (5 ≤ n ≤ 46) by (unfold supported in Hs; lia). split_and!.
    + cbn [concat units_size foldr]. rewrite length_app, Nat2Z.inj_add, H1, Hl.
      by rewrite (unit_size_supported fixed s n).
    + cbn [acceptable app]. rewrite decide_False by done. intros (_ & _ & Ha). by apply H2.
    + constructor; [|done]. eexists. split; [reflexivity|]. rewrite Hl. destruct fixed; split_and!; lia || done.
Qed.

Lemma unit_size_nonneg fixed s : 0 ≤ unit_size fixed s.
Proof.
  unfold unit_size. destruct fixed; [done|]. destruct (du_switch _ _) as [|n] eqn:E; [done|].
  unfold du_switch in E. repeat case_match; simplify_eq; lia.
Qed.

(** Nothing stops the encoder but a lack of space. *)
Lemma acceptable_stop mask fixed last left rest err :
  acceptable mask last rest → Forall line_ok rest → 0 ≤ left → stop_reason mask fixed last left rest err →
  err = 0 ∧ (units_size fixed (selected mask rest) ≤ left → rest = []).
Proof.
  destruct rest as [|s rest]; [done|]. cbn [acceptable stop_reason]. intros Ha Hok H0 (Hm & Hstop).
  rewrite decide_False in Ha by done. destruct Ha as (Hord & (n & Hs) & _).
  apply Forall_cons_1 in Hok as [Hok Hrest].
  destruct Hstop as [[-> Hl]|[_ [Hsw|(-> & n' & Hs' & Hlt)]]].
  - unfold supported in Hs. lia.
  - destruct Hsw as [[_ Hn]|(_ & _ & Hn)]; [|by apply Hn in Hs]. unfold dvb_service in Hn. unfold supported in Hs. lia.
  - split; [done|]. unfold selected. rewrite filter_cons_True by done. cbn [units_size foldr].
    rewrite (unit_size_supported fixed s n') by done. intros Hle. exfalso.
    assert (0 ≤ units_size fixed (filter (λ s, id s .& mask ≠ 0) rest)); [|unfold units_size in *; lia].
    clear. induction (filter _ rest) as [|t l IH]; [done|]. pose proof (unit_size_nonneg fixed t).
    unfold units_size in *. cbn [foldr]. lia.
Qed.

Lemma demultiplex_units l us sus area out :
  units_of 0 l us → Forall is_stuffing sus → area = concat us ++ concat sus → 2 ≤ Z.of_nat (length area) →
  Forall has_data out → (length l ≤ length out)%nat →
  ∃ q, _vbi_dvb_demultiplex_sliced out area =
    Some (zip_with received l (take (length l) out) ++ drop (length l) out,
          Some (Z.of_nat (length l)), q, 0, true).
Proof.
  intros Hu Hs -> H2 Hd Hl. unfold _vbi_dvb_demultiplex_sliced, extract_data_units.
  destruct (Z.ltb_spec (Z.of_nat (length (concat us ++ concat sus))) 2); [lia|].
  destruct (extract_units us l 0 (Frame out 0 0 0 0 0 0) [] (take (length l) out) (drop (length l) out)
    (concat sus) (length (concat us ++ concat sus)) Hu) as (f1 & n1 & -> & Hn1 & Hl1 & Hsp1 & _);
    try done.
  - split; [done|by left].
  - by rewrite app_nil_l, take_drop.
  - list_lia.
  - destruct (extract_stuffing sus f1 n1 Hs Hn1) as (f2 & q & -> & Hl2 & Hsp2 & _).
    cbn [mbind option_bind]. exists q. by rewrite Hl2, Hsp2, Hl1, Hsp1.
Qed.

Lemma selected_app mask l l' : selected mask (l ++ l') = selected mask l ++ selected mask l'.
Proof.
  unfold selected. induction l as [|s l IH]; cbn [app]; [done|].
  destruct (decide (id s .& mask ≠ 0)).
  - by rewrite !filter_cons_True, IH by done.
  - by rewrite !filter_cons_False, IH by done.
Qed.

Lemma units_size_app fixed l l' : units_size fixed (l ++ l') = units_size fixed l + units_size fixed l'.
Proof. unfold units_size. induction l as [|s l IH]; cbn [app foldr]; lia. Qed.

Lemma last_size_app ldu us u : last_size ldu (us ++ [u]) = Z.of_nat (length u).
Proof. unfold last_size. by rewrite foldl_app. Qed.

Lemma fixed_units_mod us :
  Forall (λ u, ∃ len, u !! 1%nat = Some len ∧ Z.of_nat (length u) = len + 2 ∧ 5 ≤ len + 2 ≤ 46
               ∧ (true = true → len = 44)) us →
  Z.of_nat (length (concat us)) mod 46 = 0.
Proof.
  induction 1 as [|u us (len & _ & Hl & _ & H44) Hus IH]; [done|]. cbn [concat].
  rewrite length_app, Nat2Z.inj_add, Hl, H44 by done.
  rewrite Z.add_comm. change (44 + 2) with (1 * 46). by rewrite Z_mod_plus_full.
Qed.

(** The packet a successful encoder with stuffing leaves: data units and stuffing. *)
Lemma stuffed_area mask (fixed : bool) (pre hole post : list Z) sliced dn rest us hole' last' :
  encodes mask fixed 0 dn us last' → Forall line_ok dn →
  (length (concat us) + length hole' = length hole)%nat →
  2 ≤ Z.of_nat (length hole) → (fixed = true → Z.of_nat (length hole) mod 46 = 0) →
  sliced = dn ++ rest →
  ∃ us' sus, units_of 0 (selected mask dn) us' ∧ Forall is_stuffing sus ∧
    length (concat us' ++ concat sus) = length hole ∧ bytes (concat us' ++ concat sus) ∧
    encode_stuffing (pre ++ concat us ++ hole' ++ post) (Z.of_nat (length pre + length (concat us)))
      (Z.of_nat (length hole')) (last_size 0 us) fixed =
    Some (pre ++ (concat us' ++ concat sus) ++ post).
Proof.
  intros He Hok Hlen H2 Hfix _. pose proof (encodes_units _ _ _ _ _ _ He Hok) as Hu.
  pose proof (encodes_bytes _ _ _ _ _ _ He Hok) as Hbu.
  destruct (encodes_facts _ _ _ _ _ _ [] He Hok) as (_ & _ & Hus).
  assert (length hole' = 1%nat → ∃ us0 u, us = us0 ++ [u]) as Hlast.
  { intros H1. destruct us as [|u us _] using rev_ind; [cbn in Hlen; lia|]. eauto. }
  rewrite app_assoc, <-length_app.
  destruct (encode_stuffing_spec (pre ++ concat us) hole' post (last_size 0 us) fixed) as
    [(sus & Hs & Hl & ->)|[H1 ->]].
  - intros ->. specialize (Hfix eq_refl). rewrite <-Hlen in Hfix.
    rewrite Nat2Z.inj_add, <-Zplus_mod_idemp_l, fixed_units_mod in Hfix by done. done.
  - intros H1. destruct (Hlast H1) as (us0 & u & ->). rewrite last_size_app.
    apply Forall_app in Hus as [_ Hus]. apply Forall_inv in Hus as (len & _ & -> & ? & _). lia.
  - exists us, sus. split_and!; [done|done|list_lia| |by rewrite <-!app_assoc].
    apply Forall_app. split; apply Forall_concat; [done|].
    apply List.Forall_forall. intros u Hu'. apply stuffing_is_bytes. by eapply List.Forall_forall in Hs.
  - destruct (Hlast H1) as (us0 & u & ->). rewrite last_size_app.
    apply Forall_app in Hus as [_ Hus]. apply Forall_inv in Hus as (len & Hlen1 & Hl & Hr & _).
    exists (us0 ++ [(<[1%nat := len + 1]> u) ++ [0xFF]]), []. split_and!.
    + by apply units_append; [..|lia].
    + constructor.
    + cbn [concat]. rewrite app_nil_r. rewrite !concat_app, !length_app in *. cbn [concat] in *.
      rewrite !app_nil_r in *. rewrite !length_app, length_insert. cbn [length]. lia.
    + apply Forall_app in Hbu as [Hbu0 Hbu]. apply Forall_inv in Hbu. cbn [concat]. rewrite app_nil_r.
      apply Forall_concat, Forall_app. split; [done|]. constructor; [|constructor].
      apply Forall_app. split; [|by repeat constructor]. apply Forall_insert; [done|unfold is_byte; lia].
    + rewrite Hl, !concat_app. cbn [concat]. rewrite !app_nil_r.
      destruct u as [|u0 [|u1 u]]; [done|done|]. cbn in Hlen1. injection Hlen1 as ->.
      change (<[1%nat := len + 1]> (u0 :: len :: u)) with (u0 :: len + 1 :: u).
      replace (len + 2 - 1) with (len + 1) by lia.
      match goal with |- wr ?l _ _ = _ =>
        replace l with (((pre ++ concat us0) ++ [u0]) ++ len :: (u ++ [0xFF] ++ post))
          by (by rewrite <-!app_assoc) end.
      rewrite (wr_app ((pre ++ concat us0) ++ [u0])) by (list_lia).
      by rewrite <-!app_assoc.
Qed.

(** C5: sliced lines in the order of their line numbers, of services and on lines DVB
    permits, encoded with stuffing into the space from [p] on: the encoder
    succeeds, converts all lines if their data units fit and else the first of
    them, and fills the space exactly, changing nothing around it; the decoder
    returns from it the lines that were converted, with their line numbers,
    services and data, in order. *)
Theorem dvb_sliced_roundtrip (buf : list Z) (p left : Z) (sliced : list vbi_sliced)
    (mask ident : Z) (out : list vbi_sliced) :
  0 ≤ p → 2 ≤ left → p + left ≤ Z.of_nat (length buf) →
  (fixed_length_format ident = true → left mod 46 = 0) →
  Forall line_ok sliced → acceptable mask 0 sliced → Forall has_data out →
  ∃ area converted rest,
    vbi_dvb_multiplex_sliced buf p left sliced mask ident true =
      Some (take (Z.to_nat p) buf ++ area ++ drop (Z.to_nat (p + left)) buf, p + left, 0, rest, true) ∧
    Z.of_nat (length area) = left ∧ sliced = converted ++ rest ∧
    (units_size (fixed_length_format ident) (selected mask sliced) ≤ left → rest = []) ∧
    let l := selected mask converted in
    ((length l ≤ length out)%nat →
     ∃ q, _vbi_dvb_demultiplex_sliced out area =
       Some (zip_with received l (take (length l) out) ++ drop (length l) out,
             Some (Z.of_nat (length l)), q, 0, true)).
Proof.
  intros Hp H2 Hbuf Hfix Hok Hacc Hd.
  set (pre := take (Z.to_nat p) buf). set (post := drop (Z.to_nat (p + left)) buf).
  set (hole := take (Z.to_nat left) (drop (Z.to_nat p) buf)).
  assert (buf = pre ++ hole ++ post) as Ebuf.
  { subst pre hole post. rewrite Z2Nat.inj_add, <-drop_drop by lia. by rewrite !take_drop. }
  assert (p = Z.of_nat (length pre)) as Epre by (subst pre; list_lia).
  assert (left = Z.of_nat (length hole)) as Ehole by (subst hole; list_lia).
  clearbody pre hole post. rewrite Ebuf. clear Ebuf Hbuf buf. subst p left. clear Hp.
  unfold vbi_dvb_multiplex_sliced, insert_sliced_data_units.
  destruct (Z.ltb_spec (Z.of_nat (length hole)) 2); [lia|].
  set (fixed := fixed_length_format ident) in *.
  assert (fixed && (0 <? Z.of_nat (length hole) mod 46) = false) as ->
    by (destruct fixed; [by rewrite Hfix|done]).
  destruct (insert_spec mask fixed sliced pre hole post 0 0 Hok ltac:(done))
    as (dn & rest & us & hole' & last' & err & Esl & He & Hstop & Hlen & _ & ->).
  cbn [mbind option_bind ins_packet ins_p ins_last_du_size ins_sliced ins_err].
  pose proof Hok as Hok'. rewrite Esl in Hok'. apply Forall_app in Hok' as [Hokd Hokr].
  destruct (encodes_facts _ _ _ _ _ _ rest He Hokd) as (Hsize & Hrest & _).
  destruct (acceptable_stop mask fixed last' (Z.of_nat (length hole')) rest err) as [-> Hfull];
    [apply Hrest; by rewrite <-Esl|done|lia|done|].
  cbn [Z.ltb Z.compare].
  replace (Z.of_nat (length hole) - (Z.of_nat (length pre + length (concat us)) - Z.of_nat (length pre)))
    with (Z.of_nat (length hole')) by lia.
  destruct (stuffed_area mask fixed pre hole post sliced dn rest us hole' last') as
    (us' & sus & Hu & Hs & Harea & _ & ->); try done.
  cbn [mbind option_bind]. exists (concat us' ++ concat sus), dn, rest. split.
  { do 5 f_equal. lia. }
  split; [lia|]. split; [done|]. split.
  { intros Hsum. apply Hfull. rewrite Esl, selected_app, units_size_app in Hsum. lia. }
  cbv zeta. intros Hroom.
  by apply (demultiplex_units (selected mask dn) us' sus); [done|done|done|rewrite Harea; lia|..].
Qed.

(** Teletext on two lines and on one of undefined number, VPS, a caption and WSS;
    one service is not selected. *)
Definition witness_lines : list vbi_sliced :=
  [Sliced 3 7 (map Z.of_nat (seq 10 56)); Sliced VBI_SLICED_VPS 16 (map Z.of_nat (seq 50 56));
   Sliced VBI_SLICED_CAPTION_625 21 (map Z.of_nat (seq 100 56));
   Sliced VBI_SLICED_WSS_625 23 (map Z.of_nat (seq 0 56));
   Sliced VBI_SLICED_CAPTION_525 21 (repeat 0 56);
   Sliced 1 320 (map Z.of_nat (seq 150 56)); Sliced 3 0 (map Z.of_nat (seq 200 56))].
Definition witness_mask : Z :=
  VBI_SLICED_TELETEXT_B_625 .| VBI_SLICED_VPS .| VBI_SLICED_CAPTION_625 .| VBI_SLICED_WSS_625.

Lemma witness_lines_ok : Forall line_ok witness_lines.
Proof. repeat constructor; vm_compute; congruence. Qed.

(** Decides [acceptable] for given lines. *)
Ltac acceptable_lines :=
  cbn [acceptable];
  repeat (first [rewrite decide_False by (vm_compute; congruence) | rewrite decide_True by reflexivity];
    try (split; [cbn; lia|split; [eexists; unfold supported; cbn [id line]; solve
      [left; split_and!; [by auto|lia|reflexivity] | right; left; split_and!; reflexivity
      | right; right; left; split_and!; reflexivity
      | right; right; right; split_and!; [by auto|reflexivity|reflexivity]]|]]));
  done.

Lemma witness_lines_acceptable : acceptable witness_mask 0 witness_lines.
Proof. unfold witness_lines. acceptable_lines. Qed.

Lemma empty_lines n : Forall has_data (repeat (Sliced 0 0 (repeat 0 56)) n).
Proof. apply List.Forall_forall. intros x Hx. apply repeat_spec in Hx. by subst. Qed.

(** One byte is left behind the last data unit, which is extended by it. *)
Lemma dvb_sliced_roundtrip_witness :
  ∃ area, vbi_dvb_multiplex_sliced (repeat 0 200) 10 165 witness_lines witness_mask 0x99 true =
      Some (repeat 0 10 ++ area ++ repeat 0 25, 175, 0, [], true) ∧
    ∃ q, _vbi_dvb_demultiplex_sliced (repeat (Sliced 0 0 (repeat 0 56)) 8) area =
      Some (zip_with received (selected witness_mask witness_lines) (repeat (Sliced 0 0 (repeat 0 56)) 6)
            ++ repeat (Sliced 0 0 (repeat 0 56)) 2, Some 6, q, 0, true).
Proof.
  destruct (dvb_sliced_roundtrip (repeat 0 200) 10 165 witness_lines witness_mask 0x99
    (repeat (Sliced 0 0 (repeat 0 56)) 8)) as (area & conv & rest & E & _ & El & Hall & Hrt).
  - done.
  - done.
  - done.
  - done.
  - apply witness_lines_ok.
  - apply witness_lines_acceptable.
  - apply empty_lines.
  - rewrite Hall in E, El by (vm_compute; congruence).
    rewrite app_nil_r in El. subst conv. exists area. split; [exact E|]. apply Hrt. vm_compute. lia.
Defined.

Lemma demultiplex_safe_witness :
  ∃ out n k left ok, _vbi_dvb_demultiplex_sliced (repeat (Sliced 0 0 (repeat 0 56)) 1)
      [0xC3; 14; 0xF0; 1; 2; 3; 4; 5; 6; 7; 8; 9; 10; 11; 12; 13; 0xC4; 3; 0xF7; 9; 9; 0xFF; 0] =
    Some (out, Some n, drop k [0xC3; 14; 0xF0; 1; 2; 3; 4; 5; 6; 7; 8; 9; 10; 11; 12; 13; 0xC4; 3; 0xF7; 9; 9; 0xFF; 0],
          left, ok) ∧ 0 ≤ n ≤ 1.
Proof.
  destruct (demultiplex_safe (repeat (Sliced 0 0 (repeat 0 56)) 1)
    [0xC3; 14; 0xF0; 1; 2; 3; 4; 5; 6; 7; 8; 9; 10; 11; 12; 13; 0xC4; 3; 0xF7; 9; 9; 0xFF; 0])
    as (out & n & k & left & ok & E & _ & _ & Hn & _).
  - repeat constructor; vm_compute; congruence.
  - apply empty_lines.
  - cbn. lia.
  - exists out, n, k, left, ok. split; [exact E|exact Hn].
Defined.
