(* ===== verification/DvbPes.v ===== *)
(** DVB VBI demultiplexer: the Packetized Elementary Stream layer of
    [src/src/dvb_demux.c], with its wrap-around buffer and frame callbacks. *)
From S2P Require Import Prelude Sliced DvbMux DvbDemux.

Definition VBI_ERR_CALLBACK : Z := 0x7080a00.
Definition PRIVATE_STREAM_1 : Z := 0xBD.
Definition PES_HEADER_LOOKAHEAD : Z := 48.
Definition TS_HEADER_LOOKAHEAD : Z := 10.
Definition TS_SYNC_SEARCH_LOOKAHEAD : Z := 188 + TS_HEADER_LOOKAHEAD - 1.
Definition ALIGN (x : Z) : Z := (x + 15) .& Z.lnot 15.

(** [bp] is an offset into [buffer]. *)
Record wrap := Wrap { buffer : list Z; bp : Z; skip : Z; consume : Z; lookahead : Z; leftover : Z }.

Definition wrap_set_skip (n : Z) (w : wrap) : wrap :=
  Wrap (buffer w) (bp w) n (consume w) (lookahead w) (leftover w).
Definition wrap_set_leftover (n : Z) (w : wrap) : wrap :=
  Wrap (buffer w) (bp w) (skip w) (consume w) (lookahead w) n.
Definition wrap_set_lookahead (n : Z) (w : wrap) : wrap :=
  Wrap (buffer w) (bp w) (skip w) (consume w) n (leftover w).
Definition wrap_set_buffer (b : list Z) (bp : Z) (w : wrap) : wrap :=
  Wrap b bp (skip w) (consume w) (lookahead w) (leftover w).

(** The bytes from [a] up to the end [b] of the data; [None] if these are not
    positions in the array. *)
Definition slice (l : list Z) (a b : Z) : option (list Z) :=
  if decide (0 ≤ a ∧ a ≤ b ∧ b ≤ Z.of_nat (length l))
  then Some (take (Z.to_nat (b - a)) (drop (Z.to_nat a) l)) else None.

(** Removes [skip] bytes; TRUE when the source ends before. *)
Definition wrap_skip (w : wrap) (src_size s : Z) : wrap * Z * bool :=
  if 0 <? skip w then
    if leftover w <? skip w then
      let w := wrap_set_leftover 0 (wrap_set_skip (skip w - leftover w) w) in
      if src_size - s <? skip w then (wrap_set_skip (skip w - (src_size - s)) w, src_size, true)
      else (wrap_set_skip 0 w, s + skip w, false)
    else (wrap_set_skip 0 (wrap_set_leftover (leftover w - skip w) w), s, false)
  else (w, s, false).

(** [src] is the source buffer, [s] the offset of [*src] in it, so [*src_left] is
    what remains and [src_size] its length.  When enough data is available the
    last result is the data from [*dst] on, in the wrap or the source buffer, and
    [*scan_end] as an offset from [*dst]; it is [None] for FALSE. *)
Definition wrap_around (w : wrap) (src : list Z) (s : Z) : option (wrap * Z * option (list Z * Z)) :=
  let src_size := Z.of_nat (length src) in
  let '(w, s, more) := wrap_skip w src_size s in
  if (more : bool) then Some (w, s, None)
  else
    let src_left := src_size - s in
    let available := leftover w + src_left in
    let required := lookahead w in
    if (available <? required) || (src_size <? available) then
      if leftover w <? required then
        left ← slice (buffer w) (bp w - leftover w) (bp w);
        b ← store (buffer w) 0 left;
        let w := wrap_set_buffer b (leftover w) w in
        let required := required - leftover w in
        if src_left <? required then
          rest ← slice src s src_size;
          b ← store (buffer w) (bp w) rest;
          Some (wrap_set_leftover (leftover w + src_left) (wrap_set_buffer b (bp w + src_left) w),
                src_size, None)
        else
          part ← slice src s (s + required);
          b ← store (buffer w) (bp w) part;
          let w := wrap_set_leftover (lookahead w) (wrap_set_buffer b (bp w + required) w) in
          data ← slice (buffer w) 0 (bp w);
          Some (w, s + required, Some (data, bp w - lookahead w))
      else
        data ← slice (buffer w) (bp w - leftover w) (bp w);
        Some (w, s, Some (data, leftover w - lookahead w))
    else
      data ← slice src (s - leftover w) src_size;
      Some (w, s, Some (data, leftover w + src_left - lookahead w)).

(** [struct _vbi_dvb_demux]: [buffer (pes_wrap dx)] is [pes_buffer], and
    [buffer (ts_wrap dx)] is [ts_buffer].  The pointers of the TS layer are offsets
    into [pes_buffer]; NULL is 0, where nothing is left to read or write. *)
Record vbi_dvb_demux := Demux {
  pes_wrap : wrap; ts_wrap : wrap; frame_ : frame; frame_pts : Z; packet_pts : Z;
  new_frame : bool; ts_in_sync : bool; ts_frame_bp : Z; ts_frame_todo : Z;
  ts_pes_bp : Z; ts_pes_todo : Z; ts_continuity : Z; ts_pid : Z
}.

Definition set_pes_wrap (w : wrap) (dx : vbi_dvb_demux) : vbi_dvb_demux :=
  Demux w (ts_wrap dx) (frame_ dx) (frame_pts dx) (packet_pts dx) (new_frame dx) (ts_in_sync dx)
    (ts_frame_bp dx) (ts_frame_todo dx) (ts_pes_bp dx) (ts_pes_todo dx) (ts_continuity dx) (ts_pid dx).
Definition set_frame (f : frame) (dx : vbi_dvb_demux) : vbi_dvb_demux :=
  Demux (pes_wrap dx) (ts_wrap dx) f (frame_pts dx) (packet_pts dx) (new_frame dx) (ts_in_sync dx)
    (ts_frame_bp dx) (ts_frame_todo dx) (ts_pes_bp dx) (ts_pes_todo dx) (ts_continuity dx) (ts_pid dx).
Definition set_frame_pts (t : Z) (dx : vbi_dvb_demux) : vbi_dvb_demux :=
  Demux (pes_wrap dx) (ts_wrap dx) (frame_ dx) t (packet_pts dx) (new_frame dx) (ts_in_sync dx)
    (ts_frame_bp dx) (ts_frame_todo dx) (ts_pes_bp dx) (ts_pes_todo dx) (ts_continuity dx) (ts_pid dx).
Definition set_packet_pts (t : Z) (dx : vbi_dvb_demux) : vbi_dvb_demux :=
  Demux (pes_wrap dx) (ts_wrap dx) (frame_ dx) (frame_pts dx) t (new_frame dx) (ts_in_sync dx)
    (ts_frame_bp dx) (ts_frame_todo dx) (ts_pes_bp dx) (ts_pes_todo dx) (ts_continuity dx) (ts_pid dx).
Definition set_new_frame (b : bool) (dx : vbi_dvb_demux) : vbi_dvb_demux :=
  Demux (pes_wrap dx) (ts_wrap dx) (frame_ dx) (frame_pts dx) (packet_pts dx) b (ts_in_sync dx)
    (ts_frame_bp dx) (ts_frame_todo dx) (ts_pes_bp dx) (ts_pes_todo dx) (ts_continuity dx) (ts_pid dx).

Definition set_n_data_units (n : Z) (f : frame) : frame :=
  Frame (lines f) (sp f) (last_field f) (last_field_line f) (last_frame_line f) (last_data_unit_id f) n.

(** ** Packet headers *)

(** The time stamp at [p]; the wrong mark is only logged. *)
Definition decode_timestamp (p : list Z) : option Z :=
  p0 ← rd p 0; p1 ← rd p 1; p2 ← rd p 2; p3 ← rd p 3; p4 ← rd p 4;
  let t := u32 (((p1 ≪ 22) .| ((p2 .& Z.lnot 1) ≪ 14)) .| (p3 ≪ 7) .| (p4 ≫ 1)) in
  Some (t .| ((p0 .& 0x0E) ≪ 29)).

Definition valid_vbi_pes_packet_header (dx : vbi_dvb_demux) (p : list Z) : option (vbi_dvb_demux * bool) :=
  header_length ← rd p 8;
  if negb (header_length =? 36) then Some (dx, false)
  else
    data_identifier ← rd p (9 + 36);
    if negb ((0x10 <=? data_identifier) && (data_identifier <=? 0x1F)
             || (0x99 <=? data_identifier) && (data_identifier <=? 0x9B)) then Some (dx, false)
    else
      p6 ← rd p 6;
      if negb (p6 .& 0xF4 =? 0x84) then Some (dx, false)
      else
        p7 ← rd p 7;
        let PTS_DTS_flags := p7 ≫ 6 in
        if (PTS_DTS_flags =? 2) || (PTS_DTS_flags =? 3) then
          t ← decode_timestamp (drop 9 p);
          Some (set_packet_pts t dx, true)
        else if new_frame dx then Some (dx, false)
        else Some (dx, true).

(** ** Frames *)

Section client.
(** The client: its state and, unless the coroutine interface is used, its callback,
    which gets the lines of a frame and their time stamp. *)
Context {C : Type} (callback : option (C → list vbi_sliced → Z → C * bool)).

(** Results: the context, the bytes not decoded, [*src_left], an error code or zero,
    and the client. *)
Fixpoint demux_pes_packet_frame (fuel : nat) (dx : vbi_dvb_demux) (src : list Z) (c : C)
    : option (vbi_dvb_demux * list Z * Z * Z * C) :=
  match fuel with
  | O => None
  | S fuel =>
      let dx :=
        if new_frame dx then
          set_new_frame false (set_frame_pts (packet_pts dx) (set_frame (reset_frame (frame_ dx)) dx))
        else dx in
      '(f, src, src_left, err) ← extract_data_units (frame_ dx) src;
      let dx := set_frame f dx in
      if 0 <=? err then Some (dx, src, src_left, err, c)
      else
        let dx := set_new_frame true dx in
        match callback with
        | None => Some (dx, src, src_left, VBI_ERR_CALLBACK, c)
        | Some cb =>
            let '(c, ok) := cb c (take (Z.to_nat (sp f)) (lines f)) (frame_pts dx) in
            if (ok : bool) then demux_pes_packet_frame fuel dx src c
            else Some (dx, src, src_left, VBI_ERR_CALLBACK, c)
        end
  end.

(** What the start code scan finds: a VBI packet header at an offset, or how much to
    skip. *)
Inductive scan_result := Found (p : Z) | Skip (n : Z).

Fixpoint start_code_scan (fuel : nat) (data : list Z) (p scan_end : Z) : option scan_result :=
  match fuel with
  | O => None
  | S fuel =>
      p0 ← rd data p; p1 ← rd data (p + 1); p2 ← rd data (p + 2); p3 ← rd data (p + 3);
      let next p := if scan_end <=? p then Some (Skip p) else start_code_scan fuel data p scan_end in
      if negb (p2 .& Z.lnot 1 =? 0) then next (p + 3)
      else if negb (p0 .| p1 =? 0) || negb (p2 =? 1) then next (p + 1)
      else if p3 =? PRIVATE_STREAM_1 then Some (Found p)
      else if p3 <? 0xBC then next (p + 1)
      else
        p4 ← rd data (p + 4); p5 ← rd data (p + 5);
        Some (Skip (p + 6 + (p4 * 256 + p5)))
  end.

(** The packet header at [p]: the context with a new [skip] and [lookahead]. *)
Definition packet_header (dx : vbi_dvb_demux) (data : list Z) (p : Z) : option vbi_dvb_demux :=
  p4 ← rd data (p + 4); p5 ← rd data (p + 5);
  let packet_length := p4 * 256 + p5 in
  let dx := set_pes_wrap (wrap_set_skip (p + 6 + packet_length) (pes_wrap dx)) dx in
  if packet_length <? 178 then Some dx
  else
    '(dx, valid) ← valid_vbi_pes_packet_header dx (drop (Z.to_nat p) data);
    if negb valid then Some dx
    else
      Some (set_pes_wrap (wrap_set_lookahead (packet_length - 3 - 36 - 1)
              (wrap_set_skip (p + 9 + 36 + 1) (pes_wrap dx))) dx).

(** One iteration with the data in the buffer: the context, an error code that stops
    the function or zero, and the client. *)
Definition demux_pes_data (dx : vbi_dvb_demux) (data : list Z) (scan_end : Z) (c : C)
    : option (vbi_dvb_demux * Z * C) :=
  let look := lookahead (pes_wrap dx) in
  if PES_HEADER_LOOKAHEAD <? look then
    packet ← slice data 0 look;
    '(dx, _, _, err, c) ←
      demux_pes_packet_frame 3 (set_frame (set_n_data_units 0 (frame_ dx)) dx) packet c;
    if err =? VBI_ERR_CALLBACK then Some (dx, VBI_ERR_CALLBACK, c)
    else
      let dx := if err <? 0 then set_new_frame true dx else dx in
      Some (set_pes_wrap (wrap_set_lookahead PES_HEADER_LOOKAHEAD
              (wrap_set_skip (lookahead (pes_wrap dx)) (pes_wrap dx))) dx, 0, c)
  else
    r ← start_code_scan (Z.to_nat scan_end + 1) data 0 scan_end;
    match r with
    | Skip n => Some (set_pes_wrap (wrap_set_skip n (pes_wrap dx)) dx, 0, c)
    | Found p => dx ← packet_header dx data p; Some (dx, 0, c)
    end.

(** The results are the context, the offset of [*src], the returned value and the client. *)
Fixpoint demux_pes_loop (fuel : nat) (dx : vbi_dvb_demux) (src : list Z) (s : Z) (c : C)
    : option (vbi_dvb_demux * Z * Z * C) :=
  match fuel with
  | O => None
  | S fuel =>
      '(w, s, r) ← wrap_around (pes_wrap dx) src s;
      let dx := set_pes_wrap w dx in
      match r with
      | None => Some (dx, s, 0, c)
      | Some (data, scan_end) =>
          '(dx, err, c) ← demux_pes_data dx data scan_end c;
          if negb (err =? 0) then Some (dx, s, err, c) else demux_pes_loop fuel dx src s c
      end
  end.

(** Each iteration after the first takes a byte or more of the leftover or source. *)
Definition demux_pes_packet (dx : vbi_dvb_demux) (src : list Z) (c : C)
    : option (vbi_dvb_demux * Z * Z * C) :=
  demux_pes_loop (Z.to_nat (leftover (pes_wrap dx)) + length src + 2) dx src 0 c.
End client.

(** The coroutine: the context, the lines, the time stamp if one is stored, and the
    offset of [*buffer]. *)
Definition vbi_dvb_demux_cor (dx : vbi_dvb_demux) (max_lines : Z) (buf : list Z)
    : option (vbi_dvb_demux * list vbi_sliced * option Z * Z) :=
  '(dx, s, err, _) ← demux_pes_packet None dx buf ();
  if negb (err =? 0) then
    let n_lines := Z.min (sp (frame_ dx)) max_lines in
    let sliced := take (Z.to_nat n_lines) (lines (frame_ dx)) in
    let pts := frame_pts dx in
    let f := frame_ dx in
    Some (if 0 <? n_lines
          then set_frame (Frame (lines f) 0 (last_field f) (last_field_line f) (last_frame_line f)
                            (last_data_unit_id f) (n_data_units_extracted_from_packet f)) dx
          else dx, sliced, Some pts, s)
  else Some (dx, [], None, s).

Definition vbi_dvb_demux_feed {C} (callback : C → list vbi_sliced → Z → C * bool) (dx : vbi_dvb_demux)
    (buf : list Z) (c : C) : option (vbi_dvb_demux * bool * C) :=
  '(dx, _, err, c) ← demux_pes_packet (Some callback) dx buf c;
  Some (dx, err =? 0, c).

(** [dx->sliced] has 64 elements. *)
Definition vbi_dvb_demux_reset (dx : vbi_dvb_demux) : vbi_dvb_demux :=
  Demux (Wrap (buffer (pes_wrap dx)) 0 0 0 PES_HEADER_LOOKAHEAD 0)
    (Wrap (buffer (ts_wrap dx)) 0 0 0 TS_SYNC_SEARCH_LOOKAHEAD 0)
    (Frame (lines (frame_ dx)) 0 0 0 0 0 0) 0 0 true false 0 0 0 0 (-1) (ts_pid dx).

Definition vbi_dvb_pes_demux_new : vbi_dvb_demux :=
  vbi_dvb_demux_reset
    (Demux (Wrap (repeat 0 (Z.to_nat (ALIGN (6 + 65536)))) 0 0 0 0 0)
       (Wrap (repeat 0 (Z.to_nat (ALIGN TS_SYNC_SEARCH_LOOKAHEAD))) 0 0 0 0 0)
       (Frame (repeat (Sliced 0 0 (repeat 0 56)) 64) 0 0 0 0 0 0) 0 0 false false 0 0 0 0 0 0).

(** FALSE for a PID that no VBI stream can have. *)
Definition _vbi_dvb_ts_demux_new (pid : Z) : option vbi_dvb_demux :=
  if (pid <=? 0x000F) || (0x1FFF <=? pid) then None
  else
    let dx := vbi_dvb_pes_demux_new in
    Some (Demux (pes_wrap dx) (ts_wrap dx) (frame_ dx) (frame_pts dx) (packet_pts dx) (new_frame dx)
            (ts_in_sync dx) (ts_frame_bp dx) (ts_frame_todo dx) (ts_pes_bp dx) (ts_pes_todo dx)
            (ts_continuity dx) pid).

(** ** The wrap-around buffer *)

Lemma slice_Some l a b : 0 ≤ a → a ≤ b → b ≤ Z.of_nat (length l) →
  slice l a b = Some (take (Z.to_nat (b - a)) (drop (Z.to_nat a) l)).
Proof. intros. unfold slice. by rewrite decide_True by done. Qed.

Lemma slice_full (l : list Z) a b : a = 0 → b = Z.of_nat (length l) → slice l a b = Some l.
Proof. intros -> ->. rewrite slice_Some by lia. f_equal. rewrite drop_0. apply firstn_all2. lia. Qed.

Lemma slice_store l i xs b : store l i xs = Some b → slice b i (i + Z.of_nat (length xs)) = Some xs ∧
  length b = length l ∧ ∀ a c l', slice l a c = Some l' → c ≤ i → slice b a c = Some l'.
Proof.
  unfold store. intros H. case_decide as Hi; [|done]. injection H as <-.
  assert (length (take (Z.to_nat i) l) = Z.to_nat i) as Ht by (rewrite length_take; lia).
  split; [|split].
  - rewrite slice_Some by (rewrite ?length_app, ?length_drop; lia). f_equal.
    rewrite drop_app_length' by lia. apply take_app_length'. lia.
  - rewrite !length_app, length_drop. lia.
  - intros a c l'. unfold slice. case_decide as Hc; [|done]. intros [= <-] Hci.
    rewrite decide_True by (rewrite !length_app, length_drop; lia). f_equal.
    rewrite drop_app_le by lia. rewrite take_app_le by (rewrite length_drop; lia).
    rewrite !take_drop_commute, take_take. do 2 f_equal. lia.
Qed.

(** [L] is the leftover data: the end of the wrap buffer, and the last bytes of what
    came before [*src], so that it also precedes [*src] in the source buffer when
    that is long enough. *)
Record wrap_inv (w : wrap) (src : list Z) (s : Z) (L : list Z) : Prop := {
  inv_s : 0 ≤ s ≤ Z.of_nat (length src);
  inv_leftover : leftover w = Z.of_nat (length L);
  inv_bp : leftover w ≤ bp w ≤ Z.of_nat (length (buffer w));
  inv_data : slice (buffer w) (bp w - leftover w) (bp w) = Some L;
  inv_suffix : ∃ L0, L `suffix_of` (L0 ++ take (Z.to_nat s) src)
}.

Lemma suffix_drop {A} (n : nat) (l k : list A) : l `suffix_of` k → drop n l `suffix_of` k.
Proof. intros H. etrans; [apply suffix_drop|done]. Qed.

Lemma inv_skip w src s L n :
  wrap_inv w src s L → 0 ≤ n ≤ leftover w →
  wrap_inv (wrap_set_skip 0 (wrap_set_leftover (leftover w - n) w)) src s (drop (Z.to_nat n) L).
Proof.
  intros [Hs Hl Hb Hd (L0 & Hsuf)] Hn. split; cbn [buffer bp leftover wrap_set_skip wrap_set_leftover]; try lia.
  - list_lia.
  - rewrite slice_Some in Hd by lia. injection Hd as <-. rewrite slice_Some by lia. f_equal.
    rewrite skipn_firstn_comm, drop_drop. f_equal; [lia|]. f_equal. lia.
  - exists L0. by apply suffix_drop.
Qed.

(** The leftover bytes in the source buffer. *)
Lemma inv_source w src s L :
  wrap_inv w src s L → leftover w ≤ s → slice src (s - leftover w) (Z.of_nat (length src)) =
  Some (L ++ drop (Z.to_nat s) src).
Proof.
  intros [Hs Hl Hb Hd (L0 & k & Hk)] Hle. rewrite slice_Some by lia. f_equal.
  rewrite firstn_all2 by list_lia.
  assert (drop (Z.to_nat (s - leftover w)) (take (Z.to_nat s) src) = L) as <-.
  { pose proof (f_equal (drop (length L0 + Z.to_nat (s - leftover w))) Hk) as E.
    rewrite <-drop_drop, drop_app_length in E. rewrite E. apply drop_app_length'.
    apply (f_equal length) in Hk. list_lia. }
  rewrite drop_take_drop by lia. done.
Qed.

(** What copying [n] bytes from the source does. *)
Lemma inv_copy w src s L n b :
  wrap_inv w src s L → 0 ≤ n → s + n ≤ Z.of_nat (length src) →
  leftover w + n ≤ Z.of_nat (length (buffer w)) →
  store (buffer w) 0 L = Some b →
  ∃ b', store b (leftover w) (take (Z.to_nat n) (drop (Z.to_nat s) src)) = Some b' ∧
    length b' = length (buffer w) ∧
    (L ++ take (Z.to_nat n) (drop (Z.to_nat s) src)) ++ drop (Z.to_nat (s + n)) src = L ++ drop (Z.to_nat s) src ∧
    slice b' 0 (leftover w + n) = Some (L ++ take (Z.to_nat n) (drop (Z.to_nat s) src)) ∧
    wrap_inv (wrap_set_leftover (leftover w + n) (wrap_set_buffer b' (leftover w + n) w)) src (s + n)
      (L ++ take (Z.to_nat n) (drop (Z.to_nat s) src)).
Proof.
  intros [Hs Hl Hb Hd (L0 & Hsuf)] Hn Hsn Hbuf Hst.
  destruct (slice_store _ _ _ _ Hst) as (H1 & H2 & _).
  set (x := take (Z.to_nat n) (drop (Z.to_nat s) src)).
  assert (length x = Z.to_nat n) as Hx by (subst x; list_lia).
  destruct (store b (leftover w) x) as [b'|] eqn:E; [|unfold store in E; by rewrite decide_True in E by lia].
  exists b'. split; [done|]. destruct (slice_store _ _ _ _ E) as (H3 & H4 & H5).
  split; [lia|]. split.
  { rewrite <-app_assoc. f_equal. replace (Z.to_nat (s + n)) with (Z.to_nat s + Z.to_nat n)%nat by lia.
    rewrite <-drop_drop. apply take_drop. }
  assert (slice b' 0 (leftover w + n) = Some (L ++ x)) as Hsl.
  { specialize (H5 _ _ _ H1 ltac:(lia)). revert H3 H5. unfold slice. rewrite !decide_True by lia.
    rewrite !drop_0. intros [= H3] [= H5]. f_equal.
    rewrite Z.sub_0_r. replace (Z.to_nat (leftover w + n)) with (length L + Z.to_nat n)%nat by lia.
    rewrite <-(take_take_drop b'). f_equal.
    - etrans; [|exact H5]. f_equal. lia.
    - etrans; [|exact H3]. f_equal; [lia|]. f_equal. lia. }
  split; [done|]. split; cbn [buffer bp leftover wrap_set_leftover wrap_set_buffer]; try lia.
  - rewrite length_app, Hx. lia.
  - by replace (leftover w + n - (leftover w + n)) with 0 by lia.
  - exists L0. destruct Hsuf as [k Hk]. exists k. rewrite app_assoc, <-Hk, <-app_assoc. f_equal.
    replace (Z.to_nat (s + n)) with (Z.to_nat s + Z.to_nat n)%nat by lia.
    subst x. by rewrite take_take_drop.
Qed.

Ltac wrap_simpl :=
  cbn [buffer bp skip consume lookahead leftover wrap_set_skip wrap_set_leftover wrap_set_lookahead
    wrap_set_buffer] in *.

Lemma wrap_skip_spec w src s L :
  wrap_inv w src s L → 0 ≤ skip w →
  let pend := L ++ drop (Z.to_nat s) src in
  ∃ w1 s1 L1 more, wrap_skip w (Z.of_nat (length src)) s = (w1, s1, more) ∧ wrap_inv w1 src s1 L1 ∧
    buffer w1 = buffer w ∧ lookahead w1 = lookahead w ∧ consume w1 = consume w ∧ s ≤ s1 ∧
    L1 ++ drop (Z.to_nat s1) src = drop (Z.to_nat (skip w)) pend ∧
    if (more : bool) then s1 = Z.of_nat (length src) ∧ Z.of_nat (length pend) < skip w ∧
      skip w1 = skip w - Z.of_nat (length pend)
    else skip w1 = 0 ∧ skip w ≤ Z.of_nat (length pend).
Proof.
  intros Hinv Hskip pend. unfold wrap_skip. pose proof Hinv as [Hs Hl Hbp Hd Hsuf].
  subst pend. rewrite length_app, length_drop in *.
  destruct (Z.ltb_spec 0 (skip w)).
  2: { exists w, s, L, false. split_and!; try done; try lia. replace (skip w) with 0 by lia. done. }
  destruct (Z.ltb_spec (leftover w) (skip w)); wrap_simpl.
  - assert (∀ n s', 0 ≤ s' ≤ Z.of_nat (length src) → wrap_inv (wrap_set_skip n
      (wrap_set_leftover 0 (wrap_set_skip (skip w - leftover w) w))) src s' []) as Hnil.
    { intros n s' Hs'. split; wrap_simpl; cbn [length]; try done; try lia.
      - rewrite slice_Some by lia. by rewrite !Z.sub_0_r, Z.sub_diag.
      - exists []. apply suffix_nil. }
    destruct (Z.ltb_spec (Z.of_nat (length src) - s) (skip w - leftover w)).
    + eexists _, _, [], true. split_and!; try reflexivity; try (by apply Hnil; lia); try lia.
      * rewrite !drop_ge by (rewrite ?length_app, ?length_drop; lia). done.
      * cbn. lia.
    + eexists _, _, [], false. split_and!; try reflexivity; try (by apply Hnil; lia); try lia.
      rewrite drop_app_ge by lia. rewrite drop_drop. cbn [app]. f_equal. cbn. lia.
  - exists (wrap_set_skip 0 (wrap_set_leftover (leftover w - skip w) w)), s, (drop (Z.to_nat (skip w)) L), false.
    split_and!; try done; try lia.
    + apply inv_skip; [done|lia].
    + by rewrite drop_app_le by lia.
Qed.

(** The contract of [wrap_around], in terms of the stream [L ++ drop s src]: bytes to
    be skipped are removed first, and data is only handed out when [lookahead] bytes
    of it are there. *)
Lemma wrap_around_spec w src s L :
  wrap_inv w src s L → 0 ≤ skip w → 0 ≤ lookahead w ≤ Z.of_nat (length (buffer w)) →
  let pend := L ++ drop (Z.to_nat s) src in
  ∃ w' s' L' r, wrap_around w src s = Some (w', s', r) ∧ wrap_inv w' src s' L' ∧
    length (buffer w') = length (buffer w) ∧ lookahead w' = lookahead w ∧ consume w' = consume w ∧
    s ≤ s' ∧ L' ++ drop (Z.to_nat s') src = drop (Z.to_nat (skip w)) pend ∧
    match r with
    | Some (data, scan_end) =>
        skip w' = 0 ∧ skip w ≤ Z.of_nat (length pend) ∧
        data `prefix_of` (L' ++ drop (Z.to_nat s') src) ∧
        scan_end = Z.of_nat (length data) - lookahead w ∧ 0 ≤ scan_end
    | None =>
        s' = Z.of_nat (length src) ∧
        (Z.of_nat (length pend) < skip w ∧ skip w' = skip w - Z.of_nat (length pend) ∨
         skip w ≤ Z.of_nat (length pend) ∧ skip w' = 0 ∧ Z.of_nat (length pend) - skip w < lookahead w)
    end.
Proof.
  intros Hinv Hskip Hlook pend. unfold wrap_around.
  destruct (wrap_skip_spec w src s L Hinv Hskip)
    as (w1 & s1 & L1 & more & -> & Hinv1 & Hb & Hla & Hco & Hs1 & Hp & Hm). fold pend in Hp, Hm.
  destruct more.
  { destruct Hm as (-> & Hlt & Hs'). exists w1, (Z.of_nat (length src)), L1, None.
    rewrite Hb. split_and!; try done. by left. }
  destruct Hm as [Hs0 Hle]. rewrite <-Hp. rewrite <-Hla, <-Hb in Hlook. rewrite <-Hla, <-Hco, <-Hb.
  clearbody pend. clear Hinv Hla Hco Hb.
  assert (Z.of_nat (length pend) - skip w = leftover w1 + (Z.of_nat (length src) - s1)) as Hlen.
  { pose proof (f_equal length Hp) as E. destruct Hinv1. list_lia. }
  rewrite Hlen. clear Hp Hlen.
  pose proof Hinv1 as [Hsr Hl Hbp Hd Hsuf].
  set (avail := leftover w1 + (Z.of_nat (length src) - s1)) in *.
  destruct (Z.ltb_spec avail (lookahead w1)); cbn [orb];
    [|destruct (Z.ltb_spec (Z.of_nat (length src)) avail)].
  - destruct (Z.ltb_spec (leftover w1) (lookahead w1)); [|lia]. rewrite Hd. cbn [mbind option_bind].
    destruct (store (buffer w1) 0 L1) as [b|] eqn:Eb; [|unfold store in Eb; by rewrite decide_True in Eb by lia].
    cbn [mbind option_bind]. wrap_simpl. destruct (Z.ltb_spec (Z.of_nat (length src) - s1) (lookahead w1 - leftover w1)); [|lia].
    rewrite slice_Some by lia. cbn [mbind option_bind]. wrap_simpl.
    destruct (inv_copy w1 src s1 L1 (Z.of_nat (length src) - s1) b) as (b' & -> & Hlb & Hp & _ & Hinv'); try done; try lia.
    cbn [mbind option_bind]. eexists _, _, _, None. split; [reflexivity|].
    replace (s1 + (Z.of_nat (length src) - s1)) with (Z.of_nat (length src)) in Hp, Hinv' by lia.
    split; [exact Hinv'|]. cbn [buffer lookahead consume skip wrap_set_leftover wrap_set_buffer].
    split_and!; try done; try lia.
  - destruct (Z.ltb_spec (leftover w1) (lookahead w1)).
    + rewrite Hd. cbn [mbind option_bind].
      destruct (store (buffer w1) 0 L1) as [b|] eqn:Eb; [|unfold store in Eb; by rewrite decide_True in Eb by lia].
      cbn [mbind option_bind]. wrap_simpl. destruct (Z.ltb_spec (Z.of_nat (length src) - s1) (lookahead w1 - leftover w1)); [lia|].
      rewrite slice_Some by lia. cbn [mbind option_bind]. wrap_simpl.
      replace (s1 + (lookahead w1 - leftover w1) - s1) with (lookahead w1 - leftover w1) by lia.
      destruct (inv_copy w1 src s1 L1 (lookahead w1 - leftover w1) b) as (b' & -> & Hlb & Hp & Hdat & Hinv'); try done; try lia.
      cbn [mbind option_bind]. replace (leftover w1 + (lookahead w1 - leftover w1)) with (lookahead w1) in * by lia.
      cbn [buffer bp leftover lookahead consume skip wrap_set_leftover wrap_set_buffer] in *.
      rewrite Hdat. cbn [mbind option_bind]. eexists _, _, _, (Some _). split; [reflexivity|]. split; [exact Hinv'|].
      cbn [buffer lookahead consume skip wrap_set_leftover wrap_set_buffer].
      pose proof (inv_leftover _ _ _ _ Hinv') as Hl'. cbn [leftover wrap_set_leftover wrap_set_buffer] in Hl'.
      split_and!; try done; try lia. by eexists.
    + rewrite Hd. cbn [mbind option_bind]. eexists _, _, _, (Some _). split; [reflexivity|].
      split; [exact Hinv1|]. split_and!; try done; try lia. by eexists.
  - rewrite (inv_source _ _ _ _ Hinv1) by lia. cbn [mbind option_bind]. eexists _, _, _, (Some _). split; [reflexivity|].
    split; [exact Hinv1|]. split_and!; try done; try lia. rewrite length_app, length_drop. lia.
Qed.

(** ** New frames *)

Abbreviation n_data_units := n_data_units_extracted_from_packet.

Lemma line_address_result f lofp system f' r :
  line_address f lofp system = Some (f', r) →
  match r with
  | inl err => f' = f ∧ err < VBI_ERR_CALLBACK ∧ (0 ≤ err ∨ n_data_units f ≤ 0)
  | inr _ => n_data_units f' = n_data_units f + 1
  end.
Proof.
  unfold line_address. intros H. repeat case_match; simplify_option_eq; try done;
    (split; [done|split; [done|]]; (left; done) || (right; lia)).
Qed.

Lemma sliced_unit_result f p system bl sv pl f' err :
  sliced_unit f p system bl sv pl = Some (f', err) →
  n_data_units f ≤ n_data_units f' ∧ err < VBI_ERR_CALLBACK ∧ (0 ≤ err ∨ n_data_units f ≤ 0).
Proof.
  unfold sliced_unit. destruct (rd p 2) as [lofp|]; cbn [mbind option_bind]; [|done].
  destruct (line_address f lofp system) as [[f1 r]|] eqn:E; cbn [mbind option_bind]; [|done].
  apply line_address_result in E. destruct r as [e|slot].
  - destruct E as [-> He]. intros [= <- <-]. split; [done|exact He].
  - destruct (rd _ slot) as [s|]; cbn [mbind option_bind]; [|done]. destruct (bl _ _).
    + intros [= <- <-]. cbn. split; [lia|]. split; [done|by left].
    + destruct pl as [l|]; cbn [mbind option_bind]; [|done]. unfold put_line.
      destruct (rd _ _) as [s'|]; cbn [mbind option_bind]; [|done].
      destruct (store _ _ _) as [d|]; cbn [mbind option_bind]; [|done].
      destruct (wr _ _ _) as [l'|]; cbn [mbind option_bind]; [|done]. intros [= <- <-]. cbn.
      split; [lia|]. split; [done|by left].
Qed.

(** The unit at the beginning of [p] has a line. *)
Definition line_unit (p : list Z) (uid len : Z) : Prop :=
  ∃ system bl sv pl, ∀ f, data_unit f p uid len = sliced_unit f p system bl sv pl.

Lemma data_unit_cases p uid len :
  line_unit p uid len ∨ ∀ f f' err, data_unit f p uid len = Some (f', err) → f' = f ∧ 0 ≤ err < VBI_ERR_CALLBACK.
Proof.
  unfold line_unit, data_unit.
  repeat match goal with
  | |- context [if ?b then _ else _] => destruct b
  | |- context [mbind _ (rd ?q ?i)] => destruct (rd q i); cbn [mbind option_bind]
  end;
    first [by right; intros f f' err [= <- <-] | left; eexists _, _, _, _; intros f; reflexivity | by right].
Qed.

Lemma data_unit_result f p uid len f' err :
  data_unit f p uid len = Some (f', err) →
  n_data_units f ≤ n_data_units f' ∧ err < VBI_ERR_CALLBACK ∧ (0 ≤ err ∨ n_data_units f ≤ 0 ∧ line_unit p uid len).
Proof.
  intros H. destruct (data_unit_cases p uid len) as [Hl|Hl].
  - pose proof Hl as (system & bl & sv & pl & E). rewrite E in H. apply sliced_unit_result in H as (Hn & Hc & [He|He]); auto.
  - apply Hl in H as [-> He]. split; [done|]. split; [lia|left; lia].
Qed.

(** What is left after -1 begins with a unit that has a line. *)
Definition starts_line_unit (p : list Z) : Prop :=
  ∃ uid len, rd p 0 = Some uid ∧ rd p 1 = Some len ∧ len ≤ Z.of_nat (length p) - 2 ∧
    2 < Z.of_nat (length p) ∧ line_unit p uid len.

Lemma extract_loop_err n f p f' p' left err :
  extract_loop n f p = Some (f', p', left, err) →
  err < VBI_ERR_CALLBACK ∧ (err < 0 → n_data_units f ≤ 0 ∧ starts_line_unit p').
Proof.
  revert f p. induction n as [|n IH]; intros f p; cbn [extract_loop];
    destruct (Z.ltb_spec 2 (Z.of_nat (length p))); intros H'; simplify_eq; try done.
  destruct (rd p 0) as [uid|] eqn:E0; cbn [mbind option_bind] in H'; [|done].
  destruct (rd p 1) as [len|] eqn:E1; cbn [mbind option_bind] in H'; [|done].
  destruct (Z.ltb_spec (Z.of_nat (length p) - 2) len); [by simplify_eq|].
  destruct (data_unit f p uid len) as [[f1 e]|] eqn:Ed; cbn [mbind option_bind] in H'; [|done].
  apply data_unit_result in Ed as (Hn & Hc & Hcase). destruct (Z.eqb_spec e 0) as [->|]; cbn [negb] in H'.
  - apply IH in H' as [Hc' Hs]. split; [done|]. intros Hneg. destruct (Hs Hneg) as [Hn' Hs']. cbn in Hn'.
    split; [lia|done].
  - simplify_eq. split; [done|]. intros Hneg. destruct Hcase as [?|[? Hl]]; [lia|]. split; [done|].
    exists uid, len. by split_and!.
Qed.

(** A fresh frame takes a unit with a line. *)
Lemma line_address_fresh f lofp system f' err :
  line_address (reset_frame f) lofp system = Some (f', inl err) → 0 ≤ err.
Proof.
  assert (∀ field, 0 ≤ field_start system field) as Hfs
    by (intros; unfold field_start; repeat case_match; lia).
  unfold line_address. cbn [reset_frame lines sp last_frame_line last_data_unit_id].
  change (negb (0 =? 0)) with false. cbn [andb]. destruct (_ <=? 0); [by intros [= <- <-]|].
  destruct (lofp_to_line lofp system) as [[field fl] nl] eqn:El.
  assert (0 ≤ nl) as Hnl.
  { unfold lofp_to_line in El. set (fd := if _ =? 0 then 1 else 0) in El.
    specialize (Hfs fd). destruct (Z.ltb_spec 0 (lofp .& 31)); simplify_eq; lia. }
  destruct (Z.eqb_spec nl 0); cbn [negb]; [|destruct (Z.leb_spec nl 0); [lia|]];
    destruct (rd _ _); cbn [mbind option_bind]; try done; destruct (wr _ _ _); done.
Qed.

Lemma extract_fresh f p f' p' left err :
  starts_line_unit p → extract_data_units (reset_frame f) p = Some (f', p', left, err) → 0 ≤ err.
Proof.
  intros (uid & len & E0 & E1 & Hlen & Hp & system & bl & sv & pl & Hl) H. unfold extract_data_units in H.
  destruct (length p) as [|n] eqn:En; [lia|]. cbn [extract_loop] in H.
  destruct (Z.ltb_spec 2 (Z.of_nat (length p))); [|by simplify_eq].
  rewrite E0, E1 in H. cbn [mbind option_bind] in H.
  destruct (Z.ltb_spec (Z.of_nat (length p) - 2) len); [by simplify_eq|].
  destruct (data_unit (reset_frame f) p uid len) as [[f1 e]|] eqn:Ed; cbn [mbind option_bind] in H; [|done].
  rewrite Hl in Ed. assert (0 ≤ e ∧ (e = 0 → 0 < n_data_units f1)) as [He Hn].
  { unfold sliced_unit in Ed. destruct (rd p 2) as [lofp|]; cbn [mbind option_bind] in Ed; [|done].
    destruct (line_address _ _ _) as [[f2 r]|] eqn:Ea; cbn [mbind option_bind] in Ed; [|done].
    destruct r as [e'|slot].
    - simplify_eq. pose proof (line_address_fresh _ _ _ _ _ Ea). split; [done|].
      unfold line_address in Ea. intros ->. repeat case_match; simplify_option_eq.
    - apply line_address_result in Ea. cbn in Ea.
      destruct (rd _ slot) as [s|]; cbn [mbind option_bind] in Ed; [|done]. destruct (bl _ _); [by simplify_eq|].
      destruct pl as [l|]; cbn [mbind option_bind] in Ed; [|done]. unfold put_line in Ed.
      simplify_option_eq. lia. }
  destruct (Z.eqb_spec e 0) as [->|]; cbn [negb] in H; [|by simplify_eq].
  destruct (Z.le_gt_cases 0 err) as [|Hneg]; [done|].
  apply extract_loop_err in H as [_ Hn']. destruct (Hn' Hneg) as [Hn'' _]. cbn in Hn''. lia.
Qed.

(** ** Contexts *)

Definition dx_ok (dx : vbi_dvb_demux) : Prop :=
  frame_ok (frame_ dx) ∧ Z.of_nat (length (buffer (pes_wrap dx))) = 65552 ∧
  0 ≤ skip (pes_wrap dx) ∧ 48 ≤ lookahead (pes_wrap dx) ≤ 65536.

Lemma reset_frame_ok f : frame_ok f → frame_ok (reset_frame f).
Proof. intros (Hsp & Hl0 & Hd & Hle & Hasc). split_and!; cbn; try done; intros; lia. Qed.

(** Two contexts that differ in the frame and its times. *)
Record same_wrap (dx dx' : vbi_dvb_demux) : Prop := {
  sw_pes : pes_wrap dx' = pes_wrap dx;
  sw_ts : ts_wrap dx' = ts_wrap dx;
  sw_sync : ts_in_sync dx' = ts_in_sync dx;
  sw_rest : (ts_frame_bp dx', ts_frame_todo dx', ts_pes_bp dx', ts_pes_todo dx', ts_continuity dx', ts_pid dx') =
    (ts_frame_bp dx, ts_frame_todo dx, ts_pes_bp dx, ts_pes_todo dx, ts_continuity dx, ts_pid dx)
}.

Lemma same_wrap_refl dx : same_wrap dx dx.
Proof. done. Qed.
Lemma same_wrap_trans a b c : same_wrap a b → same_wrap b c → same_wrap a c.
Proof. intros [] []. split; congruence. Qed.

Section frames.
Context {C : Type} (callback : option (C → list vbi_sliced → Z → C * bool)).

(** The loop over frames ends: after a new frame has begun in a packet the packet
    begins no other. *)
Lemma demux_pes_packet_frame_returns fuel dx src c :
  bytes src → frame_ok (frame_ dx) →
  (2 ≤ fuel)%nat ∨ (1 ≤ fuel)%nat ∧ new_frame dx = true ∧ starts_line_unit src →
  ∃ dx' k left err c', demux_pes_packet_frame callback fuel dx src c = Some (dx', drop k src, left, err, c') ∧
    same_wrap dx dx' ∧ frame_ok (frame_ dx') ∧ 0 ≤ err ∧
    ((∀ cb, callback = Some cb → ∀ c l t, (cb c l t).2 = true) → callback ≠ None → err ≠ VBI_ERR_CALLBACK) ∧
    packet_pts dx' = packet_pts dx ∧
    (err = 0 → left = 0) ∧ 0 ≤ left ≤ Z.of_nat (length (drop k src)).
Proof.
  revert dx src c. induction fuel as [|fuel IH]; intros dx src c Hb Hf Hfuel; [lia|].
  cbn [demux_pes_packet_frame].
  set (dx0 := if new_frame dx then _ else dx).
  assert (same_wrap dx dx0 ∧ packet_pts dx0 = packet_pts dx ∧ frame_ok (frame_ dx0) ∧
    (new_frame dx = true → frame_ dx0 = reset_frame (frame_ dx))) as (Hsw & Hpts & Hf0 & Hres).
  { subst dx0. destruct (new_frame dx); split_and!; try done. by apply reset_frame_ok. }
  destruct (extract_loop_ok (length src) (frame_ dx0) src) as (f & k & left & err & E & Hl & Hf1 & He);
    [done|done|done|]. unfold extract_data_units in *. rewrite E. cbn [mbind option_bind].
  destruct (Z.leb_spec 0 err).
  - exists (set_frame f dx0), k, left, err, c. split; [done|]. split; [by destruct Hsw|]. split_and!; try done; try lia.
    intros _ _. apply extract_loop_err in E as [E _]. lia.
  - assert (starts_line_unit (drop k src)) as Hs by (by apply (extract_loop_err _ _ _ _ _ _ _ E)).
    assert ((1 ≤ fuel)%nat) as Hfuel'.
    { destruct Hfuel as [|(_ & Hn & Hs0)]; [lia|]. rewrite Hres in E by done.
      pose proof (extract_fresh (frame_ dx) src _ _ _ _ Hs0 E). lia. }
    assert (same_wrap dx (set_new_frame true (set_frame f dx0))) as Hsw' by (by destruct Hsw).
    destruct callback as [cb|].
    + destruct (cb c _ _) as [c1 ok] eqn:Ecb.
      destruct ok.
      * destruct (IH (set_new_frame true (set_frame f dx0)) (drop k src) c1)
          as (dx' & k' & left' & err' & c' & -> & Hsw2 & Hf2 & He2 & Hcb & Hp2 & Hz & Hlr); [by apply Forall_drop|done|by right|].
        exists dx', (k + k')%nat, left', err', c'. rewrite drop_drop. split; [done|].
        split; [by eapply same_wrap_trans|]. rewrite drop_drop in Hlr. split_and!; try done; try lia. by rewrite Hp2.
      * eexists _, k, left, VBI_ERR_CALLBACK, c1. split; [reflexivity|]. split_and!; try done; try lia.
        intros Ht _. specialize (Ht cb eq_refl). specialize (Ht c).
        pose proof (f_equal snd Ecb) as E2. by rewrite Ht in E2.
    + eexists _, k, left, VBI_ERR_CALLBACK, c. split; [reflexivity|]. split_and!; try done; lia.
Qed.
End frames.

(** ** The stream machine

    A demultiplexer without buffers: its state is a context whose wrap-around buffer
    is empty, and the bytes of the stream that are not used up yet.  It looks at
    exactly [lookahead] bytes at a time. *)
Definition set_skip (n : Z) (dx : vbi_dvb_demux) : vbi_dvb_demux :=
  set_pes_wrap (wrap_set_skip n (pes_wrap dx)) dx.

Definition core (dx : vbi_dvb_demux) : vbi_dvb_demux :=
  set_pes_wrap (Wrap [] 0 (skip (pes_wrap dx)) (consume (pes_wrap dx)) (lookahead (pes_wrap dx)) 0) dx.

(** The context with the buffer of [w]. *)
Definition rebuf (w : wrap) (dx : vbi_dvb_demux) : vbi_dvb_demux :=
  set_pes_wrap (Wrap (buffer w) (bp w) (skip (pes_wrap dx)) (consume (pes_wrap dx))
    (lookahead (pes_wrap dx)) (leftover w)) dx.

Section stream.
Context {C : Type} (callback : option (C → list vbi_sliced → Z → C * bool)).

Inductive stream_result : vbi_dvb_demux → list Z → C → vbi_dvb_demux → list Z → Z → C → Prop :=
  | stream_skips dx pend c :
      Z.of_nat (length pend) < skip (pes_wrap dx) →
      stream_result dx pend c (set_skip (skip (pes_wrap dx) - Z.of_nat (length pend)) dx) [] 0 c
  | stream_waits dx pend c :
      skip (pes_wrap dx) ≤ Z.of_nat (length pend) →
      Z.of_nat (length pend) - skip (pes_wrap dx) < lookahead (pes_wrap dx) →
      stream_result dx pend c (set_skip 0 dx) (drop (Z.to_nat (skip (pes_wrap dx))) pend) 0 c
  | stream_steps dx pend c dx1 c1 dx2 rest err c2 :
      skip (pes_wrap dx) + lookahead (pes_wrap dx) ≤ Z.of_nat (length pend) →
      demux_pes_data callback (set_skip 0 dx)
        (take (Z.to_nat (lookahead (pes_wrap dx))) (drop (Z.to_nat (skip (pes_wrap dx))) pend)) 0 c =
        Some (dx1, 0, c1) →
      stream_result dx1 (drop (Z.to_nat (skip (pes_wrap dx))) pend) c1 dx2 rest err c2 →
      stream_result dx pend c dx2 rest err c2
  | stream_stops dx pend c dx1 err c1 :
      skip (pes_wrap dx) + lookahead (pes_wrap dx) ≤ Z.of_nat (length pend) →
      demux_pes_data callback (set_skip 0 dx)
        (take (Z.to_nat (lookahead (pes_wrap dx))) (drop (Z.to_nat (skip (pes_wrap dx))) pend)) 0 c =
        Some (dx1, err, c1) → err ≠ 0 →
      stream_result dx pend c dx1 (drop (Z.to_nat (skip (pes_wrap dx))) pend) err c1.

Definition wrap_pos (dx : vbi_dvb_demux) : Prop := 0 ≤ skip (pes_wrap dx) ∧ 0 ≤ lookahead (pes_wrap dx).

Lemma packet_frame_same_wrap fuel dx src c dx' p left err c' :
  demux_pes_packet_frame callback fuel dx src c = Some (dx', p, left, err, c') → same_wrap dx dx'.
Proof.
  revert dx src c. induction fuel as [|fuel IH]; intros dx src c; cbn [demux_pes_packet_frame]; [done|].
  set (dx0 := if new_frame dx then _ else dx).
  assert (same_wrap dx dx0) as Hsw by (subst dx0; by destruct (new_frame dx)).
  destruct (extract_data_units _ _) as [[[[f p1] left1] e]|]; cbn [mbind option_bind]; [|done].
  assert (same_wrap dx (set_frame f dx0)) as Hsw1 by (by destruct Hsw).
  assert (same_wrap dx (set_new_frame true (set_frame f dx0))) as Hsw2 by (by destruct Hsw).
  destruct (0 <=? e); [by intros; simplify_eq|]. destruct callback as [cb|]; [|by intros; simplify_eq].
  destruct (cb c _ _) as [c1 ok]. destruct ok; [|by intros; simplify_eq].
  intros H%IH. by eapply same_wrap_trans.
Qed.

Lemma valid_header_same dx p dx' v :
  valid_vbi_pes_packet_header dx p = Some (dx', v) → dx' = dx ∨ ∃ t, dx' = set_packet_pts t dx.
Proof.
  unfold valid_vbi_pes_packet_header.
  destruct (rd p 8) as [x|]; cbn [mbind option_bind]; [|done]. destruct (negb _); [intros [= <- <-]; by left|].
  destruct (rd p (9 + 36)) as [y|]; cbn [mbind option_bind]; [|done]. destruct (negb _); [intros [= <- <-]; by left|].
  destruct (rd p 6) as [z|]; cbn [mbind option_bind]; [|done]. destruct (negb _); [intros [= <- <-]; by left|].
  destruct (rd p 7) as [w|]; cbn [mbind option_bind]; [|done].
  destruct ((w ≫ 6 =? 2) || (w ≫ 6 =? 3)).
  - destruct (decode_timestamp _) as [t|]; cbn [mbind option_bind]; [|done]. intros [= <- <-]. right. by exists t.
  - destruct (new_frame dx); intros H; simplify_eq; by left.
Qed.

Lemma scan_ahead fuel data p scan_end r :
  bytes data → start_code_scan fuel data p scan_end = Some r →
  match r with Found q => p ≤ q | Skip n => p < n end.
Proof.
  intros Hb. revert p. induction fuel as [|fuel IH]; intros p; cbn [start_code_scan]; [done|].
  destruct (rd data p) as [p0|]; cbn [mbind option_bind]; [|done].
  destruct (rd data (p + 1)) as [p1|]; cbn [mbind option_bind]; [|done].
  destruct (rd data (p + 2)) as [p2|]; cbn [mbind option_bind]; [|done].
  destruct (rd data (p + 3)) as [p3|]; cbn [mbind option_bind]; [|done].
  assert (∀ q, p < q → (if scan_end <=? q then Some (Skip q) else start_code_scan fuel data q scan_end) = Some r →
    match r with Found q => p ≤ q | Skip n => p < n end) as Hnext.
  { intros q Hq. destruct (_ <=? q); [by intros [= <-]|]. intros Hr%IH. destruct r; lia. }
  destruct (negb _); [apply Hnext; lia|]. destruct (_ || _); [apply Hnext; lia|].
  destruct (p3 =? _); [by intros [= <-]|]. destruct (p3 <? _); [apply Hnext; lia|].
  destruct (rd data (p + 4)) as [p4|] eqn:E4; cbn [mbind option_bind]; [|done].
  destruct (rd data (p + 5)) as [p5|] eqn:E5; cbn [mbind option_bind]; [|done].
  intros [= <-]. apply rd_nonneg in E4, E5; [|done|done]. lia.
Qed.

Lemma stream_pos dx data c dx' err c' :
  wrap_pos dx → bytes data → demux_pes_data callback dx data 0 c = Some (dx', err, c') → wrap_pos dx'.
Proof.
  intros [Hs Hl] Hb. unfold demux_pes_data.
  destruct (Z.ltb_spec PES_HEADER_LOOKAHEAD (lookahead (pes_wrap dx))).
  - destruct (slice _ _ _) as [pk|]; cbn [mbind option_bind]; [|done].
    destruct (demux_pes_packet_frame _ _ _ _ _) as [[[[[dx1 p] left] e] c1]|] eqn:E; cbn [mbind option_bind]; [|done].
    apply packet_frame_same_wrap in E as [E _ _ _]. cbn in E. destruct (e =? _).
    + intros [= <- <- <-]. unfold wrap_pos. by rewrite E.
    + intros [= <- <- <-]. unfold wrap_pos. destruct (e <? 0); cbn; rewrite E; done.
  - destruct (start_code_scan _ _ _ _) as [[p|n]|] eqn:E; cbn [mbind option_bind]; [| |done].
    + apply scan_ahead in E; [|done]. unfold packet_header.
      destruct (rd data (p + 4)) as [p4|] eqn:E4; cbn [mbind option_bind]; [|done].
      destruct (rd data (p + 5)) as [p5|] eqn:E5; cbn [mbind option_bind]; [|done].
      apply rd_nonneg in E4, E5; [|done|done].
      destruct (Z.ltb_spec (p4 * 256 + p5) 178); [intros [= <- <- <-]; split; cbn; lia|].
      destruct (valid_vbi_pes_packet_header _ _) as [[dx1 v]|] eqn:Ev; cbn [mbind option_bind]; [|done].
      assert (pes_wrap dx1 = wrap_set_skip (p + 6 + (p4 * 256 + p5)) (pes_wrap dx)) as Ew.
      { by destruct (valid_header_same _ _ _ _ Ev) as [->|[t ->]]. }
      destruct v; cbn [negb]; intros [= <- <- <-]; unfold wrap_pos; cbn; rewrite ?Ew; cbn; lia.
    + intros [= <- <- <-]. apply scan_ahead in E; [|done]. split; cbn; [lia|done].
Qed.

Lemma stream_result_det dx pend c dx1 r1 e1 c1 dx2 r2 e2 c2 :
  stream_result dx pend c dx1 r1 e1 c1 → stream_result dx pend c dx2 r2 e2 c2 →
  wrap_pos dx → bytes pend → dx1 = dx2 ∧ r1 = r2 ∧ e1 = e2 ∧ c1 = c2.
Proof.
  intros H1 H2. revert dx2 r2 e2 c2 H2.
  induction H1 as [dx pend c|dx pend c|dx pend c dx' c' dx1' rest e c1' Hle Hd Hrec IH|];
    intros dx2' r2' e2' c2' H2' [Hs Hl] Hb;
    inversion H2'; subst; try lia; try done; simplify_eq; try done.
  apply IH; [done| |by apply Forall_drop]. eapply stream_pos; [|by apply Forall_take, Forall_drop|done].
  by split.
Qed.

(** Bytes to be skipped can be taken off the front. *)
Lemma stream_shift dx pend c dx' rest err c' n p :
  0 ≤ n → 0 ≤ p ≤ Z.of_nat (length pend) → skip (pes_wrap dx) = p + n →
  stream_result (set_skip n dx) (drop (Z.to_nat p) pend) c dx' rest err c' →
  stream_result dx pend c dx' rest err c'.
Proof.
  intros Hn Hp E1 H. assert (drop (Z.to_nat n) (drop (Z.to_nat p) pend) = drop (Z.to_nat (p + n)) pend) as E.
  { rewrite drop_drop. f_equal. lia. }
  assert (length (drop (Z.to_nat p) pend) = length pend - Z.to_nat p)%nat as El by (by rewrite length_drop).
  inversion H; subst; change (skip (pes_wrap (set_skip n dx))) with n in *; rewrite ?El in *.
  - replace (n - Z.of_nat (length pend - Z.to_nat p)) with (p + n - Z.of_nat (length pend))
      by (clear -Hp; lia).
    pose proof (stream_skips dx pend) as G. rewrite E1 in G. apply (G c'). lia.
  - pose proof (stream_waits dx pend) as G. rewrite E1, <-E in G. apply (G c'); [lia|].
    change (lookahead (pes_wrap (set_skip n dx))) with (lookahead (pes_wrap dx)) in *. lia.
  - pose proof (stream_steps dx pend) as G. rewrite E1, <-E in G.
    change (lookahead (pes_wrap (set_skip n dx))) with (lookahead (pes_wrap dx)) in *.
    eapply G; [lia|done|done].
  - pose proof (stream_stops dx pend) as G. rewrite E1, <-E in G.
    change (lookahead (pes_wrap (set_skip n dx))) with (lookahead (pes_wrap dx)) in *.
    eapply G; [lia|done|done].
Qed.

Lemma stream_app dx a b c dx1 rest c1 dx2 rest2 err c2 :
  stream_result dx a c dx1 rest 0 c1 → wrap_pos dx → bytes a →
  stream_result dx1 (rest ++ b) c1 dx2 rest2 err c2 →
  stream_result dx (a ++ b) c dx2 rest2 err c2.
Proof.
  intros H1 Hs0 Hb0. remember 0 as e eqn:He. revert He.
  induction H1 as [dx pend c|dx pend c|dx pend c dx' c' dx2' rest e c2' Hle Hd Hrec IH|];
    intros He H2; destruct Hs0 as [Hs Hl]; [..|done].
  - cbn [app] in H2. eapply (stream_shift _ _ _ _ _ _ _ (skip (pes_wrap dx) - Z.of_nat (length pend)) (Z.of_nat (length pend)));
      [lia|rewrite length_app; lia|lia|]. by rewrite Nat2Z.id, drop_app_length.
  - eapply (stream_shift _ _ _ _ _ _ _ 0 (skip (pes_wrap dx))); [lia|rewrite length_app; lia|lia|].
    by rewrite drop_app_le by lia.
  - eapply stream_steps.
    + rewrite length_app. lia.
    + rewrite drop_app_le, take_app_le by (rewrite ?length_drop; lia). done.
    + rewrite drop_app_le by lia. apply IH; [|by apply Forall_drop|done|done].
      eapply stream_pos; [|by apply Forall_take, Forall_drop|done]. by split.
Qed.
End stream.

(** ** The demultiplexer implements the stream machine *)

(** Changes of a context that leave the frame and its times alone. *)
Record keeps_frames (g : vbi_dvb_demux → vbi_dvb_demux) : Prop := {
  kf_frame dx : frame_ (g dx) = frame_ dx;
  kf_frame_pts dx : frame_pts (g dx) = frame_pts dx;
  kf_packet_pts dx : packet_pts (g dx) = packet_pts dx;
  kf_new_frame dx : new_frame (g dx) = new_frame dx;
  kf_set_frame f dx : g (set_frame f dx) = set_frame f (g dx);
  kf_set_frame_pts t dx : g (set_frame_pts t dx) = set_frame_pts t (g dx);
  kf_set_packet_pts t dx : g (set_packet_pts t dx) = set_packet_pts t (g dx);
  kf_set_new_frame b dx : g (set_new_frame b dx) = set_new_frame b (g dx)
}.

Section refine.
Context {C : Type} (callback : option (C → list vbi_sliced → Z → C * bool)).

Lemma packet_frame_commutes g fuel dx src c :
  keeps_frames g →
  demux_pes_packet_frame callback fuel (g dx) src c =
  (λ '(dx', p, src_left, err, c'), (g dx', p, src_left, err, c')) <$> demux_pes_packet_frame callback fuel dx src c.
Proof.
  intros [G1 G2 G3 G4 S1 S2 S3 S4]. revert dx src c.
  induction fuel as [|fuel IH]; intros dx src c; cbn [demux_pes_packet_frame]; [done|].
  rewrite G1, G3, G4, <-S1, <-S2, <-S4.
  set (dx0 := if new_frame dx then _ else dx).
  assert ((if new_frame dx then g (set_new_frame false (set_frame_pts (packet_pts dx) (set_frame (reset_frame (frame_ dx)) dx)))
    else g dx) = g dx0) as -> by (subst dx0; by destruct (new_frame dx)).
  rewrite G1.
  destruct (extract_data_units _ _) as [[[[f p1] left1] e]|]; cbn [mbind option_bind fmap option_fmap option_map]; [|done].
  rewrite <-S1, <-S4, ?G2. destruct (0 <=? e); [done|]. destruct callback as [cb|]; [|done].
  destruct (cb c _ _) as [c1 ok]. destruct ok; [|done]. by rewrite IH.
Qed.

Lemma valid_header_commutes g dx p :
  keeps_frames g →
  valid_vbi_pes_packet_header (g dx) p = (λ '(dx', v), (g dx', v)) <$> valid_vbi_pes_packet_header dx p.
Proof.
  intros [G1 G2 G3 G4 S1 S2 S3 S4]. unfold valid_vbi_pes_packet_header.
  destruct (rd p 8) as [x|]; cbn [mbind option_bind]; [|done]. destruct (negb _); [done|].
  destruct (rd p (9 + 36)) as [y|]; cbn [mbind option_bind]; [|done]. destruct (negb _); [done|].
  destruct (rd p 6) as [z|]; cbn [mbind option_bind]; [|done]. destruct (negb _); [done|].
  destruct (rd p 7) as [u|]; cbn [mbind option_bind]; [|done].
  destruct ((u ≫ 6 =? 2) || (u ≫ 6 =? 3)).
  - destruct (decode_timestamp _) as [t|]; cbn [mbind option_bind fmap option_fmap option_map]; [|done]. by rewrite S3.
  - rewrite G4. by destruct (new_frame dx).
Qed.

(** What a context does with data does not depend on its wrap-around buffer. *)
Lemma demux_pes_data_rebuf w dx data scan_end c :
  demux_pes_data callback (rebuf w dx) data scan_end c =
  (λ '(dx', err, c'), (rebuf w dx', err, c')) <$> demux_pes_data callback dx data scan_end c.
Proof.
  unfold demux_pes_data. change (lookahead (pes_wrap (rebuf w dx))) with (lookahead (pes_wrap dx)).
  destruct (_ <? _).
  - destruct (slice _ _ _) as [pk|]; cbn [mbind option_bind]; [|done].
    set (dx1 := set_frame (set_n_data_units 0 (frame_ dx)) dx).
    change (set_frame (set_n_data_units 0 (frame_ (rebuf w dx))) (rebuf w dx)) with
      (set_pes_wrap (pes_wrap (rebuf w dx)) dx1).
    rewrite (packet_frame_commutes (set_pes_wrap _)) by done. destruct (demux_pes_packet_frame _ _ _ _ _) as [[[[[dx2 p] left] e] c1]|] eqn:E;
      cbn [mbind option_bind fmap option_fmap option_map]; [|done].
    apply packet_frame_same_wrap in E as [E _ _ _]. change (pes_wrap dx1) with (pes_wrap dx) in E.
    destruct (e =? _); cbn [fmap option_fmap option_map]; unfold rebuf; [by rewrite E|].
    by destruct (e <? 0); cbn; rewrite E.
  - destruct (start_code_scan _ _ _ _) as [[p|n]|]; cbn [mbind option_bind fmap option_fmap option_map]; [|done|done].
    unfold packet_header.
    destruct (rd data (p + 4)) as [p4|]; cbn [mbind option_bind]; [|done].
    destruct (rd data (p + 5)) as [p5|]; cbn [mbind option_bind]; [|done].
    destruct (_ <? 178); [done|].
    set (dx1 := set_pes_wrap (wrap_set_skip (p + 6 + (p4 * 256 + p5)) (pes_wrap dx)) dx).
    change (set_pes_wrap (wrap_set_skip (p + 6 + (p4 * 256 + p5)) (pes_wrap (rebuf w dx))) (rebuf w dx)) with
      (set_pes_wrap (pes_wrap (rebuf w dx1)) dx1).
    rewrite (valid_header_commutes (set_pes_wrap _)) by done. destruct (valid_vbi_pes_packet_header dx1 _) as [[dx2 v]|] eqn:E;
      cbn [mbind option_bind fmap option_fmap option_map]; [|done].
    assert (pes_wrap dx2 = pes_wrap dx1) as Ew by (by destruct (valid_header_same _ _ _ _ E) as [->|[t ->]]).
    by destruct v; cbn [negb mbind option_bind]; unfold rebuf; cbn; rewrite ?Ew.
Qed.

Lemma rd_window (data : list Z) p i : 0 ≤ p → 0 ≤ i < 48 → rd (take 48 (drop (Z.to_nat p) data)) i = rd data (p + i).
Proof. intros Hp Hi. rewrite rd_take, rd_drop by lia. f_equal. lia. Qed.

Lemma valid_header_take dx q :
  valid_vbi_pes_packet_header dx (take 48 q) = valid_vbi_pes_packet_header dx q.
Proof.
  unfold valid_vbi_pes_packet_header, decode_timestamp.
  rewrite !rd_drop by lia. rewrite !rd_take by lia. done.
Qed.

Lemma packet_header_shift dx data p dx' :
  0 ≤ p → packet_header dx data p = Some dx' →
  ∃ dxh, packet_header (set_skip 0 dx) (take 48 (drop (Z.to_nat p) data)) 0 = Some dxh ∧
    0 ≤ p ∧ dx' = set_skip (p + skip (pes_wrap dxh)) dxh ∧ (bytes data → 0 ≤ skip (pes_wrap dxh)).
Proof.
  intros Hp. unfold packet_header. change (Z.to_nat 0) with 0%nat. rewrite drop_0, !rd_window by lia.
  change (p + (0 + 4)) with (p + 4). change (p + (0 + 5)) with (p + 5).
  destruct (rd data (p + 4)) as [p4|] eqn:E4; cbn [mbind option_bind]; [|done].
  destruct (rd data (p + 5)) as [p5|] eqn:E5; cbn [mbind option_bind]; [|done].
  assert (bytes data → 0 ≤ 0 + 6 + (p4 * 256 + p5)) as Hpos.
  { intros Hb. apply rd_nonneg in E4, E5; [lia|done|done]. }
  destruct (_ <? 178).
  { intros [= <-]. eexists. split; [reflexivity|]. split; [done|]. split; [|done].
    by replace (p + 6 + (p4 * 256 + p5)) with (p + (0 + 6 + (p4 * 256 + p5))) by lia. }
  rewrite valid_header_take. set (d1 := set_pes_wrap _ dx). set (d2 := set_pes_wrap _ (set_skip 0 dx)).
  assert (d1 = set_pes_wrap (pes_wrap d1) d2) as -> by done. rewrite (valid_header_commutes (set_pes_wrap _)) by done.
  destruct (valid_vbi_pes_packet_header d2 _) as [[dxv v]|] eqn:E;
    cbn [mbind option_bind fmap option_fmap option_map]; [|done].
  assert (pes_wrap dxv = pes_wrap d2) as Ew by (by destruct (valid_header_same _ _ _ _ E) as [->|[t ->]]).
  destruct v; cbn [negb]; intros [= <-]; eexists; (split; [reflexivity|]); (split; [done|]); (split; [|]).
  - unfold set_skip, set_pes_wrap, wrap_set_skip, wrap_set_lookahead. cbn. rewrite Ew. cbn. f_equal. f_equal. lia.
  - cbn. lia.
  - unfold set_skip, set_pes_wrap, wrap_set_skip. cbn. rewrite Ew. cbn. f_equal. f_equal. lia.
  - cbn. rewrite Ew. done.
Qed.
End refine.

Section machine.
Context {C : Type} (callback : option (C → list vbi_sliced → Z → C * bool)).

Lemma stream_unshift dx pend c dx' rest err c' n p :
  0 ≤ n → 0 ≤ p ≤ Z.of_nat (length pend) → skip (pes_wrap dx) = p + n →
  stream_result callback dx pend c dx' rest err c' →
  stream_result callback (set_skip n dx) (drop (Z.to_nat p) pend) c dx' rest err c'.
Proof.
  intros Hn Hp E1 H. assert (drop (Z.to_nat n) (drop (Z.to_nat p) pend) = drop (Z.to_nat (p + n)) pend) as E.
  { rewrite drop_drop. f_equal. lia. }
  assert (length (drop (Z.to_nat p) pend) = length pend - Z.to_nat p)%nat as El by (by rewrite length_drop).
  pose proof (stream_skips callback (set_skip n dx) (drop (Z.to_nat p) pend)) as G1.
  pose proof (stream_waits callback (set_skip n dx) (drop (Z.to_nat p) pend)) as G2.
  pose proof (stream_steps callback (set_skip n dx) (drop (Z.to_nat p) pend)) as G3.
  pose proof (stream_stops callback (set_skip n dx) (drop (Z.to_nat p) pend)) as G4.
  cbn [pes_wrap set_skip set_pes_wrap wrap_set_skip skip lookahead] in G1, G2, G3, G4.
  rewrite El, ?E in *.
  inversion H; subst; rewrite ?E1 in *.
  - replace (p + n - Z.of_nat (length pend)) with (n - Z.of_nat (length pend - Z.to_nat p)) by lia.
    apply (G1 c'). lia.
  - apply (G2 c'); lia.
  - eapply G3; [lia|done|done].
  - eapply G4; [lia|done|done].
Qed.

(** One header position. *)
Lemma stream_position dx pend c dx1 dx' rest err c' p :
  lookahead (pes_wrap dx) = 48 → 0 ≤ p → p + 48 ≤ Z.of_nat (length pend) → 0 ≤ skip (pes_wrap dx1) →
  demux_pes_data callback (set_skip 0 dx) (take 48 (drop (Z.to_nat p) pend)) 0 c = Some (dx1, 0, c) →
  stream_result callback (set_skip (p + skip (pes_wrap dx1)) dx1) pend c dx' rest err c' →
  stream_result callback (set_skip p dx) pend c dx' rest err c'.
Proof.
  intros Hl Hp Hlen Hs Hd H. eapply (stream_steps callback (set_skip p dx)); cbn [pes_wrap set_skip set_pes_wrap wrap_set_skip skip lookahead].
  - lia.
  - rewrite Hl. exact Hd.
  - assert (0 ≤ p ≤ Z.of_nat (length pend)) as Hp' by lia.
    pose proof (stream_unshift (set_skip (p + skip (pes_wrap dx1)) dx1) _ _ _ _ _ _ (skip (pes_wrap dx1)) p
      Hs Hp' eq_refl H) as H'.
    assert (set_skip (skip (pes_wrap dx1)) (set_skip (p + skip (pes_wrap dx1)) dx1) = dx1) as E
      by (by destruct dx1 as [[] ? ? ? ? ? ? ? ? ? ? ? ?]).
    by rewrite E in H'.
Qed.

(** Scanning the whole buffer is looking at one position after the other. *)
Lemma stream_scan fuel dx data pend c p scan_end r dx1 dx' rest err c' :
  lookahead (pes_wrap dx) = 48 → bytes data → data `prefix_of` pend →
  Z.of_nat (length data) = scan_end + 48 → 0 ≤ p ≤ scan_end →
  start_code_scan fuel data p scan_end = Some r →
  match r with Found q => packet_header dx data q | Skip n => Some (set_skip n dx) end = Some dx1 →
  stream_result callback dx1 pend c dx' rest err c' →
  stream_result callback (set_skip p dx) pend c dx' rest err c'.
Proof.
  intros Hl Hb [tail ->] Hlen. revert p. induction fuel as [|fuel IH]; intros p Hp; cbn [start_code_scan]; [done|].
  assert (take 48 (drop (Z.to_nat p) (data ++ tail)) = take 48 (drop (Z.to_nat p) data)) as Ew.
  { rewrite drop_app_le by lia. rewrite take_app_le; [done|]. rewrite length_drop. lia. }
  assert (∀ n, 0 ≤ n → start_code_scan 1 (take 48 (drop (Z.to_nat p) data)) 0 0 = Some (Skip n) →
    stream_result callback (set_skip (p + n) dx) (data ++ tail) c dx' rest err c' →
    stream_result callback (set_skip p dx) (data ++ tail) c dx' rest err c') as Hskip.
  { intros n Hn E H. apply (stream_position _ _ _ (set_skip n dx)); try done.
    - lia.
    - rewrite length_app. lia.
    - unfold demux_pes_data. change (lookahead (pes_wrap (set_skip 0 dx))) with (lookahead (pes_wrap dx)).
      rewrite Hl, Ew. change (PES_HEADER_LOOKAHEAD <? 48) with false. cbv iota. change (Z.to_nat 0 + 1)%nat with 1%nat.
      by rewrite E. }
  cbn [start_code_scan] in Hskip. rewrite !rd_window in Hskip by lia.
  change (p + (0 + 1)) with (p + 1) in Hskip. change (p + (0 + 2)) with (p + 2) in Hskip.
  change (p + (0 + 3)) with (p + 3) in Hskip. rewrite Z.add_0_r in Hskip.
  destruct (rd data p) as [p0|] eqn:E0; cbn [mbind option_bind] in *; [|done].
  destruct (rd data (p + 1)) as [p1|] eqn:E1; cbn [mbind option_bind] in *; [|done].
  destruct (rd data (p + 2)) as [p2|] eqn:E2; cbn [mbind option_bind] in *; [|done].
  destruct (rd data (p + 3)) as [p3|] eqn:E3; cbn [mbind option_bind] in *; [|done].
  assert (∀ n, 0 ≤ n → (if 0 <=? 0 + n then Some (Skip (0 + n)) else None) = Some (Skip n)) as Hnext
    by (intros n Hn; destruct (Z.leb_spec 0 (0 + n)); [done|lia]).
  assert (∀ n, 0 ≤ n → (stream_result callback (set_skip (p + n) dx) (data ++ tail) c dx' rest err c' →
     stream_result callback (set_skip p dx) (data ++ tail) c dx' rest err c') →
    (if scan_end <=? p + n then Some (Skip (p + n)) else start_code_scan fuel data (p + n) scan_end) = Some r →
    match r with Found q => packet_header dx data q | Skip n => Some (set_skip n dx) end = Some dx1 →
    stream_result callback dx1 (data ++ tail) c dx' rest err c' →
    stream_result callback (set_skip p dx) (data ++ tail) c dx' rest err c') as Hgo.
  { intros n Hn Hfin. destruct (Z.leb_spec scan_end (p + n)).
    - intros [= <-] [= <-] H'. by apply Hfin.
    - intros Hr Hm H'. apply Hfin. apply IH; [lia|done|done|done]. }
  destruct (negb (p2 .& Z.lnot 1 =? 0)) eqn:Eb1.
  { apply Hgo; [lia|]. apply (Hskip 3); [lia|]. by apply Hnext. }
  destruct (negb (p0 .| p1 =? 0) || negb (p2 =? 1)) eqn:Eb2.
  { apply Hgo; [lia|]. apply (Hskip 1); [lia|]. by apply Hnext. }
  destruct (p3 =? PRIVATE_STREAM_1) eqn:Ep3.
  { intros [= <-] Hh H. destruct (packet_header_shift _ _ _ _ (proj1 Hp) Hh) as (dxh & Eh & _ & -> & Hs).
    apply (stream_position _ _ _ dxh); try done; [lia|rewrite length_app; lia|by apply Hs|].
    unfold demux_pes_data. change (lookahead (pes_wrap (set_skip 0 dx))) with (lookahead (pes_wrap dx)).
    rewrite Hl, Ew. change (PES_HEADER_LOOKAHEAD <? 48) with false. cbv iota. change (Z.to_nat 0 + 1)%nat with 1%nat.
    cbn [start_code_scan]. rewrite !rd_window by lia.
    change (p + (0 + 1)) with (p + 1). change (p + (0 + 2)) with (p + 2). change (p + (0 + 3)) with (p + 3).
    rewrite Z.add_0_r, E0, E1, E2, E3. cbn [mbind option_bind].
    rewrite Eb1, Eb2, Ep3. cbn [mbind option_bind]. by rewrite Eh. }
  destruct (p3 <? 0xBC).
  { apply Hgo; [lia|]. apply (Hskip 1); [lia|]. by apply Hnext. }
  change (p + (0 + 4)) with (p + 4) in Hskip. change (p + (0 + 5)) with (p + 5) in Hskip.
  destruct (rd data (p + 4)) as [p4|] eqn:E4; cbn [mbind option_bind] in *; [|done].
  destruct (rd data (p + 5)) as [p5|] eqn:E5; cbn [mbind option_bind] in *; [|done].
  intros [= <-] [= <-] H. apply rd_nonneg in E4, E5; [|done|done].
  apply (Hskip (6 + (p4 * 256 + p5))); [lia|do 2 f_equal; lia|].
  by replace (p + (6 + (p4 * 256 + p5))) with (p + 6 + (p4 * 256 + p5)) by lia.
Qed.
End machine.

Lemma scan_returns fuel data p scan_end :
  bytes data → Z.of_nat (length data) = scan_end + 48 → 0 ≤ p ≤ scan_end →
  scan_end - p < Z.of_nat fuel →
  ∃ r, start_code_scan fuel data p scan_end = Some r ∧
    match r with Found q => p ≤ q ≤ scan_end | Skip n => p < n end.
Proof.
  intros Hb Hlen. revert p. induction fuel as [|fuel IH]; intros p Hp Hf; [lia|]. cbn [start_code_scan].
  destruct (rd_byte data p Hb) as (p0 & -> & _); [lia|]. destruct (rd_byte data (p + 1) Hb) as (p1 & -> & _); [lia|].
  destruct (rd_byte data (p + 2) Hb) as (p2 & -> & _); [lia|]. destruct (rd_byte data (p + 3) Hb) as (p3 & -> & _); [lia|].
  cbn [mbind option_bind].
  assert (∀ n, 0 < n → ∃ r, (if scan_end <=? p + n then Some (Skip (p + n)) else start_code_scan fuel data (p + n) scan_end) = Some r ∧
    match r with Found q => p ≤ q ≤ scan_end | Skip n => p < n end) as Hnext.
  { intros n Hn. destruct (Z.leb_spec scan_end (p + n)); [eexists; split; [reflexivity|cbn; lia]|].
    destruct (IH (p + n)) as (r & Hr & Hpost); [lia|lia|]. exists r. split; [done|]. destruct r; lia. }
  destruct (negb _); [by apply Hnext|]. destruct (_ || _); [by apply Hnext|].
  destruct (p3 =? _); [eexists; split; [reflexivity|cbn; lia]|]. destruct (p3 <? _); [by apply Hnext|].
  destruct (rd_byte data (p + 4) Hb) as (p4 & -> & H4); [lia|]. destruct (rd_byte data (p + 5) Hb) as (p5 & -> & H5); [lia|].
  cbn [mbind option_bind]. eexists. split; [reflexivity|]. unfold is_byte in *. cbn. lia.
Qed.

Lemma valid_header_returns dx q :
  bytes q → 48 ≤ Z.of_nat (length q) →
  ∃ dx' v, valid_vbi_pes_packet_header dx q = Some (dx', v) ∧ (dx' = dx ∨ ∃ t, dx' = set_packet_pts t dx).
Proof.
  intros Hq Hl. assert (∃ dx' v, valid_vbi_pes_packet_header dx q = Some (dx', v)) as (dx' & v & E).
  { unfold valid_vbi_pes_packet_header, decode_timestamp. rewrite !rd_drop by lia.
    destruct (rd_byte q 8 Hq) as (? & -> & _); [lia|]. destruct (rd_byte q (9 + 36) Hq) as (? & -> & _); [lia|].
    destruct (rd_byte q 6 Hq) as (? & -> & _); [lia|]. destruct (rd_byte q 7 Hq) as (? & -> & _); [lia|].
    destruct (rd_byte q (Z.of_nat 9 + 0) Hq) as (? & -> & _); [lia|]. destruct (rd_byte q (Z.of_nat 9 + 1) Hq) as (? & -> & _); [lia|].
    destruct (rd_byte q (Z.of_nat 9 + 2) Hq) as (? & -> & _); [lia|]. destruct (rd_byte q (Z.of_nat 9 + 3) Hq) as (? & -> & _); [lia|].
    destruct (rd_byte q (Z.of_nat 9 + 4) Hq) as (? & -> & _); [lia|]. cbn [mbind option_bind].
    repeat case_match; by eexists _, _. }
  exists dx', v. split; [done|]. by apply (valid_header_same _ _ _ _ E).
Qed.

Lemma packet_header_returns dx data p :
  bytes data → 0 ≤ p → p + 48 ≤ Z.of_nat (length data) → dx_ok dx →
  ∃ dx', packet_header dx data p = Some dx' ∧ dx_ok dx' ∧ rebuf (pes_wrap dx) dx' = dx' ∧ 1 ≤ skip (pes_wrap dx').
Proof.
  intros Hb Hp Hlen (Hf & Hbuf & Hs & Hla). unfold packet_header.
  destruct (rd_byte data (p + 4) Hb) as (p4 & -> & H4); [lia|]. destruct (rd_byte data (p + 5) Hb) as (p5 & -> & H5); [lia|].
  cbn [mbind option_bind]. unfold is_byte in *. set (len := p4 * 256 + p5). assert (0 ≤ len ≤ 65535) as Hlen' by lia.
  clearbody len. destruct (Z.ltb_spec len 178).
  { eexists. split; [done|]. split; [split_and!; cbn; try done; lia|]. split; [done|]. cbn. lia. }
  set (dx1 := set_pes_wrap _ dx).
  destruct (valid_header_returns dx1 (drop (Z.to_nat p) data)) as (dx2 & v & Ev & Hsame);
    [by apply Forall_drop|list_lia|].
  rewrite Ev. cbn [mbind option_bind].
  assert (pes_wrap dx2 = pes_wrap dx1 ∧ frame_ dx2 = frame_ dx1) as [Ew Ef]
    by (by destruct Hsame as [->|[t ->]]).
  destruct v; cbn [negb]; eexists; (split; [reflexivity|]); unfold dx_ok, rebuf; cbn; rewrite ?Ew, Ef; cbn;
    split_and!; try done; try lia; try apply Hf.
  destruct dx2; cbn in *; by subst.
Qed.

Section feed.
Context {C : Type} (callback : option (C → list vbi_sliced → Z → C * bool)).

(** The callbacks there are return TRUE. *)
Definition cb_true : Prop := ∃ cb, callback = Some cb ∧ ∀ c l t, (cb c l t).2 = true.

Lemma demux_pes_data_ok dx data scan_end c :
  dx_ok dx → skip (pes_wrap dx) = 0 → bytes data →
  Z.of_nat (length data) = scan_end + lookahead (pes_wrap dx) → 0 ≤ scan_end →
  ∃ dx' err c', demux_pes_data callback dx data scan_end c = Some (dx', err, c') ∧ dx_ok dx' ∧
    rebuf (pes_wrap dx) dx' = dx' ∧ (err = 0 ∧ 1 ≤ skip (pes_wrap dx') ∨ err ≠ 0) ∧ (cb_true → err = 0).
Proof.
  intros Hok Hs0 Hb Hlen Hse. pose proof Hok as (Hf & Hbuf & Hs & Hla). unfold demux_pes_data.
  destruct (Z.ltb_spec PES_HEADER_LOOKAHEAD (lookahead (pes_wrap dx))) as [Hbig|Hsmall].
  - rewrite slice_Some by lia. cbn [mbind option_bind]. change (Z.to_nat 0) with 0%nat. rewrite drop_0, Z.sub_0_r.
    destruct (demux_pes_packet_frame_returns callback 3 (set_frame (set_n_data_units 0 (frame_ dx)) dx)
      (take (Z.to_nat (lookahead (pes_wrap dx))) data) c) as (dx1 & k & lf & err & c1 & -> & [Ep _ _ _] & Hf1 & He & Hcb & _ & _);
      [by apply Forall_take|done|by left; lia|]. cbn [mbind option_bind]. cbn in Ep.
    destruct (Z.eqb_spec err VBI_ERR_CALLBACK) as [->|Hne].
    + eexists _, _, _. split; [reflexivity|]. split; [|split; [|split]].
      * unfold dx_ok. by rewrite Ep.
      * unfold rebuf. destruct dx1 as [w ? ? ? ? ? ? ? ? ? ? ? ?]; cbn in *. subst w. by destruct (pes_wrap dx).
      * by right.
      * intros (cb & -> & Ht). exfalso. apply Hcb; [|done|done]. by intros ? [= <-].
    + destruct (Z.ltb_spec err 0); [lia|].
      eexists _, _, _. split; [reflexivity|]. unfold PES_HEADER_LOOKAHEAD in *. split; [|split; [|split]]; [| |left|done].
      * unfold dx_ok. cbn. rewrite Ep. split_and!; (done || lia).
      * unfold rebuf. cbn. by rewrite Ep.
      * cbn. rewrite Ep. lia.
  - assert (lookahead (pes_wrap dx) = 48) as Hl by (unfold PES_HEADER_LOOKAHEAD in *; lia). rewrite Hl in Hlen.
    destruct (scan_returns (Z.to_nat scan_end + 1) data 0 scan_end) as (r & -> & Hr); [done|done|lia|lia|].
    cbn [mbind option_bind]. destruct r as [q|n].
    + destruct (packet_header_returns dx data q) as (dx' & -> & Hok' & Hbf & Hs1); [done|lia|lia|done|].
      cbn [mbind option_bind]. eexists _, _, _. split; [reflexivity|].
      split; [done|]. split; [done|]. split; [by left|done].
    + eexists _, _, _. split; [reflexivity|].
      split; [split_and!; cbn; try done; lia|]. split; [done|]. split; [left; cbn; split; [done|lia]|done].
Qed.

(** A packet is looked at as far as [lookahead]. *)
Lemma demux_pes_data_packet dx data scan_end c :
  48 < lookahead (pes_wrap dx) → lookahead (pes_wrap dx) ≤ Z.of_nat (length data) →
  demux_pes_data callback dx data scan_end c =
  demux_pes_data callback dx (take (Z.to_nat (lookahead (pes_wrap dx))) data) 0 c.
Proof.
  intros Hl Hd. unfold demux_pes_data. destruct (Z.ltb_spec PES_HEADER_LOOKAHEAD (lookahead (pes_wrap dx)));
    [|unfold PES_HEADER_LOOKAHEAD in *; lia].
  rewrite !slice_Some by (rewrite ?length_take; lia). change (Z.to_nat 0) with 0%nat.
  by rewrite !drop_0, Z.sub_0_r, take_idemp.
Qed.

(** What a context makes of the data in the buffer is what the stream machine makes of
    the stream. *)
Lemma demux_pes_data_stream dx data pend c dx1 err c1 :
  48 ≤ lookahead (pes_wrap dx) → bytes data → data `prefix_of` pend → lookahead (pes_wrap dx) ≤ Z.of_nat (length data) →
  skip (pes_wrap dx) = 0 →
  demux_pes_data callback dx data (Z.of_nat (length data) - lookahead (pes_wrap dx)) c = Some (dx1, err, c1) →
  (err = 0 → ∀ dx' rest e c', stream_result callback dx1 pend c1 dx' rest e c' → stream_result callback dx pend c dx' rest e c') ∧
  (err ≠ 0 → stream_result callback dx pend c dx1 pend err c1).
Proof.
  intros Hla Hb Hpre Hlen Hs0 Ed.
  assert (set_skip 0 dx = dx) as Edx.
  { destruct dx as [[b p sk co lo lf] ? ? ? ? ? ? ? ? ? ? ? ?]. cbn in Hs0. by subst sk. }
  destruct (decide (48 < lookahead (pes_wrap dx))) as [Hbig|Hsmall].
  - rewrite demux_pes_data_packet in Ed by done.
    assert (take (Z.to_nat (lookahead (pes_wrap dx))) data = take (Z.to_nat (lookahead (pes_wrap dx))) pend) as Et.
    { destruct Hpre as [tail ->]. by rewrite take_app_le by lia. }
    apply prefix_length in Hpre. rewrite Et in Ed.
    split; [intros -> dx' rest e c' H|intros He].
    + eapply stream_steps; rewrite Hs0; [lia| |by rewrite drop_0]. rewrite drop_0, Edx. exact Ed.
    + assert (pend = drop (Z.to_nat (skip (pes_wrap dx))) pend) as E by (by rewrite Hs0).
      rewrite E at 2. eapply stream_stops; [rewrite Hs0; lia| |done]. rewrite <-E, Edx. exact Ed.
  - assert (lookahead (pes_wrap dx) = 48) as Hl by lia. unfold demux_pes_data in Ed. rewrite Hl in Ed.
    change (PES_HEADER_LOOKAHEAD <? 48) with false in Ed. cbv iota in Ed.
    destruct (start_code_scan _ _ _ _) as [r|] eqn:Er; cbn [mbind option_bind] in Ed; [|done].
    assert (match r with Found q => packet_header dx data q | Skip n => Some (set_skip n dx) end = Some dx1 ∧ err = 0 ∧ c1 = c)
      as (Hm & -> & ->).
    { destruct r as [q|n]; [|by simplify_eq].
      destruct (packet_header dx data q) as [dxq|]; cbn [mbind option_bind] in Ed; by simplify_eq. }
    split; [|done]. intros _ dx' rest e c' H. rewrite <-Edx. by eapply stream_scan; [..|exact Er|exact Hm|exact H]; try done; lia.
Qed.

(** From the bytes between [*src] and the end of the source the demultiplexer makes
    what the stream machine makes. *)
Lemma demux_pes_loop_refines fuel dx src s L c :
  dx_ok dx → bytes src → bytes L → wrap_inv (pes_wrap dx) src s L →
  Z.of_nat (length (L ++ drop (Z.to_nat s) src)) < Z.of_nat fuel + skip (pes_wrap dx) → (0 < fuel)%nat →
  ∃ dx' s' L' err c', demux_pes_loop callback fuel dx src s c = Some (dx', s', err, c') ∧ dx_ok dx' ∧
    bytes L' ∧ wrap_inv (pes_wrap dx') src s' L' ∧ (err = 0 → s' = Z.of_nat (length src)) ∧ (cb_true → err = 0) ∧
    stream_result callback (core dx) (L ++ drop (Z.to_nat s) src) c (core dx') (L' ++ drop (Z.to_nat s') src) err c'.
Proof.
  revert dx s L c. induction fuel as [|fuel IH]; intros dx s L c Hok Hb HL Hinv Hfuel Hpos; [lia|]. cbn [demux_pes_loop].
  pose proof Hok as (Hf & Hbuf & Hs & Hla).
  destruct (wrap_around_spec (pes_wrap dx) src s L Hinv Hs ltac:(lia))
    as (w & s1 & L1 & r & -> & Hinv1 & Hb1 & Hla1 & Hco1 & Hs1 & Hp & Hr).
  cbn [mbind option_bind]. set (pend := L ++ drop (Z.to_nat s) src) in *.
  assert (bytes pend) as Hbp by (apply Forall_app; split; [done|by apply Forall_drop]).
  assert (bytes (L1 ++ drop (Z.to_nat s1) src)) as Hbp1 by (rewrite Hp; by apply Forall_drop).
  assert (bytes L1) as HL1 by (by apply Forall_app in Hbp1 as [? _]).
  assert (∀ n, skip w = n → core (set_pes_wrap w dx) = set_skip n (core dx)) as Hcore.
  { intros n <-. unfold core, set_skip. cbn. by rewrite Hla1, Hco1. }
  destruct r as [[data scan_end]|].
  - destruct Hr as (Hs0 & Hle & [tail Htail] & -> & Hse).
    assert (bytes data) as Hbd by (rewrite Htail in Hbp1; by apply Forall_app in Hbp1 as [? _]).
    destruct (demux_pes_data_ok (set_pes_wrap w dx) data (Z.of_nat (length data) - lookahead (pes_wrap dx)) c)
      as (dx1 & err & c1 & Ed & Hok1 & Hbf & He & Hcb); try done.
    { split_and!; cbn; try done; lia. } { cbn. lia. }
    rewrite Ed. cbn [mbind option_bind].
    assert (wrap_inv (pes_wrap dx1) src s1 L1) as Hinv2.
    { rewrite <-Hbf. destruct Hinv1. split; cbn; done. }
    (* What the stream machine does. *)
    pose proof (demux_pes_data_rebuf callback (Wrap [] 0 0 0 0 0) (set_pes_wrap w dx) data
      (Z.of_nat (length data) - lookahead (pes_wrap dx)) c) as Ed'. rewrite Ed in Ed'. cbn [fmap option_fmap option_map] in Ed'.
    change (rebuf (Wrap [] 0 0 0 0 0)) with core in Ed'. rewrite (Hcore 0 Hs0) in Ed'.
    destruct (demux_pes_data_stream (set_skip 0 (core dx)) data (L1 ++ drop (Z.to_nat s1) src) c (core dx1) err c1) as [Hstep Hstop];
      [cbn; lia|done|by eexists|cbn; lia|done|rewrite <-Ed'; done|].
    destruct (Z.eqb_spec err 0) as [->|Hne]; cbn [negb].
    + destruct He as [[_ Hs2]|]; [|done].
      destruct (IH dx1 s1 L1 c1) as (dx' & s' & L' & e & c' & -> & Hok' & HL' & Hinv' & Hz & Hcb' & Hst); try done.
      { rewrite Hp, length_drop. lia. }
      { assert (Z.of_nat (length data) ≤ Z.of_nat (length (L1 ++ drop (Z.to_nat s1) src))) by (rewrite Htail, length_app; lia).
        rewrite Hp, length_drop in *. lia. }
      exists dx', s', L', e, c'. split_and!; try done.
      apply (stream_shift _ _ _ _ _ _ _ _ 0 (skip (pes_wrap dx))); [lia|lia|cbn; lia|]. rewrite <-Hp. by apply Hstep.
    + eexists _, s1, L1, err, c1. split; [reflexivity|]. split_and!; try done.
      apply (stream_shift _ _ _ _ _ _ _ _ 0 (skip (pes_wrap dx))); [lia|lia|cbn; lia|]. rewrite <-Hp. by apply Hstop.
  - destruct Hr as (-> & Hcase). eexists _, _, L1, 0, c. split; [reflexivity|]. split_and!; try done.
    + unfold dx_ok. cbn. split_and!; try done; lia.
    + rewrite Hp. destruct Hcase as [[Hlt Hsk]|(Hle & Hsk & Hlt)].
      * rewrite (Hcore _ Hsk). rewrite drop_ge by lia. by apply (stream_skips callback (core dx)).
      * rewrite (Hcore _ Hsk). by apply (stream_waits callback (core dx)).
Qed.
End feed.

(** ** Feeding buffers *)

(** Calls of [vbi_dvb_demux_feed] with one buffer after the other. *)
Fixpoint feed_all {C} (callback : C → list vbi_sliced → Z → C * bool) (dx : vbi_dvb_demux) (bufs : list (list Z))
    (c : C) : option (vbi_dvb_demux * C) :=
  match bufs with
  | [] => Some (dx, c)
  | b :: bufs => '(dx, _, c) ← vbi_dvb_demux_feed callback dx b c; feed_all callback dx bufs c
  end.

(** The bytes of the stream a context has kept. *)
Definition kept (dx : vbi_dvb_demux) : option (list Z) :=
  slice (buffer (pes_wrap dx)) (bp (pes_wrap dx) - leftover (pes_wrap dx)) (bp (pes_wrap dx)).

(** What a context has between two calls: the bytes [L] kept of the stream. *)
Definition between (dx : vbi_dvb_demux) (L : list Z) : Prop :=
  dx_ok dx ∧ bytes L ∧ leftover (pes_wrap dx) = Z.of_nat (length L) ∧
  leftover (pes_wrap dx) ≤ bp (pes_wrap dx) ≤ 65552 ∧ kept dx = Some L.

Lemma between_inv dx L src : between dx L → wrap_inv (pes_wrap dx) src 0 L.
Proof.
  intros ((Hf & Hbuf & Hs & Hla) & HL & Hl & Hbp & Hd). split; [lia|done|lia|done|].
  exists L. by rewrite app_nil_r.
Qed.

Lemma inv_between dx L src s : dx_ok dx → bytes L → wrap_inv (pes_wrap dx) src s L → between dx L.
Proof. intros Hok HL [H1 H2 H3 H4 H5]. pose proof Hok as (_ & Hbuf & _). split_and!; try done; lia. Qed.

Lemma demux_pes_packet_refines {C} (callback : option (C → list vbi_sliced → Z → C * bool)) dx L src c :
  between dx L → bytes src →
  ∃ dx' s L' err c', demux_pes_packet callback dx src c = Some (dx', s, err, c') ∧ between dx' L' ∧
    0 ≤ s ≤ Z.of_nat (length src) ∧ (err = 0 → s = Z.of_nat (length src)) ∧ (cb_true callback → err = 0) ∧
    stream_result callback (core dx) (L ++ src) c (core dx') (L' ++ drop (Z.to_nat s) src) err c'.
Proof.
  intros Hb Hsrc. pose proof Hb as ((Hf & Hbuf & Hs & Hla) & HL & Hl & _). unfold demux_pes_packet.
  destruct (demux_pes_loop_refines callback (Z.to_nat (leftover (pes_wrap dx)) + length src + 2) dx src 0 L c)
    as (dx' & s & L' & err & c' & -> & Hok' & HL' & Hinv & Hz & Hcb & Hst);
    [apply Hb|done|done|by apply between_inv| |lia|].
  - change (Z.to_nat 0) with 0%nat. rewrite drop_0, length_app. lia.
  - exists dx', s, L', err, c'. split; [done|]. split; [by eapply inv_between|]. split; [apply Hinv|].
    split; [done|]. split; [done|]. change (Z.to_nat 0) with 0%nat in Hst. by rewrite drop_0 in Hst.
Qed.

Lemma between_pos dx L : between dx L → wrap_pos (core dx).
Proof. intros ((_ & _ & Hs & Hla) & _). split; cbn; lia. Qed.

Section chunks.
Context {C : Type} (cb : C → list vbi_sliced → Z → C * bool) (Hcb : ∀ c l t, (cb c l t).2 = true).

Lemma feed_refines dx L src c :
  between dx L → bytes src →
  ∃ dx' L' c', vbi_dvb_demux_feed cb dx src c = Some (dx', true, c') ∧ between dx' L' ∧
    stream_result (Some cb) (core dx) (L ++ src) c (core dx') L' 0 c'.
Proof.
  intros Hb Hsrc. unfold vbi_dvb_demux_feed.
  destruct (demux_pes_packet_refines (Some cb) dx L src c Hb Hsrc) as (dx' & s & L' & err & c' & -> & Hb' & _ & Hz & Ht & Hst).
  rewrite Ht in * by (by exists cb). specialize (Hz eq_refl) as ->. cbn [mbind option_bind].
  rewrite Nat2Z.id, drop_all, app_nil_r in Hst. by exists dx', L', c'.
Qed.

(** A context at rest stays as it is. *)
Lemma stream_rest (callback : option (C → list vbi_sliced → Z → C * bool)) dx pend c dx' L c' :
  stream_result callback dx pend c dx' L 0 c' → wrap_pos dx → bytes pend →
  stream_result callback dx' L c' dx' L 0 c'.
Proof.
  intros H. remember 0 as e eqn:He. revert He.
  induction H as [dx pend c Hlt|dx pend c H1 H2|dx pend c dx1 c1 dx2 rest e c2 Hle Hd _ IH|];
    intros He [Hs Hl] Hb; [| | |done].
  - pose proof (stream_skips callback (set_skip (skip (pes_wrap dx) - Z.of_nat (length pend)) dx) [] c) as G.
    cbn in G. rewrite Z.sub_0_r in G. apply G. lia.
  - pose proof (stream_waits callback (set_skip 0 dx) (drop (Z.to_nat (skip (pes_wrap dx))) pend) c) as G.
    cbn [pes_wrap set_skip set_pes_wrap wrap_set_skip skip lookahead] in G.
    change (Z.to_nat 0) with 0%nat in G. rewrite drop_0 in G. apply G; [lia|]. rewrite length_drop.
    lia.
  - apply IH; [done| |by apply Forall_drop]. eapply stream_pos; [|by apply Forall_take, Forall_drop|exact Hd].
    by split.
Qed.
Lemma feed_all_refines bufs : ∀ dx L c, between dx L → Forall bytes bufs →
  stream_result (Some cb) (core dx) L c (core dx) L 0 c →
  ∃ dx' L' c', feed_all cb dx bufs c = Some (dx', c') ∧ between dx' L' ∧
    stream_result (Some cb) (core dx) (L ++ concat bufs) c (core dx') L' 0 c'.
Proof.
  induction bufs as [|b bufs IH]; intros dx L c Hb Hbytes Hrest; cbn [feed_all concat].
  - exists dx, L, c. by rewrite app_nil_r.
  - inversion Hbytes as [|? ? H1 H2]; subst.
    assert (bytes (L ++ b)) by (apply Forall_app; split; [apply Hb|done]).
    destruct (feed_refines dx L b c Hb H1) as (dx1 & L1 & c1 & -> & Hb1 & Hst). cbn [mbind option_bind].
    destruct (IH dx1 L1 c1 Hb1 H2) as (dx2 & L2 & c2 & -> & Hb2 & Hst2).
    { eapply stream_rest; [exact Hst|by eapply between_pos|done]. }
    exists dx2, L2, c2. split; [done|]. split; [done|]. rewrite app_assoc.
    by eapply stream_app; [exact Hst|by eapply between_pos| |].
Qed.
End chunks.

Lemma new_between : between vbi_dvb_pes_demux_new [].
Proof.
  split; [|split; [by constructor|]].
  - split; [|split; [|cbn; unfold PES_HEADER_LOOKAHEAD; lia]].
    + split; [cbn; lia|]. split; [cbn; lia|]. split; [apply empty_lines|]. split; cbn [sp frame_ vbi_dvb_pes_demux_new vbi_dvb_demux_reset]; intros; lia.
    + cbn [pes_wrap buffer vbi_dvb_pes_demux_new vbi_dvb_demux_reset]. by rewrite repeat_length, Z2Nat.id.
  - cbn [pes_wrap leftover bp length vbi_dvb_pes_demux_new vbi_dvb_demux_reset]. split; [done|]. split; [lia|].
    unfold kept. cbn [pes_wrap leftover bp buffer vbi_dvb_pes_demux_new vbi_dvb_demux_reset].
    rewrite slice_Some by lia. done.
Qed.

(** C3: how a stream is cut into buffers makes no difference.  Whatever bytes a new
    PES demultiplexer is fed, in one buffer or in many, of any sizes, it calls the
    client with the same frames in the same order, provided the client does not ask
    to stop, and ends in the same state with the same bytes of the stream kept, so
    that it will also continue in the same way. *)
Theorem dvb_pes_buffers_independent {C} (cb : C → list vbi_sliced → Z → C * bool) (bufs : list (list Z)) (c : C) :
  (∀ c l t, (cb c l t).2 = true) → Forall bytes bufs →
  ∃ dx1 dx2 c' L, feed_all cb vbi_dvb_pes_demux_new bufs c = Some (dx1, c') ∧
    vbi_dvb_demux_feed cb vbi_dvb_pes_demux_new (concat bufs) c = Some (dx2, true, c') ∧
    core dx1 = core dx2 ∧ kept dx1 = Some L ∧ kept dx2 = Some L.
Proof.
  intros Hcb Hb. pose proof new_between as Hnew.
  assert (bytes (concat bufs)) as Hc by (by apply Forall_concat).
  destruct (feed_all_refines cb Hcb bufs _ _ c Hnew Hb) as (dx1 & L1 & c1 & -> & Hb1 & H1).
  { apply (stream_waits (Some cb) (core vbi_dvb_pes_demux_new)); cbn; unfold PES_HEADER_LOOKAHEAD; lia. }
  destruct (feed_refines cb Hcb _ _ (concat bufs) c Hnew Hc) as (dx2 & L2 & c2 & -> & Hb2 & H2).
  destruct (stream_result_det _ _ _ _ _ _ _ _ _ _ _ _ H1 H2) as (E & -> & _ & ->);
    [by eapply between_pos|done|].
  exists dx1, dx2, c2, L2. split_and!; try done; [apply Hb1|apply Hb2].
Qed.

(** A packet with one Teletext line and two stuffing units. *)
Definition pes_example (lofp pts : Z) : list Z :=
  [0; 0; 1; 0xBD; 0; 178; 0x84; 0x80; 36; 0x21; 0; 1; 0; 2 * pts + 1] ++ repeat 0xFF 31 ++ [0x10]
  ++ [0xFF; 44] ++ repeat 0xFF 44 ++ [0x02; 44; lofp; 0xE4] ++ repeat 0 42 ++ [0xFF; 44] ++ repeat 0xFF 44.

Definition recorder (c : list (list Z * Z)) (l : list vbi_sliced) (pts : Z) : list (list Z * Z) * bool :=
  (c ++ [(map line l, pts)], true).

Lemma dvb_pes_buffers_independent_witness :
  ∃ dx1 dx2 c' L,
    let stream := pes_example 0xE7 5 ++ [1; 2; 3] ++ pes_example 0xE8 6 ++ pes_example 0xE7 7 in
    feed_all recorder vbi_dvb_pes_demux_new [take 3 stream; take 100 (drop 3 stream); drop 103 stream] [] = Some (dx1, c') ∧
    vbi_dvb_demux_feed recorder vbi_dvb_pes_demux_new stream [] = Some (dx2, true, c') ∧
    core dx1 = core dx2 ∧ kept dx1 = Some L ∧ kept dx2 = Some L ∧
    c' = [([7; 8], 5)].
Proof.
  set (stream := pes_example 0xE7 5 ++ [1; 2; 3] ++ pes_example 0xE8 6 ++ pes_example 0xE7 7).
  destruct (dvb_pes_buffers_independent recorder
    [take 3 stream; take 100 (drop 3 stream); drop 103 stream] []) as (dx1 & dx2 & c' & L & E1 & E2 & E3 & E4 & E5).
  - reflexivity.
  - assert (bytes stream) as Hb by (apply (bool_decide_unpack _); vm_compute; exact I).
    apply List.Forall_cons; [by apply Forall_take|].
    apply List.Forall_cons; [by apply Forall_take, Forall_drop|].
    apply List.Forall_cons; [by apply Forall_drop|constructor].
  - exists dx1, dx2, c', L. cbv zeta. fold stream.
    change (concat [take 3 stream; take 100 (drop 3 stream); drop 103 stream]) with stream in E2.
    split; [exact E1|]. split; [exact E2|]. split; [exact E3|]. split; [exact E4|]. split; [exact E5|].
    assert ((λ r, r.2) <$> vbi_dvb_demux_feed recorder vbi_dvb_pes_demux_new stream [] = Some [([7; 8], 5)]) as E
      by (vm_compute; reflexivity).
    rewrite E2 in E. cbn in E. congruence.
Defined.

(** C7: whatever a PES demultiplexer is given, in whatever state it was left, also by a
    client that asked to stop, and with or without a callback, it returns without
    leaving its buffers, and does what the stream machine does, which has no buffers
    and looks at exactly as many bytes as it needs: the two agree on the frames, the
    client, the result and the bytes that were not used up. *)
Theorem dvb_pes_refines_stream {C} (callback : option (C → list vbi_sliced → Z → C * bool)) (dx : vbi_dvb_demux)
    (L src : list Z) (c : C) :
  between dx L → bytes src →
  ∃ dx' s L' err c', demux_pes_packet callback dx src c = Some (dx', s, err, c') ∧ between dx' L' ∧
    0 ≤ s ≤ Z.of_nat (length src) ∧ (err = 0 → s = Z.of_nat (length src)) ∧
    stream_result callback (core dx) (L ++ src) c (core dx') (L' ++ drop (Z.to_nat s) src) err c'.
Proof.
  intros Hb Hsrc. destruct (demux_pes_packet_refines callback dx L src c Hb Hsrc)
    as (dx' & s & L' & err & c' & H1 & H2 & H3 & H4 & _ & H5). by exists dx', s, L', err, c'.
Qed.

Lemma dvb_pes_refines_stream_witness :
  ∃ dx' s L' err c', demux_pes_packet (Some recorder) vbi_dvb_pes_demux_new (pes_example 0xE7 5) [] =
      Some (dx', s, err, c') ∧ between dx' L' ∧
    0 ≤ s ≤ 184 ∧ (err = 0 → s = 184) ∧
    stream_result (Some recorder) (core vbi_dvb_pes_demux_new) (pes_example 0xE7 5) [] (core dx')
      (L' ++ drop (Z.to_nat s) (pes_example 0xE7 5)) err c'.
Proof.
  apply (dvb_pes_refines_stream (Some recorder) vbi_dvb_pes_demux_new [] (pes_example 0xE7 5) []).
  - apply new_between.
  - apply (bool_decide_unpack _). vm_compute. exact I.
Defined.

Lemma packet_frame_more {C} (callback : option (C → list vbi_sliced → Z → C * bool)) fuel n : ∀ dx src c r,
  demux_pes_packet_frame callback fuel dx src c = Some r →
  demux_pes_packet_frame callback (fuel + n) dx src c = Some r.
Proof.
  induction fuel as [|fuel IH]; intros dx src c r; [done|]. cbn [Nat.add demux_pes_packet_frame].
  destruct (extract_data_units _ _) as [[[[f p] l] e]|]; cbn [mbind option_bind]; [|done].
  destruct (0 <=? e); [done|]. destruct callback as [cb|]; [|done].
  destruct (cb c _ _) as [c1 ok]. destruct ok; [apply IH|done].
Qed.

(** The loop over the frames of a packet ends after two rounds at most, although
    each round can find that a new frame begins: the unit that began it is taken by
    the new frame.  Two rounds give a result from any state of the context, and more
    change nothing. *)
Theorem demux_pes_packet_frame_terminates {C} (callback : option (C → list vbi_sliced → Z → C * bool))
    (dx : vbi_dvb_demux) (src : list Z) (c : C) (n : nat) :
  bytes src → frame_ok (frame_ dx) →
  ∃ dx' k src_left err c', demux_pes_packet_frame callback (2 + n) dx src c = Some (dx', drop k src, src_left, err, c') ∧
    frame_ok (frame_ dx') ∧ 0 ≤ err ∧
    demux_pes_packet_frame callback (2 + n) dx src c = demux_pes_packet_frame callback 2 dx src c.
Proof.
  intros Hb Hf.
  destruct (demux_pes_packet_frame_returns callback (2 + n) dx src c Hb Hf) as (dx1 & k1 & l1 & e1 & c1 & E1 & _ & Hf1 & He1 & _);
    [left; lia|].
  destruct (demux_pes_packet_frame_returns callback 2 dx src c Hb Hf) as (dx2 & k2 & l2 & e2 & c2 & E2 & _);
    [left; lia|].
  exists dx1, k1, l1, e1, c1. split_and!; [done|done|done|].
  rewrite E2. apply (packet_frame_more callback 2 n). exact E2.
Qed.

Lemma demux_pes_packet_frame_terminates_witness :
  ∃ dx' k src_left err c', demux_pes_packet_frame (Some recorder) 10 vbi_dvb_pes_demux_new [2; 3; 0; 0; 0] [] =
      Some (dx', drop k [2; 3; 0; 0; 0], src_left, err, c') ∧
    frame_ok (frame_ dx') ∧ 0 ≤ err ∧
    demux_pes_packet_frame (Some recorder) 10 vbi_dvb_pes_demux_new [2; 3; 0; 0; 0] [] =
    demux_pes_packet_frame (Some recorder) 2 vbi_dvb_pes_demux_new [2; 3; 0; 0; 0] [].
Proof.
  apply (demux_pes_packet_frame_terminates (Some recorder) vbi_dvb_pes_demux_new [2; 3; 0; 0; 0] [] 8).
  - apply (bool_decide_unpack _). vm_compute. exact I.
  - apply new_between.
Defined.

(** ** What the code does not do

    A packet with a stuffing unit before a Teletext line of unknown number in the
    second field is taken for the begin of another frame each time it is looked at,
    so the coroutine returns no line and takes no byte of it however often it is
    called: the number of lines and of bytes taken by four calls. *)
Fixpoint cor_calls (n : nat) (dx : vbi_dvb_demux) (buf : list Z) : option (list (Z * Z)) :=
  match n with
  | O => Some []
  | S n =>
      '(dx, l, _, s) ← vbi_dvb_demux_cor dx 64 buf;
      cons (Z.of_nat (length l), s) <$> cor_calls n dx (drop (Z.to_nat s) buf)
  end.

Lemma demux_cor_livelock :
  cor_calls 4 vbi_dvb_pes_demux_new (pes_example 0xC0 5) = Some [(0, 46); (0, 0); (0, 0); (0, 0)].
Proof. vm_compute. reflexivity. Qed.
