(* ===== verification/DvbTs.v ===== *)
(** DVB VBI demultiplexer: the Transport Stream layer of [src/src/dvb_demux.c]. *)
From S2P Require Import Prelude Sliced DvbMux DvbDemux DvbPes.

(** Assignments to a context and its [ts_wrap]. *)
Definition ts_set_wrap (w : wrap) (dx : vbi_dvb_demux) : vbi_dvb_demux :=
  Demux (pes_wrap dx) w (frame_ dx) (frame_pts dx) (packet_pts dx) (new_frame dx) (ts_in_sync dx)
    (ts_frame_bp dx) (ts_frame_todo dx) (ts_pes_bp dx) (ts_pes_todo dx) (ts_continuity dx) (ts_pid dx).
Definition ts_set_sync (b : bool) (dx : vbi_dvb_demux) : vbi_dvb_demux :=
  Demux (pes_wrap dx) (ts_wrap dx) (frame_ dx) (frame_pts dx) (packet_pts dx) (new_frame dx) b
    (ts_frame_bp dx) (ts_frame_todo dx) (ts_pes_bp dx) (ts_pes_todo dx) (ts_continuity dx) (ts_pid dx).
Definition ts_set_frame (bp todo : Z) (dx : vbi_dvb_demux) : vbi_dvb_demux :=
  Demux (pes_wrap dx) (ts_wrap dx) (frame_ dx) (frame_pts dx) (packet_pts dx) (new_frame dx) (ts_in_sync dx)
    bp todo (ts_pes_bp dx) (ts_pes_todo dx) (ts_continuity dx) (ts_pid dx).
Definition ts_set_pes (bp todo : Z) (dx : vbi_dvb_demux) : vbi_dvb_demux :=
  Demux (pes_wrap dx) (ts_wrap dx) (frame_ dx) (frame_pts dx) (packet_pts dx) (new_frame dx) (ts_in_sync dx)
    (ts_frame_bp dx) (ts_frame_todo dx) bp todo (ts_continuity dx) (ts_pid dx).
Definition ts_set_continuity (n : Z) (dx : vbi_dvb_demux) : vbi_dvb_demux :=
  Demux (pes_wrap dx) (ts_wrap dx) (frame_ dx) (frame_pts dx) (packet_pts dx) (new_frame dx) (ts_in_sync dx)
    (ts_frame_bp dx) (ts_frame_todo dx) (ts_pes_bp dx) (ts_pes_todo dx) n (ts_pid dx).
Definition wrap_set_consume (n : Z) (w : wrap) : wrap :=
  Wrap (buffer w) (bp w) (skip w) n (lookahead w) (leftover w).

Definition ts_set_consume (n : Z) (dx : vbi_dvb_demux) : vbi_dvb_demux :=
  ts_set_wrap (wrap_set_consume n (ts_wrap dx)) dx.
Definition ts_set_skip (n : Z) (dx : vbi_dvb_demux) : vbi_dvb_demux :=
  ts_set_wrap (wrap_set_skip n (ts_wrap dx)) dx.
Definition ts_set_lookahead (n : Z) (dx : vbi_dvb_demux) : vbi_dvb_demux :=
  ts_set_wrap (wrap_set_lookahead n (ts_wrap dx)) dx.
Definition ts_set_bp (n : Z) (dx : vbi_dvb_demux) : vbi_dvb_demux :=
  ts_set_wrap (wrap_set_buffer (buffer (ts_wrap dx)) n (ts_wrap dx)) dx.

(** [memcpy (dx->ts_pes_bp, ...)], which advances the pointer. *)
Definition ts_pes_append (l : list Z) (dx : vbi_dvb_demux) : option vbi_dvb_demux :=
  b ← store (buffer (pes_wrap dx)) (ts_pes_bp dx) l;
  Some (ts_set_pes (ts_pes_bp dx + Z.of_nat (length l)) (ts_pes_todo dx - Z.of_nat (length l))
          (set_pes_wrap (wrap_set_buffer b (bp (pes_wrap dx)) (pes_wrap dx)) dx)).

(** [memcpy (dx->ts_wrap.bp, ...)], which advances the pointer. *)
Definition ts_wrap_append (l : list Z) (dx : vbi_dvb_demux) : option vbi_dvb_demux :=
  b ← store (buffer (ts_wrap dx)) (bp (ts_wrap dx)) l;
  Some (ts_set_wrap (wrap_set_buffer b (bp (ts_wrap dx) + Z.of_nat (length l)) (ts_wrap dx)) dx).

(** [memmove (dx->ts_buffer, p, n)] *)
Definition ts_wrap_move (p n : Z) (dx : vbi_dvb_demux) : option vbi_dvb_demux :=
  l ← slice (buffer (ts_wrap dx)) p (p + n);
  b ← store (buffer (ts_wrap dx)) 0 l;
  Some (ts_set_wrap (wrap_set_buffer b n (ts_wrap dx)) dx).

(** After a TS packet at [p] of which [avail] bytes are in the buffer: the next header
    is read next, or part of it is there already. *)
Definition next_ts_packet (p avail : Z) (dx : vbi_dvb_demux) : option vbi_dvb_demux :=
  if avail <=? 188 then Some (ts_set_lookahead TS_HEADER_LOOKAHEAD (ts_set_bp 0 dx))
  else
    dx ← ts_wrap_move (p + 188) (avail - 188) dx;
    Some (ts_set_lookahead (TS_HEADER_LOOKAHEAD - Z.min (avail - 188) TS_HEADER_LOOKAHEAD) dx).

(** [skip_ts_packet] and [skip_ts_pes_packet] *)
Definition skip_ts_packet (p avail : Z) (dx : vbi_dvb_demux) : option vbi_dvb_demux :=
  next_ts_packet p avail (if avail <=? 188 then ts_set_skip (188 - avail) dx else dx).
Definition skip_ts_pes_packet (p avail : Z) (dx : vbi_dvb_demux) : option vbi_dvb_demux :=
  skip_ts_packet p avail (ts_set_consume 0 (ts_set_pes (ts_pes_bp dx) 0 (set_new_frame true dx))).

(** The sync byte search: the offset of a packet, [None] when there is none in the
    first 188 bytes. *)
Fixpoint sync_search (fuel : nat) (b : list Z) (p bp : Z) : option (option Z) :=
  match fuel with
  | O => None
  | S fuel =>
      c ← rd b p;
      found ←
        (if c =? 0x47 then
           next ← (if p + 188 <? bp then c ← rd b (p + 188); Some (c =? 0x47) else Some false);
           if (next : bool) then Some true
           else if p + 7 <? bp then
             c4 ← rd b (p + 4); c5 ← rd b (p + 5); c6 ← rd b (p + 6); c7 ← rd b (p + 7);
             Some ((c4 .| c5 =? 0) && (c6 =? 1) && (c7 =? PRIVATE_STREAM_1))
           else Some false
         else Some false);
      if (found : bool) then Some (Some p)
      else if 188 <=? p + 1 then Some None
      else sync_search fuel b (p + 1) bp
  end.

(** A PES packet begins in the TS packet at [p], or continues there; [None] when it
    is to be skipped. *)
Definition ts_start (p b1 : Z) (dx : vbi_dvb_demux) : option (option vbi_dvb_demux) :=
  let b := buffer (ts_wrap dx) in
  if ts_pes_todo dx =? 0 then
    c4 ← rd b (p + 4); c5 ← rd b (p + 5); c6 ← rd b (p + 6); c7 ← rd b (p + 7);
    if negb (c4 .| c5 =? 0) || negb (c6 =? 1) || negb (c7 =? PRIVATE_STREAM_1) then Some None
    else
      c8 ← rd b (p + 8); c9 ← rd b (p + 9);
      let packet_length := c8 * 256 + c9 in
      if packet_length <? 178 then Some None
      else Some (Some (ts_set_pes 0 (packet_length + 6) dx))
  else if negb (b1 .& 0x40 =? 0) then Some None
  else Some (Some dx).

(** Copies what is in the buffer of the payload. *)
Definition ts_fragment (p avail : Z) (dx : vbi_dvb_demux) : option vbi_dvb_demux :=
  let b := buffer (ts_wrap dx) in
  let consume := Z.min (ts_pes_todo dx) 184 in
  if avail <=? 188 then
    let fragment := Z.min (avail - 4) consume in
    l ← slice b (p + 4) (p + 4 + fragment);
    dx ← ts_pes_append l dx;
    next_ts_packet p avail (ts_set_consume (consume - fragment) dx)
  else
    l ← slice b (p + 4) (p + 4 + consume);
    dx ← ts_pes_append l dx;
    next_ts_packet p avail dx.

(** The TS packet at [p]. *)
Definition ts_packet (p avail : Z) (dx : vbi_dvb_demux) : option vbi_dvb_demux :=
  let b := buffer (ts_wrap dx) in
  b1 ← rd b (p + 1); b2 ← rd b (p + 2); b3 ← rd b (p + 3);
  let pid := (b1 * 256 + b2) .& 0x1FFF in
  if negb (b1 .& 0x80 =? 0) then skip_ts_pes_packet p avail dx
  else if negb (pid =? ts_pid dx) then skip_ts_packet p avail dx
  else if negb (b3 .& 0xC0 =? 0) then skip_ts_pes_packet p avail dx
  else
    let adaptation_field_control := b3 .& 0x30 in
    if adaptation_field_control =? 0x20 then skip_ts_packet p avail dx
    else if negb (adaptation_field_control =? 0x10) then skip_ts_pes_packet p avail dx
    else
      let lost := negb ((ts_continuity dx .^ b3) .& 0x0F =? 0) && (0 <=? ts_continuity dx) in
      if lost && (((ts_continuity dx - 1) .^ b3) .& 0x0F =? 0) then skip_ts_packet p avail dx
      else if lost then skip_ts_pes_packet p avail (ts_set_continuity (b3 + 1) dx)
      else
        let dx := ts_set_continuity (b3 + 1) dx in
        start ← ts_start p b1 dx;
        match start with
        | None => skip_ts_pes_packet p avail dx
        | Some dx => ts_fragment p avail dx
        end.

(** What follows when a TS packet payload is complete: the PES packet may be. *)
Definition ts_payload (dx : vbi_dvb_demux) : option vbi_dvb_demux :=
  if ts_pes_todo dx =? 0 then
    p ← slice (buffer (pes_wrap dx)) 0 (ts_pes_bp dx);
    '(dx, valid) ← valid_vbi_pes_packet_header dx p;
    if (valid : bool) then
      Some (set_frame (set_n_data_units 0 (frame_ dx)) (ts_set_frame 46 (ts_pes_bp dx - 46) dx))
    else (* continues with nothing to consume and no frame *)
      Some (ts_set_frame (ts_frame_bp dx) 0 (set_new_frame true dx))
  else Some dx.

(** The payload that is due from the source; TRUE when the source ends before.  The
    bytes left in the source are a list. *)
Definition ts_consume (dx : vbi_dvb_demux) (src : list Z) : option (vbi_dvb_demux * list Z * bool) :=
  let consume := consume (ts_wrap dx) in
  let s_left := Z.of_nat (length src) in
  if 0 <? consume then
    if s_left <? consume then
      dx ← ts_pes_append src dx;
      Some (ts_set_consume (consume - s_left) dx, [], true)
    else
      dx ← ts_pes_append (take (Z.to_nat consume) src) dx;
      dx ← ts_payload (ts_set_consume 0 dx);
      Some (dx, drop (Z.to_nat consume) src, false)
  else Some (dx, src, false).

Section client.
Context {C : Type} (callback : option (C → list vbi_sliced → Z → C * bool)).

(** The data units of the PES packet: the context, VBI_ERR_CALLBACK or zero, the client. *)
Definition ts_frames (dx : vbi_dvb_demux) (c : C) : option (vbi_dvb_demux * Z * C) :=
  if 0 <? ts_frame_todo dx then
    p ← slice (buffer (pes_wrap dx)) (ts_frame_bp dx) (ts_frame_bp dx + ts_frame_todo dx);
    '(dx, rest, src_left, err, c) ← demux_pes_packet_frame callback 3 dx p c;
    let dx := ts_set_frame (ts_frame_bp dx + Z.of_nat (length p) - Z.of_nat (length rest)) src_left dx in
    if err =? VBI_ERR_CALLBACK then Some (dx, err, c)
    else if negb (err =? 0) then Some (ts_set_frame (ts_frame_bp dx) 0 (set_new_frame true dx), 0, c)
    else Some (dx, 0, c)
  else Some (dx, 0, c).

(** Skips [skip] bytes and copies [lookahead] bytes; TRUE when the source ends before. *)
Definition ts_fill (dx : vbi_dvb_demux) (src : list Z) : option (vbi_dvb_demux * list Z * bool) :=
  let skip := skip (ts_wrap dx) in
  if Z.of_nat (length src) <? skip then Some (ts_set_skip (skip - Z.of_nat (length src)) dx, [], true)
  else
    let src := drop (Z.to_nat skip) src in
    let dx := ts_set_skip 0 dx in
    let lookahead := lookahead (ts_wrap dx) in
    if Z.of_nat (length src) <? lookahead then
      dx ← ts_wrap_append src dx;
      Some (ts_set_lookahead (lookahead - Z.of_nat (length src)) dx, [], true)
    else
      dx ← ts_wrap_append (take (Z.to_nat lookahead) src) dx;
      Some (dx, drop (Z.to_nat lookahead) src, false).

(** The bytes in the buffer are a header, or are searched for one. *)
Definition ts_header (dx : vbi_dvb_demux) : option vbi_dvb_demux :=
  let avail := bp (ts_wrap dx) in
  if ts_in_sync dx then
    c ← rd (buffer (ts_wrap dx)) 0;
    if negb (c =? 0x47) then
      Some (ts_set_lookahead (TS_SYNC_SEARCH_LOOKAHEAD - avail)
             (ts_set_continuity (-1) (ts_set_consume 0 (ts_set_pes (ts_pes_bp dx) 0
               (set_new_frame true (ts_set_sync false dx))))))
    else ts_packet 0 avail dx
  else if avail <? TS_SYNC_SEARCH_LOOKAHEAD then None (* assertion *)
  else
    r ← sync_search 188 (buffer (ts_wrap dx)) 0 (bp (ts_wrap dx));
    match r with
    | None =>
        dx ← ts_wrap_move 188 (avail - 188) dx;
        Some (ts_set_lookahead (TS_SYNC_SEARCH_LOOKAHEAD - (avail - 188)) dx)
    | Some p => ts_packet p (avail - p) (ts_set_sync true dx)
    end.

(** The results are the context, the bytes left in the source, the returned value and
    the client. *)
Fixpoint demux_ts_loop (fuel : nat) (dx : vbi_dvb_demux) (src : list Z) (c : C)
    : option (vbi_dvb_demux * list Z * Z * C) :=
  match fuel with
  | O => None
  | S fuel =>
      '(dx, src, more) ← ts_consume dx src;
      if (more : bool) then Some (dx, [], 0, c)
      else
        '(dx, err, c) ← ts_frames dx c;
        if negb (err =? 0) then Some (dx, src, err, c)
        else
          '(dx, src, more) ← ts_fill dx src;
          if (more : bool) then Some (dx, [], 0, c)
          else
            dx ← ts_header dx;
            demux_ts_loop fuel dx src c
  end.

(** Each iteration takes a byte or more. *)
Definition demux_ts_packet (dx : vbi_dvb_demux) (src : list Z) (c : C)
    : option (vbi_dvb_demux * list Z * Z * C) :=
  match src with
  | [] => Some (dx, [], 0, c)
  | _ => demux_ts_loop (S (length src)) dx src c
  end.
End client.

(** [vbi_dvb_demux_feed] of a context made by [_vbi_dvb_ts_demux_new]. *)
Definition ts_demux_feed {C} (callback : C → list vbi_sliced → Z → C * bool) (dx : vbi_dvb_demux)
    (buf : list Z) (c : C) : option (vbi_dvb_demux * bool * C) :=
  '(dx, _, err, c) ← demux_ts_packet (Some callback) dx buf c;
  Some (dx, err =? 0, c).

(** ** Safety *)

(** What holds between two iterations: the bytes that are still to be copied have
    room in the buffers; a TS header or two packets are looked for. *)
Record ts_inv (dx : vbi_dvb_demux) : Prop := {
  ti_frame : frame_ok (frame_ dx);
  ti_pes : Z.of_nat (length (buffer (pes_wrap dx))) = 65552;
  ti_pes_bytes : bytes (buffer (pes_wrap dx));
  ti_ts : Z.of_nat (length (buffer (ts_wrap dx))) = 208;
  ti_ts_bytes : bytes (buffer (ts_wrap dx));
  ti_bp : 0 ≤ bp (ts_wrap dx) ≤ 197;
  ti_look : 1 ≤ lookahead (ts_wrap dx);
  ti_skip : 0 ≤ skip (ts_wrap dx);
  ti_consume : 0 ≤ consume (ts_wrap dx) ≤ ts_pes_todo dx;
  ti_todo : 0 ≤ ts_pes_bp dx ∧ ts_pes_bp dx + ts_pes_todo dx ≤ 65541;
  ti_len : 0 < ts_pes_todo dx → 184 ≤ ts_pes_bp dx + ts_pes_todo dx;
  ti_units : 0 ≤ ts_frame_bp dx ∧ 0 ≤ ts_frame_todo dx ∧ ts_frame_bp dx + ts_frame_todo dx ≤ 65552
}.

Definition ts_target (dx : vbi_dvb_demux) : Z := if ts_in_sync dx then 10 else 197.

Definition ts_ok (dx : vbi_dvb_demux) : Prop :=
  ts_inv dx ∧ bp (ts_wrap dx) + lookahead (ts_wrap dx) = ts_target dx.

Lemma bytes_store (l : list Z) i xs b : bytes l → bytes xs → store l i xs = Some b → bytes b ∧ length b = length l.
Proof.
  intros Hl Hx. unfold store. case_decide; [|done]. intros [= <-]. split.
  - apply Forall_app. split; [by apply Forall_take|]. apply Forall_app. split; [done|by apply Forall_drop].
  - list_lia.
Qed.

Lemma store_fits {A} (l : list A) i xs : 0 ≤ i → i + Z.of_nat (length xs) ≤ Z.of_nat (length l) → ∃ b, store l i xs = Some b.
Proof. intros. unfold store. rewrite decide_True by lia. by eexists. Qed.

Lemma store_nil {A} (l : list A) i : 0 ≤ i ≤ Z.of_nat (length l) → store l i [] = Some l.
Proof.
  intros. unfold store. rewrite decide_True by (cbn; lia). cbn [app length].
  by rewrite Nat.add_0_r, take_drop.
Qed.

(** Storing in two steps. *)
Lemma store_concat {A} (l : list A) i xs ys :
  store l i (xs ++ ys) = (b ← store l i xs; store b (i + Z.of_nat (length xs)) ys).
Proof.
  unfold store. rewrite length_app. destruct (decide (0 ≤ i ∧ i + Z.of_nat (length xs) ≤ Z.of_nat (length l))) as [H|H].
  - cbn [mbind option_bind].
    assert (length (take (Z.to_nat i) l ++ xs ++ drop (Z.to_nat i + length xs) l) = length l) as -> by list_lia.
    destruct (decide (0 ≤ i + Z.of_nat (length xs) ∧ _)) as [H2|H2]; [|rewrite decide_False by lia; done].
    rewrite decide_True by lia. f_equal.
    assert (length (take (Z.to_nat i) l) = Z.to_nat i) as Ht by list_lia.
    set (t := take (Z.to_nat i) l) in *. set (d := drop (Z.to_nat i + length xs) l).
    assert (take (Z.to_nat (i + Z.of_nat (length xs))) (t ++ xs ++ d) = t ++ xs) as ->.
    { rewrite app_assoc. apply take_app_length'. rewrite length_app. lia. }
    assert (drop (Z.to_nat (i + Z.of_nat (length xs)) + length ys) (t ++ xs ++ d) = drop (length ys) d) as ->.
    { rewrite app_assoc, drop_app_ge by (rewrite length_app; lia). f_equal. rewrite length_app. lia. }
    subst d. rewrite drop_drop, <-!app_assoc. do 4 f_equal. lia.
  - cbn [mbind option_bind]. by rewrite decide_False by lia.
Qed.

Lemma slice_bytes l a b s : bytes l → slice l a b = Some s → bytes s ∧ Z.of_nat (length s) = b - a.
Proof.
  unfold slice. intros Hb. case_decide; [|done]. intros [= <-]. split; [by apply Forall_take, Forall_drop|list_lia].
Qed.

Ltac ts_fields :=
  cbn [pes_wrap ts_wrap frame_ frame_pts packet_pts new_frame ts_in_sync ts_frame_bp ts_frame_todo ts_pes_bp
    ts_pes_todo ts_continuity ts_pid buffer bp skip consume lookahead leftover
    set_pes_wrap set_frame set_frame_pts set_packet_pts set_new_frame ts_set_wrap ts_set_sync ts_set_frame
    ts_set_pes ts_set_continuity ts_set_consume ts_set_skip ts_set_lookahead ts_set_bp
    wrap_set_skip wrap_set_leftover wrap_set_lookahead wrap_set_buffer wrap_set_consume] in *.

Lemma ts_pes_append_ok l dx :
  ts_inv dx → bytes l → Z.of_nat (length l) ≤ ts_pes_todo dx - consume (ts_wrap dx) ∨ Z.of_nat (length l) ≤ consume (ts_wrap dx) →
  ∃ b, ts_pes_append l dx = Some (ts_set_pes (ts_pes_bp dx + Z.of_nat (length l)) (ts_pes_todo dx - Z.of_nat (length l))
      (set_pes_wrap (wrap_set_buffer b (bp (pes_wrap dx)) (pes_wrap dx)) dx)) ∧
    Z.of_nat (length b) = 65552 ∧ bytes b.
Proof.
  intros [] Hl Hlen. unfold ts_pes_append.
  destruct (store_fits (buffer (pes_wrap dx)) (ts_pes_bp dx) l) as [b Eb]; [lia|lia|]. rewrite Eb.
  apply bytes_store in Eb as [Hb Hlb]; [|done|done]. exists b. split_and!; [done|lia|done].
Qed.

Lemma ts_next_ok p avail dx :
  ts_inv dx → ts_in_sync dx = true → 0 ≤ p → 10 ≤ avail → p + avail = bp (ts_wrap dx) →
  ∃ dx', next_ts_packet p avail dx = Some dx' ∧ ts_ok dx' ∧ pes_wrap dx' = pes_wrap dx.
Proof.
  intros Hinv Hsync Hp Ha Hbp. pose proof Hinv as []. unfold next_ts_packet, ts_ok, ts_target.
  destruct (Z.leb_spec avail 188).
  - eexists. split; [reflexivity|]. unfold TS_HEADER_LOOKAHEAD. ts_fields. rewrite Hsync.
    split; [|done]. split; [|lia]. split; ts_fields; try done; lia.
  - unfold ts_wrap_move. rewrite slice_Some by lia. cbn [mbind option_bind].
    set (l := take _ _). assert (bytes l) as Hl by (by apply Forall_take, Forall_drop).
    assert (Z.of_nat (length l) = avail - 188) as Hll by (subst l; list_lia). clearbody l.
    destruct (store_fits (buffer (ts_wrap dx)) 0 l) as [b Eb]; [lia|lia|]. rewrite Eb.
    apply bytes_store in Eb as [Hb Hlb]; [|done|done]. cbn [mbind option_bind].
    eexists. split; [reflexivity|]. unfold TS_HEADER_LOOKAHEAD. ts_fields. rewrite Hsync.
    split; [|done]. split; [|lia]. split; ts_fields; try done; try lia.
Qed.

Lemma ts_skip_ok p avail dx :
  ts_inv dx → ts_in_sync dx = true → 0 ≤ p → 10 ≤ avail → p + avail = bp (ts_wrap dx) →
  ∃ dx', skip_ts_packet p avail dx = Some dx' ∧ ts_ok dx'.
Proof.
  intros Hinv Hsync Hp Ha Hbp. unfold skip_ts_packet. pose proof Hinv as [].
  destruct (Z.leb_spec avail 188);
    [edestruct (ts_next_ok p avail (ts_set_skip (188 - avail) dx)) as (dx' & E & Hk & _)
    |edestruct (ts_next_ok p avail dx) as (dx' & E & Hk & _)]; try done; try (by exists dx').
  split; ts_fields; try done; lia.
Qed.

Lemma ts_skip_pes_ok p avail dx :
  ts_inv dx → ts_in_sync dx = true → 0 ≤ p → 10 ≤ avail → p + avail = bp (ts_wrap dx) →
  ∃ dx', skip_ts_pes_packet p avail dx = Some dx' ∧ ts_ok dx'.
Proof.
  intros Hinv Hsync Hp Ha Hbp. apply ts_skip_ok; try done. destruct Hinv. split; ts_fields; try done; lia.
Qed.

Lemma ts_start_ok p b1 dx :
  ts_inv dx → consume (ts_wrap dx) = 0 → 0 ≤ p → p + 10 ≤ 208 →
  ts_start p b1 dx = Some None ∨
  ∃ dx', ts_start p b1 dx = Some (Some dx') ∧ ts_inv dx' ∧ ts_in_sync dx' = ts_in_sync dx ∧ ts_wrap dx' = ts_wrap dx.
Proof.
  intros Hinv Hco Hp Hp10. pose proof Hinv as []. unfold ts_start.
  assert (∀ i, 0 ≤ i < 10 → ∃ c, rd (buffer (ts_wrap dx)) (p + i) = Some c ∧ is_byte c) as Hrd
    by (intros i Hi; apply rd_byte; [done|lia]).
  destruct (ts_pes_todo dx =? 0).
  - destruct (Hrd 4) as (c4 & -> & _); [lia|]. destruct (Hrd 5) as (c5 & -> & _); [lia|].
    destruct (Hrd 6) as (c6 & -> & _); [lia|]. destruct (Hrd 7) as (c7 & -> & _); [lia|].
    destruct (Hrd 8) as (c8 & -> & H8); [lia|]. destruct (Hrd 9) as (c9 & -> & H9); [lia|].
    cbn [mbind option_bind]. destruct (_ || _); [by left|]. unfold is_byte in *.
    destruct (Z.ltb_spec (c8 * 256 + c9) 178); [by left|]. right. eexists. split; [reflexivity|].
    split; [|done]. split; ts_fields; try done; lia.
  - destruct (negb _); [by left|]. right. by exists dx.
Qed.

Lemma ts_fragment_ok p avail dx :
  ts_inv dx → ts_in_sync dx = true → consume (ts_wrap dx) = 0 → 0 ≤ p → 10 ≤ avail → p + avail = bp (ts_wrap dx) →
  ∃ dx', ts_fragment p avail dx = Some dx' ∧ ts_ok dx'.
Proof.
  intros Hinv Hsync Hco Hp Ha Hbp. pose proof Hinv as []. unfold ts_fragment.
  destruct (Z.leb_spec avail 188); (rewrite slice_Some by lia); cbn [mbind option_bind]; set (l := take _ _);
    (assert (bytes l) as Hl by (by apply Forall_take, Forall_drop)).
  - set (n := Z.min (avail - 4) (Z.min (ts_pes_todo dx) 184)) in *.
    assert (Z.of_nat (length l) = n) as Hll by (subst l; list_lia). clearbody l.
    destruct (ts_pes_append_ok l dx Hinv Hl) as (b & -> & Hb1 & Hb2); [left; lia|]. cbn [mbind option_bind].
    rewrite Hll. edestruct (ts_next_ok p avail) as (dx' & E & Hk & _); [..|by exists dx']; try done.
    split; ts_fields; try done; lia.
  - set (n := Z.min (ts_pes_todo dx) 184) in *.
    assert (Z.of_nat (length l) = n) as Hll by (subst l; list_lia). clearbody l.
    destruct (ts_pes_append_ok l dx Hinv Hl) as (b & -> & Hb1 & Hb2); [left; lia|]. cbn [mbind option_bind].
    rewrite Hll. edestruct (ts_next_ok p avail) as (dx' & E & Hk & _); [..|by exists dx']; try done.
    split; ts_fields; try done; lia.
Qed.

Lemma ts_packet_ok p avail dx :
  ts_inv dx → ts_in_sync dx = true → consume (ts_wrap dx) = 0 → 0 ≤ p → 10 ≤ avail → p + avail = bp (ts_wrap dx) →
  ∃ dx', ts_packet p avail dx = Some dx' ∧ ts_ok dx'.
Proof.
  intros Hinv Hsync Hco Hp Ha Hbp. pose proof Hinv as []. unfold ts_packet.
  assert (∀ i, 0 ≤ i < 10 → ∃ c, rd (buffer (ts_wrap dx)) (p + i) = Some c ∧ is_byte c) as Hrd
    by (intros i Hi; apply rd_byte; [done|lia]).
  destruct (Hrd 1) as (b1 & -> & _); [lia|]. destruct (Hrd 2) as (b2 & -> & _); [lia|].
  destruct (Hrd 3) as (b3 & -> & _); [lia|]. cbn [mbind option_bind].
  destruct (negb (b1 .& 0x80 =? 0)); [by apply ts_skip_pes_ok|].
  destruct (negb (_ =? ts_pid dx)); [by apply ts_skip_ok|].
  destruct (negb (b3 .& 0xC0 =? 0)); [by apply ts_skip_pes_ok|].
  destruct (b3 .& 0x30 =? 0x20); [by apply ts_skip_ok|].
  destruct (negb (b3 .& 0x30 =? 0x10)); [by apply ts_skip_pes_ok|].
  set (lost := negb _ && _).
  destruct (lost && _); [by apply ts_skip_ok|].
  assert (ts_inv (ts_set_continuity (b3 + 1) dx)) as Hc by (split; ts_fields; done).
  destruct lost; [by apply ts_skip_pes_ok|].
  destruct (ts_start_ok p b1 _ Hc Hco) as [->|(dx2 & -> & Hinv2 & Hsync2 & Hw2)]; [lia|lia| |];
    cbn [mbind option_bind]; [by apply ts_skip_pes_ok|].
  apply ts_fragment_ok; rewrite ?Hw2, ?Hsync2; done.
Qed.

Lemma ts_payload_ok dx :
  ts_ok dx → (ts_pes_todo dx = 0 → 184 ≤ ts_pes_bp dx) → consume (ts_wrap dx) = 0 →
  ∃ dx', ts_payload dx = Some dx' ∧ ts_ok dx' ∧ consume (ts_wrap dx') = 0.
Proof.
  intros Hok Hlen Hco. pose proof Hok as [[] Hlook]. unfold ts_payload.
  destruct (Z.eqb_spec (ts_pes_todo dx) 0) as [Et|Et]; [|by exists dx].
  rewrite slice_Some by lia. cbn [mbind option_bind]. set (p := take _ _).
  assert (bytes p) as Hp by (by apply Forall_take, Forall_drop).
  assert (184 ≤ Z.of_nat (length p)) as Hlp by (subst p; list_lia). clearbody p.
  destruct (valid_header_returns dx p Hp) as (dx2 & v & -> & Hsame); [lia|]. cbn [mbind option_bind].
  assert (ts_ok dx2 ∧ ts_pes_bp dx2 = ts_pes_bp dx ∧ consume (ts_wrap dx2) = 0) as ([Hinv2 Hlook2] & Ebp & Eco).
  { destruct Hsame as [->|[t ->]]; [done|]. split; [|done]. split; [split; ts_fields; done|exact Hlook]. }
  pose proof Hinv2 as []. destruct v; (eexists; split; [reflexivity|]; split; [|done]; split; [|exact Hlook2]);
    split; ts_fields; try done; lia.
Qed.

Lemma ts_consume_ok dx src :
  ts_ok dx → bytes src →
  ∃ dx' rest more, ts_consume dx src = Some (dx', rest, more) ∧ ts_ok dx' ∧
    (∃ k, rest = drop k src) ∧
    if (more : bool) then rest = [] else consume (ts_wrap dx') = 0.
Proof.
  intros [Hinv Hlook] Hb. pose proof Hinv as []. unfold ts_consume.
  destruct (Z.ltb_spec 0 (consume (ts_wrap dx))).
  2: { exists dx, src, false. do 2 (split; [done|]). split; [by exists 0%nat|lia]. }
  destruct (Z.ltb_spec (Z.of_nat (length src)) (consume (ts_wrap dx))).
  - destruct (ts_pes_append_ok src dx Hinv Hb) as (b & -> & Hb1 & Hb2); [right; lia|]. cbn [mbind option_bind].
    eexists _, _, true. split; [reflexivity|]. split; [|split; [|done]].
    + split; [|exact Hlook]. split; ts_fields; try done; lia.
    + exists (length src). by rewrite drop_all.
  - set (l := take _ src). assert (bytes l) as Hl by (by apply Forall_take).
    assert (Z.of_nat (length l) = consume (ts_wrap dx)) as Hll by (subst l; list_lia). clearbody l.
    destruct (ts_pes_append_ok l dx Hinv Hl) as (b & -> & Hb1 & Hb2); [right; lia|]. cbn [mbind option_bind].
    rewrite Hll. edestruct ts_payload_ok as (dx2 & -> & Hok2 & Hco2); cycle -1.
    + cbn [mbind option_bind]. exists dx2, (drop (Z.to_nat (consume (ts_wrap dx))) src), false.
      split; [done|]. split; [done|]. split; [by eexists|done].
    + split; [|exact Hlook]. split; ts_fields; try done; lia.
    + ts_fields. lia.
    + done.
Qed.

Section loop.
Context {C : Type} (callback : option (C → list vbi_sliced → Z → C * bool)).

Lemma ts_frames_ok dx c :
  ts_ok dx →
  ∃ dx' err c', ts_frames callback dx c = Some (dx', err, c') ∧ ts_ok dx' ∧ ts_wrap dx' = ts_wrap dx ∧
    (err = 0 → ts_frame_todo dx' = 0) ∧ (cb_true callback → err = 0).
Proof.
  intros [Hinv Hlook]. pose proof Hinv as []. unfold ts_frames.
  destruct (Z.ltb_spec 0 (ts_frame_todo dx)).
  2: { exists dx, 0, c. do 3 (split; [done|]). split; [intros; lia|done]. }
  rewrite slice_Some by lia. cbn [mbind option_bind]. set (p := take _ _).
  assert (bytes p) as Hp by (by apply Forall_take, Forall_drop).
  assert (Z.of_nat (length p) = ts_frame_todo dx) as Hlp by (subst p; list_lia). clearbody p.
  destruct (demux_pes_packet_frame_returns callback 3 dx p c) as (dx1 & k & lf & err & c1 & -> & Hsw & Hf1 & He & Hcb & _ & Hz & Hlf);
    [done|done|by left; lia|]. cbn [mbind option_bind].
  assert (ts_ok (ts_set_frame (ts_frame_bp dx1 + Z.of_nat (length p) - Z.of_nat (length (drop k p))) lf dx1)) as Hok.
  { destruct Hsw as [E1 E2 E3 E4]. injection E4 as E5 E6 E7 E8 E9 E10.
    split; [|unfold ts_target; ts_fields; rewrite E2, E3; exact Hlook].
    split; ts_fields; rewrite ?E1, ?E2, ?E7, ?E8, ?E5; try done. rewrite length_drop in *. lia. }
  assert (ts_wrap dx1 = ts_wrap dx) as Hw by apply Hsw.
  destruct (Z.eqb_spec err VBI_ERR_CALLBACK) as [->|Hne].
  - eexists _, _, _. split; [reflexivity|]. split; [done|]. split; [done|]. split; [done|].
    intros (cb & -> & Ht). exfalso. apply Hcb; [|done|done]. by intros ? [= <-].
  - destruct (Z.eqb_spec err 0) as [->|]; cbn [negb].
    + eexists _, _, _. split; [reflexivity|]. split; [done|]. split; [done|]. split; [|done]. intros _. by apply Hz.
    + eexists _, _, _. split; [reflexivity|]. destruct Hok as [[] Hl]. split; [|done].
      split; [|exact Hl]. split; ts_fields; try done; lia.
Qed.

Lemma ts_fill_ok dx src :
  ts_ok dx → bytes src →
  ∃ dx' rest more, ts_fill dx src = Some (dx', rest, more) ∧ (∃ k, rest = drop k src) ∧
    consume (ts_wrap dx') = consume (ts_wrap dx) ∧ ts_frame_todo dx' = ts_frame_todo dx ∧
    if (more : bool) then rest = [] ∧ ts_ok dx'
    else ts_inv dx' ∧ bp (ts_wrap dx') = ts_target dx' ∧ (length rest < length src)%nat.
Proof.
  intros [Hinv Hlook] Hb. pose proof Hinv as []. unfold ts_fill.
  assert (ts_target dx ≤ 197) as Ht by (unfold ts_target; destruct (ts_in_sync dx); lia).
  destruct (Z.ltb_spec (Z.of_nat (length src)) (skip (ts_wrap dx))).
  { eexists _, _, true. split; [reflexivity|]. split; [exists (length src); by rewrite drop_all|].
    split; [done|]. split; [done|]. split; [done|]. split; [|exact Hlook]. split; ts_fields; try done; lia. }
  set (src' := drop _ src). assert (bytes src') as Hb' by (by apply Forall_drop).
  assert (Z.of_nat (length src') = Z.of_nat (length src) - skip (ts_wrap dx)) as Hls by (subst src'; list_lia).
  unfold ts_wrap_append. ts_fields.
  destruct (Z.ltb_spec (Z.of_nat (length src')) (lookahead (ts_wrap dx))).
  - destruct (store_fits (buffer (ts_wrap dx)) (bp (ts_wrap dx)) src') as [b Eb]; [lia|lia|]. rewrite Eb.
    apply bytes_store in Eb as [Hb1 Hb2]; [|done|done]. cbn [mbind option_bind].
    eexists _, _, true. split; [reflexivity|]. split; [exists (length src); by rewrite drop_all|].
    split; [done|]. split; [done|]. split; [done|]. split; [|unfold ts_target in *; ts_fields; lia].
    split; ts_fields; try done; lia.
  - set (l := take _ src'). assert (bytes l) as Hl by (by apply Forall_take).
    assert (Z.of_nat (length l) = lookahead (ts_wrap dx)) as Hll by (subst l; list_lia). clearbody l.
    destruct (store_fits (buffer (ts_wrap dx)) (bp (ts_wrap dx)) l) as [b Eb]; [lia|lia|]. rewrite Eb.
    apply bytes_store in Eb as [Hb1 Hb2]; [|done|done]. cbn [mbind option_bind].
    eexists _, _, false. split; [reflexivity|]. split; [subst src'; rewrite drop_drop; by eexists|].
    split; [done|]. split; [done|]. split; [|split; [unfold ts_target in *; ts_fields; lia|rewrite length_drop; lia]].
    split; ts_fields; try done; lia.
Qed.

Lemma sync_search_ok fuel b p bp :
  bytes b → 0 ≤ p → p + Z.of_nat fuel = 188 → (0 < fuel)%nat → 197 ≤ bp ≤ Z.of_nat (length b) →
  ∃ r, sync_search fuel b p bp = Some r ∧ ∀ q, r = Some q → p ≤ q < 188.
Proof.
  intros Hb. revert p. induction fuel as [|fuel IH]; intros p Hp Hf Hpos Hbp; [lia|]. cbn [sync_search].
  assert (∀ i, 0 ≤ i → p + i < bp → ∃ c, rd b (p + i) = Some c ∧ is_byte c) as Hrd
    by (intros i Hi Hlt; apply rd_byte; [done|lia]).
  destruct (Hrd 0) as (c & Ec & _); [lia|lia|]. rewrite Z.add_0_r in Ec. rewrite Ec. cbn [mbind option_bind].
  set (found := if c =? 0x47 then _ else _).
  assert (∃ f, found = Some f) as [f ->].
  { subst found. destruct (c =? 0x47); [|by eexists].
    assert (∃ n, (if p + 188 <? bp then c ← rd b (p + 188); Some (c =? 0x47) else Some false) = Some n) as [n ->].
    { destruct (Z.ltb_spec (p + 188) bp); [|by eexists]. destruct (Hrd 188) as (? & -> & _); [lia|lia|]. by eexists. }
    cbn [mbind option_bind]. destruct n; [by eexists|]. destruct (Z.ltb_spec (p + 7) bp); [|by eexists].
    destruct (Hrd 4) as (? & -> & _); [lia|lia|]. destruct (Hrd 5) as (? & -> & _); [lia|lia|].
    destruct (Hrd 6) as (? & -> & _); [lia|lia|]. destruct (Hrd 7) as (? & -> & _); [lia|lia|]. by eexists. }
  cbn [mbind option_bind]. destruct f; [eexists; split; [done|]; intros q [= <-]; lia|].
  destruct (Z.leb_spec 188 (p + 1)); [by eexists|].
  destruct (IH (p + 1)) as (r & -> & Hr); [lia|lia|lia|lia|]. eexists. split; [done|]. intros q Hq. specialize (Hr q Hq). lia.
Qed.

Lemma ts_header_ok dx :
  ts_inv dx → bp (ts_wrap dx) = ts_target dx → consume (ts_wrap dx) = 0 →
  ∃ dx', ts_header dx = Some dx' ∧ ts_ok dx'.
Proof.
  intros Hinv Hbp Hco. pose proof Hinv as []. unfold ts_header, ts_target in *.
  destruct (ts_in_sync dx) eqn:Es.
  - destruct (rd_byte (buffer (ts_wrap dx)) 0) as (c & -> & _); [done|lia|]. cbn [mbind option_bind].
    destruct (negb _); [|apply ts_packet_ok; (done || lia)].
    eexists. split; [reflexivity|]. unfold TS_SYNC_SEARCH_LOOKAHEAD, TS_HEADER_LOOKAHEAD.
    split; [|unfold ts_target; ts_fields; lia]. split; ts_fields; try done; lia.
  - change TS_SYNC_SEARCH_LOOKAHEAD with 197. destruct (Z.ltb_spec (bp (ts_wrap dx)) 197); [lia|].
    destruct (sync_search_ok 188 (buffer (ts_wrap dx)) 0 (bp (ts_wrap dx))) as (r & -> & Hr); [done|lia|lia|lia|lia|].
    cbn [mbind option_bind]. destruct r as [p|].
    + specialize (Hr p eq_refl). apply ts_packet_ok; ts_fields; (done || lia).
    + unfold ts_wrap_move. rewrite slice_Some by lia. cbn [mbind option_bind]. set (l := take _ _).
      assert (bytes l) as Hl by (by apply Forall_take, Forall_drop).
      assert (Z.of_nat (length l) = 9) as Hll by (subst l; list_lia). clearbody l.
      destruct (store_fits (buffer (ts_wrap dx)) 0 l) as [b Eb]; [lia|lia|]. rewrite Eb.
      apply bytes_store in Eb as [Hb1 Hb2]; [|done|done]. cbn [mbind option_bind].
      eexists. split; [reflexivity|]. split; [|unfold ts_target; ts_fields; rewrite Es; lia].
      split; ts_fields; try done; lia.
Qed.
End loop.

Section returns.
Context {C : Type} (callback : option (C → list vbi_sliced → Z → C * bool)).

Lemma ts_loop_returns fuel dx src c :
  ts_ok dx → bytes src → (length src < fuel)%nat →
  ∃ dx' rest err c', demux_ts_loop callback fuel dx src c = Some (dx', rest, err, c') ∧ ts_ok dx' ∧
    (∃ k, rest = drop k src) ∧ (err = 0 → rest = []) ∧ (cb_true callback → err = 0).
Proof.
  revert dx src c. induction fuel as [|fuel IH]; intros dx src c Hok Hb Hf; [lia|]. cbn [demux_ts_loop].
  destruct (ts_consume_ok dx src Hok Hb) as (dx1 & r1 & m1 & -> & Hok1 & [k1 ->] & H1). cbn [mbind option_bind].
  destruct m1.
  { exists dx1, [], 0, c. split; [done|]. split; [done|]. split; [exists (length src); by rewrite drop_all|done]. }
  assert (bytes (drop k1 src)) as Hb1 by (by apply Forall_drop).
  destruct (ts_frames_ok callback dx1 c Hok1) as (dx2 & err & c2 & -> & Hok2 & Hw & Hz & Hcb). cbn [mbind option_bind].
  destruct (Z.eqb_spec err 0) as [->|Hne]; cbn [negb].
  2: { exists dx2, (drop k1 src), err, c2. split; [done|]. split; [done|]. split; [by eexists|done]. }
  destruct (ts_fill_ok dx2 (drop k1 src) Hok2 Hb1) as (dx3 & r3 & m3 & -> & [k3 ->] & Hc3 & _ & H3). cbn [mbind option_bind].
  destruct m3.
  { exists dx3, [], 0, c2. split; [done|]. split; [apply H3|]. split; [exists (length src); by rewrite drop_all|done]. }
  destruct H3 as (Hinv3 & Hbp3 & Hlt).
  destruct (ts_header_ok dx3 Hinv3 Hbp3) as (dx4 & -> & Hok4); [by rewrite Hc3, Hw|]. cbn [mbind option_bind].
  destruct (IH dx4 (drop k3 (drop k1 src)) c2) as (dx5 & r5 & e5 & c5 & -> & Hok5 & [k5 ->] & Hr & Ht);
    [done|by apply Forall_drop|rewrite ?length_drop in *; lia|].
  exists dx5, (drop k5 (drop k3 (drop k1 src))), e5, c5. split; [done|]. split; [done|]. split; [|done].
  rewrite !drop_drop. by eexists.
Qed.

(** More fuel than is needed makes no difference. *)
Lemma ts_loop_fuel n m dx src c r :
  demux_ts_loop callback n dx src c = Some r → (n ≤ m)%nat → demux_ts_loop callback m dx src c = Some r.
Proof.
  revert m dx src c. induction n as [|n IH]; intros [|m] dx src c H Hm; try done; [lia|].
  cbn [demux_ts_loop] in *.
  destruct (ts_consume dx src) as [[[dx1 r1] [|]]|]; cbn [mbind option_bind] in *; try done.
  destruct (ts_frames callback dx1 c) as [[[dx2 err] c2]|]; cbn [mbind option_bind] in *; try done.
  destruct (negb (err =? 0)); [done|].
  destruct (ts_fill dx2 r1) as [[[dx3 r3] [|]]|]; cbn [mbind option_bind] in *; try done.
  destruct (ts_header dx3); cbn [mbind option_bind] in *; [|done]. apply IH; [done|lia].
Qed.

(** The bytes that are taken from a buffer, and what of the next one is taken. *)
Lemma ts_pes_append_app l1 l2 dx :
  ts_pes_append (l1 ++ l2) dx = (dx ← ts_pes_append l1 dx; ts_pes_append l2 dx).
Proof.
  unfold ts_pes_append. rewrite store_concat.
  destruct (store _ _ l1) as [b|]; cbn [mbind option_bind]; [|done]. ts_fields.
  destruct (store b _ l2) as [b'|]; cbn [mbind option_bind]; [|done].
  rewrite length_app, Nat2Z.inj_add. unfold ts_set_pes, set_pes_wrap, wrap_set_buffer. ts_fields.
  do 2 f_equal; lia.
Qed.

Lemma ts_wrap_append_app l1 l2 dx :
  ts_wrap_append (l1 ++ l2) dx = (dx ← ts_wrap_append l1 dx; ts_wrap_append l2 dx).
Proof.
  unfold ts_wrap_append. rewrite store_concat.
  destruct (store _ _ l1) as [b|]; cbn [mbind option_bind]; [|done]. ts_fields.
  destruct (store b _ l2) as [b'|]; cbn [mbind option_bind]; [|done].
  rewrite length_app, Nat2Z.inj_add. unfold ts_set_wrap, wrap_set_buffer. ts_fields. do 3 f_equal. lia.
Qed.
End returns.

(** ** Buffers *)

Lemma ts_pes_append_consume l n dx :
  ts_pes_append l (ts_set_consume n dx) = (dx ← ts_pes_append l dx; Some (ts_set_consume n dx)).
Proof. unfold ts_pes_append. ts_fields. by destruct (store _ _ l). Qed.

Lemma ts_pes_append_consume_of l dx dx' : ts_pes_append l dx = Some dx' → ts_wrap dx' = ts_wrap dx.
Proof. unfold ts_pes_append. destruct (store _ _ l); [|done]. by intros [= <-]. Qed.

Lemma ts_wrap_append_fields l dx dx' :
  ts_wrap_append l dx = Some dx' →
  skip (ts_wrap dx') = skip (ts_wrap dx) ∧ lookahead (ts_wrap dx') = lookahead (ts_wrap dx) ∧
  consume (ts_wrap dx') = consume (ts_wrap dx) ∧ ts_frame_todo dx' = ts_frame_todo dx.
Proof. unfold ts_wrap_append. destruct (store _ _ l); [|done]. by intros [= <-]. Qed.

Lemma ts_wrap_append_lookahead l n dx :
  ts_wrap_append l (ts_set_lookahead n dx) = (dx ← ts_wrap_append l dx; Some (ts_set_lookahead n dx)).
Proof. unfold ts_wrap_append. ts_fields. by destruct (store _ _ l). Qed.

Lemma ts_set_lookahead_id dx : ts_set_lookahead (lookahead (ts_wrap dx)) dx = dx.
Proof. by destruct dx as [? [] ? ? ? ? ? ? ? ? ? ? ?]. Qed.

Lemma ts_set_skip_id dx : ts_set_skip (skip (ts_wrap dx)) dx = dx.
Proof. by destruct dx as [? [] ? ? ? ? ? ? ? ? ? ? ?]. Qed.

Lemma ts_consume_app dx a b dx' rest more :
  0 ≤ consume (ts_wrap dx) → ts_consume dx a = Some (dx', rest, more) →
  ts_consume dx (a ++ b) =
    if (more : bool) then ts_consume dx' b else Some (dx', rest ++ b, false).
Proof.
  intros Hpos H. unfold ts_consume in H |- *. destruct (Z.ltb_spec 0 (consume (ts_wrap dx))) as [Hc|Hc]; [|by simplify_eq].
  rewrite length_app, Nat2Z.inj_add.
  destruct (Z.ltb_spec (Z.of_nat (length a)) (consume (ts_wrap dx))) as [Ha|Ha].
  - destruct (ts_pes_append a dx) as [dxa|] eqn:Ea; cbn [mbind option_bind] in H; [|done]. simplify_eq.
    pose proof (ts_pes_append_consume_of _ _ _ Ea) as Hw.
    assert (consume (ts_wrap (ts_set_consume (consume (ts_wrap dx) - Z.of_nat (length a)) dxa)) =
      consume (ts_wrap dx) - Z.of_nat (length a)) as -> by done.
    destruct (Z.ltb_spec 0 (consume (ts_wrap dx) - Z.of_nat (length a))); [|lia].
    rewrite !ts_pes_append_consume.
    destruct (Z.ltb_spec (Z.of_nat (length b)) (consume (ts_wrap dx) - Z.of_nat (length a)));
      (destruct (Z.ltb_spec (Z.of_nat (length a) + Z.of_nat (length b)) (consume (ts_wrap dx))); [|] || idtac); try lia.
    + rewrite ts_pes_append_app, Ea. cbn [mbind option_bind].
      destruct (ts_pes_append b dxa); cbn [mbind option_bind]; [|done].
      replace (consume (ts_wrap dx) - (Z.of_nat (length a) + Z.of_nat (length b)))
        with (consume (ts_wrap dx) - Z.of_nat (length a) - Z.of_nat (length b)) by lia. done.
    + rewrite take_app_ge, drop_app_ge by lia. rewrite ts_pes_append_app, Ea. cbn [mbind option_bind].
      replace (Z.to_nat (consume (ts_wrap dx)) - length a)%nat
        with (Z.to_nat (consume (ts_wrap dx) - Z.of_nat (length a))) by lia.
      by destruct (ts_pes_append _ dxa).
  - destruct (Z.ltb_spec (Z.of_nat (length a) + Z.of_nat (length b)) (consume (ts_wrap dx))); [lia|].
    rewrite take_app_le, drop_app_le by lia.
    destruct (ts_pes_append _ dx); cbn [mbind option_bind] in *; [|done].
    destruct (ts_payload _); cbn [mbind option_bind] in *; [|done]. by simplify_eq.
Qed.

(** Whatever is looked for next, the number of bytes is computed anew. *)
Lemma next_lookahead p avail n dx : next_ts_packet p avail (ts_set_lookahead n dx) = next_ts_packet p avail dx.
Proof.
  unfold next_ts_packet, ts_wrap_move. ts_fields. destruct (avail <=? 188); [done|].
  destruct (slice _ _ _); cbn [mbind option_bind]; [|done]. by destruct (store _ _ _).
Qed.

Lemma skip_lookahead p avail n dx : skip_ts_packet p avail (ts_set_lookahead n dx) = skip_ts_packet p avail dx.
Proof.
  unfold skip_ts_packet. destruct (avail <=? 188); [|apply next_lookahead].
  exact (next_lookahead p avail n (ts_set_skip (188 - avail) dx)).
Qed.

Lemma skip_pes_lookahead p avail n dx :
  skip_ts_pes_packet p avail (ts_set_lookahead n dx) = skip_ts_pes_packet p avail dx.
Proof. exact (skip_lookahead p avail n (ts_set_consume 0 (ts_set_pes (ts_pes_bp dx) 0 (set_new_frame true dx)))). Qed.

Lemma ts_pes_append_lookahead l n dx :
  ts_pes_append l (ts_set_lookahead n dx) = (dx ← ts_pes_append l dx; Some (ts_set_lookahead n dx)).
Proof. unfold ts_pes_append. ts_fields. by destruct (store _ _ l). Qed.

Lemma ts_fragment_lookahead p avail n dx : ts_fragment p avail (ts_set_lookahead n dx) = ts_fragment p avail dx.
Proof.
  unfold ts_fragment.
  change (buffer (ts_wrap (ts_set_lookahead n dx))) with (buffer (ts_wrap dx)).
  change (ts_pes_todo (ts_set_lookahead n dx)) with (ts_pes_todo dx).
  destruct (avail <=? 188); destruct (slice _ _ _) as [l|]; cbn [mbind option_bind]; try done;
    rewrite ts_pes_append_lookahead; destruct (ts_pes_append l dx) as [d|]; cbn [mbind option_bind]; try done.
  - exact (next_lookahead p avail n (ts_set_consume _ d)).
  - apply next_lookahead.
Qed.

Lemma ts_start_lookahead p b1 n dx :
  ts_start p b1 (ts_set_lookahead n dx) = option_map (option_map (ts_set_lookahead n)) (ts_start p b1 dx).
Proof.
  unfold ts_start.
  change (buffer (ts_wrap (ts_set_lookahead n dx))) with (buffer (ts_wrap dx)).
  change (ts_pes_todo (ts_set_lookahead n dx)) with (ts_pes_todo dx). set (b := buffer _).
  destruct (ts_pes_todo dx =? 0); [|by destruct (negb _)].
  destruct (rd b (p + 4)); cbn [mbind option_bind]; [|done]. destruct (rd b (p + 5)); cbn [mbind option_bind]; [|done].
  destruct (rd b (p + 6)); cbn [mbind option_bind]; [|done]. destruct (rd b (p + 7)); cbn [mbind option_bind]; [|done].
  destruct (_ || _); [done|].
  destruct (rd b (p + 8)); cbn [mbind option_bind]; [|done]. destruct (rd b (p + 9)); cbn [mbind option_bind]; [|done].
  by destruct (_ <? 178).
Qed.

Lemma ts_packet_lookahead p avail n dx : ts_packet p avail (ts_set_lookahead n dx) = ts_packet p avail dx.
Proof.
  pose proof (skip_lookahead p avail n dx) as E1. pose proof (skip_pes_lookahead p avail n dx) as E2.
  unfold ts_packet.
  change (buffer (ts_wrap (ts_set_lookahead n dx))) with (buffer (ts_wrap dx)).
  change (ts_pid (ts_set_lookahead n dx)) with (ts_pid dx).
  change (ts_continuity (ts_set_lookahead n dx)) with (ts_continuity dx). set (b := buffer (ts_wrap dx)).
  destruct (rd b (p + 1)) as [b1|]; [|done]. destruct (rd b (p + 2)) as [b2|]; [|done].
  destruct (rd b (p + 3)) as [b3|]; [|done]. cbn [mbind option_bind].
  destruct (negb (b1 .& 0x80 =? 0)); [done|]. destruct (negb (_ =? ts_pid dx)); [done|].
  destruct (negb (b3 .& 0xC0 =? 0)); [done|]. destruct (b3 .& 0x30 =? 0x20); [done|].
  destruct (negb (b3 .& 0x30 =? 0x10)); [done|]. set (lost := negb _ && _).
  destruct (lost && _); [done|].
  destruct lost; [exact (skip_pes_lookahead p avail n (ts_set_continuity (b3 + 1) dx))|].
  change (ts_set_continuity (b3 + 1) (ts_set_lookahead n dx)) with (ts_set_lookahead n (ts_set_continuity (b3 + 1) dx)).
  rewrite ts_start_lookahead. destruct (ts_start p b1 _) as [[d|]|]; cbn [mbind option_bind option_map]; [| |done].
  - apply ts_fragment_lookahead.
  - apply skip_pes_lookahead.
Qed.

Lemma ts_header_lookahead n dx : ts_header (ts_set_lookahead n dx) = ts_header dx.
Proof.
  unfold ts_header.
  change (buffer (ts_wrap (ts_set_lookahead n dx))) with (buffer (ts_wrap dx)).
  change (bp (ts_wrap (ts_set_lookahead n dx))) with (bp (ts_wrap dx)).
  change (ts_in_sync (ts_set_lookahead n dx)) with (ts_in_sync dx).
  destruct (ts_in_sync dx).
  - destruct (rd _ 0); [|done]. cbn [mbind option_bind]. destruct (negb _); [done|]. apply ts_packet_lookahead.
  - destruct (_ <? _); [done|]. destruct (sync_search _ _ _ _) as [[p|]|]; cbn [mbind option_bind]; [| |done].
    + exact (ts_packet_lookahead p _ n (ts_set_sync true dx)).
    + unfold ts_wrap_move. ts_fields. destruct (slice _ _ _); cbn [mbind option_bind]; [|done]. by destruct (store _ _ _).
Qed.

(** Two contexts that differ in the bytes that were to be looked ahead. *)
Definition same_header (dx dx' : vbi_dvb_demux) : Prop := ∃ n, dx' = ts_set_lookahead n dx.

Lemma same_header_turn dx dx' : same_header dx dx' → ts_header dx' = ts_header dx.
Proof. intros [n ->]. apply ts_header_lookahead. Qed.

Definition fill_agrees (r r' : option (vbi_dvb_demux * list Z * bool)) : Prop :=
  r = r' ∨ ∃ d d' rest, r = Some (d, rest, false) ∧ r' = Some (d', rest, false) ∧ same_header d d'.

Lemma ts_fill_app dx a b dx' rest more :
  0 ≤ skip (ts_wrap dx) → 1 ≤ lookahead (ts_wrap dx) → ts_fill dx a = Some (dx', rest, more) →
  fill_agrees (ts_fill dx (a ++ b)) (if (more : bool) then ts_fill dx' b else Some (dx', rest ++ b, false)).
Proof.
  intros Hs Hl H. unfold ts_fill in H |- *. rewrite length_app, Nat2Z.inj_add.
  destruct (Z.ltb_spec (Z.of_nat (length a)) (skip (ts_wrap dx))) as [Ha|Ha].
  - simplify_eq. ts_fields.
    destruct (Z.ltb_spec (Z.of_nat (length a) + Z.of_nat (length b)) (skip (ts_wrap dx))),
      (Z.ltb_spec (Z.of_nat (length b)) (skip (ts_wrap dx) - Z.of_nat (length a))); try lia.
    + replace (skip (ts_wrap dx) - (Z.of_nat (length a) + Z.of_nat (length b)))
        with (skip (ts_wrap dx) - Z.of_nat (length a) - Z.of_nat (length b)) by lia. by left.
    + rewrite drop_app_ge by lia.
      replace (Z.to_nat (skip (ts_wrap dx)) - length a)%nat
        with (Z.to_nat (skip (ts_wrap dx) - Z.of_nat (length a))) by lia. by left.
  - destruct (Z.ltb_spec (Z.of_nat (length a) + Z.of_nat (length b)) (skip (ts_wrap dx))); [lia|].
    rewrite drop_app_le by lia. set (a' := drop _ a) in *. rewrite length_app, Nat2Z.inj_add.
    assert (lookahead (ts_wrap (ts_set_skip 0 dx)) = lookahead (ts_wrap dx)) as El by done. rewrite El in *. clear El.
    assert (skip (ts_wrap (ts_set_skip 0 dx)) = 0) as Es by done.
    set (dx0 := ts_set_skip 0 dx) in *.
    destruct (Z.ltb_spec (Z.of_nat (length a')) (lookahead (ts_wrap dx))) as [Ha'|Ha'].
    + destruct (ts_wrap_append a' dx0) as [dxa|] eqn:Ea; cbn [mbind option_bind] in H; [|done]. simplify_eq.
      apply ts_wrap_append_fields in Ea as Hfd. destruct Hfd as (Hd1 & Hd2 & Hd3 & Hd4).
      set (n := lookahead (ts_wrap dx) - Z.of_nat (length a')).
      assert (skip (ts_wrap (ts_set_lookahead n dxa)) = 0) as -> by (by rewrite <-Es, <-Hd1).
      destruct (Z.ltb_spec (Z.of_nat (length b)) 0); [lia|]. change (Z.to_nat 0) with 0%nat. rewrite drop_0.
      assert (ts_set_skip 0 (ts_set_lookahead n dxa) = ts_set_lookahead n dxa) as ->.
      { assert (0 = skip (ts_wrap (ts_set_lookahead n dxa))) as E by (by rewrite <-Es, <-Hd1).
        etransitivity; [|apply ts_set_skip_id]. by rewrite <-E. }
      assert (lookahead (ts_wrap (ts_set_lookahead n dxa)) = n) as -> by done.
      rewrite !ts_wrap_append_lookahead. subst n.
      destruct (Z.ltb_spec (Z.of_nat (length a') + Z.of_nat (length b)) (lookahead (ts_wrap dx))),
        (Z.ltb_spec (Z.of_nat (length b)) (lookahead (ts_wrap dx) - Z.of_nat (length a'))); try lia.
      * rewrite ts_wrap_append_app, Ea. cbn [mbind option_bind].
        destruct (ts_wrap_append b dxa); cbn [mbind option_bind]; [|by left].
        replace (lookahead (ts_wrap dx) - (Z.of_nat (length a') + Z.of_nat (length b)))
          with (lookahead (ts_wrap dx) - Z.of_nat (length a') - Z.of_nat (length b)) by lia. by left.
      * rewrite take_app_ge, drop_app_ge by lia. rewrite ts_wrap_append_app, Ea. cbn [mbind option_bind].
        replace (Z.to_nat (lookahead (ts_wrap dx)) - length a')%nat
          with (Z.to_nat (lookahead (ts_wrap dx) - Z.of_nat (length a'))) by lia.
        destruct (ts_wrap_append _ dxa) as [d|]; cbn [mbind option_bind]; [|by left].
        right. eexists _, _, _. split; [reflexivity|]. split; [reflexivity|]. by eexists.
    + destruct (Z.ltb_spec (Z.of_nat (length a') + Z.of_nat (length b)) (lookahead (ts_wrap dx))); [lia|].
      rewrite take_app_le, drop_app_le by lia.
      destruct (ts_wrap_append _ dx0); cbn [mbind option_bind] in *; [|done]. simplify_eq. by left.
Qed.

Section buffers.
Context {C : Type} (callback : option (C → list vbi_sliced → Z → C * bool)) (Hcb : cb_true callback).

Lemma ts_consume_nothing dx src : consume (ts_wrap dx) = 0 → ts_consume dx src = Some (dx, src, false).
Proof. intros H. unfold ts_consume. by rewrite H. Qed.

Lemma ts_frames_nothing dx c : ts_frame_todo dx = 0 → ts_frames callback dx c = Some (dx, 0, c).
Proof. intros H. unfold ts_frames. by rewrite H. Qed.

Lemma ts_loop_app n dx a b c dx1 c1 :
  ts_ok dx → bytes a → bytes b → (length a < n)%nat → demux_ts_loop callback n dx a c = Some (dx1, [], 0, c1) →
  ∀ m, (length (a ++ b) < m)%nat → demux_ts_loop callback m dx (a ++ b) c = demux_ts_loop callback m dx1 b c1.
Proof.
  revert dx a c. induction n as [|n IH]; intros dx a c Hok Ha Hb Hn H [|m] Hm; try lia.
  cbn [demux_ts_loop] in H. cbn [demux_ts_loop].
  destruct (ts_consume_ok dx a Hok Ha) as (d1 & r1 & m1 & E1 & Hok1 & [k1 Ek1] & Hm1). rewrite E1 in H.
  rewrite (ts_consume_app dx a b _ _ _ (proj1 (ti_consume _ (proj1 Hok))) E1).
  cbn [mbind option_bind] in H. destruct m1; [by simplify_eq|]. cbn [mbind option_bind].
  assert (bytes r1) as Hb1 by (subst r1; by apply Forall_drop).
  destruct (ts_frames_ok callback d1 c Hok1) as (d2 & err & c2 & E2 & Hok2 & Hw2 & Hz2 & Ht2). rewrite E2 in *.
  cbn [mbind option_bind] in *. rewrite (Ht2 Hcb) in *. specialize (Hz2 eq_refl). change (negb (0 =? 0)) with false in *.
  destruct (ts_fill_ok d2 r1 Hok2 Hb1) as (d3 & r3 & m3 & E3 & [k3 Ek3] & Hc3 & Htd3 & Hm3). rewrite E3 in H.
  pose proof Hok2 as [[] _]. pose proof (ts_fill_app d2 r1 b d3 r3 m3) as Hfa. rewrite E3 in Hfa.
  assert (consume (ts_wrap d3) = 0) as Hc3' by (by rewrite Hc3, Hw2).
  cbn [mbind option_bind] in H. destruct m3.
  - simplify_eq. rewrite (ts_consume_nothing dx1) by done. cbn [mbind option_bind].
    rewrite (ts_frames_nothing dx1) by (by rewrite Htd3). cbn [mbind option_bind]. change (negb (0 =? 0)) with false. cbn iota.
    destruct Hfa as [->|(e1 & e2 & rest & -> & -> & Hs)]; [lia|done|done|done|]. cbn [mbind option_bind].
    by rewrite (same_header_turn _ _ Hs).
  - destruct Hm3 as (Hinv3 & Hbp3 & Hlt3).
    destruct (ts_header_ok d3 Hinv3 Hbp3 Hc3') as (d4 & E4 & Hok4). rewrite E4 in H. cbn [mbind option_bind] in H.
    assert (demux_ts_loop callback (S m) dx1 b c1 = demux_ts_loop callback m d4 (r3 ++ b) c2) as Hgoal.
    { assert (bytes r3) as Hb3 by (subst r3; by apply Forall_drop).
      assert (length r1 ≤ length a)%nat by (subst r1; rewrite length_drop; lia).
      rewrite length_app in Hm.
      destruct (ts_loop_returns callback n d4 r3 c2) as (dx' & ? & ? & ? & E5 & Hok' & _); [done|done|lia|].
      assert (ts_ok dx1) by (rewrite E5 in H; congruence).
      rewrite (IH d4 r3 c2 Hok4 Hb3 Hb) with (m := m); [|lia|done|rewrite length_app; lia].
      destruct (ts_loop_returns callback m dx1 b c1) as (? & ? & ? & ? & E6 & _); [done|done|lia|].
      rewrite E6. eapply ts_loop_fuel; [done|lia]. }
    cbn [demux_ts_loop] in Hgoal. rewrite Hgoal.
    destruct Hfa as [->|(e1 & e2 & rest & -> & [= <- <-] & [k Hs])]; [lia|done|done| |]; cbn [mbind option_bind].
    + by rewrite E4.
    + subst d3. rewrite ts_header_lookahead in E4. by rewrite E4.
Qed.
End buffers.

(** ** Properties *)

Fixpoint ts_feed_all {C} (callback : C → list vbi_sliced → Z → C * bool) (dx : vbi_dvb_demux) (bufs : list (list Z))
    (c : C) : option (vbi_dvb_demux * C) :=
  match bufs with
  | [] => Some (dx, c)
  | b :: bufs => '(dx, _, c) ← ts_demux_feed callback dx b c; ts_feed_all callback dx bufs c
  end.

Lemma ts_new_ok pid dx : _vbi_dvb_ts_demux_new pid = Some dx → ts_ok dx.
Proof.
  unfold _vbi_dvb_ts_demux_new. destruct (_ || _); [done|]. intros H. apply (inj Some) in H. subst dx.
  pose proof new_between as ((Hf & Hl & _) & _).
  assert (bytes (buffer (pes_wrap vbi_dvb_pes_demux_new))) as Hp by (apply bytes_repeat; unfold is_byte; lia).
  assert (bytes (buffer (ts_wrap vbi_dvb_pes_demux_new))) as Ht by (apply bytes_repeat; unfold is_byte; lia).
  assert (Z.of_nat (length (buffer (ts_wrap vbi_dvb_pes_demux_new))) = 208) as Htl
    by (cbn [ts_wrap buffer vbi_dvb_pes_demux_new vbi_dvb_demux_reset]; rewrite repeat_length, Z2Nat.id; done).
  split; [|reflexivity].
  split; cbn [pes_wrap ts_wrap frame_ ts_frame_bp ts_frame_todo ts_pes_bp ts_pes_todo]; try assumption;
    cbn [vbi_dvb_pes_demux_new vbi_dvb_demux_reset ts_wrap bp skip consume lookahead ts_pes_bp ts_pes_todo
      ts_frame_bp ts_frame_todo]; unfold TS_SYNC_SEARCH_LOOKAHEAD, TS_HEADER_LOOKAHEAD; lia.
Qed.

Lemma demux_ts_packet_loop {C} (callback : option (C → list vbi_sliced → Z → C * bool)) dx src c :
  src ≠ [] → demux_ts_packet callback dx src c = demux_ts_loop callback (S (length src)) dx src c.
Proof. by destruct src. Qed.

Lemma ts_feed_app {C} (cb : C → list vbi_sliced → Z → C * bool) dx a b c :
  (∀ c l t, (cb c l t).2 = true) → ts_ok dx → bytes a → bytes b →
  ∃ dx1 c1, ts_demux_feed cb dx a c = Some (dx1, true, c1) ∧ ts_ok dx1 ∧
    ts_demux_feed cb dx (a ++ b) c = ts_demux_feed cb dx1 b c1.
Proof.
  intros Hcb Hok Ha Hb. assert (cb_true (Some cb)) as Hct by (by exists cb).
  unfold ts_demux_feed. destruct (decide (a = [])) as [->|Hna]; [by exists dx, c|].
  rewrite (demux_ts_packet_loop _ dx a) by done.
  destruct (ts_loop_returns (Some cb) (S (length a)) dx a c) as (dx1 & r & err & c1 & E & Hok1 & _ & Hr & He);
    [done|done|lia|]. rewrite (He Hct), Hr in E by auto. rewrite E. exists dx1, c1.
  split; [done|]. split; [done|]. rewrite demux_ts_packet_loop by (by destruct a).
  destruct (decide (b = [])) as [->|Hnb].
  - by rewrite app_nil_r, E.
  - rewrite (demux_ts_packet_loop _ dx1 b) by done.
    rewrite (ts_loop_app (Some cb) Hct _ _ _ _ _ _ _ Hok Ha Hb (Nat.lt_succ_diag_r _) E) by lia.
    destruct (ts_loop_returns (Some cb) (S (length b)) dx1 b c1) as (? & ? & ? & ? & E2 & _); [done|done|lia|].
    rewrite E2. rewrite (ts_loop_fuel _ _ (S (length (a ++ b))) _ _ _ _ E2); [done|rewrite length_app; lia].
Qed.

(** Cutting a stream into buffers makes no difference for any state between calls. *)
Lemma ts_feed_all_concat {C} (cb : C → list vbi_sliced → Z → C * bool) bufs : ∀ dx c,
  (∀ c l t, (cb c l t).2 = true) → ts_ok dx → Forall bytes bufs →
  ∃ dx' c', ts_feed_all cb dx bufs c = Some (dx', c') ∧ ts_demux_feed cb dx (concat bufs) c = Some (dx', true, c').
Proof.
  induction bufs as [|b bufs IH]; intros dx c Hcb Hok Hb; cbn [ts_feed_all concat]; [by exists dx, c|].
  inversion Hb as [|? ? H1 H2]; subst. assert (bytes (concat bufs)) as Hc by (by apply Forall_concat).
  destruct (ts_feed_app cb dx b (concat bufs) c Hcb Hok H1 Hc) as (dx1 & c1 & -> & Hok1 & ->). cbn [mbind option_bind].
  by apply IH.
Qed.

(** C30: how a Transport Stream is cut into buffers makes no difference.  Whatever bytes
    a TS demultiplexer is fed, in one buffer or in many of any sizes, it calls the client
    with the same frames and ends in exactly the same state, provided the client does
    not ask to stop. *)
Theorem dvb_ts_buffers_independent {C} (cb : C → list vbi_sliced → Z → C * bool) (pid : Z) (dx : vbi_dvb_demux)
    (bufs : list (list Z)) (c : C) :
  (∀ c l t, (cb c l t).2 = true) → _vbi_dvb_ts_demux_new pid = Some dx → Forall bytes bufs →
  ∃ dx' c', ts_feed_all cb dx bufs c = Some (dx', c') ∧ ts_demux_feed cb dx (concat bufs) c = Some (dx', true, c').
Proof.
  intros Hcb Hnew Hb. apply ts_feed_all_concat; [done|by eapply ts_new_ok|done].
Qed.

(** TS packets with a payload only that begin a PES packet. *)
Definition tsp (cc : Z) (l : list Z) : list Z := [0x47; 0x40; 0x21; 0x10 .| cc] ++ l.

Lemma dvb_ts_buffers_independent_witness :
  ∃ dx dx' c',
    let stream := repeat 7 10 ++ tsp 0 (pes_example 0xE7 5) ++ tsp 1 (pes_example 0xE8 6) ++ tsp 2 (pes_example 0xE7 7) in
    _vbi_dvb_ts_demux_new 0x21 = Some dx ∧
    ts_feed_all recorder dx [take 3 stream; take 400 (drop 3 stream); drop 403 stream] [] = Some (dx', c') ∧
    ts_demux_feed recorder dx stream [] = Some (dx', true, c') ∧ c' = [([7; 8], 5)].
Proof.
  set (stream := repeat 7 10 ++ tsp 0 (pes_example 0xE7 5) ++ tsp 1 (pes_example 0xE8 6) ++ tsp 2 (pes_example 0xE7 7)).
  destruct (_vbi_dvb_ts_demux_new 0x21) as [dx|] eqn:E; [|discriminate E].
  destruct (dvb_ts_buffers_independent recorder 0x21 dx [take 3 stream; take 400 (drop 3 stream); drop 403 stream] [])
    as (dx' & c' & E1 & E2).
  - reflexivity.
  - exact E.
  - assert (bytes stream) as Hb by (apply (bool_decide_unpack _); vm_compute; exact I).
    apply List.Forall_cons; [by apply Forall_take|].
    apply List.Forall_cons; [by apply Forall_take, Forall_drop|].
    apply List.Forall_cons; [by apply Forall_drop|constructor].
  - exists dx, dx', c'. cbv zeta. fold stream.
    change (concat [take 3 stream; take 400 (drop 3 stream); drop 403 stream]) with stream in E2.
    split; [reflexivity|]. split; [exact E1|]. split; [exact E2|].
    assert ((d ← _vbi_dvb_ts_demux_new 0x21; '(_, _, c) ← ts_demux_feed recorder d stream []; Some c) = Some [([7; 8], 5)]) as E3
      by (vm_compute; reflexivity).
    rewrite E in E3. cbn [mbind option_bind] in E3. rewrite E2 in E3. cbn in E3. congruence.
Defined.

(** Whatever a TS demultiplexer is given, in whatever state it was left, with any
    client or none, it returns after at most as many rounds as there are bytes, reads
    and writes inside its two buffers only, and takes all bytes unless the client asked
    to stop. *)
Theorem dvb_ts_safe {C} (callback : option (C → list vbi_sliced → Z → C * bool)) (dx : vbi_dvb_demux) (src : list Z) (c : C) :
  ts_ok dx → bytes src →
  ∃ dx' k err c', demux_ts_packet callback dx src c = Some (dx', drop k src, err, c') ∧ ts_ok dx' ∧
    (err = 0 → drop k src = []) ∧ (cb_true callback → err = 0).
Proof.
  intros Hok Hb. destruct (decide (src = [])) as [->|Hn]; [by exists dx, 0%nat, 0, c|].
  rewrite demux_ts_packet_loop by done.
  destruct (ts_loop_returns callback (S (length src)) dx src c) as (dx1 & r & err & c1 & -> & Hok1 & [k ->] & Hr & He);
    [done|done|lia|]. by exists dx1, k, err, c1.
Qed.

Lemma dvb_ts_safe_witness :
  ∃ dx dx' k err c', _vbi_dvb_ts_demux_new 0x21 = Some dx ∧
    demux_ts_packet None dx (repeat 0x47 400) tt = Some (dx', drop k (repeat 0x47 400), err, c') ∧ ts_ok dx'.
Proof.
  destruct (_vbi_dvb_ts_demux_new 0x21) as [dx|] eqn:E; [|discriminate E].
  destruct (dvb_ts_safe None dx (repeat 0x47 400) tt) as (dx' & k & err & c' & E1 & Hok & _).
  - apply (ts_new_ok 0x21). exact E.
  - apply bytes_repeat. unfold is_byte. lia.
  - exists dx, dx', k, err, c'. split; [reflexivity|]. split; [exact E1|exact Hok].
Defined.

(** Known divergence: the completion of a PES packet is looked for only after bytes of
    it came from the source.  A packet that was copied wholly from the bytes that were
    read for resynchronisation is never decoded: the first line of this stream is
    lost, although the same stream after ten bytes of rubbish delivers it. *)
Lemma ts_resync_loses_packet :
  let stream := tsp 0 (pes_example 0xE7 5) ++ tsp 1 (pes_example 0xE8 6) ++ tsp 2 (pes_example 0xE7 7) in
  (dx ← _vbi_dvb_ts_demux_new 0x21; '(_, _, c) ← ts_demux_feed recorder dx stream []; Some c) =
    Some [([8], 6)] ∧
  (dx ← _vbi_dvb_ts_demux_new 0x21; '(_, _, c) ← ts_demux_feed recorder dx (repeat 7 10 ++ stream) []; Some c) =
    Some [([7; 8], 5)].
Proof. split; vm_compute; reflexivity. Qed.

(** ** Delivery of a PES packet *)

(** The TS packets of a PES packet: [n] payloads of 184 bytes. *)
Definition ts_packet_header (first : bool) (pid cc : Z) : list Z :=
  [0x47; (if first then 0x40 else 0) + pid / 256; pid mod 256; 0x10 + cc mod 16].

Fixpoint ts_packets (n : nat) (first : bool) (pid cc : Z) (p : list Z) : list Z :=
  match n with
  | O => []
  | S n => ts_packet_header first pid cc ++ take 184 p ++ ts_packets n false pid (cc + 1) (drop 184 p)
  end.

(** The context with the frame and times of another. *)
Definition with_frames (d dx : vbi_dvb_demux) : vbi_dvb_demux :=
  Demux (pes_wrap dx) (ts_wrap dx) (frame_ d) (frame_pts d) (packet_pts d) (new_frame d) (ts_in_sync dx)
    (ts_frame_bp dx) (ts_frame_todo dx) (ts_pes_bp dx) (ts_pes_todo dx) (ts_continuity dx) (ts_pid dx).

Lemma with_frames_keeps dx : keeps_frames (λ d, with_frames d dx).
Proof. done. Qed.

(** Between two TS packets in sync: [q] is what came of the PES packet, of which [t]
    bytes are missing. *)
Record ts_mid (pid cc : Z) (q : list Z) (t : Z) (dx : vbi_dvb_demux) : Prop := {
  tm_ok : ts_ok dx;
  tm_sync : ts_in_sync dx = true;
  tm_bp : bp (ts_wrap dx) = 0;
  tm_skip : skip (ts_wrap dx) = 0;
  tm_consume : consume (ts_wrap dx) = 0;
  tm_frame : ts_frame_todo dx = 0;
  tm_pid : ts_pid dx = pid;
  tm_cont : ts_continuity dx = -1 ∨ 0 ≤ ts_continuity dx ∧ ts_continuity dx mod 16 = cc mod 16;
  tm_todo : ts_pes_todo dx = t;
  tm_buf : q = [] ∨ ts_pes_bp dx = Z.of_nat (length q) ∧ take (length q) (buffer (pes_wrap dx)) = q
}.

Lemma land15_lxor a b : ((a .^ b) .& 0x0F =? 0) = (a mod 16 =? b mod 16).
Proof.
  assert ((a .^ b) .& 0x0F = (a mod 16) .^ (b mod 16)) as ->.
  { rewrite (land_ones_mod _ 4) by done. change 16 with (2 ^ 4). rewrite <-!Z.land_ones by lia.
    apply Z.bits_inj'. intros i Hi. rewrite Z.land_spec, !Z.lxor_spec, !Z.land_spec.
    by destruct (Z.testbit a i), (Z.testbit b i), (Z.testbit (Z.ones 4) i). }
  destruct (Z.eqb_spec (a mod 16) (b mod 16)) as [->|E]; [by rewrite Z.lxor_nilpotent|].
  apply Z.eqb_neq. by intros H%Z.lxor_eq.
Qed.

(** The fields of the header. *)
Lemma ts_header_fields first pid cc b1 b2 b3 :
  0 ≤ pid < 0x2000 → ts_packet_header first pid cc = [0x47; b1; b2; b3] →
  bytes [b1; b2; b3] ∧ b1 .& 0x80 = 0 ∧ (b1 * 256 + b2) .& 0x1FFF = pid ∧ b3 .& 0xC0 = 0 ∧ b3 .& 0x30 = 0x10 ∧
  b3 mod 16 = cc mod 16 ∧ (b1 .& 0x40 =? 0) = negb first ∧ 0 ≤ b3.
Proof.
  intros Hp [= <- <- <-]. pose proof (Z.mod_pos_bound cc 16 ltac:(done)) as Hc.
  pose proof (Z.mod_pos_bound pid 256 ltac:(done)). pose proof (Z.div_mod pid 256 ltac:(done)) as Hdm.
  assert (0 ≤ pid / 256 < 32) by lia. set (h := pid / 256) in *. set (b := if first then 0x40 else 0).
  assert (forallb (λ h, forallb (λ b, ((b + h) .& 0x80 =? 0) && Bool.eqb ((b + h) .& 0x40 =? 0) (b =? 0)) [0; 0x40]) (seqZ 0 32) = true) as Hh by reflexivity.
  assert (forallb (λ c, ((0x10 + c) .& 0xC0 =? 0) && ((0x10 + c) .& 0x30 =? 0x10)) (seqZ 0 16) = true) as Hcc by reflexivity.
  rewrite List.forallb_forall in Hh, Hcc.
  specialize (Hh h ltac:(apply list_elem_of_In, elem_of_seqZ; lia)). rewrite List.forallb_forall in Hh.
  specialize (Hh b ltac:(subst b; destruct first; cbn; auto)).
  specialize (Hcc (cc mod 16) ltac:(apply list_elem_of_In, elem_of_seqZ; lia)).
  apply andb_prop in Hh as [Hh1%Z.eqb_eq Hh2%Bool.eqb_prop], Hcc as [Hc1%Z.eqb_eq Hc2%Z.eqb_eq].
  split; [|split; [done|split; [|split; [done|split; [done|split; [|split]]]]]].
  - subst b. unfold is_byte. repeat constructor; destruct first; lia.
  - rewrite (land_ones_mod _ 13) by done. assert (b = 0 ∨ b = 64) as Hbv by (subst b; destruct first; auto).
    clearbody b h. clear - Hbv Hdm Hp. destruct Hbv as [-> | ->].
    + replace ((0 + h) * 256 + pid mod 256) with pid by lia. by apply Z.mod_small.
    + replace ((64 + h) * 256 + pid mod 256) with (pid + 2 * 2 ^ 13) by (change (2 ^ 13) with 8192; lia).
      rewrite Z.mod_add by done. by apply Z.mod_small.
  - rewrite <-Z.add_mod_idemp_l by done. change (0x10 mod 16) with 0. rewrite Z.add_0_l. by apply Z.mod_mod.
  - rewrite Hh2. subst b. by destruct first.
  - lia.
Qed.

Lemma store_end {A} (l b : list A) i xs :
  store l i xs = Some b → take (Z.to_nat i + length xs) b = take (Z.to_nat i) l ++ xs.
Proof.
  unfold store. case_decide; [|done]. intros [= <-]. rewrite app_assoc. apply take_app_length'. list_lia.
Qed.

Lemma store_0_rd {A} (l b : list A) xs i :
  store l 0 xs = Some b → 0 ≤ i < Z.of_nat (length xs) → rd b i = rd xs i.
Proof.
  intros H Hi. apply store_end in H. change (take (length xs) b = xs) in H. rewrite <-(rd_take b (length xs)) by lia. by rewrite H.
Qed.

(** The payload begins a PES packet of [T] bytes, or continues one of which [t] bytes
    are missing. *)
Definition ts_begins (first : bool) (chunk : list Z) (t T : Z) : Prop :=
  184 ≤ T ∧
  if first then
    t = 0 ∧ rd chunk 0 = Some 0 ∧ rd chunk 1 = Some 0 ∧ rd chunk 2 = Some 1 ∧ rd chunk 3 = Some PRIVATE_STREAM_1 ∧
    ∃ c4 c5, rd chunk 4 = Some c4 ∧ rd chunk 5 = Some c5 ∧ T = c4 * 256 + c5 + 6
  else T = t.

(** What remains of a context after the header of a packet and its fragment. *)
Definition ts_started (first : bool) (T : Z) (cont : Z) (dx : vbi_dvb_demux) : vbi_dvb_demux :=
  if first then ts_set_pes 0 T (ts_set_continuity cont dx) else ts_set_continuity cont dx.

Lemma ts_start_spec first chunk t T p b1 cont dx :
  ts_begins first chunk t T → ts_pes_todo dx = t → (b1 .& 0x40 =? 0) = negb first →
  (∀ i, 0 ≤ i < 6 → rd (buffer (ts_wrap dx)) (p + (4 + i)) = rd chunk i) →
  ts_start p b1 (ts_set_continuity cont dx) = Some (Some (ts_started first T cont dx)).
Proof.
  intros [HT Hb] Ht Hst Hrd. unfold ts_start.
  change (ts_pes_todo (ts_set_continuity cont dx)) with (ts_pes_todo dx).
  change (buffer (ts_wrap (ts_set_continuity cont dx))) with (buffer (ts_wrap dx)). rewrite Ht.
  destruct first.
  - destruct Hb as (-> & H0 & H1 & H2 & H3 & c4 & c5 & H4 & H5 & E). cbn [Z.eqb].
    assert (∀ i x, rd chunk i = Some x → 0 ≤ i < 6 → rd (buffer (ts_wrap dx)) (p + (4 + i)) = Some x) as Hr
      by (intros i x Hx Hi; by rewrite Hrd).
    pose proof (Hr _ _ H0) as E0. pose proof (Hr _ _ H1) as E1. pose proof (Hr _ _ H2) as E2.
    pose proof (Hr _ _ H3) as E3. pose proof (Hr _ _ H4) as E4. pose proof (Hr _ _ H5) as E5.
    change (p + (4 + 0)) with (p + 4) in *. change (p + (4 + 1)) with (p + 5) in *. change (p + (4 + 2)) with (p + 6) in *.
    change (p + (4 + 3)) with (p + 7) in *. change (p + (4 + 4)) with (p + 8) in *. change (p + (4 + 5)) with (p + 9) in *.
    rewrite E0, E1, E2, E3, E4, E5 by lia. cbn [mbind option_bind].
    change (negb (0 .| 0 =? 0) || negb (1 =? 1) || negb (PRIVATE_STREAM_1 =? PRIVATE_STREAM_1)) with false.
    cbn iota. destruct (Z.ltb_spec (c4 * 256 + c5) 178); [lia|]. by rewrite <-E.
  - subst T. destruct (Z.eqb_spec t 0); [lia|]. by rewrite Hst.
Qed.

(** The header of a TS packet that is read next and the first bytes of its payload. *)
Lemma ts_packet_spec first pid cc q t T chunk b dx :
  ts_mid pid cc q t dx → 0 ≤ pid < 0x2000 → ts_begins first chunk t T → length chunk = 184%nat →
  store (buffer (ts_wrap dx)) 0 (ts_packet_header first pid cc ++ take 6 chunk) = Some b →
  let d := ts_set_wrap (wrap_set_buffer b 10 (ts_wrap dx)) dx in
  ∃ cont, 0 ≤ cont ∧ cont mod 16 = (cc + 1) mod 16 ∧
    ts_header d = (d ← ts_pes_append (take 6 chunk) (ts_started first T cont d);
                   Some (ts_set_lookahead 10 (ts_set_bp 0 (ts_set_consume 178 d)))).
Proof.
  intros [] Hpid Hbeg Hlen Hb d. destruct (ts_packet_header first pid cc) as [|x0 [|b1 [|b2 [|b3 [|]]]]] eqn:Eh; try done.
  assert (x0 = 0x47) as -> by (by injection Eh).
  destruct (ts_header_fields _ _ _ _ _ _ Hpid Eh) as (_ & F1 & F2 & F3 & F4 & F5 & F6 & F7).
  assert (∀ i, 0 ≤ i < 10 → rd b i = rd ([0x47; b1; b2; b3] ++ take 6 chunk) i) as Hrd
    by (intros i Hi; eapply store_0_rd; [exact Hb|list_lia]).
  exists (b3 + 1). split; [lia|]. split; [rewrite <-Z.add_mod_idemp_l, F5, Z.add_mod_idemp_l by done; done|].
  unfold ts_header. change (ts_in_sync d) with (ts_in_sync dx). rewrite tm_sync0.
  change (buffer (ts_wrap d)) with b. rewrite Hrd by lia. change (rd _ 0) with (Some 0x47). cbn [mbind option_bind].
  change (negb (0x47 =? 0x47)) with false. cbn iota. change (bp (ts_wrap d)) with 10.
  unfold ts_packet. change (buffer (ts_wrap d)) with b. rewrite !Hrd by lia.
  change (rd ([0x47; b1; b2; b3] ++ take 6 chunk) (0 + 1)) with (Some b1).
  change (rd ([0x47; b1; b2; b3] ++ take 6 chunk) (0 + 2)) with (Some b2).
  change (rd ([0x47; b1; b2; b3] ++ take 6 chunk) (0 + 3)) with (Some b3).
  cbn [mbind option_bind]. rewrite F1, F2, F3, F4. change (ts_pid d) with (ts_pid dx). rewrite tm_pid0, (Z.eqb_refl pid).
  change (ts_continuity d) with (ts_continuity dx). rewrite land15_lxor, F5.
  change (negb (0 =? 0)) with false. change (0x10 =? 0x20) with false. change (negb (0x10 =? 0x10)) with false.
  cbn [negb]. cbn iota.
  assert (negb (ts_continuity dx mod 16 =? cc mod 16) && (0 <=? ts_continuity dx) = false) as ->.
  { destruct tm_cont0 as [->|[? ->]]; [apply andb_false_r|by rewrite Z.eqb_refl]. }
  cbn [andb]. cbn iota. rewrite (ts_start_spec first chunk t T); [|done|done|done|].
  2: { intros i Hi. change (buffer (ts_wrap d)) with b. rewrite Hrd by lia. rewrite <-(rd_take chunk 6) by lia.
       change 4%Z with (Z.of_nat (length [0x47; b1; b2; b3])). unfold rd. rewrite !decide_True by lia.
       rewrite lookup_app_r by lia. f_equal. lia. }
  cbn [mbind option_bind]. unfold ts_fragment. change (10 <=? 188) with true. cbn iota.
  assert (ts_pes_todo (ts_started first T (b3 + 1) d) = T) as ->
    by (destruct Hbeg, first; cbn [ts_started]; [done|by rewrite <-tm_todo0 in *]).
  assert (buffer (ts_wrap (ts_started first T (b3 + 1) d)) = b) as -> by (by destruct first).
  destruct Hbeg as [HT _]. rewrite (Z.min_r T 184) by lia. change (Z.min (10 - 4) 184) with 6. change (184 - 6) with 178.
  change (0 + 4) with 4. change (4 + 6) with 10.
  assert (slice b 4 10 = Some (take 6 chunk)) as ->.
  { unfold store in Hb. case_decide as Hd; [|done].
    simplify_eq. rewrite slice_Some by list_lia. f_equal. rewrite take_0, app_nil_l.
    change (Z.to_nat (10 - 4)) with 6%nat. change (Z.to_nat 4) with 4%nat. cbn [app drop].
    rewrite drop_0, take_app_le by list_lia. by rewrite take_take. }
  cbn [mbind option_bind]. by destruct (ts_pes_append _ _).
Qed.

Lemma ts_payload_consume dx dx' : ts_payload dx = Some dx' → ts_wrap dx' = ts_wrap dx.
Proof.
  unfold ts_payload. destruct (ts_pes_todo dx =? 0); [|by intros [= <-]].
  destruct (slice _ _ _) as [p|]; cbn [mbind option_bind]; [|done].
  destruct (valid_vbi_pes_packet_header dx p) as [[d v]|] eqn:E; cbn [mbind option_bind]; [|done].
  assert (ts_wrap d = ts_wrap dx) as <-; [|by destruct v; intros [= <-]].
  unfold valid_vbi_pes_packet_header in E. repeat (simplify_option_eq; try case_match; try done).
Qed.

Lemma ts_begins_room first pid cc chunk q t T dx :
  ts_mid pid cc q t dx → ts_begins first chunk t T → bytes chunk → (if first then q = [] else q ≠ []) →
  184 ≤ T ∧ Z.of_nat (length q) + T ≤ 65541.
Proof.
  intros [] [HT Hb] Hc Hq. split; [done|]. destruct first.
  - subst q. destruct Hb as (_ & _ & _ & _ & _ & c4 & c5 & H4 & H5 & ->).
    assert (∀ i c, rd chunk i = Some c → is_byte c) as Hr.
    { intros i c Hi. pose proof (rd_Some _ _ _ Hi). destruct (rd_byte chunk i Hc) as (c' & E & ?); [lia|]. congruence. }
    apply Hr in H4, H5. unfold is_byte in *. cbn [length]. lia.
  - destruct tm_buf0 as [|[<- _]]; [done|]. destruct tm_ok0 as [[] _]. lia.
Qed.

Lemma ts_chunk {C} (callback : option (C → list vbi_sliced → Z → C * bool)) n first pid cc q t T chunk rest dx c :
  ts_mid pid cc q t dx → 0 ≤ pid < 0x2000 → ts_begins first chunk t T → bytes chunk → length chunk = 184%nat →
  (if first then q = [] else q ≠ []) →
  ∃ dm, ts_mid pid (cc + 1) (q ++ chunk) (T - 184) dm ∧ with_frames dx dm = dm ∧
    demux_ts_loop callback (S (S n)) dx (ts_packet_header first pid cc ++ chunk ++ rest) c =
    (dm ← ts_payload dm; demux_ts_loop callback (S n) dm rest c).
Proof.
  intros Hmid Hpid Hbeg Hb Hlen Hq. pose proof (ts_begins_room _ _ _ _ _ _ _ _ Hmid Hbeg Hb Hq) as [HT HqT].
  set (h := ts_packet_header first pid cc). assert (length h = 4%nat) as Hlh by done.
  assert (bytes h) as Hbh.
  { destruct (ts_header_fields first pid cc _ _ _ Hpid eq_refl) as (Hbs & _). constructor; [done|exact Hbs]. }
  pose proof Hmid as [[Hinv Hlook]]. pose proof Hinv as []. unfold ts_target in Hlook. rewrite tm_sync0 in Hlook.
  assert (lookahead (ts_wrap dx) = 10) as Hl10 by lia.
  destruct (store_fits (buffer (ts_wrap dx)) 0 (h ++ take 6 chunk)) as [b Eb]; [done|list_lia|].
  assert (bytes (h ++ take 6 chunk)) as Hbh' by (apply Forall_app; split; [done|by apply Forall_take]).
  destruct (bytes_store _ _ _ _ ti_ts_bytes0 Hbh' Eb) as [Hbb Hblen].
  destruct (ts_packet_spec first pid cc q t T chunk b dx Hmid Hpid Hbeg Hlen Eb) as (cont & Hc0 & Hcm & Ehd).
  set (d := ts_set_wrap (wrap_set_buffer b 10 (ts_wrap dx)) dx) in *.
  set (bp0 := if first then 0 else ts_pes_bp dx).
  assert (bp0 = Z.of_nat (length q) ∧ take (length q) (buffer (pes_wrap dx)) = q) as [Ebp Etk].
  { subst bp0. destruct first; [by subst q|]. by destruct tm_buf0 as [|[-> ?]]. }
  destruct (store_fits (buffer (pes_wrap dx)) bp0 (take 6 chunk ++ drop 6 chunk)) as [b2 E2];
    [lia|rewrite take_drop; lia|].
  pose proof E2 as E2'. rewrite take_drop in E2'. rewrite store_concat in E2.
  destruct (store (buffer (pes_wrap dx)) bp0 (take 6 chunk)) as [b1|] eqn:E1; cbn [mbind option_bind] in E2; [|done].
  destruct (bytes_store _ _ _ _ ti_pes_bytes0 Hb E2') as [Hb2 Hl2].
  assert (Z.of_nat (length (take 6 chunk)) = 6 ∧ Z.of_nat (length (drop 6 chunk)) = 178) as [L6 L178] by (split; list_lia).
  set (dm := Demux (wrap_set_buffer b2 (bp (pes_wrap dx)) (pes_wrap dx)) (Wrap b 0 0 0 10 (leftover (ts_wrap dx)))
    (frame_ dx) (frame_pts dx) (packet_pts dx) (new_frame dx) true (ts_frame_bp dx) 0 (bp0 + 184) (T - 184) cont pid).
  exists dm. split; [|split; [done|]].
  - subst dm. split; ts_fields; try done; [|by right|].
    + split; [|reflexivity]. split; ts_fields; try done; try lia.
    + right. split; [list_lia|]. rewrite length_app, Hlen. pose proof (store_end _ _ _ _ E2') as Hs.
      rewrite Hlen, Ebp, Nat2Z.id, Etk in Hs. exact Hs.
  - cbn [demux_ts_loop]. rewrite (ts_consume_nothing dx) by done. cbn [mbind option_bind].
    rewrite (ts_frames_nothing callback dx) by done. cbn [mbind option_bind]. change (negb (0 =? 0)) with false. cbn iota.
    unfold ts_fill. rewrite tm_skip0. destruct (Z.ltb_spec (Z.of_nat (length (h ++ chunk ++ rest))) 0); [lia|].
    change (Z.to_nat 0) with 0%nat. rewrite drop_0.
    change (lookahead (ts_wrap (ts_set_skip 0 dx))) with (lookahead (ts_wrap dx)). rewrite Hl10.
    destruct (Z.ltb_spec (Z.of_nat (length (h ++ chunk ++ rest))) 10); [list_lia|].
    assert (take (Z.to_nat 10) (h ++ chunk ++ rest) = h ++ take 6 chunk) as ->.
    { rewrite take_app_ge by lia. f_equal. rewrite Hlh. change (Z.to_nat 10 - 4)%nat with 6%nat. by rewrite take_app_le by lia. }
    assert (drop (Z.to_nat 10) (h ++ chunk ++ rest) = drop 6 chunk ++ rest) as ->.
    { rewrite drop_app_ge by lia. rewrite Hlh. change (Z.to_nat 10 - 4)%nat with 6%nat. by rewrite drop_app_le by lia. }
    unfold ts_wrap_append. change (buffer (ts_wrap (ts_set_skip 0 dx))) with (buffer (ts_wrap dx)).
    change (bp (ts_wrap (ts_set_skip 0 dx))) with (bp (ts_wrap dx)). rewrite tm_bp0, Eb. cbn [mbind option_bind].
    assert (0 + Z.of_nat (length (h ++ take 6 chunk)) = 10) as -> by list_lia.
    assert (ts_set_wrap (wrap_set_buffer b 10 (ts_wrap (ts_set_skip 0 dx))) (ts_set_skip 0 dx) = d) as ->.
    { subst d. rewrite <-tm_skip0 at 1 2. by rewrite ts_set_skip_id. }
    rewrite Ehd. unfold ts_pes_append at 1.
    assert (buffer (pes_wrap (ts_started first T cont d)) = buffer (pes_wrap dx)) as -> by (by destruct first).
    assert (ts_pes_bp (ts_started first T cont d) = bp0) as -> by (by destruct first).
    rewrite E1. cbn [mbind option_bind]. rewrite L6.
    match goal with |- context [ts_consume ?x _] => set (d1 := x) end.
    assert (ts_pes_todo (ts_started first T cont d) = T) as Ht.
    { destruct first; [done|]. destruct Hbeg as [_ ->]. done. }
    unfold ts_consume. change (consume (ts_wrap d1)) with 178. change (0 <? 178) with true. cbn iota.
    destruct (Z.ltb_spec (Z.of_nat (length (drop 6 chunk ++ rest))) 178); [list_lia|].
    rewrite take_app_length', drop_app_length' by lia.
    unfold ts_pes_append. change (buffer (pes_wrap d1)) with b1. change (ts_pes_bp d1) with (bp0 + 6).
    rewrite L6 in E2. rewrite E2. cbn [mbind option_bind]. rewrite L178.
    assert (ts_set_consume 0 (ts_set_pes (bp0 + 6 + 178) (ts_pes_todo d1 - 178)
      (set_pes_wrap (wrap_set_buffer b2 (bp (pes_wrap d1)) (pes_wrap d1)) d1)) = dm) as ->.
    { subst d1 dm. clear -Ht tm_sync0 tm_frame0 tm_pid0 tm_skip0. subst d.
      destruct dx as [pw [bu bq sk co lo le] f fp pp nf sy fb ft pb pt ct pi], first; unfold ts_started in *; ts_fields; subst;
        unfold ts_set_consume, ts_set_wrap; ts_fields; f_equal; lia. }
    destruct (ts_payload dm) as [dm'|] eqn:Ep; cbn [mbind option_bind]; [|done].
    assert (consume (ts_wrap dm') = 0) as -> by (by rewrite (ts_payload_consume _ _ Ep)). done.
Qed.

Lemma ts_chunks {C} (callback : option (C → list vbi_sliced → Z → C * bool)) n first pid cc q t p rest dx c m :
  ts_mid pid cc q t dx → 0 ≤ pid < 0x2000 → ts_begins first p t (184 * Z.of_nat (S n)) → bytes p →
  length p = (184 * S n)%nat → (if first then q = [] else q ≠ []) →
  ∃ dm, ts_mid pid (cc + Z.of_nat (S n)) (q ++ p) 0 dm ∧ with_frames dx dm = dm ∧
    demux_ts_loop callback (S n + S m) dx (ts_packets (S n) first pid cc p ++ rest) c =
    (dm ← ts_payload dm; demux_ts_loop callback (S m) dm rest c).
Proof.
  revert first cc q t p dx. induction n as [|n IH]; intros first cc q t p dx Hmid Hpid Hbeg Hb Hlen Hq.
  - destruct (ts_chunk callback m first pid cc q t 184 p rest dx c Hmid Hpid Hbeg Hb Hlen Hq) as (dm & H1 & H2 & H3).
    exists dm. split; [exact H1|]. split; [done|]. cbn [ts_packets]. rewrite take_ge, app_nil_r, <-!app_assoc by lia. exact H3.
  - assert (ts_begins first (take 184 p) t (184 * Z.of_nat (S (S n)))) as Hbeg'.
    { destruct Hbeg as [H0 Hbeg]. split; [done|]. destruct first; [|done].
      destruct Hbeg as (-> & H1 & H2 & H3 & H4 & c4 & c5 & H5 & H6 & H7).
      rewrite !rd_take by lia. split_and!; try done. by exists c4, c5. }
    destruct (ts_chunk callback (n + S m) first pid cc q t (184 * Z.of_nat (S (S n))) (take 184 p)
      (ts_packets (S n) false pid (cc + 1) (drop 184 p) ++ rest) dx c Hmid Hpid Hbeg') as (dm & H1 & H2 & H3);
      [by apply Forall_take|rewrite length_take; lia|done|].
    destruct (IH false (cc + 1) (q ++ take 184 p) (184 * Z.of_nat (S (S n)) - 184) (drop 184 p) dm) as (dm' & H4 & H5 & H6);
      [done|done|split; lia|by apply Forall_drop|rewrite length_drop; lia| |].
    { intros [_ E]%app_eq_nil. apply (f_equal length) in E. rewrite length_take in E. cbn [length] in E. lia. }
    exists dm'. split; [|split].
    + rewrite <-app_assoc, take_drop in H4. by replace (cc + Z.of_nat (S (S n))) with (cc + 1 + Z.of_nat (S n)) by lia.
    + rewrite <-H5. by rewrite <-H2.
    + change (ts_packets (S (S n)) first pid cc p) with
        (ts_packet_header first pid cc ++ take 184 p ++ ts_packets (S n) false pid (cc + 1) (drop 184 p)).
      rewrite <-!app_assoc. change (S (S n) + S m)%nat with (S (S (n + S m))). rewrite H3.
      assert (ts_payload dm = Some dm) as ->.
      { unfold ts_payload. rewrite (tm_todo _ _ _ _ _ H1). destruct (Z.eqb_spec (184 * Z.of_nat (S (S n)) - 184) 0); [lia|done]. }
      cbn [mbind option_bind]. exact H6.
Qed.

(** A PES packet that is complete is decoded. *)
Lemma ts_payload_spec pid cc p dx dm d1 :
  ts_mid pid cc p 0 dm → with_frames dx dm = dm → p ≠ [] → valid_vbi_pes_packet_header dx p = Some (d1, true) →
  ts_payload dm = Some (ts_set_frame 46 (Z.of_nat (length p) - 46)
    (with_frames (set_frame (set_n_data_units 0 (frame_ d1)) d1) dm)).
Proof.
  intros [] Hw Hp Hv. destruct tm_buf0 as [|[Ebp Etk]]; [done|]. unfold ts_payload. rewrite tm_todo0. cbn [Z.eqb].
  assert (slice (buffer (pes_wrap dm)) 0 (ts_pes_bp dm) = Some p) as ->.
  { pose proof tm_ok0 as [[] _]. rewrite slice_Some by lia. change (Z.to_nat 0) with 0%nat.
    by rewrite drop_0, Ebp, Z.sub_0_r, Nat2Z.id, Etk. }
  cbn [mbind option_bind].
  assert (valid_vbi_pes_packet_header dm p = Some (with_frames d1 dm, true)) as ->.
  { rewrite <-Hw at 1. rewrite (valid_header_commutes (λ d, with_frames d dm)) by done. by rewrite Hv. }
  cbn [mbind option_bind]. by rewrite <-Ebp.
Qed.

Lemma ts_packets_length n first pid cc p :
  length p = (184 * n)%nat → length (ts_packets n first pid cc p) = (188 * n)%nat.
Proof.
  revert first cc p. induction n as [|n IH]; intros first cc p Hp; [done|]. cbn [ts_packets].
  rewrite !length_app, length_take, IH by (rewrite length_drop; lia). cbn [length ts_packet_header]. lia.
Qed.

Lemma ts_wrap_append_nil dx :
  0 ≤ bp (ts_wrap dx) ≤ Z.of_nat (length (buffer (ts_wrap dx))) → ts_wrap_append [] dx = Some dx.
Proof.
  intros H. unfold ts_wrap_append. rewrite store_nil by done. cbn [mbind option_bind length]. rewrite Z.add_0_r.
  f_equal. by destruct dx as [? [] ? ? ? ? ? ? ? ? ? ? ?].
Qed.

Lemma ts_fill_nothing dx :
  skip (ts_wrap dx) = 0 → 0 < lookahead (ts_wrap dx) → 0 ≤ bp (ts_wrap dx) ≤ Z.of_nat (length (buffer (ts_wrap dx))) →
  ts_fill dx [] = Some (dx, [], true).
Proof.
  intros Hs Hl Hb. unfold ts_fill. rewrite Hs. cbn [length]. change (Z.of_nat 0 <? 0) with false. cbn iota.
  rewrite drop_nil. assert (ts_set_skip 0 dx = dx) as -> by (rewrite <-Hs; apply ts_set_skip_id).
  cbn [length]. destruct (Z.ltb_spec (Z.of_nat 0) (lookahead (ts_wrap dx))); [|lia].
  rewrite ts_wrap_append_nil by done. cbn [mbind option_bind]. change (Z.of_nat 0) with 0.
  by rewrite Z.sub_0_r, ts_set_lookahead_id.
Qed.

(** The data units of a complete packet are decoded as in the PES layer. *)
Lemma ts_frames_spec {C} (callback : option (C → list vbi_sliced → Z → C * bool)) pid cc p dm de d2 rest left err c c' :
  ts_mid pid cc p 0 dm → (184 ≤ length p)%nat →
  demux_pes_packet_frame callback 3 de (drop 46 p) c = Some (d2, rest, left, err, c') →
  let dp := ts_set_frame 46 (Z.of_nat (length p) - 46) (with_frames de dm) in
  let bp := Z.of_nat (length p) - Z.of_nat (length rest) in
  ts_frames callback dp c =
    if err =? VBI_ERR_CALLBACK then Some (ts_set_frame bp left (with_frames d2 dp), err, c')
    else Some (ts_set_frame bp (if err =? 0 then left else 0)
                (set_new_frame (new_frame d2 || negb (err =? 0)) (with_frames d2 dp)), 0, c').
Proof.
  intros [[[] _]] Hlen Hf dp bp0. destruct tm_buf0 as [->|[Ebp Etk]]; [cbn in Hlen; lia|].
  assert (slice (buffer (pes_wrap dm)) 46 (46 + (Z.of_nat (length p) - 46)) = Some (drop 46 p)) as Esl.
  { rewrite slice_Some by lia. f_equal. rewrite take_drop_commute.
    transitivity (drop 46 (take (length p) (buffer (pes_wrap dm)))); [|by rewrite Etk].
    change (Z.to_nat 46) with 46%nat. do 2 f_equal. lia. }
  unfold ts_frames. change (ts_frame_todo dp) with (Z.of_nat (length p) - 46).
  destruct (Z.ltb_spec 0 (Z.of_nat (length p) - 46)); [|lia].
  change (buffer (pes_wrap dp)) with (buffer (pes_wrap dm)). change (ts_frame_bp dp) with 46. rewrite Esl. cbn [mbind option_bind].
  change dp with (with_frames de dp) at 1. rewrite (packet_frame_commutes callback (λ d, with_frames d dp)) by done.
  rewrite Hf. cbn [fmap option_fmap option_map mbind option_bind].
  change (ts_frame_bp (with_frames d2 dp)) with 46. rewrite length_drop.
  replace (46 + Z.of_nat (length p - 46) - Z.of_nat (length rest)) with bp0 by lia.
  destruct (err =? VBI_ERR_CALLBACK); [done|]. destruct (err =? 0); cbn [negb]; [rewrite orb_false_r|rewrite orb_true_r]; done.
Qed.

Lemma ts_delivers_pes {C} (cb : C → list vbi_sliced → Z → C * bool) (n : nat) (pid cc : Z) (p : list Z)
    (dx d1 d2 : vbi_dvb_demux) (c4 c5 : Z) (rest : list Z) (left err : Z) (c c' : C) :
  ts_mid pid cc [] 0 dx → 0 ≤ pid < 0x2000 → bytes p → length p = (184 * S n)%nat →
  take 6 p = [0; 0; 1; PRIVATE_STREAM_1; c4; c5] → c4 * 256 + c5 + 6 = Z.of_nat (length p) →
  valid_vbi_pes_packet_header dx p = Some (d1, true) →
  demux_pes_packet_frame (Some cb) 3 (set_frame (set_n_data_units 0 (frame_ d1)) d1) (drop 46 p) c =
    Some (d2, rest, left, err, c') →
  ∃ dx', ts_demux_feed cb dx (ts_packets (S n) true pid cc p) c = Some (dx', negb (err =? VBI_ERR_CALLBACK), c') ∧
    (frame_ dx', frame_pts dx', packet_pts dx') = (frame_ d2, frame_pts d2, packet_pts d2) ∧
    new_frame dx' = (new_frame d2 || negb (err =? 0) && negb (err =? VBI_ERR_CALLBACK)) ∧
    (err ≠ VBI_ERR_CALLBACK → ts_mid pid (cc + Z.of_nat (S n)) [] 0 dx').
Proof.
  intros Hmid Hpid Hb Hlen Ht Hc Hv Hf.
  assert (∀ i x, rd [0; 0; 1; PRIVATE_STREAM_1; c4; c5] i = Some x → rd p i = Some x) as Hrd.
  { intros i x Hx. rewrite <-Hx, <-Ht. symmetry. apply rd_take. apply rd_Some in Hx. cbn in Hx. lia. }
  destruct (ts_chunks (Some cb) n true pid cc [] 0 p [] dx c (188 * S n - S n)%nat)
    as (dm & Hm & Hw & Hloop); [done|done| |done|done|done|].
  { split; [lia|]. split; [done|]. split_and!; try (by apply Hrd). exists c4, c5. split_and!; try (by apply Hrd). lia. }
  cbn [app] in Hm. assert (p ≠ []) as Hp by (by intros ->).
  rewrite (ts_payload_spec _ _ _ _ _ _ Hm Hw Hp Hv), app_nil_r in Hloop. cbn [mbind option_bind] in Hloop.
  set (de := set_frame (set_n_data_units 0 (frame_ d1)) d1) in *.
  pose proof (ts_frames_spec (Some cb) _ _ _ _ _ _ _ _ _ _ _ Hm ltac:(lia) Hf) as Efr. cbv zeta in Efr.
  set (dp := ts_set_frame 46 (Z.of_nat (length p) - 46) (with_frames de dm)) in *.
  pose proof Hm as [[Hinv Hlook]]. pose proof Hinv as []. unfold ts_target in Hlook. rewrite tm_sync0 in Hlook.
  assert (frame_ok (frame_ de)) as Hfe.
  { assert (frame_ d1 = frame_ dx) as E.
    { clear - Hv. unfold valid_vbi_pes_packet_header in Hv. repeat (simplify_option_eq; try case_match; try done). }
    rewrite <-Hw in ti_frame0. change (frame_ok (set_n_data_units 0 (frame_ d1))). by rewrite E. }
  destruct (demux_pes_packet_frame_returns (Some cb) 3 de (drop 46 p) c) as (d2' & k & l' & err' & c2' & E & Hsw & Hok2 & _ & _ & _ & Hl0 & Hlr);
    [by apply Forall_drop|done|left; lia|]. rewrite E in Hf. injection Hf as Ed2 Er El Ee Ec. subst d2' rest l' err' c2'. clear E.
  assert ((if err =? 0 then left else 0) = 0) as Hfz by (destruct (Z.eqb_spec err 0); auto). rewrite Hfz in Efr.
  unfold ts_demux_feed. rewrite demux_ts_packet_loop, (ts_packets_length (S n)) by done.
  replace (S (188 * S n)) with (S n + S (188 * S n - S n))%nat by lia. rewrite Hloop.
  cbn [demux_ts_loop]. rewrite (ts_consume_nothing dp) by done. cbn [mbind option_bind]. rewrite Efr.
  destruct (Z.eqb_spec err VBI_ERR_CALLBACK) as [->|Hne2]; cbn [mbind option_bind].
  - eexists. split; [reflexivity|]. split; [done|]. split; [|done]. cbn [negb]. by rewrite andb_false_r, orb_false_r.
  - change (negb (0 =? 0)) with false. cbn iota. rewrite ts_fill_nothing; [|done|change (0 < lookahead (ts_wrap dm)); lia|
      change (0 ≤ bp (ts_wrap dm) ≤ Z.of_nat (length (buffer (ts_wrap dm)))); lia].
    cbn [mbind option_bind]. eexists. split; [reflexivity|]. split; [done|]. split; [by destruct (err =? 0), (new_frame d2)|].
    intros _. split; try done; [|by left]. split; [|change (bp (ts_wrap dm) + lookahead (ts_wrap dm) = if ts_in_sync dm then 10 else 197); by rewrite tm_sync0].
    split; try done; ts_fields; try done.
    destruct tm_buf0 as [|[Ebp _]]; [done|]. rewrite !length_drop. cbn. lia.
Qed.

(** C4: the TS layer delivers what the PES layer decodes.  A PES packet in any number of
    TS packets with the right PID and consecutive counters, read by a demultiplexer that
    is in sync at a packet boundary and was not in the middle of a PES packet ([ts_mid]),
    is put together and decoded exactly as its data units are decoded by the PES layer:
    the client gets the same frames, the same frame is left over, and after it the
    demultiplexer is ready for the TS packet with the next counter.  All TS packets may be
    in one buffer, or, with a client that never asks to stop, in buffers cut anywhere.  (A
    demultiplexer that still has to find the packet boundary can lose the first packet,
    see [ts_resync_loses_packet].) *)
Theorem dvb_ts_delivers_pes {C} (cb : C → list vbi_sliced → Z → C * bool) (n : nat) (pid cc : Z) (p : list Z)
    (dx d1 d2 : vbi_dvb_demux) (c4 c5 : Z) (rest : list Z) (left err : Z) (c c' : C) :
  ts_mid pid cc [] 0 dx → 0 ≤ pid < 0x2000 → bytes p → length p = (184 * S n)%nat →
  take 6 p = [0; 0; 1; PRIVATE_STREAM_1; c4; c5] → c4 * 256 + c5 + 6 = Z.of_nat (length p) →
  valid_vbi_pes_packet_header dx p = Some (d1, true) →
  demux_pes_packet_frame (Some cb) 3 (set_frame (set_n_data_units 0 (frame_ d1)) d1) (drop 46 p) c =
    Some (d2, rest, left, err, c') →
  ∃ dx', ts_demux_feed cb dx (ts_packets (S n) true pid cc p) c = Some (dx', negb (err =? VBI_ERR_CALLBACK), c') ∧
    (∀ bufs, (∀ c l t, (cb c l t).2 = true) → Forall bytes bufs → concat bufs = ts_packets (S n) true pid cc p →
      ts_feed_all cb dx bufs c = Some (dx', c')) ∧
    (frame_ dx', frame_pts dx', packet_pts dx') = (frame_ d2, frame_pts d2, packet_pts d2) ∧
    new_frame dx' = (new_frame d2 || negb (err =? 0) && negb (err =? VBI_ERR_CALLBACK)) ∧
    (err ≠ VBI_ERR_CALLBACK → ts_mid pid (cc + Z.of_nat (S n)) [] 0 dx').
Proof.
  intros Hmid Hpid Hb Hl Ht Hc Hv Hf.
  destruct (ts_delivers_pes cb n pid cc p dx d1 d2 c4 c5 rest left err c c' Hmid Hpid Hb Hl Ht Hc Hv Hf) as (dx' & E & H).
  exists dx'. split; [done|]. split; [|done]. intros bufs Hcb Hbs Ecat.
  destruct (ts_feed_all_concat cb bufs dx c Hcb (tm_ok _ _ _ _ _ Hmid) Hbs) as (dx2 & c2 & E1 & E2).
  rewrite Ecat, E in E2. by injection E2 as -> _ ->.
Qed.

(** A new demultiplexer that has found its first packet. *)
Lemma ts_new_idle pid cc dx :
  _vbi_dvb_ts_demux_new pid = Some dx → ts_mid pid cc [] 0 (ts_set_lookahead 10 (ts_set_sync true dx)).
Proof.
  intros H. assert (ts_pid dx = pid ∧ ts_continuity dx = -1 ∧ ts_pes_todo dx = 0 ∧ ts_frame_todo dx = 0 ∧
    bp (ts_wrap dx) = 0 ∧ skip (ts_wrap dx) = 0 ∧ consume (ts_wrap dx) = 0) as (H1 & H2 & H3 & H4 & H5 & H6 & H7).
  { unfold _vbi_dvb_ts_demux_new in H. destruct (_ || _); [done|]. apply (inj Some) in H. subst dx. repeat apply conj; reflexivity. }
  pose proof (ts_new_ok _ _ H) as [[] _]. clear H.
  split; try done; [|by left|by left]. split; [|unfold ts_target; ts_fields; by rewrite H5].
  split; ts_fields; try done; lia.
Qed.

Lemma dvb_ts_delivers_pes_witness :
  let p := pes_example 0xE7 5 in
  ∃ dx d1 d2 rest left err dx' c',
    ts_mid 0x21 15 [] 0 dx ∧ valid_vbi_pes_packet_header dx p = Some (d1, true) ∧
    demux_pes_packet_frame (Some recorder) 3 (set_frame (set_n_data_units 0 (frame_ d1)) d1) (drop 46 p) [] =
      Some (d2, rest, left, err, c') ∧
    ts_demux_feed recorder dx (ts_packets 1 true 0x21 15 p) [] = Some (dx', true, c') ∧
    ts_feed_all recorder dx [take 3 (ts_packets 1 true 0x21 15 p); drop 3 (ts_packets 1 true 0x21 15 p)] [] = Some (dx', c') ∧
    frame_ dx' = frame_ d2 ∧ ts_mid 0x21 16 [] 0 dx'.
Proof.
  intros p. destruct (_vbi_dvb_ts_demux_new 0x21) as [d0|] eqn:E0; [|discriminate E0].
  pose proof (ts_new_idle _ 15 _ E0) as Hm. set (dx := ts_set_lookahead 10 (ts_set_sync true d0)) in *. clearbody dx. clear E0.
  assert (bytes p) as Hb by (apply (bool_decide_unpack _); vm_compute; exact I).
  assert (valid_vbi_pes_packet_header dx p = Some (set_packet_pts 5 dx, true)) as E1 by reflexivity.
  set (d1 := set_packet_pts 5 dx) in *. set (de := set_frame (set_n_data_units 0 (frame_ d1)) d1).
  destruct (demux_pes_packet_frame_returns (Some recorder) 3 de (drop 46 p) [])
    as (d2 & k & lf & err & c' & E2 & _ & _ & _ & Hcb & _); [by apply Forall_drop| |left; lia|].
  { pose proof (tm_ok _ _ _ _ _ Hm) as [[] _]. done. }
  assert (err ≠ VBI_ERR_CALLBACK) as Hne by (apply Hcb; [by intros ? [= <-]|done]).
  destruct (dvb_ts_delivers_pes recorder 0 0x21 15 p dx d1 d2 0 178 (drop k (drop 46 p)) lf err [] c')
    as (dx' & F1 & Fb & F2 & _ & F4); [exact Hm|lia|exact Hb|reflexivity|reflexivity|reflexivity|exact E1|exact E2|].
  exists dx, d1, d2, (drop k (drop 46 p)), lf, err, dx', c'.
  split; [exact Hm|]. split; [exact E1|]. split; [exact E2|].
  apply Z.eqb_neq in Hne as Hne'. rewrite Hne' in F1. split; [exact F1|]. split; [|split; [congruence|by apply F4]].
  apply Fb; [reflexivity| |vm_compute; reflexivity].
  assert (bytes (ts_packets 1 true 0x21 15 p)) as Ht by (apply (bool_decide_unpack _); vm_compute; exact I).
  apply List.Forall_cons; [by apply Forall_take|]. apply List.Forall_cons; [by apply Forall_drop|constructor].
Defined.
