(* ===== verification/DvbGen.v ===== *)
(** DVB VBI multiplexer: raw data units and the PES and TS packet generator of
    [src/src/dvb_mux.c], with the sampling parameters of [src/src/sampling_par.c]. *)
From S2P Require Import Prelude Hamm Sliced DvbMux DvbDemux DvbPes DvbTs.

Definition VBI_ERR_BUFFER_OVERFLOW : Z := 0x7081800.
Definition VBI_ERR_RAW_BUFFER_OVERFLOW : Z := 0x7081801.
Definition VBI_ERR_SAMPLE_NUMBER : Z := 0x7081805.
Definition VBI_ERR_AMBIGUOUS_VIDEOSTD : Z := 0x7081806.
Definition VBI_ERR_RAW_DATA_INTERRUPTION : Z := 0x7081807.
Definition VBI_ERR_NO_RAW_DATA : Z := 0x7081808.
Definition VBI_ERR_NO_SLICED_DATA : Z := 0x7081809.
Definition VBI_ERR_SAMPLING_PAR : Z := 0x708180A.

Definition VBI_VIDEOSTD_SET_625_50 : Z := 1.
Definition VBI_VIDEOSTD_SET_525_60 : Z := 2.
Definition VBI_PIXFMT_YUV420 : Z := 1.
Definition VBI_SLICED_VBI_625 : Z := 0x20000000.
Definition BT601_625_OFFSET : Z := 864 - 12 - 720.
Definition MAX_PES_PACKET_SIZE : Z := 6 + 65535 - (6 + 65535) mod 184.

(** ** Sampling parameters *)

(** The part of [vbi_raw_decoder] that describes raw data. *)
Record vbi_sampling_par := SamplingPar {
  scanning : Z; sampling_format : Z; sampling_rate : Z; bytes_per_line : Z; offset : Z;
  start0 : Z; start1 : Z; count0 : Z; count1 : Z; interlaced : bool; synchronous : bool
}.

Definition _vbi_videostd_set_from_scanning (scanning : Z) : Z :=
  if scanning =? 525 then VBI_VIDEOSTD_SET_525_60
  else if scanning =? 625 then VBI_VIDEOSTD_SET_625_50
  else 0.

Definition range_check (start count min max : Z) : bool :=
  (min <=? u32 start) && (u32 (start + count) <=? max) && (u32 start <=? u32 (start + count)).

(** For [VBI_PIXFMT_YUV420]; the bytes per pixel of other formats do not matter to the
    multiplexer. *)
Definition _vbi_sampling_par_valid_log (sp : vbi_sampling_par) : bool :=
  if bytes_per_line sp =? 0 then false
  else if (count0 sp =? 0) && (count1 sp =? 0) then false
  else
    let videostd_set := _vbi_videostd_set_from_scanning (scanning sp) in
    let ranges max0 min1 max1 :=
      ((start0 sp =? 0) || range_check (start0 sp) (count0 sp) 1 max0)
      && ((start1 sp =? 0) || range_check (start1 sp) (count1 sp) min1 max1) in
    let valid :=
      if negb (VBI_VIDEOSTD_SET_525_60 .& videostd_set =? 0) then
        if negb (VBI_VIDEOSTD_SET_625_50 .& videostd_set =? 0) then false else ranges 262 263 525
      else if negb (VBI_VIDEOSTD_SET_625_50 .& videostd_set =? 0) then ranges 311 312 625
      else false in
    if negb valid then false
    else negb (interlaced sp && (negb (count0 sp =? count1 sp) || (count0 sp =? 0))).

Definition valid_sampling_par (sp : vbi_sampling_par) : bool :=
  if negb (scanning sp =? 625) then false
  else if negb (sampling_format sp =? VBI_PIXFMT_YUV420) then false
  else if negb (sampling_rate sp =? 13500000) then false
  else if u32 (offset sp) <? BT601_625_OFFSET then false
  else
    let samples_end := u32 (offset sp + bytes_per_line sp) in
    if BT601_625_OFFSET + 720 <? samples_end then false
    else if samples_end <? u32 (bytes_per_line sp) then false
    else if negb (synchronous sp) then false
    else _vbi_sampling_par_valid_log sp.

(** The offset of a line in the raw data, or an error code. *)
Definition samples_pointer (raw : option (list Z)) (sp : option vbi_sampling_par) (line : Z) : Z + Z :=
  match raw, sp with
  | None, _ => inl VBI_ERR_NO_RAW_DATA
  | _, None => inl VBI_ERR_SAMPLING_PAR
  | Some _, Some sp =>
      if line =? 0 then inl VBI_ERR_LINE_NUMBER
      else
        let field := if 313 <=? line then 1 else 0 in
        let start := if field =? 0 then start0 sp else start1 sp in
        let count := if field =? 0 then count0 sp else count1 sp in
        if line <? u32 start then inl VBI_ERR_RAW_BUFFER_OVERFLOW
        else
          let row := line - u32 start in
          if u32 count <=? row then inl VBI_ERR_RAW_BUFFER_OVERFLOW
          else
            let row := if interlaced sp then row * 2 + field
                       else if 0 <? field then row + u32 (count0 sp) else row in
            inr (row * bytes_per_line sp)
  end.

(** ** Raw data units *)

(** The number of pixels in the next data unit and its size. *)
Definition raw_unit_size (fixed_length : bool) (crit_p_left p_left r_left : Z) : Z * Z :=
  if fixed_length then (Z.min r_left (0x2C - 4), 2 + 0x2C)
  else
    let n_pixels := if crit_p_left =? p_left then Z.min r_left 250 else Z.min (Z.min r_left 251) (p_left - 6) in
    (n_pixels, 6 + n_pixels).

(** The bytes of a data unit with the first [n_pixels] samples. *)
Definition raw_unit (fixed_length : bool) (lofp first_pixel_position n_pixels_total r_left n_pixels : Z)
    (pixels : list Z) : list Z :=
  [DATA_UNIT_MONOCHROME_SAMPLES; (if fixed_length then 0x2C else u8 (4 + n_pixels));
   u8 (lofp + (Z.b2z (r_left =? n_pixels_total) ≪ 7) + (Z.b2z (r_left =? n_pixels) ≪ 6));
   u8 (first_pixel_position ≫ 8); u8 first_pixel_position; u8 n_pixels]
  ++ pixels ++ (if fixed_length then repeat 0xFF (Z.to_nat (0x2C - 4 - n_pixels)) else []).

(** The buffer, the position, the size of the last data unit and the samples left. *)
Fixpoint raw_loop (fuel : nat) (fixed_length : bool) (min_du_size crit_p_left lofp n_pixels_total : Z)
    (buf : list Z) (p p_left last_du_size first_pixel_position : Z) (r : list Z)
    : option (list Z * Z * Z * list Z) :=
  let r_left := Z.of_nat (length r) in
  if 0 <? r_left then
    if p_left <? min_du_size then Some (buf, p, last_du_size, r)
    else
      match fuel with
      | O => None
      | S fuel =>
          let '(n_pixels, du_size) := raw_unit_size fixed_length crit_p_left p_left r_left in
          pixels ← slice r 0 n_pixels;
          buf ← store buf p (raw_unit fixed_length lofp first_pixel_position n_pixels_total r_left n_pixels pixels);
          raw_loop fuel fixed_length min_du_size crit_p_left lofp n_pixels_total buf (p + du_size) (p_left - du_size)
            du_size (first_pixel_position + n_pixels) (drop (Z.to_nat n_pixels) r)
      end
  else Some (buf, p, last_du_size, r).

(** [r] is the list of the [r_left] samples at [*raw].  The results are the buffer, its
    position, the samples left, the size of the last data unit and the error code. *)
Definition insert_raw_data_units (buf : list Z) (p p_left last_du_size : Z) (r : list Z) (fixed_length : bool)
    (videostd_set line first_pixel_position n_pixels_total : Z) (stuffing : bool)
    : option (list Z * Z * list Z * Z * Z) :=
  let r_left := Z.of_nat (length r) in
  let fails err := Some (buf, p, r, last_du_size, err) in
  let min_du_size := if fixed_length then 2 + 0x2C else 2 + 4 + 1 in
  let crit_p_left := if stuffing then 2 + 4 + 251 + 1 else 0 in
  let f2_start :=
    if negb (videostd_set .& VBI_VIDEOSTD_SET_525_60 =? 0) then
      if negb (videostd_set .& VBI_VIDEOSTD_SET_625_50 =? 0) then None else Some 263
    else if negb (videostd_set .& VBI_VIDEOSTD_SET_625_50 =? 0) then Some 313
    else None in
  match f2_start with
  | None => fails VBI_ERR_AMBIGUOUS_VIDEOSTD
  | Some f2_start =>
      let end_ := u32 (first_pixel_position + n_pixels_total) in
      if (n_pixels_total <? r_left) || (720 <? end_) || (end_ <? n_pixels_total) then fails VBI_ERR_SAMPLE_NUMBER
      else
        let '(lofp, line) := if f2_start <=? line then (0, line - f2_start) else (1 ≪ 5, line) in
        if 23 - 7 <? u32 (line - 7) then fails VBI_ERR_LINE_NUMBER
        else
          '(buf, p, last_du_size, r) ←
            raw_loop (length r) fixed_length min_du_size crit_p_left (lofp + line) n_pixels_total buf p p_left 0
              (first_pixel_position + (n_pixels_total - r_left)) r;
          Some (buf, p, r, last_du_size, 0)
  end.

(** The results are the buffer, [*packet], [*packet_left], [*raw] and the returned value. *)
Definition vbi_dvb_multiplex_raw (buf : list Z) (p packet_left : Z) (raw : list Z)
    (data_identifier videostd_set line first_pixel_position n_pixels_total : Z) (stuffing : bool)
    : option (list Z * Z * Z * list Z * bool) :=
  if packet_left <? 2 then Some (buf, p, packet_left, raw, false)
  else
    let fixed_length := fixed_length_format data_identifier in
    if fixed_length && (0 <? packet_left mod 46) then Some (buf, p, packet_left, raw, false)
    else if Z.of_nat (length raw) =? 0 then Some (buf, p, packet_left, raw, false)
    else
      '(buf, q, raw, last_du_size, err) ←
        insert_raw_data_units buf p packet_left 0 raw fixed_length videostd_set line first_pixel_position
          n_pixels_total stuffing;
      if 0 <? err then Some (buf, q, packet_left, raw, false)
      else
        let packet_left := packet_left - (q - p) in
        if (stuffing : bool) then
          buf ← encode_stuffing buf q packet_left last_du_size fixed_length;
          Some (buf, q + packet_left, 0, raw, true)
        else Some (buf, q, packet_left, raw, true).

(** ** Contexts *)

(** [struct _vbi_dvb_mux]: [raw_samples] is the used part of the array. *)
Record vbi_dvb_mux := Mux {
  packet : list Z; min_packet_size : Z; max_packet_size : Z; data_identifier : Z;
  raw_samples : list Z; raw_line : Z; raw_offset : Z; raw_samples_per_line : Z;
  pid : Z; continuity_counter : Z; cor_offset : Z; cor_end : Z; cor_ts_left : Z
}.

Definition set_packet (l : list Z) (mx : vbi_dvb_mux) : vbi_dvb_mux :=
  Mux l (min_packet_size mx) (max_packet_size mx) (data_identifier mx) (raw_samples mx) (raw_line mx) (raw_offset mx)
    (raw_samples_per_line mx) (pid mx) (continuity_counter mx) (cor_offset mx) (cor_end mx) (cor_ts_left mx).
Definition set_raw (r : list Z) (line offset total : Z) (mx : vbi_dvb_mux) : vbi_dvb_mux :=
  Mux (packet mx) (min_packet_size mx) (max_packet_size mx) (data_identifier mx) r line offset total
    (pid mx) (continuity_counter mx) (cor_offset mx) (cor_end mx) (cor_ts_left mx).
Definition set_continuity_counter (n : Z) (mx : vbi_dvb_mux) : vbi_dvb_mux :=
  Mux (packet mx) (min_packet_size mx) (max_packet_size mx) (data_identifier mx) (raw_samples mx) (raw_line mx) (raw_offset mx)
    (raw_samples_per_line mx) (pid mx) n (cor_offset mx) (cor_end mx) (cor_ts_left mx).
Definition set_cor (offset end_ ts_left : Z) (mx : vbi_dvb_mux) : vbi_dvb_mux :=
  Mux (packet mx) (min_packet_size mx) (max_packet_size mx) (data_identifier mx) (raw_samples mx) (raw_line mx) (raw_offset mx)
    (raw_samples_per_line mx) (pid mx) (continuity_counter mx) offset end_ ts_left.
Definition set_options (min max ident : Z) (mx : vbi_dvb_mux) : vbi_dvb_mux :=
  Mux (packet mx) min max ident (raw_samples mx) (raw_line mx) (raw_offset mx)
    (raw_samples_per_line mx) (pid mx) (continuity_counter mx) (cor_offset mx) (cor_end mx) (cor_ts_left mx).

(** ** Initial states and options *)

(** [memory] is what the allocated packet buffer contains. *)
Definition init_pes_packet_header (packet : list Z) : option (list Z) :=
  packet ← store packet 4 [0; 0; 1; PRIVATE_STREAM_1];
  packet ← store packet (4 + 6) [(2 ≪ 6) .| (1 ≪ 2); 2 ≪ 6; 0x24];
  store packet (4 + 9) (repeat 0xFF 36).

Definition vbi_dvb_pes_mux_new (memory : list Z) : option vbi_dvb_mux :=
  packet ← init_pes_packet_header memory;
  Some (Mux packet (1 * 184) MAX_PES_PACKET_SIZE 0x10 [] 0 0 0 0 0 0 0 0).

(** [Some None] for a PID that is not valid. *)
Definition vbi_dvb_ts_mux_new (memory : list Z) (pid : Z) : option (option vbi_dvb_mux) :=
  if (pid <=? 0x000F) || (0x1FFF <=? pid) then Some None
  else
    mx ← vbi_dvb_pes_mux_new memory;
    Some (Some (Mux (packet mx) (min_packet_size mx) (max_packet_size mx) (data_identifier mx) (raw_samples mx)
      (raw_line mx) (raw_offset mx) (raw_samples_per_line mx) pid (continuity_counter mx) (cor_offset mx)
      (cor_end mx) (cor_ts_left mx))).

Definition vbi_dvb_mux_reset (mx : vbi_dvb_mux) : vbi_dvb_mux :=
  set_cor 0 0 (cor_ts_left mx)
    (set_continuity_counter (u32 (continuity_counter mx - 1) .& 0xF)
      (set_raw [] (raw_line mx) (raw_offset mx) (raw_samples_per_line mx) mx)).

Definition vbi_dvb_mux_set_data_identifier (mx : vbi_dvb_mux) (ident : Z) : vbi_dvb_mux * bool :=
  if (0x10 <=? ident) && (ident <? 0x20) || (0x99 <=? ident) && (ident <? 0x9C)
  then (set_options (min_packet_size mx) (max_packet_size mx) ident mx, true)
  else (mx, false).

Definition vbi_dvb_mux_set_pes_packet_size (mx : vbi_dvb_mux) (min_size max_size : Z) : vbi_dvb_mux * bool :=
  let min_size :=
    if min_size <? 184 then 184
    else if MAX_PES_PACKET_SIZE <? min_size then MAX_PES_PACKET_SIZE
    else min_size + 183 - (min_size + 183) mod 184 in
  let max_size :=
    if max_size <? min_size then min_size
    else if MAX_PES_PACKET_SIZE <? max_size then MAX_PES_PACKET_SIZE
    else max_size - max_size mod 184 in
  (set_options min_size max_size (data_identifier mx) mx, true).

(** ** PES packets *)

Definition encode_timestamp (pts mark : Z) : list Z :=
  let t := u32 pts in
  [u8 (mark + ((pts ≫ 29) .& 0xE)); u8 (t ≫ 22); u8 ((t ≫ 14) .| 1); u8 (t ≫ 7); u8 (t * 2 + 1)].

(** What the loop over the lines leaves: the multiplexer, the position in its packet,
    the size of the last data unit, the lines left and the error code. *)
Record generated := Generated {
  gen_mx : vbi_dvb_mux; gen_p : Z; gen_last_du_size : Z; gen_sliced : list vbi_sliced; gen_err : Z
}.

(** A raw line, new or continued: the multiplexer, the position, the size of the last
    data unit and an error code, or zero. *)
Definition generate_raw (mx : vbi_dvb_mux) (p p_left last_du_size : Z) (fixed_length : bool) (line : Z)
    (raw : option (list Z)) (sp : option vbi_sampling_par) : option (vbi_dvb_mux * Z * Z * Z) :=
  let continued := negb (Z.of_nat (length (raw_samples mx)) =? 0) in
  start ←
    (if continued then Some (inr (raw_samples mx))
     else
       match samples_pointer raw sp line with
       | inl err => Some (inl err)
       | inr q =>
           raw ← raw; sp ← sp;
           l ← slice raw q (q + bytes_per_line sp);
           Some (inr l)
       end);
  match start with
  | inl err => Some (mx, p, last_du_size, err)
  | inr samples =>
      sp ← sp;
      if 720 <? Z.of_nat (length samples) then None (* assertion *)
      else
        '(buf, q, rest, last_du_size, err) ←
          insert_raw_data_units (packet mx) p p_left last_du_size samples fixed_length VBI_VIDEOSTD_SET_625_50
            line (u32 (offset sp) - BT601_625_OFFSET) (bytes_per_line sp) true;
        if negb (err =? 0) then
          Some (set_raw [] (raw_line mx) (raw_offset mx) (raw_samples_per_line mx) mx, p, last_du_size, err)
        else
          let mx := set_packet buf mx in
          if (length rest =? 0)%nat then
            Some (set_raw [] (raw_line mx) (raw_offset mx) (raw_samples_per_line mx) mx, q, last_du_size, 0)
          else if continued && (length samples - length rest <? length rest)%nat then
            None (* memcpy of an array part to another it overlaps with *)
          else Some (set_raw rest line (offset sp) (bytes_per_line sp) mx, q, last_du_size, 0)
  end.

(** [begin_] are the lines from [s_begin], [sliced] those from [s]. *)
Fixpoint generate_loop (mx : vbi_dvb_mux) (begin_ sliced : list vbi_sliced) (p p_end last_line last_du_size : Z)
    (service_mask : Z) (fixed_length : bool) (raw : option (list Z)) (sp : option vbi_sampling_par)
    : option generated :=
  match sliced with
  | [] =>
      r ← insert_sliced_data_units (packet mx) p (p_end - p) begin_ service_mask fixed_length;
      Some (Generated (set_packet (ins_packet r) mx) (ins_p r) (ins_last_du_size r) (ins_sliced r) (ins_err r))
  | s :: rest =>
      if (0 <? line s) && (line s <=? last_line) then Some (Generated mx p last_du_size sliced VBI_ERR_LINE_ORDER)
      else
        let last_line := if 0 <? line s then line s else last_line in
        if negb (id s =? VBI_SLICED_VBI_625) then
          generate_loop mx begin_ rest p p_end last_line last_du_size service_mask fixed_length raw sp
        else
          r ← insert_sliced_data_units (packet mx) p (p_end - p)
                (take (length begin_ - length sliced) begin_) service_mask fixed_length;
          let mx := set_packet (ins_packet r) mx in
          let p := ins_p r in
          let last_du_size := ins_last_du_size r in
          if negb (ins_err r =? 0) || (0 <? length (ins_sliced r))%nat then
            Some (Generated mx p last_du_size (ins_sliced r ++ sliced) (ins_err r))
          else if service_mask .& VBI_SLICED_VBI_625 =? 0 then
            generate_loop mx rest rest p p_end last_line last_du_size service_mask fixed_length raw sp
          else
            '(mx, p, last_du_size, err) ← generate_raw mx p (p_end - p) last_du_size fixed_length (line s) raw sp;
            if negb (err =? 0) || negb (Z.of_nat (length (raw_samples mx)) =? 0) then
              Some (Generated mx p last_du_size sliced err)
            else
              generate_loop mx rest rest p p_end last_line last_du_size service_mask fixed_length raw sp
  end.

(** Whether the unfinished raw line is not continued; [None] when [sp] is NULL. *)
Definition raw_interrupted (mx : vbi_dvb_mux) (sliced : list vbi_sliced) (sp : option vbi_sampling_par) : option bool :=
  if Z.of_nat (length (raw_samples mx)) =? 0 then Some false
  else
    match sliced with
    | [] => Some true
    | s :: _ =>
        if negb (id s =? VBI_SLICED_VBI_625) || negb (raw_line mx =? line s) then Some true
        else
          sp ← sp;
          Some (negb (raw_offset mx =? offset sp) || negb (raw_samples_per_line mx =? bytes_per_line sp))
    end.

(** The bytes of stuffing that follow [size] bytes. *)
Definition packet_padding (mx : vbi_dvb_mux) (size : Z) : Z :=
  if size <? min_packet_size mx then min_packet_size mx - size
  else if 0 <? size mod 184 then 184 - size mod 184 else 0.

(** The multiplexer, the packet size, the lines left and an error code or zero. *)
Definition generate_pes_packet (mx : vbi_dvb_mux) (sliced : list vbi_sliced) (service_mask : Z)
    (raw : option (list Z)) (sp : option vbi_sampling_par) (pts : Z) : option (vbi_dvb_mux * Z * list vbi_sliced * Z) :=
  buf ← store (packet mx) (4 + 9) (encode_timestamp pts 0x21);
  buf ← wr buf (4 + 45) (u8 (data_identifier mx));
  let mx := set_packet buf mx in
  let fixed_length := fixed_length_format (data_identifier mx) in
  let p := 4 + 45 + 1 in
  let p_end := p + max_packet_size mx - 46 in
  interrupted ← raw_interrupted mx sliced sp;
  if (interrupted : bool) then Some (mx, 0, sliced, VBI_ERR_RAW_DATA_INTERRUPTION)
  else
    r ← generate_loop mx sliced sliced p p_end 0 0 service_mask fixed_length raw sp;
    let mx := gen_mx r in
    if negb (gen_err r =? 0) then Some (mx, 0, gen_sliced r, gen_err r)
    else
      let size := gen_p r - 4 in
      let p_left := packet_padding mx size in
      let size := size + p_left in
      buf ← encode_stuffing (packet mx) (gen_p r) p_left (gen_last_du_size r) fixed_length;
      buf ← store buf (4 + 4) [u8 ((size - 6) ≫ 8); u8 (size - 6)];
      Some (set_packet buf mx, size, gen_sliced r, 0).

(** ** TS packets and the interfaces *)

Definition generate_ts_packet_header (mx : vbi_dvb_mux) (offset : Z) : option vbi_dvb_mux :=
  let p1 := if offset =? 0 then u8 ((1 ≪ 6) .| (pid mx ≫ 8)) else u8 (pid mx ≫ 8) in
  buf ← store (packet mx) offset [0x47; p1; u8 (pid mx); (1 ≪ 4) + (continuity_counter mx .& 15)];
  Some (set_continuity_counter (u32 (continuity_counter mx + 1)) (set_packet buf mx)).

(** The loop over TS packets of the coroutine: what it stores of [p_left] bytes. *)
Fixpoint cor_ts_loop (fuel : nat) (mx : vbi_dvb_mux) (p_left offset ts_left : Z) (out : list Z)
    : option (vbi_dvb_mux * Z * Z * list Z) :=
  match fuel with
  | O => None
  | S fuel =>
      '(mx, offset, ts_left) ←
        (if ts_left =? 0 then
           mx ← generate_ts_packet_header mx (offset - 4);
           Some (mx, offset - 4, 188)
         else Some (mx, offset, ts_left));
      let size := Z.min p_left ts_left in
      l ← slice (packet mx) offset (offset + size);
      let p_left := p_left - size in
      let offset := offset + size in
      let ts_left := ts_left - size in
      if (0 <? p_left) && (offset <? cor_end mx) then cor_ts_loop fuel mx p_left offset ts_left (out ++ l)
      else Some (mx, offset, ts_left, out ++ l)
  end.

(** The results are the multiplexer, the bytes stored at [*buffer], the lines at
    [*sliced] and the returned value; [buffer_left] is zero for NULL. *)
Definition vbi_dvb_mux_cor (mx : vbi_dvb_mux) (buffer_left : Z) (sliced : list vbi_sliced) (service_mask : Z)
    (raw : option (list Z)) (sp : option vbi_sampling_par) (pts : Z)
    : option (vbi_dvb_mux * list Z * list vbi_sliced * bool) :=
  if buffer_left =? 0 then Some (mx, [], sliced, false)
  else if match sp with Some sp => negb (valid_sampling_par sp) | None => false end then Some (mx, [], sliced, false)
  else
    let next :=
      if cor_end mx <=? cor_offset mx then
        if (length sliced =? 0)%nat then Some (inl (mx, sliced))
        else
          '(mx, size, rest, err) ← generate_pes_packet mx sliced service_mask raw sp pts;
          if negb (err =? 0) || (0 <? length rest)%nat then
            Some (inl (set_cor (cor_offset mx) 0 (cor_ts_left mx) mx, rest))
          else Some (inr (set_cor 4 (size + 4) 0 mx))
      else Some (inr mx) in
    next ← next;
    match next with
    | inl (mx, rest) => Some (mx, [], rest, false)
    | inr mx =>
        '(mx, out) ←
          (if pid mx =? 0 then
             let size := Z.min buffer_left (cor_end mx - cor_offset mx) in
             l ← slice (packet mx) (cor_offset mx) (cor_offset mx + size);
             Some (set_cor (cor_offset mx + size) (cor_end mx) (cor_ts_left mx) mx, l)
           else
             '(mx, offset, ts_left, out) ← cor_ts_loop (Z.to_nat buffer_left) mx buffer_left (cor_offset mx) (cor_ts_left mx) [];
             Some (set_cor offset (cor_end mx) ts_left mx, out));
        Some (mx, out, if cor_end mx <=? cor_offset mx then [] else sliced, true)
    end.

Section client.
(** The client gets the packets. *)
Context {C : Type} (callback : option (C → list Z → C * bool)).

Fixpoint feed_ts_loop (fuel : nat) (mx : vbi_dvb_mux) (offset packet_size : Z) (cb : C → list Z → C * bool) (c : C)
    : option (vbi_dvb_mux * bool * C) :=
  match fuel with
  | O => None
  | S fuel =>
      mx ← generate_ts_packet_header mx offset;
      l ← slice (packet mx) offset (offset + 188);
      let '(c, ok) := cb c l in
      if negb ok then Some (mx, false, c)
      else if offset + 184 <? packet_size then feed_ts_loop fuel mx (offset + 184) packet_size cb c
      else Some (mx, true, c)
  end.

(** [sliced] is empty for NULL. *)
Definition vbi_dvb_mux_feed (mx : vbi_dvb_mux) (sliced : list vbi_sliced) (service_mask : Z)
    (raw : option (list Z)) (sp : option vbi_sampling_par) (pts : Z) (c : C) : option (vbi_dvb_mux * bool * C) :=
  match callback with
  | None => Some (mx, false, c)
  | Some cb =>
      if match sp with Some sp => negb (valid_sampling_par sp) | None => false end then Some (mx, false, c)
      else
        let mx := if cor_offset mx <? cor_end mx then set_cor (cor_offset mx) 0 (cor_ts_left mx) mx else mx in
        '(mx, packet_size, rest, err) ← generate_pes_packet mx sliced service_mask raw sp pts;
        if negb (err =? 0) || (0 <? length rest)%nat then Some (mx, false, c)
        else if pid mx =? 0 then
          l ← slice (packet mx) 4 (4 + packet_size);
          let '(c, ok) := cb c l in
          Some (mx, ok, c)
        else feed_ts_loop (Z.to_nat packet_size) mx 0 packet_size cb c
  end.
End client.

(** ** Frames of sliced lines *)

(** The lines of a frame, those of other services included, are in order. *)
Fixpoint ascending (last : Z) (l : list vbi_sliced) : Prop :=
  match l with
  | [] => True
  | s :: l => (line s = 0 ∨ last < line s) ∧ ascending (Z.max last (line s)) l
  end.

Definition not_raw (s : vbi_sliced) : Prop := id s ≠ VBI_SLICED_VBI_625.

Lemma generate_loop_sliced sliced : ∀ mx begin_ p p_end last ldu mask fixed raw sp,
  Forall not_raw sliced → Forall line_ok sliced → 0 ≤ last →
  ascending last sliced ∧
  generate_loop mx begin_ sliced p p_end last ldu mask fixed raw sp =
    (r ← insert_sliced_data_units (packet mx) p (p_end - p) begin_ mask fixed;
     Some (Generated (set_packet (ins_packet r) mx) (ins_p r) (ins_last_du_size r) (ins_sliced r) (ins_err r))) ∨
  ¬ ascending last sliced ∧ ∃ rest,
    generate_loop mx begin_ sliced p p_end last ldu mask fixed raw sp = Some (Generated mx p ldu rest VBI_ERR_LINE_ORDER).
Proof.
  induction sliced as [|s sliced IH]; intros mx begin_ p p_end last ldu mask fixed raw sp Hr Hok Hl0; [by left|].
  inversion Hr as [|? ? H1 H2]; subst. inversion Hok as [|? ? [_ H3] H4]; subst. cbn [generate_loop ascending].
  destruct (Z.ltb_spec 0 (line s)); cbn [andb]; [destruct (Z.leb_spec (line s) last)|].
  - right. split; [lia|by eexists].
  - unfold not_raw in H1. apply Z.eqb_neq in H1 as ->. cbn [negb].
    replace (Z.max last (line s)) with (line s) by lia.
    destruct (IH mx begin_ p p_end (line s) ldu mask fixed raw sp H2 H4) as [[Ha ->]|[Ha Hrest]]; [lia| |].
    + left. split; [|done]. split; [lia|done].
    + right. split; [tauto|done].
  - unfold not_raw in H1. apply Z.eqb_neq in H1 as ->. cbn [negb].
    replace (Z.max last (line s)) with last by lia.
    destruct (IH mx begin_ p p_end last ldu mask fixed raw sp H2 H4 Hl0) as [[Ha ->]|[Ha Hrest]].
    + left. split; [|done]. split; [lia|done].
    + right. split; [tauto|done].
Qed.

(** ** Multiplexers between two frames *)

Definition header_flags : list Z := [0x84; 0x80; 0x24].

Definition packet_size_ok (n : Z) : Prop := 184 ≤ n ≤ MAX_PES_PACKET_SIZE ∧ n mod 184 = 0.
Definition identifier_ok (n : Z) : Prop := 0x10 ≤ n < 0x20 ∨ 0x99 ≤ n < 0x9C.

(** The packet buffer: space for the header of a TS packet, the PES packet header with
    its length and time stamp, the data identifier, and the data units. *)
Definition pes_image (t4 len ts : list Z) (ident : Z) (body : list Z) : list Z :=
  t4 ++ [0; 0; 1; PRIVATE_STREAM_1] ++ len ++ header_flags ++ ts ++ repeat 0xFF 31 ++ [ident] ++ body.

Definition is_image (l : list Z) : Prop :=
  ∃ t4 len ts ident body, l = pes_image t4 len ts ident body ∧ length t4 = 4%nat ∧ length len = 2%nat ∧
    length ts = 5%nat ∧ Z.of_nat (length body) = MAX_PES_PACKET_SIZE - 46.

Record mux_ok (mx : vbi_dvb_mux) : Prop := {
  mo_image : is_image (packet mx);
  mo_min : packet_size_ok (min_packet_size mx);
  mo_max : packet_size_ok (max_packet_size mx) ∧ min_packet_size mx ≤ max_packet_size mx;
  mo_ident : identifier_ok (data_identifier mx);
  mo_raw : raw_samples mx = [];
  mo_pid : pid mx = 0 ∨ 0x10 ≤ pid mx < 0x1FFF;
  mo_cc : 0 ≤ continuity_counter mx < 2 ^ 32
}.

Lemma identifier_fixed n : identifier_ok n → fixed_length_format n = (n <? 0x20).
Proof.
  intros Hn. assert (forallb (λ n, Bool.eqb (fixed_length_format n) (n <? 0x20)) (seqZ 0x10 0x10 ++ seqZ 0x99 3) = true) as H
    by reflexivity.
  rewrite List.forallb_forall in H. apply Bool.eqb_prop, H. apply in_app_iff.
  destruct Hn; [left|right]; apply list_elem_of_In, elem_of_seqZ; lia.
Qed.

(** The header of a PES packet, with the data identifier. *)
Definition pes_header (pts ident size : Z) : list Z :=
  [0; 0; 1; PRIVATE_STREAM_1] ++ [u8 ((size - 6) ≫ 8); u8 (size - 6)] ++ header_flags ++ encode_timestamp pts 0x21
  ++ repeat 0xFF 31 ++ [u8 ident].

Lemma pes_header_length pts ident size : length (pes_header pts ident size) = 46%nat.
Proof. reflexivity. Qed.

Lemma image_stores t4 len ts z body pts ident :
  length t4 = 4%nat → length len = 2%nat → length ts = 5%nat →
  (b ← store (pes_image t4 len ts z body) (4 + 9) (encode_timestamp pts 0x21); wr b (4 + 45) (u8 ident)) =
    Some (pes_image t4 len (encode_timestamp pts 0x21) (u8 ident) body).
Proof.
  intros H1 H2 H3. unfold pes_image.
  replace (t4 ++ [0; 0; 1; PRIVATE_STREAM_1] ++ len ++ header_flags ++ ts ++ repeat 0xFF 31 ++ [z] ++ body)
    with ((t4 ++ [0; 0; 1; PRIVATE_STREAM_1] ++ len ++ header_flags) ++ ts ++ repeat 0xFF 31 ++ [z] ++ body)
    by (by rewrite <-!app_assoc).
  rewrite store_app by (rewrite ?length_app, ?H1, ?H2, ?H3; done). cbn [mbind option_bind].
  replace ((t4 ++ [0; 0; 1; PRIVATE_STREAM_1] ++ len ++ header_flags) ++ encode_timestamp pts 0x21 ++ repeat 0xFF 31 ++ [z] ++ body)
    with ((t4 ++ [0; 0; 1; PRIVATE_STREAM_1] ++ len ++ header_flags ++ encode_timestamp pts 0x21 ++ repeat 0xFF 31) ++ z :: body)
    by (by rewrite <-!app_assoc).
  rewrite wr_app by (rewrite !length_app, H1, H2; done). f_equal. by rewrite <-!app_assoc.
Qed.

Lemma image_length t4 len ts z body l2 :
  length t4 = 4%nat → length len = 2%nat → length ts = 5%nat → length l2 = 2%nat →
  store (pes_image t4 len ts z body) (4 + 4) l2 = Some (pes_image t4 l2 ts z body).
Proof.
  intros H1 H2 H3 H4. unfold pes_image.
  replace (t4 ++ [0; 0; 1; PRIVATE_STREAM_1] ++ len ++ header_flags ++ ts ++ repeat 0xFF 31 ++ [z] ++ body)
    with ((t4 ++ [0; 0; 1; PRIVATE_STREAM_1]) ++ len ++ header_flags ++ ts ++ repeat 0xFF 31 ++ [z] ++ body)
    by (by rewrite <-!app_assoc).
  rewrite store_app by (rewrite ?length_app, ?H1; lia || done). by rewrite <-!app_assoc.
Qed.

(** The size of a packet with [n] bytes of data units. *)
Lemma padding_ok mx n :
  mux_ok mx → 0 ≤ n → 46 + n ≤ max_packet_size mx →
  let size := 46 + n + packet_padding mx (46 + n) in
  packet_size_ok size ∧ min_packet_size mx ≤ size ≤ max_packet_size mx ∧ 0 ≤ packet_padding mx (46 + n).
Proof.
  intros [] Hn Hmax. destruct mo_min0 as [Hm1 Hm2], mo_max0 as [[Hx1 Hx2] Hmx]. unfold packet_padding, packet_size_ok.
  pose proof (Z.mod_pos_bound (46 + n) 184 ltac:(done)).
  destruct (Z.ltb_spec (46 + n) (min_packet_size mx)).
  { replace (46 + n + (min_packet_size mx - (46 + n))) with (min_packet_size mx) by lia. lia. }
  set (d := if 0 <? (46 + n) mod 184 then _ else _).
  assert ((46 + n + d) mod 184 = 0 ∧ 0 ≤ d < 184) as [Hd1 Hd2].
  { subst d. destruct (Z.ltb_spec 0 ((46 + n) mod 184)); [|split; [rewrite Z.add_0_r|]; lia].
    split; [|lia]. pose proof (Z.div_mod (46 + n) 184 ltac:(done)) as E.
    replace (46 + n + (184 - (46 + n) mod 184)) with (((46 + n) / 184 + 1) * 184) by lia. by rewrite Z_mod_mult. }
  assert (46 + n + d ≤ max_packet_size mx); [|lia].
  apply Z.mod_divide in Hx2 as [a Ha], Hd1 as [b Hb]; [|done|done]. lia.
Qed.

(** Whatever lines it is given, none raw, the generator returns; without an error it
    leaves a packet with the data units of the lines it converted. *)
Lemma generate_pes_returns mx sliced mask raw sp pts :
  let fixed := fixed_length_format (data_identifier mx) in
  mux_ok mx → Forall line_ok sliced → Forall not_raw sliced →
  ∃ buf size rest err, generate_pes_packet mx sliced mask raw sp pts = Some (set_packet buf mx, size, rest, err) ∧
    is_image buf ∧
    (ascending 0 sliced → acceptable mask 0 sliced → err = 0 ∧
      (46 + units_size fixed (selected mask sliced) ≤ max_packet_size mx → rest = [])) ∧
    (err = 0 → packet_size_ok size ∧ min_packet_size mx ≤ size ≤ max_packet_size mx ∧
      ∃ t4 dn us sus tail, buf = t4 ++ pes_header pts (data_identifier mx) size ++ (concat us ++ concat sus) ++ tail ∧
        length t4 = 4%nat ∧ sliced = dn ++ rest ∧ units_of 0 (selected mask dn) us ∧ Forall is_stuffing sus ∧
        bytes (concat us ++ concat sus) ∧ Z.of_nat (length (concat us ++ concat sus)) = size - 46).
Proof.
  intros fixed Hmx Hok Hnr. pose proof Hmx as [(t4 & len & ts & z & body & Eimg & Ht4 & Hlen & Hts & Hbody)].
  unfold generate_pes_packet. rewrite Eimg.
  pose proof (image_stores t4 len ts z body pts (data_identifier mx) Ht4 Hlen Hts) as Est.
  destruct (store _ (4 + 9) _) as [b1|]; cbn [mbind option_bind] in *; [|done]. rewrite Est. cbn [mbind option_bind].
  set (buf := pes_image t4 len (encode_timestamp pts 0x21) (u8 (data_identifier mx)) body).
  assert (is_image buf) as Hbuf by (by exists t4, len, (encode_timestamp pts 0x21), (u8 (data_identifier mx)), body).
  unfold raw_interrupted. change (raw_samples (set_packet buf mx)) with (raw_samples mx). rewrite mo_raw0.
  cbn [length]. change (Z.of_nat 0 =? 0) with true. cbn iota. cbn [mbind option_bind].
  change (data_identifier (set_packet buf mx)) with (data_identifier mx).
  change (max_packet_size (set_packet buf mx)) with (max_packet_size mx). fold fixed.
  destruct (generate_loop_sliced sliced (set_packet buf mx) sliced (4 + 45 + 1) (4 + 45 + 1 + max_packet_size mx - 46) 0 0 mask
    fixed raw sp Hnr Hok ltac:(done)) as [[Hasc ->]|[Hnasc [rest ->]]]; cbn [mbind option_bind gen_mx gen_err gen_sliced].
  2: { eexists buf, 0, rest, VBI_ERR_LINE_ORDER. by split_and!. }
  change (packet (set_packet buf mx)) with buf.
  set (pre := t4 ++ [0; 0; 1; PRIVATE_STREAM_1] ++ len ++ header_flags ++ encode_timestamp pts 0x21 ++ repeat 0xFF 31
    ++ [u8 (data_identifier mx)]).
  set (hole := take (Z.to_nat (max_packet_size mx - 46)) body).
  set (post := drop (Z.to_nat (max_packet_size mx - 46)) body).
  assert (∀ b, pes_image t4 len (encode_timestamp pts 0x21) (u8 (data_identifier mx)) b = pre ++ b) as Epre
    by (intros b; subst pre; unfold pes_image; by rewrite <-!app_assoc).
  assert (buf = pre ++ hole ++ post) as Ebuf by (subst buf hole post; by rewrite take_drop, Epre).
  rewrite Ebuf. assert (length pre = 50%nat) as Hpre by (subst pre; rewrite !length_app, Ht4, Hlen; done).
  pose proof mo_max0 as [[Hmx1 Hmx2] Hmm].
  assert (Z.of_nat (length hole) = max_packet_size mx - 46) as Hhole by (subst hole; rewrite length_take; lia).
  unfold insert_sliced_data_units.
  replace (4 + 45 + 1 + max_packet_size mx - 46 - (4 + 45 + 1)) with (Z.of_nat (length hole)) by lia.
  change (4 + 45 + 1) with (Z.of_nat 50). rewrite <-Hpre.
  destruct (insert_spec mask fixed sliced pre hole post 0 0 Hok ltac:(done))
    as (dn & rest & us & hole' & last' & err & Esl & He & Hstop & Hlh & Hh & ->).
  cbn [mbind option_bind ins_packet ins_p ins_last_du_size ins_sliced ins_err].
  pose proof Hok as Hok'. rewrite Esl in Hok'. apply Forall_app in Hok' as [Hokd Hokr].
  destruct (encodes_facts _ _ _ _ _ _ rest He Hokd) as (Hsize & Hrest & _).
  assert (acceptable mask 0 sliced → err = 0 ∧
    (46 + units_size fixed (selected mask sliced) ≤ max_packet_size mx → rest = [])) as Hacc.
  { intros Hacc. destruct (acceptable_stop mask fixed last' (Z.of_nat (length hole')) rest err) as [-> Hfull];
      [apply Hrest; by rewrite <-Esl|done|lia|done|]. split; [done|]. intros Hfit. apply Hfull.
    rewrite Esl, selected_app, units_size_app in Hfit. lia. }
  cbn [gen_mx gen_p gen_last_du_size gen_sliced gen_err].
  destruct (Z.eqb_spec err 0) as [->|Hne]; cbn [negb].
  2: { eexists (pre ++ concat us ++ hole' ++ post), 0, rest, err. split; [done|]. split; [|done].
       rewrite <-(Epre (concat us ++ hole' ++ post)). eexists t4, len, _, _, _. split; [reflexivity|]. split_and!; try done.
       rewrite !length_app. subst hole post. rewrite length_drop. rewrite length_take in *. lia. }
  set (n := Z.of_nat (length (concat us))) in *.
  replace (Z.of_nat (length pre + length (concat us)) - 4) with (46 + n) by lia.
  match goal with |- context [packet_padding ?m (46 + n)] => change (packet_padding m (46 + n)) with (packet_padding mx (46 + n)) end.
  destruct (padding_ok mx n Hmx) as (Hps & Hmin & Hpad); [lia|lia|]. set (pad := packet_padding mx (46 + n)) in *.
  match goal with |- context [packet (set_packet ?l _)] => change (packet (set_packet l _)) with l end.
  set (h1 := take (Z.to_nat pad) hole'). set (h2 := drop (Z.to_nat pad) hole').
  assert (Z.of_nat (length h1) = pad) as Hh1 by (subst h1; rewrite length_take; lia).
  assert (hole' = h1 ++ h2) as Ehole' by (subst h1 h2; by rewrite take_drop).
  rewrite Ehole', <-Hh1, <-(app_assoc h1).
  destruct (stuffed_area mask fixed pre (concat us ++ h1) (h2 ++ post) sliced dn rest us h1 last')
    as (us' & sus & Hu & Hs & Harea & Hbytes & ->); [done|done|by rewrite length_app| | |done|].
  { destruct Hps as [[Hps _] _]. rewrite length_app. lia. }
  { intros Hfx. destruct Hps as [_ Hps]. rewrite length_app, Nat2Z.inj_add, Hh1. fold n.
    replace (n + pad) with (46 + n + pad + (-1) * 46) by lia. rewrite Z_mod_plus_full.
    apply Z.mod_divide in Hps as [a ->]; [|done]. replace (a * 184) with (a * 4 * 46) by lia. apply Z_mod_mult. }
  cbn [mbind option_bind]. rewrite Hh1. set (size := 46 + n + pad) in *.
  set (l2 := [u8 ((size - 6) ≫ 8); u8 (size - 6)]). rewrite <-(Epre ((concat us' ++ concat sus) ++ h2 ++ post)), (image_length _ _ _ _ _ l2) by done. cbn [mbind option_bind].
  assert (Z.of_nat (length (concat us' ++ concat sus)) = size - 46) as Hal by (rewrite Harea, length_app; lia).
  eexists (pes_image t4 l2 _ _ _), size, rest, 0. split; [reflexivity|]. split.
  { eexists t4, l2, _, _, _. split; [reflexivity|]. split_and!; try done.
    rewrite length_app, Nat2Z.inj_add, Hal, length_app, Nat2Z.inj_add. subst h2 post. rewrite !length_drop. lia. }
  split; [done|]. intros _. split; [done|]. split; [done|]. exists t4, dn, us', sus, (h2 ++ post). split; [|done].
  unfold pes_image, pes_header. by rewrite <-!app_assoc.
Qed.

Lemma generate_sliced mx sliced mask raw sp pts :
  let fixed := fixed_length_format (data_identifier mx) in
  mux_ok mx → Forall line_ok sliced → Forall not_raw sliced → ascending 0 sliced → acceptable mask 0 sliced →
  46 + units_size fixed (selected mask sliced) ≤ max_packet_size mx →
  ∃ size t4 rest us sus mx', generate_pes_packet mx sliced mask raw sp pts = Some (mx', size, [], 0) ∧
    mx' = set_packet (t4 ++ pes_header pts (data_identifier mx) size ++ (concat us ++ concat sus) ++ rest) mx ∧
    mux_ok mx' ∧ length t4 = 4%nat ∧ units_of 0 (selected mask sliced) us ∧ Forall is_stuffing sus ∧
    bytes (concat us ++ concat sus) ∧
    Z.of_nat (length (concat us ++ concat sus)) = size - 46 ∧
    packet_size_ok size ∧ min_packet_size mx ≤ size ≤ max_packet_size mx.
Proof.
  intros fixed Hmx Hok Hnr Hasc Hacc Hfit.
  destruct (generate_pes_returns mx sliced mask raw sp pts Hmx Hok Hnr) as (buf & size & rest & err & E & Himg & Ha & Hz).
  destruct (Ha Hasc Hacc) as [-> Hr]. rewrite (Hr Hfit) in *.
  destruct (Hz eq_refl) as (Hsz & Hmm & t4 & dn & us & sus & tail & -> & Ht4 & Edn & Hu & Hs & Hb & Hl).
  rewrite app_nil_r in Edn. subst dn. exists size, t4, tail, us, sus. eexists. split; [exact E|]. split; [done|].
  split; [|done]. destruct Hmx. by split.
Qed.

(** ** Time stamps *)

Lemma stamp_low t : u8 (t * 2 + 1) ≫ 1 = t .& 127.
Proof.
  rewrite (land_ones_mod _ 7) by done. rewrite Z.shiftr_div_pow2 by done. unfold u8.
  change (2 ^ 8) with 256. change (2 ^ 1) with 2. change (2 ^ 7) with 128.
  pose proof (Z.div_mod (t * 2 + 1) 256 ltac:(done)). pose proof (Z.mod_pos_bound (t * 2 + 1) 256 ltac:(done)).
  set (m := (t * 2 + 1) mod 256) in *. set (q := (t * 2 + 1) / 256) in *.
  assert (t = 128 * q + m / 2) by (pose proof (Z.div_mod m 2 ltac:(done)); pose proof (Z.mod_pos_bound m 2 ltac:(done)); lia).
  assert (0 ≤ m / 2 < 128) by (split; [apply Z.div_pos|apply Z.div_lt_upper_bound]; lia).
  apply (Z.mod_unique_pos _ _ q); lia.
Qed.

Lemma stamp_high v : u8 (0x21 + (v .& 0xE)) .& 0x0E = v .& 0xE.
Proof.
  assert (0 ≤ v .& 0xE < 2 ^ 4) as Hv by (by apply land_range).
  assert (v .& 0xE = (v .& 0xE) .& 0xE) as E by (rewrite <-Z.land_assoc; done).
  rewrite E. set (w := v .& 0xE) in *. clearbody w.
  assert (u8 (0x21 + (w .& 0xE)) .& 0x0E = w .& 0xE) as ->; [|done].
  revert w Hv E. intros w Hv _.
  exact (eq_by_eval 16 (λ w, u8 (0x21 + (w .& 0xE)) .& 0x0E) (λ w, w .& 0xE) eq_refl w Hv).
Qed.

Lemma decode_timestamp_list p0 p1 p2 p3 p4 r :
  decode_timestamp (p0 :: p1 :: p2 :: p3 :: p4 :: r) =
  Some (u32 (((p1 ≪ 22) .| ((p2 .& Z.lnot 1) ≪ 14)) .| (p3 ≪ 7) .| (p4 ≫ 1)) .| ((p0 .& 0x0E) ≪ 29)).
Proof. reflexivity. Qed.

Lemma decode_encode_timestamp pts r : decode_timestamp (encode_timestamp pts 0x21 ++ r) = Some (pts mod 2 ^ 33).
Proof.
  unfold encode_timestamp. cbn [app]. rewrite decode_timestamp_list. f_equal. rewrite stamp_low, stamp_high. assert (u32 pts = pts .& 0xFFFFFFFF) as -> by (symmetry; by apply land_ones_mod).
  set (t := pts .& 0xFFFFFFFF).
  pose proof (u8_range (t ≫ 7)). pose proof (u8_range (t ≫ 22)). pose proof (u8_range ((t ≫ 14) .| 1)).
  rewrite u32_small.
  2: { repeat apply lor_range; try done; rewrite ?Z.shiftl_mul_pow2 by done; try lia.
       - pose proof (land_range_r 8 (u8 ((t ≫ 14) .| 1)) (Z.lnot 1) ltac:(done) ltac:(done)). lia.
       - apply (range_weaken 7); [by apply land_range|done]. }
  assert (∀ y, 0 ≤ y < 2 ^ 8 → 0 ≤ (y .& Z.lnot 1) < 2 ^ 8) as Hl1 by (intros; by apply land_range_r).
  subst t. bitwise 33.
  - repeat apply lor_range; try done; rewrite ?Z.shiftl_mul_pow2 by done; try lia.
    + pose proof (Hl1 _ H1). lia.
    + apply (range_weaken 7); [by apply land_range|done].
    + pose proof (land_range 4 (pts ≫ 29) 0xE ltac:(done) ltac:(done)). lia.
  - by apply Z.mod_pos_bound.
Qed.

(** ** The multiplexer keeps to its buffer *)

Lemma store_shift {A} (a b xs : list A) i :
  0 ≤ i → store (a ++ b) (Z.of_nat (length a) + i) xs = (b' ← store b i xs; Some (a ++ b')).
Proof.
  intros Hi. unfold store. rewrite length_app. case_decide; [rewrite decide_True by lia|by rewrite decide_False by lia].
  cbn [mbind option_bind]. rewrite take_app_ge, drop_app_ge by lia. rewrite <-app_assoc. do 3 f_equal; [f_equal; lia|].
  do 2 f_equal. lia.
Qed.

(** The headers of TS packets are written in front of the PES packet header or behind it. *)
Lemma image_header l i xs b :
  is_image l → length xs = 4%nat → i = 0 ∨ 50 ≤ i → store l i xs = Some b → is_image b.
Proof.
  intros (t4 & len & ts & ident & body & -> & H1 & H2 & H3 & H4) Hxs Hi Hst.
  destruct Hi as [->|Hi].
  - unfold pes_image in Hst. pose proof (store_app [] t4 ([0; 0; 1; PRIVATE_STREAM_1] ++ len ++ header_flags ++ ts
      ++ repeat 0xFF 31 ++ [ident] ++ body) xs 0 eq_refl ltac:(lia)) as E. cbn [app] in E, Hst. rewrite E in Hst. injection Hst as <-.
    by exists xs, len, ts, ident, body.
  - unfold pes_image in Hst.
    set (h := t4 ++ [0; 0; 1; PRIVATE_STREAM_1] ++ len ++ header_flags ++ ts ++ repeat 0xFF 31 ++ [ident]).
    assert (length h = 50%nat) as Hh by (subst h; rewrite !length_app, H1, H2, H3; done).
    replace (t4 ++ [0; 0; 1; PRIVATE_STREAM_1] ++ len ++ header_flags ++ ts ++ repeat 0xFF 31 ++ [ident] ++ body)
      with (h ++ body) in Hst by (subst h; by rewrite <-!app_assoc).
    replace i with (Z.of_nat (length h) + (i - 50)) in Hst by lia. rewrite store_shift in Hst by lia.
    destruct (store body (i - 50) xs) as [body'|] eqn:Eb; cbn [mbind option_bind] in Hst; [|done].
    injection Hst as <-. exists t4, len, ts, ident, body'. split; [subst h; unfold pes_image; by rewrite <-!app_assoc|].
    split_and!; try done. unfold store in Eb. case_decide; [|done]. injection Eb as <-. rewrite <-H4. list_lia.
Qed.

Lemma set_packet_ok mx l n : mux_ok mx → is_image l → 0 ≤ n < 2 ^ 32 → mux_ok (set_continuity_counter n (set_packet l mx)).
Proof. intros [] Hl Hn. by split. Qed.

Lemma image_size l : is_image l → Z.of_nat (length l) = 4 + MAX_PES_PACKET_SIZE.
Proof.
  intros (t4 & len & ts & ident & body & -> & H1 & H2 & H3 & H4). unfold pes_image.
  rewrite !length_app, H1, H2, H3, repeat_length. cbn [length header_flags]. lia.
Qed.

Lemma header_returns mx offset :
  mux_ok mx → offset = 0 ∨ 50 ≤ offset → offset + 4 ≤ 4 + MAX_PES_PACKET_SIZE →
  ∃ b, generate_ts_packet_header mx offset =
    Some (set_continuity_counter (u32 (continuity_counter mx + 1)) (set_packet b mx)) ∧
    mux_ok (set_continuity_counter (u32 (continuity_counter mx + 1)) (set_packet b mx)).
Proof.
  intros Hmx Ho Hmax. unfold generate_ts_packet_header. pose proof (image_size _ (mo_image _ Hmx)) as Hl.
  match goal with |- context [store _ _ ?xs] => destruct (store_fits (packet mx) offset xs) as [b Eb] end;
    [lia|cbn [length]; lia|]. rewrite Eb. cbn [mbind option_bind]. exists b. split; [done|].
  apply set_packet_ok; [done| |apply u32_range]. by eapply image_header; [apply Hmx| |exact Ho|exact Eb].
Qed.

(** The coroutine is idle, or in the packet: before its end, and in a TS stream inside
    a TS packet or at the end of one. *)
Definition cor_idle (mx : vbi_dvb_mux) : Prop := cor_end mx ≤ cor_offset mx.

Definition cor_active (mx : vbi_dvb_mux) : Prop :=
  cor_offset mx < cor_end mx ∧ 4 ≤ cor_end mx ≤ 4 + MAX_PES_PACKET_SIZE ∧
  (pid mx = 0 ∨ ∃ k n, 0 ≤ cor_ts_left mx ≤ 188 ∧ cor_offset mx + cor_ts_left mx = 4 + 184 * k ∧ 0 ≤ k ≤ n ∧
                cor_end mx = 4 + 184 * n).

Record mux_inv (mx : vbi_dvb_mux) : Prop := {
  mi_ok : mux_ok mx;
  mi_offset : 0 ≤ cor_offset mx;
  mi_cor : cor_idle mx ∨ cor_active mx
}.

Lemma set_cor_ok mx a b c : mux_ok mx → mux_ok (set_cor a b c mx).
Proof. by intros []. Qed.

Lemma cor_ts_loop_ok fuel : ∀ mx p_left offset ts_left out k n,
  mux_ok mx → 0 < pid mx → 0 < p_left → (Z.to_nat p_left ≤ fuel)%nat → 0 ≤ offset < cor_end mx →
  0 ≤ ts_left ≤ 188 → offset + ts_left = 4 + 184 * k → 0 ≤ k ≤ n → cor_end mx = 4 + 184 * n →
  cor_end mx ≤ 4 + MAX_PES_PACKET_SIZE →
  ∃ mx' offset' ts_left' out', cor_ts_loop fuel mx p_left offset ts_left out = Some (mx', offset', ts_left', out') ∧
    mux_ok mx' ∧ pid mx' = pid mx ∧ cor_end mx' = cor_end mx ∧ 0 ≤ offset' ∧ 0 ≤ ts_left' ≤ 188 ∧
    ∃ k', offset' + ts_left' = 4 + 184 * k' ∧ 0 ≤ k' ≤ n.
Proof.
  induction fuel as [|fuel IH]; intros mx p_left offset ts_left out k n Hmx Hpid Hp Hf Ho Ht Ek Hk En Hend; [lia|].
  cbn [cor_ts_loop].
  set (start := if ts_left =? 0 then _ else _).
  assert (∃ mx1 o1 t1 k1, start = Some (mx1, o1, t1) ∧ mux_ok mx1 ∧ pid mx1 = pid mx ∧ cor_end mx1 = cor_end mx ∧
    0 ≤ o1 ∧ 0 < t1 ≤ 188 ∧ o1 + t1 = 4 + 184 * k1 ∧ 0 ≤ k1 ≤ n) as (mx1 & o1 & t1 & k1 & -> & Hmx1 & Ep1 & Ee1 & Ho1 & Ht1 & Ek1 & Hk1).
  { subst start. destruct (Z.eqb_spec ts_left 0) as [->|].
    - destruct (header_returns mx (offset - 4) Hmx) as (b & -> & Hmx1); [lia|lia|]. cbn [mbind option_bind].
      eexists _, (offset - 4), 188, (k + 1). split; [reflexivity|]. split; [exact Hmx1|]. split_and!; (done || lia).
    - exists mx, offset, ts_left, k. split; [done|]. split; [done|]. split_and!; (done || lia). }
  cbn [mbind option_bind]. pose proof (image_size _ (mo_image _ Hmx1)) as Hl.
  rewrite slice_Some by lia. cbn [mbind option_bind].
  destruct (Z.ltb_spec 0 (p_left - Z.min p_left t1)); cbn [andb]; [destruct (Z.ltb_spec (o1 + Z.min p_left t1) (cor_end mx1))|].
  - match goal with |- context [cor_ts_loop _ _ _ _ _ ?l] =>
      destruct (IH mx1 (p_left - Z.min p_left t1) (o1 + Z.min p_left t1) (t1 - Z.min p_left t1) l k1 n)
        as (mx' & o' & t' & out' & E & H1 & H2 & H3 & H4); try done; try lia end.
    exists mx', o', t', out'. split; [exact E|]. split; [done|]. split; [congruence|]. split; [congruence|done].
  - eexists _, _, _, _. split; [reflexivity|]. do 3 (split; [done|]). split; [lia|]. split; [lia|]. exists k1. lia.
  - eexists _, _, _, _. split; [reflexivity|]. do 3 (split; [done|]). split; [lia|]. split; [lia|]. exists k1. lia.
Qed.

(** What a caller may do, raw data aside. *)
Definition lines_ok (l : list vbi_sliced) : Prop := Forall line_ok l ∧ Forall not_raw l.

Lemma generated_inv mx buf : mux_ok mx → is_image buf → mux_ok (set_packet buf mx).
Proof. intros [] Hb. by split. Qed.

Lemma cor_returns mx n sliced mask raw sp pts :
  mux_inv mx → 0 ≤ n → lines_ok sliced →
  ∃ mx' out rest ok, vbi_dvb_mux_cor mx n sliced mask raw sp pts = Some (mx', out, rest, ok) ∧ mux_inv mx' ∧ pid mx' = pid mx.
Proof.
  intros Hinv Hn [Hok Hnr]. unfold vbi_dvb_mux_cor.
  destruct (Z.eqb_spec n 0); [by eexists _, _, _, _|]. destruct (match sp with Some sp => _ | None => false end); [by eexists _, _, _, _|].
  set (next := if cor_end mx <=? cor_offset mx then _ else _).
  assert (∃ r, next = Some r ∧ match r with inl (mx', _) => mux_inv mx' ∧ pid mx' = pid mx
    | inr mx' => mux_inv mx' ∧ cor_active mx' ∧ pid mx' = pid mx end) as (r & -> & Hr).
  { subst next. pose proof Hinv as [Hmx Ho Hc]. destruct (Z.leb_spec (cor_end mx) (cor_offset mx)).
    2: { eexists (inr mx). split; [done|]. split; [done|]. split; [|done]. by destruct Hc as [Hc|]; [unfold cor_idle in Hc; lia|]. }
    destruct (length sliced =? 0)%nat; [by eexists (inl (mx, sliced))|].
    destruct (generate_pes_returns mx sliced mask raw sp pts Hmx Hok Hnr) as (buf & size & rest & err & -> & Hb & _ & Hz).
    cbn [mbind option_bind]. pose proof (generated_inv _ _ Hmx Hb) as Hmx1.
    destruct (negb (err =? 0) || (0 <? length rest)%nat) eqn:Ee.
    - eexists (inl _). split; [reflexivity|]. split; [|done]. split; [by apply set_cor_ok|done|left; exact Ho].
    - apply orb_false_iff in Ee as [Ee _]. apply negb_false_iff, Z.eqb_eq in Ee.
      destruct (Hz Ee) as ([Hs Hm] & _). eexists (inr _). split; [reflexivity|].
      assert (cor_active (set_cor 4 (size + 4) 0 (set_packet buf mx))) as Hact.
      { split; [cbn; lia|]. split; [cbn; lia|]. right. cbn. apply Z.mod_divide in Hm as [m ->]; [|done].
        exists 0, m. split_and!; lia. }
      split; [|done]. split; [by apply set_cor_ok|done|by right]. }
  cbn [mbind option_bind]. destruct r as [[mx1 rest]|mx1].
  { destruct Hr as [Hr1 Hr2]. by eexists mx1, _, _, _. }
  destruct Hr as ([Hmx1 Ho1 _] & (Hlt & Hend & Hact) & Ep1).
  destruct (Z.eqb_spec (pid mx1) 0) as [E0|Hne].
  - pose proof (image_size _ (mo_image _ Hmx1)) as Hl.
    rewrite slice_Some by lia. cbn [mbind option_bind]. eexists _, _, _, true. split; [reflexivity|].
    split; [|done]. split; [by apply set_cor_ok|cbn; lia|].
    destruct (Z.lt_ge_cases (cor_offset mx1 + Z.min n (cor_end mx1 - cor_offset mx1)) (cor_end mx1)); [right|left; done].
    split; [done|]. split; [done|by left].
  - destruct Hact as [|(k & m & Ht & Ek & Hk & Em)]; [done|].
    destruct (cor_ts_loop_ok (Z.to_nat n) mx1 n (cor_offset mx1) (cor_ts_left mx1) [] k m Hmx1)
      as (mx2 & o2 & t2 & out2 & -> & Hmx2 & Ep2 & Ee2 & Ho2 & Ht2 & k2 & Ek2 & Hk2); try lia.
    { destruct Hmx1. lia. }
    cbn [mbind option_bind]. eexists _, _, _, true. split; [reflexivity|]. split; [|cbn; congruence].
    split; [by apply set_cor_ok|done|]. destruct (Z.lt_ge_cases o2 (cor_end mx2)); [right|left; done].
    split; [done|]. cbn [cor_end set_cor]. split; [lia|]. right. exists k2, m. cbn [cor_ts_left cor_offset cor_end set_cor]. split_and!; lia.
Qed.

Section feed.
Context {C : Type} (callback : option (C → list Z → C * bool)).

Lemma feed_ts_loop_ok cb fuel : ∀ mx k n (c : C),
  mux_ok mx → 0 ≤ k < n → 184 * n ≤ MAX_PES_PACKET_SIZE → n - k ≤ Z.of_nat fuel →
  ∃ mx' ok c', feed_ts_loop fuel mx (184 * k) (184 * n) cb c = Some (mx', ok, c') ∧ mux_ok mx' ∧
    pid mx' = pid mx ∧ cor_offset mx' = cor_offset mx ∧ cor_end mx' = cor_end mx.
Proof.
  induction fuel as [|fuel IH]; intros mx k n c Hmx Hk Hn Hf; [lia|]. cbn [feed_ts_loop].
  destruct (header_returns mx (184 * k) Hmx) as (b & -> & Hmx1); [lia|lia|]. cbn [mbind option_bind].
  set (mx1 := set_continuity_counter _ _) in *. pose proof (image_size _ (mo_image _ Hmx1)) as Hl.
  rewrite slice_Some by lia. cbn [mbind option_bind]. destruct (cb c _) as [c1 ok]. destruct ok; cbn [negb].
  2: { by exists mx1, false, c1. }
  destruct (Z.ltb_spec (184 * k + 184) (184 * n)); [|by exists mx1, true, c1].
  replace (184 * k + 184) with (184 * (k + 1)) by lia.
  destruct (IH mx1 (k + 1) n c1 Hmx1) as (mx' & ok & c' & E & H1 & H2 & H3 & H4); [lia|lia|lia|].
  exists mx', ok, c'. split; [exact E|]. split; [done|]. split; [by rewrite H2|]. split; [by rewrite H3|by rewrite H4].
Qed.

Lemma feed_returns mx sliced mask raw sp pts (c : C) :
  mux_inv mx → lines_ok sliced →
  ∃ mx' ok c', vbi_dvb_mux_feed callback mx sliced mask raw sp pts c = Some (mx', ok, c') ∧ mux_inv mx' ∧ pid mx' = pid mx.
Proof.
  intros Hinv [Hok Hnr]. unfold vbi_dvb_mux_feed. destruct callback as [cb|]; [|by exists mx, false, c].
  destruct (match sp with Some sp => _ | None => false end); [by exists mx, false, c|].
  set (mx0 := if cor_offset mx <? cor_end mx then _ else mx).
  assert (mux_ok mx0 ∧ 0 ≤ cor_offset mx0 ∧ cor_idle mx0 ∧ pid mx0 = pid mx) as (Hmx0 & Ho0 & Hi0 & Ep0).
  { pose proof Hinv as [Hmx Ho _]. subst mx0. destruct (Z.ltb_spec (cor_offset mx) (cor_end mx)); [|done].
    split; [by apply set_cor_ok|done]. }
  destruct (generate_pes_returns mx0 sliced mask raw sp pts Hmx0 Hok Hnr) as (buf & size & rest & err & -> & Hb & _ & Hz).
  cbn [mbind option_bind]. pose proof (generated_inv _ _ Hmx0 Hb) as Hmx1. set (mx1 := set_packet buf mx0) in *.
  assert (mux_inv mx1) as Hinv1 by (split; [done|done|by left]).
  destruct (negb (err =? 0) || (0 <? length rest)%nat) eqn:Ee; [by eexists mx1, _, _|].
  apply orb_false_iff in Ee as [Ee _]. apply negb_false_iff, Z.eqb_eq in Ee. destruct (Hz Ee) as ([Hs Hm] & _).
  apply Z.mod_divide in Hm as [m ->]; [|done].
  destruct (pid mx1 =? 0).
  - pose proof (image_size _ (mo_image _ Hmx1)) as Hl. rewrite slice_Some by lia. cbn [mbind option_bind].
    destruct (cb c _) as [c1 ok]. by exists mx1, ok, c1.
  - destruct (feed_ts_loop_ok cb (Z.to_nat (m * 184)) mx1 0 m c Hmx1) as (mx' & ok & c' & E & H1 & H2 & H3 & H4); [lia|lia|lia|].
    change (184 * 0) with 0 in E. rewrite (Z.mul_comm m 184) in *. exists mx', ok, c'. split; [exact E|]. split; [|by rewrite H2].
    split; [done|by rewrite H3|]. left. unfold cor_idle. rewrite H3, H4. exact Hi0.
Qed.

(** The calls of the interface. *)
Inductive mux_call :=
  | Reset | Set_data_identifier (n : Z) | Set_pes_packet_size (min max : Z)
  | Cor (buffer_left : Z) (sliced : list vbi_sliced) (service_mask : Z) (raw : option (list Z))
      (sp : option vbi_sampling_par) (pts : Z)
  | Feed (sliced : list vbi_sliced) (service_mask : Z) (raw : option (list Z)) (sp : option vbi_sampling_par) (pts : Z).

Definition mux_call_ok (call : mux_call) : Prop :=
  match call with
  | Cor n sliced _ _ _ _ => 0 ≤ n ∧ lines_ok sliced
  | Feed sliced _ _ _ _ => lines_ok sliced
  | _ => True
  end.

Definition run_call (st : vbi_dvb_mux * C) (call : mux_call) : option (vbi_dvb_mux * C) :=
  let '(mx, c) := st in
  match call with
  | Reset => Some (vbi_dvb_mux_reset mx, c)
  | Set_data_identifier n => Some ((vbi_dvb_mux_set_data_identifier mx n).1, c)
  | Set_pes_packet_size a b => Some ((vbi_dvb_mux_set_pes_packet_size mx a b).1, c)
  | Cor n sliced mask raw sp pts => '(mx, _, _, _) ← vbi_dvb_mux_cor mx n sliced mask raw sp pts; Some (mx, c)
  | Feed sliced mask raw sp pts => '(mx, _, c) ← vbi_dvb_mux_feed callback mx sliced mask raw sp pts c; Some (mx, c)
  end.

Fixpoint run_calls (st : vbi_dvb_mux * C) (calls : list mux_call) : option (vbi_dvb_mux * C) :=
  match calls with
  | [] => Some st
  | call :: calls => st ← run_call st call; run_calls st calls
  end.

Lemma round_up_ok n : 184 ≤ n ≤ MAX_PES_PACKET_SIZE → packet_size_ok (n + 183 - (n + 183) mod 184) ∧ n ≤ n + 183 - (n + 183) mod 184.
Proof.
  intros Hn. pose proof (Z.mod_pos_bound (n + 183) 184 ltac:(done)). pose proof (Z.div_mod (n + 183) 184 ltac:(done)) as E.
  unfold packet_size_ok, MAX_PES_PACKET_SIZE in *. change ((6 + 65535) mod 184) with 37 in *.
  assert (n + 183 - (n + 183) mod 184 = (n + 183) / 184 * 184) as Er by lia. rewrite Er, Z_mod_mult. split; [|lia].
  split; [|done]. split; [lia|]. assert ((n + 183) / 184 < 357) by (apply Z.div_lt_upper_bound; lia). lia.
Qed.

Lemma round_down_ok n : 184 ≤ n ≤ MAX_PES_PACKET_SIZE → packet_size_ok (n - n mod 184).
Proof.
  intros Hn. pose proof (Z.mod_pos_bound n 184 ltac:(done)). pose proof (Z.div_mod n 184 ltac:(done)) as E.
  assert (n - n mod 184 = n / 184 * 184) as Er by lia. unfold packet_size_ok. rewrite Er, Z_mod_mult. split; [|done].
  assert (1 ≤ n / 184) by (apply Z.div_le_lower_bound; lia). lia.
Qed.

Lemma sizes_ok mx a b : mux_ok mx → mux_ok (vbi_dvb_mux_set_pes_packet_size mx a b).1.
Proof.
  intros []. unfold vbi_dvb_mux_set_pes_packet_size. cbn [fst].
  set (lo := if a <? 184 then _ else _).
  assert (packet_size_ok lo) as Hlo.
  { subst lo. destruct (Z.ltb_spec a 184); [split; [done|done]|]. destruct (Z.ltb_spec MAX_PES_PACKET_SIZE a); [split; [done|done]|].
    by apply round_up_ok. }
  split; try done. cbn [max_packet_size min_packet_size set_options]. pose proof Hlo as [Hl1 Hl2].
  destruct (Z.ltb_spec b lo); [split; [done|lia]|]. destruct (Z.ltb_spec MAX_PES_PACKET_SIZE b); [split; [split; [done|done]|lia]|].
  split; [apply round_down_ok; lia|]. apply Z.mod_divide in Hl2 as [k Hk]; [|done].
  pose proof (Z.div_mod b 184 ltac:(done)). pose proof (Z.mod_pos_bound b 184 ltac:(done)).
  assert (k ≤ b / 184) by (apply Z.div_le_lower_bound; lia). lia.
Qed.

Lemma run_call_ok mx c call :
  mux_inv mx → mux_call_ok call → ∃ mx' c', run_call (mx, c) call = Some (mx', c') ∧ mux_inv mx' ∧ pid mx' = pid mx.
Proof.
  intros Hinv Hc. pose proof Hinv as [Hmx Ho Hcor]. destruct call as [|n|a b|n sliced mask raw sp pts|sliced mask raw sp pts]; cbn [run_call].
  - eexists _, c. split; [reflexivity|]. split; [|done]. split; [|done|by left].
    destruct Hmx. split; try done. cbn [continuity_counter set_cor set_continuity_counter vbi_dvb_mux_reset].
    pose proof (land_range 4 (u32 (continuity_counter mx - 1)) 0xF ltac:(done) ltac:(done)). lia.
  - eexists _, c. split; [reflexivity|]. unfold vbi_dvb_mux_set_data_identifier.
    destruct (_ || _) eqn:E; cbn [fst]; [|done]. split; [|done]. split; [|done|exact Hcor].
    destruct Hmx. split; try done. cbn [data_identifier set_options]. unfold identifier_ok.
    apply orb_true_iff in E. rewrite !andb_true_iff, !Z.leb_le, !Z.ltb_lt in E. lia.
  - eexists _, c. split; [reflexivity|]. split; [|done]. split; [by apply sizes_ok|exact Ho|exact Hcor].
  - destruct Hc as [Hn Hl]. destruct (cor_returns mx n sliced mask raw sp pts Hinv Hn Hl) as (mx' & out & rest & ok & -> & H1 & H2).
    cbn [mbind option_bind]. by exists mx', c.
  - destruct (feed_returns mx sliced mask raw sp pts c Hinv Hc) as (mx' & ok & c' & -> & H1 & H2).
    cbn [mbind option_bind]. by exists mx', c'.
Qed.
End feed.

Lemma take_drop_next {A} (l : list A) k n : take n (drop k l) ++ drop (k + n) l = drop k l.
Proof. by rewrite <-drop_drop, take_drop. Qed.

Lemma new_image memory :
  Z.of_nat (length memory) = 4 + MAX_PES_PACKET_SIZE → ∃ b, init_pes_packet_header memory = Some b ∧ is_image b.
Proof.
  intros Hm. change (4 + MAX_PES_PACKET_SIZE) with 65508 in Hm.
  assert (memory = take 4 memory ++ take 4 (drop 4 memory) ++ take 2 (drop 8 memory) ++ take 3 (drop 10 memory)
    ++ take 36 (drop 13 memory) ++ take 1 (drop 49 memory) ++ drop 50 memory) as Em.
  { rewrite (take_drop_next memory 49 1 : take 1 (drop 49 memory) ++ drop 50 memory = _),
      (take_drop_next memory 13 36 : take 36 (drop 13 memory) ++ drop 49 memory = _),
      (take_drop_next memory 10 3 : take 3 (drop 10 memory) ++ drop 13 memory = _),
      (take_drop_next memory 8 2 : take 2 (drop 8 memory) ++ drop 10 memory = _),
      (take_drop_next memory 4 4 : take 4 (drop 4 memory) ++ drop 8 memory = _). by rewrite take_drop. }
  set (t4 := take 4 memory) in *. set (m1 := take 4 (drop 4 memory)) in *. set (len := take 2 (drop 8 memory)) in *.
  set (m2 := take 3 (drop 10 memory)) in *. set (m3 := take 36 (drop 13 memory)) in *.
  set (z := take 1 (drop 49 memory)) in *. set (body := drop 50 memory) in *.
  assert (length t4 = 4%nat ∧ length m1 = 4%nat ∧ length len = 2%nat ∧ length m2 = 3%nat ∧ length m3 = 36%nat ∧
    length z = 1%nat ∧ Z.of_nat (length body) = 65458) as (L1 & L2 & L3 & L4 & L5 & L6 & L7)
    by (subst t4 m1 len m2 m3 z body; rewrite !length_take, !length_drop; lia).
  clearbody t4 m1 len m2 m3 z body. subst memory. clear Hm. destruct z as [|ident [|]]; try done.
  unfold init_pes_packet_header. rewrite store_app by lia || done. cbn [mbind option_bind].
  replace (t4 ++ [0; 0; 1; PRIVATE_STREAM_1] ++ len ++ m2 ++ m3 ++ [ident] ++ body)
    with ((t4 ++ [0; 0; 1; PRIVATE_STREAM_1] ++ len) ++ m2 ++ m3 ++ [ident] ++ body) by (by rewrite <-!app_assoc).
  rewrite store_app by (rewrite ?length_app, ?L1, ?L3; done). cbn [mbind option_bind].
  change [(2 ≪ 6) .| (1 ≪ 2); 2 ≪ 6; 0x24] with header_flags.
  replace ((t4 ++ [0; 0; 1; PRIVATE_STREAM_1] ++ len) ++ header_flags ++ m3 ++ [ident] ++ body)
    with ((t4 ++ [0; 0; 1; PRIVATE_STREAM_1] ++ len ++ header_flags) ++ m3 ++ [ident] ++ body) by (by rewrite <-!app_assoc).
  rewrite store_app by (rewrite ?length_app, ?L1, ?L3, ?L5; done). eexists. split; [reflexivity|].
  exists t4, len, (repeat 0xFF 5), ident, body. split; [|split_and!; try done].
  unfold pes_image. rewrite <-!app_assoc. change (repeat 0xFF 36) with (repeat 0xFF 5 ++ repeat 0xFF 31).
  by rewrite <-!app_assoc.
Qed.

Lemma pes_mux_new_ok memory :
  Z.of_nat (length memory) = 4 + MAX_PES_PACKET_SIZE → ∃ mx, vbi_dvb_pes_mux_new memory = Some mx ∧ mux_inv mx ∧ pid mx = 0.
Proof.
  intros Hm. destruct (new_image memory Hm) as (b & E & Hb). unfold vbi_dvb_pes_mux_new. rewrite E. cbn [mbind option_bind].
  eexists. split; [reflexivity|]. split; [|done]. split; [|done|by left]. split; try done; [by left|by left].
Qed.

Lemma ts_mux_new_ok memory n :
  Z.of_nat (length memory) = 4 + MAX_PES_PACKET_SIZE → 0x10 ≤ n < 0x1FFF →
  ∃ mx, vbi_dvb_ts_mux_new memory n = Some (Some mx) ∧ mux_inv mx ∧ pid mx = n ∧ continuity_counter mx = 0 ∧
    max_packet_size mx = MAX_PES_PACKET_SIZE ∧ data_identifier mx = 0x10.
Proof.
  intros Hm Hn. unfold vbi_dvb_ts_mux_new. destruct (Z.leb_spec n 0x000F), (Z.leb_spec 0x1FFF n); try lia. cbn [orb].
  destruct (new_image memory Hm) as (b & E & Hb). unfold vbi_dvb_pes_mux_new. rewrite E. cbn [mbind option_bind].
  eexists. split; [reflexivity|]. split; [|done]. split; [|done|by left]. split; try done; [by left|by right].
Qed.

(** C9: with sliced lines the multiplexer keeps to its packet buffer.  Whatever sequence of
    calls without raw VBI lines is made to a new multiplexer, for PES or TS output: feeding
    frames and fetching output through buffers of any size, changing the sizes and the data
    identifier, resets, with any lines that are not of service VBI_SLICED_VBI_625, any
    masks, time stamps and callback results, every call returns
    (no failed assertion, no access outside of an array) and keeps the invariant: the
    header of the packet in place, sizes that are multiples of 184 up to 65504, a valid
    data identifier and the coroutine at a consistent position in the packet.  With raw
    lines this fails: see [raw_line_fails_assertion] and [continued_line_without_parameters]. *)
Theorem dvb_mux_invariant {C} (callback : option (C → list Z → C * bool)) (calls : list mux_call) :
  ∀ (mx : vbi_dvb_mux) (c : C), mux_inv mx → Forall mux_call_ok calls →
  ∃ mx' c', run_calls callback (mx, c) calls = Some (mx', c') ∧ mux_inv mx' ∧ pid mx' = pid mx.
Proof.
  induction calls as [|call calls IH]; intros mx c Hinv Hok; [by exists mx, c|]. cbn [run_calls].
  inversion Hok as [|? ? H1 H2]; subst. destruct (run_call_ok callback mx c call Hinv H1) as (mx1 & c1 & -> & Hinv1 & Ep).
  cbn [mbind option_bind]. destruct (IH mx1 c1 Hinv1 H2) as (mx2 & c2 & E & Hinv2 & Ep2).
  exists mx2, c2. split; [exact E|]. split; [done|congruence].
Qed.

Lemma dvb_mux_invariant_witness :
  ∃ mx mx' c', vbi_dvb_ts_mux_new (repeat 0 (Z.to_nat 65508)) 0x123 = Some (Some mx) ∧ mux_inv mx ∧
    run_calls (Some (λ (c : Z) l, (c + 1, true))) (mx, 0)
      [Set_pes_packet_size 300 500; Cor 100 witness_lines witness_mask None None 7; Set_data_identifier 0x99;
       Cor 1000 [] 0 None None 0; Feed witness_lines witness_mask None None 8; Reset; Set_pes_packet_size 0 0;
       Feed witness_lines witness_mask None None 9] = Some (mx', c') ∧ mux_inv mx'.
Proof.
  destruct (ts_mux_new_ok (repeat 0 (Z.to_nat 65508)) 0x123) as (mx & E & Hinv & _).
  - rewrite repeat_length, Z2Nat.id; done.
  - done.
  - assert (lines_ok witness_lines) as Hw.
    { split; [apply witness_lines_ok|]. repeat constructor; unfold not_raw; cbn; discriminate. }
    destruct (dvb_mux_invariant (Some (λ (c : Z) l, (c + 1, true)))
      [Set_pes_packet_size 300 500; Cor 100 witness_lines witness_mask None None 7; Set_data_identifier 0x99;
       Cor 1000 [] 0 None None 0; Feed witness_lines witness_mask None None 8; Reset; Set_pes_packet_size 0 0;
       Feed witness_lines witness_mask None None 9] mx 0 Hinv) as (mx' & c' & E2 & H2 & _).
    + assert (lines_ok []) as Hn by (split; constructor). 
      repeat (apply List.Forall_cons;
        [first [exact I|exact Hw|split; [lia|exact Hw]|split; [lia|exact Hn]]|]); constructor.
    + exists mx, mx', c'. exact (conj E (conj Hinv (conj E2 H2))).
Defined.

(** ** Raw lines *)

(** The data units of the first samples of [r], from pixel position [pos] on: which
    line they are of, whether they are the first or the last of it, their position and
    number, the samples and padding. *)
Inductive raw_encodes (fixed : bool) (lofp total : Z) : Z → list Z → list (list Z) → list Z → Prop :=
| re_stop pos r : raw_encodes fixed lofp total pos r [] r
| re_unit pos px r us rest tail :
    1 ≤ Z.of_nat (length px) →
    (if fixed then Z.of_nat (length px) + Z.of_nat (length tail) = 40
     else Z.of_nat (length px) + Z.of_nat (length tail) ≤ 251) →
    raw_encodes fixed lofp total (pos + Z.of_nat (length px)) r us rest →
    raw_encodes fixed lofp total pos (px ++ r)
      (([DATA_UNIT_MONOCHROME_SAMPLES; 4 + Z.of_nat (length px) + Z.of_nat (length tail);
         lofp + 128 * Z.b2z (Z.of_nat (length (px ++ r)) =? total) + 64 * Z.b2z (length r =? 0)%nat;
         pos / 256; pos mod 256; Z.of_nat (length px)] ++ px ++ tail) :: us) rest.

(** A decoder that puts the segments together. *)
Definition unit_pixels (u : list Z) : list Z := take (Z.to_nat u.[5]) (drop 6 u).
Definition unit_position (u : list Z) : Z := u.[3] * 256 + u.[4].

Lemma raw_reassemble fixed lofp total pos r us rest :
  raw_encodes fixed lofp total pos r us rest →
  r = concat (map unit_pixels us) ++ rest ∧
  ∀ i u, us !! i = Some u → unit_position u = pos + Z.of_nat (length (concat (map unit_pixels (take i us)))).
Proof.
  induction 1 as [pos r|pos px r us rest tail Hpx Ht He [IH1 IH2]]; [done|].
  set (u := _ ++ px ++ tail). assert (unit_pixels u = px) as Eu.
  { unfold unit_pixels. change (drop 6 u) with (px ++ tail). change (u.[5]) with (Z.of_nat (length px)).
    by rewrite Nat2Z.id, take_app_length. }
  split.
  - cbn [map concat]. rewrite Eu, <-app_assoc. by rewrite <-IH1.
  - intros [|i] v Hi; cbn in Hi.
    + injection Hi as <-. cbn [take map concat length]. change (pos / 256 * 256 + pos mod 256 = pos + 0).
      pose proof (Z.div_mod pos 256 ltac:(done)). lia.
    + cbn [take map concat]. rewrite Eu, length_app, (IH2 i v Hi). lia.
Qed.

Lemma raw_encodes_size fixed lofp total pos r us rest :
  raw_encodes fixed lofp total pos r us rest → Forall (λ u, 7 ≤ Z.of_nat (length u) ≤ 257 ∧ (fixed = true → Z.of_nat (length u) = 46)) us.
Proof.
  induction 1 as [|pos px r us rest tail Hpx Ht He IH]; constructor; [|done].
  rewrite !length_app. cbn [length]. destruct fixed; lia.
Qed.

Lemma lofp_flags lofp (a b : bool) :
  0 ≤ lofp < 64 → u8 (lofp + (Z.b2z a ≪ 7) + (Z.b2z b ≪ 6)) = lofp + 128 * Z.b2z a + 64 * Z.b2z b.
Proof.
  intros Hl. rewrite !Z.shiftl_mul_pow2 by done. change (2 ^ 7) with 128. change (2 ^ 6) with 64. unfold u8.
  rewrite Z.mod_small; [lia|]. destruct a, b; cbn [Z.b2z]; lia.
Qed.

Lemma raw_loop_spec (fixed stuffing : bool) lofp total fuel : ∀ (pre hole post : list Z) pos ldu r,
  (length r ≤ fuel)%nat → 0 ≤ lofp < 64 → 0 ≤ pos → pos + Z.of_nat (length r) ≤ 720 → Z.of_nat (length r) ≤ total →
  ∃ us rest hole',
    raw_loop fuel fixed (if fixed then 46 else 7) (if stuffing then 258 else 0) lofp total (pre ++ hole ++ post)
      (Z.of_nat (length pre)) (Z.of_nat (length hole)) ldu pos r =
      Some (pre ++ concat us ++ hole' ++ post, Z.of_nat (length pre + length (concat us)), last_size ldu us, rest) ∧
    raw_encodes fixed lofp total pos r us rest ∧ (length (concat us) + length hole' = length hole)%nat ∧
    hole' = drop (length (concat us)) hole ∧
    (rest = [] ∨ Z.of_nat (length hole') < if fixed then 46 else 7) ∧
    (stuffing = true → length hole' = 1%nat → us ≠ [] → last_size ldu us ≤ 256).
Proof.
  induction fuel as [|fuel IH]; intros pre hole post pos ldu r Hf Hlofp Hpos Hend Htot; cbn [raw_loop];
    (destruct (Z.ltb_spec 0 (Z.of_nat (length r))) as [Hr|Hr];
     [|exists [], r, hole; rewrite Nat.add_0_r; split; [done|]; split; [constructor|]; split; [done|]; split; [done|];
       split; [left; destruct r; [done|cbn in Hr; lia]|done]]); [lia|].
  destruct (Z.ltb_spec (Z.of_nat (length hole)) (if fixed then 46 else 7)) as [Hfull|Hspace].
  { exists [], r, hole. rewrite Nat.add_0_r. split; [done|]. split; [constructor|]. split; [done|]. split; [done|]. split; [by right|done]. }
  set (r_left := Z.of_nat (length r)) in *.
  destruct (raw_unit_size fixed (if stuffing then 258 else 0) (Z.of_nat (length hole)) r_left) as [np du] eqn:Es.
  assert (1 ≤ np ≤ r_left ∧ np ≤ (if fixed then 40 else 251) ∧ du = (if fixed then 46 else 6 + np) ∧ du ≤ Z.of_nat (length hole) ∧
    (stuffing = true → Z.of_nat (length hole) - du = 1 → du ≤ 256)) as (Hnp & Hnp2 & Hdu & Hduh & Hcrit).
  { unfold raw_unit_size in Es. destruct fixed.
    - injection Es as <- <-. split_and!; lia.
    - destruct (Z.eqb_spec (if stuffing then 258 else 0) (Z.of_nat (length hole))) as [Ec|Ec]; injection Es as <- <-; destruct stuffing; split_and!; lia. }
  clear Es. rewrite slice_Some by lia. cbn [mbind option_bind]. rewrite Z.sub_0_r. change (Z.to_nat 0) with 0%nat. rewrite drop_0.
  set (px := take (Z.to_nat np) r). set (r' := drop (Z.to_nat np) r).
  assert (Z.of_nat (length px) = np) as Hpx by (subst px; rewrite length_take; lia).
  assert (r = px ++ r') as Er by (subst px r'; by rewrite take_drop).
  assert (Z.of_nat (length r') = r_left - np) as Hr' by (subst r'; rewrite length_drop; lia).
  set (tail := if fixed then repeat 0xFF (Z.to_nat (0x2C - 4 - np)) else []).
  assert (Z.of_nat (length tail) = if fixed then 40 - np else 0) as Htail by (subst tail; destruct fixed; [rewrite repeat_length; lia|done]).
  set (u := [DATA_UNIT_MONOCHROME_SAMPLES; 4 + np + Z.of_nat (length tail);
    lofp + 128 * Z.b2z (r_left =? total) + 64 * Z.b2z (length r' =? 0)%nat; pos / 256; pos mod 256; np] ++ px ++ tail).
  assert (raw_unit fixed lofp pos total r_left np px = u) as ->.
  { unfold raw_unit. fold tail. rewrite lofp_flags by done. unfold u8. change (2 ^ 8) with 256. rewrite Z.shiftr_div_pow2 by done.
    change (2 ^ 8) with 256. assert (0 ≤ pos / 256 < 256) by (split; [apply Z.div_pos|apply Z.div_lt_upper_bound]; lia).
    rewrite (Z.mod_small (pos / 256)) by done. rewrite (Z.mod_small np) by (destruct fixed; lia).
    assert ((if fixed then 0x2C else (4 + np) mod 256) = 4 + np + Z.of_nat (length tail)) as ->
      by (rewrite Htail; destruct fixed; [lia|rewrite Z.mod_small by lia; lia]).
    assert ((r_left =? np) = (length r' =? 0)%nat) as -> by (destruct (Z.eqb_spec r_left np), (Nat.eqb_spec (length r') 0); done || lia).
    done. }
  assert (Z.of_nat (length u) = du) as Hu by (subst u; rewrite !length_app; cbn [length]; destruct fixed; lia).
  replace (pre ++ hole ++ post) with (pre ++ take (length u) hole ++ drop (length u) hole ++ post)
    by (by rewrite (app_assoc (take _ _)), take_drop).
  rewrite store_app by (rewrite ?length_take; lia || done). cbn [mbind option_bind].
  set (hole1 := drop (length u) hole). assert (Z.of_nat (length hole1) = Z.of_nat (length hole) - du) as Hh1 by (subst hole1; rewrite length_drop; lia).
  destruct (IH (pre ++ u) hole1 post (pos + np) du r') as (us & rest & hole' & E & He & Hlh & Edrop & Hend' & Hlast); [lia|done|lia|lia|lia|].
  exists (u :: us), rest, hole'. rewrite length_app in E. rewrite <-app_assoc in E.
  replace (Z.of_nat (length pre) + du) with (Z.of_nat (length pre + length u)) by lia. rewrite <-Hh1. rewrite E.
  cbn [concat]. rewrite length_app. split; [|split; [|split; [|split; [|split]]]].
  - rewrite <-app_assoc. unfold last_size. cbn [foldl]. rewrite Hu. by rewrite <-!app_assoc, Nat.add_assoc.
  - rewrite Er. assert (r_left = Z.of_nat (length (px ++ r'))) as El by (by rewrite <-Er). subst u. rewrite El, <-Hpx.
    constructor; [lia|destruct fixed; lia|]. rewrite Hpx. exact He.
  - lia.
  - rewrite Edrop. subst hole1. by rewrite drop_drop.
  - done.
  - intros Hst H1 _. unfold last_size in *. cbn [foldl]. rewrite Hu. destruct us as [|u2 us]; [|by apply Hlast].
    cbn [foldl concat length] in *. apply Hcrit; [done|lia].
Qed.

(** A padding byte is appended to the last unit. *)
Lemma raw_encodes_pad lofp total pos r us rest :
  raw_encodes false lofp total pos r us rest → us ≠ [] →
  ∀ pre post ldu, last_size ldu us ≤ 256 →
  ∃ us', raw_encodes false lofp total pos r us' rest ∧ length (concat us') = S (length (concat us)) ∧
    wr (pre ++ concat us ++ [0xFF] ++ post)
      (Z.of_nat (length pre + length (concat us)) + (1 - last_size ldu us)) (last_size ldu us - 1) =
    Some (pre ++ concat us' ++ post).
Proof.
  induction 1 as [pos r|pos px r us rest tail Hpx Ht He IH]; [done|]. intros _ pre post ldu Hl.
  set (u := _ ++ px ++ tail) in *.
  assert (length u = 6 + length px + length tail)%nat as Hu by (subst u; rewrite !length_app; cbn [length]; lia).
  destruct us as [|u2 us].
  - clear IH. inversion He; subst. cbn [last_size foldl] in *. cbn [concat]. rewrite app_nil_r.
    exists [[DATA_UNIT_MONOCHROME_SAMPLES; 4 + Z.of_nat (length px) + Z.of_nat (length (tail ++ [0xFF]));
         lofp + 128 * Z.b2z (Z.of_nat (length (px ++ rest)) =? total) + 64 * Z.b2z (length rest =? 0)%nat;
         pos / 256; pos mod 256; Z.of_nat (length px)] ++ px ++ tail ++ [0xFF]].
    split; [|split].
    + constructor; [done| |constructor]. rewrite length_app. cbn [length]. lia.
    + cbn [concat]. rewrite app_nil_r, !length_app, Hu. cbn [length]. lia.
    + cbn [concat]. rewrite app_nil_r. change (u ++ [0xFF] ++ post) with
        ([DATA_UNIT_MONOCHROME_SAMPLES] ++ (4 + Z.of_nat (length px) + Z.of_nat (length tail)) :: (drop 2 u ++ [0xFF] ++ post)).
      rewrite (app_assoc pre).
      rewrite wr_app by (rewrite length_app; cbn [length]; lia). f_equal. rewrite <-app_assoc. subst u. f_equal.
      rewrite <-!app_assoc. cbn [app drop length]. rewrite <-app_assoc. do 2 f_equal. rewrite !length_app. cbn [length]. lia.
  - destruct (IH ltac:(done) (pre ++ u) post (Z.of_nat (length u))) as (us' & He' & Hl' & Ew); [done|].
    exists (u :: us'). split; [by constructor|]. cbn [concat] in *. rewrite !length_app in *. split; [lia|].
    rewrite <-!app_assoc in *. rewrite <-Ew. f_equal. cbn [last_size foldl]. lia.
Qed.

Lemma fixed_size us : Forall (λ u : list Z, 7 ≤ Z.of_nat (length u) ≤ 257 ∧ (true = true → Z.of_nat (length u) = 46)) us →
  Z.of_nat (length (concat us)) mod 46 = 0.
Proof.
  induction 1 as [|u us [_ Hu] Hs IH]; [done|]. cbn [concat]. rewrite length_app, Nat2Z.inj_add, (Hu eq_refl).
  rewrite <-(Z.add_mod_idemp_r 46), IH by done. done.
Qed.

Definition raw_field (videostd_set : Z) : Z :=
  if negb (videostd_set .& VBI_VIDEOSTD_SET_525_60 =? 0) then 263 else 313.

(** The field and line bits of a data unit, and the lines which have raw samples. *)
Definition raw_lofp (f2 line : Z) : Z := if f2 <=? line then line - f2 else 32 + line.
Definition raw_line_ok (f2 line : Z) : Prop := 7 ≤ (if f2 <=? line then line - f2 else line) ≤ 23.

Lemma insert_raw_spec (pre hole post : list Z) ldu r (fixed stuffing : bool) std line first total :
  xorb (std .& VBI_VIDEOSTD_SET_525_60 =? 0) (std .& VBI_VIDEOSTD_SET_625_50 =? 0) = true →
  raw_line_ok (raw_field std) line → 0 ≤ first → first + total ≤ 720 → Z.of_nat (length r) ≤ total →
  ∃ us rest hole',
    insert_raw_data_units (pre ++ hole ++ post) (Z.of_nat (length pre)) (Z.of_nat (length hole)) ldu r fixed std line
      first total stuffing =
      Some (pre ++ concat us ++ hole' ++ post, Z.of_nat (length pre + length (concat us)), rest, last_size 0 us, 0) ∧
    raw_encodes fixed (raw_lofp (raw_field std) line) total (first + (total - Z.of_nat (length r))) r us rest ∧
    (length (concat us) + length hole' = length hole)%nat ∧
    (rest = [] ∨ Z.of_nat (length hole') < if fixed then 46 else 7) ∧
    (stuffing = true → length hole' = 1%nat → us ≠ [] → last_size 0 us ≤ 256).
Proof.
  intros Hstd Hline Hfirst Hend Hr. unfold insert_raw_data_units.
  assert ((if negb (std .& VBI_VIDEOSTD_SET_525_60 =? 0)
    then if negb (std .& VBI_VIDEOSTD_SET_625_50 =? 0) then None else Some 263
    else if negb (std .& VBI_VIDEOSTD_SET_625_50 =? 0) then Some 313 else None) = Some (raw_field std)) as ->.
  { unfold raw_field. destruct (std .& VBI_VIDEOSTD_SET_525_60 =? 0), (std .& VBI_VIDEOSTD_SET_625_50 =? 0); done. }
  assert (u32 (first + total) = first + total) as -> by (unfold u32; apply Z.mod_small; lia).
  destruct (Z.ltb_spec total (Z.of_nat (length r))); [lia|]. destruct (Z.ltb_spec 720 (first + total)); [lia|].
  destruct (Z.ltb_spec (first + total) total); [lia|]. cbn [orb].
  set (f2 := raw_field std) in *. unfold raw_line_ok in Hline. unfold raw_lofp.
  assert (∃ lofp l, (if f2 <=? line then (0, line - f2) else (1 ≪ 5, line)) = (lofp, l) ∧ 7 ≤ l ≤ 23 ∧
    lofp + l = (if f2 <=? line then line - f2 else 32 + line) ∧ 0 ≤ lofp + l < 64) as (lofp & l & -> & Hl & <- & Hlofp).
  { change (1 ≪ 5) with 32. destruct (f2 <=? line); repeat eexists; lia. }
  assert (u32 (l - 7) = l - 7) as -> by (unfold u32; apply Z.mod_small; lia).
  destruct (Z.ltb_spec (23 - 7) (l - 7)); [lia|].
  destruct (raw_loop_spec fixed stuffing (lofp + l) total (length r) pre hole post
    (first + (total - Z.of_nat (length r))) 0 r) as (us & rest & hole' & E & He & Hlh & _ & Hend' & Hlast); [lia..|].
  exists us, rest, hole'. change (2 + 4 + 251 + 1) with 258. change (2 + 4 + 1) with 7. change (2 + 0x2C) with 46.
  rewrite E. by split_and!.
Qed.

Lemma last_size_raw fixed lofp total pos r us rest ldu :
  raw_encodes fixed lofp total pos r us rest → us ≠ [] → 7 ≤ last_size ldu us.
Proof.
  intros He Hne. pose proof (raw_encodes_size _ _ _ _ _ _ _ He) as Hs. clear He. revert ldu Hne.
  induction Hs as [|u us [Hu _] Hs IH]; [done|]. intros ldu _. cbn [last_size foldl].
  destruct us as [|u2 us]; [cbn; lia|]. by apply IH.
Qed.

(** C31: a line of 13.5 MHz samples, or the rest of one, is stored in monochrome
    4:2:2 sample data units, followed by stuffing up to the end of the buffer, and
    no assertion fails. The decoder that puts the segments at the positions they name
    gets the samples back; the first and the last segment of the line are marked, and
    samples are left over only if no further unit fits. *)
Theorem dvb_multiplex_raw_roundtrip (buf : list Z) (p left : Z) (r : list Z) (ident std line first total : Z) :
  0 ≤ p → 2 ≤ left → p + left ≤ Z.of_nat (length buf) → (fixed_length_format ident = true → left mod 46 = 0) →
  xorb (std .& VBI_VIDEOSTD_SET_525_60 =? 0) (std .& VBI_VIDEOSTD_SET_625_50 =? 0) = true →
  raw_line_ok (raw_field std) line → 0 ≤ first → first + total ≤ 720 → 0 < Z.of_nat (length r) ≤ total →
  ∃ units stuffing rest,
    let n := Z.of_nat (length (concat units)) in
    vbi_dvb_multiplex_raw buf p left r ident std line first total true =
      Some (take (Z.to_nat p) buf ++ concat units ++ concat stuffing ++ drop (Z.to_nat (p + left)) buf,
            p + left, 0, rest, true) ∧
    Forall is_stuffing stuffing ∧ n + Z.of_nat (length (concat stuffing)) = left ∧
    raw_encodes (fixed_length_format ident) (raw_lofp (raw_field std) line) total
      (first + (total - Z.of_nat (length r))) r units rest ∧
    r = concat (map unit_pixels units) ++ rest ∧
    (∀ i u, units !! i = Some u → unit_position u =
       first + (total - Z.of_nat (length r)) + Z.of_nat (length (concat (map unit_pixels (take i units))))) ∧
    (rest = [] ∨ left - n < if fixed_length_format ident then 46 else 7).
Proof.
  intros Hp H2 Hbuf Hfix Hstd Hline Hfirst Hend Hr. set (fixed := fixed_length_format ident) in *.
  destruct (split_hole buf p left) as (pre & hole & post & Ebuf & Epre & Ehole & -> & ->); [lia..|].
  rewrite Ebuf. clear Ebuf Hbuf buf. subst p left. clear Hp.
  unfold vbi_dvb_multiplex_raw. fold fixed. destruct (Z.ltb_spec (Z.of_nat (length hole)) 2); [lia|].
  assert (fixed && (0 <? Z.of_nat (length hole) mod 46) = false) as -> by (destruct fixed; [by rewrite Hfix|done]).
  destruct (Z.eqb_spec (Z.of_nat (length r)) 0); [lia|].
  destruct (insert_raw_spec pre hole post 0 r fixed true std line first total)
    as (us & rest & hole' & -> & He & Hlh & Hend' & Hlast); [done..|lia|].
  cbn [mbind option_bind]. change (0 <? 0) with false. cbn match.
  replace (Z.of_nat (length hole) - (Z.of_nat (length pre + length (concat us)) - Z.of_nat (length pre)))
    with (Z.of_nat (length hole')) by lia.
  replace (Z.of_nat (length pre + length (concat us)) + Z.of_nat (length hole'))
    with (Z.of_nat (length pre) + Z.of_nat (length hole)) by lia.
  rewrite app_assoc, <-length_app.
  assert (length hole' = 1%nat → us ≠ []) as Hne1 by (intros H1 ->; cbn in Hlh; lia).
  destruct (encode_stuffing_spec (pre ++ concat us) hole' post (last_size 0 us) fixed)
    as [(sus & Hs & Hls & ->)|(H1 & ->)].
  - intros ->. specialize (Hfix eq_refl).
    assert (Z.of_nat (length (concat us)) mod 46 = 0) as Hm.
    { by apply fixed_size, (raw_encodes_size _ _ _ _ _ _ _ He). }
    replace (Z.of_nat (length hole')) with (Z.of_nat (length hole) - Z.of_nat (length (concat us))) by lia.
    by rewrite Zminus_mod, Hfix, Hm.
  - intros H1. pose proof (last_size_raw _ _ _ _ _ _ _ 0 He (Hne1 H1)). specialize (Hlast eq_refl H1 (Hne1 H1)). lia.
  - cbn [mbind option_bind]. destruct (raw_reassemble _ _ _ _ _ _ _ He) as [Er Hpos].
    exists us, sus, rest. cbv zeta. rewrite <-!app_assoc. split_and!; try done; [lia|].
    destruct Hend'; [by left|right; lia].
  - assert (fixed = false) as Ef.
    { destruct fixed; [|done]. exfalso. specialize (Hfix eq_refl). specialize (Hne1 H1).
      pose proof (fixed_size us (raw_encodes_size _ _ _ _ _ _ _ He)) as Hm.
      replace (Z.of_nat (length hole)) with (Z.of_nat (length (concat us)) + 1) in Hfix by lia.
      rewrite <-Z.add_mod_idemp_l, Hm in Hfix by done. done. }
    clearbody fixed. subst fixed.
    destruct (raw_encodes_pad _ _ _ _ _ _ He (Hne1 H1) pre post 0) as (us' & He' & Hl' & Ew); [by apply Hlast, Hne1|].
    rewrite <-app_assoc, length_app, Ew. cbn [mbind option_bind]. destruct (raw_reassemble _ _ _ _ _ _ _ He') as [Er Hpos].
    exists us', [], rest. cbv zeta. split_and!; try done; [cbn [concat length]; lia|right; lia].
Qed.

Lemma dvb_multiplex_raw_roundtrip_witness :
  ∃ units stuffing rest,
    vbi_dvb_multiplex_raw (repeat 0 400) 10 273 (repeat 77 300) 0x99 VBI_VIDEOSTD_SET_625_50 320 100 400 true =
      Some (repeat 0 10 ++ concat units ++ concat stuffing ++ repeat 0 117, 283, 0, rest, true) ∧
    raw_encodes false 7 400 200 (repeat 77 300) units rest ∧ repeat 77 300 = concat (map unit_pixels units) ++ rest.
Proof.
  destruct (dvb_multiplex_raw_roundtrip (repeat 0 400) 10 273 (repeat 77 300) 0x99 VBI_VIDEOSTD_SET_625_50 320 100 400)
    as (units & sus & rest & E & _ & _ & He & Er & _).
  - done.
  - done.
  - vm_compute. congruence.
  - done.
  - done.
  - vm_compute. split; discriminate.
  - done.
  - done.
  - vm_compute. split; congruence.
  - exists units, sus, rest. split; [exact E|]. split; [exact He|exact Er].
Defined.

(** ** Raw lines in the packet generator *)

Definition line_625 : vbi_sliced := Sliced VBI_SLICED_VBI_625 10 [].
Definition samples_131 : vbi_sampling_par := SamplingPar 625 VBI_PIXFMT_YUV420 13500000 131 BT601_625_OFFSET 10 0 1 0 false true.
Definition samples_720 : vbi_sampling_par := SamplingPar 625 VBI_PIXFMT_YUV420 13500000 720 BT601_625_OFFSET 10 0 1 0 false true.
Definition new_mux : vbi_dvb_mux := Mux (repeat 0 (Z.to_nat 65508)) 184 184 0x99 [] 0 0 0 0 0 0 0 0.

(** A raw line that leaves one byte to the end of the packet fails an assertion of the
    stuffing: [last_du_size] is zero after the empty run of sliced lines behind it. *)
Lemma raw_line_fails_assertion :
  valid_sampling_par samples_131 = true ∧
  generate_pes_packet new_mux [line_625] VBI_SLICED_VBI_625 (Some (repeat 7 131)) (Some samples_131) 0 = None.
Proof. split; [done|]. vm_compute. reflexivity. Qed.

(** The frame and the number of samples left over from it. *)
Definition fed (mx : vbi_dvb_mux) (sliced : list vbi_sliced) : option (vbi_dvb_mux * bool) :=
  '(mx, ok, _) ← vbi_dvb_mux_feed (Some (λ (c : Z) l, (c + 1, true))) mx sliced VBI_SLICED_VBI_625
    (Some (repeat 7 720)) (Some samples_720) 0 0;
  Some (mx, ok).

(** A raw line that does not fit into the packet is refused but its samples are kept,
    and all later frames are refused as well. *)
Lemma raw_line_sticks :
  match fed new_mux [line_625] with
  | Some (mx, ok) => ok = false ∧ length (raw_samples mx) = 588%nat ∧
      match fed mx [] with
      | Some (mx, ok) => ok = false ∧ length (raw_samples mx) = 588%nat
      | None => False
      end
  | None => False
  end.
Proof. vm_compute. done. Qed.

(** The continued line is compared with sampling parameters that may be NULL. *)
Lemma continued_line_without_parameters :
  match vbi_dvb_mux_cor new_mux 184 [line_625] VBI_SLICED_VBI_625 (Some (repeat 7 720)) (Some samples_720) 0 with
  | Some (mx, _, rest, _) => vbi_dvb_mux_cor mx 184 rest VBI_SLICED_VBI_625 None None 0 = None
  | None => False
  end.
Proof. vm_compute. reflexivity. Qed.
