(* ===== verification/DvbLink.v ===== *)
(** From the multiplexer to the demultiplexer: sliced lines that go through PES and TS
    packets reach the client, frame by frame. *)
From S2P Require Import Prelude Hamm Sliced DvbMux DvbDemux DvbPes DvbTs DvbGen.

(** ** One packet *)

(** The data units of some lines with stuffing. *)
Definition units_area (l : list vbi_sliced) (a : list Z) : Prop :=
  ∃ us sus, units_of 0 l us ∧ Forall is_stuffing sus ∧ a = concat us ++ concat sus.

Lemma header_valid dx pts ident size rest :
  identifier_ok ident →
  valid_vbi_pes_packet_header dx (pes_header pts ident size ++ rest) = Some (set_packet_pts (pts mod 2 ^ 33) dx, true).
Proof.
  intros Hi. assert (u8 ident = ident) as Eu by (unfold u8; destruct Hi; rewrite Z.mod_small; lia).
  assert (pes_header pts ident size ++ rest =
    [0; 0; 1; PRIVATE_STREAM_1; u8 ((size - 6) ≫ 8); u8 (size - 6); 0x84; 0x80; 0x24] ++
    encode_timestamp pts 0x21 ++ (repeat 0xFF 31 ++ [ident] ++ rest)) as ->
    by (unfold pes_header; rewrite Eu, <-!app_assoc; done).
  set (r := repeat 0xFF 31 ++ [ident] ++ rest). unfold valid_vbi_pes_packet_header.
  set (p := _ ++ _). change (rd p 8) with (Some 0x24). change (rd p 6) with (Some 0x84). change (rd p 7) with (Some 0x80).
  change (rd p (9 + 36)) with (Some ident). cbn [mbind option_bind]. change (negb (0x24 =? 36)) with false. cbn iota.
  assert ((0x10 <=? ident) && (ident <=? 0x1F) || (0x99 <=? ident) && (ident <=? 0x9B) = true) as ->.
  { apply orb_true_iff. rewrite !andb_true_iff, !Z.leb_le. destruct Hi; lia. }
  change (negb true) with false. change (negb (0x84 .& 0xF4 =? 0x84)) with false. cbn iota. cbv zeta.
  change ((0x80 ≫ 6 =? 2) || (0x80 ≫ 6 =? 3)) with true. cbn iota.
  change (drop 9 p) with (encode_timestamp pts 0x21 ++ r). by rewrite decode_encode_timestamp.
Qed.

(** What kind of unit it is does not depend on the frame. *)
Lemma unit_dispatch s n lofp payload len tail :
  supported (id s) (line s) n → du_payload s = Some payload → 1 + Z.of_nat (length payload.2) ≤ len →
  ∃ bad service pl, ∀ f, data_unit f (payload.1 :: len :: lofp :: payload.2 ++ tail) payload.1 len =
    sliced_unit f (payload.1 :: len :: lofp :: payload.2 ++ tail) SYSTEM_625 bad service pl.
Proof.
  intros Hs Hpay Hlen. rewrite (du_payload_supported s n Hs) in Hpay.
  destruct (id s <? 4).
  - injection Hpay as <-. cbn [fst snd length] in *.
    unfold data_unit. cbn [DATA_UNIT_EBU_TELETEXT_NON_SUBTITLE Z.eqb Pos.eqb orb].
    destruct (Z.ltb_spec len (1 + 1 + 42)); [lia|]. eexists _, _, _. intros f. reflexivity.
  - destruct (id s =? 4).
    { injection Hpay as <-. cbn [fst snd length] in *.
      unfold data_unit. cbn [DATA_UNIT_VPS Z.eqb Pos.eqb orb].
      destruct (Z.ltb_spec len (1 + 13)); [lia|]. eexists _, _, _. intros f. reflexivity. }
    destruct (id s =? 0x400).
    + injection Hpay as <-. cbn [fst snd length] in *. unfold data_unit. cbn [DATA_UNIT_WSS Z.eqb Pos.eqb orb].
      destruct (Z.ltb_spec len (1 + 2)); [lia|]. eexists _, _, _. intros f. reflexivity.
    + injection Hpay as <-. cbn [fst snd length] in *. unfold data_unit. cbn [DATA_UNIT_CLOSED_CAPTION Z.eqb Pos.eqb orb].
      destruct (Z.ltb_spec len (1 + 2)); [lia|]. eexists _, _, _. intros f. reflexivity.
Qed.

(** The data units of a frame end the frame before it, when its first line is not
    behind the last one there. *)
Lemma extract_new_frame f s l a :
  units_area (s :: l) a → 0 < line s ≤ last_frame_line f → n_data_units_extracted_from_packet f = 0 →
  sp f < Z.of_nat (length (lines f)) →
  extract_data_units f a = Some (f, a, Z.of_nat (length a), -1).
Proof.
  intros (us & sus & Hu & _ & ->) Hline Hn Hsp. inversion Hu as [|? ? ? us' n lofp payload len tail Hok Hs Hord Hlofp Hp El H255 Hu']; subst.
  set (len := 1 + Z.of_nat (length payload.2 + length tail)) in *.
  set (a := concat _ ++ _). assert (a = payload.1 :: len :: lofp :: payload.2 ++ tail ++ concat us' ++ concat sus) as Ea
    by (subst a; cbn [concat app]; by rewrite <-!app_assoc).
  unfold extract_data_units. destruct (length a) as [|m] eqn:El; [by rewrite Ea in El|].
  cbn [extract_loop]. destruct (Z.ltb_spec 2 (Z.of_nat (length a))) as [H2|H2].
  2: { rewrite Ea in H2. cbn [length] in H2. lia. }
  assert (rd a 0 = Some payload.1 ∧ rd a 1 = Some len ∧ rd a 2 = Some lofp) as (-> & -> & E2) by (by rewrite Ea).
  cbn [mbind option_bind]. destruct (Z.ltb_spec (Z.of_nat (length a) - 2) len) as [Hlt|_].
  { rewrite Ea in Hlt. cbn [length] in Hlt. rewrite !length_app in Hlt. lia. }
  rewrite Ea at 1. rewrite (app_assoc payload.2 tail), <-(app_assoc payload.2).
  destruct (unit_dispatch s n lofp payload len (tail ++ concat us' ++ concat sus) Hs Hp) as (bad & sv & pl & ->); [lia|].
  rewrite <-Ea. unfold sliced_unit. rewrite E2. cbn [mbind option_bind]. unfold line_address.
  destruct (Z.leb_spec (Z.of_nat (length (lines f))) (sp f)); [lia|].
  destruct (lofp_roundtrip _ _ _ _ _ Hs Hord Hlofp) as (fl & -> & _).
  destruct (Z.eqb_spec (line s) 0); [lia|]. cbn [negb]. destruct (Z.leb_spec (line s) (last_frame_line f)); [|lia].
  rewrite Hn. change (0 <? 0) with false. cbn iota. cbn [mbind option_bind]. change (negb (-1 =? 0)) with true. cbn iota.
  by rewrite El.
Qed.

(** ** Frames in the demultiplexer *)

(** A line as it is delivered. *)
Definition delivered (s r : vbi_sliced) : Prop :=
  id r = received_id (id s) ∧ line r = line s ∧ take (length (sent_data s)) (data r) = sent_data s.

Definition room (dx : vbi_dvb_demux) : Prop := frame_ok (frame_ dx) ∧ length (lines (frame_ dx)) = 64%nat.

(** The lines [l] with time stamp [pts] wait for the next frame. *)
Record holds (l : list vbi_sliced) (pts : Z) (dx : vbi_dvb_demux) : Prop := {
  ho_room : room dx;
  ho_new : new_frame dx = false;
  ho_sp : sp (frame_ dx) = Z.of_nat (length l);
  ho_lines : Forall2 delivered l (take (length l) (lines (frame_ dx)));
  ho_pts : frame_pts dx = pts;
  ho_last : last_frame_line (frame_ dx) = last_line_of 0 l
}.

Lemma zip_received l out : (length l ≤ length out)%nat → Forall2 delivered l (zip_with received l out).
Proof.
  revert out. induction l as [|s l IH]; intros [|o out] Hl; cbn in *; try lia; constructor.
  - split; [done|]. split; [done|]. cbn [data received]. by rewrite take_app_length.
  - apply IH. lia.
Qed.

Lemma extract_fresh_lines f l a :
  units_area l a → Forall has_data (lines f) → (length l ≤ length (lines f))%nat →
  ∃ f' r, extract_data_units (reset_frame f) a = Some (f', r, 0, 0) ∧ length (lines f') = length (lines f) ∧
    sp f' = Z.of_nat (length l) ∧ Forall2 delivered l (take (length l) (lines f')) ∧
    last_frame_line f' = last_line_of 0 l.
Proof.
  intros (us & sus & Hu & Hs & ->) Hd Hl. unfold extract_data_units.
  destruct (extract_units us l 0 (reset_frame f) [] (take (length l) (lines f)) (drop (length l) (lines f))
    (concat sus) (length (concat us ++ concat sus)) Hu) as (f1 & n1 & -> & Hn1 & Hl1 & Hsp1 & Hlast1); try done.
  - split; [done|by left].
  - cbn [lines reset_frame]. by rewrite app_nil_l, take_drop.
  - rewrite length_take. lia.
  - destruct (extract_stuffing sus f1 n1 Hs Hn1) as (f2 & q & -> & Hl2 & Hsp2 & Hlast2).
    exists f2, q. split; [done|]. rewrite Hl2, Hsp2, Hlast2, Hl1, Hsp1, Hlast1. cbn [app length].
    assert (length (zip_with received l (take (length l) (lines f))) = length l) as Ez
      by (rewrite length_zip_with, length_take; lia).
    split; [|split; [done|split; [|done]]].
    + rewrite length_app, Ez, length_drop. lia.
    + rewrite take_app_length' by done. apply zip_received. rewrite length_take. lia.
Qed.

Section frames.
Context {C : Type} (callback : option (C → list vbi_sliced → Z → C * bool)).

(** The packet with the first lines of a new frame. *)
Lemma packet_frame_fresh n dx l a c :
  bytes a → units_area l a → room dx → new_frame dx = true → (length l ≤ 64)%nat →
  ∃ dx' r, demux_pes_packet_frame callback (S n) dx a c = Some (dx', r, 0, 0, c) ∧ holds l (packet_pts dx) dx' ∧
    packet_pts dx' = packet_pts dx.
Proof.
  intros Hb Ha [Hf H64] Hnew Hl. cbn [demux_pes_packet_frame]. rewrite Hnew.
  set (dx0 := set_new_frame false _). change (frame_ dx0) with (reset_frame (frame_ dx)).
  pose proof Hf as (_ & _ & Hd & _).
  destruct (extract_fresh_lines (frame_ dx) l a Ha Hd) as (f & r & E & Hlen & Hsp & Hlines & Hlast); [lia|].
  destruct (extract_loop_ok (length a) (reset_frame (frame_ dx)) a) as (f' & k & lf & err & E' & _ & Hok' & _);
    [done|done|by apply reset_frame_ok|].
  unfold extract_data_units in E. rewrite E in E'. injection E' as -> -> _ _.
  unfold extract_data_units. rewrite E. cbn [mbind option_bind]. change (0 <=? 0) with true. cbn iota.
  eexists _, _. split; [reflexivity|]. split; [|done]. split; try done. split; [done|]. cbn [lines frame_ set_frame] in *. lia.
Qed.

Lemma packet_frame_next cb n dx l0 pts0 s l a c :
  callback = Some cb → (∀ c l t, (cb c l t).2 = true) →
  bytes a → units_area (s :: l) a → holds l0 pts0 dx → 0 < line s ≤ last_line_of 0 l0 →
  (length l0 < 64)%nat → (length (s :: l) ≤ 64)%nat →
  let rec := take (length l0) (lines (frame_ dx)) in
  let c' := (cb c rec pts0).1 in
  ∃ dx' r,
    demux_pes_packet_frame callback (S (S n)) (set_frame (set_n_data_units 0 (frame_ dx)) dx) a c = Some (dx', r, 0, 0, c') ∧
    Forall2 delivered l0 rec ∧ holds (s :: l) (packet_pts dx) dx' ∧ packet_pts dx' = packet_pts dx.
Proof.
  intros Hcb Ht Hb Ha [[Hf H64] Hnew Hsp Hlines Hpts Hlast] Hs Hl0 Hl.
  set (de := set_frame _ dx). 
  assert (extract_data_units (frame_ de) a = Some (frame_ de, a, Z.of_nat (length a), -1)) as Ex.
  { apply (extract_new_frame _ s l); [done| |done|].
    - change (last_frame_line (frame_ de)) with (last_frame_line (frame_ dx)). lia.
    - change (sp (frame_ de)) with (sp (frame_ dx)). change (lines (frame_ de)) with (lines (frame_ dx)). lia. }
  assert (demux_pes_packet_frame callback (S (S n)) de a c =
    demux_pes_packet_frame callback (S n) (set_new_frame true de) a (cb c (take (length l0) (lines (frame_ dx))) pts0).1) as ->.
  { set (m := S n). cbn [demux_pes_packet_frame]. change (new_frame de) with (new_frame dx). rewrite Hnew, Ex.
    cbn [mbind option_bind]. change (0 <=? -1) with false. cbn iota. rewrite Hcb.
    change (sp (frame_ (set_new_frame true (set_frame (frame_ de) de)))) with (sp (frame_ dx)).
    change (lines (frame_ (set_new_frame true (set_frame (frame_ de) de)))) with (lines (frame_ dx)).
    change (frame_pts (set_new_frame true (set_frame (frame_ de) de))) with (frame_pts dx).
    change (sp (frame_ de)) with (sp (frame_ dx)). change (lines (frame_ de)) with (lines (frame_ dx)).
    rewrite Hsp, Nat2Z.id, Hpts. destruct (cb c _ pts0) as [c1 ok] eqn:Ecb.
    pose proof (Ht c (take (length l0) (lines (frame_ dx))) pts0) as Hok. rewrite Ecb in Hok. cbn in Hok. subst ok.
    done. }
  destruct (packet_frame_fresh n (set_new_frame true de) (s :: l) a (cb c (take (length l0) (lines (frame_ dx))) pts0).1)
    as (dx' & r & E & Hh & Hp); [done|done|done|done|done|].
  cbv zeta. exists dx', r. split; [exact E|]. split; [exact Hlines|]. split; [exact Hh|exact Hp].
Qed.
End frames.

(** ** TS packets *)

Lemma ts_packet_header_mod first pid cc cc' :
  cc mod 16 = cc' mod 16 → ts_packet_header first pid cc = ts_packet_header first pid cc'.
Proof. intros H. unfold ts_packet_header. by rewrite H. Qed.

Lemma ts_packets_mod n first pid cc cc' p :
  cc mod 16 = cc' mod 16 → ts_packets n first pid cc p = ts_packets n first pid cc' p.
Proof.
  revert first cc cc' p. induction n as [|n IH]; intros first cc cc' p H; [done|]. cbn [ts_packets].
  rewrite (ts_packet_header_mod _ _ _ _ H). do 2 f_equal. apply IH.
  rewrite <-(Z.add_mod_idemp_l cc), <-(Z.add_mod_idemp_l cc') by done. by rewrite H.
Qed.

Lemma ts_mid_mod pid cc cc' q t dx : cc mod 16 = cc' mod 16 → ts_mid pid cc q t dx → ts_mid pid cc' q t dx.
Proof. intros H [? ? ? ? ? ? ? Hc ? ?]. split; try done. destruct Hc as [|[? ?]]; [by left|right]. by rewrite <-H. Qed.

Lemma u32_mod16 x : u32 x mod 16 = x mod 16.
Proof. unfold u32. apply Z.mod_mod_divide. by exists (2 ^ 28). Qed.

(** The header that is written is that of [ts_packets]. *)
Lemma generate_header_spec mx (a t4 r : list Z) :
  packet mx = a ++ t4 ++ r → length t4 = 4%nat → 0 ≤ pid mx < 0x2000 →
  generate_ts_packet_header mx (Z.of_nat (length a)) =
  Some (set_continuity_counter (u32 (continuity_counter mx + 1))
    (set_packet (a ++ ts_packet_header (Z.of_nat (length a) =? 0) (pid mx) (continuity_counter mx) ++ r) mx)).
Proof.
  intros Hp Ht Hpid. unfold generate_ts_packet_header.
  assert ([0x47; if Z.of_nat (length a) =? 0 then u8 ((1 ≪ 6) .| (pid mx ≫ 8)) else u8 (pid mx ≫ 8);
    u8 (pid mx); (1 ≪ 4) + (continuity_counter mx .& 15)] =
    ts_packet_header (Z.of_nat (length a) =? 0) (pid mx) (continuity_counter mx)) as ->.
  { unfold ts_packet_header. rewrite (land_ones_mod _ 4) by done. change (2 ^ 4) with 16. change (1 ≪ 4) with 0x10.
    rewrite Z.shiftr_div_pow2 by done. change (2 ^ 8) with 256.
    assert (0 ≤ pid mx / 256 < 32) as Hd by (split; [apply Z.div_pos|apply Z.div_lt_upper_bound]; lia).
    assert ((1 ≪ 6) .| (pid mx / 256) = 0x40 + pid mx / 256) as ->.
    { set (h := pid mx / 256) in *. clearbody h. revert h Hd.
      exact (eq_by_eval 32 (λ h, (1 ≪ 6) .| h) (λ h, 0x40 + h) eq_refl). }
    unfold u8. change (2 ^ 8) with 256. rewrite !(Z.mod_small (_ / _)), (Z.mod_small (0x40 + _)) by lia.
    destruct (Z.of_nat (length a) =? 0); [done|]. by rewrite Z.add_0_l. }
  rewrite Hp, store_app by done. done.
Qed.

Lemma ts_packets_bytes n first pid cc p : 0 ≤ pid < 0x2000 → bytes p → bytes (ts_packets n first pid cc p).
Proof.
  intros Hpid. revert first cc p. induction n as [|n IH]; intros first cc p Hb; [constructor|]. cbn [ts_packets].
  apply Forall_app. split; [|apply Forall_app; split; [by apply Forall_take|by apply IH, Forall_drop]].
  destruct (ts_header_fields first pid cc _ _ _ Hpid eq_refl) as (Hbs & _). constructor; [done|exact Hbs].
Qed.

Section ts.
Context {D : Type} (cb : D → list vbi_sliced → Z → D * bool) (Hcb : ∀ d l t, (cb d l t).2 = true).

(** A client of the multiplexer that passes the packets to a demultiplexer. *)
Definition to_demux (st : vbi_dvb_demux * D) (pkt : list Z) : (vbi_dvb_demux * D) * bool :=
  match ts_demux_feed cb st.1 pkt st.2 with
  | Some (dx, ok, d) => ((dx, d), ok)
  | None => (st, false)
  end.

Lemma feed_ts_loop_demux n : ∀ a t4 r tail mx dx d fuel dx' d',
  packet mx = a ++ t4 ++ r ++ tail → length t4 = 4%nat → length r = (184 * S n)%nat →
  length a = 0%nat ∨ (50 ≤ length a)%nat → mux_ok mx → 0 < pid mx →
  ts_ok dx → bytes r → (n < fuel)%nat →
  ts_demux_feed cb dx (ts_packets (S n) (Z.of_nat (length a) =? 0) (pid mx) (continuity_counter mx) r) d = Some (dx', true, d') →
  ∃ mx', feed_ts_loop fuel mx (Z.of_nat (length a)) (Z.of_nat (length a) + 184 * Z.of_nat (S n)) to_demux (dx, d) =
      Some (mx', true, (dx', d')) ∧ mux_ok mx' ∧ pid mx' = pid mx ∧
    max_packet_size mx' = max_packet_size mx ∧ data_identifier mx' = data_identifier mx ∧
    continuity_counter mx' mod 16 = (continuity_counter mx + Z.of_nat (S n)) mod 16.
Proof.
  induction n as [|n IH]; intros a t4 r tail mx dx d fuel dx' d' Hp Ht4 Hr Ha Hmx Hpid Hdx Hb Hfuel Hfeed;
    destruct fuel as [|fuel]; try lia; cbn [feed_ts_loop];
    (assert (0 ≤ pid mx < 0x2000) as Hpid' by (destruct Hmx; lia));
    rewrite (generate_header_spec mx a t4 (r ++ tail) Hp Ht4 Hpid'); cbn [mbind option_bind];
    set (hd := ts_packet_header _ _ _); set (mx1 := set_continuity_counter _ _);
    (assert (length hd = 4%nat) as Hhd by done);
    (assert (mux_ok mx1) as Hmx1 by
      (apply set_packet_ok; [done| |apply u32_range];
       apply (image_header (packet mx) (Z.of_nat (length a)) hd); [apply Hmx|done|lia|rewrite Hp; by apply store_app; lia]));
    (assert (slice (packet mx1) (Z.of_nat (length a)) (Z.of_nat (length a) + 188) = Some (hd ++ take 184 r)) as -> by
      (change (packet mx1) with (a ++ hd ++ r ++ tail);
       rewrite slice_Some by list_lia; f_equal; rewrite drop_app_length' by lia;
       rewrite app_assoc; replace (Z.to_nat (Z.of_nat (length a) + 188 - Z.of_nat (length a))) with 188%nat by lia;
       rewrite <-app_assoc, take_app_ge, Hhd by lia; f_equal; by rewrite take_app_le by lia)); cbn [mbind option_bind];
    unfold to_demux at 1; cbn [fst snd];
    (assert (bytes hd) as Hbh by
      (destruct (ts_header_fields (Z.of_nat (length a) =? 0) (pid mx) (continuity_counter mx) _ _ _ Hpid' eq_refl) as (Hbs & _);
       constructor; [done|exact Hbs])).
  - cbn [ts_packets] in Hfeed. rewrite app_nil_r in Hfeed. fold hd in Hfeed. rewrite Hfeed. cbn [negb].
    destruct (Z.ltb_spec (Z.of_nat (length a) + 184) (Z.of_nat (length a) + 184 * Z.of_nat 1)); [lia|].
    exists mx1. split; [done|]. split; [done|]. split; [done|]. split; [done|]. split; [done|].
    change (continuity_counter mx1) with (u32 (continuity_counter mx + 1)). by rewrite u32_mod16.
  - change (ts_packets (S (S n)) ?f ?p ?c r) with (ts_packet_header f p c ++ take 184 r ++ ts_packets (S n) false p (c + 1) (drop 184 r)) in Hfeed.
    fold hd in Hfeed. rewrite app_assoc in Hfeed.
    assert (bytes (ts_packets (S n) false (pid mx) (continuity_counter mx + 1) (drop 184 r))) as Hbr by (by apply ts_packets_bytes; [|apply Forall_drop]).
    destruct (ts_feed_app cb dx (hd ++ take 184 r) _ d Hcb Hdx
      ltac:(apply Forall_app; split; [exact Hbh|by apply Forall_take]) Hbr) as (dx1 & d1 & E1 & Hdx1 & E2).
    rewrite E1. cbn [negb].
    destruct (Z.ltb_spec (Z.of_nat (length a) + 184) (Z.of_nat (length a) + 184 * Z.of_nat (S (S n)))); [|lia].
    set (a1 := a ++ hd ++ take 180 r). assert (length a1 = (length a + 184)%nat) as Ha1 by (subst a1; list_lia).
    destruct (IH a1 (take 4 (drop 180 r)) (drop 184 r) tail mx1 dx1 d1 fuel dx' d') as (mx' & E3 & H1 & H2 & H3 & H4 & H5).
    + change (packet mx1) with (a ++ hd ++ r ++ tail). subst a1. rewrite <-!app_assoc. do 2 f_equal.
      rewrite <-(take_drop 180 r) at 1. rewrite <-app_assoc. f_equal.
      rewrite <-(take_drop 4 (drop 180 r)) at 1. rewrite <-app_assoc, drop_drop. done.
    + list_lia.
    + list_lia.
    + right. lia.
    + done.
    + done.
    + done.
    + by apply Forall_drop.
    + lia.
    + rewrite Ha1. destruct (Z.eqb_spec (Z.of_nat (length a + 184)) 0); [lia|].
      change (pid mx1) with (pid mx). change (continuity_counter mx1) with (u32 (continuity_counter mx + 1)).
      rewrite (ts_packets_mod _ _ _ _ (continuity_counter mx + 1)) by apply u32_mod16. by rewrite <-E2.
    + exists mx'. split.
      { rewrite <-E3, Ha1. f_equal; lia. }
      split; [done|]. split; [done|]. split; [done|]. split; [done|]. rewrite H5.
      change (continuity_counter mx1) with (u32 (continuity_counter mx + 1)).
      rewrite <-Z.add_mod_idemp_l, u32_mod16, Z.add_mod_idemp_l by done. f_equal. lia.
Qed.
End ts.

(** ** Frames through the transport stream *)

(** What the multiplexer can send in a packet, with a first line that has a number. *)
Record sendable (mx : vbi_dvb_mux) (mask : Z) (f : list vbi_sliced) : Prop := {
  se_ok : Forall line_ok f;
  se_not_raw : Forall not_raw f;
  se_ascending : ascending 0 f;
  se_acceptable : acceptable mask 0 f;
  se_fits : 46 + units_size (fixed_length_format (data_identifier mx)) (selected mask f) ≤ max_packet_size mx;
  se_room : (length (selected mask f) < 64)%nat
}.

(** The frame [f] is seen to begin after [l0]. *)
Definition begins_after (mask : Z) (l0 : list vbi_sliced) (f : list vbi_sliced) : Prop :=
  ∃ s l, selected mask f = s :: l ∧ 0 < line s ≤ last_line_of 0 l0.

Lemma pes_header_bytes pts ident size : bytes (pes_header pts ident size).
Proof.
  unfold pes_header, encode_timestamp, header_flags. repeat (apply Forall_app; split); repeat constructor; try apply u8_range; try done;
    apply bytes_repeat; done.
Qed.

(** The packet as the demultiplexer wants it. *)
Lemma sent_packet_ok pts ident size a :
  packet_size_ok size → bytes a → Z.of_nat (length a) = size - 46 →
  let p := pes_header pts ident size ++ a in
  ∃ n c4 c5, bytes p ∧ length p = (184 * S n)%nat ∧ size = 184 * Z.of_nat (S n) ∧
    take 6 p = [0; 0; 1; PRIVATE_STREAM_1; c4; c5] ∧ c4 * 256 + c5 + 6 = Z.of_nat (length p) ∧ drop 46 p = a.
Proof.
  intros [Hs Hm] Ha Hl p. apply Z.mod_divide in Hm as [k Hk]; [|done].
  exists (Z.to_nat (k - 1)), (u8 ((size - 6) ≫ 8)), (u8 (size - 6)).
  assert (Z.of_nat (length p) = size) as Hp by (subst p; rewrite length_app, pes_header_length; lia).
  unfold MAX_PES_PACKET_SIZE in Hs. change ((6 + 65535) mod 184) with 37 in Hs.
  split; [apply Forall_app; split; [apply pes_header_bytes|done]|]. split; [lia|]. split; [lia|]. split; [done|]. split; [|done].
  rewrite Hp. unfold u8. rewrite Z.shiftr_div_pow2 by done. change (2 ^ 8) with 256.
  assert (0 ≤ (size - 6) / 256 < 256) by (split; [apply Z.div_pos|apply Z.div_lt_upper_bound]; lia).
  rewrite (Z.mod_small (_ / _)) by done. pose proof (Z.div_mod (size - 6) 256 ltac:(done)). lia.
Qed.

Section link.
Context {D : Type} (cb : D → list vbi_sliced → Z → D * bool) (Hcb : ∀ d l t, (cb d l t).2 = true).

(** A multiplexer and a demultiplexer between two frames. *)
Record linked (mx : vbi_dvb_mux) (dx : vbi_dvb_demux) : Prop := {
  li_mux : mux_ok mx;
  li_pid : 0 < pid mx;
  li_demux : ts_mid (pid mx) (continuity_counter mx) [] 0 dx;
  li_room : room dx
}.

Lemma link_packet mx dx d f mask pts d2 r left d' :
  linked mx dx → sendable mx mask f →
  (∀ a dx1, bytes a → units_area (selected mask f) a → dx1 = set_packet_pts (pts mod 2 ^ 33) dx →
    demux_pes_packet_frame (Some cb) 3 (set_frame (set_n_data_units 0 (frame_ dx1)) dx1) a d = Some (d2 a, r a, left, 0, d')) →
  ∃ mx' dx' a, vbi_dvb_mux_feed (Some (to_demux cb)) mx f mask None None pts (dx, d) = Some (mx', true, (dx', d')) ∧
    mux_ok mx' ∧ 0 < pid mx' ∧ ts_mid (pid mx') (continuity_counter mx') [] 0 dx' ∧
    max_packet_size mx' = max_packet_size mx ∧ data_identifier mx' = data_identifier mx ∧
    bytes a ∧ units_area (selected mask f) a ∧
    (frame_ dx', frame_pts dx', packet_pts dx', new_frame dx') = (frame_ (d2 a), frame_pts (d2 a), packet_pts (d2 a), new_frame (d2 a)).
Proof.
  intros [Hmx Hpid Hdx Hroom] [Hok Hnr Hasc Hacc Hfit _] Hdec. unfold vbi_dvb_mux_feed.
  set (mx0 := if cor_offset mx <? cor_end mx then _ else mx).
  assert (mux_ok mx0 ∧ pid mx0 = pid mx ∧ continuity_counter mx0 = continuity_counter mx ∧
    max_packet_size mx0 = max_packet_size mx ∧ data_identifier mx0 = data_identifier mx) as (Hmx0 & E1 & E2 & E3 & E4).
  { subst mx0. destruct (_ <? _); [|done]. split; [|done]. by destruct Hmx. }
  rewrite <-E3, <-E4 in Hfit.
  destruct (generate_sliced mx0 f mask None None pts Hmx0 Hok Hnr Hasc Hacc Hfit)
    as (size & t4 & rest & us & sus & mx1 & -> & Emx1 & Hmx1 & Ht4 & Hu & Hs & Hab & Hal & Hsz & _).
  cbn [mbind option_bind]. change (negb (0 =? 0) || (0 <? length (@nil vbi_sliced))%nat) with false. cbn iota.
  set (a := concat us ++ concat sus) in *.
  assert (units_area (selected mask f) a) as Harea by (by exists us, sus).
  assert (pid mx1 = pid mx ∧ continuity_counter mx1 = continuity_counter mx ∧ max_packet_size mx1 = max_packet_size mx ∧
    data_identifier mx1 = data_identifier mx) as (F1 & F2 & F3 & F4) by (subst mx1; cbn; done).
  rewrite F1. destruct (Z.eqb_spec (pid mx) 0) as [|_]; [lia|].
  destruct (sent_packet_ok pts (data_identifier mx0) size a Hsz Hab Hal) as (n & c4 & c5 & Hbp & Hlp & Esz & Htk & Hc & Hdrop).
  set (p := pes_header pts (data_identifier mx0) size ++ a) in *.
  assert (valid_vbi_pes_packet_header dx p = Some (set_packet_pts (pts mod 2 ^ 33) dx, true)) as Hv
    by (apply header_valid; rewrite E4; apply Hmx).
  specialize (Hdec a _ Hab Harea eq_refl). rewrite <-Hdrop in Hdec at 1.
  destruct (ts_delivers_pes cb n (pid mx) (continuity_counter mx) p dx _ _ c4 c5 _ _ _ d d'
    Hdx ltac:(destruct Hmx; lia) Hbp Hlp Htk Hc Hv Hdec) as (dx' & G1 & G2 & G3 & G4).
  change (negb (0 =? VBI_ERR_CALLBACK)) with true in G1.
  destruct (feed_ts_loop_demux cb Hcb n [] t4 p rest mx1 dx d (Z.to_nat size) dx' d') as (mx' & K1 & K2 & K3 & K4 & K5 & K6).
  - subst mx1 p. cbn [packet set_packet app]. by rewrite <-!app_assoc.
  - done.
  - done.
  - by left.
  - done.
  - lia.
  - apply Hdx.
  - done.
  - destruct Hsz. lia.
  - rewrite F1, F2. exact G1.
  - cbn [length] in K1. rewrite Z.add_0_l, <-Esz in K1. exists mx', dx', a. split; [exact K1|].
    split; [done|]. split; [lia|]. split.
    { rewrite K3, F1. apply (ts_mid_mod _ (continuity_counter mx + Z.of_nat (S n))); [by rewrite K6, F2|]. by apply G4. }
    split; [congruence|]. split; [congruence|]. split; [done|]. split; [done|].
    injection G2 as -> -> ->. rewrite G3. cbn [negb Z.eqb andb]. by rewrite orb_false_r.
Qed.
End link.

(** Every frame begins with a line that is not behind the lines of the one before it. *)
Fixpoint chained (mask : Z) (l0 : list vbi_sliced) (frames : list (list vbi_sliced * Z)) : Prop :=
  match frames with
  | [] => True
  | f :: frames => begins_after mask l0 f.1 ∧ chained mask (selected mask f.1) frames
  end.

Section frames_link.
Context {D : Type} (cb : D → list vbi_sliced → Z → D * bool) (Hcb : ∀ d l t, (cb d l t).2 = true).

(** The frames, each with its time stamp, one after the other through the multiplexer. *)
Fixpoint mux_feed_all (mx : vbi_dvb_mux) (mask : Z) (frames : list (list vbi_sliced * Z)) (st : vbi_dvb_demux * D)
    : option (vbi_dvb_mux * (vbi_dvb_demux * D)) :=
  match frames with
  | [] => Some (mx, st)
  | f :: frames =>
      '(mx, ok, st) ← vbi_dvb_mux_feed (Some (to_demux cb)) mx f.1 mask None None f.2 st;
      if (ok : bool) then mux_feed_all mx mask frames st else None
  end.

(** The client after it got some frames. *)
Definition client_gets (d : D) (recs : list (list vbi_sliced * Z)) : D :=
  foldl (λ d r, (cb d r.1 r.2).1) d recs.

Lemma holds_same l pts dx dx' :
  holds l pts dx' → (frame_ dx, frame_pts dx, new_frame dx) = (frame_ dx', frame_pts dx', new_frame dx') → holds l pts dx.
Proof. intros [] [= E1 E2 E3]. unfold room in *. split; unfold room; rewrite ?E1, ?E2, ?E3; done. Qed.

(** A packet when a frame is to begin. *)
Lemma link_first mx dx d f mask pts :
  linked mx dx → sendable mx mask f → new_frame dx = true →
  ∃ mx' dx', vbi_dvb_mux_feed (Some (to_demux cb)) mx f mask None None pts (dx, d) = Some (mx', true, (dx', d)) ∧
    linked mx' dx' ∧ holds (selected mask f) (pts mod 2 ^ 33) dx' ∧
    max_packet_size mx' = max_packet_size mx ∧ data_identifier mx' = data_identifier mx.
Proof.
  intros Hl Hs Hnew. pose proof Hl as [Hmx Hpid Hdx Hroom].
  set (de := λ dx1, set_frame (set_n_data_units 0 (frame_ dx1)) dx1).
  set (res := λ a, demux_pes_packet_frame (Some cb) 3 (de (set_packet_pts (pts mod 2 ^ 33) dx)) a d).
  destruct (link_packet cb Hcb mx dx d f mask pts (λ a, match res a with Some (d2, _, _, _, _) => d2 | None => dx end)
    (λ a, match res a with Some (_, r, _, _, _) => r | None => a end) 0 d Hl Hs)
    as (mx' & dx' & a & E & H1 & H2 & H3 & H4 & H5 & Hb & Ha & H6).
  - intros a dx1 Hb Ha ->. destruct (packet_frame_fresh (Some cb) 2 (de (set_packet_pts (pts mod 2 ^ 33) dx)) (selected mask f) a d)
      as (d2 & r & E & _); [done|done|done|done|destruct Hs; lia|]. subst res. cbv beta. by rewrite E.
  - destruct (packet_frame_fresh (Some cb) 2 (de (set_packet_pts (pts mod 2 ^ 33) dx)) (selected mask f) a d)
      as (d2 & r & E2 & Hh & _); [done|done|done|done|destruct Hs; lia|].
    assert (res a = Some (d2, r, 0, 0, d)) as E3 by exact E2. rewrite E3 in H6.
    assert (holds (selected mask f) (pts mod 2 ^ 33) dx') as Hh' by (eapply holds_same; [exact Hh|congruence]).
    exists mx', dx'. split; [exact E|]. split; [|done]. split; try done. apply Hh'.
Qed.

(** A packet that completes the frame before it. *)
Lemma link_next mx dx d l0 pts0 f mask pts :
  linked mx dx → sendable mx mask f → holds l0 pts0 dx → (length l0 < 64)%nat → begins_after mask l0 f →
  ∃ mx' dx' rec, vbi_dvb_mux_feed (Some (to_demux cb)) mx f mask None None pts (dx, d) =
      Some (mx', true, (dx', (cb d rec pts0).1)) ∧ Forall2 delivered l0 rec ∧
    linked mx' dx' ∧ holds (selected mask f) (pts mod 2 ^ 33) dx' ∧
    max_packet_size mx' = max_packet_size mx ∧ data_identifier mx' = data_identifier mx.
Proof.
  intros Hl Hs Hh Hl0 (s & l & Esel & Hline). pose proof Hl as [Hmx Hpid Hdx Hroom].
  set (d1 := set_packet_pts (pts mod 2 ^ 33) dx).
  assert (holds l0 pts0 d1) as Hh1 by (eapply holds_same; [exact Hh|done]).
  set (res := λ a, demux_pes_packet_frame (Some cb) 3 (set_frame (set_n_data_units 0 (frame_ d1)) d1) a d).
  set (rec := take (length l0) (lines (frame_ dx))).
  assert (∀ a, bytes a → units_area (selected mask f) a → ∃ dx' r, res a = Some (dx', r, 0, 0, (cb d rec pts0).1) ∧
    holds (selected mask f) (pts mod 2 ^ 33) dx') as Hres.
  { intros a Hb Ha. rewrite Esel in Ha |- *.
    destruct (packet_frame_next (Some cb) cb 1 d1 l0 pts0 s l a d eq_refl Hcb Hb Ha Hh1 Hline Hl0)
      as (dx' & r & E & _ & Hh' & _).
    { pose proof (se_room _ _ _ Hs) as Hr. rewrite Esel in Hr. lia. }
    by exists dx', r. }
  destruct (link_packet cb Hcb mx dx d f mask pts (λ a, match res a with Some (d2, _, _, _, _) => d2 | None => dx end)
    (λ a, match res a with Some (_, r, _, _, _) => r | None => a end) 0 (cb d rec pts0).1 Hl Hs)
    as (mx' & dx' & a & E & H1 & H2 & H3 & H4 & H5 & Hb & Ha & H6).
  - intros a dx1 Hb Ha ->. destruct (Hres a Hb Ha) as (d2 & r & E & _). by rewrite E.
  - destruct (Hres a Hb Ha) as (d2 & r & E2 & Hh'). rewrite E2 in H6.
    assert (holds (selected mask f) (pts mod 2 ^ 33) dx') as Hd' by (eapply holds_same; [exact Hh'|congruence]).
    exists mx', dx', rec. split; [exact E|]. split; [apply Hh|]. split; [|done]. split; try done. apply Hd'.
Qed.

(** Every frame but the last was delivered; the last one is held. *)
Lemma link_frames frames : ∀ mx dx d l0 pts0 mask,
  linked mx dx → holds l0 pts0 dx → (length l0 < 64)%nat →
  Forall (λ f, sendable mx mask f.1) frames →
  chained mask l0 frames →
  ∃ mx' dx' recs, mux_feed_all mx mask frames (dx, d) = Some (mx', (dx', client_gets d recs)) ∧
    Forall2 (λ f r, Forall2 delivered f.1 r.1 ∧ r.2 = f.2)
      (removelast ((l0, pts0) :: map (λ f, (selected mask f.1, f.2 mod 2 ^ 33)) frames)) recs.
Proof.
  induction frames as [|f frames IH]; intros mx dx d l0 pts0 mask Hl Hh Hl0 Hs Hb.
  { exists mx, dx, []. split; [done|constructor]. }
  inversion Hs as [|? ? Hs1 Hs2]; subst. destruct Hb as [Hb Hch].
  destruct (link_next mx dx d l0 pts0 f.1 mask f.2 Hl Hs1 Hh Hl0) as (mx1 & dx1 & rec & E1 & Hrec & Hl1 & Hh1 & Em & Ei);
    [done|].
  destruct (IH mx1 dx1 (cb d rec pts0).1 (selected mask f.1) (f.2 mod 2 ^ 33) mask Hl1 Hh1) as (mx2 & dx2 & recs & E2 & Hrecs).
  - apply Hs1.
  - revert Hs2. apply List.Forall_impl. intros g []. split; try done. by rewrite Em, Ei.
  - done.
  - exists mx2, dx2, ((rec, pts0) :: recs). split; [cbn [mux_feed_all]; rewrite E1; exact E2|].
    change (removelast ((l0, pts0) :: map ?g (f :: frames))) with ((l0, pts0) :: removelast (map g (f :: frames))).
    constructor; [done|]. exact Hrecs.
Qed.
End frames_link.

(** C2: multiplexer and demultiplexer of a transport stream, end to end.  Frames of
    sliced lines, each with its time stamp, are encoded one after the other into PES
    packets and these into TS packets, which a demultiplexer that is in sync takes as
    they come.  If every frame fits into a packet and begins with a line that is not
    behind the last line of the frame before it, then every call succeeds, and the
    client of the demultiplexer is called exactly once for each frame but the last, in
    order: with the lines that were selected, with their numbers, services and data, and
    with the 33 bits of their time stamp. *)
Theorem dvb_ts_roundtrip {D} (cb : D → list vbi_sliced → Z → D * bool) (mx : vbi_dvb_mux) (dx : vbi_dvb_demux) (d : D)
    (mask : Z) (f : list vbi_sliced) (pts : Z) (frames : list (list vbi_sliced * Z)) :
  (∀ d l t, (cb d l t).2 = true) → linked mx dx → new_frame dx = true →
  Forall (λ f, sendable mx mask f.1) ((f, pts) :: frames) → chained mask (selected mask f) frames →
  ∃ mx' dx' recs, mux_feed_all cb mx mask ((f, pts) :: frames) (dx, d) = Some (mx', (dx', client_gets cb d recs)) ∧
    Forall2 (λ f r, Forall2 delivered f.1 r.1 ∧ r.2 = f.2)
      (removelast (map (λ f, (selected mask f.1, f.2 mod 2 ^ 33)) ((f, pts) :: frames))) recs.
Proof.
  intros Hcb Hl Hnew Hs Hch. inversion Hs as [|? ? Hs1 Hs2]; subst. cbn [fst snd] in *.
  destruct (link_first cb Hcb mx dx d f mask pts Hl Hs1 Hnew) as (mx1 & dx1 & E1 & Hl1 & Hh1 & Em & Ei).
  destruct (link_frames cb Hcb frames mx1 dx1 d (selected mask f) (pts mod 2 ^ 33) mask Hl1 Hh1) as (mx2 & dx2 & recs & E2 & Hrecs).
  - apply Hs1.
  - revert Hs2. apply List.Forall_impl. intros g []. split; try done. by rewrite Em, Ei.
  - done.
  - exists mx2, dx2, recs. split; [cbn [mux_feed_all fst snd]; rewrite E1; exact E2|exact Hrecs].
Qed.

Lemma ts_new_room n dx : _vbi_dvb_ts_demux_new n = Some dx → room dx ∧ new_frame dx = true.
Proof.
  intros H. assert (length (lines (frame_ dx)) = 64%nat ∧ new_frame dx = true) as [H1 H2].
  { unfold _vbi_dvb_ts_demux_new in H. destruct (_ || _); [done|]. apply (inj Some) in H. subst dx. split; reflexivity. }
  pose proof (ts_new_ok _ _ H) as [[] _]. by split.
Qed.

Definition witness_frame1 : list vbi_sliced :=
  [Sliced 3 7 (map Z.of_nat (seq 10 56)); Sliced VBI_SLICED_VPS 16 (map Z.of_nat (seq 50 56));
   Sliced VBI_SLICED_CAPTION_625 21 (map Z.of_nat (seq 100 56));
   Sliced VBI_SLICED_WSS_625 23 (map Z.of_nat (seq 0 56)); Sliced 1 320 (map Z.of_nat (seq 150 56));
   Sliced 3 0 (map Z.of_nat (seq 200 56))].
Definition witness_frame2 : list vbi_sliced := [Sliced 1 7 (repeat 1 56); Sliced 1 8 (repeat 2 56)].

Lemma dvb_ts_roundtrip_witness :
  ∃ mx dx mx' dx' recs,
    linked mx dx ∧
    mux_feed_all recorder mx witness_mask [(witness_frame1, 5); (witness_frame2, 2 ^ 33 + 6)] (dx, []) =
      Some (mx', (dx', client_gets recorder [] recs)) ∧
    Forall2 (λ f r, Forall2 delivered f.1 r.1 ∧ r.2 = f.2) [(witness_frame1, 5)] recs.
Proof.
  destruct (ts_mux_new_ok (repeat 0 (Z.to_nat 65508)) 0x21) as (mx & _ & [Hmx _ _] & Ep & Ec & Emax & Eid).
  { rewrite repeat_length, Z2Nat.id; done. }
  { done. }
  destruct (_vbi_dvb_ts_demux_new 0x21) as [d0|] eqn:E0; [|discriminate E0].
  set (dx := ts_set_lookahead 10 (ts_set_sync true d0)).
  assert (linked mx dx) as Hl.
  { split; [exact Hmx|rewrite Ep; reflexivity|rewrite Ep, Ec; exact (ts_new_idle _ 0 _ E0)|exact (proj1 (ts_new_room _ _ E0))]. }
  assert (new_frame dx = true) as Hnew by exact (proj2 (ts_new_room _ _ E0)).
  clearbody dx. clear E0 d0.
  assert (sendable mx witness_mask witness_frame1) as Hs1.
  { split.
    - repeat constructor; vm_compute; congruence.
    - repeat constructor; unfold not_raw; discriminate.
    - cbn; lia.
    - unfold witness_frame1. acceptable_lines.
    - rewrite Emax, Eid. vm_compute. discriminate.
    - vm_compute. lia. }
  assert (sendable mx witness_mask witness_frame2) as Hs2.
  { split.
    - repeat constructor; vm_compute; congruence.
    - repeat constructor; unfold not_raw; discriminate.
    - cbn; lia.
    - unfold witness_frame2. acceptable_lines.
    - rewrite Emax, Eid. vm_compute. discriminate.
    - vm_compute. lia. }
  destruct (dvb_ts_roundtrip recorder mx dx [] witness_mask witness_frame1 5 [(witness_frame2, 2 ^ 33 + 6)])
    as (mx' & dx' & recs & E & H); [reflexivity|exact Hl|exact Hnew| | |].
  - apply List.Forall_cons; [exact Hs1|]. apply List.Forall_cons; [exact Hs2|constructor].
  - split; [|exact I]. exists (Sliced 1 7 (repeat 1 56)), [Sliced 1 8 (repeat 2 56)]. split; [reflexivity|].
    vm_compute. split; [reflexivity|discriminate].
  - exists mx, dx, mx', dx', recs. split; [exact Hl|]. split; [exact E|exact H].
Defined.
